(* ===== verification/_CoqProject ===== *)
-Q . S2P
Prelude.v
Wp.v
DList.v
HashQ.v
Str.v
Time.v
Proc.v
Ids.v
Files.v
FileSteps.v
Sched.v
RoundRobin.v
Mutex.v
Signal.v
Life.v
Console.v
Bitmap.v
PageAlloc.v
Paging.v
Kvmalloc.v
Drive.v
Buffer.v
BufCache.v
Ext2.v
Ext2File.v
Ext2Dir.v
Inode.v
Super.v
Ext2Path.v
Exec.v
ExecExt2.v
Tty.v
Chardev.v
Printk.v
Keyboard.v
Fbcon.v
