(* ===== verification/Prelude.v ===== *)
(** Verification of the core of the Yak kernel (src/sys, C, i386).

    ** What the program is

    Yak is a small Unix-like kernel. Processes run on a priority scheduler and sleep on addresses;
    mutexes, terminals and buffers are built on sleep and wakeup; signals are marked in the process
    table and delivered on the way back to user space. File calls go through a table of
    descriptors, a table of open files and a table of function pointers of the filesystem driver;
    the ext2 driver works on blocks in the buffer cache, which reads and writes them by way of the
    partitions of a drive. Page frames come from bitmaps, address spaces are page tables with copy
    on write, the kernel heap is a list of chunks. Terminals hand text to the virtual console, a
    screen of cells that is drawn on the frame buffer; the keyboard feeds the terminals.

    ** The files of the development

    - Prelude: results of C code (a value, [Panic], [Undef] for what the C standard leaves
      undefined, [NoFuel]), the state monad [M], invariants of programs ([preserves]), record
      update, machine integers and bits, little endian numbers in memory, sums. Wp: total
      correctness of programs by weakest preconditions.
    - DList: rings of doubly linked structures as lists of nodes. HashQ: hash queues of such rings.
    - Str: sys/lib/string.c. Time: sys/lib/posix_time.c and sys/drivers/cmos.c.
    - Proc: the kernel's structures and tables (sys/include/kernel/proc.h, sys/include/fs/fs.h,
      sys/kernel/proc.c), the state [kernel] and the monad [K]; the class [UserSpace] stands for the
      checks of user addresses.
    - Ids: sys/kernel/sys.c. Sched: sys/kernel/schedule.c and the interrupt of sys/drivers/timer.c;
      RoundRobin: runs of it. Mutex: sys/kernel/mutex.c. Signal and the delivery part of Life:
      sys/kernel/signal.c. Life: sys/kernel/proc.c; the class [Arch] stands for the address spaces
      and register contexts of sys/arch/i386.
    - Files: sys/fs/sys1.c, sys/fs/fcntl.c, sys/fs/filesystem.c. The class [FsDriver] is the table of
      function pointers of a driver. FileSteps: the same calls with the steps of other processes
      while the driver sleeps ([FsDriverRely]).
    - PageAlloc: sys/mm/mm_init.c, sys/mm/page_alloc.c. Paging: sys/arch/i386/virtual_mm.c, over the
      interface [FrameAllocator], which PageAlloc implements. Kvmalloc: sys/mm/kvmalloc.c,
      sys/mm/vm_init.c.
    - Drive: sys/drivers/drive.c and the block devices of sys/fs/devio.c. Buffer: sys/fs/buffer.c;
      BufCache: the cache as a map of blocks. Chardev: the character devices of sys/fs/devio.c, and
      sys/fs/memdev.c.
    - Bitmap: bitmaps in memory. Ext2: sys/include/fs/ext2.h, sys/fs/ext2/balloc.c,
      sys/fs/ext2/ialloc.c. Ext2File: sys/fs/ext2/bmap.c, sys/fs/ext2/read_write.c and
      [ext2_itrunc] of sys/fs/ext2/inode.c. Ext2Dir: the blocks of directories (sys/fs/ext2/dir.c, and
      the search and the permissions of sys/fs/ext2/namei.c). Inode: sys/fs/ext2/inode.c. Ext2Path:
      the walk along a path and the calls of sys/fs/ext2/namei.c, open.c, dir.c, symlink.c and stat.c.
      Super: sys/fs/ext2/super.c and attribute.c.
    - Exec: sys/kernel/exec_elf.c, sys/kernel/exec_elf32.c and the part of exec of
      sys/arch/i386/processes.c, over the interface [ExecEnv]; ExecExt2 implements it with the files
      of ext2.
    - Console: sys/drivers/virtual_console.c. Fbcon: sys/drivers/fbcon.c, sys/drivers/psf.c. Tty:
      sys/drivers/tty.c. Printk: sys/kernel/printk.c. Keyboard: sys/drivers/keyboard.c,
      sys/drivers/ps2_kbd.c and their tables.

    A definition has the name of the C function it translates; a loop of a function is a
    Fixpoint of its own, with the name of the function and [_loop] or of what it does. A field
    [f] of a structure keeps its name. A table of structures is a function from indices, a
    pointer into a table its index. An [int] is a [Z] with the wrap-around written out ([u32],
    [s32], [u8] and so on) where it can occur.

    ** What the theorems show

    - Scheduler and mutexes: the run queues stay well formed and hold exactly the runnable
      processes, the highest priority runs, nobody in the highest queue starves; in every
      interleaving a mutex has one owner and no wake-up is lost; [kernel_nice] breaks the queues.
    - Processes: fork, with what its parent gets when it was away, exit, waitpid and the start of the
      system, with the counts of open files; kill and signal; identity calls give an unprivileged
      process no user or group id that it did not have.
    - Files: whatever the other processes do while a driver sleeps, each call keeps the counts of
      the open files, but for a race of open, whose outcome is stated; the lowest free descriptor.
    - Memory: the start of the allocator, the order of its pages; isolation of parent and child
      after fork; the check of user addresses; blocks of the heap apart from each other, and the
      sizes for which they are not.
    - Buffers and drives: the cache refines a map from block numbers to contents; sync writes what
      is dirty; the table of partitions is read back; requests outside of a partition are refused.
    - Ext2: the allocator of blocks refines a set of free blocks; the layout of a file; reads and
      writes of file contents; a directory block refines a list of entries; the inode cache refines
      a map; a path leads to the inode its names lead to; chmod as a whole, and its failure that
      stops the machine; sync and the next start.
    - Exec: the segments and the arguments arrive, and the program reads them back.
    - Output and input: the console refines an abstract screen, which reaches the pixels; terminals
      keep their queues in bounds and deliver texts as a whole; a canonical read returns what the
      editing characters leave; printk delivers the text of its format; the keyboard types what its
      keys say.
    - Memory functions, calendar and clock against reference definitions.

    Where the code does not do what it means to, the theorem states what it does and its name or
    comment says so.

    ** Assumptions and bounds

    - Interrupts come only where the code enables them; an interleaving is a sequence of the steps
      of Mutex.v, of the events of Signal.v or of the file steps of FileSteps.v. The test of
      [mutex_lock] for a corrupted mutex and the disabling of interrupts behind it are one step. A
      process that is switched away inside a call goes on with a definition of its own where the
      rest of the call matters ([resume], [fork_return], [waitpid_resume]).
    - FileSteps assumes that a driver changes descriptors and counts only by what other processes do
      while it sleeps; the theorems of Files.v and the one about exit, that it does not sleep.
    - Input and output of blocks is synchronous, and the caller of [brelse] goes on without a switch.
      The laws of drives ([DriveLaws]) are those of a correct driver; the ATA drivers of the
      repository break them in ways that the findings list. BufCache looks at one device with one
      size of blocks, and starts from a closed ring of free buffers, which [buffer_init] does not
      make.
    - Ext2 is one mounted filesystem. For it the buffer cache never runs out of buffers and writes
      nothing back in between; a view [e_disk], [e_blk], [e_done] stands for it: the disk, the
      contents of the buffers and which of them are read. The locks of inodes and of the superblock
      are left out. The reads of the disk that fail are the class [Device], files that are devices
      the class [DeviceFiles], the opening of a character device [CharDevOpen]; the class [Boot] has
      the results of the allocations and reads at the start. A name is the list of its bytes.
    - Page tables stand in frames, a function from frames to words; of the TLB only the entry of the
      temporary page is modelled. The heap is flat memory.
    - Exec sees one flat memory, in which the pages of the new program replace those of the old;
      the release of the old pages is not part of it.
    - The driver of a terminal is the list of the texts handed to it; what arrives while a read
      sleeps is the list [ts_wakes]. The buffer of [printk] is at an address that is a parameter, as
      is the output of the key F12.
    - Loops without a bound in the code take fuel. It is enough when it exceeds the number of
      iterations, which the theorems state: the parameters of an escape sequence and its tokens for
      the console (more than 16 and the length of the text), [S (S count)] chunks for a read of a
      file, [S count] for a write, 513 for the queues of a terminal ([WRITE_FUEL], [DRAIN_FUEL]), 32
      digits of a numeral ([ITOA_FUEL]), the number of entries of the map of memory ([MMAP_FUEL]), one
      more than the buffers and inodes of the caches for a walk along a ring ([WALK_FUEL],
      [INODE_WALK]), the number of entries of a directory block, the length of a path, the strings
      of an argument table, the process table and the queues for the scheduler. Where a loop of the
      code has no end the theorem says that no fuel is enough.

    ** Not modelled

    Register contexts and kernel stacks of processes; the ATA, PCI, UART, PIT and ACPI drivers and the
    commands to the PS/2 controller at the start, which are sequences of port accesses to hardware;
    the tables and exceptions of the processor; the fixed sequence of the startup; the C library and
    the user programs. *)
From Stdlib Require Export ZArith Lia String Bool.
From stdpp Require Export base tactics list numbers option functions sorting sets gmap.
#[export] Set Default Goal Selector "!".

(** ** Results of C code

    A C function of the kernel either returns, calls [panic], does something the C
    standard leaves undefined (an access outside an object, a null pointer
    dereference), or needs more iterations than the fuel it was given. *)
Inductive outcome (A : Type) : Type :=
  | Ok (a : A)
  | Panic (msg : string)
  | Undef (why : string)
  | NoFuel.
Arguments Ok {A} a.
Arguments Panic {A} msg%_string.
Arguments Undef {A} why%_string.
Arguments NoFuel {A}.

(** State passing with outcomes: the body of a C function whose globals are [S]. *)
Definition M (S A : Type) : Type := S → outcome (A * S).

#[export] Instance M_ret S : MRet (M S) := λ A a s, Ok (a, s).
#[export] Instance M_bind S : MBind (M S) := λ A B f m s,
  match m s with
  | Ok (a, s') => f a s'
  | Panic msg => Panic msg
  | Undef why => Undef why
  | NoFuel => NoFuel
  end.

Definition get {S} : M S S := λ s, Ok (s, s).
Definition gets {S A} (f : S → A) : M S A := λ s, Ok (f s, s).
Definition modify {S} (f : S → S) : M S unit := λ s, Ok (tt, f s).
Definition panic {S A} (msg : string) : M S A := λ _, Panic msg.
Definition undef {S A} (why : string) : M S A := λ _, Undef why.
Definition nofuel {S A} : M S A := λ _, NoFuel.
(** A pointer or index that the C code uses without a check. *)
Definition deref {S A} (o : option A) (why : string) : M S A :=
  match o with Some a => mret a | None => undef why end.
(** A computation that only looks at the state. *)
Definition reads {S A} (f : S → outcome A) : M S A := λ s,
  match f s with Ok a => Ok (a, s) | Panic msg => Panic msg | Undef why => Undef why | NoFuel => NoFuel end.
Definition when {S} (b : bool) (m : M S unit) : M S unit := if b then m else mret tt.

(** A computation on a part of the state. *)
Definition zoom {S T A} (proj : S → T) (put : T → S → S) (m : M T A) : M S A := λ s,
  match m (proj s) with
  | Ok (a, t) => Ok (a, put t s)
  | Panic msg => Panic msg
  | Undef why => Undef why
  | NoFuel => NoFuel
  end.

(** [for (x in l) body] *)
Fixpoint for_each {S A} (l : list A) (body : A → M S unit) : M S unit :=
  match l with
  | [] => mret tt
  | x :: l => body x ;; for_each l body
  end.

Definition is_ok {A} (o : outcome A) : bool := match o with Ok _ => true | _ => false end.

Section monad_laws.
Context {S : Type}.

Lemma bind_ok {A B} (m : M S A) (f : A → M S B) s a s' :
  m s = Ok (a, s') → (m ≫= f) s = f a s'.
Proof. unfold mbind, M_bind. by intros ->. Qed.

Lemma bind_inv {A B} (m : M S A) (f : A → M S B) s r :
  (m ≫= f) s = Ok r → ∃ a s', m s = Ok (a, s') ∧ f a s' = Ok r.
Proof. unfold mbind, M_bind. destruct (m s) as [[a s']| | |]; naive_solver. Qed.

(** Rule for loops over a fixed range: an invariant indexed by what is left to do. *)
Lemma for_each_ok {A} (I : list A → S → Prop) (body : A → M S unit) l s :
  I l s →
  (∀ x l' s, I (x :: l') s → ∃ s', body x s = Ok (tt, s') ∧ I l' s') →
  ∃ s', for_each l body s = Ok (tt, s') ∧ I [] s'.
Proof.
  intros HI Hbody. revert s HI. induction l as [|x l IH]; intros s HI; simpl.
  - by exists s.
  - destruct (Hbody x l s HI) as (s' & Hx & HI').
    rewrite (bind_ok _ _ _ _ _ Hx). by apply IH.
Qed.
Lemma for_each_app {A} (l1 l2 : list A) (body : A → M S unit) s s1 :
  for_each l1 body s = Ok (tt, s1) → for_each (l1 ++ l2) body s = for_each l2 body s1.
Proof.
  revert s. induction l1 as [|x l1 IH]; intros s H; simpl in *; [by injection H as ->|].
  apply bind_inv in H as ([] & s2 & H2 & H). rewrite (bind_ok _ _ _ _ _ H2). by apply IH.
Qed.
(** Rule for [for (i = 0; i < n; i++)]: an invariant indexed by the counter. *)
Lemma for_range_ok (I : nat → S → Prop) (body : nat → M S unit) n s :
  I 0%nat s → (∀ i s, (i < n)%nat → I i s → ∃ s', body i s = Ok (tt, s') ∧ I (Datatypes.S i) s') →
  ∃ s', for_each (seq 0 n) body s = Ok (tt, s') ∧ I n s'.
Proof.
  intros H0 Hb. induction n as [|n IH]; [by exists s|].
  destruct IH as (s1 & R1 & H1); [intros; apply Hb; [lia|done]|].
  destruct (Hb n s1 ltac:(lia) H1) as (s2 & R2 & H2). exists s2. split; [|done].
  rewrite seq_S, (for_each_app _ _ _ _ _ R1). simpl. by rewrite (bind_ok _ _ _ _ _ R2).
Qed.
End monad_laws.

(** ** Invariants of programs

    [preserves P m]: when [m] returns, it has kept [P]. The hints take a program apart. *)
Definition preserves {S A} (P : S → Prop) (m : M S A) : Prop := ∀ s a s', P s → m s = Ok (a, s') → P s'.
Section preserves.
Context {S : Type} (P : S → Prop).
Lemma preserves_ret {A} (a : A) : preserves P (mret a).
Proof. intros s x s' H R. by injection R as <- <-. Qed.
Lemma preserves_bind {A B} (m : M S A) (f : A → M S B) :
  preserves P m → (∀ a, preserves P (f a)) → preserves P (m ≫= f).
Proof. intros Hm Hf s b s' H R. apply bind_inv in R as (a & s1 & R1 & R2). eapply Hf; [|done]. by eapply Hm. Qed.
Lemma preserves_get : preserves P get.
Proof. intros s x s' H R. by injection R as <- <-. Qed.
Lemma preserves_gets {A} (f : S → A) : preserves P (gets f).
Proof. intros s x s' H R. by injection R as <- <-. Qed.
Lemma preserves_modify (f : S → S) : (∀ s, P s → P (f s)) → preserves P (modify f).
Proof. intros Hf s x s' H R. injection R as <- <-. by apply Hf. Qed.
Lemma preserves_undef {A} why : preserves P (@undef S A why).
Proof. by intros s x s' H R. Qed.
Lemma preserves_panic {A} why : preserves P (@panic S A why).
Proof. by intros s x s' H R. Qed.
Lemma preserves_nofuel {A} : preserves P (@nofuel S A).
Proof. by intros s x s' H R. Qed.
Lemma preserves_when b m : preserves P m → preserves P (when b m).
Proof. intros H. destruct b; [done|apply preserves_ret]. Qed.
Lemma preserves_for_each {A} (l : list A) f : (∀ x, preserves P (f x)) → preserves P (for_each l f).
Proof. intros H. induction l as [|x l IH]; [apply preserves_ret|by apply preserves_bind]. Qed.
End preserves.
Create HintDb preserves.
#[export] Hint Resolve preserves_ret preserves_get preserves_gets preserves_undef preserves_panic preserves_nofuel
  preserves_when preserves_for_each : preserves.
(** Every way through a program. *)
Ltac solve_preserves :=
  repeat first [ assumption | solve [eauto with preserves] | apply preserves_bind; [|intros ?]
               | apply preserves_when | apply preserves_for_each; intros ? | case_match ].

(** ** Functional record update

    [r <| f := v |>] is the record [r] with field [f] replaced; [r <| f ::= g |>]
    applies [g] to the field. A record gets it by an [Eta] instance that lists its
    fields once. *)
Class Eta (R : Type) := eta : R → R.
Class Field {R T : Type} (proj : R → T) := upd : (T → T) → R → R.
Arguments upd {R T} proj {_} _ _ : simpl never.
#[export] Hint Mode Field - - ! : typeclass_instances.

Ltac solve_field :=
  lazymatch goal with
  | |- @Field ?R ?T ?proj =>
      let i := constr:(_ : Eta R) in
      let body := eval cbv delta [eta] in (@eta R i) in
      let body := eval red in i in
      let abs := eval pattern proj in body in
      lazymatch abs with
      | ?g _ =>
          let t := constr:(λ (f : T → T), g (λ r, f (proj r))) in
          let t := eval cbv beta in t in
          exact t
      end
  end.
#[export] Hint Extern 1 (Field _) => solve_field : typeclass_instances.

Declare Scope record_scope.
Open Scope record_scope.
Notation "r <| f ::= g |>" := (upd f g r)
  (at level 1, f at level 1, left associativity) : record_scope.
Notation "r <| f := v |>" := (upd f (λ _, v) r)
  (at level 1, f at level 1, left associativity) : record_scope.


(** Evaluate projections of updated records, leaving the updates folded. *)
Ltac rec_simpl_at p f g r :=
  first [ constr_eq p f; change (p (upd f g r)) with (g (p r))
        | change (p (upd f g r)) with (p r) ].
Ltac rec_simpl_goal :=
  repeat match goal with
  | |- context [?p (@upd _ _ ?f _ ?g ?r)] =>
      first [ constr_eq p f; progress change (p (upd f g r)) with (g (p r))
            | progress change (p (upd f g r)) with (p r) ]
  end.
Ltac rec_simpl_hyps :=
  repeat match goal with
  | H : context [?p (@upd _ _ ?f _ ?g ?r)] |- _ =>
      first [ constr_eq p f; progress change (p (upd f g r)) with (g (p r)) in H
            | progress change (p (upd f g r)) with (p r) in H ]
  end.
Ltac rec_simpl := rec_simpl_goal; rec_simpl_hyps; cbv beta in *.

(** [lia] treats division and remainder by constants. *)
#[global] Ltac Zify.zify_post_hook ::= Z.to_euclidean_division_equations.

(** ** Machine integers *)
Open Scope Z_scope.

Definition u8 (x : Z) : Z := x mod 256.
Definition u16 (x : Z) : Z := x mod 65536.
Definition u32 (x : Z) : Z := x mod 4294967296.
(** Two's complement reading of the low bits, as the compiler converts to [int]
    and [char]. *)
Definition s8 (x : Z) : Z := (x + 128) mod 256 - 128.
Definition s32 (x : Z) : Z := (x + 2147483648) mod 4294967296 - 2147483648.

Definition is_u8 (x : Z) : Prop := 0 <= x < 256.
Definition is_u16 (x : Z) : Prop := 0 <= x < 65536.
Definition is_u32 (x : Z) : Prop := 0 <= x < 4294967296.
Definition is_s32 (x : Z) : Prop := -2147483648 <= x < 2147483648.

Lemma u8_range x : is_u8 (u8 x).
Proof. unfold is_u8, u8. lia. Qed.
Lemma u16_range x : is_u16 (u16 x).
Proof. unfold is_u16, u16. lia. Qed.
Lemma u32_range x : is_u32 (u32 x).
Proof. unfold is_u32, u32. lia. Qed.
Lemma s32_range x : is_s32 (s32 x).
Proof. unfold is_s32, s32. lia. Qed.
Lemma u8_id x : is_u8 x → u8 x = x.
Proof. unfold is_u8, u8. lia. Qed.
Lemma u16_id x : is_u16 x → u16 x = x.
Proof. unfold is_u16, u16. lia. Qed.
Lemma u32_id x : is_u32 x → u32 x = x.
Proof. unfold is_u32, u32. lia. Qed.
Lemma s32_id x : is_s32 x → s32 x = x.
Proof. unfold is_s32, s32. lia. Qed.

(** Conversions inside sums can be dropped. *)
Lemma u32_add_l x y : u32 (u32 x + y) = u32 (x + y).
Proof. apply Zplus_mod_idemp_l. Qed.
Lemma u32_sub_l x y : u32 (u32 x - y) = u32 (x - y).
Proof. apply Zminus_mod_idemp_l. Qed.

Create HintDb yak.
Create Rewrite HintDb yak.
#[export] Hint Resolve u8_range u32_range s32_range : yak.
#[export] Hint Rewrite u8_id u32_id s32_id using (unfold is_u8, is_u32, is_s32 in *; lia) : yak.

(** ** Single bits of an integer, the way C tests, sets and clears them *)
Definition bit_of (k : Z) : Z := Z.shiftl 1 k.
Definition bit_test (x k : Z) : bool := negb (Z.land x (bit_of k) =? 0).
Definition bit_set (x k : Z) : Z := Z.lor x (bit_of k).
Definition bit_clear (x k : Z) : Z := Z.land x (Z.lnot (bit_of k)).

Lemma bit_of_spec k i : 0 <= k → 0 <= i → Z.testbit (bit_of k) i = bool_decide (i = k).
Proof.
  intros. unfold bit_of. rewrite Z.shiftl_spec by done. case_bool_decide.
  - subst. by rewrite Z.sub_diag.
  - destruct (decide (i < k)).
    + by rewrite Z.testbit_neg_r by lia.
    + apply Z.bits_above_log2; simpl; lia.
Qed.

Lemma bit_test_spec x k : 0 <= k → bit_test x k = Z.testbit x k.
Proof.
  intros Hk. unfold bit_test. destruct (Z.testbit x k) eqn:Hx.
  - apply negb_true_iff, Z.eqb_neq. intros Hz.
    assert (Z.testbit (Z.land x (bit_of k)) k = true) as Hb.
    { rewrite Z.land_spec, Hx, bit_of_spec by done. by rewrite bool_decide_eq_true_2. }
    rewrite Hz, Z.bits_0 in Hb. done.
  - apply negb_false_iff, Z.eqb_eq. apply Z.bits_inj_iff'. intros i Hi.
    rewrite Z.land_spec, bit_of_spec, Z.bits_0 by done.
    case_bool_decide; subst; [by rewrite Hx | by rewrite andb_false_r].
Qed.

Lemma bit_set_spec x k i : 0 <= k → 0 <= i →
  Z.testbit (bit_set x k) i = (bool_decide (i = k) || Z.testbit x i)%bool.
Proof. intros. unfold bit_set. rewrite Z.lor_spec, bit_of_spec by done. apply orb_comm. Qed.

Lemma bit_clear_spec x k i : 0 <= k → 0 <= i →
  Z.testbit (bit_clear x k) i = (negb (bool_decide (i = k)) && Z.testbit x i)%bool.
Proof.
  intros. unfold bit_clear. rewrite Z.land_spec, Z.lnot_spec, bit_of_spec by done.
  apply andb_comm.
Qed.

Lemma bits_lt x n : 0 <= x → 0 <= n →
  (∀ i, n <= i → Z.testbit x i = false) → x < 2 ^ n.
Proof.
  intros Hx Hn Hi. destruct (decide (x < 2 ^ n)) as [|Hge]; [done|exfalso].
  assert (0 < 2 ^ n) by lia.
  assert (n <= Z.log2 x) by (apply Z.log2_le_pow2; lia).
  specialize (Hi (Z.log2 x) ltac:(done)). rewrite Z.bit_log2 in Hi by lia. done.
Qed.

Lemma testbit_high x n i : 0 <= x < 2 ^ n → n <= i → Z.testbit x i = false.
Proof.
  intros. destruct (decide (x = 0)) as [->|]; [apply Z.bits_0|].
  apply Z.bits_above_log2; [lia|]. apply Z.log2_lt_pow2; [lia|].
  eapply Z.lt_le_trans; [apply H|]. apply Z.pow_le_mono_r; lia.
Qed.

Lemma bit_set_u8 x k : is_u8 x → 0 <= k < 8 → is_u8 (bit_set x k).
Proof.
  unfold is_u8. intros Hx Hk. change 256 with (2 ^ 8).
  assert (0 <= bit_set x k).
  { apply Z.lor_nonneg. split; [lia|]. apply Z.shiftl_nonneg. lia. }
  split; [done|]. apply bits_lt; [done|lia|]. intros i Hi.
  rewrite bit_set_spec, (testbit_high x 8) by (simpl; lia).
  by rewrite bool_decide_eq_false_2 by lia.
Qed.

Lemma bit_clear_u8 x k : is_u8 x → 0 <= k < 8 → is_u8 (bit_clear x k).
Proof.
  unfold is_u8. intros Hx Hk. change 256 with (2 ^ 8).
  assert (0 <= bit_clear x k) by (apply Z.land_nonneg; lia).
  split; [done|]. apply bits_lt; [done|lia|]. intros i Hi.
  rewrite bit_clear_spec, (testbit_high x 8) by (simpl; lia). by rewrite andb_false_r.
Qed.
#[export] Hint Resolve bit_set_u8 bit_clear_u8 : yak.

(** ** Generic list facts *)
Lemma seq_elem n m k : k ∈ seq n m ↔ (n ≤ k < n + m)%nat.
Proof. rewrite list_elem_of_In, in_seq. done. Qed.

Lemma elem_ne_l {A} (l : list A) a b : a ∈ l → b ∉ l → a ≠ b.
Proof. intros ?? ->. done. Qed.

Lemma existsb_ext_in {A} (f g : A → bool) l :
  (∀ x, x ∈ l → f x = g x) → existsb f l = existsb g l.
Proof.
  induction l as [|x l IH]; intros H; simpl; [done|].
  rewrite H by (by left). f_equal. apply IH. intros. apply H. by right.
Qed.

(** A bounded quantifier that is decided by evaluation. *)
Lemma forall_range (P : Z → bool) a n :
  forallb (λ i, P (Z.of_nat i)) (seq (Z.to_nat a) (Z.to_nat n)) = true → 0 <= a → ∀ z, a <= z < a + n → P z = true.
Proof.
  intros H Ha z Hz. rewrite forallb_forall in H. specialize (H (Z.to_nat z)).
  rewrite Z2Nat.id in H by lia. apply H, in_seq. lia.
Qed.

(** ** Sums over a range *)
Fixpoint zsum (f : nat → Z) (l : list nat) : Z :=
  match l with [] => 0 | x :: l => f x + zsum f l end.

Lemma zsum_ext f g l : (∀ x, x ∈ l → f x = g x) → zsum f l = zsum g l.
Proof.
  induction l as [|x l IH]; intros H; simpl; [done|].
  rewrite H by (by left). f_equal. apply IH. intros. apply H. by right.
Qed.
Lemma zsum_app f l1 l2 : zsum f (l1 ++ l2) = zsum f l1 + zsum f l2.
Proof. induction l1; simpl; lia. Qed.
Lemma zsum_add f g l : zsum (λ x, f x + g x) l = zsum f l + zsum g l.
Proof. induction l; simpl; lia. Qed.
Lemma zsum_0 f l : (∀ x, x ∈ l → f x = 0) → zsum f l = 0.
Proof.
  induction l as [|x l IH]; intros H; simpl; [done|].
  rewrite H by (by left). rewrite IH; [done|]. intros. apply H. by right.
Qed.
Lemma zsum_nonneg f l : (∀ x, x ∈ l → 0 <= f x) → 0 <= zsum f l.
Proof.
  induction l as [|x l IH]; intros H; simpl; [done|].
  specialize (IH ltac:(intros; apply H; by right)). specialize (H x ltac:(by left)). lia.
Qed.
(** Changing one term. *)
Lemma zsum_update f g l i : NoDup l → i ∈ l → (∀ x, x ≠ i → g x = f x) →
  zsum g l = zsum f l + (g i - f i).
Proof.
  intros Hnd Hi Hne. induction Hnd as [|x l Hx Hnd IH]; [by apply elem_of_nil in Hi|]. simpl.
  apply elem_of_cons in Hi as [->|Hi].
  - rewrite (zsum_ext g f l); [lia|]. intros y Hy. apply Hne. by intros ->.
  - rewrite IH by done. rewrite Hne; [lia|]. by intros ->.
Qed.
Lemma zsum_pos f l i : i ∈ l → (∀ x, x ∈ l → 0 <= f x) → f i <= zsum f l.
Proof.
  induction l as [|x l IH]; intros Hi H; [by apply elem_of_nil in Hi|]. simpl.
  assert (0 <= f x) by (apply H; by left).
  assert (0 <= zsum f l) by (apply zsum_nonneg; intros; apply H; by right).
  apply elem_of_cons in Hi as [->|Hi]; [lia|].
  specialize (IH Hi ltac:(intros; apply H; by right)). lia.
Qed.

Lemma zsum_bound f l c : (∀ x, x ∈ l → 0 <= f x <= c) → 0 <= zsum f l <= Z.of_nat (length l) * c.
Proof.
  induction l as [|x l IH]; intros H; simpl length; simpl zsum; [lia|].
  specialize (IH ltac:(intros; apply H; by right)). specialize (H x ltac:(by left)). lia.
Qed.

Lemma fn_insert_eq `{EqDecision A} {B} (f : A → B) a b : <[a:=b]> f a = b.
Proof. apply fn_lookup_insert. Qed.
Lemma fn_insert_ne `{EqDecision A} {B} (f : A → B) a a' b : a ≠ a' → <[a:=b]> f a' = f a'.
Proof. apply fn_lookup_insert_ne. Qed.
#[export] Hint Rewrite @fn_insert_eq : yak.
#[export] Hint Rewrite @fn_insert_ne using done : yak.

(** ** Little endian integers in a memory of bytes, at any address *)
Definition le16 (m : Z → Z) (a : Z) : Z := m a + 256 * m (a + 1).
Definition le32 (m : Z → Z) (a : Z) : Z := le16 m a + 65536 * le16 m (a + 2).
Definition put_le16 (a v : Z) (m : Z → Z) : Z → Z := <[a := v mod 256]> (<[a + 1 := v / 256]> m).
Definition put_le32 (a v : Z) (m : Z → Z) : Z → Z := put_le16 a (v mod 65536) (put_le16 (a + 2) (v / 65536) m).

Lemma le16_put_eq a v m : is_u16 v → le16 (put_le16 a v m) a = v.
Proof.
  intros Hv. unfold is_u16 in Hv. unfold le16, put_le16. rewrite fn_insert_eq, fn_insert_ne, fn_insert_eq by lia. lia.
Qed.
Lemma le16_put_ne a b v m : b + 1 < a ∨ a + 1 < b → le16 (put_le16 b v m) a = le16 m a.
Proof. intros Hab. unfold le16, put_le16. by rewrite !fn_insert_ne by lia. Qed.
Lemma le16_at m m' a b : (∀ i, 0 <= i < 2 → m' (b + i) = m (a + i)) → le16 m' b = le16 m a.
Proof. intros H. unfold le16. rewrite (H 1) by lia. pose proof (H 0 ltac:(lia)) as H0. rewrite !Z.add_0_r in H0. by rewrite H0. Qed.
Lemma le32_at m m' a b : (∀ i, 0 <= i < 4 → m' (b + i) = m (a + i)) → le32 m' b = le32 m a.
Proof.
  intros H. unfold le32. rewrite (le16_at m m' a b), (le16_at m m' (a + 2) (b + 2)); [done| |].
  - intros i Hi. rewrite <-!Z.add_assoc. apply H. lia.
  - intros i Hi. apply H. lia.
Qed.
Lemma le32_same m m' a : (∀ b, a <= b < a + 4 → m' b = m b) → le32 m' a = le32 m a.
Proof. intros H. apply le32_at. intros i Hi. apply H. lia. Qed.
Lemma put_le32_ne a v m x : x < a ∨ a + 4 <= x → put_le32 a v m x = m x.
Proof. intros Hx. unfold put_le32, put_le16. by rewrite !fn_insert_ne by lia. Qed.
Lemma le32_put_eq a v m : is_u32 v → le32 (put_le32 a v m) a = v.
Proof.
  intros Hv. unfold is_u32 in Hv. unfold le32, put_le32.
  rewrite (le16_put_ne (a + 2)) by lia. rewrite !le16_put_eq by (unfold is_u16; lia). lia.
Qed.
Lemma le32_put_ne a b v m : b + 3 < a ∨ a + 3 < b → le32 (put_le32 b v m) a = le32 m a.
Proof. intros Hab. unfold le32, put_le32. by rewrite !le16_put_ne by lia. Qed.
Lemma le32_put16_ne a b v m : b + 1 < a ∨ a + 3 < b → le32 (put_le16 b v m) a = le32 m a.
Proof. intros Hab. unfold le32. by rewrite !le16_put_ne by lia. Qed.
