(* ===== verification/Wp.v ===== *)
(** Total correctness of programs: [wp m Q s] says that [m] returns from [s], with a result and a
    state that satisfy [Q]. The rules follow the structure of a program. *)
From S2P Require Import Prelude.

Definition wp {S A} (m : M S A) (Q : A → S → Prop) (s : S) : Prop := ∃ a s', m s = Ok (a, s') ∧ Q a s'.

Section wp.
Context {S : Type}.
Implicit Types s : S.

Lemma wp_mono {A} (m : M S A) (P Q : A → S → Prop) s : wp m P s → (∀ a s', P a s' → Q a s') → wp m Q s.
Proof. intros (a & s' & R & HP) H. exists a, s'. auto. Qed.
Lemma wp_ret {A} (a : A) Q s : Q a s → wp (mret a) Q s.
Proof. intros H. by exists a, s. Qed.
Lemma wp_bind {A B} (m : M S A) (k : A → M S B) Q s : wp m (λ a s', wp (k a) Q s') s → wp (m ≫= k) Q s.
Proof. intros (a & s' & R & b & s2 & R2 & HQ). exists b, s2. split; [by rewrite (bind_ok _ _ _ _ _ R)|done]. Qed.
Lemma wp_get Q s : Q s s → wp get Q s.
Proof. intros H. by exists s, s. Qed.
Lemma wp_gets {A} (f : S → A) Q s : Q (f s) s → wp (gets f) Q s.
Proof. intros H. by exists (f s), s. Qed.
Lemma wp_modify (f : S → S) Q s : Q tt (f s) → wp (modify f) Q s.
Proof. intros H. by exists tt, (f s). Qed.
Lemma wp_when (b : bool) (m : M S unit) Q s : (b = true → wp m Q s) → (b = false → Q tt s) → wp (when b m) Q s.
Proof. intros H1 H2. destruct b; [by apply H1|]. apply wp_ret. auto. Qed.
(** A result that is known. *)
Lemma wp_run {A} (m : M S A) Q s a s' : m s = Ok (a, s') → Q a s' → wp m Q s.
Proof. intros R H. by exists a, s'. Qed.
Lemma wp_zoom {T A} (proj : S → T) (put : T → S → S) (m : M T A) Q s :
  wp m (λ a t, Q a (put t s)) (proj s) → wp (zoom proj put m) Q s.
Proof. intros (a & t & R & H). exists a, (put t s). split; [|done]. unfold zoom. by rewrite R. Qed.

(** [for (k = 0; k < n; k++)] *)
Lemma wp_for_range (I : Z → S → Prop) (body : Z → M S unit) n s Q : I 0 s →
  (∀ k s, 0 <= k < Z.of_nat n → I k s → wp (body k) (λ _ s', I (k + 1) s') s) →
  (∀ s, I (Z.of_nat n) s → Q tt s) → wp (for_each (Z.of_nat <$> seq 0 n) body) Q s.
Proof.
  intros H0 Hb HQ.
  assert (∀ m j s, I (Z.of_nat j) s → (j + m = n)%nat → wp (for_each (Z.of_nat <$> seq j m) body) Q s) as H; [|by apply H].
  induction m as [|m IH]; intros j s1 HI Hj; cbn.
  - apply wp_ret, HQ. by replace n with j by lia.
  - apply wp_bind. eapply wp_mono; [apply Hb; [lia|done]|]. intros [] s2 HI2. apply IH; [|lia].
    by replace (Z.of_nat (Datatypes.S j)) with (Z.of_nat j + 1) by lia.
Qed.
End wp.
(** One rule, by the first call of the program; [wp_call L] uses the specification [L] of it. *)
Ltac wp_step := lazymatch goal with
  | |- wp (_ ≫= _) _ _ => apply wp_bind
  | |- wp (mret _) _ _ => apply wp_ret
  | |- wp get _ _ => apply wp_get
  | |- wp (gets _) _ _ => apply wp_gets
  | |- wp (modify _) _ _ => apply wp_modify
  end.
Tactic Notation "wp_call" uconstr(L) := repeat apply wp_bind; eapply wp_mono; [apply L|].
