(* ===== verification/DList.v ===== *)
(** Circular doubly linked lists.

    The process queues (sys/kernel/schedule.c), the buffer and inode hash queues and
    the two free lists (sys/fs/buffer.c, sys/fs/ext2/inode.c) are all rings of
    structures linked by a [next] and a [prev] pointer; a free list is a ring through
    a dummy head. This file describes a ring by the list of its nodes, in order from
    the head, and proves what linking a node at the tail and unlinking a node do to
    that list. Pointers are values of a type with decidable equality, the null pointer
    is [None], and the two pointer fields are functions from nodes. *)
From S2P Require Import Prelude.

Section ring.
Context {A : Type} `{EqDecision A}.
Implicit Types (nxt prv : A → option A) (x y z h e n p : A) (l : list A).

(** [x], the nodes of [l] and [y] are linked one after the other. *)
Fixpoint links nxt prv x l y : Prop :=
  match l with
  | [] => nxt x = Some y ∧ prv y = Some x
  | z :: l' => nxt x = Some z ∧ prv z = Some x ∧ links nxt prv z l' y
  end.

Definition ring nxt prv l : Prop :=
  match l with [] => True | h :: t => links nxt prv h t h end.

Lemma links_app nxt prv x l1 z l2 y :
  links nxt prv x (l1 ++ z :: l2) y ↔ links nxt prv x l1 z ∧ links nxt prv z l2 y.
Proof. revert x. induction l1 as [|a l1 IH]; intros x; simpl; [|rewrite IH]; tauto. Qed.

Lemma links_frame nxt prv nxt' prv' x l y :
  links nxt prv x l y →
  (∀ a, a = x ∨ a ∈ l → nxt' a = nxt a) → (∀ a, a = y ∨ a ∈ l → prv' a = prv a) →
  links nxt' prv' x l y.
Proof.
  revert x. induction l as [|z l IH]; intros x Hl Hn Hp; simpl in *.
  - by rewrite Hn, Hp by auto.
  - destruct Hl as (H1 & H2 & H3).
    split; [rewrite Hn by auto; done|]. split; [rewrite Hp by set_solver; done|].
    apply IH; [done| |]; intros a Ha; [apply Hn|apply Hp]; set_solver.
Qed.

Lemma ring_frame nxt prv nxt' prv' l :
  ring nxt prv l → (∀ a, a ∈ l → nxt' a = nxt a) → (∀ a, a ∈ l → prv' a = prv a) →
  ring nxt' prv' l.
Proof.
  destruct l as [|h t]; [done|]. simpl. intros Hr Hn Hp.
  eapply links_frame; [done| |]; intros a Ha; [apply Hn|apply Hp]; set_solver.
Qed.

(** A ring can be read from any of its nodes. *)
Lemma ring_rotate nxt prv l1 l2 : ring nxt prv (l1 ++ l2) → ring nxt prv (l2 ++ l1).
Proof.
  destruct l1 as [|a l1], l2 as [|b l2]; simpl; rewrite ?app_nil_r; try done.
  rewrite !links_app. tauto.
Qed.

Lemma ring_lookup nxt prv l x :
  ring nxt prv l → x ∈ l → ∃ n p, nxt x = Some n ∧ prv x = Some p ∧ n ∈ l ∧ p ∈ l.
Proof.
  intros Hr (l1 & l2 & ->)%list_elem_of_split. apply ring_rotate in Hr.
  assert (∃ n p, nxt x = Some n ∧ prv x = Some p ∧
            n ∈ (x :: l2) ++ l1 ∧ p ∈ (x :: l2) ++ l1) as (n & p & ? & ? & ? & ?).
  { simpl in *. generalize dependent (l2 ++ l1). clear. intros m Hm.
    destruct m as [|n m]; simpl in Hm; [exists x, x; set_solver|].
    destruct Hm as (Hn & _ & Hm). exists n.
    destruct m as [|p m _] using rev_ind; [exists n; set_solver|].
    rewrite links_app in Hm. exists p. set_solver. }
  exists n, p. set_solver.
Qed.

(** Link [n] between the last node [e] and the head [h]. *)
Lemma ring_insert_tail nxt prv nxt' prv' h t e n :
  ring nxt prv (h :: t) → NoDup (h :: t) → n ∉ h :: t → last (h :: t) = Some e →
  nxt' n = Some h → prv' n = Some e → nxt' e = Some n → prv' h = Some n →
  (∀ a, a ≠ n → a ≠ e → nxt' a = nxt a) → (∀ a, a ≠ n → a ≠ h → prv' a = prv a) →
  ring nxt' prv' ((h :: t) ++ [n]).
Proof.
  intros Hr Hnd Hn Hlast Hnn Hpn Hne Hph Hnf Hpf. simpl in *.
  destruct t as [|e' t _] using rev_ind.
  - simpl in *. injection Hlast as ->. done.
  - rewrite app_comm_cons, last_snoc in Hlast. injection Hlast as ->.
    apply links_app in Hr as [Hr _]. rewrite <- app_assoc. simpl.
    apply links_app. split; [|by repeat split].
    apply NoDup_cons in Hnd as [Hh Hnd]. apply NoDup_app in Hnd as (_ & Het & _).
    eapply links_frame; [done| |]; intros a Ha; [apply Hnf|apply Hpf]; set_solver.
Qed.

(** Unlink the head [x]: its two neighbours become adjacent. *)
Lemma ring_remove_head nxt prv nxt' prv' x m n p :
  ring nxt prv (x :: m) → NoDup (x :: m) → m ≠ [] →
  nxt x = Some n → prv x = Some p →
  (∀ a, a ≠ x → nxt' a = if decide (a = p) then Some n else nxt a) →
  (∀ a, a ≠ x → prv' a = if decide (a = n) then Some p else prv a) →
  ring nxt' prv' m.
Proof.
  intros Hr Hnd Hm Hnx Hpx Hn' Hp'. destruct m as [|n' m]; [done|]. simpl in *.
  destruct Hr as (Hn1 & Hp1 & Hr). rewrite Hnx in Hn1. injection Hn1 as <-.
  apply NoDup_cons in Hnd as [Hx Hnd].
  destruct m as [|p' m _] using rev_ind; simpl in Hr.
  - destruct Hr as (Hr1 & Hr2). rewrite Hpx in Hr2. injection Hr2 as ->. simpl.
    rewrite Hn', Hp', !decide_True by (done || set_solver). done.
  - apply links_app in Hr as [Hr (Hr1 & Hr2)]. rewrite Hpx in Hr2. injection Hr2 as ->.
    apply NoDup_cons in Hnd as [Hnm Hnd]. apply NoDup_app in Hnd as (_ & Hpm & _).
    simpl. apply links_app. split.
    + eapply links_frame; [done| |]; intros a Ha.
      * rewrite Hn', decide_False by set_solver. done.
      * rewrite Hp', decide_False by set_solver. done.
    + simpl. rewrite Hn', Hp', !decide_True by (done || set_solver). done.
Qed.

(** Unlink any node: the ring is then read from the node that followed it. *)
Lemma ring_remove nxt prv nxt' prv' l1 x l2 n p :
  ring nxt prv (l1 ++ x :: l2) → NoDup (l1 ++ x :: l2) → l2 ++ l1 ≠ [] →
  nxt x = Some n → prv x = Some p →
  (∀ a, a ≠ x → nxt' a = if decide (a = p) then Some n else nxt a) →
  (∀ a, a ≠ x → prv' a = if decide (a = n) then Some p else prv a) →
  ring nxt' prv' (l2 ++ l1) ∧ head (l2 ++ l1) = Some n.
Proof.
  intros Hr Hnd Hne Hn Hp Hn' Hp'. apply ring_rotate in Hr. simpl in Hr. split.
  - eapply ring_remove_head; [exact Hr| | | | | |]; try done.
    by rewrite (comm (++) l2), Permutation_middle.
  - destruct (l2 ++ l1) as [|n' m]; [done|]. simpl in *. destruct Hr as [Hr _].
    by rewrite Hn in Hr.
Qed.

(** A ring is a single node exactly when its node points to itself. *)
Lemma ring_singleton nxt prv l x :
  ring nxt prv l → NoDup l → x ∈ l → nxt x = Some x → l = [x].
Proof.
  intros Hr Hnd (l1 & l2 & ->)%list_elem_of_split Hx.
  apply ring_rotate in Hr. simpl in Hr.
  destruct (l2 ++ l1) as [|n m] eqn:E.
  - apply app_eq_nil in E as [-> ->]. done.
  - simpl in Hr. destruct Hr as [Hr _]. rewrite Hx in Hr. injection Hr as ->.
    assert (n ∈ l2 ++ l1) by (rewrite E; set_solver).
    apply NoDup_app in Hnd as (_ & H1 & H2). apply NoDup_cons in H2. set_solver.
Qed.

(** ** Walking a ring *)

(** [for (p = h; p->next != stop; p = p->next);] *)
Fixpoint find_last (fuel : nat) nxt stop p : outcome A :=
  match fuel with
  | O => NoFuel
  | S fuel =>
      match nxt p with
      | None => Undef "null next pointer followed"
      | Some n => if decide (n = stop) then Ok p else find_last fuel nxt stop n
      end
  end.

Lemma find_last_links fuel nxt prv x t h :
  links nxt prv x t h → h ∉ t → (length t < fuel)%nat →
  find_last fuel nxt h x = Ok (default x (last t)).
Proof.
  revert fuel x. induction t as [|z t IH]; intros [|fuel] x Hl Hh Hf; simpl in *; try lia.
  - destruct Hl as [-> _]. by rewrite decide_True.
  - destruct Hl as (-> & _ & Hl). rewrite decide_False by set_solver.
    rewrite (IH fuel z Hl) by (set_solver || lia).
    rewrite last_cons. by destruct (last t).
Qed.

Lemma find_last_ring fuel nxt prv h t :
  ring nxt prv (h :: t) → NoDup (h :: t) → (length t < fuel)%nat →
  find_last fuel nxt h h = Ok (default h (last t)).
Proof. intros Hr Hnd%NoDup_cons Hf. eapply find_last_links; [exact Hr|tauto|done]. Qed.

Lemma last_cons_default h t : last (h :: t) = Some (default h (last t)).
Proof. rewrite last_cons. by destruct (last t). Qed.

(** [do { if (test(p)) return p; p = p->next; } while (p != stop); return NULL;] *)
Fixpoint ring_search (fuel : nat) nxt (test : A → bool) stop p : outcome (option A) :=
  match fuel with
  | O => NoFuel
  | S fuel =>
      if test p then Ok (Some p)
      else match nxt p with
           | None => Undef "null next pointer followed"
           | Some n => if decide (n = stop) then Ok None
                       else ring_search fuel nxt test stop n
           end
  end.

Lemma ring_search_ext fuel nxt test test' stop p : (∀ a, test a = test' a) →
  ring_search fuel nxt test stop p = ring_search fuel nxt test' stop p.
Proof.
  intros Ht. revert p. induction fuel as [|fuel IH]; intros p; [done|]. simpl. rewrite Ht.
  destruct (test' p), (nxt p); try done. by rewrite IH.
Qed.

Definition first_match (test : A → bool) l : option A := head (filter (λ a, test a) l).

Lemma first_match_Some test l a : first_match test l = Some a → a ∈ l ∧ test a = true.
Proof.
  unfold first_match. intros Ha%head_Some_elem_of. apply list_elem_of_filter in Ha.
  destruct Ha. split; [done|]. by apply Is_true_eq_true.
Qed.

Lemma first_match_None test l : first_match test l = None → ∀ a, a ∈ l → test a = false.
Proof.
  unfold first_match. intros Ha%head_None a Hin. apply not_true_is_false. intros Ht.
  assert (a ∈ filter (λ a, test a) l) as Hf.
  { apply list_elem_of_filter. split; [by apply Is_true_eq_left|done]. }
  rewrite Ha in Hf. set_solver.
Qed.

Lemma first_match_ext test test' l : (∀ a, a ∈ l → test a = test' a) → first_match test l = first_match test' l.
Proof.
  unfold first_match. induction l as [|x l IH]; intros H; [done|]. rewrite !filter_cons, <-(H x) by set_solver.
  destruct (test x); simpl; [done|]. apply IH. set_solver.
Qed.
Lemma first_match_skip test l1 p l2 : test p = false → first_match test (l1 ++ p :: l2) = first_match test (l1 ++ l2).
Proof. intros Hp. unfold first_match. by rewrite !filter_app, filter_cons, Hp. Qed.
Lemma first_match_snoc test l p : first_match test l = None → test p = true → first_match test (l ++ [p]) = Some p.
Proof.
  unfold first_match. intros Hl%head_None Hp. by rewrite filter_app, Hl, filter_cons, Hp.
Qed.

Lemma ring_search_links fuel nxt prv test x t h :
  links nxt prv x t h → h ∉ t → (length t < fuel)%nat →
  ring_search fuel nxt test h x = Ok (first_match test (x :: t)).
Proof.
  revert fuel x. induction t as [|z t IH]; intros [|fuel] x Hl Hh Hf; simpl in *; try lia.
  - destruct Hl as [-> _]. unfold first_match. rewrite filter_cons.
    destruct (test x); simpl; [done|]. by rewrite decide_True.
  - destruct Hl as (-> & _ & Hl). unfold first_match. rewrite filter_cons.
    destruct (test x); simpl; [done|]. rewrite decide_False by set_solver.
    rewrite (IH fuel z Hl) by (set_solver || lia). done.
Qed.

Lemma ring_search_ring fuel nxt prv test h t :
  ring nxt prv (h :: t) → NoDup (h :: t) → (length t < fuel)%nat →
  ring_search fuel nxt test h h = Ok (first_match test (h :: t)).
Proof. intros Hr Hnd%NoDup_cons Hf. eapply ring_search_links; [exact Hr|tauto|done]. Qed.
End ring.

#[global] Arguments find_last : simpl never.
#[global] Arguments ring_search : simpl never.
