(* ===== verification/HashQ.v ===== *)
(** Hash queues: disjoint rings of structures, entered at the nodes a table of heads points to. The
    buffer cache (sys/fs/buffer.c) and the inode cache (sys/fs/ext2/inode.c) both find their structures
    this way, by a device and a number. *)
From S2P Require Import Prelude DList.

(** The links of the nodes, the heads, and what a node is found by. *)
Record hashq (A : Type) := HQ {
  hq_next : A → option A; hq_prev : A → option A; hq_heads : Z → option A; hq_key : A → Z * Z
}.
Arguments HQ {A}. Arguments hq_next {A}. Arguments hq_prev {A}. Arguments hq_heads {A}. Arguments hq_key {A}.

Section hash.
Context {A : Type} `{EqDecision A} (ok : A → Prop) (bound : nat) (hash : Z * Z → Z).
Context (Hbound : ∀ l, NoDup l → Forall ok l → (length l <= bound)%nat).
Implicit Types (q : hashq A) (p t e : A) (k : Z * Z) (qs : list (list A)).

Record hq_inv q qs : Prop := {
  hi_ring r : r ∈ qs → ring (hq_next q) (hq_prev q) r;
  hi_nodup : NoDup (mjoin qs);
  hi_ok : Forall ok (mjoin qs);
  hi_out p : ok p → p ∉ mjoin qs → hq_next q p = None ∧ hq_prev q p = None;
  hi_head h p : hq_heads q h = Some p → p ∈ mjoin qs
}.
Lemma hq_ext q q' qs : hq_inv q qs → (∀ p, hq_next q' p = hq_next q p) → (∀ p, hq_prev q' p = hq_prev q p) →
  (∀ h, hq_heads q' h = hq_heads q h) → hq_inv q' qs.
Proof.
  intros [H1 H2 H3 H4 H5] Hn Hp Hh. split; [intros r Hr; eapply ring_frame; [by apply H1|done|done]|done|done| |].
  - intros p. rewrite Hn, Hp. apply H4.
  - intros h p. rewrite Hh. apply H5.
Qed.
Lemma hq_perm q qs qs' : qs ≡ₚ qs' → hq_inv q qs → hq_inv q qs'.
Proof.
  intros E [H1 H2 H3 H4 H5]. split.
  - intros r. rewrite <-E. apply H1.
  - by rewrite <-E.
  - by rewrite <-E.
  - intros p. rewrite <-E. apply H4.
  - intros h p. rewrite <-E. apply H5.
Qed.
Lemma hq_elem q qs p : hq_inv q qs → p ∈ mjoin qs → ok p.
Proof. intros H Hp. pose proof (hi_ok _ _ H) as Hb. rewrite Forall_forall in Hb. by apply Hb. Qed.
Lemma hq_split q qs t : hq_inv q qs → t ∈ mjoin qs → ∃ l1 l2 qs', qs ≡ₚ (l1 ++ t :: l2) :: qs'.
Proof.
  intros H (r & Htr & Hr)%list_elem_of_join. apply elem_of_Permutation in Hr as [qs' Hr].
  apply list_elem_of_split in Htr as (l1 & l2 & ->). by exists l1, l2, qs'.
Qed.
Lemma rotate_perm l1 t l2 : t :: l2 ++ l1 ≡ₚ l1 ++ t :: l2.
Proof. rewrite (comm (++) l2). apply Permutation_middle. Qed.
(** A queue, read from any of its nodes. *)
Lemma hq_queue q l1 t l2 qs : hq_inv q ((l1 ++ t :: l2) :: qs) →
  ring (hq_next q) (hq_prev q) (t :: l2 ++ l1) ∧ NoDup (t :: l2 ++ l1) ∧ Forall ok (t :: l2 ++ l1).
Proof.
  intros [H1 H2 H3 _ _]. simpl in H2, H3. apply NoDup_app in H2 as (H2 & _). apply Forall_app in H3 as [H3 _].
  split; [|by rewrite rotate_perm]. apply (ring_rotate _ _ l1 (t :: l2)), H1. by left.
Qed.
Lemma hq_rotate q l1 t l2 qs : hq_inv q ((l1 ++ t :: l2) :: qs) → hq_inv q ((t :: l2 ++ l1) :: qs).
Proof.
  intros H. pose proof (hq_queue _ _ _ _ _ H) as [Hr _]. destruct H as [G1 G2 G3 G4 G5].
  assert (mjoin ((t :: l2 ++ l1) :: qs) ≡ₚ mjoin ((l1 ++ t :: l2) :: qs)) as Em.
  { change ((t :: l2 ++ l1) ++ mjoin qs ≡ₚ (l1 ++ t :: l2) ++ mjoin qs). f_equiv. apply rotate_perm. }
  split; [intros r [->|Hin]%elem_of_cons; [done|by apply G1; right]|by rewrite Em..| |].
  - intros a. rewrite Em. apply G4.
  - intros h a. rewrite Em. apply G5.
Qed.
Lemma walk_bound t l : NoDup (t :: l) → Forall ok (t :: l) → (length l < bound + 1)%nat.
Proof using Hbound. intros Hn Hb. pose proof (Hbound _ Hn Hb). simpl in *. lia. Qed.

(** ** Searching *)
Definition has_key q k p : bool := bool_decide (hq_key q p = k).
Definition hq_search q k : outcome (option A) :=
  match hq_heads q (hash k) with
  | None => Ok None
  | Some p => ring_search (bound + 1) (hq_next q) (has_key q k) p p
  end.
Definition hq_lookup q k : option A := match hq_search q k with Ok o => o | _ => None end.

Lemma search_ring q k l1 t l2 qs : hq_inv q ((l1 ++ t :: l2) :: qs) → hq_heads q (hash k) = Some t →
  hq_search q k = Ok (first_match (has_key q k) (t :: l2 ++ l1)).
Proof using Hbound.
  intros H Ht. destruct (hq_queue _ _ _ _ _ H) as (Hr & Hn & Hb). unfold hq_search. rewrite Ht.
  by rewrite (ring_search_ring _ _ _ _ _ _ Hr Hn (walk_bound _ _ Hn Hb)).
Qed.
Lemma search_ok q k qs : hq_inv q qs → hq_search q k = Ok (hq_lookup q k) ∧
  ∀ p, hq_lookup q k = Some p → p ∈ mjoin qs ∧ hq_key q p = k.
Proof using Hbound.
  intros H. unfold hq_lookup. destruct (hq_heads q (hash k)) as [t|] eqn:Ht.
  - destruct (hq_split q qs t H (hi_head _ _ H _ _ Ht)) as (l1 & l2 & qs' & E).
    rewrite (search_ring _ _ _ _ _ _ (hq_perm _ _ _ E H) Ht). split; [done|].
    intros p [Hp Hm]%first_match_Some. apply bool_decide_eq_true in Hm. split; [|done].
    rewrite E. simpl. rewrite elem_of_app. left. set_solver.
  - unfold hq_search. by rewrite Ht.
Qed.
Lemma lookup_ring q k l1 t l2 qs : hq_inv q ((l1 ++ t :: l2) :: qs) → hq_heads q (hash k) = Some t →
  hq_lookup q k = first_match (has_key q k) (t :: l2 ++ l1).
Proof using Hbound. intros H Ht. unfold hq_lookup. by rewrite (search_ring _ _ _ _ _ _ H Ht). Qed.
Lemma lookup_empty q k : hq_heads q (hash k) = None → hq_lookup q k = None.
Proof. intros Ht. unfold hq_lookup, hq_search. by rewrite Ht. Qed.
Lemma hq_lookup_ext q q' qs k : hq_inv q qs → (∀ p, hq_next q' p = hq_next q p) → (∀ p, hq_prev q' p = hq_prev q p) →
  (∀ h, hq_heads q' h = hq_heads q h) → (∀ p, p ∈ mjoin qs → has_key q' k p = has_key q k p) → hq_lookup q' k = hq_lookup q k.
Proof using Hbound.
  intros H Hn Hp Hq Hb. pose proof (hq_ext _ _ _ H Hn Hp Hq) as H'.
  destruct (hq_heads q (hash k)) as [t|] eqn:Ht; [|by rewrite !lookup_empty by (by rewrite ?Hq)].
  destruct (hq_split q qs t H (hi_head _ _ H _ _ Ht)) as (l1 & l2 & qs' & E).
  rewrite (lookup_ring _ _ _ _ _ _ (hq_perm _ _ _ E H) Ht).
  rewrite (lookup_ring _ _ _ _ _ _ (hq_perm _ _ _ E H')) by (by rewrite Hq).
  apply first_match_ext. intros a Ha. apply Hb. rewrite E. simpl. rewrite elem_of_app. left. set_solver.
Qed.

(** ** Adding a node: it becomes the last of the queue of [t], or a queue of its own *)
Lemma hq_inv_new q q' qs p : hq_inv q qs → ok p → p ∉ mjoin qs →
  (∀ a, a ≠ p → hq_next q' a = hq_next q a ∧ hq_prev q' a = hq_prev q a) →
  hq_next q' p = Some p → hq_prev q' p = Some p →
  (∀ h t, hq_heads q' h = Some t → t = p ∨ hq_heads q h = Some t) → hq_inv q' ([p] :: qs).
Proof.
  intros H Hp Hn Hf Hnp Hpp Hq. split.
  - intros r [->|Hin]%elem_of_cons; [done|]. eapply ring_frame; [by apply (hi_ring _ _ H)| |]; intros a Ha; apply Hf;
      intros ->; apply Hn, list_elem_of_join; by exists r.
  - simpl. apply NoDup_cons. split; [done|apply H].
  - simpl. constructor; [done|apply H].
  - simpl. intros a Ha Hna. destruct (Hf a) as [-> ->]; [set_solver|]. apply (hi_out _ _ H); set_solver.
  - simpl. intros h t [->|Ht]%Hq; [set_solver|]. apply (hi_head _ _ H) in Ht. set_solver.
Qed.
Lemma hq_inv_append q q' m t e qs p : hq_inv q ((t :: m) :: qs) → ok p → p ∉ mjoin ((t :: m) :: qs) →
  last (t :: m) = Some e → (∀ h, hq_heads q' h = hq_heads q h) →
  (∀ a, a ≠ p → hq_next q' a = if decide (a = e) then Some p else hq_next q a) →
  (∀ a, a ≠ p → hq_prev q' a = if decide (a = t) then Some p else hq_prev q a) →
  hq_next q' p = Some t → hq_prev q' p = Some e → hq_inv q' ((t :: m ++ [p]) :: qs).
Proof.
  intros H Hp Hn He Hq Hnf Hpf Hnp Hpp. simpl in Hn. pose proof H as [_ Hnd Hb _ _]. simpl in Hnd, Hb.
  assert (e ∈ t :: m) as Hin by (by apply last_Some_elem_of).
  assert (mjoin ((t :: m ++ [p]) :: qs) ≡ₚ p :: mjoin ((t :: m) :: qs)) as E.
  { simpl. rewrite <-app_assoc. simpl. rewrite <-Permutation_middle. apply Permutation_swap. }
  assert (∀ a, a ∈ t :: m → a ∉ mjoin qs) as Hdis by (change (t :: m ++ mjoin qs) with ((t :: m) ++ mjoin qs) in Hnd;
    apply NoDup_app in Hnd; tauto).
  split.
  - intros r [->|Hin']%elem_of_cons.
    + change (t :: m ++ [p]) with ((t :: m) ++ [p]). apply (ring_insert_tail (hq_next q) (hq_prev q) _ _ _ _ e).
      * apply (hi_ring _ _ H). by left.
      * change (t :: m ++ mjoin qs) with ((t :: m) ++ mjoin qs) in Hnd. by apply NoDup_app in Hnd as (? & _).
      * set_solver.
      * done.
      * done.
      * done.
      * rewrite Hnf by (intros ->; set_solver). by rewrite decide_True.
      * rewrite Hpf by (intros ->; set_solver). by rewrite decide_True.
      * intros a Ha Hae. rewrite Hnf by done. by rewrite decide_False.
      * intros a Ha Hae. rewrite Hpf by done. by rewrite decide_False.
    + assert (∀ a, a ∈ r → a ∈ mjoin qs) as Hrin by (intros a Ha; apply list_elem_of_join; by exists r).
      eapply ring_frame; [apply (hi_ring _ _ H); by right| |]; intros a Ha; specialize (Hrin a Ha).
      * rewrite Hnf by (intros ->; set_solver). apply decide_False. intros ->. by apply (Hdis e).
      * rewrite Hpf by (intros ->; set_solver). apply decide_False. intros ->. apply (Hdis t); set_solver.
  - rewrite E. apply NoDup_cons. split; [done|apply H].
  - rewrite E. constructor; [done|apply H].
  - intros a Ha Hna. rewrite E in Hna. assert (a ≠ p ∧ a ∉ mjoin ((t :: m) :: qs)) as [Hap Hna'] by set_solver.
    rewrite Hnf, Hpf by done. rewrite !decide_False; [by apply (hi_out _ _ H)| |]; intros ->; simpl in Hna'; set_solver.
  - intros h a. rewrite Hq. intros Ha%(hi_head _ _ H). rewrite E. by right.
Qed.

(** What the queues look like after [p] has been put into one. *)
Definition put_done q q' qs p : Prop :=
  (∃ qs', hq_inv q' qs' ∧ mjoin qs' ≡ₚ p :: mjoin qs) ∧
  (hq_lookup q (hq_key q p) = None → ∀ k, hq_lookup q' k = if has_key q k p then Some p else hq_lookup q k).

Lemma has_key_ext q q' k p : (∀ a, hq_key q' a = hq_key q a) → has_key q' k p = has_key q k p.
Proof. intros E. unfold has_key. by rewrite E. Qed.
Lemma has_key_hash q k p : has_key q k p = true → hq_key q p = k.
Proof. apply bool_decide_eq_true. Qed.

Lemma put_new q q' qs p : let h := hash (hq_key q p) in hq_inv q qs → ok p → p ∉ mjoin qs → hq_heads q h = None →
  (∀ a, hq_key q' a = hq_key q a) → (∀ a, a ≠ p → hq_next q' a = hq_next q a ∧ hq_prev q' a = hq_prev q a) →
  hq_next q' p = Some p → hq_prev q' p = Some p → (∀ i, hq_heads q' i = if decide (h = i) then Some p else hq_heads q i) →
  put_done q q' qs p.
Proof using Hbound.
  intros h H Hp Hn Hh Hk Hf N1 N2 Hq.
  assert (hq_inv q' ([p] :: qs)) as H'.
  { apply (hq_inv_new q); try done. intros i t. rewrite Hq. case_decide; [left; congruence|by right]. }
  split; [by exists ([p] :: qs)|]. intros Hnone k.
  destruct (has_key q k p) eqn:Hm.
  - pose proof (has_key_hash _ _ _ Hm) as Eh. unfold h in *. rewrite Eh in *.
    rewrite (lookup_ring q' k [] p [] qs H') by (by rewrite Hq, decide_True). unfold first_match.
    rewrite filter_cons, (has_key_ext q) by done. by rewrite Hm.
  - destruct (decide (h = hash k)) as [Eh|Eh].
    + rewrite (lookup_empty q k) by (by rewrite <-Eh).
      rewrite (lookup_ring q' k [] p [] qs H') by (by rewrite Hq, decide_True). unfold first_match.
      rewrite filter_cons, (has_key_ext q) by done. by rewrite Hm.
    + destruct (hq_heads q (hash k)) as [t|] eqn:Ht.
      2:{ rewrite !lookup_empty; [done|done|]. by rewrite Hq, decide_False. }
      destruct (hq_split q qs t H (hi_head _ _ H _ _ Ht)) as (l1 & l2 & qs' & E).
      rewrite (lookup_ring _ _ _ _ _ _ (hq_perm _ _ _ E H) Ht).
      rewrite (lookup_ring q' k l1 t l2 ([p] :: qs')).
      * apply first_match_ext. intros. by apply has_key_ext.
      * eapply hq_perm; [|exact H']. rewrite E. apply Permutation_swap.
      * by rewrite Hq, decide_False.
Qed.

(** Searching after [p] has been appended to the queue of [t]. *)
Lemma lookup_appended q q' t m p qs k : hq_inv q ((t :: m) :: qs) → hq_inv q' ((t :: m ++ [p]) :: qs) →
  (∀ a, hq_key q' a = hq_key q a) → (∀ h, hq_heads q' h = hq_heads q h) →
  hq_heads q (hash (hq_key q p)) = Some t → hq_lookup q (hq_key q p) = None →
  hq_lookup q' k = if has_key q k p then Some p else hq_lookup q k.
Proof using Hbound.
  intros H H' Hk Hq Ht Hnone. destruct (has_key q k p) eqn:Hm.
  - pose proof (has_key_hash _ _ _ Hm) as Eh. rewrite Eh in *.
    rewrite (lookup_ring q k [] t m qs H Ht) in Hnone. rewrite app_nil_r in Hnone.
    rewrite (lookup_ring q' k [] t (m ++ [p]) qs H') by (by rewrite Hq). rewrite app_nil_r.
    change (t :: m ++ [p]) with ((t :: m) ++ [p]). apply first_match_snoc; [|rewrite (has_key_ext q) by done; exact Hm].
    rewrite <-Hnone. apply first_match_ext. intros. by apply has_key_ext.
  - destruct (hq_heads q (hash k)) as [x|] eqn:Hx; [|by rewrite !lookup_empty by (by rewrite ?Hq)].
    pose proof (hi_head _ _ H _ _ Hx) as Hin. simpl in Hin. change (t :: m ++ mjoin qs) with ((t :: m) ++ mjoin qs) in Hin.
    apply elem_of_app in Hin as [Hin|Hin].
    + apply list_elem_of_split in Hin as (a & b & E). rewrite E in H.
      assert (t :: m ++ [p] = a ++ x :: (b ++ [p])) as E' by (change (t :: m ++ [p]) with ((t :: m) ++ [p]); rewrite E; by rewrite <-app_assoc).
      rewrite E' in H'. rewrite (lookup_ring _ _ _ _ _ _ H Hx), (lookup_ring q' k _ _ _ _ H') by (by rewrite Hq).
      rewrite <-app_assoc. simpl. change (x :: b ++ p :: a) with ((x :: b) ++ p :: a).
      rewrite first_match_skip by (rewrite (has_key_ext q) by done; exact Hm). apply first_match_ext. intros. by apply has_key_ext.
    + apply list_elem_of_join in Hin as (r & Hxr & Hr). apply elem_of_Permutation in Hr as [qs' E].
      apply list_elem_of_split in Hxr as (l1 & l2 & ->).
      assert ((t :: m) :: qs ≡ₚ (l1 ++ x :: l2) :: (t :: m) :: qs') as E1 by (rewrite E; apply Permutation_swap).
      assert ((t :: m ++ [p]) :: qs ≡ₚ (l1 ++ x :: l2) :: (t :: m ++ [p]) :: qs') as E2 by (rewrite E; apply Permutation_swap).
      rewrite (lookup_ring _ _ _ _ _ _ (hq_perm _ _ _ E1 H) Hx), (lookup_ring q' k _ _ _ _ (hq_perm _ _ _ E2 H')) by (by rewrite Hq).
      apply first_match_ext. intros. by apply has_key_ext.
Qed.

(** Walking to the last node of the queue of the head [t], and linking [p] behind it. *)
Lemma put_append q qs p t : hq_inv q qs → ok p → p ∉ mjoin qs → hq_heads q (hash (hq_key q p)) = Some t →
  ∃ e, find_last (bound + 1) (hq_next q) t t = Ok e ∧ ok t ∧ ok e ∧ e ≠ p ∧ t ≠ p ∧
    ∀ q', (∀ a, hq_key q' a = hq_key q a) → (∀ h, hq_heads q' h = hq_heads q h) →
      (∀ a, a ≠ p → hq_next q' a = if decide (a = e) then Some p else hq_next q a) →
      (∀ a, a ≠ p → hq_prev q' a = if decide (a = t) then Some p else hq_prev q a) →
      hq_next q' p = Some t → hq_prev q' p = Some e → put_done q q' qs p.
Proof using Hbound.
  intros H Hp Hn Ht.
  destruct (hq_split q qs t H (hi_head _ _ H _ _ Ht)) as (l1 & l2 & qs0 & E). pose proof (hq_perm _ _ _ E H) as H0.
  destruct (hq_queue _ _ _ _ _ H0) as (Hr & Hnd & Hb). pose proof (hq_rotate _ _ _ _ _ H0) as H1.
  set (m := l2 ++ l1) in *.
  assert (mjoin ((t :: m) :: qs0) ≡ₚ mjoin qs) as Em.
  { rewrite E. change ((t :: l2 ++ l1) ++ mjoin qs0 ≡ₚ (l1 ++ t :: l2) ++ mjoin qs0). f_equiv. apply rotate_perm. }
  assert (p ∉ mjoin ((t :: m) :: qs0)) as Hn' by (by rewrite Em).
  set (e := default t (last m)). assert (last (t :: m) = Some e) as He by apply last_cons_default.
  assert (e ∈ t :: m) as Hin by (by apply last_Some_elem_of).
  exists e. split; [by rewrite (find_last_ring _ _ _ _ _ Hr Hnd (walk_bound _ _ Hnd Hb))|].
  rewrite Forall_forall in Hb. split; [apply Hb; by left|]. split; [by apply Hb|].
  split; [simpl in Hn'; intros ->; set_solver|]. split; [simpl in Hn'; intros ->; set_solver|].
  intros q' Hk Hq N1 N2 N3 N4.
  pose proof (hq_inv_append q q' m t e qs0 p H1 Hp Hn' He Hq N1 N2 N3 N4) as H2. split.
  - eexists. split; [exact H2|]. rewrite <-Em. simpl. rewrite <-app_assoc. simpl. rewrite <-Permutation_middle. apply Permutation_swap.
  - intros Hnone k. by eapply lookup_appended.
Qed.
End hash.
Arguments hi_ring {A ok q qs}. Arguments hi_nodup {A ok q qs}. Arguments hi_ok {A ok q qs}. Arguments hi_out {A ok q qs}.
Arguments hi_head {A ok q qs}. Arguments hq_elem {A ok}.
