(* ===== verification/Str.v ===== *)
(** The memory functions of the kernel (sys/lib/string.c).

    Memory is a function from addresses to bytes; a loop [while (count--)] is a recursion
    on [count], and [strlen], whose loop has no bound, takes fuel. *)
From S2P Require Import Prelude.

(** [while (count--) *dstp++ = *srcp++;] *)
Fixpoint copy_forward (count : nat) (dstp srcp : Z) (m : Z → Z) : Z → Z :=
  match count with
  | O => m
  | S count => copy_forward count (dstp + 1) (srcp + 1) (<[dstp := m srcp]> m)
  end.

(** [while (count--) *(dstp + count) = *(srcp + count);] *)
Fixpoint copy_backward (count : nat) (dstp srcp : Z) (m : Z → Z) : Z → Z :=
  match count with
  | O => m
  | S count =>
      copy_backward count dstp srcp (<[dstp + Z.of_nat count := m (srcp + Z.of_nat count)]> m)
  end.

Definition memcpy (dst src : Z) (count : nat) (m : Z → Z) : Z → Z := copy_forward count dst src m.
Definition memmove (dst src : Z) (count : nat) (m : Z → Z) : Z → Z :=
  if dst <? src then copy_forward count dst src m else copy_backward count dst src m.

Fixpoint memcmp (p1 p2 : Z) (count : nat) (m : Z → Z) : Z :=
  match count with
  | O => 0
  | S count =>
      if m p1 <? m p2 then -1 else if m p2 <? m p1 then 1
      else memcmp (p1 + 1) (p2 + 1) count m
  end.

Fixpoint memset (p c : Z) (count : nat) (m : Z → Z) : Z → Z :=
  match count with
  | O => m
  | S count => memset (p + 1) c count (<[p := u8 c]> m)
  end.

Fixpoint strlen_loop (fuel : nat) (str p : Z) (m : Z → Z) : outcome Z :=
  match fuel with
  | O => NoFuel
  | S fuel => if m p =? 0 then Ok (p - str) else strlen_loop fuel str (p + 1) m
  end.
Definition strlen (fuel : nat) (str : Z) (m : Z → Z) : outcome Z := strlen_loop fuel str str m.

(** ** What they do to memory *)

(** Memory in which [count] bytes at [dst] have been replaced by those at [src]. *)
Definition copied (dst src : Z) (count : nat) (m : Z → Z) : Z → Z := λ a,
  if (dst <=? a) && (a <? dst + Z.of_nat count) then m (src + (a - dst)) else m a.

Lemma copied_0 dst src m a : copied dst src 0 m a = m a.
Proof. unfold copied. by destruct (Z.leb_spec dst a), (Z.ltb_spec a (dst + Z.of_nat 0)); try lia. Qed.

(** Copying upwards is right unless the destination starts inside the source. *)
Lemma copy_forward_spec count : ∀ dst src m a,
  dst <= src ∨ src + Z.of_nat count <= dst →
  copy_forward count dst src m a = copied dst src count m a.
Proof.
  induction count as [|n IH]; intros dst src m a Hd; simpl; [by rewrite copied_0|].
  rewrite IH by lia. unfold copied.
  destruct (Z.leb_spec (dst + 1) a), (Z.ltb_spec a (dst + 1 + Z.of_nat n)), (Z.leb_spec dst a),
    (Z.ltb_spec a (dst + Z.of_nat (S n))); simpl; try lia.
  - rewrite fn_insert_ne by lia. f_equal. lia.
  - by rewrite fn_insert_ne by lia.
  - assert (dst = a) as -> by lia. rewrite fn_insert_eq. f_equal. lia.
  - by rewrite fn_insert_ne by lia.
Qed.

(** Copying downwards is right unless the source starts inside the destination. *)
Lemma copy_backward_spec count : ∀ dst src m a,
  src <= dst ∨ dst + Z.of_nat count <= src →
  copy_backward count dst src m a = copied dst src count m a.
Proof.
  induction count as [|n IH]; intros dst src m a Hd; simpl; [by rewrite copied_0|].
  rewrite IH by lia. unfold copied.
  destruct (Z.leb_spec dst a), (Z.ltb_spec a (dst + Z.of_nat n)),
    (Z.ltb_spec a (dst + Z.of_nat (S n))); simpl; try lia.
  - by rewrite fn_insert_ne by lia.
  - assert (a = dst + Z.of_nat n) as -> by lia. rewrite fn_insert_eq. f_equal. lia.
  - by rewrite fn_insert_ne by lia.
  - by rewrite fn_insert_ne by lia.
Qed.

Lemma memset_spec c count : ∀ p m a, memset p c count m a =
  if (p <=? a) && (a <? p + Z.of_nat count) then u8 c else m a.
Proof.
  induction count as [|n IH]; intros p m a; simpl.
  - rewrite Z.add_0_r. destruct (Z.leb_spec p a), (Z.ltb_spec a p); simpl; done || lia.
  - rewrite IH. destruct (Z.leb_spec (p + 1) a), (Z.ltb_spec a (p + 1 + Z.of_nat n)),
      (Z.leb_spec p a), (Z.ltb_spec a (p + Z.of_nat (S n))); simpl; try lia; try done.
    all: first [ by rewrite fn_insert_ne by lia | assert (p = a) as -> by lia; by rewrite fn_insert_eq ].
Qed.

Lemma strlen_loop_spec fuel n : ∀ str p m, (n < fuel)%nat →
  m (p + Z.of_nat n) = 0 → (∀ i, (i < n)%nat → m (p + Z.of_nat i) ≠ 0) →
  strlen_loop fuel str p m = Ok (p + Z.of_nat n - str).
Proof.
  revert n. induction fuel as [|fuel IH]; intros n str p m Hn Hz Hnz; [lia|]. simpl.
  destruct n as [|n].
  - rewrite Z.add_0_r in *. by rewrite Hz.
  - assert (m p ≠ 0) as Hp by (specialize (Hnz 0%nat ltac:(lia)); by rewrite Z.add_0_r in Hnz).
    rewrite (proj2 (Z.eqb_neq _ _)) by done. rewrite (IH n); [f_equal; lia|lia|..].
    + rewrite <- Hz. f_equal. lia.
    + intros i Hi. specialize (Hnz (S i) ltac:(lia)).
      by replace (p + 1 + Z.of_nat i) with (p + Z.of_nat (S i)) by lia.
Qed.

(** ** Properties *)

(** [memmove] is correct for every position of the two areas, overlapping or not: the
    destination gets the bytes that the source held before the call, and no other byte
    changes. [memcpy] gives the same when the destination does not start inside the
    source. *)
Theorem memmove_correct (dst src : Z) (count : nat) m :
  (∀ a, memmove dst src count m a = copied dst src count m a) ∧
  (dst <= src ∨ src + Z.of_nat count <= dst → ∀ a, memcpy dst src count m a = memmove dst src count m a).
Proof.
  assert (Hm : ∀ a, memmove dst src count m a = copied dst src count m a).
  { intros a. unfold memmove. destruct (Z.ltb_spec dst src).
    - apply copy_forward_spec. lia.
    - apply copy_backward_spec. lia. }
  split; [done|]. intros Hd a. rewrite Hm. by apply copy_forward_spec.
Qed.

(** The three-way comparison of byte strings by their first difference. *)
Definition bytes (m : Z → Z) (p : Z) (count : nat) : list Z := (λ i, m (p + Z.of_nat i)) <$> seq 0 count.
Fixpoint lex_compare (l1 l2 : list Z) : comparison :=
  match l1, l2 with
  | x :: l1, y :: l2 => match x ?= y with Eq => lex_compare l1 l2 | c => c end
  | _, _ => Eq
  end.

Lemma bytes_S m p n : bytes m p (S n) = m p :: bytes m (p + 1) n.
Proof.
  unfold bytes. simpl. rewrite Z.add_0_r. f_equal. rewrite <- fmap_S_seq, <- list_fmap_compose.
  apply list_fmap_ext. intros i x _. simpl. f_equal. lia.
Qed.

Lemma lex_compare_eq l1 l2 : length l1 = length l2 → lex_compare l1 l2 = Eq ↔ l1 = l2.
Proof.
  revert l2. induction l1 as [|x l1 IH]; intros [|y l2]; simpl; try done.
  intros [= Hl]. destruct (Z.compare_spec x y) as [->|Hlt|Hgt].
  - rewrite IH by done. split; [by intros ->|by intros [=]].
  - split; [done|]. intros [= -> _]. lia.
  - split; [done|]. intros [= -> _]. lia.
Qed.

(** [memcmp] compares the two areas as strings of unsigned bytes, in lexicographic
    order, and it is 0 exactly when they are equal. *)
Theorem memcmp_lexicographic p1 p2 count m :
  memcmp p1 p2 count m =
    match lex_compare (bytes m p1 count) (bytes m p2 count) with Lt => -1 | Eq => 0 | Gt => 1 end ∧
  (memcmp p1 p2 count m = 0 ↔ bytes m p1 count = bytes m p2 count).
Proof.
  assert (H : memcmp p1 p2 count m = match lex_compare (bytes m p1 count) (bytes m p2 count)
    with Lt => -1 | Eq => 0 | Gt => 1 end).
  { revert p1 p2. induction count as [|n IH]; intros p1 p2; [done|]. rewrite !bytes_S. simpl.
    destruct (Z.compare_spec (m p1) (m p2)) as [E|Hlt|Hgt].
    - by rewrite E, Z.ltb_irrefl, IH.
    - by rewrite (proj2 (Z.ltb_lt _ _)).
    - rewrite (proj2 (Z.ltb_ge _ _)) by lia. by rewrite (proj2 (Z.ltb_lt _ _)). }
  split; [done|]. rewrite H, <- lex_compare_eq.
  - by destruct (lex_compare _ _).
  - unfold bytes. by rewrite !length_fmap.
Qed.

(** [strlen] returns the position of the first null byte when there is one, after
    that many iterations and one more. *)
Theorem strlen_correct n str m : m (str + Z.of_nat n) = 0 →
  (∀ i, (i < n)%nat → m (str + Z.of_nat i) ≠ 0) →
  ∀ fuel, (n < fuel)%nat → strlen fuel str m = Ok (Z.of_nat n).
Proof.
  intros Hz Hnz fuel Hf. unfold strlen. rewrite (strlen_loop_spec fuel n) by done. f_equal. lia.
Qed.
Lemma strlen_correct_witness :
  strlen 5 100 (<[100 := 65]> (<[101 := 66]> (λ _, 0))) = Ok 2.
Proof.
  apply (strlen_correct 2 100 (<[100 := 65]> (<[101 := 66]> (λ _, 0)))); [done| |lia].
  intros i Hi. by destruct i as [|[|i]]; [..|lia].
Defined.
