(* ===== verification/Time.v ===== *)
(** Calendar time: the conversion of a date to seconds (sys/lib/posix_time.c) and the
    reading of the real time clock (sys/drivers/cmos.c). *)
From S2P Require Import Prelude.

(** ** [make_posix_time] *)

Definition SEC_PER_MINUTE : Z := 60.
Definition SEC_PER_HOUR : Z := SEC_PER_MINUTE * 60.
Definition SEC_PER_DAY : Z := SEC_PER_HOUR * 24.
Definition SEC_PER_YEAR : Z := SEC_PER_DAY * 365.

Definition sec_per_month : list Z :=
  [ 0;
    SEC_PER_DAY * (31);
    SEC_PER_DAY * (31 + 28);
    SEC_PER_DAY * (31 + 28 + 31);
    SEC_PER_DAY * (31 + 28 + 31 + 30);
    SEC_PER_DAY * (31 + 28 + 31 + 30 + 31);
    SEC_PER_DAY * (31 + 28 + 31 + 30 + 31 + 30);
    SEC_PER_DAY * (31 + 28 + 31 + 30 + 31 + 30 + 31);
    SEC_PER_DAY * (31 + 28 + 31 + 30 + 31 + 30 + 31 + 31);
    SEC_PER_DAY * (31 + 28 + 31 + 30 + 31 + 30 + 31 + 31 + 30);
    SEC_PER_DAY * (31 + 28 + 31 + 30 + 31 + 30 + 31 + 31 + 30 + 31);
    SEC_PER_DAY * (31 + 28 + 31 + 30 + 31 + 30 + 31 + 31 + 30 + 31 + 30) ].

Definition is_leap_year (year : Z) : bool :=
  if negb (Z.rem year 4 =? 0) then false
  else if negb (Z.rem year 100 =? 0) then true
  else if negb (Z.rem year 400 =? 0) then false
  else true.

(** [while (i <= end_year)]: [n] iterations are left. *)
Fixpoint leap_loop (n : nat) (i nr : Z) : Z :=
  match n with
  | O => nr
  | S n => leap_loop n (i + 1) (if is_leap_year i then nr + 1 else nr)
  end.
Definition nr_leap_years (start_year end_year : Z) : Z :=
  leap_loop (Z.to_nat (end_year + 1 - start_year)) start_year 0.

Definition make_posix_time (seconds minutes hours day_of_month month year : Z) : outcome Z :=
  let time := u32 (0 + SEC_PER_YEAR * (year - 1970)) in
  let time := u32 (time + SEC_PER_DAY * nr_leap_years 1970 year) in
  let time := if is_leap_year year && ((month <? 2) || ((month =? 2) && (day_of_month <? 29)))
              then u32 (time - SEC_PER_DAY) else time in
  match sec_per_month !! Z.to_nat (month - 1) with
  | Some s =>
      if month - 1 <? 0 then Undef "sec_per_month index" else
      let time := u32 (time + s) in
      let time := u32 (time + (day_of_month - 1) * SEC_PER_DAY) in
      let time := u32 (time + hours * SEC_PER_HOUR) in
      let time := u32 (time + minutes * SEC_PER_MINUTE) in
      Ok (u32 (time + seconds))
  | None => Undef "sec_per_month index"
  end.

(** ** The reference calendar *)

Definition gregorian_leap (y : Z) : bool :=
  (y mod 4 =? 0) && (negb (y mod 100 =? 0) || (y mod 400 =? 0)).
Definition days_in_month (y m : Z) : Z :=
  if m =? 2 then (if gregorian_leap y then 29 else 28)
  else if (m =? 4) || (m =? 6) || (m =? 9) || (m =? 11) then 30 else 31.
Definition days_in_year (y : Z) : Z := if gregorian_leap y then 366 else 365.
Definition sum (l : list Z) : Z := foldr Z.add 0 l.
(** Days from the first of January 1970 to that of year [y], and from the first of
    January to the first of month [m]. *)
Definition days_before_year (y : Z) : Z :=
  sum ((λ i, days_in_year (1970 + Z.of_nat i)) <$> seq 0 (Z.to_nat (y - 1970))).
Definition days_before_month (y m : Z) : Z :=
  sum ((λ i, days_in_month y (1 + Z.of_nat i)) <$> seq 0 (Z.to_nat (m - 1))).

Definition valid_date (year month day : Z) : Prop :=
  1970 <= year <= 2037 ∧ 1 <= month <= 12 ∧ 1 <= day <= days_in_month year month.
Definition valid_time (hours minutes seconds : Z) : Prop :=
  0 <= hours < 24 ∧ 0 <= minutes < 60 ∧ 0 <= seconds < 60.
(** Seconds since the Epoch, as POSIX defines them. *)
Definition posix_seconds (year month day hours minutes seconds : Z) : Z :=
  ((days_before_year year + days_before_month year month + (day - 1)) * 24 + hours) * 3600
  + minutes * 60 + seconds.

Lemma sum_app l1 l2 : sum (l1 ++ l2) = sum l1 + sum l2.
Proof. induction l1; simpl; lia. Qed.

Lemma is_leap_year_gregorian y : 0 <= y → is_leap_year y = gregorian_leap y.
Proof.
  intros. unfold is_leap_year, gregorian_leap. rewrite !Z.rem_mod_nonneg by lia.
  destruct (Z.eqb_spec (y mod 4) 0), (Z.eqb_spec (y mod 100) 0), (Z.eqb_spec (y mod 400) 0);
    simpl; try done; lia.
Qed.

Lemma leap_loop_add n : ∀ i nr, leap_loop n i nr = nr + leap_loop n i 0.
Proof.
  induction n as [|n IH]; intros i nr; simpl; [lia|].
  rewrite IH, (IH _ (if is_leap_year i then 0 + 1 else 0)). case_match; lia.
Qed.
Lemma leap_loop_S n i : leap_loop (S n) i 0 =
  leap_loop n i 0 + (if is_leap_year (i + Z.of_nat n) then 1 else 0).
Proof.
  revert i. induction n as [|n IH]; intros i; [simpl; rewrite Z.add_0_r; case_match; lia|].
  change (leap_loop (S (S n)) i 0) with (leap_loop (S n) (i + 1) (if is_leap_year i then 0 + 1 else 0)).
  rewrite leap_loop_add, IH. change (leap_loop (S n) i 0) with
    (leap_loop n (i + 1) (if is_leap_year i then 0 + 1 else 0)).
  rewrite (leap_loop_add n (i + 1) (if is_leap_year i then 0 + 1 else 0)).
  replace (i + 1 + Z.of_nat n) with (i + Z.of_nat (S n)) by lia. lia.
Qed.

(** 365 days a year and the leap days make the days before a year. *)
Lemma days_before_year_eq y : 1970 <= y →
  days_before_year y = 365 * (y - 1970) + nr_leap_years 1970 y
    - (if is_leap_year y then 1 else 0).
Proof.
  intros Hy. unfold days_before_year, nr_leap_years.
  replace (Z.to_nat (y + 1 - 1970)) with (S (Z.to_nat (y - 1970))) by lia.
  rewrite leap_loop_S. replace (1970 + Z.of_nat (Z.to_nat (y - 1970))) with y by lia.
  enough (∀ n, sum ((λ i, days_in_year (1970 + Z.of_nat i)) <$> seq 0 n) =
    365 * Z.of_nat n + leap_loop n 1970 0) as -> by lia.
  induction n as [|n IH]; [done|]. rewrite seq_S, fmap_app, sum_app, IH, leap_loop_S. simpl.
  unfold days_in_year. rewrite is_leap_year_gregorian by lia. case_match; lia.
Qed.

Lemma days_before_year_nonneg y : 0 <= days_before_year y.
Proof.
  unfold days_before_year. generalize (seq 0 (Z.to_nat (y - 1970))). intros l.
  induction l as [|i l IH]; [done|]. rewrite fmap_cons. unfold sum in *. cbn [foldr].
  assert (365 <= days_in_year (1970 + Z.of_nat i)) by (unfold days_in_year; case_match; lia). lia.
Qed.

(** The table of months is that of a year of 365 days. *)
Lemma sec_per_month_eq y m : 1 <= m <= 12 →
  ∃ s, sec_per_month !! Z.to_nat (m - 1) = Some s ∧ 0 <= s <= 335 * SEC_PER_DAY ∧
    s = SEC_PER_DAY * (days_before_month y m - (if gregorian_leap y && (2 <? m) then 1 else 0)).
Proof.
  intros Hm. assert (m ∈ ([1;2;3;4;5;6;7;8;9;10;11;12] : list Z)) as Hin.
  { rewrite !elem_of_cons. lia. }
  unfold days_before_month, days_in_month.
  repeat (apply elem_of_cons in Hin as [->|Hin]); [..|by apply elem_of_nil in Hin];
    eexists; (split; [reflexivity|]); (split; [by vm_compute|]);
    destruct (gregorian_leap y); by vm_compute.
Qed.

Lemma days_in_month_bound y m : 28 <= days_in_month y m <= 31.
Proof. unfold days_in_month. repeat case_match; lia. Qed.
Lemma nr_leap_years_bound y : 1970 <= y <= 2037 → 0 <= nr_leap_years 1970 y <= 17.
Proof.
  intros Hy. unfold nr_leap_years.
  assert (Hm : ∀ n, 0 <= leap_loop n 1970 0).
  { induction n as [|n IH]; [done|]. rewrite leap_loop_S. case_match; lia. }
  split; [done|]. assert (Hmono : ∀ n k, leap_loop n 1970 0 <= leap_loop (n + k) 1970 0).
  { intros n k. induction k as [|k IH]; [by rewrite Nat.add_0_r|].
    rewrite Nat.add_succ_r, leap_loop_S. case_match; lia. }
  etrans; [apply (Hmono _ (68 - Z.to_nat (y + 1 - 1970))%nat)|].
  replace (Z.to_nat (y + 1 - 1970) + (68 - Z.to_nat (y + 1 - 1970)))%nat with 68%nat by lia.
  by vm_compute.
Qed.

(** ** Properties *)

Definition leap_day (year month day : Z) : bool := (is_leap_year year) && (month =? 2) && (day =? 29).

(** The hours may be beyond a day here: a misread clock passes such values. *)
Lemma make_posix_time_hours year month day hours minutes seconds :
  valid_date year month day → 0 <= hours < 256 → 0 <= minutes < 60 → 0 <= seconds < 60 →
  make_posix_time seconds minutes hours day month year =
    Ok (posix_seconds year month day hours minutes seconds
        + (if leap_day year month day then SEC_PER_DAY else 0)).
Proof.
  intros (Hy & Hm & Hd) Hh Hmi Hs. unfold make_posix_time.
  destruct (sec_per_month_eq year month Hm) as (s & -> & Hsb & Hse).
  rewrite (proj2 (Z.ltb_ge _ _)) by lia.
  pose proof (days_before_year_eq year ltac:(lia)) as Hby.
  pose proof (nr_leap_years_bound year Hy) as Hlb. pose proof (days_before_year_nonneg year) as Hb0.
  pose proof (days_in_month_bound year month) as Hdb.
  rewrite <- is_leap_year_gregorian in Hse by lia.
  unfold posix_seconds, leap_day, SEC_PER_YEAR, SEC_PER_DAY, SEC_PER_HOUR, SEC_PER_MINUTE in *.
  assert (Hfeb : month = 2 → day <= if is_leap_year year then 29 else 28).
  { intros ->. rewrite is_leap_year_gregorian by lia. apply Hd. }
  f_equal. assert (Hif : ∀ b : bool, ∀ x y, (if b then u32 (u32 x - y) else u32 x) =
    u32 (x - if b then y else 0)).
  { intros [] x y; [apply u32_sub_l|by rewrite Z.sub_0_r]. }
  rewrite (u32_id (0 + _)) by (unfold is_u32; lia). rewrite Hif.
  repeat (rewrite <- ?Z.add_assoc; rewrite u32_add_l). rewrite u32_id.
  all: destruct (is_leap_year year), (Z.ltb_spec month 2), (Z.eqb_spec month 2),
    (Z.ltb_spec day 29), (Z.eqb_spec day 29), (Z.ltb_spec 2 month); cbn [andb orb] in *;
    unfold is_u32; lia.
Qed.

(** for every date from 1970 to 2037 [make_posix_time] gives the seconds since the
    Epoch, except on the 29th of February, where its test for the leap day being passed
    is off by one and the result is a day too late. *)
Theorem make_posix_time_correct year month day hours minutes seconds :
  valid_date year month day → valid_time hours minutes seconds →
  make_posix_time seconds minutes hours day month year =
    Ok (posix_seconds year month day hours minutes seconds
        + (if leap_day year month day then SEC_PER_DAY else 0)).
Proof. intros Hd (Hh & Hmi & Hs). apply make_posix_time_hours; by try lia. Qed.
Lemma make_posix_time_correct_witness :
  make_posix_time 0 0 12 29 2 2024 = Ok (posix_seconds 2024 2 29 12 0 0 + SEC_PER_DAY) ∧
  make_posix_time 40 46 1 9 9 2001 = Ok 1000000000.
Proof.
  split.
  - apply (make_posix_time_correct 2024 2 29 12 0 0); unfold valid_date, valid_time; vm_compute; intuition congruence.
  - change 1000000000 with (posix_seconds 2001 9 9 1 46 40 + 0).
    apply (make_posix_time_correct 2001 9 9 1 46 40); unfold valid_date, valid_time; vm_compute; intuition congruence.
Defined.

(** ** The real time clock *)

Definition CURRENT_MILLENIUM : Z := 2000.
Definition SECONDS_REG : Z := 0.
Definition MINUTES_REG : Z := 2.
Definition HOURS_REG : Z := 4.
Definition DAY_OF_MONTH_REG : Z := 7.
Definition MONTH_REG : Z := 8.
Definition YEAR_REG : Z := 9.
Definition TWENTY_FOUR_HOUR_FMT : Z := Z.shiftl 1 1.
Definition BINARY_MODE : Z := Z.shiftl 1 2.
Definition PM_BIT : Z := Z.shiftl 1 7.

Definition bcd_to_binary (bcd : Z) : Z :=
  u8 (Z.shiftr (Z.land bcd 0xF0) 1 + Z.shiftr (Z.land bcd 0xF0) 3 + Z.land bcd 0xF).

Record rtc_time := MkRtc {
  r_sec : Z; r_min : Z; r_hour : Z; r_day_of_month : Z; r_month : Z; r_year : Z
}.
#[export] Instance rtc_time_eq : EqDecision rtc_time.
Proof. solve_decision. Defined.

Section cmos.
(** The clock: the value of a register when it is read for the [t]-th time of all
    readings; and what I/O port [STATUS_REG_B] = 0x0B gives, which is not a port of the clock. *)
Context (cmos : nat → Z → Z) (port_0B : Z).

Definition cmos_read_register (t : nat) (reg : Z) : Z := u8 (cmos t reg).

Definition read_rtc (t : nat) : rtc_time :=
  MkRtc (cmos_read_register t SECONDS_REG) (cmos_read_register (t + 1) MINUTES_REG)
    (cmos_read_register (t + 2) HOURS_REG) (cmos_read_register (t + 3) DAY_OF_MONTH_REG)
    (cmos_read_register (t + 4) MONTH_REG) (cmos_read_register (t + 5) YEAR_REG).

(** The [do ... while] loop: read again until the values are those of the first reading. *)
Fixpoint read_again (fuel : nat) (time : rtc_time) (t : nat) : outcome rtc_time :=
  match fuel with
  | O => NoFuel
  | S fuel =>
      let time_last := read_rtc t in
      if decide (time_last = time) then Ok time_last else read_again fuel time (t + 6)
  end.

Definition convert (status : Z) (r : rtc_time) : rtc_time :=
  let r := if Z.land status BINARY_MODE =? 0 then
    MkRtc (bcd_to_binary (r_sec r)) (bcd_to_binary (r_min r)) (bcd_to_binary (r_hour r))
      (bcd_to_binary (r_day_of_month r)) (bcd_to_binary (r_month r)) (bcd_to_binary (r_year r))
    else r in
  if (Z.land status TWENTY_FOUR_HOUR_FMT =? 0) && negb (Z.land (r_hour r) PM_BIT =? 0)
  then MkRtc (r_sec r) (r_min r) ((Z.land (r_hour r) 0x7F + 12) mod 24)
         (r_day_of_month r) (r_month r) (r_year r)
  else r.

Definition get_current_time (fuel : nat) : outcome Z :=
  match read_again fuel (read_rtc 0) 6 with
  | Ok r =>
      let r := convert (u8 port_0B) r in
      make_posix_time (u8 (r_sec r)) (u8 (r_min r)) (u8 (r_hour r)) (u8 (r_day_of_month r))
        (u8 (r_month r)) (u16 (r_year r + CURRENT_MILLENIUM))
  | Panic m => Panic m
  | Undef w => Undef w
  | NoFuel => NoFuel
  end.
End cmos.

Definition bcd (n : Z) : Z := 16 * (n / 10) + n mod 10.

Lemma bcd_to_binary_bcd n : 0 <= n < 100 → bcd_to_binary (bcd n) = n.
Proof.
  intros Hn. assert (Hall : forallb (λ k, bcd_to_binary (bcd (Z.of_nat k)) =? Z.of_nat k) (seq 0 100) = true)
    by (by vm_compute).
  rewrite forallb_forall in Hall. specialize (Hall (Z.to_nat n)).
  rewrite Z2Nat.id in Hall by lia. apply Z.eqb_eq, Hall, in_seq. lia.
Qed.
Lemma bcd_u8 n : 0 <= n < 100 → u8 (bcd n) = bcd n.
Proof. intros. apply u8_id. unfold is_u8, bcd. lia. Qed.

(** The afternoon flag of a 12-hour reading does not survive the conversion from BCD,
    which comes before the test of [PM_BIT]. *)
Lemma bcd_loses_pm h : 1 <= h <= 12 → Z.land (bcd_to_binary (Z.lor PM_BIT (bcd h))) PM_BIT = 0.
Proof.
  intros Hh. assert (Hall : forallb (λ k, Z.land (bcd_to_binary (Z.lor PM_BIT (bcd (Z.of_nat k)))) PM_BIT =? 0)
    (seq 1 12) = true) by (by vm_compute).
  rewrite forallb_forall in Hall. specialize (Hall (Z.to_nat h)).
  rewrite Z2Nat.id in Hall by lia. apply Z.eqb_eq, Hall, in_seq. lia.
Qed.

(** A clock that stands still at a date of this century. Its register B, which the kernel does
    not read, says how its registers are to be understood: in binary or BCD, and by 24 hours or by
    twelve with a flag for the afternoon, midnight and noon being 12. *)
Record rtc_format := MkFmt { f_binary : bool; f_24_hour : bool }.
Definition twelve (hours : Z) : Z := if hours mod 12 =? 0 then 12 else hours mod 12.
Definition encode (f : rtc_format) (n : Z) : Z := if f_binary f then n else bcd n.
Definition encode_hours (f : rtc_format) (hours : Z) : Z :=
  if f_24_hour f then encode f hours
  else if 12 <=? hours then Z.lor PM_BIT (encode f (twelve hours)) else encode f (twelve hours).
Definition clock (f : rtc_format) (year month day hours minutes seconds : Z) (t : nat) (reg : Z) : Z :=
  if reg =? HOURS_REG then encode_hours f hours
  else encode f (if reg =? SECONDS_REG then seconds else if reg =? MINUTES_REG then minutes
       else if reg =? DAY_OF_MONTH_REG then day
       else if reg =? MONTH_REG then month else year - CURRENT_MILLENIUM).
(** What the port is understood to say. *)
Definition port_format (port : Z) : rtc_format :=
  MkFmt (negb (Z.land (u8 port) BINARY_MODE =? 0)) (negb (Z.land (u8 port) TWENTY_FOUR_HOUR_FMT =? 0)).
(** By how many hours the time of a clock of twelve hours is misread: the hour from midnight as
    the one from noon, the hour from noon as the one from midnight, and in BCD, where the flag
    for the afternoon is taken for eight tens, every hour of the afternoon. *)
Definition hours_error (f : rtc_format) (hours : Z) : Z :=
  if f_24_hour f then 0
  else if hours =? 0 then 12
  else if f_binary f then (if hours =? 12 then -12 else 0)
  else if hours =? 12 then 80 else if 12 <? hours then 68 else 0.

Lemma bcd_bound n : 0 <= n < 100 → 0 <= bcd n < 160.
Proof. unfold bcd. lia. Qed.
Lemma encode_u8 f n : 0 <= n < 100 → u8 (encode f n) = encode f n.
Proof. intros. pose proof (bcd_bound n). apply u8_id. unfold is_u8, encode. destruct (f_binary f); lia. Qed.
(** What becomes of the hours, a table of all cases. *)
Definition decode_hours (f : rtc_format) (x : Z) : Z :=
  r_hour (convert (if f_binary f then (if f_24_hour f then 6 else 4) else if f_24_hour f then 2 else 0)
    (MkRtc 0 0 x 0 0 0)).
Lemma hours_table f hours : 0 <= hours < 24 → u8 (encode_hours f hours) = encode_hours f hours ∧
  decode_hours f (encode_hours f hours) = hours + hours_error f hours ∧ 0 <= hours + hours_error f hours < 256.
Proof.
  intros Hh. assert (forallb (λ k, let h := Z.of_nat k in (u8 (encode_hours f h) =? encode_hours f h)
    && (decode_hours f (encode_hours f h) =? h + hours_error f h)
    && (0 <=? h + hours_error f h) && (h + hours_error f h <? 256)) (seq 0 24) = true) as Hall.
  { destruct f as [[] []]; by vm_compute. }
  rewrite forallb_forall in Hall. specialize (Hall (Z.to_nat hours)).
  rewrite in_seq, Z2Nat.id in Hall by lia. specialize (Hall ltac:(lia)). cbv zeta in Hall. rewrite !andb_true_iff, !Z.eqb_eq, Z.leb_le, Z.ltb_lt in Hall. tauto.
Qed.
(** The conversion depends on the two flags only. *)
Lemma convert_format status r : convert (u8 status) r =
  let f := port_format status in let dec := if f_binary f then id else bcd_to_binary in
  MkRtc (dec (r_sec r)) (dec (r_min r)) (decode_hours f (r_hour r)) (dec (r_day_of_month r)) (dec (r_month r)) (dec (r_year r)).
Proof.
  unfold port_format, decode_hours, convert. cbn [f_binary f_24_hour].
  destruct (Z.land (u8 status) BINARY_MODE =? 0), (Z.land (u8 status) TWENTY_FOUR_HOUR_FMT =? 0); destruct r;
    cbn [negb]; cbv beta iota zeta delta [id];
    [change (Z.land 0 BINARY_MODE =? 0) with true; change (Z.land 0 TWENTY_FOUR_HOUR_FMT =? 0) with true
    |change (Z.land 2 BINARY_MODE =? 0) with true; change (Z.land 2 TWENTY_FOUR_HOUR_FMT =? 0) with false
    |change (Z.land 4 BINARY_MODE =? 0) with false; change (Z.land 4 TWENTY_FOUR_HOUR_FMT =? 0) with true
    |change (Z.land 6 BINARY_MODE =? 0) with false; change (Z.land 6 TWENTY_FOUR_HOUR_FMT =? 0) with false];
    cbn [andb r_sec r_min r_hour r_day_of_month r_month r_year]; try done; by destruct (negb _).
Qed.
Lemma rtc_decode_encode f n : 0 <= n < 100 → (if f_binary f then id else bcd_to_binary) (encode f n) = n.
Proof. intros. unfold encode. destruct (f_binary f); [done|by apply bcd_to_binary_bcd]. Qed.
(** One comparison of two readings is enough for a clock that stands still. *)
Lemma clock_read f year month day hours minutes seconds t : valid_date year month day → valid_time hours minutes seconds →
  2000 <= year → read_rtc (clock f year month day hours minutes seconds) t =
    MkRtc (encode f seconds) (encode f minutes) (encode_hours f hours) (encode f day) (encode f month)
      (encode f (year - CURRENT_MILLENIUM)).
Proof.
  intros (Hyr & Hm & Hday) (Hh & Hmi & Hs) Hy. pose proof (days_in_month_bound year month).
  destruct (hours_table f hours Hh) as [Hu _].
  unfold read_rtc, cmos_read_register, clock. simpl. rewrite Hu. unfold CURRENT_MILLENIUM. by rewrite !encode_u8 by lia.
Qed.

(** C40: Reading a clock that does not change during the reading. The format of its registers is
    taken from I/O port 0x0B and not from register B of the clock. When the port happens to agree
    with the clock, the result is the POSIX time of the date, a day too late on the 29th of
    February; it is exact in both 24-hour formats, and off by the hours of [hours_error] in the
    12-hour ones. When the port says binary of a BCD clock, the kernel reads behind the table of
    the months from October to December. *)
Theorem get_current_time_correct f year month day hours minutes seconds port fuel :
  valid_date year month day → valid_time hours minutes seconds → 2000 <= year →
  (port_format port = f →
    get_current_time (clock f year month day hours minutes seconds) port (S fuel) =
    Ok (posix_seconds year month day (hours + hours_error f hours) minutes seconds
        + (if leap_day year month day then SEC_PER_DAY else 0))) ∧
  (f_binary f = false → f_binary (port_format port) = true → 10 <= month →
    get_current_time (clock f year month day hours minutes seconds) port (S fuel) = Undef "sec_per_month index").
Proof.
  intros Hd Ht Hy. pose proof Hd as (Hyr & Hm & Hday). pose proof Ht as (Hh & Hmi & Hs).
  pose proof (days_in_month_bound year month). unfold get_current_time. cbn [read_again].
  rewrite !clock_read, decide_True, convert_format by done. cbv zeta. cbn [r_sec r_min r_hour r_day_of_month r_month r_year].
  split.
  - intros ->. destruct (hours_table f hours Hh) as (_ & -> & Hb).
    rewrite !rtc_decode_encode by (unfold CURRENT_MILLENIUM; lia).
    rewrite !u8_id by (unfold is_u8; lia). rewrite u16_id by (unfold is_u16, CURRENT_MILLENIUM; lia).
    rewrite Z.sub_add. by apply make_posix_time_hours.
  - intros Hf -> H10. unfold encode at 4. rewrite Hf. unfold id. unfold make_posix_time.
    assert (16 <= bcd month <= 18) by (unfold bcd; lia). rewrite (u8_id (bcd month)) by (unfold is_u8; lia).
    by rewrite lookup_ge_None_2 by (simpl; lia).
Qed.
Lemma get_current_time_correct_witness :
  get_current_time (clock (MkFmt false true) 2024 3 1 12 30 15) 2 1 = Ok (posix_seconds 2024 3 1 12 30 15 + 0) ∧
  get_current_time (clock (MkFmt false false) 2024 3 1 12 30 15) 0 1 = Ok (posix_seconds 2024 3 1 92 30 15 + 0) ∧
  get_current_time (clock (MkFmt false true) 2024 10 1 12 30 15) 0xFF 1 = Undef "sec_per_month index".
Proof.
  split; [|split].
  - apply (get_current_time_correct (MkFmt false true) 2024 3 1 12 30 15 2 0);
      unfold valid_date, valid_time; vm_compute; intuition congruence.
  - apply (get_current_time_correct (MkFmt false false) 2024 3 1 12 30 15 0 0);
      unfold valid_date, valid_time; vm_compute; intuition congruence.
  - apply (get_current_time_correct (MkFmt false true) 2024 10 1 12 30 15 0xFF 0);
      unfold valid_date, valid_time; vm_compute; intuition congruence.
Defined.

(** the loop compares every new reading with the very first one, which it never
    replaces. If the first reading is taken just before the clock advances, so that no
    later reading equals it, the kernel never gets past the loop. *)
Theorem get_current_time_livelock cmos status fuel :
  (∀ n, read_rtc cmos (6 + 6 * n) ≠ read_rtc cmos 0) →
  get_current_time cmos status fuel = NoFuel.
Proof.
  intros Hne. unfold get_current_time.
  enough (∀ n, read_again cmos fuel (read_rtc cmos 0) (6 + 6 * n) = NoFuel) as H.
  { specialize (H 0%nat). change (6 + 6 * 0)%nat with 6%nat in H. by rewrite H. }
  induction fuel as [|fuel IH]; intros n; [done|]. cbn [read_again].
  rewrite decide_False by apply Hne. rewrite <- (IH (S n)). f_equal. lia.
Qed.
(** A clock that ticks once, after the first reading. *)
Lemma get_current_time_livelock_witness :
  get_current_time (λ t reg, if (reg =? SECONDS_REG) && (t =? 0)%nat then 0x59 else 0) 2 1000 = NoFuel.
Proof.
  apply (get_current_time_livelock (λ t reg, if (reg =? SECONDS_REG) && (t =? 0)%nat then 0x59 else 0)).
  intros n [=].
Defined.
