(* ===== verification/Proc.v ===== *)
(** Kernel data: processes, open files, mounted filesystems and the globals that the
    process, signal and file system calls share (sys/include/kernel/proc.h,
    sys/include/fs/fs.h, sys/kernel/proc.c, sys/fs/sys1.c, sys/fs/filesystem.c).

    A table of structures is a function from indices; a pointer into a table is the
    index, a null pointer is [None]. The sizes of the tables only appear where the code
    uses them (loop bounds) or should have used them (an access beyond the end is
    [Undef]). *)
From S2P Require Import Prelude.

(** ** Constants *)
Definition NR_PROC : nat := 64.
Definition NR_FILE : nat := 64.
Definition NR_OPEN : nat := 20.
Definition NR_MOUNTS : nat := 10.
Definition NSIG : Z := 32.
Definition HZ : Z := 100.
Definition NO_ALARM : Z := 0.
Definition NO_TTY_BLOCK : Z := 0.

Definition PROC_QUANTA : Z := 10.
Definition LOWEST_PRIORITY : Z := 0.
Definition HIGHEST_PRIORITY : Z := PROC_QUANTA - 1.
Definition USER_PRIORITY : Z := LOWEST_PRIORITY + 1.

Definition EACCES : Z := 2.
Definition EAGAIN : Z := 6.
Definition EBADF : Z := 8.
Definition ECHILD : Z := 11.
Definition EEXIST : Z := 19.
Definition EFAULT : Z := 20.
Definition EFBIG : Z := 21.
Definition EINTR : Z := 26.
Definition EINVAL : Z := 27.
Definition EIO : Z := 28.
Definition EMFILE : Z := 32.
Definition ENFILE : Z := 40.
Definition ENODEV : Z := 43.
Definition ENOENT : Z := 44.
Definition ENOSPC : Z := 51.
Definition ENOSYS : Z := 54.
Definition ENOTDIR : Z := 56.
Definition EOVERFLOW : Z := 64.
Definition EPERM : Z := 66.
Definition EROFS : Z := 72.
Definition ESPIPE : Z := 73.
Definition ESRCH : Z := 74.
Definition EXDEV : Z := 80.

Inductive rw_cmd := READ | WRITE.

(** ** Structures *)

Inductive proc_state : Type :=
  | PROC_EXITED | PROC_ZOMBIE | PROC_RUNNING | PROC_RUNNABLE
  | PROC_SLEEP_INTERRUPTIBLE | PROC_SLEEP_UNINTERRUPTIBLE | PROC_STOPPED.
#[export] Instance proc_state_eq : EqDecision proc_state.
Proof. solve_decision. Defined.

Inductive sig_def_action : Type :=
  | SIGACTION_T | SIGACTION_A | SIGACTION_I | SIGACTION_S | SIGACTION_C.

(** [sighandler_t]: the two reserved values and the addresses of user functions. *)
Inductive sighandler : Type := SIG_DFL | SIG_IGN | SIG_ERR | Handler (addr : Z).
#[export] Instance sighandler_eq : EqDecision sighandler.
Proof. solve_decision. Defined.

Record pgrp_info := MkPgrp { leader : bool; sid : Z; pgid : Z }.
#[export] Instance pgrp_eta : Eta pgrp_info := λ g, MkPgrp (leader g) (sid g) (pgid g).

(** A filesystem inode as the generic layer sees it: an address, 0 is null. *)
Record generic_inode := MkGInode { inode : Z; count : Z }.
#[export] Instance ginode_eta : Eta generic_inode := λ g, MkGInode (inode g) (count g).

Record process := MkProcess {
  p_pid : Z; p_ppid : Z;
  p_uid : Z; p_euid : Z; p_suid : Z; p_gid : Z; p_egid : Z; p_sgid : Z;
  p_umask : Z;
  p_state : proc_state;
  p_tty : Z; p_tty_block : Z;
  p_priority : Z; p_quanta : Z; p_counter : Z;
  p_exit_code : Z;
  p_sleeping_on : option Z;         (* address slept on *)
  p_pgrp : pgrp_info;
  p_sighandlers : nat → sighandler; (* NSIG entries *)
  p_sigpending : Z;                 (* one bit per signal *)
  p_sigrestorer : Z;
  p_alarm : Z;
  p_nice : Z;
  p_queue_next : option nat; p_queue_prev : option nat;
  p_root_fs : option nat; p_root_inode : generic_inode;
  p_cwd_fs : option nat; p_cwd_inode : generic_inode;
  p_file_table : nat → option nat;  (* NR_OPEN entries *)
  p_close_on_exec : Z
}.
#[export] Instance process_eta : Eta process := λ p, MkProcess
  (p_pid p) (p_ppid p) (p_uid p) (p_euid p) (p_suid p) (p_gid p) (p_egid p) (p_sgid p)
  (p_umask p) (p_state p) (p_tty p) (p_tty_block p) (p_priority p) (p_quanta p)
  (p_counter p) (p_exit_code p) (p_sleeping_on p) (p_pgrp p) (p_sighandlers p)
  (p_sigpending p) (p_sigrestorer p) (p_alarm p) (p_nice p) (p_queue_next p)
  (p_queue_prev p) (p_root_fs p) (p_root_inode p) (p_cwd_fs p) (p_cwd_inode p)
  (p_file_table p) (p_close_on_exec p).

Record file := MkFile {
  f_fs : option nat; f_inode : Z; f_pos : Z; f_mode : Z; f_flags : Z; f_count : Z
}.
#[export] Instance file_eta : Eta file := λ f,
  MkFile (f_fs f) (f_inode f) (f_pos f) (f_mode f) (f_flags f) (f_count f).

Record generic_filesystem := MkFs { fs_kind : Z; fs_dev : Z; fs_read_only : bool }.

(** The CPU part that the scheduler touches: the interrupt flag, whose saved state is
    [current_cpu_state], and the interrupt flag saved there by [disable_intr]. *)
Record cpu := MkCpu { intr : bool; cpu_state : Z; kernel_eflags : Z → bool }.
#[export] Instance cpu_eta : Eta cpu := λ c, MkCpu (intr c) (cpu_state c) (kernel_eflags c).

Record kernel := MkKernel {
  process_table : nat → process;
  current_process : nat;
  process_queues : nat → option nat;   (* PROC_QUANTA entries *)
  last_pid : Z;
  timer_ticks : Z;
  startup_time : Z;
  signal_table : nat → sig_def_action; (* NSIG entries *)
  file_table : nat → file;             (* NR_FILE entries *)
  mount_table : nat → option nat;      (* NR_MOUNTS entries: filesystem structures *)
  nr_mounts : nat;
  filesystems : nat → generic_filesystem;
  user_mem : Z → Z;                    (* 32-bit words of user space *)
  k_cpu : cpu
}.
#[export] Instance kernel_eta : Eta kernel := λ k, MkKernel
  (process_table k) (current_process k) (process_queues k) (last_pid k) (timer_ticks k)
  (startup_time k) (signal_table k) (file_table k) (mount_table k) (nr_mounts k)
  (filesystems k) (user_mem k) (k_cpu k).

Definition K (A : Type) : Type := M kernel A.

(** ** Access to the current process and to the process table *)
Definition cur (k : kernel) : process := process_table k (current_process k).
Definition set_proc (i : nat) (f : process → process) (k : kernel) : kernel :=
  k <| process_table ::= λ t, <[i := f (t i)]> t |>.
Definition upd_proc (i : nat) (f : process → process) : K unit := modify (set_proc i f).
Definition upd_cur (f : process → process) : K unit :=
  i ← gets current_process; upd_proc i f.

(** [CURRENT_TIME] *)
Definition CURRENT_TIME (k : kernel) : Z := u32 (startup_time k + timer_ticks k / HZ).

Definition all_procs : list nat := seq 0 NR_PROC.
#[global] Arguments all_procs : simpl never.

Lemma set_proc_eq i f k : process_table (set_proc i f k) i = f (process_table k i).
Proof. unfold set_proc. rec_simpl. apply fn_insert_eq. Qed.
Lemma set_proc_ne i j f k : i ≠ j → process_table (set_proc i f k) j = process_table k j.
Proof. intros. unfold set_proc. rec_simpl. by apply fn_insert_ne. Qed.
Lemma set_proc_lookup i j f k :
  process_table (set_proc i f k) j =
    if decide (i = j) then f (process_table k j) else process_table k j.
Proof. case_decide; [subst; apply set_proc_eq|by apply set_proc_ne]. Qed.
Lemma set_proc_current i f k : current_process (set_proc i f k) = current_process k.
Proof. done. Qed.
Lemma set_proc_queues i f k : process_queues (set_proc i f k) = process_queues k.
Proof. done. Qed.
#[export] Hint Rewrite set_proc_eq set_proc_current set_proc_queues : yak.
#[export] Hint Rewrite set_proc_ne using done : yak.

Lemma all_procs_elem i : i ∈ all_procs ↔ (i < NR_PROC)%nat.
Proof. unfold all_procs. rewrite seq_elem. lia. Qed.

(** The contents of the tables at boot (zero-initialised data). *)
Definition process_zero : process :=
  MkProcess 0 0 0 0 0 0 0 0 0 PROC_EXITED 0 0 0 0 0 0 None (MkPgrp false 0 0) (λ _, SIG_DFL)
    0 0 0 0 None None None (MkGInode 0 0) None (MkGInode 0 0) (λ _, None) 0.
Definition file_zero : file := MkFile None 0 0 0 0 0.
Definition kernel_zero : kernel :=
  MkKernel (λ _, process_zero) 0 (λ _, None) 0 0 0 (λ _, SIGACTION_T) (λ _, file_zero)
    (λ _, None) 0 (λ _, MkFs 0 0 false) (λ _, 0) (MkCpu true 0 (λ _, false)).

(** ** User space

    What the page tables say about a user pointer (sys/arch/i386/virtual_mm.c): whether
    the page of the address is present and accessible from user mode. *)
Class UserSpace := { check_user_ptr : kernel → Z → bool }.
Definition put_ulong (a v : Z) : K unit := modify (λ k, k <| user_mem ::= <[a := u32 v]> |>).
Definition get_ulong (a : Z) : K Z := gets (λ k, user_mem k a).
(** [ptr == NULL || !check_user_ptr(ptr)] *)
Definition bad_ptr `{UserSpace} (k : kernel) (p : Z) : bool := (p =? 0) || negb (check_user_ptr k p).
