(* ===== verification/Ids.v ===== *)
(** Identity of processes: user and group ids, sessions, process groups, the file mode mask
    and the time of day (sys/kernel/sys.c). *)
From S2P Require Import Prelude Proc.

(** ** Operations *)

Definition kernel_getuid : K Z := gets (λ k, p_uid (cur k)).
Definition kernel_geteuid : K Z := gets (λ k, p_euid (cur k)).
Definition kernel_getgid : K Z := gets (λ k, p_gid (cur k)).
Definition kernel_getegid : K Z := gets (λ k, p_egid (cur k)).

Definition kernel_setuid (uid : Z) : K Z :=
  p ← gets cur;
  if (p_uid p =? 0) || (p_euid p =? 0) then
    upd_cur (λ p, p <| p_uid := uid |>) ;;
    upd_cur (λ p, p <| p_euid := uid |>) ;;
    upd_cur (λ p, p <| p_suid := uid |>) ;;
    mret 0
  else if (uid =? p_uid p) || (uid =? p_suid p) then
    upd_cur (λ p, p <| p_euid := uid |>) ;; mret 0
  else mret (- EPERM).

Definition kernel_setgid (gid : Z) : K Z :=
  p ← gets cur;
  if (p_uid p =? 0) || (p_euid p =? 0) then
    upd_cur (λ p, p <| p_gid := gid |>) ;;
    upd_cur (λ p, p <| p_egid := gid |>) ;;
    upd_cur (λ p, p <| p_sgid := gid |>) ;;
    mret 0
  else if (gid =? p_gid p) || (gid =? p_sgid p) then
    upd_cur (λ p, p <| p_egid := gid |>) ;; mret 0
  else mret (- EPERM).

Definition kernel_setsid : K Z :=
  p ← gets cur;
  if leader (p_pgrp p) then mret (- EPERM)
  else
    upd_cur (λ p, p <| p_pgrp ::= λ g, g <| leader := true |> |>) ;;
    upd_cur (λ p, p <| p_pgrp ::= λ g, g <| sid := p_pid p |> |>) ;;
    upd_cur (λ p, p <| p_pgrp ::= λ g, g <| pgid := p_pid p |> |>) ;;
    upd_cur (λ p, p <| p_tty := -1 |>) ;;
    gets (λ k, pgid (p_pgrp (cur k))).

Definition not_exited (p : process) : bool := negb (bool_decide (p_state p = PROC_EXITED)).

(** The first process of the table with a property. *)
Fixpoint find_proc (P : process → bool) (k : kernel) (l : list nat) : option nat :=
  match l with
  | [] => None
  | i :: l => if P (process_table k i) then Some i else find_proc P k l
  end.

(** For [pid = 0] the session of the caller is computed and then overwritten by the
    search, which does not exclude that case. *)
Definition kernel_getsid (pid : Z) : K Z :=
  k ← get;
  match find_proc (λ p, not_exited p && (p_pid p =? pid)) k all_procs with
  | None => mret (- ESRCH)
  | Some i =>
      let s := sid (p_pgrp (process_table k i)) in
      match find_proc (λ p, not_exited p && leader (p_pgrp p) && (sid (p_pgrp p) =? s)) k all_procs with
      | Some j => mret (pgid (p_pgrp (process_table k j)))
      | None => mret (- ESRCH)
      end
  end.

Definition kernel_umask (cmask : Z) : K Z :=
  old ← gets (λ k, p_umask (cur k));
  upd_cur (λ p, p <| p_umask := Z.land cmask 511 |>) ;;
  mret old.

Definition kernel_time `{UserSpace} (tloc : Z) : K Z :=
  k ← get;
  if negb (tloc =? 0) then
    if negb (check_user_ptr k tloc) then mret (- EFAULT)
    else put_ulong tloc (CURRENT_TIME k) ;; gets CURRENT_TIME
  else gets CURRENT_TIME.

Definition kernel_stime `{UserSpace} (tloc : Z) : K Z :=
  k ← get;
  if (tloc =? 0) || negb (check_user_ptr k tloc) then mret (- EFAULT)
  else if (p_uid (cur k) =? 0) && (p_euid (cur k) =? 0) then
    t ← get_ulong tloc;
    modify (λ k, k <| startup_time := u32 t |>) ;; mret 0
  else mret (- EPERM).

Definition kernel_setpgid (pid pgid' : Z) : K Z :=
  k ← get;
  if pgid' <? 0 then mret (- EINVAL) else
  let pid := if pid =? 0 then p_pid (cur k) else pid in
  let pgid' := if pgid' =? 0 then pid else pgid' in
  if pid =? p_pid (cur k) then
    if leader (p_pgrp (cur k)) then mret (- EPERM)
    else upd_cur (λ p, p <| p_pgrp ::= λ g, g <| pgid := pgid' |> |>) ;; mret 0
  else
    match find_proc (λ p, (p_pid p =? pid) && (p_ppid p =? p_pid (cur k))) k all_procs with
    | None => mret (- ESRCH)
    | Some i =>
        let p := process_table k i in
        if leader (p_pgrp p) then mret (- EPERM)
        else if negb (sid (p_pgrp p) =? sid (p_pgrp (cur k))) then mret (- EPERM)
        else upd_proc i (λ p, p <| p_pgrp ::= λ g, g <| pgid := pgid' |> |>) ;; mret 0
    end.

Definition kernel_getpid : K Z := gets (λ k, p_pid (cur k)).
Definition kernel_getppid : K Z := gets (λ k, p_ppid (cur k)).

Definition kernel_getpgid (pid : Z) : K Z :=
  k ← get;
  if pid <? 0 then mret (- EINVAL) else
  if pid =? 0 then mret (pgid (p_pgrp (cur k))) else
  match find_proc (λ p, p_pid p =? pid) k all_procs with
  | None => mret (- ESRCH)
  | Some i =>
      if negb (sid (p_pgrp (process_table k i)) =? sid (p_pgrp (cur k))) then mret (- EPERM)
      else mret (pgid (p_pgrp (process_table k i)))
  end.
Definition kernel_getpgrp : K Z := gets (λ k, pgid (p_pgrp (cur k))).

(** ** Sequences of calls by one process *)

Inductive id_call : Type := Setuid (uid : Z) | Setgid (gid : Z) | Setsid | Setpgid (pid pgid' : Z) | Umask (m : Z).
Definition run_id (c : id_call) : K Z :=
  match c with
  | Setuid uid => kernel_setuid uid
  | Setgid gid => kernel_setgid gid
  | Setsid => kernel_setsid
  | Setpgid pid pgid' => kernel_setpgid pid pgid'
  | Umask m => kernel_umask m
  end.
Inductive id_steps : kernel → kernel → Prop :=
  | ids_done k : id_steps k k
  | ids_call k c r k1 k2 : run_id c k = Ok (r, k1) → id_steps k1 k2 → id_steps k k2.

(** The user and group ids a process may assume without privilege. *)
Definition uids (p : process) : list Z := [p_uid p; p_euid p; p_suid p].
Definition gids (p : process) : list Z := [p_gid p; p_egid p; p_sgid p].
Definition privileged (p : process) : bool := (p_uid p =? 0) || (p_euid p =? 0).

(** [p'] is [p] with no other ids than those it had: only the effective ones may have changed. *)
Record no_new_ids (p p' : process) : Prop := {
  nn_uid : p_uid p' = p_uid p;
  nn_suid : p_suid p' = p_suid p;
  nn_gid : p_gid p' = p_gid p;
  nn_sgid : p_sgid p' = p_sgid p;
  nn_euid : p_euid p' ∈ uids p;
  nn_egid : p_egid p' ∈ gids p
}.
Lemma same_ids p p' : uids p' = uids p → gids p' = gids p → no_new_ids p p'.
Proof. intros [= E1 E2 E3] [= G1 G2 G3]. split; try done; unfold uids, gids; [rewrite E2|rewrite G2]; set_solver. Qed.
#[export] Instance no_new_ids_refl : Reflexive no_new_ids.
Proof. intros p. by apply same_ids. Qed.
Lemma no_new_ids_uids p p' x : no_new_ids p p' → x ∈ uids p' → x ∈ uids p.
Proof. intros [Hu Hs _ _ He _]. unfold uids in *. rewrite Hu, Hs. set_solver. Qed.
Lemma no_new_ids_gids p p' x : no_new_ids p p' → x ∈ gids p' → x ∈ gids p.
Proof. intros [_ _ Hg Hs _ He]. unfold gids in *. rewrite Hg, Hs. set_solver. Qed.
#[export] Instance no_new_ids_trans : Transitive no_new_ids.
Proof.
  intros p p1 p2 H1 H2. pose proof (no_new_ids_uids _ _ (p_euid p2) H1). pose proof (no_new_ids_gids _ _ (p_egid p2) H1).
  destruct H1, H2. split; try congruence; auto.
Qed.

Lemma cur_set_cur f k : cur (set_proc (current_process k) f k) = f (cur k).
Proof. unfold cur. by rewrite set_proc_current, set_proc_eq. Qed.
(** A change to some process that leaves its ids alone. *)
Lemma ids_unchanged f k i : (∀ p, uids (f p) = uids p) → (∀ p, gids (f p) = gids p) →
  no_new_ids (cur k) (cur (set_proc i f k)).
Proof. intros Hu Hg. apply same_ids; unfold cur; rewrite set_proc_current, set_proc_lookup; by case_decide. Qed.

Lemma setuid_unprivileged uid k r k1 : privileged (cur k) = false → kernel_setuid uid k = Ok (r, k1) →
  no_new_ids (cur k) (cur k1).
Proof.
  intros Hp Hr. unfold kernel_setuid in Hr. change ((gets ?f ≫= ?m) k) with (m (f k) k) in Hr. cbv beta in Hr.
  unfold privileged in Hp. rewrite Hp in Hr. destruct (_ || _) eqn:Hu in Hr; injection Hr as <- <-; [|done].
  rewrite cur_set_cur. apply orb_true_iff in Hu. rewrite !Z.eqb_eq in Hu.
  split; try done; unfold uids, gids; rec_simpl; [|set_solver]. destruct Hu as [-> | ->]; set_solver.
Qed.
Lemma setgid_unprivileged gid k r k1 : privileged (cur k) = false → kernel_setgid gid k = Ok (r, k1) →
  no_new_ids (cur k) (cur k1).
Proof.
  intros Hp Hr. unfold kernel_setgid in Hr. change ((gets ?f ≫= ?m) k) with (m (f k) k) in Hr. cbv beta in Hr.
  unfold privileged in Hp. rewrite Hp in Hr. destruct (_ || _) eqn:Hu in Hr; injection Hr as <- <-; [|done].
  rewrite cur_set_cur. apply orb_true_iff in Hu. rewrite !Z.eqb_eq in Hu.
  split; try done; unfold uids, gids; rec_simpl; [set_solver|]. destruct Hu as [-> | ->]; set_solver.
Qed.
(** Ids that are neither the real nor the saved one are refused. *)
Lemma setuid_refused uid k : privileged (cur k) = false → (uid =? p_uid (cur k)) || (uid =? p_suid (cur k)) = false →
  kernel_setuid uid k = Ok (- EPERM, k).
Proof.
  intros Hp H. unfold kernel_setuid. change ((gets ?f ≫= ?m) k) with (m (f k) k). cbv beta.
  unfold privileged in Hp. by rewrite Hp, H.
Qed.
Lemma setgid_refused gid k : privileged (cur k) = false → (gid =? p_gid (cur k)) || (gid =? p_sgid (cur k)) = false →
  kernel_setgid gid k = Ok (- EPERM, k).
Proof.
  intros Hp H. unfold kernel_setgid. change ((gets ?f ≫= ?m) k) with (m (f k) k). cbv beta.
  unfold privileged in Hp. by rewrite Hp, H.
Qed.
Lemma setuid_own uid k : privileged (cur k) = false → (uid =? p_uid (cur k)) || (uid =? p_suid (cur k)) = true →
  kernel_setuid uid k = Ok (0, set_proc (current_process k) (λ p, p <| p_euid := uid |>) k).
Proof.
  intros Hp H. unfold kernel_setuid. change ((gets ?f ≫= ?m) k) with (m (f k) k). cbv beta.
  unfold privileged in Hp. by rewrite Hp, H.
Qed.
Lemma setgid_own gid k : privileged (cur k) = false → (gid =? p_gid (cur k)) || (gid =? p_sgid (cur k)) = true →
  kernel_setgid gid k = Ok (0, set_proc (current_process k) (λ p, p <| p_egid := gid |>) k).
Proof.
  intros Hp H. unfold kernel_setgid. change ((gets ?f ≫= ?m) k) with (m (f k) k). cbv beta.
  unfold privileged in Hp. by rewrite Hp, H.
Qed.
Lemma run_id_unprivileged c k r k1 : privileged (cur k) = false → run_id c k = Ok (r, k1) → no_new_ids (cur k) (cur k1).
Proof.
  intros Hp Hr. destruct c as [uid|gid| |pid pgid'|m]; simpl in Hr.
  - by eapply setuid_unprivileged.
  - by eapply setgid_unprivileged.
  - unfold kernel_setsid in Hr. change ((gets ?f ≫= ?m) k) with (m (f k) k) in Hr. cbv beta in Hr.
    destruct (leader _); injection Hr as <- <-; [done|]. unfold cur. rewrite !set_proc_current, !set_proc_eq. by apply same_ids.
  - unfold kernel_setpgid in Hr. change ((get ≫= ?m) k) with (m k k) in Hr. cbv beta zeta in Hr.
    destruct (pgid' <? 0); [by injection Hr as <- <-|].
    set (pid1 := if pid =? 0 then _ else pid) in *. set (pgid1 := if pgid' =? 0 then _ else pgid') in *.
    destruct (pid1 =? p_pid (cur k)).
    + destruct (leader _); injection Hr as <- <-; [done|by apply ids_unchanged].
    + destruct (find_proc _ _ _) as [i|]; [|by injection Hr as <- <-].
      destruct (leader _); [by injection Hr as <- <-|]. destruct (negb _); injection Hr as <- <-; [done|].
      by apply ids_unchanged.
  - injection Hr as <- <-. by apply ids_unchanged.
Qed.
(** Nobody but a process whose saved user id is 0 becomes privileged again. *)
Lemma still_unprivileged p p' : privileged p = false → p_suid p ≠ 0 → no_new_ids p p' → privileged p' = false.
Proof.
  unfold privileged. rewrite !orb_false_iff, !Z.eqb_neq. intros [Hu He] Hs [-> _ _ _ Hin _]. split; [done|].
  intros E. rewrite E in Hin. unfold uids in Hin. set_solver.
Qed.
Lemma id_steps_unprivileged k k' : id_steps k k' → privileged (cur k) = false → p_suid (cur k) ≠ 0 →
  no_new_ids (cur k) (cur k').
Proof.
  induction 1 as [k|k c r k1 k2 Hr _ IH]; intros Hp Hs; [done|].
  pose proof (run_id_unprivileged c k r k1 Hp Hr) as H1. etrans; [exact H1|]. apply IH.
  - by eapply still_unprivileged.
  - by rewrite (nn_suid _ _ H1).
Qed.

(** ** Properties *)

(** A system of processes of user 1000 with saved user 1001, and likewise for the groups. *)
Definition user_kernel : kernel :=
  kernel_zero <| process_table := λ i, process_zero <| p_state := PROC_RUNNING |> <| p_pid := Z.of_nat i |>
    <| p_uid := 1000 |> <| p_euid := 1000 |> <| p_suid := 1001 |>
    <| p_gid := 100 |> <| p_egid := 100 |> <| p_sgid := 101 |> |>.

(** C39: No privilege escalation. A process none of whose user ids is 0 can make whatever calls of
    setuid, setgid, setsid, setpgid and umask, with any arguments and in any order: its real and
    saved user and group ids stay, its effective user id is always one of the three user ids it
    started with and its effective group id one of the three group ids; so it is never privileged,
    and it is in group 0 only if one of its groups was that from the start. *)
Theorem no_privilege_escalation k k' : id_steps k k' → 0 ∉ uids (cur k) →
  p_uid (cur k') = p_uid (cur k) ∧ p_suid (cur k') = p_suid (cur k) ∧ p_euid (cur k') ∈ uids (cur k) ∧
  p_gid (cur k') = p_gid (cur k) ∧ p_sgid (cur k') = p_sgid (cur k) ∧ p_egid (cur k') ∈ gids (cur k) ∧
  (0 ∉ uids (cur k')) ∧ (0 ∉ gids (cur k) → 0 ∉ gids (cur k')).
Proof.
  intros Hs H0. assert (p_uid (cur k) ≠ 0 ∧ p_euid (cur k) ≠ 0 ∧ p_suid (cur k) ≠ 0) as (Hu & He & Hsu)
    by (unfold uids in H0; set_solver).
  assert (no_new_ids (cur k) (cur k')) as N.
  { apply id_steps_unprivileged; [done| |done]. unfold privileged. by rewrite orb_false_iff, !Z.eqb_neq. }
  pose proof (no_new_ids_uids _ _ 0 N). pose proof (no_new_ids_gids _ _ 0 N). destruct N. split_and!; auto.
Qed.
(** The user takes its saved ids as the effective ones; user and group 0 are refused. *)
Lemma no_privilege_escalation_witness : ∃ k1 k2,
  kernel_setuid 1001 user_kernel = Ok (0, k1) ∧ kernel_setgid 101 k1 = Ok (0, k2) ∧
  kernel_setgid 0 k2 = Ok (- EPERM, k2) ∧ kernel_setuid 0 k2 = Ok (- EPERM, k2) ∧
  p_euid (cur k2) ∈ [1000; 1000; 1001] ∧ (0 ∉ uids (cur k2)) ∧ 0 ∉ gids (cur k2).
Proof.
  pose proof (setuid_own 1001 user_kernel ltac:(by vm_compute) ltac:(by vm_compute)) as R1.
  set (k1 := set_proc _ _ _) in R1.
  pose proof (setgid_own 101 k1 ltac:(by vm_compute) ltac:(by vm_compute)) as R2.
  set (k2 := set_proc _ _ k1) in R2. exists k1, k2.
  pose proof (setgid_refused 0 k2 ltac:(by vm_compute) ltac:(by vm_compute)) as R3.
  pose proof (setuid_refused 0 k2 ltac:(by vm_compute) ltac:(by vm_compute)) as R4.
  destruct (no_privilege_escalation user_kernel k2) as (_ & _ & H & _ & _ & _ & H0 & H1).
  - apply (ids_call _ (Setuid 1001) _ _ _ R1). apply (ids_call _ (Setgid 101) _ _ _ R2).
    apply (ids_call _ (Setgid 0) _ _ _ R3). apply (ids_call _ (Setuid 0) _ _ _ R4). apply ids_done.
  - by apply (bool_decide_unpack _); vm_compute.
  - split; [exact R1|]. split; [exact R2|]. split; [exact R3|]. split; [exact R4|]. split; [exact H|]. split; [exact H0|].
    apply H1. by apply (bool_decide_unpack _); vm_compute.
Defined.

(** dropping privilege is final. When a process with user id 0 sets its user id to
    another one, all three ids change, and no later call brings any of them back to 0. *)
Theorem setuid_drops_for_good k k1 k' uid r : privileged (cur k) = true → uid ≠ 0 →
  kernel_setuid uid k = Ok (r, k1) → id_steps k1 k' →
  r = 0 ∧ uids (cur k') = [uid; uid; uid].
Proof.
  intros Hp Hu Hr Hs. unfold kernel_setuid in Hr.
  change ((gets ?f ≫= ?m) k) with (m (f k) k) in Hr. cbv beta in Hr.
  unfold privileged in Hp. rewrite Hp in Hr. injection Hr as <- <-. split; [done|].
  set (k1 := set_proc _ _ _) in Hs.
  assert (Hids : p_uid (cur k1) = uid ∧ p_euid (cur k1) = uid ∧ p_suid (cur k1) = uid).
  { unfold cur, k1. rewrite !set_proc_current, !set_proc_eq. done. }
  clearbody k1. destruct Hids as (H1 & H2 & H3).
  destruct (id_steps_unprivileged k1 k' Hs) as [Hu' Hs' _ _ He _]; [|by rewrite H3|].
  - unfold privileged. rewrite H1, H2. apply orb_false_iff. by rewrite !Z.eqb_neq.
  - unfold uids in *. rewrite H1, H2, H3 in He. rewrite Hu', Hs', H1, H3.
    assert (p_euid (cur k') = uid) as -> by set_solver. done.
Qed.
Lemma setuid_drops_for_good_witness :
  ∃ k1, kernel_setuid 1000 kernel_zero = Ok (0, k1) ∧ uids (cur k1) = [1000; 1000; 1000].
Proof.
  eexists. split; [reflexivity|].
  by eapply (setuid_drops_for_good kernel_zero _ _ 1000 0); [..|apply ids_done].
Defined.

(** the answer to [getsid(0)] does not depend on the caller: the search overwrites
    the caller's session with that of the process whose id is 0, the idle process. *)
Theorem getsid_zero_ignores_caller k i : 
  not_exited (process_table k 0) = true → p_pid (process_table k 0) = 0 →
  ∃ r, kernel_getsid 0 k = Ok (r, k) ∧
    kernel_getsid 0 (k <| current_process := i |>) = Ok (r, k <| current_process := i |>).
Proof.
  intros He Hp. unfold kernel_getsid.
  change ((get ≫= ?m) ?k) with (m k k). cbv beta.
  assert (Hfp : ∀ P l, find_proc P (k <| current_process := i |>) l = find_proc P k l).
  { intros P. induction l as [|j l IH]; [done|]. simpl. by rewrite IH. }
  rewrite !Hfp. assert (Hf0 : find_proc (λ p, not_exited p && (p_pid p =? 0)) k all_procs = Some 0%nat).
  { unfold all_procs, NR_PROC. cbn [seq find_proc]. by rewrite He, Hp. }
  rewrite Hf0. clear Hf0. cbv zeta. rewrite Hfp.
  destruct (find_proc _ k all_procs) as [j|]; eexists; split; reflexivity.
Qed.
Lemma getsid_zero_ignores_caller_witness :
  ∃ r, kernel_getsid 0 (user_kernel <| current_process := 5%nat |>) = Ok (r, user_kernel <| current_process := 5%nat |>).
Proof.
  destruct (getsid_zero_ignores_caller user_kernel 5%nat) as (r & _ & H); [done|done|]. by exists r.
Defined.

(** setting the clock. [kernel_stime] needs both the real and the effective user id
    to be 0 and otherwise changes nothing; after it succeeds with a time [t],
    [kernel_time] does not answer [t] but [t] plus the time the system has been up, since
    the startup time is set and not the current one. *)
Theorem stime_then_time `{UserSpace} k tloc r k' : kernel_stime tloc k = Ok (r, k') →
  (r < 0 ∧ k' = k ∨ r = 0 ∧ p_uid (cur k) = 0 ∧ p_euid (cur k) = 0 ∧
     kernel_time 0 k' = Ok (u32 (user_mem k tloc + timer_ticks k / HZ), k')).
Proof.
  unfold kernel_stime. change ((get ≫= ?m) ?k) with (m k k). cbv beta.
  destruct (_ || _); [intros [= <- <-]; by left|].
  destruct (Z.eqb_spec (p_uid (cur k)) 0), (Z.eqb_spec (p_euid (cur k)) 0); simpl;
    intros [= <- <-]; try (by left). right. do 3 (split; [done|]).
  unfold kernel_time, CURRENT_TIME. change ((get ≫= ?m) ?k) with (m k k). simpl.
  unfold gets. do 2 f_equal. apply u32_add_l.
Qed.
Lemma stime_then_time_witness :
  let _ := {| check_user_ptr _ _ := true |} in
  kernel_time 0 (kernel_zero <| timer_ticks := 500 |> <| user_mem := λ _, 1000 |> <| startup_time := 1000 |>)
    = Ok (1005, kernel_zero <| timer_ticks := 500 |> <| user_mem := λ _, 1000 |> <| startup_time := 1000 |>).
Proof.
  intros U. destruct (stime_then_time (H := U) (kernel_zero <| timer_ticks := 500 |> <| user_mem := λ _, 1000 |>)
    4096 0 (kernel_zero <| timer_ticks := 500 |> <| user_mem := λ _, 1000 |> <| startup_time := 1000 |>))
    as [[? _]|(_ & _ & _ & ->)]; [reflexivity|lia|reflexivity].
Defined.
