(* ===== verification/Files.v ===== *)
(** Open files and the file system calls (sys/fs/sys1.c, sys/fs/fcntl.c,
    sys/fs/filesystem.c).

    The calls act on the kernel tables and on the state of a filesystem driver, which they
    reach through the table of functions [struct fs_driver_ops]: here the class
    [FsDriver]. What the calls rely on is the class [FsDriverLaws]. *)
From S2P Require Import Prelude Proc.

(** ** The filesystem driver *)

(** [struct fs_driver_ops]. A path or a buffer is a user address. An operation may change
    the kernel (positions of files, inodes of the process) and the driver's own state
    [D]. An inode is an address, 0 is null; [fs_open] also gives the error of [*err]. *)
Class FsDriver (D : Type) := {
  fs_raw_iput : Z → M (kernel * D) unit;
  fs_raw_namei : Z → M (kernel * D) (Z * Z);
  fs_raw_get_mode : Z → M (kernel * D) Z;
  fs_raw_permission : Z → Z → M (kernel * D) Z;
  fs_get_attribute : nat → Z → M (kernel * D) Z;
  fs_open : Z → Z → Z → M (kernel * D) (Z * Z);
  fs_read : nat → Z → Z → M (kernel * D) Z;
  fs_write : nat → Z → Z → M (kernel * D) Z;
  fs_sync : nat → M (kernel * D) Z;
  fs_unlink : Z → M (kernel * D) Z;
  fs_lseek : nat → Z → Z → M (kernel * D) Z;
  fs_link : Z → Z → M (kernel * D) Z;
  fs_mknod : Z → Z → Z → M (kernel * D) Z;
  fs_close : nat → M (kernel * D) Z;
  fs_chdir : Z → M (kernel * D) Z;
  fs_chown : Z → Z → Z → M (kernel * D) Z;
  fs_chmod : Z → Z → M (kernel * D) Z;
  fs_fchmod : nat → Z → M (kernel * D) Z;
  fs_mkdir : Z → Z → M (kernel * D) Z;
  fs_rmdir : Z → M (kernel * D) Z;
  fs_chroot : Z → M (kernel * D) Z;
  fs_symlink : Z → Z → M (kernel * D) Z;
  fs_lchown : Z → Z → Z → M (kernel * D) Z;
  fs_rename : Z → Z → M (kernel * D) Z;
  fs_stat : Z → Z → M (kernel * D) Z;
  fs_lstat : Z → Z → M (kernel * D) Z;
  fs_fstat : nat → Z → M (kernel * D) Z;
  fs_access : Z → Z → M (kernel * D) Z;
  (** [buffer_sync], which [kernel_sync] calls after the drivers *)
  buffer_sync : M (kernel * D) unit
}.

(** The part of the kernel that a driver leaves alone: who runs, the processes with their
    descriptors and queues, and the reference counts of the open files. *)
Record same_files (k k' : kernel) : Prop := {
  sf_current : current_process k' = current_process k;
  sf_procs : process_table k' = process_table k;
  sf_queues : process_queues k' = process_queues k;
  sf_count f : f_count (file_table k' f) = f_count (file_table k f);
  sf_fs f : f_fs (file_table k' f) = f_fs (file_table k f)
}.
#[export] Instance same_files_preorder : PreOrder same_files.
Proof.
  split; [by intros k; split|]. intros k1 k2 k3 [H1 H2 H3 H4 H5] [G1 G2 G3 G4 G5].
  split; intros; congruence.
Qed.

Definition keeps_files {D A} (m : M (kernel * D) A) : Prop :=
  ∀ s a s', m s = Ok (a, s') → same_files (fst s) (fst s').

(** The promise of a driver to the calls below. It holds for a driver that is not interrupted by
    another process between its start and its end: for ext2 as long as the blocks it needs are in
    the buffer cache. FileSteps.v has the weaker [FsDriverRely] for one that sleeps. *)
Class FsDriverLaws (D : Type) `{FsDriver D} := {
  open_keeps path flags mode : keeps_files (fs_open path flags mode);
  close_keeps f : keeps_files (fs_close f);
  read_keeps f buf count : keeps_files (fs_read f buf count);
  write_keeps f buf count : keeps_files (fs_write f buf count);
  lseek_keeps f off whence : keeps_files (fs_lseek f off whence);
  iput_keeps i : keeps_files (fs_raw_iput i)
}.

Definition O_ACCMODE : Z := 3.
Definition O_RDONLY : Z := 0.
Definition O_WRONLY : Z := 1.
Definition O_CREAT : Z := 64.
Definition O_TRUNC : Z := 512.
Definition S_IFMT : Z := 61440.
Definition S_IFIFO : Z := 4096.
Definition S_IFCHR : Z := 8192.
Definition S_IFBLK : Z := 24576.
Definition S_IFREG : Z := 32768.
Definition S_IFSOCK : Z := 49152.
Definition F_DUPFD : Z := 0.
Definition F_GETFD : Z := 1.
Definition F_SETFD : Z := 2.
Definition F_GETFL : Z := 3.
Definition F_SETFL : Z := 4.
Definition F_GETLK : Z := 5.
Definition F_SETLK : Z := 6.
Definition F_SETLKW : Z := 7.
Definition F_SETOWN : Z := 8.
Definition F_GETOWN : Z := 9.
Definition F_DUPFD_CLOEXEC : Z := 1030.
Definition FD_CLOEXEC : Z := 1.
Definition F_OK : Z := 0.
Definition X_OK : Z := 1.
Definition W_OK : Z := 2.
Definition R_OK : Z := 4.

(** ** The mount table *)

Fixpoint find_fs (k : kernel) (dev : Z) (l : list nat) : option nat :=
  match l with
  | [] => None
  | i :: l =>
      match mount_table k i with
      | None => find_fs k dev l
      | Some fs => if fs_dev (filesystems k fs) =? dev then Some fs else find_fs k dev l
      end
  end.
Definition find_filesystem (dev : Z) (k : kernel) : option nat := find_fs k dev (seq 0 NR_MOUNTS).

Definition register_filesystem (fs : nat) : K (option nat) :=
  n ← gets nr_mounts;
  if decide (n = NR_MOUNTS) then mret None
  else
    modify (λ k, k <| mount_table ::= <[n := Some fs]> |> <| nr_mounts ::= S |>) ;;
    mret (Some fs).

Definition get_fs_from_path (path : Z) (k : kernel) : option nat :=
  if path =? 0 then None else mount_table k 0%nat.

(** ** The calls *)
Section calls.
Context {D : Type} `{DRV : FsDriver D} `{USP : UserSpace}.

Definition in_kernel {A} (m : K A) : M (kernel * D) A := zoom fst (λ k s, (k, snd s)) m.
Definition kget {A} (f : kernel → A) : M (kernel * D) A := gets (λ s, f (fst s)).

(** [current_process->file_table[fd]] *)
Definition fd_in_table (fd : Z) : bool := (0 <=? fd) && (fd <? Z.of_nat NR_OPEN).
Definition get_fd (fd : Z) : M (kernel * D) (option nat) :=
  if fd_in_table fd then kget (λ k, p_file_table (cur k) (Z.to_nat fd))
  else undef "file_table index out of range".
Definition set_fd (fd : Z) (v : option nat) : M (kernel * D) unit :=
  if fd_in_table fd
  then in_kernel (upd_cur (λ p, p <| p_file_table ::= <[Z.to_nat fd := v]> |>))
  else undef "file_table index out of range".
Definition upd_file (f : nat) (g : file → file) : M (kernel * D) unit :=
  in_kernel (modify (λ k, k <| file_table ::= λ t, <[f := g (t f)]> t |>)).

(** [fp->f_fs->f_driver]: a null pointer has no driver. *)
Definition with_fs {A} (f : nat) (m : M (kernel * D) A) : M (kernel * D) A :=
  fs ← kget (λ k, f_fs (file_table k f));
  match fs with Some _ => m | None => undef "null f_fs" end.

Fixpoint first_free_file (k : kernel) (l : list nat) : option nat :=
  match l with
  | [] => None
  | f :: l => if f_count (file_table k f) =? 0 then Some f else first_free_file k l
  end.
Definition get_free_file (k : kernel) : option nat := first_free_file k (seq 0 NR_FILE).

(** The loop runs to [NR_FILE], not [NR_OPEN]. *)
Fixpoint find_fd_loop (n i : nat) : M (kernel * D) Z :=
  match n with
  | O => mret (-1)
  | S n =>
      e ← get_fd (Z.of_nat i);
      match e with None => mret (Z.of_nat i) | Some _ => find_fd_loop n (S i) end
  end.
Definition find_fd : M (kernel * D) Z := find_fd_loop NR_FILE 0.

Definition kernel_open (path flags mode : Z) : M (kernel * D) Z :=
  bad ← kget (λ k, bad_ptr k path);
  if bad : bool then mret (- EINVAL) else
  fs ← kget (get_fs_from_path path);
  match fs with
  | None => mret (- EINVAL)
  | Some fs =>
      fd ← find_fd;
      if fd <? 0 then mret (- ENFILE) else
      fp ← kget get_free_file;
      match fp with
      | None => mret (- ENFILE)
      | Some fp =>
          upd_file fp (λ f, f <| f_fs := Some fs |>) ;;
          r ← fs_open path flags mode;
          upd_file fp (λ f, f <| f_inode := fst r |>) ;;
          if fst r =? 0 then mret (snd r) else
          set_fd fd (Some fp) ;;
          upd_file fp (λ f, f <| f_pos := 0 |>) ;;
          upd_file fp (λ f, f <| f_mode := mode |>) ;;
          upd_file fp (λ f, f <| f_flags := flags |>) ;;
          upd_file fp (λ f, f <| f_count := 1 |>) ;;
          mret fd
      end
  end.

Definition kernel_creat (path mode : Z) : M (kernel * D) Z :=
  kernel_open path (Z.lor (Z.lor O_WRONLY O_CREAT) O_TRUNC) mode.

(** [kernel_read] and [kernel_write]: [closed] is the access mode that forbids the call. *)
Definition kernel_rw (closed : Z) (op : nat → Z → Z → M (kernel * D) Z) (fd buf count : Z) : M (kernel * D) Z :=
  bad ← kget (λ k, bad_ptr k buf);
  if bad : bool then mret (- EFAULT) else
  if fd <? 0 then mret (- EBADF) else
  fp ← get_fd fd;
  match fp with
  | None => mret (- EBADF)
  | Some fp =>
      flags ← kget (λ k, f_flags (file_table k fp));
      if Z.land flags O_ACCMODE =? closed then mret (- EBADF) else
      if count =? 0 then mret 0 else with_fs fp (op fp buf count)
  end.
Definition kernel_read : Z → Z → Z → M (kernel * D) Z := kernel_rw O_WRONLY fs_read.
Definition kernel_write : Z → Z → Z → M (kernel * D) Z := kernel_rw O_RDONLY fs_write.

Definition kernel_sync : M (kernel * D) unit :=
  for_each (seq 0 NR_MOUNTS) (λ i,
    fs ← kget (λ k, mount_table k i);
    match fs with None => mret tt | Some fs => fs_sync fs ;; mret tt end) ;;
  buffer_sync.

Definition kernel_lseek (fd offset whence : Z) : M (kernel * D) Z :=
  if fd <? 0 then mret (- EBADF) else
  fp ← get_fd fd;
  match fp with
  | None => mret (- EBADF)
  | Some fp => with_fs fp (fs_lseek fp offset whence)
  end.

Definition kernel_close (fd : Z) : M (kernel * D) Z :=
  if (Z.of_nat NR_OPEN <=? fd) || (fd <? 0) then mret (- EBADF) else
  fp ← get_fd fd;
  match fp with
  | None => mret (- EBADF)
  | Some fp =>
      n ← kget (λ k, f_count (file_table k fp));
      if n =? 0 then panic "kernel_close: f_count == 0" else
      upd_file fp (λ f, f <| f_count ::= λ n, n - 1 |>) ;;
      with_fs fp (fs_close fp) ;;
      set_fd fd None ;;
      mret 0
  end.

(** *** Calls on paths: a check of the pointers, of the filesystem, of its being
    read-only, then the driver. *)

Definition kernel_unlink (path : Z) : M (kernel * D) Z :=
  bad ← kget (λ k, bad_ptr k path);
  if bad : bool then mret (- EFAULT) else
  fs ← kget (get_fs_from_path path);
  match fs with None => mret (- EINVAL) | Some _ => fs_unlink path end.

Definition kernel_link (path1 path2 : Z) : M (kernel * D) Z :=
  if (path1 =? 0) || (path2 =? 0) then mret (- EFAULT) else
  ok ← kget (λ k, check_user_ptr k path1 && check_user_ptr k path2);
  if negb ok then mret (- EFAULT) else
  fs1 ← kget (get_fs_from_path path1);
  fs2 ← kget (get_fs_from_path path2);
  if bool_decide (fs1 ≠ fs2) then mret (- EXDEV) else
  match fs1 with None => undef "null fs1" | Some _ => fs_link path1 path2 end.

Definition mknod_type_ok (mode : Z) : bool :=
  existsb (Z.eqb (Z.land mode S_IFMT)) [S_IFBLK; S_IFCHR; S_IFREG; S_IFSOCK; S_IFIFO].
Definition kernel_mknod (path mode dev : Z) : M (kernel * D) Z :=
  bad ← kget (λ k, bad_ptr k path);
  if bad : bool then mret (- EFAULT) else
  fs ← kget (get_fs_from_path path);
  match fs with
  | None => mret (- EINVAL)
  | Some _ => if mknod_type_ok mode then fs_mknod path mode dev else mret (- EINVAL)
  end.

Definition kernel_chdir (path : Z) : M (kernel * D) Z :=
  bad ← kget (λ k, bad_ptr k path);
  if bad : bool then mret (- EFAULT) else
  fs ← kget (get_fs_from_path path);
  match fs with
  | None => mret (- ENOENT)
  | Some fs => in_kernel (upd_cur (λ p, p <| p_cwd_fs := Some fs |>)) ;; fs_chdir path
  end.

(** The calls that a read-only filesystem refuses. *)
Definition on_writable_fs (path : Z) (op : M (kernel * D) Z) : M (kernel * D) Z :=
  bad ← kget (λ k, bad_ptr k path);
  if bad : bool then mret (- EFAULT) else
  fs ← kget (get_fs_from_path path);
  match fs with
  | None => mret (- EINVAL)
  | Some fs =>
      ro ← kget (λ k, fs_read_only (filesystems k fs));
      if ro : bool then mret (- EROFS) else op
  end.
Definition kernel_chown (name uid gid : Z) : M (kernel * D) Z := on_writable_fs name (fs_chown name uid gid).
Definition kernel_chmod (name mode : Z) : M (kernel * D) Z := on_writable_fs name (fs_chmod name mode).
Definition kernel_mkdir (path mode : Z) : M (kernel * D) Z := on_writable_fs path (fs_mkdir path mode).
Definition kernel_rmdir (path : Z) : M (kernel * D) Z := on_writable_fs path (fs_rmdir path).

Definition kernel_fchmod (fd mode : Z) : M (kernel * D) Z :=
  fp ← get_fd fd;
  match fp with
  | None => mret (- EBADF)
  | Some fp =>
      fs ← kget (λ k, f_fs (file_table k fp));
      match fs with
      | None => undef "null f_fs"
      | Some fs =>
          ro ← kget (λ k, fs_read_only (filesystems k fs));
          if ro : bool then mret (- EROFS) else fs_fchmod fp mode
      end
  end.

Definition kernel_chroot (path : Z) : M (kernel * D) Z :=
  bad ← kget (λ k, bad_ptr k path);
  if bad : bool then mret (- EFAULT) else
  fs ← kget (get_fs_from_path path);
  match fs with None => mret (- EINVAL) | Some _ => fs_chroot path end.

Definition kernel_symlink (path1 path2 : Z) : M (kernel * D) Z :=
  bad1 ← kget (λ k, bad_ptr k path1);
  if bad1 : bool then mret (- EFAULT) else
  bad2 ← kget (λ k, bad_ptr k path2);
  if bad2 : bool then mret (- EFAULT) else
  fs ← kget (get_fs_from_path path1);
  match fs with None => mret (- EINVAL) | Some _ => fs_symlink path1 path2 end.

Definition kernel_lchown (path uid gid : Z) : M (kernel * D) Z :=
  bad ← kget (λ k, bad_ptr k path);
  if bad : bool then mret (- EFAULT) else
  fs ← kget (get_fs_from_path path);
  match fs with None => mret (- EINVAL) | Some _ => fs_lchown path uid gid end.

Definition kernel_rename (old new : Z) : M (kernel * D) Z :=
  bad1 ← kget (λ k, bad_ptr k old);
  if bad1 : bool then mret (- EFAULT) else
  bad2 ← kget (λ k, bad_ptr k new);
  if bad2 : bool then mret (- EFAULT) else
  fs1 ← kget (get_fs_from_path old);
  match fs1 with
  | None => mret (- EINVAL)
  | Some f1 =>
      fs2 ← kget (get_fs_from_path new);
      match fs2 with
      | None => mret (- EINVAL)
      | Some f2 =>
          if decide (f1 ≠ f2) then mret (- EXDEV) else
          ro ← kget (λ k, fs_read_only (filesystems k f1));
          if ro : bool then mret (- EROFS) else fs_rename old new
      end
  end.

(** [kernel_stat] and [kernel_lstat] check the buffer, not the path. *)
Definition kernel_stat_with (op : Z → Z → M (kernel * D) Z) (path statp : Z) : M (kernel * D) Z :=
  bad ← kget (λ k, bad_ptr k statp);
  if bad : bool then mret (- EFAULT) else
  fs ← kget (get_fs_from_path path);
  match fs with None => mret (- EINVAL) | Some _ => op path statp end.
Definition kernel_stat : Z → Z → M (kernel * D) Z := kernel_stat_with fs_stat.
Definition kernel_lstat : Z → Z → M (kernel * D) Z := kernel_stat_with fs_lstat.

Definition kernel_fstat (fd statp : Z) : M (kernel * D) Z :=
  bad ← kget (λ k, bad_ptr k statp);
  if bad : bool then mret (- EFAULT) else
  if (fd <? 0) || (Z.of_nat NR_OPEN <=? fd) then mret (- EBADF) else
  fp ← get_fd fd;
  match fp with None => mret (- EBADF) | Some fp => with_fs fp (fs_fstat fp statp) end.

Definition flag (amode bit : Z) : bool := negb (Z.land amode bit =? 0).
Definition kernel_access (path amode : Z) : M (kernel * D) Z :=
  bad ← kget (λ k, bad_ptr k path);
  if bad : bool then mret (- EFAULT) else
  if negb (flag amode R_OK && flag amode W_OK && flag amode X_OK) && negb (amode =? F_OK)
  then mret (- EINVAL) else
  fs ← kget (get_fs_from_path path);
  match fs with
  | None => mret (- EINVAL)
  | Some fs =>
      ro ← kget (λ k, fs_read_only (filesystems k fs));
      if ro && flag amode W_OK then mret (- EROFS) else fs_access path amode
  end.

Definition filesystem_get_attr (dev cmd : Z) : M (kernel * D) Z :=
  fs ← kget (find_filesystem dev);
  match fs with None => mret 0 | Some fs => fs_get_attribute fs cmd end.

(** *** Descriptors (sys/fs/fcntl.c) *)

(** [for (fnew = file_table + new; fnew < file_table + NR_OPEN; fnew++)] *)
Fixpoint free_fd_from (n : nat) (fd : Z) : M (kernel * D) Z :=
  match n with
  | O => mret (Z.of_nat NR_OPEN)
  | S n =>
      if fd <? Z.of_nat NR_OPEN then
        e ← get_fd fd;
        match e with None => mret fd | Some _ => free_fd_from n (fd + 1) end
      else mret fd
  end.

Definition _dup (fd new : Z) (cloexec : bool) : M (kernel * D) Z :=
  if (fd <? 0) || (Z.of_nat NR_OPEN <=? fd) then mret (- EBADF) else
  old ← get_fd fd;
  match old with
  | None => mret (- EBADF)
  | Some old =>
      fnew ← free_fd_from (S NR_OPEN) new;
      if Z.of_nat NR_OPEN <=? fnew then mret (- EMFILE) else
      set_fd fnew (Some old) ;;
      upd_file old (λ f, f <| f_count ::= λ n, n + 1 |>) ;;
      (if cloexec then in_kernel (upd_cur (λ p, p <| p_close_on_exec ::= λ c, bit_clear c fnew |>))
       else mret tt) ;;
      mret fnew
  end.

Definition kernel_dup (fd : Z) : M (kernel * D) Z := _dup fd 0 false.

Definition kernel_dup2 (fd1 fd2 : Z) : M (kernel * D) Z :=
  if (fd2 <? 0) || (Z.of_nat NR_OPEN <=? fd2) then mret (- EBADF) else
  fp ← get_fd fd1;
  match fp with
  | Some _ =>
      if fd1 =? fd2 then mret fd1 else kernel_close fd2 ;; _dup fd1 fd2 false
  | None => mret (- EBADF)
  end.

Definition kernel_fcntl (fd cmd arg : Z) : M (kernel * D) Z :=
  if (fd <? 0) || (Z.of_nat NR_OPEN <=? fd) then mret (- EBADF) else
  fp ← get_fd fd;
  match fp with
  | None => mret (- EBADF)
  | Some fp =>
      if cmd =? F_DUPFD then _dup fd arg false
      else if cmd =? F_DUPFD_CLOEXEC then _dup fd arg true
      else if cmd =? F_GETFD then
        kget (λ k, Z.land (Z.shiftr (p_close_on_exec (cur k)) fd) 1)
      else if cmd =? F_SETFD then
        (if flag arg FD_CLOEXEC
         then in_kernel (upd_cur (λ p, p <| p_close_on_exec ::= λ c, bit_set c fd |>))
         else in_kernel (upd_cur (λ p, p <| p_close_on_exec ::= λ c, bit_clear c fd |>))) ;;
        mret 0
      else if cmd =? F_GETFL then kget (λ k, f_flags (file_table k fp))
      else if cmd =? F_SETFL then upd_file fp (λ f, f <| f_flags := arg |>) ;; mret 0
      else if existsb (Z.eqb cmd) [F_GETOWN; F_SETOWN; F_GETLK; F_SETLK; F_SETLKW]
      then mret (- ENOSYS)
      else mret (- EINVAL)
  end.
End calls.

(** ** References to open files *)

Definition one_if (b : bool) : Z := if b then 1 else 0.
(** Number of descriptors in a table that refer to the file [f]. *)
Definition fd_refs (t : nat → option nat) (f : nat) : Z :=
  zsum (λ fd, one_if (bool_decide (t fd = Some f))) (seq 0 NR_OPEN).
Definition exited (p : process) : bool := bool_decide (p_state p = PROC_EXITED).
Definition proc_refs (p : process) (f : nat) : Z :=
  if exited p then 0 else fd_refs (p_file_table p) f.
Definition refs (k : kernel) (f : nat) : Z :=
  zsum (λ i, proc_refs (process_table k i) f) all_procs.

Record files_wf (k : kernel) : Prop := {
  fw_count f : (f < NR_FILE)%nat → f_count (file_table k f) = refs k f;
  fw_range i fd f : (i < NR_PROC)%nat → exited (process_table k i) = false → (fd < NR_OPEN)%nat →
    p_file_table (process_table k i) fd = Some f →
    (f < NR_FILE)%nat ∧ f_fs (file_table k f) ≠ None;
  fw_current : (current_process k < NR_PROC)%nat ∧ exited (cur k) = false ∧
    p_state (cur k) ≠ PROC_ZOMBIE;
  fw_zombie i fd : (i < NR_PROC)%nat → p_state (process_table k i) = PROC_ZOMBIE →
    (fd < NR_OPEN)%nat → p_file_table (process_table k i) fd = None
}.

Lemma one_if_range b : 0 <= one_if b <= 1.
Proof. by destruct b. Qed.
Lemma fd_refs_nonneg t f : 0 <= fd_refs t f.
Proof. apply zsum_nonneg. intros. apply one_if_range. Qed.
Lemma fd_refs_insert t fd v f : (fd < NR_OPEN)%nat →
  fd_refs (<[fd := v]> t) f =
    fd_refs t f + one_if (bool_decide (v = Some f)) - one_if (bool_decide (t fd = Some f)).
Proof.
  intros Hfd. unfold fd_refs.
  rewrite (zsum_update (λ fd, one_if (bool_decide (t fd = Some f))) _ _ fd).
  - rewrite fn_insert_eq. lia.
  - apply NoDup_seq.
  - apply seq_elem. lia.
  - intros x Hx. by rewrite fn_insert_ne.
Qed.
Lemma fd_refs_pos t fd f : (fd < NR_OPEN)%nat → t fd = Some f → 1 <= fd_refs t f.
Proof.
  intros Hfd Ht. transitivity (one_if (bool_decide (t fd = Some f))).
  - by rewrite bool_decide_eq_true_2.
  - apply (zsum_pos (λ fd, one_if (bool_decide (t fd = Some f))) _ fd); [apply seq_elem; lia|].
    intros. apply one_if_range.
Qed.

Lemma proc_refs_nonneg p f : 0 <= proc_refs p f.
Proof. unfold proc_refs. case_match; [done|apply fd_refs_nonneg]. Qed.
Lemma refs_pos k i fd f : (i < NR_PROC)%nat → exited (process_table k i) = false →
  (fd < NR_OPEN)%nat → p_file_table (process_table k i) fd = Some f → 1 <= refs k f.
Proof.
  intros Hi He Hfd Ht. transitivity (proc_refs (process_table k i) f).
  - unfold proc_refs. rewrite He. by eapply fd_refs_pos.
  - apply (zsum_pos (λ i, proc_refs (process_table k i) f) _ i); [by apply all_procs_elem|].
    intros. apply proc_refs_nonneg.
Qed.
Lemma refs_update k k' i f : (i < NR_PROC)%nat →
  (∀ j, j ≠ i → proc_refs (process_table k' j) f = proc_refs (process_table k j) f) →
  refs k' f = refs k f + (proc_refs (process_table k' i) f - proc_refs (process_table k i) f).
Proof.
  intros Hi Hj. unfold refs.
  apply (zsum_update (λ i, proc_refs (process_table k i) f)
    (λ i, proc_refs (process_table k' i) f) _ i); [apply NoDup_seq| |done].
  by apply all_procs_elem.
Qed.
Lemma refs_ext k k' f :
  (∀ j, (j < NR_PROC)%nat → proc_refs (process_table k' j) f = proc_refs (process_table k j) f) →
  refs k' f = refs k f.
Proof. intros H. apply zsum_ext. intros j Hj%all_procs_elem. by apply H. Qed.

(** ** How the calls act on a well formed kernel *)

Definition set_file (f : nat) (g : file → file) (k : kernel) : kernel :=
  k <| file_table ::= λ t, <[f := g (t f)]> t |>.
Lemma set_file_lookup f g k f' :
  file_table (set_file f g k) f' = if decide (f = f') then g (file_table k f') else file_table k f'.
Proof.
  unfold set_file. rec_simpl. case_decide; [subst; apply fn_insert_eq|by apply fn_insert_ne].
Qed.

(** A kernel with the same descriptors and counts as far as the invariant sees. *)
Lemma files_wf_frame k k' : files_wf k → current_process k' = current_process k →
  (∀ i, p_state (process_table k' i) = p_state (process_table k i)) →
  (∀ i, p_file_table (process_table k' i) = p_file_table (process_table k i)) →
  (∀ f, f_count (file_table k' f) = f_count (file_table k f)) →
  (∀ f, f_fs (file_table k f) ≠ None → f_fs (file_table k' f) ≠ None) →
  files_wf k'.
Proof.
  intros [H1 H2 H3 H4] Hc Hs Ht Hn Hf.
  assert (He : ∀ i, exited (process_table k' i) = exited (process_table k i)).
  { intros i. unfold exited. by rewrite Hs. }
  split.
  - intros f Hfl. rewrite Hn, H1 by done. symmetry. apply refs_ext. intros j _.
    unfold proc_refs. by rewrite He, Ht.
  - intros i fd f Hi. rewrite He, Ht. intros. destruct (H2 i fd f) as [? ?]; auto.
  - unfold cur. rewrite Hc, He, Hs. apply H3.
  - intros i fd. rewrite Hs, Ht. apply H4.
Qed.
Lemma same_files_wf k k' : files_wf k → same_files k k' → files_wf k'.
Proof.
  intros H [H1 H2 H3 H4 H5]. eapply files_wf_frame; [exact H|done|..|done|]; rewrite ?H2; try done.
  intros f. by rewrite H5.
Qed.

(** Changing one descriptor of the current process together with the counts: what the
    descriptor referred to loses a reference, what it refers to now gains one. *)
Lemma files_wf_set_fd k k' fd v : files_wf k → (fd < NR_OPEN)%nat →
  let old := p_file_table (cur k) fd in
  current_process k' = current_process k →
  (∀ i, p_state (process_table k' i) = p_state (process_table k i)) →
  (∀ i, p_file_table (process_table k' i) =
     if decide (i = current_process k) then <[fd := v]> (p_file_table (process_table k i))
     else p_file_table (process_table k i)) →
  (∀ f, f_count (file_table k' f) = f_count (file_table k f)
     + one_if (bool_decide (v = Some f)) - one_if (bool_decide (old = Some f))) →
  (∀ f, v = Some f → (f < NR_FILE)%nat ∧ f_fs (file_table k' f) ≠ None) →
  (∀ f, f_fs (file_table k f) ≠ None → f_fs (file_table k' f) ≠ None) →
  files_wf k'.
Proof.
  intros [H1 H2 H3 H4] Hfd old Hc Hs Ht Hn Hv Hf. set (c := current_process k) in *.
  assert (He : ∀ i, exited (process_table k' i) = exited (process_table k i)).
  { intros i. unfold exited. by rewrite Hs. }
  destruct H3 as (Hcl & Hce & Hcz). split.
  - intros f Hfl. rewrite Hn, H1 by done. rewrite (refs_update k k' c) by
      (try done; intros j Hj; unfold proc_refs; by rewrite He, Ht, decide_False).
    unfold proc_refs. rewrite He, Ht, decide_True by done. fold c in old. unfold cur in Hce.
    fold c in Hce. rewrite Hce, fd_refs_insert by done. unfold old, cur. fold c. lia.
  - intros i fd' f Hi. rewrite He, Ht. intros Hie Hfd'. case_decide as Hic.
    + destruct (decide (fd = fd')) as [->|Hne].
      * rewrite fn_insert_eq. intros ->. by apply Hv.
      * rewrite fn_insert_ne by done. intros. destruct (H2 i fd' f) as [? ?]; auto.
    + intros. destruct (H2 i fd' f) as [? ?]; auto.
  - unfold cur. rewrite Hc, He, Hs. done.
  - intros i fd' Hi. rewrite Hs, Ht. intros Hz Hfd'. case_decide as Hic; [|by apply H4].
    destruct (decide (fd = fd')) as [->|Hne]; [|rewrite fn_insert_ne by done; by apply H4].
    rewrite fn_insert_eq. destruct v as [f|]; [|done]. exfalso.
    apply Hcz. unfold cur. fold c. by rewrite <- Hic.
Qed.

Section calls_ok.
Context {D : Type} `{DRV : FsDriver D} `{LAWS : !FsDriverLaws D} `{USP : UserSpace}.
Implicit Types (s : kernel * D).

Lemma kget_run {A B} (f : kernel → A) (m : A → M (kernel * D) B) s : (kget f ≫= m) s = m (f (fst s)) s.
Proof. done. Qed.
Lemma upd_file_run {B} f g (m : M (kernel * D) B) s :
  (upd_file f g ;; m) s = m (set_file f g (fst s), snd s).
Proof. done. Qed.
Lemma in_kernel_upd_cur {B} g (m : M (kernel * D) B) s :
  (in_kernel (upd_cur g) ;; m) s = m (set_proc (current_process (fst s)) g (fst s), snd s).
Proof. done. Qed.
Lemma mret_bind {A B} (a : A) (m : A → M (kernel * D) B) s : (mret a ≫= m) s = m a s.
Proof. done. Qed.

Definition fd_of (k : kernel) (fd : Z) : option nat := p_file_table (cur k) (Z.to_nat fd).
Definition put_fd (fd : Z) (v : option nat) (k : kernel) : kernel :=
  set_proc (current_process k) (λ p, p <| p_file_table ::= <[Z.to_nat fd := v]> |>) k.

#[local] Arguments put_fd : simpl never.
#[local] Arguments set_file : simpl never.

Lemma fd_in_table_spec fd : fd_in_table fd = true ↔ 0 <= fd < Z.of_nat NR_OPEN.
Proof. unfold fd_in_table. rewrite andb_true_iff, Z.leb_le, Z.ltb_lt. done. Qed.
Lemma get_fd_inv {B} fd (m : option nat → M (kernel * D) B) s r : (get_fd fd ≫= m) s = Ok r →
  0 <= fd < Z.of_nat NR_OPEN ∧ m (fd_of (fst s) fd) s = Ok r.
Proof.
  unfold get_fd. destruct (fd_in_table fd) eqn:Hf; [|done]. apply fd_in_table_spec in Hf. done.
Qed.
Lemma get_fd_run {B} fd (m : option nat → M (kernel * D) B) s : 0 <= fd < Z.of_nat NR_OPEN →
  (get_fd fd ≫= m) s = m (fd_of (fst s) fd) s.
Proof. intros H%fd_in_table_spec. unfold get_fd. by rewrite H. Qed.
Lemma set_fd_run {B} fd v (m : M (kernel * D) B) s : 0 <= fd < Z.of_nat NR_OPEN →
  (set_fd fd v ;; m) s = m (put_fd fd v (fst s), snd s).
Proof. intros H%fd_in_table_spec. unfold set_fd. rewrite H. done. Qed.
Lemma set_fd_inv {B} fd v (m : M (kernel * D) B) s r : (set_fd fd v ;; m) s = Ok r →
  0 <= fd < Z.of_nat NR_OPEN ∧ m (put_fd fd v (fst s), snd s) = Ok r.
Proof.
  unfold set_fd. destruct (fd_in_table fd) eqn:Hf; [|done]. apply fd_in_table_spec in Hf. done.
Qed.
Lemma with_fs_inv {A} f (m : M (kernel * D) A) s r : with_fs f m s = Ok r → m s = Ok r.
Proof. unfold with_fs. rewrite kget_run. by destruct (f_fs _). Qed.

(** One step of inverting a run of the calls. *)
Ltac call_inv H :=
  lazymatch type of H with
  | (kget _ ≫= _) _ = Ok _ => rewrite kget_run in H
  | (upd_file _ _ ;; _) _ = Ok _ => rewrite upd_file_run in H
  | (in_kernel (upd_cur _) ;; _) _ = Ok _ => rewrite in_kernel_upd_cur in H
  | (mret _ ≫= _) _ = Ok _ => rewrite mret_bind in H
  | (get_fd _ ≫= _) _ = Ok _ => apply get_fd_inv in H as [? H]
  | (set_fd _ _ ;; _) _ = Ok _ => apply set_fd_inv in H as [? H]
  | with_fs _ _ _ = Ok _ => apply with_fs_inv in H
  | mret _ _ = Ok _ => injection H as ? ?; subst
  | (if ?b then _ else _) _ = Ok _ => destruct b eqn:?
  | match ?o with _ => _ end _ = Ok _ => destruct o eqn:?
  | undef _ _ = Ok _ => discriminate H
  | panic _ _ = Ok _ => discriminate H
  end.
Ltac call_invs H := repeat call_inv H.

Definition keeps_wf {A} (m : M (kernel * D) A) : Prop :=
  ∀ s r s', files_wf (fst s) → m s = Ok (r, s') → files_wf (fst s').

Lemma set_file_wf k f g : files_wf k → (∀ x, f_count (g x) = f_count x) →
  (∀ x, f_fs x ≠ None → f_fs (g x) ≠ None) → files_wf (set_file f g k).
Proof.
  intros H Hc Hf. eapply files_wf_frame; [exact H|done..| |].
  - intros f'. rewrite set_file_lookup. by case_decide.
  - intros f'. rewrite set_file_lookup. case_decide; auto.
Qed.

Lemma put_fd_table fd v k i : p_file_table (process_table (put_fd fd v k) i) =
  if decide (i = current_process k) then <[Z.to_nat fd := v]> (p_file_table (process_table k i))
  else p_file_table (process_table k i).
Proof.
  unfold put_fd. rewrite set_proc_lookup. repeat case_decide; done || congruence.
Qed.
Lemma put_fd_state fd v k i : p_state (process_table (put_fd fd v k) i) = p_state (process_table k i).
Proof. unfold put_fd. rewrite set_proc_lookup. by case_decide. Qed.

Lemma refs_current k fd f : files_wf k → 0 <= fd < Z.of_nat NR_OPEN → fd_of k fd = Some f →
  (f < NR_FILE)%nat ∧ f_fs (file_table k f) ≠ None ∧ 1 <= f_count (file_table k f).
Proof.
  intros [H1 H2 (Hc & He & _) H4] Hfd Hf.
  destruct (H2 _ (Z.to_nat fd) f Hc He ltac:(lia) Hf) as [Hl Hfs].
  split; [done|]. split; [done|]. rewrite H1 by done.
  apply (refs_pos k (current_process k) (Z.to_nat fd)); try done. lia.
Qed.

(** [k1] is [k] after an update of the file [f] and work of the driver. *)
Lemma after_set_file f g k k1 : same_files (set_file f g k) k1 →
  current_process k1 = current_process k ∧
  (∀ i, p_state (process_table k1 i) = p_state (process_table k i)) ∧
  (∀ i, p_file_table (process_table k1 i) = p_file_table (process_table k i)) ∧
  (∀ f', f_count (file_table k1 f') = f_count (file_table (set_file f g k) f')) ∧
  (∀ f', f_fs (file_table k1 f') = f_fs (file_table (set_file f g k) f')).
Proof. intros [H1 H2 H3 H4 H5]. rewrite H2. done. Qed.

Lemma kernel_close_inv fd s r s' : files_wf (fst s) → kernel_close fd s = Ok (r, s') →
  r = - EBADF ∧ s' = s ∧ (0 <= fd < Z.of_nat NR_OPEN → fd_of (fst s) fd = None) ∨
  r = 0 ∧ files_wf (fst s') ∧ 0 <= fd < Z.of_nat NR_OPEN ∧ fd_of (fst s) fd ≠ None ∧
    current_process (fst s') = current_process (fst s) ∧
    ∀ i, p_file_table (process_table (fst s') i) =
      if decide (i = current_process (fst s))
      then <[Z.to_nat fd := None]> (p_file_table (process_table (fst s) i))
      else p_file_table (process_table (fst s) i).
Proof.
  intros Hwf H. unfold kernel_close in H. call_invs H.
  - left. split; [done|]. split; [done|]. lia.
  - right. apply bind_inv in H as (r' & s1 & H & H1). call_invs H. call_invs H1. cbn [fst snd] in *.
    apply close_keeps, after_set_file in H as (Hcur & Hst & Htab & Hcnt & Hfs).
    set (k := fst s) in *. destruct (refs_current k fd n Hwf) as (Hl & Hnf & Hc); [done|done|].
    split; [done|]. split; [|split; [done|split; [done|split; [done|]]]].
    + apply (files_wf_set_fd k _ (Z.to_nat fd) None Hwf); [lia|done|..|done|].
      * intros i. by rewrite put_fd_state.
      * intros i. by rewrite put_fd_table, Hcur, Htab.
      * intros f. change (file_table (put_fd fd None (fst s1)) f) with (file_table (fst s1) f).
        rewrite Hcnt, set_file_lookup. change (p_file_table (cur k) (Z.to_nat fd)) with (fd_of k fd).
        rewrite Heqo. destruct (decide (n = f)) as [->|Hne].
        -- rewrite (bool_decide_eq_true_2 (Some f = Some f)) by done. simpl. rec_simpl. lia.
        -- rewrite (bool_decide_eq_false_2 (Some n = Some f)) by congruence. simpl. lia.
      * intros f. change (file_table (put_fd fd None (fst s1)) f) with (file_table (fst s1) f).
        rewrite Hfs, set_file_lookup. by case_decide.
    + intros i. by rewrite put_fd_table, Hcur, Htab.
  - left. done.
Qed.
Lemma kernel_close_wf fd : keeps_wf (kernel_close fd).
Proof.
  intros s r s' Hwf H. destruct (kernel_close_inv fd s r s' Hwf H) as [(_ & -> & _)|(_ & ? & _)]; done.
Qed.

(** [free_fd_from] finds the lowest free descriptor from [fd] on. *)
Lemma free_fd_from_inv n : ∀ fd s r s', 0 <= fd → free_fd_from n fd s = Ok (r, s') →
  Z.of_nat NR_OPEN < fd + Z.of_nat n → (n = 0%nat → fd <= Z.of_nat NR_OPEN) →
  s' = s ∧ fd <= r ∧ (∀ x, fd <= x < r → x < Z.of_nat NR_OPEN → fd_of (fst s) x ≠ None) ∧
  (r < Z.of_nat NR_OPEN → fd_of (fst s) r = None).
Proof.
  induction n as [|n IH]; intros fd s r s' Hfd H Hn H0; simpl in H.
  - specialize (H0 eq_refl). lia.
  - destruct (Z.ltb_spec fd (Z.of_nat NR_OPEN)) as [Hlt|Hge].
    + call_inv H. destruct (fd_of (fst s) fd) as [f|] eqn:Hf.
      * apply IH in H as (-> & Hle & Hall & Hr); [|lia..]. split; [done|]. split; [lia|].
        split; [|done]. intros x Hx Hx'. destruct (decide (x = fd)) as [->|]; [by rewrite Hf|].
        apply Hall; lia.
      * injection H as <- <-. split; [done|]. split; [lia|]. split; [intros; lia|done].
    + injection H as <- <-. split; [done|]. split; [lia|]. split; [intros; lia|lia].
Qed.

(** Descriptors below [r] are in use. *)
Definition in_use_below (k : kernel) (from r : Z) : Prop :=
  ∀ x, from <= x < r → x < Z.of_nat NR_OPEN → fd_of k x ≠ None.

Lemma put_fd_shared_wf k fd f g : files_wf k → 0 <= fd < Z.of_nat NR_OPEN → fd_of k fd = None →
  (f < NR_FILE)%nat → f_fs (file_table k f) ≠ None →
  (∀ x, f_count (g x) = f_count x + 1 ∧ f_fs (g x) = f_fs x) →
  files_wf (set_file f g (put_fd fd (Some f) k)).
Proof.
  intros Hwf Hfd Hnone Hf Hfs Hg. unfold fd_of in Hnone.
  apply (files_wf_set_fd k _ (Z.to_nat fd) (Some f) Hwf); [lia|done|..].
  - intros i. apply put_fd_state.
  - intros i. apply put_fd_table.
  - intros f'. rewrite set_file_lookup, Hnone. simpl.
    change (file_table (put_fd fd (Some f) k)) with (file_table k).
    destruct (decide (f = f')) as [->|Hne].
    + rewrite (bool_decide_eq_true_2 (Some f' = Some f')) by done.
      destruct (Hg (file_table k f')) as [-> _]. simpl. lia.
    + rewrite (bool_decide_eq_false_2 (Some f = Some f')) by congruence. simpl. lia.
  - intros f' [= <-]. split; [done|]. rewrite set_file_lookup, decide_True by done.
    by destruct (Hg (file_table (put_fd fd (Some f) k) f)) as [_ ->].
  - intros f' Hf'. rewrite set_file_lookup. case_decide; [|done].
    by destruct (Hg (file_table (put_fd fd (Some f) k) f')) as [_ ->].
Qed.

Lemma dup_inv fd new cloexec s r s' : files_wf (fst s) → _dup fd new cloexec s = Ok (r, s') →
  files_wf (fst s') ∧
  (s' = s ∧ (r = - EBADF ∧ (0 <= fd < Z.of_nat NR_OPEN → fd_of (fst s) fd = None) ∨
             r = - EMFILE ∧ in_use_below (fst s) new (Z.of_nat NR_OPEN)) ∨
   0 <= new <= r ∧ r < Z.of_nat NR_OPEN ∧ fd_of (fst s) fd ≠ None ∧
   fd_of (fst s') r = fd_of (fst s) fd ∧
   fd_of (fst s) r = None ∧ in_use_below (fst s) new r).
Proof.
  intros Hwf H. unfold _dup in H. call_inv H.
  { call_inv H. split; [done|]. left. split; [done|]. left. split; [done|]. lia. }
  call_inv H. call_inv H.
  2: { call_inv H. split; [done|]. left. split; [done|]. by left. }
  apply bind_inv in H as (fnew & s1 & H1 & H).
  assert (Hn : 0 <= new ∨ new < 0) by lia. destruct Hn as [Hn|Hn].
  2: { unfold free_fd_from in H1. rewrite (proj2 (Z.ltb_lt new _)) in H1 by (unfold NR_OPEN; lia).
       apply get_fd_inv in H1 as [? _]. lia. }
  apply free_fd_from_inv in H1 as (-> & Hle & Hall & Hfree); [|done|unfold NR_OPEN; lia|done].
  destruct (refs_current _ _ _ Hwf ltac:(eassumption) Heqo) as (Hl & Hnf & _).
  call_inv H.
  - call_inv H. split; [done|]. left. split; [done|]. right. split; [done|].
    intros x Hx Hx'. apply Hall; lia.
  - apply Z.leb_gt in Heqb0. call_inv H. call_inv H. cbn [fst snd] in H.
    specialize (Hfree ltac:(lia)).
    set (k' := set_file n _ (put_fd fnew (Some n) (fst s))) in *.
    assert (Hwf' : files_wf k') by (by apply put_fd_shared_wf).
    assert (Hfd' : fd_of k' fnew = Some n).
    { unfold fd_of, cur. change (p_file_table (process_table (put_fd fnew (Some n) (fst s))
        (current_process (fst s))) (Z.to_nat fnew) = Some n).
      rewrite put_fd_table, decide_True by done. apply fn_insert_eq. }
    assert (Hcl : ∃ k'', s' = (k'', snd s) ∧ r = fnew ∧ files_wf k'' ∧ fd_of k'' fnew = Some n).
    { destruct cloexec; call_invs H; eexists; (split; [reflexivity|]); (split; [done|]); [|done].
      cbn [fst snd]. split.
      - eapply files_wf_frame; [exact Hwf'|done|..|done|done]; intros i;
          rewrite set_proc_lookup; by case_decide.
      - rewrite <- Hfd'. unfold fd_of, cur. rewrite set_proc_current, set_proc_eq. done. }
    destruct Hcl as (k'' & -> & -> & Hk'' & Hfd''). split; [done|]. right.
    split; [lia|]. split; [lia|]. split; [done|]. cbn [fst]. split; [done|]. split; [done|]. intros x Hx Hx'. by apply Hall.
Qed.

Lemma dup_wf fd new cloexec : keeps_wf (_dup fd new cloexec).
Proof. intros s r s' Hwf H. by apply dup_inv in H as [? _]. Qed.

Lemma kernel_dup2_wf fd1 fd2 : keeps_wf (kernel_dup2 fd1 fd2).
Proof.
  intros s r s' Hwf H. unfold kernel_dup2 in H. call_inv H; [by call_inv H|].
  call_inv H. call_inv H; [|by call_inv H]. call_inv H; [by call_inv H|]. apply bind_inv in H as (r1 & s1 & H1 & H).
  apply kernel_close_wf in H1; [|done]. by apply dup_wf in H.
Qed.

Lemma upd_cur_wf g k : files_wf k → (∀ p, p_state (g p) = p_state p) →
  (∀ p, p_file_table (g p) = p_file_table p) → files_wf (set_proc (current_process k) g k).
Proof.
  intros Hwf H1 H2. eapply files_wf_frame; [exact Hwf|done|..|done|done]; intros i;
    rewrite set_proc_lookup; by case_decide.
Qed.

Lemma kernel_fcntl_wf fd cmd arg : keeps_wf (kernel_fcntl fd cmd arg).
Proof.
  intros s r s' Hwf H. unfold kernel_fcntl in H. call_inv H; [by call_inv H|].
  call_inv H. call_inv H; [|by call_inv H]. do 2 (call_inv H; [by apply dup_wf in H|]).
  call_inv H; [by injection H as _ <-|].
  call_inv H.
  { destruct (flag arg FD_CLOEXEC); call_invs H; by apply upd_cur_wf. }
  call_inv H; [by injection H as _ <-|].
  call_inv H; [|by call_invs H].
  call_invs H. by apply set_file_wf.
Qed.

Lemma find_fd_loop_inv n : ∀ i s r s', (NR_OPEN < i + n)%nat → (i ≤ NR_OPEN)%nat → find_fd_loop n i s = Ok (r, s') →
  in_use_below (fst s) 0 (Z.of_nat i) →
  s' = s ∧ 0 <= r < Z.of_nat NR_OPEN ∧ fd_of (fst s) r = None ∧ in_use_below (fst s) 0 r.
Proof.
  induction n as [|n IH]; intros i s r s' Hn Hi0 H Hall; simpl in H; [lia|].
  - apply get_fd_inv in H as [Hi H]. destruct (fd_of (fst s) (Z.of_nat i)) eqn:Hf.
    + apply IH in H; [done|lia|lia|]. intros x Hx Hx'.
      destruct (decide (x = Z.of_nat i)) as [->|]; [by rewrite Hf|]. apply Hall; lia.
    + injection H as <- <-. done.
Qed.

Lemma find_fd_inv s r s' : find_fd s = Ok (r, s') →
  s' = s ∧ 0 <= r < Z.of_nat NR_OPEN ∧ fd_of (fst s) r = None ∧ in_use_below (fst s) 0 r.
Proof.
  intros H. apply (find_fd_loop_inv NR_FILE 0) in H; [done|unfold NR_OPEN, NR_FILE; lia..|].
  intros x Hx. lia.
Qed.

Lemma first_free_file_inv k l f : first_free_file k l = Some f →
  f ∈ l ∧ f_count (file_table k f) = 0.
Proof.
  induction l as [|x l IH]; simpl; [done|]. destruct (Z.eqb_spec (f_count (file_table k x)) 0).
  - intros [= ->]. split; [by left|done].
  - intros [??]%IH. split; [by right|done].
Qed.

(** Filling in the new file and the descriptor, after the driver has opened the inode. *)
Lemma open_fill_wf k k1 fp fs fd ino mode flags : files_wf k →
  (fp < NR_FILE)%nat → f_count (file_table k fp) = 0 →
  0 <= fd < Z.of_nat NR_OPEN → fd_of k fd = None →
  same_files (set_file fp (λ f, f <| f_fs := Some fs |>) k) k1 →
  files_wf (set_file fp (λ f, f <| f_count := 1 |>) (set_file fp (λ f, f <| f_flags := flags |>)
    (set_file fp (λ f, f <| f_mode := mode |>) (set_file fp (λ f, f <| f_pos := 0 |>)
      (put_fd fd (Some fp) (set_file fp (λ f, f <| f_inode := ino |>) k1)))))).
Proof.
  intros Hwf Hfp Hcnt Hfd Hnone (Hcur & Hst & Htab & Hc & Hf)%after_set_file.
  set (k2 := set_file fp (λ f, f <| f_inode := ino |>) k1).
  assert (Hfile : ∀ f, fp ≠ f → f_count (file_table k1 f) = f_count (file_table k f) ∧
    f_fs (file_table k1 f) = f_fs (file_table k f)).
  { intros f Hne. rewrite Hc, Hf, set_file_lookup. by rewrite decide_False. }
  unfold fd_of in Hnone.
  apply (files_wf_set_fd k _ (Z.to_nat fd) (Some fp) Hwf); [lia|done|..].
  - intros i. change (p_state (process_table (put_fd fd (Some fp) k2) i) = p_state (process_table k i)).
    rewrite put_fd_state. apply Hst.
  - intros i. change (p_file_table (process_table (put_fd fd (Some fp) k2) i) =
      if decide (i = current_process k) then <[Z.to_nat fd:=Some fp]> (p_file_table (process_table k i))
      else p_file_table (process_table k i)).
    rewrite put_fd_table. change (current_process k2) with (current_process k1). rewrite Hcur.
    change (process_table k2) with (process_table k1). by rewrite Htab.
  - intros f. rewrite Hnone. rewrite !set_file_lookup. unfold k2.
    change (file_table (put_fd fd (Some fp) ?k)) with (file_table k). rewrite set_file_lookup.
    destruct (decide (fp = f)) as [<-|Hne].
    + rewrite (bool_decide_eq_true_2 (Some fp = Some fp)) by done. rewrite Hcnt. done.
    + rewrite (bool_decide_eq_false_2 (Some fp = Some f)) by congruence.
      destruct (Hfile f Hne) as [-> _]. simpl. lia.
  - intros f [= <-]. split; [done|]. rewrite !set_file_lookup, !decide_True by done. rec_simpl.
    change (f_fs (file_table k2 fp) ≠ None). unfold k2. rewrite set_file_lookup, decide_True by done.
    change (f_fs (file_table k1 fp) ≠ None). by rewrite Hf, set_file_lookup, decide_True by done.
  - intros f Hnn. rewrite !set_file_lookup. unfold k2.
    change (file_table (put_fd fd (Some fp) ?k)) with (file_table k). rewrite set_file_lookup.
    destruct (decide (fp = f)) as [<-|Hne].
    + change (f_fs (file_table k1 fp) ≠ None). by rewrite Hf, set_file_lookup, decide_True by done.
    + by destruct (Hfile f Hne) as [_ ->].
Qed.

Lemma kernel_open_inv path flags mode s r s' : files_wf (fst s) →
  kernel_open path flags mode s = Ok (r, s') →
  files_wf (fst s') ∧
  ((∀ i, p_file_table (process_table (fst s') i) = p_file_table (process_table (fst s) i)) ∨
   0 <= r < Z.of_nat NR_OPEN ∧ fd_of (fst s) r = None ∧ in_use_below (fst s) 0 r ∧
   ∃ f, fd_of (fst s') r = Some f ∧ f_count (file_table (fst s') f) = 1 ∧
     f_pos (file_table (fst s') f) = 0 ∧ f_flags (file_table (fst s') f) = flags).
Proof.
  intros Hwf H. unfold kernel_open in H. call_inv H. call_inv H; [call_inv H; split; [done|by left]|].
  call_inv H. call_inv H; [|call_inv H; split; [done|by left]].
  apply bind_inv in H as (fd & s1 & H1 & H). apply find_fd_inv in H1 as (-> & Hfd & Hnone & Hbelow).
  rewrite (proj2 (Z.ltb_ge fd 0)) in H by lia. call_inv H.
  call_inv H; [|call_inv H; split; [done|by left]].
  apply first_free_file_inv in Heqo0 as [Hl%seq_elem Hcnt].
  call_inv H. apply bind_inv in H as ([ino err] & s1 & H1 & H).
  apply open_keeps in H1. cbn [fst snd] in H1, H. call_inv H. cbn [fst snd] in H.
  pose proof (after_set_file _ _ _ _ H1) as (Hcur & Hst & Htab & Hc & Hf).
  call_inv H.
  - call_inv H. split; [|left].
    + apply set_file_wf; [|done..]. eapply files_wf_frame; [exact Hwf|done..| |].
      * intros f. rewrite Hc, set_file_lookup. by case_decide.
      * intros f. rewrite Hf, set_file_lookup. by case_decide.
    + intros i. apply Htab.
  - call_invs H. cbn [fst snd]. split.
    + apply (open_fill_wf (fst s) (fst s1) n0 n r ino mode flags); try done. lia.
    + right. split; [done|]. split; [done|]. split; [done|]. exists n0.
      rewrite !set_file_lookup, !decide_True by done. split; [|done]. unfold fd_of, cur.
      change (p_file_table (process_table (put_fd r (Some n0) (fst s1)) (current_process (fst s1)))
        (Z.to_nat r) = Some n0).
      rewrite put_fd_table, decide_True by done. apply fn_insert_eq.
Qed.
End calls_ok.

(** ** The calls as one interface *)

Inductive file_call : Type :=
  | Open (path flags mode : Z) | Creat (path mode : Z)
  | Read (fd buf count : Z) | Write (fd buf count : Z) | Lseek (fd offset whence : Z)
  | Close (fd : Z) | Dup (fd : Z) | Dup2 (fd1 fd2 : Z) | Fcntl (fd cmd arg : Z).
Definition run_call {D} `{FsDriver D} `{UserSpace} (c : file_call) : M (kernel * D) Z :=
  match c with
  | Open path flags mode => kernel_open path flags mode
  | Creat path mode => kernel_creat path mode
  | Read fd buf count => kernel_read fd buf count
  | Write fd buf count => kernel_write fd buf count
  | Lseek fd offset whence => kernel_lseek fd offset whence
  | Close fd => kernel_close fd
  | Dup fd => kernel_dup fd
  | Dup2 fd1 fd2 => kernel_dup2 fd1 fd2
  | Fcntl fd cmd arg => kernel_fcntl fd cmd arg
  end.

(** ** A small system: a driver that keeps nothing, one process, the root mounted *)
Module FilesDemo.
#[export] Instance driver {D} : FsDriver D := {
  fs_raw_iput _ := mret tt;
  fs_raw_namei p := mret (p, 0);
  fs_raw_get_mode _ := mret S_IFREG;
  fs_raw_permission _ _ := mret 0;
  fs_get_attribute _ _ := mret 1024;
  fs_open p _ _ := mret (p, 0);
  fs_read _ _ n := mret n;
  fs_write _ _ n := mret n;
  fs_sync _ := mret 0;
  fs_unlink _ := mret 0;
  fs_lseek _ off _ := mret off;
  fs_link _ _ := mret 0;
  fs_mknod _ _ _ := mret 0;
  fs_close _ := mret 0;
  fs_chdir _ := mret 0;
  fs_chown _ _ _ := mret 0;
  fs_chmod _ _ := mret 0;
  fs_fchmod _ _ := mret 0;
  fs_mkdir _ _ := mret 0;
  fs_rmdir _ := mret 0;
  fs_chroot _ := mret 0;
  fs_symlink _ _ := mret 0;
  fs_lchown _ _ _ := mret 0;
  fs_rename _ _ := mret 0;
  fs_stat _ _ := mret 0;
  fs_lstat _ _ := mret 0;
  fs_fstat _ _ := mret 0;
  fs_access _ _ := mret 0;
  buffer_sync := mret tt
}.
#[export] Instance user : UserSpace := {| check_user_ptr _ _ := true |}.
#[export] Instance laws {D} : FsDriverLaws D.
Proof. by split; intros; intros s a s' [= _ <-]. Qed.

Definition k : kernel :=
  kernel_zero <| process_table := <[1%nat := process_zero <| p_state := PROC_RUNNING |> <| p_pid := 1 |>]>
      (λ _, process_zero) |>
    <| current_process := 1%nat |> <| mount_table := <[0%nat := Some 0%nat]> (λ _, None) |>.

Lemma table i fd : p_file_table (process_table k i) fd = None.
Proof. unfold k. rec_simpl. destruct (decide (1%nat = i)) as [<-|]; [done|by rewrite fn_insert_ne]. Qed.
Lemma demo_wf : files_wf k.
Proof.
  split.
  - intros f _. symmetry. apply zsum_0. intros i _. unfold proc_refs. case_match; [done|].
    apply zsum_0. intros fd _. by rewrite table.
  - intros i fd f _ _ _. by rewrite table.
  - split; [unfold NR_PROC; simpl; lia|]. by vm_compute.
  - intros i fd _ _ _. apply table.
Qed.
(** After the process has opened a file. *)
Definition opened : kernel * unit :=
  match kernel_open 4096 0 0 (k, tt) with Ok (_, s) => s | _ => (k, tt) end.
End FilesDemo.
#[local] Existing Instances FilesDemo.driver FilesDemo.user FilesDemo.laws.

(** ** Properties *)

(** Calls on descriptors with a driver that is not interrupted: the count of every open file stays
    the number of descriptors that refer to it. FileSteps.v has all calls, and drivers that sleep. *)
Theorem uninterrupted_calls_keep_refcounts {D} `{FsDriver D} `{!FsDriverLaws D} `{UserSpace} c (s s' : kernel * D) r :
  files_wf (fst s) → run_call c s = Ok (r, s') → files_wf (fst s').
Proof.
  assert (Hrw : ∀ closed op fd buf count, (∀ f, keeps_files (op f buf count)) →
    keeps_wf (kernel_rw (D := D) closed op fd buf count)).
  { intros closed op fd buf count Hop s0 r0 s0' Hwf Hr. unfold kernel_rw in Hr.
    rewrite kget_run in Hr. destruct (bad_ptr _ _); [by injection Hr as _ <-|].
    destruct (fd <? 0); [by injection Hr as _ <-|].
    apply get_fd_inv in Hr as [_ Hr]. destruct (fd_of _ _); [|by injection Hr as _ <-].
    rewrite kget_run in Hr. do 2 (case_match; [by injection Hr as _ <-|]).
    apply with_fs_inv in Hr. eapply same_files_wf; [done|by eapply Hop]. }
  intros Hwf Hr. destruct c; simpl in Hr.
  - by apply kernel_open_inv in Hr as [? _].
  - by apply kernel_open_inv in Hr as [? _].
  - eapply (Hrw O_WRONLY fs_read); [intros; apply read_keeps|done|done].
  - eapply (Hrw O_RDONLY fs_write); [intros; apply write_keeps|done|done].
  - unfold kernel_lseek in Hr. destruct (fd <? 0); [by injection Hr as _ <-|].
    apply get_fd_inv in Hr as [_ Hr]. destruct (fd_of _ _); [|by injection Hr as _ <-].
    apply with_fs_inv in Hr. eapply same_files_wf; [done|by eapply lseek_keeps].
  - by eapply kernel_close_wf.
  - by eapply dup_wf.
  - by eapply kernel_dup2_wf.
  - by eapply kernel_fcntl_wf.
Qed.
Lemma uninterrupted_calls_keep_refcounts_witness : files_wf (fst FilesDemo.opened) ∧
  p_file_table (process_table (fst FilesDemo.opened) 1) 0 = Some 0%nat.
Proof.
  split; [|by vm_compute].
  apply (uninterrupted_calls_keep_refcounts (Open 4096 0 0) (FilesDemo.k, tt) FilesDemo.opened 0);
    [apply FilesDemo.demo_wf|reflexivity].
Defined.

(** [kernel_open] gives the lowest free descriptor, with a file of count 1 at
    position 0; [kernel_dup] the lowest free descriptor, sharing the file, and fails only
    when the descriptor is not open or all are in use. *)
Theorem lowest_descriptor {D} `{FsDriver D} `{!FsDriverLaws D} `{UserSpace} (s s' : kernel * D) :
  files_wf (fst s) →
  (∀ path flags mode fd, kernel_open path flags mode s = Ok (fd, s') →
     (∀ i, p_file_table (process_table (fst s') i) = p_file_table (process_table (fst s) i)) ∨
     fd_of (fst s) fd = None ∧ in_use_below (fst s) 0 fd ∧
     ∃ f, fd_of (fst s') fd = Some f ∧ f_count (file_table (fst s') f) = 1 ∧
       f_pos (file_table (fst s') f) = 0 ∧ f_flags (file_table (fst s') f) = flags) ∧
  (∀ old fd, kernel_dup old s = Ok (fd, s') →
     fd = - EBADF ∧ s' = s ∧ (0 <= old < Z.of_nat NR_OPEN → fd_of (fst s) old = None) ∨
     fd = - EMFILE ∧ s' = s ∧ in_use_below (fst s) 0 (Z.of_nat NR_OPEN) ∨
     fd_of (fst s) fd = None ∧ in_use_below (fst s) 0 fd ∧ fd_of (fst s') fd = fd_of (fst s) old ∧
       fd_of (fst s) old ≠ None).
Proof.
  intros Hwf. split.
  - intros path flags mode fd Hr. apply kernel_open_inv in Hr as [_ [?|(_ & ?)]]; [by left|by right|done].
  - intros old fd Hr. apply dup_inv in Hr as [_ [[-> [[? ?]|[? ?]]]|(? & ? & ? & ? & ? & ?)]]; [..|done].
    + by left.
    + by right; left.
    + right; right. done.
Qed.
Lemma lowest_descriptor_witness :
  ∃ s', kernel_dup 0 FilesDemo.opened = Ok (1, s') ∧ fd_of (fst s') 1 = fd_of (fst FilesDemo.opened) 0.
Proof.
  destruct (kernel_dup 0 FilesDemo.opened) as [[r s']| | |] eqn:Hr; [|by vm_compute in Hr..].
  assert (r = 1) as -> by (assert (match kernel_dup 0 FilesDemo.opened with Ok (r, _) => r | _ => 0 end = 1)
    as Hv by (by vm_compute); by rewrite Hr in Hv).
  exists s'. split; [done|].
  destruct (lowest_descriptor FilesDemo.opened s') as [_ Hd].
  - apply (proj1 uninterrupted_calls_keep_refcounts_witness).
  - destruct (Hd 0 1 Hr) as [[? _]|[[? _]|(_ & _ & ? & _)]]; done.
Defined.

(** closing an open descriptor always succeeds once the driver has closed the file:
    the consistency check of [kernel_close] never fires, the descriptor is free again and
    the file has one reference less. Any other descriptor gives [EBADF] and changes
    nothing. *)
Theorem kernel_close_correct {D} `{FsDriver D} `{!FsDriverLaws D} `{UserSpace} (s : kernel * D) fd :
  files_wf (fst s) →
  match (if fd_in_table fd then fd_of (fst s) fd else None) with
  | None => kernel_close fd s = Ok (- EBADF, s)
  | Some f => ∀ r s1,
      fs_close f (set_file f (λ x, x <| f_count ::= λ n, n - 1 |>) (fst s), snd s) = Ok (r, s1) →
      ∃ s', kernel_close fd s = Ok (0, s') ∧ files_wf (fst s') ∧ fd_of (fst s') fd = None ∧
        f_count (file_table (fst s') f) = f_count (file_table (fst s) f) - 1
  end.
Proof.
  intros Hwf. destruct (fd_in_table fd) eqn:Hfd.
  - apply fd_in_table_spec in Hfd. destruct (fd_of (fst s) fd) as [f|] eqn:Hf.
    + intros r s1 Hc. destruct (refs_current _ _ _ Hwf Hfd Hf) as (Hl & Hfs & Hcnt).
      assert (Hrun : kernel_close fd s = Ok (0, (put_fd fd None (fst s1), snd s1))).
      { unfold kernel_close. rewrite (proj2 (Z.leb_gt _ _)), (proj2 (Z.ltb_ge _ _)) by lia.
        cbn [orb]. rewrite get_fd_run, Hf by done. rewrite kget_run.
        rewrite (proj2 (Z.eqb_neq _ _)) by lia. rewrite upd_file_run.
        rewrite (bind_ok _ _ _ r s1).
        - by rewrite set_fd_run.
        - unfold with_fs. rewrite kget_run. cbn [fst].
          rewrite set_file_lookup, decide_True by done. rec_simpl.
          by destruct (f_fs (file_table (fst s) f)). }
      eexists. split; [exact Hrun|]. split; [by eapply kernel_close_wf|].
      apply close_keeps, after_set_file in Hc as (Hcur & _ & Htab & Hc & _). cbn [fst snd].
      split.
      * unfold fd_of, cur. change (p_file_table (process_table (put_fd fd None (fst s1))
          (current_process (fst s1))) (Z.to_nat fd) = None).
        rewrite put_fd_table, decide_True by done. apply fn_insert_eq.
      * change (f_count (file_table (fst s1) f) = f_count (file_table (fst s) f) - 1).
        by rewrite Hc, set_file_lookup, decide_True by done.
    + unfold kernel_close. rewrite (proj2 (Z.leb_gt _ _)), (proj2 (Z.ltb_ge _ _)) by lia.
      cbn [orb]. by rewrite get_fd_run, Hf by done.
  - unfold kernel_close. assert (Hb : (Z.of_nat NR_OPEN <=? fd) || (fd <? 0) = true).
    { apply orb_true_iff. rewrite Z.leb_le, Z.ltb_lt. unfold fd_in_table in Hfd.
      apply andb_false_iff in Hfd as [?%Z.leb_gt|?%Z.ltb_ge]; lia. }
    by rewrite Hb.
Qed.
Lemma kernel_close_correct_witness :
  ∃ s', kernel_close 0 FilesDemo.opened = Ok (0, s') ∧ fd_of (fst s') 0 = None.
Proof.
  pose proof (kernel_close_correct FilesDemo.opened 0 (proj1 uninterrupted_calls_keep_refcounts_witness)) as Hc.
  change (if fd_in_table 0 then fd_of (fst FilesDemo.opened) 0 else None) with (Some 0%nat) in Hc.
  edestruct Hc as (s' & H1 & _ & H2 & _); [reflexivity|]. by exists s'.
Defined.

(** [find_fd] searches [NR_FILE] entries of a table of [NR_OPEN]: opening a file when
    all descriptors are in use reads past the end of the table instead of failing. *)
Theorem open_overruns_full_table {D} `{FsDriver D} `{UserSpace} (s : kernel * D) path flags mode fs :
  bad_ptr (fst s) path = false → get_fs_from_path path (fst s) = Some fs →
  in_use_below (fst s) 0 (Z.of_nat NR_OPEN) →
  kernel_open path flags mode s = Undef "file_table index out of range".
Proof.
  intros Hp Hfs Huse. unfold kernel_open. rewrite kget_run, Hp, kget_run, Hfs.
  assert (Hl : ∀ n i, (i ≤ NR_OPEN)%nat → (NR_OPEN < i + n)%nat →
    find_fd_loop (D := D) n i s = Undef "file_table index out of range").
  { induction n as [|n IH]; intros i Hi Hn; [lia|]. cbn [find_fd_loop].
    destruct (decide (i = NR_OPEN)) as [->|]; [done|].
    rewrite get_fd_run by (unfold NR_OPEN in *; lia).
    destruct (fd_of (fst s) (Z.of_nat i)) eqn:He; [apply IH; lia|].
    exfalso. apply (Huse (Z.of_nat i)); [lia..|done]. }
  unfold mbind, M_bind, find_fd. rewrite Hl; [done|unfold NR_OPEN; lia|unfold NR_OPEN, NR_FILE; lia].
Qed.
Lemma open_overruns_full_table_witness :
  kernel_open 4096 0 0 (set_proc 1 (λ p, p <| p_file_table := λ _, Some 0%nat |>) FilesDemo.k, tt)
    = Undef "file_table index out of range".
Proof.
  apply (open_overruns_full_table _ 4096 0 0 0%nat); [done|done|].
  intros x _ _. unfold fd_of, cur. cbn [fst]. by rewrite set_proc_current, set_proc_eq.
Defined.
