(* ===== verification/FileSteps.v ===== *)
(** The file calls of several processes (sys/fs/sys1.c, sys/fs/fcntl.c).

    A filesystem driver sleeps while the disk works, and other processes run: a call of the
    kernel is then not one step of the system but several. Here a driver operation does to the
    tables of the kernel whatever steps of other processes do ([FsDriverRely]), and the reference
    counts are shown to come out right, but for one race of [kernel_open]. *)
From S2P Require Import Prelude Proc Files.

(** ** All calls *)

Inductive fs_call : Type :=
  | CFile (c : file_call) | CSync | CUnlink (path : Z) | CLink (path1 path2 : Z) | CMknod (path mode dev : Z)
  | CChdir (path : Z) | CChown (name uid gid : Z) | CChmod (name mode : Z) | CFchmod (fd mode : Z)
  | CMkdir (path mode : Z) | CRmdir (path : Z) | CChroot (path : Z) | CSymlink (path1 path2 : Z)
  | CLchown (path uid gid : Z) | CRename (old new : Z) | CStat (path statp : Z) | CLstat (path statp : Z)
  | CFstat (fd statp : Z) | CAccess (path amode : Z).
Definition run_fs_call {D} `{FsDriver D} `{UserSpace} (c : fs_call) : M (kernel * D) Z :=
  match c with
  | CFile c => run_call c
  | CSync => kernel_sync ;; mret 0
  | CUnlink path => kernel_unlink path
  | CLink path1 path2 => kernel_link path1 path2
  | CMknod path mode dev => kernel_mknod path mode dev
  | CChdir path => kernel_chdir path
  | CChown name uid gid => kernel_chown name uid gid
  | CChmod name mode => kernel_chmod name mode
  | CFchmod fd mode => kernel_fchmod fd mode
  | CMkdir path mode => kernel_mkdir path mode
  | CRmdir path => kernel_rmdir path
  | CChroot path => kernel_chroot path
  | CSymlink path1 path2 => kernel_symlink path1 path2
  | CLchown path uid gid => kernel_lchown path uid gid
  | CRename old new => kernel_rename old new
  | CStat path statp => kernel_stat path statp
  | CLstat path statp => kernel_lstat path statp
  | CFstat fd statp => kernel_fstat fd statp
  | CAccess path amode => kernel_access path amode
  end.

(** ** The tables while processes sleep in calls

    [kernel_close] takes the reference of a descriptor off the count before the driver closes the
    file, and empties the descriptor after it. Which process sleeps in between, in closing which
    of its descriptors, and the file that this refers to: *)
Definition closing : Type := nat → option (nat * nat).
Definition closing_refs (P : closing) (f : nat) : Z :=
  zsum (λ i, one_if (bool_decide (snd <$> P i = Some f))) all_procs.
Definition live (p : process) : Prop := exited p = false ∧ p_state p ≠ PROC_ZOMBIE.

Record files_inv (P : closing) (k : kernel) : Prop := {
  fi_count f : (f < NR_FILE)%nat → f_count (file_table k f) = refs k f - closing_refs P f;
  fi_range i fd f : (i < NR_PROC)%nat → exited (process_table k i) = false → (fd < NR_OPEN)%nat →
    p_file_table (process_table k i) fd = Some f → (f < NR_FILE)%nat ∧ f_fs (file_table k f) ≠ None;
  fi_zombie i fd : (i < NR_PROC)%nat → p_state (process_table k i) = PROC_ZOMBIE → (fd < NR_OPEN)%nat →
    p_file_table (process_table k i) fd = None;
  fi_closing i fd f : (i < NR_PROC)%nat → P i = Some (fd, f) →
    live (process_table k i) ∧ (fd < NR_OPEN)%nat ∧ p_file_table (process_table k i) fd = Some f
}.

(** The same descriptors and counts; anything else may be different. *)
Record same_view (k k' : kernel) : Prop := {
  sv_exited i : exited (process_table k' i) = exited (process_table k i);
  sv_zombie i : p_state (process_table k' i) = PROC_ZOMBIE ↔ p_state (process_table k i) = PROC_ZOMBIE;
  sv_table i : p_file_table (process_table k' i) = p_file_table (process_table k i);
  sv_count f : f_count (file_table k' f) = f_count (file_table k f);
  sv_fs f : f_fs (file_table k f) ≠ None → f_fs (file_table k' f) ≠ None
}.
Definition set_entry (i fd : nat) (v : option nat) (k : kernel) : kernel :=
  set_proc i (λ p, p <| p_file_table ::= <[fd := v]> |>) k.

(** A step of process [i]: what it does to the tables between two points at which it may sleep. *)
Inductive file_step (i : nat) : closing * kernel → closing * kernel → Prop :=
  | st_view P k k' : same_view k k' → file_step i (P, k) (P, k')
  | st_close P P' k fd f : (i < NR_PROC)%nat → live (process_table k i) → P i = None → (fd < NR_OPEN)%nat →
      p_file_table (process_table k i) fd = Some f → (∀ j, P' j = if decide (j = i) then Some (fd, f) else P j) →
      file_step i (P, k) (P', set_file f (λ x, x <| f_count ::= λ n, n - 1 |>) k)
  | st_closed P P' k fd f : (i < NR_PROC)%nat → P i = Some (fd, f) → (∀ j, P' j = if decide (j = i) then None else P j) →
      file_step i (P, k) (P', set_entry i fd None k)
  | st_opened P k fd f : (i < NR_PROC)%nat → live (process_table k i) → P i = None → (fd < NR_OPEN)%nat →
      p_file_table (process_table k i) fd = None → (f < NR_FILE)%nat → f_fs (file_table k f) ≠ None →
      f_count (file_table k f) = 0 →
      file_step i (P, k) (P, set_file f (λ x, x <| f_count := 1 |>) (set_entry i fd (Some f) k))
  | st_dup P k fd f fd' : (i < NR_PROC)%nat → live (process_table k i) → P i = None → (fd < NR_OPEN)%nat →
      (fd' < NR_OPEN)%nat → p_file_table (process_table k i) fd = Some f → p_file_table (process_table k i) fd' = None →
      file_step i (P, k) (P, set_file f (λ x, x <| f_count ::= λ n, n + 1 |>) (set_entry i fd' (Some f) k))
  | st_fork P k j c t : (i < NR_PROC)%nat → live (process_table k i) → P i = None → (j < NR_PROC)%nat →
      exited (process_table k j) = true → live c → p_file_table c = p_file_table (process_table k i) →
      (∀ f, f_count (t f) = f_count (file_table k f) + fd_refs (p_file_table (process_table k i)) f) →
      (∀ f, f_fs (t f) = f_fs (file_table k f)) →
      file_step i (P, k) (P, set_proc j (λ _, c) k <| file_table := t |>)
  | st_die P k p : (i < NR_PROC)%nat → P i = None → ¬ live p → p_file_table p = p_file_table (process_table k i) →
      (∀ fd, (fd < NR_OPEN)%nat → p_file_table p fd = None) →
      file_step i (P, k) (P, set_proc i (λ _, p) k)
  | st_reap P k j p : (j < NR_PROC)%nat → p_state (process_table k j) = PROC_ZOMBIE → exited p = true →
      file_step i (P, k) (P, set_proc j (λ _, p) k).
Definition other_step (c : nat) (x y : closing * kernel) : Prop := ∃ i, i ≠ c ∧ file_step i x y.

(** ** The steps keep the counts right *)

Lemma live_not_dead p : live p → exited p = false ∧ p_state p ≠ PROC_ZOMBIE.
Proof. done. Qed.
Lemma set_entry_table i fd v k j : p_file_table (process_table (set_entry i fd v k) j) =
  if decide (j = i) then <[fd := v]> (p_file_table (process_table k j)) else p_file_table (process_table k j).
Proof. unfold set_entry. rewrite set_proc_lookup. repeat case_decide; congruence || done. Qed.
Lemma set_entry_state i fd v k j : p_state (process_table (set_entry i fd v k) j) = p_state (process_table k j).
Proof. unfold set_entry. rewrite set_proc_lookup. by case_decide. Qed.
Lemma set_entry_exited i fd v k j : exited (process_table (set_entry i fd v k) j) = exited (process_table k j).
Proof. unfold exited. by rewrite set_entry_state. Qed.

Lemma closing_refs_update P P' i f : (i < NR_PROC)%nat → (∀ j, j ≠ i → P' j = P j) →
  closing_refs P' f = closing_refs P f
    + (one_if (bool_decide (snd <$> P' i = Some f)) - one_if (bool_decide (snd <$> P i = Some f))).
Proof.
  intros Hi Hj. unfold closing_refs.
  apply (zsum_update (λ i, one_if (bool_decide (snd <$> P i = Some f)))
    (λ i, one_if (bool_decide (snd <$> P' i = Some f))) _ i); [apply NoDup_seq|by apply all_procs_elem|].
  intros x Hx. by rewrite Hj.
Qed.
Lemma closing_refs_ext P P' f : (∀ j, P' j = P j) → closing_refs P' f = closing_refs P f.
Proof. intros H. apply zsum_ext. intros j _. by rewrite H. Qed.
Lemma refs_set_entry k i fd v f : (i < NR_PROC)%nat → exited (process_table k i) = false → (fd < NR_OPEN)%nat →
  refs (set_entry i fd v k) f = refs k f + one_if (bool_decide (v = Some f))
    - one_if (bool_decide (p_file_table (process_table k i) fd = Some f)).
Proof.
  intros Hi He Hfd. rewrite (refs_update k _ i).
  - unfold proc_refs. rewrite set_entry_exited, He, set_entry_table, decide_True, fd_refs_insert by done. lia.
  - done.
  - intros j Hj. unfold proc_refs. by rewrite set_entry_exited, set_entry_table, decide_False.
Qed.
Lemma zsum_le (f g : nat → Z) l : (∀ x, x ∈ l → f x <= g x) → zsum f l <= zsum g l.
Proof.
  induction l as [|x l IH]; intros H; simpl; [done|]. pose proof (H x ltac:(by left)).
  assert (zsum f l <= zsum g l) by (apply IH; intros; apply H; by right). lia.
Qed.
Lemma one_if_eq (a b : nat) : one_if (bool_decide (Some a = Some b)) = one_if (bool_decide (a = b)).
Proof. f_equal. apply bool_decide_ext. split; congruence. Qed.
Lemma set_file_fs g k f f' : (∀ x, f_fs (g x) = f_fs x) → f_fs (file_table (set_file f g k) f') = f_fs (file_table k f').
Proof. intros Hg. rewrite set_file_lookup. by case_decide. Qed.

(** No count is negative. *)
Lemma counts_nonneg P k f : files_inv P k → (f < NR_FILE)%nat → 0 <= f_count (file_table k f).
Proof.
  intros I Hf. rewrite (fi_count _ _ I) by done.
  enough (closing_refs P f <= refs k f) by lia.
  apply zsum_le. intros j Hj%all_procs_elem. destruct (P j) as [[fd' f']|] eqn:E; [|apply proc_refs_nonneg].
  simpl. rewrite one_if_eq. destruct (decide (f' = f)) as [->|]; [|rewrite bool_decide_eq_false_2 by done; apply proc_refs_nonneg].
  destruct (fi_closing _ _ I j fd' f Hj E) as ([Hej _] & Hfd' & Ht). rewrite bool_decide_eq_true_2 by done. simpl.
  unfold proc_refs. rewrite Hej. by eapply fd_refs_pos.
Qed.

Lemma view_inv P k k' : same_view k k' → files_inv P k → files_inv P k'.
Proof.
  intros [He Hz Ht Hc Hf] [H1 H2 H3 H4]. split.
  - intros f Hl. rewrite Hc, H1 by done. f_equal. symmetry. apply refs_ext. intros j _. unfold proc_refs. by rewrite He, Ht.
  - intros i fd f Hi. rewrite He, Ht. intros. destruct (H2 i fd f) as [? ?]; auto.
  - intros i fd Hi. rewrite Hz, Ht. apply H3; done.
  - intros i fd f Hi HP. unfold live. rewrite He, Hz, Ht. by apply H4.
Qed.
Lemma close_inv P P' k i fd f : files_inv P k → (i < NR_PROC)%nat → live (process_table k i) → P i = None → (fd < NR_OPEN)%nat →
  p_file_table (process_table k i) fd = Some f → (∀ j, P' j = if decide (j = i) then Some (fd, f) else P j) →
  files_inv P' (set_file f (λ x, x <| f_count ::= λ n, n - 1 |>) k).
Proof.
  intros [H1 H2 H3 H4] Hi Hl HP Hfd Ht HP'. split.
  - intros f' Hf'. rewrite set_file_lookup. change (refs (set_file f _ k) f') with (refs k f').
    rewrite (closing_refs_update P P' i) by (try done; intros j Hj; by rewrite HP', decide_False).
    rewrite HP', (decide_True _ _ (eq_refl i)), HP. simpl. rewrite one_if_eq. destruct (decide (f = f')) as [->|].
    + rec_simpl. rewrite H1, bool_decide_eq_true_2 by done. simpl. lia.
    + rewrite H1, (bool_decide_eq_false_2 (f = f')) by done. simpl. lia.
  - intros j fd' f' Hj He Hfd' Ht'. rewrite set_file_fs by done. by eapply H2.
  - intros j fd' Hj. by apply H3.
  - intros j fd' f' Hj. rewrite HP'. case_decide; [|by apply H4]. subst. intros [= <- <-]. done.
Qed.
Lemma closed_inv P P' k i fd f : files_inv P k → (i < NR_PROC)%nat → P i = Some (fd, f) →
  (∀ j, P' j = if decide (j = i) then None else P j) → files_inv P' (set_entry i fd None k).
Proof.
  intros [H1 H2 H3 H4] Hi HP HP'. destruct (H4 _ _ _ Hi HP) as ([He Hz] & Hfd & Ht). split.
  - intros f' Hf'. change (file_table (set_entry i fd None k)) with (file_table k).
    rewrite H1, refs_set_entry, Ht by done.
    rewrite (closing_refs_update P P' i) by (try done; intros j Hj; by rewrite HP', decide_False).
    rewrite HP', decide_True, HP by done. simpl. rewrite one_if_eq. lia.
  - intros j fd' f' Hj. rewrite set_entry_exited, set_entry_table. change (file_table (set_entry i fd None k)) with (file_table k).
    intros Hej Hfd'. case_decide; [|by apply H2]. subst. destruct (decide (fd = fd')) as [->|]; [by rewrite fn_insert_eq|].
    rewrite fn_insert_ne by done. by apply H2.
  - intros j fd' Hj. rewrite set_entry_state, set_entry_table. intros Hzj Hfd'. case_decide; [|by apply H3]. by subst.
  - intros j fd' f' Hj. rewrite HP'. case_decide as Hji; [done|]. intros HPj.
    unfold live. rewrite set_entry_exited, set_entry_state, set_entry_table, decide_False by done. by apply H4.
Qed.
(** A descriptor that was free refers to [f], whose count goes up. *)
Lemma entry_inv P k i fd f g : files_inv P k → (i < NR_PROC)%nat → live (process_table k i) → P i = None → (fd < NR_OPEN)%nat →
  p_file_table (process_table k i) fd = None → (f < NR_FILE)%nat → f_fs (file_table k f) ≠ None →
  (∀ x, f_fs (g x) = f_fs x) → f_count (g (file_table k f)) = f_count (file_table k f) + 1 →
  files_inv P (set_file f g (set_entry i fd (Some f) k)).
Proof.
  intros [H1 H2 H3 H4] Hi [He Hz] HP Hfd Ht Hf Hfs Hg Hn. split.
  - intros f' Hf'. change (refs (set_file f g ?k) f') with (refs k f'). rewrite set_file_lookup.
    change (file_table (set_entry i fd (Some f) k)) with (file_table k). rewrite refs_set_entry, Ht by done.
    rewrite (bool_decide_eq_false_2 (None = Some f')) by done. rewrite one_if_eq.
    destruct (decide (f = f')) as [->|].
    + rewrite Hn, H1, bool_decide_eq_true_2 by done. simpl. lia.
    + rewrite H1, (bool_decide_eq_false_2 (f = f')) by done. simpl. lia.
  - intros j fd' f' Hj. rewrite set_file_fs by done. change (process_table (set_file f g ?k)) with (process_table k).
    change (file_table (set_entry i fd (Some f) k)) with (file_table k).
    rewrite set_entry_exited, set_entry_table. intros Hej Hfd'. case_decide; [|by apply H2].
    subst. destruct (decide (fd = fd')) as [->|]; [rewrite fn_insert_eq; by intros [= <-]|].
    rewrite fn_insert_ne by done. by apply H2.
  - intros j fd' Hj. change (process_table (set_file f g ?k)) with (process_table k).
    rewrite set_entry_state, set_entry_table. intros Hzj Hfd'. case_decide; [|by apply H3]. by subst.
  - intros j fd' f' Hj HPj. change (process_table (set_file f g ?k)) with (process_table k).
    unfold live. rewrite set_entry_exited, set_entry_state, set_entry_table, decide_False by (intros ->; congruence).
    by apply H4.
Qed.
Lemma fork_inv P k i j c t : files_inv P k → (i < NR_PROC)%nat → live (process_table k i) → P i = None → (j < NR_PROC)%nat →
  exited (process_table k j) = true → live c → p_file_table c = p_file_table (process_table k i) →
  (∀ f, f_count (t f) = f_count (file_table k f) + fd_refs (p_file_table (process_table k i)) f) →
  (∀ f, f_fs (t f) = f_fs (file_table k f)) → files_inv P (set_proc j (λ _, c) k <| file_table := t |>).
Proof.
  intros [H1 H2 H3 H4] Hi [He Hz] HP Hj Hej [Hec Hzc] Hct Hn Hf. split.
  - intros f Hfl. rec_simpl. change (refs (?k <| file_table := t |>) f) with (refs k f).
    rewrite (refs_update k _ j) by (try done; intros x Hx; by rewrite set_proc_ne).
    rewrite set_proc_eq. unfold proc_refs. rewrite Hec, Hej, Hct, Hn, H1 by done. lia.
  - intros x fd f Hx. rec_simpl. rewrite set_proc_lookup, Hf. case_decide; [|by apply H2].
    intros _ Hfd. rewrite Hct. by apply H2.
  - intros x fd Hx. rec_simpl. rewrite set_proc_lookup. case_decide; [done|by apply H3].
  - intros x fd f Hx HPx. rec_simpl. rewrite set_proc_lookup. case_decide; [|by apply H4].
    subst x. destruct (H4 _ _ _ Hx HPx) as ([E _] & _). congruence.
Qed.
(** A process without descriptors changes its state, to one that is not alive. *)
Lemma dead_inv P k i p : files_inv P k → (i < NR_PROC)%nat → P i = None → ¬ live p →
  (exited p = true ∨ ∀ fd, (fd < NR_OPEN)%nat → p_file_table p fd = None) →
  (∀ fd, (fd < NR_OPEN)%nat → exited (process_table k i) = false → p_file_table (process_table k i) fd = None) →
  files_inv P (set_proc i (λ _, p) k).
Proof.
  intros [H1 H2 H3 H4] Hi HP Hl Hp Ht. split.
  - intros f Hf. change (file_table (set_proc i (λ _, p) k)) with (file_table k).
    assert (∀ q, (exited q = true ∨ ∀ fd, (fd < NR_OPEN)%nat → p_file_table q fd = None) → proc_refs q f = 0) as Z0.
    { intros q Hq. unfold proc_refs. destruct (exited q); [done|]. destruct Hq as [|Hq]; [done|].
      apply zsum_0. intros fd Hfd%seq_elem. rewrite Hq by lia. done. }
    rewrite (refs_update k _ i) by (try done; intros x Hx; by rewrite set_proc_ne).
    rewrite set_proc_eq, (Z0 p), (Z0 (process_table k i)), H1 by (try done; destruct (exited (process_table k i)); auto). lia.
  - intros x fd f Hx. rewrite set_proc_lookup. case_decide; [|by apply H2]. intros Hex Hfd.
    destruct Hp as [|Hp]; [congruence|]. by rewrite Hp.
  - intros x fd Hx. rewrite set_proc_lookup. case_decide; [|by apply H3]. intros Hz Hfd. destruct Hp as [Hp|Hp]; [|by apply Hp].
    unfold exited in Hp. by rewrite Hz in Hp.
  - intros x fd f Hx HPx. rewrite set_proc_lookup. case_decide; [congruence|by apply H4].
Qed.

Lemma file_step_inv i P k P' k' : file_step i (P, k) (P', k') → files_inv P k → files_inv P' k'.
Proof.
  intros S I. inversion S; subst.
  - by eapply view_inv.
  - by eapply close_inv.
  - by eapply closed_inv.
  - eapply entry_inv; try done. rec_simpl. lia.
  - match goal with L : live (process_table k i) |- _ => destruct (live_not_dead _ L) as [He _] end.
    destruct (fi_range _ _ I i fd f) as [? ?]; try done. by eapply entry_inv.
  - by eapply (fork_inv _ _ i).
  - eapply dead_inv; try done; [by right|]. intros fd Hfd _. match goal with E : p_file_table p = _ |- _ => rewrite <-E end. auto.
  - destruct (decide (P' j = None)) as [HP|HP].
    + eapply dead_inv; try done; [by intros [? ?]; congruence|by left|].
      intros fd Hfd _. by apply (fi_zombie _ _ I).
    + exfalso. destruct (P' j) as [[fd f]|] eqn:E; [|done]. destruct (fi_closing _ _ I j fd f) as ([_ ?] & _); done.
Qed.

(** ** Drivers that sleep *)

(** [P] with what process [c] is doing. *)
Definition with_own (c : nat) (x : option (nat * nat)) (P : closing) : closing := λ j, if decide (j = c) then x else P j.

(** The world that a driver operation leaves to the others knows where they sleep. To the tables
    of descriptors and to the counts an operation does what other processes do meanwhile; the
    process that made the call runs again at its end. In the repository only sys1.c, fcntl.c and
    proc.c write a descriptor or a count; ext2 reads the count in [ext2_close] and sleeps in ATA
    requests and mutexes. *)
Definition interferes {D A} (asleep : D → closing) (m : M (kernel * D) A) : Prop :=
  ∀ s a s', m s = Ok (a, s') → let c := current_process (fst s) in
    current_process (fst s') = c ∧
    ∀ own, rtc (other_step c) (with_own c own (asleep (snd s)), fst s) (with_own c own (asleep (snd s')), fst s').
Class FsDriverRely (D : Type) `{FsDriver D} := {
  asleep : D → closing;
  rely_open path flags mode : interferes asleep (fs_open path flags mode);
  rely_close f : interferes asleep (fs_close f);
  rely_read f buf count : interferes asleep (fs_read f buf count);
  rely_write f buf count : interferes asleep (fs_write f buf count);
  rely_lseek f off whence : interferes asleep (fs_lseek f off whence);
  rely_sync fs : interferes asleep (fs_sync fs);
  rely_unlink path : interferes asleep (fs_unlink path);
  rely_link path1 path2 : interferes asleep (fs_link path1 path2);
  rely_mknod path mode dev : interferes asleep (fs_mknod path mode dev);
  rely_chdir path : interferes asleep (fs_chdir path);
  rely_chown path uid gid : interferes asleep (fs_chown path uid gid);
  rely_chmod path mode : interferes asleep (fs_chmod path mode);
  rely_fchmod f mode : interferes asleep (fs_fchmod f mode);
  rely_mkdir path mode : interferes asleep (fs_mkdir path mode);
  rely_rmdir path : interferes asleep (fs_rmdir path);
  rely_chroot path : interferes asleep (fs_chroot path);
  rely_symlink path1 path2 : interferes asleep (fs_symlink path1 path2);
  rely_lchown path uid gid : interferes asleep (fs_lchown path uid gid);
  rely_rename old new : interferes asleep (fs_rename old new);
  rely_stat path statp : interferes asleep (fs_stat path statp);
  rely_lstat path statp : interferes asleep (fs_lstat path statp);
  rely_fstat f statp : interferes asleep (fs_fstat f statp);
  rely_access path amode : interferes asleep (fs_access path amode);
  rely_buffer_sync : interferes asleep buffer_sync
}.

(** An operation that does not sleep. *)
Lemma keeps_interferes {D A} (asl : D → closing) (m : M (kernel * D) A) : keeps_files m →
  (∀ s a s', m s = Ok (a, s') → asl (snd s') = asl (snd s)) → interferes asl m.
Proof.
  intros Hk Ha s a s' R c. destruct (Hk s a s' R) as [Hc Hp _ Hn Hf]. split; [done|]. intros own. rewrite (Ha s a s' R).
  apply rtc_once. exists (S c). split; [lia|]. apply st_view. split; intros; rewrite ?Hp, ?Hn, ?Hf; done.
Qed.

(** What the others leave alone: a process that is alive, and its descriptors. *)
Lemma others_keep c x y : rtc (other_step c) x y → files_inv (fst x) (snd x) → live (process_table (snd x) c) →
  files_inv (fst y) (snd y) ∧ live (process_table (snd y) c) ∧
  p_file_table (process_table (snd y) c) = p_file_table (process_table (snd x) c) ∧
  (∀ f, f_fs (file_table (snd x) f) ≠ None → f_fs (file_table (snd y) f) ≠ None).
Proof.
  induction 1 as [x|[P k] [P1 k1] y (i & Hi & S) _ IH]; [done|]. cbn [fst snd] in *. intros I L.
  pose proof (file_step_inv _ _ _ _ _ S I) as I1.
  assert (live (process_table k1 c) ∧ p_file_table (process_table k1 c) = p_file_table (process_table k c)) as [L1 T1].
  { inversion S as [? ? ? V| | | | |? ? j ? ? ? ? ? ? Hj| |? ? j ? ? Hj]; subst; try done.
    - unfold live. by rewrite (sv_exited _ _ V), (sv_zombie _ _ V), (sv_table _ _ V).
    - unfold live. rewrite set_entry_exited, set_entry_state, set_entry_table. by rewrite decide_False.
    - change (process_table (set_file ?f ?g ?k)) with (process_table k).
      unfold live. rewrite set_entry_exited, set_entry_state, set_entry_table. by rewrite decide_False.
    - change (process_table (set_file ?f ?g ?k)) with (process_table k).
      unfold live. rewrite set_entry_exited, set_entry_state, set_entry_table. by rewrite decide_False.
    - rec_simpl. rewrite set_proc_ne; [done|]. intros ->. destruct L. congruence.
    - by rewrite set_proc_ne.
    - rewrite set_proc_ne; [done|]. intros ->. by destruct L. }
  assert (∀ f, f_fs (file_table k f) ≠ None → f_fs (file_table k1 f) ≠ None) as F1.
  { intros f Hf. inversion S as [? ? ? V| | | | |? ? j ? ? ? ? ? ? Hj| |]; subst; rewrite ?set_file_fs by done; try done.
    - by apply (sv_fs _ _ V).
    - match goal with E : ∀ f, f_fs (?t f) = _ |- _ => change (f_fs (t f) ≠ None); by rewrite E end. }
  destruct (IH I1 L1) as (? & ? & E & ?). split; [done|]. split; [done|]. split; [by rewrite E|]. auto.
Qed.

Section calls.
Context {D : Type} `{DRV : FsDriver D} `{RELY : !FsDriverRely D} `{USP : UserSpace}.
Implicit Types s : kernel * D.

(** Between two calls of a process: the counts are right but for the others that sleep in closing. *)
Definition files_ok s : Prop :=
  let c := current_process (fst s) in
  files_inv (with_own c None (asleep (snd s))) (fst s) ∧ (c < NR_PROC)%nat ∧ live (process_table (fst s) c).

Lemma interferes_during {A} (m : M (kernel * D) A) own s a s' : interferes asleep m → m s = Ok (a, s') →
  let c := current_process (fst s) in
  files_inv (with_own c own (asleep (snd s))) (fst s) → live (process_table (fst s) c) →
  current_process (fst s') = c ∧ files_inv (with_own c own (asleep (snd s'))) (fst s') ∧ live (process_table (fst s') c) ∧
  p_file_table (process_table (fst s') c) = p_file_table (process_table (fst s) c) ∧
  (∀ f, f_fs (file_table (fst s) f) ≠ None → f_fs (file_table (fst s') f) ≠ None).
Proof.
  intros Hm R c I L. destruct (Hm s a s' R) as [Hc Hs]. split; [done|]. exact (others_keep _ _ _ (Hs own) I L).
Qed.
Lemma interferes_ok {A} (m : M (kernel * D) A) : interferes asleep m → preserves files_ok m.
Proof.
  intros Hm s a s' (I & Hc & L) R. destruct (interferes_during m None s a s' Hm R I L) as (E & ? & ? & _).
  unfold files_ok. by rewrite E.
Qed.
Lemma view_ok s k' : files_ok s → current_process k' = current_process (fst s) → same_view (fst s) k' → files_ok (k', snd s).
Proof.
  intros (I & Hc & L) E V. unfold files_ok. cbn [fst snd]. rewrite E. split; [by eapply view_inv|]. split; [done|].
  unfold live. by rewrite (sv_exited _ _ V), (sv_zombie _ _ V).
Qed.
Lemma same_view_proc f i k : (∀ p, p_state (f p) = p_state p) → (∀ p, p_file_table (f p) = p_file_table p) →
  same_view k (set_proc i f k).
Proof.
  intros Hs Ht. split; try done; intros j; rewrite set_proc_lookup; case_decide; try done; unfold exited; by rewrite ?Hs, ?Ht.
Qed.
Lemma same_view_file f g k : (∀ x, f_count (g x) = f_count x) → (∀ x, f_fs x ≠ None → f_fs (g x) ≠ None) →
  same_view k (set_file f g k).
Proof. intros Hc Hf. split; try done; intros f'; rewrite set_file_lookup; case_decide; auto. Qed.

(** A descriptor of the caller refers to a file that is in use. *)
Lemma fd_counted s fd f : files_ok s → 0 <= fd < Z.of_nat NR_OPEN → fd_of (fst s) fd = Some f →
  (f < NR_FILE)%nat ∧ f_fs (file_table (fst s) f) ≠ None ∧ 1 <= f_count (file_table (fst s) f).
Proof.
  intros (I & Hc & [He Hz]) Hfd Hf. set (k := fst s) in *. set (c := current_process k) in *.
  destruct (fi_range _ _ I c (Z.to_nat fd) f Hc He ltac:(lia) Hf) as [Hl Hfs]. split; [done|]. split; [done|].
  rewrite (fi_count _ _ I) by done. set (P := with_own c None (asleep (snd s))) in *.
  assert (closing_refs P f <= refs k f - proc_refs (process_table k c) f) as H.
  { assert (refs (set_proc c (λ p, p <| p_file_table := λ _, None |>) k) f = refs k f - proc_refs (process_table k c) f) as <-.
    { rewrite (refs_update k _ c) by (try done; intros j Hj; by rewrite set_proc_ne). rewrite set_proc_eq.
      unfold proc_refs at 1. unfold exited. rec_simpl. fold (exited (process_table k c)). rewrite He.
      assert (fd_refs (λ _, None) f = 0) as -> by (by apply zsum_0). lia. }
    apply zsum_le. intros j Hj%all_procs_elem. rewrite set_proc_lookup. case_decide as Ej.
    - assert (P j = None) as -> by (unfold P, with_own; by rewrite decide_True). apply proc_refs_nonneg.
    - destruct (P j) as [[fd' f']|] eqn:E; [|apply proc_refs_nonneg].
      simpl. rewrite one_if_eq. destruct (decide (f' = f)) as [->|]; [|rewrite bool_decide_eq_false_2 by done; apply proc_refs_nonneg].
      destruct (fi_closing _ _ I j fd' f Hj E) as ([Hej _] & Hfd' & Ht). rewrite bool_decide_eq_true_2 by done. simpl.
      unfold proc_refs. rewrite Hej. by eapply fd_refs_pos. }
  assert (1 <= proc_refs (process_table k c) f); [|lia]. unfold proc_refs. rewrite He. eapply fd_refs_pos; [|exact Hf]. lia.
Qed.

(** The steps of the calls. *)
Lemma ok_kget {A} (f : kernel → A) : preserves files_ok (kget f).
Proof. apply preserves_gets. Qed.
Lemma ok_get_fd fd : preserves files_ok (get_fd fd).
Proof. unfold get_fd. case_match; [apply ok_kget|apply preserves_undef]. Qed.
Lemma ok_upd_cur g : (∀ p, p_state (g p) = p_state p) → (∀ p, p_file_table (g p) = p_file_table p) →
  preserves files_ok (in_kernel (upd_cur g)).
Proof. intros Hs Ht s a s' Hok [= _ <-]. apply view_ok; [done|done|by apply same_view_proc]. Qed.
Lemma ok_upd_file f g : (∀ x, f_count (g x) = f_count x) → (∀ x, f_fs x ≠ None → f_fs (g x) ≠ None) →
  preserves files_ok (upd_file f g).
Proof. intros Hc Hf s a s' Hok [= _ <-]. apply view_ok; [done|done|by apply same_view_file]. Qed.
Lemma ok_with_fs {A} f (m : M (kernel * D) A) : preserves files_ok m → preserves files_ok (with_fs f m).
Proof. intros Hm. unfold with_fs. apply preserves_bind; [apply ok_kget|]. intros [|]; [done|apply preserves_undef]. Qed.
#[local] Hint Resolve ok_kget ok_get_fd ok_with_fs : preserves.
#[local] Hint Extern 2 (preserves files_ok (in_kernel (upd_cur _))) => apply ok_upd_cur; reflexivity : preserves.
#[local] Hint Extern 1 (preserves files_ok _) => apply interferes_ok;
  first [apply rely_read|apply rely_write|apply rely_lseek|apply rely_sync|apply rely_unlink|apply rely_link|apply rely_mknod
    |apply rely_chdir|apply rely_chown|apply rely_chmod|apply rely_fchmod|apply rely_mkdir|apply rely_rmdir|apply rely_chroot
    |apply rely_symlink|apply rely_lchown|apply rely_rename|apply rely_stat|apply rely_lstat|apply rely_fstat
    |apply rely_access|apply rely_buffer_sync] : preserves.

(** *** Closing *)
Lemma ok_close fd : preserves files_ok (kernel_close fd).
Proof.
  intros s r s' Hok R. unfold kernel_close in R. destruct (_ || _) eqn:Hb; [by injection R as _ <-|].
  apply orb_false_iff in Hb as [Hb1%Z.leb_gt Hb2%Z.ltb_ge]. apply get_fd_inv in R as [Hfd R].
  destruct (fd_of (fst s) fd) as [f|] eqn:Ef; [|by injection R as _ <-]. rewrite kget_run in R.
  destruct (_ =? 0); [done|]. rewrite upd_file_run in R. apply bind_inv in R as (a & s1 & R1 & R).
  apply with_fs_inv in R1. apply set_fd_inv in R as [_ R]. injection R as <- <-.
  destruct Hok as (I & Hc & L). set (k := fst s) in *. set (c := current_process k) in *.
  assert (files_inv (with_own c (Some (Z.to_nat fd, f)) (asleep (snd s))) (set_file f (λ x, x <| f_count ::= λ n, n - 1 |>) k)) as I1.
  { apply (close_inv _ _ _ c (Z.to_nat fd) f I); [done|done| |lia|exact Ef|].
    - unfold with_own. by rewrite decide_True.
    - intros j. unfold with_own. by case_decide. }
  destruct (interferes_during _ (Some (Z.to_nat fd, f)) _ _ _ (rely_close f) R1 I1 L) as (E & I2 & L2 & _).
  unfold files_ok. cbn [fst snd] in *. change (current_process (set_file f ?g k)) with c in *.
  change (current_process (put_fd fd None (fst s1))) with (current_process (fst s1)). rewrite E. split.
  - unfold put_fd. rewrite E. eapply (closed_inv _ _ _ c (Z.to_nat fd) f I2); [done| |].
    + unfold with_own. by rewrite decide_True.
    + intros j. unfold with_own. by case_decide.
  - split; [done|]. unfold live, exited. by rewrite put_fd_state.
Qed.

(** *** Duplicating *)
Lemma ok_dup fd new cloexec : preserves files_ok (_dup fd new cloexec).
Proof.
  intros s r s' Hok R. unfold _dup in R. destruct (_ || _) eqn:Hb; [by injection R as _ <-|].
  apply get_fd_inv in R as [Hfd R]. destruct (fd_of (fst s) fd) as [f|] eqn:Ef; [|by injection R as _ <-].
  apply bind_inv in R as (fnew & s1 & R1 & R). assert (0 <= new) as Hnew.
  { destruct (Z.ltb_spec new 0); [|done]. unfold free_fd_from in R1.
    rewrite (proj2 (Z.ltb_lt new _)) in R1 by (unfold NR_OPEN; lia). apply get_fd_inv in R1 as [? _]. lia. }
  apply free_fd_from_inv in R1 as (-> & Hle & _ & Hfree); [|done|unfold NR_OPEN; lia|done].
  destruct (Z.leb_spec (Z.of_nat NR_OPEN) fnew); [by injection R as _ <-|].
  apply set_fd_inv in R as [Hfn R]. rewrite upd_file_run in R.
  set (s2 := (set_file f _ _, _)) in R. enough (files_ok s2) as Hok2.
  { revert R. apply (preserves_bind files_ok); [|intros ?; apply preserves_ret|exact Hok2].
    destruct cloexec; [by apply ok_upd_cur|apply preserves_ret]. }
  pose proof Hok as (I & Hc & L). unfold files_ok, s2. cbn [fst snd]. split; [|split; [done|]].
  - destruct (fd_counted s fd f Hok Hfd Ef) as (? & ? & _).
    apply (entry_inv _ (fst s) (current_process (fst s)) (Z.to_nat fnew) f); try done; [|lia|by apply Hfree].
    unfold with_own. by rewrite decide_True.
  - unfold live, exited. change (process_table (set_file f ?g ?k)) with (process_table k). by rewrite put_fd_state.
Qed.

(** *** Opening *)

(** The file that the call has chosen, when another process has opened it before [fs_open] comes
    back: [f_count] was 0 when [get_free_file] looked at it. *)
Definition open_race (path flags mode : Z) s : option nat :=
  if bad_ptr (fst s) path then None else
  match get_fs_from_path path (fst s), find_fd s, get_free_file (fst s) with
  | Some fs, Ok (fd, _), Some fp =>
      if fd <? 0 then None else
      match fs_open path flags mode (set_file fp (λ f, f <| f_fs := Some fs |>) (fst s), snd s) with
      | Ok ((ino, _), s1) => if (ino =? 0) || (f_count (file_table (fst s1) fp) =? 0) then None else Some fp
      | _ => None
      end
  | _, _, _ => None
  end.
(** The tables at the end of a call that got an inode. *)
Definition opened_file (fp : nat) (ino mode flags fd : Z) (k1 : kernel) : kernel :=
  set_file fp (λ f, f <| f_count := 1 |>) (set_file fp (λ f, f <| f_flags := flags |>)
    (set_file fp (λ f, f <| f_mode := mode |>) (set_file fp (λ f, f <| f_pos := 0 |>)
      (put_fd fd (Some fp) (set_file fp (λ f, f <| f_inode := ino |>) k1))))).
(** What a call that got an inode started from: the state in which [fs_open] came back. *)
Record opening (s s1 : kernel * D) (fp : nat) (fd : Z) : Prop := {
  op_file : (fp < NR_FILE)%nat;
  op_ok : files_ok s1;
  op_current : current_process (fst s1) = current_process (fst s);
  op_fd : 0 <= fd < Z.of_nat NR_OPEN;
  op_free : fd_of (fst s1) fd = None;
  op_fs : f_fs (file_table (fst s1) fp) ≠ None
}.
Lemma open_inv path flags mode s r s' : files_ok s → kernel_open path flags mode s = Ok (r, s') →
  files_ok s' ∧ open_race path flags mode s = None ∨
  ∃ fp ino s1, opening s s1 fp r ∧ s' = (opened_file fp ino mode flags r (fst s1), snd s1) ∧
    open_race path flags mode s = if f_count (file_table (fst s1) fp) =? 0 then None else Some fp.
Proof.
  intros Hok R. unfold kernel_open in R. unfold open_race. rewrite kget_run in R.
  destruct (bad_ptr _ _); [injection R as _ <-; by left|].
  rewrite kget_run in R. destruct (get_fs_from_path path (fst s)) as [fs|]; [|injection R as _ <-; by left].
  apply bind_inv in R as (fd & s0 & R0 & R). rewrite R0. pose proof R0 as (-> & Hfd & Hnone & _)%find_fd_inv.
  rewrite (proj2 (Z.ltb_ge fd 0)) in R |- * by lia. rewrite kget_run in R.
  destruct (get_free_file (fst s)) as [fp|] eqn:Efp; [|injection R as _ <-; by left].
  apply first_free_file_inv in Efp as [Hl%seq_elem Hcnt]. rewrite upd_file_run in R.
  set (s0 := (set_file fp _ _, _)) in *. apply bind_inv in R as ([ino err] & s1 & R1 & R). rewrite R1. cbn [fst snd] in R.
  rewrite upd_file_run in R. assert (files_ok s0) as Hok0.
  { unfold s0. apply view_ok; [done|done|]. by apply same_view_file. }
  pose proof Hok0 as (I0 & Hc & L0).
  destruct (interferes_during _ None _ _ _ (rely_open path flags mode) R1 I0 L0) as (E & I1 & L1 & T1 & F1).
  assert (files_ok s1) as Hok1 by (unfold files_ok; by rewrite E).
  destruct (Z.eqb_spec ino 0) as [->|Hino].
  { injection R as <- <-. left. split; [|done]. apply view_ok; [done|done|]. by apply same_view_file. }
  right. apply set_fd_inv in R as [_ R]. do 4 rewrite upd_file_run in R. injection R as <- <-.
  exists fp, ino, s1. split; [split|by split]; try done; [lia| |].
  - unfold fd_of, cur in *. rewrite E. by rewrite T1.
  - apply F1. unfold s0. cbn [fst]. rewrite set_file_lookup. by case_decide.
Qed.

(** Without the race the new descriptor is counted; with it the count is 1 although the file
    had references already. *)
Lemma opened_ok s s1 fp fd ino mode flags : opening s s1 fp fd → f_count (file_table (fst s1) fp) = 0 →
  files_ok (opened_file fp ino mode flags fd (fst s1), snd s1).
Proof.
  intros [Hl Hok _ Hfd Hfree Hfs] Hz. pose proof Hok as (I & Hc & L).
  set (c := current_process (fst s1)) in *. set (k1 := set_file fp (λ f, f <| f_inode := ino |>) (fst s1)).
  assert (same_view (set_file fp (λ f, f <| f_count := 1 |>) (put_fd fd (Some fp) k1)) (opened_file fp ino mode flags fd (fst s1))) as V.
  { split; try done; intros f; unfold opened_file; rewrite !set_file_lookup; by case_decide. }
  assert (files_inv (with_own c None (asleep (snd s1))) (set_file fp (λ f, f <| f_count := 1 |>) (put_fd fd (Some fp) k1))) as I2.
  { assert (same_view (fst s1) k1) as V1 by (by apply same_view_file).
    apply (entry_inv _ k1 c (Z.to_nat fd) fp); try done.
    - by eapply view_inv.
    - unfold with_own. by rewrite decide_True.
    - lia.
    - by apply (sv_fs _ _ V1).
    - rewrite (sv_count _ _ V1), Hz. done. }
  unfold files_ok. cbn [fst snd]. change (current_process (opened_file fp ino mode flags fd (fst s1))) with c.
  split; [by eapply view_inv|]. split; [done|]. unfold live. rewrite (sv_exited _ _ V), (sv_zombie _ _ V).
  change (process_table (set_file fp ?g ?k)) with (process_table k). unfold exited. by rewrite put_fd_state.
Qed.
Lemma opened_raced s s1 fp fd ino mode flags : opening s s1 fp fd → f_count (file_table (fst s1) fp) ≠ 0 →
  let k' := opened_file fp ino mode flags fd (fst s1) in
  fd_of k' fd = Some fp ∧ f_count (file_table k' fp) = 1 ∧
  2 <= refs k' fp - closing_refs (with_own (current_process k') None (asleep (snd s1))) fp.
Proof.
  intros [Hl (I & Hc & [He Hz]) _ Hfd Hfree Hfs] Hn k'. set (c := current_process (fst s1)) in *.
  assert (current_process k' = c) as Ec by done.
  assert (process_table k' = process_table (set_entry c (Z.to_nat fd) (Some fp) (fst s1))) as Et by done.
  assert (f_count (file_table k' fp) = 1) as En by (unfold k', opened_file; by rewrite set_file_lookup, decide_True).
  clearbody k'. rewrite Ec. split; [|split; [done|]].
  - unfold fd_of, cur. rewrite Ec, Et, set_entry_table, decide_True by done. apply fn_insert_eq.
  - rewrite (refs_ext (set_entry c (Z.to_nat fd) (Some fp) (fst s1)) k') by (intros j _; by rewrite Et). unfold fd_of in Hfree.
    change (p_file_table (process_table (fst s1) c) (Z.to_nat fd) = None) in Hfree.
    rewrite refs_set_entry by (done || lia). rewrite Hfree, bool_decide_eq_true_2, bool_decide_eq_false_2 by done. simpl.
    pose proof (fi_count _ _ I fp Hl) as E. pose proof (counts_nonneg _ _ fp I Hl). lia.
Qed.

Lemma ok_rw closed op fd buf count : (∀ f, preserves files_ok (op f buf count)) → preserves files_ok (kernel_rw closed op fd buf count).
Proof. intros Hop. unfold kernel_rw. solve_preserves. Qed.
#[local] Hint Resolve ok_close ok_dup : preserves.
Lemma ok_dup2 fd1 fd2 : preserves files_ok (kernel_dup2 fd1 fd2).
Proof. unfold kernel_dup2. solve_preserves. Qed.
Lemma ok_fcntl fd cmd arg : preserves files_ok (kernel_fcntl fd cmd arg).
Proof. unfold kernel_fcntl. solve_preserves. by apply ok_upd_file. Qed.
#[local] Hint Resolve ok_dup2 ok_fcntl : preserves.

(** The calls other than open and creat. *)
Definition opens (c : fs_call) : option (Z * Z * Z) :=
  match c with
  | CFile (Open path flags mode) => Some (path, flags, mode)
  | CFile (Creat path mode) => Some (path, Z.lor (Z.lor O_WRONLY O_CREAT) O_TRUNC, mode)
  | _ => None
  end.
Lemma ok_call c : opens c = None → preserves files_ok (run_fs_call c).
Proof.
  destruct c as [[]| | | | | | | | | | | | | | | | | |]; try done; intros _; simpl;
    unfold kernel_read, kernel_write, kernel_lseek, kernel_dup, kernel_sync, kernel_unlink, kernel_link, kernel_mknod,
      kernel_chdir, kernel_chown, kernel_chmod, kernel_fchmod, kernel_mkdir, kernel_rmdir, kernel_chroot, kernel_symlink,
      kernel_lchown, kernel_rename, kernel_stat, kernel_lstat, kernel_stat_with, kernel_fstat, kernel_access, on_writable_fs.
  all: try (apply ok_rw; intros).
  all: solve_preserves.
Qed.
Lemma run_opens c path flags mode : opens c = Some (path, flags, mode) → run_fs_call (D := D) c = kernel_open path flags mode.
Proof. by destruct c as [[]| | | | | | | | | | | | | | | | | |]; intros [= <- <- <-]. Qed.
End calls.

(** ** A driver that sleeps

    Its operations do nothing but let the other processes go on, as a script says: each event is a
    step of another process if it may happen, and is left out otherwise. *)
Module Busy.
Inductive event : Type :=
  | EChoose (i f : nat) | EOpened (i fd f : nat) | EDup (i fd f fd' : nat) | EClose (i fd f : nat) | EClosed (i fd f : nat).
Record world := MkWorld { w_asleep : closing; w_script : list (list event) }.
#[export] Instance live_dec p : Decision (live p).
Proof. unfold live. apply _. Defined.
Definition file_in_use (k : kernel) (f : nat) : bool := bool_decide (f_fs (file_table k f) ≠ None).
Definition allowed (c i fd : nat) (P : closing) (k : kernel) : bool :=
  bool_decide (i ≠ c) && bool_decide (i < NR_PROC)%nat && bool_decide (live (process_table k i)) && bool_decide (P i = None)
    && bool_decide (fd < NR_OPEN)%nat.
Definition do_event (c : nat) (x : closing * kernel) (e : event) : closing * kernel :=
  let '(P, k) := x in
  match e with
  | EChoose i f => if bool_decide (i = c) then x else (P, set_file f (λ y, y <| f_fs := Some 0%nat |>) k)
  | EOpened i fd f =>
      if allowed c i fd P k && bool_decide (p_file_table (process_table k i) fd = None) && bool_decide (f < NR_FILE)%nat
        && file_in_use k f && (f_count (file_table k f) =? 0)
      then (P, set_file f (λ y, y <| f_count := 1 |>) (set_entry i fd (Some f) k)) else x
  | EDup i fd f fd' =>
      if allowed c i fd P k && bool_decide (fd' < NR_OPEN)%nat && bool_decide (p_file_table (process_table k i) fd = Some f)
        && bool_decide (p_file_table (process_table k i) fd' = None)
      then (P, set_file f (λ y, y <| f_count ::= λ n, n + 1 |>) (set_entry i fd' (Some f) k)) else x
  | EClose i fd f =>
      if allowed c i fd P k && bool_decide (p_file_table (process_table k i) fd = Some f)
      then (λ j, if decide (j = i) then Some (fd, f) else P j, set_file f (λ y, y <| f_count ::= λ n, n - 1 |>) k) else x
  | EClosed i fd f =>
      if bool_decide (i ≠ c) && bool_decide (i < NR_PROC)%nat && bool_decide (P i = Some (fd, f))
      then (λ j, if decide (j = i) then None else P j, set_entry i fd None k) else x
  end.
Definition busy {A} (a : A) : M (kernel * world) A := λ s,
  match w_script (snd s) with
  | [] => Ok (a, s)
  | es :: rest =>
      let x := fold_left (do_event (current_process (fst s))) es (w_asleep (snd s), fst s) in
      Ok (a, (snd x, MkWorld (fst x) rest))
  end.
#[export] Instance driver : FsDriver world := {
  fs_raw_iput _ := busy tt;
  fs_raw_namei p := busy (p, 0);
  fs_raw_get_mode _ := busy S_IFREG;
  fs_raw_permission _ _ := busy 0;
  fs_get_attribute _ _ := busy 1024;
  fs_open p _ _ := busy (p, 0);
  fs_read _ _ n := busy n;
  fs_write _ _ n := busy n;
  fs_sync _ := busy 0;
  fs_unlink _ := busy 0;
  fs_lseek _ off _ := busy off;
  fs_link _ _ := busy 0;
  fs_mknod _ _ _ := busy 0;
  fs_close _ := busy 0;
  fs_chdir _ := busy 0;
  fs_chown _ _ _ := busy 0;
  fs_chmod _ _ := busy 0;
  fs_fchmod _ _ := busy 0;
  fs_mkdir _ _ := busy 0;
  fs_rmdir _ := busy 0;
  fs_chroot _ := busy 0;
  fs_symlink _ _ := busy 0;
  fs_lchown _ _ _ := busy 0;
  fs_rename _ _ := busy 0;
  fs_stat _ _ := busy 0;
  fs_lstat _ _ := busy 0;
  fs_fstat _ _ := busy 0;
  fs_access _ _ := busy 0;
  buffer_sync := busy tt
}.

Lemma allowed_spec c i fd P k : allowed c i fd P k = true →
  i ≠ c ∧ (i < NR_PROC)%nat ∧ live (process_table k i) ∧ P i = None ∧ (fd < NR_OPEN)%nat.
Proof. unfold allowed. rewrite !andb_true_iff, !bool_decide_eq_true. tauto. Qed.
Lemma with_own_other c own P i : i ≠ c → with_own c own P i = P i.
Proof. intros. unfold with_own. by rewrite decide_False. Qed.
Lemma with_own_step c own P i v j : i ≠ c →
  with_own c own (λ j, if decide (j = i) then v else P j) j = if decide (j = i) then v else with_own c own P j.
Proof. intros. unfold with_own. repeat case_decide; congruence. Qed.
Lemma event_step c e P k own : let x := do_event c (P, k) e in
  rtc (other_step c) (with_own c own P, k) (with_own c own (fst x), snd x) ∧ current_process (snd x) = current_process k.
Proof.
  assert (∀ y, other_step c (with_own c own P, k) y → rtc (other_step c) (with_own c own P, k) y) as Once.
  { intros y Hy. by apply rtc_once. }
  destruct e as [i f|i fd f|i fd f fd'|i fd f|i fd f]; simpl.
  - case_bool_decide as Hi; [by split|]. split; [|done]. apply Once. exists i. split; [done|]. apply st_view.
    by apply same_view_file.
  - destruct (allowed _ _ _ _ _) eqn:Ha; [|by split]. destruct (allowed_spec _ _ _ _ _ Ha) as (Hi & ? & ? & HP & ?). simpl.
    match goal with |- context [if ?b then _ else _] => destruct b eqn:Hb end; [|by split]. split; [|done].
    unfold file_in_use in Hb. rewrite !andb_true_iff, !bool_decide_eq_true, Z.eqb_eq in Hb. destruct Hb as [[[? ?] ?] ?].
    apply Once. exists i. split; [done|]. apply st_opened; try done. by rewrite with_own_other.
  - destruct (allowed _ _ _ _ _) eqn:Ha; [|by split]. destruct (allowed_spec _ _ _ _ _ Ha) as (Hi & ? & ? & HP & ?). simpl.
    match goal with |- context [if ?b then _ else _] => destruct b eqn:Hb end; [|by split]. split; [|done].
    rewrite !andb_true_iff, !bool_decide_eq_true in Hb. destruct Hb as [[? ?] ?].
    apply Once. exists i. split; [done|]. apply (st_dup i _ k fd f fd'); try done. by rewrite with_own_other.
  - destruct (allowed _ _ _ _ _) eqn:Ha; [|by split]. destruct (allowed_spec _ _ _ _ _ Ha) as (Hi & ? & ? & HP & ?). simpl.
    case_bool_decide; [|by split]. split; [|done]. apply Once. exists i. split; [done|].
    apply (st_close i _ _ k fd f); try done; [by rewrite with_own_other|]. intros j. by apply with_own_step.
  - match goal with |- context [if ?b then _ else _] => destruct b eqn:Hb end; [|by split]. split; [|done].
    rewrite !andb_true_iff, !bool_decide_eq_true in Hb. destruct Hb as [[Hi ?] ?].
    apply Once. exists i. split; [done|]. apply (st_closed i _ _ k fd f); try done; [by rewrite with_own_other|].
    intros j. by apply with_own_step.
Qed.
Lemma busy_interferes {A} (a : A) : interferes w_asleep (busy a).
Proof.
  intros s a' s' R c. unfold busy in R. destruct (w_script (snd s)) as [|es rest]; [by injection R as _ <-|].
  injection R as _ <-. cbn [fst snd w_asleep]. change (current_process s.1) with c. clear rest.
  generalize (w_asleep (snd s)). assert (current_process (fst s) = c) as Hc by done. revert Hc. generalize (fst s). clear.
  induction es as [|e es IH]; intros k Hk P; [done|]. cbn [fold_left].
  destruct (event_step c e P k None) as [_ E]. destruct (do_event c (P, k) e) as [P1 k1] eqn:R. cbn [fst snd] in E.
  destruct (IH k1 ltac:(congruence) P1) as [E2 S2]. split; [done|]. intros own. etrans; [|apply S2].
  destruct (event_step c e P k own) as [S _]. by rewrite R in S.
Qed.
#[export] Instance rely : FsDriverRely world.
Proof. refine {| asleep := w_asleep |}; intros; apply busy_interferes. Defined.

(** Two processes without files, of which the first runs. *)
Definition k : kernel :=
  kernel_zero <| process_table := <[1%nat := process_zero <| p_state := PROC_RUNNING |> <| p_pid := 1 |>]>
      (<[2%nat := process_zero <| p_state := PROC_SLEEP_INTERRUPTIBLE |> <| p_pid := 2 |>]> (λ _, process_zero)) |>
    <| current_process := 1%nat |> <| mount_table := <[0%nat := Some 0%nat]> (λ _, None) |>.
Definition start (script : list (list event)) : kernel * world := (k, MkWorld (λ _, None) script).
Lemma no_descriptors i fd : p_file_table (process_table k i) fd = None.
Proof.
  unfold k. rec_simpl. destruct (decide (1%nat = i)) as [<-|]; [done|]. rewrite fn_insert_ne by done.
  destruct (decide (2%nat = i)) as [<-|]; [done|]. by rewrite fn_insert_ne.
Qed.
Lemma busy_start_ok script : files_ok (start script).
Proof.
  unfold files_ok. change (current_process (fst (start script))) with 1%nat. cbn [fst snd start].
  assert (∀ j, with_own 1 None (asleep (MkWorld (λ _, None) script)) j = None) as HP by (intros j; unfold with_own; by case_decide).
  split; [split|split; [unfold NR_PROC; lia|by split]].
  - intros f _. rewrite (closing_refs_ext (λ _, None)) by exact HP.
    assert (closing_refs (λ _, None) f = 0) as -> by (by apply zsum_0).
    assert (refs k f = 0) as ->; [|done]. apply zsum_0. intros i _. unfold proc_refs. case_match; [done|].
    apply zsum_0. intros fd _. by rewrite no_descriptors.
  - intros i fd f _ _ _. by rewrite no_descriptors.
  - intros i fd _ _ _. apply no_descriptors.
  - intros i fd f _. by rewrite HP.
Qed.
#[export] Instance user : UserSpace := {| check_user_ptr _ _ := true |}.
(** The state after a call. *)
Definition after (c : fs_call) (s : kernel * world) : kernel * world :=
  match run_fs_call c s with Ok (_, s) => s | _ => s end.
Definition answer (c : fs_call) (s : kernel * world) : Z := match run_fs_call c s with Ok (r, _) => r | _ => -99 end.
Lemma after_eq c s : answer c s ≠ -99 → run_fs_call c s = Ok (answer c s, after c s).
Proof. unfold answer, after. by destruct (run_fs_call c s) as [[]| | |]. Qed.

(** Process 1 opens a file, reads from it, closes it and changes its directory. While it reads,
    process 2 opens a file and duplicates the descriptor; while it closes, process 2 begins to close
    one of the two, and ends that during the last call. *)
Definition s0 := start [[]; [EChoose 2 1; EOpened 2 0 1; EDup 2 0 1 1]; [EClose 2 0 1]; [EClosed 2 0 1]].
Definition s1 := after (CFile (Open 4096 0 0)) s0.
Definition s2 := after (CFile (Read 0 8192 10)) s1.
Definition s3 := after (CFile (Close 0)) s2.
Definition s4 := after (CChdir 4096) s3.
(** Process 2 opens a file while process 1 does; both have chosen the same entry. *)
Definition t0 := start [[EChoose 2 0; EOpened 2 0 0]].
Definition t1 := after (CFile (Open 4096 0 0)) t0.
End Busy.
#[local] Existing Instances Busy.driver Busy.rely Busy.user.

(** ** Properties *)

(** The race of a call, if it is one that opens a file. *)
Definition call_race {D} `{FsDriver D} `{UserSpace} (c : fs_call) (s : kernel * D) : option nat :=
  match opens c with Some (path, flags, mode) => open_race path flags mode s | None => None end.

(** C3: Whatever file system call a process makes, and whatever calls the other processes make
    while the driver sleeps, fork, exit and reaping of a child included: the count of every open
    file stays the number of descriptors that refer to it, over all processes, less those whose
    close is under way. The check of close for a count of 0 never fires. There is one exception,
    a race of open and creat: the file is chosen before the driver opens the inode, and entered
    after it; when another process has got the same file in the meantime, the descriptors of both
    share it, with a count of 1. *)
Theorem file_calls_keep_refcounts {D} `{FsDriverRely D} `{UserSpace} c (s s' : kernel * D) r :
  files_ok s → run_fs_call c s = Ok (r, s') →
  (∀ fd f, 0 <= fd < Z.of_nat NR_OPEN → fd_of (fst s) fd = Some f → 1 <= f_count (file_table (fst s) f)) ∧
  match call_race c s with
  | None => files_ok s'
  | Some f => fd_of (fst s') r = Some f ∧ f_count (file_table (fst s') f) = 1 ∧
      2 <= refs (fst s') f - closing_refs (with_own (current_process (fst s')) None (asleep (snd s'))) f
  end.
Proof.
  intros Hok R. split; [intros fd f Hfd Hf; by eapply fd_counted|]. unfold call_race.
  destruct (opens c) as [[[path flags] mode]|] eqn:Ho; [|by eapply ok_call].
  rewrite (run_opens _ _ _ _ Ho) in R. destruct (open_inv _ _ _ _ _ _ Hok R) as [[? ->]|(fp & ino & s1 & O & -> & ->)]; [done|].
  destruct (Z.eqb_spec (f_count (file_table (fst s1) fp)) 0).
  - by eapply opened_ok.
  - by apply (opened_raced s s1 fp r ino mode flags O).
Qed.
Lemma file_calls_keep_refcounts_witness :
  (files_ok Busy.s4 ∧ f_count (file_table (fst Busy.s4) 0) = 0 ∧ f_count (file_table (fst Busy.s4) 1) = 1 ∧
   p_file_table (process_table (fst Busy.s4) 2) 1 = Some 1%nat) ∧
  fd_of (fst Busy.t1) 0 = Some 0%nat ∧ p_file_table (process_table (fst Busy.t1) 2) 0 = Some 0%nat ∧
  f_count (file_table (fst Busy.t1) 0) = 1 ∧
  2 <= refs (fst Busy.t1) 0 - closing_refs (with_own 1 None (asleep (snd Busy.t1))) 0.
Proof.
  assert (∀ c s, files_ok s → Busy.answer c s ≠ -99 → call_race c s = None → files_ok (Busy.after c s)) as Next.
  { intros c s Hok Ha Hr. pose proof (file_calls_keep_refcounts c s (Busy.after c s) _ Hok (Busy.after_eq c s Ha)) as [_ K].
    by rewrite Hr in K. }
  split.
  - split; [|by vm_compute]. repeat apply Next; try (by vm_compute). apply Busy.busy_start_ok.
  - pose proof (file_calls_keep_refcounts (CFile (Open 4096 0 0)) Busy.t0 Busy.t1 0 (Busy.busy_start_ok _)) as K.
    destruct K as [_ K]; [apply Busy.after_eq; by vm_compute|].
    assert (call_race (CFile (Open 4096 0 0)) Busy.t0 = Some 0%nat) as E by (by vm_compute).
    rewrite E in K. destruct K as (K1 & K2 & K3). split; [exact K1|]. split; [by vm_compute|]. split; [exact K2|exact K3].
Defined.
