(* ===== verification/Sched.v ===== *)
(** The scheduler (sys/kernel/schedule.c) and the timer interrupt that drives it
    (sys/drivers/timer.c). *)
From S2P Require Import Prelude DList Proc.

(** ** Operations *)

Definition disable_intr : K unit := modify (λ k, k <| k_cpu ::= λ c,
  c <| kernel_eflags ::= <[cpu_state c := intr c]> |> <| intr := false |> |>).
Definition enable_intr : K unit := modify (λ k, k <| k_cpu ::= λ c, c <| intr := true |> |>).
Definition restore_intr_state : K unit := modify (λ k, k <| k_cpu ::= λ c,
  c <| intr := (intr c || kernel_eflags c (cpu_state c))%bool |> |>).

(** [process_queues[prio]] *)
Definition queue_in_range (prio : Z) : bool := (0 <=? prio) && (prio <? PROC_QUANTA).
Definition get_queue (prio : Z) : K (option nat) :=
  if queue_in_range prio then gets (λ k, process_queues k (Z.to_nat prio))
  else undef "process_queues index out of range".
Definition set_queue (prio : Z) (v : option nat) : K unit :=
  if queue_in_range prio
  then modify (λ k, k <| process_queues ::= <[Z.to_nat prio := v]> |>)
  else undef "process_queues index out of range".

Definition q_next (k : kernel) (i : nat) : option nat := p_queue_next (process_table k i).
Definition q_prev (k : kernel) (i : nat) : option nat := p_queue_prev (process_table k i).

Definition IN_A_QUEUE (p : process) : bool :=
  match p_queue_next p, p_queue_prev p with Some _, Some _ => true | _, _ => false end.

Definition remove_from_queue (i : nat) : K unit :=
  p ← gets (λ k, process_table k i);
  match p_queue_prev p, p_queue_next p with
  | None, None => mret tt
  | Some e, Some n =>
      (if bool_decide (n = i) && bool_decide (e = i) then set_queue (p_priority p) None
       else upd_proc n (λ q, q <| p_queue_prev := Some e |>) ;;
            upd_proc e (λ q, q <| p_queue_next := Some n |>) ;;
            set_queue (p_priority p) (Some n)) ;;
      upd_proc i (λ q, q <| p_queue_prev := None |> <| p_queue_next := None |>)
  | _, _ => panic "Process queues corrupted"
  end.

Definition add_to_queue (i : nat) : K unit :=
  prio ← gets (λ k, p_priority (process_table k i));
  q ← get_queue prio;
  match q with
  | None =>
      set_queue prio (Some i) ;;
      upd_proc i (λ p, p <| p_queue_next := Some i |> <| p_queue_prev := Some i |>)
  | Some h =>
      e ← (λ k, match find_last NR_PROC (q_next k) h h with
                | Ok e => Ok (e, k) | Panic m => Panic m
                | Undef w => Undef w | NoFuel => NoFuel end);
      upd_proc e (λ p, p <| p_queue_next := Some i |>) ;;
      upd_proc i (λ p, p <| p_queue_prev := Some e |>) ;;
      upd_proc i (λ p, p <| p_queue_next := Some h |>) ;;
      upd_proc h (λ p, p <| p_queue_prev := Some i |>)
  end.

Definition runnable (p : process) : bool :=
  bool_decide (p_state p = PROC_RUNNABLE) || bool_decide (p_state p = PROC_RUNNING).

Definition adjust_proc_queues (i : nat) : K unit :=
  p ← gets (λ k, process_table k i);
  when (IN_A_QUEUE p) (remove_from_queue i) ;;
  p ← gets (λ k, process_table k i);
  when (runnable p) (add_to_queue i).

Definition SIGALRM : Z := 14.

(** One iteration of the first loop of [schedule]: expired alarms, expired terminal
    time-outs and interruptible sleepers with a pending signal. *)
Definition schedule_proc (i : nat) : K unit :=
  k ← get;
  let p := process_table k i in
  when (negb (p_alarm p =? NO_ALARM) && (p_alarm p <? timer_ticks k))
    (upd_proc i (λ p, p <| p_sigpending ::= λ s, bit_set s (SIGALRM - 1) |>
                        <| p_alarm := NO_ALARM |>)) ;;
  when (negb (p_tty_block p =? NO_TTY_BLOCK) && (p_tty_block p <? timer_ticks k))
    (upd_proc i (λ p, p <| p_state := PROC_RUNNABLE |>) ;;
     adjust_proc_queues i ;;
     upd_proc i (λ p, p <| p_tty_block := NO_TTY_BLOCK |>)) ;;
  p ← gets (λ k, process_table k i);
  when (bool_decide (p_state p = PROC_SLEEP_INTERRUPTIBLE) && negb (p_sigpending p =? 0))
    (upd_proc i (λ p, p <| p_state := PROC_RUNNABLE |>) ;; adjust_proc_queues i).

(** The priorities in the order of the second loop of [schedule]. *)
Definition priorities : list nat := rev (seq 0 (Z.to_nat PROC_QUANTA)).
Fixpoint scan_queues (q : nat → option nat) (prios : list nat) : option nat :=
  match prios with
  | [] => None
  | p :: prios => match q p with Some i => Some i | None => scan_queues q prios end
  end.

(** The C part of the context switch. [asm_switch_to] saves the flags of the old
    context and loads those of the new one; both have interrupts disabled. *)
Definition arch_switch_to (new : nat) : K unit :=
  k ← get;
  if intr (k_cpu k) then panic "arch_switch_to: interrupts should not be enabled"
  else modify (λ k, k <| k_cpu ::= λ c, c <| cpu_state := p_pid (process_table k new) |> |>).

(** The result tells whether the processor now runs another process. If it does, what
    follows the call to [schedule] in the C code runs only when the old process is
    chosen again. *)
Definition schedule : K bool :=
  was ← gets (λ k, intr (k_cpu k));
  when was disable_intr ;;
  for_each all_procs schedule_proc ;;
  old ← gets current_process;
  q ← gets process_queues;
  match scan_queues q priorities with
  | Some i =>
      upd_proc i (λ p, p <| p_state := PROC_RUNNING |>) ;;
      modify (λ k, k <| current_process := i |>) ;;
      if decide (i = old) then when was enable_intr ;; mret false
      else arch_switch_to i ;; mret true
  | None => undef "current_process is null"
  end.

(** What a process does when it comes back from [schedule] inside [sleep] and [wakeup]. *)
Definition resume : K unit := restore_intr_state.

Definition sleep (addr : Z) (type : proc_state) : K bool :=
  disable_intr ;;
  c ← gets current_process;
  if decide (c = 0%nat) then panic "Trying to sleep on first process"
  else if bool_decide (type ≠ PROC_SLEEP_INTERRUPTIBLE)
          && bool_decide (type ≠ PROC_SLEEP_UNINTERRUPTIBLE)
  then panic "sleep: bad type"
  else
    upd_proc c (λ p, p <| p_state := type |>) ;;
    upd_proc c (λ p, p <| p_sleeping_on := Some addr |>) ;;
    adjust_proc_queues c ;;
    switched ← schedule;
    when (negb switched) resume ;;
    mret switched.

Definition PROC_SLEEPING (p : process) : bool :=
  bool_decide (p_state p = PROC_SLEEP_INTERRUPTIBLE)
  || bool_decide (p_state p = PROC_SLEEP_UNINTERRUPTIBLE).

Definition wakeup_proc (addr : Z) (i : nat) : K bool :=
  p ← gets (λ k, process_table k i);
  if PROC_SLEEPING p && bool_decide (p_sleeping_on p = Some addr) then
    upd_proc i (λ p, p <| p_state := PROC_RUNNABLE |>) ;;
    upd_proc i (λ p, p <| p_sleeping_on := None |>) ;;
    adjust_proc_queues i ;;
    mret true
  else mret false.

Fixpoint wakeup_procs (addr : Z) (l : list nat) : K bool :=
  match l with
  | [] => mret false
  | i :: l => s ← wakeup_proc addr i; s' ← wakeup_procs addr l; mret (s || s')%bool
  end.

Inductive wakeup_mode : Type := WAKEUP_RETURN | WAKEUP_SWITCH.

Definition wakeup (addr : Z) (ret : wakeup_mode) : K bool :=
  disable_intr ;;
  sched ← wakeup_procs addr all_procs;
  switched ← (match ret with
              | WAKEUP_SWITCH => if sched : bool then schedule else mret false
              | WAKEUP_RETURN => mret false
              end);
  when (negb switched) resume ;;
  mret switched.

(** C division truncates: [Z.quot]. *)
Definition nice_to_pri (nice : Z) : Z :=
  let rat := Z.quot 40 PROC_QUANTA in
  let tmp := - Z.quot nice rat in
  tmp + rat.

Definition clamp_nice (n : Z) : Z := if 19 <? n then 19 else if n <? -20 then -20 else n.

Definition kernel_nice (inc : Z) : K Z :=
  upd_cur (λ p, p <| p_nice ::= λ n, clamp_nice (s32 (n + inc)) |>) ;;
  upd_cur (λ p, p <| p_priority := nice_to_pri (p_nice p) |>) ;;
  upd_cur (λ p, p <| p_quanta := p_priority p |>) ;;
  upd_cur (λ p, p <| p_counter := p_quanta p |>) ;;
  c ← gets current_process;
  adjust_proc_queues c ;;
  gets (λ k, p_nice (cur k)).

(** Timer interrupt (the PIT's own handler does nothing). *)
Definition timer_driver_irq_handler (system_is_panicing : bool) : K bool :=
  modify (λ k, k <| timer_ticks ::= λ t, u32 (t + 1) |>) ;;
  if system_is_panicing then mret false
  else
    c ← gets current_process;
    p ← gets cur;
    upd_proc c (λ p, p <| p_counter ::= λ n, n - 1 |>) ;;
    when (p_counter p =? 0)
      (upd_proc c (λ p, p <| p_counter := 0 |>) ;;
       upd_proc c (λ p, p <| p_state := PROC_RUNNABLE |>) ;;
       adjust_proc_queues c) ;;
    schedule.

(** ** The queues as lists

    [qrep k ls]: for each priority [p] the ring whose head is [process_queues[p]] holds
    the processes of the list [ls p], in order; these have priority [p], and a process
    on no list has null links. *)
Record qrep (k : kernel) (ls : Z → list nat) : Prop := {
  qr_head p : 0 <= p < PROC_QUANTA → process_queues k (Z.to_nat p) = head (ls p);
  qr_ring p : ring (q_next k) (q_prev k) (ls p);
  qr_nodup p : NoDup (ls p);
  qr_in p i : i ∈ ls p →
    (i < NR_PROC)%nat ∧ p_priority (process_table k i) = p ∧ 0 <= p < PROC_QUANTA;
  qr_out i : (i < NR_PROC)%nat → i ∉ ls (p_priority (process_table k i)) →
    q_next k i = None ∧ q_prev k i = None
}.

(** Unlinking [i] makes its successor the head of the queue. *)
Fixpoint unlink_from (i : nat) (acc l : list nat) : list nat :=
  match l with
  | [] => rev acc
  | x :: l => if decide (x = i) then l ++ rev acc else unlink_from i (x :: acc) l
  end.
Definition unlink (i : nat) (l : list nat) : list nat := unlink_from i [] l.
Definition requeue (b : bool) (i : nat) (l : list nat) : list nat :=
  unlink i l ++ (if b then [i] else []).

Lemma unlink_from_notin i acc l : i ∉ l → unlink_from i acc l = rev acc ++ l.
Proof.
  revert acc. induction l as [|x l IH]; intros acc Hi; simpl; [by rewrite app_nil_r|].
  rewrite decide_False by set_solver. rewrite IH by set_solver. simpl. by rewrite <- app_assoc.
Qed.
Lemma unlink_notin i l : i ∉ l → unlink i l = l.
Proof. apply unlink_from_notin. Qed.
Lemma unlink_split i l1 l2 : i ∉ l1 → unlink i (l1 ++ i :: l2) = l2 ++ l1.
Proof.
  unfold unlink. change (l2 ++ l1) with (l2 ++ rev [] ++ l1). generalize (@nil nat) as acc.
  induction l1 as [|x l1 IH]; intros acc Hi; simpl.
  - by rewrite decide_True, app_nil_r.
  - rewrite decide_False by set_solver. rewrite IH by set_solver. simpl.
    by rewrite <- app_assoc.
Qed.
Lemma unlink_elem i j l : j ∈ unlink i l → j ∈ l.
Proof.
  destruct (decide (i ∈ l)) as [(l1 & l2 & -> & Hi)%list_elem_of_split_l|Hi].
  - rewrite unlink_split by done. set_solver.
  - by rewrite unlink_notin.
Qed.

(** ** Running the operations *)

Lemma upd_proc_run {A} i f (m : K A) k : (upd_proc i f ;; m) k = m (set_proc i f k).
Proof. done. Qed.
Lemma gets_run {A B} (f : kernel → A) (m : A → K B) k : (gets f ≫= m) k = m (f k) k.
Proof. done. Qed.
Lemma modify_run {A} f (m : K A) k : (modify f ;; m) k = m (f k).
Proof. done. Qed.
Lemma mret_run {A B} (a : A) (m : A → K B) k : (mret a ≫= m) k = m a k.
Proof. done. Qed.
Lemma bind_assoc_run {A B C} (m : K A) (f : A → K B) (g : B → K C) k :
  ((m ≫= f) ≫= g) k = (m ≫= (λ a, f a ≫= g)) k.
Proof. unfold mbind, M_bind. by destruct (m k) as [[]| | |]. Qed.
Lemma set_queue_run prio v k : 0 <= prio < PROC_QUANTA →
  set_queue prio v k = Ok (tt, k <| process_queues ::= <[Z.to_nat prio := v]> |>).
Proof.
  intros. unfold set_queue, queue_in_range.
  by rewrite (proj2 (Z.leb_le _ _)), (proj2 (Z.ltb_lt _ _)) by lia.
Qed.
Lemma get_queue_run prio k : 0 <= prio < PROC_QUANTA →
  get_queue prio k = Ok (process_queues k (Z.to_nat prio), k).
Proof.
  intros. unfold get_queue, queue_in_range.
  by rewrite (proj2 (Z.leb_le _ _)), (proj2 (Z.ltb_lt _ _)) by lia.
Qed.

(** [k'] is [k] with other queue links. *)
Definition strip (p : process) : process := p <| p_queue_next := None |> <| p_queue_prev := None |>.
Record same_but_links (k k' : kernel) : Prop := {
  sbl_proc j : strip (process_table k' j) = strip (process_table k j);
  sbl_rest : k' = k <| process_table := process_table k' |> <| process_queues := process_queues k' |>
}.

#[export] Instance same_but_links_preorder : PreOrder same_but_links.
Proof.
  split.
  - intros k. split; [done|]. by destruct k.
  - intros k1 k2 k3 [H1 H2] [H3 H4]. split; [intros; by rewrite H3|].
    rewrite H4. rewrite H2 at 1. by destruct k3.
Qed.

Lemma sbl_field {A} (f : process → A) k k' j :
  same_but_links k k' → (∀ p, f (strip p) = f p) →
  f (process_table k' j) = f (process_table k j).
Proof. intros [Hp _] Hf. rewrite <- Hf, Hp. apply Hf. Qed.

Lemma sbl_set_proc i f k :
  (∀ p, strip (f p) = strip p) → same_but_links k (set_proc i f k).
Proof.
  intros Hf. split; [|by destruct k]. intros j. rewrite set_proc_lookup.
  case_decide; [by rewrite Hf|done].
Qed.
Lemma sbl_set_queue p v k : same_but_links k (k <| process_queues ::= <[p := v]> |>).
Proof. split; [done|by destruct k]. Qed.

Lemma q_next_set_proc i f k j :
  q_next (set_proc i f k) j =
    if decide (i = j) then p_queue_next (f (process_table k j)) else q_next k j.
Proof. unfold q_next. rewrite set_proc_lookup. by case_decide. Qed.
Lemma q_prev_set_proc i f k j :
  q_prev (set_proc i f k) j =
    if decide (i = j) then p_queue_prev (f (process_table k j)) else q_prev k j.
Proof. unfold q_prev. rewrite set_proc_lookup. by case_decide. Qed.

(** Changing the queue of one priority. *)
Lemma qrep_change k k' ls prio l i :
  qrep k ls → same_but_links k k' → 0 <= prio < PROC_QUANTA →
  (i < NR_PROC)%nat → p_priority (process_table k i) = prio →
  process_queues k' (Z.to_nat prio) = head l →
  (∀ p, p ≠ Z.to_nat prio → process_queues k' p = process_queues k p) →
  ring (q_next k') (q_prev k') l → NoDup l →
  (∀ j, j ∈ l → j = i ∨ j ∈ ls prio) → (∀ j, j ∈ ls prio → j = i ∨ j ∈ l) →
  (∀ j, j ∉ ls prio → j ≠ i → q_next k' j = q_next k j ∧ q_prev k' j = q_prev k j) →
  (i ∉ l → q_next k' i = None ∧ q_prev k' i = None) →
  qrep k' (<[prio := l]> ls).
Proof.
  intros Hq Hs Hr Hi Hpi Hhead Hqs Hring Hnd Hl1 Hl2 Hframe Hout.
  assert (Hprio : ∀ j, p_priority (process_table k' j) = p_priority (process_table k j)).
  { intros j. by apply sbl_field. }
  assert (Hother : ∀ p j, p ≠ prio → j ∈ ls p → (j ∉ ls prio) ∧ j ≠ i).
  { intros p j Hp Hj. apply (qr_in _ _ Hq) in Hj as (_ & Hj & _).
    split; [|congruence]. intros (_ & ? & _)%(qr_in _ _ Hq). congruence. }
  split.
  - intros p Hp. destruct (decide (p = prio)) as [->|Hne].
    + by rewrite fn_insert_eq.
    + rewrite fn_insert_ne, Hqs by (done || lia). by apply (qr_head _ _ Hq).
  - intros p. destruct (decide (p = prio)) as [->|Hne]; [by rewrite fn_insert_eq|].
    rewrite fn_insert_ne by done. eapply ring_frame; [apply (qr_ring _ _ Hq)| |];
      intros j Hj; apply Hframe; by eapply Hother.
  - intros p. destruct (decide (p = prio)) as [->|Hne]; [by rewrite fn_insert_eq|].
    rewrite fn_insert_ne by done. apply (qr_nodup _ _ Hq).
  - intros p j. rewrite Hprio. destruct (decide (p = prio)) as [->|Hne].
    + rewrite fn_insert_eq. intros [->|Hj]%Hl1; [done|]. by apply (qr_in _ _ Hq).
    + rewrite fn_insert_ne by done. apply (qr_in _ _ Hq).
  - intros j Hj. rewrite Hprio. destruct (decide (p_priority (process_table k j) = prio)) as [E|Hne].
    + rewrite E, fn_insert_eq. intros Hjl. destruct (decide (j = i)) as [->|Hji]; [by apply Hout|].
      assert (j ∉ ls prio) as Hjp by (intros [?|?]%Hl2; done).
      destruct (Hframe j Hjp Hji) as [-> ->]. apply (qr_out _ _ Hq); [done|congruence].
    + rewrite fn_insert_ne by done. intros Hjl.
      assert (j ∉ ls prio) as Hjp by (intros (_ & ? & _)%(qr_in _ _ Hq); congruence).
      destruct (Hframe j Hjp ltac:(congruence)) as [-> ->]. by apply (qr_out _ _ Hq).
Qed.

Lemma unlink_nodup i l : NoDup l → NoDup (unlink i l).
Proof.
  intros Hnd. destruct (decide (i ∈ l)) as [(l1 & l2 & -> & Hi)%list_elem_of_split_l|Hi].
  - rewrite unlink_split by done. rewrite <- Permutation_middle in Hnd.
    apply NoDup_cons in Hnd as [_ Hnd]. by rewrite (comm (++) l2).
  - by rewrite unlink_notin.
Qed.
Lemma unlink_elem_iff i j l : NoDup l → j ∈ unlink i l ↔ j ∈ l ∧ j ≠ i.
Proof.
  intros Hnd. destruct (decide (i ∈ l)) as [(l1 & l2 & -> & Hi)%list_elem_of_split_l|Hi].
  - rewrite unlink_split by done. rewrite <- Permutation_middle in Hnd.
    apply NoDup_cons in Hnd as [Hnd _]. set_solver.
  - rewrite unlink_notin by done. set_solver.
Qed.
Lemma requeue_elem b i j l : NoDup l →
  j ∈ requeue b i l ↔ (j ∈ l ∧ j ≠ i) ∨ (b = true ∧ j = i).
Proof.
  intros. unfold requeue. rewrite elem_of_app, unlink_elem_iff by done.
  destruct b; set_solver.
Qed.

Lemma qrep_in_queue k ls i : qrep k ls → (i < NR_PROC)%nat →
  IN_A_QUEUE (process_table k i) = bool_decide (i ∈ ls (p_priority (process_table k i))).
Proof.
  intros Hq Hi. unfold IN_A_QUEUE. case_bool_decide as Hin.
  - destruct (ring_lookup _ _ _ _ (qr_ring _ _ Hq _) Hin) as (n & e & Hn & He & _).
    unfold q_next, q_prev in *. by rewrite Hn, He.
  - destruct (qr_out _ _ Hq i Hi Hin) as [Hn He]. unfold q_next in Hn. by rewrite Hn.
Qed.

Ltac sbl :=
  repeat match goal with
  | |- same_but_links ?k (?k' <| process_queues ::= _ |>) =>
      transitivity k'; [|apply sbl_set_queue]
  | |- same_but_links ?k (set_proc ?i ?f ?k') =>
      transitivity k'; [|apply sbl_set_proc; reflexivity]
  | |- same_but_links ?k ?k => reflexivity
  end.

Lemma q_next_queues k g j : q_next (k <| process_queues ::= g |>) j = q_next k j.
Proof. done. Qed.
Lemma q_prev_queues k g j : q_prev (k <| process_queues ::= g |>) j = q_prev k j.
Proof. done. Qed.

Ltac links_simpl :=
  repeat first
    [ rewrite q_next_set_proc | rewrite q_prev_set_proc
    | rewrite q_next_queues | rewrite q_prev_queues | rewrite set_proc_queues
    | progress rec_simpl_goal
    | match goal with |- context [p_queue_next (process_table ?k ?j)] =>
        change (p_queue_next (process_table k j)) with (q_next k j) end
    | match goal with |- context [p_queue_prev (process_table ?k ?j)] =>
        change (p_queue_prev (process_table k j)) with (q_prev k j) end
    | progress cbv beta ].

(** Run a monadic computation symbolically. *)
Ltac krun :=
  repeat first
    [ rewrite bind_assoc_run | rewrite gets_run | rewrite upd_proc_run
    | rewrite modify_run | rewrite mret_run
    | rewrite (bind_ok (set_queue _ _) _ _ _ _ (set_queue_run _ _ _ ltac:(eassumption)))
    | rewrite (bind_ok (get_queue _) _ _ _ _ (get_queue_run _ _ ltac:(eassumption))) ].

(** [remove_from_queue] on a queued process. *)
Lemma remove_from_queue_ok k ls i : qrep k ls → (i < NR_PROC)%nat →
  let prio := p_priority (process_table k i) in i ∈ ls prio →
  ∃ k', remove_from_queue i k = Ok (tt, k') ∧ same_but_links k k' ∧
    qrep k' (<[prio := unlink i (ls prio)]> ls).
Proof.
  intros Hq Hi prio Hin. destruct (qr_in _ _ Hq _ _ Hin) as (_ & _ & Hrange).
  pose proof (qr_ring _ _ Hq prio) as Hring. pose proof (qr_nodup _ _ Hq prio) as Hnd.
  destruct (ring_lookup _ _ _ _ Hring Hin) as (n & e & Hn & He & Hnl & Hel).
  unfold remove_from_queue. krun. pose proof Hn as Hn0. pose proof He as He0.
  unfold q_next in Hn0. unfold q_prev in He0. rewrite Hn0, He0. fold prio.
  destruct (decide (n = i ∧ e = i)) as [[-> ->]|Hne].
  - rewrite !bool_decide_eq_true_2 by done. simpl. krun.
    eexists. split; [reflexivity|]. split; [sbl|].
    pose proof (ring_singleton _ _ _ _ Hring Hnd Hin Hn) as Hl.
    assert (unlink i (ls prio) = []) as Hu by (rewrite Hl; apply (unlink_split i [] []); set_solver).
    rewrite Hu. apply (qrep_change k _ ls prio _ i); try done.
    + sbl.
    + links_simpl. apply fn_insert_eq.
    + intros. links_simpl. by apply fn_insert_ne.
    + constructor.
    + intros j Hj. by apply elem_of_nil in Hj.
    + intros j Hj. rewrite Hl in Hj. apply list_elem_of_singleton in Hj. by left.
    + intros j Hj Hji. links_simpl. by rewrite !decide_False by congruence.
    + intros _. links_simpl. by rewrite !decide_True by done.
  - assert (bool_decide (n = i) && bool_decide (e = i) = false) as ->.
    { apply andb_false_iff. destruct (decide (n = i)), (decide (e = i));
        [tauto|right|left|left]; by apply bool_decide_eq_false_2. }
    krun. eexists. split; [reflexivity|]. split; [sbl|].
    pose proof Hin as (l1 & l2 & Hl & Hi1)%list_elem_of_split_l.
    assert (Hlu : unlink i (ls prio) = l2 ++ l1) by (rewrite Hl; by apply unlink_split).
    assert (Hne' : l2 ++ l1 ≠ []).
    { intros [-> ->]%app_eq_nil. rewrite Hl in Hnl, Hel. apply Hne. set_solver. }
    rewrite Hl in Hring, Hnd.
    pose proof Hring as Hr. apply ring_rotate in Hr. simpl in Hr.
    match goal with |- qrep ?k' _ =>
      destruct (ring_remove _ _ (q_next k') (q_prev k') l1 i l2 n e Hring Hnd Hne' Hn He)
        as [Hr' Hh]
    end.
    { intros a Ha. links_simpl. rewrite decide_False by done.
      destruct (decide (e = a)), (decide (a = e)), (decide (n = a)); try done; subst; done. }
    { intros a Ha. links_simpl. rewrite decide_False by done.
      destruct (decide (e = a)), (decide (a = n)), (decide (n = a)); try done; subst; done. }
    apply (qrep_change k _ ls prio _ i); try done.
    + sbl.
    + links_simpl. rewrite fn_insert_eq. by rewrite Hlu, Hh.
    + intros. links_simpl. by apply fn_insert_ne.
    + by rewrite Hlu.
    + apply unlink_nodup. by rewrite Hl.
    + intros j. rewrite unlink_elem_iff by (by rewrite Hl). tauto.
    + intros j Hj. rewrite unlink_elem_iff by (by rewrite Hl).
      destruct (decide (j = i)); tauto.
    + intros j Hj Hji. pose proof (elem_ne_l _ _ _ Hel Hj).
      pose proof (elem_ne_l _ _ _ Hnl Hj).
      split; links_simpl; repeat case_decide; congruence.
    + intros _. links_simpl. by rewrite !decide_True by done.
Qed.

(** [add_to_queue] on a process that is on no queue. *)
Lemma add_to_queue_ok k ls i : qrep k ls → (i < NR_PROC)%nat →
  let prio := p_priority (process_table k i) in
  0 <= prio < PROC_QUANTA → i ∉ ls prio →
  ∃ k', add_to_queue i k = Ok (tt, k') ∧ same_but_links k k' ∧
    qrep k' (<[prio := ls prio ++ [i]]> ls).
Proof.
  intros Hq Hi prio Hrange Hin.
  pose proof (qr_ring _ _ Hq prio) as Hring. pose proof (qr_nodup _ _ Hq prio) as Hnd.
  assert (Hnd' : NoDup (ls prio ++ [i])).
  { apply NoDup_app. split; [done|]. split; [set_solver|apply NoDup_singleton]. }
  unfold add_to_queue. krun. fold prio. krun. rewrite (qr_head _ _ Hq) by done.
  destruct (ls prio) as [|h t] eqn:Hl; cbn [head].
  - krun. eexists. split; [reflexivity|]. split; [sbl|]. rewrite <- Hl.
    apply (qrep_change k _ ls prio _ i); try done; rewrite ?Hl; try done.
    + sbl.
    + links_simpl. apply fn_insert_eq.
    + intros. links_simpl. by apply fn_insert_ne.
    + simpl. links_simpl. by rewrite !decide_True by done.
    + set_solver.
    + set_solver.
    + intros j Hj Hji. links_simpl. by rewrite !decide_False by congruence.
    + set_solver.
  - set (e := default h (last t)).
    assert (He : e ∈ h :: t).
    { apply list_elem_of_lookup. exists (pred (length (h :: t))). rewrite <- last_lookup.
      apply last_cons_default. }
    assert (length t < NR_PROC)%nat as Hlen.
    { change (S (length t) <= NR_PROC)%nat. change (length (h :: t) <= NR_PROC)%nat.
      unfold NR_PROC at 1. rewrite <- (length_seq 64 0).
      apply submseteq_length, NoDup_submseteq; [done|].
      intros x Hx. apply seq_elem. rewrite <- Hl in Hx.
      apply (qr_in _ _ Hq) in Hx as [Hx _]. unfold NR_PROC in Hx. lia. }
    rewrite (bind_ok _ _ _ e k); [|cbv beta; by rewrite (find_last_ring _ _ (q_prev k) h t)].
    krun. eexists. split; [reflexivity|]. split; [sbl|].
    pose proof (elem_ne_l _ _ _ He Hin) as Hei.
    assert (h ≠ i) as Hhi by set_solver.
    apply (qrep_change k _ ls prio _ i); try done; rewrite ?Hl; try done.
    + sbl.
    + links_simpl. rewrite (qr_head _ _ Hq) by done. by rewrite Hl.
    + match goal with |- ring (q_next ?k') _ _ =>
        eapply (ring_insert_tail (q_next k) (q_prev k) (q_next k') (q_prev k') h t e i) end;
        try done; try (apply last_cons_default).
      all: intros; links_simpl; repeat case_decide; congruence.
    + set_solver.
    + set_solver.
    + intros j Hj Hji. links_simpl.
      pose proof (elem_ne_l _ _ _ He Hj). assert (h ≠ j) by set_solver.
      by rewrite !decide_False by congruence.
    + set_solver.
Qed.

Lemma qrep_ext k k' ls ls' :
  qrep k ls → process_table k' = process_table k → process_queues k' = process_queues k →
  (∀ p, ls' p = ls p) → qrep k' ls'.
Proof.
  intros [H1 H2 H3 H4 H5] Hp Hq Hls.
  assert (Hn : q_next k' = q_next k) by (unfold q_next; by rewrite Hp).
  assert (Hv : q_prev k' = q_prev k) by (unfold q_prev; by rewrite Hp).
  split; intros *; rewrite ?Hls, ?Hp, ?Hq, ?Hn, ?Hv; auto.
Qed.

Lemma fn_insert_insert_at `{EqDecision A} {B} (f : A → B) a b c x :
  <[a := c]> (<[a := b]> f) x = <[a := c]> f x.
Proof.
  destruct (decide (a = x)) as [->|]; [by rewrite !fn_insert_eq|by rewrite !fn_insert_ne].
Qed.

(** [adjust_proc_queues] takes the process off its queue and, if it can run, links it at
    the tail of the queue of its priority. *)
Lemma adjust_proc_queues_ok k ls i : qrep k ls → (i < NR_PROC)%nat →
  let prio := p_priority (process_table k i) in
  0 <= prio < PROC_QUANTA →
  ∃ k', adjust_proc_queues i k = Ok (tt, k') ∧ same_but_links k k' ∧
    qrep k' (<[prio := requeue (runnable (process_table k i)) i (ls prio)]> ls).
Proof.
  intros Hq Hi prio Hrange. unfold adjust_proc_queues. krun.
  rewrite (qrep_in_queue _ ls) by done. fold prio.
  assert (∃ k1, when (bool_decide (i ∈ ls prio)) (remove_from_queue i) k = Ok (tt, k1) ∧
            same_but_links k k1 ∧ qrep k1 (<[prio := unlink i (ls prio)]> ls))
    as (k1 & Hk1 & Hs1 & Hq1).
  { case_bool_decide as Hin; simpl; [by apply remove_from_queue_ok|].
    exists k. split; [done|]. split; [done|]. rewrite unlink_notin by done.
    eapply qrep_ext; [exact Hq|done|done|]. intros p.
    destruct (decide (prio = p)) as [->|]; [by rewrite fn_insert_eq|by rewrite fn_insert_ne]. }
  rewrite (bind_ok _ _ _ _ _ Hk1). krun.
  assert (Hrun : runnable (process_table k1 i) = runnable (process_table k i)) by (by apply sbl_field).
  assert (Hpr : p_priority (process_table k1 i) = prio) by (by apply (sbl_field p_priority)).
  rewrite Hrun. unfold requeue. destruct (runnable (process_table k i)); simpl.
  - destruct (add_to_queue_ok k1 _ i Hq1 Hi) as (k2 & Hk2 & Hs2 & Hq2).
    + by rewrite Hpr.
    + rewrite Hpr, fn_insert_eq, unlink_elem_iff by apply (qr_nodup _ _ Hq). tauto.
    + exists k2. split; [done|]. split; [by transitivity k1|].
      eapply qrep_ext; [exact Hq2|done|done|]. intros p.
      by rewrite Hpr, fn_insert_insert_at, fn_insert_eq.
  - exists k1. rewrite app_nil_r. done.
Qed.

(** ** The scheduler invariant

    The queues are well formed, hold exactly the processes that can run, priorities are
    in range, and the idle process (entry 0 of the table, which never sleeps) can run. *)
Record sched_inv (k : kernel) (ls : Z → list nat) : Prop := {
  si_qrep : qrep k ls;
  si_mem i : (i < NR_PROC)%nat →
    runnable (process_table k i) = bool_decide (i ∈ ls (p_priority (process_table k i)));
  si_prio i : (i < NR_PROC)%nat → 0 <= p_priority (process_table k i) < PROC_QUANTA;
  si_idle : runnable (process_table k 0) = true
}.
Definition sched_wf (k : kernel) : Prop := ∃ ls, sched_inv k ls.

(** Process updates that leave the scheduling fields alone. *)
Record keeps_links (f : process → process) : Prop := {
  kl_next p : p_queue_next (f p) = p_queue_next p;
  kl_prev p : p_queue_prev (f p) = p_queue_prev p;
  kl_priority p : p_priority (f p) = p_priority p
}.
Ltac keeps_links := split; intros; repeat case_match; done.

Lemma qrep_set_proc k ls i f : keeps_links f → qrep k ls → qrep (set_proc i f k) ls.
Proof.
  intros [H1 H2 H3] [H4 H5 H6 H7 H8].
  assert (Hp : ∀ j, p_priority (process_table (set_proc i f k) j) = p_priority (process_table k j)).
  { intros j. rewrite set_proc_lookup. by case_decide. }
  assert (Hn : ∀ j, q_next (set_proc i f k) j = q_next k j).
  { intros j. rewrite q_next_set_proc. case_decide; [apply H1|done]. }
  assert (Hv : ∀ j, q_prev (set_proc i f k) j = q_prev k j).
  { intros j. rewrite q_prev_set_proc. case_decide; [apply H2|done]. }
  split.
  - apply H4.
  - intros p. eapply ring_frame; [apply H5| |]; auto.
  - apply H6.
  - intros p j. rewrite Hp. apply H7.
  - intros j. rewrite Hp, Hn, Hv. apply H8.
Qed.

Lemma sched_inv_ext k k' ls :
  sched_inv k ls → process_table k' = process_table k → process_queues k' = process_queues k →
  sched_inv k' ls.
Proof.
  intros [H1 H2 H3 H4] Hp Hq. split; rewrite ?Hp; auto. by eapply qrep_ext.
Qed.

(** Kernels with the same queues, links and priorities. *)
Record same_links (k k' : kernel) : Prop := {
  sl_queues : process_queues k' = process_queues k;
  sl_next i : q_next k' i = q_next k i;
  sl_prev i : q_prev k' i = q_prev k i;
  sl_priority i : p_priority (process_table k' i) = p_priority (process_table k i)
}.
Lemma qrep_same_links k k' ls : same_links k k' → qrep k ls → qrep k' ls.
Proof.
  intros [Hq Hn Hv Hpr] [Q1 Q2 Q3 Q4 Q5]. split.
  - intros. rewrite Hq. auto.
  - intros p. eapply ring_frame; [apply Q2| |]; auto.
  - done.
  - intros p i. rewrite Hpr. apply Q4.
  - intros i. rewrite Hpr, Hn, Hv. apply Q5.
Qed.
Lemma sched_inv_same_links k k' ls : same_links k k' →
  (∀ i, runnable (process_table k' i) = runnable (process_table k i)) → sched_inv k ls → sched_inv k' ls.
Proof.
  intros Hl Hst [Q S2 S3 S4]. split.
  - by eapply qrep_same_links.
  - intros i. rewrite (sl_priority _ _ Hl), Hst. apply S2.
  - intros i. rewrite (sl_priority _ _ Hl). apply S3.
  - by rewrite Hst.
Qed.

Lemma sched_inv_set_proc k ls i f :
  sched_inv k ls → keeps_links f →
  runnable (f (process_table k i)) = runnable (process_table k i) →
  sched_inv (set_proc i f k) ls.
Proof.
  intros [H1 H2 H3 H4] Hf Hr. split; [by apply qrep_set_proc| | |]; try intros j Hj;
    rewrite set_proc_lookup; case_decide; subst; rewrite ?(kl_priority _ Hf), ?Hr; auto.
Qed.

Lemma sched_inv_adjust_gen k k1 ls i :
  sched_inv k ls → qrep k1 ls → (i < NR_PROC)%nat →
  (∀ j, p_priority (process_table k1 j) = p_priority (process_table k j)) →
  (∀ j, j ≠ i → runnable (process_table k1 j) = runnable (process_table k j)) →
  (i = 0%nat → runnable (process_table k1 i) = true) →
  let prio := p_priority (process_table k i) in
  ∃ k', adjust_proc_queues i k1 = Ok (tt, k') ∧ same_but_links k1 k' ∧
    sched_inv k' (<[prio := requeue (runnable (process_table k1 i)) i (ls prio)]> ls).
Proof.
  intros [H1 H2 H3 H4] Hq1 Hi Hprio Hruns Hidle prio.
  assert (Hpi : p_priority (process_table k1 i) = prio) by apply Hprio.
  destruct (adjust_proc_queues_ok k1 ls i) as (k' & Hk & Hs & Hq);
    [done|done|by rewrite Hpi; apply H3|].
  rewrite Hpi in Hq. exists k'. split; [done|]. split; [done|].
  assert (Hpr : ∀ j, p_priority (process_table k' j) = p_priority (process_table k j)).
  { intros j. rewrite (sbl_field p_priority _ _ _ Hs) by done. apply Hprio. }
  assert (Hrun : ∀ j, runnable (process_table k' j) = runnable (process_table k1 j)).
  { intros j. by rewrite (sbl_field runnable _ _ _ Hs) by done. }
  pose proof (qr_nodup _ _ H1 prio) as Hnd.
  split; [done| | |].
  - intros j Hj. rewrite Hrun, Hpr. destruct (decide (j = i)) as [->|Hij].
    + fold prio. rewrite fn_insert_eq. symmetry. apply eq_iff_eq_true.
      rewrite bool_decide_eq_true, requeue_elem by done. naive_solver.
    + rewrite Hruns, H2 by done. apply bool_decide_ext.
      destruct (decide (p_priority (process_table k j) = prio)) as [E|E].
      * rewrite E, fn_insert_eq, requeue_elem by done. naive_solver.
      * by rewrite fn_insert_ne by done.
  - intros j Hj. rewrite Hpr. by apply H3.
  - rewrite Hrun. destruct (decide (0%nat = i)) as [<-|]; [by apply Hidle|].
    by rewrite Hruns.
Qed.

Lemma sched_inv_adjust k ls i f :
  sched_inv k ls → keeps_links f → (i < NR_PROC)%nat →
  (i = 0%nat → runnable (f (process_table k i)) = true) →
  let prio := p_priority (process_table k i) in
  ∃ k', adjust_proc_queues i (set_proc i f k) = Ok (tt, k') ∧
    same_but_links (set_proc i f k) k' ∧
    sched_inv k' (<[prio := requeue (runnable (f (process_table k i))) i (ls prio)]> ls).
Proof.
  intros Hinv Hf Hi Hidle prio. pose proof (set_proc_eq i f k) as He. rewrite <- He in *.
  apply sched_inv_adjust_gen; [done| |done| | |done].
  - by apply qrep_set_proc; [|apply (si_qrep _ _ Hinv)].
  - intros j. rewrite set_proc_lookup. case_decide; [apply (kl_priority _ Hf)|done].
  - intros j Hj. by rewrite set_proc_ne.
Qed.

(** [k'] is [k] with the process table [T], up to the links. *)
Record becomes (T : nat → process) (k k' : kernel) : Prop := {
  bc_proc j : strip (process_table k' j) = strip (T j);
  bc_rest : k' = k <| process_table := process_table k' |> <| process_queues := process_queues k' |>
}.
(** The update [f] does not look at the links. *)
Definition strip_compat (f : process → process) : Prop := ∀ p, strip (f p) = strip (f (strip p)).

Lemma becomes_refl k : becomes (process_table k) k k.
Proof. split; [done|by destruct k]. Qed.
Lemma becomes_ext T T' k k' : becomes T k k' → (∀ j, strip (T j) = strip (T' j)) → becomes T' k k'.
Proof. intros [H1 H2] He. split; [|done]. intros j. by rewrite H1. Qed.
Lemma becomes_sbl T k k1 k2 : becomes T k k1 → same_but_links k1 k2 → becomes T k k2.
Proof.
  intros [H1 H2] [H3 H4]. split; [intros; by rewrite H3|].
  rewrite H4. rewrite H2 at 1. by destruct k2.
Qed.
Lemma becomes_set_proc T k k1 i f :
  becomes T k k1 → strip_compat f → becomes (<[i := f (T i)]> T) k (set_proc i f k1).
Proof.
  intros [H1 H2] Hf. split.
  - intros j. rewrite set_proc_lookup. case_decide.
    + subst. rewrite fn_insert_eq, Hf, H1. symmetry. apply Hf.
    + by rewrite fn_insert_ne by done.
  - unfold set_proc. rewrite H2 at 1. by destruct k1.
Qed.
Lemma becomes_field {A} (f : process → A) T k k' j :
  becomes T k k' → (∀ p, f (strip p) = f p) → f (process_table k' j) = f (T j).
Proof. intros [Hp _] Hf. rewrite <- Hf, Hp. apply Hf. Qed.
Lemma becomes_ticks T k k' : becomes T k k' → timer_ticks k' = timer_ticks k.
Proof. intros [_ ->]. done. Qed.
Lemma becomes_current T k k' : becomes T k k' → current_process k' = current_process k.
Proof. intros [_ ->]. done. Qed.
Lemma becomes_cpu T k k' : becomes T k k' → k_cpu k' = k_cpu k.
Proof. intros [_ ->]. done. Qed.

(** What the first loop of [schedule] does to a process. *)
Definition alarm_expired (ticks : Z) (p : process) : bool :=
  negb (p_alarm p =? NO_ALARM) && (p_alarm p <? ticks).
Definition tty_expired (ticks : Z) (p : process) : bool :=
  negb (p_tty_block p =? NO_TTY_BLOCK) && (p_tty_block p <? ticks).
Definition signalled (p : process) : bool :=
  bool_decide (p_state p = PROC_SLEEP_INTERRUPTIBLE) && negb (p_sigpending p =? 0).
Definition raise_alarm (p : process) : process :=
  p <| p_sigpending ::= λ s, bit_set s (SIGALRM - 1) |> <| p_alarm := NO_ALARM |>.
Definition expire_alarm (ticks : Z) (p : process) : process :=
  if alarm_expired ticks p then raise_alarm p else p.
Definition expire_tty (ticks : Z) (p : process) : process :=
  if tty_expired ticks p
  then p <| p_state := PROC_RUNNABLE |> <| p_tty_block := NO_TTY_BLOCK |> else p.
Definition wake_signalled (p : process) : process :=
  if signalled p then p <| p_state := PROC_RUNNABLE |> else p.
Definition schedule_effect (ticks : Z) (p : process) : process :=
  wake_signalled (expire_tty ticks (expire_alarm ticks p)).

Lemma strip_compat_compose f g : strip_compat f → strip_compat g → strip_compat (f ∘ g).
Proof.
  intros Hf Hg p. unfold compose. rewrite (Hf (g p)), (Hg p), <- (Hf (g (strip p))). done.
Qed.
Lemma strip_compat_effect t : strip_compat (schedule_effect t).
Proof.
  apply (strip_compat_compose wake_signalled (expire_tty t ∘ expire_alarm t));
    [|apply strip_compat_compose]; intros p.
  - unfold wake_signalled. change (signalled (strip p)) with (signalled p). by destruct (signalled p).
  - unfold expire_tty. change (tty_expired t (strip p)) with (tty_expired t p).
    by destruct (tty_expired t p).
  - unfold expire_alarm. change (alarm_expired t (strip p)) with (alarm_expired t p).
    by destruct (alarm_expired t p).
Qed.

(** [if (b) f(proc);] where [f] leaves the queue fields alone. *)
Lemma when_set_proc T k0 k ls i b f :
  sched_inv k ls → becomes T k0 k → keeps_links f → strip_compat f →
  (b = true → runnable (f (process_table k i)) = runnable (process_table k i)) →
  ∃ k', when b (upd_proc i f) k = Ok (tt, k') ∧ sched_inv k' ls ∧
    becomes (<[i := if b then f (T i) else T i]> T) k0 k'.
Proof.
  intros Hinv HT Hf Hc Hr. destruct b; simpl; eexists; (split; [reflexivity|]).
  - split; [by apply sched_inv_set_proc; auto|by apply becomes_set_proc].
  - split; [done|]. eapply becomes_ext; [exact HT|]. intros j.
    destruct (decide (i = j)) as [->|]; [by rewrite fn_insert_eq|by rewrite fn_insert_ne].
Qed.

(** [if (b) { proc->state = PROC_RUNNABLE; adjust_proc_queues(proc); }] *)
Lemma when_wake T k0 k ls i b :
  sched_inv k ls → becomes T k0 k → (i < NR_PROC)%nat →
  ∃ k' ls', when b (upd_proc i (λ p, p <| p_state := PROC_RUNNABLE |>) ;;
      adjust_proc_queues i) k = Ok (tt, k') ∧ sched_inv k' ls' ∧
    becomes (<[i := if b then (T i) <| p_state := PROC_RUNNABLE |> else T i]> T) k0 k'.
Proof.
  intros Hinv HT Hi. destruct b; simpl.
  - destruct (sched_inv_adjust k ls i (λ p, p <| p_state := PROC_RUNNABLE |>) Hinv)
      as (k1 & Hk & Hs & Hi'); [keeps_links|done|done|].
    krun. do 2 eexists. split; [exact Hk|]. split; [exact Hi'|].
    eapply becomes_sbl; [|exact Hs]. by apply (becomes_set_proc T k0 k i).
  - exists k, ls. split; [done|]. split; [done|]. eapply becomes_ext; [exact HT|]. intros j.
    destruct (decide (i = j)) as [->|]; [by rewrite fn_insert_eq|by rewrite fn_insert_ne].
Qed.

(** The same followed by an update of other fields. *)
Lemma when_wake_then T k0 k ls i b f :
  sched_inv k ls → becomes T k0 k → (i < NR_PROC)%nat → keeps_links f → strip_compat f →
  (∀ p, runnable (f p) = runnable p) →
  ∃ k' ls', when b (upd_proc i (λ p, p <| p_state := PROC_RUNNABLE |>) ;;
      adjust_proc_queues i ;; upd_proc i f) k = Ok (tt, k') ∧ sched_inv k' ls' ∧
    becomes (<[i := if b then f ((T i) <| p_state := PROC_RUNNABLE |>) else T i]> T) k0 k'.
Proof.
  intros Hinv HT Hi Hf Hc Hr.
  destruct (when_wake T k0 k ls i b Hinv HT Hi) as (k1 & ls1 & R1 & I1 & T1).
  destruct (when_set_proc _ _ _ _ i b f I1 T1) as (k2 & R2 & I2 & T2); [done|done|by intros|].
  exists k2, ls1. split; [|split; [done|]].
  - destruct b; simpl in *; [|cbv [mret M_ret] in *; congruence].
    revert R1. krun. intros R1. by rewrite (bind_ok _ _ _ _ _ R1).
  - eapply becomes_ext; [exact T2|]. intros j. destruct (decide (i = j)) as [->|].
    + rewrite !fn_insert_eq. by destruct b.
    + by rewrite !fn_insert_ne.
Qed.

Lemma schedule_proc_ok T k0 k ls i : sched_inv k ls → becomes T k0 k → (i < NR_PROC)%nat →
  ∃ k' ls', schedule_proc i k = Ok (tt, k') ∧ sched_inv k' ls' ∧
    becomes (<[i := schedule_effect (timer_ticks k) (T i)]> T) k0 k'.
Proof.
  intros Hinv HT Hi. set (t := timer_ticks k). unfold schedule_proc.
  change (get ≫= ?m) with (gets id ≫= m). krun. simpl. fold t.
  assert (Ha : alarm_expired t (process_table k i) = alarm_expired t (T i)).
  { by apply (becomes_field _ _ _ _ _ HT). }
  assert (Ht : tty_expired t (process_table k i) = tty_expired t (T i)).
  { by apply (becomes_field _ _ _ _ _ HT). }
  destruct (when_set_proc T k0 k ls i (alarm_expired t (process_table k i)) raise_alarm)
    as (k1 & R1 & I1 & T1); [done|done|keeps_links|done|done|].
  unfold alarm_expired, raise_alarm in R1. rewrite (bind_ok _ _ _ _ _ R1). clear R1.
  destruct (when_wake_then _ _ _ _ i (tty_expired t (process_table k i))
    (λ p, p <| p_tty_block := NO_TTY_BLOCK |>) I1 T1 Hi)
    as (k2 & ls2 & R2 & I2 & T2); [keeps_links|done|done|].
  unfold tty_expired in R2. rewrite (bind_ok _ _ _ _ _ R2). clear R2. krun.
  rewrite Ha, Ht, fn_insert_eq in T2.
  set (T3 := <[i := expire_tty t (expire_alarm t (T i))]> T).
  assert (T2' : becomes T3 k0 k2).
  { eapply becomes_ext; [exact T2|]. intros j. unfold T3.
    destruct (decide (i = j)) as [->|]; [|by rewrite !fn_insert_ne].
    rewrite !fn_insert_eq. unfold expire_tty, expire_alarm.
    destruct (alarm_expired t (T j)) eqn:?; [|done].
    by change (tty_expired t (raise_alarm (T j))) with (tty_expired t (T j)). }
  clear T2.
  assert (Hsg : signalled (process_table k2 i) = signalled (T3 i)).
  { by apply (becomes_field _ _ _ _ _ T2'). }
  destruct (when_wake _ _ _ _ i (signalled (process_table k2 i)) I2 T2' Hi)
    as (k3 & ls3 & R3 & I3 & HT3).
  exists k3, ls3. split; [exact R3|]. split; [done|].
  eapply becomes_ext; [exact HT3|]. intros j. rewrite Hsg. unfold T3.
  destruct (decide (i = j)) as [->|]; [by rewrite !fn_insert_eq|by rewrite !fn_insert_ne].
Qed.

(** The whole first loop. *)
Definition after_loop (k : kernel) : nat → process := λ j,
  if decide (j < NR_PROC)%nat then schedule_effect (timer_ticks k) (process_table k j)
  else process_table k j.

Lemma schedule_loop_ok k ls : sched_inv k ls →
  ∃ k' ls', for_each all_procs schedule_proc k = Ok (tt, k') ∧ sched_inv k' ls' ∧
    becomes (after_loop k) k k'.
Proof.
  intros Hinv. set (t := timer_ticks k).
  set (I := λ (todo : list nat) k', ∃ ls', sched_inv k' ls' ∧ (∀ i, i ∈ todo → (i < NR_PROC)%nat) ∧
    NoDup todo ∧
    becomes (λ j, if decide (j < NR_PROC ∧ j ∉ todo)%nat
                  then schedule_effect t (process_table k j) else process_table k j) k k').
  destruct (for_each_ok I schedule_proc all_procs k) as (k' & Hr & ls' & Hi & _ & _ & HT).
  - exists ls. split; [done|]. split; [intros i; by rewrite all_procs_elem|].
    split; [apply NoDup_seq|]. eapply becomes_ext; [apply becomes_refl|].
    intros j. rewrite decide_False; [done|]. rewrite all_procs_elem. tauto.
  - intros i todo k1 (ls1 & H1 & H2 & [H3 H4]%NoDup_cons & H5).
    destruct (schedule_proc_ok _ _ _ _ i H1 H5) as (k2 & ls2 & R & I2 & T2); [set_solver|].
    exists k2. split; [done|]. exists ls2. split; [done|]. split; [set_solver|]. split; [done|].
    eapply becomes_ext; [exact T2|]. intros j. rewrite (becomes_ticks _ _ _ H5). fold t.
    destruct (decide (i = j)) as [->|Hij].
    + rewrite fn_insert_eq, decide_False by set_solver.
      rewrite decide_True; [done|]. split; [apply H2; set_solver|done].
    + rewrite fn_insert_ne by done. f_equal. apply decide_ext. set_solver.
  - exists k', ls'. split; [done|]. split; [done|]. eapply becomes_ext; [exact HT|].
    intros j. unfold after_loop. f_equal. apply decide_ext. set_solver.
Qed.

Lemma scan_queues_spec (q : nat → option nat) i : scan_queues q priorities = Some i →
  ∃ p, (p < Z.to_nat PROC_QUANTA)%nat ∧ q p = Some i ∧
    ∀ p', (p < p' < Z.to_nat PROC_QUANTA)%nat → q p' = None.
Proof.
  unfold priorities. generalize (Z.to_nat PROC_QUANTA). intros n.
  induction n as [|n IH]; [done|]. rewrite seq_S, rev_app_distr. simpl.
  destruct (q n) eqn:Hq.
  - intros [=->]. exists n. split; [lia|]. split; [done|]. lia.
  - intros (p & ? & ? & Hp)%IH. exists p. split; [lia|]. split; [done|].
    intros p' ?. destruct (decide (p' = n)) as [->|]; [done|]. apply Hp. lia.
Qed.
Lemma scan_queues_None (q : nat → option nat) p : scan_queues q priorities = None →
  (p < Z.to_nat PROC_QUANTA)%nat → q p = None.
Proof.
  unfold priorities. generalize (Z.to_nat PROC_QUANTA). intros n.
  induction n as [|n IH]; [lia|]. rewrite seq_S, rev_app_distr. simpl.
  destruct (q n) eqn:Hq; [done|]. intros Hs Hp.
  destruct (decide (p = n)) as [->|]; [done|]. apply IH; [done|lia].
Qed.

(** The choice of [schedule]: the head of the highest non-empty queue. *)
Definition chosen (k : kernel) (c : nat) : Prop :=
  (c < NR_PROC)%nat ∧ p_state (process_table k c) = PROC_RUNNING ∧
  ∀ j, (j < NR_PROC)%nat → runnable (process_table k j) = true →
    p_priority (process_table k j) <= p_priority (process_table k c).

Lemma sched_inv_head k ls : sched_inv k ls →
  ∃ c, scan_queues (process_queues k) priorities = Some c ∧ (c < NR_PROC)%nat ∧
    runnable (process_table k c) = true ∧
    ∀ j, (j < NR_PROC)%nat → runnable (process_table k j) = true →
      p_priority (process_table k j) <= p_priority (process_table k c).
Proof.
  intros Hinv. pose proof (si_qrep _ _ Hinv) as Hq.
  assert (Hin : ∀ j, (j < NR_PROC)%nat → runnable (process_table k j) = true →
     j ∈ ls (p_priority (process_table k j))).
  { intros j Hj Hr. rewrite (si_mem _ _ Hinv) in Hr by done. by apply bool_decide_eq_true in Hr. }
  assert (Hlt : ∀ j p, (j < NR_PROC)%nat → p_priority (process_table k j) = p →
     (Z.to_nat p < Z.to_nat PROC_QUANTA)%nat).
  { intros j p Hj <-. pose proof (si_prio _ _ Hinv j Hj). lia. }
  destruct (scan_queues (process_queues k) priorities) as [c|] eqn:Hs.
  - exists c. split; [done|]. apply scan_queues_spec in Hs as (p & Hp & Hc & Hmax).
    assert (Hp' : 0 <= Z.of_nat p < PROC_QUANTA) by lia.
    pose proof (qr_head _ _ Hq _ Hp') as Hh. rewrite Nat2Z.id, Hc in Hh.
    assert (c ∈ ls (Z.of_nat p)) as Hcp by (by apply head_Some_elem_of).
    destruct (qr_in _ _ Hq _ _ Hcp) as (Hc64 & Hprio & _).
    split; [done|]. split; [rewrite (si_mem _ _ Hinv) by done; by apply bool_decide_eq_true; rewrite Hprio|].
    intros j Hj Hr. rewrite Hprio. specialize (Hin j Hj Hr).
    destruct (decide (p_priority (process_table k j) <= Z.of_nat p)) as [|Hgt]; [done|exfalso].
    pose proof (Hlt j _ Hj eq_refl). pose proof (si_prio _ _ Hinv j Hj) as Hpj.
    pose proof (qr_head _ _ Hq _ Hpj) as Hhj. rewrite Hmax in Hhj by lia.
    destruct (ls (p_priority (process_table k j))); [by apply elem_of_nil in Hin|done].
  - exfalso. assert (H0 : (0 < NR_PROC)%nat) by (unfold NR_PROC; lia).
    pose proof (si_prio _ _ Hinv _ H0) as Hp0.
    pose proof (Hin _ H0 (si_idle _ _ Hinv)) as Hin0.
    pose proof (qr_head _ _ Hq _ Hp0) as Hh.
    rewrite (scan_queues_None _ _ Hs) in Hh by (by eapply Hlt).
    destruct (ls (p_priority (process_table k 0))); [by apply elem_of_nil in Hin0|done].
Qed.

Lemma schedule_ok k ls : sched_inv k ls →
  ∃ sw k' ls', schedule k = Ok (sw, k') ∧ sched_inv k' ls' ∧
    chosen k' (current_process k') ∧ sw = bool_decide (current_process k' ≠ current_process k) ∧
    (∀ j, strip (process_table k' j) = strip (if decide (j = current_process k')
       then (after_loop k j) <| p_state := PROC_RUNNING |> else after_loop k j)) ∧
    intr (k_cpu k') = (if sw : bool then false else intr (k_cpu k)) ∧
    timer_ticks k' = timer_ticks k ∧ runnable (after_loop k (current_process k')) = true.
Proof.
  intros Hinv. unfold schedule. krun. set (was := intr (k_cpu k)).
  assert (∃ k0, when was disable_intr k = Ok (tt, k0) ∧ process_table k0 = process_table k ∧
     process_queues k0 = process_queues k ∧ timer_ticks k0 = timer_ticks k ∧
     current_process k0 = current_process k ∧ intr (k_cpu k0) = false)
    as (k0 & R0 & Hpt & Hpq & Hti & Hcu & Hin).
  { destruct was eqn:Hw; simpl; eexists; (split; [reflexivity|]); done. }
  rewrite (bind_ok _ _ _ _ _ R0).
  destruct (schedule_loop_ok k0 ls) as (k1 & ls1 & R1 & I1 & T1); [by eapply sched_inv_ext|].
  rewrite (bind_ok _ _ _ _ _ R1). krun.
  destruct (sched_inv_head _ _ I1) as (c & Hc & Hc64 & Hcr & Hcmax). rewrite Hc. krun.
  rewrite (becomes_current _ _ _ T1), Hcu.
  set (k2 := set_proc c (λ p, p <| p_state := PROC_RUNNING |>) k1).
  assert (I2 : sched_inv k2 ls1).
  { apply sched_inv_set_proc; [done|keeps_links|]. by rewrite Hcr. }
  assert (HT : ∀ j, strip (process_table k2 j) = strip (if decide (j = c)
      then (after_loop k j) <| p_state := PROC_RUNNING |> else after_loop k j)).
  { intros j. unfold k2. rewrite set_proc_lookup.
    assert (HA : strip (process_table k1 j) = strip (after_loop k j)).
    { rewrite (bc_proc _ _ _ T1). unfold after_loop. by rewrite Hti, Hpt. }
    case_decide as Hcj; [subst; rewrite decide_True by done|by rewrite decide_False by done].
    change ((strip (process_table k1 j)) <| p_state := PROC_RUNNING |> =
            (strip (after_loop k j)) <| p_state := PROC_RUNNING |>). by rewrite HA. }
  assert (Hchosen : chosen k2 c).
  { split; [done|]. unfold k2. split; [by rewrite set_proc_eq|]. intros j Hj.
    rewrite !set_proc_lookup, (decide_True (P := c = c)) by done.
    case_decide as Hcj; [by subst|]. by apply Hcmax. }
  assert (Htick : timer_ticks k2 = timer_ticks k).
  { unfold k2. change (timer_ticks (set_proc _ _ k1)) with (timer_ticks k1).
    by rewrite (becomes_ticks _ _ _ T1). }
  assert (Hint : intr (k_cpu k1) = false) by (by rewrite (becomes_cpu _ _ _ T1)).
  assert (Hrun : runnable (after_loop k c) = true).
  { rewrite <- Hcr. rewrite (becomes_field runnable _ _ _ _ T1) by done.
    unfold after_loop. by rewrite Hti, Hpt. }
  case_decide as Heq.
  - exists false. assert (∃ k3, when was enable_intr (k2 <| current_process := c |>) = Ok (tt, k3) ∧
      process_table k3 = process_table k2 ∧ process_queues k3 = process_queues k2 ∧
      current_process k3 = c ∧ timer_ticks k3 = timer_ticks k2 ∧ intr (k_cpu k3) = was)
      as (k3 & R3 & H1 & H2 & H3 & H4 & H5).
    { destruct was eqn:Hw; simpl; eexists; (split; [reflexivity|]); done. }
    exists k3, ls1. rewrite (bind_ok _ _ _ _ _ R3). split; [done|].
    split; [by eapply sched_inv_ext|]. unfold chosen. rewrite H1, H3, H4. split; [done|].
    split; [by rewrite bool_decide_eq_false_2 by tauto|]. done.
  - exists true. unfold arch_switch_to. change (get ≫= ?m) with (gets id ≫= m).
    rewrite bind_assoc_run. krun. simpl. rec_simpl. unfold k2 at 1.
    change (k_cpu (set_proc _ _ k1)) with (k_cpu k1). rewrite Hint. krun.
    eexists _, ls1. split; [reflexivity|]. rec_simpl. split; [by eapply sched_inv_ext|].
    split; [done|]. split; [by rewrite bool_decide_eq_true_2|]. done.
Qed.

(** ** What the scheduler never touches *)

Record same_rest (k k' : kernel) : Prop := {
  sr_last_pid : last_pid k' = last_pid k;
  sr_startup : startup_time k' = startup_time k;
  sr_signals : signal_table k' = signal_table k;
  sr_files : file_table k' = file_table k;
  sr_mounts : mount_table k' = mount_table k;
  sr_nr_mounts : nr_mounts k' = nr_mounts k;
  sr_filesystems : filesystems k' = filesystems k;
  sr_user : user_mem k' = user_mem k
}.
#[export] Instance same_rest_preorder : PreOrder same_rest.
Proof.
  split; [by intros k; split|].
  intros k1 k2 k3 [] []. split; congruence.
Qed.

Definition keeps_rest {A} (m : K A) : Prop := ∀ k a k', m k = Ok (a, k') → same_rest k k'.

Lemma keeps_rest_bind {A B} (m : K A) (f : A → K B) :
  keeps_rest m → (∀ a, keeps_rest (f a)) → keeps_rest (m ≫= f).
Proof.
  intros Hm Hf k b k' (a & k1 & H1 & H2)%bind_inv. by transitivity k1; [eapply Hm|eapply Hf].
Qed.
Lemma keeps_rest_mret {A} (a : A) : keeps_rest (mret a).
Proof. by intros k b k' [= _ <-]. Qed.
Lemma keeps_rest_gets {A} (f : kernel → A) : keeps_rest (gets f).
Proof. by intros k b k' [= _ <-]. Qed.
Lemma keeps_rest_get : keeps_rest get.
Proof. by intros k b k' [= _ <-]. Qed.
Lemma keeps_rest_upd_proc i f : keeps_rest (upd_proc i f).
Proof. by intros k b k' [= _ <-]. Qed.
Lemma keeps_rest_panic {A} msg : keeps_rest (panic (A := A) msg).
Proof. by intros k b k'. Qed.
Lemma keeps_rest_undef {A} msg : keeps_rest (undef (A := A) msg).
Proof. by intros k b k'. Qed.
Lemma keeps_rest_if {A} (b : bool) (m n : K A) : keeps_rest m → keeps_rest n → keeps_rest (if b then m else n).
Proof. by destruct b. Qed.
Lemma keeps_rest_when b m : keeps_rest m → keeps_rest (when b m).
Proof. intros. apply keeps_rest_if; [done|apply keeps_rest_mret]. Qed.
Lemma keeps_rest_for_each {A} (l : list A) body : (∀ x, keeps_rest (body x)) → keeps_rest (for_each l body).
Proof.
  intros H. induction l as [|x l IH]; [apply keeps_rest_mret|]. by apply keeps_rest_bind.
Qed.
Lemma keeps_rest_cpu (f : kernel → cpu → cpu) : keeps_rest (modify (λ k, k <| k_cpu ::= f k |>)).
Proof. by intros k b k' [= _ <-]. Qed.
Lemma keeps_rest_current i : keeps_rest (modify (λ k, k <| current_process := i |>)).
Proof. by intros k b k' [= _ <-]. Qed.
Lemma keeps_rest_queues f : keeps_rest (modify (λ k, k <| process_queues ::= f |>)).
Proof. by intros k b k' [= _ <-]. Qed.
Lemma keeps_rest_get_queue p : keeps_rest (get_queue p).
Proof. unfold get_queue. case_match; [apply keeps_rest_gets|apply keeps_rest_undef]. Qed.
Lemma keeps_rest_set_queue p v : keeps_rest (set_queue p v).
Proof. unfold set_queue. case_match; [by intros k b k' [= _ <-]|apply keeps_rest_undef]. Qed.
#[export] Hint Resolve keeps_rest_mret keeps_rest_gets keeps_rest_get keeps_rest_upd_proc
  keeps_rest_panic keeps_rest_undef keeps_rest_cpu
  keeps_rest_current keeps_rest_queues keeps_rest_get_queue keeps_rest_set_queue : yak.
(** Go through a computation piece by piece. *)
Ltac keeps_rest :=
  repeat first
    [ match goal with |- ∀ _, _ => intro end | solve [auto 2 with yak] | simple apply keeps_rest_bind
    | simple apply keeps_rest_when | simple apply keeps_rest_for_each | simple apply keeps_rest_if
    | case_match ].

Lemma remove_from_queue_rest i : keeps_rest (remove_from_queue i).
Proof. unfold remove_from_queue. keeps_rest. Qed.
Lemma add_to_queue_rest i : keeps_rest (add_to_queue i).
Proof.
  unfold add_to_queue. keeps_rest. intros k e k' He. by destruct (find_last _ _ _ _); [injection He as _ <-|..].
Qed.
#[export] Hint Resolve remove_from_queue_rest add_to_queue_rest : yak.
Lemma adjust_proc_queues_rest i : keeps_rest (adjust_proc_queues i).
Proof. unfold adjust_proc_queues. keeps_rest. Qed.
#[export] Hint Resolve adjust_proc_queues_rest : yak.
Lemma schedule_rest : keeps_rest schedule.
Proof. unfold schedule, schedule_proc, arch_switch_to, disable_intr, enable_intr. keeps_rest. Qed.
#[export] Hint Resolve schedule_rest : yak.

(** ** A small system

    The idle process and two processes of priority 1, the first of which is running. *)
Module Demo.
Definition user (pid : Z) (st : proc_state) (other : nat) : process :=
  process_zero <| p_pid := pid |> <| p_priority := USER_PRIORITY |> <| p_state := st |>
    <| p_counter := PROC_QUANTA |> <| p_quanta := PROC_QUANTA |> <| p_ppid := pid - 1 |>
    <| p_queue_next := Some other |> <| p_queue_prev := Some other |>.
Definition idle : process :=
  process_zero <| p_state := PROC_RUNNABLE |>
    <| p_queue_next := Some 0%nat |> <| p_queue_prev := Some 0%nat |>.
Definition k : kernel :=
  kernel_zero <| process_table := <[0%nat := idle]> (<[1%nat := user 1 PROC_RUNNING 2]>
      (<[2%nat := user 2 PROC_RUNNABLE 1]> (λ _, process_zero))) |>
    <| current_process := 1%nat |>
    <| process_queues := <[0%nat := Some 0%nat]> (<[1%nat := Some 1%nat]> (λ _, None)) |>.
Definition ls (p : Z) : list nat :=
  if decide (p = 0) then [0%nat] else if decide (p = 1) then [1%nat; 2%nat] else [].

Lemma table_other j : (2 < j)%nat → process_table k j = process_zero.
Proof. intros. unfold k. rec_simpl. by rewrite !fn_insert_ne by lia. Qed.

Lemma inv : sched_inv k ls.
Proof.
  assert (Hcases : ∀ j, (j = 0 ∨ j = 1 ∨ j = 2 ∨ 2 < j)%nat) by lia.
  split; [split| | |].
  - intros p Hp. unfold ls, k. rec_simpl. destruct (decide (p = 0)) as [->|]; [done|].
    rewrite fn_insert_ne by lia. destruct (decide (p = 1)) as [->|]; [done|].
    by rewrite fn_insert_ne by lia.
  - intros p. unfold ls. repeat case_decide; done.
  - intros p. unfold ls. repeat case_decide; apply (bool_decide_unpack _); by vm_compute.
  - intros p i. unfold ls. destruct (decide (p = 0)) as [->|]; [|destruct (decide (p = 1)) as [->|]];
      intros Hi; repeat (apply elem_of_cons in Hi as [->|Hi]);
      try (by apply elem_of_nil in Hi); (split; [unfold NR_PROC; lia|]); done.
  - intros i _. destruct (Hcases i) as [->|[->|[->|Hi]]]; try (intros Hn; exfalso; apply Hn; set_solver).
    intros _. unfold q_next, q_prev. by rewrite table_other.
  - intros i _. destruct (Hcases i) as [->|[->|[->|Hi]]]; try (by vm_compute).
    rewrite table_other by done. symmetry. apply bool_decide_eq_false. simpl.
    intros Hin%list_elem_of_singleton. lia.
  - intros i _. destruct (Hcases i) as [->|[->|[->|Hi]]]; try (by vm_compute).
    by rewrite table_other.
  - done.
Qed.

Lemma wf : sched_wf k.
Proof. exists ls. apply inv. Qed.
End Demo.

(** ** Properties *)

(** C1: [schedule] never panics and never follows a null or stray pointer. It keeps the
    queues well formed, and the process that runs afterwards is a runnable one of the
    highest priority, in state [PROC_RUNNING]; all other processes only see the effect
    of expired alarms, terminal time-outs and pending signals. *)
Theorem schedule_picks_highest k : sched_wf k →
  ∃ sw k', schedule k = Ok (sw, k') ∧ sched_wf k' ∧ chosen k' (current_process k') ∧
    sw = bool_decide (current_process k' ≠ current_process k) ∧
    (∀ j, (j < NR_PROC)%nat → j ≠ current_process k' →
       strip (process_table k' j) = strip (schedule_effect (timer_ticks k) (process_table k j))) ∧
    intr (k_cpu k') = (if sw : bool then false else intr (k_cpu k)).
Proof.
  intros [ls Hinv]. destruct (schedule_ok k ls Hinv) as (sw & k' & ls' & R & I & C & Hsw & HT & Hi & _ & _).
  exists sw, k'. split; [done|]. split; [by exists ls'|]. split; [done|]. split; [done|].
  split; [|done]. intros j Hj Hne. rewrite HT, decide_False by done.
  unfold after_loop. by rewrite decide_True by done.
Qed.
Lemma schedule_picks_highest_witness :
  ∃ sw k', schedule Demo.k = Ok (sw, k') ∧ sched_wf k' ∧ chosen k' (current_process k').
Proof.
  destruct (schedule_picks_highest Demo.k Demo.wf) as (sw & k' & H1 & H2 & H3 & _).
  exists sw, k'. done.
Defined.

Definition sleeping_type (st : proc_state) : Prop :=
  st = PROC_SLEEP_INTERRUPTIBLE ∨ st = PROC_SLEEP_UNINTERRUPTIBLE.
(** Nothing in the first loop of [schedule] would wake this process. *)
Definition stays_asleep (ticks : Z) (p : process) : Prop :=
  alarm_expired ticks p = false ∧ tty_expired ticks p = false ∧ p_sigpending p = 0.

Lemma stays_asleep_effect ticks p : stays_asleep ticks p → schedule_effect ticks p = p.
Proof.
  intros (Ha & Ht & Hs). unfold schedule_effect, expire_alarm. rewrite Ha.
  unfold expire_tty. rewrite Ht. unfold wake_signalled, signalled.
  by rewrite Hs, andb_false_r.
Qed.

(** The process table after the choice of [schedule]: [E] is the table before it. *)
Definition ran (E : nat → process) (c j : nat) : process :=
  if decide (j = c) then (E j) <| p_state := PROC_RUNNING |> else E j.
Definition looped (t : Z) (T : nat → process) : nat → process := λ j,
  if decide (j < NR_PROC)%nat then schedule_effect t (T j) else T j.
Definition slept (addr : Z) (st : proc_state) (p : process) : process :=
  p <| p_state := st |> <| p_sleeping_on := Some addr |>.

Lemma looped_strip t T T' j : strip (T j) = strip (T' j) →
  strip (looped t T j) = strip (looped t T' j).
Proof.
  intros H. unfold looped. case_decide; [|done].
  by rewrite (strip_compat_effect t (T j)), H, <- (strip_compat_effect t (T' j)).
Qed.
Lemma ran_strip E E' c j : strip (E j) = strip (E' j) → strip (ran E c j) = strip (ran E' c j).
Proof.
  intros H. unfold ran. case_decide; [|done].
  change ((strip (E j)) <| p_state := PROC_RUNNING |> = (strip (E' j)) <| p_state := PROC_RUNNING |>).
  by rewrite H.
Qed.

Lemma runnable_strip p q : strip p = strip q → runnable p = runnable q.
Proof.
  intros H. change (runnable (strip p) = runnable (strip q)). by rewrite H.
Qed.

Lemma schedule_table k ls : sched_inv k ls →
  ∃ sw k' ls', schedule k = Ok (sw, k') ∧ sched_inv k' ls' ∧
    chosen k' (current_process k') ∧ sw = bool_decide (current_process k' ≠ current_process k) ∧
    (∀ j, strip (process_table k' j) =
       strip (ran (looped (timer_ticks k) (process_table k)) (current_process k') j)) ∧
    runnable (looped (timer_ticks k) (process_table k) (current_process k')) = true ∧
    timer_ticks k' = timer_ticks k.
Proof.
  intros H. destruct (schedule_ok k ls H) as (sw & k' & ls' & R & I & C & Hsw & HT & _ & Ht & Hr).
  exists sw, k', ls'. do 4 (split; [done|]). split; [exact HT|]. done.
Qed.

Lemma sleep_ok k ls addr st : sched_inv k ls → let c := current_process k in
  (0 < c < NR_PROC)%nat → sleeping_type st →
  ∃ sw k' ls', sleep addr st k = Ok (sw, k') ∧ sched_inv k' ls' ∧
    chosen k' (current_process k') ∧ sw = bool_decide (current_process k' ≠ c) ∧
    let E := looped (timer_ticks k) (<[c := slept addr st (process_table k c)]> (process_table k)) in
    (∀ j, strip (process_table k' j) = strip (ran E (current_process k') j)) ∧
    runnable (E (current_process k')) = true ∧ timer_ticks k' = timer_ticks k.
Proof.
  intros Hinv c Hc Hst. unfold sleep.
  set (k0 := k <| k_cpu ::= λ c, c <| kernel_eflags ::= <[cpu_state c := intr c]> |> <| intr := false |> |>).
  change (disable_intr ≫= ?m) with (modify (λ k, k <| k_cpu ::= λ c,
    c <| kernel_eflags ::= <[cpu_state c := intr c]> |> <| intr := false |> |>) ≫= m).
  krun. fold k0. change (current_process k0) with c. rewrite decide_False by lia.
  assert (bool_decide (st ≠ PROC_SLEEP_INTERRUPTIBLE) && bool_decide (st ≠ PROC_SLEEP_UNINTERRUPTIBLE)
    = false) as -> by (by destruct Hst as [-> | ->]).
  krun. set (k1 := set_proc c (λ p, p <| p_sleeping_on := Some addr |>) _).
  assert (Hk1 : process_table k1 c = slept addr st (process_table k c)).
  { unfold k1. by rewrite !set_proc_eq. }
  assert (Hk1' : ∀ j, j ≠ c → process_table k1 j = process_table k j).
  { intros j Hj. unfold k1. by rewrite !set_proc_ne. }
  destruct (sched_inv_adjust_gen k k1 ls c Hinv) as (k2 & R2 & S2 & I2).
  { do 2 (apply qrep_set_proc; [keeps_links|]). by eapply qrep_ext; [apply (si_qrep _ _ Hinv)|..]. }
  { lia. }
  { intros j. destruct (decide (j = c)) as [->|]; [by rewrite Hk1|by rewrite Hk1']. }
  { intros j Hj. by rewrite Hk1'. }
  { lia. }
  rewrite (bind_ok _ _ _ _ _ R2).
  destruct (schedule_table _ _ I2) as (sw & k3 & ls3 & R3 & I3 & C3 & Hsw & T3 & Hrun3 & Ht3).
  rewrite (bind_ok _ _ _ _ _ R3).
  assert (Hcur2 : current_process k2 = c) by (by rewrite (sbl_rest _ _ S2)).
  assert (Htick2 : timer_ticks k2 = timer_ticks k) by (by rewrite (sbl_rest _ _ S2)).
  rewrite Hcur2 in Hsw. rewrite Htick2 in *.
  set (E := looped (timer_ticks k) (<[c := slept addr st (process_table k c)]> (process_table k))).
  assert (HE : ∀ j, strip (looped (timer_ticks k) (process_table k2) j) = strip (E j)).
  { intros j. apply looped_strip. rewrite (sbl_proc _ _ S2).
    destruct (decide (c = j)) as [<-|]; [by rewrite fn_insert_eq, Hk1|].
    rewrite fn_insert_ne by done. by rewrite Hk1'. }
  assert (∃ k4, when (negb sw) resume k3 = Ok (tt, k4) ∧ process_table k4 = process_table k3 ∧
    process_queues k4 = process_queues k3 ∧ current_process k4 = current_process k3 ∧
    timer_ticks k4 = timer_ticks k3) as (k4 & R4 & P4 & Q4 & C4 & T4).
  { destruct sw; simpl; eexists; (split; [reflexivity|]); done. }
  rewrite (bind_ok _ _ _ _ _ R4). exists sw, k4, ls3. split; [done|].
  split; [by eapply sched_inv_ext|]. unfold chosen. rewrite C4, P4, T4.
  split; [done|]. split; [done|]. simpl. fold E. split; [|split; [|done]].
  - intros j. rewrite T3. by apply ran_strip.
  - rewrite <- Hrun3. change (runnable (strip (E (current_process k3))) =
      runnable (strip (looped (timer_ticks k) (process_table k2) (current_process k3)))).
    by rewrite HE.
Qed.

(** a process other than the idle one that sleeps on an address is taken off the
    run queues and another process runs; the sleeper keeps the address and the kind of
    sleep it asked for (unless a signal, alarm or time-out was already due). *)
Theorem sleep_blocks k addr st : sched_wf k → let c := current_process k in
  (0 < c < NR_PROC)%nat → sleeping_type st → stays_asleep (timer_ticks k) (process_table k c) →
  ∃ k', sleep addr st k = Ok (true, k') ∧ sched_wf k' ∧
    current_process k' ≠ c ∧ chosen k' (current_process k') ∧
    p_state (process_table k' c) = st ∧ p_sleeping_on (process_table k' c) = Some addr.
Proof.
  intros [ls Hinv] c Hc Hst Hstay.
  destruct (sleep_ok k ls addr st Hinv Hc Hst) as (sw & k' & ls' & R & I & C & Hsw & HT & Hrun & _).
  fold c in Hsw, HT, Hrun.
  assert (HE : looped (timer_ticks k) (<[c := slept addr st (process_table k c)]> (process_table k)) c
    = slept addr st (process_table k c)).
  { unfold looped. rewrite decide_True by lia. rewrite fn_insert_eq.
    by apply stays_asleep_effect. }
  assert (Hne : current_process k' ≠ c).
  { intros Hcc. rewrite Hcc, HE in Hrun. by destruct Hst as [-> | ->]. }
  rewrite bool_decide_eq_true_2 in Hsw by done. subst sw. exists k'. split; [done|].
  split; [by exists ls'|]. split; [done|]. split; [done|].
  specialize (HT c). unfold ran in HT. rewrite decide_False, HE in HT by done.
  split.
  - change (p_state (strip (process_table k' c)) = st). by rewrite HT.
  - change (p_sleeping_on (strip (process_table k' c)) = Some addr). by rewrite HT.
Qed.
Lemma sleep_blocks_witness :
  ∃ k', sleep 4096 PROC_SLEEP_INTERRUPTIBLE Demo.k = Ok (true, k') ∧ sched_wf k' ∧
    current_process k' ≠ 1%nat ∧
    p_state (process_table k' 1) = PROC_SLEEP_INTERRUPTIBLE.
Proof.
  destruct (sleep_blocks Demo.k 4096 PROC_SLEEP_INTERRUPTIBLE Demo.wf)
    as (k' & H1 & H2 & H3 & _ & H4 & _).
  - by vm_compute; lia.
  - by left.
  - by vm_compute.
  - by exists k'.
Defined.

(** *** Wakeup *)

Definition wakes (addr : Z) (p : process) : bool :=
  PROC_SLEEPING p && bool_decide (p_sleeping_on p = Some addr).
Definition woken (addr : Z) (p : process) : process :=
  if wakes addr p then p <| p_state := PROC_RUNNABLE |> <| p_sleeping_on := None |> else p.

Lemma wakeup_proc_ok addr T k0 k ls i :
  sched_inv k ls → becomes T k0 k → (i < NR_PROC)%nat →
  ∃ k' ls', wakeup_proc addr i k = Ok (wakes addr (T i), k') ∧ sched_inv k' ls' ∧
    becomes (<[i := woken addr (T i)]> T) k0 k'.
Proof.
  intros Hinv HT Hi. unfold wakeup_proc. krun.
  assert (Hw : wakes addr (process_table k i) = wakes addr (T i))
    by (by apply (becomes_field (wakes addr) _ _ _ _ HT)).
  fold (wakes addr (process_table k i)). rewrite Hw. unfold woken.
  destruct (wakes addr (T i)) eqn:Hb; krun.
  - set (f := λ p : process, p <| p_state := PROC_RUNNABLE |> <| p_sleeping_on := None |>).
    set (k1 := set_proc i _ (set_proc i _ k)).
    assert (Hq1 : qrep k1 ls).
    { do 2 (apply qrep_set_proc; [keeps_links|]). apply (si_qrep _ _ Hinv). }
    assert (Hk1 : process_table k1 i = f (process_table k i)) by (unfold k1; by rewrite !set_proc_eq).
    destruct (sched_inv_adjust_gen k k1 ls i Hinv Hq1 Hi) as (k2 & R2 & S2 & I2).
    { intros j. unfold k1. rewrite !set_proc_lookup. by repeat case_decide. }
    { intros j Hj. unfold k1. by rewrite !set_proc_ne. }
    { by rewrite Hk1. }
    rewrite (bind_ok _ _ _ _ _ R2). do 2 eexists. split; [reflexivity|]. split; [exact I2|].
    eapply becomes_sbl; [|exact S2]. unfold k1.
    eapply becomes_ext; [apply becomes_set_proc; [apply becomes_set_proc; [exact HT|done]|done]|].
    intros j. destruct (decide (i = j)) as [->|]; [by rewrite !fn_insert_eq|by rewrite !fn_insert_ne].
  - do 2 eexists. split; [reflexivity|]. split; [exact Hinv|]. eapply becomes_ext; [exact HT|].
    intros j. destruct (decide (i = j)) as [->|]; [by rewrite fn_insert_eq|by rewrite fn_insert_ne].
Qed.

Lemma wakeup_procs_ok addr l : ∀ T k0 k ls,
  sched_inv k ls → becomes T k0 k → NoDup l → (∀ i, i ∈ l → (i < NR_PROC)%nat) →
  ∃ k' ls', wakeup_procs addr l k = Ok (existsb (λ i, wakes addr (T i)) l, k') ∧
    sched_inv k' ls' ∧
    becomes (λ j, if decide (j ∈ l) then woken addr (T j) else T j) k0 k'.
Proof.
  induction l as [|i l IH]; intros T k0 k ls Hinv HT Hnd Hl; simpl.
  - do 2 eexists. split; [reflexivity|]. split; [exact Hinv|]. eapply becomes_ext; [exact HT|].
    done.
  - apply NoDup_cons in Hnd as [Hi Hnd].
    destruct (wakeup_proc_ok addr T k0 k ls i Hinv HT) as (k1 & ls1 & R1 & I1 & T1); [set_solver|].
    rewrite (bind_ok _ _ _ _ _ R1).
    destruct (IH _ _ _ _ I1 T1 Hnd) as (k2 & ls2 & R2 & I2 & T2); [set_solver|].
    rewrite (bind_ok _ _ _ _ _ R2). do 2 eexists. split.
    + unfold mret, M_ret. do 3 f_equal. apply existsb_ext_in. intros j Hj.
      rewrite fn_insert_ne; [done|]. by intros <-.
    + split; [exact I2|]. eapply becomes_ext; [exact T2|]. intros j.
      destruct (decide (i = j)) as [->|Hij].
      * rewrite fn_insert_eq, (decide_False (P := j ∈ l)) by done.
        rewrite decide_True by (by left). done.
      * rewrite fn_insert_ne by done. f_equal. apply decide_ext.
        rewrite elem_of_cons. naive_solver.
Qed.

Definition woken_table (addr : Z) (T : nat → process) (j : nat) : process :=
  if decide (j ∈ all_procs) then woken addr (T j) else T j.

Lemma wakeup_ok k ls addr mode : sched_inv k ls →
  ∃ sw k' ls', wakeup addr mode k = Ok (sw, k') ∧ sched_inv k' ls' ∧
    timer_ticks k' = timer_ticks k ∧
    let W := woken_table addr (process_table k) in
    let b := existsb (λ i, wakes addr (process_table k i)) all_procs in
    match mode, b with
    | WAKEUP_SWITCH, true =>
        chosen k' (current_process k') ∧ sw = bool_decide (current_process k' ≠ current_process k) ∧
        runnable (looped (timer_ticks k) W (current_process k')) = true ∧
        ∀ j, strip (process_table k' j) =
          strip (ran (looped (timer_ticks k) W) (current_process k') j)
    | _, _ => sw = false ∧ current_process k' = current_process k ∧
        intr (k_cpu k') = intr (k_cpu k) ∧ ∀ j, strip (process_table k' j) = strip (W j)
    end.
Proof.
  intros Hinv. unfold wakeup.
  set (k0 := k <| k_cpu ::= λ c, c <| kernel_eflags ::= <[cpu_state c := intr c]> |> <| intr := false |> |>).
  assert (R0 : disable_intr k = Ok (tt, k0)) by done.
  rewrite (bind_ok _ _ _ _ _ R0).
  destruct (wakeup_procs_ok addr all_procs (process_table k) k0 k0 ls) as (k1 & ls1 & R1 & I1 & T1).
  { by eapply sched_inv_ext. }
  { apply (becomes_refl k0). }
  { apply NoDup_seq. }
  { intros i. by rewrite all_procs_elem. }
  rewrite (bind_ok _ _ _ _ _ R1).
  set (b := existsb (λ i, wakes addr (process_table k i)) all_procs).
  assert (Hcpu : k_cpu k1 = k_cpu k0) by apply (becomes_cpu _ _ _ T1).
  assert (Hres : ∀ k2, k_cpu k2 = k_cpu k0 → intr (k_cpu (k2 <| k_cpu ::= λ c,
    c <| intr := (intr c || kernel_eflags c (cpu_state c))%bool |> |>)) = intr (k_cpu k)).
  { intros k2 Hk2. unfold upd at 1. simpl. rewrite Hk2. unfold k0, upd. simpl. by rewrite fn_insert_eq. }
  pose proof (becomes_current _ _ _ T1) as Hcur. pose proof (becomes_ticks _ _ _ T1) as Htick.
  destruct mode, b; simpl; unfold resume, restore_intr_state; krun.
  - eexists _, _, ls1. split; [reflexivity|]. split; [by eapply sched_inv_ext|]. split; [done|].
    split; [done|]. split; [done|]. split; [by apply Hres|]. apply (bc_proc _ _ _ T1).
  - eexists _, _, ls1. split; [reflexivity|]. split; [by eapply sched_inv_ext|]. split; [done|].
    split; [done|]. split; [done|]. split; [by apply Hres|]. apply (bc_proc _ _ _ T1).
  - destruct (schedule_ok _ _ I1) as (sw & k2 & ls2 & R2 & I2 & C2 & Hsw & HT & Hi & Ht & Hr).
    rewrite (bind_ok _ _ _ _ _ R2).
    assert (HT2 : ∀ j, strip (process_table k2 j) = strip (ran (looped (timer_ticks k)
       (woken_table addr (process_table k))) (current_process k2) j)).
    { intros j. rewrite HT. apply (ran_strip (after_loop k1)).
      unfold after_loop. rewrite Htick. apply looped_strip. apply (bc_proc _ _ _ T1). }
    assert (Hr2 : runnable (looped (timer_ticks k) (woken_table addr (process_table k))
      (current_process k2)) = true).
    { rewrite <- Hr. unfold after_loop. rewrite Htick. apply runnable_strip, looped_strip.
      symmetry. apply (bc_proc _ _ _ T1). }
    rewrite Hcur in Hsw. rewrite Htick in Ht. change (current_process k0) with (current_process k) in Hsw.
    destruct sw; simpl; krun; do 2 eexists; exists ls2; (split; [reflexivity|]).
    + by repeat (split; [done|]).
    + split; [by eapply sched_inv_ext|]. by repeat (split; [done|]).
  - eexists _, _, ls1. split; [reflexivity|]. split; [by eapply sched_inv_ext|]. split; [done|].
    split; [done|]. split; [done|]. split; [by apply Hres|]. apply (bc_proc _ _ _ T1).
Qed.

(** [wakeup] makes every process that sleeps on the address runnable and queues it,
    leaves all other processes as they were, keeps the queues well formed, and returns
    with interrupts as it found them. *)
Theorem wakeup_wakes_all k addr : sched_wf k →
  ∃ k', wakeup addr WAKEUP_RETURN k = Ok (false, k') ∧ sched_wf k' ∧
    current_process k' = current_process k ∧ intr (k_cpu k') = intr (k_cpu k) ∧
    (∀ j, (j < NR_PROC)%nat →
       strip (process_table k' j) = strip (woken addr (process_table k j)) ∧
       wakes addr (process_table k' j) = false).
Proof.
  intros [ls Hinv].
  destruct (wakeup_ok k ls addr WAKEUP_RETURN Hinv) as (sw & k' & ls' & R & I & _ & -> & C & Hi & HT).
  exists k'. split; [done|]. split; [by exists ls'|]. split; [done|]. split; [done|].
  intros j Hj. specialize (HT j). unfold woken_table in HT.
  rewrite decide_True in HT by (by apply all_procs_elem). split; [exact HT|].
  change (wakes addr (strip (process_table k' j)) = false). rewrite HT.
  change (wakes addr (strip ?p)) with (wakes addr p). unfold woken.
  by destruct (wakes addr (process_table k j)) eqn:Hw.
Qed.
Lemma wakeup_wakes_all_witness :
  ∃ k', wakeup 4096 WAKEUP_RETURN Demo.k = Ok (false, k') ∧ sched_wf k'.
Proof.
  destruct (wakeup_wakes_all Demo.k 4096 Demo.wf) as (k' & H1 & H2 & _). by exists k'.
Defined.

(** *** The timer and the time slice *)

(** No alarm, time-out or signal is due. *)
Definition quiet (ticks : Z) (k : kernel) : Prop := ∀ j, (j < NR_PROC)%nat →
  let p := process_table k j in
  alarm_expired ticks p = false ∧ tty_expired ticks p = false ∧ signalled p = false.

Lemma schedule_loop_quiet k : quiet (timer_ticks k) k →
  for_each all_procs schedule_proc k = Ok (tt, k).
Proof.
  intros Hq. assert (Hl : ∀ i, i ∈ all_procs → schedule_proc i k = Ok (tt, k)).
  { intros i Hi%all_procs_elem. destruct (Hq i Hi) as (Ha & Ht & Hs).
    unfold schedule_proc. change (get ≫= ?m) with (gets id ≫= m). krun. simpl.
    unfold alarm_expired in Ha. unfold tty_expired in Ht. unfold signalled in Hs.
    rewrite Ha, Ht. simpl. krun. by rewrite Hs. }
  revert Hl. generalize all_procs. induction l as [|i l IH]; intros Hl; [done|]. simpl.
  rewrite (bind_ok _ _ k tt k); [|apply Hl; by left]. apply IH. intros. apply Hl. by right.
Qed.

Lemma schedule_quiet k ls : sched_inv k ls → quiet (timer_ticks k) k →
  intr (k_cpu k) = false →
  ∀ c, scan_queues (process_queues k) priorities = Some c →
  ∃ k', schedule k = Ok (bool_decide (c ≠ current_process k), k') ∧ sched_inv k' ls ∧ current_process k' = c ∧
    process_table k' = process_table (set_proc c (λ p, p <| p_state := PROC_RUNNING |>) k) ∧
    timer_ticks k' = timer_ticks k ∧ intr (k_cpu k') = false.
Proof.
  intros Hinv Hq Hi c Hc. unfold schedule. krun. rewrite Hi.
  change (when false disable_intr) with (mret tt : K unit). krun.
  rewrite (bind_ok _ _ _ _ _ (schedule_loop_quiet _ Hq)). krun. rewrite Hc. krun.
  assert (sched_inv (set_proc c (λ p, p <| p_state := PROC_RUNNING |>) k) ls) as I.
  { apply sched_inv_set_proc; [done|keeps_links|].
    destruct (sched_inv_head _ _ Hinv) as (c' & Hc' & _ & Hr & _).
    rewrite Hc in Hc'. injection Hc' as <-. by rewrite Hr. }
  destruct (decide (c = current_process k)) as [->|Hne].
  - rewrite bool_decide_eq_false_2 by (intros []; done). change (when false enable_intr) with (mret tt : K unit). krun.
    eexists. split; [reflexivity|]. rec_simpl. split; [|done]. by eapply sched_inv_ext.
  - rewrite bool_decide_eq_true_2 by done. unfold arch_switch_to.
    change (get ≫= ?m) with (gets id ≫= m). rewrite bind_assoc_run. krun. simpl.
    rewrite Hi. krun.
    eexists. split; [reflexivity|]. rec_simpl. split; [|done]. by eapply sched_inv_ext.
Qed.

Lemma scan_queues_top (q : nat → option nat) p c : (p < Z.to_nat PROC_QUANTA)%nat →
  q p = Some c → (∀ p', (p < p' < Z.to_nat PROC_QUANTA)%nat → q p' = None) →
  scan_queues q priorities = Some c.
Proof.
  unfold priorities. generalize (Z.to_nat PROC_QUANTA). intros n Hp Hc Ha.
  induction n as [|n IH]; [lia|]. rewrite seq_S, rev_app_distr. simpl.
  destruct (decide (p = n)) as [->|]; [by rewrite Hc|].
  rewrite Ha by lia. apply IH; [lia|]. intros. apply Ha. lia.
Qed.

Definition tick (p : process) : process :=
  if p_counter p =? 0
  then p <| p_counter ::= λ n, n - 1 |> <| p_counter := 0 |> <| p_state := PROC_RUNNABLE |>
  else p <| p_counter ::= λ n, n - 1 |>.

(** The timer interrupt never fails and keeps the queues well formed. *)
Lemma timer_ok k ls : sched_inv k ls → let c := current_process k in (c < NR_PROC)%nat →
  let t := u32 (timer_ticks k + 1) in
  ∃ sw k' ls', timer_driver_irq_handler false k = Ok (sw, k') ∧ sched_inv k' ls' ∧
    chosen k' (current_process k') ∧ sw = bool_decide (current_process k' ≠ c) ∧
    timer_ticks k' = t ∧
    let T := <[c := tick (process_table k c)]> (process_table k) in
    runnable (looped t T (current_process k')) = true ∧
    ∀ j, strip (process_table k' j) = strip (ran (looped t T) (current_process k') j).
Proof.
  intros Hinv c Hc t. unfold timer_driver_irq_handler. krun.
  set (k0 := k <| timer_ticks ::= _ |>). change (current_process k0) with c.
  change (cur k0) with (process_table k c). krun.
  assert (I0 : sched_inv (set_proc c (λ p, p <| p_counter ::= λ n, n - 1 |>) k0) ls).
  { apply sched_inv_set_proc; [by eapply sched_inv_ext|keeps_links|done]. }
  set (k1 := set_proc c _ k0) in *.
  assert (∃ k2 ls2, when (p_counter (process_table k c) =? 0)
      (upd_proc c (λ p, p <| p_counter := 0 |>) ;;
       upd_proc c (λ p, p <| p_state := PROC_RUNNABLE |>) ;; adjust_proc_queues c) k1 = Ok (tt, k2) ∧
      sched_inv k2 ls2 ∧ becomes (<[c := tick (process_table k c)]> (process_table k)) k0 k2)
    as (k2 & ls2 & R2 & I2 & T2).
  { assert (T0 : becomes (<[c := (process_table k c) <| p_counter ::= λ n, n - 1 |>]> (process_table k)) k0 k1).
    { apply (becomes_set_proc (process_table k) k0 k0 c (λ p, p <| p_counter ::= λ n, n - 1 |>)); [|done].
      apply (becomes_refl k0). }
    unfold tick. destruct (p_counter (process_table k c) =? 0); simpl; [|by exists k1, ls].
    krun. set (f := λ p : process, p <| p_counter := 0 |>).
    destruct (sched_inv_adjust (set_proc c f k1) ls c (λ p, p <| p_state := PROC_RUNNABLE |>))
      as (k2 & R2 & S2 & I2).
    { apply sched_inv_set_proc; [done|keeps_links|done]. }
    { keeps_links. }
    { done. }
    { done. }
    do 2 eexists. split; [exact R2|]. split; [exact I2|]. eapply becomes_sbl; [|exact S2].
    eapply becomes_ext; [apply becomes_set_proc; [apply becomes_set_proc; [exact T0|done]|done]|].
    intros j. destruct (decide (c = j)) as [->|]; [by rewrite !fn_insert_eq|by rewrite !fn_insert_ne]. }
  rewrite (bind_ok _ _ _ _ _ R2).
  destruct (schedule_table _ _ I2) as (sw & k3 & ls3 & R3 & I3 & C3 & Hsw & T3 & Hr & Ht).
  rewrite (becomes_current _ _ _ T2) in Hsw. rewrite (becomes_ticks _ _ _ T2) in Ht, T3, Hr.
  exists sw, k3, ls3. do 4 (split; [done|]). split; [done|]. cbv zeta. split.
  - rewrite <- Hr. apply runnable_strip, looped_strip. symmetry. apply (bc_proc _ _ _ T2).
  - intros j. rewrite T3. apply ran_strip, looped_strip, (bc_proc _ _ _ T2).
Qed.

(** *** Nice values *)

Lemma clamp_nice_range n : -20 <= clamp_nice n <= 19.
Proof. unfold clamp_nice. repeat case_match; lia. Qed.
Lemma nice_to_pri_range n : -20 <= n <= 19 → 0 <= nice_to_pri n < PROC_QUANTA.
Proof. unfold nice_to_pri, PROC_QUANTA. change (Z.quot 40 10) with 4. lia. Qed.

(** the priority that [kernel_nice] computes is a queue of the table whatever the
    increment, lower for a nicer process. *)
Theorem nice_priority_bounds n m :
  0 <= nice_to_pri (clamp_nice n) < PROC_QUANTA ∧
  (n <= m → nice_to_pri (clamp_nice m) <= nice_to_pri (clamp_nice n)).
Proof.
  split; [apply nice_to_pri_range, clamp_nice_range|]. intros Hnm.
  assert (Hm : clamp_nice n <= clamp_nice m) by (unfold clamp_nice; repeat case_match; lia).
  apply (Z.quot_le_mono _ _ 4) in Hm; [|done].
  unfold nice_to_pri, PROC_QUANTA. change (Z.quot 40 10) with 4. lia.
Qed.

(** The queues of the small system after the second process, when it runs, calls
    [nice(0)]. The call sets the new priority before it takes the process off its queue,
    so the queue of the new priority gets the head that the old queue should have had. *)
Definition nice_result : outcome (Z * kernel) := kernel_nice 0 Demo.k.

(** [kernel_nice] breaks the run queues. In a well formed system of two user
    processes, after [nice(0)] by the running one (priority 1 before, 4 after), the queue
    of priority 4 holds a process of priority 1 and the queue of priority 1 still starts
    with the process that left it. *)
Theorem kernel_nice_breaks_queues :
  ∃ k', nice_result = Ok (0, k') ∧ ¬ sched_wf k' ∧
    process_queues k' 4 = Some 2%nat ∧ p_priority (process_table k' 2) = 1 ∧
    process_queues k' 1 = Some 1%nat ∧ p_priority (process_table k' 1) = 4.
Proof.
  assert (H : match nice_result with Ok (n, k') => bool_decide (n = 0 ∧
      process_queues k' 4 = Some 2%nat ∧ p_priority (process_table k' 2) = 1 ∧
      process_queues k' 1 = Some 1%nat ∧ p_priority (process_table k' 1) = 4)
    | _ => false end = true) by (by vm_compute).
  destruct nice_result as [[n k']| | |] eqn:Hr; try done.
  apply bool_decide_eq_true in H as (-> & Hq4 & Hp2 & H3). exists k'. split; [done|].
  split; [|done]. intros [ls Hinv].
  pose proof (qr_head _ _ (si_qrep _ _ Hinv) 4 ltac:(done)) as Hh.
  change (Z.to_nat 4) with 4%nat in Hh. rewrite Hq4 in Hh.
  assert (2%nat ∈ ls 4) as Hin by (by apply head_Some_elem_of).
  apply (qr_in _ _ (si_qrep _ _ Hinv)) in Hin as (_ & Hp & _). congruence.
Qed.
