(* ===== verification/RoundRobin.v ===== *)
(** Progress of the scheduler: the processes of the highest non-empty queue take turns. A run is
    a number of timer interrupts with user code in between, which changes nothing of the kernel. *)
From S2P Require Import Prelude DList Proc Sched.

(** The running process is the head of [q], the highest non-empty queue, of priority [prio]. *)
Record turn (ls : Z → list nat) (prio : Z) (q : list nat) (k : kernel) : Prop := {
  tn_inv : sched_inv k ls;
  tn_intr : intr (k_cpu k) = false;
  tn_prio : 0 <= prio < PROC_QUANTA;
  tn_queue : ls prio = q;
  tn_cur : head q = Some (current_process k);
  tn_top p : prio < p < PROC_QUANTA → ls p = []
}.
(** What decides on alarms, time limits of reads and signals stays as it is. *)
Record same_events (k k' : kernel) : Prop := {
  se_alarm j : p_alarm (process_table k' j) = p_alarm (process_table k j);
  se_block j : p_tty_block (process_table k' j) = p_tty_block (process_table k j);
  se_pending j : p_sigpending (process_table k' j) = p_sigpending (process_table k j);
  se_state j : p_state (process_table k' j) = p_state (process_table k j) ∨ runnable (process_table k' j) = true
}.
Lemma same_events_trans k1 k2 k3 : same_events k1 k2 → same_events k2 k3 → same_events k1 k3.
Proof.
  intros [A1 A2 A3 A4] [B1 B2 B3 B4]. split; intros j; [by rewrite B1|by rewrite B2|by rewrite B3|].
  destruct (B4 j) as [E|]; [|by right]. destruct (A4 j) as [E'|E']; [left; congruence|right].
  revert E'. unfold runnable. by rewrite E.
Qed.
Lemma quiet_same t k k' : same_events k k' → quiet t k → quiet t k'.
Proof.
  intros [E1 E2 E3 E4] Hq j Hj. destruct (Hq j Hj) as (Ha & Ht & Hs). unfold alarm_expired, tty_expired, signalled in *.
  rewrite E1, E2, E3. split; [done|]. split; [done|]. destruct (E4 j) as [->|Hr]; [done|].
  unfold runnable in Hr. destruct (p_state (process_table k' j)); done.
Qed.

Lemma turn_scan ls prio c rest k : turn ls prio (c :: rest) k → scan_queues (process_queues k) priorities = Some c.
Proof.
  intros [I _ Hp Hq _ Ht]. apply (scan_queues_top _ (Z.to_nat prio)); [lia| |].
  - by rewrite (qr_head _ _ (si_qrep _ _ I)), Hq by done.
  - intros p Hp'. rewrite <- (Nat2Z.id p), (qr_head _ _ (si_qrep _ _ I)) by lia. by rewrite Ht by lia.
Qed.

Lemma turn_lists ls ls' prio q k : (∀ p, ls' p = ls p) → turn ls prio q k → turn ls' prio q k.
Proof.
  intros E [[Hq Hm Hpr Hi] N P Q C U]. split; [split; [by eapply qrep_ext|intros j Hj; rewrite E; auto|done|done]|done|done|
    by rewrite E|done|intros p Hp; rewrite E; auto].
Qed.

Section turn.
Context (ls : Z → list nat) (prio : Z).

Lemma turn_member q k i : turn ls prio q k → i ∈ q → (i < NR_PROC)%nat ∧ p_priority (process_table k i) = prio.
Proof. intros T Hi. rewrite <-(tn_queue _ _ _ _ T) in Hi. apply (qr_in _ _ (si_qrep _ _ (tn_inv _ _ _ _ T))) in Hi. tauto. Qed.
Lemma turn_cur q k c rest : turn ls prio q k → q = c :: rest → current_process k = c.
Proof. intros T ->. pose proof (tn_cur _ _ _ _ T) as H. by injection H. Qed.
(** A tick within a time slice. *)
Lemma tick_on c rest k : turn ls prio (c :: rest) k → p_counter (process_table k c) ≠ 0 → quiet (u32 (timer_ticks k + 1)) k →
  ∃ k', timer_driver_irq_handler false k = Ok (false, k') ∧ turn ls prio (c :: rest) k' ∧ same_events k k' ∧
    timer_ticks k' = u32 (timer_ticks k + 1) ∧
    ∀ j, p_counter (process_table k' j) = if decide (j = c) then p_counter (process_table k c) - 1 else p_counter (process_table k j).
Proof.
  intros T Hcnt Hq. pose proof (turn_cur _ _ _ _ T eq_refl) as Hc. unfold timer_driver_irq_handler. krun.
  set (k0 := k <| timer_ticks ::= _ |>). change (current_process k0) with (current_process k). rewrite Hc.
  change (cur k0) with (process_table k (current_process k)). rewrite Hc, (proj2 (Z.eqb_neq _ _) Hcnt). 
  change (when false ?m) with (mret tt : K unit). krun.
  set (k1 := set_proc c _ k0).
  assert (turn ls prio (c :: rest) k1) as T1.
  { split; [|apply T..]. apply sched_inv_set_proc; [eapply sched_inv_ext; [apply T|done..]|keeps_links|done]. }
  destruct (schedule_quiet k1 ls (tn_inv _ _ _ _ T1)) with (c := c) as (k2 & R2 & I2 & C2 & P2 & T2 & N2).
  - intros j Hj. unfold k1. rewrite set_proc_lookup. case_decide; [subst j; exact (Hq c Hj)|exact (Hq j Hj)].
  - apply T1.
  - by eapply turn_scan.
  - change (current_process k1) with (current_process k) in R2. rewrite Hc in R2.
    rewrite bool_decide_eq_false_2 in R2 by (intros []; done).
    assert (runnable (process_table k c) = true) as Hr.
    { destruct (turn_member _ _ c T) as [Hlt Hpr]; [by left|]. rewrite (si_mem _ _ (tn_inv _ _ _ _ T)) by done.
      rewrite Hpr, (tn_queue _ _ _ _ T). apply bool_decide_eq_true_2. by left. }
    assert (∀ j, process_table k2 j = if decide (j = c) then (process_table k c) <| p_counter ::= λ n, n - 1 |> <| p_state := PROC_RUNNING |>
      else process_table k j) as E.
    { intros j. rewrite P2. unfold k1. case_decide; [subst j; by rewrite !set_proc_eq|by rewrite !set_proc_ne]. }
    exists k2. split; [exact R2|]. split.
    { split; [done|done|apply T|apply T|by rewrite C2|apply T]. }
    split; [|split; [done|intros j; rewrite E; by case_decide]].
    split; intros j; rewrite E; case_decide; subst; first [done|by right|by left].
Qed.

(** The tick at the end of a time slice: the next process of the queue runs. *)
Lemma tick_over c n rest k : turn ls prio (c :: n :: rest) k → p_counter (process_table k c) = 0 → quiet (u32 (timer_ticks k + 1)) k →
  ∃ k', timer_driver_irq_handler false k = Ok (true, k') ∧ turn (<[prio := (n :: rest) ++ [c]]> ls) prio ((n :: rest) ++ [c]) k' ∧
    same_events k k' ∧ timer_ticks k' = u32 (timer_ticks k + 1) ∧ p_state (process_table k' n) = PROC_RUNNING ∧
    p_state (process_table k' c) = PROC_RUNNABLE ∧
    ∀ j, p_counter (process_table k' j) = p_counter (process_table k j).
Proof.
  intros T Hcnt Hq. pose proof (turn_cur _ _ _ _ T eq_refl) as Hc. pose proof (tn_inv _ _ _ _ T) as Hinv.
  destruct (turn_member _ _ c T) as [Hlt Hpr]; [by left|]. unfold timer_driver_irq_handler. krun.
  set (k0 := k <| timer_ticks ::= _ |>). change (current_process k0) with (current_process k). rewrite Hc.
  change (cur k0) with (process_table k (current_process k)). rewrite Hc, Hcnt. simpl. krun.
  set (f := λ p : process, p <| p_counter ::= λ n, n - 1 |> <| p_counter := 0 |> <| p_state := PROC_RUNNABLE |>).
  set (k1 := set_proc c _ (set_proc c _ (set_proc c _ k0))).
  assert (Hk1 : process_table k1 c = f (process_table k c)) by (unfold k1; by rewrite !set_proc_eq).
  assert (Hk1' : ∀ j, j ≠ c → process_table k1 j = process_table k j).
  { intros j Hj. unfold k1. by rewrite !set_proc_ne. }
  destruct (sched_inv_adjust_gen k k1 ls c Hinv) as (k2 & R2 & S2 & I2).
  { do 3 (apply qrep_set_proc; [keeps_links|]). by eapply qrep_ext; [apply (si_qrep _ _ Hinv)|..]. }
  { done. }
  { intros j. destruct (decide (j = c)) as [->|]; [by rewrite Hk1|by rewrite Hk1']. }
  { intros j Hj. by rewrite Hk1'. }
  { by rewrite Hk1. }
  rewrite (bind_ok _ _ _ _ _ R2). rewrite Hk1, Hpr, (tn_queue _ _ _ _ T) in I2.
  change (runnable (f _)) with true in I2. unfold requeue in I2. change (c :: n :: rest) with ([] ++ c :: n :: rest) in I2.
  rewrite (unlink_split c [] (n :: rest)), app_nil_r in I2 by set_solver.
  pose proof (qr_nodup _ _ (si_qrep _ _ Hinv) prio) as Hnd. rewrite (tn_queue _ _ _ _ T) in Hnd.
  assert (Hnc : n ≠ c) by (apply NoDup_cons in Hnd as [Hnd _]; set_solver).
  assert (timer_ticks k2 = u32 (timer_ticks k + 1) ∧ current_process k2 = current_process k ∧ intr (k_cpu k2) = false) as (Hti & Hcu & Hin).
  { rewrite (sbl_rest _ _ S2). split_and!; [done|done|apply (tn_intr _ _ _ _ T)]. }
  assert (Hp2 : ∀ j, strip (process_table k2 j) = strip (process_table k1 j)) by apply (sbl_proc _ _ S2).
  assert (turn (<[prio := (n :: rest) ++ [c]]> ls) prio ((n :: rest) ++ [c]) (k2 <| current_process := n |>)) as T2.
  { split; [by eapply sched_inv_ext|done|apply T|by rewrite fn_insert_eq|done|].
    intros p Hp. rewrite fn_insert_ne by lia. by apply (tn_top _ _ _ _ T). }
  destruct (schedule_quiet k2 _ I2) with (c := n) as (k3 & R3 & I3 & C3 & P3 & T3 & N3).
  - intros j Hj. rewrite Hti. set (t := u32 _).
    change (alarm_expired t (strip (process_table k2 j)) = false ∧
      tty_expired t (strip (process_table k2 j)) = false ∧ signalled (strip (process_table k2 j)) = false).
    rewrite Hp2. destruct (decide (j = c)) as [->|Hjc]; [|rewrite Hk1' by done; by apply Hq].
    rewrite Hk1. destruct (Hq c Hlt) as (Ha & Ht & _). done.
  - done.
  - exact (turn_scan _ _ _ _ _ T2).
  - rewrite bool_decide_eq_true_2 in R3 by congruence. exists k3. split; [exact R3|].
    assert (∀ j, strip (process_table k3 j) = strip (if decide (j = n) then (process_table k n) <| p_state := PROC_RUNNING |>
      else if decide (j = c) then f (process_table k c) else process_table k j)) as E.
    { intros j. rewrite P3. destruct (decide (j = n)) as [->|]; [rewrite set_proc_eq|rewrite set_proc_ne by done].
      - change (strip ((process_table k2 n) <| p_state := PROC_RUNNING |>)) with ((strip (process_table k2 n)) <| p_state := PROC_RUNNING |>).
        by rewrite Hp2, Hk1'.
      - rewrite Hp2. case_decide; subst; [by rewrite Hk1|by rewrite Hk1']. }
    split; [by split; try apply T2; try congruence; [done|by rewrite C3]|].
    assert (∀ {X} (g : process → X), (∀ p, g (strip p) = g p) → ∀ j, g (process_table k3 j) = g (if decide (j = n) then
      (process_table k n) <| p_state := PROC_RUNNING |> else if decide (j = c) then f (process_table k c) else process_table k j)) as G.
    { intros X g Hg j. by rewrite <-Hg, E, Hg. }
    assert (runnable (process_table k n) = true) as Hr.
    { destruct (turn_member _ _ n T) as [Hl2 Hp2']; [by right; left|]. rewrite (si_mem _ _ Hinv) by done.
      rewrite Hp2', (tn_queue _ _ _ _ T). apply bool_decide_eq_true_2. by right; left. }
    split; [|split; [congruence|]].
    + split; intros j; [rewrite (G _ p_alarm (λ p, eq_refl))|rewrite (G _ p_tty_block (λ p, eq_refl))|
        rewrite (G _ p_sigpending (λ p, eq_refl))|rewrite (G _ p_state (λ p, eq_refl)), (G _ runnable (λ p, eq_refl))];
        repeat case_decide; subst; first [done|by left|by right].
    + rewrite !(G _ p_state (λ p, eq_refl)), (decide_True (P := n = n)), decide_False, decide_True by done.
      split; [done|]. split; [done|]. intros j. rewrite (G _ p_counter (λ p, eq_refl)).
      repeat case_decide; subst; done.
Qed.
End turn.

(** [n] timer interrupts. *)
Fixpoint ticks (n : nat) : K unit := match n with O => mret tt | S n => timer_driver_irq_handler false ;; ticks n end.
(** During the next [n] interrupts no alarm and no time limit of a read expires, and no signal ends a sleep. *)
Definition quiet_for (n : nat) (k : kernel) : Prop := ∀ i, (1 <= i <= n)%nat → quiet (u32 (timer_ticks k + Z.of_nat i)) k.

Lemma u32_add_add a b c : u32 (u32 (a + b) + c) = u32 (a + (b + c)).
Proof. unfold u32. rewrite Z.add_mod_idemp_l by lia. f_equal. lia. Qed.
Lemma quiet_for_step m n k k' : quiet_for (m + n) k → same_events k k' → timer_ticks k' = u32 (timer_ticks k + Z.of_nat m) → quiet_for n k'.
Proof.
  intros Hq He Ht i Hi. rewrite Ht, u32_add_add. eapply quiet_same; [done|].
  rewrite <-Nat2Z.inj_add. apply Hq. lia.
Qed.
Lemma ticks_app m n k k' : ticks m k = Ok (tt, k') → ticks (m + n) k = ticks n k'.
Proof.
  revert k. induction m as [|m IH]; intros k R; simpl in *; [by injection R as ->|].
  apply bind_inv in R as (b & k1 & R1 & R). rewrite (bind_ok _ _ _ _ _ R1). by apply IH.
Qed.

(** The rest of a time slice. *)
Lemma slice_ends ls prio c n rest m k : turn ls prio (c :: n :: rest) k → p_counter (process_table k c) = Z.of_nat m → quiet_for (S m) k →
  ∃ k', ticks (S m) k = Ok (tt, k') ∧ turn (<[prio := (n :: rest) ++ [c]]> ls) prio ((n :: rest) ++ [c]) k' ∧ same_events k k' ∧
    timer_ticks k' = u32 (timer_ticks k + Z.of_nat (S m)) ∧
    p_counter (process_table k' c) = 0 ∧ ∀ j, j ≠ c → p_counter (process_table k' j) = p_counter (process_table k j).
Proof.
  revert k. induction m as [|m IH]; intros k T Hcnt Hq.
  - destruct (tick_over ls prio c n rest k T Hcnt) as (k1 & R & T1 & E1 & Ht & _ & _ & C1); [by apply (Hq 1%nat); lia|].
    exists k1. split; [change (ticks 1) with (timer_driver_irq_handler false ≫= λ _, mret tt); by rewrite (bind_ok _ _ _ _ _ R)|].
    split; [done|]. split; [done|]. split; [done|]. split; [by rewrite C1|]. intros j _. apply C1.
  - destruct (tick_on ls prio c (n :: rest) k T) as (k1 & R & T1 & E1 & Ht & C1); [lia|by apply (Hq 1%nat); lia|].
    destruct (IH k1 T1) as (k2 & R2 & T2 & E2 & Ht2 & C2 & C2').
    { rewrite C1, decide_True by done. lia. }
    { by apply (quiet_for_step 1 (S m) k). }
    exists k2. split; [change (ticks (S (S m))) with (timer_driver_irq_handler false ≫= λ _, ticks (S m)); by rewrite (bind_ok _ _ _ _ _ R)|].
    split; [done|]. split; [by eapply same_events_trans|]. split; [rewrite Ht2, Ht, u32_add_add; f_equal; lia|]. split; [done|].
    intros j Hj. by rewrite C2', C1, decide_False.
Qed.

(** The ticks until the processes of [q] have used up their slices. *)
Fixpoint slices (k : kernel) (q : list nat) : nat :=
  match q with [] => O | c :: q => S (Z.to_nat (p_counter (process_table k c))) + slices k q end.
Lemma slices_ext k k' q : (∀ j, j ∈ q → p_counter (process_table k' j) = p_counter (process_table k j)) → slices k' q = slices k q.
Proof. induction q as [|c q IH]; intros H; simpl; [done|]. rewrite H, IH; [done| |by left]. intros j Hj. apply H. by right. Qed.

(** C7: nobody in the highest queue starves: the process behind [q1] runs after the slices of the
    processes before it, at the exact number of ticks, and these have then joined the queue
    behind it in their order. *)
Theorem every_process_runs ls prio q1 i q2 k : turn ls prio (q1 ++ i :: q2) k →
  (∀ j, j ∈ q1 → 0 <= p_counter (process_table k j)) → quiet_for (slices k q1) k →
  ∃ k', ticks (slices k q1) k = Ok (tt, k') ∧ current_process k' = i ∧ turn (<[prio := i :: q2 ++ q1]> ls) prio (i :: q2 ++ q1) k' ∧
    ∀ j, p_counter (process_table k' j) = if decide (j ∈ q1) then 0 else p_counter (process_table k j).
Proof.
  revert ls q2 k. induction q1 as [|c q1 IH]; intros ls q2 k T Hpos Hq.
  - exists k. split; [done|]. split; [by eapply turn_cur|]. rewrite app_nil_r. simpl in T.
    split; [|intros j; by rewrite decide_False by apply not_elem_of_nil]. apply (turn_lists ls); [|done]. intros p.
    destruct (decide (p = prio)) as [->|]; [by rewrite fn_insert_eq, (tn_queue _ _ _ _ T)|by rewrite fn_insert_ne].
  - assert (NoDup (c :: q1 ++ i :: q2)) as Hnd.
    { pose proof (qr_nodup _ _ (si_qrep _ _ (tn_inv _ _ _ _ T)) prio) as H. by rewrite (tn_queue _ _ _ _ T) in H. }
    assert (∃ n rest, q1 ++ i :: q2 = n :: rest) as (n & rest & Er) by (destruct q1; simpl; eauto).
    simpl in T. rewrite Er in T.
    destruct (slice_ends ls prio c n rest (Z.to_nat (p_counter (process_table k c))) k T) as (k1 & R1 & T1 & E1 & Ht & C0 & C1).
    { specialize (Hpos c ltac:(by left)). lia. }
    { intros m Hm. apply Hq. simpl. lia. }
    rewrite <-Er, <-app_assoc in T1. simpl in T1. apply NoDup_cons in Hnd as [Hc _].
    assert (slices k1 q1 = slices k q1) as Es.
    { apply slices_ext. intros j Hj. apply C1. intros ->. apply Hc. apply elem_of_app. by left. }
    destruct (IH _ (q2 ++ [c]) k1 T1) as (k2 & R2 & Hi & T2 & Hz).
    { intros j Hj. rewrite C1; [apply Hpos; by right|]. intros ->. apply Hc. apply elem_of_app. by left. }
    { rewrite Es. eapply quiet_for_step; [exact Hq|done|done]. }
    exists k2. split; [change (slices k (c :: q1)) with (S (Z.to_nat (p_counter (process_table k c))) + slices k q1)%nat; rewrite <-Es; by rewrite (ticks_app _ _ _ _ R1)|]. split; [done|].
    rewrite <-app_assoc in T2. simpl in T2. split.
    + eapply turn_lists; [|exact T2]. intros p. destruct (decide (p = prio)) as [->|]; [by rewrite !fn_insert_eq|by rewrite !fn_insert_ne].
    + intros j. rewrite Hz. destruct (decide (j = c)) as [->|Hj].
      * rewrite C0, (decide_True (P := c ∈ c :: q1)) by (by left). by case_decide.
      * rewrite C1 by done. repeat case_decide; set_solver.
Qed.

(** Round robin. When the running process, at the head of the highest non-empty
    queue, has used up its counter, the timer interrupt moves it to the tail of that
    queue and switches to the process behind it. The counter stays 0: nothing here
    starts a new time slice, so from then on the process is preempted at each tick. *)
Theorem timer_round_robin k ls n rest : sched_inv k ls →
  let c := current_process k in let prio := p_priority (process_table k c) in
  intr (k_cpu k) = false → quiet (u32 (timer_ticks k + 1)) k →
  (c < NR_PROC)%nat → ls prio = c :: n :: rest →
  (∀ p, prio < p < PROC_QUANTA → ls p = []) →
  p_counter (process_table k c) = 0 →
  ∃ k', timer_driver_irq_handler false k = Ok (true, k') ∧
    sched_inv k' (<[prio := (n :: rest) ++ [c]]> ls) ∧ current_process k' = n ∧
    p_state (process_table k' n) = PROC_RUNNING ∧
    p_state (process_table k' c) = PROC_RUNNABLE ∧ p_counter (process_table k' c) = 0.
Proof.
  intros Hinv c prio Hi Hq Hc Hls Htop Hcnt.
  assert (turn ls prio (c :: n :: rest) k) as T by (split; [done|done|by apply (si_prio _ _ Hinv)|done|done|done]).
  destruct (tick_over ls prio c n rest k T Hcnt Hq) as (k' & R & T' & _ & _ & Hn & Hc' & C).
  exists k'. split; [done|]. split; [apply T'|]. split; [by eapply turn_cur|]. split; [done|]. split; [done|]. by rewrite C.
Qed.

(** ** The small system with two user processes *)
Module RoundDemo.
Definition k : kernel := Demo.k <| k_cpu ::= λ c, c <| intr := false |> |>.
Lemma quiet_k t : quiet t k.
Proof.
  intros j Hj. assert (process_table k j = process_table Demo.k j) as -> by done.
  destruct (decide (j ≤ 2)%nat); [|by rewrite Demo.table_other by lia]. by destruct j as [|[|[|j]]]; [..|lia].
Qed.
Lemma turn_k : turn Demo.ls 1 ([1] ++ 2 :: [])%nat k.
Proof.
  split; [eapply (sched_inv_ext Demo.k); [apply Demo.inv|done..]|done|done|done|done|].
  intros p Hp. unfold Demo.ls. change (1 < p < 10) in Hp. by rewrite !decide_False by lia.
Qed.
End RoundDemo.
(** The second process runs at the eleventh tick. *)
Lemma every_process_runs_witness : ∃ k', ticks 11 RoundDemo.k = Ok (tt, k') ∧ current_process k' = 2%nat.
Proof.
  destruct (every_process_runs Demo.ls 1 [1%nat] 2%nat [] RoundDemo.k) as (k' & R & C & _).
  - exact RoundDemo.turn_k.
  - intros j Hj. apply list_elem_of_singleton in Hj as ->. discriminate.
  - intros i _. apply RoundDemo.quiet_k.
  - exists k'. split; [exact R|exact C].
Defined.
Lemma timer_round_robin_witness : ∃ k', timer_driver_irq_handler false
    (set_proc 1 (λ p, p <| p_counter := 0 |>) Demo.k <| k_cpu ::= λ c, c <| intr := false |> |>) = Ok (true, k') ∧ current_process k' = 2%nat.
Proof.
  destruct (timer_round_robin
    (set_proc 1 (λ p, p <| p_counter := 0 |>) Demo.k <| k_cpu ::= λ c, c <| intr := false |> |>)
    Demo.ls 2%nat []) as (k' & H1 & _ & H2 & _).
  - eapply (sched_inv_ext (set_proc 1 _ Demo.k)); [|done..].
    apply sched_inv_set_proc; [apply Demo.inv|keeps_links|done].
  - done.
  - intros j Hj. destruct (decide (j ≤ 2)%nat).
    + destruct j as [|[|[|j]]]; [by vm_compute..|lia].
    + rewrite set_proc_ne by lia. rec_simpl. by rewrite Demo.table_other by lia.
  - by apply (bool_decide_unpack _); vm_compute.
  - done.
  - intros p Hp. unfold Demo.ls. change (1 < p < 10) in Hp. by rewrite !decide_False by lia.
  - done.
  - by exists k'.
Defined.
