(* ===== verification/Mutex.v ===== *)
(** Mutexes (sys/kernel/mutex.c) on top of [sleep] and [wakeup]: the operations, the
    interleavings of the processes that use one mutex as a step relation, mutual exclusion
    and the absence of lost wake-ups. *)
From S2P Require Import Prelude Proc Sched.

(** Where a process stands with respect to the mutex: not using it, asleep in the loop of
    [mutex_lock], or returned from [mutex_lock]. *)
Inductive mutex_pc : Type := Outside | InLoop | Holding.
#[export] Instance mutex_pc_eq : EqDecision mutex_pc.
Proof. solve_decision. Defined.

Record mutex := MkMutex { lock : bool; owner : option nat }.
#[export] Instance mutex_eta : Eta mutex := λ m, MkMutex (lock m) (owner m).

(** The kernel, one mutex and the position of each process. *)
Record mstate := MkMState { mk : kernel; mtx : mutex; pc : nat → mutex_pc }.
#[export] Instance mstate_eta : Eta mstate := λ s, MkMState (mk s) (mtx s) (pc s).

Definition in_kernel {A} (m : K A) : M mstate A := λ s,
  match m (mk s) with
  | Ok (a, k) => Ok (a, s <| mk := k |>)
  | Panic msg => Panic msg | Undef why => Undef why | NoFuel => NoFuel
  end.
Definition set_pc (p : mutex_pc) : M mstate unit :=
  modify (λ s, s <| pc ::= <[current_process (mk s) := p]> |>).

Section operations.
(** The address of the mutex, on which its waiters sleep. *)
Context (addr : Z).

Definition mutex_init : M mstate unit :=
  modify (λ s, s <| mtx := MkMutex false None |>).

Definition mutex_take : M mstate unit :=
  c ← gets (λ s, current_process (mk s));
  modify (λ s, s <| mtx := MkMutex true (Some c) |>) ;;
  in_kernel enable_intr ;;
  set_pc Holding.

(** The test of the loop, and its body. The iteration ends when the process sleeps;
    [mutex_lock_resume] is what it does when it runs again. *)
Definition mutex_lock_test : M mstate unit :=
  locked ← gets (λ s, lock (mtx s));
  if locked : bool then
    set_pc InLoop ;; in_kernel (sleep addr PROC_SLEEP_INTERRUPTIBLE) ;; mret tt
  else mutex_take.

Definition mutex_lock : M mstate unit :=
  m ← gets mtx;
  c ← gets (λ s, current_process (mk s));
  if bool_decide (owner m = None) && lock m then panic "mutex_lock: Corrupt mutex"
  else
    in_kernel disable_intr ;;
    if bool_decide (owner m ≠ Some c) then mutex_lock_test else mutex_take.

Definition mutex_lock_resume : M mstate unit := in_kernel resume ;; mutex_lock_test.

(** The waking [wakeup] may switch to another process; the [enable_intr] that follows
    it is then executed when this process runs again. *)
Definition mutex_unlock : M mstate unit :=
  in_kernel disable_intr ;;
  modify (λ s, s <| mtx := MkMutex false None |>) ;;
  set_pc Outside ;;
  switched ← in_kernel (wakeup addr WAKEUP_SWITCH);
  when (negb switched) (in_kernel enable_intr).

Definition mutex_locked (s : mstate) : bool :=
  lock (mtx s) && bool_decide (owner (mtx s) ≠ Some (current_process (mk s))).

(** One uninterrupted piece of execution. Only a process that holds the mutex unlocks
    it. Besides the mutex, processes sleep and wake each other on other addresses, and
    the timer preempts them. *)
Inductive step (s s' : mstate) : Prop :=
  | step_lock : pc s (current_process (mk s)) ≠ InLoop → mutex_lock s = Ok (tt, s') → step s s'
  | step_resume : pc s (current_process (mk s)) = InLoop →
      mutex_lock_resume s = Ok (tt, s') → step s s'
  | step_unlock : pc s (current_process (mk s)) = Holding → mutex_unlock s = Ok (tt, s') → step s s'
  | step_sleep a type sw : a ≠ addr → pc s (current_process (mk s)) ≠ InLoop →
      sleeping_type type → (0 < current_process (mk s))%nat →
      in_kernel (sleep a type) s = Ok (sw, s') → step s s'
  | step_wakeup a mode sw : a ≠ addr → in_kernel (wakeup a mode) s = Ok (sw, s') → step s s'
  | step_tick sw : in_kernel (timer_driver_irq_handler false) s = Ok (sw, s') → step s s'.

(** After [mutex_init], before any process has used the mutex. *)
Record initial (s : mstate) : Prop := {
  in_wf : sched_wf (mk s);
  in_cur : (current_process (mk s) < NR_PROC)%nat;
  in_mutex : mtx s = MkMutex false None;
  in_pc j : pc s j = Outside;
  in_awake j : (j < NR_PROC)%nat → wakes addr (process_table (mk s) j) = false
}.
Inductive reachable (s0 : mstate) : mstate → Prop :=
  | reach_init : reachable s0 s0
  | reach_step s s' : reachable s0 s → step s s' → reachable s0 s'.

(** The mutex is locked exactly when it has an owner, the owner is the one process that
    holds it, and a process asleep on it waits in the loop of [mutex_lock] for a
    locked mutex. *)
Record mutex_inv (s : mstate) : Prop := {
  mi_wf : sched_wf (mk s);
  mi_cur : (current_process (mk s) < NR_PROC)%nat;
  mi_lock : lock (mtx s) = bool_decide (is_Some (owner (mtx s)));
  mi_owner j : pc s j = Holding ↔ owner (mtx s) = Some j;
  mi_waiter j : (j < NR_PROC)%nat → wakes addr (process_table (mk s) j) = true →
    pc s j = InLoop ∧ lock (mtx s) = true
}.

(** ** Sleepers across the scheduler *)

Lemma wakes_strip p : wakes addr (strip p) = wakes addr p.
Proof. done. Qed.

Lemma wakes_effect t p : wakes addr (schedule_effect t p) = true → wakes addr p = true.
Proof.
  unfold schedule_effect, wake_signalled.
  destruct (signalled _); [done|]. unfold expire_tty, expire_alarm, raise_alarm.
  by destruct (alarm_expired t p); destruct (tty_expired t _).
Qed.
Lemma wakes_ran t T c j : wakes addr (ran (looped t T) c j) = true → wakes addr (T j) = true.
Proof.
  unfold ran, looped. destruct (decide (j = c)); [done|].
  case_decide; [apply wakes_effect|done].
Qed.

Lemma sleepers_ran k' t T c j :
  (∀ j, strip (process_table k' j) = strip (ran (looped t T) c j)) →
  wakes addr (process_table k' j) = true → wakes addr (T j) = true.
Proof.
  intros HT Hw. apply (wakes_ran t T c). by rewrite <- wakes_strip, <- HT.
Qed.

(** What a piece of kernel code that does not touch the mutex does to the invariant. *)
Definition quiet_kernel (k k' : kernel) : Prop :=
  sched_wf k' ∧ (current_process k' < NR_PROC)%nat ∧
  ∀ j, (j < NR_PROC)%nat → wakes addr (process_table k' j) = true →
    wakes addr (process_table k j) = true.

Lemma quiet_kernel_inv s k' : mutex_inv s → quiet_kernel (mk s) k' → mutex_inv (s <| mk := k' |>).
Proof.
  intros [H1 H2 H3 H4 H5] (Hwf & Hcur & Hw). split; [done..|].
  intros j Hj Hjw. apply H5; [done|]. by apply Hw.
Qed.

Lemma cpu_quiet k f : sched_wf k → (current_process k < NR_PROC)%nat →
  quiet_kernel k (k <| k_cpu ::= f |>).
Proof. intros [ls H] ?. split; [exists ls; by eapply sched_inv_ext|]. done. Qed.

Lemma sleep_other k a type : sched_wf k → (0 < current_process k < NR_PROC)%nat →
  sleeping_type type →
  ∃ sw k', sleep a type k = Ok (sw, k') ∧ sched_wf k' ∧ (current_process k' < NR_PROC)%nat ∧
    ∀ j, (j < NR_PROC)%nat → wakes addr (process_table k' j) = true →
      wakes addr (process_table k j) = true ∧ j ≠ current_process k ∨
      j = current_process k ∧ a = addr.
Proof.
  intros [ls H] Hc Ht. destruct (sleep_ok k ls a type H Hc Ht)
    as (sw & k' & ls' & R & I & (Hc' & _) & _ & HT & _ & _).
  exists sw, k'. split; [done|]. split; [by exists ls'|]. split; [done|]. intros j Hj Hw.
  apply (sleepers_ran _ _ _ _ _ HT) in Hw.
  destruct (decide (j = current_process k)) as [->|Hne].
  - right. split; [done|]. rewrite fn_insert_eq in Hw. unfold wakes, slept in Hw.
    apply andb_true_iff in Hw as [_ Hw]. apply bool_decide_eq_true in Hw.
    rec_simpl. congruence.
  - left. by rewrite fn_insert_ne in Hw by done.
Qed.

Lemma wakes_woken_table a T j : wakes addr (woken_table a T j) = true →
  wakes addr (T j) = true.
Proof.
  unfold woken_table, woken. case_decide; [|done]. by destruct (wakes a (T j)).
Qed.
Lemma woken_table_none T j : (j < NR_PROC)%nat → wakes addr (woken_table addr T j) = false.
Proof.
  intros Hj. unfold woken_table, woken. rewrite decide_True by (by apply all_procs_elem).
  by destruct (wakes addr (T j)) eqn:Hw.
Qed.

(** [wakeup] on any address; on the mutex's own nobody is left asleep. *)
Lemma wakeup_sleepers k a mode : sched_wf k → (current_process k < NR_PROC)%nat →
  ∃ sw k', wakeup a mode k = Ok (sw, k') ∧ quiet_kernel k k' ∧
    (a = addr → ∀ j, (j < NR_PROC)%nat → wakes addr (process_table k' j) = false).
Proof.
  intros [ls H] Hc. destruct (wakeup_ok k ls a mode H) as (sw & k' & ls' & R & I & _ & HB).
  exists sw, k'. split; [done|]. set (T := process_table k) in *.
  assert (Hw : (current_process k' < NR_PROC)%nat ∧ ∀ j, (j < NR_PROC)%nat →
    wakes addr (process_table k' j) = true → wakes addr (woken_table a T j) = true).
  { cbv zeta in HB. destruct mode; [|destruct (existsb (λ i, wakes a (T i)) all_procs)].
    1,3: destruct HB as (_ & -> & _ & HT); (split; [done|]); intros j Hj Hjw;
      by rewrite <- wakes_strip, <- HT, wakes_strip.
    destruct HB as ((Hc' & _) & _ & _ & HT). split; [done|]. intros j Hj Hjw.
    by apply (sleepers_ran _ _ _ _ _ HT) in Hjw. }
  destruct Hw as [Hc' Hw]. split.
  - split; [by exists ls'|]. split; [done|]. intros j Hj Hjw.
    by eapply wakes_woken_table, Hw.
  - intros -> j Hj. destruct (wakes addr (process_table k' j)) eqn:Hjw; [|done].
    rewrite <- (woken_table_none T j) by done. symmetry. by apply Hw.
Qed.

Lemma tick_quiet k : sched_wf k → (current_process k < NR_PROC)%nat →
  ∃ sw k', timer_driver_irq_handler false k = Ok (sw, k') ∧ quiet_kernel k k'.
Proof.
  intros [ls H] Hc. destruct (timer_ok k ls H Hc)
    as (sw & k' & ls' & R & I & (Hc' & _) & _ & _ & _ & HT).
  exists sw, k'. split; [done|]. split; [by exists ls'|]. split; [done|]. intros j Hj Hw.
  apply (sleepers_ran _ _ _ _ _ HT) in Hw.
  destruct (decide (j = current_process k)) as [->|Hne]; [|by rewrite fn_insert_ne in Hw].
  rewrite fn_insert_eq in Hw. revert Hw. unfold tick. by case_match.
Qed.

(** ** The operations keep the invariant *)

Lemma in_kernel_ok {A} (m : K A) s a k' :
  m (mk s) = Ok (a, k') → in_kernel m s = Ok (a, s <| mk := k' |>).
Proof. unfold in_kernel. by intros ->. Qed.
Lemma in_kernel_inv {A} (m : K A) s a s' :
  in_kernel m s = Ok (a, s') → ∃ k', m (mk s) = Ok (a, k') ∧ s' = s <| mk := k' |>.
Proof. unfold in_kernel. destruct (m (mk s)) as [[a0 k']| | |]; [|done..]. intros [= <- <-]. by exists k'. Qed.

Lemma take_inv s : mutex_inv s →
  lock (mtx s) = false ∨ owner (mtx s) = Some (current_process (mk s)) →
  ∃ s', mutex_take s = Ok (tt, s') ∧ mutex_inv s' ∧
    current_process (mk s') = current_process (mk s) ∧
    mtx s' = MkMutex true (Some (current_process (mk s))).
Proof.
  intros [H1 H2 H3 H4 H5] Hfree. set (c := current_process (mk s)) in *.
  eexists. split; [reflexivity|]. unfold set_pc. split; [|done]. rec_simpl. split; rec_simpl.
  - apply (cpu_quiet (mk s) _ H1 H2).
  - done.
  - by rewrite bool_decide_eq_true_2.
  - intros j. fold c. destruct (decide (c = j)) as [->|Hne]; [by rewrite fn_insert_eq|].
    rewrite fn_insert_ne by done. rewrite H4. cbn [owner]. split; [|by intros [=]]. intros Ho. exfalso.
    destruct Hfree as [Hfree|Hfree]; [|congruence].
    rewrite Hfree in H3. symmetry in H3. apply bool_decide_eq_false in H3. apply H3. by exists j.
  - intros j Hj Hw. specialize (H5 j Hj Hw) as [Hpc Hl]. split; [|done]. fold c.
    destruct (decide (c = j)) as [<-|Hne]; [|by rewrite fn_insert_ne].
    exfalso. destruct Hfree as [Hfree|Hfree]; [congruence|]. apply H4 in Hfree. congruence.
Qed.

Lemma test_inv s : mutex_inv s → owner (mtx s) ≠ Some (current_process (mk s)) →
  (lock (mtx s) = true → (0 < current_process (mk s))%nat) →
  ∃ s', mutex_lock_test s = Ok (tt, s') ∧ mutex_inv s'.
Proof.
  intros Hs Ho Hc. set (c := current_process (mk s)) in *. unfold mutex_lock_test.
  change ((gets ?f ≫= ?m) s) with (m (f s) s). cbv beta.
  destruct (lock (mtx s)) eqn:Hl.
  - destruct Hs as [H1 H2 H3 H4 H5].
    destruct (sleep_other (mk s) addr PROC_SLEEP_INTERRUPTIBLE H1) as (sw & k' & R & W & C & Hw).
    { fold c. split; [by apply Hc|done]. }
    { by left. }
    exists (s <| pc ::= <[c := InLoop]> |> <| mk := k' |>). split.
    { set (s1 := s <| pc ::= <[c := InLoop]> |>).
      change (set_pc InLoop ;; in_kernel (sleep addr PROC_SLEEP_INTERRUPTIBLE) ;; mret tt)
        with ((modify (λ s, s <| pc ::= <[current_process (mk s) := InLoop]> |>)) ;;
          in_kernel (sleep addr PROC_SLEEP_INTERRUPTIBLE) ;; (mret tt : M mstate unit)).
      change ((modify ?f ;; ?m) s) with (m (f s)). cbv beta. fold c s1.
      by rewrite (bind_ok _ _ s1 sw _ (in_kernel_ok _ s1 _ _ R)). }
    split; rec_simpl; [done|done|exact H3|..].
    + intros j. destruct (decide (c = j)) as [<-|Hne]; [|by rewrite fn_insert_ne].
      rewrite fn_insert_eq. by split.
    + intros j Hj Hjw. destruct (Hw j Hj Hjw) as [[Hjw' Hne]|[-> _]].
      * rewrite fn_insert_ne by (fold c in Hne; congruence). split; [|done]. by apply H5.
      * fold c. by rewrite fn_insert_eq.
  - destruct (take_inv s Hs) as (s' & R & I & _); [by left|]. by exists s'.
Qed.

Lemma mutex_lock_ok s : mutex_inv s → 
  (mutex_locked s = true → (0 < current_process (mk s))%nat) →
  ∃ s', mutex_lock s = Ok (tt, s') ∧ mutex_inv s'.
Proof.
  intros Hs Hc. set (c := current_process (mk s)) in *. unfold mutex_lock.
  change ((gets ?f ≫= ?m) s) with (m (f s) s). cbv beta.
  change ((gets ?f ≫= ?m) s) with (m (f s) s). cbv beta.
  assert (bool_decide (owner (mtx s) = None) && lock (mtx s) = false) as ->.
  { rewrite (mi_lock _ Hs). by destruct (owner (mtx s)). }
  set (s1 := s <| mk ::= λ k, k <| k_cpu ::= λ c,
      c <| kernel_eflags ::= <[cpu_state c := intr c]> |> <| intr := false |> |> |>).
  assert (R1 : in_kernel disable_intr s = Ok (tt, s1)) by done.
  rewrite (bind_ok _ _ _ _ _ R1).
  assert (I1 : mutex_inv s1).
  { apply (quiet_kernel_inv s); [done|]. apply cpu_quiet; apply Hs. }
  case_bool_decide as Ho.
  - apply test_inv; [done|done|]. intros Hl. apply Hc. unfold mutex_locked.
    change (lock (mtx s)) with (lock (mtx s1)). rewrite Hl. by apply bool_decide_eq_true.
  - destruct (decide (owner (mtx s) = Some c)) as [Ho'|]; [|done].
    destruct (take_inv s1 I1) as (s' & R & I & _); [by right|]. by exists s'.
Qed.

Lemma mutex_resume_ok s : mutex_inv s → pc s (current_process (mk s)) = InLoop →
  (mutex_locked s = true → (0 < current_process (mk s))%nat) →
  ∃ s', mutex_lock_resume s = Ok (tt, s') ∧ mutex_inv s'.
Proof.
  intros Hs Hpc Hc. unfold mutex_lock_resume.
  set (s1 := s <| mk ::= λ k, k <| k_cpu ::= λ c,
      c <| intr := (intr c || kernel_eflags c (cpu_state c))%bool |> |> |>).
  assert (R1 : in_kernel resume s = Ok (tt, s1)) by done.
  rewrite (bind_ok _ _ _ _ _ R1).
  assert (Ho : owner (mtx s) ≠ Some (current_process (mk s))).
  { intros Ho. apply (mi_owner _ Hs) in Ho. congruence. }
  apply test_inv.
  - apply (quiet_kernel_inv s); [done|]. apply cpu_quiet; apply Hs.
  - done.
  - intros Hl. apply Hc. unfold mutex_locked.
    change (lock (mtx s)) with (lock (mtx s1)). rewrite Hl. by apply bool_decide_eq_true.
Qed.

Lemma mutex_unlock_ok s : mutex_inv s → pc s (current_process (mk s)) = Holding →
  ∃ s', mutex_unlock s = Ok (tt, s') ∧ mutex_inv s' ∧
    mtx s' = MkMutex false None ∧ pc s' = <[current_process (mk s) := Outside]> (pc s) ∧
    ∀ j, (j < NR_PROC)%nat → wakes addr (process_table (mk s') j) = false.
Proof.
  intros Hs Hpc. set (c := current_process (mk s)) in *. unfold mutex_unlock.
  set (s1 := s <| mk ::= λ k, k <| k_cpu ::= λ c,
      c <| kernel_eflags ::= <[cpu_state c := intr c]> |> <| intr := false |> |> |>).
  assert (R1 : in_kernel disable_intr s = Ok (tt, s1)) by done.
  rewrite (bind_ok _ _ _ _ _ R1).
  set (s2 := s1 <| mtx := MkMutex false None |> <| pc ::= <[c := Outside]> |>).
  change ((modify ?f ;; set_pc Outside ;; ?m) s1) with (m s2).
  destruct (cpu_quiet (mk s) (λ c, c <| kernel_eflags ::= <[cpu_state c := intr c]> |>
    <| intr := false |>) (mi_wf _ Hs) (mi_cur _ Hs)) as (W1 & C1 & _).
  destruct (wakeup_sleepers (mk s2) addr WAKEUP_SWITCH W1 C1) as (sw & k' & R & Q & Hn).
  rewrite (bind_ok _ _ s2 sw _ (in_kernel_ok _ s2 _ _ R)).
  assert (Hk' : ∃ k'', when (negb sw) (in_kernel enable_intr) (s2 <| mk := k' |>) =
    Ok (tt, s2 <| mk := k'' |>) ∧ sched_wf k'' ∧ (current_process k'' < NR_PROC)%nat ∧
    process_table k'' = process_table k').
  { destruct Q as (W & C & _). destruct sw; simpl; [by exists k'|].
    eexists. split; [reflexivity|]. split; [|done]. by apply (cpu_quiet k'). }
  destruct Hk' as (k'' & R'' & W'' & C'' & P''). exists (s2 <| mk := k'' |>).
  split; [done|]. assert (Hnone : ∀ j, (j < NR_PROC)%nat → wakes addr (process_table k'' j) = false).
  { rewrite P''. by apply Hn. }
  split; [|done]. destruct Hs as [H1 H2 H3 H4 H5].
  split; rec_simpl; [done|done|done| |].
  - intros j. unfold s2, s1. rec_simpl. destruct (decide (c = j)) as [<-|Hne].
    + by rewrite fn_insert_eq.
    + rewrite fn_insert_ne, H4 by done. apply H4 in Hpc. rewrite Hpc. cbn [owner]. split; [by intros [=]|done].
  - intros j Hj Hw. by rewrite Hnone in Hw.
Qed.
End operations.

(** ** Properties *)

Lemma initial_inv addr s : initial addr s → mutex_inv addr s.
Proof.
  intros [H1 H2 H3 H4 H5]. split; [done|done|by rewrite H3|..].
  - intros j. rewrite H3, H4. done.
  - intros j Hj Hw. by rewrite H5 in Hw.
Qed.

Lemma idle_sleep_panics a type k : current_process k = 0%nat →
  sleep a type k = Panic "Trying to sleep on first process".
Proof.
  intros Hc. unfold sleep. change (disable_intr ≫= ?m) with (modify (λ k, k <| k_cpu ::= λ c,
    c <| kernel_eflags ::= <[cpu_state c := intr c]> |> <| intr := false |> |>) ≫= m).
  krun. rec_simpl. by rewrite Hc.
Qed.

(** The test of the loop only returns on process 0 when the mutex is free. *)
Lemma test_idle addr s s' : mutex_lock_test addr s = Ok (tt, s') → lock (mtx s) = true →
  (0 < current_process (mk s))%nat.
Proof.
  unfold mutex_lock_test. change ((gets ?f ≫= ?m) s) with (m (f s) s). cbv beta.
  intros HR Hl. rewrite Hl in HR. apply bind_inv in HR as ([] & s1 & [= <-] & HR).
  apply bind_inv in HR as (sw & s2 & HR & _). unfold in_kernel in HR. rec_simpl.
  destruct (decide (current_process (mk s) = 0%nat)) as [E|]; [|lia].
  by rewrite idle_sleep_panics in HR.
Qed.

Lemma step_inv addr s s' : mutex_inv addr s → step addr s s' → mutex_inv addr s'.
Proof.
  intros Hs Hstep. destruct Hstep as [Hp HR|Hp HR|Hp HR|a type sw Ha Hp Ht Hc HR|a mode sw Ha HR|sw HR].
  - destruct (mutex_lock_ok addr s Hs) as (s2 & R & I); [|congruence].
    unfold mutex_locked. intros [Hl Ho]%andb_true_iff. revert HR. unfold mutex_lock.
    do 2 (change ((gets ?f ≫= ?m) s) with (m (f s) s); cbv beta).
    rewrite Ho. destruct (_ && _); [done|]. intros (? & s1 & [= <- <-] & HR)%bind_inv.
    by apply test_idle in HR.
  - destruct (mutex_resume_ok addr s Hs Hp) as (s2 & R & I); [|congruence].
    unfold mutex_locked. intros [Hl Ho]%andb_true_iff. revert HR. unfold mutex_lock_resume.
    intros (? & s1 & [= <- <-] & HR)%bind_inv. by apply test_idle in HR.
  - destruct (mutex_unlock_ok addr s Hs Hp) as (s2 & R & I & _). congruence.
  - apply in_kernel_inv in HR as (k' & HR & ->). pose proof Hs as [H1 H2 _ _ _].
    destruct (sleep_other addr (mk s) a type H1 ltac:(lia) Ht) as (sw' & k2 & R & W & C & Hw).
    rewrite R in HR. injection HR as _ ->. apply quiet_kernel_inv; [done|].
    split; [done|]. split; [done|]. intros j Hj Hjw.
    destruct (Hw j Hj Hjw) as [[? _]|[_ ?]]; done.
  - apply in_kernel_inv in HR as (k' & HR & ->).
    destruct (wakeup_sleepers addr (mk s) a mode) as (sw' & k2 & R & Q & _); [apply Hs..|].
    rewrite R in HR. injection HR as _ ->. by apply quiet_kernel_inv.
  - apply in_kernel_inv in HR as (k' & HR & ->).
    destruct (tick_quiet addr (mk s)) as (sw' & k2 & R & Q); [apply Hs..|].
    rewrite R in HR. injection HR as _ ->. by apply quiet_kernel_inv.
Qed.

Lemma reachable_inv addr s0 s : initial addr s0 → reachable addr s0 s → mutex_inv addr s.
Proof.
  intros H0. induction 1 as [|s s' _ IH Hs]; [by apply initial_inv|by eapply step_inv].
Qed.

(** A system in which process 1 of the small kernel has just run [mutex_lock]. *)
Definition demo_init : mstate := MkMState Demo.k (MkMutex false None) (λ _, Outside).
Definition demo_locked : mstate :=
  match mutex_lock 4096 demo_init with Ok (_, s) => s | _ => demo_init end.

Lemma demo_initial : initial 4096 demo_init.
Proof.
  split; [apply Demo.wf|by apply (bool_decide_unpack _); vm_compute|done|done|].
  intros j Hj. simpl. destruct (decide (j ≤ 2)%nat).
  - destruct j as [|[|[|j]]]; [by vm_compute..|lia].
  - change (wakes 4096 (process_table Demo.k j) = false). by rewrite Demo.table_other by lia.
Qed.
Lemma demo_reachable : reachable 4096 demo_init demo_locked.
Proof. eapply reach_step; [apply reach_init|]. by apply step_lock. Qed.

(** C2: mutual exclusion. However the processes of a well formed system interleave their
    [mutex_lock], [mutex_unlock], sleeps, wake-ups and timer interrupts, at most one of
    them has returned from [mutex_lock] and not called [mutex_unlock]; it is the recorded
    owner, and the mutex is locked exactly when there is one. *)
Theorem mutex_mutual_exclusion addr s0 s : initial addr s0 → reachable addr s0 s →
  (∀ i j, pc s i = Holding → pc s j = Holding → i = j) ∧
  (∀ i, pc s i = Holding ↔ owner (mtx s) = Some i) ∧
  (lock (mtx s) = true ↔ ∃ i, pc s i = Holding).
Proof.
  intros H0 Hr. pose proof (reachable_inv _ _ _ H0 Hr) as [_ _ H3 H4 _]. split; [|split; [done|]].
  - intros i j Hi%H4 Hj%H4. congruence.
  - rewrite H3, bool_decide_eq_true. unfold is_Some. by setoid_rewrite H4.
Qed.
Lemma mutex_mutual_exclusion_witness :
  pc demo_locked 1 = Holding ∧ ∀ i, pc demo_locked i = Holding ↔ owner (mtx demo_locked) = Some i.
Proof.
  split; [by vm_compute|].
  apply (mutex_mutual_exclusion 4096 demo_init demo_locked demo_initial demo_reachable).
Defined.

(** C38: no lost wake-up. In every reachable state a process asleep on the mutex waits
    inside [mutex_lock] while some other process holds it; when the holder unlocks, the
    call succeeds, the mutex is free and nobody is left asleep on it. *)
Theorem mutex_no_lost_wakeup addr s0 s : initial addr s0 → reachable addr s0 s →
  (∀ j, (j < NR_PROC)%nat → wakes addr (process_table (mk s) j) = true →
     pc s j = InLoop ∧ ∃ i, i ≠ j ∧ pc s i = Holding) ∧
  (pc s (current_process (mk s)) = Holding →
   ∃ s', mutex_unlock addr s = Ok (tt, s') ∧ lock (mtx s') = false ∧ owner (mtx s') = None ∧
     (∀ j, (j < NR_PROC)%nat → wakes addr (process_table (mk s') j) = false) ∧
     ∀ i, pc s' i ≠ Holding).
Proof.
  intros H0 Hr. pose proof (reachable_inv _ _ _ H0 Hr) as Hs. pose proof Hs as [_ _ H3 H4 H5]. split.
  - intros j Hj Hw. destruct (H5 j Hj Hw) as [Hpc Hl]. split; [done|].
    rewrite Hl in H3. symmetry in H3. apply bool_decide_eq_true in H3 as [i Hi].
    apply H4 in Hi. exists i. split; [congruence|done].
  - intros Hpc. destruct (mutex_unlock_ok addr s Hs Hpc) as (s' & R & I & Hm & _ & Hn).
    exists s'. split; [done|]. rewrite Hm. split; [done|]. split; [done|]. split; [done|].
    intros i Hi. apply (mi_owner _ _ I) in Hi. by rewrite Hm in Hi.
Qed.
Lemma mutex_no_lost_wakeup_witness :
  pc demo_locked (current_process (mk demo_locked)) = Holding ∧
  ∃ s', mutex_unlock 4096 demo_locked = Ok (tt, s') ∧ lock (mtx s') = false.
Proof.
  split; [by vm_compute|].
  destruct (mutex_no_lost_wakeup 4096 demo_init demo_locked demo_initial demo_reachable) as [_ H].
  destruct H as (s' & H1 & H2 & _); [by vm_compute|]. by exists s'.
Defined.

(** [mutex_lock] never finds the mutex corrupt and never panics, except that the idle
    process must not wait: in a reachable state it returns (the caller holds the mutex) or
    sleeps (the caller waits in the loop), for any other process. *)
Theorem mutex_lock_never_panics addr s0 s : initial addr s0 → reachable addr s0 s →
  (mutex_locked s = true → (0 < current_process (mk s))%nat) →
  ∃ s', mutex_lock addr s = Ok (tt, s') ∧ mutex_inv addr s'.
Proof. intros H0 Hr. apply mutex_lock_ok. by eapply reachable_inv. Qed.
Lemma mutex_lock_never_panics_witness :
  mutex_locked demo_locked = false ∧ is_ok (mutex_lock 4096 demo_locked) = true.
Proof.
  split; [by vm_compute|].
  destruct (mutex_lock_never_panics 4096 demo_init demo_locked demo_initial demo_reachable)
    as (s' & -> & _); [by vm_compute; lia|done].
Defined.
