(* ===== verification/Signal.v ===== *)
(** Signals (sys/kernel/signal.c): the default actions, [signal], [kill], [alarm] and
    [pause]. Delivery, which may end the process, is in Life.v. *)
From S2P Require Import Prelude DList Proc Sched.

(** ** Operations *)

Definition signal_init (signal : Z) (action : sig_def_action) : K unit :=
  if signal =? 0 then mret tt
  else modify (λ k, k <| signal_table ::= <[Z.to_nat (signal - 1) := action]> |>).

Definition SIGHUP : Z := 1.
Definition SIGINT : Z := 2.
Definition SIGQUIT : Z := 3.
Definition SIGILL : Z := 4.
Definition SIGTRAP : Z := 5.
Definition SIGABRT : Z := 6.
Definition SIGBUS : Z := 7.
Definition SIGFPE : Z := 8.
Definition SIGKILL : Z := 9.
Definition SIGCHLD : Z := 10.
Definition SIGSEGV : Z := 11.
Definition SIGCONT : Z := 12.
Definition SIGPIPE : Z := 13.
Definition SIGTERM : Z := 15.
Definition SIGPOLL : Z := 16.
Definition SIGPROF : Z := 17.
Definition SIGSTOP : Z := 18.
Definition SIGSYS : Z := 19.
Definition SIGTSTP : Z := 20.
Definition SIGTTIN : Z := 21.
Definition SIGTTOU : Z := 22.
Definition SIGUSR1 : Z := 23.
Definition SIGUSR2 : Z := 24.
Definition SIGURG : Z := 25.
Definition SIGVTALRM : Z := 26.
Definition SIGXCPU : Z := 27.
Definition SIGXFSZ : Z := 28.
Definition SIGWINCH : Z := 29.

Definition signals_init : K unit :=
  signal_init SIGBUS SIGACTION_A ;; signal_init SIGCHLD SIGACTION_I ;;
  signal_init SIGCONT SIGACTION_C ;; signal_init SIGPOLL SIGACTION_T ;;
  signal_init SIGPROF SIGACTION_T ;; signal_init SIGSTOP SIGACTION_S ;;
  signal_init SIGSYS SIGACTION_A ;; signal_init SIGTSTP SIGACTION_S ;;
  signal_init SIGTTIN SIGACTION_S ;; signal_init SIGTTOU SIGACTION_S ;;
  signal_init SIGUSR1 SIGACTION_T ;; signal_init SIGUSR2 SIGACTION_T ;;
  signal_init SIGURG SIGACTION_I ;; signal_init SIGVTALRM SIGACTION_T ;;
  signal_init SIGXCPU SIGACTION_A ;; signal_init SIGXFSZ SIGACTION_A ;;
  signal_init SIGWINCH SIGACTION_I ;; signal_init SIGHUP SIGACTION_T ;;
  signal_init SIGINT SIGACTION_T ;; signal_init SIGQUIT SIGACTION_A ;;
  signal_init SIGILL SIGACTION_A ;; signal_init SIGTRAP SIGACTION_A ;;
  signal_init SIGABRT SIGACTION_A ;; signal_init SIGFPE SIGACTION_A ;;
  signal_init SIGKILL SIGACTION_T ;; signal_init SIGSEGV SIGACTION_A ;;
  signal_init SIGPIPE SIGACTION_T ;; signal_init SIGALRM SIGACTION_T ;;
  signal_init SIGTERM SIGACTION_T.

Definition sig_permission (sender target : process) : bool :=
  (p_uid sender =? p_suid target) || (p_uid sender =? p_uid target)
  || (p_euid sender =? p_suid target) || (p_euid sender =? p_uid target).

Definition send_signal (target : nat) (sig : Z) : K Z :=
  s ← gets cur;
  t ← gets (λ k, process_table k target);
  if negb (sig_permission s t) then mret (- EPERM)
  else
    when ((sig =? SIGKILL) || (negb (sig =? 0) && negb (bool_decide (p_state t = PROC_STOPPED))))
      (upd_proc target (λ p, p <| p_sigpending ::= λ b, bit_set b (sig - 1) |>)) ;;
    mret 0.

(** The loops of [kernel_kill]: the counts of eligible processes and of refusals. *)
Fixpoint kill_loop (P : kernel → nat → bool) (sig : Z) (l : list nat) (eligible noperm : Z) : K (Z * Z) :=
  match l with
  | [] => mret (eligible, noperm)
  | i :: l =>
      b ← gets (λ k, P k i);
      if b : bool then
        r ← send_signal i sig;
        kill_loop P sig l (eligible + 1) (if r =? - EPERM then noperm + 1 else noperm)
      else kill_loop P sig l eligible noperm
  end.

Definition alive (p : process) : bool := negb (bool_decide (p_state p = PROC_EXITED)).
Definition not_current (k : kernel) (i : nat) : bool := negb (bool_decide (i = current_process k)).
Definition same_group (k : kernel) (i : nat) : bool :=
  pgid (p_pgrp (process_table k i)) =? pgid (p_pgrp (cur k)).

(** For [pid < -1] the code compares process ids and the caller's own group, not the
    group [-pid]. *)
Definition kill_eligible (pid : Z) (k : kernel) (i : nat) : bool :=
  let p := process_table k i in
  if pid =? 0 then alive p && same_group k i && not_current k i
  else if pid =? -1 then alive p && negb (p_pid p =? 1) && not_current k i
  else alive p && same_group k i && not_current k i && (p_pid p =? - pid).

Definition kernel_kill (pid sig : Z) : K Z :=
  if (sig <? 0) || (NSIG <? sig) then mret (- EINVAL)
  else if 0 <? pid then
    if pid <? Z.of_nat NR_PROC then send_signal (Z.to_nat pid) sig
    else undef "process_table index out of range"
  else
    c ← kill_loop (kill_eligible pid) sig all_procs 0 0;
    let '(eligible, noperm) := c in
    if eligible =? 0 then mret (- ESRCH)
    else if noperm =? eligible then mret (- EPERM)
    else mret 0.

Definition _do_signal (sig : Z) (handler : sighandler) (restorer : Z) : K sighandler :=
  if (sig <? 1) || (NSIG <? sig) then mret SIG_ERR
  else if ((sig =? SIGKILL) || (sig =? SIGSTOP)) && bool_decide (handler = SIG_IGN) then mret SIG_ERR
  else
    old ← gets (λ k, p_sighandlers (cur k) (Z.to_nat (sig - 1)));
    upd_cur (λ p, p <| p_sighandlers ::= <[Z.to_nat (sig - 1) := handler]> |>) ;;
    upd_cur (λ p, p <| p_sigrestorer := restorer |>) ;;
    mret old.

(** The null pointer that [kernel_signal] returns for other handlers is [SIG_DFL]. *)
Definition kernel_signal (sig : Z) (handler : sighandler) : K sighandler :=
  if bool_decide (handler ≠ SIG_DFL) && bool_decide (handler ≠ SIG_IGN) then mret SIG_DFL
  else _do_signal sig handler 0.

Definition kernel_alarm (seconds : Z) : K Z :=
  old ← gets (λ k, p_alarm (cur k));
  t ← gets timer_ticks;
  upd_cur (λ p, p <| p_alarm := u32 (t + seconds * HZ) |>) ;;
  mret (u32 (old - t) / HZ).

(** The result tells, as for [sleep], whether another process runs; if so the rest of the
    function runs when this process is chosen again. *)
Definition kernel_pause : K Z :=
  disable_intr ;;
  c ← gets current_process;
  upd_cur (λ p, p <| p_state := PROC_SLEEP_INTERRUPTIBLE |>) ;;
  adjust_proc_queues c ;;
  switched ← schedule;
  when (negb switched) enable_intr ;;
  mret (- EINTR).

(** ** Signals are only marked *)

(** [k'] is [k] except for the pending signals of the processes. *)
Record only_pending (k k' : kernel) : Prop := {
  op_current : current_process k' = current_process k;
  op_queues : process_queues k' = process_queues k;
  op_ticks : timer_ticks k' = timer_ticks k;
  op_proc i : process_table k' i = (process_table k i) <| p_sigpending := p_sigpending (process_table k' i) |>
}.
#[export] Instance only_pending_preorder : PreOrder only_pending.
Proof.
  split.
  - intros k. split; [done..|]. intros i. by destruct (process_table k i).
  - intros k1 k2 k3 [H1 H2 H3 H4] [G1 G2 G3 G4]. split; [congruence..|]. intros i.
    rewrite G4, H4 at 1. rewrite G4. rec_simpl. done.
Qed.

Lemma send_signal_eq i sig k : send_signal i sig k =
  let s := cur k in let t := process_table k i in
  if negb (sig_permission s t) then Ok (- EPERM, k)
  else Ok (0, if (sig =? SIGKILL) || (negb (sig =? 0) && negb (bool_decide (p_state t = PROC_STOPPED)))
              then set_proc i (λ p, p <| p_sigpending ::= λ b, bit_set b (sig - 1) |>) k else k).
Proof.
  unfold send_signal. krun. cbv zeta. destruct (negb _); [done|].
  by destruct ((sig =? SIGKILL) || _).
Qed.
Lemma send_signal_pending i sig k r k' : send_signal i sig k = Ok (r, k') → only_pending k k'.
Proof.
  rewrite send_signal_eq. cbv zeta. destruct (negb (sig_permission _ _)).
  - by intros [= _ <-].
  - intros [= _ <-]. destruct (_ || _); [|done]. split; [done..|]. intros j.
    rewrite set_proc_lookup. case_decide; [subst; by rec_simpl|by destruct (process_table k j)].
Qed.
Lemma kill_loop_total P sig l : ∀ e n k, ∃ e' n' k',
  kill_loop P sig l e n k = Ok ((e', n'), k') ∧ only_pending k k'.
Proof.
  induction l as [|i l IH]; intros e n k; simpl; [by eexists _, _, _|]. krun.
  destruct (P k i); [|apply IH].
  destruct (send_signal i sig k) as [[r k1]| | |] eqn:Hs;
    [|rewrite send_signal_eq in Hs; cbv zeta in Hs; by case_match..].
  rewrite (bind_ok _ _ _ _ _ Hs). destruct (IH (e + 1) (if r =? - EPERM then n + 1 else n) k1)
    as (e' & n' & k' & R & H). exists e', n', k'. split; [done|].
  by transitivity k1; [eapply send_signal_pending|].
Qed.
Lemma kernel_kill_pending pid sig k r k' : kernel_kill pid sig k = Ok (r, k') → only_pending k k'.
Proof.
  unfold kernel_kill. destruct (_ || _); [by intros [= _ <-]|]. destruct (0 <? pid).
  - destruct (pid <? _); [|done]. apply send_signal_pending.
  - destruct (kill_loop_total (kill_eligible pid) sig all_procs 0 0 k) as (e & n & k1 & R & H).
    rewrite (bind_ok _ _ _ _ _ R). repeat case_match; by intros [= _ <-].
Qed.

Lemma send_signal_rest i sig : keeps_rest (send_signal i sig).
Proof. unfold send_signal. keeps_rest. Qed.
Lemma kill_loop_rest P sig l : ∀ e n, keeps_rest (kill_loop P sig l e n).
Proof.
  induction l as [|i l IH]; intros e n; cbn [kill_loop]; [auto with yak|].
  pose proof send_signal_rest. keeps_rest.
Qed.
Lemma kernel_kill_rest pid sig : keeps_rest (kernel_kill pid sig).
Proof. pose proof send_signal_rest. pose proof kill_loop_rest. unfold kernel_kill. keeps_rest. Qed.

(** Pending signals do not matter to the queues. *)
Lemma only_pending_links k k' : only_pending k k' → same_links k k'.
Proof. intros [H1 H2 H3 H4]. split; [done|intros; unfold q_next, q_prev; by rewrite H4..]. Qed.
Lemma only_pending_sched k k' ls : only_pending k k' → sched_inv k ls → sched_inv k' ls.
Proof.
  intros H. apply sched_inv_same_links; [by apply only_pending_links|]. intros i. by rewrite (op_proc _ _ H).
Qed.

(** ** Properties *)

(** The default actions of POSIX for the signals the kernel knows. *)
Definition posix_action (sig : Z) : sig_def_action :=
  if existsb (Z.eqb sig) [SIGQUIT; SIGILL; SIGTRAP; SIGABRT; SIGBUS; SIGFPE; SIGSEGV; SIGSYS; SIGXCPU; SIGXFSZ]
  then SIGACTION_A
  else if existsb (Z.eqb sig) [SIGCHLD; SIGURG; SIGWINCH] then SIGACTION_I
  else if existsb (Z.eqb sig) [SIGSTOP; SIGTSTP; SIGTTIN; SIGTTOU] then SIGACTION_S
  else if sig =? SIGCONT then SIGACTION_C else SIGACTION_T.

(** Entry [sig - 1] of the table is the action of signal [sig]. *)
Lemma signals_init_actions k : ∃ k', signals_init k = Ok (tt, k') ∧
  ∀ sig, 1 <= sig <= 29 → signal_table k' (Z.to_nat (sig - 1)) = posix_action sig.
Proof.
  eexists. split; [reflexivity|]. intros sig Hs.
  assert (Hin : sig ∈ (Z.of_nat <$> seq 1 29)).
  { apply list_elem_of_fmap. exists (Z.to_nat sig). rewrite seq_elem. lia. }
  vm_compute in Hin. repeat (apply elem_of_cons in Hin as [->|Hin]; [by vm_compute|]).
  by apply elem_of_nil in Hin.
Qed.

(** Sending a signal to one process. Without permission (no user id of the sender is
    the real or saved one of the target) the call fails with [EPERM] and changes nothing;
    with it, exactly the bit of the signal is set, except that signal 0 and, for a stopped
    process, every signal but [SIGKILL] leave no mark. *)
Theorem kill_one_process k pid sig : 0 < pid < Z.of_nat NR_PROC → 0 <= sig <= NSIG →
  let i := Z.to_nat pid in let t := process_table k i in
  let marked := (sig =? SIGKILL) || (negb (sig =? 0) && negb (bool_decide (p_state t = PROC_STOPPED))) in
  ∃ k', kernel_kill pid sig k = Ok ((if sig_permission (cur k) t then 0 else - EPERM), k') ∧
    (sig_permission (cur k) t = false → k' = k) ∧
    (∀ j, j ≠ i → process_table k' j = process_table k j) ∧
    (∀ b, 0 <= b < NSIG → Z.testbit (p_sigpending (process_table k' i)) b =
       (sig_permission (cur k) t && marked && bool_decide (b = sig - 1))
       || Z.testbit (p_sigpending t) b).
Proof.
  intros Hp Hs i t marked. unfold kernel_kill.
  rewrite (proj2 (Z.ltb_ge sig 0)), (proj2 (Z.ltb_ge NSIG sig)) by lia. cbn [orb].
  rewrite (proj2 (Z.ltb_lt 0 pid)), (proj2 (Z.ltb_lt pid _)) by lia.
  rewrite send_signal_eq. cbv zeta. fold i t. destruct (sig_permission (cur k) t); cbn [negb].
  - eexists. split; [reflexivity|]. split; [done|]. fold marked. destruct marked eqn:Hm; simpl.
    + assert (1 <= sig).
      { destruct (decide (sig = 0)) as [->|]; [done|lia]. }
      split; [intros; by rewrite fn_insert_ne|]. intros b Hb. rewrite fn_insert_eq. rec_simpl.
      by rewrite bit_set_spec by lia.
    + split; done.
  - exists k. done.
Qed.
Lemma kill_one_process_witness :
  ∃ k', kernel_kill 2 SIGTERM Demo.k = Ok (0, k') ∧ Z.testbit (p_sigpending (process_table k' 2)) 14 = true.
Proof.
  destruct (kill_one_process Demo.k 2 SIGTERM) as (k' & H1 & _ & _ & H2); [done|done|].
  exists k'. split; [exact H1|]. by rewrite H2.
Defined.

(** The two signals that cannot be caught or ignored. *)
Definition kill_stop_default (p : process) : Prop :=
  p_sighandlers p (Z.to_nat (SIGKILL - 1)) = SIG_DFL ∧ p_sighandlers p (Z.to_nat (SIGSTOP - 1)) = SIG_DFL.

(** no sequence of [signal] calls changes the action of [SIGKILL] or [SIGSTOP], and
    the call returns the previous action of the others. *)
Theorem signal_keeps_kill_and_stop sig handler k r k' :
  kill_stop_default (cur k) → kernel_signal sig handler k = Ok (r, k') →
  kill_stop_default (cur k') ∧
  (1 <= sig <= NSIG → handler = SIG_DFL ∨ handler = SIG_IGN → sig ≠ SIGKILL → sig ≠ SIGSTOP →
     r = p_sighandlers (cur k) (Z.to_nat (sig - 1)) ∧
     p_sighandlers (cur k') (Z.to_nat (sig - 1)) = handler).
Proof.
  intros [Hk Hs] Hr. unfold kernel_signal in Hr.
  destruct (bool_decide (handler ≠ SIG_DFL) && bool_decide (handler ≠ SIG_IGN)) eqn:Hh.
  { injection Hr as <- <-. split; [done|]. apply andb_true_iff in Hh as [H1%bool_decide_eq_true H2%bool_decide_eq_true].
    naive_solver. }
  unfold _do_signal in Hr. destruct ((sig <? 1) || (NSIG <? sig)) eqn:Hrange.
  { injection Hr as <- <-. split; [done|]. apply orb_true_iff in Hrange as [?%Z.ltb_lt|?%Z.ltb_lt]; lia. }
  apply orb_false_iff in Hrange as [?%Z.ltb_ge ?%Z.ltb_ge].
  destruct (((sig =? SIGKILL) || (sig =? SIGSTOP)) && bool_decide (handler = SIG_IGN)) eqn:Hks.
  { injection Hr as <- <-. split; [done|].
    apply andb_true_iff in Hks as [[?%Z.eqb_eq|?%Z.eqb_eq]%orb_true_iff _]; naive_solver. }
  injection Hr as <- <-. set (k1 := set_proc _ _ (set_proc _ _ k)).
  assert (Hk1 : p_sighandlers (cur k1) = <[Z.to_nat (sig - 1) := handler]> (p_sighandlers (cur k))).
  { unfold k1, cur. by rewrite !set_proc_current, !set_proc_eq. }
  unfold kill_stop_default. rewrite Hk1. split; [|by rewrite fn_insert_eq].
  assert (Hdfl : sig = SIGKILL ∨ sig = SIGSTOP → handler = SIG_DFL).
  { intros [-> | ->]; simpl in Hks; destruct handler; done. }
  split.
  - destruct (decide (Z.to_nat (sig - 1) = Z.to_nat (SIGKILL - 1))) as [E|E].
    + rewrite E, fn_insert_eq. apply Hdfl. left. unfold SIGKILL in *. lia.
    + by rewrite fn_insert_ne.
  - destruct (decide (Z.to_nat (sig - 1) = Z.to_nat (SIGSTOP - 1))) as [E|E].
    + rewrite E, fn_insert_eq. apply Hdfl. right. unfold SIGSTOP in *. lia.
    + by rewrite fn_insert_ne.
Qed.
Lemma signal_keeps_kill_and_stop_witness :
  ∃ k', kernel_signal SIGTERM SIG_IGN Demo.k = Ok (SIG_DFL, k') ∧ kill_stop_default (cur k').
Proof.
  eexists. split; [reflexivity|].
  by eapply (signal_keeps_kill_and_stop SIGTERM SIG_IGN Demo.k).
Defined.

(** *** Stopped processes *)

(** What the other processes and the timer can do. *)
Inductive event (k k' : kernel) : Prop :=
  | ev_kill pid sig r : kernel_kill pid sig k = Ok (r, k') → event k k'
  | ev_tick sw : timer_driver_irq_handler false k = Ok (sw, k') → event k k'
  | ev_sleep addr type sw : sleeping_type type → (0 < current_process k)%nat →
      sleep addr type k = Ok (sw, k') → event k k'
  | ev_wakeup addr mode sw : wakeup addr mode k = Ok (sw, k') → event k k'.
Inductive events (k : kernel) : kernel → Prop :=
  | evs_nil : events k k
  | evs_cons k1 k2 : events k k1 → event k1 k2 → events k k2.

Record stopped (i : nat) (k : kernel) : Prop := {
  st_wf : sched_wf k;
  st_cur : (current_process k < NR_PROC)%nat;
  st_other : current_process k ≠ i;
  st_state : p_state (process_table k i) = PROC_STOPPED;
  st_tty : p_tty_block (process_table k i) = NO_TTY_BLOCK
}.

Lemma stopped_not_runnable p : p_state p = PROC_STOPPED → runnable p = false.
Proof. unfold runnable. by intros ->. Qed.

(** The scheduler leaves a stopped process as it is: not even a pending signal wakes it. *)
Lemma stopped_effect t p : p_state p = PROC_STOPPED → p_tty_block p = NO_TTY_BLOCK →
  p_state (schedule_effect t p) = PROC_STOPPED ∧ p_tty_block (schedule_effect t p) = NO_TTY_BLOCK.
Proof.
  intros Hs Ht. unfold schedule_effect. set (p1 := expire_alarm t p).
  assert (p_state p1 = PROC_STOPPED ∧ p_tty_block p1 = NO_TTY_BLOCK) as [Hs1 Ht1].
  { unfold p1, expire_alarm. by case_match. }
  assert (expire_tty t p1 = p1) as -> by (unfold expire_tty, tty_expired; by rewrite Ht1).
  unfold wake_signalled, signalled. by rewrite Hs1.
Qed.

(** The table is that of a choice of [schedule] from [T]. *)
Lemma stopped_ran i k k' t T : stopped i k → sched_wf k' → chosen k' (current_process k') →
  (∀ j, strip (process_table k' j) = strip (ran (looped t T) (current_process k') j)) →
  p_state (T i) = PROC_STOPPED → p_tty_block (T i) = NO_TTY_BLOCK →
  runnable (looped t T (current_process k')) = true → stopped i k'.
Proof.
  intros Hst Hwf (Hc & Hrun & _) HT Hs Htty Hr.
  assert (HE : p_state (looped t T i) = PROC_STOPPED ∧ p_tty_block (looped t T i) = NO_TTY_BLOCK).
  { unfold looped. case_decide; [by apply stopped_effect|done]. }
  assert (Hne : current_process k' ≠ i).
  { intros E. rewrite E in Hr. by rewrite (stopped_not_runnable _ (proj1 HE)) in Hr. }
  split; [done..| |].
  - change (p_state (strip (process_table k' i)) = PROC_STOPPED). rewrite HT. unfold ran.
    rewrite decide_False by congruence. apply HE.
  - change (p_tty_block (strip (process_table k' i)) = NO_TTY_BLOCK). rewrite HT. unfold ran.
    rewrite decide_False by congruence. apply HE.
Qed.

Lemma stopped_tick i k sw k' : stopped i k → timer_driver_irq_handler false k = Ok (sw, k') → stopped i k'.
Proof.
  intros Hst HR. pose proof (st_wf _ _ Hst) as [ls Hinv].
  destruct (timer_ok k ls Hinv (st_cur _ _ Hst)) as (sw' & k2 & ls' & R & I & C & _ & _ & Hr & HT).
  rewrite R in HR. injection HR as _ ->.
  pose proof (st_other _ _ Hst) as Hne.
  eapply (stopped_ran i k); [done|by exists ls'|done|exact HT| |  |exact Hr];
    rewrite fn_insert_ne by done; apply Hst.
Qed.
Lemma stopped_sleep i k addr type sw k' : stopped i k → sleeping_type type →
  (0 < current_process k)%nat → sleep addr type k = Ok (sw, k') → stopped i k'.
Proof.
  intros Hst Hty Hc0 HR. pose proof (st_wf _ _ Hst) as [ls Hinv]. pose proof (st_cur _ _ Hst).
  destruct (sleep_ok k ls addr type Hinv) as (sw' & k2 & ls' & R & I & C & _ & HT & Hr & _); [lia|done|].
  rewrite R in HR. injection HR as _ ->. pose proof (st_other _ _ Hst) as Hne.
  eapply (stopped_ran i k); [done|by exists ls'|done|exact HT| |  |exact Hr];
    rewrite fn_insert_ne by done; apply Hst.
Qed.
Lemma woken_stopped addr T i : p_state (T i) = PROC_STOPPED → woken_table addr T i = T i.
Proof.
  intros Hs. unfold woken_table, woken, wakes, PROC_SLEEPING. rewrite Hs. simpl. by case_match.
Qed.
Lemma stopped_wakeup i k addr mode sw k' : stopped i k → wakeup addr mode k = Ok (sw, k') → stopped i k'.
Proof.
  intros Hst HR. pose proof Hst as [[ls Hinv] Hc Hne Hs Ht].
  destruct (wakeup_ok k ls addr mode Hinv) as (sw' & k2 & ls' & R & I & _ & HB).
  rewrite R in HR. injection HR as _ ->. cbv zeta in HB.
  assert (Hw : woken_table addr (process_table k) i = process_table k i) by (by apply woken_stopped).
  assert (Hsame : current_process k' = current_process k →
    (∀ j, strip (process_table k' j) = strip (woken_table addr (process_table k) j)) → stopped i k').
  { intros HC HT. specialize (HT i). rewrite Hw in HT. split; rewrite ?HC; [by exists ls'|done|done|..].
    - change (p_state (strip (process_table k' i)) = PROC_STOPPED). by rewrite HT.
    - change (p_tty_block (strip (process_table k' i)) = NO_TTY_BLOCK). by rewrite HT. }
  destruct mode; [|destruct (existsb (λ j, wakes addr (process_table k j)) all_procs)].
  1,3: destruct HB as (_ & HC & _ & HT); by apply Hsame.
  destruct HB as (C & _ & Hr & HT).
  eapply (stopped_ran i k); [done|by exists ls'|done|exact HT| | |exact Hr]; by rewrite Hw.
Qed.
Lemma stopped_kill i k pid sig r k' : stopped i k → kernel_kill pid sig k = Ok (r, k') → stopped i k'.
Proof.
  intros [[ls H] Hc Hne Hs Ht] HR%kernel_kill_pending. pose proof HR as [Hcur _ _ Hp].
  split; rewrite ?Hcur; [|done|done|by rewrite Hp..]. exists ls. by eapply only_pending_sched.
Qed.

(** A system whose second user process is stopped. *)
Definition stop_two : kernel :=
  match adjust_proc_queues 2 (set_proc 2 (λ p, p <| p_state := PROC_STOPPED |>) Demo.k) with
  | Ok (_, k) => k | _ => Demo.k
  end.
Lemma stop_two_stopped : stopped 2 stop_two.
Proof.
  destruct (sched_inv_adjust Demo.k Demo.ls 2 (λ p, p <| p_state := PROC_STOPPED |>))
    as (k' & R & _ & I); [apply Demo.inv|keeps_links|unfold NR_PROC; lia|done|].
  assert (stop_two = k') as E by (unfold stop_two; by rewrite R).
  split; [exists (<[1 := requeue false 2 (Demo.ls 1)]> Demo.ls); by rewrite E|..]; by apply (bool_decide_unpack _); vm_compute.
Qed.

(** a stopped process stays stopped. Whatever signals are sent, [SIGCONT] included,
    and however the other processes sleep, wake each other and are preempted, a process
    that is stopped (and is not in a terminal time-out) never runs again: [kernel_kill]
    does not mark signals on it, and the scheduler only looks at the pending signals of
    sleeping processes. *)
Theorem stopped_forever i k k' : stopped i k → events k k' → stopped i k'.
Proof.
  intros Hst He. induction He as [|k1 k2 _ IH Hev]; [done|].
  destruct Hev as [pid sig r HR|sw HR|addr type sw Ht Hc HR|addr mode sw HR].
  - by eapply stopped_kill.
  - by eapply stopped_tick.
  - by eapply stopped_sleep.
  - by eapply stopped_wakeup.
Qed.
Lemma stopped_forever_witness :
  match kernel_kill 2 SIGCONT stop_two with
  | Ok (r, k') => r = 0 ∧ p_state (process_table k' 2) = PROC_STOPPED
  | _ => False
  end.
Proof.
  destruct (kernel_kill 2 SIGCONT stop_two) as [[r k']| | |] eqn:Hr; [|by vm_compute in Hr..].
  split.
  - assert (match kernel_kill 2 SIGCONT stop_two with Ok (r, _) => r | _ => 1 end = 0) as Hv by (by vm_compute).
    by rewrite Hr in Hv.
  - apply (stopped_forever 2 stop_two k' stop_two_stopped).
    eapply evs_cons; [apply evs_nil|]. by eapply ev_kill.
Defined.

(** [alarm] without a pending alarm should return 0, and [alarm 0] should cancel. Here
    the first call returns the distance from the tick counter to 0, modulo 2^32 and in
    seconds, and [alarm 0] leaves an alarm that is due at the next tick. *)
Theorem alarm_without_pending k seconds : 0 < timer_ticks k < 2147483648 → p_alarm (cur k) = NO_ALARM →
  ∃ k', kernel_alarm seconds k = Ok ((4294967296 - timer_ticks k) / HZ, k') ∧
    (4294967296 - timer_ticks k) / HZ ≠ 0 ∧
    (seconds = 0 → alarm_expired (timer_ticks k + 1) (cur k') = true).
Proof.
  intros Ht Ha. unfold kernel_alarm. krun. rewrite Ha.
  change (upd_cur ?f ;; ?m) with (upd_cur f ;; m). eexists.
  assert (Hret : u32 (NO_ALARM - timer_ticks k) = 4294967296 - timer_ticks k).
  { unfold NO_ALARM, u32. lia. }
  rewrite Hret. split; [reflexivity|]. split; [unfold HZ; lia|]. intros ->.
  unfold cur. rewrite set_proc_current, set_proc_eq. unfold alarm_expired. rec_simpl.
  rewrite Z.add_0_r, u32_id by (unfold is_u32; lia).
  apply andb_true_iff. split; [apply negb_true_iff, Z.eqb_neq; unfold NO_ALARM; lia|apply Z.ltb_lt; lia].
Qed.
Lemma alarm_without_pending_witness :
  ∃ k', kernel_alarm 0 (Demo.k <| timer_ticks := 100 |>) = Ok (42949671, k').
Proof.
  destruct (alarm_without_pending (Demo.k <| timer_ticks := 100 |>) 0) as (k' & H & _); [done|done|].
  by exists k'.
Defined.
