(* ===== verification/Life.v ===== *)
(** The life of a process (sys/kernel/proc.c and the delivery of signals of
    sys/kernel/signal.c): [fork], [exit], [waitpid], [execve] and the actions of signals. *)
From S2P Require Import Prelude DList Proc Files Ids Sched Signal.

(** The architecture's part of a process (sys/arch/i386/processes.c,
    sys/arch/i386/virtual_mm.c): its address space, register context and program. *)
Class Arch (D : Type) := {
  arch_fork : Z → nat → M (kernel * D) Z;
  arch_exit : M (kernel * D) unit;
  arch_exec_elf : nat → Z → Z → Z → M (kernel * D) Z
}.
(** It leaves the kernel tables alone. *)
Class ArchLaws (D : Type) `{Arch D} := {
  arch_fork_keeps child proc s r s' : arch_fork child proc s = Ok (r, s') → fst s' = fst s;
  arch_exit_keeps s r s' : arch_exit s = Ok (r, s') → fst s' = fst s
}.

(** [get_free_proc] also sets [last_pid]. *)
Definition get_free_proc : K (option nat) :=
  i ← gets (λ k, find_proc exited k all_procs);
  match i with
  | Some i => modify (λ k, k <| last_pid := Z.of_nat i |>) ;; mret (Some i)
  | None => mret None
  end.

Section life.
Context {D : Type} `{DRV : FsDriver D} `{USP : UserSpace} `{ARCH : Arch D}.

(** [if (current_process->file_table[i] != NULL) current_process->file_table[i]->f_count++] *)
Definition share_file (i : nat) : M (kernel * D) unit :=
  e ← kget (λ k, p_file_table (cur k) i);
  match e with
  | None => mret tt
  | Some f => upd_file f (λ x, x <| f_count ::= λ n, n + 1 |>)
  end.

Definition init_child (p c : process) (pid : Z) : process :=
  c <| p_alarm := NO_ALARM |>
    <| p_priority := if p_priority p =? 0 then USER_PRIORITY else p_priority p |>
    <| p_quanta := PROC_QUANTA |> <| p_counter := PROC_QUANTA |>
    <| p_pid := pid |> <| p_ppid := p_pid p |> <| p_state := PROC_RUNNABLE |>
    <| p_queue_prev := None |> <| p_queue_next := None |>.

(** [schedule(); return last_pid;]: when another process has been chosen the parent is away, and
    reads [last_pid] only when it is chosen again: it then goes on with [fork_return]. The flag
    [was] is the one of its call of [schedule]. *)
Definition fork_end : M (kernel * D) (option Z) :=
  away ← in_kernel schedule;
  if away : bool then mret None else pid ← kget last_pid; mret (Some pid).
Definition fork_return (was : bool) : K Z := when was enable_intr ;; gets last_pid.

Definition kernel_fork : M (kernel * D) (option Z) :=
  proc ← in_kernel get_free_proc;
  match proc with
  | None => mret (Some (- EAGAIN))
  | Some proc =>
      p ← kget cur;
      in_kernel (upd_proc proc (λ _, p)) ;;
      pid ← kget last_pid;
      r ← arch_fork pid proc;
      if r <? 0 then
        in_kernel (upd_proc proc (λ c, c <| p_state := PROC_EXITED |>)) ;; mret (Some (- EAGAIN))
      else
        pid ← kget last_pid;
        p ← kget cur;
        in_kernel (upd_proc proc (λ c, init_child p c pid)) ;;
        in_kernel (adjust_proc_queues proc) ;;
        for_each (seq 0 NR_OPEN) share_file ;;
        root ← kget (λ k, inode (p_root_inode (cur k)));
        (if negb (root =? 0)
         then in_kernel (upd_cur (λ p, p <| p_root_inode ::= λ g, g <| count ::= λ n, n + 1 |> |>))
         else mret tt) ;;
        cwd ← kget (λ k, inode (p_cwd_inode (cur k)));
        (if negb (cwd =? 0)
         then in_kernel (upd_cur (λ p, p <| p_cwd_inode ::= λ g, g <| count ::= λ n, n + 1 |> |>))
         else mret tt) ;;
        fork_end
  end.

Definition close_if_open (i : nat) : M (kernel * D) unit :=
  e ← kget (λ k, p_file_table (cur k) i);
  match e with None => mret tt | Some _ => kernel_close (Z.of_nat i) ;; mret tt end.

(** [if (proc->state != PROC_EXITED && proc->ppid == current_process->pid) proc->ppid = 1] *)
Definition reparent (i : nat) : K unit :=
  k ← get;
  when (not_exited (process_table k i) && (p_ppid (process_table k i) =? p_pid (cur k)))
    (upd_proc i (λ p, p <| p_ppid := 1 |>)).

(** [inode.count--; if (inode.count == 0) fs->f_driver->fs_raw.fs_raw_iput(inode.inode);] *)
Definition put_root : M (kernel * D) unit :=
  in_kernel (upd_cur (λ p, p <| p_root_inode ::= λ g, g <| count ::= λ n, n - 1 |> |>)) ;;
  p ← kget cur;
  if count (p_root_inode p) =? 0 then
    match p_root_fs p with
    | None => undef "null root_fs"
    | Some _ => fs_raw_iput (inode (p_root_inode p))
    end
  else mret tt.
Definition put_cwd : M (kernel * D) unit :=
  in_kernel (upd_cur (λ p, p <| p_cwd_inode ::= λ g, g <| count ::= λ n, n - 1 |> |>)) ;;
  p ← kget cur;
  if count (p_cwd_inode p) =? 0 then
    match p_cwd_fs p with
    | None => undef "null cwd_fs"
    | Some _ => fs_raw_iput (inode (p_cwd_inode p))
    end
  else mret tt.

(** A process with a parent stays as a zombie and the parent gets a signal. *)
Definition exit_notice (ppid : Z) : M (kernel * D) unit :=
  if negb (ppid =? 0) then
    in_kernel (upd_cur (λ p, p <| p_state := PROC_ZOMBIE |>)) ;;
    in_kernel (kernel_kill ppid SIGCHLD) ;; mret tt
  else in_kernel (upd_cur (λ p, p <| p_state := PROC_EXITED |>)).

Definition kernel_exit (status : Z) : M (kernel * D) bool :=
  for_each (seq 0 NR_OPEN) close_if_open ;;
  in_kernel (for_each all_procs reparent) ;;
  put_root ;;
  put_cwd ;;
  in_kernel (upd_cur (λ p, p <| p_exit_code := u8 status |>)) ;;
  arch_exit ;;
  ppid ← kget (λ k, p_ppid (cur k));
  exit_notice ppid ;;
  c ← kget current_process;
  in_kernel (adjust_proc_queues c) ;;
  in_kernel schedule.

Definition S_ISREG (mode : Z) : bool := Z.land mode S_IFMT =? S_IFREG.
Definition PERM_EXEC : Z := 1.

Definition close_cloexec (i : nat) : M (kernel * D) unit :=
  c ← kget (λ k, p_close_on_exec (cur k));
  if bit_test c (Z.of_nat i) then kernel_close (Z.of_nat i) ;; mret tt else mret tt.

Definition kernel_execve (path argv envp : Z) : M (kernel * D) Z :=
  b1 ← kget (λ k, bad_ptr k path);
  if b1 : bool then mret (- EFAULT) else
  b2 ← kget (λ k, bad_ptr k argv);
  if b2 : bool then mret (- EFAULT) else
  b3 ← kget (λ k, bad_ptr k envp);
  if b3 : bool then mret (- EFAULT) else
  fs ← kget (get_fs_from_path path);
  match fs with
  | None => mret (- EINVAL)
  | Some fs =>
      r ← fs_raw_namei path;
      let '(ino, err) := r in
      if ino =? 0 then mret err else
      mode ← fs_raw_get_mode ino;
      if negb (S_ISREG mode) then fs_raw_iput ino ;; mret (- EACCES) else
      perm ← fs_raw_permission ino PERM_EXEC;
      if perm <? 0 then fs_raw_iput ino ;; mret (- EACCES) else
      ret ← arch_exec_elf fs ino argv envp;
      fs_raw_iput ino ;;
      for_each (seq 0 NR_OPEN) close_cloexec ;;
      mret ret
  end.

(** ** [waitpid] *)

Definition WNOHANG : Z := 1.
Definition WUNTRACED : Z := 2.
Definition WCONTINUED : Z := 8.

(** Which processes a call looks at, and which of them it waits for. *)
Definition is_child (pid : Z) (k : kernel) (i : nat) : bool :=
  (p_ppid (process_table k i) =? p_pid (cur k))
  && (if 0 <? pid then not_exited (process_table k i) else true).
Definition wanted (pid : Z) (k : kernel) (i : nat) : bool :=
  let p := process_table k i in
  if pid =? -1 then true
  else if 0 <? pid then p_pid p =? pid
  else if pid =? 0 then pgid (p_pgrp p) =? pgid (p_pgrp (cur k))
  else pgid (p_pgrp p) =? - pid.

Record wait_acc := MkWait { w_ret : Z; w_flag : Z; w_children : Z }.

Definition reap (stat_loc : Z) (i : nat) : K Z :=
  k ← get;
  let p := process_table k i in
  when (negb (stat_loc =? 0) && check_user_ptr k stat_loc) (put_ulong stat_loc (p_exit_code p)) ;;
  upd_proc i (λ p, p <| p_state := PROC_EXITED |>) ;;
  mret (p_pid p).

Fixpoint wait_loop (pid stat_loc : Z) (l : list nat) (a : wait_acc) : K wait_acc :=
  match l with
  | [] => mret a
  | i :: l =>
      k ← get;
      if is_child pid k i then
        if wanted pid k i && bool_decide (p_state (process_table k i) = PROC_ZOMBIE) then
          ret ← reap stat_loc i;
          wait_loop pid stat_loc l (MkWait ret (w_flag a + 1) (w_children a + 1))
        else wait_loop pid stat_loc l (MkWait (w_ret a) (w_flag a) (w_children a + 1))
      else wait_loop pid stat_loc l a
  end.

(** [&process_table], the address waiting parents sleep on. *)
Context (process_table_addr : Z).

Inductive wait_outcome : Type := Returned (r : Z) | Waiting.

(** [Waiting] means that the process sleeps; it goes on with [waitpid_resume]. *)
Fixpoint kernel_waitpid (fuel : nat) (pid stat_loc options : Z) : K wait_outcome :=
  match fuel with
  | O => nofuel
  | S fuel =>
      if negb (Z.land options WCONTINUED =? 0) || negb (Z.land options WUNTRACED =? 0)
      then mret (Returned (- ENOSYS)) else
      a ← wait_loop pid stat_loc all_procs (MkWait 0 0 0);
      if w_children a =? 0 then mret (Returned (- ECHILD))
      else if negb (w_flag a =? 0) then mret (Returned (w_ret a))
      else if negb (Z.land options WNOHANG =? 0) then mret (Returned 0)
      else
        switched ← sleep process_table_addr PROC_SLEEP_INTERRUPTIBLE;
        if switched : bool then mret Waiting
        else
          p ← gets cur;
          if bit_test (p_sigpending p) (SIGCHLD - 1) then
            upd_cur (λ p, p <| p_sigpending ::= λ b, bit_clear b (SIGCHLD - 1) |>) ;;
            kernel_waitpid fuel pid stat_loc options
          else mret (Returned (- EINTR))
  end.
Definition waitpid_resume (fuel : nat) (pid stat_loc options : Z) : K wait_outcome :=
  resume ;;
  p ← gets cur;
  if bit_test (p_sigpending p) (SIGCHLD - 1) then
    upd_cur (λ p, p <| p_sigpending ::= λ b, bit_clear b (SIGCHLD - 1) |>) ;;
    kernel_waitpid fuel pid stat_loc options
  else mret (Returned (- EINTR)).

(** ** Delivery of signals *)

(** [sig] is the index of the signal in the tables, one less than its number. *)
Definition get_signal_handler (proc : nat) (sig : nat) : M (kernel * D) (option Z) :=
  h ← kget (λ k, p_sighandlers (process_table k proc) sig);
  match h with
  | SIG_DFL =>
      a ← kget (λ k, signal_table k sig);
      match a with
      | SIGACTION_A | SIGACTION_T => kernel_exit (Z.of_nat sig) ;; mret None
      | SIGACTION_I => mret None
      | SIGACTION_C =>
          c ← kget current_process;
          st ← kget (λ k, p_state (cur k));
          (if bool_decide (st = PROC_STOPPED) then
             in_kernel (upd_cur (λ p, p <| p_state := PROC_RUNNABLE |>)) ;;
             in_kernel (adjust_proc_queues c)
           else mret tt) ;;
          mret None
      | SIGACTION_S =>
          c ← kget current_process;
          in_kernel (upd_cur (λ p, p <| p_state := PROC_STOPPED |>)) ;;
          ppid ← kget (λ k, p_ppid (cur k));
          in_kernel (kernel_kill ppid SIGCHLD) ;;
          in_kernel (adjust_proc_queues c) ;;
          in_kernel schedule ;;
          mret None
      end
  | SIG_IGN => mret None
  | SIG_ERR => mret (Some (-1))
  | Handler a => mret (Some a)
  end.

(** The result is the handler to run and the number of its signal. *)
Fixpoint signal_loop (proc : nat) (l : list nat) : M (kernel * D) (option (Z * Z)) :=
  match l with
  | [] => mret None
  | i :: l =>
      b ← kget (λ k, p_sigpending (process_table k proc));
      if bit_test b (Z.of_nat i) then
        in_kernel (upd_proc proc (λ p, p <| p_sigpending ::= λ b, bit_clear b (Z.of_nat i) |>)) ;;
        h ← get_signal_handler proc i;
        match h with
        | None => signal_loop proc l
        | Some a => mret (Some (a, Z.of_nat i + 1))
        end
      else signal_loop proc l
  end.
Definition signal_handler (proc : nat) : M (kernel * D) (option (Z * Z)) :=
  signal_loop proc (seq 0 (Z.to_nat NSIG)).
End life.

(** [processes_init], up to the driver hooks and the jump to user mode. *)
Definition processes_init : K unit :=
  modify (λ k, k <| process_queues := λ i, if decide (i < Z.to_nat PROC_QUANTA)%nat then None else process_queues k i |>) ;;
  modify (λ k, k <| current_process := 0%nat |>) ;;
  signals_init ;;
  upd_proc 0 (λ p, p <| p_pid := 0 |> <| p_uid := 0 |> <| p_euid := 0 |> <| p_suid := 0 |>
    <| p_gid := 0 |> <| p_egid := 0 |> <| p_sgid := 0 |> <| p_priority := 0 |>
    <| p_state := PROC_RUNNABLE |> <| p_tty := 0 |> <| p_umask := 0 |>
    <| p_quanta := 0 |> <| p_counter := 0 |>) ;;
  modify (λ k, k <| process_queues ::= <[0%nat := Some 0%nat]> |>) ;;
  upd_proc 0 (λ p, p <| p_queue_next := Some 0%nat |> <| p_queue_prev := Some 0%nat |>).

(** ** Starting up *)

Definition boot_ls (p : Z) : list nat := if decide (p = 0) then [0%nat] else [].

(** The shape of the tables that makes the idle process the only one. *)
Lemma boot_inv k : p_queue_next (process_table k 0) = Some 0%nat →
  p_queue_prev (process_table k 0) = Some 0%nat → p_priority (process_table k 0) = 0 →
  p_state (process_table k 0) = PROC_RUNNABLE →
  (∀ i, (0 < i)%nat → process_table k i = process_zero) →
  process_queues k 0 = Some 0%nat →
  (∀ p, (0 < p < Z.to_nat PROC_QUANTA)%nat → process_queues k p = None) →
  sched_inv k boot_ls.
Proof.
  intros Hn Hv Hp Hs Ho Hq0 Hq. split; [split| | |].
  - intros p Hpr. unfold boot_ls. case_decide as Hp0; [subst; exact Hq0|]. apply Hq. lia.
  - intros p. unfold boot_ls. case_decide; [|done]. split; done.
  - intros p. unfold boot_ls. case_decide; [apply NoDup_singleton|constructor].
  - intros p i. unfold boot_ls. case_decide as Hp0; [|by intros ?%elem_of_nil].
    intros ->%list_elem_of_singleton. split; [unfold NR_PROC; lia|]. rewrite Hp. subst. done.
  - intros i _. destruct i as [|i]; [rewrite Hp; intros Hni; exfalso; apply Hni; by left|].
    intros _. unfold q_next, q_prev. by rewrite Ho by lia.
  - intros i _. destruct i as [|i].
    + rewrite Hp. unfold runnable. by rewrite Hs.
    + rewrite Ho by lia. by vm_compute.
  - intros i _. destruct i as [|i]; [by rewrite Hp|by rewrite Ho by lia].
  - unfold runnable. by rewrite Hs.
Qed.

Lemma processes_init_ok k : (∀ i, process_table k i = process_zero) →
  ∃ k', processes_init k = Ok (tt, k') ∧ sched_inv k' boot_ls ∧ current_process k' = 0%nat.
Proof.
  intros Hz. unfold processes_init. rewrite modify_run, modify_run.
  set (k1 := _ <| current_process := 0%nat |>).
  destruct (signals_init k1) as [[[] k2]| | |] eqn:Hs; [|by compute in Hs..].
  assert (Hk2 : process_table k2 = process_table k ∧ current_process k2 = 0%nat ∧
    process_queues k2 = process_queues k1) by (by injection Hs as <-).
  rewrite (bind_ok _ _ _ _ _ Hs). clear Hs. destruct Hk2 as (Ht & Hc & Hq).
  krun. eexists. split; [reflexivity|]. split; [|done].
  apply boot_inv; rec_simpl; try (rewrite ?set_proc_eq; done).
  - intros i Hi. rewrite set_proc_ne by lia. rec_simpl. rewrite set_proc_ne by lia. by rewrite Ht.
  - intros p Hp. change (<[0%nat:=Some 0%nat]> (process_queues k2) p = None).
    rewrite fn_insert_ne by lia. rewrite Hq. unfold k1. rec_simpl. by rewrite decide_True by lia.
Qed.

(** ** Descriptors and queues when a free entry of the process table is filled *)

Lemma exited_not_runnable p : exited p = true → runnable p = false.
Proof. unfold exited, runnable. by intros ->%bool_decide_eq_true. Qed.

(** An entry on no queue can be replaced by anything with null links. *)
Lemma qrep_replace k k' ls i : qrep k ls → (∀ p, i ∉ ls p) →
  process_queues k' = process_queues k → (∀ j, j ≠ i → process_table k' j = process_table k j) →
  q_next k' i = None → q_prev k' i = None → qrep k' ls.
Proof.
  intros [H1 H2 H3 H4 H5] Hi Hq Hp Hn Hv.
  assert (Hne : ∀ p j, j ∈ ls p → j ≠ i) by (intros p j Hj ->; by eapply Hi).
  split.
  - intros p Hp'. rewrite Hq. auto.
  - intros p. eapply ring_frame; [apply H2| |]; intros j Hj; unfold q_next, q_prev;
      rewrite Hp; eauto.
  - done.
  - intros p j Hj. rewrite Hp by eauto. auto.
  - intros j Hj Hjl. destruct (decide (j = i)) as [->|]; [done|].
    rewrite Hp in Hjl by done. unfold q_next, q_prev. rewrite !Hp by done. by apply H5.
Qed.

Lemma exited_unqueued k ls i : sched_inv k ls → (i < NR_PROC)%nat →
  exited (process_table k i) = true → ∀ p, i ∉ ls p.
Proof.
  intros Hinv Hi He p Hp. pose proof (qr_in _ _ (si_qrep _ _ Hinv) _ _ Hp) as (_ & Hpr & _).
  pose proof (si_mem _ _ Hinv i Hi) as Hm. rewrite (exited_not_runnable _ He), Hpr in Hm.
  symmetry in Hm. by apply bool_decide_eq_false in Hm.
Qed.

(** Filling the free entry [i] with a runnable process and queueing it. *)
Lemma sched_inv_new k k1 ls i : sched_inv k ls → (i < NR_PROC)%nat →
  exited (process_table k i) = true →
  process_queues k1 = process_queues k → (∀ j, j ≠ i → process_table k1 j = process_table k j) →
  q_next k1 i = None → q_prev k1 i = None →
  0 <= p_priority (process_table k1 i) < PROC_QUANTA → runnable (process_table k1 i) = true →
  ∃ k2 ls2, adjust_proc_queues i k1 = Ok (tt, k2) ∧ same_but_links k1 k2 ∧ sched_inv k2 ls2.
Proof.
  intros Hinv Hi He Hq Hp Hn Hv Hpr Hr.
  pose proof (exited_unqueued k ls i Hinv Hi He) as Hun.
  set (ke := set_proc i (λ p, p <| p_state := PROC_EXITED |>) k1).
  assert (Hke : ∀ j, j ≠ i → process_table ke j = process_table k j).
  { intros j Hj. unfold ke. rewrite set_proc_ne by done. auto. }
  assert (Hkei : process_table ke i = (process_table k1 i) <| p_state := PROC_EXITED |>) by apply set_proc_eq.
  assert (Ie : sched_inv ke ls).
  { split.
    - apply (qrep_replace k ke ls i); [apply Hinv|done|done|done|..];
        unfold q_next, q_prev; rewrite Hkei; done.
    - intros j Hj. destruct (decide (j = i)) as [->|Hne].
      + symmetry. rewrite Hkei. by apply bool_decide_eq_false.
      + rewrite Hke by done. by apply (si_mem _ _ Hinv).
    - intros j Hj. destruct (decide (j = i)) as [->|Hne]; [by rewrite Hkei|].
      rewrite Hke by done. by apply (si_prio _ _ Hinv).
    - destruct (decide (0%nat = i)) as [<-|Hne]; [|rewrite Hke by done; apply Hinv].
      pose proof (si_idle _ _ Hinv). by rewrite (exited_not_runnable _ He) in *. }
  destruct (sched_inv_adjust_gen ke k1 ls i Ie) as (k2 & R & S & I2).
  - apply (qrep_replace k k1 ls i); try done. apply Hinv.
  - done.
  - intros j. unfold ke. rewrite set_proc_lookup. by case_decide.
  - intros j Hj. unfold ke. by rewrite set_proc_ne.
  - done.
  - eexists k2, _. done.
Qed.

(** ** Fork *)

(** ** Descriptors across the scheduler *)

Lemma files_wf_relax k k' : files_wf k →
  ((current_process k' < NR_PROC)%nat ∧ exited (cur k') = false ∧ p_state (cur k') ≠ PROC_ZOMBIE) →
  (∀ i, (i < NR_PROC)%nat → exited (process_table k' i) = exited (process_table k i)) →
  (∀ i, (i < NR_PROC)%nat → p_state (process_table k' i) = PROC_ZOMBIE → p_state (process_table k i) = PROC_ZOMBIE) →
  (∀ i, p_file_table (process_table k' i) = p_file_table (process_table k i)) →
  (∀ f, f_count (file_table k' f) = f_count (file_table k f)) →
  (∀ f, f_fs (file_table k' f) = f_fs (file_table k f)) →
  files_wf k'.
Proof.
  intros [H1 H2 H3 H4] Hc He Hz Ht Hn Hf. split.
  - intros f Hfl. rewrite Hn, H1 by done. symmetry. apply refs_ext. intros j Hj.
    unfold proc_refs. by rewrite He, Ht.
  - intros i fd f Hi. rewrite He, Ht, Hf by done. by apply H2.
  - done.
  - intros i fd Hi Hzi. rewrite Ht. apply H4; auto.
Qed.

(** No terminal time-out is pending for a process that has exited. *)
Definition dead (p : process) : bool := exited p || bool_decide (p_state p = PROC_ZOMBIE).
Definition dead_quiet (k : kernel) : Prop := ∀ i, (i < NR_PROC)%nat →
  dead (process_table k i) = true → p_tty_block (process_table k i) = NO_TTY_BLOCK.

Lemma effect_state t p : (dead p = true → p_tty_block p = NO_TTY_BLOCK) →
  exited (schedule_effect t p) = exited p ∧
  (p_state (schedule_effect t p) = PROC_ZOMBIE → p_state p = PROC_ZOMBIE).
Proof.
  intros Hd. unfold schedule_effect. set (p1 := expire_alarm t p).
  assert (H1 : p_state p1 = p_state p ∧ p_tty_block p1 = p_tty_block p) by (unfold p1, expire_alarm; by case_match).
  destruct H1 as [Hs Ht]. clearbody p1. unfold dead, exited in *. rewrite <- Hs, <- Ht in *. clear Hs Ht.
  unfold expire_tty, tty_expired. destruct (bool_decide (p_state p1 = PROC_EXITED)) eqn:He;
    [|destruct (bool_decide (p_state p1 = PROC_ZOMBIE)) eqn:Hz].
  - rewrite Hd by done. simpl. apply bool_decide_eq_true in He. unfold wake_signalled, signalled.
    rewrite He. simpl. by rewrite He.
  - rewrite Hd by done. simpl. apply bool_decide_eq_true in Hz. unfold wake_signalled, signalled.
    rewrite Hz. simpl. by rewrite Hz.
  - apply bool_decide_eq_false in He, Hz. destruct (negb _ && _).
    + unfold wake_signalled, signalled. simpl. rec_simpl. split; [done|]. done.
    + unfold wake_signalled. destruct (signalled p1); [done|]. split; [by apply bool_decide_eq_false|done].
Qed.
Lemma effect_file_table t p : p_file_table (schedule_effect t p) = p_file_table p.
Proof.
  unfold schedule_effect, wake_signalled, expire_tty, expire_alarm, raise_alarm.
  repeat case_match; done.
Qed.

Lemma ran_files_wf k k' t : files_wf k → dead_quiet k → chosen k' (current_process k') →
  (∀ j, strip (process_table k' j) = strip (ran (looped t (process_table k)) (current_process k') j)) →
  runnable (looped t (process_table k) (current_process k')) = true →
  file_table k' = file_table k → files_wf k'.
Proof.
  intros Hwf Hd (Hc & Hrun & _) HT Hr Hf. set (c := current_process k') in *.
  assert (HE : ∀ i, (i < NR_PROC)%nat → let p := looped t (process_table k) i in
    exited p = exited (process_table k i) ∧ (p_state p = PROC_ZOMBIE → p_state (process_table k i) = PROC_ZOMBIE)).
  { intros i Hi p. unfold p, looped. rewrite decide_True by done. apply effect_state. by apply Hd. }
  assert (Hrex : ∀ p, runnable p = true → exited p = false).
  { intros p Hp. destruct (exited p) eqn:E; [|done]. apply exited_not_runnable in E. congruence. }
  apply (files_wf_relax k); rewrite ?Hf; try done.
  - split; [done|]. unfold cur. fold c. unfold exited. rewrite Hrun. done.
  - intros i Hi. change (exited (strip (process_table k' i)) = exited (process_table k i)). rewrite HT.
    unfold ran. case_decide as Hic; [|apply HE; done]. subst i.
    rewrite <- (proj1 (HE c Hi)). symmetry. by apply Hrex.
  - intros i Hi. change (p_state (strip (process_table k' i)) = PROC_ZOMBIE → p_state (process_table k i) = PROC_ZOMBIE).
    rewrite HT. unfold ran. case_decide as Hic; [done|]. apply HE. done.
  - intros i. change (p_file_table (strip (process_table k' i)) = p_file_table (process_table k i)).
    rewrite HT. unfold ran. assert (p_file_table (looped t (process_table k) i) = p_file_table (process_table k i)).
    { unfold looped. case_decide; [apply effect_file_table|done]. }
    by case_decide.
Qed.

Section fork.
Context {D : Type} `{DRV : FsDriver D} `{LAWS : !FsDriverLaws D} `{ARCH : Arch D} `{ALAWS : !ArchLaws D}.

Lemma in_kernel_run {A B} (m : K A) (f : A → M (kernel * D) B) s a k' :
  m (fst s) = Ok (a, k') → (in_kernel m ≫= f) s = f a (k', snd s).
Proof. intros H. unfold in_kernel, zoom, mbind, M_bind. by rewrite H. Qed.

(** The loop that shares the open files with the child. *)
Lemma share_files_ok l : ∀ s : kernel * D, ∃ s', for_each l share_file s = Ok (tt, s') ∧
  snd s' = snd s ∧ process_table (fst s') = process_table (fst s) ∧ process_queues (fst s') = process_queues (fst s) ∧
  current_process (fst s') = current_process (fst s) ∧ last_pid (fst s') = last_pid (fst s) ∧
  timer_ticks (fst s') = timer_ticks (fst s) ∧
  (∀ f, f_count (file_table (fst s') f) = f_count (file_table (fst s) f)
     + zsum (λ fd, one_if (bool_decide (p_file_table (cur (fst s)) fd = Some f))) l) ∧
  (∀ f, f_fs (file_table (fst s') f) = f_fs (file_table (fst s) f)).
Proof.
  induction l as [|i l IH]; intros s; [exists s; simpl; repeat (split; [done|]); split; [intros; lia|done]|].
  cbn [for_each zsum]. unfold share_file at 1. 
  set (e := p_file_table (cur (fst s)) i).
  set (s1 := match e with None => s | Some f => (set_file f (λ x, x <| f_count ::= λ n, n + 1 |>) (fst s), snd s) end).
  assert (R1 : (x ← kget (λ k, p_file_table (cur k) i);
    match x with None => mret tt | Some f => upd_file f (λ x, x <| f_count ::= λ n, n + 1 |>) end) s
     = Ok (tt, s1)).
  { rewrite kget_run. fold e. unfold s1. by destruct e. }
  rewrite (bind_ok _ _ _ _ _ R1). destruct (IH s1) as (s' & R & H0 & H1 & H2 & H3 & H4 & H5 & H6 & H7).
  assert (G0 : snd s1 = snd s) by (unfold s1; by destruct e).
  assert (Hk1 : process_table (fst s1) = process_table (fst s) ∧ process_queues (fst s1) = process_queues (fst s) ∧
    current_process (fst s1) = current_process (fst s) ∧ last_pid (fst s1) = last_pid (fst s) ∧
    timer_ticks (fst s1) = timer_ticks (fst s)) by (unfold s1; by destruct e).
  destruct Hk1 as (G1 & G2 & G3 & G4 & G5).
  assert (Hcur : cur (fst s1) = cur (fst s)) by (unfold cur; by rewrite G1, G3).
  exists s'. split; [done|]. do 6 (split; [congruence|]). split.
  - intros f. rewrite H6, Hcur. assert (f_count (file_table (fst s1) f) =
      f_count (file_table (fst s) f) + one_if (bool_decide (e = Some f))) as ->; [|lia].
    unfold s1. destruct e as [f0|]; cbn [fst]; [|by rewrite bool_decide_eq_false_2 by done; simpl; lia].
    rewrite set_file_lookup. destruct (decide (f0 = f)) as [->|].
    + by rewrite bool_decide_eq_true_2.
    + rewrite bool_decide_eq_false_2 by congruence. simpl. lia.
  - intros f. rewrite H7. unfold s1. destruct e as [f0|]; [|done]. cbn [fst].
    rewrite set_file_lookup. by case_decide.
Qed.

Lemma find_proc_inv P k l i : find_proc P k l = Some i → i ∈ l ∧ P (process_table k i) = true.
Proof.
  induction l as [|x l IH]; simpl; [done|]. destruct (P (process_table k x)) eqn:Hx.
  - intros [= ->]. split; [by left|done].
  - intros [??]%IH. split; [by right|done].
Qed.

(** The scheduler leaves the dead ones alone. *)
Lemma ran_dead_quiet k k' t c : dead_quiet k →
  (∀ j, strip (process_table k' j) = strip (ran (looped t (process_table k)) c j)) → dead_quiet k'.
Proof.
  intros Hd HT i Hi. change (dead (strip (process_table k' i)) = true → p_tty_block (strip (process_table k' i)) = NO_TTY_BLOCK).
  rewrite HT. unfold ran. destruct (decide (i = c)); [done|]. unfold looped. rewrite (decide_True _ _ Hi).
  set (p := process_table k i). pose proof (Hd i Hi) as Hp. fold p in Hp.
  change (dead (schedule_effect t p) = true → p_tty_block (schedule_effect t p) = NO_TTY_BLOCK).
  destruct (effect_state t p Hp) as [E1 E2]. intros Hde.
  assert (p_tty_block p = NO_TTY_BLOCK) as Hb.
  { apply Hp. unfold dead in *. rewrite E1 in Hde. apply orb_true_iff in Hde as [-> | Hz%bool_decide_eq_true]; [done|].
    apply orb_true_iff. right. apply bool_decide_eq_true. by apply E2. }
  unfold schedule_effect, wake_signalled, expire_tty, expire_alarm, raise_alarm. repeat case_match; done.
Qed.

(** Updates of the current process that neither the descriptors nor the queues see. *)
Record plain (f : process → process) : Prop := {
  pl_links : keeps_links f;
  pl_state p : p_state (f p) = p_state p;
  pl_table p : p_file_table (f p) = p_file_table p;
  pl_tty p : p_tty_block (f p) = p_tty_block p
}.

Lemma plain_inv k ls f : plain f → sched_inv k ls → sched_inv (set_proc (current_process k) f k) ls.
Proof.
  intros [Hl Hs _ _] H. apply sched_inv_set_proc; [done|done|]. unfold runnable. by rewrite Hs.
Qed.

(** The descriptors and counts after the child has been filled in and the files shared. *)
Lemma fork_files_wf k k' i : files_wf k → (i < NR_PROC)%nat → i ≠ current_process k →
  exited (process_table k i) = true → current_process k' = current_process k →
  (∀ j, j ≠ i → p_state (process_table k' j) = p_state (process_table k j)) →
  (∀ j, j ≠ i → p_file_table (process_table k' j) = p_file_table (process_table k j)) →
  p_state (process_table k' i) = PROC_RUNNABLE →
  p_file_table (process_table k' i) = p_file_table (cur k) →
  (∀ f, f_count (file_table k' f) = f_count (file_table k f) + fd_refs (p_file_table (cur k)) f) →
  (∀ f, f_fs (file_table k' f) = f_fs (file_table k f)) →
  files_wf k'.
Proof.
  intros [H1 H2 (H3 & H3' & H3'') H4] Hi Hne He Hc Hs Ht Hsi Hti Hn Hf.
  assert (Hei : exited (process_table k' i) = false) by (unfold exited; by rewrite Hsi).
  assert (Hex : ∀ j, j ≠ i → exited (process_table k' j) = exited (process_table k j)).
  { intros j Hj. unfold exited. by rewrite Hs. }
  split.
  - intros f Hfl. rewrite Hn, H1, (refs_update k k' i) by
      (try done; intros j Hj; unfold proc_refs; by rewrite Hex, Ht).
    unfold proc_refs. rewrite Hei, He, Hti. lia.
  - intros j fd f Hj. destruct (decide (j = i)) as [->|Hji].
    + rewrite Hti, Hf. intros _ Hfd Hent. by apply (H2 (current_process k) fd f).
    + rewrite Hex, Ht, Hf by done. by apply H2.
  - unfold cur. rewrite Hc, Hex, Hs by done. done.
  - intros j fd Hj. destruct (decide (j = i)) as [->|Hji]; [by rewrite Hsi|].
    rewrite Hs, Ht by done. by apply H4.
Qed.

(** What the child has in common with its parent. *)
Definition child_of (p : process) (pid : Z) (c : process) : Prop :=
  p_pid c = pid ∧ p_ppid c = p_pid p ∧ runnable c = true ∧ p_file_table c = p_file_table p ∧
  p_uid c = p_uid p ∧ p_euid c = p_euid p ∧ p_suid c = p_suid p ∧
  p_priority c = (if p_priority p =? 0 then USER_PRIORITY else p_priority p).

Lemma child_effect p pid c t : child_of p pid c → child_of p pid (schedule_effect t c).
Proof.
  intros H. assert (He : child_of p pid (expire_alarm t c)) by (unfold expire_alarm; by case_match).
  clear H. unfold schedule_effect. revert He. generalize (expire_alarm t c). intros q H.
  assert (He : child_of p pid (expire_tty t q)).
  { unfold expire_tty. case_match; [|done]. destruct H as (? & ? & ? & ?). by do 3 (split; [done|]). }
  clear H. revert He. generalize (expire_tty t q). intros r H. unfold wake_signalled.
  case_match; [|done]. destruct H as (? & ? & ? & ?). by do 3 (split; [done|]).
Qed.
Lemma child_ran p pid c i k t : child_of p pid (process_table k i) → child_of p pid (ran (looped t (process_table k)) c i).
Proof.
  intros H. assert (Hl : child_of p pid (looped t (process_table k) i)).
  { unfold looped. case_decide; [by apply child_effect|done]. }
  unfold ran. case_decide; [|done]. destruct Hl as (? & ? & ? & ?). by do 3 (split; [done|]).
Qed.

(** [fork] up to the call of [schedule]: [k'] is the kernel that the scheduler sees. *)
Record fork_ready (k k' : kernel) (i : nat) : Prop := {
  fr_wf : files_wf k';
  fr_sched : sched_wf k';
  fr_quiet : dead_quiet k';
  fr_current : current_process k' = current_process k;
  fr_last : last_pid k' = Z.of_nat i;
  fr_child : child_of (cur k) (Z.of_nat i) (process_table k' i);
  fr_others j : j ≠ i → j ≠ current_process k → strip (process_table k' j) = strip (process_table k j);
  fr_count f : f_count (file_table k' f) = f_count (file_table k f) + fd_refs (p_file_table (cur k)) f
}.

(** The part between [arch_fork] and [schedule]. *)
Definition fork_tail (proc : nat) (pid : Z) (p : process) : M (kernel * D) (option Z) :=
  in_kernel (upd_proc proc (λ c, init_child p c pid)) ;;
  in_kernel (adjust_proc_queues proc) ;;
  for_each (seq 0 NR_OPEN) share_file ;;
  root ← kget (λ k, inode (p_root_inode (cur k)));
  (if negb (root =? 0)
   then in_kernel (upd_cur (λ p, p <| p_root_inode ::= λ g, g <| count ::= λ n, n + 1 |> |>))
   else mret tt) ;;
  cwd ← kget (λ k, inode (p_cwd_inode (cur k)));
  (if negb (cwd =? 0)
   then in_kernel (upd_cur (λ p, p <| p_cwd_inode ::= λ g, g <| count ::= λ n, n + 1 |> |>))
   else mret tt) ;;
  fork_end.

Lemma fork_tail_ready k ls d i p : files_wf k → sched_inv k ls → dead_quiet k → p = cur k →
  (i < NR_PROC)%nat → exited (process_table k i) = true →
  let k1 := set_proc i (λ _, p) (k <| last_pid := Z.of_nat i |>) in
  ∃ k6, fork_tail i (Z.of_nat i) p (k1, d) = fork_end (k6, d) ∧
    fork_ready k k6 i.
Proof.
  intros Hwf Hinv Hdq Hp Hi He k1. pose proof (fw_current _ Hwf) as (Hc & Hce & Hcz).
  set (c := current_process k) in *. assert (Hic : i ≠ c) by (intros ->; unfold cur in Hce; fold c in Hce; congruence).
  set (k2 := set_proc i (λ x, init_child p x (Z.of_nat i)) k1).
  assert (Hk2i : process_table k2 i = init_child p p (Z.of_nat i)) by (unfold k2, k1; by rewrite !set_proc_eq).
  assert (Hk2 : ∀ j, j ≠ i → process_table k2 j = process_table k j) by (intros j Hj; unfold k2, k1; by rewrite !set_proc_ne).
  destruct (sched_inv_new k k2 ls i Hinv Hi He) as (k3 & ls3 & R3 & S3 & I3); try done.
  { unfold q_next. by rewrite Hk2i. }
  { unfold q_prev. by rewrite Hk2i. }
  { rewrite Hk2i. pose proof (si_prio _ _ Hinv c Hc) as Hpc. change (process_table k c) with (cur k) in Hpc.
    rewrite <- Hp in Hpc. unfold init_child. rec_simpl. unfold USER_PRIORITY, LOWEST_PRIORITY, PROC_QUANTA in *.
    destruct (p_priority p =? 0); lia. }
  { by rewrite Hk2i. }
  pose proof (adjust_proc_queues_rest i k2 tt k3 R3) as Hr3.
  destruct (share_files_ok (seq 0 NR_OPEN) (k3, d)) as ([k4 d4] & R4 & D4 & T4 & Q4 & C4 & L4 & Ti4 & N4 & F4).
  cbn [fst snd] in *. subst d4.
  set (r := negb (inode (p_root_inode (cur k4)) =? 0)).
  set (fr := λ p : process, p <| p_root_inode ::= λ g, g <| count ::= λ n, n + 1 |> |>).
  set (fw := λ p : process, p <| p_cwd_inode ::= λ g, g <| count ::= λ n, n + 1 |> |>).
  set (k5 := if r then set_proc (current_process k4) fr k4 else k4).
  set (w := negb (inode (p_cwd_inode (cur k5)) =? 0)).
  set (k6 := if w then set_proc (current_process k5) fw k5 else k5).
  assert (Hc3 : current_process k3 = c) by (by rewrite (sbl_rest _ _ S3)).
  assert (Hc4 : current_process k4 = c) by (by rewrite C4).
  assert (Hc5 : current_process k5 = c) by (unfold k5; by destruct r).
  assert (Hsame : file_table k6 = file_table k4 ∧ last_pid k6 = last_pid k4 ∧ current_process k6 = c).
  { unfold k6, k5. by destruct w, r. }
  destruct Hsame as (Hf6 & Hl6 & Hc6).
  (* the table before the scheduler *)
  assert (Hother : ∀ j, j ≠ c → process_table k6 j = process_table k3 j).
  { intros j Hj. rewrite <- T4. transitivity (process_table k5 j).
    - unfold k6. destruct w; [|done]. by rewrite Hc5, set_proc_ne.
    - unfold k5. destruct r; [|done]. by rewrite Hc4, set_proc_ne. }
  assert (Hcur : ∃ f, plain f ∧ process_table k6 c = f (process_table k3 c)).
  { rewrite <- T4. exists (λ x, (if w then fw else id) ((if r then fr else id) x)).
    split; [destruct w, r; by split|]. transitivity ((if w then fw else id) (process_table k5 c)).
    - unfold k6. destruct w; [|done]. by rewrite Hc5, set_proc_eq.
    - f_equal. unfold k5. destruct r; [|done]. by rewrite Hc4, set_proc_eq. }
  assert (Hfield : ∀ {A} (g : process → A), (∀ x, g (strip x) = g x) → (∀ f, plain f → ∀ x, g (f x) = g x) →
    ∀ j, j ≠ i → g (process_table k6 j) = g (process_table k j)).
  { intros A g Hg Hpl j Hj. transitivity (g (process_table k3 j)).
    - destruct (decide (j = c)) as [->|Hjc]; [|by rewrite Hother].
      destruct Hcur as (f & Hf & ->). by apply Hpl.
    - rewrite <- Hg, (sbl_proc _ _ S3), Hg. by rewrite Hk2. }
  assert (Hst : ∀ j, j ≠ i → p_state (process_table k6 j) = p_state (process_table k j)).
  { apply (Hfield _ p_state); [done|by intros f []]. }
  assert (Htb : ∀ j, j ≠ i → p_file_table (process_table k6 j) = p_file_table (process_table k j)).
  { apply (Hfield _ p_file_table); [done|by intros f []]. }
  assert (Htt : ∀ j, j ≠ i → p_tty_block (process_table k6 j) = p_tty_block (process_table k j)).
  { apply (Hfield _ p_tty_block); [done|by intros f []]. }
  assert (Hchild : strip (process_table k6 i) = strip (init_child p p (Z.of_nat i))).
  { rewrite Hother by done. by rewrite (sbl_proc _ _ S3), Hk2i. }
  assert (Hfiles : ∀ f, f_count (file_table k6 f) = f_count (file_table k f) + fd_refs (p_file_table (cur k)) f).
  { intros f. rewrite Hf6, N4, (sr_files _ _ Hr3). f_equal.
    unfold fd_refs. apply zsum_ext. intros fd _. f_equal. apply bool_decide_ext.
    unfold cur at 1. rewrite Hc3. change (p_file_table (strip (process_table k3 c)) fd = Some f ↔ p_file_table (cur k) fd = Some f).
    rewrite (sbl_proc _ _ S3), Hk2 by done. done. }
  exists k6. split.
  - unfold fork_tail. change ((in_kernel (upd_proc i (λ c, init_child p c (Z.of_nat i))) ;; ?m) (k1, d)) with (m (k2, d)).
    rewrite (in_kernel_run (adjust_proc_queues i) _ (k2, d) tt k3 R3). cbn [snd].
    rewrite (bind_ok _ _ _ _ _ R4). rewrite kget_run. cbn [fst]. fold r.
    assert (R5 : (if r then in_kernel (upd_cur fr) else mret tt) (k4, d) = Ok (tt, (k5, d)))
      by (unfold k5; by destruct r).
    rewrite (bind_ok _ _ _ _ _ R5). rewrite kget_run. cbn [fst]. fold w.
    assert (R6 : (if w then in_kernel (upd_cur fw) else mret tt) (k5, d) = Ok (tt, (k6, d)))
      by (unfold k6; by destruct w).
    by rewrite (bind_ok _ _ _ _ _ R6).
  - split.
    + apply (fork_files_wf k k6 i); try done.
      * change (p_state (strip (process_table k6 i)) = PROC_RUNNABLE). by rewrite Hchild.
      * change (p_file_table (strip (process_table k6 i)) = p_file_table (cur k)). by rewrite Hchild, Hp.
      * intros f. by rewrite Hf6, F4, (sr_files _ _ Hr3).
    + exists ls3. assert (I4 : sched_inv k4 ls3) by (by eapply sched_inv_ext).
      assert (I5 : sched_inv k5 ls3) by (unfold k5; destruct r; [apply plain_inv; [by split|done]|done]).
      unfold k6. destruct w; [apply plain_inv; [by split|done]|done].
    + intros j Hj. destruct (decide (j = i)) as [->|Hji].
      * change (dead (strip (process_table k6 i)) = true → p_tty_block (process_table k6 i) = NO_TTY_BLOCK). by rewrite Hchild.
      * unfold dead, exited. rewrite Hst, Htt by done. by apply Hdq.
    + done.
    + by rewrite Hl6, L4, (sr_last_pid _ _ Hr3).
    + change (child_of (cur k) (Z.of_nat i) (strip (process_table k6 i))). rewrite Hchild. by rewrite Hp.
    + intros j Hji Hjc. rewrite Hother, (sbl_proc _ _ S3), Hk2 by done. done.
    + done.
Qed.
End fork.

(** ** Exit *)

Section exit.
Context {D : Type} `{DRV : FsDriver D} `{LAWS : !FsDriverLaws D} `{ARCH : Arch D} `{ALAWS : !ArchLaws D}.
Implicit Types s : kernel * D.

(** The fields that [exit] changes before it changes the state. *)
Definition strip_exit (p : process) : process :=
  p <| p_file_table := λ _, None |> <| p_ppid := 0 |> <| p_root_inode := MkGInode 0 0 |>
    <| p_cwd_inode := MkGInode 0 0 |> <| p_exit_code := 0 |>.
Record exit_frame (k k' : kernel) : Prop := {
  xf_current : current_process k' = current_process k;
  xf_queues : process_queues k' = process_queues k;
  xf_procs j : strip_exit (process_table k' j) = strip_exit (process_table k j)
}.
#[local] Instance exit_frame_preorder : PreOrder exit_frame.
Proof.
  split; [by intros k; split|]. intros k1 k2 k3 [] []. split; congruence.
Qed.
Lemma exit_frame_field {A} (g : process → A) k k' j : exit_frame k k' →
  (∀ p, g (strip_exit p) = g p) → g (process_table k' j) = g (process_table k j).
Proof. intros [_ _ H] Hg. by rewrite <- Hg, H, Hg. Qed.
Lemma exit_frame_sched k k' ls : exit_frame k k' → sched_inv k ls → sched_inv k' ls.
Proof.
  intros Hf. apply sched_inv_same_links; [split|].
  - apply Hf.
  - intros. by apply (exit_frame_field p_queue_next).
  - intros. by apply (exit_frame_field p_queue_prev).
  - intros. by apply exit_frame_field.
  - intros. by apply exit_frame_field.
Qed.
Lemma exit_frame_cur k k' f : current_process k' = current_process k → process_queues k' = process_queues k →
  (∀ p, strip_exit (f p) = strip_exit p) →
  (∀ j, process_table k' j = if decide (j = current_process k) then f (process_table k j) else process_table k j) →
  exit_frame k k'.
Proof. intros Hc Hq Hf Hp. split; [done|done|]. intros j. rewrite Hp. case_decide; [apply Hf|done]. Qed.

(** [kernel_close] only changes the table of descriptors of the caller. *)
Lemma kernel_close_procs fd s r s' : kernel_close fd s = Ok (r, s') →
  exit_frame (fst s) (fst s') ∧ (∀ j, p_ppid (process_table (fst s') j) = p_ppid (process_table (fst s) j)).
Proof.
  intros H. unfold kernel_close in H. destruct (_ || _); [by injection H as _ <-|].
  apply get_fd_inv in H as [_ H]. destruct (fd_of _ _) as [f|]; [|by injection H as _ <-].
  rewrite kget_run in H. destruct (_ =? 0); [done|]. rewrite upd_file_run in H.
  apply bind_inv in H as (r1 & s1 & H1 & H). apply with_fs_inv, close_keeps in H1.
  apply set_fd_inv in H as [_ H]. injection H as _ <-. cbn [fst].
  destruct H1 as [Hc Hp Hq _ _]. cbn [fst] in *.
  change (current_process (set_file _ _ (fst s))) with (current_process (fst s)) in Hc.
  change (process_table (set_file _ _ (fst s))) with (process_table (fst s)) in Hp.
  change (process_queues (set_file _ _ (fst s))) with (process_queues (fst s)) in Hq.
  assert (Hproc : ∀ j, process_table (put_fd fd None (fst s1)) j =
    if decide (j = current_process (fst s))
    then (process_table (fst s) j) <| p_file_table ::= <[Z.to_nat fd := None]> |> else process_table (fst s) j).
  { intros j. unfold put_fd. rewrite set_proc_lookup, Hc, Hp. by repeat case_decide. }
  split; [by eapply exit_frame_cur with (f := λ p, p <| p_file_table ::= <[Z.to_nat fd := None]> |>)|].
  intros j. rewrite Hproc. by case_decide.
Qed.

(** Closing all descriptors. *)
Lemma close_all_ok l : ∀ s s', (∀ i, i ∈ l → (i < NR_OPEN)%nat) → files_wf (fst s) →
  for_each l close_if_open s = Ok (tt, s') →
  files_wf (fst s') ∧ exit_frame (fst s) (fst s') ∧
  (∀ j, p_ppid (process_table (fst s') j) = p_ppid (process_table (fst s) j)) ∧
  (∀ j, j ≠ current_process (fst s) → p_file_table (process_table (fst s') j) = p_file_table (process_table (fst s) j)) ∧
  (∀ i, i ∈ l ∨ p_file_table (cur (fst s)) i = None → p_file_table (cur (fst s')) i = None).
Proof.
  induction l as [|i l IH]; intros s s' Hl Hwf H; simpl in H.
  { injection H as <-. do 4 (split; [done|]). intros i [Hi|Hi]; [by apply elem_of_nil in Hi|done]. }
  apply bind_inv in H as ([] & s1 & H1 & H).
  assert (Hone : files_wf (fst s1) ∧ exit_frame (fst s) (fst s1) ∧
    (∀ j, p_ppid (process_table (fst s1) j) = p_ppid (process_table (fst s) j)) ∧
    (∀ j, j ≠ current_process (fst s) → p_file_table (process_table (fst s1) j) = p_file_table (process_table (fst s) j)) ∧
    (∀ x, x = i ∨ p_file_table (cur (fst s)) x = None → p_file_table (cur (fst s1)) x = None)).
  { unfold close_if_open in H1. rewrite kget_run in H1.
    destruct (p_file_table (cur (fst s)) i) as [f|] eqn:Hi.
    - apply bind_inv in H1 as (r & s2 & H1 & [= ->]).
      destruct (kernel_close_procs _ _ _ _ H1) as [Hx Hpp].
      destruct (kernel_close_inv _ _ _ _ Hwf H1) as [(_ & -> & Hnone)|(_ & Hwf1 & Hr & _ & Hc & Htab)].
      + exfalso. assert (fd_of (fst s) (Z.of_nat i) = None) as Hn.
        { apply Hnone. specialize (Hl i ltac:(by left)). lia. }
        unfold fd_of in Hn. rewrite Nat2Z.id in Hn. congruence.
      + do 3 (split; [done|]). split; [intros j Hj; by rewrite Htab, decide_False|].
        intros x Hx'. unfold cur. rewrite Hc, Htab, decide_True, Nat2Z.id by done.
        destruct (decide (i = x)) as [->|Hne]; [by rewrite fn_insert_eq|].
        rewrite fn_insert_ne by done. destruct Hx' as [?|?]; [congruence|done].
    - injection H1 as <-. do 4 (split; [done|]). by intros x [->|?]. }
  destruct Hone as (W1 & X1 & P1 & T1 & N1).
  destruct (IH s1 s') as (W2 & X2 & P2 & T2 & N2); [intros; apply Hl; by right|done|done|].
  split; [done|]. split; [by etrans|]. split; [intros; by rewrite P2|]. split.
  - intros j Hj. rewrite T2; [by apply T1|]. by rewrite (xf_current _ _ X1).
  - intros x [[->|Hx]%elem_of_cons|Hx]; apply N2; [right; apply N1; by left|by left|right; apply N1; by right].
Qed.

Definition orphan (k : kernel) (p : process) : process :=
  if not_exited p && (p_ppid p =? p_pid (cur k)) then p <| p_ppid := 1 |> else p.

Lemma reparent_ok l : ∀ k, NoDup l → ∃ k', for_each l reparent k = Ok (tt, k') ∧
  current_process k' = current_process k ∧ process_queues k' = process_queues k ∧ file_table k' = file_table k ∧
  ∀ j, process_table k' j = if decide (j ∈ l) then orphan k (process_table k j) else process_table k j.
Proof.
  induction l as [|i l IH]; intros k Hnd; simpl.
  { exists k. do 4 (split; [done|]). done. }
  apply NoDup_cons in Hnd as [Hi Hnd].
  set (k1 := if not_exited (process_table k i) && (p_ppid (process_table k i) =? p_pid (cur k))
    then set_proc i (λ p, p <| p_ppid := 1 |>) k else k).
  assert (R1 : reparent i k = Ok (tt, k1)).
  { unfold reparent. change ((get ≫= ?m) k) with (m k k). cbv beta. unfold k1.
    by destruct (not_exited (process_table k i) && _). }
  rewrite (bind_ok _ _ _ _ _ R1). destruct (IH k1 Hnd) as (k' & R & H1 & H2 & H3 & H4).
  assert (Hk1 : ∀ j, process_table k1 j = if decide (j = i) then orphan k (process_table k j) else process_table k j).
  { intros j. unfold k1, orphan. case_match eqn:Hb.
    - rewrite set_proc_lookup. destruct (decide (i = j)) as [->|].
      + by rewrite decide_True, Hb.
      + by rewrite decide_False.
    - case_decide as Hji; [subst; by rewrite Hb|done]. }
  assert (Hpid : p_pid (cur k1) = p_pid (cur k)).
  { unfold cur. unfold k1 at 1. replace (current_process k1) with (current_process k) by (unfold k1; by case_match).
    rewrite Hk1. unfold orphan. by repeat case_match. }
  exists k'. split; [done|]. split; [rewrite H1; unfold k1; by case_match|].
  split; [rewrite H2; unfold k1; by case_match|]. split; [rewrite H3; unfold k1; by case_match|].
  intros j. rewrite H4, Hk1. destruct (decide (j = i)) as [->|Hji].
  - rewrite decide_False by done. by rewrite decide_True by (by left).
  - assert (orphan k1 (process_table k j) = orphan k (process_table k j)) as ->
      by (unfold orphan; by rewrite Hpid).
    apply decide_ext. rewrite elem_of_cons. naive_solver.
Qed.

(** The descriptors when the caller, who has none left, has died and another process
    runs. *)
Lemma files_wf_died k k' : files_wf k → let c := current_process k in
  (∀ fd, (fd < NR_OPEN)%nat → p_file_table (cur k) fd = None) →
  ((current_process k' < NR_PROC)%nat ∧ exited (cur k') = false ∧ p_state (cur k') ≠ PROC_ZOMBIE) →
  (∀ i, (i < NR_PROC)%nat → i ≠ c → exited (process_table k' i) = exited (process_table k i) ∧
     (p_state (process_table k' i) = PROC_ZOMBIE → p_state (process_table k i) = PROC_ZOMBIE)) →
  (∀ i, p_file_table (process_table k' i) = p_file_table (process_table k i)) →
  file_table k' = file_table k → files_wf k'.
Proof.
  intros [H1 H2 H3 H4] c Hn Hc Hp Ht Hf.
  assert (Href0 : ∀ f, fd_refs (p_file_table (process_table k c)) f = 0).
  { intros f. apply zsum_0. intros fd Hfd%seq_elem. change (process_table k c) with (cur k).
    rewrite Hn by lia. done. }
  split.
  - intros f Hfl. rewrite Hf, H1 by done. symmetry. apply refs_ext. intros j Hj.
    unfold proc_refs. rewrite Ht. destruct (decide (j = c)) as [->|Hne].
    + rewrite Href0. by repeat case_match.
    + by rewrite (proj1 (Hp j Hj Hne)).
  - intros i fd f Hi. rewrite Ht, Hf. intros He Hfd Hent. destruct (decide (i = c)) as [->|Hne].
    + change (process_table k c) with (cur k) in Hent. by rewrite Hn in Hent.
    + rewrite (proj1 (Hp i Hi Hne)) in He. by apply (H2 i fd f).
  - done.
  - intros i fd Hi Hz Hfd. rewrite Ht. destruct (decide (i = c)) as [->|Hne]; [by apply Hn|].
    apply H4; [done| |done]. by apply (proj2 (Hp i Hi Hne)).
Qed.

(** Everything before the change of state. *)
Definition exit_prologue (status : Z) : M (kernel * D) unit :=
  for_each (seq 0 NR_OPEN) close_if_open ;;
  in_kernel (for_each all_procs reparent) ;;
  put_root ;;
  put_cwd ;;
  in_kernel (upd_cur (λ p, p <| p_exit_code := u8 status |>)) ;;
  arch_exit.

Record exit_ready (k k' : kernel) (status : Z) : Prop := {
  er_frame : exit_frame k k';
  er_files : files_wf k';
  er_none fd : (fd < NR_OPEN)%nat → p_file_table (cur k') fd = None;
  er_ppid j : (j < NR_PROC)%nat → p_ppid (process_table k' j) = p_ppid (orphan k (process_table k j));
  er_code : p_exit_code (cur k') = u8 status
}.

(** An update of the caller's inode counts, followed by the driver. *)
Lemma put_inode_ok s s1 s' f : set_proc (current_process (fst s)) f (fst s) = fst s1 →
  (∀ p, strip_exit (f p) = strip_exit p) → (∀ p, p_file_table (f p) = p_file_table p) →
  (∀ p, p_ppid (f p) = p_ppid p) → same_files (fst s1) (fst s') → files_wf (fst s) →
  exit_frame (fst s) (fst s') ∧ files_wf (fst s') ∧
  (∀ j, p_file_table (process_table (fst s') j) = p_file_table (process_table (fst s) j)) ∧
  (∀ j, p_ppid (process_table (fst s') j) = p_ppid (process_table (fst s) j)).
Proof.
  intros H1 Hx Ht Hp Hsf Hwf. pose proof Hsf as [Hc Hpt Hq _ _]. rewrite <- H1 in *.
  change (current_process (set_proc _ _ (fst s))) with (current_process (fst s)) in Hc.
  assert (Hproc : ∀ j, process_table (fst s') j =
    if decide (j = current_process (fst s)) then f (process_table (fst s) j) else process_table (fst s) j).
  { intros j. rewrite Hpt, set_proc_lookup. by repeat case_decide. }
  split; [by eapply exit_frame_cur|]. split; [|split].
  - eapply same_files_wf; [|exact Hsf]. assert (Hst : ∀ p, p_state (f p) = p_state p).
    { intros p. change (p_state (strip_exit (f p)) = p_state (strip_exit p)). by rewrite Hx. }
    by apply upd_cur_wf.
  - intros j. rewrite Hproc. by case_decide.
  - intros j. rewrite Hproc. by case_decide.
Qed.

Lemma put_root_ok s r s' : put_root s = Ok (r, s') → files_wf (fst s) →
  exit_frame (fst s) (fst s') ∧ files_wf (fst s') ∧
  (∀ j, p_file_table (process_table (fst s') j) = p_file_table (process_table (fst s) j)) ∧
  (∀ j, p_ppid (process_table (fst s') j) = p_ppid (process_table (fst s) j)).
Proof.
  unfold put_root. intros H Hwf. rewrite in_kernel_upd_cur, kget_run in H. cbn [fst] in H.
  set (f := λ p : process, p <| p_root_inode ::= λ g, g <| count ::= λ n, n - 1 |> |>) in *.
  apply (put_inode_ok s (set_proc (current_process (fst s)) f (fst s), snd s) s' f); try done. cbn [fst].
  destruct (_ =? 0); [|by injection H as _ <-]. destruct (p_root_fs _); [|done].
  by apply iput_keeps in H.
Qed.
Lemma put_cwd_ok s r s' : put_cwd s = Ok (r, s') → files_wf (fst s) →
  exit_frame (fst s) (fst s') ∧ files_wf (fst s') ∧
  (∀ j, p_file_table (process_table (fst s') j) = p_file_table (process_table (fst s) j)) ∧
  (∀ j, p_ppid (process_table (fst s') j) = p_ppid (process_table (fst s) j)).
Proof.
  unfold put_cwd. intros H Hwf. rewrite in_kernel_upd_cur, kget_run in H. cbn [fst] in H.
  set (f := λ p : process, p <| p_cwd_inode ::= λ g, g <| count ::= λ n, n - 1 |> |>) in *.
  apply (put_inode_ok s (set_proc (current_process (fst s)) f (fst s), snd s) s' f); try done. cbn [fst].
  destruct (_ =? 0); [|by injection H as _ <-]. destruct (p_cwd_fs _); [|done].
  by apply iput_keeps in H.
Qed.

Lemma exit_prologue_ok status s r s' : files_wf (fst s) → exit_prologue status s = Ok (r, s') →
  exit_ready (fst s) (fst s') status.
Proof.
  intros Hwf H. unfold exit_prologue in H.
  apply bind_inv in H as ([] & s1 & H1 & H).
  apply close_all_ok in H1 as (W1 & X1 & P1 & T1 & N1); [|intros i; rewrite seq_elem; lia|done].
  destruct (reparent_ok all_procs (fst s1)) as (k2 & R2 & C2 & Q2 & F2 & T2); [apply NoDup_seq|].
  rewrite (in_kernel_run _ _ s1 tt k2 R2) in H.
  assert (Hor : ∀ p, p_state (orphan (fst s1) p) = p_state p ∧ p_file_table (orphan (fst s1) p) = p_file_table p ∧
    strip_exit (orphan (fst s1) p) = strip_exit p) by (intros p; unfold orphan; by case_match).
  assert (X2 : exit_frame (fst s1) k2).
  { split; [done|done|]. intros j. rewrite T2. case_decide; [apply Hor|done]. }
  assert (Ht2 : ∀ j, p_file_table (process_table k2 j) = p_file_table (process_table (fst s1) j)).
  { intros j. rewrite T2. case_decide; [apply Hor|done]. }
  assert (W2 : files_wf k2).
  { eapply files_wf_frame; [exact W1|done| |exact Ht2|by rewrite F2|by rewrite F2].
    intros j. rewrite T2. case_decide; [apply Hor|done]. }
  apply bind_inv in H as (r3 & s3 & H3 & H). apply put_root_ok in H3 as (X3 & W3 & T3 & P3); [|done].
  apply bind_inv in H as (r4 & s4 & H4 & H). apply put_cwd_ok in H4 as (X4 & W4 & T4 & P4); [|done].
  cbn [fst] in *. rewrite in_kernel_upd_cur in H. apply arch_exit_keeps in H. cbn [fst] in H.
  assert (X5 : exit_frame (fst s4) (fst s')).
  { rewrite H. eapply (exit_frame_cur _ _ (λ p, p <| p_exit_code := u8 status |>)); [done|done|done|].
    intros j. rewrite set_proc_lookup. by repeat case_decide. }
  assert (Hc : current_process (fst s4) = current_process (fst s)).
  { rewrite (xf_current _ _ X4), (xf_current _ _ X3), C2. apply X1. }
  split.
  - etrans; [exact X1|]. etrans; [exact X2|]. etrans; [exact X3|]. by etrans.
  - rewrite H. by apply upd_cur_wf.
  - intros fd Hfd. rewrite H. unfold cur. rewrite set_proc_current, set_proc_eq.
    change (p_file_table (process_table (fst s4) (current_process (fst s4))) fd = None).
    rewrite Hc, T4, T3, Ht2. rewrite <- (xf_current _ _ X1). apply N1. left. apply seq_elem. lia.
  - intros j Hj. rewrite H. transitivity (p_ppid (process_table (fst s4) j)).
    { rewrite set_proc_lookup. by case_decide. }
    rewrite P4, P3, T2, decide_True by (by apply all_procs_elem).
    assert (Hpid : p_pid (cur (fst s1)) = p_pid (cur (fst s))).
    { unfold cur. rewrite (xf_current _ _ X1). by apply (exit_frame_field p_pid _ _ _ X1). }
    assert (Hne : not_exited (process_table (fst s1) j) = not_exited (process_table (fst s) j)).
    { by apply (exit_frame_field not_exited _ _ _ X1). }
    unfold orphan. rewrite Hne, P1, Hpid. case_match; [done|apply P1].
  - rewrite H. unfold cur. by rewrite set_proc_current, set_proc_eq.
Qed.

Lemma effect_pending t p b : 0 <= b → Z.testbit (p_sigpending p) b = true →
  Z.testbit (p_sigpending (schedule_effect t p)) b = true.
Proof.
  intros Hb H. assert (He : Z.testbit (p_sigpending (expire_alarm t p)) b = true).
  { unfold expire_alarm, raise_alarm. case_match; [|done]. rec_simpl.
    rewrite bit_set_spec by (unfold SIGALRM; lia). by rewrite H, orb_true_r. }
  unfold schedule_effect, wake_signalled, expire_tty. repeat case_match; done.
Qed.

Lemma stays_dead t p : p_state p = PROC_ZOMBIE ∨ p_state p = PROC_EXITED →
  p_tty_block p = NO_TTY_BLOCK → schedule_effect t p = expire_alarm t p.
Proof.
  intros Hs Ht. unfold schedule_effect. set (p1 := expire_alarm t p).
  assert (H1 : p_state p1 = p_state p ∧ p_tty_block p1 = p_tty_block p) by (unfold p1, expire_alarm; by case_match).
  destruct H1 as [E1 E2]. assert (expire_tty t p1 = p1) as -> by (unfold expire_tty, tty_expired; by rewrite E2, Ht).
  unfold wake_signalled, signalled. rewrite E1. by destruct Hs as [-> | ->].
Qed.

Definition exit_finish : M (kernel * D) bool :=
  ppid ← kget (λ k, p_ppid (cur k));
  exit_notice ppid ;;
  c ← kget current_process;
  in_kernel (adjust_proc_queues c) ;;
  in_kernel schedule.

Lemma kernel_exit_split status s s1 : exit_prologue status s = Ok (tt, s1) →
  kernel_exit status s = exit_finish s1.
Proof.
  intros H. unfold exit_prologue in H. unfold kernel_exit.
  apply bind_inv in H as ([] & s2 & H2 & H). rewrite (bind_ok _ _ _ _ _ H2). clear H2.
  apply bind_inv in H as ([] & s3 & H3 & H). rewrite (bind_ok _ _ _ _ _ H3). clear H3.
  apply bind_inv in H as ([] & s4 & H4 & H). rewrite (bind_ok _ _ _ _ _ H4). clear H4.
  apply bind_inv in H as ([] & s5 & H5 & H). rewrite (bind_ok _ _ _ _ _ H5). clear H5.
  apply bind_inv in H as ([] & s6 & H6 & H). rewrite (bind_ok _ _ _ _ _ H6). clear H6.
  by rewrite (bind_ok _ _ _ _ _ H).
Qed.

(** The state of a process that has exited, by whether it has a parent. *)
Definition exit_state (ppid : Z) : proc_state := if ppid =? 0 then PROC_EXITED else PROC_ZOMBIE.

(** The change of state and the notification of the parent. *)
Lemma exit_notice_ok s : let c := current_process (fst s) in let ppid := p_ppid (cur (fst s)) in
  0 <= ppid < Z.of_nat NR_PROC →
  ∃ s', exit_notice ppid s = Ok (tt, s') ∧
  only_pending (set_proc c (λ p, p <| p_state := exit_state ppid |>) (fst s)) (fst s') ∧
  file_table (fst s') = file_table (fst s) ∧
  (0 < ppid → Z.to_nat ppid ≠ c →
   sig_permission (cur (fst s)) (process_table (fst s) (Z.to_nat ppid)) = true →
   p_state (process_table (fst s) (Z.to_nat ppid)) ≠ PROC_STOPPED →
   Z.testbit (p_sigpending (process_table (fst s') (Z.to_nat ppid))) (SIGCHLD - 1) = true).
Proof.
  intros c ppid Hb. unfold exit_notice, exit_state. destruct (Z.eqb_spec ppid 0) as [E|E]; cbn [negb].
  - eexists. split; [reflexivity|]. split; [done|]. split; [done|lia].
  - rewrite in_kernel_upd_cur. fold c.
    set (k1 := set_proc c (λ p, p <| p_state := PROC_ZOMBIE |>) (fst s)).
    assert (Hk : ∃ r2 k2, kernel_kill ppid SIGCHLD k1 = Ok (r2, k2) ∧
      send_signal (Z.to_nat ppid) SIGCHLD k1 = Ok (r2, k2)).
    { unfold kernel_kill. change ((SIGCHLD <? 0) || (NSIG <? SIGCHLD)) with false. cbv iota.
      rewrite (proj2 (Z.ltb_lt 0 ppid)), (proj2 (Z.ltb_lt ppid _)) by lia.
      rewrite send_signal_eq. cbv zeta. destruct (negb _); by eexists _, _. }
    destruct Hk as (r2 & k2 & Hk & Hs). rewrite (in_kernel_run _ _ (k1, snd s) r2 k2 Hk).
    eexists. split; [reflexivity|]. cbn [fst]. split; [by eapply kernel_kill_pending|].
    split; [by rewrite (sr_files _ _ (kernel_kill_rest _ _ _ _ _ Hk))|].
    intros _ Hne Hperm Hns. rewrite send_signal_eq in Hs. cbv zeta in Hs.
    assert (process_table k1 (Z.to_nat ppid) = process_table (fst s) (Z.to_nat ppid)) as E1
      by (unfold k1; by rewrite set_proc_ne).
    assert (sig_permission (cur k1) (process_table k1 (Z.to_nat ppid)) = true) as E2.
    { rewrite E1, <- Hperm. unfold sig_permission, cur, k1. rewrite set_proc_current. fold c.
      by rewrite set_proc_eq. }
    rewrite E2, E1 in Hs. cbn [negb] in Hs. rewrite (bool_decide_eq_false_2 (p_state _ = _)) in Hs by done.
    change ((SIGCHLD =? SIGKILL) || negb (SIGCHLD =? 0) && negb false) with true in Hs. injection Hs as _ <-.
    rewrite set_proc_eq. rec_simpl. rewrite bit_set_spec by (unfold SIGCHLD; lia).
    by rewrite bool_decide_eq_true_2.
Qed.

(** What the dead process and the others look like after [exit_finish]: [k] is the kernel
    before it. *)
Record exit_done (k k' : kernel) (st : proc_state) (pend : nat → Z) : Prop := {
  ed_sched : sched_wf k';
  ed_chosen : chosen k' (current_process k');
  ed_other : current_process k' ≠ current_process k;
  ed_files : file_table k' = file_table k;
  ed_dead : ∃ x a, strip (process_table k' (current_process k)) =
    strip ((cur k) <| p_state := st |> <| p_sigpending := x |> <| p_alarm := a |>);
  ed_rest j : j ≠ current_process k →
    strip (process_table k' j) = strip (ran (looped (timer_ticks k)
      (λ j, (process_table k j) <| p_sigpending := pend j |>)) (current_process k') j);
  ed_runs : runnable (looped (timer_ticks k)
    (λ j, (process_table k j) <| p_sigpending := pend j |>) (current_process k')) = true
}.

Lemma exit_finish_ok s ls : sched_inv (fst s) ls → (0 < current_process (fst s) < NR_PROC)%nat →
  let ppid := p_ppid (cur (fst s)) in 0 <= ppid < Z.of_nat NR_PROC →
  p_tty_block (cur (fst s)) = NO_TTY_BLOCK →
  ∃ sw s' pend, exit_finish s = Ok (sw, s') ∧ exit_done (fst s) (fst s') (exit_state ppid) pend ∧
  (0 < ppid → Z.to_nat ppid ≠ current_process (fst s) →
   sig_permission (cur (fst s)) (process_table (fst s) (Z.to_nat ppid)) = true →
   p_state (process_table (fst s) (Z.to_nat ppid)) ≠ PROC_STOPPED →
   Z.testbit (pend (Z.to_nat ppid)) (SIGCHLD - 1) = true).
Proof.
  intros Hinv Hc ppid Hb Htty. set (k := fst s) in *. set (c := current_process k) in *.
  set (st := exit_state ppid).
  assert (Hst : st = PROC_ZOMBIE ∨ st = PROC_EXITED) by (unfold st, exit_state; case_match; auto).
  destruct (exit_notice_ok s Hb) as (s1 & H1 & Hop & Hf & Hchld). fold k c ppid st in H1, Hop, Hchld. fold k in Hf.
  unfold exit_finish. rewrite kget_run. fold k ppid. rewrite (bind_ok _ _ _ _ _ H1).
  set (kF := set_proc c (λ p, p <| p_state := st |>) k) in *. set (kG := fst s1) in *.
  rewrite kget_run. fold kG.
  assert (HcG : current_process kG = c) by (by rewrite (op_current _ _ Hop)). rewrite HcG.
  assert (HkG : ∀ j, process_table kG j = (process_table kF j) <| p_sigpending := p_sigpending (process_table kG j) |>)
    by apply (op_proc _ _ Hop).
  destruct (sched_inv_adjust_gen k kG ls c Hinv) as (kH & RH & SH & IH).
  { eapply qrep_same_links; [by apply only_pending_links|]. apply qrep_set_proc; [keeps_links|apply Hinv]. }
  { lia. }
  { intros j. rewrite HkG. unfold kF. rewrite set_proc_lookup. by case_decide. }
  { intros j Hj. rewrite HkG. unfold kF. by rewrite set_proc_ne. }
  { lia. }
  rewrite (in_kernel_run _ _ s1 tt kH RH). unfold in_kernel, zoom. cbn [fst snd].
  destruct (schedule_table _ _ IH) as (sw' & k' & ls' & R' & I' & C' & Hsw & HT & Hrun & Htk).
  rewrite R'. eexists _, _, (λ j, p_sigpending (process_table kG j)). split; [reflexivity|]. cbn [fst].
  split; [|exact Hchld].
  assert (HtH : timer_ticks kH = timer_ticks k).
  { rewrite (sbl_rest _ _ SH). apply (op_ticks _ _ Hop). }
  assert (Hl : ∀ j, strip (looped (timer_ticks kH) (process_table kH) j) =
    strip (looped (timer_ticks k) (process_table kG) j)).
  { intros j. rewrite HtH. apply looped_strip, (sbl_proc _ _ SH). }
  assert (HcL : ∃ x a, looped (timer_ticks k) (process_table kG) c =
    (cur k) <| p_state := st |> <| p_sigpending := x |> <| p_alarm := a |>).
  { unfold looped. rewrite decide_True by lia.
    rewrite stays_dead by (rewrite HkG; unfold kF; rewrite set_proc_eq; done).
    unfold expire_alarm, raise_alarm. rewrite HkG. unfold kF. rewrite set_proc_eq.
    case_match; [exists (bit_set (p_sigpending (process_table kG c)) (SIGALRM - 1)), NO_ALARM
      |exists (p_sigpending (process_table kG c)), (p_alarm (cur k))]; reflexivity. }
  destruct HcL as (x & al & HcL).
  assert (Hne : current_process k' ≠ c).
  { intros E. rewrite E in Hrun. rewrite (runnable_strip _ _ (Hl c)), HcL in Hrun. unfold runnable in Hrun. rec_simpl. by destruct Hst as [-> | ->]. }
  assert (HjL : ∀ j, j ≠ c → looped (timer_ticks k) (process_table kG) j =
    looped (timer_ticks k) (λ i, (process_table k i) <| p_sigpending := p_sigpending (process_table kG i) |>) j).
  { intros j Hj. assert (process_table kG j = (process_table k j) <| p_sigpending := p_sigpending (process_table kG j) |>) as E.
    { rewrite HkG at 1. unfold kF. by rewrite set_proc_ne. }
    unfold looped. destruct (decide (j < NR_PROC)%nat); [f_equal|]; exact E. }
  split; [by exists ls'|done|done| | | |].
  - rewrite (sr_files _ _ (schedule_rest _ _ _ R')), (sr_files _ _ (adjust_proc_queues_rest _ _ _ _ RH)). done.
  - exists x, al. fold c. rewrite HT. unfold ran. rewrite decide_False by done. rewrite Hl. by f_equal.
  - intros j Hj. rewrite HT. apply ran_strip. by rewrite Hl, HjL.
  - rewrite <- HjL, <- Hrun by done. symmetry. apply runnable_strip, Hl.
Qed.

Lemma exit_done_files k k' st pend : files_wf k → dead_quiet k →
  (∀ fd, (fd < NR_OPEN)%nat → p_file_table (cur k) fd = None) → exit_done k k' st pend → files_wf k'.
Proof.
  intros Hwf Hd Hn [Hs Hch Hne Hf (x & a & Hdead) Hr Hrun]. destruct Hch as (Hc & Hst & _).
  set (T := λ j, (process_table k j) <| p_sigpending := pend j |>) in *.
  assert (HE : ∀ i, (i < NR_PROC)%nat → let p := looped (timer_ticks k) T i in
    exited p = exited (process_table k i) ∧ (p_state p = PROC_ZOMBIE → p_state (process_table k i) = PROC_ZOMBIE)).
  { intros i Hi p. unfold p, looped. rewrite decide_True by done. apply (effect_state (timer_ticks k) (T i)). exact (Hd i Hi). }
  assert (HF : ∀ i, p_file_table (looped (timer_ticks k) T i) = p_file_table (process_table k i)).
  { intros i. unfold looped. case_decide; [apply (effect_file_table _ (T i))|done]. }
  apply (files_wf_died k); try done.
  - split; [done|]. unfold cur, exited. by rewrite Hst.
  - intros i Hi Hic. change (exited (process_table k' i)) with (exited (strip (process_table k' i))).
    change (p_state (process_table k' i)) with (p_state (strip (process_table k' i))).
    rewrite Hr by done. unfold ran. case_decide as Hi'; [|by apply HE]. subst i.
    split; [|done]. rewrite <- (proj1 (HE _ Hc)). destruct (exited (looped _ T _)) eqn:E; [|done].
    apply exited_not_runnable in E. congruence.
  - intros i. change (p_file_table (strip (process_table k' i)) = p_file_table (process_table k i)).
    destruct (decide (i = current_process k)) as [->|Hi]; [by rewrite Hdead|].
    rewrite Hr by done. rewrite <- HF. unfold ran. by case_decide.
Qed.
Lemma exit_done_field {A} (g : process → A) k k' st pend j : exit_done k k' st pend →
  j ≠ current_process k → (∀ p, g (strip p) = g p) → (∀ p x, g (p <| p_sigpending := x |>) = g p) →
  (∀ t p, g (schedule_effect t p) = g p) → (∀ p, g (p <| p_state := PROC_RUNNING |>) = g p) →
  g (process_table k' j) = g (process_table k j).
Proof.
  intros H Hj G1 G2 G3 G4. rewrite <- G1, (ed_rest _ _ _ _ H), G1 by done.
  transitivity (g ((process_table k j) <| p_sigpending := pend j |>)); [|apply G2].
  unfold ran, looped. repeat case_decide; by rewrite ?G4, ?G3.
Qed.
Lemma effect_ppid t p : p_ppid (schedule_effect t p) = p_ppid p.
Proof.
  unfold schedule_effect, wake_signalled, expire_tty, expire_alarm, raise_alarm. repeat case_match; done.
Qed.
End exit.

(** ** Waiting *)

Section wait.
Context `{USP : UserSpace}.

(** A zombie that a call collects. *)
Definition collected (pid : Z) (k : kernel) (i : nat) : bool :=
  is_child pid k i && (wanted pid k i && bool_decide (p_state (process_table k i) = PROC_ZOMBIE)).
Definition bury (p : process) : process := p <| p_state := PROC_EXITED |>.
Definition buried (pid : Z) (k : kernel) (l : list nat) (j : nat) : process :=
  if decide (j ∈ l) then if collected pid k j then bury (process_table k j) else process_table k j
  else process_table k j.

Lemma reap_ok stat_loc i k : ∃ m,
  reap stat_loc i k = Ok (p_pid (process_table k i), set_proc i bury k <| user_mem := m |>).
Proof.
  unfold reap. change ((get ≫= ?m) k) with (m k k). cbv beta zeta.
  destruct (negb (stat_loc =? 0) && check_user_ptr k stat_loc); 
    [by exists (<[stat_loc := u32 (p_exit_code (process_table k i))]> (user_mem k))|by exists (user_mem k)].
Qed.

(** What a call looks at does not depend on the processes already collected. *)
Lemma collected_frame pid k k' i j : current_process k' = current_process k → i ≠ j →
  p_state (cur k) ≠ PROC_ZOMBIE → p_state (process_table k i) = PROC_ZOMBIE →
  (∀ j, i ≠ j → process_table k' j = process_table k j) →
  is_child pid k' j = is_child pid k j ∧ wanted pid k' j = wanted pid k j.
Proof.
  intros Hc Hij Hz Hzi Hp. assert (Hcur : cur k' = cur k).
  { unfold cur. rewrite Hc. apply Hp. intros ->. by apply Hz. }
  unfold is_child, wanted. by rewrite Hcur, Hp.
Qed.

Definition last_pid_of (k : kernel) (l : list nat) (d : Z) : Z :=
  fold_left (λ _ i, p_pid (process_table k i)) l d.

Lemma last_pid_of_ext k k1 l : ∀ d, (∀ x, x ∈ l → process_table k1 x = process_table k x) →
  last_pid_of k1 l d = last_pid_of k l d.
Proof.
  unfold last_pid_of. induction l as [|x l IH]; intros d H; [done|]. cbn [fold_left].
  rewrite H by (by left). apply IH. intros y Hy. apply H. by right.
Qed.

Lemma wait_loop_ok pid stat_loc l : ∀ k a, NoDup l → p_state (cur k) ≠ PROC_ZOMBIE →
  ∃ k', wait_loop pid stat_loc l a k = Ok (MkWait
      (last_pid_of k (List.filter (collected pid k) l) (w_ret a))
      (w_flag a + Z.of_nat (length (List.filter (collected pid k) l)))
      (w_children a + Z.of_nat (length (List.filter (is_child pid k) l))), k') ∧
    (∀ j, process_table k' j = buried pid k l j) ∧
    k' = k <| process_table := process_table k' |> <| user_mem := user_mem k' |>.
Proof.
  induction l as [|i l IH]; intros k a Hnd Hz.
  { exists k. split; [destruct a; simpl; by rewrite !Z.add_0_r|]. split; [done|by destruct k]. }
  apply NoDup_cons in Hnd as [Hi Hnd]. cbn [wait_loop List.filter].
  change ((get ≫= ?m) k) with (m k k). cbv beta.
  change (wanted pid k i && _) with (wanted pid k i && bool_decide (p_state (process_table k i) = PROC_ZOMBIE)).
  assert (Hskip : collected pid k i = false → ∀ k', (∀ j, process_table k' j = buried pid k l j) →
    ∀ j, process_table k' j = buried pid k (i :: l) j).
  { intros Hcol k' H j. rewrite H. unfold buried. destruct (decide (j = i)) as [->|Hji].
    - rewrite decide_False by done. rewrite decide_True by (by left). by rewrite Hcol.
    - apply decide_ext. rewrite elem_of_cons. naive_solver. }
  assert (Hcu : collected pid k i = is_child pid k i && (wanted pid k i
    && bool_decide (p_state (process_table k i) = PROC_ZOMBIE))) by done.
  rewrite Hcu. destruct (is_child pid k i) eqn:Hch; cbn [andb];
    [destruct (wanted pid k i && _) eqn:Hw|].
  - destruct (reap_ok stat_loc i k) as [m Hr]. rewrite (bind_ok _ _ _ _ _ Hr).
    set (k1 := set_proc i bury k <| user_mem := m |>).
    apply andb_true_iff in Hw as [Hw Hzi]. pose proof Hzi as Hzi'. apply bool_decide_eq_true in Hzi'.
    assert (Hic : i ≠ current_process k) by (intros ->; by apply Hz).
    assert (Hp1 : ∀ j, i ≠ j → process_table k1 j = process_table k j)
      by (intros j Hj; exact (set_proc_ne i j bury k Hj)).
    assert (Hcur1 : cur k1 = cur k) by (by apply Hp1).
    destruct (IH k1 (MkWait (p_pid (process_table k i)) (w_flag a + 1) (w_children a + 1)) Hnd) as (k' & R & HT & HK);
      [by rewrite Hcur1|].
    assert (Hcol : ∀ j, i ≠ j → collected pid k1 j = collected pid k j ∧ is_child pid k1 j = is_child pid k j).
    { intros j Hij. destruct (collected_frame pid k k1 i j) as [E1 E2]; [done..|].
      unfold collected. by rewrite E1, E2, Hp1. }
    assert (Hf1 : List.filter (collected pid k1) l = List.filter (collected pid k) l).
    { apply List.filter_ext_in. intros j Hj%list_elem_of_In. apply Hcol. by intros ->. }
    assert (Hf2 : List.filter (is_child pid k1) l = List.filter (is_child pid k) l).
    { apply List.filter_ext_in. intros j Hj%list_elem_of_In. apply Hcol. by intros ->. }
    exists k'. rewrite R, Hf1, Hf2. split; [|split].
    + cbn [length last_pid_of fold_left w_ret w_flag w_children]. f_equal. f_equal. f_equal; [|lia|lia].
      apply last_pid_of_ext. intros x Hx. apply Hp1. intros ->.
      apply list_elem_of_In, List.filter_In in Hx as [Hx _]. by apply Hi, list_elem_of_In.
    + intros j. rewrite HT. unfold buried. destruct (decide (j = i)) as [->|Hji].
      * rewrite decide_False by done. rewrite decide_True by (by left).
        rewrite Hcu, ?Hch, ?Hw, ?Hzi. cbn [andb]. exact (set_proc_eq i bury k).
      * rewrite (proj1 (Hcol j (not_eq_sym Hji))), Hp1 by done. apply decide_ext. rewrite elem_of_cons. naive_solver.
    + rewrite HK. done.
  - destruct (IH k (MkWait (w_ret a) (w_flag a) (w_children a + 1)) Hnd Hz) as (k' & R & HT & HK).
    exists k'. rewrite R. split; [cbn [length w_ret w_flag w_children]; f_equal; f_equal; f_equal; lia|].
    split; [|done]. apply Hskip; [|done]. unfold collected. by rewrite Hch, Hw.
  - destruct (IH k a Hnd Hz) as (k' & R & HT & HK). exists k'. rewrite R.
    split; [done|]. split; [|done]. apply Hskip; [|done]. unfold collected. by rewrite Hch.
Qed.
End wait.

(** ** A small system for the examples: no work in the architecture *)
Module LifeDemo.
#[export] Instance arch : Arch unit := {
  arch_fork child _ := mret child;
  arch_exit := mret tt;
  arch_exec_elf _ _ _ _ := mret 0
}.
#[export] Instance laws : ArchLaws unit.
Proof. by split; [intros child proc s r s' [= _ <-]|intros s r s' [= _ <-]]. Qed.

Lemma table_empty j fd : p_file_table (process_table Demo.k j) fd = None.
Proof.
  destruct (decide (j ≤ 2)%nat).
  - destruct j as [|[|[|j]]]; [done..|lia].
  - by rewrite Demo.table_other by lia.
Qed.
Lemma files : files_wf Demo.k.
Proof.
  split.
  - intros f _. symmetry. apply zsum_0. intros i _. unfold proc_refs. case_match; [done|].
    apply zsum_0. intros fd _. by rewrite table_empty.
  - intros i fd f _ _ _. by rewrite table_empty.
  - split; [unfold NR_PROC; simpl; lia|]. by vm_compute.
  - intros i fd _ _ _. apply table_empty.
Qed.
(** The second process runs; its parent is the first. *)
Definition k2 : kernel := Demo.k <| current_process := 2%nat |>.
Lemma files2 : files_wf k2.
Proof.
  apply (files_wf_relax Demo.k); [apply files| |done..].
  split; [unfold NR_PROC; simpl; lia|]. by vm_compute.
Qed.
Lemma wf2 : sched_wf k2.
Proof. exists Demo.ls. by apply (sched_inv_ext Demo.k _ _ Demo.inv). Qed.
Lemma quiet : dead_quiet Demo.k.
Proof.
  intros j _ _. destruct (decide (j ≤ 2)%nat).
  - destruct j as [|[|[|j]]]; [done..|lia].
  - by rewrite Demo.table_other by lia.
Qed.
End LifeDemo.
#[local] Existing Instances FilesDemo.driver FilesDemo.user FilesDemo.laws LifeDemo.arch LifeDemo.laws.

(** ** Properties *)

(** the system starts well formed: [processes_init] leaves the idle process as the
    only one, alone on the queue of the lowest priority, and the run queues satisfy the
    invariant of the scheduler. *)
Theorem processes_init_establishes k : (∀ i, process_table k i = process_zero) →
  ∃ k', processes_init k = Ok (tt, k') ∧ sched_wf k' ∧ current_process k' = 0%nat.
Proof.
  intros Hz. destruct (processes_init_ok k Hz) as (k' & R & I & C). exists k'.
  split; [done|]. split; [by exists boot_ls|done].
Qed.
Lemma processes_init_establishes_witness :
  ∃ k', processes_init kernel_zero = Ok (tt, k') ∧ sched_wf k'.
Proof. destruct (processes_init_establishes kernel_zero) as (k' & H1 & H2 & _); [done|by exists k']. Defined.

(** C36: [fork]. With no free entry in the process table it fails with [EAGAIN] and changes
    nothing. Otherwise, once the architecture has copied the address space, there is a new process
    that can run, has the caller as its parent, the same identity and the same descriptors; the
    counts of the open files and the run queues stay right. The caller gets the id of its child
    when it goes on running. When another process is chosen at the end of the call, it gets the
    [last_pid] of the moment at which it runs again, which is the id of its child only if no
    process has forked in the meantime. *)
Theorem fork_correct {D} `{FsDriver D} `{Arch D} `{!ArchLaws D} k (d : D) :
  files_wf k → sched_wf k → dead_quiet k →
  (find_proc exited k all_procs = None → kernel_fork (k, d) = Ok (Some (- EAGAIN), (k, d))) ∧
  (∀ i r s1, find_proc exited k all_procs = Some i →
     arch_fork (Z.of_nat i) i (set_proc i (λ _, cur k) (k <| last_pid := Z.of_nat i |>), d) = Ok (r, s1) →
     0 <= r →
     ∃ away s', kernel_fork (k, d) = Ok (if away : bool then None else Some (Z.of_nat i), s') ∧
       away = bool_decide (current_process (fst s') ≠ current_process k) ∧ last_pid (fst s') = Z.of_nat i ∧
       files_wf (fst s') ∧ sched_wf (fst s') ∧ dead_quiet (fst s') ∧
       child_of (cur k) (Z.of_nat i) (process_table (fst s') i) ∧
       ∀ f, f_count (file_table (fst s') f) = f_count (file_table k f) + fd_refs (p_file_table (cur k)) f) ∧
  (∀ was k1, ∃ k2, fork_return was k1 = Ok (last_pid k1, k2)).
Proof.
  intros Hwf [ls Hinv] Hdq. split; [|split; [|by intros [] k1; eexists]].
  { intros Hn. unfold kernel_fork. rewrite (in_kernel_run _ _ _ None k); [done|].
    unfold get_free_proc. rewrite gets_run. cbn [fst]. by rewrite Hn. }
  intros i r [k1' d1] Hf Ha Hr. pose proof (arch_fork_keeps _ _ _ _ _ Ha) as Hk1. cbn [fst] in Hk1. subst k1'.
  destruct (find_proc_inv _ _ _ _ Hf) as [Hi%all_procs_elem He].
  set (k1 := set_proc i (λ _, cur k) (k <| last_pid := Z.of_nat i |>)) in *.
  assert (Hcur : cur k1 = cur k).
  { unfold cur, k1. rewrite set_proc_current. rec_simpl. rewrite set_proc_lookup. by case_decide. }
  destruct (fork_tail_ready k ls d1 i (cur k) Hwf Hinv Hdq eq_refl Hi He) as (k6 & R6 & F6). fold k1 in R6.
  pose proof (fr_sched _ _ _ F6) as [ls6 I6].
  destruct (schedule_table k6 ls6 I6) as (sw & k7 & ls7 & R7 & I7 & C7 & Hsw & T7 & Hrun & _).
  pose proof (schedule_rest _ _ _ R7) as Hrest.
  assert (Hlast : last_pid k7 = Z.of_nat i) by (by rewrite (sr_last_pid _ _ Hrest), (fr_last _ _ _ F6)).
  assert (Hrun_fork : kernel_fork (k, d) = Ok (if sw then None else Some (Z.of_nat i), (k7, d1))).
  { unfold kernel_fork. rewrite (in_kernel_run _ _ _ (Some i) (k <| last_pid := Z.of_nat i |>)).
    - rewrite kget_run. cbn [fst snd].
      change (cur (k <| last_pid := Z.of_nat i |>)) with (cur k).
      change ((in_kernel (upd_proc i (λ _, cur k)) ≫= ?m) (k <| last_pid := Z.of_nat i |>, d)) with (m tt (k1, d)).
      cbv beta. rewrite kget_run. change (last_pid (fst (k1, d))) with (Z.of_nat i).
      rewrite (bind_ok _ _ _ _ _ Ha). rewrite (proj2 (Z.ltb_ge r 0)) by done.
      rewrite kget_run. change (last_pid (fst (k1, d1))) with (Z.of_nat i).
      rewrite kget_run. cbn [fst]. rewrite Hcur. etrans; [exact R6|].
      unfold fork_end. rewrite (in_kernel_run schedule _ (k6, d1) sw k7 R7).
      destruct sw; [done|]. rewrite kget_run. cbn [fst]. by rewrite Hlast.
    - unfold get_free_proc. rewrite gets_run. cbn [fst]. by rewrite Hf. }
  exists sw, (k7, d1). cbn [fst]. split; [exact Hrun_fork|]. rewrite <- (fr_current _ _ _ F6). split; [done|]. split; [done|].
  split; [eapply (ran_files_wf k6); [apply F6|apply F6|exact C7|exact T7|exact Hrun|apply Hrest]|].
  split; [by exists ls7|]. split; [by eapply ran_dead_quiet; [apply F6|exact T7]|]. split.
  - change (child_of (cur k) (Z.of_nat i) (strip (process_table k7 i))). rewrite T7.
    apply child_ran. apply F6.
  - intros f. rewrite (sr_files _ _ Hrest). apply F6.
Qed.
(** A fork of process 1, which goes on running. Below, the idle process forks child 3, process 1
    is chosen and forks child 4; the idle process then takes 4 for the id of its child. *)
Lemma fork_correct_witness :
  (∃ s', kernel_fork (Demo.k, tt) = Ok (Some 3, s') ∧ files_wf (fst s') ∧ sched_wf (fst s') ∧
    p_ppid (process_table (fst s') 3) = 1) ∧
  match kernel_fork (Demo.k <| current_process := 0%nat |>, tt) with
  | Ok (None, s1) =>
      last_pid (fst s1) = 3 ∧ p_ppid (process_table (fst s1) 3) = 0 ∧
      match kernel_fork s1 with
      | Ok (Some r, s2) => r = 4 ∧ match fork_return true (fst s2) with Ok (r, _) => r = 4 | _ => False end
      | _ => False
      end
  | _ => False
  end.
Proof.
  split; [|by vm_compute].
  destruct (fork_correct Demo.k tt LifeDemo.files Demo.wf LifeDemo.quiet) as (_ & Hf & _).
  destruct (Hf 3%nat 3 (set_proc 3 (λ _, cur Demo.k) (Demo.k <| last_pid := 3 |>), tt))
    as (away & s' & R & Ha & _ & H1 & H2 & _ & H3 & _); [by vm_compute|reflexivity|done|].
  assert (away = false) as ->.
  { destruct away; [|done]. exfalso. by vm_compute in R. }
  exists s'. split; [exact R|]. split; [done|]. split; [done|]. by destruct H3 as (_ & -> & _).
Defined.

(** C37: [exit]. Once the files are closed and the inodes released, a process with id other than
    0 always gets through: it keeps no descriptor, is a zombie with its exit code (or free when it
    has no parent), another process runs, its children belong to process 1, the parent is told
    with [SIGCHLD], and the descriptor counts and the run queues stay right. *)
Theorem exit_correct {D} `{FsDriver D} `{!FsDriverLaws D} `{Arch D} `{!ArchLaws D} status (s s1 : kernel * D) :
  let k := fst s in let c := current_process k in let ppid := p_ppid (cur k) in
  files_wf k → sched_wf k → dead_quiet k → (0 < c)%nat → p_tty_block (cur k) = NO_TTY_BLOCK →
  p_pid (cur k) = Z.of_nat c → 0 <= ppid < Z.of_nat NR_PROC → ppid ≠ p_pid (cur k) →
  exit_prologue status s = Ok (tt, s1) →
  ∃ sw s', kernel_exit status s = Ok (sw, s') ∧ let k' := fst s' in
    files_wf k' ∧ sched_wf k' ∧ current_process k' ≠ c ∧
    p_state (process_table k' c) = exit_state ppid ∧
    p_exit_code (process_table k' c) = u8 status ∧
    (∀ fd, (fd < NR_OPEN)%nat → p_file_table (process_table k' c) fd = None) ∧
    (∀ j, (j < NR_PROC)%nat → p_ppid (process_table k' j) = p_ppid (orphan k (process_table k j))) ∧
    (0 < ppid → sig_permission (cur k) (process_table k (Z.to_nat ppid)) = true →
     p_state (process_table k (Z.to_nat ppid)) ≠ PROC_STOPPED →
     Z.testbit (p_sigpending (process_table k' (Z.to_nat ppid))) (SIGCHLD - 1) = true).
Proof.
  intros k c ppid Hwf [ls Hinv] Hdq Hc0 Htty Hpid Hb Hself Hp.
  pose proof (fw_current _ Hwf) as (Hcl & _ & _). fold c in Hcl.
  destruct (exit_prologue_ok _ _ _ _ Hwf Hp) as [X1 W1 N1 P1 E1]. fold k in X1, P1.
  assert (Hc1 : current_process (fst s1) = c) by apply X1.
  assert (Hfield : ∀ {A} (g : process → A) j, (∀ p, g (strip_exit p) = g p) →
    g (process_table (fst s1) j) = g (process_table k j)) by (intros; by apply exit_frame_field).
  assert (Hcf : ∀ {A} (g : process → A), (∀ p, g (strip_exit p) = g p) → g (cur (fst s1)) = g (cur k)).
  { intros A g Hg. unfold cur. rewrite Hc1. by apply Hfield. }
  assert (Hpp : p_ppid (cur (fst s1)) = ppid).
  { unfold cur. rewrite Hc1, P1 by done. unfold orphan. change (process_table k c) with (cur k).
    fold ppid. by rewrite (proj2 (Z.eqb_neq ppid _) Hself), andb_false_r. }
  destruct (exit_finish_ok s1 ls (exit_frame_sched _ _ _ X1 Hinv)) as (sw & s' & pend & R & Hd & Hchld);
    rewrite ?Hc1, ?Hpp in *; [lia|done|by rewrite (Hcf _ p_tty_block)|].
  exists sw, s'. split; [by rewrite (kernel_exit_split _ _ _ Hp)|]. cbv zeta.
  assert (Hdq1 : dead_quiet (fst s1)).
  { intros j Hj. rewrite (Hfield _ dead), (Hfield _ p_tty_block) by done. by apply Hdq. }
  pose proof (ed_dead _ _ _ _ Hd) as (x & a & Hdead). rewrite Hc1 in Hdead.
  split; [by eapply exit_done_files|]. split; [apply Hd|]. split; [rewrite <- Hc1; apply Hd|].
  split; [change (p_state (strip (process_table (fst s') c)) = exit_state ppid); by rewrite Hdead|].
  split; [change (p_exit_code (strip (process_table (fst s') c)) = u8 status); by rewrite Hdead|].
  split; [intros fd Hfd; change (p_file_table (strip (process_table (fst s') c)) fd = None); rewrite Hdead; by apply N1|].
  split.
  - intros j Hj. destruct (decide (j = c)) as [->|Hjc].
    + change (p_ppid (strip (process_table (fst s') c)) = p_ppid (orphan k (process_table k c))).
      rewrite Hdead, <- P1 by done. unfold cur. by rewrite Hc1.
    + rewrite <- P1 by done. apply (exit_done_field p_ppid _ _ _ _ _ Hd); try done; [by rewrite Hc1|].
      apply effect_ppid.
  - intros Hpos Hperm Hns.
    assert (Hne : Z.to_nat ppid ≠ c) by lia.
    assert (Hbit : Z.testbit (pend (Z.to_nat ppid)) (SIGCHLD - 1) = true).
    { apply Hchld; [done|done| |by rewrite (Hfield _ p_state)].
      rewrite <- Hperm. unfold sig_permission. rewrite (Hcf _ p_uid), (Hcf _ p_euid) by done.
      by rewrite (Hfield _ p_uid), (Hfield _ p_suid). }
    change (Z.testbit (p_sigpending (strip (process_table (fst s') (Z.to_nat ppid)))) (SIGCHLD - 1) = true).
    rewrite (ed_rest _ _ _ _ Hd) by (by rewrite Hc1). unfold ran.
    assert (Hl : Z.testbit (p_sigpending (looped (timer_ticks (fst s1))
      (λ j, (process_table (fst s1) j) <| p_sigpending := pend j |>) (Z.to_nat ppid))) (SIGCHLD - 1) = true).
    { unfold looped. case_decide; [apply effect_pending; done|done]. }
    by case_decide.
Qed.
Lemma exit_correct_witness :
  ∃ sw s', kernel_exit 300 (LifeDemo.k2, tt) = Ok (sw, s') ∧ current_process (fst s') ≠ 2%nat ∧
    p_state (process_table (fst s') 2) = PROC_ZOMBIE ∧ p_exit_code (process_table (fst s') 2) = 44 ∧
    Z.testbit (p_sigpending (process_table (fst s') 1)) (SIGCHLD - 1) = true.
Proof.
  destruct (exit_prologue 300 (LifeDemo.k2, tt)) as [[[] s1]| | |] eqn:Hp; [|by vm_compute in Hp..].
  destruct (exit_correct 300 (LifeDemo.k2, tt) s1) as (sw & s' & R & _ & _ & H1 & H2 & H3 & _ & _ & H4);
    [apply LifeDemo.files2|apply LifeDemo.wf2|apply LifeDemo.quiet|by vm_compute; lia|done|done| |done|exact Hp|].
  { split; [done|by vm_compute]. }
  exists sw, s'. split; [exact R|]. split; [exact H1|]. split; [exact H2|]. split; [exact H3|].
  by apply H4.
Defined.

(** [waitpid] without a child to wait for fails with [ECHILD]; with zombies it frees every
    one of them that the call matches, in one go, and returns the id of the last, the ids of the
    others being lost; with none of them dead and [WNOHANG] it returns 0. Nothing else in
    the process table changes. *)
Theorem waitpid_correct `{UserSpace} addr fuel pid stat_loc options k :
  p_state (cur k) ≠ PROC_ZOMBIE → Z.land options WCONTINUED = 0 → Z.land options WUNTRACED = 0 →
  let kids := List.filter (is_child pid k) all_procs in
  let dead := List.filter (collected pid k) all_procs in
  ∃ k', (∀ j, process_table k' j = buried pid k all_procs j) ∧
    k' = k <| process_table := process_table k' |> <| user_mem := user_mem k' |> ∧
    (kids = [] → kernel_waitpid addr (S fuel) pid stat_loc options k = Ok (Returned (- ECHILD), k')) ∧
    (kids ≠ [] → dead ≠ [] → kernel_waitpid addr (S fuel) pid stat_loc options k =
       Ok (Returned (last_pid_of k dead 0), k')) ∧
    (kids ≠ [] → dead = [] → Z.land options WNOHANG ≠ 0 →
       kernel_waitpid addr (S fuel) pid stat_loc options k = Ok (Returned 0, k')).
Proof.
  intros Hz H1 H2 kids dead. assert (Hnd : NoDup all_procs) by apply NoDup_seq.
  destruct (wait_loop_ok pid stat_loc all_procs k (MkWait 0 0 0) Hnd Hz) as (k' & R & HT & HK).
  fold kids dead in R. exists k'. split; [done|]. split; [done|].
  cbn [kernel_waitpid]. rewrite H1, H2. cbn [Z.eqb negb orb].
  rewrite (bind_ok _ _ _ _ _ R). cbn [w_ret w_flag w_children].
  assert (Hlen : ∀ l : list nat, (0 + Z.of_nat (length l) =? 0) = bool_decide (l = [])).
  { intros [|x l]; [done|]. cbn [length]. apply Z.eqb_neq. lia. }
  rewrite !Hlen. split; [intros ->; done|].
  split; intros Hk; rewrite (bool_decide_eq_false_2 (kids = [])) by done.
  - intros Hd. by rewrite (bool_decide_eq_false_2 (dead = [])).
  - intros -> Hw. cbn [bool_decide decide_rel]. rewrite bool_decide_eq_true_2 by done. cbn [negb].
    by rewrite (proj2 (Z.eqb_neq _ _) Hw).
Qed.
(** Two dead children, and a call that waits for any: both are freed, only the second is reported. *)
Lemma waitpid_correct_witness :
  let zombie pid p := p <| p_pid := pid |> <| p_ppid := 1 |> <| p_state := PROC_ZOMBIE |> in
  let k := Demo.k <| process_table ::= λ t, <[3%nat := zombie 3 (t 3%nat)]> (<[4%nat := zombie 4 (t 4%nat)]> t) |> in
  ∃ k', kernel_waitpid 0 1 (-1) 0 0 k = Ok (Returned 4, k') ∧
    p_state (process_table k' 3) = PROC_EXITED ∧ p_state (process_table k' 4) = PROC_EXITED.
Proof.
  intros zombie k. destruct (waitpid_correct 0 0 (-1) 0 0 k) as (k' & HT & _ & _ & R & _); [done..|].
  exists k'. split; [|split; rewrite HT; by vm_compute].
  apply R; by vm_compute.
Defined.
