(* ===== verification/Console.v ===== *)
(** Virtual consoles (sys/drivers/virtual_console.c): the screen buffer, the editing
    operations, the interpreter of escape sequences and the flush to the display. The abstract
    specification is a grid of cells with a cursor, which the operations implement. *)
From S2P Require Import Prelude Str.

Definition NPAR : Z := 16.
Definition TAB_STOP : Z := 8.
Definition TTY_BUF_SIZE : Z := 512.
Definition NR_VIRTUAL_CONSOLES : Z := 4.

Definition VC_BOLD : Z := Z.shiftl 1 0.
Definition VC_DIM : Z := Z.shiftl 1 1.
Definition VC_ITALIC : Z := Z.shiftl 1 2.
Definition VC_UNDERLINE : Z := Z.shiftl 1 4.
Definition VC_BLINKING : Z := Z.shiftl 1 5.
Definition VC_REVERSE : Z := Z.shiftl 1 6.
Definition VC_HIDDEN : Z := Z.shiftl 1 7.
Definition VC_STRIKETHROUGH : Z := Z.shiftl 1 8.

Definition ANSI_FG_COLOR_BASE : Z := 30.
Definition ANSI_BG_COLOR_BASE : Z := 40.
Definition ANSI_FG_BRIGHT_COLOR_BASE : Z := 90.
Definition ANSI_BG_BRIGHT_COLOR_BASE : Z := 100.
Definition ANSI_FG_DEFAULT : Z := 39.
Definition ANSI_BG_DEFAULT : Z := 49.
Definition ANSI_FG_BRIGHT_WHITE : Z := 97.
Definition ANSI_BG_BRIGHT_WHITE : Z := 107.

(** [NONE], [RGB] and [INDEXED_COLOR]. *)
Inductive vc_attr_type : Type := NO_COLOR | RGB | INDEXED_COLOR.
Record vc_attr := MkAttr { attr : Z; fg_rgb : Z; bg_rgb : Z; fg_indexed : Z; bg_indexed : Z }.
#[export] Instance vc_attr_eta : Eta vc_attr := λ a,
  MkAttr (attr a) (fg_rgb a) (bg_rgb a) (fg_indexed a) (bg_indexed a).

(** The calls of the display driver ([struct virtual_console_driver]). *)
Inductive vc_event : Type :=
  | vc_blank (cx cy : Z)
  | vc_putc (cx cy c : Z)
  | vc_driver_set_attr (a : vc_attr) (type : vc_attr_type).

(** The two buffers hold bytes, indexed from 0; [vc_out] are the calls of the driver, the
    last one first. *)
Record virtual_console := MkVc {
  vc_cx : Z; vc_cy : Z; vc_saved_cx : Z; vc_saved_cy : Z;
  vc_last_pos : Z; vc_new_last_pos : Z;
  vc_width : Z; vc_height : Z;
  vc_scr_buf : Z → Z; vc_cur_buf : Z → Z; vc_scr_size : Z;
  vc_scroll_top : Z; vc_scroll_bottom : Z;
  vc_attrs : vc_attr;
  vc_out : list vc_event
}.
#[export] Instance vc_eta : Eta virtual_console := λ v, MkVc
  (vc_cx v) (vc_cy v) (vc_saved_cx v) (vc_saved_cy v) (vc_last_pos v) (vc_new_last_pos v)
  (vc_width v) (vc_height v) (vc_scr_buf v) (vc_cur_buf v) (vc_scr_size v)
  (vc_scroll_top v) (vc_scroll_bottom v) (vc_attrs v) (vc_out v).
Definition V (A : Type) : Type := M virtual_console A.

(** The characters of a terminal queue; [tq_head] and [tq_tail] are pointers into
    [tq_buf]. *)
Record tty_queue := MkQueue { tq_buf : Z → Z; tq_head : Z; tq_tail : Z }.
#[export] Instance tq_eta : Eta tty_queue := λ q, MkQueue (tq_buf q) (tq_head q) (tq_tail q).
(** [*p] *)
Definition tq_char (q : tty_queue) (p : Z) : V Z :=
  if (0 <=? p) && (p <? TTY_BUF_SIZE) then mret (tq_buf q p)
  else undef "read outside tq_buf".

Definition SCR_POS (v : virtual_console) : Z := u32 (vc_cy v * vc_width v + vc_cx v).

(** An access to [n] bytes at offset [off] of the screen buffer. *)
Definition in_screen (v : virtual_console) (off n : Z) : bool :=
  (n =? 0) || ((0 <=? off) && (off + n <=? vc_scr_size v)).
Definition scr_memset (off n : Z) : V unit :=
  v ← get;
  if in_screen v off n then modify (λ v, v <| vc_scr_buf ::= memset off 0 (Z.to_nat n) |>)
  else undef "memset outside vc_scr_buf".
Definition scr_memmove (dst src n : Z) : V unit :=
  v ← get;
  if in_screen v dst n && in_screen v src n
  then modify (λ v, v <| vc_scr_buf ::= memmove dst src (Z.to_nat n) |>)
  else undef "memmove outside vc_scr_buf".
(** [*(vc->vc_scr_buf + off) = c] *)
Definition scr_put (off c : Z) : V unit :=
  v ← get;
  if in_screen v off 1 then modify (λ v, v <| vc_scr_buf ::= <[off := c]> |>)
  else undef "write outside vc_scr_buf".

(** ** Scrolling *)

Definition vc_scroll_up : V unit :=
  v ← get;
  let dst := u32 (vc_scroll_top v * vc_width v) in
  let src := dst + vc_width v in
  let count := s32 ((vc_scroll_bottom v - vc_scroll_top v) * vc_width v) in
  scr_memmove dst src (u32 count) ;;
  scr_memset (u32 (vc_scroll_bottom v * vc_width v)) (vc_width v).

(** [while (count--) *dst-- = *src--] on [count] bytes ending at [dst] and [src]. A negative
    [count] goes on until the accesses leave the buffer. *)
Definition scr_copy_down (dst src count : Z) : V unit :=
  v ← get;
  if (0 <=? count) && in_screen v (dst - count + 1) count && in_screen v (src - count + 1) count
  then modify (λ v, v <| vc_scr_buf ::= copy_backward (Z.to_nat count) (dst - count + 1) (src - count + 1) |>)
  else undef "copy outside vc_scr_buf".

Definition vc_scroll_down : V unit :=
  v ← get;
  let dst := u32 (vc_scroll_bottom v * vc_width v + vc_width v - 1) in
  let src := dst - vc_width v in
  let count := s32 ((vc_scroll_bottom v - vc_scroll_top v) * vc_width v) in
  scr_copy_down dst src count ;;
  scr_memset (u32 (vc_scroll_top v * vc_width v)) (vc_width v).

(** ** The cursor *)

Definition vc_linefeed : V unit :=
  v ← get;
  if u32 (vc_cy v + 1) <? vc_height v then modify (λ v, v <| vc_cy ::= λ y, u32 (y + 1) |>)
  else vc_scroll_up.
Definition vc_rlinefeed : V unit :=
  v ← get; when (negb (vc_cy v =? 0)) (modify (λ v, v <| vc_cy ::= λ y, u32 (y - 1) |>)).
Definition vc_carriage_return : V unit := modify (λ v, v <| vc_cx := 0 |>).
Definition vc_tab_stop : V unit :=
  modify (λ v, v <| vc_cx ::= λ x, u32 (x + (TAB_STOP - x mod TAB_STOP)) |>) ;;
  v ← get;
  when (vc_width v <? vc_cx v) (modify (λ v, v <| vc_cx := vc_width v |>)).
Definition vc_save_state : V unit :=
  modify (λ v, v <| vc_saved_cx := vc_cx v |> <| vc_saved_cy := vc_cy v |>).
Definition vc_restore_state : V unit :=
  modify (λ v, v <| vc_cx := vc_saved_cx v |> <| vc_cy := vc_saved_cy v |>).

(** ** Editing. [count] is an [int]. *)

Definition vc_insert_blanks (count : Z) : V unit :=
  v ← get;
  let p := SCR_POS v in
  if vc_width v <=? u32 (vc_cx v + count) then scr_memset p (u32 (vc_width v - vc_cx v))
  else
    scr_memmove (p + count) p (u32 (vc_width v - vc_cx v - count)) ;;
    scr_memset p (u32 count).

(** [while (count--) *p++ = 0] *)
Definition scr_zero (p count : Z) : V unit :=
  if count <? 0 then undef "write outside vc_scr_buf" else scr_memset p count.

Definition clamp_count (v : virtual_console) (count : Z) : Z :=
  if u32 (vc_width v - vc_cx v) <? u32 count then s32 (vc_width v - vc_cx v) else count.
Definition vc_clear_chars (count : Z) : V unit :=
  v ← get; scr_zero (SCR_POS v) (clamp_count v count).
Definition vc_delete_chars (count : Z) : V unit :=
  v ← get;
  let p := SCR_POS v in
  let count := clamp_count v count in
  scr_memmove p (p + count) (u32 (vc_width v - vc_cx v - count)) ;;
  scr_memset (p + count) (u32 (vc_width v - vc_cx v - count)).

Definition vc_clear_screen (par : Z) : V unit :=
  v ← get;
  let pos := s32 (SCR_POS v) in
  if par =? 0 then scr_memset pos (u32 (vc_scr_size v - pos))
  else if par =? 1 then scr_memset 0 (u32 pos)
  else if par =? 2 then scr_memset 0 (vc_scr_size v)
  else mret tt.
Definition vc_clear_line (par : Z) : V unit :=
  v ← get;
  let pos := s32 (SCR_POS v) in
  if par =? 0 then scr_memset pos (u32 (vc_width v - vc_cx v))
  else if par =? 1 then scr_memset (pos - vc_cx v) (vc_cx v)
  else if par =? 2 then scr_memset (pos - vc_cx v) (vc_width v)
  else mret tt.

(** [while (count--)]; with a negative [count] the counter overflows. *)
Fixpoint repeat_times (n : nat) (m : V unit) : V unit :=
  match n with O => mret tt | S n => m ;; repeat_times n m end.
Definition scroll_below (scroll : V unit) (count : Z) : V unit :=
  v ← get;
  modify (λ v, v <| vc_scroll_top := vc_cy v |>) ;;
  modify (λ v, v <| vc_scroll_bottom := u32 (vc_height v - 1) |>) ;;
  (if count <? 0 then undef "signed overflow" else repeat_times (Z.to_nat count) scroll) ;;
  modify (λ w, w <| vc_scroll_top := vc_scroll_top v |>) ;;
  modify (λ w, w <| vc_scroll_bottom := vc_scroll_bottom v |>).
Definition vc_insert_lines (count : Z) : V unit := scroll_below vc_scroll_down count.
Definition vc_delete_lines (count : Z) : V unit := scroll_below vc_scroll_up count.

(** ** Attributes *)

Definition vc_set_default_attr : V unit :=
  modify (λ v, v <| vc_attrs ::= λ a, a <| attr := 0 |> <| fg_indexed := ANSI_FG_DEFAULT |>
    <| bg_indexed := ANSI_BG_DEFAULT |> |>) ;;
  modify (λ v, v <| vc_out ::= cons (vc_driver_set_attr (vc_attrs v) INDEXED_COLOR) |>).

Definition set_indexed (fg : bool) (c : Z) : V unit :=
  modify (λ v, v <| vc_attrs ::= λ a, if fg then a <| fg_indexed := c |> else a <| bg_indexed := c |> |>).
Definition set_rgb (fg : bool) (r g b : Z) : V unit :=
  let c := Z.lor (Z.lor (Z.shiftl r 16) (Z.shiftl g 8)) b in
  modify (λ v, v <| vc_attrs ::= λ a, if fg then a <| fg_rgb := c |> else a <| bg_rgb := c |> |>).

(** Pointers into the array of parameters are indices; the results are the new pointer and
    the type of the colour. *)
Definition vc_set_256 (par : Z → Z) (p : Z) (fg : bool) : V (Z * vc_attr_type) :=
  let n := par p in
  if n <? 8 then
    set_indexed fg (u32 ((if fg then ANSI_FG_COLOR_BASE else ANSI_BG_COLOR_BASE) + n)) ;;
    mret (p + 1, INDEXED_COLOR)
  else if n <? 16 then
    set_indexed fg (u32 ((if fg then ANSI_FG_BRIGHT_COLOR_BASE else ANSI_BG_BRIGHT_COLOR_BASE) + n - 8)) ;;
    mret (p + 1, INDEXED_COLOR)
  else
    (if n <? 232 then
       set_rgb fg (u8 ((n - 16) / 36 * 85 / 2)) (u8 ((n - 16) / 6 mod 6 * 85 / 2)) (u8 ((n - 16) mod 6 * 85 / 2))
     else let c := u8 (u32 (n * 10 - 2312)) in set_rgb fg c c c) ;;
    mret (p + 1, RGB).
Definition vc_set_rgb (par : Z → Z) (p : Z) (fg : bool) : V (Z * vc_attr_type) :=
  set_rgb fg (u8 (par p)) (u8 (par (p + 1))) (u8 (par (p + 2))) ;; mret (p + 3, RGB).
(** It looks at the parameters from the first one on. *)
Definition vc_set_256_rgb (par : Z → Z) (type : vc_attr_type) (fg : bool) : V (Z * vc_attr_type) :=
  if par 1 =? 5 then vc_set_256 par 2 fg
  else if par 1 =? 2 then vc_set_rgb par 2 fg
  else mret (1, type).

Definition or_attr (b : Z) : V unit := modify (λ v, v <| vc_attrs ::= λ a, a <| attr ::= λ x, Z.lor x b |> |>).
Definition clear_attr (b : Z) : V unit :=
  modify (λ v, v <| vc_attrs ::= λ a, a <| attr ::= λ x, Z.land x (Z.lnot b) |> |>).

(** The [switch] of [vc_set_attr]; [false] for an unrecognised parameter. *)
Definition set_attr_param (n : Z) : V bool :=
  if n =? 0 then vc_set_default_attr ;; mret true
  else if n =? 1 then or_attr VC_BOLD ;; mret true
  else if n =? 2 then or_attr VC_DIM ;; mret true
  else if n =? 3 then or_attr VC_ITALIC ;; mret true
  else if n =? 4 then or_attr VC_UNDERLINE ;; mret true
  else if n =? 5 then or_attr VC_BLINKING ;; mret true
  else if n =? 7 then or_attr VC_REVERSE ;; mret true
  else if n =? 8 then or_attr VC_HIDDEN ;; mret true
  else if n =? 9 then or_attr VC_STRIKETHROUGH ;; mret true
  else if n =? 22 then clear_attr VC_BOLD ;; clear_attr VC_DIM ;; mret true
  else if n =? 23 then clear_attr VC_ITALIC ;; mret true
  else if n =? 24 then clear_attr VC_UNDERLINE ;; mret true
  else if n =? 25 then clear_attr VC_BLINKING ;; mret true
  else if n =? 27 then clear_attr VC_REVERSE ;; mret true
  else if n =? 28 then clear_attr VC_HIDDEN ;; mret true
  else if n =? 29 then clear_attr VC_STRIKETHROUGH ;; mret true
  else mret false.

Definition is_fg (n : Z) : bool :=
  ((ANSI_FG_COLOR_BASE <=? n) && (n <=? ANSI_FG_DEFAULT))
  || ((ANSI_FG_BRIGHT_COLOR_BASE <=? n) && (n <=? ANSI_FG_BRIGHT_WHITE)).
Definition is_bg (n : Z) : bool :=
  ((ANSI_BG_COLOR_BASE <=? n) && (n <=? ANSI_BG_DEFAULT))
  || ((ANSI_BG_BRIGHT_COLOR_BASE <=? n) && (n <=? ANSI_BG_BRIGHT_WHITE)).

Fixpoint set_attr_loop (fuel : nat) (par : Z → Z) (len p : Z) (type : vc_attr_type) : V unit :=
  match fuel with
  | O => nofuel
  | S fuel =>
      if p <? len then
        if NPAR <=? p then undef "read outside par"
        else if par p =? 38 then
          r ← vc_set_256_rgb par type true; set_attr_loop fuel par len (fst r + 1) (snd r)
        else if par p =? 48 then
          r ← vc_set_256_rgb par type false; set_attr_loop fuel par len (fst r + 1) (snd r)
        else if is_fg (par p) then
          set_indexed true (par 0) ;; set_attr_loop fuel par len (p + 1) INDEXED_COLOR
        else if is_bg (par p) then
          set_indexed false (par 0) ;; set_attr_loop fuel par len (p + 1) INDEXED_COLOR
        else
          ok ← set_attr_param (par p);
          if ok : bool then set_attr_loop fuel par len (p + 1) type else mret tt
      else modify (λ v, v <| vc_out ::= cons (vc_driver_set_attr (vc_attrs v) type) |>)
  end.
Definition vc_set_attr (fuel : nat) (par : Z → Z) (len : Z) : V unit :=
  set_attr_loop fuel par len 0 NO_COLOR.

(** ** Escape sequences *)

(** The loop over the parameters: their array, the index of the last one and the position
    of the final character. *)
Fixpoint csi_params (fuel : nat) (q : tty_queue) (par : Z → Z) (i p : Z) : V ((Z → Z) * Z * Z) :=
  match fuel with
  | O => nofuel
  | S fuel =>
      c ← tq_char q p;
      if (48 <=? c) && (c <=? 57) then
        if i <? NPAR then csi_params fuel q (<[i := u32 (10 * par i + c - 48)]> par) i (p + 1)
        else undef "write outside par"
      else if c =? 59 then csi_params fuel q par (i + 1) (p + 1)
      else mret (par, i, p)
  end.

Definition move_up (n : Z) : V unit :=
  modify (λ v, v <| vc_cy ::= λ y, if n <=? y then u32 (y - n) else 0 |>).
Definition move_down (n : Z) : V unit :=
  modify (λ v, v <| vc_cy ::= λ y, if u32 (y + n) <? vc_height v then u32 (y + n) else u32 (vc_height v - 1) |>).
Definition move_right (n : Z) : V unit :=
  modify (λ v, v <| vc_cx ::= λ x, if u32 (x + n) <? vc_width v then u32 (x + n) else u32 (vc_width v - 1) |>).
Definition move_left (n : Z) : V unit :=
  modify (λ v, v <| vc_cx ::= λ x, if n <=? x then u32 (x - n) else 0 |>).
Definition move_to (row col : Z) : V unit :=
  v ← get;
  when ((1 <=? row) && (row <=? vc_height v)) (modify (λ v, v <| vc_cy := u32 (row - 1) |>)) ;;
  when ((1 <=? col) && (col <=? vc_width v)) (modify (λ v, v <| vc_cx := u32 (col - 1) |>)).

(** The [switch] on the final character of a sequence. *)
Definition csi_dispatch (fuel : nat) (par : Z → Z) (len c : Z) : V unit :=
  let n := par 0 in
  if c =? 64 (* @ *) then vc_insert_blanks (s32 n)
  else if c =? 65 (* A *) then move_up n
  else if (c =? 101) || (c =? 66) (* e, B *) then move_down n
  else if (c =? 97) || (c =? 67) (* a, C *) then move_right n
  else if c =? 68 (* D *) then move_left n
  else if c =? 69 (* E *) then move_down n ;; vc_carriage_return
  else if c =? 70 (* F *) then move_up n ;; vc_carriage_return
  else if c =? 71 (* G *) then
    v ← get; when (n <? vc_width v) (modify (λ v, v <| vc_cx := n |>))
  else if (c =? 102) || (c =? 72) (* f, H *) then move_to n (par 1)
  else if c =? 74 (* J *) then vc_clear_screen (s32 n)
  else if c =? 75 (* K *) then vc_clear_line (s32 n)
  else if c =? 76 (* L *) then vc_insert_lines (s32 n)
  else if c =? 77 (* M *) then vc_delete_lines (s32 n)
  else if c =? 80 (* P *) then vc_delete_chars (s32 n)
  else if c =? 88 (* X *) then vc_clear_chars (s32 n)
  else if c =? 100 (* d *) then
    v ← get; when (n <? vc_height v) (modify (λ v, v <| vc_cy := n |>))
  else if c =? 109 (* m *) then vc_set_attr fuel par len
  else if c =? 114 (* r *) then
    modify (λ v, v <| vc_scroll_top := n |> <| vc_scroll_bottom := par 1 |>)
  else mret tt.

(** A pointer beyond [tq_buf] is read before the fuel runs out. *)
Definition SCAN_FUEL : nat := 1 + Z.to_nat TTY_BUF_SIZE.
Definition vc_csi_escape (fuel : nat) (q : tty_queue) (p : Z) : V Z :=
  r ← csi_params SCAN_FUEL q (λ _, 0) 0 p;
  let '(par, i, p) := r in
  c ← tq_char q p;
  csi_dispatch fuel par (i + 1) c ;;
  mret p.

Definition vc_start_escape (fuel : nat) (q : tty_queue) (p : Z) : V Z :=
  let p := p + 1 in
  c ← tq_char q p;
  if c =? 68 (* D *) then vc_linefeed ;; mret p
  else if c =? 69 (* E *) then vc_linefeed ;; vc_carriage_return ;; mret p
  else if c =? 72 (* H *) then vc_tab_stop ;; mret p
  else if c =? 77 (* M *) then vc_rlinefeed ;; mret p
  else if c =? 55 (* 7 *) then vc_save_state ;; mret p
  else if c =? 56 (* 8 *) then vc_restore_state ;; mret p
  else if c =? 91 (* [ *) then vc_csi_escape fuel q (p + 1)
  else mret p.

(** ** Output *)

(** A character that is not a control character. *)
Definition vc_put (c : Z) : V unit :=
  v ← get;
  scr_put (SCR_POS v) c ;;
  if (vc_cx v =? u32 (vc_width v - 1)) && (vc_cy v =? u32 (vc_height v - 1)) then
    vc_scroll_up ;; modify (λ v, v <| vc_cx := 0 |>)
  else if vc_cx v =? u32 (vc_width v - 1) then vc_carriage_return ;; vc_linefeed
  else modify (λ v, v <| vc_cx ::= λ x, u32 (x + 1) |>).

Definition vc_backspace : V unit :=
  v ← get; when (negb (vc_cx v =? 0)) (modify (λ v, v <| vc_cx ::= λ x, u32 (x - 1) |>)).

(** [while (nr--)] with the pointer [p]. *)
Fixpoint vc_write_loop (n fuel : nat) (q : tty_queue) (nr p : Z) : V unit :=
  match n with
  | O => nofuel
  | S n =>
      if nr =? 0 then mret tt else
      let nr := nr - 1 in
      c ← tq_char q p;
      if c =? 13 (* \r *) then vc_carriage_return ;; vc_write_loop n fuel q nr (p + 1)
      else if c =? 10 (* \n *) then vc_linefeed ;; vc_write_loop n fuel q nr (p + 1)
      else if c =? 8 (* \b *) then vc_backspace ;; vc_write_loop n fuel q nr (p + 1)
      else if c =? 27 (* \033 *) then
        p' ← vc_start_escape fuel q p; vc_write_loop n fuel q (nr - (p' - p)) (p' + 1)
      else vc_put c ;; vc_write_loop n fuel q nr (p + 1)
  end.

Definition vc_calc_last_pos : V unit :=
  modify (λ v, v <| vc_new_last_pos := 0 |>) ;;
  size ← gets vc_scr_size;
  for_each (seq 0 (Z.to_nat size)) (λ i,
    v ← get;
    when (negb (vc_scr_buf v (Z.of_nat i) =? 0)) (modify (λ v, v <| vc_new_last_pos := Z.of_nat i |>))).

Definition flush_cell (i : nat) : V unit :=
  v ← get;
  let p := Z.of_nat i in
  let c := vc_scr_buf v p in
  when (negb (c =? vc_cur_buf v p))
    (modify (λ v, v <| vc_out ::= cons
       (if c =? 0 then vc_blank (p mod vc_width v) (p / vc_width v)
        else vc_putc (p mod vc_width v) (p / vc_width v) (s8 c)) |>) ;;
     modify (λ v, v <| vc_cur_buf ::= <[p := c]> |>)).

Definition vc_flush : V unit :=
  v ← get;
  when (vc_last_pos v <? vc_new_last_pos v) (modify (λ v, v <| vc_last_pos := vc_new_last_pos v |>)) ;;
  v ← get;
  (if vc_last_pos v <? vc_scr_size v then for_each (seq 0 (Z.to_nat (vc_last_pos v + 1))) flush_cell
   else undef "read outside vc_scr_buf") ;;
  when (vc_new_last_pos v <? vc_last_pos v) (modify (λ v, v <| vc_last_pos := vc_new_last_pos v |>)).

(** The part of [vc_write] between the locks of the console's mutex. *)
Definition vc_write (fuel : nat) (n : Z) (q : tty_queue) : V Z :=
  if NR_VIRTUAL_CONSOLES <=? n then mret (-1) else
  let nr := tq_tail q - tq_head q in
  if nr <? 0 then mret (-1) else
  vc_write_loop SCAN_FUEL fuel q nr (tq_head q) ;;
  vc_calc_last_pos ;;
  vc_flush ;;
  mret nr.

(** [vc_init] for one console; [junk] is what the allocated display buffer contains. *)
Definition vc_init (width height : Z) (junk : Z → Z) : V unit :=
  let size := u32 (width * height) in
  modify (λ v, v <| vc_width := width |> <| vc_height := height |> <| vc_scr_size := size |>
    <| vc_cur_buf := junk |> <| vc_last_pos := 0 |>) ;;
  scr_memset 0 size ;;
  modify (λ v, v <| vc_cx := 0 |> <| vc_saved_cx := 0 |> <| vc_cy := 0 |> <| vc_saved_cy := 0 |>
    <| vc_scroll_top := 0 |> <| vc_scroll_bottom := u32 (height - 1) |>) ;;
  vc_set_default_attr.

(** ** The abstract screen

    A grid of cells, a cursor inside it, a saved cursor and a scrolling region. *)
Record screen := MkScreen {
  s_x : Z; s_y : Z; s_saved_x : Z; s_saved_y : Z; s_top : Z; s_bottom : Z;
  s_cell : Z → Z → Z   (* row, column; 0 for an empty cell *)
}.
#[export] Instance screen_eta : Eta screen := λ s, MkScreen
  (s_x s) (s_y s) (s_saved_x s) (s_saved_y s) (s_top s) (s_bottom s) (s_cell s).

Section spec.
Context (w h : Z).

Definition roll_up (top bottom : Z) (g : Z → Z → Z) : Z → Z → Z := λ r c,
  if (top <=? r) && (r <? bottom) then g (r + 1) c else if r =? bottom then 0 else g r c.
Definition roll_down (top bottom : Z) (g : Z → Z → Z) : Z → Z → Z := λ r c,
  if (top <? r) && (r <=? bottom) then g (r - 1) c else if r =? top then 0 else g r c.
(** Cells for which [P] holds become empty. *)
Definition erase (P : Z → Z → bool) (g : Z → Z → Z) : Z → Z → Z := λ r c, if P r c then 0 else g r c.
Fixpoint times {A} (n : nat) (f : A → A) (a : A) : A := match n with O => a | S n => times n f (f a) end.

Definition lf (s : screen) : screen :=
  if s_y s + 1 <? h then s <| s_y ::= λ y, y + 1 |>
  else s <| s_cell ::= roll_up (s_top s) (s_bottom s) |>.
Definition write_char (ch : Z) (s : screen) : screen :=
  let s := s <| s_cell := λ r c, if (r =? s_y s) && (c =? s_x s) then ch else s_cell s r c |> in
  if s_x s =? w - 1 then
    lf (s <| s_x := 0 |>)
  else s <| s_x ::= λ x, x + 1 |>.

Definition insert_cells (n : Z) (s : screen) : Z → Z → Z := λ r c,
  if (r =? s_y s) && (s_x s <=? c)
  then if c <? s_x s + n then 0 else s_cell s r (c - n)
  else s_cell s r c.
(** What [vc_delete_chars] leaves of the line. *)
Definition delete_cells (n : Z) (s : screen) : Z → Z → Z := λ r c,
  let n := Z.min n (w - s_x s) in
  if (r =? s_y s) && (s_x s + n <=? c) then 0
  else if (r =? s_y s) && (s_x s <=? c) && (c <? w - n) then s_cell s r (c + n)
  else s_cell s r c.

Definition csi_screen (n m c : Z) (s : screen) : screen :=
  if c =? 64 then s <| s_cell := insert_cells n s |>
  else if c =? 65 then s <| s_y ::= λ y, Z.max 0 (y - n) |>
  else if (c =? 101) || (c =? 66) then s <| s_y ::= λ y, Z.min (h - 1) (y + n) |>
  else if (c =? 97) || (c =? 67) then s <| s_x ::= λ x, Z.min (w - 1) (x + n) |>
  else if c =? 68 then s <| s_x ::= λ x, Z.max 0 (x - n) |>
  else if c =? 69 then s <| s_y ::= λ y, Z.min (h - 1) (y + n) |> <| s_x := 0 |>
  else if c =? 70 then s <| s_y ::= λ y, Z.max 0 (y - n) |> <| s_x := 0 |>
  else if c =? 71 then s <| s_x ::= λ x, if n <? w then n else x |>
  else if (c =? 102) || (c =? 72) then
    s <| s_y ::= λ y, if (1 <=? n) && (n <=? h) then n - 1 else y |>
      <| s_x ::= λ x, if (1 <=? m) && (m <=? w) then m - 1 else x |>
  else if c =? 74 then
    if n =? 0 then s <| s_cell ::= erase (λ r c, (s_y s <? r) || ((r =? s_y s) && (s_x s <=? c))) |>
    else if n =? 1 then s <| s_cell ::= erase (λ r c, (r <? s_y s) || ((r =? s_y s) && (c <? s_x s))) |>
    else if n =? 2 then s <| s_cell ::= erase (λ _ _, true) |>
    else s
  else if c =? 75 then
    if n =? 0 then s <| s_cell ::= erase (λ r c, (r =? s_y s) && (s_x s <=? c)) |>
    else if n =? 1 then s <| s_cell ::= erase (λ r c, (r =? s_y s) && (c <? s_x s)) |>
    else if n =? 2 then s <| s_cell ::= erase (λ r c, r =? s_y s) |>
    else s
  else if c =? 76 then s <| s_cell ::= times (Z.to_nat n) (roll_down (s_y s) (h - 1)) |>
  else if c =? 77 then s <| s_cell ::= times (Z.to_nat n) (roll_up (s_y s) (h - 1)) |>
  else if c =? 80 then s <| s_cell := delete_cells n s |>
  else if c =? 88 then s <| s_cell ::= erase (λ r c, (r =? s_y s) && (s_x s <=? c) && (c <? s_x s + n)) |>
  else if c =? 100 then s <| s_y ::= λ y, if n <? h then n else y |>
  else if c =? 114 then s <| s_top := n |> <| s_bottom := m |>
  else s.

(** The pieces of a text and their effect. *)
Inductive token : Type :=
  | Char (c : Z) | CR | LF | BS
  | Index | NextLine | ReverseIndex | SaveCursor | RestoreCursor
  | Csi (params : list Z) (final : Z).
Definition param (ps : list Z) (i : Z) : Z := nth (Z.to_nat i) ps 0.
Definition run_token (t : token) (s : screen) : screen :=
  match t with
  | Char c => write_char c s
  | CR => s <| s_x := 0 |>
  | LF | Index => lf s
  | BS => s <| s_x ::= λ x, Z.max 0 (x - 1) |>
  | NextLine => (lf s) <| s_x := 0 |>
  | ReverseIndex => s <| s_y ::= λ y, Z.max 0 (y - 1) |>
  | SaveCursor => s <| s_saved_x := s_x s |> <| s_saved_y := s_y s |>
  | RestoreCursor => s <| s_x := s_saved_x s |> <| s_y := s_saved_y s |>
  | Csi ps c => csi_screen (param ps 0) (param ps 1) c s
  end.
Definition run_tokens (ts : list token) (s : screen) : screen := fold_left (λ s t, run_token t s) ts s.

(** The texts for which the driver is right: parameters that an [int] holds, a scrolling region
    inside the screen, and an extended colour only as the first parameter. *)
Definition tame (t : token) : Prop :=
  match t with
  | Char c => is_u8 c ∧ c ∉ [8; 10; 13; 27]
  | Csi ps c => Z.of_nat (length ps) <= NPAR ∧ Forall (λ n, 0 <= n < 2147483648) ps ∧ is_u8 c ∧
      ¬ (48 <= c <= 57) ∧ c ≠ 59 ∧
      (c = 114 → param ps 0 <= param ps 1 < h) ∧
      (c = 109 → ∀ i, 1 <= i → param ps i ≠ 38 ∧ param ps i ≠ 48)
  | _ => True
  end.
End spec.

(** How a text is written. *)
Fixpoint digits (fuel : nat) (n : Z) : list Z :=
  match fuel with
  | O => []
  | S fuel => if n <? 10 then [48 + n] else digits fuel (n / 10) ++ [48 + n mod 10]
  end.
Definition print_param (n : Z) : list Z := digits 10 n.
Fixpoint print_params (ps : list Z) : list Z :=
  match ps with
  | [] => []
  | [n] => print_param n
  | n :: ps => print_param n ++ 59 :: print_params ps
  end.
Definition print_token (t : token) : list Z :=
  match t with
  | Char c => [c] | CR => [13] | LF => [10] | BS => [8]
  | Index => [27; 68] | NextLine => [27; 69] | ReverseIndex => [27; 77]
  | SaveCursor => [27; 55] | RestoreCursor => [27; 56]
  | Csi ps c => 27 :: 91 :: print_params ps ++ [c]
  end.
Definition print (ts : list token) : list Z := ts ≫= print_token.

(** ** The driver implements the abstract screen *)

(** [l] is in the queue from position [p] on. *)
Definition holds (q : tty_queue) (p : Z) (l : list Z) : Prop :=
  0 <= p ∧ p + Z.of_nat (length l) <= TTY_BUF_SIZE ∧
  ∀ i c, l !! i = Some c → tq_buf q (p + Z.of_nat i) = c.

Lemma holds_cons q p c l : holds q p (c :: l) →
  (∀ v, tq_char q p v = Ok (c, v)) ∧ holds q (p + 1) l.
Proof.
  intros (H0 & H1 & H2). cbn [length] in H1. split.
  - intros v. unfold tq_char. rewrite (proj2 (Z.leb_le 0 p)), (proj2 (Z.ltb_lt p _)) by lia. cbn [andb].
    specialize (H2 0%nat c eq_refl). rewrite Z.add_0_r in H2. by rewrite H2.
  - split; [lia|]. split; [lia|]. intros i d Hd. rewrite <- (H2 (S i) d Hd). f_equal. lia.
Qed.
Lemma holds_app q p l1 l2 : holds q p (l1 ++ l2) → holds q (p + Z.of_nat (length l1)) l2.
Proof.
  revert p. induction l1 as [|c l1 IH]; intros p H; [by rewrite Z.add_0_r|].
  apply holds_cons in H as [_ H]. apply IH in H. cbn [length].
  by replace (p + Z.of_nat (S (length l1))) with (p + 1 + Z.of_nat (length l1)) by lia.
Qed.
Lemma tq_char_run {A} q p c (f : Z → V A) v : tq_char q p v = Ok (c, v) → (tq_char q p ≫= f) v = f c v.
Proof. intros H. by rewrite (bind_ok _ _ _ _ _ H). Qed.

(** *** Reading back what was printed *)

Definition is_digit (d : Z) : Prop := 48 <= d <= 57.
Definition read_digits (a : Z) (ds : list Z) : Z := fold_left (λ a d, u32 (10 * a + d - 48)) ds a.

Lemma digits_digit fuel : ∀ n, 0 <= n → Forall is_digit (digits fuel n).
Proof.
  induction fuel as [|fuel IH]; intros n Hn; simpl; [done|].
  destruct (Z.ltb_spec n 10).
  - repeat constructor; unfold is_digit; lia.
  - apply Forall_app. split; [apply IH; lia|]. repeat constructor; unfold is_digit; lia.
Qed.
Lemma digits_read fuel : ∀ n, 0 <= n < 10 ^ Z.of_nat fuel → n < 4294967296 → read_digits 0 (digits fuel n) = n.
Proof.
  induction fuel as [|fuel IH]; intros n Hn Hb; [simpl in *; lia|]. cbn [digits].
  assert (10 ^ Z.of_nat (S fuel) = 10 * 10 ^ Z.of_nat fuel) as E
    by (rewrite Nat2Z.inj_succ, Z.pow_succ_r; lia).
  destruct (Z.ltb_spec n 10).
  - unfold read_digits. cbn [fold_left]. rewrite u32_id; unfold is_u32; lia.
  - unfold read_digits. rewrite fold_left_app. fold (read_digits 0 (digits fuel (n / 10))).
    rewrite IH by lia. cbn [fold_left]. rewrite u32_id; unfold is_u32; lia.
Qed.

Lemma csi_digits q ds fuel i : 0 <= i < NPAR → Forall is_digit ds → ∀ par p rest v, holds q p (ds ++ rest) →
  ∃ par', csi_params (length ds + fuel) q par i p v = csi_params fuel q par' i (p + Z.of_nat (length ds)) v ∧
    par' i = read_digits (par i) ds ∧ ∀ j, j ≠ i → par' j = par j.
Proof.
  intros Hi Hds. induction Hds as [|d ds Hd Hds IH]; intros par p rest v H.
  { exists par. split; [by rewrite Z.add_0_r|done]. }
  apply holds_cons in H as [Hc H].
  destruct (IH (<[i := u32 (10 * par i + d - 48)]> par) _ _ v H) as (par' & R & E1 & E2).
  exists par'. split; [|split].
  - cbn [length Nat.add csi_params]. rewrite (tq_char_run _ _ _ _ _ (Hc v)).
    destruct Hd. rewrite (proj2 (Z.leb_le 48 d)), (proj2 (Z.leb_le d 57)) by done. cbn [andb].
    rewrite (proj2 (Z.ltb_lt i NPAR)) by lia. rewrite R. f_equal. lia.
  - rewrite E1, fn_insert_eq. done.
  - intros j Hj. rewrite E2, fn_insert_ne by done. done.
Qed.

Lemma csi_params_end q c rest fuel par i p v : holds q p (c :: rest) → ¬ (48 <= c <= 57) → c ≠ 59 →
  csi_params (S fuel) q par i p v = Ok ((par, i, p), v).
Proof.
  intros [Hc _]%holds_cons H1 H2. cbn [csi_params]. rewrite (tq_char_run _ _ _ _ _ (Hc v)).
  assert ((48 <=? c) && (c <=? 57) = false) as ->.
  { destruct (Z.leb_spec 48 c), (Z.leb_spec c 57); try done. lia. }
  by rewrite (proj2 (Z.eqb_neq c 59)).
Qed.

Ltac same_result := match goal with |- Ok (_, ?x, ?y, _) = Ok (_, ?x', ?y', _) =>
  replace x' with x by lia; replace y' with y by lia; reflexivity end.
Lemma csi_params_ok q c rest fuel v : ¬ (48 <= c <= 57) → c ≠ 59 → ∀ ps i par p, ps ≠ [] →
  0 <= i → i + Z.of_nat (length ps) <= NPAR → Forall (λ n, 0 <= n < 2147483648) ps →
  (∀ j, i <= j → par j = 0) → holds q p (print_params ps ++ c :: rest) →
  ∃ par', csi_params (length (print_params ps) + S fuel) q par i p v =
      Ok ((par', i + Z.of_nat (length ps) - 1, p + Z.of_nat (length (print_params ps))), v) ∧
    ∀ j, par' j = if j <? i then par j else param ps (j - i).
Proof.
  intros Hc1 Hc2. induction ps as [|n ps IH]; intros i par p Hne Hi Hlen Hps Hz H; [done|].
  apply Forall_cons in Hps as [Hn Hps]. cbn [length] in Hlen.
  assert (Hd : Forall is_digit (print_param n)) by (apply digits_digit; lia).
  assert (Hr : read_digits (par i) (print_param n) = n).
  { rewrite Hz by lia. apply digits_read; [|lia]. change (10 ^ Z.of_nat 10) with 10000000000. lia. }
  assert (Hpar : ∀ par', par' i = n → (∀ j, j ≠ i → par' j = par j) → ∀ j,
    (if j <? i + 1 then par' j else param ps (j - (i + 1))) = if j <? i then par j else param (n :: ps) (j - i)).
  { intros par' E1 E2 j. destruct (Z.ltb_spec j i), (Z.ltb_spec j (i + 1)); try lia; [apply E2; lia| |].
    - replace j with i by lia. by rewrite E1, Z.sub_diag.
    - unfold param. replace (Z.to_nat (j - i)) with (S (Z.to_nat (j - (i + 1)))) by lia. done. }
  destruct ps as [|m ps].
  - cbn [print_params] in *.
    destruct (csi_digits q (print_param n) (S fuel) i ltac:(lia) Hd par p _ v H) as (par' & R & E1 & E2).
    exists par'. rewrite R. apply holds_app in H. rewrite (csi_params_end q c rest) by done.
    split; [cbn [length]; same_result|]. intros j. rewrite <- (Hpar par') by (exact E2 || congruence).
    destruct (Z.ltb_spec j (i + 1)); [done|]. rewrite E2, Hz by lia. unfold param. by destruct (Z.to_nat _).
  - change (print_params (n :: m :: ps)) with (print_param n ++ 59 :: print_params (m :: ps)) in *.
    rewrite <- app_assoc in H. rewrite length_app. cbn [length].
    destruct (csi_digits q (print_param n) (S (length (print_params (m :: ps)) + S fuel)) i
      ltac:(lia) Hd par p _ v H) as (par1 & R & E1 & E2).
    apply holds_app in H. cbn [app] in H. apply holds_cons in H as [Hsep H].
    destruct (IH (i + 1) par1 _ ltac:(done) ltac:(lia) ltac:(cbn [length] in *; lia) Hps
      ltac:(intros; rewrite E2 by lia; apply Hz; lia) H) as (par' & R' & E').
    exists par'. split.
    + replace (length (print_param n) + S (length (print_params (m :: ps))) + S fuel)%nat
        with (length (print_param n) + S (length (print_params (m :: ps)) + S fuel))%nat by lia.
      rewrite R. cbn [csi_params]. rewrite (tq_char_run _ _ _ _ _ (Hsep v)).
      change ((48 <=? 59) && (59 <=? 57)) with false. change (59 =? 59) with true. cbv iota.
      rewrite R'. cbn [length]. same_result.
    + intros j. rewrite E'. apply Hpar; [congruence|exact E2].
Qed.

Section refine.
Context (w h : Z).

Record rep (v : virtual_console) (s : screen) : Prop := {
  rp_width : vc_width v = w; rp_height : vc_height v = h; rp_size : vc_scr_size v = w * h;
  rp_pos : 1 <= w ∧ 1 <= h ∧ w * h < 2147483648;
  rp_x : vc_cx v = s_x s; rp_y : vc_cy v = s_y s;
  rp_saved_x : vc_saved_cx v = s_saved_x s; rp_saved_y : vc_saved_cy v = s_saved_y s;
  rp_top : vc_scroll_top v = s_top s; rp_bottom : vc_scroll_bottom v = s_bottom s;
  rp_x_range : 0 <= s_x s < w; rp_y_range : 0 <= s_y s < h;
  rp_saved_range : 0 <= s_saved_x s < w ∧ 0 <= s_saved_y s < h;
  rp_region : 0 <= s_top s <= s_bottom s ∧ s_bottom s < h;
  rp_cell r c : 0 <= r < h → 0 <= c < w → vc_scr_buf v (r * w + c) = s_cell s r c
}.

(** Order of positions in the buffer. *)
Lemma pos_lt r c y x : 0 <= c < w → 0 <= x <= w → r * w + c < y * w + x ↔ r < y ∨ r = y ∧ c < x.
Proof.
  intros Hc Hx. destruct (Z.lt_trichotomy r y) as [H|[->|H]].
  - assert ((r + 1) * w <= y * w) by (apply Z.mul_le_mono_nonneg_r; lia). split; lia.
  - split; lia.
  - assert ((y + 1) * w <= r * w) by (apply Z.mul_le_mono_nonneg_r; lia). split; lia.
Qed.
Lemma pos_bound y x : 0 <= y < h → 0 <= x <= w → 0 <= y * w ∧ y * w + x <= w * h.
Proof.
  intros Hy Hx. assert ((y + 1) * w <= h * w) by (apply Z.mul_le_mono_nonneg_r; lia).
  assert (0 <= y * w) by (apply Z.mul_nonneg_nonneg; lia). lia.
Qed.

(** Commands that change nothing but the buffer, which becomes [b]. *)
Definition edits (m : V unit) (v : virtual_console) (b : Z → Z) : Prop := ∃ v',
  m v = Ok (tt, v') ∧ v' = v <| vc_scr_buf := vc_scr_buf v' |> ∧ ∀ a, vc_scr_buf v' a = b a.

Definition zeroed (off n : Z) (b : Z → Z) : Z → Z := λ a, if (off <=? a) && (a <? off + n) then 0 else b a.
Definition moved (dst src n : Z) (b : Z → Z) : Z → Z := λ a,
  if (dst <=? a) && (a <? dst + n) then b (src + (a - dst)) else b a.

Lemma memset_edits v off n : 0 <= n → (n = 0 ∨ 0 <= off ∧ off + n <= vc_scr_size v) →
  edits (scr_memset off n) v (zeroed off n (vc_scr_buf v)).
Proof.
  intros Hn Hr. unfold edits, scr_memset. change ((get ≫= ?m) v) with (m v v). cbv beta.
  assert (in_screen v off n = true) as ->.
  { unfold in_screen. destruct Hr as [->|[H1 H2]]; [done|]. by rewrite (proj2 (Z.leb_le 0 off)), (proj2 (Z.leb_le _ _) H2), orb_true_r. }
  eexists. split; [reflexivity|]. split; [done|]. intros a. rec_simpl. rewrite memset_spec.
  unfold zeroed. by rewrite Z2Nat.id.
Qed.
Lemma memmove_edits v dst src n : 0 <= n →
  (n = 0 ∨ 0 <= dst ∧ dst + n <= vc_scr_size v ∧ 0 <= src ∧ src + n <= vc_scr_size v) →
  edits (scr_memmove dst src n) v (moved dst src n (vc_scr_buf v)).
Proof.
  intros Hn Hr. unfold edits, scr_memmove. change ((get ≫= ?m) v) with (m v v). cbv beta.
  assert (in_screen v dst n && in_screen v src n = true) as ->.
  { unfold in_screen. destruct Hr as [->|(H1 & H2 & H3 & H4)]; [done|].
    by rewrite (proj2 (Z.leb_le 0 dst)), (proj2 (Z.leb_le _ _) H2), (proj2 (Z.leb_le 0 src)), (proj2 (Z.leb_le _ _) H4), !orb_true_r. }
  eexists. split; [reflexivity|]. split; [done|]. intros a. rec_simpl.
  unfold memmove. destruct (Z.ltb_spec dst src); rewrite ?copy_forward_spec, ?copy_backward_spec by lia;
    unfold copied, moved; by rewrite Z2Nat.id.
Qed.
Lemma copy_down_edits v dst src n : 0 <= n →
  (n = 0 ∨ dst < vc_scr_size v ∧ 0 <= dst - n + 1 ∧ src < vc_scr_size v ∧ 0 <= src - n + 1) →
  src <= dst ∨ dst + n <= src →
  edits (scr_copy_down dst src n) v (moved (dst - n + 1) (src - n + 1) n (vc_scr_buf v)).
Proof.
  intros Hn Hr Hd. unfold edits, scr_copy_down. change ((get ≫= ?m) v) with (m v v). cbv beta.
  assert ((0 <=? n) && in_screen v (dst - n + 1) n && in_screen v (src - n + 1) n = true) as ->.
  { unfold in_screen. rewrite (proj2 (Z.leb_le 0 n)) by done. destruct Hr as [->|(H1 & H2 & H3 & H4)]; [done|].
    rewrite (proj2 (Z.leb_le 0 (dst - n + 1))), (proj2 (Z.leb_le 0 (src - n + 1))) by done.
    rewrite (proj2 (Z.leb_le (dst - n + 1 + n) _)), (proj2 (Z.leb_le (src - n + 1 + n) _)) by lia.
    by rewrite !orb_true_r. }
  eexists. split; [reflexivity|]. split; [done|]. intros a. rec_simpl.
  rewrite copy_backward_spec by lia. unfold copied, moved. by rewrite Z2Nat.id.
Qed.

Lemma edits_seq m1 m2 v b1 b2 : edits m1 v b1 → (∀ v', v' = v <| vc_scr_buf := vc_scr_buf v' |> →
  (∀ a, vc_scr_buf v' a = b1 a) → edits m2 v' (b2 (vc_scr_buf v'))) →
  (∀ b b', (∀ a, b a = b' a) → ∀ a, b2 b a = b2 b' a) →
  edits (m1 ;; m2) v (b2 b1).
Proof.
  intros (v1 & R1 & E1 & B1) H Hext. destruct (H v1 E1 B1) as (v2 & R2 & E2 & B2).
  exists v2. split; [by rewrite (bind_ok _ _ _ _ _ R1)|]. split; [by rewrite E2, E1|].
  intros a. rewrite B2. by apply Hext.
Qed.
Lemma zeroed_ext off n b b' : (∀ a, b a = b' a) → ∀ a, zeroed off n b a = zeroed off n b' a.
Proof. intros H a. unfold zeroed. by rewrite H. Qed.

(** From buffers to grids. *)
Lemma edits_rep m v s b g : rep v s → edits m v b →
  (∀ r c, 0 <= r < h → 0 <= c < w → b (r * w + c) = g r c) →
  ∃ v', m v = Ok (tt, v') ∧ rep v' (s <| s_cell := g |>).
Proof.
  intros [] (v' & R & E & B) Hg. exists v'. split; [done|]. rewrite E.
  split; try done. intros r c Hr Hc. rec_simpl. rewrite B. by apply Hg.
Qed.

Lemma SCR_POS_eq v s : rep v s → SCR_POS v = s_y s * w + s_x s.
Proof.
  intros H. pose proof (rp_pos _ _ H). pose proof (rp_x_range _ _ H). pose proof (rp_y_range _ _ H).
  pose proof (pos_bound (s_y s) (s_x s)). unfold SCR_POS.
  rewrite (rp_y _ _ H), (rp_width _ _ H), (rp_x _ _ H). apply u32_id. unfold is_u32. lia.
Qed.

(** Compare a position with column [x] of line [y]. *)
Ltac pos_cases r c y x := pose proof (pos_lt r c y x ltac:(lia) ltac:(lia)).
Ltac split_tests := repeat match goal with
  | |- context [Z.leb ?a ?b] => destruct (Z.leb_spec a b)
  | |- context [Z.ltb ?a ?b] => destruct (Z.ltb_spec a b)
  | |- context [Z.eqb ?a ?b] => destruct (Z.eqb_spec a b)
  end; cbn [andb orb].
(** Cells: the tests on positions become tests on lines and columns. *)
Ltac cells H := split_tests; try lia; try done; apply (rp_cell _ _ H); lia.

Lemma edits_eq m m' v b : m v = m' v → edits m' v b → edits m v b.
Proof. intros E (v' & R & H). exists v'. by rewrite E. Qed.

Lemma scroll_up_ok v s : rep v s →
  ∃ v', vc_scroll_up v = Ok (tt, v') ∧ rep v' (s <| s_cell ::= roll_up (s_top s) (s_bottom s) |>).
Proof.
  intros H. pose proof (rp_pos _ _ H) as (Hw & Hh & Hs). pose proof (rp_region _ _ H) as (Ht & Hb).
  pose proof (rp_size _ _ H) as Hsz. set (t := s_top s) in *. set (b := s_bottom s) in *.
  pose proof (pos_bound t 0 ltac:(lia) ltac:(lia)). pose proof (pos_bound b w ltac:(lia) ltac:(lia)).
  assert (0 <= (b - t) * w) by (apply Z.mul_nonneg_nonneg; lia).
  eapply edits_rep; [done| |].
  - eapply (edits_eq _ (scr_memmove (t * w) (t * w + w) ((b - t) * w) ;; scr_memset (b * w) w)).
    { unfold vc_scroll_up. change ((get ≫= ?m) v) with (m v v). cbv beta zeta.
      rewrite (rp_top _ _ H), (rp_bottom _ _ H), (rp_width _ _ H). fold t b.
      rewrite (s32_id ((b - t) * w)) by (unfold is_s32; lia).
      by rewrite (u32_id (t * w)), (u32_id ((b - t) * w)), (u32_id (b * w)) by (unfold is_u32; lia). }
    eapply (edits_seq _ _ _ _ (zeroed (b * w) w)); [|intros v' Hv' _|apply zeroed_ext].
    + apply memmove_edits; [done|]. right. lia.
    + apply memset_edits; [lia|]. right. rewrite Hv'. rec_simpl. lia.
  - intros r c Hr Hc. unfold zeroed, moved, roll_up.
    pos_cases r c b 0. pos_cases r c (b + 1) 0. pos_cases r c t 0.
    replace (t * w + w + (r * w + c - t * w)) with ((r + 1) * w + c) by lia. cells H.
Qed.
Lemma scroll_down_ok v s : rep v s →
  ∃ v', vc_scroll_down v = Ok (tt, v') ∧ rep v' (s <| s_cell ::= roll_down (s_top s) (s_bottom s) |>).
Proof.
  intros H. pose proof (rp_pos _ _ H) as (Hw & Hh & Hs). pose proof (rp_region _ _ H) as (Ht & Hb).
  pose proof (rp_size _ _ H) as Hsz. set (t := s_top s) in *. set (b := s_bottom s) in *.
  pose proof (pos_bound t 0 ltac:(lia) ltac:(lia)). pose proof (pos_bound b w ltac:(lia) ltac:(lia)).
  assert (0 <= (b - t) * w) by (apply Z.mul_nonneg_nonneg; lia).
  eapply edits_rep; [done| |].
  - eapply (edits_eq _ (scr_copy_down (b * w + w - 1) (b * w + w - 1 - w) ((b - t) * w) ;; scr_memset (t * w) w)).
    { unfold vc_scroll_down. change ((get ≫= ?m) v) with (m v v). cbv beta zeta.
      rewrite (rp_top _ _ H), (rp_bottom _ _ H), (rp_width _ _ H). fold t b.
      rewrite (s32_id ((b - t) * w)) by (unfold is_s32; lia).
      by rewrite (u32_id (t * w)), (u32_id (b * w + w - 1)) by (unfold is_u32; lia). }
    eapply (edits_seq _ _ _ _ (zeroed (t * w) w)); [|intros v' Hv' _|apply zeroed_ext].
    + apply copy_down_edits; lia.
    + apply memset_edits; [lia|]. right. rewrite Hv'. rec_simpl. lia.
  - intros r c Hr Hc. unfold zeroed, moved, roll_down.
    pos_cases r c t 0. pos_cases r c (t + 1) 0. pos_cases r c (b + 1) 0.
    replace (b * w + w - 1 - w - (b - t) * w + 1 + (r * w + c - (b * w + w - 1 - (b - t) * w + 1)))
      with ((r - 1) * w + c) by lia. cells H.
Qed.

(** *** Erasing *)

Lemma clear_ok m v s off n P : rep v s → m v = scr_memset off n v → 0 <= n →
  (n = 0 ∨ 0 <= off ∧ off + n <= w * h) →
  (∀ r c, 0 <= r < h → 0 <= c < w → (off <=? r * w + c) && (r * w + c <? off + n) = P r c) →
  ∃ v', m v = Ok (tt, v') ∧ rep v' (s <| s_cell ::= erase P |>).
Proof.
  intros H Hm Hn Hr HP. eapply edits_rep; [done| |].
  - eapply edits_eq; [exact Hm|]. apply memset_edits; [done|]. by rewrite (rp_size _ _ H).
  - intros r c Hr' Hc. unfold zeroed, erase. rewrite HP by done. by rewrite (rp_cell _ _ H).
Qed.

Ltac geometry H :=
  let Hw := fresh "Hw" in let Hh := fresh "Hh" in let Hs := fresh "Hs" in
  pose proof (rp_pos _ _ H) as (Hw & Hh & Hs);
  pose proof (rp_x_range _ _ H); pose proof (rp_y_range _ _ H); pose proof (rp_size _ _ H);
  match type of H with rep _ ?s =>
    pose proof (pos_bound (s_y s) (s_x s) ltac:(lia) ltac:(lia));
    pose proof (pos_bound (s_y s) w ltac:(lia) ltac:(lia))
  end.
Ltac bool_cells := split_tests; first [reflexivity | exfalso; lia].

Lemma clear_line_ok v s n : rep v s → ∃ v', vc_clear_line n v = Ok (tt, v') ∧
  rep v' (csi_screen w h n 0 75 s).
Proof.
  intros H. geometry H. unfold csi_screen. cbn [Z.eqb Pos.eqb orb]. unfold vc_clear_line.
  change ((get ≫= ?m) v) with (m v v). cbv beta zeta.
  rewrite (SCR_POS_eq _ _ H), (rp_width _ _ H), (rp_x _ _ H), s32_id by (unfold is_s32; lia).
  destruct (n =? 0); [|destruct (n =? 1); [|destruct (n =? 2)]].
  - apply (clear_ok _ _ _ (s_y s * w + s_x s) (w - s_x s)); [done|by rewrite u32_id by (unfold is_u32; lia)|lia|lia|].
    intros r c Hr Hc. pos_cases r c (s_y s) (s_x s). pos_cases r c (s_y s) w. bool_cells.
  - apply (clear_ok _ _ _ (s_y s * w) (s_x s)); [done|by replace (s_y s * w + s_x s - s_x s) with (s_y s * w) by lia|lia|lia|].
    intros r c Hr Hc. pos_cases r c (s_y s) (s_x s). pos_cases r c (s_y s) 0. bool_cells.
  - apply (clear_ok _ _ _ (s_y s * w) w); [done|by replace (s_y s * w + s_x s - s_x s) with (s_y s * w) by lia|lia|lia|].
    intros r c Hr Hc. pos_cases r c (s_y s) w. pos_cases r c (s_y s) 0. bool_cells.
  - by exists v.
Qed.

Lemma clear_screen_ok v s n : rep v s → ∃ v', vc_clear_screen n v = Ok (tt, v') ∧
  rep v' (csi_screen w h n 0 74 s).
Proof.
  intros H. geometry H. unfold csi_screen. cbn [Z.eqb Pos.eqb orb]. unfold vc_clear_screen.
  change ((get ≫= ?m) v) with (m v v). cbv beta zeta.
  rewrite (SCR_POS_eq _ _ H), (rp_size _ _ H), s32_id by (unfold is_s32; lia).
  destruct (n =? 0); [|destruct (n =? 1); [|destruct (n =? 2)]].
  - apply (clear_ok _ _ _ (s_y s * w + s_x s) (w * h - (s_y s * w + s_x s)));
      [done|by rewrite u32_id by (unfold is_u32; lia)|lia|lia|].
    intros r c Hr Hc. pos_cases r c (s_y s) (s_x s). pose proof (pos_bound r (c + 1) Hr ltac:(lia)). bool_cells.
  - apply (clear_ok _ _ _ 0 (s_y s * w + s_x s)); [done|by rewrite u32_id by (unfold is_u32; lia)|lia|lia|].
    intros r c Hr Hc. pos_cases r c (s_y s) (s_x s). pose proof (pos_bound r c Hr ltac:(lia)). bool_cells.
  - apply (clear_ok _ _ _ 0 (w * h)); [done|done|lia|lia|].
    intros r c Hr Hc. pose proof (pos_bound r (c + 1) Hr ltac:(lia)). bool_cells.
  - by exists v.
Qed.

Lemma clamp_count_eq v s n : rep v s → 0 <= n < 2147483648 → clamp_count v n = Z.min n (w - s_x s).
Proof.
  intros H Hn. geometry H. unfold clamp_count. rewrite (rp_width _ _ H), (rp_x _ _ H).
  assert (w <= w * h) by nia.
  rewrite !u32_id, s32_id by (unfold is_u32, is_s32; lia). destruct (Z.ltb_spec (w - s_x s) n); lia.
Qed.

Lemma clear_chars_ok v s n : rep v s → 0 <= n < 2147483648 → ∃ v', vc_clear_chars n v = Ok (tt, v') ∧
  rep v' (csi_screen w h n 0 88 s).
Proof.
  intros H Hn. geometry H. unfold csi_screen. cbn [Z.eqb Pos.eqb orb].
  apply (clear_ok _ _ _ (s_y s * w + s_x s) (Z.min n (w - s_x s))); [done| |lia|lia|].
  - unfold vc_clear_chars. change ((get ≫= ?m) v) with (m v v). cbv beta.
    rewrite (clamp_count_eq _ _ _ H Hn), (SCR_POS_eq _ _ H). unfold scr_zero.
    by rewrite (proj2 (Z.ltb_ge _ 0)) by lia.
  - intros r c Hr Hc. pos_cases r c (s_y s) (s_x s). pos_cases r c (s_y s) (s_x s + Z.min n (w - s_x s)). bool_cells.
Qed.

(** *** Inserting and deleting *)

Lemma insert_blanks_ok v s n : rep v s → 0 <= n < 2147483648 → ∃ v', vc_insert_blanks n v = Ok (tt, v') ∧
  rep v' (csi_screen w h n 0 64 s).
Proof.
  intros H Hn. geometry H. assert (w <= w * h) by nia. unfold csi_screen. cbn [Z.eqb Pos.eqb orb].
  set (p := s_y s * w + s_x s) in *.
  assert (Hrun : vc_insert_blanks n v = (if w <=? s_x s + n then scr_memset p (w - s_x s) v
    else (scr_memmove (p + n) p (w - s_x s - n) ;; scr_memset p n) v)).
  { unfold vc_insert_blanks. change ((get ≫= ?m) v) with (m v v). cbv beta zeta.
    rewrite (SCR_POS_eq _ _ H), (rp_width _ _ H), (rp_x _ _ H). fold p.
    rewrite (u32_id (s_x s + n)), (u32_id (w - s_x s)), (u32_id n) by (unfold is_u32; lia).
    destruct (Z.leb_spec w (s_x s + n)); [done|]. by rewrite (u32_id (w - s_x s - n)) by (unfold is_u32; lia). }
  destruct (Z.leb_spec w (s_x s + n)) as [Hle|Hlt].
  - eapply edits_rep; [done|eapply edits_eq; [exact Hrun|apply memset_edits; lia]|].
    intros r c Hr Hc. unfold zeroed, insert_cells. pos_cases r c (s_y s) (s_x s). pos_cases r c (s_y s) w. cells H.
  - eapply edits_rep; [done|eapply edits_eq; [exact Hrun|]|].
    + eapply (edits_seq _ _ _ _ (zeroed p n)); [apply memmove_edits; lia| |apply zeroed_ext].
      intros v' Hv' _. apply memset_edits; [lia|]. rewrite Hv'. rec_simpl. lia.
    + intros r c Hr Hc. unfold zeroed, moved, insert_cells. pos_cases r c (s_y s) (s_x s).
      pos_cases r c (s_y s) (s_x s + n). pos_cases r c (s_y s) w.
      replace (p + (r * w + c - (p + n))) with (r * w + (c - n)) by lia. cells H.
Qed.

Lemma delete_chars_ok v s n : rep v s → 0 <= n < 2147483648 → ∃ v', vc_delete_chars n v = Ok (tt, v') ∧
  rep v' (csi_screen w h n 0 80 s).
Proof.
  intros H Hn. geometry H. assert (w <= w * h) by nia. unfold csi_screen. cbn [Z.eqb Pos.eqb orb].
  set (p := s_y s * w + s_x s) in *. set (m := Z.min n (w - s_x s)).
  assert (Hrun : vc_delete_chars n v =
    (scr_memmove p (p + m) (w - s_x s - m) ;; scr_memset (p + m) (w - s_x s - m)) v).
  { unfold vc_delete_chars. change ((get ≫= ?m) v) with (m v v). cbv beta zeta.
    rewrite (clamp_count_eq _ _ _ H Hn), (SCR_POS_eq _ _ H), (rp_width _ _ H), (rp_x _ _ H). fold p m.
    by rewrite (u32_id (w - s_x s - m)) by (unfold is_u32; lia). }
  eapply edits_rep; [done|eapply edits_eq; [exact Hrun|]|].
  - eapply (edits_seq _ _ _ _ (zeroed (p + m) (w - s_x s - m))); [apply memmove_edits; lia| |apply zeroed_ext].
    intros v' Hv' _. apply memset_edits; [lia|]. rewrite Hv'. rec_simpl. lia.
  - intros r c Hr Hc. unfold zeroed, moved, delete_cells. fold m. pos_cases r c (s_y s) (s_x s).
    pos_cases r c (s_y s) (s_x s + m). pos_cases r c (s_y s) w. pos_cases r c (s_y s) (w - m).
    replace (p + m + (r * w + c - p)) with (r * w + (c + m)) by lia. cells H.
Qed.

(** *** Lines *)

Lemma times_ok roll m v s n : rep v s →
  (∀ v s, rep v s → ∃ v', m v = Ok (tt, v') ∧ rep v' (s <| s_cell ::= roll (s_top s) (s_bottom s) |>)) →
  ∃ v', repeat_times n m v = Ok (tt, v') ∧ rep v' (s <| s_cell ::= times n (roll (s_top s) (s_bottom s)) |>).
Proof.
  intros H Hm. revert v s H. induction n as [|n IH]; intros v s H; [exists v; split; [done|by destruct s]|].
  destruct (Hm _ _ H) as (v1 & R1 & H1). destruct (IH _ _ H1) as (v2 & R2 & H2).
  exists v2. simpl. by rewrite (bind_ok _ _ _ _ _ R1).
Qed.

Lemma scroll_below_ok roll m v s n : rep v s → 0 <= n →
  (∀ v s, rep v s → ∃ v', m v = Ok (tt, v') ∧ rep v' (s <| s_cell ::= roll (s_top s) (s_bottom s) |>)) →
  ∃ v', scroll_below m n v = Ok (tt, v') ∧
    rep v' (s <| s_cell ::= times (Z.to_nat n) (roll (s_y s) (h - 1)) |>).
Proof.
  intros H Hn Hm. geometry H. assert (h <= w * h) by nia. pose proof (rp_region _ _ H) as Hreg.
  unfold scroll_below. change ((get ≫= ?m) v) with (m v v). cbv beta.
  change ((modify ?f ≫= ?m) v) with (m tt (f v)). cbv beta.
  set (v1 := v <| vc_scroll_top := vc_cy v |>).
  change ((modify ?f ≫= ?m) v1) with (m tt (f v1)). cbv beta.
  set (v2 := v1 <| vc_scroll_bottom := u32 (vc_height v - 1) |>).
  rewrite (proj2 (Z.ltb_ge n 0)) by done.
  assert (Hv2 : rep v2 (s <| s_top := s_y s |> <| s_bottom := h - 1 |>)).
  { destruct H. split; try done; unfold v2, v1; rec_simpl; [|lia].
    rewrite rp_height0. apply u32_id. unfold is_u32. lia. }
  destruct (times_ok roll m _ _ (Z.to_nat n) Hv2 Hm) as (v3 & R3 & Hv3). rewrite (bind_ok _ _ _ _ _ R3).
  eexists. split; [reflexivity|]. destruct Hv3 as [J1 J2 J3 J4 J5 J6 J7 J8 J9 J10 J11 J12 J13 J14 J15].
  rec_simpl. split; rec_simpl; try done; apply H.
Qed.

(** *** Attributes do not touch the screen *)

Definition attrs_only {A} (m : V A) : Prop := ∀ v, ∃ a v', m v = Ok (a, v') ∧
  v' = v <| vc_attrs := vc_attrs v' |> <| vc_out := vc_out v' |>.

Lemma attrs_only_bind {A B} (m : V A) (f : A → V B) : attrs_only m → (∀ a, attrs_only (f a)) → attrs_only (m ≫= f).
Proof.
  intros Hm Hf v. destruct (Hm v) as (a & v1 & R1 & E1). destruct (Hf a v1) as (b & v2 & R2 & E2).
  exists b, v2. rewrite (bind_ok _ _ _ _ _ R1). split; [done|]. by rewrite E2, E1.
Qed.
Lemma attrs_only_ret {A} (a : A) : attrs_only (mret a).
Proof. intros v. exists a, v. split; [done|by destruct v]. Qed.
Lemma attrs_only_attr f : attrs_only (modify (λ v, v <| vc_attrs ::= f |>)).
Proof. intros v. by eexists _, _. Qed.
Lemma attrs_only_out f : attrs_only (modify (λ v, v <| vc_out ::= cons (vc_driver_set_attr (vc_attrs v) (f v)) |>)).
Proof. intros v. by eexists _, _. Qed.

Ltac attrs_only := repeat first
  [ apply attrs_only_ret | apply attrs_only_attr | apply (attrs_only_out (λ _, _))
  | apply attrs_only_bind; [|intros] | progress (unfold set_indexed, set_rgb, or_attr, clear_attr, vc_set_default_attr) ].

Lemma set_attr_param_only n : attrs_only (set_attr_param n).
Proof. unfold set_attr_param. repeat case_match; attrs_only. Qed.
Lemma set_256_rgb_only par type fg : attrs_only (vc_set_256_rgb par type fg).
Proof. unfold vc_set_256_rgb, vc_set_256, vc_set_rgb. repeat case_match; attrs_only. Qed.
Lemma set_256_rgb_pos par type fg v r v' : vc_set_256_rgb par type fg v = Ok (r, v') → 1 <= fst r.
Proof.
  unfold vc_set_256_rgb, vc_set_256, vc_set_rgb. repeat case_match; intros [= <- _]; simpl; lia.
Qed.

(** Without an extended colour the loop goes through the parameters once. *)
Lemma set_attr_loop_only par len fuel : len <= NPAR → ∀ p type, 1 <= p → Z.max 0 (len - p) < Z.of_nat fuel →
  (∀ i, 1 <= i → par i ≠ 38 ∧ par i ≠ 48) → attrs_only (set_attr_loop fuel par len p type).
Proof.
  intros Hlen. induction fuel as [|fuel IH]; intros p type Hp Hf Hno; simpl.
  { lia. }
  destruct (Z.ltb_spec p len); [|apply (attrs_only_out (λ _, type))].
  rewrite (proj2 (Z.leb_gt NPAR p)) by lia. destruct (Hno p Hp) as [H1 H2].
  rewrite (proj2 (Z.eqb_neq _ 38)), (proj2 (Z.eqb_neq _ 48)) by done.
  destruct (is_fg (par p)); [|destruct (is_bg (par p))].
  - apply attrs_only_bind; [apply attrs_only_attr|]. intros _. apply IH; [lia|lia|done].
  - apply attrs_only_bind; [apply attrs_only_attr|]. intros _. apply IH; [lia|lia|done].
  - apply attrs_only_bind; [apply set_attr_param_only|]. intros [|]; [apply IH; [lia|lia|done]|attrs_only].
Qed.

Lemma attrs_only_bind_inv {A B} (m : V A) (f : A → V B) (P : A → Prop) : attrs_only m →
  (∀ v a v', m v = Ok (a, v') → P a) → (∀ a, P a → attrs_only (f a)) → attrs_only (m ≫= f).
Proof.
  intros Hm HP Hf v. destruct (Hm v) as (a & v1 & R1 & E1).
  destruct (Hf a (HP _ _ _ R1) v1) as (b & v2 & R2 & E2).
  exists b, v2. rewrite (bind_ok _ _ _ _ _ R1). split; [done|]. by rewrite E2, E1.
Qed.

Lemma vc_set_attr_only fuel par len : 1 <= len <= NPAR → len < Z.of_nat fuel →
  (∀ i, 1 <= i → par i ≠ 38 ∧ par i ≠ 48) → attrs_only (vc_set_attr fuel par len).
Proof.
  intros Hlen Hf Hno. unfold vc_set_attr. destruct fuel as [|fuel]; [lia|]. cbn [set_attr_loop].
  rewrite (proj2 (Z.ltb_lt 0 len)), (proj2 (Z.leb_gt NPAR 0)) by lia.
  assert (Hgo : ∀ p type, 1 <= p → attrs_only (set_attr_loop fuel par len p type)).
  { intros. apply set_attr_loop_only; [lia|done|lia|done]. }
  assert (Hext : ∀ fg, attrs_only (r ← vc_set_256_rgb par NO_COLOR fg; set_attr_loop fuel par len (fst r + 1) (snd r))).
  { intros fg. apply (attrs_only_bind_inv _ _ (λ r, 1 <= fst r)); [apply set_256_rgb_only|apply set_256_rgb_pos|].
    intros r Hr. apply Hgo. lia. }
  destruct (par 0 =? 38); [apply Hext|]. destruct (par 0 =? 48); [apply Hext|].
  destruct (is_fg (par 0)); [|destruct (is_bg (par 0))].
  - apply attrs_only_bind; [apply attrs_only_attr|]. intros _. by apply Hgo.
  - apply attrs_only_bind; [apply attrs_only_attr|]. intros _. by apply Hgo.
  - apply attrs_only_bind; [apply set_attr_param_only|]. intros [|]; [by apply Hgo|attrs_only].
Qed.
Lemma attrs_only_rep m v s : attrs_only (A := unit) m → rep v s → ∃ v', m v = Ok (tt, v') ∧ rep v' s.
Proof.
  intros Hm H. destruct (Hm v) as ([] & v' & R & E). exists v'. split; [done|]. rewrite E.
  destruct H. by split.
Qed.

(** *** The cursor *)

Ltac rep_fields H := eexists; split; [reflexivity|]; destruct H; split; rec_simpl; try done.

Lemma linefeed_ok v s : rep v s → ∃ v', vc_linefeed v = Ok (tt, v') ∧ rep v' (lf h s).
Proof.
  intros H. geometry H. assert (h <= w * h) by nia. unfold vc_linefeed, lf.
  change ((get ≫= ?m) v) with (m v v). cbv beta. rewrite (rp_y _ _ H), (rp_height _ _ H).
  rewrite u32_id by (unfold is_u32; lia). destruct (Z.ltb_spec (s_y s + 1) h); [|by apply scroll_up_ok].
  rep_fields H; [|lia]. rewrite rp_y0. apply u32_id. unfold is_u32. lia.
Qed.

Lemma set_x_ok v s f x : rep v s → f (vc_cx v) = x → 0 <= x < w →
  rep (v <| vc_cx ::= f |>) (s <| s_x := x |>).
Proof. intros [] Hf Hx. by split. Qed.
Lemma set_y_ok v s f y : rep v s → f (vc_cy v) = y → 0 <= y < h →
  rep (v <| vc_cy ::= f |>) (s <| s_y := y |>).
Proof. intros [] Hf Hy. by split. Qed.

Lemma move_up_ok v s n : rep v s → 0 <= n → ∃ v', move_up n v = Ok (tt, v') ∧
  rep v' (s <| s_y ::= λ y, Z.max 0 (y - n) |>).
Proof.
  intros H Hn. geometry H. assert (h <= w * h) by nia. eexists. split; [reflexivity|].
  apply set_y_ok; [done| |lia]. rewrite (rp_y _ _ H).
  destruct (Z.leb_spec n (s_y s)); [|lia]. rewrite u32_id by (unfold is_u32; lia). lia.
Qed.
Lemma move_left_ok v s n : rep v s → 0 <= n → ∃ v', move_left n v = Ok (tt, v') ∧
  rep v' (s <| s_x ::= λ x, Z.max 0 (x - n) |>).
Proof.
  intros H Hn. geometry H. assert (w <= w * h) by nia. eexists. split; [reflexivity|].
  apply set_x_ok; [done| |lia]. rewrite (rp_x _ _ H).
  destruct (Z.leb_spec n (s_x s)); [|lia]. rewrite u32_id by (unfold is_u32; lia). lia.
Qed.
Lemma move_down_ok v s n : rep v s → 0 <= n < 2147483648 → ∃ v', move_down n v = Ok (tt, v') ∧
  rep v' (s <| s_y ::= λ y, Z.min (h - 1) (y + n) |>).
Proof.
  intros H Hn. geometry H. assert (h <= w * h) by nia. eexists. split; [reflexivity|].
  apply (set_y_ok v s (λ y, if u32 (y + n) <? vc_height v then u32 (y + n) else u32 (vc_height v - 1)));
    [done| |lia]. rewrite (rp_y _ _ H), (rp_height _ _ H).
  rewrite !u32_id by (unfold is_u32; lia). destruct (Z.ltb_spec (s_y s + n) h); lia.
Qed.
Lemma move_right_ok v s n : rep v s → 0 <= n < 2147483648 → ∃ v', move_right n v = Ok (tt, v') ∧
  rep v' (s <| s_x ::= λ x, Z.min (w - 1) (x + n) |>).
Proof.
  intros H Hn. geometry H. assert (w <= w * h) by nia. eexists. split; [reflexivity|].
  apply (set_x_ok v s (λ x, if u32 (x + n) <? vc_width v then u32 (x + n) else u32 (vc_width v - 1)));
    [done| |lia]. rewrite (rp_x _ _ H), (rp_width _ _ H).
  rewrite !u32_id by (unfold is_u32; lia). destruct (Z.ltb_spec (s_x s + n) w); lia.
Qed.
Lemma then_return m v s : (∃ v', m v = Ok (tt, v') ∧ rep v' s) →
  ∃ v', (m ;; vc_carriage_return) v = Ok (tt, v') ∧ rep v' (s <| s_x := 0 |>).
Proof.
  intros (v' & R & H). exists (v' <| vc_cx := 0 |>). rewrite (bind_ok _ _ _ _ _ R). split; [done|].
  geometry H. apply (set_x_ok _ _ (λ _, 0)); [done|done|lia].
Qed.
Lemma move_to_ok v s n m : rep v s → ∃ v', move_to n m v = Ok (tt, v') ∧
  rep v' (s <| s_y ::= λ y, if (1 <=? n) && (n <=? h) then n - 1 else y |>
            <| s_x ::= λ x, if (1 <=? m) && (m <=? w) then m - 1 else x |>).
Proof.
  intros H. geometry H. assert (h <= w * h) by nia. assert (w <= w * h) by nia. unfold move_to.
  change ((get ≫= ?m) v) with (m v v). cbv beta. rewrite (rp_height _ _ H), (rp_width _ _ H).
  set (v1 := if (1 <=? n) && (n <=? h) then v <| vc_cy := u32 (n - 1) |> else v).
  assert (Hv1 : rep v1 (s <| s_y ::= λ y, if (1 <=? n) && (n <=? h) then n - 1 else y |>)).
  { unfold v1. destruct (Z.leb_spec 1 n), (Z.leb_spec n h); cbn [andb]; try (destruct H; by split).
    apply (set_y_ok v s (λ _, u32 (n - 1))); [done|apply u32_id; unfold is_u32; lia|lia]. }
  assert (R1 : when ((1 <=? n) && (n <=? h)) (modify (λ v, v <| vc_cy := u32 (n - 1) |>)) v = Ok (tt, v1)).
  { unfold v1. by destruct ((1 <=? n) && (n <=? h)). }
  rewrite (bind_ok _ _ _ _ _ R1).
  destruct (Z.leb_spec 1 m), (Z.leb_spec m w); cbn [andb when]; try (exists v1; split; [done|]; destruct Hv1; by split).
  eexists. split; [reflexivity|]. apply (set_x_ok v1 _ (λ _, u32 (m - 1)));
    [done|apply u32_id; unfold is_u32; lia|lia].
Qed.

(** *** Control sequences *)

Lemma csi_dispatch_ok fuel par len c v s : rep v s → (∀ i, 0 <= par i < 2147483648) →
  1 <= len <= NPAR → len < Z.of_nat fuel → (c = 114 → par 0 <= par 1 < h) →
  (c = 109 → ∀ i, 1 <= i → par i ≠ 38 ∧ par i ≠ 48) →
  ∃ v', csi_dispatch fuel par len c v = Ok (tt, v') ∧ rep v' (csi_screen w h (par 0) (par 1) c s).
Proof.
  intros H Hpar Hlen Hfuel Hregion Hcolour. geometry H. pose proof (Hpar 0) as Hn. pose proof (Hpar 1).
  assert (s32 (par 0) = par 0) as Hs32 by (apply s32_id; unfold is_s32; lia).
  unfold csi_dispatch, csi_screen. rewrite Hs32.
  destruct (c =? 64); [by apply insert_blanks_ok|].
  destruct (c =? 65); [apply move_up_ok; [done|lia]|].
  destruct ((c =? 101) || (c =? 66)); [by apply move_down_ok|].
  destruct ((c =? 97) || (c =? 67)); [by apply move_right_ok|].
  destruct (c =? 68); [apply move_left_ok; [done|lia]|].
  destruct (c =? 69); [apply then_return; by apply move_down_ok|].
  destruct (c =? 70); [apply then_return; apply move_up_ok; [done|lia]|].
  destruct (c =? 71).
  { change ((get ≫= ?m) v) with (m v v). cbv beta. rewrite (rp_width _ _ H).
    destruct (Z.ltb_spec (par 0) w); cbn [when]; eexists; (split; [reflexivity|]).
    - apply (set_x_ok v s (λ _, par 0)); [done|done|lia].
    - destruct H; by split. }
  destruct ((c =? 102) || (c =? 72)); [by apply move_to_ok|].
  destruct (c =? 74); [by apply clear_screen_ok|].
  destruct (c =? 75); [by apply clear_line_ok|].
  destruct (c =? 76); [apply scroll_below_ok; [done|lia|apply scroll_down_ok]|].
  destruct (c =? 77); [apply scroll_below_ok; [done|lia|apply scroll_up_ok]|].
  destruct (c =? 80); [by apply delete_chars_ok|].
  destruct (c =? 88); [by apply clear_chars_ok|].
  destruct (c =? 100).
  { change ((get ≫= ?m) v) with (m v v). cbv beta. rewrite (rp_height _ _ H).
    destruct (Z.ltb_spec (par 0) h); cbn [when]; eexists; (split; [reflexivity|]).
    - apply (set_y_ok v s (λ _, par 0)); [done|done|lia].
    - destruct H; by split. }
  destruct (Z.eqb_spec c 109) as [->|].
  { apply attrs_only_rep; [|done]. apply vc_set_attr_only; [done|done|]. by apply Hcolour. }
  destruct (Z.eqb_spec c 114) as [->|]; [|by exists v].
  rep_fields H. specialize (Hregion eq_refl). lia.
Qed.

(** *** Tokens *)

Lemma put_edits v s c : rep v s → edits (scr_put (SCR_POS v) c) v (<[s_y s * w + s_x s := c]> (vc_scr_buf v)).
Proof.
  intros H. geometry H. unfold edits, scr_put. change ((get ≫= ?m) v) with (m v v). cbv beta.
  rewrite (SCR_POS_eq _ _ H). unfold in_screen. rewrite H2.
  rewrite (proj2 (Z.leb_le 0 _)), (proj2 (Z.leb_le (s_y s * w + s_x s + 1) _)), orb_true_r by lia.
  eexists. split; [reflexivity|]. done.
Qed.

Lemma put_ok v s c : rep v s → ∃ v', vc_put c v = Ok (tt, v') ∧ rep v' (write_char w h c s).
Proof.
  intros H. geometry H. assert (w <= w * h) by nia. assert (h <= w * h) by nia.
  assert (Hput : ∃ v1, scr_put (SCR_POS v) c v = Ok (tt, v1) ∧
    rep v1 (s <| s_cell := λ r x, if (r =? s_y s) && (x =? s_x s) then c else s_cell s r x |>)).
  { eapply edits_rep; [done|by apply put_edits|]. intros r x Hr Hx.
    pose proof (pos_lt r x (s_y s) (s_x s) ltac:(lia) ltac:(lia)).
    pose proof (pos_lt (s_y s) (s_x s) r x ltac:(lia) ltac:(lia)).
    destruct (decide (s_y s * w + s_x s = r * w + x)) as [E|E].
    - rewrite E, fn_insert_eq. split_tests; done || lia.
    - rewrite fn_insert_ne by done. assert (r ≠ s_y s ∨ x ≠ s_x s) by (destruct (decide (r = s_y s)); [subst; lia|lia]).
      split_tests; try (by apply (rp_cell _ _ H)). exfalso; lia. }
  destruct Hput as (v1 & R & H1'). unfold vc_put. change ((get ≫= ?m) v) with (m v v). cbv beta.
  rewrite (bind_ok _ _ _ _ _ R), (rp_x _ _ H), (rp_y _ _ H), (rp_width _ _ H), (rp_height _ _ H).
  rewrite !u32_id by (unfold is_u32; lia). unfold write_char. rec_simpl.
  assert (Hcr : rep (v1 <| vc_cx := 0 |>)
    (s <| s_cell := λ r x, if (r =? s_y s) && (x =? s_x s) then c else s_cell s r x |> <| s_x := 0 |>)).
  { apply (set_x_ok _ _ (λ _, 0)); [done|done|lia]. }
  destruct (Z.eqb_spec (s_x s) (w - 1)) as [Ex|Ex]; cbn [andb].
  - destruct (Z.eqb_spec (s_y s) (h - 1)) as [Ey|Ey].
    + destruct (scroll_up_ok _ _ H1') as (v2 & R2 & H2'). rewrite (bind_ok _ _ _ _ _ R2).
      eexists. split; [reflexivity|]. unfold lf. rec_simpl. rewrite (proj2 (Z.ltb_ge (s_y s + 1) h)) by lia.
      apply (set_x_ok _ _ (λ _, 0) 0 H2'); [done|lia].
    + change ((vc_carriage_return ;; vc_linefeed) v1) with (vc_linefeed (v1 <| vc_cx := 0 |>)).
      by apply linefeed_ok.
  - eexists. split; [reflexivity|]. apply (set_x_ok v1 _ (λ x, u32 (x + 1))); [done| |rec_simpl; lia].
    rewrite (rp_x _ _ H1'). rec_simpl. apply u32_id. unfold is_u32. lia.
Qed.

Lemma backspace_ok v s : rep v s → ∃ v', vc_backspace v = Ok (tt, v') ∧ rep v' (s <| s_x ::= λ x, Z.max 0 (x - 1) |>).
Proof.
  intros H. geometry H. assert (w <= w * h) by nia. unfold vc_backspace.
  change ((get ≫= ?m) v) with (m v v). cbv beta. rewrite (rp_x _ _ H).
  destruct (Z.eqb_spec (s_x s) 0) as [E|E]; cbn [negb when]; (eexists; split; [reflexivity|]).
  - destruct H; split; rec_simpl; done || lia.
  - apply set_x_ok; [done|rewrite (rp_x _ _ H), u32_id; unfold is_u32; lia|lia].
Qed.
Lemma rlinefeed_ok v s : rep v s → ∃ v', vc_rlinefeed v = Ok (tt, v') ∧ rep v' (s <| s_y ::= λ y, Z.max 0 (y - 1) |>).
Proof.
  intros H. geometry H. assert (h <= w * h) by nia. unfold vc_rlinefeed.
  change ((get ≫= ?m) v) with (m v v). cbv beta. rewrite (rp_y _ _ H).
  destruct (Z.eqb_spec (s_y s) 0) as [E|E]; cbn [negb when]; (eexists; split; [reflexivity|]).
  - destruct H; split; rec_simpl; done || lia.
  - apply set_y_ok; [done|rewrite (rp_y _ _ H), u32_id; unfold is_u32; lia|lia].
Qed.

(** A control sequence from the character after [ESC \[]. *)
Lemma csi_escape_ok fuel q v s p ps c rest : (16 < fuel)%nat → rep v s → tame h (Csi ps c) →
  holds q p (print_params ps ++ c :: rest) →
  ∃ v', vc_csi_escape fuel q p v = Ok (p + Z.of_nat (length (print_params ps)), v') ∧
    rep v' (csi_screen w h (param ps 0) (param ps 1) c s).
Proof.
  intros Hfuel H (Hlen & Hps & _ & Hc1 & Hc2 & Hregion & Hcolour) Hq. unfold vc_csi_escape.
  assert (HN : NPAR = 16) by done.
  assert (Hpos : ∀ i, 0 <= param ps i < 2147483648).
  { intros i. unfold param. generalize (Z.to_nat i). clear -Hps. 
    induction Hps as [|x l Hx _ IH]; intros [|n]; simpl; first [lia | exact Hx | apply IH]. }
  assert (Hrun : ∃ par i, csi_params SCAN_FUEL q (λ _, 0) 0 p v =
      Ok ((par, i, p + Z.of_nat (length (print_params ps))), v) ∧
      (∀ j, par j = if j <? 0 then 0 else param ps j) ∧ 0 <= i < NPAR).
  { pose proof Hq as (Hq0 & Hq1 & Hq2). rewrite length_app in Hq1. cbn [length] in Hq1.
    assert (HT : TTY_BUF_SIZE = 512) by done.
    assert (SCAN_FUEL = length (print_params ps) + S (SCAN_FUEL - S (length (print_params ps))))%nat as ->.
    { assert (SCAN_FUEL = 513%nat) by (by vm_compute). lia. }
    destruct ps as [|n ps].
    - exists (λ _, 0), 0. cbn [print_params length Nat.add]. rewrite (csi_params_end q c rest) by done.
      split; [by rewrite Z.add_0_r|]. split; [|lia]. intros j. unfold param. destruct (j <? 0), (Z.to_nat j); done.
    - destruct (csi_params_ok q c rest (SCAN_FUEL - S (length (print_params (n :: ps)))) v Hc1 Hc2 (n :: ps) 0
        (λ _, 0) p) as (par & R & E); try done.
      exists par, (0 + Z.of_nat (length (n :: ps)) - 1). split; [exact R|].
      split; [intros j; rewrite E; by rewrite Z.sub_0_r|]. cbn [length] in *. lia. }
  destruct Hrun as (par & i & R & Hpar & Hi). rewrite (bind_ok _ _ _ _ _ R). cbv beta iota.
  pose proof (holds_app _ _ _ _ Hq) as [Hc _]%holds_cons. rewrite (tq_char_run _ _ _ _ _ (Hc v)).
  destruct (csi_dispatch_ok fuel par (i + 1) c v s H) as (v' & R' & H'); [| lia | lia | | |].
  - intros j. rewrite Hpar. destruct (j <? 0); [lia|apply Hpos].
  - intros E. rewrite !Hpar. by apply Hregion.
  - intros E j Hj. rewrite Hpar, (proj2 (Z.ltb_ge j 0)) by lia. by apply Hcolour.
  - exists v'. rewrite (bind_ok _ _ _ _ _ R'). split; [done|]. rewrite !Hpar in H'. exact H'.
Qed.

(** The write loop handles one token per iteration. *)
Definition loop_step (fuel n : nat) (q : tty_queue) (nr p len : Z) (v v' : virtual_console) : Prop :=
  vc_write_loop (S n) fuel q nr p v = vc_write_loop n fuel q (nr - len) (p + len) v'.

Lemma loop_control fuel n q nr p c v v' m : nr ≠ 0 → tq_char q p v = Ok (c, v) → m v = Ok (tt, v') →
  (c = 13 ∧ m = vc_carriage_return ∨ c = 10 ∧ m = vc_linefeed ∨ c = 8 ∧ m = vc_backspace ∨
   (c ∉ [8; 10; 13; 27]) ∧ m = vc_put c) → loop_step fuel n q nr p 1 v v'.
Proof.
  intros Hnr Hc R Hm. unfold loop_step. cbn [vc_write_loop]. rewrite (proj2 (Z.eqb_neq nr 0)) by done.
  rewrite (tq_char_run _ _ _ _ _ Hc).
  destruct Hm as [[-> ->]|[[-> ->]|[[-> ->]|[Hc' ->]]]]; cbn [Z.eqb Pos.eqb];
    try (by rewrite (bind_ok _ _ _ _ _ R)).
  rewrite !not_elem_of_cons in Hc'. destruct Hc' as (H1 & H2 & H3 & H4 & _).
  rewrite !(proj2 (Z.eqb_neq c _)) by done. by rewrite (bind_ok _ _ _ _ _ R).
Qed.

Lemma loop_escape fuel n q nr p p' v v' : nr ≠ 0 → tq_char q p v = Ok (27, v) →
  vc_start_escape fuel q p v = Ok (p', v') → loop_step fuel n q nr p (p' - p + 1) v v'.
Proof.
  intros Hnr Hc R. unfold loop_step. cbn [vc_write_loop]. rewrite (proj2 (Z.eqb_neq nr 0)) by done.
  rewrite (tq_char_run _ _ _ _ _ Hc). cbn [Z.eqb Pos.eqb]. rewrite (bind_ok _ _ _ _ _ R). f_equal; lia.
Qed.

(** The two-character sequences. *)
Lemma short_escape fuel q p c v v' m : tq_char q (p + 1) v = Ok (c, v) → m v = Ok (tt, v') →
  (c = 68 ∧ m = vc_linefeed ∨ c = 69 ∧ m = (vc_linefeed ;; vc_carriage_return) ∨ c = 77 ∧ m = vc_rlinefeed ∨
   c = 55 ∧ m = vc_save_state ∨ c = 56 ∧ m = vc_restore_state) →
  vc_start_escape fuel q p v = Ok (p + 1, v').
Proof.
  intros Hc R Hm. unfold vc_start_escape. rewrite (tq_char_run _ _ _ _ _ Hc).
  destruct Hm as [[-> ->]|[[-> ->]|[[-> ->]|[[-> ->]|[-> ->]]]]]; cbn [Z.eqb Pos.eqb];
    try (by rewrite (bind_ok _ _ _ _ _ R)).
  apply bind_inv in R as ([] & v1 & R1 & R2). rewrite (bind_ok _ _ _ _ _ R1). by rewrite (bind_ok _ _ _ _ _ R2).
Qed.

Lemma token_ok fuel n q t v s p nr rest : (16 < fuel)%nat → tame h t → rep v s → nr ≠ 0 →
  holds q p (print_token t ++ rest) →
  ∃ v', loop_step fuel n q nr p (Z.of_nat (length (print_token t))) v v' ∧ rep v' (run_token w h t s).
Proof.
  intros Hfuel Ht H Hnr Hq. geometry H.
  assert (Hctl : ∀ c m v', print_token t = [c] → m v = Ok (tt, v') →
    (c = 13 ∧ m = vc_carriage_return ∨ c = 10 ∧ m = vc_linefeed ∨ c = 8 ∧ m = vc_backspace ∨
     (c ∉ [8; 10; 13; 27]) ∧ m = vc_put c) → loop_step fuel n q nr p (Z.of_nat (length (print_token t))) v v').
  { intros c m v' E R Hm. rewrite E in Hq. apply holds_cons in Hq as [Hc _]. rewrite E.
    by eapply loop_control. }
  assert (Hshort : ∀ c m v', print_token t = [27; c] → m v = Ok (tt, v') →
    (c = 68 ∧ m = vc_linefeed ∨ c = 69 ∧ m = (vc_linefeed ;; vc_carriage_return) ∨ c = 77 ∧ m = vc_rlinefeed ∨
     c = 55 ∧ m = vc_save_state ∨ c = 56 ∧ m = vc_restore_state) →
    loop_step fuel n q nr p (Z.of_nat (length (print_token t))) v v').
  { intros c m v' E R Hm. rewrite E in Hq |- *. cbn [app] in Hq.
    apply holds_cons in Hq as [He [Hc _]%holds_cons].
    change (Z.of_nat (length [27; c])) with 2. replace 2 with (p + 1 - p + 1) by lia.
    apply loop_escape; [done|apply He|]. by eapply short_escape. }
  destruct t as [c| | | | | | | | |ps c].
  - destruct (put_ok v s c H) as (v' & R & H'). exists v'. split; [|done].
    destruct Ht. eapply Hctl; [done|exact R|auto].
  - exists (v <| vc_cx := 0 |>). split; [apply (Hctl 13 vc_carriage_return); [done|done|auto]|].
    apply (set_x_ok v s (λ _, 0)); [done|done|lia].
  - destruct (linefeed_ok v s H) as (v' & R & H'). exists v'. split; [|done].
    eapply Hctl; [done|exact R|auto].
  - destruct (backspace_ok v s H) as (v' & R & H'). exists v'. split; [|done].
    eapply Hctl; [done|exact R|auto].
  - destruct (linefeed_ok v s H) as (v' & R & H'). exists v'. split; [|done].
    eapply Hshort; [done|exact R|auto].
  - destruct (then_return _ _ _ (linefeed_ok v s H)) as (v' & R & H'). exists v'. split; [|done].
    eapply Hshort; [done|exact R|auto].
  - destruct (rlinefeed_ok v s H) as (v' & R & H'). exists v'. split; [|done].
    eapply Hshort; [done|exact R|auto 10].
  - eexists. split; [eapply (Hshort _ vc_save_state); [done|reflexivity|auto 10]|].
    cbn [run_token]. destruct H; split; rec_simpl; done || lia.
  - eexists. split; [eapply (Hshort _ vc_restore_state); [done|reflexivity|auto 10]|].
    cbn [run_token]. destruct H; split; rec_simpl; done || lia.
  - cbn [print_token app] in Hq. rewrite <- app_assoc in Hq.
    apply holds_cons in Hq as [He [Hc Hq]%holds_cons].
    destruct (csi_escape_ok fuel q v s _ ps c rest Hfuel H Ht Hq) as (v' & R & H').
    exists v'. split; [|done]. cbn [print_token length]. rewrite length_app. cbn [length].
    replace (Z.of_nat (S (S (length (print_params ps) + 1))))
      with (p + 1 + 1 + Z.of_nat (length (print_params ps)) - p + 1) by lia.
    apply loop_escape; [done|apply He|]. unfold vc_start_escape. rewrite (tq_char_run _ _ _ _ _ (Hc v)).
    exact R.
Qed.

Lemma print_token_pos t : (0 < length (print_token t))%nat.
Proof. destruct t; simpl; lia. Qed.

Lemma write_tokens_ok fuel q ts rest : (16 < fuel)%nat → Forall (tame h) ts → ∀ n v s nr p,
  rep v s → Z.of_nat (length (print ts)) <= nr → holds q p (print ts ++ rest) →
  ∃ v', vc_write_loop (length ts + n) fuel q nr p v =
      vc_write_loop n fuel q (nr - Z.of_nat (length (print ts))) (p + Z.of_nat (length (print ts))) v' ∧
    rep v' (run_tokens w h ts s).
Proof.
  intros Hfuel Hts. induction Hts as [|t ts Ht _ IH]; intros n v s nr p H Hnr Hq.
  { exists v. split; [|done]. simpl. by rewrite Z.sub_0_r, Z.add_0_r. }
  unfold print in *. cbn [mbind list_bind] in *. pose proof (print_token_pos t). rewrite length_app in Hnr |- *.
  rewrite <- app_assoc in Hq.
  destruct (token_ok fuel (length ts + n) q t v s p nr _ Hfuel Ht H ltac:(lia) Hq) as (v1 & R & H1').
  destruct (IH n v1 _ (nr - Z.of_nat (length (print_token t))) (p + Z.of_nat (length (print_token t)))
    H1' ltac:(lia) (holds_app _ _ _ _ Hq)) as (v' & R' & H').
  exists v'. unfold loop_step in R. cbn [length Nat.add]. rewrite R, R'. split; [f_equal; lia|done].
Qed.
End refine.

(** ** The display *)

(** What the display shows at a position after a sequence of calls of its driver (the last one
    first), if it showed [d] before. *)
Fixpoint shown (w : Z) (d : Z → Z) (out : list vc_event) : Z → Z :=
  match out with
  | [] => d
  | vc_blank x y :: out => <[y * w + x := 0]> (shown w d out)
  | vc_putc x y c :: out => <[y * w + x := u8 c]> (shown w d out)
  | vc_driver_set_attr _ _ :: out => shown w d out
  end.

Definition is_attr (e : vc_event) : Prop := match e with vc_driver_set_attr _ _ => True | _ => False end.
(** A call that concerns one of the first [size] cells. *)
Definition in_cells (w size : Z) (e : vc_event) : Prop :=
  match e with vc_blank x y | vc_putc x y _ => 0 <= x < w ∧ 0 <= y ∧ y * w + x < size | vc_driver_set_attr _ _ => True end.
(** The calls of the driver between two states. *)
Definition calls (P : vc_event → Prop) (v v' : virtual_console) : Prop := ∃ l, vc_out v' = l ++ vc_out v ∧ Forall P l.
#[export] Instance calls_preorder P : PreOrder (calls P).
Proof.
  split; [by intros v; exists []|]. intros v1 v2 v3 (l1 & E1 & F1) (l2 & E2 & F2). exists (l2 ++ l1).
  split; [by rewrite E2, E1, app_assoc|by apply Forall_app].
Qed.
Lemma calls_one P e v v' : vc_out v' = e :: vc_out v → P e → calls P v v'.
Proof. intros E H. exists [e]. split; [done|by repeat constructor]. Qed.
Lemma calls_eq P v v' : vc_out v' = vc_out v → calls P v v'.
Proof. intros E. by exists []. Qed.
Lemma calls_weaken (P Q : vc_event → Prop) v v' : (∀ e, P e → Q e) → calls P v v' → calls Q v v'.
Proof. intros H (l & E & F). exists l. split; [done|by eapply Forall_impl]. Qed.
Lemma calls_shown v v' w d : calls is_attr v v' → shown w d (vc_out v') = shown w d (vc_out v).
Proof. intros (l & -> & F). induction F as [|e l H F IH]; [done|]. by destruct e. Qed.

(** The display shows the buffer [vc_cur_buf], and there is nothing behind [vc_last_pos]. *)
Record synced (d : Z → Z) (v : virtual_console) : Prop := {
  sy_width : 1 <= vc_width v; sy_size : 1 <= vc_scr_size v;
  sy_last : 0 <= vc_last_pos v < vc_scr_size v;
  sy_shown a : 0 <= a < vc_scr_size v → shown (vc_width v) d (vc_out v) a = u8 (vc_cur_buf v a);
  sy_blank a : vc_last_pos v < a < vc_scr_size v → vc_cur_buf v a = 0
}.

Lemma calc_last_pos_ok v : ∃ v', vc_calc_last_pos v = Ok (tt, v') ∧
  v' = v <| vc_new_last_pos := vc_new_last_pos v' |> ∧
  0 <= vc_new_last_pos v' ∧ (1 <= vc_scr_size v → vc_new_last_pos v' < vc_scr_size v) ∧
  ∀ a, vc_new_last_pos v' < a < vc_scr_size v → vc_scr_buf v a = 0.
Proof.
  unfold vc_calc_last_pos. change ((modify ?f ≫= ?m) v) with (m tt (f v)). cbv beta.
  change ((gets ?f ≫= ?m) ?u) with (m (f u) u). cbv beta. rec_simpl.
  set (n := Z.to_nat (vc_scr_size v)).
  destruct (for_range_ok (λ i v', v' = v <| vc_new_last_pos := vc_new_last_pos v' |> ∧
    0 <= vc_new_last_pos v' ∧ (vc_new_last_pos v' = 0 ∨ vc_new_last_pos v' < Z.of_nat i) ∧
    ∀ a, vc_new_last_pos v' < a < Z.of_nat i → vc_scr_buf v a = 0)
    (λ i, v ← get; when (negb (vc_scr_buf v (Z.of_nat i) =? 0)) (modify (λ v, v <| vc_new_last_pos := Z.of_nat i |>)))
    n (v <| vc_new_last_pos := 0 |>)) as (v' & R & E & H0 & H1 & H2).
  - rec_simpl. split; [done|]. split; [done|]. split; [by left|]. intros a Ha. lia.
  - intros i u Hi (E & H0 & H1 & H2). change ((get ≫= ?m) u) with (m u u). cbv beta.
    assert (vc_scr_buf u = vc_scr_buf v) as -> by (by rewrite E).
    destruct (Z.eqb_spec (vc_scr_buf v (Z.of_nat i)) 0) as [Ez|Ez]; cbn [negb when]; (eexists; split; [reflexivity|]).
    + split; [done|]. split; [done|]. split; [lia|]. intros a Ha. destruct (decide (a = Z.of_nat i)) as [->|]; [done|].
      apply H2. lia.
    + rec_simpl. split; [by rewrite E|]. split; [lia|]. split; [lia|]. intros a Ha. lia.
  - exists v'. split; [done|]. split; [done|]. split; [done|]. split; [lia|]. intros a Ha. apply H2. lia.
Qed.

Lemma flush_cells_ok d v n : 1 <= vc_width v → Z.of_nat n <= vc_scr_size v →
  (∀ a, 0 <= a < vc_scr_size v → shown (vc_width v) d (vc_out v) a = u8 (vc_cur_buf v a)) →
  ∃ v', for_each (seq 0 n) flush_cell v = Ok (tt, v') ∧
    v' = v <| vc_cur_buf := vc_cur_buf v' |> <| vc_out := vc_out v' |> ∧
    (∀ a, vc_cur_buf v' a = if (0 <=? a) && (a <? Z.of_nat n) then vc_scr_buf v a else vc_cur_buf v a) ∧
    (∀ a, 0 <= a < vc_scr_size v → shown (vc_width v) d (vc_out v') a = u8 (vc_cur_buf v' a)) ∧
    calls (in_cells (vc_width v) (vc_scr_size v)) v v'.
Proof.
  intros Hw Hn Hs.
  destruct (for_range_ok (λ i v', v' = v <| vc_cur_buf := vc_cur_buf v' |> <| vc_out := vc_out v' |> ∧
    (∀ a, vc_cur_buf v' a = if (0 <=? a) && (a <? Z.of_nat i) then vc_scr_buf v a else vc_cur_buf v a) ∧
    (∀ a, 0 <= a < vc_scr_size v → shown (vc_width v) d (vc_out v') a = u8 (vc_cur_buf v' a)) ∧
    calls (in_cells (vc_width v) (vc_scr_size v)) v v')
    flush_cell n v) as (v' & R & H); [| |by exists v'].
  - split; [by destruct v|]. split; [|done]. intros a. destruct (Z.leb_spec 0 a), (Z.ltb_spec a (Z.of_nat 0)); done || lia.
  - intros i u Hi (E & Hc & Hd & Hout). unfold flush_cell. change ((get ≫= ?m) u) with (m u u). cbv beta zeta.
    assert (vc_scr_buf u = vc_scr_buf v ∧ vc_width u = vc_width v) as [-> Hwu] by (by rewrite E).
    assert (Hci : vc_cur_buf u (Z.of_nat i) = vc_cur_buf v (Z.of_nat i)).
    { rewrite Hc. by rewrite (proj2 (Z.ltb_ge _ _)), andb_false_r. }
    set (c := vc_scr_buf v (Z.of_nat i)).
    assert (Hstep : ∀ a, (if (0 <=? a) && (a <? Z.of_nat (S i)) then vc_scr_buf v a else vc_cur_buf v a) =
      if decide (a = Z.of_nat i) then c else vc_cur_buf u a).
    { intros a. rewrite Hc. case_decide as Ha; [subst a; rewrite (proj2 (Z.leb_le _ _)), (proj2 (Z.ltb_lt _ _)) by lia; done|].
      destruct (Z.leb_spec 0 a), (Z.ltb_spec a (Z.of_nat (S i))), (Z.ltb_spec a (Z.of_nat i)); done || lia. }
    destruct (Z.eqb_spec c (vc_cur_buf u (Z.of_nat i))) as [Ec|Ec]; cbn [negb when]; (eexists; split; [reflexivity|]).
    + split; [done|]. split; [|done]. intros a. rewrite Hstep. case_decide; [by subst|done].
    + rec_simpl. rewrite Hwu. split; [by rewrite E|]. assert (Hpos : Z.of_nat i / vc_width v * vc_width v + Z.of_nat i mod vc_width v = Z.of_nat i).
      { pose proof (Z.div_mod (Z.of_nat i) (vc_width v)). lia. }
      split; [|split].
      * intros a. rewrite Hstep. case_decide; [subst; by rewrite fn_insert_eq|]. by rewrite fn_insert_ne.
      * intros a Ha. assert (Hsh : shown (vc_width v) d ((if c =? 0 then vc_blank (Z.of_nat i mod vc_width v) (Z.of_nat i / vc_width v)
          else vc_putc (Z.of_nat i mod vc_width v) (Z.of_nat i / vc_width v) (s8 c)) :: vc_out u) =
          <[Z.of_nat i := u8 c]> (shown (vc_width v) d (vc_out u))).
        { destruct (Z.eqb_spec c 0) as [->|]; cbn [shown]; rewrite Hpos; [done|]. f_equal. unfold u8, s8. lia. }
        rec_simpl. change (cons ?x ?l) with (x :: l). rewrite Hsh. destruct (decide (a = Z.of_nat i)) as [->|Hne]; [by rewrite !fn_insert_eq|].
        rewrite !fn_insert_ne by done. by apply Hd.
      * etrans; [exact Hout|]. eapply calls_one; [reflexivity|].
        pose proof (Z.mod_pos_bound (Z.of_nat i) (vc_width v)). pose proof (Z.div_pos (Z.of_nat i) (vc_width v)).
        destruct (c =? 0); cbn [in_cells]; rewrite Hpos; lia.
Qed.

(** After a flush the display shows the screen buffer. *)
Lemma flush_ok d v : synced d v →
  ∃ v1 v', vc_calc_last_pos v = Ok (tt, v1) ∧ vc_flush v1 = Ok (tt, v') ∧ synced d v' ∧
    v' = v <| vc_cur_buf := vc_cur_buf v' |> <| vc_out := vc_out v' |> <| vc_last_pos := vc_last_pos v' |>
       <| vc_new_last_pos := vc_new_last_pos v' |> ∧
    (∀ a, 0 <= a < vc_scr_size v → vc_cur_buf v' a = vc_scr_buf v a) ∧ calls (in_cells (vc_width v) (vc_scr_size v)) v v'.
Proof.
  intros [Hw Hs Hl Hsh Hb]. destruct (calc_last_pos_ok v) as (v1 & R1 & E1 & H0 & H1 & H2).
  specialize (H1 Hs). set (nl := vc_new_last_pos v1) in *.
  exists v1. set (v2 := if vc_last_pos v1 <? nl then v1 <| vc_last_pos := nl |> else v1).
  set (m := Z.max (vc_last_pos v) nl).
  assert (E2 : v2 = v <| vc_last_pos := m |> <| vc_new_last_pos := nl |>).
  { unfold v2, m. rewrite E1. rec_simpl. destruct (Z.ltb_spec (vc_last_pos v) nl).
    - by rewrite Z.max_r by lia.
    - rewrite Z.max_l by lia. by destruct v. }
  destruct (flush_cells_ok d v2 (Z.to_nat (m + 1))) as (v3 & R3 & E3 & C3 & S3 & O3);
    rewrite ?E2; rec_simpl; [done|lia|done|].
  assert (Hcur : ∀ a, 0 <= a < vc_scr_size v → vc_cur_buf v3 a = vc_scr_buf v a).
  { intros a Ha. rewrite C3, E2. rec_simpl. rewrite (proj2 (Z.leb_le 0 a)) by lia.
    destruct (Z.ltb_spec a (Z.of_nat (Z.to_nat (m + 1)))); [done|]. cbn [andb].
    rewrite Hb, H2 by lia. done. }
  exists (v3 <| vc_last_pos := nl |>). split; [done|].
  assert (E : v3 = v <| vc_last_pos := m |> <| vc_new_last_pos := nl |>
    <| vc_cur_buf := vc_cur_buf v3 |> <| vc_out := vc_out v3 |>) by (by rewrite E3, E2).
  split; [|split; [|split; [|split]]].
  - unfold vc_flush. change ((get ≫= ?m) v1) with (m v1 v1). cbv beta. fold nl.
    assert (Rw : when (vc_last_pos v1 <? nl) (modify (λ v, v <| vc_last_pos := vc_new_last_pos v |>)) v1 = Ok (tt, v2))
      by (unfold v2; by destruct (_ <? _)).
    rewrite (bind_ok _ _ _ _ _ Rw). change ((get ≫= ?m) v2) with (m v2 v2). cbv beta.
    replace (vc_last_pos v2) with m by (by rewrite E2).
    replace (vc_scr_size v2) with (vc_scr_size v) by (by rewrite E2).
    rewrite (proj2 (Z.ltb_lt m _)) by lia. rewrite (bind_ok _ _ _ _ _ R3).
    assert (vc_new_last_pos v3 = nl ∧ vc_last_pos v3 = m) as [E4 E5] by (by rewrite E).
    replace (vc_new_last_pos v2) with nl by (by rewrite E2).
    destruct (Z.ltb_spec nl m); cbn [when]; [by unfold modify; rewrite E4|]. unfold mret, M_ret. f_equal. f_equal.
    rewrite E. rec_simpl. by replace m with nl by lia.
  - split; rewrite E; rec_simpl; [done|done|lia| |].
    + intros a Ha. rewrite E2 in S3. rec_simpl. by apply S3.
    + intros a Ha. rewrite Hcur by lia. apply H2. lia.
  - by rewrite E.
  - intros a Ha. rec_simpl. by apply Hcur.
  - rewrite E2 in O3. exact O3.
Qed.

(** *** Writing leaves the display alone until the flush *)

Record quiet (v v' : virtual_console) : Prop := {
  qt_width : vc_width v' = vc_width v; qt_size : vc_scr_size v' = vc_scr_size v;
  qt_cur : vc_cur_buf v' = vc_cur_buf v; qt_last : vc_last_pos v' = vc_last_pos v;
  qt_out : calls is_attr v v'
}.
#[export] Instance quiet_preorder : PreOrder quiet.
Proof. split; [by intros v; split|]. intros v1 v2 v3 [] []. split; try congruence. by etrans. Qed.
Definition keeps_quiet {A} (m : V A) : Prop := ∀ v a v', m v = Ok (a, v') → quiet v v'.

Lemma keeps_bind {A B} (m : V A) (f : A → V B) : keeps_quiet m → (∀ a, keeps_quiet (f a)) → keeps_quiet (m ≫= f).
Proof. intros Hm Hf v b v' H. apply bind_inv in H as (a & v1 & H1 & H2). etrans; [by eapply Hm|by eapply Hf]. Qed.
Lemma keeps_ret {A} (a : A) : keeps_quiet (mret a).
Proof. by intros v b v' [= _ ->]. Qed.
Lemma keeps_get : keeps_quiet get.
Proof. by intros v b v' [= _ ->]. Qed.
Lemma keeps_undef {A} why : keeps_quiet (undef (A := A) why).
Proof. done. Qed.
Lemma keeps_nofuel {A} : keeps_quiet (nofuel (A := A)).
Proof. done. Qed.
Lemma keeps_modify f : (∀ v, quiet v (f v)) → keeps_quiet (modify f).
Proof. by intros H v b v' [= _ <-]. Qed.
Lemma keeps_when b m : keeps_quiet m → keeps_quiet (when b m).
Proof. intros H. destruct b; [done|apply keeps_ret]. Qed.

Create HintDb quiet.
Ltac keeps := repeat first
  [ progress eauto with quiet nocore | apply keeps_ret | apply keeps_get | apply keeps_undef | apply keeps_nofuel
  | apply keeps_modify; intros ?; split; first [done | by apply calls_eq | by eapply calls_one]
  | apply keeps_when | apply keeps_bind; [|intros ?] | case_match ].

Lemma scr_memset_quiet off n : keeps_quiet (scr_memset off n).
Proof. unfold scr_memset. keeps. Qed.
Lemma scr_memmove_quiet dst src n : keeps_quiet (scr_memmove dst src n).
Proof. unfold scr_memmove. keeps. Qed.
Lemma scr_copy_down_quiet dst src n : keeps_quiet (scr_copy_down dst src n).
Proof. unfold scr_copy_down. keeps. Qed.
Lemma scr_put_quiet off c : keeps_quiet (scr_put off c).
Proof. unfold scr_put. keeps. Qed.
#[export] Hint Resolve scr_memset_quiet scr_memmove_quiet scr_copy_down_quiet scr_put_quiet : quiet.
Lemma scroll_up_quiet : keeps_quiet vc_scroll_up.
Proof. unfold vc_scroll_up. keeps. Qed.
Lemma scroll_down_quiet : keeps_quiet vc_scroll_down.
Proof. unfold vc_scroll_down. keeps. Qed.
Lemma tq_char_quiet q p : keeps_quiet (tq_char q p).
Proof. unfold tq_char. keeps. Qed.
#[export] Hint Resolve scroll_up_quiet scroll_down_quiet tq_char_quiet : quiet.
Lemma repeat_times_quiet n m : keeps_quiet m → keeps_quiet (repeat_times n m).
Proof. intros Hm. induction n; simpl; keeps. Qed.
#[export] Hint Resolve repeat_times_quiet : quiet.
Lemma linefeed_quiet : keeps_quiet vc_linefeed.
Proof. unfold vc_linefeed. keeps. Qed.
#[export] Hint Resolve linefeed_quiet : quiet.
Lemma set_attr_loop_quiet fuel par len : ∀ p type, keeps_quiet (set_attr_loop fuel par len p type).
Proof.
  induction fuel as [|fuel IH]; intros p type; simpl; keeps;
    unfold vc_set_256_rgb, vc_set_256, vc_set_rgb, set_attr_param, set_indexed, set_rgb, or_attr, clear_attr, vc_set_default_attr;
    keeps.
Qed.
#[export] Hint Resolve set_attr_loop_quiet : quiet.
Lemma csi_params_quiet fuel q : ∀ par i p, keeps_quiet (csi_params fuel q par i p).
Proof. induction fuel as [|fuel IH]; intros par i p; simpl; keeps. Qed.
#[export] Hint Resolve csi_params_quiet : quiet.
Lemma csi_dispatch_quiet fuel par len c : keeps_quiet (csi_dispatch fuel par len c).
Proof.
  unfold csi_dispatch, vc_insert_blanks, move_up, move_down, move_right, move_left, move_to, vc_carriage_return,
    vc_clear_screen, vc_clear_line, vc_insert_lines, vc_delete_lines, scroll_below, vc_delete_chars,
    vc_clear_chars, scr_zero, vc_set_attr. keeps.
Qed.
#[export] Hint Resolve csi_dispatch_quiet : quiet.
Lemma start_escape_quiet fuel q p : keeps_quiet (vc_start_escape fuel q p).
Proof.
  unfold vc_start_escape, vc_csi_escape, vc_carriage_return, vc_tab_stop, vc_rlinefeed, vc_save_state, vc_restore_state.
  keeps.
Qed.
#[export] Hint Resolve start_escape_quiet : quiet.
Lemma write_loop_quiet n fuel q : ∀ nr p, keeps_quiet (vc_write_loop n fuel q nr p).
Proof.
  induction n as [|n IH]; intros nr p; simpl; unfold vc_carriage_return, vc_backspace, vc_put, vc_carriage_return; keeps.
Qed.

Lemma synced_quiet d v v' : synced d v → quiet v v' → synced d v'.
Proof.
  intros [] []. split; rewrite ?qt_width0, ?qt_size0, ?qt_cur0, ?qt_last0, ?(calls_shown _ _ _ _ qt_out0); done.
Qed.

(** ** Properties *)

Lemma print_length ts : (length ts ≤ length (print ts))%nat.
Proof.
  induction ts as [|t ts IH]; [done|]. unfold print in *. cbn [mbind list_bind length].
  pose proof (print_token_pos t). rewrite length_app. lia.
Qed.

Lemma vc_write_ok w h d fuel n q v s ts : (16 < fuel)%nat → 0 <= n < NR_VIRTUAL_CONSOLES →
  rep w h v s → synced d v → Forall (tame h) ts → holds q (tq_head q) (print ts) →
  tq_tail q = tq_head q + Z.of_nat (length (print ts)) →
  ∃ v', vc_write fuel n q v = Ok (Z.of_nat (length (print ts)), v') ∧
    rep w h v' (run_tokens w h ts s) ∧ synced d v' ∧ calls (in_cells w (w * h)) v v' ∧
    ∀ r c, 0 <= r < h → 0 <= c < w → shown w d (vc_out v') (r * w + c) = u8 (s_cell (run_tokens w h ts s) r c).
Proof.
  intros Hfuel Hn H Hsy Hts Hq Ht. set (len := Z.of_nat (length (print ts))) in *.
  assert (HT : TTY_BUF_SIZE = 512) by done. assert (HS : SCAN_FUEL = 513%nat) by (by vm_compute).
  pose proof (print_length ts). pose proof Hq as (Hq0 & Hq1 & _).
  rewrite <- (app_nil_r (print ts)) in Hq.
  destruct (write_tokens_ok w h fuel q ts [] Hfuel Hts (SCAN_FUEL - length ts) v s len _ H ltac:(lia) Hq)
    as (v1 & R & H1).
  replace (length ts + (SCAN_FUEL - length ts))%nat with SCAN_FUEL in R by lia.
  fold len in R. rewrite Z.sub_diag in R.
  assert (Rw : vc_write_loop SCAN_FUEL fuel q len (tq_head q) v = Ok (tt, v1)).
  { rewrite R. destruct (SCAN_FUEL - length ts)%nat eqn:E; [lia|done]. }
  assert (Hsy1 : synced d v1) by (eapply synced_quiet; [exact Hsy|by eapply write_loop_quiet]).
  destruct (flush_ok d v1 Hsy1) as (v2 & v' & R1 & R2 & Hsy' & E & Hcur & Hout).
  exists v'. split; [|split; [|split; [done|split]]].
  - unfold vc_write. rewrite (proj2 (Z.leb_gt _ n)) by lia. rewrite Ht. fold len.
    replace (tq_head q + len - tq_head q) with len by lia. rewrite (proj2 (Z.ltb_ge len 0)) by lia.
    rewrite (bind_ok _ _ _ _ _ Rw), (bind_ok _ _ _ _ _ R1). by rewrite (bind_ok _ _ _ _ _ R2).
  - rewrite E. destruct H1. by split.
  - rewrite (rp_width _ _ _ _ H1), (rp_size _ _ _ _ H1) in Hout. etrans; [|exact Hout].
    eapply calls_weaken; [|exact (qt_out _ _ (write_loop_quiet _ _ _ _ _ _ _ _ Rw))]. by intros [].
  - intros r c Hr Hc. pose proof (rp_pos _ _ _ _ H1) as (Hw & Hh & _).
    pose proof (pos_bound w h r (c + 1) Hr ltac:(lia)).
    assert (Hsz : vc_scr_size v1 = w * h ∧ vc_scr_size v' = w * h ∧ vc_width v' = w).
    { rewrite E. rec_simpl. by rewrite (rp_size _ _ _ _ H1), (rp_width _ _ _ _ H1). }
    destruct Hsz as (Hs1 & Hs' & Hw').
    rewrite <- Hw' at 1. rewrite (sy_shown _ _ Hsy') by lia. rewrite Hcur by lia. by rewrite (rp_cell _ _ _ _ H1).
Qed.

(** C4: the console driver implements the abstract screen. A text made of characters, control
    characters and escape sequences within the limits of [tame] is taken completely; the
    buffer and the cursor then are those of the abstract screen after the text, and the calls
    made to the display driver leave exactly the cells of that screen on the display. Nothing is
    read or written outside the queue, the parameters or the screen buffer. *)
Theorem vc_write_refines_screen w h d fuel n q v s ts : (16 < fuel)%nat → 0 <= n < NR_VIRTUAL_CONSOLES →
  rep w h v s → synced d v → Forall (tame h) ts → holds q (tq_head q) (print ts) →
  tq_tail q = tq_head q + Z.of_nat (length (print ts)) →
  ∃ v', vc_write fuel n q v = Ok (Z.of_nat (length (print ts)), v') ∧
    rep w h v' (run_tokens w h ts s) ∧ synced d v' ∧
    ∀ r c, 0 <= r < h → 0 <= c < w → shown w d (vc_out v') (r * w + c) = u8 (s_cell (run_tokens w h ts s) r c).
Proof.
  intros Hfuel Hn H Hsy Hts Hq Ht. destruct (vc_write_ok w h d fuel n q v s ts Hfuel Hn H Hsy Hts Hq Ht) as (v' & R & H' & S' & _ & C').
  by exists v'.
Qed.

(** A console of 8 by 2 cells after [vc_init]. *)
Module ConsoleDemo.
Definition zero : virtual_console :=
  MkVc 0 0 0 0 0 0 0 0 (λ _, 0) (λ _, 0) 0 0 0 (MkAttr 0 0 0 0 0) [].
Definition v : virtual_console := match vc_init 8 2 (λ _, 0) zero with Ok (_, v) => v | _ => zero end.
Definition s : screen := MkScreen 0 0 0 0 0 1 (λ _ _, 0).
Definition text : list token := [Char 65; LF; Csi [31] 109; Char 66; LF; Csi [2; 3] 72; Char 67; Csi [] 75].
Definition queue (l : list Z) : tty_queue := MkQueue (λ i, nth (Z.to_nat i) l 0) 0 (Z.of_nat (length l)).
Lemma queue_holds l : Z.of_nat (length l) <= TTY_BUF_SIZE → holds (queue l) 0 l.
Proof.
  intros Hl. split; [done|]. split; [done|]. intros i c Hc. change (nth (Z.to_nat (0 + Z.of_nat i)) l 0 = c).
  rewrite Z.add_0_l, Nat2Z.id. by apply nth_lookup_Some.
Qed.
Lemma v_rep : rep 8 2 v s.
Proof.
  split; try (by vm_compute). intros r c _ _. change (vc_scr_buf v) with (memset 0 0 16 (λ _, 0)).
  rewrite memset_spec. by case_match.
Qed.
Lemma v_synced : synced (λ _, 0) v.
Proof. by split. Qed.
Lemma char_tame c : bool_decide (is_u8 c) && bool_decide (c ∉ [8; 10; 13; 27]) = true → tame 2 (Char c).
Proof. intros [H1%bool_decide_eq_true H2%bool_decide_eq_true]%andb_true_iff. by split. Qed.
Lemma csi_tame ps c : bool_decide (Z.of_nat (length ps) <= NPAR) && forallb (λ n, (0 <=? n) && (n <? 2147483648)) ps
  && (0 <=? c) && (c <? 256) && negb ((48 <=? c) && (c <=? 57)) && negb (c =? 59) && negb (c =? 114)
  && forallb (λ n, negb (n =? 38) && negb (n =? 48)) ps = true → tame 2 (Csi ps c).
Proof.
  rewrite !andb_true_iff, !negb_true_iff, bool_decide_eq_true, !forallb_forall.
  intros (((((((H1 & H2) & H3) & H4) & H5) & H6) & H7) & H8). split; [done|]. split; [|split; [|split; [|split; [|split]]]].
  - apply Forall_forall. intros n Hn%list_elem_of_In%H2. lia.
  - unfold is_u8. lia.
  - intros [Ha%Z.leb_le Hb%Z.leb_le]. by rewrite Ha, Hb in H5.
  - lia.
  - lia.
  - intros _ i _. unfold param. destruct (nth_in_or_default (Z.to_nat i) ps 0) as [Hin| ->]; [|done].
    apply H8 in Hin. lia.
Qed.
Lemma text_tame : Forall (tame 2) text.
Proof.
  unfold text. repeat (apply Forall_cons; split; [first [by apply char_tame | by apply csi_tame | done]|]).
  by apply Forall_nil.
Qed.
End ConsoleDemo.

Lemma vc_write_refines_screen_witness :
  ∃ v', vc_write 17 0 (ConsoleDemo.queue (print ConsoleDemo.text)) ConsoleDemo.v = Ok (19, v') ∧
    shown 8 (λ _, 0) (vc_out v') 1 = 66 ∧ shown 8 (λ _, 0) (vc_out v') 10 = 67.
Proof.
  destruct (vc_write_refines_screen 8 2 (λ _, 0) 17 0 (ConsoleDemo.queue (print ConsoleDemo.text)) ConsoleDemo.v
    ConsoleDemo.s ConsoleDemo.text) as (v' & R & _ & _ & Hd).
  - lia.
  - done.
  - apply ConsoleDemo.v_rep.
  - apply ConsoleDemo.v_synced.
  - apply ConsoleDemo.text_tame.
  - apply ConsoleDemo.queue_holds. by vm_compute.
  - done.
  - exists v'. split; [exact R|]. split; [apply (Hd 0 1); lia|apply (Hd 1 2); lia].
Defined.

Lemma set_attr_loop_stuck par len type fuel : 2 < len <= NPAR → par 2 = 38 → par 1 ≠ 5 → par 1 ≠ 2 →
  ∀ v, set_attr_loop fuel par len 2 type v = NoFuel.
Proof.
  intros Hlen H2 H5 H2'. induction fuel as [|fuel IH]; intros v; [done|]. cbn [set_attr_loop].
  rewrite (proj2 (Z.ltb_lt 2 len)), (proj2 (Z.leb_gt NPAR 2)), H2 by (done || lia). cbn [Z.eqb Pos.eqb].
  unfold vc_set_256_rgb. rewrite (proj2 (Z.eqb_neq _ 5)), (proj2 (Z.eqb_neq _ 2)) by done. apply IH.
Qed.

(** the code for an extended colour looks at the parameters from the first one on, not from
    the place of the code. [ESC \[0;1;38m] makes the driver read the same code for ever, with the
    mutex of the console held. *)
Theorem extended_colour_hangs fuel q p v : (3 < fuel)%nat →
  holds q p (print_token (Csi [0; 1; 38] 109)) → vc_start_escape fuel q p v = NoFuel.
Proof.
  intros Hfuel Hq. change (print_token (Csi [0; 1; 38] 109)) with [27; 91; 48; 59; 49; 59; 51; 56; 109] in Hq.
  pose proof Hq as [_ [H1 Hp]%holds_cons]%holds_cons. unfold vc_start_escape.
  rewrite (tq_char_run _ _ _ _ _ (H1 v)). cbn [Z.eqb Pos.eqb]. unfold vc_csi_escape.
  change [48; 59; 49; 59; 51; 56; 109] with (print_params [0; 1; 38] ++ [109]) in Hp.
  destruct (csi_params_ok q 109 [] (SCAN_FUEL - 7) v ltac:(lia) ltac:(lia) [0; 1; 38] 0 (λ _, 0) (p + 1 + 1))
    as (par & R & E); try done.
  { repeat (apply Forall_cons; split; [lia|]). by apply Forall_nil. }
  change (length (print_params [0%Z; 1%Z; 38%Z]) + S (SCAN_FUEL - 7))%nat with SCAN_FUEL in R.
  rewrite (bind_ok _ _ _ _ _ R). cbv beta iota.
  pose proof (holds_app _ _ _ _ Hp) as [Hc _]%holds_cons. rewrite (tq_char_run _ _ _ _ _ (Hc v)).
  assert (E0 : par 0 = 0) by (by rewrite E). assert (E1 : par 1 = 1) by (by rewrite E).
  assert (E2 : par 2 = 38) by (by rewrite E).
  set (m := csi_dispatch _ _ _ _). assert (Hm : ∀ v, m v = NoFuel); [|unfold mbind, M_bind; by rewrite Hm].
  clear v R H1 Hc. intros v. unfold m, csi_dispatch. cbn [Z.eqb Pos.eqb orb length]. unfold vc_set_attr.
  assert (Hstep : ∀ f p type v, 0 <= p < 2 → p = par p →
    set_attr_loop (S f) par 3 p type v = (ok ← set_attr_param p; if ok : bool then set_attr_loop f par 3 (p + 1) type else mret tt) v).
  { intros f x type u Hx Hpar. cbn [set_attr_loop]. rewrite <- Hpar.
    rewrite (proj2 (Z.ltb_lt x 3)), (proj2 (Z.leb_gt NPAR x)) by (unfold NPAR; lia).
    rewrite (proj2 (Z.eqb_neq x 38)), (proj2 (Z.eqb_neq x 48)) by lia.
    assert (is_fg x = false ∧ is_bg x = false) as [-> ->]; [|done].
    assert (x = 0 ∨ x = 1) as [-> | ->] by lia; done. }
  destruct fuel as [|[|fuel]]; [lia..|].
  change (0 + Z.of_nat 3 - 1 + 1) with 3. rewrite Hstep by done.
  destruct (set_attr_param_only 0 v) as (b & v1 & R1 & _). pose proof R1 as [= <- _].
  rewrite (bind_ok _ _ _ _ _ R1). change (0 + 1) with 1. rewrite Hstep by done.
  destruct (set_attr_param_only 1 v1) as (b & v2 & R2 & _). pose proof R2 as [= <- _].
  rewrite (bind_ok _ _ _ _ _ R2). apply set_attr_loop_stuck; [by vm_compute|done|by rewrite E1..].
Qed.
Lemma extended_colour_hangs_witness :
  vc_start_escape 1000 (ConsoleDemo.queue [27; 91; 48; 59; 49; 59; 51; 56; 109]) 0 ConsoleDemo.v = NoFuel.
Proof. apply extended_colour_hangs; [lia|]. by apply ConsoleDemo.queue_holds. Defined.

Lemma csi_params_forward fuel q : ∀ par i p v par' i' p' v',
  csi_params fuel q par i p v = Ok ((par', i', p'), v') → p <= p'.
Proof.
  induction fuel as [|fuel IH]; intros par i p v par' i' p' v' H; [done|]. cbn [csi_params] in H.
  apply bind_inv in H as (c & v1 & _ & H). destruct (_ && _).
  - destruct (_ <? _); [|done]. apply IH in H. lia.
  - destruct (_ =? _); [apply IH in H; lia|]. by injection H as _ _ <- _.
Qed.
Lemma start_escape_forward fuel q p v p' v' : vc_start_escape fuel q p v = Ok (p', v') → p + 1 <= p'.
Proof.
  intros H. unfold vc_start_escape in H. apply bind_inv in H as (c & v1 & _ & H).
  repeat case_match; try (repeat (apply bind_inv in H as ([] & ? & _ & H)); by injection H as <- _).
  unfold vc_csi_escape in H. apply bind_inv in H as ([[par i] x] & v2 & Hp & H).
  apply csi_params_forward in Hp. apply bind_inv in H as (c' & v3 & _ & H).
  apply bind_inv in H as ([] & v4 & _ & H). injection H as <- _. lia.
Qed.
Lemma negative_count_never_ends fuel q n : ∀ nr p v r, nr < 0 → vc_write_loop n fuel q nr p v ≠ Ok r.
Proof.
  induction n as [|n IH]; intros nr p v r Hnr H; [done|]. cbn [vc_write_loop] in H.
  rewrite (proj2 (Z.eqb_neq nr 0)) in H by lia. apply bind_inv in H as (c & v1 & _ & H).
  repeat case_match; apply bind_inv in H as (a & v2 & He & H);
    try (eapply IH in H; [done|lia]).
  apply start_escape_forward in He. eapply IH in H; [done|lia].
Qed.

(** a text that ends in the middle of an escape sequence makes the driver run away: the
    count of the characters left becomes negative, the loop tests it for 0 only, and the call
    never returns; it goes on behind the text until it reads outside the queue or hangs. *)
Theorem cut_escape_never_returns w h fuel n q v s ts r : (16 < fuel)%nat → 0 <= n < NR_VIRTUAL_CONSOLES →
  rep w h v s → Forall (tame h) ts → holds q (tq_head q) (print ts ++ [27]) →
  tq_tail q = tq_head q + Z.of_nat (length (print ts ++ [27])) →
  vc_write fuel n q v ≠ Ok r.
Proof.
  intros Hfuel Hn H Hts Hq Ht Hr. unfold vc_write in Hr. rewrite (proj2 (Z.leb_gt _ n)), Ht in Hr by lia.
  rewrite length_app in Hr. cbn [length] in Hr. set (len := length (print ts)) in *.
  replace (tq_head q + Z.of_nat (len + 1) - tq_head q) with (Z.of_nat (len + 1)) in Hr by lia.
  rewrite (proj2 (Z.ltb_ge _ 0)) in Hr by lia. apply bind_inv in Hr as ([] & v1 & Hr & _).
  assert (HT : TTY_BUF_SIZE = 512) by done. assert (HS : SCAN_FUEL = 513%nat) by (by vm_compute).
  pose proof (print_length ts) as Hpl. pose proof Hq as (Hq0 & Hq1 & _). rewrite length_app in Hq1. cbn [length] in Hq1.
  fold len in Hpl, Hq1.
  destruct (write_tokens_ok w h fuel q ts [27] Hfuel Hts (SCAN_FUEL - length ts) v s (Z.of_nat (len + 1)) _ H
    ltac:(fold len; lia) Hq) as (v2 & R & _).
  replace (length ts + (SCAN_FUEL - length ts))%nat with SCAN_FUEL in R by lia. fold len in R.
  rewrite R in Hr. replace (Z.of_nat (len + 1) - Z.of_nat len) with 1 in Hr by lia.
  destruct (SCAN_FUEL - length ts)%nat as [|m]; [done|]. cbn [vc_write_loop Z.eqb Pos.eqb] in Hr.
  pose proof (holds_app _ _ _ _ Hq) as [Hc _]%holds_cons. fold len in Hc.
  rewrite (tq_char_run _ _ _ _ _ (Hc v2)) in Hr. cbn [Z.eqb Pos.eqb] in Hr.
  apply bind_inv in Hr as (p' & v3 & He & Hr). apply start_escape_forward in He.
  eapply negative_count_never_ends in Hr; [done|lia].
Qed.
Lemma cut_escape_never_returns_witness :
  vc_write 17 0 (ConsoleDemo.queue [65; 27]) ConsoleDemo.v ≠ Ok (2, ConsoleDemo.v).
Proof.
  apply (cut_escape_never_returns 8 2 17 0 _ _ ConsoleDemo.s [Char 65]);
    [lia|done|apply ConsoleDemo.v_rep| |by apply ConsoleDemo.queue_holds|done].
  apply Forall_cons. split; [by apply ConsoleDemo.char_tame|by apply Forall_nil].
Defined.

(** [ESC H] near the right margin leaves the cursor outside the line, and the next character
    on the last line goes behind the end of the buffer. *)
Lemma tab_overruns w h v s c : rep w h v s → w mod TAB_STOP = 0 → w - TAB_STOP <= s_x s → s_y s = h - 1 →
  (vc_tab_stop ;; vc_put c) v = Undef "write outside vc_scr_buf".
Proof.
  intros H Hw Hx Hy. pose proof (rp_pos _ _ _ _ H) as (H1 & H2 & H3). pose proof (rp_x_range _ _ _ _ H).
  unfold TAB_STOP in *. assert (w <= w * h) by nia. assert (h <= w * h) by nia.
  assert (Hx' : u32 (s_x s + (8 - s_x s mod 8)) = w) by (unfold u32; lia).
  assert (R : vc_tab_stop v = Ok (tt, v <| vc_cx := w |>)).
  { unfold vc_tab_stop. change ((modify ?f ≫= ?m) v) with (m tt (f v)). cbv beta.
    change ((get ≫= ?m) ?u) with (m u u). cbv beta. rec_simpl. unfold TAB_STOP.
    rewrite (rp_x _ _ _ _ H), (rp_width _ _ _ _ H), Hx', Z.ltb_irrefl. cbn [when].
    unfold mret, M_ret. do 2 f_equal.
    destruct v; unfold upd; cbn in *. destruct H; cbn in *. by subst. }
  rewrite (bind_ok _ _ _ _ _ R). set (v1 := v <| vc_cx := w |>).
  assert (Hp : SCR_POS v1 = w * h).
  { unfold SCR_POS, v1. rec_simpl. rewrite (rp_y _ _ _ _ H), (rp_width _ _ _ _ H), Hy, u32_id; unfold is_u32; lia. }
  assert (Hs : in_screen v1 (w * h) 1 = false).
  { unfold in_screen, v1. rec_simpl. rewrite (rp_size _ _ _ _ H).
    by rewrite (proj2 (Z.leb_gt (w * h + 1) _)), andb_false_r by lia. }
  unfold vc_put, scr_put, mbind, M_bind, get. by rewrite Hp, Hs.
Qed.
(** Deleting one character of [abcd] at the start of the line leaves only [b]. *)
Example delete_chars_erases_line :
  let v := ConsoleDemo.v <| vc_scr_buf := λ a, if (0 <=? a) && (a <? 4) then 97 + a else 0 |> in
  match vc_delete_chars 1 v with Ok (_, v') => map (λ i, vc_scr_buf v' (Z.of_nat i)) (seq 0 5) | _ => [] end = [98; 0; 0; 0; 0].
Proof. by vm_compute. Qed.
