(* ===== verification/Bitmap.v ===== *)
(** Bitmaps in memory: bit [i] is bit [i mod 8] of byte [i / 8], as the allocators of blocks,
    inodes and page frames keep them. Setting and clearing a bit, and the number of clear bits. *)
From S2P Require Import Prelude.

Definition bit_at (m : Z → Z) (i : Z) : bool := bit_test (m (i / 8)) (i mod 8).
Definition set_bit (m : Z → Z) (i : Z) : Z → Z := <[i / 8 := u8 (bit_set (m (i / 8)) (i mod 8))]> m.
Definition clear_bit (m : Z → Z) (i : Z) : Z → Z := <[i / 8 := u8 (bit_clear (m (i / 8)) (i mod 8))]> m.
(** The number of clear bits below [n]. *)
Definition clear_bits (m : Z → Z) (n : Z) : Z :=
  zsum (λ i, if bit_at m (Z.of_nat i) then 0 else 1) (seq 0 (Z.to_nat n)).
Definition bytes (m : Z → Z) : Prop := ∀ i, is_u8 (m i).

Section bitmap.
Implicit Types m : Z → Z.

Lemma bit_at_set m r i : bytes m → 0 <= r → 0 <= i →
  bit_at (set_bit m r) i = (bool_decide (i = r) || bit_at m i)%bool.
Proof.
  intros Hm Hr Hi. unfold bit_at, set_bit. destruct (decide (i / 8 = r / 8)) as [He|Hne].
  - rewrite He, fn_insert_eq, u8_id by (apply bit_set_u8; [apply Hm|lia]).
    rewrite !bit_test_spec, bit_set_spec by lia. f_equal. apply bool_decide_ext. lia.
  - rewrite fn_insert_ne by done. rewrite bool_decide_eq_false_2; [done|congruence].
Qed.
Lemma bit_at_clear m r i : bytes m → 0 <= r → 0 <= i →
  bit_at (clear_bit m r) i = (negb (bool_decide (i = r)) && bit_at m i)%bool.
Proof.
  intros Hm Hr Hi. unfold bit_at, clear_bit. destruct (decide (i / 8 = r / 8)) as [He|Hne].
  - rewrite He, fn_insert_eq, u8_id by (apply bit_clear_u8; [apply Hm|lia]).
    rewrite !bit_test_spec, bit_clear_spec by lia. do 2 f_equal. apply bool_decide_ext. lia.
  - rewrite fn_insert_ne by done. rewrite bool_decide_eq_false_2; [done|congruence].
Qed.
Lemma set_bit_bytes m r : bytes m → bytes (set_bit m r).
Proof. intros H i. unfold set_bit. destruct (decide (r / 8 = i)) as [<-|]; autorewrite with yak; [apply u8_range|apply H]. Qed.
Lemma clear_bit_bytes m r : bytes m → bytes (clear_bit m r).
Proof. intros H i. unfold clear_bit. destruct (decide (r / 8 = i)) as [<-|]; autorewrite with yak; [apply u8_range|apply H]. Qed.

Lemma clear_bits_ext m m' n : (∀ i, 0 <= i < n → bit_at m i = bit_at m' i) → clear_bits m n = clear_bits m' n.
Proof. intros H. apply zsum_ext. intros x Hx. apply seq_elem in Hx. by rewrite H by lia. Qed.
Lemma clear_bits_range m n : 0 <= n → 0 <= clear_bits m n <= n.
Proof.
  intros Hn. split; [apply zsum_nonneg; intros; by destruct (bit_at _ _)|].
  unfold clear_bits. replace n with (Z.of_nat (length (seq 0 (Z.to_nat n)))) at 2 by (rewrite length_seq; lia).
  generalize (seq 0 (Z.to_nat n)). intros l. induction l as [|x l IH]; simpl length; simpl zsum; [lia|].
  destruct (bit_at m _); lia.
Qed.
(** Bits that are set do not count. *)
Lemma clear_bits_tail m k n : 0 <= k <= n → (∀ i, k <= i < n → bit_at m i = true) → clear_bits m n = clear_bits m k.
Proof.
  intros Hk Ht. unfold clear_bits. replace (Z.to_nat n) with (Z.to_nat k + Z.to_nat (n - k))%nat by lia.
  rewrite seq_app, zsum_app. rewrite (zsum_0 _ (seq (0 + Z.to_nat k) _)); [lia|].
  intros x Hx. apply seq_elem in Hx. by rewrite Ht by lia.
Qed.
(** One bit that changes. *)
Lemma clear_bits_flip m m' n r : 0 <= r < n → bit_at m' r = negb (bit_at m r) →
  (∀ i, 0 <= i → i ≠ r → bit_at m' i = bit_at m i) →
  clear_bits m' n = clear_bits m n + (if bit_at m r then 1 else -1).
Proof.
  intros Hr Hf Hne. unfold clear_bits.
  rewrite (zsum_update (λ i, if bit_at m (Z.of_nat i) then 0 else 1)
    (λ i, if bit_at m' (Z.of_nat i) then 0 else 1) _ (Z.to_nat r)).
  - rewrite Z2Nat.id by lia. rewrite Hf. destruct (bit_at m r); simpl; lia.
  - apply NoDup_seq.
  - apply seq_elem. lia.
  - intros x Hx. rewrite Hne; [done|lia|lia].
Qed.
Lemma clear_bits_set m n r : bytes m → 0 <= r < n → bit_at m r = false →
  clear_bits (set_bit m r) n = clear_bits m n - 1.
Proof.
  intros Hm Hr Hb. rewrite (clear_bits_flip m _ n r); [by rewrite Hb|done| |].
  - rewrite bit_at_set by (done || lia). rewrite Hb. by rewrite bool_decide_eq_true_2.
  - intros i Hi Hne. rewrite bit_at_set by (done || lia). by rewrite bool_decide_eq_false_2.
Qed.
Lemma clear_bits_clear m n r : bytes m → 0 <= r < n → bit_at m r = true →
  clear_bits (clear_bit m r) n = clear_bits m n + 1.
Proof.
  intros Hm Hr Hb. rewrite (clear_bits_flip m _ n r); [by rewrite Hb|done| |].
  - rewrite bit_at_clear by (done || lia). rewrite Hb. by rewrite bool_decide_eq_true_2.
  - intros i Hi Hne. rewrite bit_at_clear by (done || lia). by rewrite bool_decide_eq_false_2.
Qed.
Lemma clear_bits_0 m n i : clear_bits m n = 0 → 0 <= i < n → bit_at m i = true.
Proof.
  intros H Hi. destruct (bit_at m i) eqn:E; [done|exfalso].
  pose proof (zsum_pos (λ i, if bit_at m (Z.of_nat i) then 0 else 1) (seq 0 (Z.to_nat n)) (Z.to_nat i)) as Hp.
  cbv beta in Hp. rewrite Z2Nat.id, E in Hp by lia. unfold clear_bits in H. rewrite H in Hp.
  enough (1 <= 0) by lia. apply Hp; [apply seq_elem; lia|]. intros x _. destruct (bit_at m (Z.of_nat x)); lia.
Qed.
Lemma clear_bits_pos m n : 0 <= n → clear_bits m n ≠ 0 → ∃ i, 0 <= i < n ∧ bit_at m i = false.
Proof.
  intros Hn H. destruct (existsb (λ i, negb (bit_at m (Z.of_nat i))) (seq 0 (Z.to_nat n))) eqn:E.
  - apply existsb_exists in E as (i & Hi & E). apply in_seq in Hi. exists (Z.of_nat i).
    split; [lia|]. by apply negb_true_iff.
  - exfalso. apply H. apply zsum_0. intros x Hx. destruct (bit_at m (Z.of_nat x)) eqn:E2; [done|].
    exfalso. enough (existsb (λ i, negb (bit_at m (Z.of_nat i))) (seq 0 (Z.to_nat n)) = true) by congruence.
    apply existsb_exists. exists x. split; [by apply list_elem_of_In|]. by rewrite E2.
Qed.
End bitmap.
