(* ===== verification/PageAlloc.v ===== *)
(** The map of physical memory and the allocator of page frames (sys/mm/mm_init.c and
    sys/mm/page_alloc.c). Memory is a function from physical addresses to bytes; the kernel reaches
    the byte at [x] by the virtual address VIRT_ADDR(x), for the map of the boot loader and for the
    bitmaps. [mmap] and [mmap_bitmaps] are arrays of [MAX_MMAP_ENTRIES] elements. *)
From S2P Require Import Prelude Bitmap.

Definition PAGE_SIZE : Z := 4096.
Definition MAX_MMAP_ENTRIES : nat := 16.
Definition NO_FREE_PAGE : Z := 1.
Definition MULTIBOOT_MEMORY_AVAILABLE : Z := 1.
(** The elements of [reference_counts]: MAX_MEM / PAGE_SIZE. *)
Definition NR_COUNTS : Z := 1048575.
Definition IS_PAGE_ALIGNED (x : Z) : bool := Z.land x 4095 =? 0.

Record mmap_entry := MkEntry { me_base : Z; me_size : Z; me_bitmap_size : Z; me_next : option nat }.
#[export] Instance mmap_entry_eta : Eta mmap_entry := λ e, MkEntry (me_base e) (me_size e) (me_bitmap_size e) (me_next e).
Record mmap_bitmap := MkBitmap { bm_entry : option nat; bm_base : Z; bm_size : Z; next_free : Z; free_pages : Z }.
#[export] Instance mmap_bitmap_eta : Eta mmap_bitmap := λ b,
  MkBitmap (bm_entry b) (bm_base b) (bm_size b) (next_free b) (free_pages b).

Record mm := MkMm {
  mmap : nat → mmap_entry; mmap_bitmaps : nat → mmap_bitmap; total_mem : Z; kstart_addr : Z; kend_addr : Z;
  mem : Z → Z; reference_counts : Z → Z
}.
#[export] Instance mm_eta : Eta mm := λ s,
  MkMm (mmap s) (mmap_bitmaps s) (total_mem s) (kstart_addr s) (kend_addr s) (mem s) (reference_counts s).
Definition P (A : Type) : Type := M mm A.

Definition entry_at (i : nat) : P mmap_entry :=
  if (i <? MAX_MMAP_ENTRIES)%nat then gets (λ s, mmap s i) else undef "behind mmap".
Definition bitmap_at (i : nat) : P mmap_bitmap :=
  if (i <? MAX_MMAP_ENTRIES)%nat then gets (λ s, mmap_bitmaps s i) else undef "behind mmap_bitmaps".
Definition upd_entry (i : nat) (f : mmap_entry → mmap_entry) : P unit := modify (λ s, s <| mmap ::= λ t, <[i := f (t i)]> t |>).
Definition upd_bitmap (i : nat) (f : mmap_bitmap → mmap_bitmap) : P unit :=
  modify (λ s, s <| mmap_bitmaps ::= λ t, <[i := f (t i)]> t |>).
Definition entry_of (b : mmap_bitmap) : P mmap_entry := i ← deref (bm_entry b) "null mmap_entry"; entry_at i.

(** ** The map of memory *)

(** [for (entry = mmap; entry->size != 0 && entry < mmap + MAX_MMAP_ENTRIES; entry++);] reads the
    size behind the array when all entries are taken. *)
Fixpoint free_entry (l : list nat) : P nat :=
  match l with
  | [] => undef "behind mmap"
  | i :: l => e ← entry_at i; if negb (me_size e =? 0) then free_entry l else mret i
  end.
Definition enter_into_mmap (base size : Z) : P (option nat) :=
  i ← free_entry (seq 0 MAX_MMAP_ENTRIES);
  if (MAX_MMAP_ENTRIES <=? i)%nat then mret None else
  upd_entry i (λ e, e <| me_base := base |>) ;;
  upd_entry i (λ e, e <| me_size := size |>) ;;
  upd_entry i (λ e, e <| me_bitmap_size := u32 (size / PAGE_SIZE + 1) |>) ;;
  upd_entry i (λ e, e <| me_next := if (i + 1 <? MAX_MMAP_ENTRIES)%nat then Some (i + 1)%nat else None |>) ;;
  mret (Some i).

(** The entries of the boot loader from [entry] on. *)
Fixpoint mm_init_loop (fuel : nat) (entry stop : Z) : P unit :=
  match fuel with
  | O => nofuel
  | S fuel =>
      if negb (entry <? stop) then mret tt else
      m ← gets mem;
      go ← (if le32 m (entry + 20) =? MULTIBOOT_MEMORY_AVAILABLE then
              modify (λ s, s <| total_mem ::= λ t, u32 (t + le32 m (entry + 12)) |>) ;;
              r ← enter_into_mmap (le32 m (entry + 4)) (le32 m (entry + 12));
              mret (bool_decide (r ≠ None))
            else mret true);
      if go : bool then mm_init_loop fuel (u32 (entry + le32 m entry + 4)) stop else mret tt
  end.

(** Both loops over [mmap] follow the pointers; there are at most [MAX_MMAP_ENTRIES] of them. *)
Definition MMAP_FUEL : nat := MAX_MMAP_ENTRIES + 1.
Fixpoint kernel_loop (fuel i : nat) (kernel_size : Z) : P unit :=
  match fuel with
  | O => nofuel
  | S fuel =>
      e ← entry_at i;
      match me_next e with
      | None => mret tt
      | Some j =>
          k ← gets kstart_addr;
          (if (me_base e =? k) && (kernel_size <? me_size e) then
             upd_entry i (λ e, e <| me_size ::= λ z, u32 (z - kernel_size) |>) ;;
             upd_entry i (λ e, e <| me_base ::= λ z, u32 (z + kernel_size) |>)
           else if (me_base e =? k) && (me_size e <? kernel_size) then
             panic "Bizzare: there doesn't seem to be enough memory for the kernel to be running!"
           else mret tt) ;;
          kernel_loop fuel j kernel_size
      end
  end.

(** The base of the space for the bitmaps. *)
Fixpoint space_loop (fuel i : nat) (nr : Z) : P Z :=
  match fuel with
  | O => nofuel
  | S fuel =>
      e ← entry_at i;
      match me_next e with
      | None => mret 4294967295
      | Some j =>
          if u32 (nr * PAGE_SIZE) <? me_size e then
            upd_entry i (λ e, e <| me_size ::= λ z, u32 (z - nr * PAGE_SIZE) |>) ;;
            upd_entry i (λ e, e <| me_base ::= λ z, u32 (z + nr * PAGE_SIZE) |>) ;;
            mret (me_base e)
          else space_loop fuel j nr
      end
  end.
Fixpoint bitmaps_loop (l : list nat) (base : Z) : P unit :=
  match l with
  | [] => mret tt
  | i :: l =>
      upd_bitmap i (λ b, b <| bm_entry := Some i |>) ;;
      e ← entry_at i;
      match me_next e with
      | None => mret tt
      | Some _ =>
          upd_bitmap i (λ b, b <| bm_base := base |>) ;;
          upd_bitmap i (λ b, b <| bm_size := me_size e / PAGE_SIZE / 8 + 1 |>) ;;
          upd_bitmap i (λ b, b <| next_free := 0 |>) ;;
          upd_bitmap i (λ b, b <| free_pages := u32 (Z.shiftl (bm_size b) 3) |>) ;;
          bitmaps_loop l (u32 (base + (me_size e / PAGE_SIZE / 8 + 1)))
      end
  end.
(** [memset] of a range of memory. *)
Definition clear_mem (base n : Z) (m : Z → Z) : Z → Z := λ a, if (base <=? a) && (a <? base + n) then 0 else m a.
Fixpoint clear_loop (fuel i : nat) : P unit :=
  match fuel with
  | O => nofuel
  | S fuel =>
      b ← bitmap_at i;
      e ← entry_of b;
      match me_next e with
      | None => mret tt
      | Some _ =>
          modify (λ s, s <| mem ::= clear_mem (bm_base b) (bm_size b) |>) ;;
          clear_loop fuel (S i)
      end
  end.
Definition reserve_bitmaps : P unit :=
  t ← gets total_mem;
  let nr := t / (PAGE_SIZE * 8 * PAGE_SIZE) + 1 in
  base ← space_loop MMAP_FUEL 0 nr;
  if base =? 4294967295 then panic "Not enough memory" else
  bitmaps_loop (seq 0 MAX_MMAP_ENTRIES) base ;;
  clear_loop MMAP_FUEL 0.

(** [addr] and [length] are the fields of the multiboot structure, [start] and [end_] the physical
    addresses of the symbols of the linker script. *)
Definition mm_init (fuel : nat) (addr length start end_ : Z) : P unit :=
  mm_init_loop fuel addr (u32 (addr + length)) ;;
  modify (λ s, s <| kstart_addr := start |>) ;;
  modify (λ s, s <| kend_addr := end_ |>) ;;
  if negb (IS_PAGE_ALIGNED start) || negb (IS_PAGE_ALIGNED end_) then
    panic "_end_kernel or _start_kernel are not page aligned" else
  kernel_loop MMAP_FUEL 0 (u32 (end_ - start)) ;;
  reserve_bitmaps.

(** ** Page frames *)
Definition set_bit (bitmap bit : Z) : P unit :=
  modify (λ s, s <| mem ::= λ m, <[bitmap + bit / 8 := u8 (bit_set (m (bitmap + bit / 8)) (bit mod 8))]> m |>).
Definition clear_bit (bitmap bit : Z) : P unit :=
  modify (λ s, s <| mem ::= λ m, <[bitmap + bit / 8 := u8 (bit_clear (m (bitmap + bit / 8)) (bit mod 8))]> m |>).

(** The turns of the loop from bit [8 * i + j] on; the result is the new [next_free]. *)
Fixpoint scan_loop (fuel : nat) (map i j size : Z) : P Z :=
  match fuel with
  | O => nofuel
  | S fuel =>
      m ← gets mem;
      if negb (bit_test (m (map + i)) j) then mret (u32 (Z.shiftl i 3 + j))
      else if u32 (Z.shiftl i 3 + j) =? size then mret NO_FREE_PAGE
      else if j =? 7 then scan_loop fuel map (i + 1) 0 size
      else scan_loop fuel map i (j + 1) size
  end.
(** Enough for a scan that starts at [size] or before it. *)
Definition scan_bitmap (k : nat) : P unit :=
  b ← bitmap_at k;
  n ← scan_loop (S (Z.to_nat (bm_size b))) (bm_base b) (Z.shiftr (next_free b) 3) (next_free b mod 8) (bm_size b);
  upd_bitmap k (λ b, b <| next_free := n |>).

(** [reference_counts] has elements of type char. *)
Definition count_at (i : Z) : P Z :=
  if i <? NR_COUNTS then gets (λ s, reference_counts s i) else undef "behind reference_counts".
Definition set_count (i v : Z) : P unit :=
  if i <? NR_COUNTS then modify (λ s, s <| reference_counts ::= <[i := s8 v]> |>) else undef "behind reference_counts".

(** The first bitmap with a free page, or the one behind the last. *)
Fixpoint find_bitmap (fuel k : nat) (stop : mmap_bitmap → mmap_entry → bool) : P nat :=
  match fuel with
  | O => nofuel
  | S fuel =>
      b ← bitmap_at k;
      e ← entry_of b;
      if bool_decide (me_next e = None) then mret k
      else if stop b e then mret k else find_bitmap fuel (S k) stop
  end.
Definition page_frame_alloc : P Z :=
  k ← find_bitmap MMAP_FUEL 0 (λ b _, negb (free_pages b =? 0));
  b ← bitmap_at k;
  if free_pages b =? 0 then
    if negb (next_free b =? NO_FREE_PAGE) then panic "Memory map bitmaps corrupted" else mret NO_FREE_PAGE
  else
  e ← entry_of b;
  let ret := u32 (next_free b * PAGE_SIZE + me_base e) in
  set_bit (bm_base b) (next_free b) ;;
  upd_bitmap k (λ b, b <| free_pages ::= λ n, n - 1 |>) ;;
  b ← bitmap_at k;
  (if negb (free_pages b =? 0) then scan_bitmap k else upd_bitmap k (λ b, b <| next_free := NO_FREE_PAGE |>)) ;;
  set_count (ret / PAGE_SIZE) 1 ;;
  mret ret.

Definition page_frame_free (page : Z) : P unit :=
  let i := page / PAGE_SIZE in
  c ← count_at i;
  set_count i (c - 1) ;;
  c ← count_at i;
  if 0 <? c then mret tt else
  if negb (IS_PAGE_ALIGNED page) then panic "page_frame_free: page has wrong alignment" else
  set_count i (c - 1) ;;
  c ← count_at i;
  if negb (c =? 0) then mret tt else
  k ← find_bitmap MMAP_FUEL 0 (λ _ e, page <? u32 (me_base e + me_size e));
  b ← bitmap_at k;
  e ← entry_of b;
  if u32 (me_base e + me_size e) <? page then panic "page_frame_free: page address is nowhere in memory!" else
  let bit := u32 (page - me_base e) / PAGE_SIZE in
  clear_bit (bm_base b) bit ;;
  upd_bitmap k (λ b, b <| free_pages ::= λ n, u32 (n + 1) |>) ;;
  if bit <? next_free b then upd_bitmap k (λ b, b <| next_free := bit |>) else mret tt.

Definition page_increase_count (page : Z) : P unit := c ← count_at (page / PAGE_SIZE); set_count (page / PAGE_SIZE) (c + 1).
Definition page_decrease_count (page : Z) : P unit := c ← count_at (page / PAGE_SIZE); set_count (page / PAGE_SIZE) (c - 1).
Definition page_get_count (page : Z) : P Z := count_at (page / PAGE_SIZE).

(** ** Regions

    The map is a list of regions, base and size, followed by an unused entry. *)
Definition chain (rs : list (Z * Z)) (s : mm) : Prop :=
  (length rs < MAX_MMAP_ENTRIES)%nat ∧
  (∀ i b z, rs !! i = Some (b, z) → me_base (mmap s i) = b ∧ me_size (mmap s i) = z ∧ me_next (mmap s i) = Some (i + 1)%nat) ∧
  ∀ i, (length rs <= i < MAX_MMAP_ENTRIES)%nat → me_size (mmap s i) = 0 ∧ me_next (mmap s i) = None.

(** The bytes of the bitmap of a region, and the frame that the allocator gives next when [n] pages
    have been taken: when the bitmap of [bmap_bytes] bytes has that many set bits and one more, the
    scan gives up with [NO_FREE_PAGE], which stands for the second page of the region. *)
Definition bmap_bytes (z : Z) : Z := z / PAGE_SIZE / 8 + 1.
Definition page_index (z n : Z) : Z := if n <=? bmap_bytes z then n else NO_FREE_PAGE.
Definition bit_in (m : Z → Z) (base j : Z) : bool := bit_test (m (base + j / 8)) (j mod 8).

(** [n i] pages have been taken from region [i]. *)
Record frame_inv (rs : list (Z * Z)) (n : nat → Z) (s : mm) : Prop := {
  fi_chain : chain rs s;
  fi_size : ∀ i b z, rs !! i = Some (b, z) → 0 <= b ∧ 0 <= z < 4294967296;
  fi_bitmap : ∀ i b z, rs !! i = Some (b, z) →
    mmap_bitmaps s i = MkBitmap (Some i) (bm_base (mmap_bitmaps s i)) (bmap_bytes z) (page_index z (n i)) (8 * bmap_bytes z - n i);
  fi_end : bm_entry (mmap_bitmaps s (length rs)) = Some (length rs);
  fi_taken : ∀ i b z, rs !! i = Some (b, z) → 0 <= n i <= 8 * bmap_bytes z;
  fi_bits : ∀ i b z j, rs !! i = Some (b, z) → 0 <= j < 8 * bmap_bytes z →
    bit_in (mem s) (bm_base (mmap_bitmaps s i)) j = (j <? n i `min` (bmap_bytes z + 1));
  fi_disjoint : ∀ i j b z, (i < j < length rs)%nat → rs !! i = Some (b, z) →
    bm_base (mmap_bitmaps s i) + bmap_bytes z <= bm_base (mmap_bitmaps s j);
  fi_bytes : bytes (mem s)
}.

Section frames.
Implicit Types s : mm.

Lemma bmap_bytes_pos z : 0 <= z < 4294967296 → 1 <= bmap_bytes z < 131074.
Proof. unfold bmap_bytes, PAGE_SIZE. lia. Qed.

Lemma entry_at_ok i s : (i < MAX_MMAP_ENTRIES)%nat → entry_at i s = Ok (mmap s i, s).
Proof. intros Hi. unfold entry_at. by rewrite (proj2 (Nat.ltb_lt _ _)) by done. Qed.
Lemma bitmap_at_ok i s : (i < MAX_MMAP_ENTRIES)%nat → bitmap_at i s = Ok (mmap_bitmaps s i, s).
Proof. intros Hi. unfold bitmap_at. by rewrite (proj2 (Nat.ltb_lt _ _)) by done. Qed.
Lemma entry_of_ok i b s : (i < MAX_MMAP_ENTRIES)%nat → bm_entry b = Some i → entry_of b s = Ok (mmap s i, s).
Proof. intros Hi He. unfold entry_of. rewrite He. simpl. rewrite (bind_ok (mret i : P nat) _ _ i s eq_refl). by apply entry_at_ok. Qed.

(** The bits of a bitmap after a bit of it, or of another one, was set. *)
Lemma bit_in_set m base n b j : bytes m → 0 <= n → 0 <= j →
  bit_in (<[base + n / 8 := u8 (bit_set (m (base + n / 8)) (n mod 8))]> m) b j =
  (bool_decide (b + j / 8 = base + n / 8 ∧ j mod 8 = n mod 8) || bit_in m b j)%bool.
Proof.
  intros Hm Hn Hj. unfold bit_in. destruct (decide (b + j / 8 = base + n / 8)) as [He|He].
  - rewrite He, fn_insert_eq, u8_id by (apply bit_set_u8; [apply Hm|lia]). rewrite !bit_test_spec, bit_set_spec by lia.
    f_equal. apply bool_decide_ext. tauto.
  - rewrite fn_insert_ne by done. by rewrite bool_decide_eq_false_2 by tauto.
Qed.
Lemma set_bytes m a v : bytes m → bytes (<[a := u8 v]> m).
Proof. intros H i. destruct (decide (a = i)) as [->|]; autorewrite with yak; [apply u8_range|apply H]. Qed.

(** The scan goes on to the first clear bit, if there is one before bit [size]. *)
Lemma scan_loop_ok fuel map size n : ∀ s i j, 0 <= i → 0 <= j < 8 → 8 * i + j <= n <= size → 0 <= size < 4294967296 →
  (Z.to_nat (n - (8 * i + j)) < fuel)%nat → (∀ k, 8 * i + j <= k < n → bit_in (mem s) map k = true) →
  (bit_in (mem s) map n = true → n = size) →
  scan_loop fuel map i j size s = Ok (if bit_in (mem s) map n then NO_FREE_PAGE else n, s).
Proof.
  induction fuel as [|fuel IH]; intros s i j Hi Hj Hn Hz Hf Hset Hend; [lia|]. cbn [scan_loop].
  change ((gets mem ≫= ?f) s) with (f (mem s) s). cbv beta.
  assert (Z.shiftl i 3 + j = 8 * i + j) as E by (rewrite Z.shiftl_mul_pow2; lia). rewrite E.
  assert (bit_test (mem s (map + i)) j = bit_in (mem s) map (8 * i + j)) as ->.
  { unfold bit_in. replace ((8 * i + j) / 8) with i by lia. by replace ((8 * i + j) mod 8) with j by lia. }
  rewrite u32_id by (unfold is_u32; lia). destruct (decide (8 * i + j = n)) as [->|Hne].
  - destruct (bit_in (mem s) map n); simpl; [|done]. rewrite Hend by done. by rewrite Z.eqb_refl.
  - rewrite Hset by lia. simpl. rewrite (proj2 (Z.eqb_neq _ _)) by lia. destruct (Z.eqb_spec j 7).
    + apply IH; try lia. intros k Hk. apply Hset. lia.
    + apply IH; try lia. intros k Hk. apply Hset. lia.
Qed.

Lemma fi_lt rs n s i b z : frame_inv rs n s → rs !! i = Some (b, z) → (i < MAX_MMAP_ENTRIES)%nat.
Proof. intros I Hi. apply lookup_lt_Some in Hi. pose proof (proj1 (fi_chain _ _ _ I)). lia. Qed.

(** The loops over the bitmaps stop at the first that [stop] accepts. *)
Lemma find_bitmap_ok rs n s stop k b z : frame_inv rs n s → rs !! k = Some (b, z) →
  stop (mmap_bitmaps s k) (mmap s k) = true → (∀ i, (i < k)%nat → stop (mmap_bitmaps s i) (mmap s i) = false) →
  find_bitmap MMAP_FUEL 0 stop s = Ok (k, s).
Proof.
  intros I Hk Hstop Hlow. pose proof (fi_lt _ _ _ _ _ _ I Hk) as Hlt.
  assert (∀ fuel i, (i <= k)%nat → (k - i < fuel)%nat → find_bitmap fuel i stop s = Ok (k, s)) as H; [|apply H; unfold MMAP_FUEL; lia].
  induction fuel as [|fuel IH]; intros i Hi Hf; [lia|]. cbn [find_bitmap].
  assert (is_Some (rs !! i)) as [[bi zi] Hri] by (apply lookup_lt_is_Some; apply lookup_lt_Some in Hk; lia).
  rewrite (bind_ok _ _ _ _ _ (bitmap_at_ok i s ltac:(lia))).
  rewrite (bind_ok _ _ _ _ _ (entry_of_ok i (mmap_bitmaps s i) s ltac:(lia) ltac:(by rewrite (fi_bitmap _ _ _ I i bi zi Hri)))).
  destruct (proj1 (proj2 (fi_chain _ _ _ I)) i bi zi Hri) as (_ & _ & ->). rewrite bool_decide_eq_false_2 by done.
  destruct (decide (i = k)) as [->|]; [by rewrite Hstop|]. rewrite Hlow by lia. apply IH; lia.
Qed.

Lemma count_page_ok page v s : page / PAGE_SIZE < NR_COUNTS →
  set_count (page / PAGE_SIZE) v s = Ok (tt, s <| reference_counts ::= <[page / PAGE_SIZE := s8 v]> |>).
Proof. intros H. unfold set_count. by rewrite (proj2 (Z.ltb_lt _ _)). Qed.

(** Taking a page: its bit is set and the fields of the bitmap are those for one more page. *)
Definition take_bit (base bit : Z) (m : Z → Z) : Z → Z := <[base + bit / 8 := u8 (bit_set (m (base + bit / 8)) (bit mod 8))]> m.
Lemma taken_bits m base z n j : bytes m → 1 <= bmap_bytes z → 0 <= n < 8 * bmap_bytes z → 0 <= j < 8 * bmap_bytes z →
  bit_in m base j = (j <? n `min` (bmap_bytes z + 1)) →
  bit_in (take_bit base (page_index z n) m) base j = (j <? (n + 1) `min` (bmap_bytes z + 1)).
Proof.
  intros Hm Hz Hn Hj H. assert (0 <= page_index z n <= bmap_bytes z) as Hp.
  { unfold page_index, NO_FREE_PAGE. destruct (Z.leb_spec n (bmap_bytes z)); lia. }
  unfold take_bit. rewrite bit_in_set, H by (done || lia). case_bool_decide as Hd.
  - assert (j = page_index z n) as -> by lia. simpl. symmetry. apply Z.ltb_lt.
    unfold page_index, NO_FREE_PAGE in *. destruct (Z.leb_spec n (bmap_bytes z)); lia.
  - assert (j ≠ page_index z n) as Hne by (intros ->; by apply Hd). simpl.
    unfold page_index, NO_FREE_PAGE in *. destruct (Z.leb_spec n (bmap_bytes z)); apply eq_bool_prop_intro; rewrite !Is_true_true, !Z.ltb_lt; lia.
Qed.
Lemma frame_inv_take rs n s s' k b z : frame_inv rs n s → rs !! k = Some (b, z) → n k < 8 * bmap_bytes z →
  mmap s' = mmap s → (∀ i, i ≠ k → mmap_bitmaps s' i = mmap_bitmaps s i) →
  mmap_bitmaps s' k = MkBitmap (Some k) (bm_base (mmap_bitmaps s k)) (bmap_bytes z) (page_index z (n k + 1)) (8 * bmap_bytes z - (n k + 1)) →
  mem s' = take_bit (bm_base (mmap_bitmaps s k)) (page_index z (n k)) (mem s) →
  frame_inv rs (<[k := n k + 1]> n) s'.
Proof.
  intros I Hk Hn Hmap Hother Hnew Hmem. destruct (fi_size _ _ _ I k b z Hk) as [_ Hz]. pose proof (bmap_bytes_pos z Hz) as Hbz.
  pose proof (fi_taken _ _ _ I k b z Hk) as Ht.
  assert (∀ i, bm_base (mmap_bitmaps s' i) = bm_base (mmap_bitmaps s i)) as Hbase.
  { intros i. destruct (decide (i = k)) as [->|]; [by rewrite Hnew|by rewrite Hother]. }
  split; [|apply (fi_size _ _ _ I)|..].
  - unfold chain. rewrite Hmap. apply I.
  - intros i bi zi Hi. destruct (decide (k = i)) as [<-|].
    + rewrite Hk in Hi. injection Hi as <- <-. by rewrite Hnew, fn_insert_eq.
    + rewrite Hother, fn_insert_ne by done. by eapply (fi_bitmap _ _ _ I).
  - destruct (decide (length rs = k)) as [E|]; [apply lookup_lt_Some in Hk; lia|]. rewrite Hother by done. apply I.
  - intros i bi zi Hi. destruct (decide (k = i)) as [<-|].
    + rewrite Hk in Hi. injection Hi as <- <-. rewrite fn_insert_eq. lia.
    + rewrite fn_insert_ne by done. by eapply (fi_taken _ _ _ I).
  - intros i bi zi j Hi Hj. rewrite Hbase, Hmem. destruct (decide (k = i)) as [<-|].
    + rewrite Hk in Hi. injection Hi as <- <-. rewrite fn_insert_eq. apply taken_bits; [apply I|lia..|]. by eapply (fi_bits _ _ _ I).
    + rewrite fn_insert_ne by done. unfold take_bit.
      assert (0 <= page_index z (n k) <= bmap_bytes z) as Hp.
      { unfold page_index, NO_FREE_PAGE. destruct (Z.leb_spec (n k) (bmap_bytes z)); lia. }
      rewrite bit_in_set by (try apply I; lia). rewrite bool_decide_eq_false_2; [by eapply (fi_bits _ _ _ I)|].
      intros [E _]. apply lookup_lt_Some in Hi as Hi', Hk as Hk'.
      destruct (decide (i < k)%nat).
      * pose proof (fi_disjoint _ _ _ I i k bi zi ltac:(lia) Hi). lia.
      * pose proof (fi_disjoint _ _ _ I k i b z ltac:(lia) Hk). lia.
  - intros i j bi zi Hij Hi. rewrite !Hbase. by eapply (fi_disjoint _ _ _ I).
  - rewrite Hmem. apply set_bytes, I.
Qed.

(** The search for the next page after page [n] of the region was taken. *)
Lemma rescan_ok s k base z n : (k < MAX_MMAP_ENTRIES)%nat → 0 <= z < 4294967296 → 0 <= n < 8 * bmap_bytes z →
  mmap_bitmaps s k = MkBitmap (Some k) base (bmap_bytes z) (page_index z n) (8 * bmap_bytes z - (n + 1)) →
  (∀ j, 0 <= j < 8 * bmap_bytes z → bit_in (mem s) base j = (j <? (n + 1) `min` (bmap_bytes z + 1))) →
  (if negb (free_pages (mmap_bitmaps s k) =? 0) then scan_bitmap k else upd_bitmap k (λ b, b <| next_free := NO_FREE_PAGE |>)) s =
  Ok (tt, s <| mmap_bitmaps ::= λ t, <[k := (t k) <| next_free := page_index z (n + 1) |>]> t |>).
Proof.
  intros Hk Hz Hn Hb Hbits. pose proof (bmap_bytes_pos z Hz) as Hbz.
  assert (0 <= page_index z n <= n ∧ page_index z n <= bmap_bytes z) as Hp.
  { unfold page_index, NO_FREE_PAGE. destruct (Z.leb_spec n (bmap_bytes z)); lia. }
  set (e := (n + 1) `min` bmap_bytes z). assert (page_index z n <= e) as He by (unfold e; lia).
  assert (page_index z (n + 1) = if bit_in (mem s) base e then NO_FREE_PAGE else e) as Hnew.
  { rewrite Hbits by (unfold e; lia). unfold page_index, e.
    destruct (Z.leb_spec (n + 1) (bmap_bytes z)), (Z.ltb_spec ((n + 1) `min` bmap_bytes z) ((n + 1) `min` (bmap_bytes z + 1))); lia || done. }
  destruct (Z.eqb_spec (free_pages (mmap_bitmaps s k)) 0) as [E|E]; rewrite Hb in E; cbn in E; cbn [negb].
  - unfold upd_bitmap, modify. do 3 f_equal. unfold page_index. by rewrite (proj2 (Z.leb_gt _ _)) by lia.
  - unfold scan_bitmap. rewrite (bind_ok _ _ _ _ _ (bitmap_at_ok k s Hk)), Hb. cbn [bm_size bm_base next_free].
    rewrite (Z.shiftr_div_pow2 _ 3) by lia. change (2 ^ 3) with 8.
    rewrite (bind_ok _ _ _ (if bit_in (mem s) base e then NO_FREE_PAGE else e) s); [by rewrite <-Hnew|].
    apply scan_loop_ok; try (unfold e; lia).
    + intros j Hj. rewrite Hbits by (unfold e in Hj; lia). apply Z.ltb_lt. unfold e in Hj. lia.
    + rewrite Hbits by (unfold e; lia). rewrite Z.ltb_lt. unfold e. lia.
Qed.

(** The allocator takes the page that [page_index] names of the first region with a free page. *)
Lemma page_frame_alloc_ok rs n s k b z : frame_inv rs n s → rs !! k = Some (b, z) → n k < 8 * bmap_bytes z →
  (∀ i b z, (i < k)%nat → rs !! i = Some (b, z) → n i = 8 * bmap_bytes z) →
  let page := page_index z (n k) * PAGE_SIZE + b in page < 4294963200 →
  ∃ s', page_frame_alloc s = Ok (page, s') ∧ frame_inv rs (<[k := n k + 1]> n) s' ∧
    reference_counts s' = <[page / PAGE_SIZE := 1]> (reference_counts s).
Proof.
  intros I Hk Hn Hfull page Hpage. pose proof (fi_lt _ _ _ _ _ _ I Hk) as Hlt.
  destruct (fi_size _ _ _ I k b z Hk) as [Hb Hz]. pose proof (bmap_bytes_pos z Hz) as Hbz.
  pose proof (fi_bitmap _ _ _ I k b z Hk) as Hbm. pose proof (fi_taken _ _ _ I k b z Hk) as Ht.
  destruct (proj1 (proj2 (fi_chain _ _ _ I)) k b z Hk) as (Hbase & Hsz & Hnext).
  assert (0 <= page_index z (n k) <= bmap_bytes z) as Hpi.
  { unfold page_index, NO_FREE_PAGE. destruct (Z.leb_spec (n k) (bmap_bytes z)); lia. }
  unfold page_frame_alloc.
  assert (find_bitmap MMAP_FUEL 0 (λ b _, negb (free_pages b =? 0)) s = Ok (k, s)) as R.
  { apply (find_bitmap_ok rs n s _ k b z); [done|done|rewrite Hbm; cbn; apply negb_true_iff, Z.eqb_neq; lia|].
    intros i Hi. destruct (lookup_lt_is_Some_2 rs i) as [[bi zi] Hri]; [apply lookup_lt_Some in Hk; lia|].
    rewrite (fi_bitmap _ _ _ I i bi zi Hri), (Hfull i bi zi Hi Hri). cbn. by rewrite Z.sub_diag. }
  rewrite (bind_ok _ _ _ _ _ R), (bind_ok _ _ _ _ _ (bitmap_at_ok k s Hlt)). rewrite Hbm. cbn [free_pages next_free bm_base bm_entry].
  rewrite (proj2 (Z.eqb_neq _ _)) by lia. rewrite (bind_ok _ _ _ _ _ (entry_of_ok k (MkBitmap (Some k) _ _ _ _) s Hlt eq_refl)).
  set (base := bm_base (mmap_bitmaps s k)). set (s1 := s <| mem ::= take_bit base (page_index z (n k)) |>).
  assert (set_bit base (page_index z (n k)) s = Ok (tt, s1)) as R1 by done. rewrite (bind_ok _ _ _ _ _ R1).
  set (s2 := s1 <| mmap_bitmaps ::= λ t, <[k := (t k) <| free_pages ::= λ n, n - 1 |>]> t |>).
  assert (upd_bitmap k (λ b, b <| free_pages ::= λ n, n - 1 |>) s1 = Ok (tt, s2)) as R2 by done. rewrite (bind_ok _ _ _ _ _ R2).
  assert (mmap_bitmaps s2 k = MkBitmap (Some k) base (bmap_bytes z) (page_index z (n k)) (8 * bmap_bytes z - (n k + 1))) as E2.
  { unfold s2. rec_simpl. rewrite fn_insert_eq. unfold s1. rec_simpl. rewrite Hbm.
    transitivity (MkBitmap (Some k) base (bmap_bytes z) (page_index z (n k)) (8 * bmap_bytes z - n k - 1)); [done|f_equal; lia]. }
  rewrite (bind_ok _ _ _ _ _ (bitmap_at_ok k s2 Hlt)).
  rewrite (bind_ok _ _ _ _ _ (rescan_ok s2 k base z (n k) Hlt Hz ltac:(lia) E2 ltac:(
    intros j Hj; apply taken_bits; [apply I|lia..|by eapply (fi_bits _ _ _ I)]))).
  assert (0 <= page) by (unfold page, PAGE_SIZE; lia). rewrite Hbase. fold page. rewrite u32_id by (unfold is_u32; lia).
  rewrite (bind_ok _ _ _ _ _ (count_page_ok page 1 _ ltac:(unfold PAGE_SIZE, NR_COUNTS; lia))).
  eexists. split; [done|]. split; [|done]. apply (frame_inv_take rs n s _ k b z I Hk Hn); [done| |..|done].
  - intros i Hi. unfold s2, s1. do 2 rec_simpl. by rewrite !fn_insert_ne by done.
  - do 2 rec_simpl. rewrite fn_insert_eq, E2. reflexivity.
Qed.

(** The pages of [m] calls in a row. *)
Fixpoint alloc_pages (m : nat) : P (list Z) :=
  match m with
  | O => mret []
  | S m => p ← page_frame_alloc; l ← alloc_pages m; mret (p :: l)
  end.
Definition page_of (b z n : Z) : Z := page_index z n * PAGE_SIZE + b.
Lemma alloc_pages_ok rs k b z : rs !! k = Some (b, z) → page_of b z (bmap_bytes z) < 4294963200 →
  ∀ m n s, frame_inv rs n s → n k + Z.of_nat m <= 8 * bmap_bytes z →
  (∀ i b z, (i < k)%nat → rs !! i = Some (b, z) → n i = 8 * bmap_bytes z) →
  ∃ s' n', alloc_pages m s = Ok ((λ i, page_of b z (n k + Z.of_nat i)) <$> seq 0 m, s') ∧ frame_inv rs n' s' ∧
    n' k = n k + Z.of_nat m ∧ (∀ i, i ≠ k → n' i = n i) ∧
    (∀ p, reference_counts s p = 1 → reference_counts s' p = 1) ∧
    (∀ i, (i < m)%nat → reference_counts s' (page_of b z (n k + Z.of_nat i) / PAGE_SIZE) = 1) ∧
    ∀ p, (∀ i, (i < m)%nat → p ≠ page_of b z (n k + Z.of_nat i) / PAGE_SIZE) → reference_counts s' p = reference_counts s p.
Proof.
  intros Hk Hp m. induction m as [|m IH]; intros n s I Hm Hfull.
  - exists s, n. split_and!; try done; [lia|]. intros i Hi. lia.
  - destruct (fi_size _ _ _ I k b z Hk) as [Hb Hz]. pose proof (bmap_bytes_pos z Hz) as Hbz. pose proof (fi_taken _ _ _ I k b z Hk) as Ht.
    assert (page_of b z (n k) < 4294963200) as Hpk.
    { unfold page_of, page_index, NO_FREE_PAGE, PAGE_SIZE in *. rewrite Z.leb_refl in Hp. destruct (Z.leb_spec (n k) (bmap_bytes z)); lia. }
    destruct (page_frame_alloc_ok rs n s k b z I Hk ltac:(lia) Hfull Hpk) as (s1 & R1 & I1 & C1).
    destruct (IH (<[k := n k + 1]> n) s1 I1) as (s2 & n2 & R2 & I2 & N2 & O2 & K2 & C2 & D2).
    { rewrite fn_insert_eq. lia. }
    { intros i bi zi Hi Hri. rewrite fn_insert_ne by lia. by eapply Hfull. }
    exists s2, n2. rewrite fn_insert_eq in *. split_and!.
    + cbn [alloc_pages]. rewrite (bind_ok _ _ _ _ _ R1), (bind_ok _ _ _ _ _ R2). unfold mret, M_ret. do 2 f_equal.
      cbn [seq]. rewrite fmap_cons. f_equal; [unfold page_of; by rewrite Z.add_0_r|].
      rewrite <-fmap_S_seq, <-list_fmap_compose. apply list_fmap_ext. intros i x _. cbn. f_equal. lia.
    + done.
    + lia.
    + intros i Hi. by rewrite O2, fn_insert_ne.
    + intros p Hp1. apply K2. rewrite C1. fold (page_of b z (n k)).
      destruct (decide (page_of b z (n k) / PAGE_SIZE = p)) as [<-|]; by autorewrite with yak.
    + intros [|i] Hi; [|replace (n k + Z.of_nat (S i)) with (n k + 1 + Z.of_nat i) by lia; apply C2; lia].
      apply K2. by rewrite Z.add_0_r, C1, fn_insert_eq.
    + intros p Hne. rewrite D2, C1, fn_insert_ne; [done| |].
      * specialize (Hne 0%nat ltac:(lia)). by rewrite Z.add_0_r in Hne.
      * intros i Hi. specialize (Hne (S i) ltac:(lia)). by replace (n k + Z.of_nat (S i)) with (n k + 1 + Z.of_nat i) in Hne by lia.
Qed.

Lemma s8_pred_not_1 c : s8 c <= 0 → s8 (s8 c - 1) ≠ 0.
Proof. unfold s8. lia. Qed.
End frames.

(** ** The start *)

(** An entry of the boot loader: the size of the entry without its first field, the base and the
    length of the area, its type. *)
Record mb_entry := MkMb { mb_size : Z; mb_addr : Z; mb_len : Z; mb_type : Z }.
Fixpoint mb_map (m : Z → Z) (a stop : Z) (l : list mb_entry) : Prop :=
  match l with
  | [] => stop <= a
  | e :: l => a < stop ∧ le32 m a = mb_size e ∧ le32 m (a + 4) = mb_addr e ∧ le32 m (a + 12) = mb_len e ∧
      le32 m (a + 20) = mb_type e ∧ 0 <= mb_size e ∧ a + mb_size e + 4 < 4294967296 ∧ mb_map m (a + mb_size e + 4) stop l
  end.
Definition available (l : list mb_entry) : list (Z * Z) :=
  (λ e, (mb_addr e, mb_len e)) <$> filter (λ e, mb_type e = MULTIBOOT_MEMORY_AVAILABLE) l.
Definition total (rs : list (Z * Z)) : Z := foldr (λ r t, r.2 + t) 0 rs.

Section init.
Implicit Types s : mm.

Lemma chain_ext rs s s' : (∀ i, mmap s' i = mmap s i) → chain rs s → chain rs s'.
Proof. intros E (H1 & H2 & H3). split; [done|]. split; intros i; [|rewrite E; apply H3]. intros. rewrite E. by apply H2. Qed.
Lemma chain_lt rs s i r : chain rs s → rs !! i = Some r → (i < MAX_MMAP_ENTRIES)%nat.
Proof. intros [H _] Hi%lookup_lt_Some. lia. Qed.
Lemma chain_next rs s i r : chain rs s → rs !! i = Some r → me_next (mmap s i) = Some (S i).
Proof. intros (_ & H & _) Hi. destruct r. destruct (H i _ _ Hi) as (_ & _ & ->). f_equal. lia. Qed.
Lemma areas_end rs s i : chain rs s → (length rs <= i < MAX_MMAP_ENTRIES)%nat → me_size (mmap s i) = 0 ∧ me_next (mmap s i) = None.
Proof. intros (_ & _ & H). apply H. Qed.

Lemma upd_entry_chain rs s k r b z : chain rs s → rs !! k = Some r →
  chain (<[k := (b, z)]> rs) (s <| mmap ::= λ t, <[k := (t k) <| me_base := b |> <| me_size := z |>]> t |>).
Proof.
  intros C Hk. destruct C as (Hlen & Hin & Hout). split; [by rewrite length_insert|]. split.
  - intros i bi zi Hi. rec_simpl. destruct (decide (k = i)) as [<-|Hne].
    + rewrite list_lookup_insert_eq in Hi by (by eapply lookup_lt_Some). injection Hi as <- <-. rewrite fn_insert_eq. destruct r.
      split; [done|]. split; [done|]. exact (proj2 (proj2 (Hin k _ _ Hk))).
    + rewrite list_lookup_insert_ne in Hi by done. rewrite fn_insert_ne by done. by apply Hin.
  - intros i Hi. rewrite length_insert in Hi. rec_simpl. rewrite fn_insert_ne; [by apply Hout|].
    intros ->. apply lookup_lt_Some in Hk. lia.
Qed.

Lemma free_entry_ok rs s : chain rs s → (∀ i b z, rs !! i = Some (b, z) → z ≠ 0) →
  free_entry (seq 0 MAX_MMAP_ENTRIES) s = Ok (length rs, s).
Proof.
  intros C Hz. pose proof (proj1 C) as Hlen.
  assert (∀ n i, (i + n = MAX_MMAP_ENTRIES)%nat → (i <= length rs)%nat → free_entry (seq i n) s = Ok (length rs, s)) as H; [|apply (H MAX_MMAP_ENTRIES 0%nat); lia].
  induction n as [|n IH]; intros i Hn Hi; [lia|]. cbn [seq free_entry]. rewrite (bind_ok _ _ _ _ _ (entry_at_ok i s ltac:(lia))).
  destruct (decide (i = length rs)) as [->|].
  - destruct (areas_end rs s (length rs) C ltac:(lia)) as [-> _]. done.
  - destruct (lookup_lt_is_Some_2 rs i ltac:(lia)) as [[b z] Hr]. destruct (proj1 (proj2 C) i b z Hr) as (_ & -> & _).
    rewrite (proj2 (Z.eqb_neq _ _)) by (by eapply Hz). cbn. apply IH; lia.
Qed.
(** Nothing but the map of memory and its total size changes. *)
Definition same_but_map s s' : Prop :=
  mmap_bitmaps s' = mmap_bitmaps s ∧ mem s' = mem s ∧ reference_counts s' = reference_counts s ∧
  kstart_addr s' = kstart_addr s ∧ kend_addr s' = kend_addr s.
Lemma same_but_map_trans s1 s2 s3 : same_but_map s1 s2 → same_but_map s2 s3 → same_but_map s1 s3.
Proof. intros (?&?&?&?&?) (?&?&?&?&?). repeat split; congruence. Qed.
Lemma enter_into_mmap_ok rs s b z : chain rs s → (∀ i b z, rs !! i = Some (b, z) → z ≠ 0) → (length rs < MAX_MMAP_ENTRIES - 1)%nat →
  ∃ s', enter_into_mmap b z s = Ok (Some (length rs), s') ∧ chain (rs ++ [(b, z)]) s' ∧ same_but_map s s' ∧ total_mem s' = total_mem s.
Proof.
  intros C Hz Hlen. unfold enter_into_mmap. rewrite (bind_ok _ _ _ _ _ (free_entry_ok rs s C Hz)).
  rewrite (proj2 (Nat.leb_gt _ _)) by (unfold MAX_MMAP_ENTRIES in *; lia). rewrite (proj2 (Nat.ltb_lt _ _)) by lia.
  eexists. split; [reflexivity|]. split; [|done]. split; [rewrite length_app; cbn; lia|]. rec_simpl. split.
  - intros i bi zi Hi. destruct (decide (length rs = i)) as [<-|Hne].
    + rewrite lookup_app_r, Nat.sub_diag in Hi by lia. injection Hi as <- <-. rewrite !fn_insert_eq. done.
    + rewrite !fn_insert_ne by done. apply (proj2 C). rewrite lookup_app_l in Hi; [done|].
      apply lookup_lt_Some in Hi. rewrite length_app in Hi. cbn in Hi. lia.
  - intros i Hi. rewrite length_app in Hi. cbn in Hi. rewrite !fn_insert_ne by lia. apply C. lia.
Qed.

Lemma mm_init_loop_ok stop l : ∀ fuel a rs s, (length l < fuel)%nat → chain rs s → mb_map (mem s) a stop l →
  (length (rs ++ available l) < MAX_MMAP_ENTRIES)%nat → (∀ i b z, (rs ++ available l) !! i = Some (b, z) → z ≠ 0) → 0 <= a → is_u32 (total_mem s) →
  ∃ s', mm_init_loop fuel a stop s = Ok (tt, s') ∧ chain (rs ++ available l) s' ∧ same_but_map s s' ∧
    total_mem s' = u32 (total_mem s + total (available l)).
Proof.
  induction l as [|e l IH]; intros [|fuel] a rs s Hf C Hm Hlen Hz Ha Hu; cbn in Hf; try lia; cbn [mm_init_loop].
  - rewrite (proj2 (Z.ltb_ge _ _)) by exact Hm. exists s. rewrite app_nil_r. split_and!; try done. cbn. by rewrite Z.add_0_r, u32_id.
  - destruct Hm as (Hlt & Hs & Hb & Hl & Ht & Hp & Hw & Hm). rewrite (proj2 (Z.ltb_lt _ _)) by done. cbn [negb].
    change ((gets mem ≫= ?f) s) with (f (mem s) s). cbv beta. rewrite Hs, Hb, Hl, Ht, (u32_id (a + _ + 4)) by (unfold is_u32; lia).
    destruct (Z.eqb_spec (mb_type e) MULTIBOOT_MEMORY_AVAILABLE) as [Ht1|Ht1].
    + assert (available (e :: l) = (mb_addr e, mb_len e) :: available l) as Hav by (unfold available; by rewrite filter_cons_True).
      rewrite Hav in *. rewrite cons_middle, app_assoc in Hlen, Hz.
      set (s1 := s <| total_mem ::= λ t, u32 (t + mb_len e) |>).
      destruct (enter_into_mmap_ok rs s1 (mb_addr e) (mb_len e)) as (s2 & R2 & C2 & S2 & T2).
      { by eapply chain_ext. } { intros i b z Hi. apply (Hz i b). rewrite <-app_assoc. by apply lookup_app_l_Some. }
      { rewrite !length_app in Hlen. cbn in Hlen. lia. }
      assert ((modify (λ s, s <| total_mem ::= λ t, u32 (t + mb_len e) |>) ;; r ← enter_into_mmap (mb_addr e) (mb_len e);
        mret (bool_decide (r ≠ None))) s = Ok (true, s2)) as R.
      { rewrite (bind_ok (modify _) _ _ tt s1 eq_refl). by rewrite (bind_ok _ _ _ _ _ R2). }
      rewrite (bind_ok _ _ _ _ _ R).
      destruct (IH fuel (a + mb_size e + 4) (rs ++ [(mb_addr e, mb_len e)]) s2 ltac:(lia) C2) as (s3 & R3 & C3 & S3 & T3).
      { by rewrite (proj1 (proj2 S2)). } { done. } { done. } { lia. } { rewrite T2. apply u32_range. }
      exists s3. split; [done|]. split; [by rewrite <-app_assoc in C3|]. split; [by apply (same_but_map_trans _ s2)|].
      rewrite T3, T2. cbn [total foldr]. unfold s1. rec_simpl. rewrite u32_add_l. f_equal. cbn. unfold total. lia.
    + assert (available (e :: l) = available l) as Hav by (unfold available; by rewrite filter_cons_False). rewrite Hav in *.
      rewrite (bind_ok (mret true : P bool) _ _ true s eq_refl). apply IH; try done; lia.
Qed.

(** The start of a region is taken away. *)
Definition cut (d : Z) (r : Z * Z) : Z * Z := (r.1 + d, r.2 - d).
Definition in_32_bits (rs : list (Z * Z)) : Prop := ∀ i b z, rs !! i = Some (b, z) → 0 <= b ∧ 0 < z ∧ z < 4294967296 ∧ b + z <= 4294967296.
Lemma cut_entry_ok {A} rs s k r d (f : unit → P A) : chain rs s → rs !! k = Some r → 0 <= d < r.2 → 0 <= r.1 → r.2 < 4294967296 ∧ r.1 + r.2 <= 4294967296 →
  ∃ s', (upd_entry k (λ e, e <| me_size ::= λ z, u32 (z - d) |>) ;; upd_entry k (λ e, e <| me_base ::= λ z, u32 (z + d) |>) ;; f tt) s = f tt s' ∧
    chain (<[k := cut d r]> rs) s' ∧ same_but_map s s' ∧ total_mem s' = total_mem s.
Proof.
  intros C Hk Hd Hb Hz. destruct r as [b z]. cbn in Hd, Hb, Hz. eexists. split; [reflexivity|]. split; [|done].
  eapply chain_ext; [|exact (upd_entry_chain rs s k (b, z) (b + d) (z - d) C Hk)]. intros i. rec_simpl.
  destruct (proj1 (proj2 C) k b z Hk) as (E1 & E2 & _).
  destruct (decide (k = i)) as [<-|]; [|by rewrite !fn_insert_ne].
  rewrite !fn_insert_eq. destruct (mmap s k) as [b' z' bs nx]. cbn in E1, E2. subst b' z'.
  transitivity (MkEntry (u32 (b + d)) (u32 (z - d)) bs nx); [done|]. by rewrite !u32_id by (unfold is_u32; lia).
Qed.

Definition without_kernel (k ks : Z) (r : Z * Z) : Z * Z := if (r.1 =? k) && (ks <? r.2) then cut ks r else r.
Lemma kernel_loop_ok k ks : 0 <= ks → ∀ l2 fuel l1 s, (length l2 < fuel)%nat →
  chain ((without_kernel k ks <$> l1) ++ l2) s → kstart_addr s = k → in_32_bits l2 →
  (∀ r, r ∈ l2 → r.1 = k → ks <= r.2) →
  ∃ s', kernel_loop fuel (length l1) ks s = Ok (tt, s') ∧ chain (without_kernel k ks <$> (l1 ++ l2)) s' ∧
    same_but_map s s' ∧ total_mem s' = total_mem s.
Proof.
  intros Hks l2. induction l2 as [|r l2 IH]; intros [|fuel] l1 s Hf C Hk H32 Hnp; cbn in Hf; try lia; cbn [kernel_loop].
  - rewrite app_nil_r in C. pose proof (proj1 C) as Hl. rewrite length_fmap in Hl.
    rewrite (bind_ok _ _ _ _ _ (entry_at_ok (length l1) s Hl)).
    destruct (areas_end _ s (length l1) C ltac:(rewrite length_fmap; lia)) as [_ ->]. exists s. by rewrite app_nil_r.
  - assert (((without_kernel k ks <$> l1) ++ r :: l2) !! length l1 = Some r) as Hr.
    { rewrite lookup_app_r by (by rewrite length_fmap). by rewrite length_fmap, Nat.sub_diag. }
    rewrite (bind_ok _ _ _ _ _ (entry_at_ok _ s (chain_lt _ _ _ _ C Hr))), (chain_next _ _ _ _ C Hr).
    change ((gets kstart_addr ≫= ?f) s) with (f (kstart_addr s) s). cbv beta. rewrite Hk.
    destruct r as [b z]. destruct (proj1 (proj2 C) _ b z Hr) as (-> & -> & _).
    destruct (H32 0%nat b z eq_refl) as (Hb & Hz & Hbz).
    assert (in_32_bits l2) as H32' by (intros i; apply (H32 (S i))).
    replace (S (length l1)) with (length (l1 ++ [(b, z)])) by (rewrite length_app; cbn; lia).
    destruct (Z.eqb_spec b k) as [->|Hbk]; [destruct (Z.ltb_spec ks z)|]; cbn [andb].
    + destruct (cut_entry_ok _ s _ _ ks (λ _, mret tt) C Hr) as (s1 & R1 & C1 & S1 & T1); [done..|].
      assert ((upd_entry (length l1) (λ e, e <| me_size ::= λ z, u32 (z - ks) |>) ;;
        upd_entry (length l1) (λ e, e <| me_base ::= λ z, u32 (z + ks) |>)) s = Ok (tt, s1)) as R1' by exact R1.
      rewrite (bind_ok _ _ _ _ _ R1').
      destruct (IH fuel (l1 ++ [(k, z)]) s1 ltac:(lia)) as (s2 & R2 & C2 & S2 & T2); try done.
      { rewrite insert_app_r_alt in C1 by (by rewrite length_fmap). rewrite length_fmap, Nat.sub_diag in C1. cbn in C1.
        rewrite fmap_app, <-app_assoc. cbn. unfold without_kernel at 2. cbn. rewrite Z.eqb_refl, (proj2 (Z.ltb_lt _ _)) by done. done. }
      { destruct S1 as (_ & _ & _ & -> & _). done. } { intros r Hr'. apply Hnp. by right. }
      exists s2. rewrite <-app_assoc in C2. split_and!; [done|done|by apply (same_but_map_trans _ s1)|congruence].
    + rewrite (proj2 (Z.ltb_ge z ks)) by (apply (Hnp (k, z)); [by left|done]).
      rewrite (bind_ok (mret tt : P unit) _ _ tt s eq_refl).
      destruct (IH fuel (l1 ++ [(k, z)]) s ltac:(lia)) as (s2 & R2 & C2 & S2 & T2); try done.
      { rewrite fmap_app, <-app_assoc. cbn. unfold without_kernel at 2. cbn. rewrite Z.eqb_refl, (proj2 (Z.ltb_ge _ _)) by done. done. }
      { intros r Hr'. apply Hnp. by right. }
      exists s2. by rewrite <-app_assoc in C2.
    + rewrite (bind_ok (mret tt : P unit) _ _ tt s eq_refl).
      destruct (IH fuel (l1 ++ [(b, z)]) s ltac:(lia)) as (s2 & R2 & C2 & S2 & T2); try done.
      { rewrite fmap_app, <-app_assoc. cbn. unfold without_kernel at 2. cbn. rewrite (proj2 (Z.eqb_neq _ _)) by done. done. }
      { intros r Hr'. apply Hnp. by right. }
      exists s2. by rewrite <-app_assoc in C2.
Qed.

Lemma space_loop_ok nr r l2 : 0 <= nr → nr * PAGE_SIZE < r.2 → ∀ l1 fuel i rs s, (length l1 < fuel)%nat → chain rs s → in_32_bits rs →
  (i + length l1 < length rs)%nat → drop i rs = l1 ++ r :: l2 → (∀ r', r' ∈ l1 → r'.2 <= nr * PAGE_SIZE) →
  ∃ s', space_loop fuel i nr s = Ok (r.1, s') ∧ chain (<[(i + length l1)%nat := cut (nr * PAGE_SIZE) r]> rs) s' ∧
    same_but_map s s' ∧ total_mem s' = total_mem s.
Proof.
  intros Hnr Hr. induction l1 as [|r' l1 IH]; intros [|fuel] i rs s Hf C H32 Hi Hd Hsm; cbn in Hf; try lia; cbn [space_loop].
  - assert (rs !! i = Some r) as Hri by (rewrite <-(Nat.add_0_r i), <-lookup_drop, Hd; done).
    rewrite (bind_ok _ _ _ _ _ (entry_at_ok _ s (chain_lt _ _ _ _ C Hri))), (chain_next _ _ _ _ C Hri).
    destruct r as [b z]. destruct (proj1 (proj2 C) _ b z Hri) as (E1 & E2 & _). destruct (H32 i b z Hri) as (Hb & Hz & Hz32 & Hbz).
    cbn in Hr. rewrite E1, E2, u32_id by (unfold is_u32, PAGE_SIZE in *; lia). rewrite (proj2 (Z.ltb_lt _ _)) by done.
    destruct (cut_entry_ok rs s i (b, z) (nr * PAGE_SIZE) (λ _, mret b) C Hri) as (s1 & R1 & C1 & S1 & T1); [cbn; unfold PAGE_SIZE in *; lia|done|done|].
    exists s1. rewrite Nat.add_0_r. split; [exact R1|]. done.
  - assert (rs !! i = Some r') as Hri by (rewrite <-(Nat.add_0_r i), <-lookup_drop, Hd; done).
    rewrite (bind_ok _ _ _ _ _ (entry_at_ok _ s (chain_lt _ _ _ _ C Hri))), (chain_next _ _ _ _ C Hri).
    destruct r' as [b z]. destruct (proj1 (proj2 C) _ b z Hri) as (_ & -> & _). destruct (H32 i b z Hri) as (Hb & Hz & Hz32 & Hbz).
    pose proof (Hsm (b, z) ltac:(by left)) as Hle. cbn in Hle.
    assert (∃ r2, rs !! (i + S (length l1))%nat = Some r2) as [[b2 z2] Hr2] by (apply lookup_lt_is_Some; cbn in Hi; lia).
    assert (r = (b2, z2)) as ->.
    { rewrite <-lookup_drop, Hd in Hr2. rewrite lookup_app_r in Hr2 by (cbn; lia). cbn [length] in Hr2.
      rewrite Nat.sub_diag in Hr2. by injection Hr2. }
    destruct (H32 _ b2 z2 Hr2) as (_ & _ & Hz2 & _). cbn in Hr.
    rewrite u32_id by (unfold is_u32, PAGE_SIZE in *; lia). rewrite (proj2 (Z.ltb_ge _ _)) by lia.
    destruct (IH fuel (S i) rs s ltac:(lia) C H32) as (s1 & R1 & C1 & S1 & T1).
    { cbn in Hi. lia. } { rewrite (drop_S _ _ _ Hri) in Hd. by injection Hd. } { intros r0 Hr0. apply Hsm. by right. }
    exists s1. replace (i + length ((b, z) :: l1))%nat with (S i + length l1)%nat by (cbn; lia). done.
Qed.

(** The bytes of the bitmaps before that of region [j]. *)
Definition space_before (rs : list (Z * Z)) (j : nat) : Z := foldr (λ r t, bmap_bytes r.2 + t) 0 (take j rs).
Lemma space_before_S rs j b z : rs !! j = Some (b, z) → space_before rs (S j) = space_before rs j + bmap_bytes z.
Proof.
  intros H. unfold space_before. rewrite (take_S_r _ _ _ H), foldr_app. cbn. generalize (take j rs). intros l.
  induction l as [|r l IH]; cbn; [lia|]. rewrite IH. lia.
Qed.
Lemma sizes_32 rs : in_32_bits rs → ∀ i b z, rs !! i = Some (b, z) → 0 <= b ∧ 0 <= z < 4294967296.
Proof. intros H i b z Hi. destruct (H i b z Hi) as (? & ? & ? & ?). lia. Qed.
Lemma space_before_mono rs i j : (i <= j <= length rs)%nat → (∀ i b z, rs !! i = Some (b, z) → 0 <= b ∧ 0 <= z < 4294967296) → space_before rs i + Z.of_nat (j - i) <= space_before rs j.
Proof.
  intros Hij H32. destruct Hij as [Hij Hj]. induction Hij as [|j Hij IH]; [lia|].
  destruct (lookup_lt_is_Some_2 rs j ltac:(lia)) as [[b z] Hr]. rewrite (space_before_S rs j b z Hr).
  destruct (H32 j b z Hr) as (_ & Hz). pose proof (bmap_bytes_pos z Hz). specialize (IH ltac:(lia)). lia.
Qed.
Lemma upd_bitmap_run {A} k f (m : P A) s : (upd_bitmap k f ;; m) s = m (s <| mmap_bitmaps ::= λ t, <[k := f (t k)]> t |>).
Proof. done. Qed.
(** The bitmaps of the regions from [i] on. *)
Definition bitmaps_from (base : Z) (rs : list (Z * Z)) (i : nat) s : Prop :=
  (∀ j b z, (i <= j)%nat → rs !! j = Some (b, z) →
    mmap_bitmaps s j = MkBitmap (Some j) (base + space_before rs j) (bmap_bytes z) 0 (8 * bmap_bytes z)) ∧
  bm_entry (mmap_bitmaps s (length rs)) = Some (length rs).
Lemma bitmaps_loop_ok base rs : 0 <= base → in_32_bits rs → base + space_before rs (length rs) < 4294967296 →
  ∀ n i s, (i + n = MAX_MMAP_ENTRIES)%nat → (i <= length rs)%nat → chain rs s →
  ∃ s', bitmaps_loop (seq i n) (base + space_before rs i) s = Ok (tt, s') ∧ mmap s' = mmap s ∧ mem s' = mem s ∧
    (∀ j, (j < i)%nat → mmap_bitmaps s' j = mmap_bitmaps s j) ∧ bitmaps_from base rs i s' ∧ reference_counts s' = reference_counts s.
Proof.
  intros Hb H32 Hend n. induction n as [|n IH]; intros i s Hn Hi C; pose proof (proj1 C) as Hlen; [lia|]. cbn [seq bitmaps_loop].
  set (s1 := s <| mmap_bitmaps ::= λ t, <[i := (t i) <| bm_entry := Some i |>]> t |>).
  rewrite (bind_ok (upd_bitmap i (λ b, b <| bm_entry := Some i |>)) _ s tt s1 eq_refl), (bind_ok _ _ _ _ _ (entry_at_ok i s1 ltac:(lia))).
  change (mmap s1 i) with (mmap s i). destruct (decide (i = length rs)) as [->|Hne].
  - destruct (areas_end rs s (length rs) C ltac:(lia)) as [_ ->]. exists s1. unfold s1. split_and!; try done.
    + intros j Hj. rec_simpl. by rewrite fn_insert_ne by lia.
    + split; [intros j b z Hj Hr%lookup_lt_Some; lia|]. rec_simpl. by rewrite fn_insert_eq.
  - destruct (lookup_lt_is_Some_2 rs i ltac:(lia)) as [[b z] Hr]. rewrite (chain_next rs s i _ C Hr).
    destruct (proj1 (proj2 C) i b z Hr) as (_ & -> & _). fold (bmap_bytes z). destruct (H32 i b z Hr) as (_ & Hz & Hz2 & _).
    pose proof (bmap_bytes_pos z ltac:(lia)) as Hbz. pose proof (space_before_S rs i b z Hr) as HS.
    pose proof (space_before_mono rs (S i) (length rs) ltac:(lia) (sizes_32 _ H32)). pose proof (space_before_mono rs 0 i ltac:(lia) (sizes_32 _ H32)) as H0.
    change (space_before rs 0) with 0 in H0. rewrite u32_id by (unfold is_u32; lia).
    rewrite !upd_bitmap_run. set (s2 := upd mmap_bitmaps _ (upd mmap_bitmaps _ _)).
    replace (base + space_before rs i + bmap_bytes z) with (base + space_before rs (S i)) by lia.
    destruct (IH (S i) s2 ltac:(lia) ltac:(lia) C) as (s3 & R3 & M3 & B3 & L3 & [F3 E3] & K3). exists s3.
    assert (mmap_bitmaps s2 i = MkBitmap (Some i) (base + space_before rs i) (bmap_bytes z) 0 (8 * bmap_bytes z)) as E2.
    { unfold s2, s1. do 3 rec_simpl. rewrite !fn_insert_eq.
      transitivity (MkBitmap (Some i) (base + space_before rs i) (bmap_bytes z) 0 (u32 (Z.shiftl (bmap_bytes z) 3))); [done|].
      rewrite Z.shiftl_mul_pow2, u32_id by (unfold is_u32; lia). f_equal. lia. }
    split_and!; [done|by rewrite M3|by rewrite B3| |split|by rewrite K3].
    + intros j Hj. rewrite L3 by lia. unfold s2, s1. do 3 rec_simpl. by rewrite !fn_insert_ne by lia.
    + intros j bj zj Hj Hrj. destruct (decide (j = i)) as [->|]; [|apply (F3 _ bj); [lia|done]].
      rewrite L3, E2 by lia. rewrite Hr in Hrj. by injection Hrj as _ <-.
    + done.
Qed.

Lemma clear_loop_ok base rs : in_32_bits rs → ∀ fuel i s, (length rs - i < fuel)%nat → (i <= length rs)%nat → chain rs s →
  bitmaps_from base rs i s →
  ∃ s', clear_loop fuel i s = Ok (tt, s') ∧ mmap s' = mmap s ∧ mmap_bitmaps s' = mmap_bitmaps s ∧ reference_counts s' = reference_counts s ∧
    (bytes (mem s) → bytes (mem s')) ∧ (∀ a, mem s a = 0 → mem s' a = 0) ∧
    ∀ j b z a, (i <= j)%nat → rs !! j = Some (b, z) → base + space_before rs j <= a < base + space_before rs j + bmap_bytes z → mem s' a = 0.
Proof.
  intros H32. induction fuel as [|fuel IH]; intros i s Hf Hi C [B E]; [lia|]. cbn [clear_loop]. pose proof (proj1 C) as Hlen.
  rewrite (bind_ok _ _ _ _ _ (bitmap_at_ok i s ltac:(lia))).
  assert (bm_entry (mmap_bitmaps s i) = Some i) as Hei.
  { destruct (decide (i = length rs)) as [->|]; [done|]. destruct (lookup_lt_is_Some_2 rs i ltac:(lia)) as [[b z] Hr]. by rewrite (B i b z). }
  rewrite (bind_ok _ _ _ _ _ (entry_of_ok i _ s ltac:(lia) Hei)). destruct (decide (i = length rs)) as [->|].
  - destruct (areas_end rs s (length rs) C ltac:(lia)) as [_ ->]. exists s. split_and!; try done.
    intros j b z a Hj Hr%lookup_lt_Some. lia.
  - destruct (lookup_lt_is_Some_2 rs i ltac:(lia)) as [[b z] Hr]. rewrite (chain_next rs s i _ C Hr), (B i b z) by done.
    cbn [bm_base bm_size]. set (s1 := s <| mem ::= clear_mem (base + space_before rs i) (bmap_bytes z) |>).
    rewrite (bind_ok (modify (λ s, s <| mem ::= clear_mem (base + space_before rs i) (bmap_bytes z) |>)) _ s tt s1 eq_refl).
    assert (∀ a, mem s1 a = if (base + space_before rs i <=? a) && (a <? base + space_before rs i + bmap_bytes z) then 0 else mem s a) as Hm by done.
    destruct (IH (S i) s1 ltac:(lia) ltac:(lia) C) as (s2 & R2 & M2 & B2 & K2 & Y2 & Z2 & C2).
    { split; [|done]. intros j bj zj Hj. apply B. lia. }
    exists s2. split_and!; [done..| | |].
    + intros Hby. apply Y2. intros a. rewrite Hm. case_match; [done|apply Hby].
    + intros a Ha. apply Z2. rewrite Hm. by case_match.
    + intros j bj zj a Hj Hrj Ha. destruct (decide (i = j)) as [<-|]; [|by apply (C2 j bj zj); [lia|..]].
      apply Z2. rewrite Hm. rewrite Hr in Hrj. simplify_eq. by rewrite (proj2 (Z.leb_le _ _)), (proj2 (Z.ltb_lt _ _)) by lia.
Qed.

(** The regions that the allocator starts with: those of the boot loader without the kernel and
    without the space for the bitmaps, which is the start of the first that is large enough. *)
Definition nr_bitmap_pages (rs : list (Z * Z)) : Z := total rs / (PAGE_SIZE * 8 * PAGE_SIZE) + 1.
Lemma reserve_bitmaps_ok l1 r l2 s nr : nr = total_mem s / (PAGE_SIZE * 8 * PAGE_SIZE) + 1 → 0 < nr →
  let rs := l1 ++ r :: l2 in let rs' := l1 ++ cut (nr * PAGE_SIZE) r :: l2 in
  chain rs s → in_32_bits rs → bytes (mem s) → nr * PAGE_SIZE < r.2 → (∀ r', r' ∈ l1 → r'.2 <= nr * PAGE_SIZE) →
  r.1 + space_before rs' (length rs') < 4294967296 →
  ∃ s', reserve_bitmaps s = Ok (tt, s') ∧ frame_inv rs' (λ _, 0) s' ∧
    (∀ i, (i < length rs')%nat → bm_base (mmap_bitmaps s' i) = r.1 + space_before rs' i) ∧ reference_counts s' = reference_counts s.
Proof.
  intros Hnr Hnr0 rs rs' C H32 Hby Hr Hsm Hend. pose proof (proj1 C) as Hlen.
  destruct (space_loop_ok nr r l2 ltac:(lia) Hr l1 MMAP_FUEL 0 rs s) as (s1 & R1 & C1 & (B1 & M1 & K1 & _) & _); try done.
  { unfold rs in Hlen. rewrite length_app in Hlen. unfold MMAP_FUEL. lia. } { unfold rs. rewrite length_app. cbn. lia. }
  cbn [Nat.add] in C1. unfold rs in C1. rewrite insert_app_r_alt, Nat.sub_diag in C1 by lia. cbn in C1. fold rs' in C1.
  assert (rs !! length l1 = Some r) as Hri by (unfold rs; by rewrite lookup_app_r, Nat.sub_diag by lia).
  assert (0 <= r.1 ∧ r.1 < 4294967295 ∧ 0 < r.2 < 4294967296 ∧ r.1 + r.2 <= 4294967296) as Hrr.
  { destruct r as [b z]. destruct (H32 _ b z Hri) as (? & ? & ? & ?). unfold PAGE_SIZE in Hr. cbn in Hr |- *. lia. }
  assert (in_32_bits rs') as H32'.
  { intros i b z Hi. unfold rs' in Hi. destruct (decide (i = length l1)) as [->|Hne].
    - rewrite lookup_app_r, Nat.sub_diag in Hi by lia. injection Hi as <- <-. unfold PAGE_SIZE in *. lia.
    - apply (H32 i). rewrite <-Hi. unfold rs. destruct (decide (i < length l1)%nat); [by rewrite !lookup_app_l by lia|].
      rewrite !lookup_app_r by lia. by destruct (i - length l1)%nat eqn:En; [lia|]. }
  unfold reserve_bitmaps. change ((gets total_mem ≫= ?f) s) with (f (total_mem s) s). cbv beta zeta. rewrite <-Hnr.
  rewrite (bind_ok _ _ _ _ _ R1). rewrite (proj2 (Z.eqb_neq _ _)) by lia.
  destruct (bitmaps_loop_ok r.1 rs' ltac:(lia) H32' ltac:(lia) MAX_MMAP_ENTRIES 0 s1 eq_refl ltac:(lia) C1) as (s2 & R2 & M2 & P2 & _ & B2 & K2).
  change (space_before rs' 0) with 0 in R2. rewrite Z.add_0_r in R2. rewrite (bind_ok _ _ _ _ _ R2).
  assert (chain rs' s2) as C2 by (by eapply chain_ext; [intros i; by rewrite M2|]).
  destruct (clear_loop_ok r.1 rs' H32' MMAP_FUEL 0 s2) as (s3 & R3 & M3 & B3 & K3 & Y3 & _ & Z3); try done.
  { pose proof (proj1 C1). unfold MMAP_FUEL. lia. } { lia. }
  exists s3. split; [done|]. destruct B2 as [F2 E2].
  assert (∀ i b z, rs' !! i = Some (b, z) → mmap_bitmaps s3 i = MkBitmap (Some i) (r.1 + space_before rs' i) (bmap_bytes z) 0 (8 * bmap_bytes z)) as F3.
  { intros i b z Hi. rewrite B3. apply (F2 i b); [lia|done]. }
  split; [|split; [|congruence]].
  - split.
    + by eapply chain_ext; [intros i; by rewrite M3|].
    + intros i b z Hi. destruct (H32' i b z Hi) as (? & ? & ? & ?). lia.
    + intros i b z Hi. rewrite (F3 i b z Hi). cbn [bm_base]. destruct (H32' i b z Hi) as (? & ? & ? & ?).
      pose proof (bmap_bytes_pos z ltac:(lia)). unfold page_index. rewrite (proj2 (Z.leb_le _ _)) by lia. f_equal. lia.
    + by rewrite B3.
    + intros i b z Hi. destruct (H32' i b z Hi) as (? & ? & ? & ?). pose proof (bmap_bytes_pos z ltac:(lia)). lia.
    + intros i b z j Hi Hj. rewrite (F3 i b z Hi). cbn [bm_base]. rewrite (proj2 (Z.ltb_ge _ _)) by lia.
      unfold bit_in. rewrite (Z3 i b z); [|lia|done|lia]. rewrite bit_test_spec by lia. apply Z.testbit_0_l.
    + intros i j b z Hij Hi. destruct (lookup_lt_is_Some_2 rs' j ltac:(lia)) as [[bj zj] Hj]. rewrite (F3 i b z Hi), (F3 j bj zj Hj). cbn [bm_base].
      pose proof (space_before_S rs' i b z Hi). pose proof (space_before_mono rs' (S i) j ltac:(lia) (sizes_32 _ H32')). lia.
    + apply Y3. by rewrite P2, M1.
  - intros i Hi. destruct (lookup_lt_is_Some_2 rs' i Hi) as [[b z] Hr']. by rewrite (F3 i b z Hr').
Qed.
End init.

(** ** Properties *)

(** What the boot loader hands over: its list of areas in memory, and a kernel that lies at the
    start of an available area. [l1], [r], [l2] are the areas without the kernel; [r] is the first
    that is large enough for the bitmaps. *)
Record boot_ok (addr len start end_ : Z) (l : list mb_entry) (l1 : list (Z * Z)) (r : Z * Z) (l2 : list (Z * Z)) (s : mm) : Prop := {
  bo_fresh : chain [] s ∧ total_mem s = 0 ∧ bytes (mem s);
  bo_map : 0 <= addr ∧ 0 <= len ∧ addr + len < 4294967296 ∧ mb_map (mem s) addr (addr + len) l;
  bo_areas : (length (available l) < MAX_MMAP_ENTRIES)%nat ∧ in_32_bits (available l) ∧ 0 <= total (available l) < 4294967296;
  bo_apart : ∀ i j bi zi bj zj, (i < j)%nat → available l !! i = Some (bi, zi) → available l !! j = Some (bj, zj) → bi + zi <= bj;
  bo_kernel : IS_PAGE_ALIGNED start = true ∧ IS_PAGE_ALIGNED end_ = true ∧ 0 <= start < end_ ∧ end_ < 4294967296;
  bo_room : ∃ k z, available l !! k = Some (start, z) ∧ end_ - start < z;
  bo_split : without_kernel start (end_ - start) <$> available l = l1 ++ r :: l2;
  bo_space : nr_bitmap_pages (available l) * PAGE_SIZE < r.2 ∧ ∀ r', r' ∈ l1 → r'.2 <= nr_bitmap_pages (available l) * PAGE_SIZE;
  bo_fits : let rs := l1 ++ cut (nr_bitmap_pages (available l) * PAGE_SIZE) r :: l2 in
    space_before rs (length rs) <= nr_bitmap_pages (available l) * PAGE_SIZE
}.
(** Two areas have no byte in common. *)
Definition apart (a n b m : Z) : Prop := a + n <= b ∨ b + m <= a.

Section mm_properties.
Context (addr len start end_ : Z) (l : list mb_entry) (l1 : list (Z * Z)) (r : Z * Z) (l2 : list (Z * Z)).
Implicit Types s : mm.
Abbreviation nr := (nr_bitmap_pages (available l)).
Abbreviation rs := (l1 ++ cut (nr * PAGE_SIZE) r :: l2).

(** The regions of the allocator are the ends of available areas, without the kernel and the bitmaps. *)
Lemma regions_apart s i b z : boot_ok addr len start end_ l l1 r l2 s → rs !! i = Some (b, z) →
  apart b z start (end_ - start) ∧ apart b z r.1 (nr * PAGE_SIZE) ∧ ∃ b0 z0, available l !! i = Some (b0, z0) ∧ b0 <= b ∧ b + z = b0 + z0.
Proof.
  intros B Hi. destruct (bo_areas _ _ _ _ _ _ _ _ _ B) as (_ & H32 & Ht). pose proof (bo_apart _ _ _ _ _ _ _ _ _ B) as Hap.
  destruct (bo_kernel _ _ _ _ _ _ _ _ _ B) as (_ & _ & Hse & He). destruct (bo_room _ _ _ _ _ _ _ _ _ B) as (k & zk & Hk & Hzk).
  pose proof (bo_split _ _ _ _ _ _ _ _ _ B) as Hsp. destruct (bo_space _ _ _ _ _ _ _ _ _ B) as [Hr _].
  assert (0 < nr) as Hnr by (unfold nr_bitmap_pages, PAGE_SIZE; lia).
  assert (∀ j x, (l1 ++ r :: l2) !! j = Some x → ∃ b0 z0, available l !! j = Some (b0, z0) ∧ x = without_kernel start (end_ - start) (b0, z0)) as Hsrc.
  { intros j x Hj. rewrite <-Hsp, list_lookup_fmap in Hj. destruct (available l !! j) as [[b0 z0]|]; [|done]. injection Hj as <-. by exists b0, z0. }
  assert (∀ j b0 z0, available l !! j = Some (b0, z0) → without_kernel start (end_ - start) (b0, z0) =
    if decide (j = k) then (b0 + (end_ - start), z0 - (end_ - start)) else (b0, z0)) as Hwk.
  { intros j b0 z0 Hj. unfold without_kernel. cbn. destruct (decide (j = k)) as [->|Hne].
    - rewrite Hk in Hj. injection Hj as <- <-. by rewrite Z.eqb_refl, (proj2 (Z.ltb_lt _ _)) by lia.
    - destruct (Z.eqb_spec b0 start) as [->|]; [exfalso|done]. destruct (H32 j _ _ Hj) as (? & ? & ? & ?).
      destruct (Nat.lt_ge_cases j k); [specialize (Hap j k _ _ _ _ ltac:(done) Hj Hk)|specialize (Hap k j _ _ _ _ ltac:(lia) Hk Hj)]; lia. }
  assert (∀ j b0 z0, available l !! j = Some (b0, z0) → let x := without_kernel start (end_ - start) (b0, z0) in
    apart x.1 x.2 start (end_ - start) ∧ b0 <= x.1 ∧ x.1 + x.2 = b0 + z0) as Hkern.
  { intros j b0 z0 Hj. rewrite (Hwk j b0 z0 Hj). destruct (H32 j _ _ Hj) as (? & ? & ? & ?). destruct (decide (j = k)) as [->|Hne]; cbn.
    - rewrite Hk in Hj. injection Hj as <- <-. unfold apart. lia.
    - split; [|lia]. destruct (Nat.lt_ge_cases j k); [specialize (Hap j k _ _ _ _ ltac:(done) Hj Hk)|specialize (Hap k j _ _ _ _ ltac:(lia) Hk Hj)]; unfold apart; lia. }
  assert ((l1 ++ r :: l2) !! length l1 = Some r) as Hrl by (by rewrite lookup_app_r, Nat.sub_diag by lia).
  destruct (Hsrc _ _ Hrl) as (br & zr & Hbr & Er). pose proof (Hkern _ _ _ Hbr) as Kr. rewrite <-Er in Kr. cbn zeta in Kr.
  destruct (decide (i = length l1)) as [->|Hne].
  - rewrite lookup_app_r, Nat.sub_diag in Hi by lia. unfold cut in Hi. injection Hi as <- <-.
    split; [|split].
    + destruct Kr as ([?|?] & _); unfold apart, PAGE_SIZE in *; lia.
    + unfold apart, PAGE_SIZE. lia.
    + exists br, zr. unfold PAGE_SIZE. lia || (split; [done|]; unfold PAGE_SIZE in *; lia).
  - assert ((l1 ++ r :: l2) !! i = Some (b, z)) as Hi'.
    { rewrite <-Hi. destruct (decide (i < length l1)%nat); [by rewrite !lookup_app_l by lia|].
      rewrite !lookup_app_r by lia. by destruct (i - length l1)%nat eqn:En; [lia|]. }
    destruct (Hsrc _ _ Hi') as (b0 & z0 & Hb0 & E0). pose proof (Hkern _ _ _ Hb0) as K0. rewrite <-E0 in K0. cbn in K0.
    split; [apply K0|]. split; [|exists b0, z0; split; [done|]; lia].
    destruct (H32 _ _ _ Hb0) as (? & ? & ? & ?), (H32 _ _ _ Hbr) as (? & ? & ? & ?).
    destruct (Nat.lt_ge_cases i (length l1)); [specialize (Hap i (length l1) _ _ _ _ ltac:(done) Hb0 Hbr)|specialize (Hap (length l1) i _ _ _ _ ltac:(lia) Hbr Hb0)];
      unfold apart, PAGE_SIZE in *; lia.
Qed.

(** C8: [mm_init] sets up the allocator: the loops over the areas of the boot loader end, nothing is
    taken from any region, and the regions lie in available memory, apart from the kernel image and
    from the bitmaps of the allocator, which are apart from each other. *)
Theorem mm_init_correct fuel s : (length l < fuel)%nat → boot_ok addr len start end_ l l1 r l2 s →
  ∃ s', mm_init fuel addr len start end_ s = Ok (tt, s') ∧ frame_inv rs (λ _, 0) s' ∧
    (∀ i b z, rs !! i = Some (b, z) → apart b z start (end_ - start) ∧ apart b z r.1 (nr * PAGE_SIZE) ∧
      (∃ b0 z0, available l !! i = Some (b0, z0) ∧ b0 <= b ∧ b + z = b0 + z0) ∧
      r.1 <= bm_base (mmap_bitmaps s' i) ∧ bm_base (mmap_bitmaps s' i) + bmap_bytes z <= r.1 + nr * PAGE_SIZE).
Proof.
  intros Hf B. destruct (bo_fresh _ _ _ _ _ _ _ _ _ B) as (C & Ht0 & Hby). destruct (bo_map _ _ _ _ _ _ _ _ _ B) as (Ha & Hl0 & Hw & Hm).
  destruct (bo_areas _ _ _ _ _ _ _ _ _ B) as (Hlen & H32 & Htot). destruct (bo_kernel _ _ _ _ _ _ _ _ _ B) as (Hs & He & Hse & He32).
  pose proof (bo_split _ _ _ _ _ _ _ _ _ B) as Hsp. destruct (bo_space _ _ _ _ _ _ _ _ _ B) as [Hr Hsm].
  pose proof (bo_fits _ _ _ _ _ _ _ _ _ B) as Hfit. cbn zeta in Hfit.
  assert (0 < nr) as Hnr by (unfold nr_bitmap_pages, PAGE_SIZE; lia).
  destruct (mm_init_loop_ok (addr + len) l fuel addr [] s Hf C Hm Hlen) as (s1 & R1 & C1 & (B1 & M1 & _) & T1).
  { intros i b z Hi. cbn in Hi. destruct (H32 i b z Hi). lia. } { done. } { rewrite Ht0. by unfold is_u32. }
  cbn [app] in C1. rewrite Ht0, Z.add_0_l, u32_id in T1 by done.
  set (s2 := s1 <| kstart_addr := start |> <| kend_addr := end_ |>).
  destruct (kernel_loop_ok start (end_ - start) ltac:(lia) (available l) MMAP_FUEL [] s2) as (s3 & R3 & C3 & (B3 & M3 & _) & T3).
  { unfold MMAP_FUEL. lia. } { by eapply chain_ext; [|exact C1]. } { done. } { done. }
  { intros [b z] (i & Hi)%list_elem_of_lookup Hb. cbn in Hb. subst b. destruct (bo_room _ _ _ _ _ _ _ _ _ B) as (k & zk & Hk & Hzk). cbn.
    destruct (H32 _ _ _ Hi) as (? & ? & ? & ?), (H32 _ _ _ Hk) as (? & ? & ? & ?). pose proof (bo_apart _ _ _ _ _ _ _ _ _ B) as Hap.
    destruct (decide (i = k)) as [->|]; [rewrite Hk in Hi; injection Hi as ->; lia|exfalso].
    destruct (Nat.lt_ge_cases i k); [specialize (Hap i k _ _ _ _ ltac:(done) Hi Hk)|specialize (Hap k i _ _ _ _ ltac:(lia) Hk Hi)]; lia. }
  cbn [app length] in R3, C3. rewrite Hsp in C3.
  destruct (reserve_bitmaps_ok l1 r l2 s3 nr) as (s4 & R4 & I4 & B4 & _).
  { rewrite T3. unfold s2. rec_simpl. by rewrite T1. } { done. } { done. }
  { intros i b z Hi. rewrite <-Hsp, list_lookup_fmap in Hi. destruct (available l !! i) as [[b0 z0]|] eqn:E; [|done].
    destruct (H32 _ _ _ E) as (? & ? & ? & ?). unfold without_kernel, cut in Hi. cbn in Hi.
    destruct (Z.eqb_spec b0 start), (Z.ltb_spec (end_ - start) z0); injection Hi as <- <-; lia. }
  { by rewrite M3, <-M1 in *. } { done. } { done. }
  { assert (r.1 + r.2 <= 4294967296); [|lia]. destruct r as [b z]. assert ((without_kernel start (end_ - start) <$> available l) !! length l1 = Some (b, z)) as Hi.
    { by rewrite Hsp, lookup_app_r, Nat.sub_diag by lia. }
    rewrite list_lookup_fmap in Hi. destruct (available l !! length l1) as [[b0 z0]|] eqn:E; [|done].
    destruct (H32 _ _ _ E) as (? & ? & ? & ?). unfold without_kernel, cut in Hi. cbn in Hi |- *.
    destruct (Z.eqb_spec b0 start), (Z.ltb_spec (end_ - start) z0); injection Hi as <- <-; lia. }
  exists s4. split; [|split; [done|]].
  - unfold mm_init. rewrite (u32_id (addr + len)) by (unfold is_u32; lia). rewrite (bind_ok _ _ _ _ _ R1).
    rewrite (bind_ok (modify (λ s, s <| kstart_addr := start |>)) _ s1 tt (s1 <| kstart_addr := start |>) eq_refl).
    rewrite (bind_ok (modify (λ s, s <| kend_addr := end_ |>)) _ _ tt s2 eq_refl). rewrite Hs, He. cbn [negb orb].
    rewrite u32_id by (unfold is_u32; lia). by rewrite (bind_ok _ _ _ _ _ R3).
  - intros i b z Hi. destruct (regions_apart s i b z B Hi) as (A1 & A2 & A3). do 3 (split; [done|]).
    pose proof (lookup_lt_Some _ _ _ Hi) as Hil. rewrite B4 by done. pose proof (space_before_S rs i b z Hi).
    pose proof (space_before_mono rs (S i) (length rs) ltac:(lia) (fi_size _ _ _ I4)).
    pose proof (space_before_mono rs 0 i ltac:(lia) (fi_size _ _ _ I4)) as Hz0. change (space_before rs 0) with 0 in Hz0. lia.
Qed.
End mm_properties.

(** C9: The pages that the allocator hands out, one after the other. From a region of [z] bytes of
    which nothing is taken it gives the pages 0, 1, 2, ... up to the number of bytes of the bitmap,
    which is the eighth part of the region; they are pages of the region, all different, and counted
    as used once. After that it gives page 1 of the region, which is in use, again and again, until
    as many pages have been given as the bitmap has bits. The pages of other regions stay free. *)
Theorem page_alloc_sequence rs n s k b z m : frame_inv rs n s → rs !! k = Some (b, z) →
  (∀ i b z, (i < k)%nat → rs !! i = Some (b, z) → n i = 8 * bmap_bytes z) → n k = 0 →
  b + bmap_bytes z * PAGE_SIZE < 4294963200 → Z.of_nat m <= 8 * bmap_bytes z →
  ∃ s' n', alloc_pages m s = Ok ((λ i, b + PAGE_SIZE * if Z.of_nat i <=? bmap_bytes z then Z.of_nat i else 1) <$> seq 0 m, s') ∧
    frame_inv rs n' s' ∧ n' k = Z.of_nat m ∧ (∀ i, i ≠ k → n' i = n i) ∧
    ∀ i, (i < m)%nat → Z.of_nat i <= bmap_bytes z → page_get_count (b + PAGE_SIZE * Z.of_nat i) s' = Ok (1, s').
Proof.
  intros I Hk Hfull Hn Hb Hm. destruct (fi_size _ _ _ I k b z Hk) as [Hb0 Hz]. pose proof (bmap_bytes_pos z Hz) as Hbz.
  destruct (alloc_pages_ok rs k b z Hk) with (m := m) (n := n) (s := s) as (s' & n' & R & I' & N & O & _ & C & _); try done.
  { unfold page_of, page_index. rewrite Z.leb_refl. lia. } { lia. }
  rewrite Hn, Z.add_0_l in *. exists s', n'. split_and!; try done.
  - rewrite R. do 2 f_equal. apply list_fmap_ext. intros i x _. unfold page_of, page_index, NO_FREE_PAGE. rewrite Z.add_0_l. destruct (Z.leb_spec (Z.of_nat x) (bmap_bytes z)); lia.
  - intros i Hi Hle. unfold page_get_count, count_at. specialize (C i Hi). unfold page_of, page_index in C.
    rewrite Z.add_0_l, (proj2 (Z.leb_le _ _)) in C by done. replace (b + PAGE_SIZE * Z.of_nat i) with (Z.of_nat i * PAGE_SIZE + b) by lia.
    rewrite (proj2 (Z.ltb_lt _ _)) by (unfold PAGE_SIZE, NR_COUNTS in *; nia). unfold gets. by rewrite C.
Qed.

(** No page is ever given back: [page_frame_free] lowers the reference count, once or twice, and
    returns with the bitmaps as they were, whatever the count was. *)
Theorem page_frame_free_frees_nothing page s : IS_PAGE_ALIGNED page = true → page / PAGE_SIZE < NR_COUNTS →
  ∃ s', page_frame_free page s = Ok (tt, s') ∧ mem s' = mem s ∧ mmap s' = mmap s ∧ mmap_bitmaps s' = mmap_bitmaps s ∧
    let c := s8 (reference_counts s (page / PAGE_SIZE) - 1) in
    reference_counts s' (page / PAGE_SIZE) = if 0 <? c then c else s8 (c - 1).
Proof.
  intros Ha Hp. unfold page_frame_free.
  assert (∀ s, count_at (page / PAGE_SIZE) s = Ok (reference_counts s (page / PAGE_SIZE), s)) as Hc.
  { intros s0. unfold count_at. by rewrite (proj2 (Z.ltb_lt _ _)) by done. }
  rewrite (bind_ok _ _ _ _ _ (Hc s)), (bind_ok _ _ _ _ _ (count_page_ok page _ s Hp)), (bind_ok _ _ _ _ _ (Hc _)). rec_simpl.
  rewrite fn_insert_eq. set (c := s8 (reference_counts s (page / PAGE_SIZE) - 1)). destruct (Z.ltb_spec 0 c) as [Hlt|Hge].
  - eexists. split; [done|]. split_and!; try done. rec_simpl. by rewrite fn_insert_eq.
  - rewrite Ha. cbn [negb]. rewrite (bind_ok _ _ _ _ _ (count_page_ok page _ _ Hp)), (bind_ok _ _ _ _ _ (Hc _)). rec_simpl. rewrite fn_insert_eq.
    assert (s8 (c - 1) ≠ 0) as Hne by (unfold c in *; by apply s8_pred_not_1).
    rewrite (proj2 (Z.eqb_neq _ _)) by done. eexists. split; [done|]. split_and!; try done. rec_simpl. by rewrite fn_insert_eq.
Qed.

(** A machine with 127 MiB: low memory up to 639 KiB, a reserved area, and the rest from 1 MiB on,
    where the kernel takes half a MiB. *)
Module PagesDemo.
Definition areas : list mb_entry := [MkMb 20 0 654336 1; MkMb 20 654336 1024 2; MkMb 20 1048576 132120576 1].
Definition put_area (a : Z) (e : mb_entry) (m : Z → Z) : Z → Z :=
  put_le32 a (mb_size e) (put_le32 (a + 4) (mb_addr e) (put_le32 (a + 12) (mb_len e) (put_le32 (a + 20) (mb_type e) m))).
Definition boot_mem : Z → Z := put_area 36864 (MkMb 20 0 654336 1) (put_area 36888 (MkMb 20 654336 1024 2)
  (put_area 36912 (MkMb 20 1048576 132120576 1) (λ _, 0))).
Definition boot : mm := MkMm (λ _, MkEntry 0 0 0 None) (λ _, MkBitmap None 0 0 0 0) 0 0 0 boot_mem (λ _, 0).
Lemma put_le32_bytes a v m : is_u32 v → bytes m → bytes (put_le32 a v m).
Proof.
  intros Hv Hm i. unfold is_u32 in Hv. unfold put_le32, put_le16.
  repeat match goal with |- context [<[?k := _]> _ _] => destruct (decide (k = i)) as [<-|]; [rewrite fn_insert_eq; unfold is_u8; lia|rewrite fn_insert_ne by done] end.
  apply Hm.
Qed.
Lemma areas_available : available areas = [(0, 654336); (1048576, 132120576)].
Proof. reflexivity. Qed.
Lemma boot_is_ok : boot_ok 36864 72 1048576 1572864 areas [] (0, 654336) [(1572864, 131596288)] boot.
Proof.
  split.
  - split; [|split; [done|]].
    + split; [unfold MAX_MMAP_ENTRIES; cbn; lia|]. split; [by intros i b z Hi|done].
    + unfold boot, boot_mem, put_area, mem. repeat (apply put_le32_bytes; [unfold is_u32; cbn; lia|]). intros i. unfold is_u8. lia.
  - repeat split; vm_compute; first [reflexivity | discriminate].
  - rewrite areas_available. split; [unfold MAX_MMAP_ENTRIES; cbn; lia|]. split; [|cbn; lia].
    intros [|[|i]] b z Hi; [injection Hi as <- <-; lia..|done].
  - rewrite areas_available. intros [|[|i]] [|[|j]] bi zi bj zj Hij Hi Hj; try lia; try done. injection Hi as <- <-. injection Hj as <- <-. lia.
  - split_and!; [reflexivity..|lia|lia|lia].
  - exists 1%nat, 132120576. rewrite areas_available. split; [done|lia].
  - rewrite areas_available. reflexivity.
  - unfold nr_bitmap_pages. rewrite areas_available. split; [reflexivity|]. by intros r Hr%elem_of_nil.
  - unfold nr_bitmap_pages. rewrite areas_available. vm_compute. discriminate.
Qed.
(** The low memory after the start. *)
Definition low : mm := MkMm (λ i, match i with O => MkEntry 4096 650240 160 (Some 1%nat) | _ => MkEntry 0 0 0 None end)
  (λ i, match i with O => MkBitmap (Some 0%nat) 0 20 0 160 | _ => MkBitmap (Some 1%nat) 0 0 0 0 end) 654336 1048576 1572864 (λ _, 0) (λ _, 0).
End PagesDemo.
Import PagesDemo.
Lemma mm_init_correct_witness : ∃ s', mm_init 4 36864 72 1048576 1572864 boot = Ok (tt, s') ∧ frame_inv [(4096, 650240); (1572864, 131596288)] (λ _, 0) s'.
Proof.
  destruct (mm_init_correct 36864 72 1048576 1572864 areas [] (0, 654336) [(1572864, 131596288)] 4 boot ltac:(cbn; lia) boot_is_ok) as (s' & R & I & _).
  exists s'. split; [exact R|exact I].
Defined.
Lemma low_inv : frame_inv [(4096, 650240)] (λ _, 0) low.
Proof.
  split; cbn [length].
  - split; [unfold MAX_MMAP_ENTRIES; cbn; lia|]. split; [intros [|i] b z Hi; [by injection Hi as <- <-|done]|]. intros [|i] Hi; [cbn in Hi; lia|done].
  - intros [|i] b z Hi; [injection Hi as <- <-; lia|done].
  - intros [|i] b z Hi; [injection Hi as <- <-; reflexivity|done].
  - done.
  - intros [|i] b z Hi; [injection Hi as <- <-; split; vm_compute; discriminate|done].
  - intros [|i] b z j Hi Hj; [injection Hi as <- <-|done]. rewrite (proj2 (Z.ltb_ge _ _)) by (pose proof (bmap_bytes_pos 650240 ltac:(lia)); lia).
    unfold bit_in. rewrite bit_test_spec by lia. apply Z.testbit_0_l.
  - intros i j b z Hij. lia.
  - intros i. unfold is_u8. cbn. lia.
Qed.
(** The low memory has 158 pages; after 21 of them the second is given again. *)
Lemma page_alloc_sequence_witness : ∃ s', alloc_pages 23 low = Ok ((λ i, 4096 + PAGE_SIZE * if Z.of_nat i <=? 20 then Z.of_nat i else 1) <$> seq 0 23, s').
Proof.
  destruct (page_alloc_sequence [(4096, 650240)] (λ _, 0) low 0 4096 650240 23 low_inv eq_refl) as (s' & _ & R & _).
  - intros i b z Hi. lia.
  - done.
  - vm_compute. reflexivity.
  - vm_compute. discriminate.
  - exists s'. exact R.
Defined.
Lemma page_frame_free_frees_nothing_witness : ∃ s', page_frame_free 8192 boot = Ok (tt, s') ∧ mem s' = mem boot.
Proof.
  destruct (page_frame_free_frees_nothing 8192 boot) as (s' & R & M & _); [reflexivity|reflexivity|]. by exists s'.
Defined.
