(* ===== verification/Paging.v ===== *)
(** Page tables of the i386 (sys/arch/i386/virtual_mm.c): mapping memory into an address space,
    copy on write, page faults, and the check of user addresses.

    Physical memory is a function from the addresses of frames and the indices of their 1024 words
    to words. The kernel reaches a frame by the temporary page, the last entry of
    [init_page_table]; the processor keeps the translation of that page, [tlb], until it is flushed.
    The frames come from an allocator that is an interface here; PageAlloc.v implements it. *)
From S2P Require Import Prelude Wp Bitmap PageAlloc.

Definition PAGE_PRESENT : Z := 1.
Definition PAGE_WRITABLE : Z := 2.
Definition PAGE_USER : Z := 4.
Definition PF_PROTECTION : Z := 1.
Definition PF_WRITE : Z := 2.
Definition KERNEL_VIRT_BASE : Z := 3221225472.
Definition USER_STACK_SIZE : Z := 2097152.
Definition VIRT_ADDR_TMP_PAGE : Z := 3225415680.
(** 4 MiB: what a page table maps. *)
Definition TABLE_SPAN : Z := 4194304.
Definition FRAME_MASK : Z := 4294963200.
Definition pd_index (v : Z) : Z := Z.shiftr v 22.
Definition pt_index (v : Z) : Z := Z.land (Z.shiftr v 12) 1023.
Definition frame_of (e : Z) : Z := Z.land e FRAME_MASK.
Definition flags_of (e : Z) : Z := Z.land e 4095.
Definition has (e flag : Z) : bool := negb (Z.land e flag =? 0).

(** ** The allocator of frames *)
Class FrameAllocator (A : Type) := {
  frame_alloc : M A Z; frame_free : Z → M A unit;
  increase_count : Z → M A unit; decrease_count : Z → M A unit; get_count : Z → M A Z
}.
#[export] Instance mm_frames : FrameAllocator mm := {
  frame_alloc := page_frame_alloc; frame_free := page_frame_free;
  increase_count := page_increase_count; decrease_count := page_decrease_count; get_count := page_get_count
}.

(** [current_pg_table] *)
Inductive table_ptr := NoTable | InitTable | TmpPage.
Record exec_image := MkImage {
  e_entry : Z; e_text_vaddr : Z; e_text_size : Z; e_data_vaddr : Z; e_data_size : Z; e_rodata_vaddr : Z; e_rodata_size : Z;
  e_bss_vaddr : Z; e_bss_size : Z
}.
Record vmem (A : Type) := MkVm {
  frames : Z → Z → Z; init_page_table : Z → Z; init_page_directory : Z → Z; tlb : option Z;
  current_pg_table : table_ptr; virt_map_entry : Z; cr3 : Z; next_cr3 : Z; pages : A
}.
Arguments MkVm {A}. Arguments frames {A}. Arguments init_page_table {A}. Arguments init_page_directory {A}. Arguments tlb {A}.
Arguments current_pg_table {A}. Arguments virt_map_entry {A}. Arguments cr3 {A}. Arguments next_cr3 {A}. Arguments pages {A}.
#[export] Instance vmem_eta A : Eta (vmem A) := λ s, MkVm (frames s) (init_page_table s) (init_page_directory s) (tlb s)
  (current_pg_table s) (virt_map_entry s) (cr3 s) (next_cr3 s) (pages s).

Section paging.
Context {A : Type} `{FrameAllocator A}.
Definition V (R : Type) : Type := M (vmem A) R.
Definition in_pages {R} (m : M A R) : V R := zoom pages (λ a s, s <| pages := a |>) m.

(** ** The temporary page *)
Definition tmp_index : Z := pt_index VIRT_ADDR_TMP_PAGE.
Definition tmp_map_page (page : Z) : V unit :=
  modify (λ s, s <| init_page_table ::= <[tmp_index := Z.lor page (Z.lor PAGE_PRESENT PAGE_WRITABLE)]> |>).
Definition get_tmp_page : V Z := gets (λ s, frame_of (init_page_table s tmp_index)).
(** Only the translation of the temporary page is kept here. *)
Definition tlb_flush (virt : Z) : V unit :=
  modify (λ s, if frame_of virt =? VIRT_ADDR_TMP_PAGE then s <| tlb := None |> else s).
Definition reload_cr3 : V unit := modify (λ s, s <| tlb := None |>).
(** An access to the temporary page: the frame of the translation that the processor keeps, or of the
    page table. *)
Definition tmp_frame : V Z :=
  s ← get;
  match tlb s with
  | Some f => mret f
  | None =>
      let e := init_page_table s tmp_index in
      if has e PAGE_PRESENT then modify (λ s, s <| tlb := Some (frame_of e) |>) ;; mret (frame_of e) else undef "page fault in the kernel"
  end.
Definition tmp_read (i : Z) : V Z := f ← tmp_frame; gets (λ s, frames s f i).
Definition tmp_write (i v : Z) : V unit :=
  f ← tmp_frame; modify (λ s, s <| frames ::= λ m, <[f := <[i := v]> (m f)]> m |>).
(** [memmove] and [memset] of the whole page. *)
Definition tmp_read_page : V (Z → Z) := f ← tmp_frame; gets (λ s, frames s f).
Definition tmp_write_page (p : Z → Z) : V unit := f ← tmp_frame; modify (λ s, s <| frames ::= <[f := p]> |>).
(** [tmp_map_page(page); tlb_flush(VIRT_ADDR_TMP_PAGE);] *)
Definition map_tmp (page : Z) : V unit := tmp_map_page page ;; tlb_flush VIRT_ADDR_TMP_PAGE.
Definition words : list Z := Z.of_nat <$> seq 0 1024.

(** ** Kernel memory *)

(** [while ((p[i] & PAGE_PRESENT) && i < n) i++;] from [i] on. The word behind the table that the
    test reads does not matter. *)
Fixpoint first_absent (n : nat) (i : Z) (read : Z → V Z) : V Z :=
  match n with
  | O => mret i
  | S n => e ← read i; if has e PAGE_PRESENT then first_absent n (i + 1) read else mret i
  end.
Definition read_table (t : table_ptr) (i : Z) : V Z :=
  match t with
  | NoTable => undef "null page table"
  | InitTable => gets (λ s, init_page_table s i)
  | TmpPage => tmp_read i
  end.
Definition write_table (t : table_ptr) (i v : Z) : V unit :=
  match t with
  | NoTable => undef "null page table"
  | InitTable => modify (λ s, s <| init_page_table ::= <[i := v]> |>)
  | TmpPage => tmp_write i v
  end.
Definition kernel_virt_map_page (page : Z) : V Z :=
  modify (λ s, s <| current_pg_table ::= λ t, match t with NoTable => InitTable | _ => t end |>) ;;
  t ← gets current_pg_table;
  i ← first_absent 1024 0 (read_table t);
  i ← (if 1024 <=? i then
         p ← in_pages frame_alloc;
         if p =? NO_FREE_PAGE then panic "Out of physical memory" else
         tlb_flush VIRT_ADDR_TMP_PAGE ;;
         tmp_map_page p ;;
         d ← first_absent 255 768 (λ d, gets (λ s, init_page_directory s d));
         if 1023 <=? d then panic "Out of space in kernel page directory" else
         modify (λ s, s <| init_page_directory ::= <[d := Z.lor p (Z.lor PAGE_PRESENT PAGE_WRITABLE)]> |>) ;;
         modify (λ s, s <| current_pg_table := TmpPage |>) ;;
         mret 0
       else mret i);
  t ← gets current_pg_table;
  write_table t i (Z.lor page (Z.lor PAGE_WRITABLE PAGE_PRESENT)) ;;
  mret (Z.lor KERNEL_VIRT_BASE (Z.shiftl i 12)).

(** The first absent entry from 1023 downwards. *)
Fixpoint last_absent (l : list Z) : V unit :=
  match l with
  | [] => mret tt
  | i :: l =>
      e ← gets (λ s, init_page_directory s i);
      if negb (has e PAGE_PRESENT) then modify (λ s, s <| virt_map_entry := i |>) else last_absent l
  end.
Definition virt_map_phys (phys : Z) : V Z :=
  old ← get_tmp_page;
  pg_table ← in_pages frame_alloc;
  if pg_table =? NO_FREE_PAGE then mret 0 else
  map_tmp pg_table ;;
  for_each words (λ k, tmp_write k (Z.lor (u32 (phys + k * PAGE_SIZE)) (Z.lor PAGE_PRESENT PAGE_WRITABLE))) ;;
  map_tmp old ;;
  n ← gets virt_map_entry;
  modify (λ s, s <| init_page_directory ::= <[n := Z.lor pg_table (Z.lor PAGE_PRESENT PAGE_WRITABLE)]> |>) ;;
  last_absent (rev (tail words)) ;;
  mret (u32 (Z.shiftl n 22)).
Definition virt_unmap_virt (virt : Z) : V unit :=
  let entry := pd_index virt in
  e ← gets (λ s, init_page_directory s entry);
  in_pages (frame_free (frame_of e)) ;;
  modify (λ s, s <| init_page_directory ::= <[entry := 0]> |>) ;;
  tlb_flush virt ;;
  n ← gets virt_map_entry;
  if n <? entry then modify (λ s, s <| virt_map_entry := entry |>) else mret tt.

(** ** Mapping a range *)

(** The entries of one page table from [i] on; [tmp] is the page, [phys] the frame when it is not 0.
    The result is [tmp] and [phys] behind the last entry, or nothing when there is no frame. *)
Fixpoint map_entries (n : nat) (i tmp last flags phys : Z) : V (option (Z * Z)) :=
  match n with
  | O => mret (Some (tmp, phys))
  | S n =>
      if last <? tmp then mret (Some (tmp, phys)) else
      if phys =? 0 then
        page_frame ← in_pages frame_alloc;
        if page_frame =? NO_FREE_PAGE then mret None else
        tmp_write i (Z.lor (Z.lor page_frame PAGE_PRESENT) flags) ;;
        map_entries n (i + 1) (u32 (tmp + PAGE_SIZE)) last flags phys
      else
        tmp_write i (Z.lor (Z.lor phys PAGE_PRESENT) flags) ;;
        map_entries n (i + 1) (u32 (tmp + PAGE_SIZE)) last flags (u32 (phys + PAGE_SIZE))
  end.
(** The page tables [j], ...; the result tells whether all were mapped. *)
Fixpoint map_tables (n : nat) (j tmp last pg_dir old flags phys : Z) : V bool :=
  match n with
  | O => mret true
  | S n =>
      let index := pd_index tmp in
      map_tmp pg_dir ;;
      if 1024 <=? index + j then undef "behind the page directory" else
      pg_table ← tmp_read (index + j);
      pg_table ← (if negb (has pg_table PAGE_PRESENT) then
                    pg_table ← in_pages frame_alloc;
                    if pg_table =? NO_FREE_PAGE then map_tmp old ;; mret None else
                    map_tmp pg_table ;; tmp_write_page (λ _, 0) ;; mret (Some pg_table)
                  else map_tmp (frame_of pg_table) ;; mret (Some (frame_of pg_table)));
      match pg_table with
      | None => mret false
      | Some pg_table =>
          let i := pt_index tmp in
          r ← map_entries (Z.to_nat (1024 - i)) i tmp last flags phys;
          match r with
          | None => mret false
          | Some (tmp, phys) =>
              map_tmp pg_dir ;;
              tmp_write (index + j) (Z.lor (Z.lor pg_table PAGE_PRESENT) flags) ;;
              map_tables n (j + 1) tmp last pg_dir old flags phys
          end
      end
  end.
(** [page_dir] is 0 when there is none. *)
Definition virt_map_chunk (start size page_dir flags phys : Z) : V Z :=
  old ← get_tmp_page;
  pg_dir ← (if page_dir =? 0 then in_pages frame_alloc else mret page_dir);
  if (page_dir =? 0) && (pg_dir =? NO_FREE_PAGE) then map_tmp old ;; mret 0 else
  map_tmp pg_dir ;;
  (if page_dir =? 0 then d ← gets init_page_directory; tmp_write_page d else mret tt) ;;
  ok ← map_tables (Z.to_nat (size / TABLE_SPAN + 1)) 0 (frame_of start) (u32 (start + size)) pg_dir old flags phys;
  if ok : bool then map_tmp old ;; mret pg_dir else mret 0.

(** ** Copy on write *)
Definition pg_table_cow (pg_table : Z) (inc_ref : bool) : V unit :=
  old ← get_tmp_page;
  map_tmp (frame_of pg_table) ;;
  for_each words (λ k,
    e ← tmp_read k;
    when (has e PAGE_PRESENT)
      (tmp_write k (Z.land e (Z.lnot PAGE_WRITABLE)) ;;
       when inc_ref (in_pages (increase_count (frame_of (Z.land e (Z.lnot PAGE_WRITABLE))))))) ;;
  map_tmp old.
Definition copy_page_table (to from : Z) : V unit :=
  old ← get_tmp_page;
  map_tmp from ;;
  p ← tmp_read_page;
  map_tmp to ;;
  tmp_write_page p ;;
  map_tmp old.
(** The entries of the new directory, and those of the old one, which get page tables of their own. *)
Definition cow_child (k : Z) : V unit :=
  e ← tmp_read k;
  when (has e PAGE_PRESENT && has e PAGE_USER)
    (pg_table_cow e false ;;
     e ← tmp_read k;
     tmp_write k (Z.land e (Z.lnot PAGE_WRITABLE))).
Definition cow_parent (k : Z) : V unit :=
  e ← tmp_read k;
  when (has e PAGE_PRESENT && has e PAGE_USER)
    (new ← in_pages frame_alloc;
     if new =? NO_FREE_PAGE then panic "Out of memory" else
     e ← tmp_read k;
     copy_page_table new (frame_of e) ;;
     pg_table_cow new true ;;
     e ← tmp_read k;
     tmp_write k (Z.lor new (flags_of e)) ;;
     e ← tmp_read k;
     tmp_write k (Z.land e (Z.lnot PAGE_WRITABLE))).
(** [pid] is that of the running process. *)
Definition copy_address_space (pid from_page_dir to_page_dir : Z) : V unit :=
  old ← get_tmp_page;
  map_tmp from_page_dir ;;
  p ← tmp_read_page;
  map_tmp to_page_dir ;;
  tmp_write_page p ;;
  (if pid =? 0 then mret tt else
     for_each words cow_child ;;
     map_tmp from_page_dir ;;
     for_each words cow_parent) ;;
  map_tmp old ;;
  reload_cr3.

(** A process that is killed does not come back from the fault. *)
Inductive fault := Killed | Resumed.
Definition page_set_writable (addr : Z) : V fault :=
  old ← get_tmp_page;
  tlb_flush VIRT_ADDR_TMP_PAGE ;;
  d ← gets cr3;
  map_tmp d ;;
  pg_table ← tmp_read (pd_index addr);
  if negb (has pg_table PAGE_PRESENT) then mret Killed else
  tmp_write (pd_index addr) (Z.lor pg_table PAGE_WRITABLE) ;;
  map_tmp (frame_of pg_table) ;;
  pg_frame ← tmp_read (pt_index addr);
  if negb (has pg_frame PAGE_PRESENT) then mret Killed else
  c ← in_pages (get_count (frame_of pg_frame));
  (if 1 <? c then
     new ← in_pages frame_alloc;
     if new =? NO_FREE_PAGE then panic "Out of memory" else
     tmp_write (pt_index addr) (Z.lor (Z.lor new (flags_of pg_frame)) PAGE_WRITABLE) ;;
     in_pages (decrease_count (frame_of pg_frame)) ;;
     map_tmp (frame_of pg_frame) ;;
     p ← tmp_read_page;
     map_tmp new ;;
     tmp_write_page p ;;
     c ← in_pages (get_count (frame_of pg_frame));
     if c =? 0 then panic "cli; hlt" else mret tt
   else
     e ← tmp_read (pt_index addr);
     tmp_write (pt_index addr) (Z.lor e PAGE_WRITABLE)) ;;
  tlb_flush addr ;;
  map_tmp old ;;
  reload_cr3 ;;
  mret Resumed.
(** [image] is that of the running process, [addr] the faulting address. *)
Definition handle_page_fault (error addr : Z) (image : exec_image) : V fault :=
  if negb (has error PF_PROTECTION) then mret Killed else
  if negb (has error PF_WRITE) then mret Killed else
  if (e_text_vaddr image <=? addr) && (addr <? u32 (e_text_vaddr image + e_text_size image)) then mret Killed else
  if (0 <? e_rodata_size image) && (e_rodata_vaddr image <=? addr) && (addr <? u32 (e_rodata_vaddr image + e_rodata_size image)) then mret Killed else
  page_set_writable addr.

(** ** Checks and release *)

(** The running process is in the directory [cr3]. *)
Definition check_user_ptr (addr : Z) : V Z :=
  old ← get_tmp_page;
  d ← gets cr3;
  map_tmp d ;;
  e ← tmp_read (pd_index addr);
  ret ← (if negb (has e PAGE_PRESENT) || negb (has e PAGE_USER) then mret 0 else
           map_tmp (frame_of e) ;;
           e ← tmp_read (pt_index addr);
           if negb (has e PAGE_PRESENT) || negb (has e PAGE_USER) then mret 0 else mret (flags_of e));
  map_tmp old ;;
  mret ret.

Definition free_page_table (pg_table : Z) : V unit :=
  old ← get_tmp_page;
  map_tmp pg_table ;;
  for_each words (λ k,
    e ← tmp_read k;
    when (has e PAGE_PRESENT && has e PAGE_USER)
      (in_pages (decrease_count (frame_of e)) ;;
       c ← in_pages (get_count (frame_of e));
       when (c =? 0) (tmp_write k (Z.land e (Z.lnot PAGE_PRESENT)) ;; in_pages (frame_free (frame_of e))))) ;;
  map_tmp old.
Definition virt_free_chunk (start len pg_dir : Z) : V unit :=
  if KERNEL_VIRT_BASE <=? start then panic "virt_free_chunck: trying to free kernel memory!" else
  if pg_dir =? 0 then panic "virt_free_chunk: pg_dir is NULL" else
  old ← get_tmp_page;
  map_tmp pg_dir ;;
  for_each (seq 0 (Z.to_nat (len / TABLE_SPAN + 1))) (λ j,
    let k := pd_index start + Z.of_nat j in
    if 1024 <=? k then undef "behind the page directory" else
    e ← tmp_read k;
    when (has e PAGE_PRESENT)
      (free_page_table (frame_of e) ;;
       in_pages (decrease_count (frame_of e)) ;;
       c ← in_pages (get_count (frame_of e));
       when (c =? 0) (in_pages (frame_free (frame_of e))))) ;;
  map_tmp old.
Definition free_address_space (image : exec_image) : V unit :=
  d ← gets cr3;
  when (0 <? e_data_size image) (virt_free_chunk (e_data_vaddr image) (e_data_size image) d) ;;
  when (0 <? e_rodata_size image) (virt_free_chunk (e_rodata_vaddr image) (e_rodata_size image) d) ;;
  when (0 <? e_text_size image) (virt_free_chunk (e_text_vaddr image) (e_text_size image) d).

(** [&&] of the segments: a failed one is the end. *)
Definition map_segment (vaddr size pg_dir flags : Z) (rest : V Z) : V Z :=
  if 0 <? size then r ← virt_map_chunk vaddr size pg_dir flags 0; if r =? 0 then mret (-1) else rest else rest.
Definition arch_valloc_segments (image : exec_image) : V Z :=
  pg_dir ← in_pages frame_alloc;
  if pg_dir =? NO_FREE_PAGE then mret (-1) else
  old ← get_tmp_page;
  map_tmp pg_dir ;;
  d ← gets init_page_directory;
  tmp_write_page d ;;
  if KERNEL_VIRT_BASE <? e_text_vaddr image then mret (-1) else
  map_segment (e_text_vaddr image) (e_text_size image) pg_dir PAGE_USER (
  if KERNEL_VIRT_BASE <? e_data_vaddr image then mret (-1) else
  map_segment (e_data_vaddr image) (e_data_size image) pg_dir (Z.lor PAGE_USER PAGE_WRITABLE) (
  map_segment (e_rodata_vaddr image) (e_rodata_size image) pg_dir PAGE_USER (
  r ← virt_map_chunk (KERNEL_VIRT_BASE - USER_STACK_SIZE) USER_STACK_SIZE pg_dir (Z.lor PAGE_USER PAGE_WRITABLE) 0;
  if r =? 0 then mret (-1) else
  modify (λ s, s <| next_cr3 := pg_dir |>) ;;
  map_tmp old ;;
  mret 0))).
End paging.
Arguments V A : clear implicits.

(** ** Entries

    An entry is the address of a frame and twelve bits of flags. *)
Definition aligned (f : Z) : Prop := is_u32 f ∧ f mod 4096 = 0.
Section entries.
Lemma frame_of_spec x : is_u32 x → frame_of x = x - x mod 4096.
Proof.
  intros Hx. unfold is_u32 in Hx. unfold frame_of. change FRAME_MASK with (Z.shiftl (Z.ones 20) 12).
  apply Z.bits_inj_iff'. intros i Hi. rewrite Z.land_spec, Z.shiftl_spec by done.
  replace (x - x mod 4096) with (Z.shiftl (Z.shiftr x 12) 12) by (rewrite Z.shiftl_mul_pow2, Z.shiftr_div_pow2 by lia; lia).
  rewrite Z.shiftl_spec by done. destruct (decide (i < 12)).
  - rewrite !(Z.testbit_neg_r _ (i - 12)) by lia. apply andb_false_r.
  - rewrite Z.shiftr_spec by lia. replace (i - 12 + 12) with i by lia. destruct (decide (i < 32)).
    + rewrite Z.ones_spec_low by lia. apply andb_true_r.
    + rewrite (testbit_high x 32) by lia. done.
Qed.
Lemma flags_of_spec x : flags_of x = x mod 4096.
Proof. unfold flags_of. change 4095 with (Z.ones 12). by rewrite Z.land_ones by lia. Qed.
Lemma aligned_frame_of x : is_u32 x → aligned (frame_of x).
Proof. intros Hx. rewrite frame_of_spec by done. unfold aligned, is_u32 in *. lia. Qed.
Lemma lor_flags f g : aligned f → 0 <= g < 4096 → Z.lor f g = f + g.
Proof.
  intros [Hf Ha] Hg. rewrite <-Z.lxor_lor, <-Z.add_nocarry_lxor; [done| |].
  all: apply Z.bits_inj_iff'; intros i Hi; rewrite Z.land_spec, Z.bits_0; destruct (decide (i < 12)).
  all: try (rewrite (testbit_high g 12) by lia; apply andb_false_r).
  all: replace f with (Z.shiftl (f / 4096) 12) by (rewrite Z.shiftl_mul_pow2 by lia; lia); by rewrite Z.shiftl_spec, (Z.testbit_neg_r _ (i - 12)) by lia.
Qed.
Lemma frame_of_lor f g : aligned f → 0 <= g < 4096 → frame_of (Z.lor f g) = f.
Proof. intros Hf Hg. rewrite lor_flags by done. destruct Hf. unfold is_u32 in *. rewrite frame_of_spec by (unfold is_u32; lia). lia. Qed.
Lemma lor_flags_u32 f g : aligned f → 0 <= g < 4096 → is_u32 (Z.lor f g).
Proof. intros Hf Hg. rewrite lor_flags by done. destruct Hf. unfold is_u32 in *. lia. Qed.
Lemma frame_of_aligned f : aligned f → frame_of f = f.
Proof. intros [Hf Ha]. rewrite frame_of_spec by done. lia. Qed.

(** Flags are bits. *)
Lemma has_present e : has e PAGE_PRESENT = Z.testbit e 0.
Proof. exact (bit_test_spec e 0 ltac:(lia)). Qed.
Lemma has_writable e : has e PAGE_WRITABLE = Z.testbit e 1.
Proof. exact (bit_test_spec e 1 ltac:(lia)). Qed.
Lemma has_user e : has e PAGE_USER = Z.testbit e 2.
Proof. exact (bit_test_spec e 2 ltac:(lia)). Qed.
(** An entry without the bit that allows writing. *)
Definition read_only (e : Z) : Z := Z.land e (Z.lnot PAGE_WRITABLE).
Lemma read_only_bits e i : 0 <= i → Z.testbit (read_only e) i = (negb (bool_decide (i = 1)) && Z.testbit e i)%bool.
Proof. intros Hi. exact (bit_clear_spec e 1 i ltac:(lia) Hi). Qed.
Lemma read_only_u32 e : is_u32 e → is_u32 (read_only e).
Proof.
  intros He. unfold is_u32 in *. assert (0 <= read_only e) by (apply Z.land_nonneg; lia). split; [done|]. change 4294967296 with (2 ^ 32).
  apply bits_lt; [done|lia|]. intros i Hi. rewrite read_only_bits, (testbit_high e 32) by lia. apply andb_false_r.
Qed.
Lemma read_only_frame e : frame_of (read_only e) = frame_of e.
Proof. unfold frame_of, read_only. rewrite <-Z.land_assoc. f_equal. Qed.
Lemma read_only_idem e : read_only (read_only e) = read_only e.
Proof. unfold read_only. rewrite <-Z.land_assoc. f_equal. Qed.
Lemma read_only_has e : has (read_only e) PAGE_PRESENT = has e PAGE_PRESENT ∧ has (read_only e) PAGE_USER = has e PAGE_USER ∧
  has (read_only e) PAGE_WRITABLE = false.
Proof. rewrite !has_present, !has_user, has_writable, !read_only_bits by lia. done. Qed.
Lemma lor_low_bits f g i : aligned f → 0 <= i < 12 → Z.testbit (Z.lor f g) i = Z.testbit g i.
Proof.
  intros [_ Ha] Hi. rewrite Z.lor_spec. replace f with (Z.shiftl (f / 4096) 12) by (rewrite Z.shiftl_mul_pow2 by lia; lia).
  by rewrite Z.shiftl_spec, (Z.testbit_neg_r _ (i - 12)) by lia.
Qed.
Lemma flags_of_bits e i : 0 <= i < 12 → Z.testbit (flags_of e) i = Z.testbit e i.
Proof. intros Hi. unfold flags_of. change 4095 with (Z.ones 12). rewrite Z.land_spec, Z.ones_spec_low by lia. apply andb_true_r. Qed.
Lemma pd_index_range v : is_u32 v → 0 <= pd_index v < 1024.
Proof. unfold is_u32, pd_index. intros. rewrite Z.shiftr_div_pow2 by lia. lia. Qed.
Lemma pt_index_range v : 0 <= pt_index v < 1024.
Proof. unfold pt_index. change 1023 with (Z.ones 10). rewrite Z.land_ones by lia. lia. Qed.
End entries.

(** ** The temporary page is a window

    [window s0 fr a f s]: the frames are [fr], the allocator is [a], the temporary page is the frame
    [f], and everything else is as in [s0]. *)
Section window.
Context {A : Type} `{FrameAllocator A}.
Implicit Types (s : vmem A) (fr : Z → Z → Z) (a : A).

Record window s0 fr a (f : Z) s : Prop := {
  w_frames : ∀ g i, frames s g i = fr g i;
  w_pages : pages s = a;
  w_tlb : tlb s = None ∨ tlb s = Some f;
  w_entry : init_page_table s tmp_index = Z.lor f (Z.lor PAGE_PRESENT PAGE_WRITABLE);
  w_aligned : aligned f;
  w_table : ∀ i, i ≠ tmp_index → init_page_table s i = init_page_table s0 i;
  w_rest : init_page_directory s = init_page_directory s0 ∧ current_pg_table s = current_pg_table s0 ∧
    virt_map_entry s = virt_map_entry s0 ∧ cr3 s = cr3 s0 ∧ next_cr3 s = next_cr3 s0
}.
Definition tmp_entry (f : Z) : Z := Z.lor f (Z.lor PAGE_PRESENT PAGE_WRITABLE).
Lemma tmp_entry_ok f : aligned f → frame_of (tmp_entry f) = f ∧ has (tmp_entry f) PAGE_PRESENT = true.
Proof.
  intros Hf. unfold tmp_entry. split; [by apply frame_of_lor|]. rewrite has_present, lor_low_bits by (done || lia). done.
Qed.

Lemma wp_get_tmp s0 fr a f s (Q : Z → vmem A → Prop) : window s0 fr a f s → Q f s → wp get_tmp_page Q s.
Proof.
  intros W HQ. apply wp_gets. rewrite (w_entry _ _ _ _ _ W). fold (tmp_entry f). by rewrite (proj1 (tmp_entry_ok f (w_aligned _ _ _ _ _ W))).
Qed.
(** The first mapping may start from any entry of the temporary page. *)
Lemma wp_map_tmp_any g s (Q : () → vmem A → Prop) : aligned g →
  (∀ s', window s (frames s) (pages s) g s' → Q tt s') → wp (map_tmp g) Q s.
Proof.
  intros Hg HQ. unfold map_tmp. wp_step. apply wp_modify, wp_modify.
  rewrite (proj2 (Z.eqb_eq (frame_of VIRT_ADDR_TMP_PAGE) VIRT_ADDR_TMP_PAGE) eq_refl). apply HQ. split; try done.
  - by left.
  - intros i Hi. do 2 rec_simpl. by rewrite fn_insert_ne.
Qed.
Lemma window_trans s0 fr a f s fr' a' f' s' : window s0 fr a f s → window s fr' a' f' s' → window s0 fr' a' f' s'.
Proof.
  intros W W'. destruct (w_rest _ _ _ _ _ W) as (?&?&?&?&?), (w_rest _ _ _ _ _ W') as (?&?&?&?&?).
  split; try apply W'; [|repeat split; congruence]. intros i Hi. by rewrite (w_table _ _ _ _ _ W'), (w_table _ _ _ _ _ W).
Qed.
Lemma window_ext s0 fr fr' a f s : window s0 fr a f s → (∀ g i, fr g i = fr' g i) → window s0 fr' a f s.
Proof. intros W E. split; try apply W. intros g i. by rewrite (w_frames _ _ _ _ _ W). Qed.
Lemma wp_map_tmp g s0 fr a f s (Q : () → vmem A → Prop) : window s0 fr a f s → aligned g →
  (∀ s', window s0 fr a g s' → Q tt s') → wp (map_tmp g) Q s.
Proof.
  intros W Hg HQ. apply wp_map_tmp_any; [done|]. intros s' W'. apply HQ. rewrite (w_pages _ _ _ _ _ W) in W'.
  eapply window_trans; [exact W|]. eapply window_ext; [exact W'|apply W].
Qed.
Lemma wp_tmp_frame s0 fr a f s (Q : Z → vmem A → Prop) : window s0 fr a f s →
  (∀ s', window s0 fr a f s' → frames s' = frames s → Q f s') → wp tmp_frame Q s.
Proof.
  intros W HQ. unfold tmp_frame. wp_step. apply wp_get. destruct (w_tlb _ _ _ _ _ W) as [E|E]; rewrite E.
  - rewrite (w_entry _ _ _ _ _ W). fold (tmp_entry f). destruct (tmp_entry_ok f (w_aligned _ _ _ _ _ W)) as [E1 E2]. rewrite E2.
    wp_step. apply wp_modify, wp_ret. rewrite E1. apply HQ; [|done]. split; try apply W; by right.
  - apply wp_ret. by apply HQ.
Qed.
Lemma wp_tmp_read i s0 fr a f s (Q : Z → vmem A → Prop) : window s0 fr a f s →
  (∀ s', window s0 fr a f s' → Q (fr f i) s') → wp (tmp_read i) Q s.
Proof.
  intros W HQ. unfold tmp_read. wp_step. eapply wp_tmp_frame; [exact W|]. intros s' W' _. apply wp_gets. rewrite (w_frames _ _ _ _ _ W'). by apply HQ.
Qed.
Definition put_word (f i v : Z) fr : Z → Z → Z := λ g j, if (g =? f) && (j =? i) then v else fr g j.
Definition put_frame (f : Z) (p : Z → Z) fr : Z → Z → Z := λ g, if g =? f then p else fr g.
Lemma wp_tmp_write i v s0 fr a f s (Q : () → vmem A → Prop) : window s0 fr a f s →
  (∀ s', window s0 (put_word f i v fr) a f s' → Q tt s') → wp (tmp_write i v) Q s.
Proof.
  intros W HQ. unfold tmp_write. wp_step. eapply wp_tmp_frame; [exact W|]. intros s' W' _. apply wp_modify, HQ. split; try apply W'.
  intros g j. rec_simpl. unfold put_word. pose proof (w_frames _ _ _ _ _ W' g j) as E. destruct (Z.eqb_spec g f) as [->|]; [|by rewrite fn_insert_ne].
  rewrite fn_insert_eq. destruct (Z.eqb_spec j i) as [->|]; [by rewrite fn_insert_eq|by rewrite fn_insert_ne].
Qed.
Lemma wp_tmp_read_page s0 fr a f s (Q : (Z → Z) → vmem A → Prop) : window s0 fr a f s →
  (∀ p s', window s0 fr a f s' → (∀ i, p i = fr f i) → Q p s') → wp tmp_read_page Q s.
Proof. intros W HQ. unfold tmp_read_page. wp_step. eapply wp_tmp_frame; [exact W|]. intros s' W' _. apply wp_gets, HQ; [done|]. apply W'. Qed.
Lemma wp_tmp_write_page p s0 fr a f s (Q : () → vmem A → Prop) : window s0 fr a f s →
  (∀ s', window s0 (put_frame f p fr) a f s' → Q tt s') → wp (tmp_write_page p) Q s.
Proof.
  intros W HQ. unfold tmp_write_page. wp_step. eapply wp_tmp_frame; [exact W|]. intros s' W' _. apply wp_modify, HQ. split; try apply W'.
  intros g j. rec_simpl. unfold put_frame. destruct (Z.eqb_spec g f) as [->|]; [by rewrite fn_insert_eq|rewrite fn_insert_ne by done; apply W'].
Qed.
Lemma wp_in_pages {R} (m : M A R) s0 fr a f s (Q : R → vmem A → Prop) : window s0 fr a f s →
  wp m (λ r a', ∀ s', window s0 fr a' f s' → Q r s') a → wp (in_pages m) Q s.
Proof.
  intros W (r & a' & R1 & HQ). apply wp_zoom. rewrite (w_pages _ _ _ _ _ W). exists r, a'. split; [done|]. apply HQ. split; try done; apply W.
Qed.
End window.

(** ** What the allocator promises

    [used] frames have been handed out, [refs] are their counts, and [room n] says that [n] more can
    be had. *)
Definition counted {A} (refs : A → Z → Z) (used : A → Z → Prop) (room : nat → A → Prop) (a a' : A) (f c : Z) : Prop :=
  refs a' f = c ∧ (∀ q, q ≠ f → refs a' q = refs a q) ∧ (∀ q, used a' q ↔ used a q) ∧ ∀ n, room n a → room n a'.
Class FrameLaws (A : Type) `{FrameAllocator A} := {
  refs : A → Z → Z; used : A → Z → Prop; room : nat → A → Prop;
  used_aligned a f : used a f → aligned f;
  room_S n a : room (S n) a → room n a;
  alloc_law n a : room (S n) a → ∃ p a', frame_alloc a = Ok (p, a') ∧ aligned p ∧ (¬ used a p) ∧ refs a' p = 1 ∧
    (∀ q, used a' q ↔ q = p ∨ used a q) ∧ (∀ q, q ≠ p → refs a' q = refs a q) ∧ room n a';
  increase_law a f : used a f → ∃ a', increase_count f a = Ok (tt, a') ∧ counted refs used room a a' f (s8 (refs a f + 1));
  decrease_law a f : used a f → ∃ a', decrease_count f a = Ok (tt, a') ∧ counted refs used room a a' f (s8 (refs a f - 1));
  get_count_law a f : used a f → get_count f a = Ok (refs a f, a)
}.

(** ** Address spaces

    A directory gives every user address the entry of its page. *)
Definition user_entry (e : Z) : bool := has e PAGE_PRESENT && has e PAGE_USER.
Definition walk (fr : Z → Z → Z) (d v : Z) : option Z :=
  let e := fr d (pd_index v) in
  if user_entry e then let t := fr (frame_of e) (pt_index v) in if has t PAGE_PRESENT then Some t else None else None.
Definition word_index (v : Z) : Z := Z.shiftr (Z.land v 4095) 2.
Definition load (fr : Z → Z → Z) (d v : Z) : option Z := (λ t, fr (frame_of t) (word_index v)) <$> walk fr d v.

Section copying.
Context {A : Type} `{FL : FrameLaws A}.
Implicit Types (s : vmem A) (fr : Z → Z → Z) (a : A).

(** A page table in which the pages before [k] are read only. *)
Definition strip (k : Z) (t : Z → Z) : Z → Z := λ i, if (0 <=? i) && (i <? k) && has (t i) PAGE_PRESENT then read_only (t i) else t i.
Lemma strip_0 t i : strip 0 t i = t i.
Proof. unfold strip. destruct (Z.leb_spec 0 i), (Z.ltb_spec i 0); done || lia. Qed.
Lemma strip_S k t i : 0 <= k → strip (k + 1) t i = if (i =? k) && has (t k) PAGE_PRESENT then read_only (t k) else strip k t i.
Proof.
  intros Hk. unfold strip. destruct (Z.eqb_spec i k) as [->|].
  - rewrite (proj2 (Z.leb_le 0 k)), (proj2 (Z.ltb_lt k (k + 1))), (proj2 (Z.ltb_ge k k)) by lia. cbn. by destruct (has _ _).
  - destruct (Z.leb_spec 0 i), (Z.ltb_spec i (k + 1)), (Z.ltb_spec i k); done || lia.
Qed.
Lemma strip_twice t i : strip 1024 (strip 1024 t) i = strip 1024 t i.
Proof.
  unfold strip. destruct ((0 <=? i) && (i <? 1024)); cbn [andb]; [|done]. destruct (has (t i) PAGE_PRESENT) eqn:E; [|by rewrite E].
  destruct (read_only_has (t i)) as (-> & _). rewrite E. apply read_only_idem.
Qed.
Lemma strip_frame k t i : frame_of (strip k t i) = frame_of (t i) ∧ has (strip k t i) PAGE_PRESENT = has (t i) PAGE_PRESENT.
Proof. unfold strip. case_match; [|done]. by rewrite read_only_frame, (proj1 (read_only_has _)). Qed.

(** The pages of the entries before [n] of a table, and their counts raised by one. *)
Definition page_in (t : Z → Z) (n q : Z) : Prop := ∃ i, 0 <= i < n ∧ has (t i) PAGE_PRESENT = true ∧ frame_of (t i) = q.
Definition once (t : Z → Z) : Prop := ∀ i j, 0 <= i < 1024 → 0 <= j < 1024 → has (t i) PAGE_PRESENT = true → has (t j) PAGE_PRESENT = true →
  frame_of (t i) = frame_of (t j) → i = j.
Record raised (P : Z → Prop) (a a' : A) : Prop := {
  ra_in : ∀ q, P q → refs a' q = s8 (refs a q + 1);
  ra_out : ∀ q, ¬ P q → refs a' q = refs a q;
  ra_used : ∀ q, used a' q ↔ used a q;
  ra_room : ∀ n, room n a → room n a'
}.
Lemma raised_none (P : Z → Prop) a : (∀ q, ¬ P q) → raised P a a.
Proof. intros HP. split; try done. intros q Hq. by destruct (HP q). Qed.
Lemma raised_one (P P' : Z → Prop) f a a1 a2 : raised P a a1 → ¬ P f → (∀ q, P' q ↔ P q ∨ q = f) →
  counted refs used room a1 a2 f (s8 (refs a1 f + 1)) → raised P' a a2.
Proof.
  intros R Hf HP (C1 & C2 & C3 & C4). split.
  - intros q [Hq| ->]%HP; [|by rewrite C1, (ra_out _ _ _ R)]. rewrite C2; [by apply R|]. by intros ->.
  - intros q Hq. rewrite HP in Hq. rewrite C2 by tauto. apply R. tauto.
  - intros q. by rewrite C3, (ra_used _ _ _ R).
  - intros n Hn. by apply C4, R.
Qed.

Lemma pg_table_cow_ok s0 fr a f s e (inc : bool) : window s0 fr a f s → is_u32 e → let T := frame_of e in
  once (fr T) → (∀ i, 0 <= i < 1024 → has (fr T i) PAGE_PRESENT = true → used a (frame_of (fr T i))) →
  wp (pg_table_cow e inc) (λ _ s', ∃ a', window s0 (put_frame T (strip 1024 (fr T)) fr) a' f s' ∧
    raised (λ q, inc = true ∧ page_in (fr T) 1024 q) a a' ∧ (inc = false → a' = a)) s.
Proof.
  intros W He T Honce Hused. unfold pg_table_cow. wp_step. eapply wp_get_tmp; [exact W|]. wp_step.
  eapply wp_map_tmp; [exact W|by apply aligned_frame_of|]. intros s1 W1. wp_step. fold T in W1.
  eapply (wp_for_range (λ k s', ∃ a', window s0 (put_frame T (strip k (fr T)) fr) a' T s' ∧
    raised (λ q, inc = true ∧ page_in (fr T) k q) a a' ∧ (inc = false → a' = a))).
  - exists a. split_and!; [| |done].
    + eapply window_ext; [exact W1|]. intros g i. unfold put_frame. destruct (Z.eqb_spec g T) as [->|]; [by rewrite strip_0|done].
    + apply raised_none. intros q (_ & i & Hi & _). lia.
  - intros k s2 Hk (a2 & W2 & R2 & N2). wp_step. eapply wp_tmp_read; [exact W2|]. intros s3 W3. assert (put_frame T (strip k (fr T)) fr T k = fr T k) as ->.
    { unfold put_frame, strip. by rewrite Z.eqb_refl, (Z.ltb_irrefl k), andb_false_r. }
    assert (∀ q, (inc = true ∧ page_in (fr T) (k + 1) q) ↔
      (inc = true ∧ page_in (fr T) k q) ∨ (inc = true ∧ q = frame_of (fr T k) ∧ has (fr T k) PAGE_PRESENT = true)) as Hpage.
    { intros q. split.
      - intros (Hinc & i & Hi & Hp & Hq). destruct (decide (i = k)) as [->|]; [by right|]. left. split; [done|]. exists i. split; [lia|done].
      - intros [(Hinc & i & Hi & Hp)|(Hinc & -> & Hp)]; (split; [done|]); [exists i; split; [lia|done]|exists k; split; [lia|done]]. }
    assert (∀ g i, put_word T k (read_only (fr T k)) (put_frame T (strip k (fr T)) fr) g i =
      if has (fr T k) PAGE_PRESENT then put_frame T (strip (k + 1) (fr T)) fr g i else put_word T k (read_only (fr T k)) (put_frame T (strip k (fr T)) fr) g i) as Hput.
    { intros g i. destruct (has (fr T k) PAGE_PRESENT) eqn:Hp; [|done]. unfold put_word, put_frame.
      destruct (Z.eqb_spec g T); [|done]. rewrite strip_S, Hp, andb_true_r by lia. by destruct (i =? k). }
    apply wp_when; intros Hp.
    + wp_step. eapply wp_tmp_write; [exact W3|]. intros s4 W4. rewrite Hp in Hput. fold (read_only (fr T k)) in W4 |- *.
      eapply window_ext in W4; [|exact Hput]. apply wp_when; intros Hinc.
      * eapply wp_in_pages; [exact W4|]. rewrite read_only_frame.
        destruct (increase_law a2 (frame_of (fr T k))) as (a3 & Ra & Ca); [by apply R2, Hused|]. exists tt, a3. split; [done|].
        intros s5 W5. exists a3. split; [done|]. split; [|congruence]. eapply (raised_one _ _ (frame_of (fr T k)) a a2 a3 R2); [| |exact Ca].
        -- intros (_ & i & Hi & Hpi & E). assert (i = k); [|lia]. apply Honce; try done; lia.
        -- intros q. rewrite Hpage, Hp. tauto.
      * exists a2. split; [done|]. split; [|done]. destruct R2. split; try done; intros q Hq; [|by apply ra_out0; intros [??]; congruence]. destruct Hq. congruence.
    + exists a2. split.
      * eapply window_ext; [exact W3|]. intros g i. unfold put_frame. destruct (g =? T); [|done]. rewrite strip_S, Hp, andb_false_r by lia. done.
      * split; [|done]. destruct R2. assert (∀ q, (inc = true ∧ page_in (fr T) (k + 1) q) ↔ (inc = true ∧ page_in (fr T) k q)) as E.
        { intros q. rewrite Hpage, Hp. naive_solver. }
        split; try done; intros q Hq; [apply ra_in0|apply ra_out0]; by rewrite <-E.
  - intros s2 (a2 & W2 & R2 & N2). eapply wp_map_tmp; [exact W2|apply W|]. intros s3 W3. by exists a2.
Qed.

Lemma copy_page_table_ok to from s0 fr a f s : window s0 fr a f s → aligned to → aligned from →
  wp (copy_page_table to from) (λ _ s', window s0 (put_frame to (fr from) fr) a f s') s.
Proof.
  intros W Ht Hf. unfold copy_page_table. wp_step. eapply wp_get_tmp; [exact W|]. wp_step. eapply wp_map_tmp; [exact W|done|]. intros s1 W1.
  wp_step. eapply wp_tmp_read_page; [exact W1|]. intros p s2 W2 Hp. wp_step. eapply wp_map_tmp; [exact W2|done|]. intros s3 W3.
  wp_step. eapply wp_tmp_write_page; [exact W3|]. intros s4 W4. eapply wp_map_tmp; [exact W4|apply W|]. intros s5 W5.
  eapply window_ext; [exact W5|]. intros g i. unfold put_frame. by destruct (g =? to).
Qed.

(** A directory, its tables and its pages are different frames, all handed out, and no page is
    mapped twice. *)
Record space a fr (d : Z) : Prop := {
  sp_words : ∀ g i, is_u32 (fr g i);
  sp_dir : used a d;
  sp_table : ∀ k, 0 <= k < 1024 → user_entry (fr d k) = true → used a (frame_of (fr d k)) ∧ frame_of (fr d k) ≠ d;
  sp_apart : ∀ k k', 0 <= k < 1024 → 0 <= k' < 1024 → user_entry (fr d k) = true → user_entry (fr d k') = true →
    frame_of (fr d k) = frame_of (fr d k') → k = k';
  sp_page : ∀ k i, 0 <= k < 1024 → user_entry (fr d k) = true → 0 <= i < 1024 → has (fr (frame_of (fr d k)) i) PAGE_PRESENT = true →
    let q := frame_of (fr (frame_of (fr d k)) i) in used a q ∧ q ≠ d ∧ ∀ k', 0 <= k' < 1024 → user_entry (fr d k') = true → q ≠ frame_of (fr d k');
  sp_once : ∀ k i k' i', 0 <= k < 1024 → user_entry (fr d k) = true → 0 <= i < 1024 → 0 <= k' < 1024 → user_entry (fr d k') = true → 0 <= i' < 1024 →
    has (fr (frame_of (fr d k)) i) PAGE_PRESENT = true → has (fr (frame_of (fr d k')) i') PAGE_PRESENT = true →
    frame_of (fr (frame_of (fr d k)) i) = frame_of (fr (frame_of (fr d k')) i') → k = k' ∧ i = i'
}.
(** The page of an entry of a table of the space, among the tables before [n]. *)
Definition page_of_space fr (d n q : Z) : Prop := ∃ k, 0 <= k < n ∧ user_entry (fr d k) = true ∧ page_in (fr (frame_of (fr d k))) 1024 q.

Section fork.
Context (s0 : vmem A) (D : Z → Z → Z) (a0 : A) (from to : Z).
Hypothesis SP : space a0 D from.
Hypothesis Hto : used a0 to ∧ to ≠ from ∧ (∀ k, 0 <= k < 1024 → user_entry (D from k) = true → to ≠ frame_of (D from k)) ∧
  ¬ page_of_space D from 1024 to.
Abbreviation user k := (user_entry (D from k)).
Abbreviation table k := (frame_of (D from k)).

(** The frames when the entries before [k] of the new directory have been treated. *)
Record child_done (k : Z) fr : Prop := {
  cd_dir : ∀ j, fr to j = if (0 <=? j) && (j <? k) && user j then read_only (D from j) else D from j;
  cd_table : ∀ j i, 0 <= j < k → user j = true → fr (table j) i = strip 1024 (D (table j)) i;
  cd_other : ∀ g i, g ≠ to → (∀ j, 0 <= j < k → user j = true → g ≠ table j) → fr g i = D g i
}.
Lemma cow_child_ok k fr s : 0 <= k < 1024 → window s0 fr a0 to s → child_done k fr →
  wp (cow_child k) (λ _ s', ∃ fr', window s0 fr' a0 to s' ∧ child_done (k + 1) fr') s.
Proof.
  intros Hk W C. unfold cow_child. wp_step. eapply wp_tmp_read; [exact W|]. intros s1 W1.
  rewrite (cd_dir _ _ C), (Z.ltb_irrefl k), andb_false_r. cbn [andb]. fold (user_entry (D from k)).
  destruct Hto as (Hto1 & Hto2 & Hto3 & Hto4).
  apply wp_when; intros Hu.
  - destruct (sp_table _ _ _ SP k Hk Hu) as [Hut Htf].
    assert (∀ i, fr (table k) i = D (table k) i) as Efr.
    { intros i. apply (cd_other _ _ C); [apply not_eq_sym; by apply Hto3|]. intros j Hj Hu' E. assert (k = j); [|lia].
      apply (sp_apart _ _ _ SP); try done; lia. }
    wp_step. eapply wp_mono; [eapply (pg_table_cow_ok s0 fr a0 to s1 (D from k) false W1 ltac:(apply SP))|].
    { intros i j Hi Hj. rewrite !Efr. intros Hpi Hpj E. by apply (sp_once _ _ _ SP k i k j). }
    { intros i Hi. rewrite Efr. intros Hp. by apply (sp_page _ _ _ SP k i). }
    intros [] s2 (a2 & W2 & _ & E2). rewrite (E2 eq_refl) in W2. wp_step. eapply wp_tmp_read; [exact W2|]. intros s3 W3.
    assert (put_frame (table k) (strip 1024 (fr (table k))) fr to k = D from k) as ->.
    { unfold put_frame. rewrite (proj2 (Z.eqb_neq to (table k))) by (by apply Hto3). by rewrite (cd_dir _ _ C), (Z.ltb_irrefl k), andb_false_r. }
    eapply wp_tmp_write; [exact W3|]. intros s4 W4. eexists. split; [exact W4|]. fold (read_only (D from k)). split.
    + intros j. unfold put_word, put_frame. rewrite Z.eqb_refl, (proj2 (Z.eqb_neq to (table k))) by (by apply Hto3). rewrite (cd_dir _ _ C).
      destruct (Z.eqb_spec j k) as [->|].
      * rewrite (proj2 (Z.leb_le 0 k)), (proj2 (Z.ltb_lt k (k + 1))), Hu by lia. done.
      * destruct (Z.leb_spec 0 j), (Z.ltb_spec j (k + 1)), (Z.ltb_spec j k); done || lia.
    + intros j i Hj Hu'. unfold put_word, put_frame. rewrite (proj2 (Z.eqb_neq (table j) to)) by (apply not_eq_sym, Hto3; [lia|done]). cbn [andb].
      destruct (Z.eqb_spec (table j) (table k)) as [E|E].
      * assert (j = k) as -> by (apply (sp_apart _ _ _ SP); try done; lia). unfold strip. by rewrite !Efr.
      * apply (cd_table _ _ C); [|done]. assert (j ≠ k) by (by intros ->). lia.
    + intros g i Hg Hne. unfold put_word, put_frame. rewrite (proj2 (Z.eqb_neq g to)) by done. cbn [andb].
      rewrite (proj2 (Z.eqb_neq g (table k))) by (apply Hne; [lia|done]). apply (cd_other _ _ C); [done|]. intros j Hj. apply Hne. lia.
  - exists fr. split; [done|]. split.
    + intros j. rewrite (cd_dir _ _ C). destruct (decide (j = k)) as [->|].
      * rewrite Hu, !andb_false_r. done.
      * destruct (Z.leb_spec 0 j), (Z.ltb_spec j (k + 1)), (Z.ltb_spec j k); done || lia.
    + intros j i Hj Hu'. apply (cd_table _ _ C); [|done]. assert (j ≠ k) by (intros ->; congruence). lia.
    + intros g i Hg Hne. apply (cd_other _ _ C); [done|]. intros j Hj. apply Hne. lia.
Qed.

(** The frames [fr] and the allocator [a] when the entries before [k] of the old directory have been
    treated, from the frames [E]; [new j] is the new table of entry [j]. *)
Record parent_done (E : Z → Z → Z) (k : Z) (new : Z → Z) fr a : Prop := {
  pd_dir : ∀ j, 0 <= j < 1024 → fr from j = if (j <? k) && user j then read_only (Z.lor (new j) (flags_of (D from j))) else D from j;
  pd_table : ∀ j i, 0 <= j < k → user j = true → fr (new j) i = strip 1024 (D (table j)) i;
  pd_other : ∀ g i, g ≠ from → (∀ j, 0 <= j < k → user j = true → g ≠ new j) → fr g i = E g i;
  pd_new : ∀ j, 0 <= j < k → user j = true → aligned (new j) ∧ (¬ used a0 (new j)) ∧ refs a (new j) = 1;
  pd_inj : ∀ i j, 0 <= i < k → 0 <= j < k → user i = true → user j = true → new i = new j → i = j;
  pd_used : ∀ q, used a q ↔ used a0 q ∨ ∃ j, 0 <= j < k ∧ user j = true ∧ q = new j;
  pd_in : ∀ q, page_of_space D from k q → refs a q = s8 (refs a0 q + 1);
  pd_out : ∀ q, used a0 q → ¬ page_of_space D from k q → refs a q = refs a0 q;
  pd_room : room (Z.to_nat (1025 - k)) a
}.
Lemma page_of_space_S k q : 0 <= k →
  page_of_space D from (k + 1) q ↔ page_of_space D from k q ∨ (user k = true ∧ page_in (D (table k)) 1024 q).
Proof.
  intros Hk. split.
  - intros (j & Hj & Hu & Hp). destruct (decide (j = k)) as [->|]; [by right|]. left. exists j. split; [lia|done].
  - intros [(j & Hj & Hu)|[Hu Hp]]; [exists j; split; [lia|done]|exists k; split; [lia|done]].
Qed.
Lemma page_of_space_used k q : k <= 1024 → page_of_space D from k q → used a0 q.
Proof. intros Hk (j & Hj & Hu & i & Hi & Hp & <-). apply (sp_page _ _ _ SP j i); done || lia. Qed.

(** One more user entry: [p] is its new table. *)
Lemma parent_done_user E k new fr a p a1 a2 fr3 : 0 <= k < 1024 → user k = true → parent_done E k new fr a →
  aligned p → (¬ used a p) → refs a1 p = 1 → (∀ q, used a1 q ↔ q = p ∨ used a q) → (∀ q, q ≠ p → refs a1 q = refs a q) →
  room (Z.to_nat (1025 - (k + 1))) a1 → raised (λ q, page_in (D (table k)) 1024 q) a1 a2 →
  (∀ j, fr3 from j = if j =? k then read_only (Z.lor p (flags_of (D from k))) else fr from j) →
  (∀ i, fr3 p i = strip 1024 (D (table k)) i) → (∀ g i, g ≠ from → g ≠ p → fr3 g i = fr g i) →
  parent_done E (k + 1) (λ j, if j =? k then p else new j) fr3 a2.
Proof.
  intros Hk Hu P Hpal Hpu Hp1 Hused1 Href1 Hroom1 R2 F1 F2 F3.
  assert (∀ q, used a0 q → used a q) as H0a by (intros q Hq; apply (pd_used _ _ _ _ _ P); by left).
  assert (∀ q, used a0 q → q ≠ p) as H0p by (intros q Hq ->; apply Hpu; by apply H0a).
  assert (∀ j, 0 <= j < k → user j = true → used a (new j) ∧ new j ≠ p) as Hnew.
  { intros j Hj Hu'. assert (used a (new j)) by (apply (pd_used _ _ _ _ _ P); right; by exists j). split; [done|]. by intros E'; rewrite E' in *. }
  assert (∀ q, page_in (D (table k)) 1024 q → used a0 q ∧ ¬ (page_of_space D from k q)) as Hpage.
  { intros q (i & Hi & Hp & <-). split; [by apply (sp_page _ _ _ SP k i)|]. intros (j & Hj & Hu' & i' & Hi' & Hp' & E').
    destruct (sp_once _ _ _ SP j i' k i); try done; lia. }
  assert (∀ j, 0 <= j < k + 1 → user j = true → ((j =? k) = true ∧ j = k) ∨ ((j =? k) = false ∧ 0 <= j < k)) as Hcase.
  { intros j Hj _. destruct (Z.eqb_spec j k); [by left|right; lia]. }
  split.
  - intros j Hj. rewrite F1. destruct (Z.eqb_spec j k) as [->|].
    + by rewrite (proj2 (Z.ltb_lt k (k + 1))), Hu by lia.
    + rewrite (pd_dir _ _ _ _ _ P) by done. destruct (Z.ltb_spec j (k + 1)), (Z.ltb_spec j k); done || lia.
  - intros j i Hj Hu'. destruct (Hcase j Hj Hu') as [[-> ->]|[-> Hj']]; [done|]. destruct (Hnew j Hj' Hu').
    rewrite F3; [by apply (pd_table _ _ _ _ _ P)| |done]. intros E'. destruct (pd_new _ _ _ _ _ P j Hj' Hu') as (_ & Hn & _). rewrite E' in Hn. by apply Hn, (sp_dir _ _ _ SP).
  - intros g i Hg Hne. pose proof (Hne k ltac:(lia) Hu) as Hgp. rewrite Z.eqb_refl in Hgp. rewrite F3 by done.
    apply (pd_other _ _ _ _ _ P); [done|]. intros j Hj Hu'. specialize (Hne j ltac:(lia) Hu'). by rewrite (proj2 (Z.eqb_neq j k)) in Hne by lia.
  - intros j Hj Hu'. destruct (Hcase j Hj Hu') as [[-> ->]|[-> Hj']].
    + split; [done|]. split; [intros Hp; by apply (H0p p)|]. rewrite (ra_out _ _ _ R2); [done|]. intros Hp. by apply Hpage in Hp as [? _]; apply (H0p p).
    + destruct (pd_new _ _ _ _ _ P j Hj' Hu') as (N1 & N2 & N3), (Hnew j Hj' Hu') as [N4 N5]. split; [done|]. split; [done|].
      rewrite (ra_out _ _ _ R2), Href1 by done || (intros Hp; by apply Hpage in Hp as [? _]). done.
  - intros i j Hi Hj Hui Huj. destruct (Hcase i Hi Hui) as [[-> ->]|[-> Hi']], (Hcase j Hj Huj) as [[-> ->]|[-> Hj']]; [done|..].
    + intros E'. by destruct (Hnew j Hj' Huj) as [_ []].
    + intros E'. by destruct (Hnew i Hi' Hui) as [_ []].
    + by apply (pd_inj _ _ _ _ _ P).
  - intros q. rewrite (ra_used _ _ _ R2), Hused1, (pd_used _ _ _ _ _ P). split.
    + intros [-> |[?|(j & Hj & Hu' & ->)]]; [right; exists k; rewrite Z.eqb_refl; split_and!; done || lia|by left|].
      right. exists j. rewrite (proj2 (Z.eqb_neq j k)) by lia. split_and!; done || lia.
    + intros [?|(j & Hj & Hu' & ->)]; [by right; left|]. destruct (Hcase j Hj Hu') as [[-> ->]|[-> Hj']]; [by left|right; right; by exists j].
  - intros q [Hq|[_ Hq]]%page_of_space_S; [| |lia].
    + pose proof (page_of_space_used k q ltac:(lia) Hq) as Hq0. rewrite (ra_out _ _ _ R2), Href1; [by apply (pd_in _ _ _ _ _ P)|by apply H0p|]. intros Hp. by apply Hpage in Hp as [_ ?].
    + destruct (Hpage q Hq) as [Hq0 Hqn]. rewrite (ra_in _ _ _ R2), Href1 by (done || by apply H0p). by rewrite (pd_out _ _ _ _ _ P).
  - intros q Hq Hn. rewrite page_of_space_S in Hn by lia. rewrite (ra_out _ _ _ R2), Href1; [apply (pd_out _ _ _ _ _ P); tauto|by apply H0p|tauto].
  - by apply R2.
Qed.
Lemma cow_parent_ok E k new fr a s : child_done 1024 E → 0 <= k < 1024 → window s0 fr a from s → parent_done E k new fr a →
  wp (cow_parent k) (λ _ s', ∃ new' fr' a', window s0 fr' a' from s' ∧ parent_done E (k + 1) new' fr' a') s.
Proof.
  intros CE Hk W P. destruct Hto as (Hto1 & Hto2 & Hto3 & Hto4). unfold cow_parent. wp_step. eapply wp_tmp_read; [exact W|]. intros s1 W1.
  assert (fr from k = D from k) as Efk by (rewrite (pd_dir _ _ _ _ _ P) by done; by rewrite (Z.ltb_irrefl k)).
  rewrite Efk. fold (user k).
  apply wp_when; intros Hu; cycle 1.
  { exists new, fr, a. split; [done|]. assert (∀ j, 0 <= j < k + 1 → user j = true → 0 <= j < k) as Hlow by (intros j Hj Hu'; assert (j ≠ k) by congruence; lia).
    assert (∀ q, page_of_space D from (k + 1) q ↔ page_of_space D from k q) as Hps by (intros q; rewrite page_of_space_S, Hu by lia; naive_solver).
    split.
    - intros j Hj. rewrite (pd_dir _ _ _ _ _ P) by done. destruct (decide (j = k)) as [->|]; [by rewrite Hu, !andb_false_r|].
      destruct (Z.ltb_spec j (k + 1)), (Z.ltb_spec j k); done || lia.
    - intros j i Hj Hu'. by apply (pd_table _ _ _ _ _ P); [apply Hlow|].
    - intros g i Hg Hne. apply (pd_other _ _ _ _ _ P); [done|]. intros j Hj. apply Hne. lia.
    - intros j Hj Hu'. by apply (pd_new _ _ _ _ _ P); [apply Hlow|].
    - intros i j Hi Hj Hui Huj. apply (pd_inj _ _ _ _ _ P); auto.
    - intros q. rewrite (pd_used _ _ _ _ _ P). split; (intros [?|(j & Hj & Hu' & ->)]; [by left|right; exists j]); [split; [lia|done]|split; [by apply Hlow|done]].
    - intros q. rewrite Hps. apply P.
    - intros q. rewrite Hps. apply P.
    - replace (Z.to_nat (1025 - k)) with (S (Z.to_nat (1025 - (k + 1)))) in * by lia. apply room_S.
      replace (S (Z.to_nat (1025 - (k + 1)))) with (Z.to_nat (1025 - k)) by lia. apply P. }
  assert (used a0 (table k) ∧ table k ≠ from) as [HuT HTf] by (by apply (sp_table _ _ _ SP)).
  assert (∀ j q, 0 <= j < k → user j = true → used a0 q → q ≠ new j) as Hnew by (intros j q Hj Hu' Hq ->; by apply (pd_new _ _ _ _ _ P) in Hu' as (_ & ? & _); [|done]).
  assert (∀ i, fr (table k) i = strip 1024 (D (table k)) i) as EfrT.
  { intros i. rewrite (pd_other _ _ _ _ _ P); [by apply (cd_table _ _ CE)|done|]. intros j Hj Hu'. by apply Hnew. }
  pose proof (pd_room _ _ _ _ _ P) as Hroom. replace (Z.to_nat (1025 - k)) with (S (Z.to_nat (1025 - (k + 1)))) in Hroom by lia.
  destruct (alloc_law _ a Hroom) as (p & a1 & Ra & Hpal & Hpu & Hp1 & Hused1 & Href1 & Hroom1).
  wp_step. eapply wp_in_pages; [exact W1|]. exists p, a1. split; [exact Ra|]. intros s2 W2.
  rewrite (proj2 (Z.eqb_neq p NO_FREE_PAGE)) by (destruct Hpal; unfold NO_FREE_PAGE; intros ->; done).
  wp_step. eapply wp_tmp_read; [exact W2|]. intros s3 W3. rewrite Efk.
  assert (∀ q, used a0 q → used a q) as H0a by (intros q Hq; apply (pd_used _ _ _ _ _ P); by left).
  assert (∀ q, used a0 q → q ≠ p) as H0p by (intros q Hq ->; apply Hpu; by apply H0a).
  pose proof (sp_words _ _ _ SP) as Hwords.
  wp_step. eapply wp_mono; [apply (copy_page_table_ok p (table k) s0 fr a1 from s3 W3 Hpal); by apply aligned_frame_of|]. intros [] s4 W4.
  set (fr1 := put_frame p (fr (table k)) fr) in W4.
  assert (∀ i, fr1 p i = strip 1024 (D (table k)) i) as E1 by (intros i; unfold fr1, put_frame; by rewrite Z.eqb_refl).
  assert (frame_of p = p) as Hfp by (by apply frame_of_aligned).
  assert (∀ q, page_in (fr1 p) 1024 q ↔ page_in (D (table k)) 1024 q) as Hpi.
  { intros q. split; intros (i & Hi & Hp & Hq); exists i; (split; [done|]); destruct (strip_frame 1024 (D (table k)) i) as [F1 F2];
      rewrite E1, ?F1, ?F2 in *; done. }
  wp_step. eapply wp_mono; [apply (pg_table_cow_ok s0 fr1 a1 from s4 p true W4); [apply Hpal|..]; rewrite Hfp|].
  { intros i j Hi Hj. destruct (strip_frame 1024 (D (table k)) i) as [F1 F2], (strip_frame 1024 (D (table k)) j) as [F3 F4].
    rewrite !E1, F1, F2, F3, F4. intros Hpi' Hpj E'. by apply (sp_once _ _ _ SP k i k j). }
  { intros i Hi. destruct (strip_frame 1024 (D (table k)) i) as [F1 F2]. rewrite !E1, F1, F2. intros Hp. apply Hused1. right. apply H0a.
    by apply (sp_page _ _ _ SP k i). }
  intros [] s5 (a2 & W5 & R2 & _). rewrite Hfp in W5, R2. set (fr2 := put_frame p (strip 1024 (fr1 p)) fr1) in W5.
  assert (from ≠ p) as Hfromp by (apply H0p, (sp_dir _ _ _ SP)).
  assert (∀ j, fr2 from j = fr from j) as E2 by (intros j; unfold fr2, fr1, put_frame; by rewrite (proj2 (Z.eqb_neq from p))).
  wp_step. eapply wp_tmp_read; [exact W5|]. intros s6 W6. rewrite E2, Efk.
  wp_step. eapply wp_tmp_write; [exact W6|]. intros s7 W7. wp_step. eapply wp_tmp_read; [exact W7|]. intros s8 W8.
  assert (put_word from k (Z.lor p (flags_of (D from k))) fr2 from k = Z.lor p (flags_of (D from k))) as -> by (unfold put_word; by rewrite !Z.eqb_refl).
  eapply wp_tmp_write; [exact W8|]. intros s9 W9. fold (read_only (Z.lor p (flags_of (D from k)))) in W9.
  exists (λ j, if j =? k then p else new j). eexists. exists a2. split; [exact W9|].
  eapply (parent_done_user E k new fr a p a1 a2); try done.
  - destruct R2 as [R2a R2b R2c R2d]. split; [intros q Hq|intros q Hq|done|done].
    + apply R2a. by rewrite Hpi.
    + apply R2b. rewrite Hpi. tauto.
  - intros j. unfold put_word. rewrite Z.eqb_refl. cbn [andb]. destruct (j =? k); [done|apply E2].
  - intros i. unfold put_word. rewrite (proj2 (Z.eqb_neq p from)) by done. cbn [andb]. unfold fr2, put_frame. rewrite Z.eqb_refl.
    rewrite <-(strip_twice (D (table k))). unfold strip at 1 3. by rewrite E1.
  - intros g i Hg Hgp. unfold put_word. rewrite (proj2 (Z.eqb_neq g from)) by done. cbn [andb]. unfold fr2, fr1, put_frame.
    by rewrite (proj2 (Z.eqb_neq g p)).
Qed.
End fork.

(** The window is put back to the frame that it had. *)
Definition old_tmp s : Z := frame_of (init_page_table s tmp_index).
Lemma wp_restore s0 fr a f s (Q : () → vmem A → Prop) : window s0 fr a f s → is_u32 (init_page_table s0 tmp_index) →
  (∀ s', window s0 fr a (old_tmp s0) s' → Q tt s') → wp (map_tmp (old_tmp s0)) Q s.
Proof. intros W Hu HQ. eapply wp_map_tmp; [exact W|by apply aligned_frame_of|done]. Qed.

Lemma copy_address_space_ok s pid from to : pid ≠ 0 → is_u32 (init_page_table s tmp_index) → space (pages s) (frames s) from →
  used (pages s) to ∧ to ≠ from ∧ (∀ k, 0 <= k < 1024 → user_entry (frames s from k) = true → to ≠ frame_of (frames s from k)) ∧
    ¬ (page_of_space (frames s) from 1024 to) → room 1025 (pages s) →
  wp (copy_address_space pid from to) (λ _ s', ∃ E new fr' a', window s fr' a' (old_tmp s) s' ∧
    child_done (frames s) from to 1024 E ∧ parent_done (frames s) (pages s) from E 1024 new fr' a') s.
Proof.
  intros Hpid Hu SP Hto Hroom. set (D := frames s) in *. set (a0 := pages s) in *. assert (aligned from) as Hfrom by apply (used_aligned a0), SP.
  assert (aligned to) as Htoa by apply (used_aligned a0), Hto. unfold copy_address_space. wp_step. apply wp_gets. fold (old_tmp s).
  wp_step. eapply wp_map_tmp_any; [done|]. intros s1 W1. wp_step. eapply wp_tmp_read_page; [exact W1|]. intros p s2 W2 Hp.
  wp_step. eapply wp_map_tmp; [exact W2|done|]. intros s3 W3. wp_step. eapply wp_tmp_write_page; [exact W3|]. intros s4 W4. fold D a0 in W4.
  rewrite (proj2 (Z.eqb_neq pid 0)) by done. wp_step. wp_step.
  eapply (wp_for_range (λ k s', ∃ fr, window s fr a0 to s' ∧ child_done D from to k fr)).
  { eexists. split; [exact W4|]. split.
    - intros j. unfold put_frame. rewrite Z.eqb_refl, Hp. destruct (Z.leb_spec 0 j), (Z.ltb_spec j 0); done || lia.
    - intros j i Hj. lia.
    - intros g i Hg _. unfold put_frame. by rewrite (proj2 (Z.eqb_neq g to)). }
  { intros k s5 Hk (fr & W5 & C5). eapply wp_mono; [by eapply (cow_child_ok s D a0 from to SP Hto k fr s5)|]. by intros [] s6 H6. }
  intros s5 (E & W5 & CE). wp_step. eapply wp_map_tmp; [exact W5|done|]. intros s6 W6.
  assert (∀ j, E from j = D from j) as EE.
  { intros j. apply (cd_other _ _ _ _ _ CE); [apply not_eq_sym, Hto|]. intros i Hi Hui. apply not_eq_sym. by apply (sp_table _ _ _ SP). }
  eapply (wp_for_range (λ k s', ∃ new fr a, window s fr a from s' ∧ parent_done D a0 from E k new fr a)).
  { exists (λ _, 0), E, a0. split; [done|]. split; try done.
    - intros j Hj. by rewrite (proj2 (Z.ltb_ge j 0)), EE by lia.
    - intros j i Hj. lia.
    - intros j Hj. lia.
    - intros i j Hi. lia.
    - intros q. split; [by left|]. intros [?|(j & Hj & _)]; [done|lia].
    - intros q (k & Hk & _). lia. }
  { intros k s7 Hk (new & fr & a & W7 & P7). eapply wp_mono; [by eapply (cow_parent_ok s D a0 from to SP Hto E k new fr a s7)|]. by intros [] s8 H8. }
  intros s7 (new & fr & a & W7 & P7). wp_step. eapply wp_restore; [exact W7|done|]. intros s8 W8. apply wp_modify.
  exists E, new, fr, a. split; [|done]. split; try apply W8. by left.
Qed.

(** ** A write to a page that is read only

    [made_writable]: the process in directory [d] may write the page at [addr], whose entry was [t]
    in the table [T]; the page is [q], which is [frame_of t] or a new frame with the same words. *)
Record made_writable a fr (d T t q addr : Z) a' fr' : Prop := {
  mw_dir : ∀ j, fr' d j = if j =? pd_index addr then Z.lor (fr d j) PAGE_WRITABLE else fr d j;
  mw_table : ∀ j, fr' T j = if j =? pt_index addr then Z.lor (Z.lor q (flags_of t)) PAGE_WRITABLE else fr T j;
  mw_page : ∀ i, fr' q i = fr (frame_of t) i;
  mw_other : ∀ g i, g ≠ d → g ≠ T → g ≠ q → fr' g i = fr g i;
  mw_aligned : aligned q;
  mw_fresh : if 1 <? refs a (frame_of t) then ¬ used a q ∧ refs a' (frame_of t) = refs a (frame_of t) - 1 else q = frame_of t ∧ a' = a
}.
Lemma lor_frame_flags t : is_u32 t → Z.lor (frame_of t) (flags_of t) = t.
Proof.
  intros Ht. rewrite lor_flags; [|by apply aligned_frame_of|rewrite flags_of_spec; lia]. rewrite frame_of_spec, flags_of_spec by done. lia.
Qed.
Lemma back_to_user s0 fr a f s addr : window s0 fr a f s → is_u32 (init_page_table s0 tmp_index) →
  wp (tlb_flush addr ;; map_tmp (old_tmp s0) ;; reload_cr3 ;; mret Resumed) (λ r s', r = Resumed ∧ window s0 fr a (old_tmp s0) s') s.
Proof.
  intros W Hu. wp_step. apply wp_modify. set (s1 := if frame_of addr =? VIRT_ADDR_TMP_PAGE then s <| tlb := None |> else s).
  assert (window s0 fr a f s1) as W1 by (unfold s1; case_match; [split; try apply W; by left|done]).
  wp_step. eapply wp_restore; [exact W1|done|]. intros s2 W2. wp_step. apply wp_modify, wp_ret. split; [done|]. split; try apply W2. by left.
Qed.
Lemma page_set_writable_ok s addr t : let fr := frames s in let a := pages s in let d := cr3 s in
  let T := frame_of (fr d (pd_index addr)) in let q := frame_of t in
  is_u32 (init_page_table s tmp_index) → is_u32 addr → is_u32 t → walk fr d addr = Some t →
  used a d → used a T → used a q → T ≠ d → q ≠ d → q ≠ T → room 1 a → refs a q <= 127 →
  wp (page_set_writable addr) (λ r s', r = Resumed ∧ ∃ q' fr' a', window s fr' a' (old_tmp s) s' ∧ made_writable a fr d T t q' addr a' fr') s.
Proof.
  intros fr a d T q Hu Haddr Htu Hwalk Hd HT Hq HTd Hqd HqT Hroom Hrefs.
  unfold walk in Hwalk. fold T in Hwalk. destruct (user_entry (fr d (pd_index addr))) eqn:Hue; [|done].
  destruct (has (fr T (pt_index addr)) PAGE_PRESENT) eqn:Hpt; [|done]. injection Hwalk as Ht.
  apply andb_prop in Hue as [Hdp _].
  unfold page_set_writable. wp_step. apply wp_gets. fold (old_tmp s). wp_step. apply wp_modify.
  rewrite (proj2 (Z.eqb_eq (frame_of VIRT_ADDR_TMP_PAGE) VIRT_ADDR_TMP_PAGE) eq_refl).
  set (s1 := s <| tlb := None |>). wp_step. apply wp_gets. change (cr3 s1) with d.
  wp_step. eapply wp_map_tmp_any; [by apply (used_aligned a)|]. intros s2 W2.
  assert (window s fr a d s2) as W2' by (split; apply W2). clear W2.
  wp_step. eapply wp_tmp_read; [exact W2'|]. intros s3 W3. rewrite Hdp. cbn [negb].
  wp_step. eapply wp_tmp_write; [exact W3|]. intros s4 W4. fold T. wp_step. eapply wp_map_tmp; [exact W4|by apply (used_aligned a)|]. intros s5 W5.
  set (e := Z.lor (fr d (pd_index addr)) PAGE_WRITABLE) in *. set (fr1 := put_word d (pd_index addr) e fr) in *.
  assert (∀ i, fr1 T i = fr T i) as E1 by (intros i; unfold fr1, put_word; by rewrite (proj2 (Z.eqb_neq T d))).
  wp_step. eapply wp_tmp_read; [exact W5|]. intros s6 W6. rewrite E1, Hpt, Ht. cbn [negb]. fold q.
  wp_step. eapply wp_in_pages; [exact W6|]. exists (refs a q), a. split; [by apply get_count_law|]. intros s7 W7.
  wp_step. eapply (wp_mono _ (λ _ s', ∃ q' fr' a' g, window s fr' a' g s' ∧ made_writable a fr d T t q' addr a' fr')); cycle 1.
  { intros [] s8 (q' & fr' & a' & g & W8 & MW). eapply wp_mono; [by eapply back_to_user|]. intros r s9 [-> W9]. split; [done|]. by exists q', fr', a'. }
  assert (aligned q) as Hqa by (by apply (used_aligned a)).
  destruct (Z.ltb_spec 1 (refs a q)) as [Hshared|Hown]; cycle 1.
  - wp_step. eapply wp_tmp_read; [exact W7|]. intros s8 W8. rewrite E1, Ht. eapply wp_tmp_write; [exact W8|]. intros s9 W9.
    exists q. eexists. exists a, T. split; [exact W9|]. split.
    + intros j. unfold put_word at 1. rewrite (proj2 (Z.eqb_neq d T)) by done. cbn [andb]. unfold fr1, put_word, e. rewrite Z.eqb_refl. cbn [andb].
      by destruct (Z.eqb_spec j (pd_index addr)) as [->|].
    + intros j. unfold put_word at 1. rewrite Z.eqb_refl, E1. unfold q. by rewrite lor_frame_flags.
    + intros i. unfold fr1, put_word. by rewrite (proj2 (Z.eqb_neq q T)), (proj2 (Z.eqb_neq q d)) by done.
    + intros g i Hgd HgT _. unfold fr1, put_word. by rewrite (proj2 (Z.eqb_neq g T)), (proj2 (Z.eqb_neq g d)) by done.
    + done.
    + fold q. by rewrite (proj2 (Z.ltb_ge 1 (refs a q))) by lia.
  - destruct (alloc_law 0 a Hroom) as (p & a1 & Ra & Hpal & Hpu & Hp1 & Hused1 & Href1 & _).
    assert (∀ g, used a g → g ≠ p) as Hup by (intros g Hg ->; done).
    wp_step. eapply wp_in_pages; [exact W7|]. exists p, a1. split; [exact Ra|]. intros s8 W8.
    rewrite (proj2 (Z.eqb_neq p NO_FREE_PAGE)) by (destruct Hpal; unfold NO_FREE_PAGE; intros ->; done).
    wp_step. eapply wp_tmp_write; [exact W8|]. intros s9 W9.
    set (fr2 := put_word T (pt_index addr) (Z.lor (Z.lor p (flags_of t)) PAGE_WRITABLE) fr1) in *.
    destruct (decrease_law a1 q) as (a2 & Rd & C1 & C2 & C3 & C4); [apply Hused1; by right|].
    wp_step. eapply wp_in_pages; [exact W9|]. exists tt, a2. split; [exact Rd|]. intros s10 W10.
    wp_step. eapply wp_map_tmp; [exact W10|done|]. intros s11 W11. wp_step. eapply wp_tmp_read_page; [exact W11|]. intros w s12 W12 Hpw.
    wp_step. eapply wp_map_tmp; [exact W12|done|]. intros s13 W13. wp_step. eapply wp_tmp_write_page; [exact W13|]. intros s14 W14.
    wp_step. eapply wp_in_pages; [exact W14|]. exists (refs a2 q), a2. split; [apply get_count_law, C3, Hused1; by right|]. intros s15 W15.
    assert (refs a2 q = refs a q - 1) as Eq2 by (rewrite C1, Href1 by (by apply Hup); unfold Prelude.s8; lia).
    rewrite (proj2 (Z.eqb_neq (refs a2 q) 0)) by lia. apply wp_ret. exists p, (put_frame p w fr2), a2, p. split; [done|]. split.
    + intros j. unfold put_frame. rewrite (proj2 (Z.eqb_neq d p)) by (by apply Hup). unfold fr2, fr1, put_word, e.
      rewrite (proj2 (Z.eqb_neq d T)) by done. rewrite Z.eqb_refl. cbn [andb]. by destruct (Z.eqb_spec j (pd_index addr)) as [->|].
    + intros j. unfold put_frame. rewrite (proj2 (Z.eqb_neq T p)) by (by apply Hup). unfold fr2, put_word at 1. by rewrite Z.eqb_refl, E1.
    + intros i. unfold put_frame. rewrite Z.eqb_refl, Hpw. unfold fr2, fr1, put_word.
      fold q. by rewrite (proj2 (Z.eqb_neq q T)), (proj2 (Z.eqb_neq q d)) by done.
    + intros g i Hgd HgT Hgp. unfold put_frame. rewrite (proj2 (Z.eqb_neq g p)) by done. unfold fr2, fr1, put_word.
      by rewrite (proj2 (Z.eqb_neq g T)), (proj2 (Z.eqb_neq g d)) by done.
    + done.
    + fold q. rewrite (proj2 (Z.ltb_lt 1 (refs a q))) by done. by rewrite Eq2.
Qed.

(** ** Two processes after a fork

    [mirror fr a d tb]: the directory [d], with the tables [tb], shows the pages that the space of
    [from] had in the frames [D], read only. *)
Section isolation.
Context (D : Z → Z → Z) (a0 : A) (from to : Z).
Hypothesis SP : space a0 D from.
Hypothesis Hto : used a0 to ∧ to ≠ from ∧ (∀ k, 0 <= k < 1024 → user_entry (D from k) = true → to ≠ frame_of (D from k)) ∧
  ¬ (page_of_space D from 1024 to).
Abbreviation user k := (user_entry (D from k)).
Abbreviation table k := (frame_of (D from k)).

Record mirror fr a (d : Z) (tb : Z → Z) : Prop := {
  mi_entry : ∀ k, 0 <= k < 1024 → user_entry (fr d k) = user k ∧ (user k = true → frame_of (fr d k) = tb k);
  mi_table : ∀ k i, 0 <= k < 1024 → user k = true → fr (tb k) i = strip 1024 (D (table k)) i;
  mi_page : ∀ q i, page_of_space D from 1024 q → fr q i = D q i;
  mi_inj : ∀ i j, 0 <= i < 1024 → 0 <= j < 1024 → user i = true → user j = true → tb i = tb j → i = j;
  mi_used : used a d ∧ ∀ k, 0 <= k < 1024 → user k = true → used a (tb k) ∧ tb k ≠ d;
  mi_apart : ∀ q, page_of_space D from 1024 q → used a q ∧ q ≠ d ∧ ∀ k, 0 <= k < 1024 → user k = true → q ≠ tb k;
  mi_refs : ∀ q, page_of_space D from 1024 q → refs a q = s8 (refs a0 q + 1)
}.
Lemma walk_page v t : is_u32 v → walk D from v = Some t → let k := pd_index v in
  0 <= k < 1024 ∧ user k = true ∧ D (table k) (pt_index v) = t ∧ has t PAGE_PRESENT = true ∧ page_of_space D from 1024 (frame_of t).
Proof.
  intros Hv Hw k. pose proof (pd_index_range v Hv) as Hk. fold k in Hk. unfold walk in Hw. fold k in Hw. destruct (user k) eqn:Hu; [|done].
  destruct (has (D (table k) (pt_index v)) PAGE_PRESENT) eqn:Hp; [|done]. injection Hw as <-. split_and!; try done; try lia.
  exists k. split_and!; try done; try lia. exists (pt_index v). split_and!; try done; apply pt_index_range.
Qed.
Lemma mirror_walk fr a d tb v : mirror fr a d tb → is_u32 v → walk fr d v = read_only <$> walk D from v.
Proof.
  intros M Hv. pose proof (pd_index_range v Hv) as Hk. pose proof (pt_index_range v) as Hi. unfold walk. destruct (mi_entry _ _ _ _ M _ Hk) as [-> He].
  destruct (user (pd_index v)) eqn:Hu; [|done]. rewrite He, (mi_table _ _ _ _ M) by done. rewrite (proj2 (strip_frame _ _ _)).
  destruct (has _ PAGE_PRESENT) eqn:Hp; [|done]. cbn. f_equal. unfold strip. rewrite Hp.
  by rewrite (proj2 (Z.leb_le 0 (pt_index v))), (proj2 (Z.ltb_lt (pt_index v) 1024)) by lia.
Qed.
Lemma mirror_load fr a d tb v : mirror fr a d tb → is_u32 v → load fr d v = load D from v.
Proof.
  intros M Hv. unfold load. rewrite (mirror_walk _ _ _ _ _ M Hv). destruct (walk D from v) as [t|] eqn:E; [|done]. cbn. f_equal.
  rewrite read_only_frame. apply (mi_page _ _ _ _ M). by apply (walk_page v t).
Qed.
Lemma mirror_page fr a d tb addr t : mirror fr a d tb → is_u32 addr → walk fr d addr = Some t → let k := pd_index addr in
  0 <= k < 1024 ∧ user k = true ∧ frame_of (fr d k) = tb k ∧ fr (tb k) (pt_index addr) = t ∧ is_u32 t ∧ has t PAGE_PRESENT = true ∧
  page_of_space D from 1024 (frame_of t).
Proof.
  intros M Ha Hw k. rewrite (mirror_walk _ _ _ _ _ M Ha) in Hw. destruct (walk D from addr) as [t0|] eqn:E0; [|done]. injection Hw as <-.
  destruct (walk_page addr t0 Ha E0) as (Hk & Hu & Ht & Hp & Hps). fold k in Hk, Hu, Ht. destruct (mi_entry _ _ _ _ M k Hk) as [_ He].
  split_and!; try done; try lia; auto.
  - rewrite (mi_table _ _ _ _ M) by done. unfold strip. pose proof (pt_index_range addr).
    by rewrite (proj2 (Z.leb_le 0 _)), (proj2 (Z.ltb_lt _ 1024)), Ht, Hp by lia.
  - rewrite <-Ht. apply read_only_u32, SP.
  - by rewrite (proj1 (read_only_has t0)).
  - by rewrite read_only_frame.
Qed.
Lemma mirror_ext fr fr' a d tb : (∀ g i, fr' g i = fr g i) → mirror fr a d tb → mirror fr' a d tb.
Proof. intros E M. split; try apply M; intros *; rewrite ?E; apply M. Qed.
(** What a directory shows depends on the directory, its tables and its pages alone. *)
Lemma mirror_frame fr fr' a d tb v : mirror fr a d tb → is_u32 v → (∀ i, fr' d i = fr d i) →
  (∀ k i, 0 <= k < 1024 → user k = true → fr' (tb k) i = fr (tb k) i) → (∀ q i, page_of_space D from 1024 q → fr' q i = fr q i) →
  load fr' d v = load D from v.
Proof.
  intros M Hv Hd Ht Hp. apply (mirror_load fr' a d tb v); [|done]. split; try apply M.
  - intros k. rewrite Hd. apply M.
  - intros k i Hk Hu. rewrite Ht by done. by apply M.
  - intros q i Hq. rewrite Hp by done. by apply M.
Qed.

Definition separate (d : Z) (tb : Z → Z) (o : Z) (tbo : Z → Z) : Prop := d ≠ o ∧
  (∀ k, 0 <= k < 1024 → user k = true → tb k ≠ o ∧ d ≠ tbo k) ∧
  ∀ k k', 0 <= k < 1024 → 0 <= k' < 1024 → user k = true → user k' = true → tb k ≠ tbo k'.
Lemma separate_sym d tb o tbo : separate d tb o tbo → separate o tbo d tb.
Proof.
  intros (S1 & S2 & S3). split; [by apply not_eq_sym|]. split.
  - intros k Hk Hu. destruct (S2 k Hk Hu). split; by apply not_eq_sym.
  - intros k k' Hk Hk' Hu Hu'. apply not_eq_sym. by apply S3.
Qed.
Lemma writable_entry e : user_entry (Z.lor e PAGE_WRITABLE) = user_entry e ∧ frame_of (Z.lor e PAGE_WRITABLE) = frame_of e ∧
  has (Z.lor e PAGE_WRITABLE) PAGE_PRESENT = has e PAGE_PRESENT ∧ has (Z.lor e PAGE_WRITABLE) PAGE_WRITABLE = true.
Proof.
  unfold user_entry. rewrite !has_present, !has_user, has_writable, !Z.lor_spec. change (Z.testbit PAGE_WRITABLE 0) with false.
  change (Z.testbit PAGE_WRITABLE 2) with false. change (Z.testbit PAGE_WRITABLE 1) with true. rewrite !orb_false_r, orb_true_r. split; [done|].
  split; [|done]. unfold frame_of. rewrite Z.land_lor_distr_l. change (Z.land PAGE_WRITABLE FRAME_MASK) with 0. apply Z.lor_0_r.
Qed.

Section write.
Context (fr : Z → Z → Z) (a : A) (d : Z) (tb : Z → Z) (addr t q : Z) (a' : A) (fr' : Z → Z → Z).
Hypothesis M : mirror fr a d tb.
Hypothesis Haddr : is_u32 addr.
Hypothesis Hwalk : walk fr d addr = Some t.
Hypothesis MW : made_writable a fr d (tb (pd_index addr)) t q addr a' fr'.
Hypothesis Hfresh : ¬ used a q.

Lemma write_frame g i : used a g → g ≠ d → g ≠ tb (pd_index addr) → fr' g i = fr g i.
Proof. intros Hg Hd HT. apply (mw_other _ _ _ _ _ _ _ _ _ MW); [done|done|]. by intros ->. Qed.
(** The other process, and what is stored in the page afterwards. *)
Lemma write_isolated o tbo x w v : mirror fr a o tbo → separate d tb o tbo → is_u32 v → load (put_word q w x fr') o v = load D from v.
Proof.
  intros Mo (S1 & S2 & S3) Hv. destruct (mirror_page _ _ _ _ _ _ M Haddr Hwalk) as (Hk & Hu & _).
  assert (∀ g i, used a g → g ≠ d → g ≠ tb (pd_index addr) → put_word q w x fr' g i = fr g i) as Hfr.
  { intros g i Hg Hd HT. unfold put_word. rewrite (proj2 (Z.eqb_neq g q)) by (by intros ->). by apply write_frame. }
  apply (mirror_frame fr _ a o tbo v Mo Hv).
  - intros i. apply Hfr; [apply Mo|by apply not_eq_sym|apply not_eq_sym; by apply S2].
  - intros k i Hk' Hu'. apply Hfr; [by apply Mo|by apply not_eq_sym, S2|by apply not_eq_sym, S3].
  - intros p i Hp. destruct (mi_apart _ _ _ _ M p Hp) as (? & ? & ?). apply Hfr; auto.
Qed.
Lemma write_keeps_own v : is_u32 v → load fr' d v = load D from v.
Proof.
  intros Hv. destruct (mirror_page _ _ _ _ _ _ M Haddr Hwalk) as (Hk & Hu & He & Ht & Htu & Htp & Hps).
  rewrite <-(mirror_load _ _ _ _ _ M Hv). pose proof (pd_index_range v Hv) as Hkv. unfold load, walk.
  destruct (mi_entry _ _ _ _ M _ Hkv) as [Hue Hte].
  assert (user_entry (fr' d (pd_index v)) = user_entry (fr d (pd_index v)) ∧ frame_of (fr' d (pd_index v)) = frame_of (fr d (pd_index v))) as [-> ->].
  { rewrite (mw_dir _ _ _ _ _ _ _ _ _ MW). destruct (pd_index v =? pd_index addr); [|done]. split; apply writable_entry. }
  rewrite Hue. destruct (user (pd_index v)) eqn:Huv; [|done]. rewrite Hte by done.
  assert (∀ e, fr (tb (pd_index v)) (pt_index v) = e → has e PAGE_PRESENT = true → page_of_space D from 1024 (frame_of e)) as Hpage.
  { intros e Ee Hp. apply (mirror_page _ _ _ _ v e M Hv). unfold walk. rewrite Hue, Hte by done. rewrite Ee. by rewrite Hp. }
  assert (∀ p i, page_of_space D from 1024 p → fr' p i = fr p i) as Hkeep.
  { intros p i Hp. destruct (mi_apart _ _ _ _ M p Hp) as (? & ? & ?). apply write_frame; auto. }
  destruct (decide (pd_index v = pd_index addr)) as [Ek|Ek].
  - rewrite Ek, (mw_table _ _ _ _ _ _ _ _ _ MW). destruct (Z.eqb_spec (pt_index v) (pt_index addr)) as [Ei|Ei].
    + rewrite Ei, Ht, Htp. destruct (writable_entry (Z.lor q (flags_of t))) as (_ & Ef & Ep & _). rewrite Ep.
      rewrite has_present, lor_low_bits, flags_of_bits, <-has_present, Htp by (lia || apply MW). cbn. f_equal. rewrite Ef.
      rewrite frame_of_lor by (apply MW || (rewrite flags_of_spec; lia)). apply MW.
    + rewrite Ek in Hpage. destruct (has (fr _ _) PAGE_PRESENT) eqn:Hp; [|done]. cbn. f_equal. by apply Hkeep, Hpage.
  - assert (∀ i, fr' (tb (pd_index v)) i = fr (tb (pd_index v)) i) as ->.
    { intros i. apply write_frame; [by apply (mi_used _ _ _ _ M)|by apply (mi_used _ _ _ _ M)|]. intros E. by apply Ek, (mi_inj _ _ _ _ M). }
    destruct (has (fr _ _) PAGE_PRESENT) eqn:Hp; [|done]. cbn. f_equal. by apply Hkeep, Hpage.
Qed.
Lemma write_allowed : ∃ t', walk fr' d addr = Some t' ∧ frame_of t' = q ∧ has t' PAGE_WRITABLE = true ∧ has (fr' d (pd_index addr)) PAGE_WRITABLE = true.
Proof.
  destruct (mirror_page _ _ _ _ _ _ M Haddr Hwalk) as (Hk & Hu & He & Ht & Htu & Htp & Hps).
  destruct (mi_entry _ _ _ _ M _ Hk) as [Hue _]. destruct (writable_entry (fr d (pd_index addr))) as (W1 & W2 & _ & W4).
  destruct (writable_entry (Z.lor q (flags_of t))) as (_ & Ef & Ep & Ew). exists (Z.lor (Z.lor q (flags_of t)) PAGE_WRITABLE).
  unfold walk. rewrite !(mw_dir _ _ _ _ _ _ _ _ _ MW), Z.eqb_refl, W1, W2, W4, Hue, Hu, He, (mw_table _ _ _ _ _ _ _ _ _ MW), Z.eqb_refl, Ep.
  rewrite has_present, lor_low_bits, flags_of_bits, <-has_present, Htp by (lia || apply MW). split_and!; try done.
  rewrite Ef. apply frame_of_lor; [apply MW|rewrite flags_of_spec; lia].
Qed.
End write.

Section forked.
Context (E : Z → Z → Z) (new : Z → Z) (fr : Z → Z → Z) (a : A).
Hypothesis CE : child_done D from to 1024 E.
Hypothesis PD : parent_done D a0 from E 1024 new fr a.
Lemma new_not_used k q : 0 <= k < 1024 → user k = true → used a0 q → q ≠ new k.
Proof. intros Hk Hu Hq ->. by destruct (pd_new _ _ _ _ _ _ _ _ PD k Hk Hu) as (_ & ? & _). Qed.
Lemma space_page q : page_of_space D from 1024 q → used a0 q ∧ q ≠ from ∧ ∀ k, 0 <= k < 1024 → user k = true → q ≠ table k.
Proof. intros (k & Hk & Hu & i & Hi & Hp & <-). by apply (sp_page _ _ _ SP k i). Qed.
Lemma forked_other g i : used a0 g → g ≠ from → fr g i = E g i.
Proof. intros Hg Hf. apply (pd_other _ _ _ _ _ _ _ _ PD); [done|]. intros k Hk Hu. by apply new_not_used. Qed.
Lemma forked_table k i : 0 <= k < 1024 → user k = true → fr (table k) i = strip 1024 (D (table k)) i.
Proof. intros Hk Hu. destruct (sp_table _ _ _ SP k Hk Hu). rewrite forked_other by done. by apply (cd_table _ _ _ _ _ CE). Qed.
Lemma forked_page q i : page_of_space D from 1024 q → fr q i = D q i.
Proof.
  intros Hq. destruct (space_page q Hq) as (H1 & H2 & H3). rewrite forked_other by done. apply (cd_other _ _ _ _ _ CE); [|done].
  intros ->. by destruct Hto as (_ & _ & _ & ?).
Qed.
Lemma mirror_from : mirror fr a from new.
Proof.
  split.
  - intros k Hk. rewrite (pd_dir _ _ _ _ _ _ _ _ PD) by done. rewrite (proj2 (Z.ltb_lt k 1024)) by lia. cbn [andb].
    destruct (user k) eqn:Hu; [|done]. destruct (pd_new _ _ _ _ _ _ _ _ PD k Hk Hu) as (Ha & _ & _).
    assert (0 <= flags_of (D from k) < 4096) as Hfl by (rewrite flags_of_spec; lia). split; [|by rewrite read_only_frame, frame_of_lor].
    unfold user_entry in *. destruct (read_only_has (Z.lor (new k) (flags_of (D from k)))) as (-> & -> & _).
    rewrite has_present, has_user, !lor_low_bits, !flags_of_bits, <-has_present, <-has_user by (done || lia). done.
  - apply (pd_table _ _ _ _ _ _ _ _ PD).
  - apply forked_page.
  - apply (pd_inj _ _ _ _ _ _ _ _ PD).
  - split; [apply (pd_used _ _ _ _ _ _ _ _ PD); left; apply SP|]. intros k Hk Hu. split; [apply (pd_used _ _ _ _ _ _ _ _ PD); right; by exists k|].
    apply not_eq_sym, new_not_used; [done..|apply SP].
  - intros q Hq. destruct (space_page q Hq) as (H1 & H2 & H3). split; [apply (pd_used _ _ _ _ _ _ _ _ PD); by left|]. split; [done|]. intros k Hk Hu. by apply new_not_used.
  - apply (pd_in _ _ _ _ _ _ _ _ PD).
Qed.
Lemma mirror_to : mirror fr a to (λ k, table k).
Proof.
  destruct Hto as (T1 & T2 & T3 & T4). split.
  - intros k Hk. rewrite forked_other, (cd_dir _ _ _ _ _ CE) by done. rewrite (proj2 (Z.ltb_lt k 1024)), (proj2 (Z.leb_le 0 k)) by lia. cbn [andb].
    destruct (user k) eqn:Hu; [|done]. unfold user_entry in *. destruct (read_only_has (D from k)) as (-> & -> & _). by rewrite read_only_frame.
  - intros k i. apply forked_table.
  - apply forked_page.
  - apply (sp_apart _ _ _ SP).
  - split; [apply (pd_used _ _ _ _ _ _ _ _ PD); by left|]. intros k Hk Hu. split; [apply (pd_used _ _ _ _ _ _ _ _ PD); left; by apply SP|].
    apply not_eq_sym. by apply T3.
  - intros q Hq. destruct (space_page q Hq) as (H1 & H2 & H3). split; [apply (pd_used _ _ _ _ _ _ _ _ PD); by left|]. split; [by intros ->|done].
  - apply (pd_in _ _ _ _ _ _ _ _ PD).
Qed.
End forked.
End isolation.
Lemma walk_ext fr fr' d v : (∀ g i, fr g i = fr' g i) → walk fr d v = walk fr' d v.
Proof. intros E. unfold walk. by rewrite !E. Qed.
Lemma load_ext fr fr' d v : (∀ g i, fr g i = fr' g i) → load fr d v = load fr' d v.
Proof. intros E. unfold load. rewrite (walk_ext fr fr') by done. destruct (walk fr' d v); [|done]. cbn. by rewrite E. Qed.

(** The fault of a process whose directory mirrors the pages, none of which is its own. *)
Lemma fault_ok D a0 from s d tb addr t : space a0 D from → mirror D a0 from (frames s) (pages s) d tb → cr3 s = d →
  is_u32 (init_page_table s tmp_index) → is_u32 addr → walk (frames s) d addr = Some t → room 1 (pages s) →
  (∀ q, page_of_space D from 1024 q → 1 <= refs a0 q < 127) →
  wp (page_set_writable addr) (λ r s', r = Resumed ∧ ∃ q fr' a', (∀ g i, frames s' g i = fr' g i) ∧ (¬ used (pages s) q) ∧
    made_writable (pages s) (frames s) d (tb (pd_index addr)) t q addr a' fr') s.
Proof.
  intros SP M Hd Hu Ha Hw Hroom Hrefs. destruct (mirror_page D a0 from SP _ _ _ _ _ _ M Ha Hw) as (Hk & Huk & He & Ht & Htu & Htp & Hps).
  destruct (mi_apart _ _ _ _ _ _ _ M _ Hps) as (Hqu & Hqd & HqT). destruct (mi_used _ _ _ _ _ _ _ M) as [Hdu HT]. destruct (HT _ Hk Huk) as [HTu HTd].
  pose proof (Hrefs _ Hps) as Hr. assert (refs (pages s) (frame_of t) = refs a0 (frame_of t) + 1) as Er.
  { rewrite (mi_refs _ _ _ _ _ _ _ M) by done. unfold s8. lia. }
  eapply wp_mono; [apply (page_set_writable_ok s addr t); rewrite ?Hd, ?He; try done; [by apply HqT|lia]|].
  intros r s' (-> & q & fr' & a' & W & MW). split; [done|]. exists q, fr', a'. rewrite Hd, He in MW. split; [apply W|]. split; [|done].
  pose proof (mw_fresh _ _ _ _ _ _ _ _ _ MW) as Hf. rewrite (proj2 (Z.ltb_lt 1 _)) in Hf by lia. apply Hf.
Qed.
End copying.

(** ** The allocator of PageAlloc.v keeps the promises

    As long as no more pages are taken from the first region with a free page than its bitmap has
    bytes, and one; the regions are aligned and apart. *)
Section mm_laws.
Implicit Types a : mm.
Definition mm_refs a (q : Z) : Z := if q mod PAGE_SIZE =? 0 then reference_counts a (q / PAGE_SIZE) else 0.
Definition mm_used a (q : Z) : Prop := aligned q ∧ q / PAGE_SIZE < NR_COUNTS ∧ ∃ i j, (i < MAX_MMAP_ENTRIES)%nat ∧ me_next (mmap a i) ≠ None ∧
  0 <= j <= bm_size (mmap_bitmaps a i) ∧ q = me_base (mmap a i) + j * PAGE_SIZE ∧ bit_in (mem a) (bm_base (mmap_bitmaps a i)) j = true.
Record mm_room_in (m : nat) rs (n : nat → Z) (k : nat) (b z : Z) a : Prop := {
  mr_inv : frame_inv rs n a;
  mr_region : rs !! k = Some (b, z);
  mr_full : ∀ i b z, (i < k)%nat → rs !! i = Some (b, z) → n i = 8 * bmap_bytes z;
  mr_aligned : b mod PAGE_SIZE = 0;
  mr_left : n k + Z.of_nat m <= bmap_bytes z + 1;
  mr_end : b + bmap_bytes z * PAGE_SIZE < 4294963200;
  mr_apart : ∀ i bi zi, i ≠ k → rs !! i = Some (bi, zi) →
    bi + (bmap_bytes zi + 1) * PAGE_SIZE <= b ∨ b + (bmap_bytes z + 1) * PAGE_SIZE <= bi
}.
Definition mm_room (m : nat) a : Prop := ∃ rs n k b z, mm_room_in m rs n k b z a.

Lemma mm_used_spec rs n a q : frame_inv rs n a → mm_used a q ↔ aligned q ∧ q / PAGE_SIZE < NR_COUNTS ∧
  ∃ i b z j, rs !! i = Some (b, z) ∧ 0 <= j <= bmap_bytes z ∧ q = b + j * PAGE_SIZE ∧ j < n i.
Proof.
  intros I. unfold mm_used. split; intros (Ha & Hc & Hq); (split; [done|]; split; [done|]).
  - destruct Hq as (i & j & Hi & Hnx & Hj & -> & Hb). assert (i < length rs)%nat as Hl.
    { destruct (decide (i < length rs)%nat); [done|]. by destruct (areas_end rs a i (fi_chain _ _ _ I) ltac:(lia)) as [_ ?]. }
    destruct (lookup_lt_is_Some_2 rs i Hl) as [[b z] Hr]. pose proof (fi_bitmap _ _ _ I i b z Hr) as Hbm. rewrite Hbm in Hj. cbn in Hj.
    destruct (fi_size _ _ _ I i b z Hr) as [_ Hz]. pose proof (bmap_bytes_pos z Hz). rewrite (fi_bits _ _ _ I i b z j Hr) in Hb by lia.
    apply Z.ltb_lt in Hb. destruct (proj1 (proj2 (fi_chain _ _ _ I)) i b z Hr) as (-> & _). exists i, b, z, j. split_and!; done || lia.
  - destruct Hq as (i & b & z & j & Hr & Hj & -> & Hn). destruct (fi_size _ _ _ I i b z Hr) as [_ Hz]. pose proof (bmap_bytes_pos z Hz).
    destruct (proj1 (proj2 (fi_chain _ _ _ I)) i b z Hr) as (Hb & _ & Hnx). exists i, j. split; [by eapply fi_lt|]. rewrite Hnx. split; [done|].
    rewrite (fi_bits _ _ _ I i b z j Hr) by lia. rewrite (fi_bitmap _ _ _ I i b z Hr), Hb. cbn. split; [lia|]. split; [done|]. apply Z.ltb_lt. lia.
Qed.
Lemma mm_alloc_law m a : mm_room (S m) a → ∃ p a', page_frame_alloc a = Ok (p, a') ∧ aligned p ∧ (¬ mm_used a p) ∧ mm_refs a' p = 1 ∧
  (∀ q, mm_used a' q ↔ q = p ∨ mm_used a q) ∧ (∀ q, q ≠ p → mm_refs a' q = mm_refs a q) ∧ mm_room m a'.
Proof.
  intros (rs & n & k & b & z & [I Hk Hfull Hal Hleft Hend Hap]). destruct (fi_size _ _ _ I k b z Hk) as [Hb0 Hz]. pose proof (bmap_bytes_pos z Hz) as Hbz.
  pose proof (fi_taken _ _ _ I k b z Hk) as Ht. assert (n k <= bmap_bytes z) as Hn by lia.
  assert (page_index z (n k) = n k) as Epi by (unfold page_index; by rewrite (proj2 (Z.leb_le _ _))).
  destruct (page_frame_alloc_ok rs n a k b z I Hk ltac:(lia) Hfull) as (a' & R & I' & C); [rewrite Epi; unfold PAGE_SIZE in *; nia|]. rewrite Epi in R, C.
  set (p := n k * PAGE_SIZE + b) in *. assert (p < 4294963200 ∧ p mod PAGE_SIZE = 0 ∧ 0 <= p) as (Hp1 & Hp2 & Hp3) by (unfold p, PAGE_SIZE in *; nia).
  assert (aligned p) as Hpa by (unfold aligned, is_u32, PAGE_SIZE in *; lia).
  assert (∀ i bi zi j, rs !! i = Some (bi, zi) → 0 <= j <= bmap_bytes zi → p = bi + j * PAGE_SIZE → i = k ∧ j = n k) as Huniq.
  { intros i bi zi j Hi Hj E. destruct (decide (i = k)) as [->|Hne]; [|exfalso; specialize (Hap i bi zi Hne Hi); unfold p, PAGE_SIZE in *; lia].
    rewrite Hk in Hi. injection Hi as <- <-. split; [done|]. unfold p, PAGE_SIZE in *. lia. }
  exists p, a'. split; [done|]. split; [done|]. split.
  { rewrite (mm_used_spec rs n a p I). intros (_ & _ & i & bi & zi & j & Hi & Hj & E & Hlt). destruct (Huniq i bi zi j Hi Hj E) as [-> ->]. lia. }
  split. { unfold mm_refs. rewrite Hp2, C. cbn. by rewrite fn_insert_eq. } split.
  { intros q. rewrite (mm_used_spec rs _ a' q I'), (mm_used_spec rs n a q I). split.
    - intros (Hqa & Hqc & i & bi & zi & j & Hi & Hj & E & Hlt). destruct (decide (q = p)) as [Hqp|Hne]; [by left|right]. split; [done|]. split; [done|].
      exists i, bi, zi, j. split_and!; try done; try lia. destruct (decide (k = i)) as [<-|]; [|by rewrite fn_insert_ne in Hlt].
      rewrite fn_insert_eq in Hlt. assert (j ≠ n k); [|lia]. intros ->. apply Hne. rewrite Hk in Hi. injection Hi as <- <-. unfold p. lia.
    - intros [Hqp|(Hqa & Hqc & i & bi & zi & j & Hi & Hj & E & Hlt)]; [rewrite Hqp|].
      + split; [done|]. split; [unfold PAGE_SIZE, NR_COUNTS in *; lia|]. exists k, b, z, (n k). rewrite fn_insert_eq. split_and!; done || unfold p; lia.
      + split; [done|]. split; [done|]. exists i, bi, zi, j. split_and!; try done; try lia.
        destruct (decide (k = i)) as [<-|]; [rewrite fn_insert_eq; lia|by rewrite fn_insert_ne]. }
  split. { intros q Hq. unfold mm_refs. destruct (Z.eqb_spec (q mod PAGE_SIZE) 0) as [E|]; [|done]. rewrite C, fn_insert_ne; [done|].
    unfold PAGE_SIZE in *. lia. }
  exists rs, (<[k := n k + 1]> n), k, b, z. split; try done.
  - intros i bi zi Hi Hri. rewrite fn_insert_ne by lia. by eapply Hfull.
  - rewrite fn_insert_eq. lia.
Qed.
Lemma frame_inv_counts rs n a a' : mmap a' = mmap a → mmap_bitmaps a' = mmap_bitmaps a → mem a' = mem a → frame_inv rs n a → frame_inv rs n a'.
Proof.
  intros E1 E2 E3 I. split; rewrite ?E2, ?E3; try apply I. by eapply chain_ext; [intros i; by rewrite E1|apply I].
Qed.
Lemma mm_set_count a q v : mm_used a q → ∃ a', set_count (q / PAGE_SIZE) v a = Ok (tt, a') ∧ counted mm_refs mm_used mm_room a a' q (s8 v).
Proof.
  intros (Ha & Hc & _). eexists. split; [by apply count_page_ok|]. destruct Ha as [_ Ha]. change 4096 with PAGE_SIZE in Ha. split.
  - unfold mm_refs. rewrite Ha. cbn. rec_simpl. by rewrite fn_insert_eq.
  - split; [|split; [done|]].
    + intros p Hp. unfold mm_refs. destruct (Z.eqb_spec (p mod PAGE_SIZE) 0); [|done]. rec_simpl. rewrite fn_insert_ne; [done|]. unfold PAGE_SIZE in *. lia.
    + intros m (rs & n & k & b & z & [I R1 R2 R3 R4 R5 R6]). exists rs, n, k, b, z. split; try done. by eapply frame_inv_counts; [..|exact I].
Qed.
Lemma mm_count_at a q : mm_used a q → count_at (q / PAGE_SIZE) a = Ok (mm_refs a q, a).
Proof. intros ((_ & Ha) & Hc & _). unfold count_at, mm_refs. change 4096 with PAGE_SIZE in Ha. by rewrite Ha, (proj2 (Z.ltb_lt _ _)). Qed.
#[export] Instance mm_frame_laws : FrameLaws mm.
Proof.
  refine {| refs := mm_refs; used := mm_used; room := mm_room |}.
  - by intros a f [H _].
  - intros m a (rs & n & k & b & z & [I R1 R2 R3 R4 R5 R6]). exists rs, n, k, b, z. split; try done. lia.
  - exact mm_alloc_law.
  - intros a f Hf. cbn. unfold page_increase_count. rewrite (bind_ok _ _ _ _ _ (mm_count_at a f Hf)). by apply mm_set_count.
  - intros a f Hf. cbn. unfold page_decrease_count. rewrite (bind_ok _ _ _ _ _ (mm_count_at a f Hf)). by apply mm_set_count.
  - intros a f Hf. by apply mm_count_at.
Defined.
End mm_laws.

(** ** Properties *)
Section paging_properties.
Context {A : Type} `{FL : FrameLaws A}.
Implicit Types (s : vmem A).

(** C6: A fork shares memory without letting the processes see each other's writes. After
    [copy_address_space] both directories show the words that the old one showed, and no page can be
    written. When one of the processes then writes to a page, the page fault handler lets it go on
    with a page of its own that has the same words and can be written; it sees no difference, and
    whatever it stores there, the other process still sees the words from before the fork. *)
Theorem fork_isolates_memory s pid from to : pid ≠ 0 → is_u32 (init_page_table s tmp_index) → space (pages s) (frames s) from →
  used (pages s) to ∧ to ≠ from ∧ (∀ k, 0 <= k < 1024 → user_entry (frames s from k) = true → to ≠ frame_of (frames s from k)) ∧
    ¬ (page_of_space (frames s) from 1024 to) →
  (∀ q, page_of_space (frames s) from 1024 q → 1 <= refs (pages s) q < 127) → room 1025 (pages s) →
  ∃ s1, copy_address_space pid from to s = Ok (tt, s1) ∧
    (∀ v, is_u32 v → load (frames s1) from v = load (frames s) from v ∧ load (frames s1) to v = load (frames s) from v) ∧
    ∀ d o addr t, (d = from ∧ o = to) ∨ (d = to ∧ o = from) → is_u32 addr → walk (frames s1) d addr = Some t →
      has t PAGE_WRITABLE = false ∧
      ∃ s2 t', page_set_writable addr (s1 <| cr3 := d |>) = Ok (Resumed, s2) ∧ walk (frames s2) d addr = Some t' ∧
        has t' PAGE_WRITABLE = true ∧ has (frames s2 d (pd_index addr)) PAGE_WRITABLE = true ∧
        (∀ v, is_u32 v → load (frames s2) d v = load (frames s) from v) ∧
        ∀ w x v, is_u32 v → load (put_word (frame_of t') w x (frames s2)) o v = load (frames s) from v.
Proof.
  intros Hpid Hu SP Hto Hrefs Hroom.
  destruct (copy_address_space_ok s pid from to Hpid Hu SP Hto Hroom) as ([] & s1 & R1 & E & new & fr & a & W & CE & PD). exists s1. split; [done|].
  pose proof (mirror_from _ _ _ to SP Hto E new fr a CE PD) as Mf. pose proof (mirror_to _ _ _ to SP Hto E new fr a CE PD) as Mt.
  assert (separate (frames s) from from new to (λ k, frame_of (frames s from k))) as Sft.
  { destruct Hto as (T1 & T2 & T3 & T4). pose proof (new_not_used _ _ _ E new fr a PD) as Hn. split; [by apply not_eq_sym|]. split.
    - intros k Hk Huk. split; [apply not_eq_sym; by apply Hn|]. apply not_eq_sym. by apply (sp_table _ _ _ SP).
    - intros k k' Hk Hk' Huk Huk'. apply not_eq_sym. apply Hn; [done..|]. by apply (sp_table _ _ _ SP). }
  pose proof (w_frames _ _ _ _ _ W) as Ef. apply (mirror_ext _ _ _ _ (frames s1)) in Mf, Mt; [|done..]. rewrite <-(w_pages _ _ _ _ _ W) in Mf, Mt.
  split; [intros v Hv; split; by eapply mirror_load|].
  assert (∃ tbf tbt, separate (frames s) from from tbf to tbt ∧ mirror (frames s) (pages s) from (frames s1) (pages s1) from tbf ∧
    mirror (frames s) (pages s) from (frames s1) (pages s1) to tbt) as (tbf & tbt & Sft' & Mf' & Mt') by eauto.
  intros d o addr t Hdo Ha Hw.
  assert (∃ tb tbo, separate (frames s) from d tb o tbo ∧ mirror (frames s) (pages s) from (frames s1) (pages s1) d tb ∧
    mirror (frames s) (pages s) from (frames s1) (pages s1) o tbo) as (tb & tbo & Sdo & Md & Mo).
  { destruct Hdo as [[-> ->]|[-> ->]]; [by exists tbf, tbt|exists tbt, tbf; split; [by apply separate_sym|done]]. }
  split.
  { rewrite (mirror_walk _ _ _ _ _ _ _ addr Md Ha) in Hw. destruct (walk (frames s) from addr) as [t0|]; [|done]. injection Hw as <-. apply read_only_has. }
  set (s1' := s1 <| cr3 := d |>). assert (cr3 s1' = d) as Hcr by done.
  destruct (fault_ok (frames s) (pages s) from s1' d tb addr t SP Md Hcr) as (r & s2 & R2 & -> & q & fr' & a' & E2 & Hq & MW); try done.
  { change (is_u32 (init_page_table s1 tmp_index)). rewrite (w_entry _ _ _ _ _ W). apply lor_flags_u32; [apply W|]. split; [discriminate|reflexivity]. }
  { change (room 1 (pages s1)). rewrite (w_pages _ _ _ _ _ W). apply (pd_room _ _ _ _ _ _ _ _ PD). }
  change (frames s1') with (frames s1) in MW. change (pages s1') with (pages s1) in MW, Hq.
  destruct (write_allowed _ _ _ SP _ _ _ _ _ _ _ _ _ Md Ha Hw MW) as (t' & Hw' & Hft & Ht' & Hd').
  exists s2, t'. split; [done|]. rewrite (walk_ext _ fr') by done. split; [done|]. split; [done|]. split; [by rewrite E2|]. split.
  - intros v Hv. rewrite (load_ext _ fr') by done. by apply (write_keeps_own _ _ _ SP _ _ _ _ _ _ _ _ _ Md Ha Hw MW Hq).
  - intros w x v Hv. rewrite Hft. rewrite (load_ext _ (put_word q w x fr')) by (intros g i; unfold put_word; by rewrite E2).
    by apply (write_isolated _ _ _ SP _ _ _ _ _ _ _ _ _ Md Ha Hw MW Hq _ _ _ _ _ Mo Sdo).
Qed.

(** What the running process may do at an address: the flags of its page, or 0. *)
Definition user_access (fr : Z → Z → Z) (d v : Z) : Z :=
  match walk fr d v with Some t => if has t PAGE_USER then flags_of t else 0 | None => 0 end.

(** C10: [check_user_ptr] gives the flags of the page of a user address, and 0, which no mapped page
    has, for an address that is not mapped or not for users. Memory and the allocator stay as they
    are and the temporary page is put back. *)
Theorem check_user_ptr_correct s addr : is_u32 (init_page_table s tmp_index) → is_u32 addr → aligned (cr3 s) → (∀ g i, is_u32 (frames s g i)) →
  ∃ s', check_user_ptr addr s = Ok (user_access (frames s) (cr3 s) addr, s') ∧
    (∀ g i, frames s' g i = frames s g i) ∧ pages s' = pages s ∧ frame_of (init_page_table s' tmp_index) = frame_of (init_page_table s tmp_index) ∧
    (user_access (frames s) (cr3 s) addr ≠ 0 ↔ ∃ t, walk (frames s) (cr3 s) addr = Some t ∧ has t PAGE_USER = true).
Proof.
  intros Hu Ha Hd Hw. set (fr := frames s) in *. set (d := cr3 s) in *. set (e := fr d (pd_index addr)).
  assert (wp (check_user_ptr addr) (λ r s', r = user_access fr d addr ∧ window s fr (pages s) (old_tmp s) s') s) as (r & s' & R & -> & W).
  { unfold check_user_ptr. wp_step. apply wp_gets. fold (old_tmp s). wp_step. apply wp_gets. wp_step. eapply wp_map_tmp_any; [done|]. intros s1 W1.
    wp_step. eapply wp_tmp_read; [exact W1|]. intros s2 W2. fold d fr e.
    wp_step. eapply (wp_mono _ (λ r s', r = user_access fr d addr ∧ ∃ f, window s fr (pages s) f s')); cycle 1.
    { intros r s3 (-> & f & W3). wp_step. eapply wp_restore; [exact W3|done|]. intros s4 W4. by apply wp_ret. }
    unfold user_access, walk. fold e. unfold user_entry. destruct (has e PAGE_PRESENT), (has e PAGE_USER); cbn [negb orb andb].
    2-4: apply wp_ret; split; [done|by exists d].
    wp_step. eapply wp_map_tmp; [exact W2|apply aligned_frame_of, Hw|]. intros s3 W3. wp_step. eapply wp_tmp_read; [exact W3|]. intros s4 W4. fold fr.
    destruct (has (fr (frame_of e) (pt_index addr)) PAGE_PRESENT), (has (fr (frame_of e) (pt_index addr)) PAGE_USER) eqn:EU; cbn [negb orb];
      apply wp_ret; (split; [by rewrite ?EU|by exists (frame_of e)]). }
  exists s'. split; [done|]. split; [apply W|]. split; [apply W|]. split.
  { rewrite (w_entry _ _ _ _ _ W). apply frame_of_lor; [by apply aligned_frame_of|]. split; [discriminate|reflexivity]. }
  unfold user_access. destruct (walk fr d addr) as [t|] eqn:Et; [|by split; [|intros (t & ? & _)]].
  destruct (has t PAGE_USER) eqn:EU; [|split; [done|intros (t' & [= <-] & ?); congruence]].
  split; [intros _; by exists t|]. intros _ Hz. rewrite has_user, <-(flags_of_bits t 2), Hz in EU by lia. done.
Qed.
End paging_properties.

(** A process with one page, whose directory, page table and page are the first frames above the
    kernel; the fourth frame is the new directory. *)
Module PagingDemo.
Definition b0 : Z := 1572864.
Definition high : mm := MkMm (λ i, match i with O => MkEntry b0 131596288 32129 (Some 1%nat) | _ => MkEntry 0 0 0 None end)
  (λ i, match i with O => MkBitmap (Some 0%nat) 0 4017 4 32132 | _ => MkBitmap (Some 1%nat) 0 0 0 0 end) 132120576 1048576 1572864
  (λ a, if a =? 0 then 15 else 0) (λ c, if (384 <=? c) && (c <? 388) then 1 else 0).
Definition words0 (g i : Z) : Z :=
  if g =? b0 then (if i =? 0 then b0 + 4096 + 7 else 0)
  else if g =? b0 + 4096 then (if i =? 0 then b0 + 8192 + 7 else 0)
  else if g =? b0 + 8192 then i mod 1024 else 0.
Definition machine : vmem mm := MkVm words0 (λ _, 0) (λ _, 0) None InitTable 1023 b0 0 high.
Lemma high_inv : frame_inv [(b0, 131596288)] (λ _, 4) high.
Proof.
  assert (bmap_bytes 131596288 = 4017) as Hb by reflexivity. split; cbn [length].
  - split; [unfold MAX_MMAP_ENTRIES; cbn; lia|]. split; [intros [|i] b z Hi; [by injection Hi as <- <-|done]|]. intros [|i] Hi; [cbn in Hi; lia|done].
  - intros [|i] b z Hi; [injection Hi as <- <-; unfold b0; lia|done].
  - intros [|i] b z Hi; [injection Hi as <- <-; reflexivity|done].
  - done.
  - intros [|i] b z Hi; [injection Hi as <- <-; rewrite Hb; lia|done].
  - intros [|i] b z j Hi Hj; [injection Hi as <- <-|done]. rewrite Hb in *. cbn [mmap_bitmaps high bm_base mem]. unfold bit_in. rewrite Z.add_0_l.
    destruct (Z.eqb_spec (j / 8) 0) as [E|E].
    + assert (0 <= j < 8) as Hj8 by lia. pose proof (forall_range (λ j, eqb (bit_test 15 (j mod 8)) (j <? 4 `min` (4017 + 1))) 0 8 eq_refl ltac:(lia) j Hj8) as H.
      by apply eqb_prop in H.
    + rewrite bit_test_spec, Z.testbit_0_l by lia. symmetry. apply Z.ltb_ge. lia.
  - intros i j b z Hij. lia.
  - intros i. unfold is_u8. cbn. destruct (i =? 0); lia.
Qed.
Lemma high_used j : 0 <= j < 4 → mm_used high (b0 + j * 4096).
Proof.
  intros Hj. apply (mm_used_spec _ _ _ _ high_inv). split; [unfold aligned, is_u32, b0; lia|]. split; [unfold PAGE_SIZE, NR_COUNTS, b0; lia|].
  exists 0%nat, b0, 131596288, j. split; [done|]. assert (bmap_bytes 131596288 = 4017) as -> by reflexivity. unfold PAGE_SIZE. lia.
Qed.
Lemma high_room : mm_room 1025 high.
Proof.
  exists [(b0, 131596288)], (λ _, 4), 0%nat, b0, 131596288. assert (bmap_bytes 131596288 = 4017) as Hb by reflexivity. split; rewrite ?Hb.
  - apply high_inv.
  - done.
  - intros i b z Hi. lia.
  - done.
  - lia.
  - reflexivity.
  - intros [|i] bi zi Hi Hr; done.
Qed.
Lemma words0_user k : user_entry (words0 b0 k) = true → k = 0.
Proof. unfold words0. rewrite Z.eqb_refl. destruct (Z.eqb_spec k 0); done. Qed.
Lemma words0_present i : has (words0 (b0 + 4096) i) PAGE_PRESENT = true → i = 0.
Proof. unfold words0. cbn. destruct (Z.eqb_spec i 0); done. Qed.
Lemma machine_space : space (pages machine) (frames machine) b0.
Proof.
  change (frames machine) with words0. assert (frame_of (words0 b0 0) = b0 + 4096) as ET by reflexivity.
  assert (frame_of (words0 (b0 + 4096) 0) = b0 + 8192) as EQ by reflexivity. split.
  - intros g i. unfold words0, b0, is_u32. repeat case_match; lia.
  - exact (high_used 0 ltac:(lia)).
  - intros k _ ->%words0_user. rewrite ET. split; [exact (high_used 1 ltac:(lia))|done].
  - by intros k k' _ _ ->%words0_user ->%words0_user.
  - intros k i _ Hk _. apply words0_user in Hk as ->. rewrite ET. intros ->%words0_present. rewrite EQ. split; [exact (high_used 2 ltac:(lia))|].
    split; [done|]. intros k' _ ->%words0_user. by rewrite ET.
  - intros k i k' i' _ Hk _ _ Hk' _. apply words0_user in Hk as ->. apply words0_user in Hk' as ->. rewrite ET. by intros ->%words0_present ->%words0_present.
Qed.
Lemma zero_u32 : is_u32 0.
Proof. by unfold is_u32. Qed.
Lemma machine_pages q : page_of_space words0 b0 1024 q → q = b0 + 8192.
Proof. intros (k & _ & ->%words0_user & i & _ & Hp & <-). change (frame_of (words0 b0 0)) with (b0 + 4096) in *. by apply words0_present in Hp as ->. Qed.
End PagingDemo.
Import PagingDemo.
(** The parent stores 99 in the first word of its page; the child still reads 0. *)
Lemma fork_isolates_memory_witness : ∃ s1 s2 t, copy_address_space 1 b0 (b0 + 12288) machine = Ok (tt, s1) ∧
  page_set_writable 0 (s1 <| cr3 := b0 |>) = Ok (Resumed, s2) ∧ walk (frames s2) b0 0 = Some t ∧
  load (put_word (frame_of t) 0 99 (frames s2)) (b0 + 12288) 0 = Some 0.
Proof.
  destruct (fork_isolates_memory machine 1 b0 (b0 + 12288)) as (s1 & R1 & L1 & H1); [done|done|exact machine_space|..|exact high_room|].
  - split; [exact (high_used 3 ltac:(lia))|]. split; [done|]. split; [intros k _ ->%words0_user; done|]. intros Hq. by apply machine_pages in Hq.
  - intros q ->%machine_pages. split; [by vm_compute|reflexivity].
  - assert (∃ t, walk (frames s1) b0 0 = Some t) as [t Ht].
    { destruct (L1 0 zero_u32) as [Hl _]. unfold load in Hl at 1. destruct (walk (frames s1) b0 0) as [t|]; [by exists t|done]. }
    destruct (H1 b0 (b0 + 12288) 0 t (or_introl (conj eq_refl eq_refl)) zero_u32 Ht) as (_ & s2 & t' & R2 & W2 & _ & _ & _ & H2).
    exists s1, s2, t'. split; [exact R1|]. split; [exact R2|]. split; [exact W2|]. rewrite (H2 0 99 0 zero_u32). reflexivity.
Defined.
Lemma check_user_ptr_correct_witness : ∃ s1 s2, check_user_ptr 100 machine = Ok (7, s1) ∧ check_user_ptr 4096 machine = Ok (0, s2).
Proof.
  destruct (check_user_ptr_correct machine 100) as (s1 & R1 & _); [done|done|done|apply machine_space|].
  destruct (check_user_ptr_correct machine 4096) as (s2 & R2 & _); [done|done|done|apply machine_space|].
  exists s1, s2. split; [exact R1|exact R2].
Defined.
