(* ===== verification/Kvmalloc.v ===== *)
(** The kernel heap (sys/mm/kvmalloc.c, sys/mm/vm_init.c): a free list of chunks, whose headers stand
    in the heap itself. Memory is a function from addresses to bytes; that the addresses used are
    mapped is not part of the model, except for the null pointer. New pages come from the page
    tables of Paging.v. *)
From S2P Require Import Prelude Wp PageAlloc Paging.

Definition HEAP_SIZE : Z := 4194304.
(** [sizeof (struct vm_chunk_header)] and of a pointer. *)
Definition HEADER_SIZE : Z := 16.
Definition POINTER_SIZE : Z := 4.
Record heap (A : Type) := MkHeap { hp_mem : Z → Z; free_list : Z; hp_vm : vmem A }.
Arguments MkHeap {A}.
Arguments hp_mem {A}.
Arguments free_list {A}.
Arguments hp_vm {A}.
#[export] Instance heap_eta A : Eta (heap A) := λ h, MkHeap (hp_mem h) (free_list h) (hp_vm h).

Section kvmalloc.
Context {A : Type} `{FrameAllocator A}.
Definition KH (R : Type) : Type := M (heap A) R.

(** The fields of the header at [ptr]. *)
Definition hget (ptr off : Z) : KH Z := if ptr =? 0 then undef "null chunk" else gets (λ s, le32 (hp_mem s) (ptr + off)).
Definition hset (ptr off v : Z) : KH unit :=
  if ptr =? 0 then undef "null chunk" else modify (λ s, s <| hp_mem ::= put_le32 (ptr + off) (u32 v) |>).
Definition OFF_BASE : Z := 0.
Definition OFF_SIZE : Z := 4.
Definition OFF_NEXT : Z := 8.
Definition OFF_PREV : Z := 12.

Definition kernel_virt_put_page : KH Z :=
  zoom hp_vm (λ v s, s <| hp_vm := v |>) (p ← in_pages frame_alloc; kernel_virt_map_page p).
Definition kvmalloc_init (heap size : Z) : KH unit :=
  modify (λ s, s <| free_list := heap |>) ;;
  hset heap OFF_BASE (heap + POINTER_SIZE) ;;
  hset heap OFF_SIZE (size - POINTER_SIZE) ;;
  hset heap OFF_NEXT 0 ;;
  hset heap OFF_PREV 0.
Fixpoint expand_loop (n : nat) (first : bool) (ret : Z) : KH Z :=
  match n with
  | O => mret ret
  | S n =>
      tmp ← kernel_virt_put_page;
      if tmp =? 0 then panic "Unable to expand heap, out of memory" else
      expand_loop n false (if first then tmp else ret)
  end.
Definition expand_heap : KH Z := expand_loop (Z.to_nat (HEAP_SIZE / PAGE_SIZE)) true 0.
Definition remove_from_list (ptr : Z) : KH unit :=
  next ← hget ptr OFF_NEXT;
  prev ← hget ptr OFF_PREV;
  if (next =? 0) && (prev =? 0) then n ← expand_heap; modify (λ s, s <| free_list := n |>)
  else
    when (negb (prev =? 0)) (next ← hget ptr OFF_NEXT; hset prev OFF_NEXT next) ;;
    next ← hget ptr OFF_NEXT;
    when (negb (next =? 0)) (prev ← hget ptr OFF_PREV; hset next OFF_PREV prev).
(** The block taken from a chunk that is large enough. *)
Definition take_block (ptr bytes : Z) : KH Z :=
  size ← hget ptr OFF_SIZE;
  if size =? bytes then p ← hget ptr OFF_BASE; remove_from_list ptr ;; mret p
  else
    hset ptr OFF_SIZE (size - (bytes + HEADER_SIZE)) ;;
    base ← hget ptr OFF_BASE;
    size ← hget ptr OFF_SIZE;
    let p := u32 (base + size + HEADER_SIZE) in
    let tmp := u32 (base + size) in
    hset tmp OFF_SIZE bytes ;;
    hset tmp OFF_BASE p ;;
    mret p.
(** The loop over the list ends with a block or with the last chunk. *)
Fixpoint search_loop (fuel : nat) (ptr bytes : Z) : KH (Z + Z) :=
  match fuel with
  | O => nofuel
  | S fuel =>
      if ptr =? 0 then mret (inr ptr) else
      size ← hget ptr OFF_SIZE;
      if bytes <=? size then p ← take_block ptr bytes; mret (inl p) else
      next ← hget ptr OFF_NEXT;
      if next =? 0 then mret (inr ptr) else search_loop fuel next bytes
  end.
Fixpoint kvmalloc (fuel : nat) (bytes : Z) : KH Z :=
  match fuel with
  | O => nofuel
  | S fuel =>
      ptr ← gets free_list;
      r ← search_loop fuel ptr bytes;
      match r with
      | inl p => mret p
      | inr ptr =>
          new ← expand_heap;
          hset ptr OFF_NEXT new ;;
          next ← hget ptr OFF_NEXT; hset next OFF_SIZE (HEAP_SIZE - HEADER_SIZE) ;;
          next ← hget ptr OFF_NEXT; hset next OFF_BASE (next + HEADER_SIZE) ;;
          next ← hget ptr OFF_NEXT; hset next OFF_NEXT 0 ;;
          next ← hget ptr OFF_NEXT; hset next OFF_PREV ptr ;;
          kvmalloc fuel bytes
      end
  end.

Definition insert_before (p before : Z) : KH unit :=
  prev ← hget before OFF_PREV;
  when (negb (prev =? 0)) (hset prev OFF_NEXT p ;; prev ← hget before OFF_PREV; hset p OFF_PREV prev) ;;
  hset before OFF_PREV p ;;
  hset p OFF_NEXT before.
Definition merge_blocks (ptr : Z) : KH unit :=
  prev ← hget ptr OFF_PREV;
  when (negb (prev =? 0))
    (pb ← hget prev OFF_BASE;
     ps ← hget prev OFF_SIZE;
     b ← hget ptr OFF_BASE;
     when (u32 (pb + ps) =? u32 (b - HEADER_SIZE))
       (s ← hget ptr OFF_SIZE;
        hset prev OFF_SIZE (ps + (s + HEADER_SIZE)) ;;
        next ← hget ptr OFF_NEXT;
        prev ← hget ptr OFF_PREV;
        hset prev OFF_NEXT next)) ;;
  next ← hget ptr OFF_NEXT;
  when (negb (next =? 0))
    (b ← hget ptr OFF_BASE;
     s ← hget ptr OFF_SIZE;
     when (u32 (b + s) =? next)
       (ns ← hget next OFF_SIZE;
        hset ptr OFF_SIZE (s + (ns + HEADER_SIZE)) ;;
        next ← hget ptr OFF_NEXT;
        nn ← hget next OFF_NEXT;
        hset ptr OFF_NEXT nn)).
Fixpoint free_loop (fuel : nat) (ptr p : Z) : KH unit :=
  match fuel with
  | O => nofuel
  | S fuel =>
      b ← hget ptr OFF_BASE;
      if p <? b then insert_before p ptr ;; merge_blocks p
      else
        next ← hget ptr OFF_NEXT;
        if next =? 0 then
          hset ptr OFF_NEXT (u32 (p - HEADER_SIZE)) ;;
          merge_blocks ptr
        else free_loop fuel next p
  end.
Definition kvmfree (fuel : nat) (p : Z) : KH unit := ptr ← gets free_list; free_loop fuel ptr p.

Fixpoint vm_init_loop (n : nat) (first : bool) (start : Z) : KH Z :=
  match n with
  | O => mret start
  | S n => p ← kernel_virt_put_page; vm_init_loop n false (if first then p else start)
  end.
Definition vm_init : KH unit :=
  start ← vm_init_loop (Z.to_nat (HEAP_SIZE / PAGE_SIZE)) true 0;
  kvmalloc_init start HEAP_SIZE.

(** ** The free list as a list of chunks *)

Record free_chunk := MkChunk { c_at : Z; c_base : Z; c_size : Z }.
Definition c_end (c : free_chunk) : Z := c_base c + c_size c.
(** The header of a chunk, and the list that starts at [p]. *)
Record header (m : Z → Z) (c : free_chunk) : Prop := {
  hd_at : c_at c ≠ 0; hd_base : le32 m (c_at c + OFF_BASE) = c_base c; hd_size : le32 m (c_at c + OFF_SIZE) = c_size c
}.
Fixpoint free_chain (m : Z → Z) (p : Z) (l : list free_chunk) : Prop :=
  match l with
  | [] => p = 0
  | c :: l => p = c_at c ∧ header m c ∧ free_chain m (le32 m (c_at c + OFF_NEXT)) l
  end.
(** A chunk reaches from its header to its end, within the address space. *)
Record chunk_ok (c : free_chunk) : Prop := {
  ck_at : 0 < c_at c; ck_base : c_at c + POINTER_SIZE <= c_base c; ck_size : 0 <= c_size c; ck_end : c_end c < 4294967296;
  ck_header : c_at c + HEADER_SIZE <= c_end c
}.
Record chunks_ok (l : list free_chunk) : Prop := {
  co_each c : c ∈ l → chunk_ok c;
  co_apart i j c d : l !! i = Some c → l !! j = Some d → i ≠ j → c_end c <= c_at d ∨ c_end d <= c_at c
}.

Lemma free_chain_frame m m' p l : (∀ c x, c ∈ l → c_at c <= x < c_at c + HEADER_SIZE → m' x = m x) → free_chain m p l → free_chain m' p l.
Proof.
  revert p. induction l as [|c l IH]; intros p E; simpl; [done|]. intros (-> & [Ha Hb Hs] & Hl).
  assert (∀ off, 0 <= off <= 12 → le32 m' (c_at c + off) = le32 m (c_at c + off)) as Ec.
  { intros off Ho. apply le32_same. intros x Hx. apply (E c); [by left|]. unfold HEADER_SIZE. lia. }
  split; [done|]. split; [split; [done|by rewrite Ec|by rewrite Ec]|]. rewrite Ec by done. apply IH; [|done].
  intros d x Hd. apply E. by right.
Qed.

Lemma wp_hget ptr off (Q : Z → heap A → Prop) s : ptr ≠ 0 → Q (le32 (hp_mem s) (ptr + off)) s → wp (hget ptr off) Q s.
Proof. intros Hp HQ. unfold hget. rewrite (proj2 (Z.eqb_neq _ _) Hp). by wp_step. Qed.
Lemma wp_hset ptr off v (Q : unit → heap A → Prop) s : ptr ≠ 0 → Q tt (s <| hp_mem ::= put_le32 (ptr + off) (u32 v) |>) → wp (hset ptr off v) Q s.
Proof. intros Hp HQ. unfold hset. rewrite (proj2 (Z.eqb_neq _ _) Hp). by wp_step. Qed.

(** The memory after [n] bytes were taken from the end of [c]. *)
Definition carve (c : free_chunk) (n : Z) (m : Z → Z) : Z → Z :=
  let tmp := c_end c - n - HEADER_SIZE in
  put_le32 (tmp + OFF_BASE) (c_end c - n) (put_le32 (tmp + OFF_SIZE) n (put_le32 (c_at c + OFF_SIZE) (c_size c - n - HEADER_SIZE) m)).
Definition shrink (c : free_chunk) (n : Z) : free_chunk := MkChunk (c_at c) (c_base c) (c_size c - n - HEADER_SIZE).
Definition fits (c : free_chunk) (n : Z) : Prop := 0 <= n ∧ n + HEADER_SIZE <= c_size c ∧ c_at c + HEADER_SIZE <= c_end c - n - HEADER_SIZE.

Lemma wp_take_block c n (Q : Z → heap A → Prop) s : chunk_ok c → header (hp_mem s) c → fits c n →
  Q (c_end c - n) (s <| hp_mem ::= carve c n |>) → wp (take_block (c_at c) n) Q s.
Proof.
  intros [K1 K2 K3 K4 K5] [E0 E1 E2] (F1 & F2 & F3) HQ. unfold take_block, c_end, HEADER_SIZE, POINTER_SIZE in *.
  wp_step. apply wp_hget; [done|]. rewrite E2, (proj2 (Z.eqb_neq _ _)) by lia.
  wp_step. apply wp_hset; [done|]. rewrite u32_id by (unfold is_u32; lia).
  wp_step. apply wp_hget; [done|]. wp_step. apply wp_hget; [done|]. rec_simpl.
  rewrite le32_put_ne by (unfold OFF_BASE, OFF_SIZE; lia). rewrite E1, le32_put_eq by (unfold is_u32; lia).
  rewrite !u32_id by (unfold is_u32; lia).
  wp_step. apply wp_hset; [lia|]. wp_step. apply wp_hset; [lia|]. wp_step. rewrite !u32_id by (unfold is_u32; lia).
  replace (c_base c + (c_size c - (n + 16)) + 16) with (c_base c + c_size c - n) by lia.
  unfold carve, c_end, HEADER_SIZE in HQ. 
  replace (c_base c + (c_size c - (n + 16))) with (c_base c + c_size c - n - 16) by lia.
  replace (c_size c - (n + 16)) with (c_size c - n - 16) by lia. exact HQ.
Qed.
Lemma wp_search l1 c l2 n p fuel (Q : Z + Z → heap A → Prop) s : free_chain (hp_mem s) p (l1 ++ c :: l2) → Forall (λ d, c_size d < n) l1 →
  (length l1 < fuel)%nat → n <= c_size c → wp (take_block (c_at c) n) (λ p s', Q (inl p) s') s → wp (search_loop fuel p n) Q s.
Proof.
  revert p fuel. induction l1 as [|d l1 IH]; intros p fuel Hch Hl Hf Hn HQ; (destruct fuel as [|fuel]; [simpl in Hf; lia|]); cbn [search_loop].
  - destruct Hch as (-> & [E0 E1 E2] & _). rewrite (proj2 (Z.eqb_neq _ _) E0). wp_step. apply wp_hget; [done|].
    rewrite E2, (proj2 (Z.leb_le n _)) by done. wp_step. eapply wp_mono; [exact HQ|]. intros q s' Hq. by wp_step.
  - destruct Hch as (-> & [E0 E1 E2] & Hch). apply Forall_cons in Hl as [Hd Hl]. rewrite (proj2 (Z.eqb_neq _ _) E0).
    wp_step. apply wp_hget; [done|]. rewrite E2, (proj2 (Z.leb_gt n _)) by done. wp_step. apply wp_hget; [done|].
    assert (le32 (hp_mem s) (c_at d + OFF_NEXT) ≠ 0) as Hz.
    { destruct l1 as [|d' l1]; destruct Hch as (-> & [] & _); done. }
    rewrite (proj2 (Z.eqb_neq _ _) Hz). apply IH; [done|done|simpl in Hf; lia|done|done].
Qed.

Definition outside (c : free_chunk) (n x : Z) : Prop :=
  (x < c_at c ∨ c_at c + HEADER_SIZE <= x) ∧ (x < c_end c - n - HEADER_SIZE ∨ c_end c - n <= x).
Lemma carve_frame c n m x : chunk_ok c → fits c n → outside c n x → carve c n m x = m x.
Proof.
  intros [K1 K2 K3 K4 K5] (F1 & F2 & F3) [Hx1 Hx2]. unfold carve, OFF_BASE, OFF_SIZE, HEADER_SIZE, POINTER_SIZE in *.
  rewrite !put_le32_ne by lia. done.
Qed.
Lemma carve_header c n m : chunk_ok c → fits c n → header m c → header (carve c n m) (shrink c n) ∧
  le32 (carve c n m) (c_at c + OFF_NEXT) = le32 m (c_at c + OFF_NEXT).
Proof.
  intros [K1 K2 K3 K4 K5] (F1 & F2 & F3) [E0 E1 E2]. unfold carve, c_end, OFF_BASE, OFF_SIZE, OFF_NEXT, HEADER_SIZE, POINTER_SIZE in *.
  split; [split; simpl; [done|unfold OFF_BASE|unfold OFF_SIZE, HEADER_SIZE]|]; rewrite !(le32_put_ne _ (_ - _ + _)) by lia.
  - rewrite le32_put_ne by lia. done.
  - rewrite le32_put_eq by (unfold is_u32; lia). done.
  - rewrite le32_put_ne by lia. done.
Qed.
Lemma shrink_ok c n : chunk_ok c → fits c n → chunk_ok (shrink c n).
Proof. intros [K1 K2 K3 K4 K5] (F1 & F2 & F3). unfold c_end, HEADER_SIZE in *. split; unfold c_end, shrink, HEADER_SIZE; simpl; lia. Qed.
Lemma shrink_end c n : c_end (shrink c n) = c_end c - n - HEADER_SIZE.
Proof. unfold c_end. simpl. lia. Qed.
Lemma chunks_shrink l1 c l2 n : chunks_ok (l1 ++ c :: l2) → fits c n → chunks_ok (l1 ++ shrink c n :: l2).
Proof.
  intros [Ke Ka] F. assert (c ∈ l1 ++ c :: l2) as Hc by set_solver.
  assert (∀ i d, (l1 ++ shrink c n :: l2) !! i = Some d → ∃ d', (l1 ++ c :: l2) !! i = Some d' ∧ c_at d = c_at d' ∧ c_end d <= c_end d') as Hd.
  { intros i d Hi. destruct (decide (i = length l1)) as [->|Hne].
    - rewrite list_lookup_middle in Hi by done. injection Hi as <-. exists c. rewrite list_lookup_middle by done.
      split; [done|]. split; [done|]. rewrite shrink_end. destruct F as (F & _ & _). unfold HEADER_SIZE. lia.
    - exists d. split; [|split; [done|lia]]. destruct (decide (i < length l1)%nat).
      + rewrite lookup_app_l in Hi |- * by done. done.
      + rewrite lookup_app_r in Hi |- * by lia. destruct (i - length l1)%nat eqn:E; [lia|]. done. }
  split.
  - intros d Hd'. apply elem_of_app in Hd' as [Hd'|Hd']; [apply Ke; set_solver|]. apply elem_of_cons in Hd' as [->|Hd']; [|apply Ke; set_solver].
    apply shrink_ok; auto.
  - intros i j d e Hi Hj Hij. destruct (Hd i d Hi) as (d' & Hi' & E1 & L1). destruct (Hd j e Hj) as (e' & Hj' & E2 & L2).
    destruct (Ka i j d' e' Hi' Hj' Hij); [left|right]; lia.
Qed.
Lemma free_chain_carve l1 c l2 n m p : free_chain m p (l1 ++ c :: l2) → chunks_ok (l1 ++ c :: l2) → fits c n →
  free_chain (carve c n m) p (l1 ++ shrink c n :: l2).
Proof.
  intros Hch [Ke Ka] F. assert (chunk_ok c) as Kc by (apply Ke; set_solver).
  assert (∀ i d, (l1 ++ c :: l2) !! i = Some d → i ≠ length l1 → ∀ x, c_at d <= x < c_at d + HEADER_SIZE → carve c n m x = m x) as Hfr.
  { intros i d Hi Hne x Hx. apply carve_frame; [done|done|]. pose proof (ck_header d (Ke d ltac:(by eapply list_elem_of_lookup_2))).
    destruct F as (F & _ & F3). unfold outside, HEADER_SIZE in *.
    destruct (Ka i (length l1) d c Hi ltac:(by rewrite list_lookup_middle) Hne); lia. }
  clear Ke Ka. revert p Hch Hfr. induction l1 as [|d l1 IH]; intros p Hch Hfr; simpl in *.
  - destruct Hch as (-> & Hh & Hch). destruct (carve_header c n m Kc F Hh) as [Hh' En]. rewrite En.
    split; [done|]. split; [done|]. eapply free_chain_frame; [|exact Hch]. intros d x Hd Hx.
    apply list_elem_of_lookup_1 in Hd as [i Hi]. by apply (Hfr (S i) d Hi).
  - destruct Hch as (-> & Hh & Hch).
    assert (∀ off, 0 <= off <= 12 → le32 (carve c n m) (c_at d + off) = le32 m (c_at d + off)) as Ed.
    { intros off Ho. apply le32_same. intros x Hx. apply (Hfr 0%nat d); [done|done|]. unfold HEADER_SIZE. lia. }
    split; [done|]. destruct Hh as [E0 E1 E2]. split; [split; [done|by rewrite Ed|by rewrite Ed]|]. rewrite Ed by done.
    apply IH; [done|]. intros i e Hi Hne. apply (Hfr (S i) e); [done|lia].
Qed.

(** [kvmalloc] takes the block from the end of the first chunk that is large enough, where it
    leaves room for a header: the block lies inside of the chunk, the rest of the list and of the
    memory stays as it was, and the list is well formed again. *)
Lemma kvmalloc_first_fit fuel l1 c l2 n s : let l := l1 ++ c :: l2 in
  free_chain (hp_mem s) (free_list s) l → chunks_ok l → Forall (λ d, c_size d < n) l1 → fits c n → (length l1 < fuel)%nat →
  let s' := s <| hp_mem ::= carve c n |> in
  kvmalloc (S fuel) n s = Ok (c_end c - n, s') ∧ free_chain (hp_mem s') (free_list s') (l1 ++ shrink c n :: l2) ∧
  chunks_ok (l1 ++ shrink c n :: l2).
Proof.
  intros l Hch Hok Hl F Hf. assert (chunk_ok c) as Kc by (apply (co_each _ Hok); set_solver).
  assert (header (hp_mem s) c) as Hh.
  { clear Hok Hl Hf. subst l. revert Hch. generalize (free_list s). induction l1 as [|d l1 IH]; simpl; intros p; [by intros (_ & Hh & _)|].
    intros (_ & _ & Hch). by eapply IH. }
  assert (wp (kvmalloc (S fuel) n) (λ p s', p = c_end c - n ∧ s' = s <| hp_mem ::= carve c n |>) s) as (p & s' & R & -> & ->).
  { cbn [kvmalloc]. wp_step. apply wp_gets. wp_step. eapply wp_search; [exact Hch|done|done|destruct F; unfold HEADER_SIZE in *; lia|].
    apply wp_take_block; [done|done|done|]. wp_step. done. }
  split; [exact R|]. rec_simpl. split; [by apply free_chain_carve|by apply chunks_shrink].
Qed.

(** *** A sequence of requests to a fresh heap *)

Fixpoint kvmalloc_all (fuel : nat) (rs : list Z) : KH (list Z) :=
  match rs with [] => mret [] | r :: rs => p ← kvmalloc fuel r; ps ← kvmalloc_all fuel rs; mret (p :: ps) end.
(** The blocks go down from the end, each below its header. *)
Fixpoint blocks (top : Z) (rs : list Z) : list Z :=
  match rs with [] => [] | r :: rs => (top - r) :: blocks (top - r - HEADER_SIZE) rs end.
Definition need (rs : list Z) : Z := foldr (λ r n, r + HEADER_SIZE + n) 0 rs.

Lemma need_nonneg rs : Forall (λ r, 0 <= r) rs → 0 <= need rs.
Proof. induction 1; simpl; unfold HEADER_SIZE; lia. Qed.
Lemma blocks_spec rs top i p r : Forall (λ r, 0 <= r) rs → blocks top rs !! i = Some p → rs !! i = Some r →
  top - need rs + HEADER_SIZE <= p ∧ p + r <= top.
Proof.
  intros Hr. revert top i. induction Hr as [|r0 rs Hr0 Hr IH]; intros top i Hp Hi; [done|]. pose proof (need_nonneg rs Hr).
  destruct i as [|i]; simpl in *; [injection Hp as <-; injection Hi as <-; unfold HEADER_SIZE in *; lia|].
  destruct (IH _ i Hp Hi). unfold HEADER_SIZE in *. lia.
Qed.
Lemma blocks_disjoint rs top i j p q r : Forall (λ r, 0 <= r) rs → (i < j)%nat → blocks top rs !! i = Some p → blocks top rs !! j = Some q →
  rs !! j = Some r → q + r + HEADER_SIZE <= p.
Proof.
  intros Hr. revert top i j. induction Hr as [|r0 rs Hr0 Hr IH]; intros top i j Hij Hp Hq Hj; [done|].
  destruct i as [|i], j as [|j]; try lia; simpl in *; [|apply (IH _ i j ltac:(lia) Hp Hq Hj)].
  injection Hp as <-. destruct (blocks_spec rs _ j q r Hr Hq Hj). lia.
Qed.
Lemma kvmalloc_all_ok fuel rs c s : free_chain (hp_mem s) (free_list s) [c] → chunks_ok [c] → Forall (λ r, 0 <= r) rs → (1 < fuel)%nat →
  c_at c + HEADER_SIZE + need rs <= c_end c → need rs <= c_size c →
  ∃ s', kvmalloc_all fuel rs s = Ok (blocks (c_end c) rs, s') ∧ hp_vm s' = hp_vm s ∧
    (∀ x, x < c_at c ∨ c_end c <= x → hp_mem s' x = hp_mem s x) ∧
    ∀ i p r x, blocks (c_end c) rs !! i = Some p → rs !! i = Some r → p <= x < p + r → hp_mem s' x = hp_mem s x.
Proof.
  intros Hch Hok Hr Hf. revert c s Hch Hok. induction Hr as [|r rs Hr0 Hr IH]; intros c s Hch Hok Hn Hs; [by exists s|].
  assert (chunk_ok c) as Kc by (apply (co_each _ Hok); by left). pose proof (ck_header _ Kc).
  pose proof (need_nonneg rs Hr). destruct fuel as [|fuel]; [lia|]. unfold need in Hn, Hs. simpl in Hn, Hs. fold (need rs) in *.
  unfold HEADER_SIZE in *.
  assert (fits c r) as F by (unfold fits, HEADER_SIZE; lia).
  destruct (kvmalloc_first_fit fuel [] c [] r s Hch Hok) as (R1 & Ch1 & Ok1); [by constructor|done|simpl; lia|].
  assert (∀ x, outside c r x → hp_mem (s <| hp_mem ::= carve c r |>) x = hp_mem s x) as M1 by (intros; by apply carve_frame).
  assert (hp_vm (s <| hp_mem ::= carve c r |>) = hp_vm s) as V1 by done.
  cbv zeta in Ch1. revert R1 Ch1 M1 V1. generalize (s <| hp_mem ::= carve c r |>). intros s1 R1 Ch1 M1 V1.
  destruct (IH (shrink c r) s1 Ch1 Ok1) as (s2 & R2 & V2 & M2 & B2); [rewrite shrink_end; simpl; unfold HEADER_SIZE; lia|
    simpl; unfold HEADER_SIZE; lia|].
  rewrite shrink_end in *. simpl in M2, B2. exists s2. cbn [kvmalloc_all blocks].
  rewrite (bind_ok _ _ _ _ _ R1), (bind_ok _ _ _ _ _ R2). split; [done|]. split; [congruence|].
  unfold outside, HEADER_SIZE in *. split; [intros x Hx; rewrite M2, M1; [done|lia..]|].
  intros [|i] p r' x Hp Hi Hx; simpl in Hp, Hi.
  - injection Hp as <-. injection Hi as <-. rewrite M2, M1; [done|lia..].
  - rewrite (B2 i p r' x Hp Hi Hx). apply M1. destruct (blocks_spec rs _ i p r' Hr Hp Hi). unfold HEADER_SIZE in *. lia.
Qed.

(** The list after [kvmalloc_init]. *)
Definition fresh (heap size : Z) : free_chunk := MkChunk heap (heap + POINTER_SIZE) (size - POINTER_SIZE).
Definition heap_range (heap size : Z) : Prop := 0 < heap ∧ HEADER_SIZE <= size ∧ heap + size < 4294967296.
Lemma fresh_end heap size : c_end (fresh heap size) = heap + size.
Proof. unfold c_end. simpl. lia. Qed.
Lemma fresh_ok heap size : heap_range heap size → chunks_ok [fresh heap size].
Proof.
  unfold heap_range, HEADER_SIZE. intros Hr. split.
  - intros c Hc. apply list_elem_of_singleton in Hc as ->. split; rewrite ?fresh_end; simpl; unfold POINTER_SIZE, HEADER_SIZE; lia.
  - by intros [|i] [|j] c d.
Qed.
Lemma kvmalloc_init_ok heap size s : heap_range heap size → ∃ s', kvmalloc_init heap size s = Ok (tt, s') ∧
  free_list s' = heap ∧ hp_vm s' = hp_vm s ∧ free_chain (hp_mem s') heap [fresh heap size] ∧ le32 (hp_mem s') (heap + OFF_PREV) = 0 ∧
  ∀ x, x < heap ∨ heap + HEADER_SIZE <= x → hp_mem s' x = hp_mem s x.
Proof.
  unfold heap_range, HEADER_SIZE. intros (H1 & H2 & H3).
  set (m := put_le32 (heap + OFF_PREV) 0 (put_le32 (heap + OFF_NEXT) 0 (put_le32 (heap + OFF_SIZE) (size - POINTER_SIZE)
    (put_le32 (heap + OFF_BASE) (heap + POINTER_SIZE) (hp_mem s))))).
  assert (wp (kvmalloc_init heap size) (λ _ s', s' = s <| free_list := heap |> <| hp_mem := m |>) s) as ([] & s' & R & ->).
  { unfold kvmalloc_init. wp_step. wp_step. do 3 (wp_step; apply wp_hset; [lia|]). apply wp_hset; [lia|].
    rewrite !u32_id by (unfold is_u32, POINTER_SIZE; lia). done. }
  eexists. split; [exact R|]. do 2 rec_simpl. split; [done|]. split; [done|]. unfold m, OFF_PREV, OFF_NEXT, OFF_SIZE, OFF_BASE, POINTER_SIZE in *.
  split; [split; [done|split; [split; simpl; [lia|..]|]]|split].
  - unfold OFF_BASE, POINTER_SIZE. rewrite !(le32_put_ne (heap + 0)) by lia. rewrite le32_put_eq; [done|unfold is_u32; lia].
  - unfold OFF_SIZE, POINTER_SIZE. rewrite !(le32_put_ne (heap + 4)) by lia. rewrite le32_put_eq; [done|unfold is_u32; lia].
  - simpl. unfold OFF_NEXT. rewrite (le32_put_ne (heap + 8)) by lia. by rewrite le32_put_eq by (unfold is_u32; lia).
  - by rewrite le32_put_eq by (unfold is_u32; lia).
  - intros x Hx. by rewrite !put_le32_ne by lia.
Qed.

(** C11: a sequence of requests to a fresh heap in which there is room for the blocks and their
    headers gets blocks inside of the heap, each apart from the others and from their headers,
    and the contents of none of them change while the others are taken. *)
Theorem kvmalloc_sequence fuel heap size rs s : heap_range heap size → Forall (λ r, 0 <= r) rs → (1 < fuel)%nat →
  HEADER_SIZE + POINTER_SIZE + need rs <= size →
  ∃ ps s', (kvmalloc_init heap size ;; kvmalloc_all fuel rs) s = Ok (ps, s') ∧ length ps = length rs ∧ hp_vm s' = hp_vm s ∧
    (∀ i p r, ps !! i = Some p → rs !! i = Some r → heap + HEADER_SIZE <= p ∧ p + r <= heap + size ∧
      ∀ x, p <= x < p + r → hp_mem s' x = hp_mem s x) ∧
    ∀ i j p q r, (i < j)%nat → ps !! i = Some p → ps !! j = Some q → rs !! j = Some r → q + r + HEADER_SIZE <= p.
Proof.
  intros Hr Hrs Hf Hn. destruct (kvmalloc_init_ok heap size s Hr) as (s1 & R1 & L1 & V1 & Ch & _ & M1). rewrite <-L1 in Ch at 1.
  destruct (kvmalloc_all_ok fuel rs (fresh heap size) s1 Ch (fresh_ok _ _ Hr) Hrs Hf) as (s2 & R2 & V2 & _ & B2).
  { rewrite fresh_end. simpl. unfold POINTER_SIZE in Hn. lia. } { simpl. unfold HEADER_SIZE in Hn. lia. }
  rewrite fresh_end in *. exists (blocks (heap + size) rs), s2. rewrite (bind_ok _ _ _ _ _ R1). split; [done|].
  split; [generalize (heap + size); clear; induction rs as [|r rs IH]; intros top; simpl; [done|by rewrite IH]|]. split; [congruence|]. split.
  - intros i p r Hp Hi. destruct (blocks_spec rs _ i p r Hrs Hp Hi). unfold POINTER_SIZE, HEADER_SIZE in *. split; [lia|]. split; [done|].
    intros x Hx. rewrite (B2 i p r x Hp Hi Hx). apply M1. unfold HEADER_SIZE. lia.
  - intros i j p q r. by apply blocks_disjoint.
Qed.

(** a block that is released at once becomes part of the free chunk again, when the header of the
    block has no pointers left from before. *)
Theorem kvmfree_kvmalloc fuel heap size n s : heap_range heap size → 0 <= n → HEADER_SIZE + HEADER_SIZE + POINTER_SIZE + n <= size →
  (∀ x, heap + size - n - HEADER_SIZE <= x < heap + size - n → hp_mem s x = 0) →
  ∃ s1 p s', (kvmalloc_init heap size ;; kvmalloc (S (S fuel)) n) s = Ok (p, s1) ∧ kvmfree (S fuel) p s1 = Ok (tt, s') ∧
    free_list s' = heap ∧ free_chain (hp_mem s') heap [fresh heap size].
Proof.
  intros Hr Hn Hsz Hz. destruct (kvmalloc_init_ok heap size s Hr) as (s1 & R1 & L1 & V1 & Ch & Pr & M1). rewrite <-L1 in Ch at 1.
  set (c := fresh heap size) in *. pose proof (fresh_end heap size) as Ec. fold c in Ec.
  assert (fits c n) as F by (unfold fits; rewrite Ec; simpl; unfold HEADER_SIZE, POINTER_SIZE in *; lia).
  destruct (kvmalloc_first_fit (S fuel) [] c [] n s1 Ch (fresh_ok _ _ Hr)) as (R2 & Ch2 & _); [by constructor|done|simpl; lia|].
  set (tmp := heap + size - n - HEADER_SIZE) in *. destruct Hr as (Hr1 & Hr2 & Hr3). unfold HEADER_SIZE, POINTER_SIZE in *.
  destruct Ch as (_ & [E0 E1 E2] & En). simpl in E0, E1, E2, En. unfold OFF_BASE, OFF_SIZE, OFF_NEXT, OFF_PREV, POINTER_SIZE in *.
  set (m2 := carve c n (hp_mem s1)). assert (le32 m2 (heap + 0) = heap + 4 ∧ le32 m2 (heap + 4) = size - 4 - n - 16 ∧
    le32 m2 (heap + 8) = 0 ∧ le32 m2 (heap + 12) = 0 ∧ le32 m2 (tmp + 4) = n ∧ le32 m2 (tmp + 8) = 0) as (V0 & V4 & V8 & V12 & T4 & T8).
  { unfold m2, carve. rewrite Ec. unfold OFF_BASE, OFF_SIZE, HEADER_SIZE. simpl. unfold POINTER_SIZE. fold tmp.
    assert (le32 (hp_mem s1) (tmp + 8) = 0) as Z8.
    { rewrite (le32_same (λ _, 0)); [done|]. intros x Hx. rewrite M1 by lia. apply Hz. lia. }
    split_and!; repeat first [rewrite le32_put_ne by lia | rewrite le32_put_eq by (unfold is_u32; lia)]; first [done|lia]. }
  assert (tmp ≠ 0) as Ht by (unfold tmp; lia).
  assert (wp (kvmfree (S fuel) (c_end c - n)) (λ _ s', free_list s' = heap ∧ free_chain (hp_mem s') heap [fresh heap size]) (s1 <| hp_mem := m2 |>))
    as ([] & s' & R3 & L3 & Ch3).
  { unfold kvmfree. wp_step. wp_step. rec_simpl. rewrite L1. cbn [free_loop]. unfold OFF_BASE, OFF_NEXT.
    wp_step. apply wp_hget; [lia|]. rec_simpl. rewrite V0, (proj2 (Z.ltb_ge (c_end c - n) _)) by (rewrite Ec; lia).
    wp_step. apply wp_hget; [lia|]. rec_simpl. rewrite V8. change (0 =? 0) with true. cbv iota.
    replace (u32 (c_end c - n - HEADER_SIZE)) with tmp by (rewrite Ec, u32_id by (unfold is_u32, HEADER_SIZE; lia); unfold tmp, HEADER_SIZE; lia).
    wp_step. apply wp_hset; [lia|]. rec_simpl. rewrite (u32_id tmp) by (unfold is_u32; lia).
    unfold merge_blocks, OFF_PREV, OFF_BASE, OFF_SIZE, OFF_NEXT.
    wp_step. apply wp_hget; [lia|]. rec_simpl. rewrite le32_put_ne, V12 by lia. change (negb (0 =? 0)) with false. cbn [when]. wp_step. wp_step.
    wp_step. apply wp_hget; [lia|]. rec_simpl. rewrite le32_put_eq by (unfold is_u32; lia).
    rewrite (proj2 (Z.eqb_neq tmp 0)) by lia. cbn [negb when].
    wp_step. apply wp_hget; [lia|]. rec_simpl. rewrite le32_put_ne, V0 by lia.
    wp_step. apply wp_hget; [lia|]. rec_simpl. rewrite le32_put_ne, V4 by lia.
    replace (u32 (heap + 4 + (size - 4 - n - 16))) with tmp by (rewrite u32_id by (unfold is_u32; lia); unfold tmp; lia).
    rewrite Z.eqb_refl. cbn [when]. wp_step. apply wp_hget; [lia|]. rec_simpl. rewrite le32_put_ne, T4 by lia.
    wp_step. apply wp_hset; [lia|]. rec_simpl. rewrite u32_id by (unfold is_u32, HEADER_SIZE; lia).
    wp_step. apply wp_hget; [lia|]. rec_simpl. rewrite le32_put_ne, le32_put_eq by (unfold is_u32; lia).
    wp_step. apply wp_hget; [lia|]. rec_simpl. rewrite !le32_put_ne, T8 by lia.
    apply wp_hset; [lia|]. rec_simpl. split; [done|]. unfold free_chain. simpl. unfold OFF_NEXT.
    change (u32 0) with 0. rewrite le32_put_eq by (unfold is_u32; lia). split; [done|]. split; [|done].
    split; simpl; [lia|..]; unfold OFF_BASE, OFF_SIZE, POINTER_SIZE, HEADER_SIZE.
    - rewrite !le32_put_ne by lia. done.
    - rewrite le32_put_ne by lia. rewrite le32_put_eq by (unfold is_u32, HEADER_SIZE; lia). unfold HEADER_SIZE; lia. }
  exists (s1 <| hp_mem := m2 |>), (c_end c - n), s'. rewrite (bind_ok _ _ _ _ _ R1). done.
Qed.

(** C12: a chunk with eight bytes more than the request is taken, although there is no room for a
    header: its size wraps to almost 4 GiB, and the block that is handed out becomes the next chunk
    of the free list, because its header is written over that of the chunk. *)
Theorem kvmalloc_small_rest_corrupts fuel c n s : header (hp_mem s) c → free_list s = c_at c → c_base c = c_at c + HEADER_SIZE →
  0 <= n → c_size c = n + 8 → 0 < c_at c → c_end c < 4294967296 →
  ∃ p s', kvmalloc (S (S fuel)) n s = Ok (p, s') ∧ p + n = c_end c ∧ le32 (hp_mem s') (c_at c + OFF_NEXT) = p ∧
    le32 (hp_mem s') (c_at c + OFF_SIZE) = 4294967288.
Proof.
  intros [E0 E1 E2] Hfl Hb Hn Hs Ha He. unfold c_end, HEADER_SIZE in *. 
  assert (wp (kvmalloc (S (S fuel)) n) (λ p s', p = c_at c + 24 ∧ le32 (hp_mem s') (c_at c + OFF_NEXT) = p ∧
    le32 (hp_mem s') (c_at c + OFF_SIZE) = 4294967288) s) as (p & s' & R & -> & Hnx & Hsz).
  { cbn [kvmalloc search_loop]. wp_step. wp_step. wp_step. rewrite Hfl, (proj2 (Z.eqb_neq _ 0)) by done.
    wp_step. apply wp_hget; [done|]. rewrite E2, (proj2 (Z.leb_le n _)) by lia. wp_step. unfold take_block, HEADER_SIZE.
    wp_step. apply wp_hget; [done|]. rewrite E2, (proj2 (Z.eqb_neq _ _)) by lia.
    wp_step. apply wp_hset; [done|]. replace (u32 (c_size c - (n + 16))) with 4294967288 by (unfold u32; lia).
    wp_step. apply wp_hget; [done|]. wp_step. apply wp_hget; [done|]. rec_simpl.
    rewrite le32_put_eq, (le32_put_ne _ (c_at c + OFF_SIZE)) by (unfold is_u32, OFF_BASE, OFF_SIZE; lia). rewrite E1.
    replace (u32 (c_base c + 4294967288 + 16)) with (c_at c + 24) by (unfold u32; lia).
    replace (u32 (c_base c + 4294967288)) with (c_at c + 8) by (unfold u32; lia).
    wp_step. apply wp_hset; [lia|]. wp_step. apply wp_hset; [lia|]. wp_step. wp_step. wp_step. rec_simpl.
    rewrite (u32_id (c_at c + 24)) by (unfold is_u32; lia). split; [done|].
    unfold OFF_NEXT, OFF_SIZE, OFF_BASE. replace (c_at c + 8 + 0) with (c_at c + 8) by lia.
    split; [by rewrite le32_put_eq by (unfold is_u32; lia)|]. do 2 rewrite le32_put_ne by lia.
    by rewrite le32_put_eq by (unfold is_u32; lia). }
  exists (c_at c + 24), s'. split; [done|]. split; [lia|done].
Qed.
End kvmalloc.

(** ** A heap of 4 KiB *)
Module HeapDemo.
Definition empty : heap mm := MkHeap (λ _, 0) 0 PagingDemo.machine.
Lemma range : heap_range 3221225472 4096.
Proof. repeat split; unfold HEADER_SIZE; lia. Qed.
Definition tight : heap mm := MkHeap (put_le32 4096 4112 (put_le32 4100 108 (λ _, 0))) 4096 PagingDemo.machine.
End HeapDemo.
Lemma kvmalloc_sequence_witness : ∃ s', (kvmalloc_init 3221225472 4096 ;; kvmalloc_all 2 [100; 24]) HeapDemo.empty = Ok ([3221229468; 3221229428], s') ∧
  (3221229428 + 24 + HEADER_SIZE <= 3221229468).
Proof.
  destruct (kvmalloc_sequence 2 3221225472 4096 [100; 24] HeapDemo.empty HeapDemo.range) as (ps & s' & R & _ & _ & _ & D);
    [repeat constructor; discriminate|repeat constructor|discriminate|].
  assert (ps = [3221229468; 3221229428]) as ->.
  { vm_compute in R. by injection R as <- _. }
  exists s'. split; [exact R|]. exact (D 0%nat 1%nat _ _ _ ltac:(repeat constructor) eq_refl eq_refl eq_refl).
Defined.
Lemma kvmfree_kvmalloc_witness : ∃ s1 p s', (kvmalloc_init 3221225472 4096 ;; kvmalloc 2 100) HeapDemo.empty = Ok (p, s1) ∧
  kvmfree 1 p s1 = Ok (tt, s') ∧ free_chain (hp_mem s') 3221225472 [fresh 3221225472 4096].
Proof.
  destruct (kvmfree_kvmalloc 0 3221225472 4096 100 HeapDemo.empty HeapDemo.range) as (s1 & p & s' & R1 & R2 & _ & C);
    [discriminate|discriminate|reflexivity|].
  exists s1, p, s'. split; [exact R1|]. split; [exact R2|exact C].
Defined.
Lemma kvmalloc_small_rest_corrupts_witness : ∃ p s', kvmalloc 2 100 HeapDemo.tight = Ok (p, s') ∧ p = 4120 ∧ le32 (hp_mem s') 4104 = p.
Proof.
  destruct (kvmalloc_small_rest_corrupts 0 (MkChunk 4096 4112 108) 100 HeapDemo.tight) as (p & s' & R & E & N & _);
    [split; [discriminate|reflexivity|reflexivity]|reflexivity|reflexivity|discriminate|reflexivity|reflexivity|reflexivity|].
  exists p, s'. split; [exact R|]. split; [|exact N]. unfold c_end in E. simpl in E. lia.
Defined.
