(* ===== verification/Drive.v ===== *)
(** Drives: the table of partitions, requests for sectors (sys/drivers/drive.c) and the
    transfer of a buffer (blk_devio of sys/fs/devio.c). *)
From S2P Require Import Prelude Proc Mutex.

Definition MAX_NR_DRIVES : Z := 4.
Definition MAX_NR_PARTITIONS : Z := 4.
Definition SECTOR_SIZE : Z := 512.
Definition MBR_PTE1_OFF : Z := 446.
Definition PTE_SIZE : Z := 16.
Definition MBR_MAGIC : Z := 43605.
Definition HD_DEV : Z := 3.
Definition DEV_MAJOR (dev : Z) : Z := Z.land (Z.shiftr dev 8) 255.
Definition DEV_MINOR (dev : Z) : Z := Z.land dev 255.

(** ** Drives *)

(** [struct generic_disk_dev]; [driver] is false for a null pointer. There is at most one driver,
    whose functions are the class [DriveDriver]. *)
Record generic_disk_dev := MkDisk { driver : bool; minor : Z; lba_start : Z; lba_len : Z }.
#[export] Instance disk_eta : Eta generic_disk_dev := λ d, MkDisk (driver d) (minor d) (lba_start d) (lba_len d).
Record drives (D : Type) := MkDrives { disk_dev_table : Z → generic_disk_dev; current_driver : bool; hw : D }.
Arguments MkDrives {D}. Arguments disk_dev_table {D}. Arguments current_driver {D}. Arguments hw {D}.
#[export] Instance drives_eta D : Eta (drives D) := λ s, MkDrives (disk_dev_table s) (current_driver s) (hw s).

(** [struct drive_driver] over the state [D] of the hardware: [drive_start] takes the drive, the
    buffer, the number of sectors and the first one, and gives its result and the buffer. *)
Class DriveDriver (D : Type) := {
  drive_start : Z → (Z → Z) → Z → Z → rw_cmd → M D (Z * (Z → Z));
  drive_exists : Z → M D bool;
  drive_intr : M D unit
}.

(** What the driver of a drive does to its sectors. *)
Class DriveLaws (D : Type) `{DriveDriver D} := {
  sector : D → Z → Z → Z → Z;
  nr_sectors : Z → Z;
  start_read drive buf count lba d : 0 <= count → 0 <= lba → lba + count <= nr_sectors drive →
    ∃ buf' d', drive_start drive buf count lba READ d = Ok ((0, buf'), d') ∧
      (∀ i, 0 <= i < 512 * count → buf' i = sector d drive (lba + i / 512) (i mod 512)) ∧
      (∀ n l o, sector d' n l o = sector d n l o);
  start_write drive buf count lba d : 0 <= count → 0 <= lba → lba + count <= nr_sectors drive →
    ∃ d', drive_start drive buf count lba WRITE d = Ok ((0, buf), d') ∧
      (∀ n l o, 0 <= o < 512 → sector d' n l o =
        if bool_decide (n = drive ∧ lba <= l < lba + count) then buf ((l - lba) * 512 + o) else sector d n l o)
}.


Section drive.
Context {D : Type} `{DriveDriver D}.
Definition DM (A : Type) : Type := M (drives D) A.
Definition on_hw {A} (m : M D A) : DM A := zoom hw (λ d s, s <| hw := d |>) m.
Definition NR_DISKS : Z := MAX_NR_DRIVES * MAX_NR_PARTITIONS.
Definition disk_at (i : Z) : DM generic_disk_dev :=
  s ← get; if (0 <=? i) && (i <? NR_DISKS) then mret (disk_dev_table s i) else undef "disk_dev_table index out of range".
Definition upd_disk (i : Z) (f : generic_disk_dev → generic_disk_dev) : DM unit :=
  _ ← disk_at i; modify (λ s, s <| disk_dev_table ::= λ t, <[i := f (t i)]> t |>).
Definition all_disks : list nat := seq 0 (Z.to_nat NR_DISKS).

(** The loop over the table in [drive_init]. *)
Definition set_minors : DM unit := for_each all_disks (λ i, upd_disk (Z.of_nat i) (λ d, d <| minor := Z.of_nat i |>)).
Definition drive_driver_register : DM unit :=
  for_each all_disks (λ i, upd_disk (Z.of_nat i) (λ d, d <| driver := true |>)).

(** [current_driver = dev->driver], and the use of the driver that follows. *)
Definition use_driver (d : generic_disk_dev) : DM unit :=
  modify (λ s, s <| current_driver := driver d |>) ;;
  if driver d then mret tt else undef "null driver".

Definition parse_mbr (disk : Z) (buf : Z → Z) : DM unit :=
  if negb (le16 buf 510 =? MBR_MAGIC) then mret tt else
  for_each (seq 0 (Z.to_nat MAX_NR_PARTITIONS)) (λ i,
    let p := MBR_PTE1_OFF + Z.of_nat i * PTE_SIZE in
    when (negb (le32 buf (p + 12) =? 0))
      (upd_disk (disk * MAX_NR_PARTITIONS + Z.of_nat i) (λ d, d <| lba_start := le32 buf (p + 8) |> <| lba_len := le32 buf (p + 12) |>))).

(** [buf] keeps what the previous drive has left in it. *)
Fixpoint mbr_loop (l : list nat) (buf : Z → Z) : DM unit :=
  match l with
  | [] => mret tt
  | k :: l =>
      d ← disk_at (Z.of_nat k * MAX_NR_PARTITIONS);
      let i := Z.quot (minor d) MAX_NR_PARTITIONS in
      if negb (driver d) then undef "null driver" else
      e ← on_hw (drive_exists i);
      if e : bool then
        use_driver d ;;
        '(_, buf) ← on_hw (drive_start i buf 1 0 READ);
        parse_mbr i buf ;;
        mbr_loop l buf
      else mbr_loop l buf
  end.
Definition read_partition_table_mbr (buf : Z → Z) : DM unit := mbr_loop (seq 0 (Z.to_nat MAX_NR_DRIVES)) buf.

Definition drive_irq_handler (panicing : bool) : DM unit :=
  s ← get; if panicing || negb (current_driver s) then mret tt else on_hw drive_intr.

Definition drive_rw (n block_off : Z) (buf : Z → Z) (count : Z) (rw : rw_cmd) : DM (Z * (Z → Z)) :=
  if NR_DISKS <=? n then mret (-1, buf) else
  d ← disk_at n;
  let disk := Z.quot n MAX_NR_PARTITIONS in
  if lba_len d <? block_off then mret (-1, buf) else
  let block := u32 (lba_start d + block_off) in
  use_driver d ;;
  on_hw (drive_start disk buf count block rw).
End drive.

(** ** Buffers *)

(** A pointer to a buffer: the dummy at the head of the free list, or an element of the array
    that [cache_start] points to. *)
Inductive bufp := FreeHead | Buf (i : nat).
#[export] Instance bufp_eq : EqDecision bufp.
Proof. solve_decision. Defined.

(** [struct buffer]; [b_data] is the memory the pointer leads to. *)
Record buffer := MkBuffer {
  b_dev : Z; b_blknr : Z; b_blksize : Z; b_data : option (Z → Z); b_mutex : mutex; b_flags : Z;
  b_next_free : option bufp; b_prev_free : option bufp; b_next : option bufp; b_prev : option bufp
}.
#[export] Instance buffer_eta : Eta buffer := λ b, MkBuffer
  (b_dev b) (b_blknr b) (b_blksize b) (b_data b) (b_mutex b) (b_flags b)
  (b_next_free b) (b_prev_free b) (b_next b) (b_prev b).
Definition B_DWRITE : Z := 1.
Definition B_DONE : Z := 2.
Definition B_ERROR : Z := 4.
Definition has_flag (f : Z) (b : buffer) : bool := negb (Z.land (b_flags b) f =? 0).
Definition set_flag (f : Z) (b : buffer) : buffer := b <| b_flags ::= λ x, Z.lor x f |>.
Definition clear_flag (f : Z) (b : buffer) : buffer := b <| b_flags ::= λ x, Z.land x (Z.lnot f) |>.

Section blk.
Context {D : Type} `{DriveDriver D}.
Definition hddev_physio (bp : buffer) (rw : rw_cmd) : M (drives D) (Z * buffer) :=
  let ratio := Z.quot (b_blksize bp) SECTOR_SIZE in
  let block_off := u32 (b_blknr bp * ratio) in
  match b_data bp with
  | None => undef "null b_data"
  | Some data =>
      '(r, data) ← drive_rw (DEV_MINOR (b_dev bp)) block_off data (u32 ratio) rw;
      let bp := bp <| b_data := Some data |> in
      mret (if r <? 0 then (-1, set_flag B_ERROR bp) else (0, set_flag B_DONE bp))
  end.
(** [blk_dev_table] has the entries 0 to [HD_DEV], of which only the last has a function. *)
Definition blk_devio (bp : buffer) (rw : rw_cmd) : M (drives D) (Z * buffer) :=
  let major := DEV_MAJOR (b_dev bp) in
  if HD_DEV <? major then undef "blk_dev_table index out of range"
  else if major =? HD_DEV then hddev_physio bp rw
  else mret (- ENODEV, set_flag B_ERROR bp).
End blk.

(** ** The partition table *)
Lemma fetch_disk {D} i (s : drives D) : 0 <= i < NR_DISKS → disk_at i s = Ok (disk_dev_table s i, s).
Proof. intros Hi. unfold disk_at, get, mbind, M_bind. by rewrite (proj2 (Z.leb_le _ _)), (proj2 (Z.ltb_lt _ _)) by lia. Qed.
Lemma upd_disk_ok {D} i f (s : drives D) : 0 <= i < NR_DISKS →
  upd_disk i f s = Ok (tt, s <| disk_dev_table ::= λ t, <[i := f (t i)]> t |>).
Proof. intros Hi. unfold upd_disk. by rewrite (bind_ok _ _ _ _ _ (fetch_disk i s Hi)). Qed.

(** The entry of partition [i] in a master boot record. *)
Definition mbr_entry (buf : Z → Z) (i : Z) : Z * Z :=
  let p := MBR_PTE1_OFF + i * PTE_SIZE in (le32 buf (p + 8), le32 buf (p + 12)).
Definition set_partition (e : Z * Z) (d : generic_disk_dev) : generic_disk_dev :=
  if e.2 =? 0 then d else d <| lba_start := e.1 |> <| lba_len := e.2 |>.

Lemma parse_mbr_spec {D} disk buf (s : drives D) : 0 <= disk < MAX_NR_DRIVES → le16 buf 510 = MBR_MAGIC →
  ∃ s', parse_mbr disk buf s = Ok (tt, s') ∧ hw s' = hw s ∧ current_driver s' = current_driver s ∧
    ∀ j, disk_dev_table s' j =
      if bool_decide (j / MAX_NR_PARTITIONS = disk) then set_partition (mbr_entry buf (j mod MAX_NR_PARTITIONS)) (disk_dev_table s j)
      else disk_dev_table s j.
Proof.
  intros Hd Hm. unfold parse_mbr. rewrite Hm, Z.eqb_refl. simpl negb. cbv iota. unfold MAX_NR_DRIVES, MAX_NR_PARTITIONS in *.
  destruct (for_range_ok (λ n s', hw s' = hw s ∧ current_driver s' = current_driver s ∧ ∀ j, disk_dev_table s' j =
    if bool_decide (disk * 4 <= j < disk * 4 + Z.of_nat n) then set_partition (mbr_entry buf (j - disk * 4)) (disk_dev_table s j)
    else disk_dev_table s j) (λ i,
      let p := MBR_PTE1_OFF + Z.of_nat i * PTE_SIZE in
      when (negb (le32 buf (p + 12) =? 0))
        (upd_disk (disk * 4 + Z.of_nat i) (λ d, d <| lba_start := le32 buf (p + 8) |> <| lba_len := le32 buf (p + 12) |>)))
    (Z.to_nat 4) s) as (s' & R & H1 & H2 & H3).
  - split; [done|]. split; [done|]. intros j. by rewrite bool_decide_eq_false_2 by lia.
  - intros i s1 Hi (H1 & H2 & H3). cbv zeta.
    assert (∀ j, bool_decide (disk * 4 <= j < disk * 4 + Z.of_nat (S i)) =
      (bool_decide (j = disk * 4 + Z.of_nat i) || bool_decide (disk * 4 <= j < disk * 4 + Z.of_nat i))%bool) as Hb.
    { intros j. rewrite <-bool_decide_or. apply bool_decide_ext. lia. }
    assert (mbr_entry buf (Z.of_nat i) = (le32 buf (446 + Z.of_nat i * 16 + 8), le32 buf (446 + Z.of_nat i * 16 + 12))) as He by done.
    unfold MBR_PTE1_OFF, PTE_SIZE. destruct (Z.eqb_spec (le32 buf (446 + Z.of_nat i * 16 + 12)) 0) as [E|E].
    + exists s1. split; [done|]. split; [done|]. split; [done|]. intros j. rewrite Hb, H3.
      destruct (decide (j = disk * 4 + Z.of_nat i)) as [->|C]; [|by rewrite (bool_decide_eq_false_2 (j = _))].
      rewrite bool_decide_eq_false_2, bool_decide_eq_true_2 by lia. simpl.
      replace (disk * 4 + Z.of_nat i - disk * 4) with (Z.of_nat i) by lia. rewrite He. unfold set_partition. simpl. by rewrite E.
    + eexists. split; [apply upd_disk_ok; unfold NR_DISKS, MAX_NR_DRIVES, MAX_NR_PARTITIONS; lia|].
      split; [done|]. split; [done|]. intros j. rec_simpl. rewrite Hb. destruct (decide (j = disk * 4 + Z.of_nat i)) as [->|C].
      * rewrite fn_insert_eq, H3. rewrite bool_decide_eq_false_2, bool_decide_eq_true_2 by lia. simpl.
        replace (disk * 4 + Z.of_nat i - disk * 4) with (Z.of_nat i) by lia. rewrite He. unfold set_partition. simpl.
        by rewrite (proj2 (Z.eqb_neq _ _) E).
      * rewrite fn_insert_ne, (bool_decide_eq_false_2 (j = _)) by done. apply H3.
  - exists s'. split; [exact R|]. split; [done|]. split; [done|]. intros j. rewrite H3.
    replace (bool_decide (disk * 4 <= j < disk * 4 + Z.of_nat (Z.to_nat 4))) with (bool_decide (j / 4 = disk))
      by (apply bool_decide_ext; lia).
    case_bool_decide; [|done]. do 2 f_equal. lia.
Qed.

(** A master boot record with the given partitions. *)
Definition put_entry (part : Z → Z * Z) (i : Z) (m : Z → Z) : Z → Z :=
  let p := MBR_PTE1_OFF + i * PTE_SIZE in put_le32 (p + 8) (part i).1 (put_le32 (p + 12) (part i).2 m).
Definition mbr_image (part : Z → Z * Z) (m : Z → Z) : Z → Z :=
  put_le16 510 MBR_MAGIC (put_entry part 0 (put_entry part 1 (put_entry part 2 (put_entry part 3 m)))).

Lemma mbr_image_entry part m i : (∀ i, is_u32 (part i).1 ∧ is_u32 (part i).2) → 0 <= i < 4 →
  mbr_entry (mbr_image part m) i = part i.
Proof.
  intros Hp Hi. unfold mbr_entry, mbr_image, put_entry, MBR_PTE1_OFF, PTE_SIZE.
  assert (i = 0 ∨ i = 1 ∨ i = 2 ∨ i = 3) as [-> | [-> | [-> | ->]]] by lia;
    rewrite !le32_put16_ne by lia;
    repeat first [rewrite le32_put_eq by apply Hp | rewrite le32_put_ne by lia]; by destruct (part _).
Qed.

(** ** Requests *)
Section requests.
Context {D : Type} `{DriveLaws D}.
Implicit Types s : drives D.

(** A partition that lies on its drive. *)
Definition partition_ok (n : Z) s : Prop :=
  0 <= n < NR_DISKS ∧ driver (disk_dev_table s n) = true ∧ 0 <= lba_start (disk_dev_table s n) ∧
  0 <= lba_len (disk_dev_table s n) ∧
  lba_start (disk_dev_table s n) + lba_len (disk_dev_table s n) <= nr_sectors (n / MAX_NR_PARTITIONS) < 4294967296.
(** Byte [o] of sector [l] of a partition. *)
Definition part_sector s (n l o : Z) : Z :=
  sector (hw s) (n / MAX_NR_PARTITIONS) (lba_start (disk_dev_table s n) + l) o.

Lemma drive_rw_runs n off buf count rw s r d' : partition_ok n s → 0 <= off <= lba_len (disk_dev_table s n) →
  drive_start (n / MAX_NR_PARTITIONS) buf count (lba_start (disk_dev_table s n) + off) rw (hw s) = Ok (r, d') →
  drive_rw n off buf count rw s = Ok (r, s <| current_driver := true |> <| hw := d' |>).
Proof.
  intros (Hn & Hd & Hs & Hl & Ht) Hoff R. unfold drive_rw. rewrite (proj2 (Z.leb_gt _ _)) by lia.
  rewrite (bind_ok _ _ _ _ _ (fetch_disk n s Hn)). cbv zeta. rewrite (proj2 (Z.ltb_ge _ _)) by lia.
  rewrite u32_id by (unfold is_u32; lia). rewrite Z.quot_div_nonneg by (unfold MAX_NR_PARTITIONS; lia).
  unfold use_driver. rewrite Hd. unfold mbind, M_bind, modify, mret, M_ret, on_hw, zoom. rec_simpl. by rewrite R.
Qed.

(** What a request for the sectors from [lba] on does to the buffer and to the drive. *)
Definition transferred (drive lba count : Z) (buf : Z → Z) (rw : rw_cmd) (d d' : D) (buf' : Z → Z) : Prop :=
  match rw with
  | READ => (∀ i, 0 <= i < 512 * count → buf' i = sector d drive (lba + i / 512) (i mod 512)) ∧
            (∀ m l o, sector d' m l o = sector d m l o)
  | WRITE => buf' = buf ∧ ∀ m l o, 0 <= o < 512 → sector d' m l o =
      if bool_decide (m = drive ∧ lba <= l < lba + count) then buf ((l - lba) * 512 + o) else sector d m l o
  end.
Lemma start_transfers drive buf count lba rw d : 0 <= count → 0 <= lba → lba + count <= nr_sectors drive →
  ∃ buf' d', drive_start drive buf count lba rw d = Ok ((0, buf'), d') ∧ transferred drive lba count buf rw d d' buf'.
Proof.
  intros Hc Hl Ht. destruct rw.
  - destruct (start_read drive buf count lba d Hc Hl Ht) as (buf' & d' & R & H1 & H2). by exists buf', d'.
  - destruct (start_write drive buf count lba d Hc Hl Ht) as (d' & R & H1). by exists buf, d'.
Qed.
Lemma drive_rw_ok n off buf count rw s : partition_ok n s → 0 <= off <= lba_len (disk_dev_table s n) → 0 <= count →
  lba_start (disk_dev_table s n) + off + count <= nr_sectors (n / MAX_NR_PARTITIONS) →
  ∃ buf' d', drive_rw n off buf count rw s = Ok ((0, buf'), s <| current_driver := true |> <| hw := d' |>) ∧
    transferred (n / MAX_NR_PARTITIONS) (lba_start (disk_dev_table s n) + off) count buf rw (hw s) d' buf'.
Proof.
  intros Hp Ho Hc Ht. pose proof Hp as (_ & _ & Hs & _).
  destruct (start_transfers (n / MAX_NR_PARTITIONS) buf count (lba_start (disk_dev_table s n) + off) rw (hw s))
    as (buf' & d' & R & X); [lia..|]. exists buf', d'. split; [|done]. by apply drive_rw_runs.
Qed.
End requests.

(** ** Blocks

    What the buffer cache needs of a device, and that the drives give it. *)
Class BlockDevice (D : Type) := { devio : buffer → rw_cmd → M D (Z * buffer) }.
(** [block d dev bs nr i] is byte [i] of block [nr] of the device, in blocks of [bs] bytes. *)
Class BlockLaws (D : Type) `{BlockDevice D} := {
  block : D → Z → Z → Z → Z → Z;
  on_dev : D → Z → Z → Z → Prop;
  devio_read bp data d : b_data bp = Some data → on_dev d (b_dev bp) (b_blksize bp) (b_blknr bp) →
    ∃ data' d', devio bp READ d = Ok ((0, set_flag B_DONE (bp <| b_data := Some data' |>)), d') ∧
      (∀ i, 0 <= i < b_blksize bp → data' i = block d (b_dev bp) (b_blksize bp) (b_blknr bp) i) ∧
      (∀ dev bs nr i, block d' dev bs nr i = block d dev bs nr i) ∧
      (∀ dev bs nr, on_dev d' dev bs nr ↔ on_dev d dev bs nr);
  devio_write bp data d : b_data bp = Some data → on_dev d (b_dev bp) (b_blksize bp) (b_blknr bp) →
    ∃ d', devio bp WRITE d = Ok ((0, set_flag B_DONE bp), d') ∧
      (∀ nr i, 0 <= i < b_blksize bp → block d' (b_dev bp) (b_blksize bp) nr i =
        if bool_decide (nr = b_blknr bp) then data i else block d (b_dev bp) (b_blksize bp) nr i) ∧
      (∀ dev bs nr, on_dev d' dev bs nr ↔ on_dev d dev bs nr)
}.

#[export] Instance drives_dev D `{DriveDriver D} : BlockDevice (drives D) := {| devio := blk_devio |}.

Section blocks.
Context {D : Type} `{DriveLaws D}.
Implicit Types s : drives D.
Definition sectors_per (bs : Z) : Z := Z.quot bs SECTOR_SIZE.
Definition drive_block s (dev bs nr i : Z) : Z := part_sector s (DEV_MINOR dev) (nr * sectors_per bs + i / 512) (i mod 512).
Definition block_on_drive s (dev bs nr : Z) : Prop :=
  DEV_MAJOR dev = HD_DEV ∧ partition_ok (DEV_MINOR dev) s ∧ bs = 512 * sectors_per bs ∧ 0 <= sectors_per bs < 4294967296 ∧
  0 <= nr ∧ nr * sectors_per bs + sectors_per bs <= lba_len (disk_dev_table s (DEV_MINOR dev)).

Lemma hddev_ok bp data rw s : b_data bp = Some data → block_on_drive s (b_dev bp) (b_blksize bp) (b_blknr bp) →
  let n := DEV_MINOR (b_dev bp) in let r := sectors_per (b_blksize bp) in
  ∃ data' d', blk_devio bp rw s = Ok ((0, set_flag B_DONE (bp <| b_data := Some data' |>)), s <| current_driver := true |> <| hw := d' |>) ∧
    transferred (n / MAX_NR_PARTITIONS) (lba_start (disk_dev_table s n) + b_blknr bp * r) r data rw (hw s) d' data'.
Proof.
  intros Hdata (Hmaj & Hp & Hbs & Hr & Hnr & Hend) n r. fold n r in Hp, Hbs, Hr, Hend.
  pose proof Hp as (_ & _ & Hst & _ & Ht). fold n in Hst, Ht.
  destruct (drive_rw_ok n (b_blknr bp * r) data r rw s Hp) as (data' & d' & R & X); [nia|lia|lia|].
  exists data', d'. split; [|done]. unfold blk_devio. rewrite Hmaj. simpl. unfold hddev_physio. rewrite Hdata. fold n.
  change (Z.quot (b_blksize bp) SECTOR_SIZE) with r. rewrite (u32_id (b_blknr bp * r)), (u32_id r) by (unfold is_u32; nia).
  by rewrite (bind_ok _ _ _ _ _ R).
Qed.
Lemma drive_block_write s d' b nr dev bs data i :
  let n := DEV_MINOR dev in let r := sectors_per bs in
  bs = 512 * r → 0 <= i < bs →
  transferred (n / MAX_NR_PARTITIONS) (lba_start (disk_dev_table s n) + nr * r) r data WRITE (hw s) d' data →
  drive_block (s <| current_driver := true |> <| hw := d' |>) dev bs b i =
    if bool_decide (b = nr) then data i else drive_block s dev bs b i.
Proof.
  intros n r Hbs Hi [_ X]. unfold drive_block, part_sector. rec_simpl. fold n r. rewrite X by lia.
  assert (0 <= i / 512 < r) as Hq by lia. destruct (decide (b = nr)) as [->|Hne].
  - rewrite !bool_decide_eq_true_2 by (done || lia). f_equal. lia.
  - rewrite !bool_decide_eq_false_2; [done|done|]. intros [_ Hl]. nia.
Qed.
End blocks.

#[export] Instance drives_laws D `{DL : DriveLaws D} : BlockLaws (drives D).
Proof.
  refine {| block := drive_block; on_dev := block_on_drive |}.
  - intros bp data s Hd Hon. destruct (hddev_ok bp data READ s Hd Hon) as (data' & d' & R & X & Y).
    exists data', (s <| current_driver := true |> <| hw := d' |>). split; [exact R|]. split; [|split].
    + intros i Hi. destruct Hon as (_ & _ & Hbs & _). unfold drive_block, part_sector. rewrite X by lia. f_equal. lia.
    + intros. unfold drive_block, part_sector. rec_simpl. apply Y.
    + done.
  - intros bp data s Hd Hon. destruct (hddev_ok bp data WRITE s Hd Hon) as (data' & d' & R & X).
    pose proof X as [-> _]. exists (s <| current_driver := true |> <| hw := d' |>).
    assert (bp <| b_data := Some data |> = bp) as E by (destruct bp; simpl in Hd; by subst). rewrite E in R.
    split; [exact R|]. split; [|done]. intros nr i Hi. destruct Hon as (_ & _ & Hbs & _). by apply drive_block_write.
Defined.

(** ** Drives made of memory *)
Module RamDisk.
Definition ram : Type := Z → Z → Z → Z.
Definition ram_start (drive : Z) (buf : Z → Z) (count lba : Z) (rw : rw_cmd) : M ram (Z * (Z → Z)) :=
  match rw with
  | READ => d ← get; mret (0, λ i, d drive (lba + i / 512) (i mod 512))
  | WRITE => modify (λ (d : ram) n l o,
      if bool_decide (n = drive ∧ lba <= l < lba + count) then buf ((l - lba) * 512 + o) else d n l o) ;; mret (0, buf)
  end.
#[export] Instance ram_driver : DriveDriver ram :=
  {| drive_start := ram_start; drive_exists := λ n, mret (n =? 0); drive_intr := mret tt |}.
#[export] Instance ram_laws : DriveLaws ram.
Proof.
  refine {| sector := λ (d : ram) n l o, d n l o; nr_sectors := λ _, 1000 |}.
  - intros drive buf count lba d _ _ _. by eexists _, d.
  - intros drive buf count lba d _ _ _. by eexists.
Defined.
(** Partitions 0 and 1 of drive 0 take the sectors 100 to 899 and 900 to 949. *)
Definition disks : drives ram := MkDrives
  (λ i, if i =? 0 then MkDisk true 0 100 800 else if i =? 1 then MkDisk true 1 900 50 else MkDisk true i 0 0)
  false (λ _ l o, (l + o) mod 256).
Lemma disks_ok : partition_ok 0 disks.
Proof. repeat split; simpl; lia. Qed.
End RamDisk.
Import RamDisk.

(** ** Properties *)

(** A request for a disk that the table does not have, or for an offset behind the end of the
    partition, is refused before the driver is called. *)
Theorem drive_rw_refused {D} `{DriveDriver D} n off buf count rw (s : drives D) : 0 <= n →
  NR_DISKS <= n ∨ lba_len (disk_dev_table s n) < off → drive_rw n off buf count rw s = Ok ((-1, buf), s).
Proof.
  intros Hn Hg. unfold drive_rw. destruct (Z.leb_spec NR_DISKS n); [done|]. destruct Hg as [|Hg]; [lia|].
  rewrite (bind_ok _ _ _ _ _ (fetch_disk n s ltac:(lia))). cbv zeta. by rewrite (proj2 (Z.ltb_lt _ _)).
Qed.
Lemma drive_rw_refused_witness : drive_rw 0 801 (λ _, 7) 1 WRITE disks = Ok ((-1, λ _, 7), disks).
Proof. apply (drive_rw_refused 0 801); [lia|]. right. simpl. lia. Defined.

(** With a driver that obeys [DriveLaws], a request that ends within its partition succeeds and touches only the sectors of the
    partition that it names: a read delivers them and changes no sector of any drive, a write stores
    the buffer in them and changes no other sector. *)
Theorem drive_rw_confined {D} `{DriveLaws D} n off buf count rw (s : drives D) :
  partition_ok n s → 0 <= off → 0 <= count → off + count <= lba_len (disk_dev_table s n) →
  ∃ buf' s', drive_rw n off buf count rw s = Ok ((0, buf'), s') ∧ disk_dev_table s' = disk_dev_table s ∧
    match rw with
    | READ => (∀ i, 0 <= i < 512 * count → buf' i = part_sector s n (off + i / 512) (i mod 512)) ∧
              ∀ m l o, sector (hw s') m l o = sector (hw s) m l o
    | WRITE => (∀ l o, 0 <= o < 512 → part_sector s' n l o =
                  if bool_decide (off <= l < off + count) then buf ((l - off) * 512 + o) else part_sector s n l o) ∧
               ∀ m l o, 0 <= o < 512 →
                 m ≠ n / MAX_NR_PARTITIONS ∨ l < lba_start (disk_dev_table s n) ∨
                 lba_start (disk_dev_table s n) + lba_len (disk_dev_table s n) <= l →
                 sector (hw s') m l o = sector (hw s) m l o
    end.
Proof.
  intros Hp Ho Hc Hend. pose proof Hp as (_ & _ & Hst & _ & Ht).
  destruct (drive_rw_ok n off buf count rw s Hp) as (buf' & d' & R & X); [lia..|].
  eexists _, _. split; [exact R|]. split; [done|]. destruct rw; destruct X as [X1 X2].
  - split; [|exact X2]. intros i Hi. rewrite X1 by done. unfold part_sector. f_equal. lia.
  - split; [|intros m l o Hlo Hout; rec_simpl; rewrite X2, bool_decide_eq_false_2; [done|lia|done]].
    intros l o Hlo. unfold part_sector. rec_simpl. rewrite X2 by done.
    destruct (decide (off <= l < off + count)).
    + rewrite !bool_decide_eq_true_2 by (done || lia). f_equal. lia.
    + rewrite !bool_decide_eq_false_2; [done|done|lia].
Qed.
Lemma drive_rw_confined_witness : ∃ buf' s', drive_rw 0 5 (λ _, 0) 2 READ disks = Ok ((0, buf'), s') ∧ buf' 513 = 107.
Proof.
  destruct (drive_rw_confined 0 5 (λ _, 0) 2 READ disks disks_ok ltac:(lia) ltac:(lia) ltac:(simpl; lia))
    as (buf' & s' & R & _ & H & _).
  exists buf', s'. split; [exact R|]. rewrite H by lia. reflexivity.
Defined.

(** The test [block_off > lba_len] lets the block behind the last one through and leaves the length
    of the request out: a write there changes the sector after the partition. *)
Theorem drive_rw_escapes {D} `{DriveLaws D} n buf (s : drives D) : let e := disk_dev_table s n in
  partition_ok n s → lba_start e + lba_len e < nr_sectors (n / MAX_NR_PARTITIONS) →
  ∃ s', drive_rw n (lba_len e) buf 1 WRITE s = Ok ((0, buf), s') ∧
    ∀ o, 0 <= o < 512 → sector (hw s') (n / MAX_NR_PARTITIONS) (lba_start e + lba_len e) o = buf o.
Proof.
  intros e Hp Hlt. pose proof Hp as (_ & _ & Hst & Hl & Ht). fold e in Hst, Hl, Ht.
  destruct (drive_rw_ok n (lba_len e) buf 1 WRITE s Hp) as (buf' & d' & R & -> & X); [fold e; lia..|].
  eexists. split; [exact R|]. intros o Ho. rec_simpl. rewrite X by done. fold e.
  rewrite bool_decide_eq_true_2 by lia. f_equal. lia.
Qed.
Lemma drive_rw_escapes_witness : ∃ s', drive_rw 0 800 (λ _, 7) 1 WRITE disks = Ok ((0, λ _, 7), s') ∧
  part_sector s' 1 0 0 = 7.
Proof.
  destruct (drive_rw_escapes 0 (λ _, 7) disks disks_ok ltac:(simpl; lia)) as (s' & R & H).
  exists s'. split; [exact R|]. injection R as <-. apply (H 0). lia.
Defined.

(** Reading the table of partitions of a drive gives back the partitions that were written into
    its master boot record; an entry of length 0 and the other drives stay as they were. *)
Theorem parse_mbr_roundtrip {D} disk part m (s : drives D) : 0 <= disk < MAX_NR_DRIVES →
  (∀ i, is_u32 (part i).1 ∧ is_u32 (part i).2) →
  ∃ s', parse_mbr disk (mbr_image part m) s = Ok (tt, s') ∧
    (∀ i, 0 <= i < MAX_NR_PARTITIONS → (part i).2 ≠ 0 →
       lba_start (disk_dev_table s' (disk * MAX_NR_PARTITIONS + i)) = (part i).1 ∧
       lba_len (disk_dev_table s' (disk * MAX_NR_PARTITIONS + i)) = (part i).2) ∧
    (∀ i, 0 <= i < MAX_NR_PARTITIONS → (part i).2 = 0 →
       disk_dev_table s' (disk * MAX_NR_PARTITIONS + i) = disk_dev_table s (disk * MAX_NR_PARTITIONS + i)) ∧
    (∀ j, j / MAX_NR_PARTITIONS ≠ disk → disk_dev_table s' j = disk_dev_table s j).
Proof.
  intros Hd Hp. assert (le16 (mbr_image part m) 510 = MBR_MAGIC) as Hm by (apply le16_put_eq; unfold is_u16, MBR_MAGIC; lia).
  destruct (parse_mbr_spec disk _ s Hd Hm) as (s' & R & _ & _ & H). exists s'. split; [done|].
  assert (∀ i, 0 <= i < MAX_NR_PARTITIONS → disk_dev_table s' (disk * MAX_NR_PARTITIONS + i) =
    set_partition (part i) (disk_dev_table s (disk * MAX_NR_PARTITIONS + i))) as Hi.
  { unfold MAX_NR_PARTITIONS in *. intros i Hi. rewrite H, bool_decide_eq_true_2 by lia.
    rewrite mbr_image_entry by (done || lia). repeat f_equal; lia. }
  unfold set_partition in Hi. split; [|split].
  - intros i Hr Hz. rewrite Hi by done. by rewrite (proj2 (Z.eqb_neq _ _) Hz).
  - intros i Hr Hz. rewrite Hi by done. by rewrite Hz.
  - intros j Hj. rewrite H. by rewrite bool_decide_eq_false_2.
Qed.
Lemma parse_mbr_roundtrip_witness : ∃ s', parse_mbr 0 (mbr_image (λ i, (63 + 100 * i, 100)) (λ _, 0)) disks = Ok (tt, s') ∧
  lba_start (disk_dev_table s' 1) = 163.
Proof.
  destruct (parse_mbr_roundtrip 0 (λ i, (u32 (63 + 100 * i), 100)) (λ _, 0) disks) as (s' & R & H & _).
  - unfold MAX_NR_DRIVES. lia.
  - intros i. split; [apply u32_range|unfold is_u32; simpl; lia].
  - exists s'. split; [exact R|]. apply (H 1); [unfold MAX_NR_PARTITIONS; lia|done].
Defined.
