(* ===== verification/Buffer.v ===== *)
(** The buffer cache (sys/fs/buffer.c): getblk, bread, brelse, bwrite and buffer_sync over the
    ring of free buffers and the hash queues, which are rings too. What ext2 relies on is that a
    block has one buffer and that its contents are those of the block. *)
From S2P Require Import Prelude DList HashQ Proc Files Sched Mutex Drive.

Definition NR_BUF_HASH : Z := 100.
Definition NR_BUF_BUFFERS : nat := 128.
Definition NODEV : Z := 0.
Definition GET_BLOCKSIZE : Z := 0.

(** The kernel, the buffers with the hash queues, and the device. *)
Record bstate (D : Type) := MkBs { bs_k : kernel; buf : bufp → buffer; hash_queues : Z → option bufp; bs_d : D }.
Arguments MkBs {D}. Arguments bs_k {D}. Arguments buf {D}. Arguments hash_queues {D}. Arguments bs_d {D}.
#[export] Instance bstate_eta D : Eta (bstate D) := λ s, MkBs (bs_k s) (buf s) (hash_queues s) (bs_d s).

(** The addresses on which processes sleep, and the contents of memory from [kvmalloc]. *)
Class Layout := { buf_addr : bufp → Z; mutex_addr : bufp → Z; kvmalloc_bytes : Z → Z → Z }.

(** What is left of a [brelse] whose [wakeup] has switched to another process. *)
Inductive brelse_rest := WakeFreeList (p : bufp) | Unlock (p : bufp).
(** A call returns or the process is no longer running. *)
Inductive call (A : Type) := Returned (a : A) | Blocked (rest : option brelse_rest).
Arguments Returned {A}. Arguments Blocked {A}.

Definition BUF_HASH (dev blknr : Z) : Z := Z.lxor dev blknr mod NR_BUF_HASH.

Section buffer.
Context {D : Type} `{FsDriver D} `{BlockDevice D} `{Layout}.
Definition B (A : Type) : Type := M (bstate D) A.
Implicit Types (p : bufp) (s : bstate D).

Definition valid p : bool := match p with FreeHead => true | Buf i => (i <? NR_BUF_BUFFERS)%nat end.
Definition get_buf p : B buffer :=
  s ← get; if valid p then mret (buf s p) else undef "pointer behind the buffer cache".
Definition upd_buf p (f : buffer → buffer) : B unit :=
  if valid p then modify (λ s, s <| buf ::= λ t, <[p := f (t p)]> t |>) else undef "pointer behind the buffer cache".
Definition in_k {A} (m : K A) : B A := zoom bs_k (λ k s, s <| bs_k := k |>) m.
Definition in_fsys {A} (m : M (kernel * D) A) : B A :=
  zoom (λ s, (bs_k s, bs_d s)) (λ kd s, s <| bs_k := fst kd |> <| bs_d := snd kd |>) m.
(** An operation on the mutex of a buffer. *)
Definition buf_mutex p s : mstate := MkMState (bs_k s) (b_mutex (buf s p)) (λ _, Outside).
Definition in_mutex p {A} (m : M mstate A) : B A :=
  zoom (buf_mutex p) (λ ms s, s <| bs_k := mk ms |> <| buf ::= λ t, <[p := (t p) <| b_mutex := mtx ms |> ]> t |>) m.
Definition buf_locked p : B bool := gets (λ s, mutex_locked (buf_mutex p s)).

(** ** Queues *)
Definition next_free s p : option bufp := if valid p then b_next_free (buf s p) else None.
Definition prev_free s p : option bufp := if valid p then b_prev_free (buf s p) else None.
Definition hash_next s p : option bufp := if valid p then b_next (buf s p) else None.
Definition hash_prev s p : option bufp := if valid p then b_prev (buf s p) else None.
Definition WALK_FUEL : nat := NR_BUF_BUFFERS + 1.

Definition is_block (dev blknr : Z) (b : buffer) : bool := (b_dev b =? dev) && (b_blknr b =? blknr).
Definition in_hash_queue (dev blknr : Z) : B (option bufp) :=
  q ← gets (λ s, hash_queues s (BUF_HASH dev blknr));
  match q with
  | None => mret None
  | Some p => reads (λ s, ring_search WALK_FUEL (hash_next s) (λ p, is_block dev blknr (buf s p)) p p)
  end.

Definition remove_from_free_list p : B unit :=
  b ← get_buf p;
  match b_prev_free b, b_next_free b with
  | None, None => mret tt
  | Some e, Some n =>
      upd_buf e (λ q, q <| b_next_free := Some n |>) ;;
      upd_buf n (λ q, q <| b_prev_free := Some e |>) ;;
      upd_buf p (λ q, q <| b_next_free := None |> <| b_prev_free := None |>)
  | _, _ => panic "remove_from_free_list: free list has been corrupted"
  end.

Definition set_hash_queue (h : Z) (q : option bufp) : B unit := modify (λ s, s <| hash_queues ::= <[h := q]> |>).
Definition remove_from_hash_queue p : B unit :=
  b ← get_buf p;
  match b_prev b, b_next b with
  | None, None => mret tt
  | Some e, Some n =>
      (if bool_decide (e = p) && bool_decide (n = p) then set_hash_queue (BUF_HASH (b_dev b) (b_blknr b)) None
       else upd_buf e (λ q, q <| b_next := Some n |>) ;; upd_buf n (λ q, q <| b_prev := Some e |>)) ;;
      upd_buf p (λ q, q <| b_next := None |> <| b_prev := None |>)
  | _, _ => panic "remove_from_hash_queue: bp is not on a hash queue or queue has been corrupted!"
  end.

Definition put_into_hash_queue p : B unit :=
  b ← get_buf p;
  let h := BUF_HASH (b_dev b) (b_blknr b) in
  q ← gets (λ s, hash_queues s h);
  match q with
  | None =>
      set_hash_queue h (Some p) ;;
      upd_buf p (λ q, q <| b_next := Some p |>) ;;
      upd_buf p (λ q, q <| b_prev := Some p |>)
  | Some t1 =>
      t2 ← reads (λ s, find_last WALK_FUEL (hash_next s) t1 t1);
      upd_buf t2 (λ q, q <| b_next := Some p |>) ;;
      upd_buf p (λ q, q <| b_prev := Some t2 |>) ;;
      upd_buf p (λ q, q <| b_next := Some t1 |>) ;;
      upd_buf t1 (λ q, q <| b_prev := Some p |>)
  end.

Definition put_into_free_list p : B unit :=
  b ← get_buf p;
  f ← get_buf FreeHead;
  if negb (has_flag B_DWRITE b) && negb (has_flag B_ERROR b) then
    upd_buf p (λ q, q <| b_prev_free := b_prev_free f |>) ;;
    upd_buf p (λ q, q <| b_next_free := Some FreeHead |>) ;;
    f ← get_buf FreeHead;
    e ← deref (b_prev_free f) "null b_prev_free";
    upd_buf e (λ q, q <| b_next_free := Some p |>) ;;
    upd_buf FreeHead (λ q, q <| b_prev_free := Some p |>)
  else
    upd_buf p (λ q, q <| b_prev_free := Some FreeHead |>) ;;
    upd_buf p (λ q, q <| b_next_free := b_next_free f |>) ;;
    f ← get_buf FreeHead;
    n ← deref (b_next_free f) "null b_next_free";
    upd_buf n (λ q, q <| b_prev_free := Some p |>) ;;
    upd_buf FreeHead (λ q, q <| b_next_free := Some p |>).

(** ** Releasing and writing *)

(** The last statement runs when the process is chosen again. *)
Definition brelse_finish : B unit := in_k enable_intr.
Definition brelse_unlock p : B (option brelse_rest) :=
  in_mutex p (mutex_unlock (mutex_addr p)) ;; brelse_finish ;; mret None.
Definition brelse_wake p : B (option brelse_rest) :=
  sw ← in_k (wakeup (buf_addr FreeHead) WAKEUP_SWITCH);
  if sw : bool then mret (Some (Unlock p)) else brelse_unlock p.
Definition brelse p : B (option brelse_rest) :=
  b ← get_buf p;
  if negb (lock (b_mutex b)) then mret None else
  in_k disable_intr ;;
  put_into_free_list p ;;
  sw ← in_k (wakeup (buf_addr p) WAKEUP_SWITCH);
  if sw : bool then mret (Some (WakeFreeList p)) else brelse_wake p.
(** The process is chosen again. *)
Definition brelse_resume (rest : brelse_rest) : B (option brelse_rest) :=
  in_k resume ;;
  match rest with WakeFreeList p => brelse_wake p | Unlock p => brelse_unlock p end.

Definition blk_devio_at p (rw : rw_cmd) : B Z :=
  b ← get_buf p;
  '(r, b') ← zoom bs_d (λ d s, s <| bs_d := d |>) (devio b rw);
  upd_buf p (λ _, b') ;;
  mret r.
Definition bwrite p : B (option brelse_rest) := blk_devio_at p WRITE ;; brelse p.

(** The buffers that are left when a [brelse] has switched to another process. *)
Fixpoint sync_loop (l : list nat) : B (option (brelse_rest * list nat)) :=
  match l with
  | [] => mret None
  | i :: l =>
      b ← get_buf (Buf i);
      locked ← buf_locked (Buf i);
      if has_flag B_DWRITE b && negb locked then
        upd_buf (Buf i) (clear_flag B_DWRITE) ;;
        r ← bwrite (Buf i);
        match r with Some rest => mret (Some (rest, l)) | None => sync_loop l end
      else sync_loop l
  end.
Definition buffer_sync : B (option (brelse_rest * list nat)) := sync_loop (seq 0 NR_BUF_BUFFERS).

(** ** Getting a buffer *)

(** The buffer from the head of the free list gets a new block. *)
Definition take_over p (dev blknr : Z) : B unit :=
  in_mutex p (mutex_lock (mutex_addr p)) ;;
  upd_buf p (λ b, b <| b_dev := dev |>) ;;
  upd_buf p (λ b, b <| b_blknr := blknr |>) ;;
  old ← get_buf p;
  bs ← in_fsys (filesystem_get_attr dev GET_BLOCKSIZE);
  upd_buf p (λ b, b <| b_blksize := s32 bs |>) ;;
  when (negb (s32 bs =? 0) && negb (b_blksize old =? s32 bs))
    (upd_buf p (λ b, b <| b_data := Some (kvmalloc_bytes (s32 bs)) |>)) ;;
  upd_buf p (λ b, b <| b_flags := 0 |>) ;;
  remove_from_hash_queue p ;;
  put_into_hash_queue p.

(** One turn of the loop of [getblk]; [None] for [continue]. *)
Definition getblk_turn (dev blknr : Z) : B (option (call bufp)) :=
  o ← in_hash_queue dev blknr;
  match o with
  | Some p =>
      locked ← buf_locked p;
      if locked : bool then in_k (sleep (buf_addr p) PROC_SLEEP_INTERRUPTIBLE) ;; mret (Some (Blocked None))
      else in_mutex p (mutex_lock (mutex_addr p)) ;; remove_from_free_list p ;; mret (Some (Returned p))
  | None =>
      f ← get_buf FreeHead;
      match b_next_free f with
      | None => in_k (sleep (buf_addr FreeHead) PROC_SLEEP_INTERRUPTIBLE) ;; mret (Some (Blocked None))
      | Some p =>
          remove_from_free_list p ;;
          b ← get_buf p;
          if has_flag B_DWRITE b then
            upd_buf p (clear_flag B_DWRITE) ;;
            r ← bwrite p;
            mret (match r with None => None | Some rest => Some (Blocked (Some rest)) end)
          else
            locked ← buf_locked p;
            if locked : bool then panic "buffer on free list is locked" else
            take_over p dev blknr ;;
            mret (Some (Returned p))
      end
  end.
Fixpoint getblk (fuel : nat) (dev blknr : Z) : B (call bufp) :=
  match fuel with
  | O => nofuel
  | S fuel =>
      r ← getblk_turn dev blknr;
      match r with Some r => mret r | None => getblk fuel dev blknr end
  end.
(** The process goes on after its sleep. *)
Definition getblk_resume (fuel : nat) (dev blknr : Z) : B (call bufp) := in_k resume ;; getblk fuel dev blknr.

Definition bread_got p : B (call (option bufp)) :=
  b ← get_buf p;
  if has_flag B_DONE b then mret (Returned (Some p)) else
  r ← blk_devio_at p READ;
  mret (Returned (if r <? 0 then None else Some p)).
Definition bread (fuel : nat) (dev blknr : Z) : B (call (option bufp)) :=
  r ← getblk fuel dev blknr;
  match r with
  | Blocked rest => mret (Blocked rest)
  | Returned p => bread_got p
  end.

(** ** Start: [raw] is the memory that [kvmalloc] gives for the array. *)
Definition buffer_start (raw : nat → buffer) (i : nat) : buffer :=
  (raw i) <| b_dev := NODEV |>
    <| b_prev_free := Some (if decide (i = 0%nat) then FreeHead else Buf (i - 1)) |>
    <| b_next_free := Some (if decide (i = (NR_BUF_BUFFERS - 1)%nat) then FreeHead else Buf (i + 1)) |>
    <| b_next := None |> <| b_prev := None |> <| b_flags := 0 |>.
Definition buffer_init (raw : nat → buffer) : B unit :=
  modify (λ s, s <| hash_queues := λ _, None |>) ;;
  upd_buf FreeHead (λ f, f <| b_next_free := Some (Buf 0) |>) ;;
  for_each (seq 0 NR_BUF_BUFFERS) (λ i, upd_buf (Buf i) (λ _, buffer_start raw i)) ;;
  upd_buf FreeHead (λ f, f <| b_prev_free := Some (Buf NR_BUF_BUFFERS) |>).
End buffer.

(** ** The queues as lists *)
Section invariant.
Context {D : Type}.
Implicit Types (p : bufp) (s : bstate D).

Definition is_buf p : Prop := ∃ i, p = Buf i ∧ (i < NR_BUF_BUFFERS)%nat.
Lemma is_buf_valid p : is_buf p → valid p = true.
Proof. intros (i & -> & Hi). by apply Nat.ltb_lt. Qed.
Lemma is_buf_head p : is_buf p → p ≠ FreeHead.
Proof. by intros (i & -> & _). Qed.
Lemma bufs_length l : NoDup l → Forall is_buf l → (length l <= NR_BUF_BUFFERS)%nat.
Proof.
  intros Hn Hb. assert (l ⊆+ Buf <$> seq 0 NR_BUF_BUFFERS) as Hs.
  { apply NoDup_submseteq; [done|]. intros p Hp. rewrite Forall_forall in Hb. destruct (Hb p Hp) as (i & -> & Hi).
    apply list_elem_of_fmap_2, seq_elem. lia. }
  apply submseteq_length in Hs. by rewrite length_fmap, length_seq in Hs.
Qed.

(** The free list is a ring through the dummy head. *)
Record free_inv s (fl : list bufp) : Prop := {
  fi_ring : ring (next_free s) (prev_free s) (FreeHead :: fl);
  fi_nodup : NoDup fl;
  fi_bufs : Forall is_buf fl;
  fi_out p : is_buf p → p ∉ fl → next_free s p = None ∧ prev_free s p = None
}.
(** The hash queues. *)
Definition hq s : hashq bufp := HQ (hash_next s) (hash_prev s) (hash_queues s) (λ p, (b_dev (buf s p), b_blknr (buf s p))).
Definition hash_inv s (qs : list (list bufp)) : Prop := hq_inv is_buf (hq s) qs.
Lemma free_inv_ext s s' fl : free_inv s fl →
  (∀ p, b_next_free (buf s' p) = b_next_free (buf s p)) → (∀ p, b_prev_free (buf s' p) = b_prev_free (buf s p)) → free_inv s' fl.
Proof.
  intros [H1 H2 H3 H4] Hn Hp.
  assert (∀ p, next_free s' p = next_free s p) as En by (intros p; unfold next_free; by rewrite Hn).
  assert (∀ p, prev_free s' p = prev_free s p) as Ep by (intros p; unfold prev_free; by rewrite Hp).
  split; [by eapply ring_frame|done|done|]. intros p. rewrite En, Ep. apply H4.
Qed.
Lemma free_inv_links s s' fl : free_inv s fl →
  (∀ p, next_free s' p = next_free s p ∧ prev_free s' p = prev_free s p) → free_inv s' fl.
Proof.
  intros [H1 H2 H3 H4] E. split; [eapply ring_frame; [done|intros; apply E..]|done|done|].
  intros p. destruct (E p) as [-> ->]. apply H4.
Qed.
Lemma hash_inv_ext s s' qs : hash_inv s qs → (∀ p, b_next (buf s' p) = b_next (buf s p)) →
  (∀ p, b_prev (buf s' p) = b_prev (buf s p)) → hash_queues s' = hash_queues s → hash_inv s' qs.
Proof.
  intros H Hn Hp Hq. eapply hq_ext; [exact H|..]; simpl; [intros p; unfold hash_next; by rewrite Hn|
    intros p; unfold hash_prev; by rewrite Hp|by rewrite Hq].
Qed.

(** ** Running the queue operations *)
Definition set_buf p (f : buffer → buffer) s : bstate D := s <| buf ::= λ t, <[p := f (t p)]> t |>.
Lemma upd_buf_run {A} p f (m : B A) s : valid p = true → (upd_buf p f ;; m) s = m (set_buf p f s).
Proof. intros Hv. unfold upd_buf. by rewrite Hv. Qed.
Lemma upd_buf_last p f s : valid p = true → upd_buf p f s = Ok (tt, set_buf p f s).
Proof. intros Hv. unfold upd_buf. by rewrite Hv. Qed.
Lemma get_buf_run {A} p (m : buffer → B A) s : valid p = true → (get_buf p ≫= m) s = m (buf s p) s.
Proof. intros Hv. unfold get_buf, mbind, M_bind, get. by rewrite Hv. Qed.
Lemma set_buf_eq p f s : buf (set_buf p f s) p = f (buf s p).
Proof. unfold set_buf. rec_simpl. by rewrite fn_insert_eq. Qed.
Lemma set_buf_ne p q f s : p ≠ q → buf (set_buf p f s) q = buf s q.
Proof. intros. unfold set_buf. rec_simpl. by rewrite fn_insert_ne. Qed.
Lemma set_buf_decide p q f s : buf (set_buf p f s) q = if decide (p = q) then f (buf s q) else buf s q.
Proof. case_decide; [subst; apply set_buf_eq|by apply set_buf_ne]. Qed.

(** A change of free list links alone, and of hash queues alone. *)
Definition free_links_only s s' : Prop := bs_k s' = bs_k s ∧ bs_d s' = bs_d s ∧ hash_queues s' = hash_queues s ∧
  ∀ p, buf s' p = (buf s p) <| b_next_free := b_next_free (buf s' p) |> <| b_prev_free := b_prev_free (buf s' p) |>.
Definition hash_links_only s s' : Prop := bs_k s' = bs_k s ∧ bs_d s' = bs_d s ∧
  ∀ p, buf s' p = (buf s p) <| b_next := b_next (buf s' p) |> <| b_prev := b_prev (buf s' p) |>.
#[global] Instance free_links_only_preorder : PreOrder free_links_only.
Proof.
  split.
  - intros s. split; [done|]. split; [done|]. split; [done|]. intros p. by destruct (buf s p).
  - intros s1 s2 s3 (H1 & H2 & H3 & H4) (G1 & G2 & G3 & G4).
    split; [congruence|]. split; [congruence|]. split; [congruence|]. intros p.
    rewrite (G4 p) at 1. by rewrite (H4 p).
Qed.
#[global] Instance hash_links_only_preorder : PreOrder hash_links_only.
Proof.
  split.
  - intros s. split; [done|]. split; [done|]. intros p. by destruct (buf s p).
  - intros s1 s2 s3 (H1 & H2 & H4) (G1 & G2 & G4).
    split; [congruence|]. split; [congruence|]. intros p. rewrite (G4 p) at 1. by rewrite (H4 p).
Qed.
Lemma set_buf_free p f s : (∀ b, f b = b <| b_next_free := b_next_free (f b) |> <| b_prev_free := b_prev_free (f b) |>) →
  free_links_only s (set_buf p f s).
Proof.
  intros Hf. split; [done|]. split; [done|]. split; [done|]. intros q. rewrite set_buf_decide.
  case_decide; [apply Hf|by destruct (buf s q)].
Qed.
Lemma set_buf_hash p f s : (∀ b, f b = b <| b_next := b_next (f b) |> <| b_prev := b_prev (f b) |>) →
  hash_links_only s (set_buf p f s).
Proof.
  intros Hf. split; [done|]. split; [done|]. intros q. rewrite set_buf_decide.
  case_decide; [apply Hf|by destruct (buf s q)].
Qed.
End invariant.

(** ** The free list *)
Section free_list.
Context {D : Type}.
Implicit Types (p : bufp) (s : bstate D).

Lemma free_elem_valid s fl p : free_inv s fl → p ∈ FreeHead :: fl → valid p = true.
Proof.
  intros H [->|Hp]%elem_of_cons; [done|]. apply is_buf_valid. pose proof (fi_bufs _ _ H) as Hb.
  rewrite Forall_forall in Hb. by apply Hb.
Qed.
Lemma head_notin s fl : free_inv s fl → FreeHead ∉ fl.
Proof. intros H Hin. pose proof (fi_bufs _ _ H) as Hb. rewrite Forall_forall in Hb. by apply (is_buf_head FreeHead); [apply Hb|]. Qed.
Lemma ring_nodup s fl : free_inv s fl → NoDup (FreeHead :: fl).
Proof. intros H. apply NoDup_cons. split; [by eapply head_notin|apply H]. Qed.

Lemma remove_free_ok s l1 p l2 : free_inv s (l1 ++ p :: l2) →
  ∃ s', remove_from_free_list p s = Ok (tt, s') ∧ free_inv s' (l1 ++ l2) ∧ free_links_only s s'.
Proof.
  intros H. pose proof H as [Hr Hnd Hb Hout]. pose proof (ring_nodup _ _ H) as Hnd'.
  assert (is_buf p) as Hp by (rewrite Forall_forall in Hb; apply Hb; set_solver).
  pose proof (is_buf_valid p Hp) as Hv. pose proof (is_buf_head p Hp) as Hne.
  destruct (ring_lookup _ _ _ p Hr) as (n & e & Hn & He & Hin & Hie); [set_solver|].
  pose proof (free_elem_valid _ _ _ H Hin) as Vn. pose proof (free_elem_valid _ _ _ H Hie) as Ve.
  set (s' := set_buf p (λ q, q <| b_next_free := None |> <| b_prev_free := None |>)
    (set_buf n (λ q, q <| b_prev_free := Some e |>) (set_buf e (λ q, q <| b_next_free := Some n |>) s))).
  exists s'. assert (remove_from_free_list p s = Ok (tt, s')) as R.
  { unfold remove_from_free_list. rewrite get_buf_run by done. unfold next_free, prev_free in Hn, He. rewrite Hv in Hn, He.
    rewrite He, Hn. rewrite !upd_buf_run by done. by apply upd_buf_last. }
  assert (∀ a, a ≠ p → next_free s' a = if decide (a = e) then Some n else next_free s a) as Hnf.
  { intros a Ha. unfold next_free. subst s'. rewrite !set_buf_decide. rewrite (decide_False (P := p = a)) by congruence.
    destruct (decide (a = e)) as [->|]; [rewrite Ve, (decide_True (P := e = e)) by done; by destruct (decide (n = e))|].
    rewrite (decide_False (P := e = a)) by congruence. by destruct (decide (n = a)). }
  assert (∀ a, a ≠ p → prev_free s' a = if decide (a = n) then Some e else prev_free s a) as Hpf.
  { intros a Ha. unfold prev_free. subst s'. rewrite !set_buf_decide. rewrite (decide_False (P := p = a)) by congruence.
    destruct (decide (a = n)) as [->|]; [by rewrite Vn, (decide_True (P := n = n))|].
    rewrite (decide_False (P := n = a)) by congruence. by destruct (decide (e = a)). }
  split; [done|]. split; [|].
  - change (FreeHead :: l1 ++ p :: l2) with ((FreeHead :: l1) ++ p :: l2) in Hr, Hnd'.
    assert (NoDup (l1 ++ l2) ∧ p ∉ l1 ++ l2) as [Hnd2 Hp2].
    { rewrite <-Permutation_middle in Hnd. apply NoDup_cons in Hnd. tauto. }
    split; [|done| |].
    + destruct (ring_remove _ _ (next_free s') (prev_free s') _ _ _ _ _ Hr Hnd' ltac:(by destruct l2) Hn He Hnf Hpf) as [Hr' _].
      apply ring_rotate in Hr'. done.
    + rewrite Forall_app in Hb |- *. rewrite Forall_cons in Hb. tauto.
    + intros a Ha Hal. destruct (decide (a = p)) as [->|Hap].
      * unfold next_free, prev_free. rewrite Hv. subst s'. by rewrite set_buf_eq.
      * assert (a ∉ l1 ++ p :: l2) as Hal' by set_solver. destruct (Hout a Ha Hal') as [O1 O2].
        rewrite Hnf, Hpf by done. rewrite !decide_False; [done| |].
        all: intros ->; apply elem_of_cons in Hin as [->|Hin]; apply elem_of_cons in Hie as [->|Hie];
          solve [done | by apply (is_buf_head FreeHead)].
  - subst s'. do 2 (etrans; [|by apply set_buf_free]). by apply set_buf_free.
Qed.
Lemma remove_free_off s fl p : free_inv s fl → is_buf p → p ∉ fl → remove_from_free_list p s = Ok (tt, s).
Proof.
  intros H Hp Hn. destruct (fi_out _ _ H p Hp Hn) as [E1 E2]. pose proof (is_buf_valid p Hp) as Hv.
  unfold remove_from_free_list. rewrite get_buf_run by done. unfold next_free, prev_free in E1, E2. rewrite Hv in E1, E2.
  by rewrite E1, E2.
Qed.

(** Contents that are valid go to the end of the list, those that wait to be written or are wrong to
    the front. *)
Definition to_the_end (b : buffer) : bool := negb (has_flag B_DWRITE b) && negb (has_flag B_ERROR b).
(** [p] has been linked between [e] and [n]. *)
Definition linked s s' (e p n : bufp) : Prop :=
  (∀ b, b ≠ p → next_free s' b = if decide (b = e) then Some p else next_free s b) ∧
  (∀ b, b ≠ p → prev_free s' b = if decide (b = n) then Some p else prev_free s b) ∧
  next_free s' p = Some n ∧ prev_free s' p = Some e.
Lemma linked_ne s s' e p n b : linked s s' e p n → b ≠ p → b ≠ e → b ≠ n →
  next_free s' b = next_free s b ∧ prev_free s' b = prev_free s b.
Proof. intros (N1 & N2 & _) H1 H2 H3. rewrite N1, N2 by done. by rewrite !decide_False. Qed.
(** The neighbours of the head are the ends of the list. *)
Lemma head_links s fl : free_inv s fl →
  next_free s FreeHead = Some (default FreeHead (head fl)) ∧ prev_free s FreeHead = Some (default FreeHead (last fl)).
Proof.
  intros H. pose proof (fi_ring _ _ H) as Hr. split.
  - destruct fl; simpl in Hr; destruct Hr as [Hr _]; done.
  - destruct fl as [|x fl _] using rev_ind; [by destruct Hr|].
    rewrite last_snoc. simpl in Hr. apply links_app in Hr as [_ [_ Hr]]. done.
Qed.
Lemma linked_out s s' fl e p n : free_inv s fl → linked s s' e p n → e ∈ FreeHead :: fl → n ∈ FreeHead :: fl →
  ∀ a, is_buf a → a ≠ p → a ∉ fl → next_free s' a = None ∧ prev_free s' a = None.
Proof.
  intros H L He Hn a Ha Hap Hal. pose proof (is_buf_head a Ha) as Hh.
  destruct (linked_ne _ _ _ _ _ a L) as [-> ->]; [done|set_solver..|]. by apply (fi_out _ _ H).
Qed.
Lemma linked_tail s s' fl p : free_inv s fl → is_buf p → p ∉ fl →
  linked s s' (default FreeHead (last fl)) p FreeHead → free_inv s' (fl ++ [p]).
Proof.
  intros H Hp Hn L. pose proof L as (N1 & N2 & N3 & N4). pose proof (is_buf_head p Hp) as Hne.
  pose proof (head_links _ _ H) as [_ Hl]. set (e := default FreeHead (last fl)) in *.
  assert (e ∈ FreeHead :: fl ∧ last (FreeHead :: fl) = Some e) as [He Hlast].
  { subst e. rewrite last_cons. destruct (last fl) eqn:E; [|set_solver]. apply last_Some_elem_of in E. set_solver. }
  split.
  - apply (ring_insert_tail (next_free s) (prev_free s) _ _ _ _ e); try done; [apply H|by apply (ring_nodup s)|set_solver|..].
    + rewrite N1 by set_solver. by rewrite decide_True.
    + rewrite N2 by done. by rewrite decide_True.
    + intros. rewrite N1 by done. by rewrite decide_False.
    + intros. rewrite N2 by done. by rewrite decide_False.
  - apply NoDup_app. split; [apply H|]. split; [set_solver|apply NoDup_singleton].
  - rewrite Forall_app. pose proof (fi_bufs _ _ H). by repeat constructor.
  - intros a Ha Hal. eapply linked_out; try done; set_solver.
Qed.
Lemma linked_front s s' fl p : free_inv s fl → is_buf p → p ∉ fl →
  linked s s' FreeHead p (default FreeHead (head fl)) → free_inv s' (p :: fl).
Proof.
  intros H Hp Hn L. pose proof L as (N1 & N2 & N3 & N4). pose proof (is_buf_head p Hp) as Hne.
  pose proof (head_links _ _ H) as [Hh _]. set (n := default FreeHead (head fl)) in *.
  assert (∃ t, fl ++ [FreeHead] = n :: t) as [t Et] by (destruct fl; by eexists).
  assert (n ∈ FreeHead :: fl) as Hin by (destruct fl; set_solver).
  split.
  - apply (ring_rotate _ _ fl [FreeHead; p]).
    assert (fl ++ [FreeHead; p] = (fl ++ [FreeHead]) ++ [p]) as -> by (by rewrite <-app_assoc).
    assert (NoDup (fl ++ [FreeHead])) as Hnd by (rewrite <-Permutation_cons_append; by apply (ring_nodup s)).
    pose proof (ring_rotate _ _ [FreeHead] fl (fi_ring _ _ H)) as Hr2.
    assert (p ∉ fl ++ [FreeHead]) as Hnp by set_solver. assert (last (fl ++ [FreeHead]) = Some FreeHead) as Hlast by apply last_snoc.
    rewrite Et in *. apply (ring_insert_tail (next_free s) (prev_free s) _ _ _ _ FreeHead); try done.
    + rewrite N1 by done. by rewrite decide_True.
    + rewrite N2 by set_solver. by rewrite decide_True.
    + intros. rewrite N1 by done. by rewrite decide_False.
    + intros. rewrite N2 by done. by rewrite decide_False.
  - apply NoDup_cons. split; [done|apply H].
  - constructor; [done|apply H].
  - intros a Ha Hal. eapply linked_out; try done; set_solver.
Qed.

(** Two writes to the new buffer and one to each neighbour. *)
Lemma set_linked s p e n f f' g h : valid p = true → valid e = true → valid n = true → e ≠ p → n ≠ p →
  (∀ b, b_next_free (f' (f b)) = Some n ∧ b_prev_free (f' (f b)) = Some e) →
  (∀ b, b_next_free (g b) = Some p ∧ b_prev_free (g b) = b_prev_free b) →
  (∀ b, b_prev_free (h b) = Some p ∧ b_next_free (h b) = b_next_free b) →
  let s' := set_buf p f' (set_buf p f s) in
  linked s (set_buf n h (set_buf e g s')) e p n ∧ linked s (set_buf e g (set_buf n h s')) e p n.
Proof.
  intros Vp Ve Vn Hep Hnp Hf Hg Hh s'. subst s'.
  assert (∀ b, b ≠ p → (p = b → False) ∧ (b = p → False)) as Hb' by naive_solver.
  split; split_and!; try intros b Hb; unfold next_free, prev_free; rewrite !set_buf_decide.
  all: rewrite ?(decide_True (P := p = p)), ?(decide_False (P := e = p)), ?(decide_False (P := n = p)) by done; rewrite ?Vp; try apply Hf.
  all: rewrite (decide_False (P := p = b)) by congruence.
  all: destruct (decide (e = b)) as [->|]; destruct (decide (n = b)) as [->|]; rewrite ?Ve, ?Vn;
    rewrite ?(proj1 (Hg _)), ?(proj2 (Hg _)), ?(proj1 (Hh _)), ?(proj2 (Hh _)), ?(proj1 (Hg _)), ?(proj2 (Hh _));
    repeat case_decide; subst; rewrite ?Ve, ?Vn in *; done.
Qed.
Lemma put_free_ok s fl p : free_inv s fl → is_buf p → p ∉ fl →
  ∃ s', put_into_free_list p s = Ok (tt, s') ∧ free_links_only s s' ∧
    free_inv s' (if to_the_end (buf s p) then fl ++ [p] else p :: fl).
Proof.
  intros H Hp Hn. pose proof (is_buf_valid p Hp) as Hv. pose proof (is_buf_head p Hp) as Hne.
  pose proof (head_links _ _ H) as [En Ee]. unfold next_free in En. unfold prev_free in Ee. simpl in En, Ee.
  unfold put_into_free_list. rewrite !get_buf_run by done. fold (to_the_end (buf s p)). destruct (to_the_end (buf s p)).
  - pose proof (λ s', linked_tail s s' fl p) as LT. set (e := default FreeHead (last fl)) in *.
    assert (e ∈ FreeHead :: fl) as He.
    { subst e. destruct (last fl) eqn:E; [|set_solver]. apply last_Some_elem_of in E. set_solver. }
    pose proof (free_elem_valid _ _ _ H He) as Ve. assert (e ≠ p) as Hep by (intros ->; set_solver).
    rewrite !upd_buf_run by done. rewrite get_buf_run by done. rewrite !set_buf_ne by done. rewrite Ee.
    change ((deref (Some e) _ ≫= ?m) ?x) with (m e x). cbv beta. rewrite upd_buf_run by done.
    eexists. split; [by apply upd_buf_last|]. split; [do 3 (etrans; [|by apply set_buf_free]); by apply set_buf_free|].
    apply LT; [done..|]. by apply set_linked.
  - pose proof (λ s', linked_front s s' fl p) as LF. set (n := default FreeHead (head fl)) in *.
    assert (n ∈ FreeHead :: fl) as Hin by (subst n; destruct fl; set_solver).
    pose proof (free_elem_valid _ _ _ H Hin) as Vn. assert (n ≠ p) as Hnp by (intros ->; set_solver).
    rewrite !upd_buf_run by done. rewrite get_buf_run by done. rewrite !set_buf_ne by done. rewrite En.
    change ((deref (Some n) _ ≫= ?m) ?x) with (m n x). cbv beta. rewrite upd_buf_run by done.
    eexists. split; [by apply upd_buf_last|]. split; [do 3 (etrans; [|by apply set_buf_free]); by apply set_buf_free|].
    apply LF; [done..|]. by apply set_linked.
Qed.
End free_list.

(** ** The hash queues *)
Section hash.
Context {D : Type}.
Implicit Types (p t : bufp) (s : bstate D).

(** What [in_hash_queue] finds. *)
Definition lookup s (dev blknr : Z) : option bufp :=
  match in_hash_queue dev blknr s with Ok (o, _) => o | _ => None end.
Definition key_hash (k : Z * Z) : Z := BUF_HASH (fst k) (snd k).
Abbreviation search := (hq_search NR_BUF_BUFFERS key_hash).
Abbreviation find := (hq_lookup NR_BUF_BUFFERS key_hash).

Lemma has_key_block s d n p : has_key (hq s) (d, n) p = is_block d n (buf s p).
Proof.
  apply eq_iff_eq_true. unfold has_key, is_block. rewrite bool_decide_eq_true, andb_true_iff, !Z.eqb_eq. simpl. naive_solver.
Qed.
Lemma in_hash_queue_search d n s : in_hash_queue d n s =
  match search (hq s) (d, n) with Ok o => Ok (o, s) | Panic m => Panic m | Undef w => Undef w | NoFuel => NoFuel end.
Proof.
  unfold in_hash_queue, hq_search, key_hash. change ((gets ?f ≫= ?m) s) with (m (f s) s). cbv beta. simpl.
  destruct (hash_queues s (BUF_HASH d n)) as [t|]; [|done]. unfold reads.
  by rewrite (ring_search_ext _ _ (λ p, is_block d n (buf s p)) (has_key (hq s) (d, n))) by (intros; symmetry; apply has_key_block).
Qed.
Lemma lookup_find s d n : lookup s d n = find (hq s) (d, n).
Proof. unfold lookup, hq_lookup. rewrite in_hash_queue_search. by destruct (search _ _). Qed.
Lemma hash_elem s qs p : hash_inv s qs → p ∈ mjoin qs → is_buf p.
Proof. apply hq_elem. Qed.
Lemma in_hash_queue_ok dev blknr s qs : hash_inv s qs → in_hash_queue dev blknr s = Ok (lookup s dev blknr, s) ∧
  ∀ p, lookup s dev blknr = Some p → p ∈ mjoin qs ∧ b_dev (buf s p) = dev ∧ b_blknr (buf s p) = blknr.
Proof.
  intros H. destruct (search_ok is_buf NR_BUF_BUFFERS key_hash bufs_length (hq s) (dev, blknr) qs H) as [R Hp].
  rewrite in_hash_queue_search, lookup_find, R. split; [done|]. intros p [Hin Hk]%Hp. simpl in Hk. naive_solver.
Qed.
(** A change elsewhere in the buffers. *)
Lemma lookup_ext s s' qs dev blknr : hash_inv s qs → (∀ p, b_next (buf s' p) = b_next (buf s p)) →
  (∀ p, b_prev (buf s' p) = b_prev (buf s p)) → hash_queues s' = hash_queues s →
  (∀ p, p ∈ mjoin qs → is_block dev blknr (buf s' p) = is_block dev blknr (buf s p)) → lookup s' dev blknr = lookup s dev blknr.
Proof.
  intros H Hn Hp Hq Hb. rewrite !lookup_find. apply (hq_lookup_ext _ _ _ bufs_length _ _ _ _ H); simpl.
  - intros p. unfold hash_next. by rewrite Hn.
  - intros p. unfold hash_prev. by rewrite Hp.
  - by rewrite Hq.
  - intros p Hin. rewrite !has_key_block. by apply Hb.
Qed.

Lemma remove_hash_off s qs p : hash_inv s qs → is_buf p → p ∉ mjoin qs → remove_from_hash_queue p s = Ok (tt, s).
Proof.
  intros H Hp Hn. destruct (hi_out H p Hp Hn) as [E1 E2]. pose proof (is_buf_valid p Hp) as Hv.
  unfold remove_from_hash_queue. rewrite get_buf_run by done. simpl in E1, E2. unfold hash_next, hash_prev in E1, E2. rewrite Hv in E1, E2.
  by rewrite E1, E2.
Qed.

(** The four writes of [put_into_hash_queue]. *)
Lemma set_hash_linked s p e t : valid p = true → valid e = true → valid t = true → e ≠ p → t ≠ p →
  let s' := set_buf t (λ q, q <| b_prev := Some p |>) (set_buf p (λ q, q <| b_next := Some t |>)
    (set_buf p (λ q, q <| b_prev := Some e |>) (set_buf e (λ q, q <| b_next := Some p |>) s))) in
  (∀ a, a ≠ p → hash_next s' a = if decide (a = e) then Some p else hash_next s a) ∧
  (∀ a, a ≠ p → hash_prev s' a = if decide (a = t) then Some p else hash_prev s a) ∧
  hash_next s' p = Some t ∧ hash_prev s' p = Some e ∧ hash_links_only s s'.
Proof.
  intros Vp Ve Vt Hep Htp s'. subst s'. split_and!; [..|do 3 (etrans; [|by apply set_buf_hash]); by apply set_buf_hash].
  all: try intros a Ha; unfold hash_next, hash_prev; rewrite !set_buf_decide.
  all: rewrite ?(decide_True (P := p = p)), ?(decide_False (P := e = p)), ?(decide_False (P := t = p)) by done; rewrite ?Vp; try done.
  all: rewrite (decide_False (P := p = a)) by congruence.
  all: destruct (decide (e = a)) as [->|]; destruct (decide (t = a)) as [->|]; repeat case_decide; subst; rewrite ?Ve, ?Vt in *; done.
Qed.

(** What the queues look like after [p] has been put into one. *)
Definition put_result s s' qs p : Prop :=
  hash_links_only s s' ∧ (∃ qs', hash_inv s' qs' ∧ mjoin qs' ≡ₚ p :: mjoin qs) ∧
  (lookup s (b_dev (buf s p)) (b_blknr (buf s p)) = None →
   ∀ d n, lookup s' d n = if is_block d n (buf s p) then Some p else lookup s d n).

Lemma put_done_result s s' qs p : hash_links_only s s' →
  put_done is_buf NR_BUF_BUFFERS key_hash (hq s) (hq s') qs p → put_result s s' qs p.
Proof.
  intros HL [H1 H2]. split; [done|]. split; [done|]. intros Hnone d n. rewrite !lookup_find, <-has_key_block in *. by apply H2.
Qed.
Lemma hash_links_key s s' a : hash_links_only s s' → hq_key (hq s') a = hq_key (hq s) a.
Proof. intros (_ & _ & E). simpl. rewrite (E a). by do 2 rec_simpl. Qed.
Lemma hash_links_block s s' d n a : hash_links_only s s' → is_block d n (buf s' a) = is_block d n (buf s a).
Proof. intros HL. rewrite <-!has_key_block. apply has_key_ext. intros. by apply hash_links_key. Qed.

Lemma put_hash_ok s qs p : hash_inv s qs → is_buf p → p ∉ mjoin qs →
  ∃ s', put_into_hash_queue p s = Ok (tt, s') ∧ put_result s s' qs p.
Proof.
  intros H Hp Hn. pose proof (is_buf_valid p Hp) as Hv. unfold put_into_hash_queue. rewrite get_buf_run by done. cbv zeta.
  set (h := BUF_HASH _ _). change ((gets ?f ≫= ?m) s) with (m (f s) s). cbv beta.
  destruct (hash_queues s h) as [t|] eqn:Ht.
  - destruct (put_append _ _ key_hash bufs_length (hq s) qs p t H Hp Hn Ht) as (e & R & Ot & Oe & Hep & Htp & Hdone).
    pose proof (is_buf_valid t Ot) as Vt. pose proof (is_buf_valid e Oe) as Ve.
    assert (reads (λ s, find_last WALK_FUEL (hash_next s) t t) s = Ok (e, s)) as R1 by (unfold reads, WALK_FUEL; cbn [hq hq_next] in R; by rewrite R).
    rewrite (bind_ok _ _ _ _ _ R1). rewrite !upd_buf_run by done. eexists. split; [by apply upd_buf_last|].
    destruct (set_hash_linked s p e t Hv Ve Vt Hep Htp) as (N1 & N2 & N3 & N4 & HL). set (s' := set_buf t _ _) in *.
    apply put_done_result; [done|]. apply Hdone; try done. intros. by apply hash_links_key.
  - change ((set_hash_queue h (Some p) ;; ?m) s) with (m (s <| hash_queues ::= <[h := Some p]> |>)). cbv beta.
    rewrite upd_buf_run by done. eexists. split; [by apply upd_buf_last|]. set (s' := set_buf p _ _).
    assert (hash_links_only s s') as HL.
    { etrans; [|by apply set_buf_hash]. etrans; [|by apply set_buf_hash]. split; [done|]. split; [done|]. intros a. do 2 rec_simpl. by destruct (buf s a). }
    apply put_done_result; [done|]. apply put_new; try done; [apply bufs_length|intros; by apply hash_links_key|..]; simpl.
    + intros a Ha. unfold hash_next, hash_prev, s'. by rewrite !set_buf_ne by done.
    + unfold hash_next, s'. by rewrite Hv, !set_buf_eq.
    + unfold hash_prev, s'. by rewrite Hv, !set_buf_eq.
Qed.
End hash.

(** ** Locks and wake-ups when nobody waits *)
Section kernel_calls.
Context {D : Type}.
Implicit Types (p : bufp) (s : bstate D) (k : kernel).

(** Only the state of interrupts differs. *)
Definition cpu_only k k' : Prop := ∃ f, k' = k <| k_cpu ::= f |>.
#[global] Instance cpu_only_preorder : PreOrder cpu_only.
Proof.
  split; [intros k; exists (λ c, c); by destruct k|].
  intros k1 k2 k3 [f ->] [g ->]. exists (λ c, g (f c)). done.
Qed.
(** No process sleeps on the address. *)
Definition nobody_waits (a : Z) k : Prop := ∀ j, (j < NR_PROC)%nat → wakes a (process_table k j) = false.
Lemma nobody_waits_cpu a k k' : cpu_only k k' → nobody_waits a k → nobody_waits a k'.
Proof. by intros [f ->]. Qed.

Lemma wakeup_nobody a mode k : nobody_waits a k → ∃ k', wakeup a mode k = Ok (false, k') ∧ cpu_only k k'.
Proof.
  intros Hq. unfold wakeup. change ((disable_intr ;; ?m) k) with (m (k <| k_cpu ::= λ c,
    c <| kernel_eflags ::= <[cpu_state c := intr c]> |> <| intr := false |> |>)). cbv beta. set (k1 := k <| k_cpu ::= _ |>).
  assert (∀ l, (∀ j, j ∈ l → (j < NR_PROC)%nat) → wakeup_procs a l k1 = Ok (false, k1)) as R.
  { intros l. induction l as [|j l IH]; intros Hl; [done|]. simpl.
    assert (wakeup_proc a j k1 = Ok (false, k1)) as R1.
    { unfold wakeup_proc. change ((gets ?f ≫= ?m) k1) with (m (f k1) k1). cbv beta.
      specialize (Hq j ltac:(apply Hl; by left)). unfold wakes in Hq. change (process_table k1 j) with (process_table k j). by rewrite Hq. }
    rewrite (bind_ok _ _ _ _ _ R1), (bind_ok _ _ _ _ _ (IH ltac:(intros; apply Hl; by right))). done. }
  rewrite (bind_ok _ _ _ _ _ (R all_procs ltac:(intros; by apply all_procs_elem))).
  set (k2 := k1 <| k_cpu ::= λ c, c <| intr := (intr c || kernel_eflags c (cpu_state c))%bool |> |>).
  exists k2. split; [by destruct mode|]. etrans; [by eexists|]. by eexists.
Qed.

Definition set_mutex p (m : mutex) s : bstate D := set_buf p (λ b, b <| b_mutex := m |>) s.
Lemma in_mutex_ok {A} p (m : M mstate A) s a ms : m (buf_mutex p s) = Ok (a, ms) →
  in_mutex p m s = Ok (a, (s <| bs_k := mk ms |>) <| buf ::= λ t, <[p := (t p) <| b_mutex := mtx ms |> ]> t |>).
Proof. intros R. unfold in_mutex, zoom. by rewrite R. Qed.
Lemma lock_ok a p s : lock (b_mutex (buf s p)) = false ∨ owner (b_mutex (buf s p)) = Some (current_process (bs_k s)) →
  ∃ k', in_mutex p (mutex_lock a) s = Ok (tt, set_mutex p (MkMutex true (Some (current_process (bs_k s)))) (s <| bs_k := k' |>)) ∧
    cpu_only (bs_k s) k'.
Proof.
  intros Hl. assert (∃ ms, mutex_lock a (buf_mutex p s) = Ok (tt, ms) ∧ cpu_only (bs_k s) (mk ms) ∧
    mtx ms = MkMutex true (Some (current_process (bs_k s)))) as (ms & R & Hk & Hm).
  { unfold mutex_lock. change ((gets ?f ≫= ?m) (buf_mutex p s)) with (m (f (buf_mutex p s)) (buf_mutex p s)). cbv beta.
    change ((gets ?f ≫= ?m) (buf_mutex p s)) with (m (f (buf_mutex p s)) (buf_mutex p s)). cbv beta.
    change (mtx (buf_mutex p s)) with (b_mutex (buf s p)).
    change (current_process (mk (buf_mutex p s))) with (current_process (bs_k s)).
    set (mu := b_mutex (buf s p)) in *. set (c := current_process (bs_k s)) in *.
    assert (bool_decide (owner mu = None) && lock mu = false) as ->.
    { destruct Hl as [-> | ->]; [by rewrite andb_false_r|done]. }
    set (ms1 := (buf_mutex p s) <| mk ::= λ k, k <| k_cpu ::= λ c,
      c <| kernel_eflags ::= <[cpu_state c := intr c]> |> <| intr := false |> |> |>).
    assert (in_kernel disable_intr (buf_mutex p s) = Ok (tt, ms1)) as R1 by done. rewrite (bind_ok _ _ _ _ _ R1).
    assert (mutex_take ms1 = Ok (tt, ms1 <| mtx := MkMutex true (Some c) |> <| mk ::= λ k, k <| k_cpu ::= λ c, c <| intr := true |> |> |>
      <| pc ::= <[c := Holding]> |>)) as R2 by done.
    eexists. split.
    - case_bool_decide as Ho; [|exact R2]. destruct Hl as [Hl|Hl]; [|done]. unfold mutex_lock_test.
      change ((gets ?f ≫= ?m) ms1) with (m (f ms1) ms1). cbv beta. change (lock (mtx ms1)) with (lock mu). rewrite Hl. exact R2.
    - split; [|done]. etrans; [by eexists|]. by eexists. }
  exists (mk ms). split; [|done]. rewrite (in_mutex_ok _ _ _ _ _ R), Hm. done.
Qed.
Lemma unlock_ok a p s : nobody_waits a (bs_k s) → ∃ k',
  in_mutex p (mutex_unlock a) s = Ok (tt, set_mutex p (MkMutex false None) (s <| bs_k := k' |>)) ∧ cpu_only (bs_k s) k'.
Proof.
  intros Hq. assert (∃ ms, mutex_unlock a (buf_mutex p s) = Ok (tt, ms) ∧ cpu_only (bs_k s) (mk ms) ∧
    mtx ms = MkMutex false None) as (ms & R & Hk & Hm).
  { unfold mutex_unlock. set (ms1 := (buf_mutex p s) <| mk ::= λ k, k <| k_cpu ::= λ c,
      c <| kernel_eflags ::= <[cpu_state c := intr c]> |> <| intr := false |> |> |>).
    assert (in_kernel disable_intr (buf_mutex p s) = Ok (tt, ms1)) as R1 by done. rewrite (bind_ok _ _ _ _ _ R1).
    set (ms2 := ms1 <| mtx := MkMutex false None |> <| pc ::= <[current_process (mk ms1) := Outside]> |>).
    change ((modify ?f ;; set_pc Outside ;; ?m) ms1) with (m ms2).
    assert (cpu_only (bs_k s) (mk ms2)) as H2 by (by eexists).
    destruct (wakeup_nobody a WAKEUP_SWITCH (mk ms2)) as (k' & R2 & H3); [by eapply nobody_waits_cpu|].
    rewrite (bind_ok _ _ _ _ _ (in_kernel_ok _ ms2 _ _ R2)). eexists. split; [reflexivity|]. split; [|done].
    etrans; [exact H2|]. etrans; [exact H3|]. by eexists. }
  exists (mk ms). split; [|done]. rewrite (in_mutex_ok _ _ _ _ _ R), Hm. done.
Qed.
End kernel_calls.
