(* ===== verification/BufCache.v ===== *)
(** The buffer cache as its users see it: a block is what its buffer holds, or else what the device
    holds. getblk, bread, brelse and buffer_sync of Buffer.v keep this view; they go wrong when a
    buffer that holds a block is used again. *)
From S2P Require Import Prelude DList HashQ Proc Files Sched Mutex Drive Buffer.

(** ** The cache as the ext2 driver sees it

    One device with blocks of [bs] bytes, mounted as filesystem [fs]. *)
Section cache.
Context {D : Type} {FS : FsDriver D} {BD : BlockDevice D} {BL : BlockLaws D} {LY : Layout}.
Context (dev bs : Z) (fs : nat).
Implicit Types (p : bufp) (s : bstate D).

Record cached_block s p : Prop := {
  cb_dev : b_dev (buf s p) = dev;
  cb_size : b_blksize (buf s p) = bs;
  cb_data : is_Some (b_data (buf s p));
  cb_dirty : has_flag B_DWRITE (buf s p) = true → has_flag B_DONE (buf s p) = true;
  cb_on : on_dev (bs_d s) dev bs (b_blknr (buf s p))
}.
(** The buffers in the queues [qs] have distinct blocks and are found there; the others have not been
    used. *)
Record cache_ok s (fl : list bufp) (qs : list (list bufp)) : Prop := {
  co_free : free_inv s fl;
  co_hash : hash_inv s qs;
  co_unlocked p : p ∈ fl → lock (b_mutex (buf s p)) = false;
  co_found p : p ∈ mjoin qs → lookup s (b_dev (buf s p)) (b_blknr (buf s p)) = Some p;
  co_block p : p ∈ mjoin qs → cached_block s p;
  co_unused p : is_buf p → p ∉ mjoin qs →
    has_flag B_DWRITE (buf s p) = false ∧ (b_blksize (buf s p) = bs → is_Some (b_data (buf s p)))
}.
Definition data_at (b : buffer) (i : Z) : Z := match b_data b with Some d => d i | None => 0 end.
(** What a reader gets. *)
Definition view s (nr i : Z) : Z :=
  match lookup s dev nr with
  | Some p => if has_flag B_DONE (buf s p) then data_at (buf s p) i else block (bs_d s) dev bs nr i
  | None => block (bs_d s) dev bs nr i
  end.
Definition mounted (k : kernel) : Prop := find_filesystem dev k = Some fs.
Lemma mounted_cpu k k' : cpu_only k k' → mounted k → mounted k'.
Proof. by intros [f ->]. Qed.

(** Buffers that keep their block, and become neither dirty nor unread. *)
Definition stays (b b' : buffer) : Prop :=
  b_dev b' = b_dev b ∧ b_blknr b' = b_blknr b ∧ b_blksize b' = b_blksize b ∧ (is_Some (b_data b) → is_Some (b_data b')) ∧
  (has_flag B_DWRITE b' = true → has_flag B_DWRITE b = true) ∧ (has_flag B_DONE b = true → has_flag B_DONE b' = true).
Lemma stays_refl b : stays b b.
Proof. by split_and!. Qed.
Record frame s s' : Prop := {
  fr_next p : b_next (buf s' p) = b_next (buf s p);
  fr_prev p : b_prev (buf s' p) = b_prev (buf s p);
  fr_queues : hash_queues s' = hash_queues s;
  fr_stays p : stays (buf s p) (buf s' p);
  fr_dev nr : on_dev (bs_d s) dev bs nr → on_dev (bs_d s') dev bs nr
}.
Lemma frame_lookup s s' qs nr : hash_inv s qs → frame s s' → lookup s' dev nr = lookup s dev nr.
Proof.
  intros H [F1 F2 F3 F4 F5]. eapply lookup_ext; try done. intros p _. unfold is_block.
  destruct (F4 p) as (-> & -> & _). done.
Qed.
Lemma cache_ok_frame s s' fl fl' qs : cache_ok s fl qs → frame s s' → free_inv s' fl' →
  (∀ p, p ∈ fl' → lock (b_mutex (buf s' p)) = false) → cache_ok s' fl' qs.
Proof.
  intros C F Hfl Hl. pose proof F as [F1 F2 F3 F4 F5]. pose proof (co_hash _ _ _ C) as Hh. split; [done|by eapply hash_inv_ext|done|..].
  - intros p Hp. destruct (F4 p) as (E1 & E2 & _). rewrite E1, E2. pose proof (co_block _ _ _ C p Hp) as [Hd _ _ _ _].
    pose proof (co_found _ _ _ C p Hp) as Hf. rewrite Hd in *. by rewrite (frame_lookup s s' qs).
  - intros p Hp. destruct (F4 p) as (E1 & E2 & E3 & E4 & E5 & E6). destruct (co_block _ _ _ C p Hp) as [B1 B2 B3 B4 B5].
    split; [congruence|congruence|by apply E4|intros Hw; apply E6, B4, E5, Hw|rewrite E2; by apply F5].
  - intros p Hp Hn. destruct (F4 p) as (E1 & E2 & E3 & E4 & E5 & _). destruct (co_unused _ _ _ C p Hp Hn) as [U1 U2]. split.
    + destruct (has_flag B_DWRITE (buf s' p)); [by rewrite E5 in U1|done].
    + intros Hb. apply E4, U2. congruence.
Qed.
(** The view only depends on the buffers in the queues. *)
Lemma frame_view s s' qs nr i : hash_inv s qs → frame s s' →
  (∀ p, lookup s dev nr = Some p → has_flag B_DONE (buf s' p) = has_flag B_DONE (buf s p) ∧
     (has_flag B_DONE (buf s p) = true → data_at (buf s' p) i = data_at (buf s p) i)) →
  block (bs_d s') dev bs nr i = block (bs_d s) dev bs nr i → view s' nr i = view s nr i.
Proof.
  intros Hh F Hp Hb. unfold view. rewrite (frame_lookup s s' qs nr Hh F), Hb. destruct (lookup s dev nr) as [p|]; [|done].
  destruct (Hp p eq_refl) as [-> Hd]. destruct (has_flag B_DONE (buf s p)); [by rewrite Hd|done].
Qed.
Lemma frame_trans s1 s2 s3 : frame s1 s2 → frame s2 s3 → frame s1 s3.
Proof.
  intros [A1 A2 A3 A4 A5] [B1 B2 B3 B4 B5]. split; [congruence|congruence|congruence| |auto].
  intros p. destruct (A4 p) as (a1 & a2 & a3 & a4 & a5 & a6), (B4 p) as (b1 & b2 & b3 & b4 & b5 & b6).
  split_and!; try congruence; auto.
Qed.
Lemma frame_refl s : frame s s.
Proof. by split. Qed.
Lemma frame_free_links s s' : free_links_only s s' → frame s s'.
Proof.
  intros (E1 & E2 & E3 & E4). split; [..|by rewrite E2]; try done.
  all: intros p; rewrite (E4 p); do 2 rec_simpl; try done.
Qed.
Lemma frame_set s p f : (∀ b, stays b (f b) ∧ b_next (f b) = b_next b ∧ b_prev (f b) = b_prev b) → frame s (set_buf p f s).
Proof.
  intros Hf. split; [..|done]; try done; intros q; rewrite set_buf_decide; case_decide; try apply Hf; done.
Qed.
Lemma frame_kernel s k : frame s (s <| bs_k := k |>).
Proof. by split. Qed.
Lemma stays_mutex b m : stays b (b <| b_mutex := m |>).
Proof. by split_and!. Qed.

(** Nothing but links and locks differs. *)
Record same_contents s s' : Prop := {
  sc_frame : frame s s';
  sc_dev : bs_d s' = bs_d s;
  sc_data p : b_data (buf s' p) = b_data (buf s p);
  sc_flags p : b_flags (buf s' p) = b_flags (buf s p);
  sc_kernel : cpu_only (bs_k s) (bs_k s')
}.
Lemma same_contents_trans s1 s2 s3 : same_contents s1 s2 → same_contents s2 s3 → same_contents s1 s3.
Proof. intros [A1 A2 A3 A4 A5] [B1 B2 B3 B4 B5]. split; [by eapply frame_trans|congruence..|by etrans]. Qed.
Lemma same_contents_view s s' qs nr i : hash_inv s qs → same_contents s s' → view s' nr i = view s nr i.
Proof.
  intros Hh [A1 A2 A3 A4 _]. eapply frame_view; [done|done| |by rewrite A2]. intros p _. unfold has_flag, data_at.
  by rewrite A3, A4.
Qed.
Lemma same_free_links s s' : free_links_only s s' → same_contents s s'.
Proof.
  intros Hl. pose proof Hl as (E1 & E2 & E3 & E4). split; [by apply frame_free_links|done|..|by rewrite E1].
  all: intros p; rewrite (E4 p); by do 2 rec_simpl.
Qed.
Lemma same_kernel s k : cpu_only (bs_k s) k → same_contents s (s <| bs_k := k |>).
Proof. intros. by split. Qed.
Lemma same_mutex s p m : same_contents s (set_mutex p m s).
Proof.
  split; try done; [apply frame_set; intros b; split; [apply stays_mutex|done]|..];
    intros q; unfold set_mutex; rewrite set_buf_decide; by case_decide.
Qed.
Lemma same_mutex_kernel s p m k : cpu_only (bs_k s) k → same_contents s (set_mutex p m (s <| bs_k := k |>)).
Proof. intros. eapply same_contents_trans; [by apply same_kernel|]. apply (same_mutex (s <| bs_k := k |>)). Qed.
Lemma set_mutex_free s p m fl : free_inv s fl → free_inv (set_mutex p m s) fl.
Proof. intros Hf. eapply free_inv_ext; [done|..]; intros q; unfold set_mutex; rewrite set_buf_decide; by case_decide. Qed.
Lemma kernel_free s k fl : free_inv s fl → free_inv (s <| bs_k := k |>) fl.
Proof. intros Hf. by eapply free_inv_ext. Qed.
Lemma in_k_run {A} (m : K A) s a k : m (bs_k s) = Ok (a, k) → in_k m s = Ok (a, s <| bs_k := k |>).
Proof. intros R. unfold in_k, zoom. by rewrite R. Qed.

(** Nobody waits for the buffer or for a free one. *)
Definition quiet p (k : kernel) : Prop :=
  nobody_waits (buf_addr p) k ∧ nobody_waits (buf_addr FreeHead) k ∧ nobody_waits (mutex_addr p) k.
Lemma quiet_cpu p k k' : cpu_only k k' → quiet p k → quiet p k'.
Proof. intros E (H1 & H2 & H3). split_and!; by eapply nobody_waits_cpu. Qed.

Lemma brelse_ok s fl qs p : cache_ok s fl qs → is_buf p → p ∉ fl → lock (b_mutex (buf s p)) = true → quiet p (bs_k s) →
  ∃ s', brelse p s = Ok (None, s') ∧ cache_ok s' (if to_the_end (buf s p) then fl ++ [p] else p :: fl) qs ∧
    same_contents s s' ∧ b_mutex (buf s' p) = MkMutex false None.
Proof.
  intros C Hp Hn Hl Hq. unfold brelse. rewrite get_buf_run by (by apply is_buf_valid). rewrite Hl. cbn [negb].
  set (k1 := (bs_k s) <| k_cpu ::= λ c, c <| kernel_eflags ::= <[cpu_state c := intr c]> |> <| intr := false |> |>).
  assert (cpu_only (bs_k s) k1) as E1 by (by eexists). set (s1 := s <| bs_k := k1 |>).
  assert (in_k disable_intr s = Ok (tt, s1)) as R1 by done. rewrite (bind_ok _ _ _ _ _ R1).
  destruct (put_free_ok s1 fl p) as (s2 & R2 & L2 & F2); [apply kernel_free, C|done|done|].
  rewrite (bind_ok _ _ _ _ _ R2). change (buf s1 p) with (buf s p) in F2.
  pose proof (same_contents_trans _ _ _ (same_kernel s k1 E1) (same_free_links _ _ L2)) as S2.
  destruct (quiet_cpu p _ _ (sc_kernel _ _ S2) Hq) as (Q1 & Q2 & Q3).
  destruct (wakeup_nobody _ WAKEUP_SWITCH _ Q1) as (k3 & R3 & E3). rewrite (bind_ok _ _ _ _ _ (in_k_run _ _ _ _ R3)).
  set (s3 := s2 <| bs_k := k3 |>). unfold brelse_wake.
  destruct (wakeup_nobody (buf_addr FreeHead) WAKEUP_SWITCH (bs_k s3)) as (k4 & R4 & E4); [by eapply nobody_waits_cpu|].
  rewrite (bind_ok _ _ _ _ _ (in_k_run _ _ _ _ R4)). set (s4 := s3 <| bs_k := k4 |>). unfold brelse_unlock.
  destruct (unlock_ok (mutex_addr p) p s4) as (k5 & R5 & E5).
  { eapply nobody_waits_cpu; [exact E4|]. by eapply nobody_waits_cpu. }
  rewrite (bind_ok _ _ _ _ _ R5). set (s5 := set_mutex _ _ _).
  set (k6 := (bs_k s5) <| k_cpu ::= λ c, c <| intr := true |> |>). set (s6 := s5 <| bs_k := k6 |>).
  exists s6. split; [done|].
  assert (same_contents s s6) as S6.
  { eapply same_contents_trans; [exact S2|]. eapply same_contents_trans; [apply (same_kernel s2 k3 E3)|].
    eapply same_contents_trans; [apply (same_kernel s3 k4 E4)|]. eapply same_contents_trans; [apply (same_mutex_kernel s4 p (MkMutex false None) k5 E5)|].
    apply same_kernel. by eexists. }
  assert (b_mutex (buf s6 p) = MkMutex false None) as Hm.
  { unfold s6, s5, set_mutex. rec_simpl. by rewrite set_buf_eq. }
  split; [|done]. eapply cache_ok_frame; [done|apply S6| |].
  - unfold s6, s5, s4, s3. by apply kernel_free, set_mutex_free, kernel_free, kernel_free, kernel_free.
  - intros q Hq'. destruct (decide (p = q)) as [<-|Hne]; [by rewrite Hm|].
    assert (b_mutex (buf s6 q) = b_mutex (buf s q)) as ->.
    { unfold s6, s5, set_mutex. rec_simpl. rewrite set_buf_ne by done. unfold s4, s3. do 3 rec_simpl.
      destruct L2 as (_ & _ & _ & E). rewrite (E q). by do 2 rec_simpl. }
    apply (co_unlocked _ _ _ C). destruct (to_the_end _); set_solver.
Qed.

(** ** The three ways through [getblk] *)
Lemma take_lock s p c : c = current_process (bs_k s) → lock (b_mutex (buf s p)) = false ∨ owner (b_mutex (buf s p)) = Some c →
  buf_locked p s = Ok (false, s) ∧
  ∃ s1, in_mutex p (mutex_lock (mutex_addr p)) s = Ok (tt, s1) ∧ same_contents s s1 ∧
    b_mutex (buf s1 p) = MkMutex true (Some c) ∧ (∀ q : bufp, q ≠ p → buf s1 q = buf s q) ∧
    (∃ k, s1 = set_mutex p (MkMutex true (Some c)) (s <| bs_k := k |>)).
Proof.
  intros -> Hl. split.
  - unfold buf_locked, gets, mutex_locked. change (mtx (buf_mutex p s)) with (b_mutex (buf s p)).
    change (current_process (mk (buf_mutex p s))) with (current_process (bs_k s)).
    destruct Hl as [-> | ->]; [done|]. by rewrite bool_decide_eq_false_2, andb_false_r by (by intros []).
  - destruct (lock_ok (mutex_addr p) p s Hl) as (k & R & E). eexists. split; [exact R|].
    split; [by apply same_mutex_kernel|]. unfold set_mutex. split; [by rewrite set_buf_eq|]. split; [|by exists k].
    intros q Hq. by rewrite set_buf_ne.
Qed.
(** The block has a buffer. *)
Lemma getblk_hit s fl qs nr p fuel : cache_ok s fl qs → lookup s dev nr = Some p →
  lock (b_mutex (buf s p)) = false ∨ owner (b_mutex (buf s p)) = Some (current_process (bs_k s)) →
  ∃ s' fl', getblk (S fuel) dev nr s = Ok (Returned p, s') ∧ cache_ok s' fl' qs ∧ (p ∉ fl') ∧ (∀ q : bufp, q ∈ fl' → q ∈ fl) ∧
    same_contents s s' ∧ b_mutex (buf s' p) = MkMutex true (Some (current_process (bs_k s))).
Proof.
  intros C Hp Hl. pose proof (co_hash _ _ _ C) as Hh. destruct (in_hash_queue_ok dev nr s qs Hh) as [R Hfound].
  destruct (Hfound p Hp) as (Hin & _). pose proof (hash_elem _ _ _ Hh Hin) as Hb.
  destruct (take_lock s p _ eq_refl Hl) as (R1 & s1 & R2 & S1 & M1 & O1 & k & E1).
  assert (free_inv s1 fl) as F1 by (rewrite E1; apply set_mutex_free, kernel_free, C).
  assert (∃ s2 fl', remove_from_free_list p s1 = Ok (tt, s2) ∧ free_inv s2 fl' ∧ free_links_only s1 s2 ∧ (p ∉ fl') ∧
    ∀ q, q ∈ fl' → q ∈ fl) as (s2 & fl' & R3 & F2 & L2 & N2 & I2).
  { destruct (decide (p ∈ fl)) as [Hpf|Hpf].
    - apply list_elem_of_split in Hpf as (l1 & l2 & ->). destruct (remove_free_ok s1 l1 p l2 F1) as (s2 & R3 & F2 & L2).
      exists s2, (l1 ++ l2). split_and!; try done; [|set_solver].
      pose proof (fi_nodup _ _ F1) as Hn. rewrite <-Permutation_middle in Hn. by apply NoDup_cons in Hn as [Hn _].
    - exists s1, fl. split_and!; try done. by apply (remove_free_off s1 fl). }
  exists s2, fl'. split.
  - simpl. unfold getblk_turn.
    unfold mbind, M_bind. rewrite R, Hp, R1, R2, R3. done.
  - assert (∀ q, b_mutex (buf s2 q) = b_mutex (buf s1 q)) as M2.
    { intros q. destruct L2 as (_ & _ & _ & E). rewrite (E q). by do 2 rec_simpl. }
    assert (same_contents s s2) as S2 by (by eapply same_contents_trans; [|apply same_free_links]).
    split; [|split_and!; try done; by rewrite M2]. eapply cache_ok_frame; [done|apply S2|done|].
    intros q Hq. rewrite M2, O1 by (intros ->; done). apply (co_unlocked _ _ _ C). auto.
Qed.

(** *** Flags *)
Lemma has_set f g b : 0 <= f → 0 <= g →
  has_flag (bit_of f) (set_flag (bit_of g) b) = (bool_decide (f = g) || has_flag (bit_of f) b)%bool.
Proof.
  intros Hf Hg. change (bit_test (bit_set (b_flags b) g) f = (bool_decide (f = g) || bit_test (b_flags b) f)%bool).
  by rewrite !bit_test_spec, bit_set_spec by done.
Qed.
Lemma has_clear f g b : 0 <= f → 0 <= g →
  has_flag (bit_of f) (clear_flag (bit_of g) b) = (negb (bool_decide (f = g)) && has_flag (bit_of f) b)%bool.
Proof.
  intros Hf Hg. change (bit_test (bit_clear (b_flags b) g) f = (negb (bool_decide (f = g)) && bit_test (b_flags b) f)%bool).
  by rewrite !bit_test_spec, bit_clear_spec by done.
Qed.
Lemma flags_read b : has_flag B_DONE (set_flag B_DONE b) = true ∧ has_flag B_DWRITE (set_flag B_DONE b) = has_flag B_DWRITE b.
Proof. split; [apply (has_set 1 1)|apply (has_set 0 1)]; lia. Qed.
Lemma flags_write b : has_flag B_DWRITE (clear_flag B_DWRITE b) = false ∧ has_flag B_DONE (clear_flag B_DWRITE b) = has_flag B_DONE b.
Proof. split; [apply (has_clear 0 0)|apply (has_clear 1 0)]; lia. Qed.

(** *** Writing back the head of the free list *)
Definition after_write (b : buffer) : buffer := set_flag B_DONE (clear_flag B_DWRITE b).
Lemma after_write_flags b : has_flag B_DWRITE (after_write b) = false ∧ has_flag B_DONE (after_write b) = true.
Proof.
  unfold after_write. pose proof (flags_read (clear_flag B_DWRITE b)) as [E1 E2]. rewrite E1, E2. by rewrite (proj1 (flags_write b)).
Qed.
(** A dirty buffer whose contents go to the device. *)
Record written s s' p : Prop := {
  wr_frame : frame s s';
  wr_kernel : bs_k s' = bs_k s;
  wr_links q : next_free s' q = next_free s q ∧ prev_free s' q = prev_free s q;
  wr_same q : q ≠ p → b_data (buf s' q) = b_data (buf s q) ∧ b_flags (buf s' q) = b_flags (buf s q);
  wr_lock q : b_mutex (buf s' q) = b_mutex (buf s q);
  wr_data : b_data (buf s' p) = b_data (buf s p);
  wr_flags : b_flags (buf s' p) = b_flags (after_write (buf s p));
  wr_block nr i : 0 <= i < bs → block (bs_d s') dev bs nr i =
    if bool_decide (nr = b_blknr (buf s p)) then data_at (buf s p) i else block (bs_d s) dev bs nr i
}.
Lemma write_back s p : valid p = true → cached_block s p →
  ∃ s', (upd_buf p (clear_flag B_DWRITE) ;; blk_devio_at p WRITE) s = Ok (0, s') ∧ written s s' p.
Proof.
  intros Hv [B1 B2 [data B3] B4 B5]. rewrite upd_buf_run by done. unfold blk_devio_at. rewrite get_buf_run by done.
  rewrite set_buf_eq. set (b := clear_flag B_DWRITE (buf s p)).
  destruct (devio_write b data (bs_d s)) as (d' & R & X & Y); [done|by rewrite <-B1, <-B2 in B5|].
  set (s1 := set_buf p (clear_flag B_DWRITE) s). set (s2 := s1 <| bs_d := d' |>).
  assert (zoom bs_d (λ d s, s <| bs_d := d |>) (devio b WRITE) s1 = Ok ((0, set_flag B_DONE b), s2)) as R1.
  { unfold zoom. change (bs_d s1) with (bs_d s). by rewrite R. }
  rewrite (bind_ok _ _ _ _ _ R1). rewrite upd_buf_run by done. eexists. split; [reflexivity|].
  set (s3 := set_buf p _ s2).
  assert (buf s3 p = after_write (buf s p)) as E1 by (unfold s3; by rewrite set_buf_eq).
  assert (∀ q : bufp, q ≠ p → buf s3 q = buf s q) as E2.
  { intros q Hq. unfold s3. rewrite set_buf_ne by done. unfold s2, s1. rec_simpl. by rewrite set_buf_ne. }
  assert (∀ q : bufp, stays (buf s q) (buf s3 q) ∧ b_next (buf s3 q) = b_next (buf s q) ∧ b_prev (buf s3 q) = b_prev (buf s q) ∧
    b_next_free (buf s3 q) = b_next_free (buf s q) ∧ b_prev_free (buf s3 q) = b_prev_free (buf s q) ∧
    b_mutex (buf s3 q) = b_mutex (buf s q)) as E3.
  { intros q. destruct (decide (q = p)) as [->|Hq]; [|rewrite E2 by done; split_and!; done].
    rewrite E1. destruct (after_write_flags (buf s p)) as [A1 A2]. split_and!; try done. split_and!; try done. rewrite A1. done. }
  split; try done.
  - split; try done; [intros q; apply E3..|]. intros nr Hn. change (bs_d s3) with d'. by apply Y.
  - intros q. unfold next_free, prev_free. by destruct (E3 q) as (_ & _ & _ & -> & -> & _).
  - intros q Hq. by rewrite E2.
  - intros q. apply E3.
  - by rewrite E1.
  - by rewrite E1.
  - intros nr i Hi. change (bs_d s3) with d'. specialize (X nr i). change (b_dev b) with (b_dev (buf s p)) in X.
    change (b_blksize b) with (b_blksize (buf s p)) in X. change (b_blknr b) with (b_blknr (buf s p)) in X.
    rewrite B1, B2 in X. rewrite X by done. unfold data_at. by rewrite B3.
Qed.
Lemma written_view s s' fl qs p nr i : cache_ok s fl qs → p ∈ mjoin qs → has_flag B_DONE (buf s p) = true → written s s' p →
  0 <= i < bs → view s' nr i = view s nr i.
Proof.
  intros C Hp Hdone W Hi. pose proof (co_hash _ _ _ C) as Hh. destruct (in_hash_queue_ok dev nr s qs Hh) as [_ Hfound].
  pose proof (co_found _ _ _ C p Hp) as Hself. rewrite (cb_dev _ _ (co_block _ _ _ C p Hp)) in Hself.
  unfold view. rewrite (frame_lookup s s' qs nr Hh (wr_frame _ _ _ W)), (wr_block _ _ _ W) by done.
  destruct (lookup s dev nr) as [q|] eqn:Hl.
  - destruct (Hfound q eq_refl) as (_ & _ & Hn). destruct (decide (q = p)) as [->|Hq].
    + unfold has_flag at 1. rewrite (wr_flags _ _ _ W). fold (has_flag B_DONE (after_write (buf s p))).
      rewrite (proj2 (after_write_flags _)), Hdone. unfold data_at. by rewrite (wr_data _ _ _ W).
    + destruct (wr_same _ _ _ W q Hq) as [E1 E2]. unfold has_flag, data_at. rewrite E1, E2.
      rewrite bool_decide_eq_false_2; [done|]. intros ->. congruence.
  - rewrite bool_decide_eq_false_2; [done|]. intros ->. congruence.
Qed.

(** A dirty buffer at the head of the free list is written, leaves the list and stays in its queue. *)
Lemma turn_dirty s p l qs nr : cache_ok s (p :: l) qs → lookup s dev nr = None → has_flag B_DWRITE (buf s p) = true →
  ∃ s', getblk_turn dev nr s = Ok (None, s') ∧ cache_ok s' l qs ∧ lookup s' dev nr = None ∧ bs_k s' = bs_k s ∧
    (∀ q : bufp, q ≠ p → b_flags (buf s' q) = b_flags (buf s q)) ∧ frame s s' ∧
    (∀ n i, 0 <= i < bs → view s' n i = view s n i).
Proof.
  intros C Hnone Hdirty. pose proof (co_hash _ _ _ C) as Hh. destruct (in_hash_queue_ok dev nr s qs Hh) as [R0 _].
  assert (is_buf p) as Hb by (pose proof (fi_bufs _ _ (co_free _ _ _ C)) as HB; by apply Forall_cons in HB as [HB _]).
  pose proof (is_buf_valid p Hb) as Hv.
  assert (p ∈ mjoin qs) as Hin.
  { destruct (decide (p ∈ mjoin qs)) as [|Hn]; [done|]. destruct (co_unused _ _ _ C p Hb Hn). congruence. }
  destruct (remove_free_ok s [] p l (co_free _ _ _ C)) as (s1 & R1 & F1 & L1).
  pose proof (same_free_links _ _ L1) as S1.
  assert (cache_ok s1 l qs) as C1.
  { eapply cache_ok_frame; [done|apply S1|done|]. intros q Hq. destruct L1 as (_ & _ & _ & E). rewrite (E q). do 2 rec_simpl.
    apply (co_unlocked _ _ _ C). by right. }
  assert (has_flag B_DWRITE (buf s1 p) = true) as D1 by (unfold has_flag; by rewrite (sc_flags _ _ S1)).
  pose proof (co_block _ _ _ C1 p Hin) as B1. pose proof (cb_dirty _ _ B1 D1) as Done1.
  destruct (write_back s1 p Hv B1) as (s2 & R2 & W). rewrite upd_buf_run in R2 by done.
  assert (lock (b_mutex (buf s2 p)) = false) as Hl.
  { rewrite (wr_lock _ _ _ W). destruct L1 as (_ & _ & _ & E). rewrite (E p). do 2 rec_simpl. apply (co_unlocked _ _ _ C). by left. }
  exists s2. split.
  - unfold getblk_turn. rewrite (bind_ok _ _ _ _ _ R0), Hnone. rewrite get_buf_run by done.
    destruct (head_links _ _ (co_free _ _ _ C)) as [Hhead _]. unfold next_free in Hhead. simpl in Hhead. rewrite Hhead.
    rewrite (bind_ok _ _ _ _ _ R1). rewrite get_buf_run by done. rewrite D1. rewrite upd_buf_run by done.
    assert (bwrite p (set_buf p (clear_flag B_DWRITE) s1) = Ok (None, s2)) as R3.
    { unfold bwrite. rewrite (bind_ok _ _ _ _ _ R2). unfold brelse. rewrite get_buf_run by done. by rewrite Hl. }
    by rewrite (bind_ok _ _ _ _ _ R3).
  - pose proof (wr_frame _ _ _ W) as F2.
    assert (frame s s2) as F by (eapply frame_trans; [apply S1|done]).
    assert (free_inv s2 l) as Fr.
    { eapply free_inv_links; [exact F1|apply W]. }
    split; [|split; [|split; [|split; [|split]]]].
    + eapply cache_ok_frame; [exact C1|done|done|]. intros q Hq. rewrite (wr_lock _ _ _ W). by apply (co_unlocked _ _ _ C1).
    + by rewrite (frame_lookup s s2 qs).
    + rewrite (wr_kernel _ _ _ W). by destruct L1 as (-> & _).
    + intros q Hq. destruct (wr_same _ _ _ W q Hq) as [_ ->]. apply (sc_flags _ _ S1).
    + done.
    + intros n i Hi. rewrite (written_view s1 s2 l qs p n i) by done. by apply (same_contents_view s s1 qs).
Qed.

(** *** A buffer that has not been used *)
Context (Hattr : ∀ k (d : D), fs_get_attribute fs GET_BLOCKSIZE (k, d) = Ok (bs, (k, d))) (Hbs : 0 < bs < 2147483648).

(** The buffer gets its new block; the others keep everything but links. *)
Record fresh s s' p (nr : Z) : Prop := {
  fh_id : b_dev (buf s' p) = dev ∧ b_blknr (buf s' p) = nr ∧ b_blksize (buf s' p) = bs ∧ is_Some (b_data (buf s' p)) ∧ b_flags (buf s' p) = 0;
  fh_same q : q ≠ p → b_dev (buf s' q) = b_dev (buf s q) ∧ b_blknr (buf s' q) = b_blknr (buf s q) ∧
    b_blksize (buf s' q) = b_blksize (buf s q) ∧ b_data (buf s' q) = b_data (buf s q) ∧ b_flags (buf s' q) = b_flags (buf s q) ∧
    b_mutex (buf s' q) = b_mutex (buf s q);
  fh_dev : bs_d s' = bs_d s;
  fh_kernel : cpu_only (bs_k s) (bs_k s');
  fh_lock : b_mutex (buf s' p) = MkMutex true (Some (current_process (bs_k s)))
}.
(** What [take_over] has done before the hash queues. *)
Lemma take_over_starts s p nr qs : is_buf p → mounted (bs_k s) → lock (b_mutex (buf s p)) = false → hash_inv s qs →
  (b_blksize (buf s p) = bs → is_Some (b_data (buf s p))) →
  ∃ s1, take_over p dev nr s = (remove_from_hash_queue p ;; put_into_hash_queue p) s1 ∧ fresh s s1 p nr ∧ hash_inv s1 qs ∧ hash_queues s1 = hash_queues s ∧
    ∀ q, b_next (buf s1 q) = b_next (buf s q) ∧ b_prev (buf s1 q) = b_prev (buf s q) ∧
      b_next_free (buf s1 q) = b_next_free (buf s q) ∧ b_prev_free (buf s1 q) = b_prev_free (buf s q).
Proof.
  intros Hb Hm Hl Hh Hdata. pose proof (is_buf_valid p Hb) as Hv.
  destruct (take_lock s p _ eq_refl (or_introl Hl)) as (_ & s1 & R1 & S1 & M1 & O1 & k & E1).
  unfold take_over. rewrite (bind_ok _ _ _ _ _ R1). rewrite !upd_buf_run by done. set (s2 := set_buf p _ (set_buf p _ s1)).
  rewrite get_buf_run by done.
  assert (in_fsys (filesystem_get_attr dev GET_BLOCKSIZE) s2 = Ok (bs, s2)) as R2.
  { assert (mounted (bs_k s2)) as Hm2 by (eapply mounted_cpu; [apply (sc_kernel _ _ S1)|done]).
    assert (filesystem_get_attr dev GET_BLOCKSIZE (bs_k s2, bs_d s2) = Ok (bs, (bs_k s2, bs_d s2))) as R.
    { unfold filesystem_get_attr, kget. change ((gets ?f ≫= ?m) ?x) with (m (f x) x). cbv beta. cbn [fst].
      unfold mounted in Hm2. rewrite Hm2. apply Hattr. }
    unfold in_fsys, zoom. rewrite R. by destruct s2. }
  rewrite (bind_ok _ _ _ _ _ R2). rewrite s32_id by (unfold is_s32; lia). rewrite upd_buf_run by done.
  rewrite (proj2 (Z.eqb_neq bs 0)) by lia. cbn [negb andb].
  assert (b_blksize (buf s2 p) = b_blksize (buf s p)) as Hsz.
  { unfold s2. rewrite !set_buf_eq. do 2 rec_simpl. by destruct (fr_stays _ _ (sc_frame _ _ S1) p) as (_ & _ & -> & _). }
  assert (b_data (buf s2 p) = b_data (buf s p)) as Hdt.
  { unfold s2. rewrite !set_buf_eq. do 2 rec_simpl. apply (sc_data _ _ S1). }
  set (s3 := set_buf p (λ b, b <| b_blksize := bs |>) s2).
  assert (∃ s4, when (negb (b_blksize (buf s2 p) =? bs)) (upd_buf p (λ b, b <| b_data := Some (kvmalloc_bytes bs) |>)) s3 = Ok (tt, s4) ∧
    (∀ q : bufp, q ≠ p → buf s4 q = buf s3 q) ∧ is_Some (b_data (buf s4 p)) ∧ bs_k s4 = bs_k s3 ∧ bs_d s4 = bs_d s3 ∧
    hash_queues s4 = hash_queues s3 ∧ buf s4 p = (buf s3 p) <| b_data := b_data (buf s4 p) |>) as (s4 & R4 & O4 & I4 & K4 & D4 & Q4 & E4).
  { destruct (Z.eqb_spec (b_blksize (buf s2 p)) bs) as [E|E]; cbn [negb when].
    - exists s3. split_and!; try done.
      + unfold s3. rewrite set_buf_eq. rec_simpl. rewrite Hdt. apply Hdata. congruence.
      + by destruct (buf s3 p).
    - eexists. split; [by apply upd_buf_last|]. split_and!; try done.
      + intros q Hq. by rewrite set_buf_ne.
      + by rewrite set_buf_eq.
      + by rewrite set_buf_eq. }
  rewrite (bind_ok _ _ _ _ _ R4). rewrite upd_buf_run by done. set (s5 := set_buf p (λ b, b <| b_flags := 0 |>) s4).
  assert (∀ q : bufp, q ≠ p → buf s5 q = buf s q) as O5.
  { intros q Hq. unfold s5. rewrite set_buf_ne, O4 by done. unfold s3, s2. rewrite !set_buf_ne by done. by apply O1. }
  assert (buf s1 p = (buf s p) <| b_mutex := b_mutex (buf s1 p) |>) as P1.
  { rewrite E1. unfold set_mutex. by rewrite set_buf_eq. }
  assert (buf s5 p = (buf s p) <| b_mutex := b_mutex (buf s1 p) |> <| b_dev := dev |> <| b_blknr := nr |> <| b_blksize := bs |>
    <| b_data := b_data (buf s4 p) |> <| b_flags := 0 |>) as P5.
  { unfold s5. rewrite set_buf_eq, E4. unfold s3. rewrite set_buf_eq. unfold s2. rewrite !set_buf_eq. by rewrite P1. }
  assert (∀ q : bufp, b_next (buf s5 q) = b_next (buf s q) ∧ b_prev (buf s5 q) = b_prev (buf s q) ∧
    b_next_free (buf s5 q) = b_next_free (buf s q) ∧ b_prev_free (buf s5 q) = b_prev_free (buf s q)) as L5.
  { intros q. destruct (decide (q = p)) as [->|Hq]; [by rewrite P5|by rewrite O5]. }
  assert (hash_queues s5 = hash_queues s) as Q5.
  { unfold s5, set_buf. rec_simpl. rewrite Q4. apply (fr_queues _ _ (sc_frame _ _ S1)). }
  assert (hash_inv s5 qs) as H5 by (eapply hash_inv_ext; [exact Hh|apply L5|apply L5|done]).
  exists s5. split; [done|]. split; [|done]. split.
  - rewrite P5. by split_and!.
  - intros q Hq. by rewrite O5.
  - unfold s5, set_buf. rec_simpl. rewrite D4. apply (sc_dev _ _ S1).
  - unfold s5, set_buf. rec_simpl. rewrite K4. apply (sc_kernel _ _ S1).
  - by rewrite P5.
Qed.

Lemma fresh_after_put s s1 s2 p nr : hash_links_only s1 s2 → fresh s s1 p nr → fresh s s2 p nr.
Proof.
  clear Hattr Hbs.
  intros (E1 & E2 & E3) [F1 F2 F3 F4 F5]. split.
  - rewrite (E3 p). by do 2 rec_simpl.
  - intros q Hq. rewrite (E3 q). do 2 rec_simpl. by apply F2.
  - by rewrite E2.
  - by rewrite E1.
  - rewrite (E3 p). by do 2 rec_simpl.
Qed.
(** The cache after an unused buffer [p] has got block [nr]. *)
Lemma cache_ok_fresh s s' l qs qs' p nr : cache_ok s (p :: l) qs → is_buf p → p ∉ mjoin qs → fresh s s' p nr →
  on_dev (bs_d s) dev bs nr → lookup s dev nr = None → (∀ d n, lookup s' d n = if is_block d n (buf s' p) then Some p else lookup s d n) →
  free_inv s' l → hash_inv s' qs' → mjoin qs' ≡ₚ p :: mjoin qs → cache_ok s' l qs'.
Proof.
  clear Hattr Hbs.
  intros C Hb Hn F Hon Hnone Hlook Hfree Hh Hperm. pose proof F as [(I1 & I2 & I3 & I4 & I5) Hs Hd Hk Hl].
  assert (∀ q : bufp, q ∈ mjoin qs → q ≠ p) as Hne by (intros q Hq ->; done).
  split; [done|done|..].
  - intros q Hq. assert (q ≠ p) as Hqp.
    { intros ->. pose proof (fi_nodup _ _ (co_free _ _ _ C)) as Hnd. by apply NoDup_cons in Hnd as [Hnd _]. }
    destruct (Hs q Hqp) as (_ & _ & _ & _ & _ & ->). apply (co_unlocked _ _ _ C). by right.
  - intros q. rewrite Hperm, Hlook. intros [->|Hq]%elem_of_cons.
    + unfold is_block. by rewrite !Z.eqb_refl.
    + destruct (Hs q (Hne q Hq)) as (E1 & E2 & _). rewrite E1, E2. pose proof (co_found _ _ _ C q Hq) as Hf.
      pose proof (cb_dev _ _ (co_block _ _ _ C q Hq)) as Eq. unfold is_block. rewrite I1, I2, Eq, Z.eqb_refl. cbn [andb].
      destruct (Z.eqb_spec nr (b_blknr (buf s q))) as [->|]; [|by rewrite <-Eq]. rewrite Eq in Hf. congruence.
  - intros q. rewrite Hperm. intros [->|Hq]%elem_of_cons.
    + split; [done|done|done| |by rewrite I2, Hd]. unfold has_flag. by rewrite I5.
    + destruct (Hs q (Hne q Hq)) as (E1 & E2 & E3 & E4 & E5 & _). destruct (co_block _ _ _ C q Hq) as [B1 B2 B3 B4 B5].
      split; unfold has_flag in *; rewrite ?E1, ?E2, ?E3, ?E4, ?E5, ?Hd; done.
  - intros q Hq. rewrite Hperm. intros Hq'. assert (q ≠ p ∧ q ∉ mjoin qs) as [Hqp Hqn] by set_solver.
    destruct (Hs q Hqp) as (E1 & E2 & E3 & E4 & E5 & _). unfold has_flag in *. rewrite E3, E4, E5.
    by apply (co_unused _ _ _ C).
Qed.
Lemma view_fresh s s' l qs p nr n i : cache_ok s (p :: l) qs → p ∉ mjoin qs → fresh s s' p nr → lookup s dev nr = None →
  (∀ d n, lookup s' d n = if is_block d n (buf s' p) then Some p else lookup s d n) → view s' n i = view s n i.
Proof.
  clear Hattr Hbs.
  intros C Hn [(I1 & I2 & I3 & I4 & I5) Hs Hd Hk Hl] Hnone Hlook. unfold view. rewrite Hlook. unfold is_block.
  rewrite I1, I2, Z.eqb_refl, Hd. cbn [andb]. destruct (Z.eqb_spec nr n) as [<-|].
  - rewrite Hnone. unfold has_flag. by rewrite I5.
  - destruct (lookup s dev n) as [q|] eqn:Hq; [|done].
    destruct (proj2 (in_hash_queue_ok dev n s qs (co_hash _ _ _ C)) q Hq) as (Hin & _).
    destruct (Hs q) as (_ & _ & _ & E4 & E5 & _); [by intros ->|]. unfold has_flag, data_at. by rewrite E4, E5.
Qed.
Lemma turn_fresh s p l qs nr : cache_ok s (p :: l) qs → lookup s dev nr = None → p ∉ mjoin qs → mounted (bs_k s) →
  on_dev (bs_d s) dev bs nr →
  ∃ s' qs', getblk_turn dev nr s = Ok (Some (Returned p), s') ∧ cache_ok s' l qs' ∧ fresh s s' p nr ∧
    p ∈ mjoin qs' ∧ (p ∉ l) ∧ ∀ n i, view s' n i = view s n i.
Proof.
  intros C Hnone Hn Hm Hon. pose proof (co_hash _ _ _ C) as Hh. destruct (in_hash_queue_ok dev nr s qs Hh) as [R0 _].
  assert (is_buf p) as Hb by (pose proof (fi_bufs _ _ (co_free _ _ _ C)) as HB; by apply Forall_cons in HB as [HB _]).
  assert (p ∉ l) as Hpl by (pose proof (fi_nodup _ _ (co_free _ _ _ C)) as Hnd; by apply NoDup_cons in Hnd as [Hnd _]).
  pose proof (is_buf_valid p Hb) as Hv. destruct (co_unused _ _ _ C p Hb Hn) as [U1 U2].
  destruct (remove_free_ok s [] p l (co_free _ _ _ C)) as (s1 & R1 & F1 & L1). pose proof L1 as (LK & LD & LQ & LE).
  pose proof (same_free_links _ _ L1) as S1.
  assert (∀ q, b_next (buf s1 q) = b_next (buf s q) ∧ b_prev (buf s1 q) = b_prev (buf s q) ∧ b_mutex (buf s1 q) = b_mutex (buf s q)) as E1.
  { intros q. rewrite (LE q). by do 2 rec_simpl. }
  assert (lock (b_mutex (buf s1 p)) = false) as Hl1.
  { destruct (E1 p) as (_ & _ & ->). apply (co_unlocked _ _ _ C). by left. }
  assert (hash_inv s1 qs) as H1 by (eapply hash_inv_ext; [exact Hh|apply E1|apply E1|done]).
  destruct (take_over_starts s1 p nr qs Hb ltac:(by rewrite LK) Hl1 H1) as (s2 & R2 & Fr2 & H2 & Q2 & E2).
  { rewrite (sc_data _ _ S1). destruct (fr_stays _ _ (sc_frame _ _ S1) p) as (_ & _ & -> & _). done. }
  destruct (put_hash_ok s2 qs p H2 Hb Hn) as (s3 & R3 & L3 & (qs' & H3 & P3) & Look).
  pose proof (fh_id _ _ _ _ Fr2) as (I1 & I2 & _).
  assert (∀ d n, lookup s2 d n = lookup s d n) as Hl2.
  { intros d n. trans (lookup s1 d n).
    { apply (lookup_ext s1 s2 qs); [done|apply E2|apply E2|done|]. intros q Hq. unfold is_block.
      assert (q ≠ p) as Hqp by (intros ->; done). by destruct (fh_same _ _ _ _ Fr2 q Hqp) as (-> & -> & _). }
    apply (lookup_ext s s1 qs); [done|apply E1|apply E1|done|]. intros q _. unfold is_block.
    by destruct (fr_stays _ _ (sc_frame _ _ S1) q) as (-> & -> & _). }
  assert (fresh s s3 p nr) as Fr3.
  { destruct (fresh_after_put s1 s2 s3 p nr L3 Fr2) as [G1 G2 G3 G4 G5]. rewrite LK in G4, G5. rewrite LD in G3. split; try done.
    intros q Hq. destruct (G2 q Hq) as (-> & -> & -> & -> & -> & ->). rewrite (LE q). by do 2 rec_simpl. }
  assert (∀ d n, lookup s3 d n = if is_block d n (buf s3 p) then Some p else lookup s d n) as Hl3.
  { intros d n. rewrite Look by (by rewrite I1, I2, Hl2). rewrite Hl2.
    by rewrite (hash_links_block s2 s3 d n p L3). }
  assert (free_inv s3 l) as F3.
  { eapply free_inv_ext; [exact F1|..]; intros q; destruct L3 as (_ & _ & E3); rewrite (E3 q); do 2 rec_simpl; apply E2. }
  exists s3, qs'. split.
  - unfold getblk_turn. rewrite (bind_ok _ _ _ _ _ R0), Hnone. rewrite get_buf_run by done.
    destruct (head_links _ _ (co_free _ _ _ C)) as [Hhead _]. unfold next_free in Hhead. simpl in Hhead. rewrite Hhead.
    rewrite (bind_ok _ _ _ _ _ R1). rewrite get_buf_run by done.
    assert (has_flag B_DWRITE (buf s1 p) = false) as -> by (unfold has_flag in *; by rewrite (sc_flags _ _ S1)).
    destruct (take_lock s1 p _ eq_refl (or_introl Hl1)) as (RL & _). rewrite (bind_ok _ _ _ _ _ RL).
    rewrite (bind_ok _ _ _ _ _ (remove_hash_off s2 qs p H2 Hb Hn)), R3 in R2. by rewrite (bind_ok _ _ _ _ _ R2).
  - split; [by eapply cache_ok_fresh|]. split; [done|]. split; [rewrite P3; by left|]. split; [done|].
    intros. by eapply view_fresh.
Qed.

(** *** Getting and reading a block *)

(** The running process has the buffer [p] of block [nr]. *)
Record got s' (c : nat) p (nr : Z) (fl : list bufp) : Prop := {
  gt_dev : b_dev (buf s' p) = dev;
  gt_nr : b_blknr (buf s' p) = nr;
  gt_lock : b_mutex (buf s' p) = MkMutex true (Some c);
  gt_free : p ∉ fl
}.
Lemma getblk_miss nr p l ds : ∀ s qs fuel, cache_ok s (ds ++ p :: l) qs → lookup s dev nr = None →
  Forall (λ q, has_flag B_DWRITE (buf s q) = true) ds → p ∉ mjoin qs → mounted (bs_k s) → on_dev (bs_d s) dev bs nr →
  (length ds < fuel)%nat →
  ∃ s' qs', getblk fuel dev nr s = Ok (Returned p, s') ∧ cache_ok s' l qs' ∧ got s' (current_process (bs_k s)) p nr l ∧
    p ∈ mjoin qs' ∧ cpu_only (bs_k s) (bs_k s') ∧ ∀ n i, 0 <= i < bs → view s' n i = view s n i.
Proof.
  induction ds as [|q ds IH]; intros s qs [|fuel] C Hnone Hd Hn Hm Hon Hf; simpl in Hf; try lia.
  - destruct (turn_fresh s p l qs nr C Hnone Hn Hm Hon) as (s' & qs' & R & C' & F & Hin & Hpl & Hv).
    exists s', qs'. split; [simpl; by rewrite (bind_ok _ _ _ _ _ R)|]. split; [done|].
    destruct F as [(I1 & I2 & _) _ _ Hk Hl]. split; [by split|]. split; [done|]. split; [done|]. auto.
  - apply Forall_cons in Hd as [Hq Hd]. simpl in C.
    destruct (turn_dirty s q (ds ++ p :: l) qs nr C Hnone Hq) as (s1 & R & C1 & Hnone1 & Hk & Hfl & F & Hv).
    assert (Forall (λ q, has_flag B_DWRITE (buf s1 q) = true) ds) as Hd1.
    { apply Forall_forall. intros x Hx. rewrite Forall_forall in Hd. unfold has_flag in *. rewrite Hfl; [by apply Hd|].
      intros ->. pose proof (fi_nodup _ _ (co_free _ _ _ C)) as Hnd. apply NoDup_cons in Hnd as [Hnd _]. set_solver. }
    destruct (IH s1 qs fuel C1 Hnone1 Hd1 Hn ltac:(by rewrite Hk) (fr_dev _ _ F _ Hon) ltac:(lia))
      as (s' & qs' & R' & C' & G & Hin & Hk' & Hv').
    rewrite Hk in G, Hk'. exists s', qs'. split; [simpl; by rewrite (bind_ok _ _ _ _ _ R)|]. split_and!; try done.
    intros n i Hi. by rewrite Hv', Hv.
Qed.

Lemma read_block s fl qs p : cache_ok s fl qs → p ∈ mjoin qs → has_flag B_DONE (buf s p) = false →
  ∃ s', blk_devio_at p READ s = Ok (0, s') ∧ cache_ok s' fl qs ∧ has_flag B_DONE (buf s' p) = true ∧ bs_k s' = bs_k s ∧
    (∀ c nr l, got s c p nr l → got s' c p nr l) ∧ ∀ n i, 0 <= i < bs → view s' n i = view s n i.
Proof.
  clear Hattr Hbs.
  intros C Hp Hdone. pose proof (co_hash _ _ _ C) as Hh. pose proof (is_buf_valid p (hash_elem _ _ _ Hh Hp)) as Hv.
  destruct (co_block _ _ _ C p Hp) as [B1 B2 [data B3] B4 B5]. unfold blk_devio_at. rewrite get_buf_run by done.
  destruct (devio_read (buf s p) data (bs_d s) B3 ltac:(by rewrite B1, B2)) as (data' & d' & R & X & Y & Z).
  set (s1 := s <| bs_d := d' |>).
  assert (zoom bs_d (λ d s, s <| bs_d := d |>) (devio (buf s p) READ) s = Ok ((0, set_flag B_DONE ((buf s p) <| b_data := Some data' |>)), s1)) as R1.
  { unfold zoom. by rewrite R. }
  rewrite (bind_ok _ _ _ _ _ R1). rewrite upd_buf_run by done. eexists. split; [reflexivity|].
  set (s2 := set_buf p _ s1). set (b' := set_flag B_DONE ((buf s p) <| b_data := Some data' |>)) in *.
  assert (buf s2 p = b') as E1 by (unfold s2; by rewrite set_buf_eq).
  assert (∀ q : bufp, q ≠ p → buf s2 q = buf s q) as E2 by (intros q Hq; unfold s2; by rewrite set_buf_ne).
  pose proof (flags_read ((buf s p) <| b_data := Some data' |>)) as [G1 G2]. fold b' in G1, G2.
  assert (∀ q : bufp, stays (buf s q) (buf s2 q) ∧ b_next (buf s2 q) = b_next (buf s q) ∧ b_prev (buf s2 q) = b_prev (buf s q) ∧
    b_next_free (buf s2 q) = b_next_free (buf s q) ∧ b_prev_free (buf s2 q) = b_prev_free (buf s q) ∧
    b_mutex (buf s2 q) = b_mutex (buf s q)) as E3.
  { intros q. destruct (decide (q = p)) as [->|Hq]; [|rewrite E2 by done; split_and!; done].
    rewrite E1. split_and!; try done. split_and!; try done. by rewrite G2. }
  assert (frame s s2) as F.
  { split; try done; [intros q; apply E3..|]. intros n Hn. by apply Z. }
  split.
  { eapply cache_ok_frame; [done|done|eapply free_inv_ext; [apply C|apply E3..]|].
    intros q Hq. destruct (E3 q) as (_ & _ & _ & _ & _ & ->). by apply (co_unlocked _ _ _ C). }
  split; [by rewrite E1|]. split; [done|]. split.
  - intros c nr l [T1 T2 T3 T4]. split; rewrite ?E1; done.
  - intros n i Hi. unfold view. rewrite (frame_lookup s s2 qs n Hh F). change (bs_d s2) with d'. rewrite !Y.
    destruct (lookup s dev n) as [q|] eqn:Hq; [|done]. destruct (proj2 (in_hash_queue_ok dev n s qs Hh) q Hq) as (_ & _ & Hnr).
    destruct (decide (q = p)) as [->|Hqp]; [|by rewrite E2]. rewrite E1, G1, Hdone.
    change (data_at b' i) with (data' i). rewrite X by (by rewrite B2). by rewrite B1, B2, Hnr.
Qed.

(** The block has a buffer that no other process holds, or the first buffer of the free list that
    is not dirty has not been used. *)
Definition available s (fl : list bufp) (qs : list (list bufp)) (nr : Z) : Prop :=
  match lookup s dev nr with
  | Some p => lock (b_mutex (buf s p)) = false ∨ owner (b_mutex (buf s p)) = Some (current_process (bs_k s))
  | None => ∃ ds p l, fl = ds ++ p :: l ∧ Forall (λ q, has_flag B_DWRITE (buf s q) = true) ds ∧ p ∉ mjoin qs
  end.
Lemma getblk_ok s fl qs nr fuel : cache_ok s fl qs → mounted (bs_k s) → on_dev (bs_d s) dev bs nr → available s fl qs nr →
  (length fl < fuel)%nat →
  ∃ s' fl' qs' p, getblk fuel dev nr s = Ok (Returned p, s') ∧ cache_ok s' fl' qs' ∧
    got s' (current_process (bs_k s)) p nr fl' ∧ p ∈ mjoin qs' ∧ cpu_only (bs_k s) (bs_k s') ∧ 
    ∀ n i, 0 <= i < bs → view s' n i = view s n i.
Proof.
  intros C Hm Hon Ha Hf. unfold available in Ha. destruct (lookup s dev nr) as [p|] eqn:Hl.
  - destruct fuel as [|fuel]; [lia|]. destruct (getblk_hit s fl qs nr p fuel C Hl Ha) as (s' & fl' & R & C' & Hn & _ & S & M).
    pose proof (co_hash _ _ _ C) as Hh. destruct (proj2 (in_hash_queue_ok dev nr s qs Hh) p Hl) as (Hin & H1 & H2).
    exists s', fl', qs, p. split; [done|]. split; [done|]. split.
    + destruct (fr_stays _ _ (sc_frame _ _ S) p) as (E1 & E2 & _). by split; rewrite ?E1, ?E2.
    + split; [done|]. split; [apply S|]. intros n i _. by apply (same_contents_view s s' qs).
  - destruct Ha as (ds & p & l & -> & Hd & Hn). rewrite length_app in Hf. simpl in Hf.
    destruct (getblk_miss nr p l ds s qs fuel C Hl Hd Hn Hm Hon ltac:(lia)) as (s' & qs' & R & C' & G & Hin & Hk & Hv).
    by exists s', l, qs', p.
Qed.
Lemma cached_bread_ok s fl qs nr fuel : cache_ok s fl qs → mounted (bs_k s) → on_dev (bs_d s) dev bs nr → available s fl qs nr →
  (length fl < fuel)%nat →
  ∃ s' fl' qs' p, bread fuel dev nr s = Ok (Returned (Some p), s') ∧ cache_ok s' fl' qs' ∧
    got s' (current_process (bs_k s)) p nr fl' ∧ p ∈ mjoin qs' ∧ has_flag B_DONE (buf s' p) = true ∧ cpu_only (bs_k s) (bs_k s') ∧
    (∀ i, 0 <= i < bs → data_at (buf s' p) i = view s nr i) ∧ ∀ n i, 0 <= i < bs → view s' n i = view s n i.
Proof.
  intros C Hm Hon Ha Hf. destruct (getblk_ok s fl qs nr fuel C Hm Hon Ha Hf) as (s1 & fl' & qs' & p & R & C1 & G & Hin & Hk & Hv).
  assert (∃ s2, bread_got p s1 = Ok (Returned (Some p), s2) ∧ cache_ok s2 fl' qs' ∧ got s2 (current_process (bs_k s)) p nr fl' ∧
    bs_k s2 = bs_k s1 ∧ has_flag B_DONE (buf s2 p) = true ∧ ∀ n i, 0 <= i < bs → view s2 n i = view s1 n i) as
    (s2 & R2 & C2 & G2 & K2 & D2 & V2).
  { unfold bread_got. rewrite get_buf_run by (apply is_buf_valid; eapply hash_elem; [apply C1|done]).
    destruct (has_flag B_DONE (buf s1 p)) eqn:Hd; [by exists s1|].
    destruct (read_block s1 fl' qs' p C1 Hin Hd) as (s2 & R2 & C2 & D2 & K2 & G2 & V2). exists s2.
    rewrite (bind_ok _ _ _ _ _ R2). split_and!; try done. by apply G2. }
  exists s2, fl', qs', p. split; [unfold bread; by rewrite (bind_ok _ _ _ _ _ R)|]. rewrite K2. split_and!; try done.
  - intros i Hi. rewrite <-Hv, <-V2 by done. pose proof (co_found _ _ _ C2 p Hin) as Hl.
    rewrite (gt_dev _ _ _ _ _ G2), (gt_nr _ _ _ _ _ G2) in Hl. unfold view. by rewrite Hl, D2.
  - intros n i Hi. by rewrite V2, Hv.
Qed.

(** *** Changing a block *)

(** What the callers do with a buffer that they have read. *)
Definition modify_block p (f : Z → Z) : M (bstate D) unit := upd_buf p (λ b, set_flag B_DWRITE (b <| b_data := Some f |>)).
Lemma flags_modify b f : let b' := set_flag B_DWRITE (b <| b_data := Some f |>) in
  has_flag B_DWRITE b' = true ∧ has_flag B_DONE b' = has_flag B_DONE b.
Proof. split; [apply (has_set 0 0)|apply (has_set 1 0)]; lia. Qed.
Lemma modify_ok s fl qs p c nr f : cache_ok s fl qs → p ∈ mjoin qs → got s c p nr fl → has_flag B_DONE (buf s p) = true →
  ∃ s', modify_block p f s = Ok (tt, s') ∧ cache_ok s' fl qs ∧ got s' c p nr fl ∧ bs_k s' = bs_k s ∧
    to_the_end (buf s' p) = false ∧ ∀ n i, view s' n i = if bool_decide (n = nr) then f i else view s n i.
Proof.
  clear Hattr Hbs.
  intros C Hp G Hdone. pose proof (co_hash _ _ _ C) as Hh. pose proof (is_buf_valid p (hash_elem _ _ _ Hh Hp)) as Hv.
  unfold modify_block. eexists. split; [by apply upd_buf_last|]. set (s' := set_buf p _ s).
  pose proof (flags_modify (buf s p) f) as [F1 F2]. cbv zeta in F1, F2. set (b' := set_flag B_DWRITE ((buf s p) <| b_data := Some f |>)) in *.
  assert (buf s' p = b') as E1 by (unfold s'; by rewrite set_buf_eq).
  assert (∀ q : bufp, q ≠ p → buf s' q = buf s q) as E2 by (intros q Hq; unfold s'; by rewrite set_buf_ne).
  assert (∀ q : bufp, b_dev (buf s' q) = b_dev (buf s q) ∧ b_blknr (buf s' q) = b_blknr (buf s q) ∧
    b_next (buf s' q) = b_next (buf s q) ∧ b_prev (buf s' q) = b_prev (buf s q) ∧
    b_next_free (buf s' q) = b_next_free (buf s q) ∧ b_prev_free (buf s' q) = b_prev_free (buf s q) ∧
    b_mutex (buf s' q) = b_mutex (buf s q) ∧ b_blksize (buf s' q) = b_blksize (buf s q)) as E3.
  { intros q. destruct (decide (q = p)) as [->|Hq]; [by rewrite E1|by rewrite E2]. }
  assert (∀ d n, lookup s' d n = lookup s d n) as El.
  { intros d n. apply (lookup_ext s s' qs); [done|apply E3|apply E3|done|]. intros q _. unfold is_block.
    by destruct (E3 q) as (-> & -> & _). }
  split; [|split; [|split; [done|split]]].
  - split.
    + eapply free_inv_ext; [apply C|apply E3..].
    + by eapply hash_inv_ext; [apply C|apply E3..|].
    + intros q Hq. destruct (E3 q) as (_ & _ & _ & _ & _ & _ & -> & _). by apply (co_unlocked _ _ _ C).
    + intros q Hq. destruct (E3 q) as (E4 & E5 & _). rewrite E4, E5, El. by apply (co_found _ _ _ C).
    + intros q Hq. destruct (co_block _ _ _ C q Hq) as [B1 B2 B3 B4 B5]. destruct (E3 q) as (E4 & E5 & _ & _ & _ & _ & _ & E6).
      split; rewrite ?E4, ?E5, ?E6; try done; (destruct (decide (q = p)) as [->|Hqp]; [rewrite E1|by rewrite E2]); [done|].
      by rewrite F2.
    + intros q Hq Hqn. rewrite E2 by (intros ->; done). by apply (co_unused _ _ _ C).
  - destruct G as [G1 G2 G3 G4]. destruct (E3 p) as (E4 & E5 & _ & _ & _ & _ & E6 & _). by split; rewrite ?E4, ?E5, ?E6.
  - unfold to_the_end. by rewrite E1, F1.
  - intros n i. unfold view. rewrite El. pose proof (co_found _ _ _ C p Hp) as Hl. destruct G as [G1 G2 _ _]. rewrite G1, G2 in Hl.
    case_bool_decide as En; [subst n; by rewrite Hl, E1, F2, Hdone|].
    destruct (lookup s dev n) as [q|] eqn:Hq; [|done]. destruct (proj2 (in_hash_queue_ok dev n s qs Hh) q Hq) as (_ & _ & Hn).
    rewrite E2; [done|]. intros ->. congruence.
Qed.

(** *** Writing all dirty buffers *)
Definition to_write s q : bool := has_flag B_DWRITE (buf s q) && negb (lock (b_mutex (buf s q))).
(** The running process holds no buffer. *)
Definition holds_none s : Prop :=
  ∀ q, is_buf q → lock (b_mutex (buf s q)) = true → owner (b_mutex (buf s q)) ≠ Some (current_process (bs_k s)).
Record synced s s' (l : list bufp) : Prop := {
  sy_frame : frame s s';
  sy_kernel : bs_k s' = bs_k s;
  sy_lock q : b_mutex (buf s' q) = b_mutex (buf s q);
  sy_view n i : 0 <= i < bs → view s' n i = view s n i;
  sy_left q : to_write s' q = to_write s q && negb (bool_decide (q ∈ l));
  sy_block n i : 0 <= i < bs → block (bs_d s') dev bs n i =
    match lookup s dev n with
    | Some q => if to_write s q && bool_decide (q ∈ l) then data_at (buf s q) i else block (bs_d s) dev bs n i
    | None => block (bs_d s) dev bs n i
    end
}.
Lemma sync_one s fl qs p : cache_ok s fl qs → is_buf p → to_write s p = true →
  ∃ s', (upd_buf p (clear_flag B_DWRITE) ;; bwrite p) s = Ok (None, s') ∧ cache_ok s' fl qs ∧ synced s s' [p] ∧
    ∀ q, q ≠ p → data_at (buf s' q) = data_at (buf s q).
Proof.
  clear Hattr Hbs.
  intros C Hb Hw. pose proof (is_buf_valid p Hb) as Hv. pose proof (co_hash _ _ _ C) as Hh.
  apply andb_true_iff in Hw as [Hd Hl]. apply negb_true_iff in Hl.
  assert (p ∈ mjoin qs) as Hin.
  { destruct (decide (p ∈ mjoin qs)) as [|Hn]; [done|]. destruct (co_unused _ _ _ C p Hb Hn). congruence. }
  pose proof (co_block _ _ _ C p Hin) as Bp. destruct (write_back s p Hv Bp) as (s1 & R & W).
  exists s1. split.
  { rewrite upd_buf_run in R by done. rewrite upd_buf_run by done. unfold bwrite. rewrite (bind_ok _ _ _ _ _ R). unfold brelse.
    rewrite get_buf_run by done. by rewrite (wr_lock _ _ _ W), Hl. }
  split.
  { eapply cache_ok_frame; [done|apply W|eapply free_inv_links; [apply C|apply W]|].
    intros q Hq. rewrite (wr_lock _ _ _ W). by apply (co_unlocked _ _ _ C). }
  split; [|intros q Hq; unfold data_at; by rewrite (proj1 (wr_same _ _ _ W q Hq))].
  split; [apply W|apply W|apply W| | |].
  - intros n i Hi. apply (written_view s s1 fl qs p n i); try done. by apply (cb_dirty _ _ Bp).
  - intros q. unfold to_write. rewrite (wr_lock _ _ _ W). destruct (decide (q = p)) as [->|Hq].
    + rewrite bool_decide_eq_true_2 by (by left). rewrite andb_false_r. unfold has_flag. rewrite (wr_flags _ _ _ W).
      fold (has_flag B_DWRITE (after_write (buf s p))). by rewrite (proj1 (after_write_flags _)).
    + rewrite bool_decide_eq_false_2 by (by intros ->%list_elem_of_singleton). rewrite andb_true_r. unfold has_flag. by rewrite (proj2 (wr_same _ _ _ W q Hq)).
  - intros n i Hi. rewrite (wr_block _ _ _ W) by done. pose proof (co_found _ _ _ C p Hin) as Hf. rewrite (cb_dev _ _ Bp) in Hf.
    destruct (lookup s dev n) as [q|] eqn:Hq.
    + destruct (proj2 (in_hash_queue_ok dev n s qs Hh) q Hq) as (_ & _ & Hn). destruct (decide (q = p)) as [->|Hqp].
      * rewrite (bool_decide_eq_true_2 (p ∈ [p])), (bool_decide_eq_true_2 (n = _)) by (done || by left).
        unfold to_write. by rewrite Hd, Hl.
      * rewrite (bool_decide_eq_false_2 (q ∈ [p])) by (by intros ->%list_elem_of_singleton). rewrite andb_false_r.
        rewrite bool_decide_eq_false_2; [done|]. intros ->. congruence.
    + rewrite bool_decide_eq_false_2; [done|]. intros ->. congruence.
Qed.
Lemma synced_trans s1 s2 s3 qs p l : hash_inv s1 qs → synced s1 s2 [p] → synced s2 s3 l →
  (∀ q, q ≠ p → data_at (buf s2 q) = data_at (buf s1 q)) → synced s1 s3 (p :: l).
Proof.
  clear Hattr Hbs.
  intros Hh [A1 A2 A3 A4 A5 A6] [B1 B2 B3 B4 B5 B6] Hd. split; [by eapply frame_trans|congruence|congruence| | |].
  - intros n i Hi. by rewrite B4, A4.
  - intros q. rewrite B5, A5. rewrite <-andb_assoc. f_equal. rewrite <-!negb_orb. f_equal.
    rewrite <-bool_decide_or. apply bool_decide_ext. set_solver.
  - intros n i Hi. rewrite B6, A6, (frame_lookup s1 s2 qs n Hh A1) by done. destruct (lookup s1 dev n) as [q|]; [|done].
    rewrite A5. destruct (decide (q = p)) as [->|Hq].
    + rewrite (bool_decide_eq_true_2 (p ∈ [p])), (bool_decide_eq_true_2 (p ∈ p :: l)) by set_solver.
      rewrite !andb_true_r, andb_false_r. done.
    + rewrite (bool_decide_eq_false_2 (q ∈ [p])) by set_solver. rewrite !andb_true_r, andb_false_r, Hd by done.
      replace (bool_decide (q ∈ p :: l)) with (bool_decide (q ∈ l)) by (apply bool_decide_ext; set_solver). done.
Qed.
Lemma synced_skip s s' p l : to_write s p = false → synced s s' l → synced s s' (p :: l).
Proof.
  clear Hattr Hbs.
  intros Hw [A1 A2 A3 A4 A5 A6]. split; try done.
  - intros q. rewrite A5. destruct (decide (q = p)) as [->|]; [by rewrite Hw|].
    do 2 f_equal. apply bool_decide_ext. set_solver.
  - intros n i Hi. rewrite A6 by done. destruct (lookup s dev n) as [q|]; [|done].
    destruct (decide (q = p)) as [->|]; [by rewrite Hw|].
    replace (bool_decide (q ∈ p :: l)) with (bool_decide (q ∈ l)) by (apply bool_decide_ext; set_solver). done.
Qed.
Lemma sync_loop_ok l : ∀ s fl qs, cache_ok s fl qs → holds_none s → (∀ i, i ∈ l → (i < NR_BUF_BUFFERS)%nat) →
  ∃ s', sync_loop l s = Ok (None, s') ∧ cache_ok s' fl qs ∧ synced s s' (Buf <$> l).
Proof.
  clear Hattr Hbs.
  induction l as [|x l IH]; intros s fl qs C Hh Hl.
  { exists s. split; [done|]. split; [done|]. split; try done.
    - intros q. by rewrite andb_true_r.
    - intros n i _. destruct (lookup s dev n); [|done]. by rewrite andb_false_r. }
  assert (is_buf (Buf x)) as Hb by (exists x; split; [done|apply Hl; by left]). pose proof (is_buf_valid _ Hb) as Hv.
  assert (buf_locked (Buf x) s = Ok (lock (b_mutex (buf s (Buf x))), s)) as R.
  { unfold buf_locked, gets, mutex_locked. change (mtx (buf_mutex (Buf x) s)) with (b_mutex (buf s (Buf x))).
    change (current_process (mk (buf_mutex (Buf x) s))) with (current_process (bs_k s)).
    destruct (lock _) eqn:E; [|done]. by rewrite bool_decide_eq_true_2 by (by apply Hh). }
  assert (∀ i, i ∈ l → (i < NR_BUF_BUFFERS)%nat) as Hl' by (intros; apply Hl; by right).
  simpl sync_loop. rewrite fmap_cons. destruct (to_write s (Buf x)) eqn:Hw.
  - destruct (sync_one s fl qs (Buf x) C Hb Hw) as (s1 & R1 & C1 & S1 & D1).
    destruct (IH s1 fl qs C1) as (s2 & R2 & C2 & S2); [|done|].
    { intros q Hq. rewrite (sy_lock _ _ _ S1), (sy_kernel _ _ _ S1). by apply Hh. }
    exists s2. split; [|split; [done|eapply synced_trans; [apply C|done..]]].
    rewrite get_buf_run by done. rewrite (bind_ok _ _ _ _ _ R). fold (to_write s (Buf x)). rewrite Hw.
    rewrite upd_buf_run in R1 by done. rewrite upd_buf_run by done. by rewrite (bind_ok _ _ _ _ _ R1).
  - destruct (IH s fl qs C Hh Hl') as (s2 & R2 & C2 & S2). exists s2. split; [|split; [done|by apply synced_skip]].
    rewrite get_buf_run by done. rewrite (bind_ok _ _ _ _ _ R). fold (to_write s (Buf x)). by rewrite Hw.
Qed.
End cache.

Lemma free_length {D} (s : bstate D) fl : free_inv s fl → (length fl <= NR_BUF_BUFFERS)%nat.
Proof. intros H. apply bufs_length; apply H. Qed.

(** ** When a buffer is used again *)
Section recycle.
Context {D : Type} {FS : FsDriver D} {BD : BlockDevice D} {BL : BlockLaws D} {LY : Layout}.
Implicit Types (p : bufp) (s : bstate D).

(** [remove_from_hash_queue] leaves the table alone when the queue has another buffer. *)
Lemma remove_hash_links s p e n : valid p = true → valid e = true → valid n = true → hash_prev s p = Some e → hash_next s p = Some n →
  e ≠ p → ∃ s', remove_from_hash_queue p s = Ok (tt, s') ∧ hash_next s' p = None ∧ hash_queues s' = hash_queues s ∧
    b_dev (buf s' p) = b_dev (buf s p) ∧ b_blknr (buf s' p) = b_blknr (buf s p).
Proof.
  intros Vp Ve Vn He Hn Hne. unfold hash_prev in He. unfold hash_next in Hn. rewrite Vp in He, Hn.
  unfold remove_from_hash_queue. rewrite get_buf_run by done. rewrite He, Hn. rewrite (bool_decide_eq_false_2 (e = p)) by done.
  cbn [andb]. set (s1 := set_buf n (λ q, q <| b_prev := Some e |>) (set_buf e (λ q, q <| b_next := Some n |>) s)).
  assert ((upd_buf e (λ q, q <| b_next := Some n |>) ;; upd_buf n (λ q, q <| b_prev := Some e |>)) s = Ok (tt, s1)) as R.
  { rewrite upd_buf_run by done. by apply upd_buf_last. }
  rewrite (bind_ok _ _ _ _ _ R). eexists. split; [by apply upd_buf_last|]. split_and!; try done.
  - unfold hash_next. by rewrite Vp, set_buf_eq.
  - rewrite set_buf_eq. unfold s1. rewrite !set_buf_decide. by repeat case_decide.
  - rewrite set_buf_eq. unfold s1. rewrite !set_buf_decide. by repeat case_decide.
Qed.
Lemma put_hash_stale s p : valid p = true → hash_next s p = None →
  hash_queues s (BUF_HASH (b_dev (buf s p)) (b_blknr (buf s p))) = Some p → ∃ why, put_into_hash_queue p s = Undef why.
Proof.
  intros Hv Hn Hq. unfold put_into_hash_queue. rewrite get_buf_run by done. cbv zeta.
  change ((gets ?f ≫= ?m) s) with (m (f s) s). cbv beta. rewrite Hq. unfold mbind, M_bind, reads, WALK_FUEL.
  replace (NR_BUF_BUFFERS + 1)%nat with (S NR_BUF_BUFFERS) by (unfold NR_BUF_BUFFERS; lia). unfold find_last. rewrite Hn. by eexists.
Qed.
Lemma bind_undef {S A B'} (m : M S A) (f : A → M S B') x why : m x = Undef why → (m ≫= f) x = Undef why.
Proof. unfold mbind, M_bind. by intros ->. Qed.

(** The pointer that [buffer_init] leaves in the dummy. *)
Lemma buffer_init_prev raw s s' : buffer_init raw s = Ok (tt, s') → b_prev_free (buf s' FreeHead) = Some (Buf NR_BUF_BUFFERS).
Proof.
  unfold buffer_init. intros ([] & s1 & _ & R)%bind_inv. apply bind_inv in R as ([] & s2 & _ & R).
  apply bind_inv in R as ([] & s3 & _ & R). rewrite upd_buf_last in R by done. injection R as <-. by rewrite set_buf_eq.
Qed.
Lemma put_free_behind s p : valid p = true → p ≠ FreeHead → to_the_end (buf s p) = true →
  b_prev_free (buf s FreeHead) = Some (Buf NR_BUF_BUFFERS) → ∃ why, put_into_free_list p s = Undef why.
Proof.
  intros Hv Hne He Hp. unfold put_into_free_list. rewrite !get_buf_run by done. fold (to_the_end (buf s p)). rewrite He.
  rewrite !upd_buf_run by done. rewrite get_buf_run by done. rewrite !set_buf_ne by done. rewrite Hp.
  change ((deref (Some ?e) _ ≫= ?m) ?x) with (m e x). cbv beta. by eexists.
Qed.
End recycle.

(** ** A cache over a drive made of memory *)
Module CacheDemo.
Import RamDisk FilesDemo.
#[export] Instance layout : Layout := {|
  buf_addr p := match p with FreeHead => 1000 | Buf i => 2000 + Z.of_nat i end;
  mutex_addr p := match p with FreeHead => 3000 | Buf i => 4000 + Z.of_nat i end;
  kvmalloc_bytes _ _ := 0
|}.
(** Minor device 0 of the drives, with blocks of 1024 bytes. *)
Definition hda : Z := 768.
Definition kern : kernel := FilesDemo.k <| filesystems := λ _, MkFs 0 hda false |>.
Definition zero_buffer : buffer := MkBuffer 0 0 0 None (MkMutex false None) 0 None None None None.
(** What [buffer_init] would have to leave. *)
Definition start : bstate (drives ram) := MkBs kern
  (λ p, match p with
        | FreeHead => zero_buffer <| b_next_free := Some (Buf 0) |> <| b_prev_free := Some (Buf (NR_BUF_BUFFERS - 1)) |>
        | Buf i => buffer_start (λ _, zero_buffer) i
        end) (λ _, None) disks.
Definition all_bufs : list bufp := Buf <$> seq 0 NR_BUF_BUFFERS.

Lemma start_next i : (i < NR_BUF_BUFFERS)%nat →
  next_free start (Buf i) = Some (if decide (i = (NR_BUF_BUFFERS - 1)%nat) then FreeHead else Buf (i + 1)).
Proof. intros Hi. unfold next_free. simpl valid. by rewrite (proj2 (Nat.ltb_lt _ _) Hi). Qed.
Lemma start_prev i : (i < NR_BUF_BUFFERS)%nat →
  prev_free start (Buf i) = Some (if decide (i = 0%nat) then FreeHead else Buf (i - 1)).
Proof. intros Hi. unfold prev_free. simpl valid. by rewrite (proj2 (Nat.ltb_lt _ _) Hi). Qed.
Lemma start_links n i : (i + n + 1 = NR_BUF_BUFFERS)%nat →
  links (next_free start) (prev_free start) (Buf i) (Buf <$> seq (i + 1) n) FreeHead.
Proof.
  revert i. induction n as [|n IH]; intros i Hi; simpl.
  - split; [rewrite start_next by lia; by rewrite decide_True by lia|]. 
    assert (i = (NR_BUF_BUFFERS - 1)%nat) as -> by lia. done.
  - rewrite start_next, start_prev by lia. rewrite !decide_False by lia. split; [done|]. split; [do 2 f_equal; lia|].
    replace (S (i + 1)) with ((i + 1) + 1)%nat by lia. apply IH. lia.
Qed.
Lemma start_free : free_inv start all_bufs.
Proof.
  unfold all_bufs. split.
  - change (ring (next_free start) (prev_free start) (FreeHead :: Buf 0 :: (Buf <$> seq (0 + 1) (NR_BUF_BUFFERS - 1)))).
    split; [done|]. split; [done|]. by apply start_links.
  - apply NoDup_fmap_2; [by intros ?? [=]|apply NoDup_seq].
  - apply Forall_forall. intros p (i & -> & Hi)%list_elem_of_fmap. exists i. split; [done|]. apply seq_elem in Hi. lia.
  - intros p (i & -> & Hi) Hn. exfalso. apply Hn, list_elem_of_fmap_2, seq_elem. lia.
Qed.
Lemma start_hash : hash_inv start [].
Proof.
  split.
  - by intros q ?%elem_of_nil.
  - apply NoDup_nil_2.
  - constructor.
  - intros p (i & -> & Hi) _. simpl. unfold hash_next, hash_prev. by destruct (valid _).
  - done.
Qed.
Lemma start_ok : cache_ok hda 1024 start all_bufs [].
Proof.
  split; [apply start_free|apply start_hash|..].
  - by intros p (i & -> & _)%list_elem_of_fmap.
  - by intros p ?%elem_of_nil.
  - by intros p ?%elem_of_nil.
  - by intros p (i & -> & _) _.
Qed.
Lemma start_mounted : mounted hda 0 (bs_k start).
Proof. done. Qed.
Lemma attr_1024 (k : kernel) (d : drives ram) : fs_get_attribute 0 GET_BLOCKSIZE (k, d) = Ok (1024, (k, d)).
Proof. done. Qed.
Lemma block_0 nr : 0 <= nr < 400 → on_dev (bs_d start) hda 1024 nr.
Proof.
  intros Hn. split; [done|]. split; [exact disks_ok|]. change (sectors_per 1024) with 2. change (lba_len _) with 800. lia.
Qed.
Lemma start_available nr : available hda start all_bufs [] nr.
Proof.
  unfold available. change (lookup start hda nr) with (@None bufp). exists [], (Buf 0), (Buf <$> seq 1 (NR_BUF_BUFFERS - 1)).
  split; [done|]. split; [constructor|]. by intros ?%elem_of_nil.
Qed.
Lemma start_quiet p k : cpu_only (bs_k start) k → quiet p k.
Proof.
  intros [f ->]. assert (∀ a, nobody_waits a kern) as Hq.
  { intros a j Hj. unfold kern, FilesDemo.k. rec_simpl. destruct (decide (1%nat = j)) as [<-|]; [by rewrite fn_insert_eq|by rewrite fn_insert_ne]. }
  split_and!; apply (nobody_waits_cpu _ kern); try apply Hq; by eexists.
Qed.

(** The blocks 5 and 105, which have the same hash, are in the first two buffers; [flags] are those of
    the buffers. *)
Definition cached (flags : Z) (i : nat) (nr : Z) (other : nat) : buffer :=
  (buffer_start (λ _, zero_buffer) i) <| b_dev := hda |> <| b_blknr := nr |> <| b_blksize := 1024 |> <| b_data := Some (λ j, (nr + j) mod 256) |>
    <| b_flags := flags |> <| b_next := Some (Buf other) |> <| b_prev := Some (Buf other) |>.
Definition two (flags : Z) : bstate (drives ram) := MkBs kern
  (λ p, match p with Buf 0 => cached flags 0 5 1 | Buf 1 => cached flags 1 105 0 | _ => buf start p end)
  (λ h, if h =? 73 then Some (Buf 0) else None) disks.
Lemma two_ok flags : has_flag B_DONE (cached flags 0 5 1) = true → cache_ok hda 1024 (two flags) all_bufs [[Buf 0; Buf 1]].
Proof.
  intros Hd. assert (∀ p, p ∈ mjoin [[Buf 0; Buf 1]] → p = Buf 0 ∨ p = Buf 1) as Hin by (simpl; set_solver).
  assert (∀ i, (i < NR_BUF_BUFFERS)%nat → Buf i ∉ mjoin [[Buf 0; Buf 1]] → buf (two flags) (Buf i) = buf start (Buf i)) as Hout.
  { intros [|[|i]] Hi Hn; [exfalso; apply Hn; set_solver..|done]. }
  split.
  - eapply free_inv_ext; [exact start_free|..]; intros [|[|[|i]]]; done.
  - split.
    + by intros q ->%list_elem_of_singleton.
    + by vm_compute; repeat constructor; set_solver.
    + repeat constructor; eexists; (split; [done|unfold NR_BUF_BUFFERS; lia]).
    + intros p (i & -> & Hi) Hn. simpl. unfold hash_next, hash_prev. rewrite Hout by done. by destruct (valid _).
    + intros h p. simpl. case_match; [intros [= <-]; set_solver|done].
  - intros p (i & -> & _)%list_elem_of_fmap. by destruct i as [|[|i]].
  - by intros p [-> | ->]%Hin.
  - intros p [-> | ->]%Hin; (split; [done|done|by eexists|done|apply block_0; simpl; lia]).
  - intros p (i & -> & Hi) Hn. by rewrite Hout.
Qed.
End CacheDemo.
Import RamDisk FilesDemo CacheDemo.

(** ** Properties *)
Section properties.
Context {D : Type} {FS : FsDriver D} {BD : BlockDevice D} {BL : BlockLaws D} {LY : Layout}.
Context (dev bs : Z) (fs : nat).
Implicit Types (p : bufp) (s : bstate D).

(** C15: The buffer cache implements a map from blocks to contents. Reading a block gives a buffer of
    the block that the running process has locked and whose bytes are the contents of the block; the
    contents of no block change, dirty buffers that have to give way are written first, and the
    queues stay well formed. This holds as long as the block has a buffer or a buffer that has never
    been used is free. *)
Theorem bread_refines_map s fl qs nr fuel :
  (∀ k d, fs_get_attribute fs GET_BLOCKSIZE (k, d) = Ok (bs, (k, d))) → 0 < bs < 2147483648 →
  cache_ok dev bs s fl qs → mounted dev fs (bs_k s) → on_dev (bs_d s) dev bs nr → available dev s fl qs nr →
  (NR_BUF_BUFFERS < fuel)%nat →
  ∃ s' fl' qs' p, bread fuel dev nr s = Ok (Returned (Some p), s') ∧ cache_ok dev bs s' fl' qs' ∧
    b_dev (buf s' p) = dev ∧ b_blknr (buf s' p) = nr ∧ (p ∉ fl') ∧
    b_mutex (buf s' p) = MkMutex true (Some (current_process (bs_k s))) ∧
    (∀ i, 0 <= i < bs → data_at (buf s' p) i = view dev bs s nr i) ∧
    ∀ n i, 0 <= i < bs → view dev bs s' n i = view dev bs s n i.
Proof.
  intros Ha Hb C Hm Hon Hav Hf. pose proof (free_length _ _ (co_free _ _ _ _ _ C)) as Hlen.
  destruct (cached_bread_ok dev bs fs Ha Hb s fl qs nr fuel C Hm Hon Hav ltac:(lia)) as (s' & fl' & qs' & p & R & C' & [] & _ & _ & _ & Hd & Hv).
  by exists s', fl', qs', p.
Qed.

(** C16: What a process writes into a block that it has read is what the next reader gets. After
    bread, a change of the buffer that marks it as dirty, and brelse, the contents of the block are
    the new ones, those of the other blocks have not changed, and the buffer is free and at the head
    of the free list; a second bread delivers the new contents. *)
Theorem write_then_read s fl qs nr fuel f :
  (∀ k d, fs_get_attribute fs GET_BLOCKSIZE (k, d) = Ok (bs, (k, d))) → 0 < bs < 2147483648 →
  cache_ok dev bs s fl qs → mounted dev fs (bs_k s) → on_dev (bs_d s) dev bs nr → available dev s fl qs nr →
  (NR_BUF_BUFFERS < fuel)%nat → (∀ p k, cpu_only (bs_k s) k → quiet p k) →
  ∃ p s1 s2 fl' qs', bread fuel dev nr s = Ok (Returned (Some p), s1) ∧
    (modify_block p f ;; brelse p) s1 = Ok (None, s2) ∧ cache_ok dev bs s2 (p :: fl') qs' ∧
    (∀ n i, 0 <= i < bs → view dev bs s2 n i = if bool_decide (n = nr) then f i else view dev bs s n i) ∧
    ∃ q s3, bread fuel dev nr s2 = Ok (Returned (Some q), s3) ∧ ∀ i, 0 <= i < bs → data_at (buf s3 q) i = f i.
Proof.
  intros Ha Hb C Hm Hon Hav Hf Hq. pose proof (free_length _ _ (co_free _ _ _ _ _ C)) as Hlen.
  destruct (cached_bread_ok dev bs fs Ha Hb s fl qs nr fuel C Hm Hon Hav ltac:(lia)) as (s1 & fl1 & qs1 & p & R1 & C1 & G1 & I1 & D1 & K1 & X1 & V1).
  destruct (modify_ok dev bs s1 fl1 qs1 p _ nr f C1 I1 G1 D1) as (s2 & R2 & C2 & G2 & K2 & E2 & V2).
  destruct (brelse_ok dev bs s2 fl1 qs1 p C2) as (s3 & R3 & C3 & S3 & M3).
  { by eapply hash_elem; [apply C2|]. } { apply G2. } { by rewrite (gt_lock _ _ _ _ _ _ G2). } { rewrite K2. by apply Hq. }
  rewrite E2 in C3.
  assert (∀ n i, 0 <= i < bs → view dev bs s3 n i = if bool_decide (n = nr) then f i else view dev bs s n i) as V3.
  { intros n i Hi. rewrite (same_contents_view dev bs s2 s3 qs1), V2 by (done || apply C2). by rewrite V1. }
  exists p, s1, s3, fl1, qs1. split; [done|]. split; [by rewrite (bind_ok _ _ _ _ _ R2)|]. split; [done|]. split; [done|].
  assert (cpu_only (bs_k s) (bs_k s3)) as K3 by (rewrite K1, <-K2; apply S3).
  pose proof (free_length _ _ (co_free _ _ _ _ _ C3)) as Hlen3.
  pose proof (co_found _ _ _ _ _ C3 p I1) as Hl. 
  assert (b_dev (buf s3 p) = dev ∧ b_blknr (buf s3 p) = nr) as [E4 E5].
  { destruct (fr_stays _ _ _ _ (sc_frame _ _ _ _ S3) p) as (-> & -> & _). by destruct G2. }
  rewrite E4, E5 in Hl.
  assert (on_dev (bs_d s3) dev bs nr) as On3 by (rewrite <-E5; apply (co_block _ _ _ _ _ C3 p I1)).
  destruct (cached_bread_ok dev bs fs Ha Hb s3 (p :: fl1) qs1 nr fuel C3) as (s4 & _ & _ & q & R4 & _ & _ & _ & _ & _ & X4 & _); try done.
  { eapply mounted_cpu; [exact K3|done]. } { unfold available. rewrite Hl, M3. by left. } { lia. }
  exists q, s4. split; [done|]. intros i Hi. rewrite X4, V3 by done. by rewrite bool_decide_eq_true_2.
Qed.

(** C17: [buffer_sync], called by a process that holds no buffer, writes exactly the dirty buffers
    that nobody holds: their blocks on the device get their contents, the other blocks of the device
    stay as they were, none of these buffers is dirty afterwards, and no reader sees a difference. *)
Theorem buffer_sync_writes s fl qs : cache_ok dev bs s fl qs → holds_none s →
  ∃ s', buffer_sync s = Ok (None, s') ∧ cache_ok dev bs s' fl qs ∧
    (∀ q, is_buf q → to_write s' q = false) ∧
    (∀ n i, 0 <= i < bs → view dev bs s' n i = view dev bs s n i) ∧
    ∀ n i, 0 <= i < bs → block (bs_d s') dev bs n i =
      match lookup s dev n with
      | Some q => if to_write s q then data_at (buf s q) i else block (bs_d s) dev bs n i
      | None => block (bs_d s) dev bs n i
      end.
Proof.
  intros C Hh. destruct (sync_loop_ok dev bs (seq 0 NR_BUF_BUFFERS) s fl qs C Hh) as (s' & R & C' & S).
  { intros i Hi. apply seq_elem in Hi. lia. }
  assert (∀ q, is_buf q → q ∈ Buf <$> seq 0 NR_BUF_BUFFERS) as Hall.
  { intros q (i & -> & Hi). apply list_elem_of_fmap_2, seq_elem. lia. }
  exists s'. split; [done|]. split; [done|]. split; [|split].
  - intros q Hq. rewrite (sy_left _ _ _ _ _ S), bool_decide_eq_true_2 by (by apply Hall). apply andb_false_r.
  - intros n i Hi. by apply (sy_view _ _ _ _ _ S).
  - intros n i Hi. rewrite (sy_block _ _ _ _ _ S) by done. destruct (lookup s dev n) as [q|] eqn:Hq; [|done].
    destruct (proj2 (in_hash_queue_ok dev n s qs (co_hash _ _ _ _ _ C)) q Hq) as (Hin & _).
    rewrite bool_decide_eq_true_2 by (by apply Hall; eapply hash_elem; [apply C|]). by rewrite andb_true_r.
Qed.

(** The cache breaks when the free buffer to be used again is the first of a hash queue that has
    another one: the queue still starts at it when it is put into the queue of its new block, and
    [getblk] follows a null pointer when the two blocks have the same hash. *)
Theorem getblk_recycle_undefined s p t m l qs nr fuel :
  (∀ k d, fs_get_attribute fs GET_BLOCKSIZE (k, d) = Ok (bs, (k, d))) → 0 < bs < 2147483648 →
  cache_ok dev bs s (p :: l) ((p :: t :: m) :: qs) → mounted dev fs (bs_k s) →
  has_flag B_DWRITE (buf s p) = false → lookup s dev nr = None → hash_queues s (BUF_HASH dev nr) = Some p →
  ∃ why, getblk (S fuel) dev nr s = Undef why.
Proof.
  intros Ha Hb C Hm Hd Hnone Hq. set (Q := (p :: t :: m) :: qs) in *. pose proof (co_hash _ _ _ _ _ C) as Hh.
  destruct (in_hash_queue_ok dev nr s Q Hh) as [R0 _]. assert (p ∈ mjoin Q) as Hin by (by left).
  pose proof (hash_elem _ _ _ Hh Hin) as Hp. pose proof (is_buf_valid p Hp) as Hv.
  destruct (remove_free_ok s [] p l (co_free _ _ _ _ _ C)) as (s1 & R1 & F1 & L1). pose proof L1 as (LK & LD & LQ & LE).
  pose proof (same_free_links dev bs _ _ L1) as S1.
  assert (∀ q, b_next (buf s1 q) = b_next (buf s q) ∧ b_prev (buf s1 q) = b_prev (buf s q) ∧ b_mutex (buf s1 q) = b_mutex (buf s q)) as E1.
  { intros q. rewrite (LE q). by do 2 rec_simpl. }
  assert (lock (b_mutex (buf s1 p)) = false) as Hl1.
  { destruct (E1 p) as (_ & _ & ->). apply (co_unlocked _ _ _ _ _ C). by left. }
  assert (hash_inv s1 Q) as H1 by (eapply hash_inv_ext; [exact Hh|apply E1|apply E1|done]).
  destruct (take_over_starts dev bs fs Ha Hb s1 p nr Q Hp ltac:(unfold mounted; by rewrite LK) Hl1 H1) as (s2 & R2 & Fr & H2 & Q2 & _).
  { rewrite (sc_data _ _ _ _ S1). intros _. by apply (cb_data _ _ _ _ (co_block _ _ _ _ _ C p Hin)). }
  assert (∃ why, take_over p dev nr s1 = Undef why) as [why Hw].
  { rewrite R2. pose proof (hi_ring H2 (p :: t :: m) ltac:(by left)) as Hr. cbn [hq hq_next hq_prev] in Hr.
    destruct (ring_lookup _ _ _ p Hr ltac:(by left)) as (n & e & Hn & He & Hni & Hei).
    assert (e ≠ p) as Hep.
    { intros ->. pose proof (hi_nodup H2) as Hnd. simpl in Hnd, Hr. destruct m as [|x m _] using rev_ind.
      - destruct Hr as (_ & _ & _ & Hr). rewrite Hr in He. injection He as ->. apply NoDup_cons in Hnd as [Hnd _]. set_solver.
      - destruct Hr as (_ & _ & Hr). apply links_app in Hr as [_ [_ Hr]]. rewrite Hr in He. injection He as ->.
        apply NoDup_cons in Hnd as [Hnd _]. set_solver. }
    assert (∀ q, q ∈ p :: t :: m → valid q = true) as Hval.
    { intros q Hq'. apply is_buf_valid. eapply hash_elem; [exact H2|]. simpl. set_solver. }
    destruct (remove_hash_links s2 p e n Hv (Hval e Hei) (Hval n Hni) He Hn Hep) as (s3 & R3 & N3 & Q3 & D3 & B3).
    rewrite (bind_ok _ _ _ _ _ R3). apply put_hash_stale; [done|done|]. rewrite D3, B3, Q3, Q2.
    destruct (fh_id _ _ _ _ _ _ Fr) as (-> & -> & _). change (hash_queues s1) with (hash_queues s1). by rewrite LQ. }
  exists why. simpl. apply bind_undef. unfold getblk_turn. rewrite (bind_ok _ _ _ _ _ R0), Hnone. rewrite get_buf_run by done.
  destruct (head_links _ _ (co_free _ _ _ _ _ C)) as [Hhead _]. unfold next_free in Hhead. simpl in Hhead. rewrite Hhead.
  rewrite (bind_ok _ _ _ _ _ R1). rewrite get_buf_run by done.
  assert (has_flag B_DWRITE (buf s1 p) = false) as -> by (unfold has_flag in *; by rewrite (sc_flags _ _ _ _ S1)).
  destruct (take_lock dev bs s1 p _ eq_refl (or_introl Hl1)) as (RL & _). rewrite (bind_ok _ _ _ _ _ RL).
  by apply bind_undef.
Qed.

(** [buffer_init] lets the dummy point behind the last buffer, where the first release of a clean
    buffer writes. *)
Theorem first_release_undefined raw s s1 p : buffer_init raw s = Ok (tt, s1) → is_buf p →
  lock (b_mutex (buf s1 p)) = true → to_the_end (buf s1 p) = true → ∃ why, brelse p s1 = Undef why.
Proof.
  intros R Hp Hl He. pose proof (is_buf_valid p Hp) as Hv. unfold brelse. rewrite get_buf_run by done. rewrite Hl. cbn [negb].
  set (s2 := s1 <| bs_k ::= λ k, k <| k_cpu ::= λ c, c <| kernel_eflags ::= <[cpu_state c := intr c]> |> <| intr := false |> |> |>).
  assert (in_k disable_intr s1 = Ok (tt, s2)) as R1 by done. rewrite (bind_ok _ _ _ _ _ R1).
  destruct (put_free_behind s2 p Hv (is_buf_head p Hp)) as [why Hw]; [done|exact (buffer_init_prev raw s s1 R)|].
  exists why. by apply bind_undef.
Qed.
End properties.

Lemma bread_refines_map_witness : ∃ s' p, bread 200 hda 5 start = Ok (Returned (Some p), s') ∧ data_at (buf s' p) 3 = 113.
Proof.
  destruct (bread_refines_map hda 1024 0 start all_bufs [] 5 200 attr_1024 ltac:(lia) start_ok start_mounted (block_0 5 ltac:(lia))
    (start_available 5) ltac:(unfold NR_BUF_BUFFERS; lia)) as (s' & _ & _ & p & R & _ & _ & _ & _ & _ & H & _).
  exists s', p. split; [exact R|]. rewrite H by lia. reflexivity.
Defined.
Lemma write_then_read_witness : ∃ p s1 s2, bread 200 hda 5 start = Ok (Returned (Some p), s1) ∧
  (modify_block p (λ i, i mod 7) ;; brelse p) s1 = Ok (None, s2) ∧ view hda 1024 s2 5 10 = 3.
Proof.
  destruct (write_then_read hda 1024 0 start all_bufs [] 5 200 (λ i, i mod 7) attr_1024 ltac:(lia) start_ok start_mounted
    (block_0 5 ltac:(lia)) (start_available 5) ltac:(unfold NR_BUF_BUFFERS; lia) start_quiet)
    as (p & s1 & s2 & _ & _ & R1 & R2 & _ & H & _).
  exists p, s1, s2. split; [exact R1|]. split; [exact R2|]. rewrite H by lia. reflexivity.
Defined.
(** The blocks 5 and 105 are dirty. *)
Lemma buffer_sync_writes_witness : ∃ s', buffer_sync (two 3) = Ok (None, s') ∧ block (bs_d s') hda 1024 5 10 = 15 ∧
  block (bs_d (two 3)) hda 1024 5 10 = 120.
Proof.
  destruct (buffer_sync_writes hda 1024 (two 3) all_bufs [[Buf 0; Buf 1]] (two_ok 3 eq_refl)) as (s' & R & _ & _ & _ & H).
  - intros q (i & -> & _). by destruct i as [|[|i]].
  - exists s'. split; [exact R|]. split; [|reflexivity]. rewrite H by lia. reflexivity.
Defined.
Lemma getblk_recycle_undefined_witness : ∃ why, getblk 1 hda 205 (two 2) = Undef why.
Proof.
  apply (getblk_recycle_undefined hda 1024 0 (two 2) (Buf 0) (Buf 1) [] (Buf <$> seq 1 (NR_BUF_BUFFERS - 1)) [] 205 0 attr_1024);
    [lia|exact (two_ok 2 eq_refl)|done..].
Defined.
Lemma first_release_undefined_witness : ∃ why s, buffer_init (λ _, zero_buffer <| b_mutex := MkMutex true (Some 1%nat) |>) start = Ok (tt, s) ∧ brelse (Buf 0) s = Undef why.
Proof.
  assert (∃ s, buffer_init (λ _, zero_buffer <| b_mutex := MkMutex true (Some 1%nat) |>) start = Ok (tt, s) ∧
    lock (b_mutex (buf s (Buf 0))) = true ∧ to_the_end (buf s (Buf 0)) = true) as (s & R & Hl & He) by (eexists; split; [reflexivity|done]).
  destruct (first_release_undefined _ _ s (Buf 0) R) as [why Hw]; [exists 0%nat; split; [done|unfold NR_BUF_BUFFERS; lia]|done|done|].
  by exists why, s.
Defined.
