(* ===== verification/Ext2.v ===== *)
(** The data of the ext2 file system (sys/include/fs/ext2.h) and the allocation of blocks and
    inodes (sys/fs/ext2/balloc.c, sys/fs/ext2/ialloc.c), with an abstract specification: an
    allocator of block numbers. *)
From S2P Require Import Prelude Str Bitmap Drive.

Definition EXT2_DIRECT_BLOCKS : Z := 11.
Definition EXT2_INDIRECT_BLOCK : Z := 12.
Definition EXT2_DINDIRECT_BLOCK : Z := 13.
Definition EXT2_TINDIRECT_BLOCK : Z := 14.
Definition I_MODIFIED : Z := Z.shiftl 1 0.

(** ** Data *)

(** The fields of the superblock that the code uses. *)
Record ext2_superblock := MkSb {
  s_inodes_count : Z; s_blocks_count : Z; s_free_blocks_count : Z; s_free_inodes_count : Z;
  s_first_data_block : Z; s_log_block_size : Z; s_blocks_per_group : Z; s_inodes_per_group : Z;
  s_rev_level : Z; s_first_ino : Z; s_inode_size : Z
}.
#[export] Instance sb_eta : Eta ext2_superblock := λ s, MkSb
  (s_inodes_count s) (s_blocks_count s) (s_free_blocks_count s) (s_free_inodes_count s)
  (s_first_data_block s) (s_log_block_size s) (s_blocks_per_group s) (s_inodes_per_group s)
  (s_rev_level s) (s_first_ino s) (s_inode_size s).

Record ext2_blk_group_desc := MkBgd {
  bg_block_bitmap : Z; bg_inode_bitmap : Z; bg_inode_table : Z;
  bg_free_blocks_count : Z; bg_free_inodes_count : Z; bg_used_dirs_count : Z
}.
#[export] Instance bgd_eta : Eta ext2_blk_group_desc := λ g, MkBgd
  (bg_block_bitmap g) (bg_inode_bitmap g) (bg_inode_table g)
  (bg_free_blocks_count g) (bg_free_inodes_count g) (bg_used_dirs_count g).

(** [i_other] holds the fields that the code only copies, as 32-bit words by their offset. *)
Record ext2_inode := MkIno {
  i_mode : Z; i_uid : Z; i_size : Z; i_atime : Z; i_ctime : Z; i_mtime : Z; i_dtime : Z;
  i_gid : Z; i_links_count : Z; i_blocks : Z; i_block : Z → Z; i_other : Z → Z
}.
#[export] Instance ino_eta : Eta ext2_inode := λ i, MkIno
  (i_mode i) (i_uid i) (i_size i) (i_atime i) (i_ctime i) (i_mtime i) (i_dtime i)
  (i_gid i) (i_links_count i) (i_blocks i) (i_block i) (i_other i).

(** [struct ext2_inode_m], without its lock; a pointer to one is its slot in the inode cache. *)
Record ext2_inode_m := MkInoM {
  i_ino : ext2_inode; i_dev : Z; i_num : Z; i_flags : Z; i_count : Z;
  i_prev_free : option nat; i_next_free : option nat; i_next : option nat; i_prev : option nat
}.
#[export] Instance inom_eta : Eta ext2_inode_m := λ i, MkInoM
  (i_ino i) (i_dev i) (i_num i) (i_flags i) (i_count i) (i_prev_free i) (i_next_free i) (i_next i) (i_prev i).

(** One mounted file system: the blocks on the disk, the buffers of the cache (a buffer is known
    by its block; the cache never runs out of them), those whose contents have been read
    ([B_DONE]) and those that wait to be written ([B_DWRITE]), the superblock and the group
    descriptors in memory, and the inode cache: the inodes by their slot and the hash queues. *)
Record ext2 := MkExt2 {
  e_disk : Z → Z → Z;
  e_blk : Z → Z → Z;
  e_done : Z → bool;
  e_dwrite : Z → bool;
  e_sb : ext2_superblock;
  e_bgd : Z → ext2_blk_group_desc;
  e_nr_blk_group : Z;
  e_modified : bool;
  e_inode : nat → ext2_inode_m;
  e_hash_queues : Z → option nat;
  e_now : Z
}.
#[export] Instance ext2_eta : Eta ext2 := λ e, MkExt2
  (e_disk e) (e_blk e) (e_done e) (e_dwrite e) (e_sb e) (e_bgd e) (e_nr_blk_group e) (e_modified e)
  (e_inode e) (e_hash_queues e) (e_now e).
Definition E (A : Type) : Type := M ext2 A.

Definition EXT2_BLOCKSIZE (s : ext2_superblock) : Z := Z.shiftl 1024 (s_log_block_size s).
Definition EXT2_INODE_SIZE (s : ext2_superblock) : Z := if 1 <=? s_rev_level s then s_inode_size s else 128.
Definition EXT2_INODES_PER_GROUP : ext2_superblock → Z := s_inodes_per_group.
Definition EXT2_BLOCKS_PER_GROUP : ext2_superblock → Z := s_blocks_per_group.
Definition EXT2_FIRST_FREE_INO (s : ext2_superblock) : Z := if 1 <=? s_rev_level s then s_first_ino s else 11.

(** ** Access to blocks and inodes *)

Definition blksize (e : ext2) : Z := EXT2_BLOCKSIZE (e_sb e).
Definition upd_blk (b : Z) (f : (Z → Z) → Z → Z) : E unit :=
  modify (λ e, e <| e_blk ::= λ m, <[b := f (m b)]> m |>).
Definition get_byte (b off : Z) : E Z :=
  e ← get;
  if (0 <=? off) && (off <? blksize e) then mret (e_blk e b off) else undef "read outside b_data".
Definition put_byte (b off v : Z) : E unit :=
  e ← get;
  if (0 <=? off) && (off <? blksize e) then upd_blk b <[off := u8 v]> else undef "write outside b_data".
(** The [i]-th entry of a block of [uint32_t], little endian. *)
Definition word (m : Z → Z) (i : Z) : Z :=
  m (4 * i) + 256 * m (4 * i + 1) + 65536 * m (4 * i + 2) + 16777216 * m (4 * i + 3).
Definition set_word (i v : Z) (m : Z → Z) : Z → Z :=
  <[4 * i := v mod 256]> (<[4 * i + 1 := v / 256 mod 256]>
    (<[4 * i + 2 := v / 65536 mod 256]> (<[4 * i + 3 := v / 16777216 mod 256]> m))).
Definition get_word (b i : Z) : E Z :=
  e ← get;
  if (0 <=? i) && (4 * i + 3 <? blksize e) then mret (word (e_blk e b) i) else undef "read outside b_data".
Definition put_word (b i v : Z) : E unit :=
  e ← get;
  if (0 <=? i) && (4 * i + 3 <? blksize e) then upd_blk b (set_word i v) else undef "write outside b_data".
(** [bp->b_flags |= B_DWRITE] *)
Definition mark_dwrite (b : Z) : E unit := modify (λ e, e <| e_dwrite ::= <[b := true]> |>).
Definition inode_of (ip : nat) (e : ext2) : ext2_inode := i_ino (e_inode e ip).
Definition upd_inode_m (ip : nat) (f : ext2_inode_m → ext2_inode_m) : E unit :=
  modify (λ e, e <| e_inode ::= λ t, <[ip := f (t ip)]> t |>).
Definition upd_inode (ip : nat) (f : ext2_inode → ext2_inode) : E unit :=
  upd_inode_m ip (λ i, i <| i_ino ::= f |>).
(** [ip->i_flags |= I_MODIFIED] and [ip->i_ino.i_mtime = CURRENT_TIME] *)
Definition set_modified (ip : nat) : E unit := upd_inode_m ip (λ i, i <| i_flags ::= λ f, Z.lor f I_MODIFIED |>).
Definition set_mtime (ip : nat) : E unit :=
  e ← get; upd_inode ip (λ i, i <| i_mtime := e_now e |>).

Definition upd_sb (f : ext2_superblock → ext2_superblock) : E unit := modify (λ e, e <| e_sb ::= f |>).
Definition upd_bgd (g : Z) (f : ext2_blk_group_desc → ext2_blk_group_desc) : E unit :=
  modify (λ e, e <| e_bgd ::= λ t, <[g := f (t g)]> t |>).
Definition sb_modified : E unit := modify (λ e, e <| e_modified := true |>).

(** A descriptor of the table that [bgd_table] points to. *)
Definition bgd_at (g : Z) : E ext2_blk_group_desc :=
  e ← get;
  if (0 <=? g) && (g <? e_nr_blk_group e) then mret (e_bgd e g) else undef "past the group descriptors".

(** Whether [bread] returns NULL for a block: the device failed to read it. *)
Class Device := { read_fails : Z → bool }.

Section alloc.
Context `{DEV : Device}.

(** What a reader of a block gets: [B_DONE] saves a second reading. *)
Definition view (e : ext2) (b : Z) : Z → Z := if e_done e b then e_blk e b else e_disk e b.
Definition load (b : Z) (e : ext2) : ext2 :=
  e <| e_blk ::= <[b := view e b]> |> <| e_done ::= <[b := true]> |>.
(** [bp = bread(dev, b)]: false for NULL. *)
Definition bread (b : Z) : E bool :=
  e ← get;
  if negb (e_done e b) && read_fails b then mret false else modify (load b) ;; mret true.
(** Where the code uses [bp] without a test. *)
Definition bread_unchecked (b : Z) : E unit :=
  r ← bread b; if r : bool then mret tt else undef "null bp".

(** ** Blocks *)

(** The first clear bit from [off] on, or the number of bits. *)
Fixpoint scan_bits (fuel : nat) (m : Z → Z) (size off : Z) : Z :=
  match fuel with
  | O => off
  | S fuel => if off / 8 <? size then
      if bit_test (m (off / 8)) (off mod 8) then scan_bits fuel m size (off + 1) else off
    else off
  end.

(** The result is the number of the block, 0 if the group has none. *)
Definition balloc_bgd (g : Z) : E Z :=
  e ← get;
  let sb := e_sb e in
  bgd ← bgd_at g;
  if bg_free_blocks_count bgd =? 0 then mret 0 else
  let b := bg_block_bitmap bgd in
  bread_unchecked b ;;
  e ← get;
  let off := scan_bits (S (Z.to_nat (8 * blksize e))) (e_blk e b) (blksize e) 0 in
  c ← get_byte b (off / 8);
  put_byte b (off / 8) (bit_set c (off mod 8)) ;;
  mark_dwrite b ;;
  upd_bgd g (λ d, d <| bg_free_blocks_count ::= λ n, u16 (n - 1) |>) ;;
  upd_sb (λ s, s <| s_free_blocks_count ::= λ n, u32 (n - 1) |>) ;;
  sb_modified ;;
  mret (u32 (off + u32 (g * EXT2_BLOCKS_PER_GROUP sb) + s_first_data_block sb)).

(** The loop over the other groups. *)
Fixpoint balloc_groups (skip : Z) (l : list nat) : E Z :=
  match l with
  | [] => mret 0
  | g :: l =>
      if Z.of_nat g =? skip then balloc_groups skip l else
      b ← balloc_bgd (Z.of_nat g);
      if negb (b =? 0) then mret b else balloc_groups skip l
  end.

Definition ext2_balloc (ip : nat) : E Z :=
  e ← get;
  block ← (if s_free_blocks_count (e_sb e) =? 0 then mret 0 else
    let g := u32 (i_num (e_inode e ip) - 1) / EXT2_INODES_PER_GROUP (e_sb e) in
    block ← balloc_bgd g;
    if negb (block =? 0) then mret block
    else balloc_groups g (seq 0 (Z.to_nat (e_nr_blk_group e))));
  upd_blk block (memset 0 0 (Z.to_nat (blksize e))) ;;
  upd_inode ip (λ i, i <| i_blocks ::= λ n, u32 (n + blksize e / SECTOR_SIZE) |>) ;;
  set_mtime ip ;;
  set_modified ip ;;
  mark_dwrite block ;;
  mret block.

Definition ext2_bfree (block : Z) : E unit :=
  if block =? 0 then mret tt else
  e ← get;
  let sb := e_sb e in
  let g := block / EXT2_BLOCKS_PER_GROUP sb in
  bgd ← bgd_at g;
  let bm := bg_block_bitmap bgd in
  bread_unchecked bm ;;
  let b := u32 (block - (s_first_data_block sb + u32 (g * EXT2_BLOCKS_PER_GROUP sb))) in
  c ← get_byte bm (Z.shiftr b 3);
  if negb (bit_test c (b mod 8)) then panic "bfree: block is already free" else
  put_byte bm (Z.shiftr b 3) (bit_clear c (b mod 8)) ;;
  upd_bgd g (λ d, d <| bg_free_blocks_count ::= λ n, u16 (n + 1) |>) ;;
  upd_sb (λ s, s <| s_free_blocks_count ::= λ n, u32 (n + 1) |>) ;;
  sb_modified ;;
  mark_dwrite bm.

(** The blocks of [uint32_t] entries: [free_entry] frees what an entry refers to. *)
Definition bfree_entries (free_entry : Z → E unit) (block : Z) : E unit :=
  if block =? 0 then mret tt else
  e ← get;
  bread_unchecked block ;;
  for_each (seq 0 (Z.to_nat (blksize e / 4))) (λ i, w ← get_word block (Z.of_nat i); free_entry w) ;;
  ext2_bfree block.
Definition ext2_bfree_indirect : Z → E unit := bfree_entries ext2_bfree.
Definition ext2_bfree_dindirect : Z → E unit := bfree_entries ext2_bfree_indirect.
Definition ext2_bfree_tindirect : Z → E unit := bfree_entries ext2_bfree_dindirect.

(** ** Inodes *)

(** The loop of [ialloc_bgd]: it reads the byte before it tests for the end. *)
Fixpoint scan_inodes (fuel : nat) (b p i : Z) : E (option (Z * Z)) :=
  match fuel with
  | O => nofuel
  | S fuel =>
      c ← get_byte b p;
      if bit_test c i then
        e ← get;
        if p =? blksize e then mret None
        else if i =? 7 then scan_inodes fuel b (p + 1) 0 else scan_inodes fuel b p (i + 1)
      else mret (Some (p, i))
  end.

Definition ialloc_bgd (g : Z) : E Z :=
  e ← get;
  bgd ← bgd_at g;
  if bg_free_inodes_count bgd =? 0 then mret 0 else
  let b := bg_inode_bitmap bgd in
  bread_unchecked b ;;
  r ← scan_inodes (S (S (Z.to_nat (8 * blksize e)))) b 0 0;
  match r with
  | None => mret 0
  | Some (p, i) =>
      c ← get_byte b p;
      put_byte b p (bit_set c i) ;;
      mark_dwrite b ;;
      upd_bgd g (λ d, d <| bg_free_inodes_count ::= λ n, u16 (n - 1) |>) ;;
      upd_sb (λ s, s <| s_free_inodes_count ::= λ n, u32 (n - 1) |>) ;;
      sb_modified ;;
      mret (Z.shiftl p 3 + i + 1)
  end.

Fixpoint ialloc_groups (l : list nat) : E Z :=
  match l with
  | [] => mret 0
  | g :: l => num ← ialloc_bgd (Z.of_nat g); if negb (num =? 0) then mret num else ialloc_groups l
  end.
Definition ext2_ialloc : E Z :=
  e ← get;
  if s_free_inodes_count (e_sb e) =? 0 then mret 0
  else ialloc_groups (seq 0 (Z.to_nat (e_nr_blk_group e))).

Definition ext2_ifree (ino : Z) : E unit :=
  e ← get;
  let sb := e_sb e in
  if ino <? EXT2_FIRST_FREE_INO sb then mret tt else
  let g := u32 (ino - 1) / EXT2_INODES_PER_GROUP sb in
  bgd ← bgd_at g;
  let b := bg_inode_bitmap bgd in
  bread_unchecked b ;;
  let n := u32 (ino - 1) in
  c ← get_byte b (Z.shiftr n 3);
  if negb (bit_test c (n mod 8)) then panic "bfree: block is already free" else
  put_byte b (Z.shiftr n 3) (bit_clear c (n mod 8)) ;;
  upd_bgd g (λ d, d <| bg_free_inodes_count ::= λ n, u16 (n + 1) |>) ;;
  upd_sb (λ s, s <| s_free_inodes_count ::= λ n, u32 (n + 1) |>) ;;
  sb_modified ;;
  mark_dwrite b.
End alloc.

(** ** The abstract allocator

    A file system is a set of free blocks: the blocks of the groups whose bit is clear. *)
Definition block_bitmap (e : ext2) (g : Z) : Z → Z := view e (bg_block_bitmap (e_bgd e g)).
Definition group_base (e : ext2) (g : Z) : Z := g * s_blocks_per_group (e_sb e) + s_first_data_block (e_sb e).
Definition group_of (e : ext2) (b : Z) : Z := (b - s_first_data_block (e_sb e)) / s_blocks_per_group (e_sb e).
Definition bit_of_block (e : ext2) (b : Z) : Z := (b - s_first_data_block (e_sb e)) mod s_blocks_per_group (e_sb e).
Definition in_groups (e : ext2) (b : Z) : bool := (0 <=? group_of e b) && (group_of e b <? e_nr_blk_group e).
Definition free_block (e : ext2) (b : Z) : bool :=
  in_groups e b && negb (bit_at (block_bitmap e (group_of e b)) (bit_of_block e b)).
Definition groups (e : ext2) : list nat := seq 0 (Z.to_nat (e_nr_blk_group e)).

(** A consistent file system. *)
Record alloc_inv (e : ext2) : Prop := {
  ai_log : 0 <= s_log_block_size (e_sb e) <= 2;
  ai_bpg : 0 < s_blocks_per_group (e_sb e) <= 8 * blksize e;
  ai_nr : 0 <= e_nr_blk_group e;
  ai_fdb : 0 <= s_first_data_block (e_sb e);
  ai_top : group_base e (e_nr_blk_group e) < 4294967296;
  ai_bytes : ∀ g, 0 <= g < e_nr_blk_group e → bytes (block_bitmap e g);
  ai_tail : ∀ g i, 0 <= g < e_nr_blk_group e → s_blocks_per_group (e_sb e) <= i < 8 * blksize e →
    bit_at (block_bitmap e g) i = true;
  ai_count : ∀ g, 0 <= g < e_nr_blk_group e →
    bg_free_blocks_count (e_bgd e g) = clear_bits (block_bitmap e g) (8 * blksize e);
  ai_total : s_free_blocks_count (e_sb e) = zsum (λ g, bg_free_blocks_count (e_bgd e (Z.of_nat g))) (groups e);
  ai_inj : ∀ g h, 0 <= g < e_nr_blk_group e → 0 <= h < e_nr_blk_group e →
    bg_block_bitmap (e_bgd e g) = bg_block_bitmap (e_bgd e h) → g = h;
  ai_meta : ∀ g, 0 <= g < e_nr_blk_group e → free_block e (bg_block_bitmap (e_bgd e g)) = false;
  ai_zero_meta : ∀ g, 0 <= g < e_nr_blk_group e → bg_block_bitmap (e_bgd e g) ≠ 0;
  ai_zero : free_block e 0 = false
}.

(** What allocation and release do to the bitmap of a group and to the counts. *)
Definition flip_block (set : bool) (g off : Z) (e : ext2) : ext2 :=
  let b := bg_block_bitmap (e_bgd e g) in
  let d := if set then -1 else 1 in
  (load b e) <| e_blk ::= λ m, <[b := (if set then set_bit else clear_bit) (m b) off]> m |>
    <| e_dwrite ::= <[b := true]> |>
    <| e_bgd ::= λ t, <[g := (t g) <| bg_free_blocks_count ::= λ n, u16 (n + d) |>]> t |>
    <| e_sb ::= λ s, s <| s_free_blocks_count ::= (λ n, u32 (n + d)) |> |>
    <| e_modified := true |>.

Lemma load_view b x e : view (load b e) x = view e x.
Proof. unfold view, load. rec_simpl. destruct (decide (b = x)) as [<-|]; by autorewrite with yak. Qed.
Lemma load_blk b e : e_blk (load b e) b = view e b.
Proof. unfold load. rec_simpl. by autorewrite with yak. Qed.
Lemma blksize_range e : alloc_inv e → 1024 <= blksize e <= 4096.
Proof.
  intros H. pose proof (ai_log e H). unfold blksize, EXT2_BLOCKSIZE.
  rewrite Z.shiftl_mul_pow2 by lia. set (k := s_log_block_size (e_sb e)) in *.
  assert (k = 0 ∨ k = 1 ∨ k = 2) as [-> | [-> | ->]] by lia; lia.
Qed.
Lemma group_of_base e g off : alloc_inv e → 0 <= off < s_blocks_per_group (e_sb e) →
  group_of e (group_base e g + off) = g ∧ bit_of_block e (group_base e g + off) = off.
Proof.
  intros H Ho. unfold group_of, bit_of_block, group_base.
  replace (g * s_blocks_per_group (e_sb e) + s_first_data_block (e_sb e) + off - s_first_data_block (e_sb e))
    with (off + g * s_blocks_per_group (e_sb e)) by lia.
  pose proof (ai_bpg e H). rewrite Z.div_add, Z.div_small, Z.mod_add, Z.mod_small by lia. lia.
Qed.
Lemma block_split e b : alloc_inv e →
  b = group_base e (group_of e b) + bit_of_block e b ∧ 0 <= bit_of_block e b < s_blocks_per_group (e_sb e).
Proof.
  intros H. pose proof (ai_bpg e H). unfold group_base, group_of, bit_of_block.
  pose proof (Z.div_mod (b - s_first_data_block (e_sb e)) (s_blocks_per_group (e_sb e)) ltac:(lia)).
  pose proof (Z.mod_pos_bound (b - s_first_data_block (e_sb e)) (s_blocks_per_group (e_sb e)) ltac:(lia)). lia.
Qed.

(** Blocks and fields the allocator does not look at. *)
Lemma free_block_frame e e' b :
  e_sb e' = e_sb e → e_bgd e' = e_bgd e → e_nr_blk_group e' = e_nr_blk_group e →
  (∀ g, 0 <= g < e_nr_blk_group e → block_bitmap e' g = block_bitmap e g) →
  free_block e' b = free_block e b.
Proof.
  intros Hs Hg Hn Hb. unfold free_block, in_groups, group_of, bit_of_block. rewrite Hs, Hn.
  set (G := (b - _) `div` _). clearbody G.
  destruct (0 <=? G) eqn:?, (G <? e_nr_blk_group e) eqn:?; simpl; try done. rewrite Hb; [done|lia].
Qed.
Lemma alloc_inv_frame e e' :
  e_sb e' = e_sb e → e_bgd e' = e_bgd e → e_nr_blk_group e' = e_nr_blk_group e →
  (∀ g, 0 <= g < e_nr_blk_group e → block_bitmap e' g = block_bitmap e g) →
  alloc_inv e → alloc_inv e'.
Proof.
  intros Hs Hg Hn Hb H. assert (∀ b, free_block e' b = free_block e b) as Hf by (intros; by apply free_block_frame).
  destruct H. unfold blksize, group_base, groups in *.
  split; unfold blksize, group_base, groups; rewrite ?Hs, ?Hg, ?Hn; try done.
  - intros. rewrite Hb by done. auto.
  - intros. rewrite Hb by done. auto.
  - intros. rewrite Hb by done. auto.
  - intros. rewrite Hf. auto.
  - by rewrite Hf.
Qed.

Section flip.
Context (set : bool) (g off : Z) (e : ext2).
Context (H : alloc_inv e) (Hg : 0 <= g < e_nr_blk_group e) (Hoff : 0 <= off < s_blocks_per_group (e_sb e)).
Context (Hbit : bit_at (block_bitmap e g) off = negb set).
Let e' := flip_block set g off e.

Lemma flip_bitmap_block h : bg_block_bitmap (e_bgd e' h) = bg_block_bitmap (e_bgd e h).
Proof. subst e'. unfold flip_block, load. do 3 rec_simpl. destruct (decide (g = h)) as [<-|]; autorewrite with yak; by rec_simpl. Qed.
Lemma flip_view x : view e' x =
  if bool_decide (x = bg_block_bitmap (e_bgd e g)) then (if set then set_bit else clear_bit) (block_bitmap e g) off
  else view e x.
Proof.
  unfold view at 1. subst e'. unfold flip_block, load. rec_simpl. rec_simpl. case_bool_decide as D.
  - subst x. by autorewrite with yak.
  - unfold view. by rewrite !fn_insert_ne by done.
Qed.
Lemma flip_bitmap h : 0 <= h < e_nr_blk_group e →
  block_bitmap e' h = if bool_decide (h = g) then (if set then set_bit else clear_bit) (block_bitmap e g) off
                      else block_bitmap e h.
Proof.
  intros Hh. unfold block_bitmap. rewrite flip_bitmap_block, flip_view.
  destruct (decide (h = g)) as [->|E]; [by rewrite !bool_decide_eq_true_2|].
  rewrite !bool_decide_eq_false_2; [done|done|]. intros Heq. apply E. by apply (ai_inj e H).
Qed.
Lemma flip_bit h i : 0 <= h < e_nr_blk_group e → 0 <= i →
  bit_at (block_bitmap e' h) i = if bool_decide (h = g ∧ i = off) then set else bit_at (block_bitmap e h) i.
Proof.
  intros Hh Hi. rewrite flip_bitmap by done. pose proof (ai_bytes e H g Hg).
  destruct (decide (h = g)) as [->|]; [rewrite (bool_decide_eq_true_2 (g = g)) by done|].
  - destruct set; rewrite ?bit_at_set, ?bit_at_clear by (done || lia);
      do 2 case_bool_decide; (done || tauto).
  - rewrite !bool_decide_eq_false_2 by tauto. done.
Qed.
Lemma flip_free b :
  free_block e' b = if bool_decide (b = group_base e g + off) then negb set else free_block e b.
Proof.
  pose proof (block_split e b H) as [Hb Hr]. pose proof (group_of_base e g off H Hoff) as [Hgo Hbo].
  assert (group_of e' b = group_of e b) as E1 by done. assert (bit_of_block e' b = bit_of_block e b) as E2 by done.
  assert (in_groups e' b = in_groups e b) as E3 by done.
  unfold free_block. rewrite E1, E2, E3. clear E1 E2 E3. destruct (in_groups e b) eqn:Hin; cbn [andb].
  - unfold in_groups in Hin. rewrite flip_bit by lia.
    case_bool_decide as D1; case_bool_decide as D2; [done| | |done].
    + destruct D2. rewrite Hb. destruct D1 as [-> ->]. done.
    + destruct D1. by subst b.
  - rewrite bool_decide_eq_false_2; [done|]. intros ->. unfold in_groups in Hin. rewrite Hgo in Hin. lia.
Qed.
Lemma flip_count h : 0 <= h < e_nr_blk_group e →
  clear_bits (block_bitmap e' h) (8 * blksize e) =
  clear_bits (block_bitmap e h) (8 * blksize e) + if bool_decide (h = g) then (if set then -1 else 1) else 0.
Proof.
  intros Hh. pose proof (ai_bytes e H g Hg). pose proof (ai_bpg e H). rewrite flip_bitmap by done.
  case_bool_decide; [subst h|lia]. destruct set; [rewrite clear_bits_set|rewrite clear_bits_clear]; (done || lia).
Qed.
Lemma flip_tail h i : 0 <= h < e_nr_blk_group e → s_blocks_per_group (e_sb e) <= i < 8 * blksize e →
  bit_at (block_bitmap e' h) i = true.
Proof.
  intros Hh Hi. rewrite flip_bit by lia. rewrite bool_decide_eq_false_2 by lia. by apply (ai_tail e H).
Qed.
(** The counts stay within their widths. *)
Lemma flip_group_count h : 0 <= h < e_nr_blk_group e →
  bg_free_blocks_count (e_bgd e' h) = clear_bits (block_bitmap e' h) (8 * blksize e).
Proof.
  intros Hh. pose proof (flip_count h Hh) as Hc. pose proof (ai_count e H h Hh) as Hn.
  pose proof (blksize_range e H). pose proof (clear_bits_range (block_bitmap e h) (8 * blksize e) ltac:(lia)).
  pose proof (clear_bits_range (block_bitmap e' h) (8 * blksize e) ltac:(lia)).
  rewrite Hc. subst e'. unfold flip_block, load. do 3 rec_simpl. case_bool_decide.
  - subst h. rewrite fn_insert_eq. do 2 rec_simpl. rewrite Hn. apply u16_id. unfold is_u16. lia.
  - rewrite fn_insert_ne by done. lia.
Qed.
Lemma flip_sizes : blksize e' = blksize e ∧ s_blocks_per_group (e_sb e') = s_blocks_per_group (e_sb e) ∧
  s_first_data_block (e_sb e') = s_first_data_block (e_sb e) ∧
  s_log_block_size (e_sb e') = s_log_block_size (e_sb e) ∧ e_nr_blk_group e' = e_nr_blk_group e.
Proof. done. Qed.
Lemma flip_total :
  s_free_blocks_count (e_sb e') = zsum (λ g, bg_free_blocks_count (e_bgd e' (Z.of_nat g))) (groups e).
Proof.
  pose proof (ai_bpg e H) as Hbpg. pose proof (blksize_range e H) as Hbs.
  assert (zsum (λ g, bg_free_blocks_count (e_bgd e' (Z.of_nat g))) (groups e) =
          s_free_blocks_count (e_sb e) + if set then -1 else 1) as Hs.
  { rewrite (ai_total e H). rewrite (zsum_update (λ g, bg_free_blocks_count (e_bgd e (Z.of_nat g))) _ _ (Z.to_nat g)).
    - rewrite Z2Nat.id by lia. rewrite flip_group_count, flip_count, (ai_count e H) by done.
      rewrite bool_decide_eq_true_2 by done. lia.
    - apply NoDup_seq.
    - apply seq_elem. lia.
    - intros x Hx. subst e'. unfold flip_block, load. do 3 rec_simpl. by rewrite fn_insert_ne by lia. }
  rewrite Hs. change (u32 (s_free_blocks_count (e_sb e) + (if set then -1 else 1)) =
    s_free_blocks_count (e_sb e) + (if set then -1 else 1)). rewrite <-Hs. apply u32_id.
  pose proof (zsum_bound (λ g, bg_free_blocks_count (e_bgd e' (Z.of_nat g))) (groups e) (s_blocks_per_group (e_sb e))) as Hz.
  pose proof (ai_top e H) as Ht. pose proof (ai_fdb e H). unfold group_base in Ht.
  assert (Z.of_nat (length (groups e)) = e_nr_blk_group e) as Hl.
  { pose proof (ai_nr e H). unfold groups. rewrite length_seq. lia. }
  rewrite Hl in Hz. unfold is_u32.
  lapply Hz; [intros; unfold u32; lia|]. intros x Hx. apply seq_elem in Hx. rewrite flip_group_count by lia.
  rewrite (clear_bits_tail _ (s_blocks_per_group (e_sb e))); [apply clear_bits_range; lia|lia|].
  intros. apply flip_tail; lia.
Qed.
Lemma flip_inv :
  (set = false → group_base e g + off ≠ 0 ∧
    ∀ h, 0 <= h < e_nr_blk_group e → bg_block_bitmap (e_bgd e h) ≠ group_base e g + off) →
  alloc_inv e'.
Proof.
  intros Hfree. pose proof (ai_bytes e H) as Hby. pose proof H as []. pose proof flip_sizes as (Hb & Hp & Hf & Hl & Hn).
  pose proof flip_tail. pose proof flip_group_count. pose proof flip_total.
  unfold group_base, groups in *. split; unfold group_base, groups; rewrite ?Hb, ?Hp, ?Hf, ?Hl, ?Hn; try done.
  - intros h Hh. rewrite flip_bitmap by done. case_bool_decide; [|by apply Hby].
    destruct set; [apply set_bit_bytes|apply clear_bit_bytes]; by apply Hby.
  - intros h k Hh Hk. rewrite !flip_bitmap_block. by apply ai_inj0.
  - intros h Hh. rewrite flip_bitmap_block, flip_free. case_bool_decide as D; [|by apply ai_meta0].
    destruct set; [done|]. by destruct (proj2 (Hfree eq_refl) h Hh).
  - intros h Hh. rewrite flip_bitmap_block. by apply ai_zero_meta0.
  - rewrite flip_free. case_bool_decide as D; [|done]. destruct set; [done|]. by destruct (proj1 (Hfree eq_refl)).
Qed.
End flip.

Section alloc_correct.
Context `{DEV : Device}.

Lemma scan_bits_spec m size fuel off : 0 <= off <= 8 * size → 8 * size - off < Z.of_nat fuel →
  let r := scan_bits fuel m size off in
  off <= r <= 8 * size ∧ (∀ j, off <= j < r → bit_at m j = true) ∧ (r < 8 * size → bit_at m r = false).
Proof.
  revert off. induction fuel as [|fuel IH]; intros off Ho Hf; [lia|]. simpl.
  destruct (Z.ltb_spec (off / 8) size); [|repeat split; intros; lia].
  destruct (bit_test _ _) eqn:E; [|repeat split; intros; (done || lia)].
  destruct (IH (off + 1) ltac:(lia) ltac:(lia)) as (H1 & H2 & H3). split; [lia|]. split; [|done].
  intros j Hj. destruct (decide (j = off)) as [->|]; [done|]. apply H2. lia.
Qed.

(** The bitmaps can be read. *)
Definition readable (e : ext2) : Prop :=
  ∀ g, 0 <= g < e_nr_blk_group e → read_fails (bg_block_bitmap (e_bgd e g)) = false.

Lemma bgd_at_ok g e : 0 <= g < e_nr_blk_group e → bgd_at g e = Ok (e_bgd e g, e).
Proof.
  intros Hg. unfold bgd_at. change ((get ≫= ?m) e) with (m e e). cbv beta.
  by rewrite (proj2 (Z.leb_le _ _)), (proj2 (Z.ltb_lt _ _)) by lia.
Qed.
Lemma bread_ok b e : read_fails b = false → bread_unchecked b e = Ok (tt, load b e).
Proof.
  intros Hb. unfold bread_unchecked, bread. unfold mbind, M_bind, get. rewrite Hb, andb_false_r. done.
Qed.
Lemma get_byte_ok b off e : 0 <= off < blksize e → get_byte b off e = Ok (e_blk e b off, e).
Proof.
  intros Hg. unfold get_byte. change ((get ≫= ?m) e) with (m e e). cbv beta.
  by rewrite (proj2 (Z.leb_le _ _)), (proj2 (Z.ltb_lt _ _)) by lia.
Qed.
Lemma put_byte_ok b off v e : 0 <= off < blksize e →
  put_byte b off v e = Ok (tt, e <| e_blk ::= λ m, <[b := <[off := u8 v]> (m b)]> m |>).
Proof.
  intros Hg. unfold put_byte. change ((get ≫= ?m) e) with (m e e). cbv beta.
  by rewrite (proj2 (Z.leb_le _ _)), (proj2 (Z.ltb_lt _ _)) by lia.
Qed.

Lemma balloc_bgd_full g e : 0 <= g < e_nr_blk_group e → bg_free_blocks_count (e_bgd e g) = 0 →
  balloc_bgd g e = Ok (0, e).
Proof.
  intros Hg H0. unfold balloc_bgd. change ((get ≫= ?m) e) with (m e e). cbv beta zeta.
  rewrite (bind_ok _ _ _ _ _ (bgd_at_ok g e Hg)). by rewrite H0.
Qed.
Lemma balloc_bgd_takes g e : alloc_inv e → readable e → 0 <= g < e_nr_blk_group e →
  bg_free_blocks_count (e_bgd e g) ≠ 0 →
  ∃ off, 0 <= off < s_blocks_per_group (e_sb e) ∧ bit_at (block_bitmap e g) off = false ∧
    balloc_bgd g e = Ok (group_base e g + off, flip_block true g off e).
Proof.
  intros H Hr Hg H0. pose proof (blksize_range e H) as Hbs. pose proof (ai_bpg e H) as Hbpg.
  pose proof (scan_bits_spec (block_bitmap e g) (blksize e) (S (Z.to_nat (8 * blksize e))) 0 ltac:(lia) ltac:(lia)) as Hs.
  set (off := scan_bits _ _ _ _) in Hs. destruct Hs as (Hoff & Hset & Hclear).
  assert (off < s_blocks_per_group (e_sb e)) as Hlt.
  { destruct (Z.lt_ge_cases off (s_blocks_per_group (e_sb e))) as [|Hge]; [done|exfalso].
    rewrite (ai_count e H g Hg) in H0. apply clear_bits_pos in H0 as (i & Hi & Hb); [|lia].
    destruct (Z.lt_ge_cases i off); [by rewrite Hset in Hb by lia|].
    rewrite (ai_tail e H g i) in Hb by lia. done. }
  exists off. split; [lia|]. split; [apply Hclear; lia|].
  unfold balloc_bgd. change ((get ≫= ?m) e) with (m e e). cbv beta zeta.
  rewrite (bind_ok _ _ _ _ _ (bgd_at_ok g e Hg)), (proj2 (Z.eqb_neq _ _) H0).
  rewrite (bind_ok _ _ _ _ _ (bread_ok _ e (Hr g Hg))).
  set (b := bg_block_bitmap (e_bgd e g)). change ((get ≫= ?m) (load b e)) with (m (load b e) (load b e)). cbv beta zeta.
  rewrite load_blk. change (view e b) with (block_bitmap e g). change (blksize (load b e)) with (blksize e). fold off.
  assert (0 <= off / 8 < blksize (load b e)) as Ho8 by (change (blksize (load b e)) with (blksize e); lia).
  rewrite (bind_ok _ _ _ _ _ (get_byte_ok b (off / 8) (load b e) Ho8)).
  rewrite (bind_ok _ _ _ _ _ (put_byte_ok b (off / 8) _ (load b e) Ho8)).
  replace (group_base e g + off) with (u32 (off + u32 (g * EXT2_BLOCKS_PER_GROUP (e_sb e)) + s_first_data_block (e_sb e))).
  { reflexivity. }
  pose proof (ai_top e H) as Ht. pose proof (ai_fdb e H). unfold group_base, EXT2_BLOCKS_PER_GROUP in *.
  rewrite (u32_id (g * _)), u32_id; unfold is_u32; [lia|nia|nia].
Qed.

(** One block was taken. *)
Definition takes (b : Z) (e e' : ext2) : Prop :=
  free_block e b = true ∧ alloc_inv e' ∧ (∀ x, free_block e' x = free_block e x && negb (x =? b)) ∧
  (∀ x, (∀ g, 0 <= g < e_nr_blk_group e → x ≠ bg_block_bitmap (e_bgd e g)) →
    e_blk e' x = e_blk e x ∧ e_done e' x = e_done e x) ∧
  (∀ g, bg_block_bitmap (e_bgd e' g) = bg_block_bitmap (e_bgd e g)) ∧
  (∃ n, e_sb e' = (e_sb e) <| s_free_blocks_count := n |>) ∧
  e_nr_blk_group e' = e_nr_blk_group e ∧ e_inode e' = e_inode e ∧ e_disk e' = e_disk e.
Lemma flip_takes g off e : alloc_inv e → 0 <= g < e_nr_blk_group e → 0 <= off < s_blocks_per_group (e_sb e) →
  bit_at (block_bitmap e g) off = false → takes (group_base e g + off) e (flip_block true g off e).
Proof.
  intros H Hg Ho Hb. destruct (group_of_base e g off H Ho) as [E1 E2].
  assert (free_block e (group_base e g + off) = true) as Hf.
  { unfold free_block, in_groups. rewrite E1, E2, Hb.
    by rewrite (proj2 (Z.leb_le _ _)), (proj2 (Z.ltb_lt _ _)) by lia. }
  split; [done|]. split; [by apply flip_inv|]. split; [|split; [|split; [|by split; [eexists|]]]].
  - intros x. rewrite flip_free by done. case_bool_decide as D.
    + rewrite D, Z.eqb_refl. by rewrite andb_false_r.
    + rewrite (proj2 (Z.eqb_neq _ _) D). by rewrite andb_true_r.
  - intros x Hx. unfold flip_block, load. do 3 rec_simpl. by rewrite !fn_insert_ne by (intros Heq; by apply (Hx g)).
  - intros. by apply flip_bitmap_block.
Qed.

Lemma balloc_groups_correct skip l e : alloc_inv e → readable e →
  (∀ g, g ∈ l → 0 <= Z.of_nat g < e_nr_blk_group e) →
  (∃ b e', balloc_groups skip l e = Ok (b, e') ∧ takes b e e') ∨
  (balloc_groups skip l e = Ok (0, e) ∧ ∀ g, g ∈ l → Z.of_nat g ≠ skip → bg_free_blocks_count (e_bgd e (Z.of_nat g)) = 0).
Proof.
  intros H Hr. induction l as [|g l IH]; intros Hl; simpl; [right; by split; [|intros g ?%elem_of_nil]|].
  assert (∀ g, g ∈ l → 0 <= Z.of_nat g < e_nr_blk_group e) as Hl' by (intros; apply Hl; by right).
  specialize (Hl g ltac:(by left)).
  assert (bg_free_blocks_count (e_bgd e (Z.of_nat g)) = 0 ∨ Z.of_nat g = skip →
    (∃ b e', balloc_groups skip l e = Ok (b, e') ∧ takes b e e') ∨
    (balloc_groups skip l e = Ok (0, e) ∧
      ∀ h, h ∈ g :: l → Z.of_nat h ≠ skip → bg_free_blocks_count (e_bgd e (Z.of_nat h)) = 0)) as Hnext.
  { intros Hg. destruct (IH Hl') as [?|[? Hz]]; [by left|]. right. split; [done|].
    intros h [->|Hh]%elem_of_cons ?; [by destruct Hg|by apply Hz]. }
  destruct (Z.eqb_spec (Z.of_nat g) skip) as [|Hne]; [by apply Hnext; right|].
  destruct (decide (bg_free_blocks_count (e_bgd e (Z.of_nat g)) = 0)) as [H0|H0].
  - rewrite (bind_ok _ _ _ _ _ (balloc_bgd_full (Z.of_nat g) e Hl H0)). by apply Hnext; left.
  - destruct (balloc_bgd_takes (Z.of_nat g) e H Hr Hl H0) as (off & Ho & Hb & R).
    pose proof (flip_takes _ _ _ H Hl Ho Hb) as Ht. rewrite (bind_ok _ _ _ _ _ R).
    assert (group_base e (Z.of_nat g) + off ≠ 0) as Hn0.
    { intros E. destruct Ht as [Ht _]. rewrite E, (ai_zero e H) in Ht. done. }
    rewrite (proj2 (Z.eqb_neq _ _) Hn0). left. by do 2 eexists.
Qed.
Lemma no_free_blocks e : alloc_inv e →
  (∀ g, 0 <= g < e_nr_blk_group e → bg_free_blocks_count (e_bgd e g) = 0) → ∀ x, free_block e x = false.
Proof.
  intros H H0 x. unfold free_block. destruct (in_groups e x) eqn:E; [|done]. unfold in_groups in E.
  pose proof (block_split e x H) as [_ Hr]. pose proof (ai_bpg e H).
  rewrite (clear_bits_0 _ (8 * blksize e)); [done| |lia]. rewrite <-(ai_count e H) by lia. apply H0. lia.
Qed.

(** The end of [ext2_balloc]: the block is cleared and accounted to the inode. *)
Definition finished (ip : nat) (b : Z) (e e' : ext2) : Prop :=
  e_blk e' = <[b := memset 0 0 (Z.to_nat (blksize e)) (e_blk e b)]> (e_blk e) ∧
  e_sb e' = e_sb e ∧ e_bgd e' = e_bgd e ∧ e_nr_blk_group e' = e_nr_blk_group e ∧
  inode_of ip e' = (inode_of ip e) <| i_blocks ::= (λ n, u32 (n + blksize e / SECTOR_SIZE)) |> <| i_mtime := e_now e |> ∧
  (∀ j, j ≠ ip → e_inode e' j = e_inode e j) ∧ e_done e' = e_done e ∧ e_disk e' = e_disk e.
Lemma ext2_balloc_split ip e : alloc_inv e → readable e →
  0 <= u32 (i_num (e_inode e ip) - 1) / s_inodes_per_group (e_sb e) < e_nr_blk_group e →
  ∃ b e1 e', ext2_balloc ip e = Ok (b, e') ∧ finished ip b e1 e' ∧
    (takes b e e1 ∨ b = 0 ∧ e1 = e ∧ ∀ x, free_block e x = false).
Proof.
  intros H Hr Hg.
  assert (∀ b e1 (m : E Z), m e = Ok (b, e1) → blksize e1 = blksize e →
    takes b e e1 ∨ b = 0 ∧ e1 = e ∧ (∀ x, free_block e x = false) →
    ∃ b e1 e', (block ← m; upd_blk block (memset 0 0 (Z.to_nat (blksize e))) ;;
     upd_inode ip (λ i, i <| i_blocks ::= λ n, u32 (n + blksize e / SECTOR_SIZE) |>) ;;
     set_mtime ip ;; set_modified ip ;; mark_dwrite block ;; mret block) e = Ok (b, e') ∧ finished ip b e1 e' ∧
     (takes b e e1 ∨ b = 0 ∧ e1 = e ∧ ∀ x, free_block e x = false)) as Hfin.
  { intros b e1 m Hm Hb Hc. rewrite (bind_ok _ _ _ _ _ Hm). do 3 eexists. split; [reflexivity|]. split; [|exact Hc].
    unfold finished, inode_of. rewrite Hb. repeat split; rec_simpl; autorewrite with yak; rec_simpl; try done.
    intros j Hj. by rewrite !fn_insert_ne by done. }
  unfold ext2_balloc. change ((get ≫= ?m) e) with (m e e). cbv beta zeta.
  destruct (Z.eqb_spec (s_free_blocks_count (e_sb e)) 0) as [H0|H0].
  { apply (Hfin 0 e); [done|done|]. right. split_and!; [done..|]. apply no_free_blocks; [done|].
    intros g Hgr. pose proof (ai_total e H) as Ht. rewrite H0 in Ht.
    assert (∀ h, 0 <= h < e_nr_blk_group e → 0 <= bg_free_blocks_count (e_bgd e h)) as Hpos.
    { intros h Hh. rewrite (ai_count e H h Hh). pose proof (blksize_range e H). apply clear_bits_range. lia. }
    pose proof (zsum_pos (λ g, bg_free_blocks_count (e_bgd e (Z.of_nat g))) (groups e) (Z.to_nat g)) as Hp.
    cbv beta in Hp. rewrite Z2Nat.id, <-Ht in Hp by lia. specialize (Hpos g Hgr) as Hge.
    enough (bg_free_blocks_count (e_bgd e g) <= 0) by lia.
    apply Hp; [apply seq_elem; lia|]. intros x Hx. apply Hpos. apply seq_elem in Hx. lia. }
  set (g := _ / _) in *. change (EXT2_INODES_PER_GROUP (e_sb e)) with (s_inodes_per_group (e_sb e)). fold g.
  destruct (decide (bg_free_blocks_count (e_bgd e g) = 0)) as [Hg0|Hg0].
  - destruct (balloc_groups_correct g (seq 0 (Z.to_nat (e_nr_blk_group e))) e H Hr) as [(b & e1 & R & Ht)|[R Hz]].
    { intros h Hh. apply seq_elem in Hh. lia. }
    + apply (Hfin b e1); [|destruct Ht as (?&?&?&?&?&[n Hs]&?); unfold blksize; by rewrite Hs|by left].
      by rewrite (bind_ok _ _ _ _ _ (balloc_bgd_full g e Hg Hg0)).
    + apply (Hfin 0 e); [by rewrite (bind_ok _ _ _ _ _ (balloc_bgd_full g e Hg Hg0))|done|].
      right. split_and!; [done..|]. apply no_free_blocks; [done|]. intros h Hh.
      destruct (decide (h = g)) as [->|]; [done|]. specialize (Hz (Z.to_nat h)). rewrite Z2Nat.id in Hz by lia.
      apply Hz; [apply seq_elem; lia|done].
  - destruct (balloc_bgd_takes g e H Hr Hg Hg0) as (off & Ho & Hb & R).
    pose proof (flip_takes _ _ _ H Hg Ho Hb) as Ht.
    apply (Hfin (group_base e g + off) (flip_block true g off e)); [|done|by left].
    rewrite (bind_ok _ _ _ _ _ R). rewrite (proj2 (Z.eqb_neq _ _)); [done|].
    intros E. destruct Ht as [Ht _]. rewrite E, (ai_zero e H) in Ht. done.
Qed.

Lemma finished_frame ip b e e' : finished ip b e e' → alloc_inv e →
  (∀ g, 0 <= g < e_nr_blk_group e → bg_block_bitmap (e_bgd e g) ≠ b) →
  alloc_inv e' ∧ ∀ x, free_block e' x = free_block e x.
Proof.
  intros (Hm & Hs & Hd & Hn & _ & _ & Ho & Hk) H Hb.
  assert (∀ g, 0 <= g < e_nr_blk_group e → block_bitmap e' g = block_bitmap e g) as Hmap.
  { intros g Hg. unfold block_bitmap, view. rewrite Hm, Hd, Ho, Hk. rewrite fn_insert_ne; [done|]. intros ->. by apply (Hb g). }
  split; [by apply (alloc_inv_frame e)|]. intros x. by apply free_block_frame.
Qed.

(** C19: On a consistent file system [ext2_balloc] returns a block that was free, or 0 when no
    block is free at all; afterwards the file system is consistent, exactly that block is no
    longer free, its buffer is filled with zeros, no other buffer but those of the bitmaps has
    changed, and the inode has been charged for it. The buffer is not marked as read: for a block
    that had not been read before the next reader gets the contents of the disk, not the zeros. *)
Theorem ext2_balloc_correct ip e : alloc_inv e → readable e →
  0 <= u32 (i_num (e_inode e ip) - 1) / s_inodes_per_group (e_sb e) < e_nr_blk_group e →
  ∃ b e', ext2_balloc ip e = Ok (b, e') ∧ alloc_inv e' ∧
    (if b =? 0 then ∀ x, free_block e x = false else free_block e b = true) ∧
    (∀ x, free_block e' x = free_block e x && negb (x =? b)) ∧
    (∀ i, 0 <= i < blksize e → e_blk e' b i = 0) ∧
    view e' b = (if e_done e b then e_blk e' b else e_disk e b) ∧
    (∀ x, x ≠ b → (∀ g, 0 <= g < e_nr_blk_group e → x ≠ bg_block_bitmap (e_bgd e g)) → e_blk e' x = e_blk e x) ∧
    i_blocks (inode_of ip e') = u32 (i_blocks (inode_of ip e) + blksize e / SECTOR_SIZE).
Proof.
  intros H Hr Hg. destruct (ext2_balloc_split ip e H Hr Hg) as (b & e1 & e' & R & Hfin & Hc).
  exists b, e'. split; [exact R|].
  assert (∃ n, e_sb e1 = (e_sb e) <| s_free_blocks_count := n |>) as [n Hn].
  { destruct Hc as [(?&?&?&?&?&?&?)|(?&->&?)]; [done|]. by exists (s_free_blocks_count (e_sb e)); destruct (e_sb e). }
  assert (blksize e1 = blksize e) as Hbs by (unfold blksize; by rewrite Hn).
  pose proof Hfin as (Hm & _ & _ & _ & Hi & _ & Hdone & Hdisk). rewrite Hbs in Hm, Hi.
  assert (alloc_inv e1 ∧ (∀ g, 0 <= g < e_nr_blk_group e1 → bg_block_bitmap (e_bgd e1 g) ≠ b) ∧
    (if b =? 0 then ∀ x, free_block e x = false else free_block e b = true) ∧
    (∀ x, free_block e1 x = free_block e x && negb (x =? b)) ∧
    (∀ x, (∀ g, 0 <= g < e_nr_blk_group e → x ≠ bg_block_bitmap (e_bgd e g)) →
      e_blk e1 x = e_blk e x ∧ e_done e1 x = e_done e x) ∧ e_disk e1 = e_disk e ∧
    i_blocks (inode_of ip e1) = i_blocks (inode_of ip e)) as (H1 & Hmeta & Hb & Hf1 & Hblk & Hdk & Hib).
  { destruct Hc as [(Hfb & H1 & Hf1 & Hblk & Hbm & [n' Hs] & Hnr & Hino & Hdk)|(-> & -> & Hnone)].
    - split_and!; try done.
      + intros g Hgr E. rewrite Hbm in E. rewrite Hnr in Hgr. by rewrite <-E, (ai_meta e H g Hgr) in Hfb.
      + destruct (Z.eqb_spec b 0) as [->|]; [|done]. by rewrite (ai_zero e H) in Hfb.
      + unfold inode_of. by rewrite Hino.
    - split_and!; try done; [by apply ai_zero_meta|]. intros x. by rewrite Hnone. }
  destruct (finished_frame ip b e1 e' Hfin H1 Hmeta) as [H' Hf'].
  assert (∀ g, 0 <= g < e_nr_blk_group e → b ≠ bg_block_bitmap (e_bgd e g)) as Hbb.
  { intros g Hgr ->. destruct (Z.eqb_spec (bg_block_bitmap (e_bgd e g)) 0) as [E|].
    - by apply (ai_zero_meta e H g).
    - by rewrite (ai_meta e H g) in Hb. }
  split; [done|]. split; [done|]. split; [|split; [|split; [|split]]].
  - intros x. by rewrite Hf', Hf1.
  - intros i Hir. rewrite Hm, fn_insert_eq, memset_spec.
    by rewrite (proj2 (Z.leb_le _ _)), (proj2 (Z.ltb_lt _ _)) by lia.
  - unfold view. rewrite Hdone, Hdisk, Hdk. by rewrite (proj2 (Hblk b Hbb)).
  - intros x Hx Hbm. rewrite Hm, fn_insert_ne by done. by apply Hblk.
  - rewrite Hi. rec_simpl. by rewrite Hib.
Qed.

(** ** Release *)
Section bfree.
Context (e : ext2) (b : Z) (H : alloc_inv e) (Hr : readable e) (Hu : is_u32 b) (Hin : in_groups e b = true).

(** The group that [ext2_bfree] computes is that of the block. *)
Lemma bfree_split : b ≠ 0 → b / s_blocks_per_group (e_sb e) = group_of e b →
  ext2_bfree b e = if free_block e b then Panic "bfree: block is already free"
    else Ok (tt, flip_block false (group_of e b) (bit_of_block e b) e).
Proof.
  intros H0 Hgrp. pose proof (block_split e b H) as [Hb Hbit]. unfold in_groups in Hin.
  pose proof (ai_bpg e H). pose proof (blksize_range e H). pose proof (ai_top e H) as Ht. pose proof (ai_fdb e H).
  unfold ext2_bfree. rewrite (proj2 (Z.eqb_neq _ _) H0). change ((get ≫= ?m) e) with (m e e). cbv beta zeta.
  unfold EXT2_BLOCKS_PER_GROUP. rewrite Hgrp.
  rewrite (bind_ok _ _ _ _ _ (bgd_at_ok (group_of e b) e ltac:(lia))).
  rewrite (bind_ok _ _ _ _ _ (bread_ok _ e (Hr (group_of e b) ltac:(lia)))).
  replace (u32 (b - _)) with (bit_of_block e b).
  2: { unfold group_base in *. rewrite (u32_id (group_of e b * _)) by (unfold is_u32; nia).
       rewrite u32_id; [lia|]. unfold is_u32; lia. }
  rewrite Z.shiftr_div_pow2 by lia. change (2 ^ 3) with 8.
  set (bm := bg_block_bitmap (e_bgd e (group_of e b))).
  assert (0 <= bit_of_block e b / 8 < blksize (load bm e)) as Hb8 by (change (blksize (load bm e)) with (blksize e); lia).
  rewrite (bind_ok _ _ _ _ _ (get_byte_ok bm (bit_of_block e b / 8) (load bm e) Hb8)).
  unfold free_block, in_groups. rewrite Hin. cbn [andb]. unfold bit_at. rewrite load_blk.
  change (block_bitmap e (group_of e b)) with (view e bm).
  destruct (bit_test _ _) eqn:Hbt; cbn [negb]; [|done].
  rewrite (bind_ok _ _ _ _ _ (put_byte_ok bm (bit_of_block e b / 8) _ (load bm e) Hb8)).
  rewrite <-load_blk. reflexivity.
Qed.
Lemma bfree_frees : b ≠ 0 → b / s_blocks_per_group (e_sb e) = group_of e b →
  (∀ g, 0 <= g < e_nr_blk_group e → bg_block_bitmap (e_bgd e g) ≠ b) → free_block e b = false →
  let e' := flip_block false (group_of e b) (bit_of_block e b) e in
  ext2_bfree b e = Ok (tt, e') ∧ alloc_inv e' ∧ (∀ x, free_block e' x = free_block e x || (x =? b)) ∧
  (∀ x, (∀ g, 0 <= g < e_nr_blk_group e → x ≠ bg_block_bitmap (e_bgd e g)) → e_blk e' x = e_blk e x).
Proof.
  intros H0 Hgrp Hbm Hf. rewrite (bfree_split H0 Hgrp), Hf.
  pose proof (block_split e b H) as [Hb Hbit]. unfold in_groups in Hin.
  assert (bit_at (block_bitmap e (group_of e b)) (bit_of_block e b) = true) as Hset.
  { unfold free_block, in_groups in Hf. rewrite Hin in Hf. by apply negb_false_iff in Hf. }
  split; [done|]. split; [|split].
  - apply flip_inv; try done; [lia|]. intros _. rewrite <-Hb. by split.
  - intros x. rewrite flip_free by (done || lia). rewrite <-Hb. case_bool_decide as D.
    + subst x. rewrite Z.eqb_refl. by rewrite orb_true_r.
    + rewrite (proj2 (Z.eqb_neq _ _) D). by rewrite orb_false_r.
  - intros x Hx. unfold flip_block, load. do 3 rec_simpl. by rewrite !fn_insert_ne by (intros Heq; apply (Hx (group_of e b)); [lia|done]).
Qed.
(** C20: On a consistent file system [ext2_bfree] panics for a block that is free already, and
    otherwise makes exactly that block free and keeps the file system consistent. This holds for
    the blocks for which the number of the block divided by the size of a group is the block's
    group, and not for a block that holds a bitmap. *)
Theorem ext2_bfree_correct : b ≠ 0 → b / s_blocks_per_group (e_sb e) = group_of e b →
  (∀ g, 0 <= g < e_nr_blk_group e → bg_block_bitmap (e_bgd e g) ≠ b) →
  if free_block e b then ext2_bfree b e = Panic "bfree: block is already free"
  else ∃ e', ext2_bfree b e = Ok (tt, e') ∧ alloc_inv e' ∧
    (∀ x, free_block e' x = free_block e x || (x =? b)) ∧
    (∀ x, (∀ g, 0 <= g < e_nr_blk_group e → x ≠ bg_block_bitmap (e_bgd e g)) → e_blk e' x = e_blk e x).
Proof.
  intros H0 Hgrp Hbm. destruct (free_block e b) eqn:Hf.
  - by rewrite (bfree_split H0 Hgrp), Hf.
  - eexists. by apply bfree_frees.
Qed.
(** When the first data block is not block 0, [ext2_bfree] goes wrong on the last blocks of
    every group: it takes the descriptor of the next group and reads far outside its bitmap. *)
Theorem bfree_last_block_undefined :
  b ≠ 0 → s_first_data_block (e_sb e) <= s_blocks_per_group (e_sb e) →
  b mod s_blocks_per_group (e_sb e) < s_first_data_block (e_sb e) →
  ∃ why, ext2_bfree b e = Undef why.
Proof.
  intros H0 Hle Hmod.
  pose proof (block_split e b H) as [Hb Hbit]. unfold in_groups in Hin.
  pose proof (ai_bpg e H). pose proof (blksize_range e H). pose proof (ai_top e H) as Ht. pose proof (ai_fdb e H).
  unfold ext2_bfree. rewrite (proj2 (Z.eqb_neq _ _) H0). change ((get ≫= ?m) e) with (m e e). cbv beta zeta.
  unfold EXT2_BLOCKS_PER_GROUP. set (bpg := s_blocks_per_group (e_sb e)) in *. set (k := b / bpg).
  pose proof (Z.div_mod b bpg ltac:(lia)) as Hdm. fold k in Hdm. pose proof (Z.mod_pos_bound b bpg ltac:(lia)).
  unfold is_u32 in Hu. assert (0 <= k) by (apply Z.div_pos; lia).
  destruct (Z.lt_ge_cases k (e_nr_blk_group e)) as [Hk|Hk].
  - rewrite (bind_ok _ _ _ _ _ (bgd_at_ok k e ltac:(lia))), (bind_ok _ _ _ _ _ (bread_ok _ e (Hr k ltac:(lia)))).
    rewrite (u32_id (k * bpg)) by (unfold is_u32; nia).
    replace (u32 (b - _)) with (4294967296 + b mod bpg - s_first_data_block (e_sb e)) by (unfold u32; lia).
    unfold get_byte at 1. exists "read outside b_data"%string.
    rewrite Z.shiftr_div_pow2 by lia. change (2 ^ 3) with 8.
    unfold mbind, M_bind, get. rewrite (proj2 (Z.ltb_ge _ (blksize e))) by lia. by rewrite andb_false_r.
  - exists "past the group descriptors"%string. unfold bgd_at, mbind, M_bind, get.
    rewrite (proj2 (Z.ltb_ge k _)) by lia. by rewrite andb_false_r.
Qed.
End bfree.

(** The free blocks determine the counts. *)
Lemma counts_determined e e' : alloc_inv e → alloc_inv e' → e_nr_blk_group e' = e_nr_blk_group e →
  s_log_block_size (e_sb e') = s_log_block_size (e_sb e) →
  s_blocks_per_group (e_sb e') = s_blocks_per_group (e_sb e) →
  s_first_data_block (e_sb e') = s_first_data_block (e_sb e) →
  (∀ x, free_block e' x = free_block e x) → s_free_blocks_count (e_sb e') = s_free_blocks_count (e_sb e).
Proof.
  intros H H' Hn Hl Hp Hd Hf. rewrite (ai_total e H), (ai_total e' H'). unfold groups. rewrite Hn.
  apply zsum_ext. intros g Hg. apply seq_elem in Hg. rewrite (ai_count e H), (ai_count e' H') by lia.
  assert (blksize e' = blksize e) as Hb by (unfold blksize, EXT2_BLOCKSIZE; by rewrite Hl). rewrite Hb.
  apply clear_bits_ext. intros i Hi. destruct (Z.lt_ge_cases i (s_blocks_per_group (e_sb e))) as [Hlt|].
  - specialize (Hf (group_base e (Z.of_nat g) + i)). unfold free_block, in_groups in Hf.
    destruct (group_of_base e (Z.of_nat g) i H ltac:(lia)) as [E1 E2].
    assert (group_of e' (group_base e (Z.of_nat g) + i) = Z.of_nat g) as E3
      by (rewrite <-E1 at 2; unfold group_of; by rewrite Hd, Hp).
    assert (bit_of_block e' (group_base e (Z.of_nat g) + i) = i) as E4
      by (rewrite <-E2 at 2; unfold bit_of_block; by rewrite Hd, Hp).
    rewrite E1, E2, E3, E4, Hn in Hf. rewrite (proj2 (Z.leb_le 0 _)), (proj2 (Z.ltb_lt (Z.of_nat g) _)) in Hf by lia.
    cbn [andb] in Hf. by apply (f_equal negb) in Hf; rewrite !negb_involutive in Hf.
  - rewrite (ai_tail e H), (ai_tail e' H') by (rewrite ?Hp, ?Hb; lia). done.
Qed.

(** Freeing a block that has just been allocated leads back to the same free blocks and the
    same counts. *)
Theorem balloc_bfree_roundtrip ip e b e1 : alloc_inv e → readable e →
  0 <= u32 (i_num (e_inode e ip) - 1) / s_inodes_per_group (e_sb e) < e_nr_blk_group e →
  ext2_balloc ip e = Ok (b, e1) → b ≠ 0 → b / s_blocks_per_group (e_sb e) = group_of e b →
  ∃ e2, ext2_bfree b e1 = Ok (tt, e2) ∧ alloc_inv e2 ∧ (∀ x, free_block e2 x = free_block e x) ∧
    s_free_blocks_count (e_sb e2) = s_free_blocks_count (e_sb e).
Proof.
  intros H Hr Hg R H0 Hgrp. destruct (ext2_balloc_split ip e H Hr Hg) as (b' & e0 & e' & R' & Hfin & Hc).
  rewrite R in R'. injection R' as <- <-. destruct Hc as [Ht|(-> & _)]; [|done].
  destruct Ht as (Hfb & H0' & Hf0 & _ & Hbm & [n Hs] & Hnr & _).
  pose proof Hfin as (_ & Hs1 & Hd1 & Hn1 & _).
  assert (∀ g, 0 <= g < e_nr_blk_group e → bg_block_bitmap (e_bgd e1 g) = bg_block_bitmap (e_bgd e g)) as Hbm1
    by (intros; rewrite Hd1; apply Hbm).
  assert (∀ g, 0 <= g < e_nr_blk_group e → bg_block_bitmap (e_bgd e g) ≠ b) as Hmeta.
  { intros g Hgr <-. by rewrite (ai_meta e H g Hgr) in Hfb. }
  destruct (finished_frame ip b e0 e1 Hfin H0') as [H1 Hf1].
  { intros g Hgr. rewrite Hbm. rewrite Hnr in Hgr. by apply Hmeta. }
  assert (group_of e1 b = group_of e b ∧ in_groups e1 b = in_groups e b ∧
    s_blocks_per_group (e_sb e1) = s_blocks_per_group (e_sb e)) as (Eg & Ei & Ep).
  { unfold in_groups, group_of. by rewrite Hn1, Hnr, Hs1, Hs. }
  assert (in_groups e b = true) as Hin by (unfold free_block in Hfb; by destruct (in_groups e b)).
  assert (is_u32 b) as Hu.
  { pose proof (block_split e b H) as [Hb Hbit]. pose proof (ai_top e H) as Htop. pose proof (ai_fdb e H).
    unfold in_groups in Hin. unfold group_base in *. unfold is_u32. nia. }
  assert (free_block e1 b = false) as Hused by (rewrite Hf1, Hf0, Z.eqb_refl; apply andb_false_r).
  destruct (bfree_frees e1 b H1) as (R2 & H2 & Hf2 & _); try (by rewrite ?Ei, ?Ep, ?Eg).
  { intros g Hgr. rewrite Hn1, Hnr in Hgr. rewrite Hbm1 by done. by apply Hr. }
  { intros g Hgr. rewrite Hn1, Hnr in Hgr. rewrite Hbm1 by done. by apply Hmeta. }
  eexists. split; [exact R2|]. split; [done|]. set (e2 := flip_block _ _ _ e1) in *.
  assert (∀ x, free_block e2 x = free_block e x) as Hsame.
  { intros x. rewrite Hf2, Hf1, Hf0. destruct (Z.eqb_spec x b) as [->|].
    - by rewrite Hfb.
    - by rewrite andb_true_r, orb_false_r. }
  split; [done|]. assert (s_log_block_size (e_sb e1) = s_log_block_size (e_sb e) ∧
    s_first_data_block (e_sb e1) = s_first_data_block (e_sb e)) as [El Ed] by (by rewrite Hs1, Hs).
  apply counts_determined; try done. change (e_nr_blk_group e2) with (e_nr_blk_group e1). by rewrite Hn1.
Qed.

(** ** Inodes *)
Definition inode_bitmap (e : ext2) (g : Z) : Z → Z := view e (bg_inode_bitmap (e_bgd e g)).
(** The first clear bit. *)
Definition first_clear (m : Z → Z) (k : Z) : Prop := bit_at m k = false ∧ ∀ j, 0 <= j < k → bit_at m j = true.

Lemma scan_inodes_spec b k e fuel p i : 0 <= p → 0 <= i < 8 → 8 * p + i <= k < 8 * blksize e →
  (∀ j, 8 * p + i <= j < k → bit_at (e_blk e b) j = true) → bit_at (e_blk e b) k = false →
  k - (8 * p + i) < Z.of_nat fuel → scan_inodes fuel b p i e = Ok (Some (k / 8, k mod 8), e).
Proof.
  intros Hp Hi Hk Hset Hclear. revert p i Hp Hi Hk Hset. induction fuel as [|fuel IH]; intros p i Hp Hi Hk Hset Hf; [lia|].
  simpl. rewrite (bind_ok _ _ _ _ _ (get_byte_ok b p e ltac:(lia))).
  assert (bit_test (e_blk e b p) i = bit_at (e_blk e b) (8 * p + i)) as ->.
  { unfold bit_at. replace ((8 * p + i) / 8) with p by lia. by replace ((8 * p + i) mod 8) with i by lia. }
  destruct (decide (8 * p + i = k)) as [Hek|Hne].
  - rewrite Hek, Hclear. by replace (k / 8) with p by lia; replace (k mod 8) with i by lia.
  - rewrite Hset by lia. change ((get ≫= ?m) e) with (m e e). cbv beta.
    rewrite (proj2 (Z.eqb_neq p _)) by lia. destruct (Z.eqb_spec i 7).
    + apply IH; [lia|lia|lia| |lia]. intros j Hj. apply Hset. lia.
    + apply IH; [lia|lia|lia| |lia]. intros j Hj. apply Hset. lia.
Qed.

(** What [ialloc_bgd] does to a group. *)
Definition take_inode (g k : Z) (e : ext2) : ext2 :=
  let b := bg_inode_bitmap (e_bgd e g) in
  (load b e) <| e_blk ::= λ m, <[b := set_bit (m b) k]> m |>
    <| e_dwrite ::= <[b := true]> |>
    <| e_bgd ::= λ t, <[g := (t g) <| bg_free_inodes_count ::= λ n, u16 (n - 1) |>]> t |>
    <| e_sb ::= λ s, s <| s_free_inodes_count ::= (λ n, u32 (n - 1)) |> |>
    <| e_modified := true |>.
Lemma ialloc_bgd_takes g k e : 0 <= g < e_nr_blk_group e → bg_free_inodes_count (e_bgd e g) ≠ 0 →
  read_fails (bg_inode_bitmap (e_bgd e g)) = false → 0 <= k < 8 * blksize e → first_clear (inode_bitmap e g) k →
  ialloc_bgd g e = Ok (k + 1, take_inode g k e).
Proof.
  intros Hg H0 Hr Hk [Hclear Hset]. unfold ialloc_bgd. change ((get ≫= ?m) e) with (m e e). cbv beta zeta.
  rewrite (bind_ok _ _ _ _ _ (bgd_at_ok g e Hg)), (proj2 (Z.eqb_neq _ _) H0).
  rewrite (bind_ok _ _ _ _ _ (bread_ok _ e Hr)).
  set (b := bg_inode_bitmap (e_bgd e g)). set (e1 := load b e).
  assert (e_blk e1 b = inode_bitmap e g) as Hv by apply load_blk. rewrite <-Hv in Hclear, Hset.
  change (blksize e) with (blksize e1) in Hk |- *.
  rewrite (bind_ok _ _ _ _ _ (scan_inodes_spec b k e1 (S (S (Z.to_nat (8 * blksize e1)))) 0 0 ltac:(lia) ltac:(lia) ltac:(lia)
    ltac:(intros; apply Hset; lia) Hclear ltac:(lia))).
  rewrite (bind_ok _ _ _ _ _ (get_byte_ok b (k / 8) e1 ltac:(lia))).
  rewrite (bind_ok _ _ _ _ _ (put_byte_ok b (k / 8) _ e1 ltac:(lia))).
  rewrite Z.shiftl_mul_pow2 by lia. change (2 ^ 3) with 8. replace (k / 8 * 8 + k mod 8 + 1) with (k + 1) by lia.
  reflexivity.
Qed.
(** [ext2_ialloc] takes the first clear bit of the first group with a free inode, and returns
    the index of the bit in that group plus one. So the number is that of an inode of the first
    group, whichever group the bit was taken from. *)
Theorem ext2_ialloc_first_clear g k e : 0 <= g < e_nr_blk_group e → s_free_inodes_count (e_sb e) ≠ 0 →
  (∀ h, 0 <= h < g → bg_free_inodes_count (e_bgd e h) = 0) → bg_free_inodes_count (e_bgd e g) ≠ 0 →
  read_fails (bg_inode_bitmap (e_bgd e g)) = false →
  0 <= k < 8 * blksize e → first_clear (inode_bitmap e g) k →
  ∃ e', ext2_ialloc e = Ok (k + 1, e') ∧ (∀ i, bytes (inode_bitmap e g) → 0 <= i →
    bit_at (inode_bitmap e' g) i = (bool_decide (i = k) || bit_at (inode_bitmap e g) i)%bool) ∧
    bg_free_inodes_count (e_bgd e' g) = u16 (bg_free_inodes_count (e_bgd e g) - 1) ∧
    (k < s_inodes_per_group (e_sb e) → u32 (k + 1 - 1) / s_inodes_per_group (e_sb e) = 0).
Proof.
  intros Hg Hs Hfull H0 Hr Hk Hc. exists (take_inode g k e). pose proof (ialloc_bgd_takes g k e Hg H0 Hr Hk Hc) as R. split.
  - unfold ext2_ialloc. change ((get ≫= ?m) e) with (m e e). cbv beta. rewrite (proj2 (Z.eqb_neq _ _) Hs).
    replace (Z.to_nat (e_nr_blk_group e)) with (Z.to_nat g + S (Z.to_nat (e_nr_blk_group e - g) - 1))%nat by lia.
    rewrite seq_app. assert (∀ l : list nat, (∀ h, h ∈ l → (h < Z.to_nat g)%nat) → ∀ l',
      ialloc_groups (l ++ l') e = ialloc_groups l' e) as Hskip.
    { intros l. induction l as [|h l IH]; intros Hl l'; simpl; [done|].
      assert (ialloc_bgd (Z.of_nat h) e = Ok (0, e)) as R0.
      { specialize (Hl h ltac:(by left)). unfold ialloc_bgd. change ((get ≫= ?m) e) with (m e e). cbv beta zeta.
        rewrite (bind_ok _ _ _ _ _ (bgd_at_ok (Z.of_nat h) e ltac:(lia))). by rewrite Hfull by lia. }
      rewrite (bind_ok _ _ _ _ _ R0). simpl. apply IH. intros. apply Hl. by right. }
    rewrite Hskip by (intros h Hh; apply seq_elem in Hh; lia). simpl. rewrite Z2Nat.id by lia.
    rewrite (bind_ok _ _ _ _ _ R). by rewrite (proj2 (Z.eqb_neq _ _)) by lia.
  - unfold take_inode, load, inode_bitmap, view. split; [|split].
    + intros i Hb Hi. rec_simpl. autorewrite with yak. rec_simpl. autorewrite with yak.
      apply bit_at_set; (done || lia).
    + rec_simpl. autorewrite with yak. done.
    + intros. rewrite Z.add_simpl_r. apply Z.div_small. pose proof (Z.mod_le k 4294967296 ltac:(lia) ltac:(lia)).
      pose proof (u32_range k). unfold is_u32, u32 in *. lia.
Qed.
End alloc_correct.

(** ** A small file system *)
Module Ext2Demo.
#[export] Instance good_device : Device := {| read_fails := λ _, false |}.
Definition bitmap0 (i : Z) : Z := if i =? 0 then 31 else if i =? 1 then 0 else 255.
Definition bitmap1 (i : Z) : Z := if (i =? 0) || (i =? 1) then 0 else 255.
Definition full (i : Z) : Z := 255.
Definition inodes1 (i : Z) : Z := if i =? 0 then 3 else 0.
Definition blocks (b : Z) : Z → Z :=
  if b =? 3 then bitmap0 else if b =? 4 then bitmap1 else if b =? 1 then full else if b =? 2 then inodes1 else λ _, 0.
Definition ino0 : ext2_inode := MkIno 33188 0 0 0 0 0 0 0 1 0 (λ _, 0) (λ _, 0).
(** An inode in the cache that is not in a queue. *)
Definition cached_ino (i : ext2_inode) (num flags count : Z) : ext2_inode_m := MkInoM i 768 num flags count None None None None.
(** Two groups of 16 blocks and 16 inodes; [fdb] is the first data block. *)
Definition fs (fdb : Z) : ext2 := {|
  e_disk := blocks; e_blk := λ _ _, 0; e_done := λ _, false; e_dwrite := λ _, false;
  e_sb := MkSb 32 32 27 14 fdb 0 16 16 0 11 128;
  e_bgd := λ g, if g =? 0 then MkBgd 3 1 5 11 0 0 else MkBgd 4 2 7 16 14 0;
  e_nr_blk_group := 2; e_modified := false;
  e_inode := λ _, cached_ino ino0 12 0 1; e_hash_queues := λ _, None; e_now := 1000 |}.

Lemma group_cases (P : Z → Prop) : P 0 → P 1 → ∀ g, 0 <= g < 2 → P g.
Proof. intros H0 H1 g Hg. assert (g = 0 ∨ g = 1) as [-> | ->] by lia; done. Qed.
Lemma fs_tail fdb g i : 0 <= g < 2 → 16 <= i < 8192 → bit_at (block_bitmap (fs fdb) g) i = true.
Proof.
  intros Hg Hi. unfold bit_at. assert (block_bitmap (fs fdb) g (i / 8) = 255) as ->.
  { assert (2 <= i / 8) by lia. revert g Hg. apply group_cases; cbn; unfold bitmap0, bitmap1; by repeat case_match; lia. }
  apply (forall_range (bit_test 255) 0 8); [done|lia|lia].
Qed.
Lemma fs_inv fdb : fdb = 0 ∨ fdb = 1 → alloc_inv (fs fdb).
Proof.
  intros Hf. split.
  - simpl. lia.
  - by vm_compute.
  - by vm_compute.
  - simpl. lia.
  - unfold group_base. simpl. lia.
  - apply group_cases; intros i; cbn; unfold bitmap0, bitmap1, is_u8; repeat case_match; lia.
  - intros g i Hg Hi. by apply (fs_tail fdb).
  - intros g Hg. change (8 * blksize _) with 8192. rewrite (clear_bits_tail _ 16); [|lia|].
    + revert g Hg. apply group_cases; by vm_compute.
    + intros i Hi. by apply (fs_tail fdb).
  - by vm_compute.
  - intros g h Hg Hh E. change (0 <= g < 2) in Hg. change (0 <= h < 2) in Hh.
    assert (g = 0 ∨ g = 1) as [-> | ->] by lia; assert (h = 0 ∨ h = 1) as [-> | ->] by lia; done.
  - destruct Hf as [-> | ->]; by apply group_cases.
  - by apply group_cases.
  - by destruct Hf as [-> | ->].
Qed.
Lemma fs_readable fdb : readable (fs fdb).
Proof. by intros g Hg. Qed.
End Ext2Demo.
Import Ext2Demo.

Lemma ext2_balloc_correct_witness : ∃ b e', ext2_balloc 0 (fs 0) = Ok (b, e') ∧ alloc_inv e'.
Proof.
  destruct (ext2_balloc_correct 0 (fs 0)) as (b & e' & R & H & _);
    [apply fs_inv; by left|apply fs_readable|by vm_compute|]. exists b, e'. by split.
Defined.
Lemma ext2_bfree_correct_witness : ∃ e', ext2_bfree 2 (fs 0) = Ok (tt, e') ∧ alloc_inv e'.
Proof.
  destruct (ext2_bfree_correct (fs 0) 2) as (e' & R & H & _);
    [apply fs_inv; by left|apply fs_readable|by vm_compute|done|by vm_compute|apply (group_cases (λ g, bg_block_bitmap (e_bgd (fs 0) g) ≠ 2)); by vm_compute|].
  exists e'. by split.
Defined.
Lemma bfree_last_block_undefined_witness : ∃ why, ext2_bfree 16 (fs 1) = Undef why.
Proof.
  apply (bfree_last_block_undefined (fs 1) 16);
    [apply fs_inv; by right|apply fs_readable|by vm_compute|done|done|by vm_compute].
Defined.
Lemma balloc_bfree_roundtrip_witness : ∃ e1 e2, ext2_balloc 0 (fs 0) = Ok (5, e1) ∧
  ext2_bfree 5 e1 = Ok (tt, e2) ∧ (∀ x, free_block e2 x = free_block (fs 0) x).
Proof.
  assert (∃ e1, ext2_balloc 0 (fs 0) = Ok (5, e1)) as [e1 R] by (eexists; reflexivity).
  destruct (balloc_bfree_roundtrip 0 (fs 0) 5 e1 (fs_inv 0 (or_introl eq_refl)) (fs_readable 0)) as (e2 & R2 & _ & H & _);
    [by vm_compute|done|done|by vm_compute|]. by exists e1, e2.
Defined.
(** The first group is full; the inode comes from the second one and gets the number of one that
    is in use. *)
Lemma ext2_ialloc_first_clear_witness : ∃ e', ext2_ialloc (fs 0) = Ok (3, e') ∧
  bit_at (inode_bitmap (fs 0) 0) (3 - 1) = true.
Proof.
  destruct (ext2_ialloc_first_clear 1 2 (fs 0)) as (e' & R & _); [by vm_compute|done| |done|done|by vm_compute| |].
  - intros h Hh. by assert (h = 0) as -> by lia.
  - split; [by vm_compute|]. apply (forall_range _ 0 2); [by vm_compute|lia].
  - exists e'. by split.
Defined.
