(* ===== verification/Ext2File.v ===== *)
(** The contents of files in ext2: from an offset to a block (sys/fs/ext2/bmap.c), reading,
    writing and seeking (sys/fs/ext2/read_write.c), and the release of all blocks of a file
    (ext2_itrunc of sys/fs/ext2/inode.c). *)
From S2P Require Import Prelude Str Proc Bitmap Ext2.

Section bmap.
Context `{DEV : Device}.

(** ** From an offset to a block *)

(** [if (create && *b == 0) *b = ext2_balloc(ip)], where [b] points into the inode ... *)
Definition inode_slot (ip : nat) (k : Z) (create : bool) : E Z :=
  e ← get;
  let b := i_block (inode_of ip e) k in
  if create && (b =? 0) then
    b ← ext2_balloc ip;
    upd_inode ip (λ i, i <| i_block ::= <[k := b]> |>) ;;
    set_modified ip ;;
    set_mtime ip ;;
    mret b
  else mret b.
(** ... or into a block of entries. *)
Definition entry_slot (ip : nat) (blk i : Z) (create : bool) : E Z :=
  b ← get_word blk i;
  if create && (b =? 0) then
    b ← ext2_balloc ip;
    put_word blk i b ;;
    set_modified ip ;;
    set_mtime ip ;;
    mark_dwrite blk ;;
    mret b
  else mret b.

(** The entries of the indirect block are read and written as bytes, and only when [create]. *)
Definition bmap_create_indirect (ip : nat) (lblk : Z) (create : bool) : E Z :=
  let lblk := u32 (lblk - (EXT2_DIRECT_BLOCKS + 1)) in
  b ← inode_slot ip EXT2_INDIRECT_BLOCK create;
  if b =? 0 then mret 0 else
  r ← bread b;
  if negb r then mret 0 else
  if create then
    c ← get_byte b lblk;
    let ret := u32 (s8 c) in
    if ret =? 0 then
      n ← ext2_balloc ip;
      put_byte b lblk n ;;
      c ← get_byte b lblk;
      mark_dwrite b ;;
      set_modified ip ;;
      set_mtime ip ;;
      mret (u32 (s8 c))
    else mret ret
  else mret 0.

Definition bmap_create_dindirect (ip : nat) (lblk : Z) (create : bool) : E Z :=
  e ← get;
  let indir_blocks := blksize e / 4 in
  let lblk := u32 (lblk - (EXT2_DIRECT_BLOCKS + indir_blocks + 1)) in
  b ← inode_slot ip EXT2_DINDIRECT_BLOCK create;
  if b =? 0 then mret 0 else
  r ← bread b;
  if negb r then mret 0 else
  tmp ← entry_slot ip b (lblk / indir_blocks) create;
  if tmp =? 0 then mret 0 else
  r ← bread tmp;
  if negb r then mret 0 else
  entry_slot ip tmp (lblk mod indir_blocks) create.

(** The second level is indexed without the remainder, and its buffer is not tested. *)
Definition bmap_create_tindirect (ip : nat) (lblk : Z) (create : bool) : E Z :=
  e ← get;
  let indir_blocks := blksize e / 4 in
  let dindir_blocks := u32 (indir_blocks * indir_blocks) in
  let lblk := u32 (lblk - (EXT2_DIRECT_BLOCKS + indir_blocks + dindir_blocks + 1)) in
  b ← inode_slot ip EXT2_TINDIRECT_BLOCK create;
  if b =? 0 then mret 0 else
  r ← bread b;
  if negb r then mret 0 else
  tmp ← entry_slot ip b (lblk / dindir_blocks) create;
  if tmp =? 0 then mret 0 else
  bread_unchecked tmp ;;
  tmp ← entry_slot ip tmp (lblk / indir_blocks) create;
  if tmp =? 0 then mret 0 else
  r ← bread tmp;
  if negb r then mret 0 else
  entry_slot ip tmp (lblk mod indir_blocks) create.

Definition bmap_create (ip : nat) (off : Z) (create : bool) : E Z :=
  e ← get;
  let lblk := u32 (Z.quot off (blksize e)) in
  if lblk <=? EXT2_DIRECT_BLOCKS then inode_slot ip lblk create else
  let indir_blocks := blksize e / 4 in
  if lblk <? indir_blocks + EXT2_DIRECT_BLOCKS + 1 then bmap_create_indirect ip lblk create else
  let dindir_blocks := u32 (indir_blocks * indir_blocks) in
  if lblk <? u32 (dindir_blocks + indir_blocks + EXT2_DIRECT_BLOCKS + 1) then bmap_create_dindirect ip lblk create
  else bmap_create_tindirect ip lblk create.
Definition ext2_bmap (ip : nat) (off : Z) : E Z := bmap_create ip off false.
Definition ext2_create_block (ip : nat) (off : Z) : E Z := bmap_create ip off true.

(** ** Truncation *)
Definition ext2_itrunc (ip : nat) : E unit :=
  let free_slot (f : Z → E unit) (k : Z) : E unit :=
    e ← get;
    f (i_block (inode_of ip e) k) ;;
    upd_inode ip (λ i, i <| i_block ::= <[k := 0]> |>) in
  for_each (seq 0 12) (λ k, free_slot ext2_bfree (Z.of_nat k)) ;;
  free_slot ext2_bfree_indirect EXT2_INDIRECT_BLOCK ;;
  free_slot ext2_bfree_dindirect EXT2_DINDIRECT_BLOCK ;;
  free_slot ext2_bfree_tindirect EXT2_TINDIRECT_BLOCK ;;
  upd_inode ip (λ i, i <| i_blocks := 0 |> <| i_size := 0 |>) ;;
  set_mtime ip ;;
  set_modified ip.
End bmap.

(** ** Reading and writing *)

(** The file system, the memory of the process and the position in the file, [*off]. *)
Record io := MkIo { io_fs : ext2; io_mem : Z → Z; io_pos : Z }.
#[export] Instance io_eta : Eta io := λ s, MkIo (io_fs s) (io_mem s) (io_pos s).
Definition IO (A : Type) : Type := M io A.
Definition in_fs {A} (m : E A) : IO A := zoom io_fs (λ e s, s <| io_fs := e |>) m.
Definition put_ubyte (p v : Z) : IO unit := modify (λ s, s <| io_mem ::= <[p := u8 v]> |>).
Definition get_ubyte (p : Z) : IO Z := gets (λ s, io_mem s p).

Definition EXT2_S_IFMT : Z := 61440.
Definition EXT2_S_IFSOCK : Z := 49152.
Definition EXT2_S_IFLNK : Z := 40960.
Definition EXT2_S_IFREG : Z := 32768.
Definition EXT2_S_IFBLK : Z := 24576.
Definition EXT2_S_IFDIR : Z := 16384.
Definition EXT2_S_IFCHR : Z := 8192.
Definition EXT2_S_IFIFO : Z := 4096.
Definition is_type (t m : Z) : bool := Z.land m EXT2_S_IFMT =? t.

(** What the nodes of devices are handed to: [chr_devio] of sys/fs/devio.c, and [blkdev_read] and
    [blkdev_write], which are the same loops over the sectors of another device. *)
Class DeviceFiles := {
  chr_devio : Z → Z → Z → rw_cmd → IO Z;
  blkdev_rw : nat → Z → Z → rw_cmd → IO Z
}.

Section rw.
Context `{DEV : Device} `{DF : DeviceFiles}.

(** [while (nr--) { put_ubyte(p, *s); p++; s++; }] *)
Fixpoint copy_out (nr : nat) (b s p : Z) : IO unit :=
  match nr with
  | O => mret tt
  | S nr => c ← in_fs (get_byte b s); put_ubyte p c ;; copy_out nr b (s + 1) (p + 1)
  end.
Fixpoint copy_in (nr : nat) (b s p : Z) : IO unit :=
  match nr with
  | O => mret tt
  | S nr => c ← get_ubyte p; in_fs (put_byte b s c) ;; copy_in nr b (s + 1) (p + 1)
  end.
Fixpoint put_zeros (c : nat) (p : Z) : IO unit :=
  match c with
  | O => mret tt
  | S c => put_ubyte p 0 ;; put_zeros c (p + 1)
  end.

(** The number of bytes up to the end of the block or of the request. *)
Definition chunk (bs off c : Z) : Z := if bs - off <? c then bs - off else c.

(** The result: what is left of [c], [err], and whether [bp] has been given a value. *)
Fixpoint file_read_loop (fuel : nat) (ip : nat) (p c : Z) (bp_set : bool) : IO (Z * Z * bool) :=
  match fuel with
  | O => nofuel
  | S fuel =>
      if 0 <? c then
        s ← get;
        block ← in_fs (ext2_bmap ip (io_pos s));
        if negb (block =? 0) then
          r ← in_fs (bread block);
          if negb r then mret (c, - EIO, true) else
          let off := Z.rem (io_pos s) (blksize (io_fs s)) in
          let nr := chunk (blksize (io_fs s)) off c in
          modify (λ s, s <| io_pos ::= λ x, s32 (x + nr) |>) ;;
          copy_out (Z.to_nat nr) block off p ;;
          file_read_loop fuel ip (p + nr) (c - nr) true
        else
          put_zeros (Z.to_nat c) p ;;
          file_read_loop fuel ip (p + c) (-1) bp_set
      else mret (c, 0, bp_set)
  end.
(** The lock of the inode is not in the model; [count] is a [size_t]. *)
Definition file_read (ip : nat) (buf count : Z) : IO Z :=
  let c := s32 count in
  if c <? 0 then mret (- EOVERFLOW) else
  s ← get;
  if io_pos s <? 0 then mret (- EFBIG) else
  '(c, err, bp_set) ← file_read_loop (S (S (Z.to_nat c))) ip buf c false;
  if negb bp_set then undef "bp is not initialised" else
  in_fs (e ← get; upd_inode ip (λ i, i <| i_atime := e_now e |>) ;; set_modified ip) ;;
  if negb (err =? 0) then mret err else mret (s32 (count - c)).

Fixpoint file_write_loop (fuel : nat) (ip : nat) (p c : Z) (bp_set : bool) : IO (Z * Z * bool) :=
  match fuel with
  | O => nofuel
  | S fuel =>
      if negb (c =? 0) then
        s ← get;
        block ← in_fs (ext2_create_block ip (io_pos s));
        if block =? 0 then mret (c, 0, bp_set) else
        r ← in_fs (bread block);
        if negb r then mret (c, - EIO, true) else
        let off := Z.rem (io_pos s) (blksize (io_fs s)) in
        let nr := chunk (blksize (io_fs s)) off c in
        modify (λ s, s <| io_pos ::= λ x, s32 (x + nr) |>) ;;
        copy_in (Z.to_nat nr) block off p ;;
        in_fs (mark_dwrite block) ;;
        file_write_loop fuel ip (p + nr) (c - nr) true
      else mret (c, 0, bp_set)
  end.
Definition file_write (ip : nat) (buf count : Z) : IO Z :=
  let c := s32 count in
  if c <? 0 then mret (- EOVERFLOW) else
  s ← get;
  if io_pos s <? 0 then mret (- EFBIG) else
  '(c, err, bp_set) ← file_write_loop (S (Z.to_nat c)) ip buf c false;
  in_fs (set_mtime ip ;; upd_inode ip (λ i, i <| i_size ::= λ n, u32 (n + (count - c)) |>) ;; set_modified ip) ;;
  if negb bp_set then undef "bp is not initialised" else
  if negb (err =? 0) then mret err else mret (s32 (count - c)).

Definition ext2_readi (ip : nat) (buf count : Z) : IO Z :=
  s ← get;
  let m := i_mode (inode_of ip (io_fs s)) in
  if is_type EXT2_S_IFDIR m || is_type EXT2_S_IFREG m then file_read ip buf count
  else if is_type EXT2_S_IFBLK m then blkdev_rw ip buf count READ
  else if is_type EXT2_S_IFCHR m then chr_devio (i_block (inode_of ip (io_fs s)) 0) buf count READ
  else mret (- EINVAL).
Definition ext2_writei (ip : nat) (buf count : Z) : IO Z :=
  s ← get;
  let m := i_mode (inode_of ip (io_fs s)) in
  if is_type EXT2_S_IFDIR m || is_type EXT2_S_IFREG m then file_write ip buf count
  else if is_type EXT2_S_IFBLK m then blkdev_rw ip buf count WRITE
  else if is_type EXT2_S_IFCHR m then chr_devio (i_block (inode_of ip (io_fs s)) 0) buf count WRITE
  else mret (- EINVAL).

(** [struct file], for the calls on open files: [f_fs->f_fs == EXT2], [f_inode], [O_APPEND] of
    [f_flags]; its [f_pos] is [io_pos]. *)
Record ext2_file := MkFile { xf_ext2 : bool; xf_inode : option nat; xf_append : bool }.
Definition ext2_read (file : ext2_file) (buf count : Z) : IO Z :=
  if negb (xf_ext2 file) then mret (- EINVAL) else
  match xf_inode file with
  | None => mret (- EINVAL)
  | Some ip => ext2_readi ip buf count
  end.
Definition ext2_write (file : ext2_file) (buf count : Z) : IO Z :=
  if negb (xf_ext2 file) then mret (- EINVAL) else
  match xf_inode file with
  | None => mret (- EINVAL)
  | Some ip =>
      s ← get;
      if xf_append file then
        let size := s32 (i_size (inode_of ip (io_fs s))) in
        if size <? 0 then mret (- EFBIG) else
        modify (λ s, s <| io_pos := size |>) ;; ext2_writei ip buf count
      else ext2_writei ip buf count
  end.

Inductive whence_t := SEEK_SET | SEEK_CUR | SEEK_END | SEEK_OTHER.
Definition ext2_lseek (ip : nat) (pos : Z) (whence : whence_t) : IO Z :=
  s ← get;
  let m := i_mode (inode_of ip (io_fs s)) in
  if is_type EXT2_S_IFCHR m then mret 0 else
  if is_type EXT2_S_IFIFO m || is_type EXT2_S_IFSOCK m then mret (- ESPIPE) else
  let move (new : Z) : IO Z :=
    if new <? 0 then mret (- EOVERFLOW) else modify (λ s, s <| io_pos := new |>) ;; mret new in
  match whence with
  | SEEK_SET => move pos
  | SEEK_CUR => move (s32 (io_pos s + pos))
  | SEEK_END => move (s32 (u32 (i_size (inode_of ip (io_fs s)) + pos)))
  | SEEK_OTHER => mret (- EINVAL)
  end.
End rw.

(** ** What a reader sees

    Reading blocks moves them into buffers, which no reader can tell. *)
Record same_view (e e' : ext2) : Prop := {
  sv_sb : e_sb e' = e_sb e;
  sv_bgd : e_bgd e' = e_bgd e;
  sv_nr : e_nr_blk_group e' = e_nr_blk_group e;
  sv_inode : e_inode e' = e_inode e;
  sv_now : e_now e' = e_now e;
  sv_view b : view e' b = view e b
}.
#[export] Instance same_view_equiv : Equivalence same_view.
Proof.
  split; [done| |].
  - intros e e' []. by split.
  - intros e1 e2 e3 [] []. split; intros; congruence.
Qed.
Lemma load_same_view b e : same_view e (load b e).
Proof. split; try done. intros. apply load_view. Qed.
#[export] Hint Resolve load_same_view : yak.
#[export] Instance blksize_proper : Proper (same_view ==> eq) blksize.
Proof. intros e e' []. unfold blksize. congruence. Qed.
#[export] Instance inode_of_proper ip : Proper (same_view ==> eq) (inode_of ip).
Proof. intros e e' []. unfold inode_of. congruence. Qed.

(** ** The layout of a file: the slot of the inode and the path of entries to a logical block *)
Definition block_path (n l : Z) : Z * list Z :=
  if l <? 12 then (l, [])
  else if l <? 12 + n then (12, [l - 12])
  else if l <? 12 + n + n * n then let m := l - 12 - n in (13, [m / n; m mod n])
  else let m := l - 12 - n - n * n in (14, [m / (n * n); m / n mod n; m mod n]).
Fixpoint walk (e : ext2) (b : Z) (l : list Z) : Z :=
  match l with
  | [] => b
  | i :: l => if b =? 0 then 0 else walk e (word (view e b) i) l
  end.
(** The block that holds logical block [l] of a file, 0 for a hole. *)
Definition file_block (e : ext2) (ip : nat) (l : Z) : Z :=
  let '(slot, path) := block_path (blksize e / 4) l in walk e (i_block (inode_of ip e) slot) path.
Definition file_byte (e : ext2) (ip : nat) (p : Z) : Z :=
  let b := file_block e ip (p / blksize e) in
  if b =? 0 then 0 else view e b (p mod blksize e).

#[export] Instance walk_proper : Proper (same_view ==> eq ==> eq ==> eq) walk.
Proof.
  intros e e' H b _ <- l _ <-. revert b. induction l as [|i l IH]; intros b; simpl; [done|].
  rewrite (sv_view _ _ H). destruct (b =? 0); [done|]. apply IH.
Qed.
#[export] Instance file_block_proper : Proper (same_view ==> eq ==> eq ==> eq) file_block.
Proof. intros e e' H ip _ <- l _ <-. unfold file_block. rewrite H. destruct (block_path _ _). by rewrite H. Qed.
#[export] Instance file_byte_proper : Proper (same_view ==> eq ==> eq ==> eq) file_byte.
Proof.
  intros e e' H ip _ <- p _ <-. unfold file_byte. cbv zeta.
  pose proof (blksize_proper _ _ H) as ->. rewrite (file_block_proper _ _ H ip _ eq_refl _ _ eq_refl).
  by rewrite (sv_view _ _ H).
Qed.

Section lookup.
Context `{DEV : Device} (no_errors : ∀ b, read_fails b = false).

Lemma bread_loads b e : bread b e = Ok (true, load b e).
Proof. unfold bread, mbind, M_bind, get. by rewrite no_errors, andb_false_r. Qed.
Lemma inode_slot_get ip k e : inode_slot ip k false e = Ok (i_block (inode_of ip e) k, e).
Proof. reflexivity. Qed.
Lemma entry_slot_get ip b i e : 0 <= i < blksize e / 4 →
  entry_slot ip b i false (load b e) = Ok (word (view e b) i, load b e).
Proof.
  intros Hi. unfold entry_slot, get_word, mbind, M_bind, get. change (blksize (load b e)) with (blksize e).
  rewrite (proj2 (Z.leb_le _ _)), (proj2 (Z.ltb_lt _ (blksize e))) by lia. rewrite load_blk. done.
Qed.
Lemma dindirect_get ip lblk e : let n := blksize e / 4 in
  1024 <= blksize e → 12 + n <= lblk < 12 + n + n * n → lblk < 4294967296 →
  ∃ e', bmap_create_dindirect ip lblk false e = Ok (walk e (i_block (inode_of ip e) 13) [(lblk - 12 - n) / n; (lblk - 12 - n) mod n], e') ∧
    same_view e e'.
Proof.
  intros n Hbs Hl Hu. unfold bmap_create_dindirect. change ((get ≫= ?m) e) with (m e e). cbv beta zeta. fold n.
  assert (0 < n) by (unfold n; lia).
  replace (u32 _) with (lblk - 12 - n) by (unfold EXT2_DIRECT_BLOCKS; rewrite u32_id; [lia|unfold is_u32; lia]).
  set (m := lblk - 12 - n). assert (0 <= m < n * n) as Hm by (unfold m; lia).
  assert (0 <= m / n < n) as Hq by (split; [apply Z.div_pos; lia|apply Z.div_lt_upper_bound; lia]).
  assert (0 <= m mod n < n) as Hr by (apply Z.mod_pos_bound; lia).
  rewrite (bind_ok _ _ _ _ _ (inode_slot_get ip EXT2_DINDIRECT_BLOCK e)).
  unfold EXT2_DINDIRECT_BLOCK, walk. set (b := i_block (inode_of ip e) 13).
  destruct (b =? 0); [by exists e|].
  rewrite (bind_ok _ _ _ _ _ (bread_loads b e)). cbn [negb].
  rewrite (bind_ok _ _ _ _ _ (entry_slot_get ip b (m / n) e Hq)).
  set (b2 := word (view e b) (m / n)). destruct (b2 =? 0); [exists (load b e); split; [done|auto with yak]|].
  rewrite (bind_ok _ _ _ _ _ (bread_loads b2 (load b e))). cbn [negb].
  exists (load b2 (load b e)). split; [|by rewrite <-!load_same_view].
  rewrite (entry_slot_get ip b2 (m mod n) (load b e) Hr). by rewrite load_view.
Qed.

Lemma bmap_indirect_get ip lblk e : ∃ e', bmap_create_indirect ip lblk false e = Ok (0, e') ∧ same_view e e'.
Proof.
  unfold bmap_create_indirect. rewrite (bind_ok _ _ _ _ _ (inode_slot_get ip EXT2_INDIRECT_BLOCK e)).
  destruct (_ =? 0); [by exists e|]. rewrite (bind_ok _ _ _ _ _ (bread_loads _ e)). cbn [negb].
  eexists. split; [done|]. auto with yak.
Qed.

(** The single indirect blocks, which [ext2_bmap] does not reach. *)
Definition single_indirect (e : ext2) (l : Z) : bool := (12 <=? l) && (l <? 12 + blksize e / 4).
Definition below_triple (e : ext2) (l : Z) : Prop := let n := blksize e / 4 in l < 12 + n + n * n.

Lemma bmap_get ip off e : 0 <= off < 2147483648 → 1024 <= blksize e <= 65536 → below_triple e (off / blksize e) →
  ∃ e', ext2_bmap ip off e =
      Ok (if single_indirect e (off / blksize e) then 0 else file_block e ip (off / blksize e), e') ∧ same_view e e'.
Proof.
  intros Ho Hbs Hl. unfold below_triple in Hl. set (l := off / blksize e) in *.
  assert (0 <= l <= off) as Hlr by (split; [apply Z.div_pos; lia|apply Z.div_le_upper_bound; nia]).
  unfold ext2_bmap, bmap_create. change ((get ≫= ?m) e) with (m e e). cbv beta zeta.
  replace (u32 (off ÷ blksize e)) with l.
  2: { rewrite Z.quot_div_nonneg by lia. fold l. symmetry. apply u32_id. unfold is_u32. lia. }
  unfold single_indirect, file_block, block_path, EXT2_DIRECT_BLOCKS in *. set (n := blksize e / 4) in *.
  assert (256 <= n) by (unfold n; lia).
  destruct (Z.leb_spec l 11).
  { rewrite (proj2 (Z.ltb_lt l 12)), (proj2 (Z.leb_gt 12 l)) by lia. by exists e. }
  rewrite (proj2 (Z.ltb_ge l 12)), (proj2 (Z.leb_le 12 l)) by lia. cbn [andb].
  destruct (Z.ltb_spec l (n + 11 + 1)) as [Hs|Hs].
  { rewrite (proj2 (Z.ltb_lt l (12 + n))) by lia. apply bmap_indirect_get. }
  rewrite (proj2 (Z.ltb_ge l (12 + n))), (proj2 (Z.ltb_lt l (12 + n + n * n))) by lia.
  assert (n * n <= 16384 * 16384) by (apply Z.mul_le_mono_nonneg; unfold n; lia).
  rewrite (u32_id (n * n)) by (unfold is_u32; lia). rewrite (u32_id (n * n + n + 11 + 1)) by (unfold is_u32; lia).
  rewrite (proj2 (Z.ltb_lt l (n * n + n + 11 + 1))) by lia.
  apply dindirect_get; fold n; lia.
Qed.
(** C23: For every offset below the triple indirect blocks [ext2_bmap] returns the block that the
    layout of ext2 gives it, and reading the entries changes nothing that a reader could see;
    except that for the single indirect blocks it always returns 0, as if they were holes. *)
Theorem ext2_bmap_layout ip off e : 0 <= off < 2147483648 → 1024 <= blksize e <= 65536 →
  below_triple e (off / blksize e) →
  ∃ e', ext2_bmap ip off e =
      Ok (if single_indirect e (off / blksize e) then 0 else file_block e ip (off / blksize e), e') ∧ same_view e e'.
Proof. apply bmap_get. Qed.
End lookup.

(** ** Reading *)
Lemma div_mod_shift bs p i : 0 < bs → 0 <= i → p mod bs + i < bs →
  (p + i) / bs = p / bs ∧ (p + i) mod bs = p mod bs + i.
Proof.
  intros Hb Hi Hlt. pose proof (Z.div_mod p bs ltac:(lia)). pose proof (Z.mod_pos_bound p bs ltac:(lia)).
  split; [symmetry; apply (Z.div_unique _ _ _ (p mod bs + i))|symmetry; apply (Z.mod_unique _ _ (p / bs))]; lia.
Qed.
(** [n] bytes from [p] on have been replaced by those of [f]. *)
Definition written (m m' : Z → Z) (p n : Z) (f : Z → Z) : Prop :=
  ∀ a, m' a = if (p <=? a) && (a <? p + n) then f (a - p) else m a.
Lemma written_app m1 m2 m3 p n1 n2 f : 0 <= n1 → 0 <= n2 →
  written m1 m2 p n1 f → written m2 m3 (p + n1) n2 (λ i, f (n1 + i)) → written m1 m3 p (n1 + n2) f.
Proof.
  intros H1 H2 W1 W2 a. rewrite W2, W1.
  destruct (Z.leb_spec (p + n1) a), (Z.ltb_spec a (p + n1 + n2)), (Z.leb_spec p a), (Z.ltb_spec a (p + n1)),
    (Z.ltb_spec a (p + (n1 + n2))); simpl; try lia; try done. f_equal. lia.
Qed.
Lemma written_0 m p f : written m m p 0 f.
Proof. intros a. destruct (Z.leb_spec p a), (Z.ltb_spec a (p + 0)); simpl; (done || lia). Qed.
Lemma written_ext m m' p n f g : (∀ i, 0 <= i < n → f i = g i) → written m m' p n f → written m m' p n g.
Proof.
  intros H W a. rewrite W. destruct (Z.leb_spec p a), (Z.ltb_spec a (p + n)); simpl; try done. apply H. lia.
Qed.
Lemma written_1 m p v : written m (<[p := v]> m) p 1 (λ _, v).
Proof.
  intros a. destruct (decide (p = a)) as [->|].
  - rewrite fn_insert_eq, (proj2 (Z.leb_le a a)), (proj2 (Z.ltb_lt a (a + 1))) by lia. done.
  - rewrite fn_insert_ne by done. destruct (Z.leb_spec p a), (Z.ltb_spec a (p + 1)); simpl; (done || lia).
Qed.

Section reading.
Context `{DEV : Device} `{DF : DeviceFiles} (no_errors : ∀ b, read_fails b = false).

Lemma in_fs_ok {A} (m : E A) s a e : m (io_fs s) = Ok (a, e) → in_fs m s = Ok (a, s <| io_fs := e |>).
Proof. intros H. unfold in_fs, zoom. by rewrite H. Qed.
Lemma copy_out_ok nr b s p st : 0 <= s → s + Z.of_nat nr <= blksize (io_fs st) →
  ∃ m, copy_out nr b s p st = Ok (tt, st <| io_mem := m |>) ∧
    written (io_mem st) m p (Z.of_nat nr) (λ i, u8 (e_blk (io_fs st) b (s + i))).
Proof.
  revert s p st. induction nr as [|nr IH]; intros s p st Hs Hn; simpl.
  - exists (io_mem st). split; [by destruct st|]. apply written_0.
  - rewrite (bind_ok _ _ _ _ _ (in_fs_ok _ _ _ _ (get_byte_ok b s (io_fs st) ltac:(lia)))).
    set (v := u8 (e_blk (io_fs st) b s)).
    destruct (IH (s + 1) (p + 1) (st <| io_mem ::= <[p := v]> |>)) as (m & R & W).
    { lia. } { change (blksize (io_fs _)) with (blksize (io_fs st)). lia. }
    exists m. split; [exact R|]. replace (Z.of_nat (S nr)) with (1 + Z.of_nat nr) by lia.
    refine (written_app _ _ _ _ _ _ _ _ _ (written_ext _ _ _ _ _ _ _ (written_1 _ _ _))
      (written_ext _ _ _ _ _ _ _ W)); [lia|lia| |].
    + intros i Hi. cbv beta. unfold v. by replace (s + i) with s by lia.
    + intros i Hi. cbv beta. by replace (s + 1 + i) with (s + (1 + i)) by lia.
Qed.

(** The file has a block for the byte at [q]. *)
Definition mapped (e : ext2) (ip : nat) (q : Z) : Prop :=
  let l := q / blksize e in single_indirect e l = false ∧ below_triple e l ∧ file_block e ip l ≠ 0.

(** The loop over the first [k] bytes, all of which have a block, up to the end of the request or
    of a block. *)
Lemma file_read_loop_ok e ip fuel p c k flag st : same_view e (io_fs st) → 1024 <= blksize e <= 65536 →
  0 <= io_pos st → 0 <= k <= c → io_pos st + c < 2147483648 → (k = c ∨ (io_pos st + k) mod blksize e = 0) →
  (∀ q, io_pos st <= q < io_pos st + k → mapped e ip q) → k < Z.of_nat fuel →
  ∃ fuel' st', file_read_loop fuel ip p c flag st = file_read_loop fuel' ip (p + k) (c - k) (flag || (0 <? k)) st' ∧
    Z.of_nat fuel - k <= Z.of_nat fuel' ∧ same_view e (io_fs st') ∧ io_pos st' = io_pos st + k ∧
    written (io_mem st) (io_mem st') p k (λ i, u8 (file_byte e ip (io_pos st + i))).
Proof.
  intros Hv Hbs. revert p c k flag st Hv.
  induction fuel as [|fuel IH]; intros p c k flag st Hv Hp Hc Htop Hk Hmap Hf; [lia|].
  destruct (Z.ltb_spec 0 k) as [Hpos|].
  2: { assert (k = 0) as -> by lia. exists (S fuel), st. rewrite orb_false_r, Z.add_0_r, Z.sub_0_r.
       split; [done|]. split; [lia|]. split; [done|]. split; [lia|]. apply written_0. }
  simpl. rewrite (proj2 (Z.ltb_lt 0 c)) by lia. rewrite orb_true_r. change ((get ≫= ?m) st) with (m st st). cbv beta.
  set (pos := io_pos st) in *. destruct (Hmap pos ltac:(lia)) as (Hsi & Hbt & Hfb).
  pose proof (blksize_proper _ _ Hv) as Eb.
  destruct (bmap_get no_errors ip pos (io_fs st)) as (e1 & R1 & V1); [lia|lia| |].
  { unfold below_triple. rewrite <-Eb. exact Hbt. }
  rewrite <-Eb in R1. unfold single_indirect in R1. rewrite <-Eb in R1. fold (single_indirect e (pos / blksize e)) in R1.
  rewrite Hsi, <-(file_block_proper _ _ Hv ip _ eq_refl _ _ eq_refl) in R1.
  set (b := file_block e ip (pos / blksize e)) in *.
  rewrite (bind_ok _ _ _ _ _ (in_fs_ok _ _ _ _ R1)), (proj2 (Z.eqb_neq b 0) Hfb). cbn [negb].
  assert (bread b (io_fs (st <| io_fs := e1 |>)) = Ok (true, load b e1)) as R2 by exact (bread_loads no_errors b e1).
  rewrite (bind_ok _ _ _ _ _ (in_fs_ok _ _ _ _ R2)). cbn [negb].
  rewrite <-Eb, Z.rem_mod_nonneg by lia. set (nr := chunk _ _ _). cbv zeta.
  pose proof (Z.mod_pos_bound pos (blksize e) ltac:(lia)) as Hmod.
  assert (k = c ∨ blksize e - pos mod blksize e <= k) as Hk'.
  { destruct Hk as [|Hk]; [by left|right]. pose proof (Z.div_mod pos (blksize e) ltac:(lia)).
    pose proof (Z.div_mod (pos + k) (blksize e) ltac:(lia)). rewrite Hk in *.
    enough (pos / blksize e + 1 <= (pos + k) / blksize e) by nia.
    enough (pos / blksize e < (pos + k) / blksize e) by lia. nia. }
  assert (1 <= nr <= k ∧ pos mod blksize e + nr <= blksize e) as [Hnr Hend]
    by (unfold nr, chunk; destruct (Z.ltb_spec (blksize e - pos mod blksize e) c); lia).
  set (st1 := (st <| io_fs := load b e1 |>) <| io_pos := s32 (pos + nr) |>).
  assert (same_view e (load b e1)) as V2 by (rewrite Hv, V1; apply load_same_view).
  assert (s32 (pos + nr) = pos + nr) as E32 by (apply s32_id; unfold is_s32; lia).
  destruct (copy_out_ok (Z.to_nat nr) b (pos mod blksize e) p st1) as (m & Rc & Wc); [lia| |].
  { change (io_fs st1) with (load b e1). rewrite <-(blksize_proper _ _ V2). lia. }
  change ((modify ?f ≫= ?g) ?s) with (g tt (f s)). cbv beta.
  change (st <| io_fs := e1 |> <| io_fs := load b e1 |> <| io_pos ::= (λ x, s32 (x + nr)) |>) with st1.
  rewrite (bind_ok _ _ _ _ _ Rc).
  destruct (IH (p + nr) (c - nr) (k - nr) true (st1 <| io_mem := m |>)) as (fuel' & st' & R' & F' & V' & P' & W').
  { exact V2. } { simpl. lia. } { lia. } { simpl. lia. }
  { destruct Hk as [|Hk]; [left; lia|right]. simpl. rewrite E32. by replace (pos + nr + (k - nr)) with (pos + k) by lia. }
  { intros q Hq. apply Hmap. simpl in Hq. lia. } { lia. }
  exists fuel', st'. split; [rewrite R'; f_equal; lia|]. split; [lia|]. split; [done|]. split; [simpl in P'; lia|].
  replace k with (nr + (k - nr)) by lia. rewrite Z2Nat.id in Wc by lia.
  refine (written_app _ _ _ _ _ _ _ _ _ (written_ext _ _ _ _ _ _ _ Wc) (written_ext _ _ _ _ _ _ _ W')); [lia|lia| |].
  - intros i Hi. cbv beta. f_equal. change (io_fs st1) with (load b e1). rewrite load_blk.
    rewrite <-load_view with (b := b), (sv_view _ _ V2). unfold file_byte.
    destruct (div_mod_shift (blksize e) pos i) as [-> ->]; [lia|lia|lia|]. fold b. by rewrite (proj2 (Z.eqb_neq b 0) Hfb).
  - intros i Hi. cbv beta. f_equal. f_equal. simpl. lia.
Qed.

(** The call delivers the bytes of the file. *)
Lemma file_read_ok ip buf count st : let e := io_fs st in
  1024 <= blksize e <= 65536 → 0 <= io_pos st → 0 < count → io_pos st + count < 2147483648 →
  (∀ q, io_pos st <= q < io_pos st + count → mapped e ip q) →
  ∃ st', file_read ip buf count st = Ok (count, st') ∧ io_pos st' = io_pos st + count ∧
    written (io_mem st) (io_mem st') buf count (λ i, u8 (file_byte e ip (io_pos st + i))) ∧
    (∀ b, view (io_fs st') b = view e b) ∧ e_sb (io_fs st') = e_sb e ∧ e_bgd (io_fs st') = e_bgd e ∧
    inode_of ip (io_fs st') = (inode_of ip e) <| i_atime := e_now e |>.
Proof.
  intros e Hbs Hp Hc Htop Hmap. unfold file_read. rewrite s32_id by (unfold is_s32; lia).
  rewrite (proj2 (Z.ltb_ge count 0)) by lia. change ((get ≫= ?m) st) with (m st st). cbv beta.
  rewrite (proj2 (Z.ltb_ge (io_pos st) 0)) by lia.
  destruct (file_read_loop_ok e ip (S (S (Z.to_nat count))) buf count count false st) as (fuel & st' & R & F & V & P & W);
    [reflexivity|lia|lia|lia|lia|by left|done|lia|].
  destruct fuel as [|fuel]; [lia|]. rewrite Z.sub_diag in R. change (file_read_loop (S fuel) _ _ 0 ?f ?s)
    with (mret (M := M io) (0, 0, f) s) in R. rewrite (bind_ok _ _ _ _ _ R). rewrite (proj2 (Z.ltb_lt 0 count)) by lia. cbv beta iota. cbn [orb negb].
  eexists. split; [change (negb (0 =? 0)) with false; cbv iota; rewrite Z.sub_0_r, s32_id by (unfold is_s32; lia); reflexivity|].
  split; [exact P|]. split; [exact W|].
  split; [intros; apply (sv_view _ _ V)|]. split; [apply (sv_sb _ _ V)|]. split; [apply (sv_bgd _ _ V)|].
  unfold inode_of. do 4 rec_simpl. autorewrite with yak. do 3 rec_simpl. autorewrite with yak.
  rewrite (sv_inode _ _ V), (sv_now _ _ V). done.
Qed.
(** C21: Reading bytes that all have a block: the call returns the number of bytes, the position
    moves by it, exactly these bytes of the file arrive in the buffer of the process, and
    nothing of the file system changes but the access time of the inode. *)
Theorem file_read_correct ip buf count st : let e := io_fs st in
  1024 <= blksize e <= 65536 → 0 <= io_pos st → 0 < count → io_pos st + count < 2147483648 →
  (∀ q, io_pos st <= q < io_pos st + count → mapped e ip q) →
  ∃ st', file_read ip buf count st = Ok (count, st') ∧ io_pos st' = io_pos st + count ∧
    written (io_mem st) (io_mem st') buf count (λ i, u8 (file_byte e ip (io_pos st + i))) ∧
    (∀ b, view (io_fs st') b = view e b) ∧ e_sb (io_fs st') = e_sb e ∧ e_bgd (io_fs st') = e_bgd e ∧
    inode_of ip (io_fs st') = (inode_of ip e) <| i_atime := e_now e |>.
Proof. apply file_read_ok. Qed.

Lemma put_zeros_ok c p st : ∃ m, put_zeros c p st = Ok (tt, st <| io_mem := m |>) ∧
  written (io_mem st) m p (Z.of_nat c) (λ _, 0).
Proof.
  revert p st. induction c as [|c IH]; intros p st; simpl.
  - exists (io_mem st). split; [by destruct st|]. apply written_0.
  - destruct (IH (p + 1) (st <| io_mem ::= <[p := 0]> |>)) as (m & R & W). exists m. split; [exact R|].
    replace (Z.of_nat (S c)) with (1 + Z.of_nat c) by lia.
    by refine (written_app _ _ _ _ _ _ _ _ _ (written_1 _ _ _) W); lia.
Qed.
(** When a read gets from bytes that have a block to a block that is missing (or that
    [ext2_bmap] does not find), it fills the rest of the buffer with zeros, whatever the length
    of the file, returns one more than the number of bytes asked for, and leaves the position at
    the missing block. *)
Theorem file_read_hole_overcounts ip buf count k st : let e := io_fs st in
  1024 <= blksize e <= 65536 → 0 <= io_pos st → 0 < k < count → io_pos st + count < 2147483647 →
  (io_pos st + k) mod blksize e = 0 → (∀ q, io_pos st <= q < io_pos st + k → mapped e ip q) →
  (let l := (io_pos st + k) / blksize e in below_triple e l ∧ (single_indirect e l = true ∨ file_block e ip l = 0)) →
  ∃ st', file_read ip buf count st = Ok (count + 1, st') ∧ io_pos st' = io_pos st + k ∧
    written (io_mem st) (io_mem st') buf count (λ i, if i <? k then u8 (file_byte e ip (io_pos st + i)) else 0).
Proof.
  intros e Hbs Hp Hc Htop Hal Hmap [Hbt Hhole]. unfold file_read. rewrite s32_id by (unfold is_s32; lia).
  rewrite (proj2 (Z.ltb_ge count 0)) by lia. change ((get ≫= ?m) st) with (m st st). cbv beta.
  rewrite (proj2 (Z.ltb_ge (io_pos st) 0)) by lia.
  destruct (file_read_loop_ok e ip (S (S (Z.to_nat count))) buf count k false st) as (fuel & st1 & R & F & V & P & W);
    [reflexivity|lia|lia|lia|lia|by right|done|lia|].
  destruct fuel as [|[|fuel]]; [lia|lia|].
  pose proof (blksize_proper _ _ V) as Eb.
  destruct (bmap_get no_errors ip (io_pos st1) (io_fs st1)) as (e1 & R1 & V1); [lia|lia| |].
  { unfold below_triple. by rewrite <-Eb, P. }
  rewrite P, <-Eb in R1. unfold single_indirect in R1. rewrite <-Eb in R1.
  fold (single_indirect e ((io_pos st + k) / blksize e)) in R1.
  rewrite <-(file_block_proper _ _ V ip _ eq_refl _ _ eq_refl) in R1.
  assert ((if single_indirect e ((io_pos st + k) / blksize e) then 0 else file_block e ip ((io_pos st + k) / blksize e)) = 0)
    as E0 by (destruct Hhole as [-> | ->]; [done|by destruct (single_indirect _ _)]).
  rewrite E0 in R1. destruct (put_zeros_ok (Z.to_nat (count - k)) (buf + k) (st1 <| io_fs := e1 |>)) as (m & Rz & Wz).
  assert (file_read_loop (S (S fuel)) ip (buf + k) (count - k) true st1 = Ok ((-1, 0, true), st1 <| io_fs := e1 |> <| io_mem := m |>))
    as R2.
  { change (file_read_loop (S ?f)) with (file_read_loop (S f)). cbn -[file_read_loop]. cbn [file_read_loop].
    rewrite (proj2 (Z.ltb_lt 0 (count - k))) by lia. change ((get ≫= ?g) st1) with (g st1 st1). cbv beta.
    rewrite P, (bind_ok _ _ _ _ _ (in_fs_ok _ _ _ _ R1)). cbn [Z.eqb negb].
    by rewrite (bind_ok _ _ _ _ _ Rz). }
  rewrite (proj2 (Z.ltb_lt 0 k)) in R by lia. cbn [orb] in R. rewrite R2 in R.
  rewrite (bind_ok _ _ _ _ _ R). cbv beta iota. cbn [negb].
  eexists. split; [change (negb (0 =? 0)) with false; cbv iota; replace (count - -1) with (count + 1) by lia;
    rewrite s32_id by (unfold is_s32; lia); reflexivity|].
  split; [exact P|]. change (written (io_mem st) m buf count (λ i, if i <? k then u8 (file_byte e ip (io_pos st + i)) else 0)).
  replace count with (k + (count - k)) by lia. rewrite Z2Nat.id in Wz by lia.
  refine (written_app _ _ _ _ _ _ _ _ _ (written_ext _ _ _ _ _ _ _ W) (written_ext _ _ _ _ _ _ _ Wz)); [lia|lia| |].
  - intros i Hi. cbv beta. by rewrite (proj2 (Z.ltb_lt i k)) by lia.
  - intros i Hi. cbv beta. by rewrite (proj2 (Z.ltb_ge (k + i) k)) by lia.
Qed.
End reading.

(** ** Writing in place *)
Section writing.
Context `{DEV : Device} `{DF : DeviceFiles} (no_errors : ∀ b, read_fails b = false).

(** One block has changed. *)
Record block_changed (b : Z) (e e' : ext2) : Prop := {
  bc_sb : e_sb e' = e_sb e;
  bc_bgd : e_bgd e' = e_bgd e;
  bc_inode : e_inode e' = e_inode e;
  bc_now : e_now e' = e_now e;
  bc_view x : x ≠ b → view e' x = view e x
}.
Lemma block_changed_trans b e1 e2 e3 : block_changed b e1 e2 → block_changed b e2 e3 → block_changed b e1 e3.
Proof. intros [H1 H2 H3 H4 H5] [G1 G2 G3 G4 G5]. split; try congruence. intros. rewrite G5, H5; done. Qed.
Lemma put_byte_changes b off v e : 0 <= off < blksize e → e_done e b = true →
  ∃ e', put_byte b off v e = Ok (tt, e') ∧ block_changed b e e' ∧ e_done e' b = true ∧
    view e' b = <[off := u8 v]> (view e b).
Proof.
  intros Ho Hd. eexists. split; [by apply put_byte_ok|]. split; [split; try done|split; [done|]].
  - intros x Hx. unfold view. do 2 rec_simpl. by rewrite fn_insert_ne by done.
  - unfold view. do 2 rec_simpl. rewrite Hd. by rewrite fn_insert_eq.
Qed.
Lemma copy_in_ok nr b s p st : 0 <= s → s + Z.of_nat nr <= blksize (io_fs st) → e_done (io_fs st) b = true →
  ∃ e', copy_in nr b s p st = Ok (tt, st <| io_fs := e' |>) ∧ block_changed b (io_fs st) e' ∧
    e_done e' b = true ∧
    written (view (io_fs st) b) (view e' b) s (Z.of_nat nr) (λ i, u8 (io_mem st (p + i))).
Proof.
  revert s p st. induction nr as [|nr IH]; intros s p st Hs Hn Hd; simpl.
  - exists (io_fs st). split; [by destruct st|]. split; [done|]. split; [done|]. apply written_0.
  - destruct (put_byte_changes b s (io_mem st p) (io_fs st)) as (e1 & R1 & C1 & D1 & V1); [lia|done|].
    assert (get_ubyte p st = Ok (io_mem st p, st)) as Rg by done.
    rewrite (bind_ok _ _ _ _ _ Rg), (bind_ok _ _ _ _ _ (in_fs_ok _ _ _ _ R1)).
    destruct (IH (s + 1) (p + 1) (st <| io_fs := e1 |>)) as (e' & R & C & D & W).
    { lia. } { change (io_fs (st <| io_fs := e1 |>)) with e1. unfold blksize in *. rewrite (bc_sb _ _ _ C1). lia. } { done. }
    exists e'. split; [exact R|]. split; [by eapply block_changed_trans|]. split; [done|].
    change (io_fs (st <| io_fs := e1 |>)) with e1 in *. change (io_mem (st <| io_fs := e1 |>)) with (io_mem st) in *.
    replace (Z.of_nat (S nr)) with (1 + Z.of_nat nr) by lia. rewrite V1 in W.
    refine (written_app _ _ _ _ _ _ _ _ _ (written_ext _ _ _ _ _ _ _ (written_1 _ _ _))
      (written_ext _ _ _ _ _ _ _ W)); [lia|lia| |].
    + intros i Hi. cbv beta. by replace (p + i) with p by lia.
    + intros i Hi. cbv beta. by replace (p + 1 + i) with (p + (1 + i)) by lia.
Qed.

(** The direct block of a position, and positions whose direct block is there. *)
Definition direct_block (e : ext2) (ip : nat) (q : Z) : Z := i_block (inode_of ip e) (q / blksize e).
Definition in_place (e : ext2) (ip : nat) (q : Z) : Prop :=
  0 <= q < 12 * blksize e ∧ direct_block e ip q ≠ 0.
(** No block is in two slots. *)
Definition slots_differ (e : ext2) (ip : nat) : Prop :=
  ∀ k l, 0 <= k < 12 → 0 <= l < 12 → i_block (inode_of ip e) k ≠ 0 →
    i_block (inode_of ip e) k = i_block (inode_of ip e) l → k = l.

Lemma in_place_slot e ip q : 1024 <= blksize e → in_place e ip q → 0 <= q / blksize e < 12.
Proof. intros Hb [Hq _]. split; [apply Z.div_pos; lia|apply Z.div_lt_upper_bound; lia]. Qed.
Lemma create_block_in_place ip q e : 1024 <= blksize e <= 65536 → in_place e ip q →
  ext2_create_block ip q e = Ok (direct_block e ip q, e).
Proof.
  intros Hb Hp. pose proof (in_place_slot _ _ _ (proj1 Hb) Hp) as Hl. destruct Hp as [Hq H0].
  unfold ext2_create_block, bmap_create. change ((get ≫= ?m) e) with (m e e). cbv beta zeta.
  rewrite Z.quot_div_nonneg by lia. rewrite u32_id by (unfold is_u32; lia). unfold EXT2_DIRECT_BLOCKS.
  rewrite (proj2 (Z.leb_le _ 11)) by lia. unfold inode_slot. change ((get ≫= ?m) e) with (m e e). cbv beta zeta.
  fold (direct_block e ip q). by rewrite (proj2 (Z.eqb_neq _ 0) H0).
Qed.

(** The bytes of the process have arrived at the positions from [pos] on. *)
Definition stored (ip : nat) (e e' : ext2) (pos c : Z) (f : Z → Z) : Prop :=
  (∀ q, 0 <= q < 12 * blksize e → view e' (direct_block e ip q) (q mod blksize e) =
    if (pos <=? q) && (q <? pos + c) then f (q - pos) else view e (direct_block e ip q) (q mod blksize e)) ∧
  (∀ x, (∀ q, pos <= q < pos + c → x ≠ direct_block e ip q) → view e' x = view e x) ∧
  e_sb e' = e_sb e ∧ e_bgd e' = e_bgd e ∧ e_inode e' = e_inode e ∧ e_now e' = e_now e.

Lemma stored_same_geometry ip e e' pos c f : stored ip e e' pos c f →
  blksize e' = blksize e ∧ ∀ q, direct_block e' ip q = direct_block e ip q.
Proof.
  intros (_ & _ & Hs & _ & Hi & _). unfold direct_block, inode_of, blksize. by rewrite Hs, Hi.
Qed.
Lemma stored_app ip e1 e2 e3 pos n1 n2 f : 0 <= n1 → 0 <= n2 → stored ip e1 e2 pos n1 f →
  stored ip e2 e3 (pos + n1) n2 (λ i, f (n1 + i)) → stored ip e1 e3 pos (n1 + n2) f.
Proof.
  intros Hn1 Hn2 S1 S2. destruct (stored_same_geometry _ _ _ _ _ _ S1) as [Eb Ed].
  destruct S1 as (W1 & K1 & ?&?&?&?), S2 as (W2 & K2 & ?&?&?&?).
  split; [|split; [|split_and!; congruence]].
  - intros q Hq. specialize (W1 q Hq). specialize (W2 q ltac:(by rewrite Eb)). rewrite Eb, Ed in W2. rewrite W2, W1.
    destruct (Z.leb_spec (pos + n1) q), (Z.ltb_spec q (pos + n1 + n2)), (Z.leb_spec pos q), (Z.ltb_spec q (pos + n1)),
      (Z.ltb_spec q (pos + (n1 + n2))); simpl; try lia; try done. f_equal. lia.
  - intros x Hx. rewrite K2, K1; [done| |]; intros q Hq; rewrite ?Ed; apply Hx; lia.
Qed.
Lemma stored_0 ip e e' pos f : (∀ b, view e' b = view e b) → e_sb e' = e_sb e → e_bgd e' = e_bgd e →
  e_inode e' = e_inode e → e_now e' = e_now e → stored ip e e' pos 0 f.
Proof.
  intros Hv. split; [|split; [|done]]; [|intros; apply Hv].
  intros q Hq. rewrite Hv. destruct (Z.leb_spec pos q), (Z.ltb_spec q (pos + 0)); simpl; (done || lia).
Qed.
(** One chunk, within the block of [pos]. *)
Lemma stored_chunk ip e e' pos nr f : 1024 <= blksize e → slots_differ e ip → in_place e ip pos → 1 <= nr →
  pos mod blksize e + nr <= blksize e → block_changed (direct_block e ip pos) (load (direct_block e ip pos) e) e' →
  written (view e (direct_block e ip pos)) (view e' (direct_block e ip pos)) (pos mod blksize e) nr f →
  stored ip e e' pos nr f.
Proof.
  intros Hb Hd Hp Hn Hend [C1 C2 C3 C4 C5] W. pose proof (in_place_slot _ _ _ Hb Hp) as Hl. destruct Hp as [Hpr H0].
  set (b := direct_block e ip pos) in *. set (bs := blksize e) in *.
  pose proof (Z.div_mod pos bs ltac:(lia)) as Dp. pose proof (Z.mod_pos_bound pos bs ltac:(lia)).
  assert (∀ q, pos <= q < pos + nr → direct_block e ip q = b) as Hsame.
  { intros q Hq. unfold b, direct_block. fold bs. f_equal.
    replace q with (pos + (q - pos)) by lia. apply div_mod_shift; lia. }
  split; [|split; [|done]].
  - intros q Hq. change (blksize e) with bs in Hq |- *. pose proof (Z.div_mod q bs ltac:(lia)) as Dq. pose proof (Z.mod_pos_bound q bs ltac:(lia)).
    assert (0 <= q / bs < 12) by (split; [apply Z.div_pos; lia|apply Z.div_lt_upper_bound; lia]).
    destruct (decide (direct_block e ip q = b)) as [E|E].
    + assert (pos / bs = q / bs) as El by (apply Hd; [lia|lia|done|by symmetry]). rewrite E, W.
      rewrite El in Dp. replace (q mod bs - pos mod bs) with (q - pos) by lia.
      destruct (Z.leb_spec (pos mod bs) (q mod bs)), (Z.ltb_spec (q mod bs) (pos mod bs + nr)),
        (Z.leb_spec pos q), (Z.ltb_spec q (pos + nr)); simpl; (lia || done).
    + rewrite C5, load_view by done. destruct (Z.leb_spec pos q), (Z.ltb_spec q (pos + nr)); simpl; try done.
      by destruct E; apply Hsame.
  - intros x Hx. rewrite C5, load_view; [done|]. rewrite <-(Hsame pos ltac:(lia)). apply Hx. lia.
Qed.

Lemma file_write_loop_ok ip fuel p c flag st : let e := io_fs st in
  1024 <= blksize e <= 65536 → slots_differ e ip → 0 <= io_pos st → 0 <= c → io_pos st + c < 2147483648 →
  (∀ q, io_pos st <= q < io_pos st + c → in_place e ip q) → c < Z.of_nat fuel →
  ∃ st', file_write_loop fuel ip p c flag st = Ok ((0, 0, flag || (0 <? c)), st') ∧ io_mem st' = io_mem st ∧
    io_pos st' = io_pos st + c ∧ stored ip e (io_fs st') (io_pos st) c (λ i, u8 (io_mem st (p + i))).
Proof.
  revert p c flag st. induction fuel as [|fuel IH]; intros p c flag st e Hbs Hd Hp Hc Htop Hin Hf; [lia|].
  simpl. destruct (Z.eqb_spec c 0) as [->|Hc0]; cbn [negb].
  { exists st. rewrite orb_false_r. split; [done|]. split; [done|]. split; [lia|]. by apply stored_0. }
  rewrite (proj2 (Z.ltb_lt 0 c)), orb_true_r by lia. change ((get ≫= ?m) st) with (m st st). cbv beta. fold e.
  set (pos := io_pos st) in *. pose proof (Hin pos ltac:(lia)) as Hpos.
  rewrite (bind_ok _ _ _ _ _ (in_fs_ok _ st _ _ (create_block_in_place ip pos e Hbs Hpos))).
  set (b := direct_block e ip pos). rewrite (proj2 (Z.eqb_neq b 0)) by apply Hpos.
  assert (bread b (io_fs (st <| io_fs := e |>)) = Ok (true, load b e)) as R2 by exact (bread_loads no_errors b e).
  rewrite (bind_ok _ _ _ _ _ (in_fs_ok _ _ _ _ R2)). cbn [negb]. rewrite Z.rem_mod_nonneg by lia.
  set (nr := chunk _ _ _). cbv zeta. pose proof (Z.mod_pos_bound pos (blksize e) ltac:(lia)) as Hmod.
  assert (1 <= nr <= c ∧ pos mod blksize e + nr <= blksize e) as [Hnr Hend]
    by (unfold nr, chunk; destruct (Z.ltb_spec (blksize e - pos mod blksize e) c); lia).
  change ((modify ?f ≫= ?g) ?s) with (g tt (f s)). cbv beta.
  set (st1 := st <| io_fs := e |> <| io_fs := load b e |> <| io_pos ::= (λ x, s32 (x + nr)) |>).
  assert (s32 (pos + nr) = pos + nr) as E32 by (apply s32_id; unfold is_s32; lia).
  destruct (copy_in_ok (Z.to_nat nr) b (pos mod blksize e) p st1) as (e2 & Rc & C & D & W); [lia| | |].
  { change (blksize (io_fs st1)) with (blksize e). lia. }
  { change (io_fs st1) with (load b e). unfold load. rec_simpl. by rewrite fn_insert_eq. }
  rewrite (bind_ok _ _ _ _ _ Rc). change (io_fs st1) with (load b e) in C, W. rewrite load_view, Z2Nat.id in W by lia.
  assert (stored ip e e2 pos nr (λ i, u8 (io_mem st (p + i)))) as S1.
  { apply stored_chunk; [apply Hbs|done|done|apply Hnr|done|exact C|exact W]. }
  destruct (stored_same_geometry _ _ _ _ _ _ S1) as [Eb Ed].
  set (e3 := e2 <| e_dwrite ::= <[b := true]> |>).
  set (st2 := st1 <| io_fs := e2 |> <| io_fs := e3 |>).
  assert (∀ q, direct_block e3 ip q = direct_block e ip q) as Ed3 by exact Ed.
  assert (inode_of ip e3 = inode_of ip e) as Ei by (change (inode_of ip e2 = inode_of ip e); unfold inode_of;
    destruct S1 as (_&_&_&_&->&_); done).
  destruct (IH (p + nr) (c - nr) true st2) as (st' & R & M & P & S2).
  { change (1024 <= blksize e2 <= 65536). by rewrite Eb. }
  { change (slots_differ e3 ip). unfold slots_differ. by rewrite Ei. }
  { simpl. fold pos. lia. } { lia. } { simpl. fold pos. lia. }
  { intros q Hq. simpl in Hq. fold pos in Hq. specialize (Hin q ltac:(lia)).
    change (io_fs st2) with e3. unfold in_place. rewrite Ed3. by change (blksize e3) with (blksize e2); rewrite Eb. }
  { lia. }
  exists st'. split; [exact R|]. split; [exact M|]. change (io_pos st2) with (s32 (pos + nr)) in *. rewrite E32 in P, S2.
  split; [lia|]. replace c with (nr + (c - nr)) by lia. apply (stored_app ip e e3); [lia|lia|exact S1|].
  change (io_fs st2) with e3 in S2. change (io_mem st2) with (io_mem st) in S2.
  destruct S2 as (W2 & K2 & S2). split; [|by split].
  intros q Hq. rewrite (W2 q Hq). by replace (p + nr + (q - (pos + nr))) with (p + (nr + (q - (pos + nr)))) by lia.
Qed.

(** C22: Writing over bytes whose direct blocks are there already: the call returns the number of
    bytes, exactly those bytes of the file change, to what the process had in its buffer, no
    other block changes, and the size recorded in the inode grows by the number of bytes
    wherever in the file they were written. *)
Theorem file_write_in_place ip buf count st : let e := io_fs st in
  1024 <= blksize e <= 65536 → slots_differ e ip → 0 <= io_pos st → 0 < count → io_pos st + count < 2147483648 →
  (∀ q, io_pos st <= q < io_pos st + count → in_place e ip q) →
  ∃ st', file_write ip buf count st = Ok (count, st') ∧ io_pos st' = io_pos st + count ∧ io_mem st' = io_mem st ∧
    (∀ q, 0 <= q < 12 * blksize e → view (io_fs st') (direct_block e ip q) (q mod blksize e) =
      if (io_pos st <=? q) && (q <? io_pos st + count) then u8 (io_mem st (buf + (q - io_pos st)))
      else view e (direct_block e ip q) (q mod blksize e)) ∧
    (∀ x, (∀ q, io_pos st <= q < io_pos st + count → x ≠ direct_block e ip q) → view (io_fs st') x = view e x) ∧
    inode_of ip (io_fs st') =
      (inode_of ip e) <| i_mtime := e_now e |> <| i_size := u32 (i_size (inode_of ip e) + count) |>.
Proof.
  intros e Hbs Hd Hp Hc Htop Hin. unfold file_write. rewrite s32_id by (unfold is_s32; lia).
  rewrite (proj2 (Z.ltb_ge count 0)) by lia. change ((get ≫= ?m) st) with (m st st). cbv beta.
  rewrite (proj2 (Z.ltb_ge (io_pos st) 0)) by lia.
  destruct (file_write_loop_ok ip (S (Z.to_nat count)) buf count false st) as (st' & R & M & P & W & K & Hs & Hg & Hi & Hn);
    [done|done|lia|lia|lia|done|lia|].
  rewrite (bind_ok _ _ _ _ _ R). rewrite (proj2 (Z.ltb_lt 0 count)) by lia. cbv beta iota. cbn [orb negb].
  eexists. split; [cbn [Z.eqb negb]; rewrite Z.sub_0_r, s32_id by (unfold is_s32; lia); reflexivity|].
  split; [exact P|]. split; [exact M|]. split; [exact W|]. split; [exact K|].
  unfold inode_of. do 4 rec_simpl. autorewrite with yak. do 3 rec_simpl. autorewrite with yak. do 3 rec_simpl.
  by rewrite Hi, Hn.
Qed.
End writing.

(** ** A small file: two blocks and then nothing *)
Module FileDemo.
Import Ext2Demo.
Definition slots (k : Z) : Z := if k =? 0 then 10 else if k =? 1 then 11 else 0.
Definition file_fs : ext2 := (fs 0) <| e_disk := λ b i, (7 * b + i) mod 256 |>
  <| e_inode := λ _, cached_ino (ino0 <| i_block := slots |> <| i_size := 2048 |>) 12 0 1 |>.
Definition at_pos (p : Z) : io := MkIo file_fs (λ a, a mod 256) p.
#[export] Instance no_devices : DeviceFiles :=
  {| chr_devio := λ _ _ _ _, mret 0; blkdev_rw := λ _ _ _ _, mret 0 |}.

Lemma no_errors b : read_fails b = false.
Proof. done. Qed.
Lemma two_blocks q : 0 <= q < 2048 → q / 1024 = 0 ∨ q / 1024 = 1.
Proof. lia. Qed.
Lemma demo_mapped q : 0 <= q < 2048 → mapped file_fs 0 q.
Proof.
  intros Hq. unfold mapped. change (blksize file_fs) with 1024.
  destruct (two_blocks q Hq) as [-> | ->]; (split; [done|split; [by vm_compute|by vm_compute]]).
Qed.
Lemma demo_in_place q : 0 <= q < 2048 → in_place file_fs 0 q.
Proof.
  intros Hq. unfold in_place, direct_block. change (blksize file_fs) with 1024. split; [lia|].
  destruct (two_blocks q Hq) as [-> | ->]; by vm_compute.
Qed.
Lemma demo_slots : slots_differ file_fs 0.
Proof.
  intros k l Hk Hl. change (slots k ≠ 0 → slots k = slots l → k = l). unfold slots.
  destruct (Z.eqb_spec k 0), (Z.eqb_spec k 1), (Z.eqb_spec l 0), (Z.eqb_spec l 1); lia.
Qed.
End FileDemo.
Import Ext2Demo FileDemo.

Lemma ext2_bmap_layout_witness : ∃ e', ext2_bmap 0 1500 file_fs = Ok (11, e') ∧ same_view file_fs e'.
Proof.
  destruct (ext2_bmap_layout no_errors 0 1500 file_fs) as (e' & R & V); [done|by vm_compute|by vm_compute|].
  exists e'. split; [|done]. rewrite R. by change (file_block _ _ _) with 11.
Defined.
Lemma file_read_correct_witness : ∃ st', file_read 0 5000 100 (at_pos 1000) = Ok (100, st') ∧ io_pos st' = 1100.
Proof.
  destruct (file_read_correct no_errors 0 5000 100 (at_pos 1000)) as (st' & R & P & _);
    [by vm_compute|by vm_compute|done|by vm_compute| |exists st'; split; [exact R|exact P]].
  intros q Hq. apply demo_mapped. change (1000 <= q < 1100) in Hq. lia.
Defined.
Lemma file_read_hole_overcounts_witness : ∃ st', file_read 0 5000 60 (at_pos 2000) = Ok (61, st') ∧ io_pos st' = 2048.
Proof.
  destruct (file_read_hole_overcounts no_errors 0 5000 60 48 (at_pos 2000)) as (st' & R & P & _);
    [by vm_compute|by vm_compute|done|by vm_compute|done| | |exists st'; split; [exact R|exact P]].
  - intros q Hq. apply demo_mapped. change (2000 <= q < 2048) in Hq. lia.
  - split; [by vm_compute|right; by vm_compute].
Defined.
Lemma file_write_in_place_witness : ∃ st', file_write 0 5000 100 (at_pos 1000) = Ok (100, st') ∧
  i_size (inode_of 0 (io_fs st')) = 2148.
Proof.
  destruct (file_write_in_place no_errors 0 5000 100 (at_pos 1000)) as (st' & R & _ & _ & _ & _ & I);
    [by vm_compute|apply demo_slots|by vm_compute|done|by vm_compute| |].
  - intros q Hq. apply demo_in_place. change (1000 <= q < 1100) in Hq. lia.
  - exists st'. split; [exact R|]. rewrite I. reflexivity.
Defined.
