(* ===== verification/Ext2Dir.v ===== *)
(** Directories of ext2: entries in blocks (sys/fs/ext2/dir.c), the search for a name and the
    permissions (sys/fs/ext2/namei.c). An entry is known by its offset in the block; a name is the
    list of its bytes, without the NUL. *)
From S2P Require Import Prelude Str Proc Bitmap Ext2 Ext2File.

Definition EXT2_MAX_NAME_LEN : Z := 255.
Definition EXT2_FT_UNKNOWN : Z := 0.
Definition EXT2_FT_REG_FILE : Z := 1.
Definition EXT2_FT_DIR : Z := 2.
Definition EXT2_FT_CHRDEV : Z := 3.
Definition EXT2_FT_BLKDEV : Z := 4.
Definition EXT2_FT_FIFO : Z := 5.
Definition EXT2_FT_SOCK : Z := 6.
Definition EXT2_FT_SYMLINK : Z := 7.
Inductive find_res := FIND_NEXT_BLOCK | FIND_NONE.

(** ** The fields of [struct ext2_dir_entry] at offset [d] *)
Definition half_at (m : Z → Z) (o : Z) : Z := m o + 256 * m (o + 1).
Definition quad_at (m : Z → Z) (o : Z) : Z := half_at m o + 65536 * half_at m (o + 2).
Definition put_half_at (o v : Z) (m : Z → Z) : Z → Z := <[o := v mod 256]> (<[o + 1 := v / 256 mod 256]> m).
Definition put_quad_at (o v : Z) (m : Z → Z) : Z → Z := put_half_at o v (put_half_at (o + 2) (v / 65536) m).
Definition in_block (o n bs : Z) : bool := (0 <=? o) && (o + n <=? bs).

Definition get_d_inode (b d : Z) : E Z :=
  e ← get; if in_block d 4 (blksize e) then mret (quad_at (e_blk e b) d) else undef "read outside b_data".
Definition get_d_rec_len (b d : Z) : E Z :=
  e ← get; if in_block (d + 4) 2 (blksize e) then mret (half_at (e_blk e b) (d + 4)) else undef "read outside b_data".
Definition get_d_name_len (b d : Z) : E Z := get_byte b (d + 6).
Definition get_d_file_type (b d : Z) : E Z := get_byte b (d + 7).
Definition put_d_inode (b d v : Z) : E unit :=
  e ← get; if in_block d 4 (blksize e) then upd_blk b (put_quad_at d v) else undef "write outside b_data".
Definition put_d_rec_len (b d v : Z) : E unit :=
  e ← get; if in_block (d + 4) 2 (blksize e) then upd_blk b (put_half_at (d + 4) v) else undef "write outside b_data".
Definition put_d_name_len (b d v : Z) : E unit := put_byte b (d + 6) v.
Definition put_d_file_type (b d v : Z) : E unit := put_byte b (d + 7) v.
(** [memmove((char * )dentry + 8, name, len)] *)
Fixpoint put_name (b o : Z) (name : list Z) : E unit :=
  match name with
  | [] => mret tt
  | c :: name => put_byte b o c ;; put_name b (o + 1) name
  end.

Definition dentry_file_type (ip : nat) : E Z :=
  e ← get;
  let m := Z.land (i_mode (inode_of ip e)) EXT2_S_IFMT in
  mret (if m =? EXT2_S_IFSOCK then EXT2_FT_SOCK
  else if m =? EXT2_S_IFLNK then EXT2_FT_SYMLINK
  else if m =? EXT2_S_IFREG then EXT2_FT_REG_FILE
  else if m =? EXT2_S_IFDIR then EXT2_FT_DIR
  else if m =? EXT2_S_IFBLK then EXT2_FT_BLKDEV
  else if m =? EXT2_S_IFCHR then EXT2_FT_CHRDEV
  else if m =? EXT2_S_IFIFO then EXT2_FT_FIFO
  else EXT2_FT_UNKNOWN).

Fixpoint match_bytes (b a : Z) (name : list Z) : E Z :=
  match name with
  | [] => mret 0
  | c :: name =>
      x ← get_byte b a;
      if x <? c then mret (-1) else if c <? x then mret 1 else match_bytes b (a + 1) name
  end.
Definition ext2_match (b d : Z) (name : list Z) : E Z :=
  n ← get_d_name_len b d;
  if negb (Z.of_nat (length name) =? n) then mret (-1) else match_bytes b (d + 8) name.

(** [ext2_iget]: the slot of the inode in the inode cache (sys/fs/ext2/inode.c). *)
Class InodeCache := { ext2_iget : Z → E (option nat) }.

Section dir.
Context `{DEV : Device} `{IC : InodeCache}.

(** ** Removing an entry *)
Fixpoint remove_loop (fuel : nat) (name : list Z) (num b prev d : Z) : E Z :=
  match fuel with
  | O => nofuel
  | S fuel =>
      e ← get;
      if d <? blksize e then
        ino ← get_d_inode b d;
        found ← (if ino =? num then f ← ext2_match b d name; mret (f =? 0) else mret false);
        if found : bool then
          r ← get_d_rec_len b prev;
          n ← get_d_rec_len b d;
          put_d_rec_len b prev (u16 (r + n)) ;;
          mark_dwrite b ;;
          mret 0
        else
          n ← get_d_rec_len b d;
          remove_loop fuel name num b d (d + n)
      else mret (- ENOENT)
  end.
Definition ext2_remove_dir_entry (name : list Z) (ip : nat) (b : Z) : E Z :=
  e ← get;
  let num := i_num (e_inode e ip) in
  ino ← get_d_inode b 0;
  if ino =? num then
    put_d_inode b 0 0 ;; put_d_rec_len b 0 0 ;; put_d_name_len b 0 0 ;; put_d_file_type b 0 0 ;;
    put_d_rec_len b 0 (u16 (blksize e)) ;;
    mark_dwrite b ;;
    mret 0
  else
    n ← get_d_rec_len b 0;
    remove_loop (S (Z.to_nat (blksize e))) name num b 0 n.

(** ** Is a directory empty: the result, with [*err] *)
Definition dot : list Z := [46].
Definition dotdot : list Z := [46; 46].
Definition empty_dir (dp : nat) (err : Z) : E (Z * Z) :=
  e ← get;
  let b := i_block (inode_of dp e) 0 in
  r ← bread b;
  if negb r then mret (1, - EIO) else
  f ← ext2_match b 0 dot;
  if negb (f =? 0) then mret (1, err) else
  d ← get_d_rec_len b 0;
  if blksize e <=? d then mret (1, err) else
  f ← ext2_match b d dotdot;
  if negb (f =? 0) then mret (1, err) else
  n ← get_d_rec_len b d;
  if d + n <? blksize e then mret (1, err) else mret (0, err).
Definition ext2_empty_dir : nat → Z → E (Z * Z) := empty_dir.

(** ** Adding an entry *)
Definition round4 (len : Z) : Z := if len mod 4 =? 0 then len else len + (4 - len mod 4).
(** The assignments to a new entry. *)
Definition write_entry (ip : nat) (b d rec_len : Z) (name : list Z) : E unit :=
  e ← get;
  put_d_inode b d (i_num (e_inode e ip)) ;;
  t ← dentry_file_type ip;
  put_d_file_type b d t ;;
  put_d_name_len b d (Z.of_nat (length name)) ;;
  put_d_rec_len b d (u16 rec_len) ;;
  put_name b (d + 8) name.

Fixpoint add_loop (fuel : nat) (dir ip : nat) (name : list Z) (rec_len b d off : Z) : E Z :=
  match fuel with
  | O => nofuel
  | S fuel =>
      e ← get;
      '(b, d, eio) ← (if blksize e <=? d then
        block ← ext2_create_block dir (s32 off);
        r ← bread block;
        if negb r then mret (block, 0, true) else
        upd_inode dir (λ i, i <| i_size ::= λ n, u32 (n + blksize e) |>) ;;
        set_modified dir ;;
        set_mtime dir ;;
        mret (block, 0, false)
      else mret (b, d, false));
      if eio : bool then mret (- EIO) else
      r ← get_d_rec_len b d;
      if (blksize e <=? d + r) && (rec_len <=? r) then
        l ← get_d_name_len b d;
        put_d_rec_len b d (l + 8) ;;
        put_d_rec_len b d (round4 (l + 8)) ;;
        let d := d + round4 (l + 8) in
        write_entry ip b d (blksize e - d) name ;;
        mark_dwrite b ;;
        set_mtime dir ;;
        set_modified ip ;;
        mret 0
      else if blksize e <=? d + r then
        block ← ext2_create_block dir (s32 off);
        r ← bread block;
        if negb r then mret (- EIO) else add_loop fuel dir ip name rec_len block 0 off
      else add_loop fuel dir ip name rec_len b (d + r) (u32 (off + r))
  end.
(** [name] is the string cut to [len] bytes. *)
Definition ext2_add_dir_entry (fuel : nat) (dir ip : nat) (name : list Z) : E Z :=
  if Z.of_nat (length name) =? 0 then mret (- EINVAL) else
  let name := take (Z.to_nat EXT2_MAX_NAME_LEN) name in
  block ← ext2_create_block dir 0;
  if block =? 0 then mret (- ENOSPC) else
  r ← bread block;
  if negb r then mret (- ENOSPC) else
  let rec_len := round4 (8 + Z.of_nat (length name)) in
  e ← get;
  ino ← get_d_inode block 0;
  if (ino =? 0) || (i_size (inode_of dir e) =? 0) then
    write_entry ip block 0 (blksize e) name ;; mret 0
  else add_loop fuel dir ip name rec_len block 0 0.

(** ** Searching for a name *)

(** The result: the inode found, [*res] and, for a caller that wants it, the block it is in. *)
Fixpoint find_loop (fuel : nat) (res : find_res) (b d : Z) (name : list Z) : E (option nat * find_res) :=
  match fuel with
  | O => nofuel
  | S fuel =>
      flag ← ext2_match b d name;
      if flag =? 0 then
        ino ← get_d_inode b d;
        ip ← ext2_iget ino;
        mret (ip, res)
      else
        e ← get;
        if blksize e <=? d then mret (None, FIND_NEXT_BLOCK) else
        r ← get_d_rec_len b d;
        ino ← get_d_inode b (d + r);
        ft ← (if ino =? 0 then mret EXT2_FT_UNKNOWN else get_d_file_type b (d + r));
        if ft =? EXT2_FT_UNKNOWN then mret (None, FIND_NONE) else find_loop fuel res b (d + r) name
  end.
Definition find_entry_in_block (res : find_res) (block : Z) (name : list Z) : E (option nat * find_res * option Z) :=
  if block =? 0 then mret (None, res, None) else
  bread_unchecked block ;;
  e ← get;
  '(ip, res) ← find_loop (S (Z.to_nat (blksize e))) res block 0 name;
  match ip with
  | Some ip => mret (Some ip, res, Some block)
  | None => mret (None, res, None)
  end.
Fixpoint find_direct (l : list nat) (res : find_res) (dir : nat) (name : list Z) : E (option nat * find_res * option Z) :=
  match l with
  | [] => mret (None, FIND_NEXT_BLOCK, None)
  | i :: l =>
      e ← get;
      let block := i_block (inode_of dir e) (Z.of_nat i) in
      if block =? 0 then mret (None, FIND_NONE, None) else
      '(ip, res, bp) ← find_entry_in_block res block name;
      match ip with Some _ => mret (ip, res, bp) | None => find_direct l res dir name end
  end.
Definition find_entry_direct (dir : nat) (name : list Z) : E (option nat * find_res * option Z) :=
  find_direct (seq 0 12) FIND_NONE dir name.

(** The loop over the entries of a block of [uint32_t]. *)
Fixpoint find_entries (search : find_res → Z → E (option nat * find_res * option Z)) (l : list nat)
    (res : find_res) (block : Z) : E (option nat * find_res * option Z) :=
  match l with
  | [] => mret (None, res, None)
  | i :: l =>
      p ← get_word block (Z.of_nat i);
      if p =? 0 then mret (None, res, None) else
      '(ip, res, bp) ← search res p;
      match ip with Some _ => mret (ip, res, bp) | None => find_entries search l res block end
  end.
Definition find_in (search : find_res → Z → E (option nat * find_res * option Z)) (res : find_res) (block : Z) :
    E (option nat * find_res * option Z) :=
  if block =? 0 then mret (None, res, None) else
  bread_unchecked block ;;
  e ← get;
  find_entries search (seq 0 (Z.to_nat (blksize e / 4))) res block.
Definition find_entry_indirect (name : list Z) : find_res → Z → E (option nat * find_res * option Z) :=
  find_in (λ res p, find_entry_in_block res p name).
Definition find_entry_dindirect (name : list Z) : find_res → Z → E (option nat * find_res * option Z) :=
  find_in (find_entry_indirect name).
Definition find_entry_tindirect (name : list Z) : find_res → Z → E (option nat * find_res * option Z) :=
  find_in (find_entry_dindirect name).

Definition find_entry (dir : nat) (name : list Z) : E (option nat * option Z) :=
  let slot (k : Z) : E Z := e ← get; mret (i_block (inode_of dir e) k) in
  '(ip, res, bp) ← find_entry_direct dir name;
  match ip, res with
  | Some _, _ => mret (ip, bp)
  | None, FIND_NONE => mret (None, None)
  | None, FIND_NEXT_BLOCK =>
      b ← slot EXT2_INDIRECT_BLOCK;
      '(ip, res, bp) ← find_entry_indirect name res b;
      match ip, res with
      | Some _, _ => mret (ip, bp)
      | None, FIND_NONE => mret (None, None)
      | None, FIND_NEXT_BLOCK =>
          b ← slot EXT2_DINDIRECT_BLOCK;
          '(ip, res, bp) ← find_entry_dindirect name res b;
          match ip, res with
          | Some _, _ => mret (ip, bp)
          | None, FIND_NONE => mret (None, None)
          | None, FIND_NEXT_BLOCK =>
              b ← slot EXT2_TINDIRECT_BLOCK;
              '(ip, _, bp) ← find_entry_tindirect name res b;
              mret (ip, bp)
          end
      end
  end.
End dir.

(** ** Permissions *)
Record creds := MkCreds { c_uid : Z; c_euid : Z; c_gid : Z; c_egid : Z }.
Definition PERM_READ : Z := 4.
Definition PERM_WRITE : Z := 2.
Definition PERM_SRCH : Z := 1.
Definition ext2_permission (c : creds) (i : ext2_inode) (mask : Z) : Z :=
  if negb (negb (c_uid c =? 0) && negb (c_euid c =? 0)) then 0 else
  let mode :=
    if (c_uid c =? i_uid i) || (c_euid c =? i_uid i) then Z.shiftr (i_mode i) 6
    else if (c_gid c =? i_gid i) || (c_egid c =? i_gid i) then Z.shiftr (i_mode i) 3
    else i_mode i in
  if negb (Z.land (Z.land mode 7) mask =? 0) then 0 else -1.
(** [ext2_access] after the path has been resolved; it does not cut the mode to three bits. *)
Definition ext2_access (c : creds) (i : ext2_inode) (amode : Z) : Z :=
  if c_uid c =? 0 then 0 else
  let mode :=
    if c_uid c =? i_uid i then Z.shiftr (i_mode i) 6
    else if c_gid c =? i_gid i then Z.shiftr (i_mode i) 3
    else i_mode i in
  if negb (Z.land mode amode =? 0) then 0 else - EACCES.

(** ** Blocks of entries *)
Record dent := MkDent { d_inode : Z; d_rec_len : Z; d_name : list Z; d_file_type : Z }.
#[export] Instance dent_eta : Eta dent := λ d, MkDent (d_inode d) (d_rec_len d) (d_name d) (d_file_type d).
Definition dent_at (m : Z → Z) (o : Z) (d : dent) : Prop :=
  quad_at m o = d_inode d ∧ half_at m (o + 4) = d_rec_len d ∧ m (o + 6) = Z.of_nat (length (d_name d)) ∧
  m (o + 7) = d_file_type d ∧ ∀ i c, d_name d !! i = Some c → m (o + 8 + Z.of_nat i) = c.
(** The entries fill the block from [o] to its end. *)
Fixpoint chain (m : Z → Z) (bs o : Z) (l : list dent) : Prop :=
  match l with
  | [] => o = bs
  | d :: l => dent_at m o d ∧ 8 + Z.of_nat (length (d_name d)) <= d_rec_len d ∧ chain m bs (o + d_rec_len d) l
  end.
(** What a user of the directory sees of an entry. *)
Definition ident (d : dent) : Z * list Z * Z := (d_inode d, d_name d, d_file_type d).
(** The last entry takes over [n] bytes. *)
Fixpoint extend_last (l : list dent) (n : Z) : list dent :=
  match l with
  | [] => []
  | [d] => [d <| d_rec_len ::= λ r, r + n |>]
  | d :: l => d :: extend_last l n
  end.
Lemma extend_last_ident l n : map ident (extend_last l n) = map ident l.
Proof. induction l as [|d [|d' l] IH]; [done|done|]. simpl in *. by rewrite IH. Qed.

Lemma chain_length m bs o l : chain m bs o l → o + 8 * Z.of_nat (length l) <= bs.
Proof.
  revert o. induction l as [|d l IH]; intros o H; simpl in *; [lia|]. destruct H as (_ & Hl & H).
  specialize (IH _ H). lia.
Qed.
Lemma chain_end m bs o l : chain m bs o l → o <= bs.
Proof. intros H%chain_length. lia. Qed.
Lemma chain_app m bs o l1 d l2 : chain m bs o (l1 ++ d :: l2) →
  ∃ k, o <= k ∧ dent_at m k d ∧ 8 + Z.of_nat (length (d_name d)) <= d_rec_len d ∧ chain m bs (k + d_rec_len d) l2.
Proof.
  revert o. induction l1 as [|x l1 IH]; intros o H; simpl in H; [exists o; split; [lia|done]|].
  destruct H as (_ & Hl & H). destruct (IH _ H) as (k & Hk & ?). exists k. split; [lia|done].
Qed.
Lemma dent_at_frame m m' o d : (∀ a, o <= a < o + 8 + Z.of_nat (length (d_name d)) → m' a = m a) →
  dent_at m o d → dent_at m' o d.
Proof.
  intros Hm (H1 & H2 & H3 & H4 & H5). unfold dent_at, quad_at, half_at in *.
  rewrite !Hm by lia. split_and!; try done. intros i c Hi. rewrite Hm; [by apply H5|].
  apply lookup_lt_Some in Hi. lia.
Qed.
Lemma chain_frame m m' bs o l : (∀ a, o <= a < bs → m' a = m a) → chain m bs o l → chain m' bs o l.
Proof.
  revert o. induction l as [|d l IH]; intros o Hm H; simpl in *; [done|]. destruct H as (Hd & Hl & H).
  pose proof (chain_end _ _ _ _ H). split; [|split; [done|]].
  - eapply dent_at_frame; [|done]. intros. apply Hm. lia.
  - apply IH; [|done]. intros. apply Hm. lia.
Qed.
Lemma put_half_mod m o v : half_at (put_half_at o v m) o = v mod 65536.
Proof. unfold half_at, put_half_at. rewrite fn_insert_eq, fn_insert_ne, fn_insert_eq by lia. lia. Qed.
Lemma put_half_get m o v : 0 <= v < 65536 → half_at (put_half_at o v m) o = v.
Proof. intros Hv. rewrite put_half_mod. lia. Qed.
Lemma put_half_other m o v a : a ≠ o → a ≠ o + 1 → put_half_at o v m a = m a.
Proof. intros. unfold put_half_at. by rewrite !fn_insert_ne by lia. Qed.

Section entries.
Context (b : Z).

Lemma get_d_inode_ok d e : 0 <= d → d + 4 <= blksize e → get_d_inode b d e = Ok (quad_at (e_blk e b) d, e).
Proof.
  intros. unfold get_d_inode, mbind, M_bind, get, in_block.
  by rewrite (proj2 (Z.leb_le _ _)), (proj2 (Z.leb_le (d + 4) _)) by lia.
Qed.
Lemma get_d_rec_len_ok d e : 0 <= d → d + 6 <= blksize e → get_d_rec_len b d e = Ok (half_at (e_blk e b) (d + 4), e).
Proof.
  intros. unfold get_d_rec_len, mbind, M_bind, get, in_block.
  by rewrite (proj2 (Z.leb_le 0 _)), (proj2 (Z.leb_le _ (blksize e))) by lia.
Qed.
Lemma put_d_rec_len_ok d v e : 0 <= d → d + 6 <= blksize e →
  put_d_rec_len b d v e = Ok (tt, e <| e_blk ::= λ m, <[b := put_half_at (d + 4) v (m b)]> m |>).
Proof.
  intros. unfold put_d_rec_len, mbind, M_bind, get, in_block.
  by rewrite (proj2 (Z.leb_le 0 _)), (proj2 (Z.leb_le _ (blksize e))) by lia.
Qed.
Lemma match_bytes_ok nm dn a e : length nm = length dn →
  (∀ i c, dn !! i = Some c → e_blk e b (a + Z.of_nat i) = c) → 0 <= a → a + Z.of_nat (length dn) <= blksize e →
  ∃ f, match_bytes b a nm e = Ok (f, e) ∧ (f = 0 ↔ nm = dn).
Proof.
  revert dn a. induction nm as [|c nm IH]; intros [|x dn] a Hlen Hm Ha Hb; simpl in *; try done; [by exists 0|].
  rewrite (bind_ok _ _ _ _ _ (get_byte_ok b a e ltac:(lia))).
  pose proof (Hm 0%nat x eq_refl) as Hx. rewrite Z.add_0_r in Hx. rewrite Hx.
  destruct (Z.ltb_spec x c); [exists (-1); split; [done|]; naive_solver lia|].
  destruct (Z.ltb_spec c x); [exists 1; split; [done|]; naive_solver lia|].
  destruct (IH dn (a + 1)) as (f & R & Hf); [lia| |lia|lia|].
  { intros i y Hi. rewrite <-(Hm (S i) y Hi). f_equal. lia. }
  exists f. split; [done|]. rewrite Hf. assert (c = x) as -> by lia. naive_solver.
Qed.
Lemma ext2_match_ok nm d o e : dent_at (e_blk e b) o d → 0 <= o → o + 8 + Z.of_nat (length (d_name d)) <= blksize e →
  ∃ f, ext2_match b o nm e = Ok (f, e) ∧ (f = 0 ↔ nm = d_name d).
Proof.
  intros (_ & _ & Hn & _ & Hname) Ho Hb. unfold ext2_match, get_d_name_len.
  rewrite (bind_ok _ _ _ _ _ (get_byte_ok b (o + 6) e ltac:(lia))), Hn.
  destruct (Z.eqb_spec (Z.of_nat (length nm)) (Z.of_nat (length (d_name d)))); cbn [negb].
  - apply match_bytes_ok; [lia|done|lia|lia].
  - exists (-1). split; [done|]. split; [done|]. intros ->. done.
Qed.
End entries.

(** ** Removing *)

(** One block has changed, and is marked for writing. *)
Definition dir_written (b : Z) (m : Z → Z) (e e' : ext2) : Prop :=
  e_blk e' = <[b := m]> (e_blk e) ∧ e_dwrite e' = <[b := true]> (e_dwrite e) ∧ e_done e' = e_done e ∧
  e_disk e' = e_disk e ∧ e_sb e' = e_sb e ∧ e_bgd e' = e_bgd e ∧ e_nr_blk_group e' = e_nr_blk_group e ∧
  e_inode e' = e_inode e.
Definition is_entry (num : Z) (nm : list Z) (d : dent) : bool := (d_inode d =? num) && bool_decide (d_name d = nm).

Section remove.
Context (nm : list Z) (num b : Z) (e : ext2) (d : dent) (l2 : list dent).
Context (Hbs : blksize e < 65536) (Hd : is_entry num nm d = true).
Let bs := blksize e.
Let m := e_blk e b.

Lemma is_entry_test x o : dent_at m o x → 0 <= o → o + 8 + Z.of_nat (length (d_name x)) <= bs →
  (if d_inode x =? num then f ← ext2_match b o nm; mret (f =? 0) else mret false) e = Ok (is_entry num nm x, e).
Proof.
  clear Hd Hbs d l2. intros Hx Ho Hb. unfold is_entry. destruct (d_inode x =? num); [|done]. cbn [andb].
  destruct (ext2_match_ok b nm x o e Hx Ho Hb) as (f & R & Hf). rewrite (bind_ok _ _ _ _ _ R).
  change (Ok (f =? 0, e) = Ok (bool_decide (d_name x = nm), e)). do 2 f_equal.
  destruct (Z.eqb_spec f 0); [rewrite bool_decide_eq_true_2; naive_solver|rewrite bool_decide_eq_false_2; naive_solver].
Qed.
Lemma remove_loop_ok l1 p fuel o : 0 <= o → chain m bs o (p :: l1 ++ d :: l2) →
  Forall (λ x, is_entry num nm x = false) l1 → (length l1 < fuel)%nat →
  ∃ m' e', remove_loop fuel nm num b o (o + d_rec_len p) e = Ok (0, e') ∧ dir_written b m' e e' ∧
    (∀ a, a < o → m' a = m a) ∧ chain m' bs o (extend_last (p :: l1) (d_rec_len d) ++ l2).
Proof.
  revert p fuel o. induction l1 as [|x l1 IH]; intros p [|fuel] o Ho (Hp & Hpl & H) Hne Hf; try (simpl in *; lia).
  - simpl in H. destruct H as (Hdat & Hdl & Hch). pose proof (chain_end _ _ _ _ Hch) as Hend.
    simpl. change ((get ≫= ?k) e) with (k e e). cbv beta.
    rewrite (proj2 (Z.ltb_lt _ (blksize e))) by (unfold bs in *; lia).
    rewrite (bind_ok _ _ _ _ _ (get_d_inode_ok b (o + d_rec_len p) e ltac:(lia) ltac:(unfold bs in *; lia))).
    fold m. rewrite (proj1 Hdat), (bind_ok _ _ _ _ _ (is_entry_test d _ Hdat ltac:(lia) ltac:(lia))), Hd.
    rewrite (bind_ok _ _ _ _ _ (get_d_rec_len_ok b o e ltac:(lia) ltac:(unfold bs in *; lia))).
    rewrite (bind_ok _ _ _ _ _ (get_d_rec_len_ok b (o + d_rec_len p) e ltac:(lia) ltac:(unfold bs in *; lia))).
    rewrite (bind_ok _ _ _ _ _ (put_d_rec_len_ok b o _ e ltac:(lia) ltac:(unfold bs in *; lia))).
    destruct Hp as (P1 & P2 & P3 & P4 & P5), Hdat as (D1 & D2 & D3 & D4 & D5). fold m. rewrite P2, D2.
    rewrite u16_id by (unfold is_u16, bs in *; lia). set (r := d_rec_len p + d_rec_len d).
    assert (0 <= r < 65536) as Hr by (unfold r, bs in *; lia). set (m' := put_half_at (o + 4) r m).
    assert (∀ a, a ≠ o + 4 → a ≠ o + 5 → m' a = m a) as Hm' by (intros; apply put_half_other; lia).
    exists m'. eexists. split; [reflexivity|]. split; [by split_and!|].
    split; [intros; apply Hm'; lia|]. simpl. split; [|split].
    + unfold dent_at. rec_simpl. unfold quad_at, half_at in *. rewrite !Hm' by lia.
      split; [exact P1|]. split; [exact (put_half_get m (o + 4) r Hr)|]. split; [by rewrite Hm' by lia|].
      split; [by rewrite Hm' by lia|]. intros i c Hi. rewrite Hm' by lia. by apply P5.
    + rec_simpl. lia.
    + rec_simpl. replace (o + r) with (o + d_rec_len p + d_rec_len d) by (unfold r; lia).
      eapply chain_frame; [|exact Hch]. intros. apply Hm'; lia.
  - apply Forall_cons in Hne as [Hx Hne]. simpl in H. pose proof H as (Hxat & Hxl & Hch).
    pose proof (chain_end _ _ _ _ Hch) as Hend.
    simpl. change ((get ≫= ?k) e) with (k e e). cbv beta.
    rewrite (proj2 (Z.ltb_lt _ (blksize e))) by (unfold bs in *; lia).
    rewrite (bind_ok _ _ _ _ _ (get_d_inode_ok b (o + d_rec_len p) e ltac:(lia) ltac:(unfold bs in *; lia))).
    fold m. rewrite (proj1 Hxat), (bind_ok _ _ _ _ _ (is_entry_test x _ Hxat ltac:(lia) ltac:(lia))), Hx.
    rewrite (bind_ok _ _ _ _ _ (get_d_rec_len_ok b (o + d_rec_len p) e ltac:(lia) ltac:(unfold bs in *; lia))).
    fold m. rewrite (proj1 (proj2 Hxat)).
    destruct (IH x fuel (o + d_rec_len p)) as (m' & e' & R & W & Hlow & C); [lia|exact H|done|simpl in *; lia|].
    exists m', e'. split; [exact R|]. split; [exact W|]. split; [intros; apply Hlow; lia|].
    change (extend_last (p :: x :: l1) (d_rec_len d) ++ l2) with (p :: (extend_last (x :: l1) (d_rec_len d) ++ l2)).
    split; [|split; [done|exact C]]. eapply dent_at_frame; [|exact Hp]. intros. apply Hlow. lia.
Qed.
Lemma remove_loop_missing l p fuel o : 0 <= o → chain m bs o (p :: l) →
  Forall (λ x, is_entry num nm x = false) l → (length l < fuel)%nat →
  remove_loop fuel nm num b o (o + d_rec_len p) e = Ok (- ENOENT, e).
Proof.
  clear Hd Hbs d l2. revert p fuel o. induction l as [|x l IH]; intros p [|fuel] o Ho (Hp & Hpl & H) Hne Hf; try (simpl in *; lia).
  - simpl in H. simpl. change ((get ≫= ?k) e) with (k e e). cbv beta.
    by rewrite (proj2 (Z.ltb_ge _ (blksize e))) by (unfold bs in *; lia).
  - apply Forall_cons in Hne as [Hx Hne]. pose proof H as (Hxat & Hxl & Hch).
    pose proof (chain_end _ _ _ _ Hch) as Hend. simpl. change ((get ≫= ?k) e) with (k e e). cbv beta.
    rewrite (proj2 (Z.ltb_lt _ (blksize e))) by (unfold bs in *; lia).
    rewrite (bind_ok _ _ _ _ _ (get_d_inode_ok b (o + d_rec_len p) e ltac:(lia) ltac:(unfold bs in *; lia))).
    fold m. rewrite (proj1 Hxat), (bind_ok _ _ _ _ _ (is_entry_test x _ Hxat ltac:(lia) ltac:(lia))), Hx.
    rewrite (bind_ok _ _ _ _ _ (get_d_rec_len_ok b (o + d_rec_len p) e ltac:(lia) ltac:(unfold bs in *; lia))).
    fold m. rewrite (proj1 (proj2 Hxat)). apply IH; [lia|exact H|done|simpl in *; lia].
Qed.
End remove.

Lemma entry_split {A} (f : A → bool) l : Forall (λ x, f x = false) l ∨
  ∃ l1 x l2, l = l1 ++ x :: l2 ∧ f x = true ∧ Forall (λ x, f x = false) l1.
Proof.
  induction l as [|x l IH]; [left; constructor|]. destruct (f x) eqn:E.
  - right. exists [], x, l. done.
  - destruct IH as [|(l1 & y & l2 & -> & Hy & Hf)]; [left; by constructor|].
    right. exists (x :: l1), y, l2. split; [done|]. split; [done|]. by constructor.
Qed.
(** C29: In a block that is filled by a chain of entries, [ext2_remove_dir_entry] takes out the
    first entry, from the second one on, that has both the name and the inode: the block is
    again filled by a chain, of the same entries without that one. Without such an entry it
    returns ENOENT and changes nothing. The first entry of a block is blanked whenever it has the
    inode, whatever its name. *)
Theorem remove_dir_entry_correct nm ip b e d0 l : let num := i_num (e_inode e ip) in
  blksize e < 65536 → chain (e_blk e b) (blksize e) 0 (d0 :: l) → d_inode d0 ≠ num →
  (Forall (λ x, is_entry num nm x = false) l ∧ ext2_remove_dir_entry nm ip b e = Ok (- ENOENT, e)) ∨
  ∃ l1 d l2 m' e' l', l = l1 ++ d :: l2 ∧ is_entry num nm d = true ∧ Forall (λ x, is_entry num nm x = false) l1 ∧
    ext2_remove_dir_entry nm ip b e = Ok (0, e') ∧ dir_written b m' e e' ∧
    chain m' (blksize e) 0 l' ∧ map ident l' = map ident (d0 :: l1 ++ l2).
Proof.
  intros num Hbs Hch H0. pose proof (chain_length _ _ _ _ Hch) as Hlen. pose proof Hch as ((D1 & D2 & _) & Hl & _).
  simpl in Hlen. unfold ext2_remove_dir_entry. change ((get ≫= ?k) e) with (k e e). cbv beta zeta. fold num.
  rewrite (bind_ok _ _ _ _ _ (get_d_inode_ok b 0 e ltac:(lia) ltac:(lia))), D1, (proj2 (Z.eqb_neq _ _) H0).
  rewrite (bind_ok _ _ _ _ _ (get_d_rec_len_ok b 0 e ltac:(lia) ltac:(lia))), D2.
  destruct (entry_split (is_entry num nm) l) as [Hno|(l1 & d & l2 & -> & Hd & Hne)].
  - left. split; [done|]. apply (remove_loop_missing nm num b e l d0 (S (Z.to_nat (blksize e))) 0); [lia|exact Hch|done|lia].
  - right. rewrite length_app in Hlen. simpl in Hlen.
    destruct (remove_loop_ok nm num b e d l2 Hbs Hd l1 d0 (S (Z.to_nat (blksize e))) 0) as (m' & e' & R & W & _ & C);
      [lia|exact Hch|done|lia|].
    exists l1, d, l2, m', e', (extend_last (d0 :: l1) (d_rec_len d) ++ l2). split_and!; try done.
    rewrite !map_app, extend_last_ident. simpl. by rewrite map_app.
Qed.

(** ** Searching *)
Definition first_named (nm : list Z) (l : list dent) : option dent := List.find (λ d, bool_decide (d_name d = nm)) l.
(** An entry that is in use. *)
Definition in_use (d : dent) : Prop := d_inode d ≠ 0 ∧ d_file_type d ≠ EXT2_FT_UNKNOWN.

Section search.
Context `{DEV : Device} `{IC : InodeCache}.

Lemma find_loop_ok nm b e res l x fuel o : 0 <= o → chain (e_blk e b) (blksize e) o (x :: l) → Forall in_use l →
  (length l < fuel)%nat →
  find_loop fuel res b o nm e =
  match first_named nm (x :: l) with
  | Some d => (ip ← ext2_iget (d_inode d); mret (ip, res)) e
  | None => Undef "read outside b_data"
  end.
Proof.
  revert x fuel o. induction l as [|y l IH]; intros x [|fuel] o Ho (Hx & Hxl & H) Hu Hf; try (simpl in *; lia).
  all: pose proof (chain_end _ _ _ _ H) as Hend; destruct (ext2_match_ok b nm x o e Hx Ho ltac:(lia)) as (f & R & Hm).
  all: unfold first_named; cbn [find_loop List.find]; rewrite (bind_ok _ _ _ _ _ R).
  all: destruct (Z.eqb_spec f 0) as [Hf0|Hf0];
    [rewrite bool_decide_eq_true_2 by (symmetry; by apply Hm);
     rewrite (bind_ok _ _ _ _ _ (get_d_inode_ok b o e ltac:(lia) ltac:(lia))); by rewrite (proj1 Hx)|].
  all: rewrite bool_decide_eq_false_2 by (intros E; by apply Hf0, Hm).
  all: change ((get ≫= ?k) e) with (k e e); cbv beta; rewrite (proj2 (Z.leb_gt (blksize e) o)) by lia.
  all: rewrite (bind_ok _ _ _ _ _ (get_d_rec_len_ok b o e ltac:(lia) ltac:(lia))), (proj1 (proj2 Hx)).
  - simpl in H. unfold get_d_inode, mbind, M_bind, get, in_block.
    rewrite (proj2 (Z.leb_gt _ (blksize e))) by lia. by rewrite andb_false_r.
  - apply Forall_cons in Hu as [[Hy1 Hy2] Hu]. pose proof H as (Hy & Hyl & H').
    pose proof (chain_end _ _ _ _ H').
    rewrite (bind_ok _ _ _ _ _ (get_d_inode_ok b (o + d_rec_len x) e ltac:(lia) ltac:(lia))), (proj1 Hy).
    rewrite (proj2 (Z.eqb_neq _ 0) Hy1). unfold get_d_file_type.
    rewrite (bind_ok _ _ _ _ _ (get_byte_ok b (o + d_rec_len x + 7) e ltac:(lia))).
    destruct Hy as (_ & _ & _ & Hft & _). rewrite Hft, (proj2 (Z.eqb_neq _ EXT2_FT_UNKNOWN) Hy2).
    apply IH; [lia|exact H|done|simpl in *; lia].
Qed.
(** In a block filled by a chain of entries that are in use the search finds the first entry
    with the name, and gets its inode from the cache. When there is none it does not fail: it
    goes on to read behind the block. *)
Theorem find_entry_in_block_correct nm res block e x l :
  block ≠ 0 → read_fails block = false → chain (view e block) (blksize e) 0 (x :: l) → Forall in_use l →
  match first_named nm (x :: l) with
  | Some d => ∀ ip e', ext2_iget (d_inode d) (load block e) = Ok (Some ip, e') →
      find_entry_in_block res block nm e = Ok ((Some ip, res, Some block), e')
  | None => find_entry_in_block res block nm e = Undef "read outside b_data"
  end.
Proof.
  intros H0 Hr H Hu. pose proof (chain_length _ _ _ _ H) as Hlen. simpl in Hlen.
  assert (chain (e_blk (load block e) block) (blksize (load block e)) 0 (x :: l)) as Hc by (by rewrite load_blk).
  pose proof (find_loop_ok nm block (load block e) res l x (S (Z.to_nat (blksize e))) 0 ltac:(lia) Hc Hu ltac:(lia)) as R.
  unfold find_entry_in_block. rewrite (proj2 (Z.eqb_neq block 0) H0), (bind_ok _ _ _ _ _ (bread_ok block e Hr)).
  change ((get ≫= ?k) (load block e)) with (k (load block e) (load block e)). cbv beta.
  change (blksize (load block e)) with (blksize e).
  destruct (first_named nm (x :: l)) as [d|].
  - intros ip e' Hi. rewrite (bind_ok _ _ _ _ _ Hi) in R. by rewrite (bind_ok _ _ _ _ _ R).
  - unfold mbind, M_bind in *. by rewrite R.
Qed.
End search.

(** ** Adding *)

(** Only the buffer of one block has changed. *)
Record only_block (b : Z) (e e' : ext2) : Prop := {
  ob_blk x : x ≠ b → e_blk e' x = e_blk e x;
  ob_done : e_done e' = e_done e;
  ob_disk : e_disk e' = e_disk e;
  ob_sb : e_sb e' = e_sb e;
  ob_bgd : e_bgd e' = e_bgd e;
  ob_inode : e_inode e' = e_inode e
}.
#[export] Instance only_block_preorder b : PreOrder (only_block b).
Proof.
  split; [done|]. intros e1 e2 e3 [] []. split; intros; try congruence.
  rewrite ob_blk1, ob_blk0 by done. done.
Qed.
Lemma only_block_size b e e' : only_block b e e' → blksize e' = blksize e.
Proof. intros []. unfold blksize. congruence. Qed.
(** An assignment to the buffer. *)
Lemma upd_blk_only b f e : ∃ e', upd_blk b f e = Ok (tt, e') ∧ only_block b e e' ∧ e_blk e' b = f (e_blk e b).
Proof.
  eexists. split; [done|]. split; [|rec_simpl; by autorewrite with yak].
  split; try done. intros x Hx. rec_simpl. by rewrite fn_insert_ne by done.
Qed.
Lemma put_byte_only b o v e : 0 <= o < blksize e →
  ∃ e', put_byte b o v e = Ok (tt, e') ∧ only_block b e e' ∧ e_blk e' b = <[o := u8 v]> (e_blk e b).
Proof.
  intros Ho. unfold put_byte, mbind, M_bind, get.
  rewrite (proj2 (Z.leb_le _ _)), (proj2 (Z.ltb_lt o _)) by lia. apply upd_blk_only.
Qed.
Lemma put_name_ok b nm o e : 0 <= o → o + Z.of_nat (length nm) <= blksize e → Forall is_u8 nm →
  ∃ e', put_name b o nm e = Ok (tt, e') ∧ only_block b e e' ∧
    written (e_blk e b) (e_blk e' b) o (Z.of_nat (length nm)) (λ i, nth (Z.to_nat i) nm 0).
Proof.
  revert o e. induction nm as [|c nm IH]; intros o e Ho Hb Hn; simpl in *.
  { exists e. split; [done|]. split; [done|]. apply written_0. }
  apply Forall_cons in Hn as [Hc Hn]. destruct (put_byte_only b o c e ltac:(lia)) as (e1 & R1 & B1 & M1).
  rewrite (bind_ok _ _ _ _ _ R1). pose proof (only_block_size _ _ _ B1) as Es.
  destruct (IH (o + 1) e1) as (e' & R & B & W); [lia|lia|done|].
  exists e'. split; [done|]. split; [by etrans|]. rewrite M1, u8_id in W by done.
  replace (Z.of_nat (S (length nm))) with (1 + Z.of_nat (length nm)) by lia.
  refine (written_app _ _ _ _ _ _ _ _ _ (written_ext _ _ _ _ _ _ _ (written_1 _ _ _)) (written_ext _ _ _ _ _ _ _ W));
    [lia|lia| |].
  - intros i Hi. cbv beta. by replace i with 0 by lia.
  - intros i Hi. cbv beta. by replace (Z.to_nat (1 + i)) with (S (Z.to_nat i)) by lia.
Qed.
Lemma put_quad_get m o v : 0 <= v < 4294967296 → quad_at (put_quad_at o v m) o = v.
Proof.
  intros Hv. unfold quad_at, put_quad_at. rewrite put_half_mod.
  assert (half_at (put_half_at o v (put_half_at (o + 2) (v / 65536) m)) (o + 2) = v / 65536) as ->; [|lia].
  unfold half_at. rewrite !(put_half_other _ o) by lia. apply put_half_get. lia.
Qed.
Lemma put_quad_other m o v a : (a < o ∨ o + 4 <= a) → put_quad_at o v m a = m a.
Proof. intros. unfold put_quad_at. by rewrite !put_half_other by lia. Qed.

(** The type that [dentry_file_type] gives. *)
Definition type_of (ip : nat) (e : ext2) : Z := match dentry_file_type ip e with Ok (t, _) => t | _ => 0 end.
Lemma dentry_file_type_ok ip e : dentry_file_type ip e = Ok (type_of ip e, e) ∧ is_u8 (type_of ip e).
Proof.
  split; [done|]. unfold type_of, dentry_file_type, mbind, M_bind, get, mret, M_ret.
  unfold is_u8, EXT2_FT_UNKNOWN, EXT2_FT_REG_FILE, EXT2_FT_DIR, EXT2_FT_CHRDEV, EXT2_FT_BLKDEV, EXT2_FT_FIFO,
    EXT2_FT_SOCK, EXT2_FT_SYMLINK. repeat case_match; lia.
Qed.
Lemma only_block_same b e e' : only_block b e e' → (∀ ip, e_inode e' ip = e_inode e ip) ∧ ∀ ip, type_of ip e' = type_of ip e.
Proof.
  intros B. split; intros ip; [by rewrite (ob_inode _ _ _ B)|].
  unfold type_of, dentry_file_type, mbind, M_bind, get, inode_of. by rewrite (ob_inode _ _ _ B).
Qed.

Lemma write_entry_ok ip b d rec nm e : 0 <= d → d + 8 + Z.of_nat (length nm) <= blksize e → 0 <= rec < 65536 →
  Z.of_nat (length nm) < 256 → is_u32 (i_num (e_inode e ip)) → Forall is_u8 nm →
  ∃ e', write_entry ip b d rec nm e = Ok (tt, e') ∧ only_block b e e' ∧
    (∀ a, a < d ∨ d + 8 + Z.of_nat (length nm) <= a → e_blk e' b a = e_blk e b a) ∧
    dent_at (e_blk e' b) d (MkDent (i_num (e_inode e ip)) rec nm (type_of ip e)).
Proof.
  intros Hd Hb Hr Hl Hnum Hnm. unfold write_entry. change ((get ≫= ?k) e) with (k e e). cbv beta.
  destruct (upd_blk_only b (put_quad_at d (i_num (e_inode e ip))) e) as (e1 & R1 & B1 & M1).
  assert (put_d_inode b d (i_num (e_inode e ip)) e = Ok (tt, e1)) as R1'.
  { unfold put_d_inode, mbind, M_bind, get, in_block.
    by rewrite (proj2 (Z.leb_le 0 _)), (proj2 (Z.leb_le _ (blksize e))) by lia. }
  rewrite (bind_ok _ _ _ _ _ R1'). pose proof (only_block_size _ _ _ B1) as S1.
  destruct (dentry_file_type_ok ip e1) as [Rt Ht]. rewrite (bind_ok _ _ _ _ _ Rt).
  rewrite (proj2 (only_block_same _ _ _ B1)) in *.
  destruct (put_byte_only b (d + 7) (type_of ip e) e1 ltac:(lia)) as (e2 & R2 & B2 & M2).
  unfold put_d_file_type. rewrite (bind_ok _ _ _ _ _ R2). pose proof (only_block_size _ _ _ B2) as S2.
  destruct (put_byte_only b (d + 6) (Z.of_nat (length nm)) e2 ltac:(lia)) as (e3 & R3 & B3 & M3).
  unfold put_d_name_len. rewrite (bind_ok _ _ _ _ _ R3). pose proof (only_block_size _ _ _ B3) as S3.
  destruct (upd_blk_only b (put_half_at (d + 4) (u16 rec)) e3) as (e4 & R4 & B4 & M4).
  assert (put_d_rec_len b d (u16 rec) e3 = Ok (tt, e4)) as R4'.
  { unfold put_d_rec_len, mbind, M_bind, get, in_block.
    by rewrite (proj2 (Z.leb_le 0 _)), (proj2 (Z.leb_le _ (blksize e3))) by lia. }
  rewrite (bind_ok _ _ _ _ _ R4'). pose proof (only_block_size _ _ _ B4) as S4.
  destruct (put_name_ok b nm (d + 8) e4 ltac:(lia) ltac:(lia) Hnm) as (e' & R & B & W).
  exists e'. split; [done|]. split; [by etrans; [|etrans; [|etrans; [|etrans]]]|].
  rewrite u16_id in M4 by (unfold is_u16; lia). rewrite u8_id in M2 by done. rewrite u8_id in M3 by (unfold is_u8; lia).
  assert (∀ a, a < d + 8 → e_blk e' b a = e_blk e4 b a) as Wlow.
  { intros a Ha. rewrite W. by rewrite (proj2 (Z.leb_gt _ a)) by lia. }
  split.
  - intros a Ha. rewrite W. destruct (Z.leb_spec (d + 8) a), (Z.ltb_spec a (d + 8 + Z.of_nat (length nm))); cbn [andb]; try lia.
    all: rewrite M4, put_half_other, M3, fn_insert_ne, M2, fn_insert_ne, M1, put_quad_other by lia; done.
  - unfold dent_at, d_inode, d_rec_len, d_name, d_file_type. split; [|split; [|split; [|split]]].
    + unfold quad_at, half_at. rewrite !Wlow by lia. rewrite M4, !put_half_other, M3, !fn_insert_ne, M2, !fn_insert_ne, M1 by lia.
      by apply put_quad_get.
    + unfold half_at. rewrite !Wlow by lia. rewrite M4. by apply put_half_get.
    + rewrite Wlow, M4, put_half_other, M3 by lia. by rewrite fn_insert_eq.
    + rewrite Wlow, M4, put_half_other, M3, fn_insert_ne, M2 by lia. by rewrite fn_insert_eq.
    + intros i c Hi. rewrite W. apply lookup_lt_Some in Hi as Hlt.
      rewrite (proj2 (Z.leb_le _ _)), (proj2 (Z.ltb_lt _ _)) by lia. cbn [andb].
      replace (Z.to_nat (d + 8 + Z.of_nat i - (d + 8))) with i by lia. by apply nth_lookup_Some.
Qed.

Section add.
Context `{DEV : Device}.

(** The walk to the last entry. *)
Lemma add_loop_walk dir ip nm rec b l1 x e off fuel o : chain (e_blk e b) (blksize e) o (l1 ++ [x]) → 0 <= o →
  (length l1 < fuel)%nat →
  ∃ fuel' o' off', add_loop fuel dir ip nm rec b o off e = add_loop (S fuel') dir ip nm rec b o' off' e ∧ o <= o' ∧
    chain (e_blk e b) (blksize e) o' [x] ∧
    ∀ m' l', (∀ a, a < o' → m' a = e_blk e b a) → chain m' (blksize e) o' l' → chain m' (blksize e) o (l1 ++ l').
Proof.
  revert off fuel o. induction l1 as [|y l1 IH]; intros off [|fuel] o H Ho Hf; try (simpl in *; lia).
  - exists fuel, o, off. split; [done|]. split; [lia|]. by split.
  - destruct H as (Hy & Hyl & H). pose proof (chain_length _ _ _ _ H) as Hlen. rewrite length_app in Hlen. simpl in Hlen.
    destruct (IH (u32 (off + d_rec_len y)) fuel (o + d_rec_len y) H ltac:(lia) ltac:(simpl in *; lia))
      as (fuel' & o' & off' & R & Hoo & Hx & Hrest).
    exists fuel', o', off'. split; [|split; [lia|split; [done|]]].
    + rewrite <-R. cbn [add_loop]. change ((get ≫= ?k) e) with (k e e). cbv beta.
      rewrite (proj2 (Z.leb_gt (blksize e) o)) by lia.
      rewrite (bind_ok (mret (b, o, false) : M ext2 _) _ e (b, o, false) e eq_refl). cbv beta iota. rewrite (bind_ok _ _ _ _ _ (get_d_rec_len_ok b o e ltac:(lia) ltac:(lia))), (proj1 (proj2 Hy)).
      by rewrite (proj2 (Z.leb_gt (blksize e) _)) by lia.
    + intros m' l' Hm Hl. simpl. split; [|split; [done|by apply Hrest]].
      eapply dent_at_frame; [|exact Hy]. intros. apply Hm. lia.
Qed.

Lemma round4_range n : n <= round4 n < n + 4.
Proof. unfold round4. destruct (Z.eqb_spec (n mod 4) 0); lia. Qed.
(** The entry at the end of the block is cut to what it needs, and the new one follows it. *)
Lemma add_loop_split dir ip nm b x e off fuel o : let used := round4 (8 + Z.of_nat (length (d_name x))) in
  chain (e_blk e b) (blksize e) o [x] → 0 <= o → blksize e < 65536 → Z.of_nat (length nm) < 256 →
  used + round4 (8 + Z.of_nat (length nm)) <= d_rec_len x → is_u32 (i_num (e_inode e ip)) → Forall is_u8 nm →
  ∃ e', add_loop (S fuel) dir ip nm (round4 (8 + Z.of_nat (length nm))) b o off e = Ok (0, e') ∧
    e_done e' = e_done e ∧ (∀ y, y ≠ b → e_blk e' y = e_blk e y) ∧ (∀ a, a < o → e_blk e' b a = e_blk e b a) ∧
    chain (e_blk e' b) (blksize e) o [x <| d_rec_len := used |>;
      MkDent (i_num (e_inode e ip)) (d_rec_len x - used) nm (type_of ip e)].
Proof.
  intros used (Hx & Hxl & Hend) Ho Hbs Hnl Hfit Hnum Hnm. simpl in Hend.
  pose proof (round4_range (8 + Z.of_nat (length (d_name x)))) as Hu. fold used in Hu.
  pose proof (round4_range (8 + Z.of_nat (length nm))) as Hn. destruct Hx as (X1 & X2 & X3 & X4 & X5).
  cbn [add_loop]. change ((get ≫= ?k) e) with (k e e). cbv beta. rewrite (proj2 (Z.leb_gt (blksize e) o)) by lia.
  rewrite (bind_ok (mret (b, o, false) : M ext2 _) _ e (b, o, false) e eq_refl). cbv beta iota.
  rewrite (bind_ok _ _ _ _ _ (get_d_rec_len_ok b o e ltac:(lia) ltac:(lia))), X2.
  rewrite (proj2 (Z.leb_le (blksize e) _)), (proj2 (Z.leb_le (round4 _) (d_rec_len x))) by lia. cbn [andb].
  unfold get_d_name_len. rewrite (bind_ok _ _ _ _ _ (get_byte_ok b (o + 6) e ltac:(lia))), X3.
  replace (Z.of_nat (length (d_name x)) + 8) with (8 + Z.of_nat (length (d_name x))) by lia. fold used.
  assert (∀ v e0, blksize e0 = blksize e → ∃ e1, put_d_rec_len b o v e0 = Ok (tt, e1) ∧ only_block b e0 e1 ∧
    e_blk e1 b = put_half_at (o + 4) v (e_blk e0 b)) as Hput.
  { intros v e0 E0. destruct (upd_blk_only b (put_half_at (o + 4) v) e0) as (e1 & R & B & M). exists e1. split; [|done].
    unfold put_d_rec_len, mbind, M_bind, get, in_block.
    by rewrite (proj2 (Z.leb_le 0 _)), (proj2 (Z.leb_le _ (blksize e0))) by lia. }
  destruct (Hput (8 + Z.of_nat (length (d_name x))) e eq_refl) as (e1 & R1 & B1 & M1). rewrite (bind_ok _ _ _ _ _ R1).
  destruct (Hput used e1 (only_block_size _ _ _ B1)) as (e2 & R2 & B2 & M2). rewrite (bind_ok _ _ _ _ _ R2).
  assert (only_block b e e2) as B12 by (by etrans). pose proof (only_block_size _ _ _ B12) as S2.
  destruct (only_block_same _ _ _ B12) as [I2 T2]. rewrite M1 in M2.
  replace (blksize e - (o + used)) with (d_rec_len x - used) by lia.
  destruct (write_entry_ok ip b (o + used) (d_rec_len x - used) nm e2) as (e3 & R3 & B3 & L3 & D3);
    [lia|lia|lia|lia|by rewrite I2|done|]. rewrite I2, T2 in D3. rewrite (bind_ok _ _ _ _ _ R3).
  eexists. split; [reflexivity|]. split; [exact (eq_trans (ob_done _ _ _ B3) (ob_done _ _ _ B12))|].
  split; [intros y Hy; exact (eq_trans (ob_blk _ _ _ B3 y Hy) (ob_blk _ _ _ B12 y Hy))|].
  assert (∀ a, a < o + used → a ≠ o + 4 → a ≠ o + 5 → e_blk e3 b a = e_blk e b a) as Hlow.
  { intros a Ha H4 H5. rewrite L3, M2, !put_half_other by lia. done. }
  split; [intros a Ha; exact (Hlow a ltac:(lia) ltac:(lia) ltac:(lia))|].
  set (l' := [_; _]). enough (chain (e_blk e3 b) (blksize e) o l') as Hc by exact Hc. unfold l'.
  simpl. split; [|split; [rec_simpl; lia|split; [exact D3|split; [simpl; lia|rec_simpl; lia]]]].
  unfold dent_at. rec_simpl. unfold quad_at, half_at in *. split; [by rewrite !Hlow by lia|].
  split; [|split; [by rewrite Hlow by lia|split; [by rewrite Hlow by lia|]]].
  - rewrite !L3 by lia. rewrite M2. apply (put_half_get _ (o + 4) used). lia.
  - intros i c Hi. apply lookup_lt_Some in Hi as Hlt. rewrite Hlow by lia. by apply X5.
Qed.
(** C30: Adding a name to a directory whose first block is filled by a chain of entries, when the
    last of them has room behind what it needs: the last entry is cut to its own size and the
    new one follows it up to the end of the block; all the other entries stay. *)
Theorem add_dir_entry_correct dir ip nm e l x fuel : let b := i_block (inode_of dir e) 0 in
  let used := round4 (8 + Z.of_nat (length (d_name x))) in
  1024 <= blksize e < 65536 → b ≠ 0 → read_fails b = false → chain (view e b) (blksize e) 0 (l ++ [x]) →
  quad_at (view e b) 0 ≠ 0 → i_size (inode_of dir e) ≠ 0 → 0 < Z.of_nat (length nm) < 256 → Forall is_u8 nm →
  used + round4 (8 + Z.of_nat (length nm)) <= d_rec_len x → is_u32 (i_num (e_inode e ip)) → (length l < fuel)%nat →
  ∃ e', ext2_add_dir_entry fuel dir ip nm e = Ok (0, e') ∧ (∀ y, y ≠ b → e_blk e' y = e_blk e y) ∧
    chain (view e' b) (blksize e) 0 (l ++ [x <| d_rec_len := used |>;
      MkDent (i_num (e_inode e ip)) (d_rec_len x - used) nm (type_of ip e)]).
Proof.
  intros b used Hbs H0 Hr H Hi Hsz Hnl Hnm Hfit Hnum Hf. unfold ext2_add_dir_entry.
  rewrite (proj2 (Z.eqb_neq _ 0)) by lia. rewrite take_ge by (unfold EXT2_MAX_NAME_LEN; lia).
  assert (ext2_create_block dir 0 e = Ok (b, e)) as Rc.
  { rewrite create_block_in_place; [unfold direct_block; by rewrite Z.div_0_l by lia|lia|].
    split; [lia|]. unfold direct_block. by rewrite Z.div_0_l by lia. }
  rewrite (bind_ok _ _ _ _ _ Rc), (proj2 (Z.eqb_neq b 0) H0).
  assert (bread b e = Ok (true, load b e)) as Rb by (unfold bread, mbind, M_bind, get; by rewrite Hr, andb_false_r).
  rewrite (bind_ok _ _ _ _ _ Rb). cbn [negb]. set (e1 := load b e).
  change ((get ≫= ?k) e1) with (k e1 e1). cbv beta.
  rewrite (bind_ok _ _ _ _ _ (get_d_inode_ok b 0 e1 ltac:(lia) ltac:(change (blksize e1) with (blksize e); lia))).
  assert (e_blk e1 b = view e b) as Em by apply load_blk. rewrite Em, (proj2 (Z.eqb_neq _ 0) Hi).
  change (inode_of dir e1) with (inode_of dir e). rewrite (proj2 (Z.eqb_neq _ 0) Hsz). cbn [orb].
  assert (chain (e_blk e1 b) (blksize e1) 0 (l ++ [x])) as H1 by (by rewrite Em).
  destruct (add_loop_walk dir ip nm (round4 (8 + Z.of_nat (length nm))) b l x e1 0 fuel 0 H1 ltac:(lia) Hf)
    as (fuel' & o & off & R & Ho & Hx & Hrest).
  destruct (add_loop_split dir ip nm b x e1 off fuel' o Hx Ho ltac:(change (blksize e1) with (blksize e); lia)
    ltac:(lia) Hfit Hnum Hnm) as (e' & R' & Hd & Hother & Hlow & Hch).
  exists e'. split; [by rewrite R, R'|]. split.
  - intros y Hy. rewrite Hother by done. unfold e1, load. rec_simpl. by rewrite fn_insert_ne by done.
  - assert (view e' b = e_blk e' b) as -> by (unfold view; rewrite Hd; unfold e1, load; rec_simpl; by rewrite fn_insert_eq).
    change (blksize e) with (blksize e1). by apply Hrest.
Qed.
End add.

(** ** Permissions *)

Definition perm_shift (c : creds) (i : ext2_inode) : Z :=
  if decide (c_uid c = i_uid i ∨ c_euid c = i_uid i) then 6
  else if decide (c_gid c = i_gid i ∨ c_egid c = i_gid i) then 3 else 0.
Lemma land_some_bit x y : Z.land (x mod 8) y ≠ 0 →
  ∃ k, 0 <= k < 3 ∧ Z.testbit x k = true ∧ Z.testbit y k = true.
Proof.
  intros H. change 8 with (2 ^ 3) in H.
  destruct (Z.testbit x 0 && Z.testbit y 0) eqn:E0; [exists 0; split; [lia|by apply andb_true_iff]|].
  destruct (Z.testbit x 1 && Z.testbit y 1) eqn:E1; [exists 1; split; [lia|by apply andb_true_iff]|].
  destruct (Z.testbit x 2 && Z.testbit y 2) eqn:E2; [exists 2; split; [lia|by apply andb_true_iff]|].
  destruct H. apply Z.bits_inj'. intros k Hk. rewrite Z.land_spec, Z.bits_0.
  destruct (Z.lt_ge_cases k 3); [|by rewrite Z.mod_pow2_bits_high by lia].
  rewrite Z.mod_pow2_bits_low by lia. assert (k = 0 ∨ k = 1 ∨ k = 2) as [-> | [-> | ->]] by lia; done.
Qed.
(** The super user may do everything; the others are given access by the bits of the first
    class they belong to, owner, group or others, and any one of the requested bits is enough. *)
Theorem ext2_permission_spec c i mask : ext2_permission c i mask = 0 ↔
  c_uid c = 0 ∨ c_euid c = 0 ∨
  ∃ k, 0 <= k < 3 ∧ Z.testbit (i_mode i) (k + perm_shift c i) = true ∧ Z.testbit mask k = true.
Proof.
  unfold ext2_permission.
  destruct (Z.eqb_spec (c_uid c) 0) as [|Hu]; [tauto|]. destruct (Z.eqb_spec (c_euid c) 0) as [|He]; [tauto|].
  cbn [negb andb]. set (mode := (if (c_uid c =? i_uid i) || (c_euid c =? i_uid i) then Z.shiftr (i_mode i) 6 else _) : Z).
  assert (0 <= perm_shift c i ∧ mode = Z.shiftr (i_mode i) (perm_shift c i)) as [Hs ->].
  { unfold mode, perm_shift. destruct (Z.eqb_spec (c_uid c) (i_uid i)), (Z.eqb_spec (c_euid c) (i_uid i)),
      (Z.eqb_spec (c_gid c) (i_gid i)), (Z.eqb_spec (c_egid c) (i_gid i));
      repeat case_decide; (split; [lia|]); (done || tauto). }
  change 7 with (Z.ones 3). rewrite Z.land_ones by lia. change (2 ^ 3) with 8.
  destruct (Z.eqb_spec (Z.land (Z.shiftr (i_mode i) (perm_shift c i) mod 8) mask) 0) as [E|E]; cbn [negb].
  - split; [done|]. intros [?|[?|(k & Hk & H1 & H2)]]; [done|done|exfalso].
    assert (Z.testbit (Z.land (Z.shiftr (i_mode i) (perm_shift c i) mod 2 ^ 3) mask) k = true) as Hb.
    { by rewrite Z.land_spec, Z.mod_pow2_bits_low, Z.shiftr_spec, H1, H2 by lia. }
    change (2 ^ 3) with 8 in Hb. by rewrite E, Z.bits_0 in Hb.
  - split; [|done]. intros _. right. right. apply land_some_bit in E as (k & Hk & H1 & H2).
    rewrite Z.shiftr_spec in H1 by lia. by exists k.
Qed.

(** ** A small directory: ., .. and a *)
Module DirDemo.
Import Ext2Demo.
Definition entry_bytes (d : dent) : list Z :=
  [d_inode d; 0; 0; 0; d_rec_len d mod 256; d_rec_len d / 256; Z.of_nat (length (d_name d)); d_file_type d] ++ d_name d.
Definition e_dot : dent := MkDent 12 12 [46] 2.
Definition e_dotdot : dent := MkDent 2 12 [46; 46] 2.
Definition e_a : dent := MkDent 13 1000 [97] 1.
Definition dir_bytes : list Z := entry_bytes e_dot ++ [0; 0; 0] ++ entry_bytes e_dotdot ++ [0; 0] ++ entry_bytes e_a.
Definition dir_block (o : Z) : Z := nth (Z.to_nat o) dir_bytes 0.
Definition inodes (i : nat) : ext2_inode_m :=
  match i with
  | O => cached_ino (ino0 <| i_mode := 16877 |> <| i_block := λ k, if k =? 0 then 10 else 0 |> <| i_size := 1024 |>) 12 0 1
  | 1%nat => cached_ino ino0 13 0 1
  | _ => cached_ino ino0 14 0 1
  end.
Definition dir_fs : ext2 := (fs 0) <| e_disk ::= <[10 := dir_block]> |> <| e_inode := inodes |>.
#[export] Instance cache : InodeCache := {| ext2_iget n := mret (Some (Z.to_nat n)) |}.

Ltac demo_entry := split; [by vm_compute|split; [by vm_compute|split; [by vm_compute|split; [by vm_compute|]]]];
  intros [|[|i]] c Hi; simpl in Hi; simplify_eq; by vm_compute.
Lemma demo_chain m : (∀ o, 0 <= o < 48 → m o = dir_block o) → chain m 1024 0 [e_dot; e_dotdot; e_a].
Proof.
  intros Hm. assert (chain dir_block 1024 0 [e_dot; e_dotdot; e_a]) as (H1 & L1 & H2 & L2 & H3 & L3 & _).
  { split; [demo_entry|split; [by vm_compute|split; [demo_entry|split; [by vm_compute|split; [demo_entry|split; by vm_compute]]]]]. }
  split; [|split; [done|split; [|split; [done|split; [|by split]]]]].
  - eapply dent_at_frame; [|exact H1]. intros a Ha. apply Hm. simpl in Ha. lia.
  - eapply dent_at_frame; [|exact H2]. intros a Ha. apply Hm. simpl in Ha. lia.
  - eapply dent_at_frame; [|exact H3]. intros a Ha. apply Hm. simpl in Ha. lia.
Qed.
Lemma demo_view : chain (view dir_fs 10) 1024 0 [e_dot; e_dotdot; e_a].
Proof. by apply demo_chain. Qed.
End DirDemo.
Import Ext2Demo DirDemo.

Lemma remove_dir_entry_correct_witness : ∃ e' m' l', ext2_remove_dir_entry [97] 1 10 (load 10 dir_fs) = Ok (0, e') ∧
  dir_written 10 m' (load 10 dir_fs) e' ∧ chain m' 1024 0 l' ∧ map ident l' = [(12, [46], 2); (2, [46; 46], 2)].
Proof.
  destruct (remove_dir_entry_correct [97] 1 10 (load 10 dir_fs) e_dot [e_dotdot; e_a])
    as [[Hno _]|(l1 & d & l2 & m' & e' & l' & Hl & Hd & Hne & R & W & C & I)]; [done|by apply demo_chain|done| |].
  - apply Forall_cons in Hno as [_ [Ha _]%Forall_cons]. by vm_compute in Ha.
  - destruct l1 as [|x1 [|x2 l1]].
    + injection Hl as <- <-. by vm_compute in Hd.
    + injection Hl as <- <- <-. exists e', m', l'. split; [exact R|]. split; [exact W|]. split; [exact C|exact I].
    + injection Hl as <- <- Hl. by destruct l1.
Defined.
Lemma find_entry_in_block_correct_witness : ∃ e', find_entry_in_block FIND_NONE 10 [97] dir_fs = Ok ((Some 13%nat, FIND_NONE, Some 10), e') ∧
  find_entry_in_block FIND_NONE 10 [98] dir_fs = Undef "read outside b_data".
Proof.
  assert (Forall in_use [e_dotdot; e_a]) as Hu by (repeat constructor; done).
  exists (load 10 dir_fs). split.
  - apply (find_entry_in_block_correct [97] FIND_NONE 10 dir_fs e_dot [e_dotdot; e_a]); [done|done|apply demo_view|done|done].
  - apply (find_entry_in_block_correct [98] FIND_NONE 10 dir_fs e_dot [e_dotdot; e_a]); [done|done|apply demo_view|done].
Defined.
Lemma add_dir_entry_correct_witness : ∃ e', ext2_add_dir_entry 3 0 2 [98; 99] dir_fs = Ok (0, e') ∧
  chain (view e' 10) 1024 0 [e_dot; e_dotdot; e_a <| d_rec_len := 12 |>; MkDent 14 988 [98; 99] 1].
Proof.
  destruct (add_dir_entry_correct 0 2 [98; 99] dir_fs [e_dot; e_dotdot] e_a 3) as (e' & R & _ & C);
    [by vm_compute|done|done|apply demo_view|by vm_compute|by vm_compute|done|repeat constructor; done|by vm_compute|
     by vm_compute|simpl; lia|].
  exists e'. split; [exact R|exact C].
Defined.
