(* ===== verification/Inode.v ===== *)
(** The inode cache (sys/fs/ext2/inode.c): a ring of free inodes, hash queues, and the inodes in the
    tables of the groups on the disk. Other processes do not hold the locks of the inodes meanwhile;
    the lock of an inode belongs to its process, which does not wait for itself. *)
From S2P Require Import Prelude DList HashQ Proc Bitmap Ext2 Ext2File Ext2Dir.

Definition NR_INODE_CACHE : nat := 128.
Definition NR_INODE_HASH : Z := 100.
Definition NODEV : Z := 0.
Definition CONFIG_FS_ROOT_DEV : Z := 768.
Definition INODE_HASH (dev num : Z) : Z := Z.lxor dev num mod NR_INODE_HASH.

(** Pointers to inodes: a slot of the cache, the first address behind it, or the dummy head. *)
Definition free_list : nat := S NR_INODE_CACHE.
Definition is_slot (p : nat) : Prop := (p < NR_INODE_CACHE)%nat.
Definition ino_valid (p : nat) : bool := (p <? NR_INODE_CACHE)%nat || (p =? free_list)%nat.
Definition get_ino (p : nat) : E ext2_inode_m :=
  e ← get; if ino_valid p then mret (e_inode e p) else undef "pointer behind the inode cache".
Definition upd_ino (p : nat) (f : ext2_inode_m → ext2_inode_m) : E unit :=
  if ino_valid p then upd_inode_m p f else undef "pointer behind the inode cache".

(** ** [struct ext2_inode] in a block *)
Definition EXT2_INODE_BYTES : Z := 128.
Definition decode_inode (m : Z → Z) (o : Z) : ext2_inode := {|
  i_mode := half_at m o; i_uid := half_at m (o + 2); i_size := quad_at m (o + 4);
  i_atime := quad_at m (o + 8); i_ctime := quad_at m (o + 12); i_mtime := quad_at m (o + 16);
  i_dtime := quad_at m (o + 20); i_gid := half_at m (o + 24); i_links_count := half_at m (o + 26);
  i_blocks := quad_at m (o + 28); i_block := λ k, quad_at m (o + 40 + 4 * k); i_other := λ a, quad_at m (o + a)
|}.
(** The 32-bit word of the structure at the offset [w]. *)
Definition inode_word (i : ext2_inode) (w : Z) : Z :=
  if w =? 0 then i_mode i + 65536 * i_uid i else if w =? 4 then i_size i else if w =? 8 then i_atime i
  else if w =? 12 then i_ctime i else if w =? 16 then i_mtime i else if w =? 20 then i_dtime i
  else if w =? 24 then i_gid i + 65536 * i_links_count i else if w =? 28 then i_blocks i
  else if (40 <=? w) && (w <? 100) then i_block i ((w - 40) / 4) else i_other i w.
Definition inode_byte (i : ext2_inode) (a : Z) : Z :=
  let w := inode_word i (4 * (a / 4)) in
  let k := a mod 4 in
  (if k =? 0 then w else if k =? 1 then w / 256 else if k =? 2 then w / 65536 else w / 16777216) mod 256.
Definition encode_inode (i : ext2_inode) (o : Z) (m : Z → Z) : Z → Z := λ a,
  if (o <=? a) && (a <? o + EXT2_INODE_BYTES) then inode_byte i (a - o) else m a.

Definition EXT2_INODES_PER_BLOCK (s : ext2_superblock) : Z := EXT2_BLOCKSIZE s / EXT2_INODE_SIZE s.
Definition EXT2_BLOCK_GROUP (num : Z) (s : ext2_superblock) : Z := u32 (num - 1) / EXT2_INODES_PER_GROUP s.
Definition EXT2_INODE_INDEX (num : Z) (s : ext2_superblock) : Z := u32 (num - 1) mod EXT2_INODES_PER_GROUP s.
Definition EXT2_INODE_BLOCK (ind : Z) (s : ext2_superblock) : Z := ind * EXT2_INODE_SIZE s / EXT2_BLOCKSIZE s.

(** The links of the inodes. *)
Definition hash_next (e : ext2) (p : nat) : option nat := if ino_valid p then i_next (e_inode e p) else None.
Definition hash_prev (e : ext2) (p : nat) : option nat := if ino_valid p then i_prev (e_inode e p) else None.
Definition free_next (e : ext2) (p : nat) : option nat := if ino_valid p then i_next_free (e_inode e p) else None.
Definition free_prev (e : ext2) (p : nat) : option nat := if ino_valid p then i_prev_free (e_inode e p) else None.
Definition INODE_WALK : nat := NR_INODE_CACHE + 1.

Section inode.
Context `{DEV : Device}.

(** The block of the inode table that holds the inode, and the offset in it. *)
Definition inode_place (num : Z) : E (Z * Z) :=
  e ← get;
  let sb := e_sb e in
  bgd ← bgd_at (EXT2_BLOCK_GROUP num sb);
  let index := EXT2_INODE_INDEX num sb in
  let block := EXT2_INODE_BLOCK index sb in
  mret (u32 (block + bg_inode_table bgd), EXT2_INODE_SIZE sb * (index mod EXT2_INODES_PER_BLOCK sb)).
Definition read_inode (ip : nat) : E unit :=
  i ← get_ino ip;
  '(b, o) ← inode_place (i_num i);
  bread_unchecked b ;;
  e ← get;
  if in_block o EXT2_INODE_BYTES (blksize e) then upd_ino ip (λ i, i <| i_ino := decode_inode (e_blk e b) o |>)
  else undef "read outside b_data".
Definition write_inode (ip : nat) : E unit :=
  i ← get_ino ip;
  '(b, o) ← inode_place (i_num i);
  bread_unchecked b ;;
  e ← get;
  if in_block o EXT2_INODE_BYTES (blksize e) then
    upd_blk b (encode_inode (i_ino i) o) ;;
    upd_ino ip (λ i, i <| i_flags ::= λ f, Z.land f (Z.lnot I_MODIFIED) |>) ;;
    mark_dwrite b
  else undef "write outside b_data".

Definition has_num (dev num : Z) (i : ext2_inode_m) : bool := (i_dev i =? dev) && (i_num i =? num).
Definition in_hash_queue (dev num : Z) : E (option nat) :=
  q ← gets (λ e, e_hash_queues e (INODE_HASH dev num));
  match q with
  | None => mret None
  | Some ip => reads (λ e, ring_search INODE_WALK (hash_next e) (λ p, has_num dev num (e_inode e p)) ip ip)
  end.
(** The links of [ip] itself are left as they are. *)
Definition remove_from_free_list (ip : nat) : E unit :=
  i ← get_ino ip;
  match i_prev_free i, i_next_free i with
  | None, None => mret tt
  | Some p, Some n =>
      upd_ino p (λ i, i <| i_next_free := Some n |>) ;;
      i ← get_ino ip;
      n ← deref (i_next_free i) "null i_next_free";
      upd_ino n (λ j, j <| i_prev_free := i_prev_free i |>)
  | _, _ => panic "remove_from_free_list: inode free list has been corrupted"
  end.
Definition set_hash_queue (h : Z) (q : option nat) : E unit := modify (λ e, e <| e_hash_queues ::= <[h := q]> |>).
Definition remove_from_hash_queue (ip : nat) : E unit :=
  i ← get_ino ip;
  match i_prev i, i_next i with
  | None, None => mret tt
  | None, Some _ => panic "remove_from_hash_queue: inode hash queue corrupted"
  | Some p, next =>
      (if bool_decide (next = Some ip) && bool_decide (p = ip) then set_hash_queue (INODE_HASH (i_dev i) (i_num i)) None
       else
         upd_ino p (λ j, j <| i_next := next |>) ;;
         n ← deref next "null i_next";
         upd_ino n (λ j, j <| i_prev := Some p |>)) ;;
      upd_ino ip (λ j, j <| i_next := None |> <| i_prev := None |>)
  end.
Definition put_into_hash_queue (ip : nat) : E unit :=
  i ← get_ino ip;
  let h := INODE_HASH (i_dev i) (i_num i) in
  q ← gets (λ e, e_hash_queues e h);
  match q with
  | None =>
      set_hash_queue h (Some ip) ;;
      upd_ino ip (λ j, j <| i_next := Some ip |>) ;;
      upd_ino ip (λ j, j <| i_prev := Some ip |>)
  | Some ip1 =>
      ip2 ← reads (λ e, find_last INODE_WALK (hash_next e) ip1 ip1);
      upd_ino ip2 (λ j, j <| i_next := Some ip |>) ;;
      upd_ino ip (λ j, j <| i_prev := Some ip2 |>) ;;
      upd_ino ip (λ j, j <| i_next := Some ip1 |>) ;;
      upd_ino ip1 (λ j, j <| i_prev := Some ip |>)
  end.
Definition put_into_free_list (ip : nat) : E unit :=
  i ← get_ino ip;
  if negb (i_count i =? 0) then panic "put_into_free_list: inode reference count is not zero" else
  upd_ino ip (λ j, j <| i_next_free := Some free_list |>) ;;
  f ← get_ino free_list;
  upd_ino ip (λ j, j <| i_prev_free := i_prev_free f |>) ;;
  f ← get_ino free_list;
  p ← deref (i_prev_free f) "null i_prev_free";
  upd_ino p (λ j, j <| i_next_free := Some ip |>) ;;
  upd_ino free_list (λ j, j <| i_prev_free := Some ip |>).

(** ** Taking and releasing *)
Definition ext2_iget (dev num : Z) : E (option nat) :=
  found ← in_hash_queue dev num;
  match found with
  | Some ip =>
      remove_from_free_list ip ;;
      upd_ino ip (λ i, i <| i_count ::= λ c, s32 (c + 1) |>) ;;
      mret (Some ip)
  | None =>
      f ← get_ino free_list;
      match i_next_free f with
      | None => mret None
      | Some ip =>
          remove_from_free_list ip ;;
          remove_from_hash_queue ip ;;
          upd_ino ip (λ i, i <| i_dev := dev |>) ;;
          upd_ino ip (λ i, i <| i_num := num |>) ;;
          put_into_hash_queue ip ;;
          read_inode ip ;;
          upd_ino ip (λ i, i <| i_count := 1 |>) ;;
          mret (Some ip)
      end
  end.
Definition is_modified (i : ext2_inode_m) : bool := negb (Z.land (i_flags i) I_MODIFIED =? 0).
Definition ext2_iput (ip : nat) : E unit :=
  i ← get_ino ip;
  upd_ino ip (λ i, i <| i_count ::= λ c, s32 (c - 1) |>) ;;
  if i_count i =? 0 then panic "ext2_iput: ip->i_count == 0" else
  i ← get_ino ip;
  if i_count i =? 0 then
    when (i_links_count (i_ino i) =? 0) (
      e ← get;
      upd_inode ip (λ i, i <| i_dtime := e_now e |>) ;;
      set_modified ip ;;
      ext2_itrunc ip ;;
      ext2_ifree (i_num i)) ;;
    i ← get_ino ip;
    when (is_modified i) (write_inode ip) ;;
    put_into_free_list ip
  else mret tt.
Definition ext2_public_iput : nat → E unit := ext2_iput.

Definition ext2_inode_sync : E unit :=
  for_each (seq 0 NR_INODE_CACHE) (λ ip,
    i ← get_ino ip;
    when (negb (i_dev i =? NODEV) && is_modified i) (
      upd_ino ip (λ i, i <| i_count ::= λ c, s32 (c + 1) |>) ;;
      write_inode ip ;;
      ext2_iput ip)).

(** [raw] and [queues] say whether [kvmalloc] returned memory. *)
Definition ext2_inodes_init (queues raw : bool) : E unit :=
  if negb queues then panic "Unable to allocate hash table for inodes: kvamlloc returned NULL" else
  for_each (seq 0 (Z.to_nat NR_INODE_HASH)) (λ h, set_hash_queue (Z.of_nat h) None) ;;
  upd_ino free_list (λ i, i <| i_next_free := if raw then Some 0%nat else None |>) ;;
  if negb raw then panic "Unable to allocate inode cache: kvmalloc returned NULL" else
  for_each (seq 0 NR_INODE_CACHE) (λ ip,
    upd_ino ip (λ i, i <| i_dev := NODEV |>
      <| i_prev_free := Some (if (ip =? 0)%nat then free_list else Nat.pred ip) |>
      <| i_next_free := Some (if (ip =? NR_INODE_CACHE - 1)%nat then free_list else S ip) |>
      <| i_next := None |> <| i_prev := None |> <| i_count := 0 |> <| i_flags := 0 |>)) ;;
  upd_ino free_list (λ i, i <| i_prev_free := Some NR_INODE_CACHE |>).

Inductive inode_ctl_cmd := INODE_GET_MODE | INODE_GET_MTIME | INODE_GET_ATIME | INODE_GET_CTIME.
(** What is stored at [res]. *)
Definition ext2_inode_ctl (ip : nat) (cmd : inode_ctl_cmd) : E Z :=
  i ← get_ino ip;
  mret match cmd with
  | INODE_GET_MODE => i_mode (i_ino i)
  | INODE_GET_MTIME => i_mtime (i_ino i)
  | INODE_GET_ATIME => i_atime (i_ino i)
  | INODE_GET_CTIME => i_ctime (i_ino i)
  end.
End inode.

(** ** Running the operations on the links *)
Definition set_ino (p : nat) (f : ext2_inode_m → ext2_inode_m) (e : ext2) : ext2 := e <| e_inode ::= λ t, <[p := f (t p)]> t |>.
Lemma upd_ino_run {A} p f (m : E A) e : ino_valid p = true → (upd_ino p f ;; m) e = m (set_ino p f e).
Proof. intros Hv. unfold upd_ino. by rewrite Hv. Qed.
Lemma upd_ino_last p f e : ino_valid p = true → upd_ino p f e = Ok (tt, set_ino p f e).
Proof. intros Hv. unfold upd_ino. by rewrite Hv. Qed.
Lemma get_ino_run {A} p (m : ext2_inode_m → E A) e : ino_valid p = true → (get_ino p ≫= m) e = m (e_inode e p) e.
Proof. intros Hv. unfold get_ino. change ((get ≫= ?k) e) with (k e e). unfold mbind, M_bind. simpl. by rewrite Hv. Qed.
Lemma set_ino_at p q f e : e_inode (set_ino p f e) q = if decide (p = q) then f (e_inode e q) else e_inode e q.
Proof. unfold set_ino. rec_simpl. case_decide; [subst; apply fn_insert_eq|by apply fn_insert_ne]. Qed.
Lemma slot_valid p : is_slot p → ino_valid p = true.
Proof. unfold is_slot, ino_valid. intros H. by rewrite (proj2 (Nat.ltb_lt _ _) H). Qed.
Lemma slot_not_head p : is_slot p → p ≠ free_list.
Proof. unfold is_slot, free_list. lia. Qed.
Lemma slots_length l : NoDup l → Forall is_slot l → (length l <= NR_INODE_CACHE)%nat.
Proof.
  intros Hn Hs. assert (l ⊆+ seq 0 NR_INODE_CACHE) as Hl.
  { apply NoDup_submseteq; [done|]. intros p Hp. rewrite Forall_forall in Hs. apply seq_elem. specialize (Hs p Hp). unfold is_slot in Hs. lia. }
  apply submseteq_length in Hl. by rewrite length_seq in Hl.
Qed.

(** Only links differ. *)
Definition body (i : ext2_inode_m) : ext2_inode * Z * Z * Z * Z := (i_ino i, i_dev i, i_num i, i_flags i, i_count i).
Record links_step (e e' : ext2) : Prop := {
  ls_rest : e' = e <| e_inode := e_inode e' |> <| e_hash_queues := e_hash_queues e' |>;
  ls_body p : body (e_inode e' p) = body (e_inode e p)
}.
Lemma links_step_trans e1 e2 e3 : links_step e1 e2 → links_step e2 e3 → links_step e1 e3.
Proof. intros [A1 A2] [B1 B2]. split; [rewrite B1 at 1; by rewrite A1 at 1|intros p; by rewrite B2]. Qed.
Lemma links_step_set e p f : (∀ i, body (f i) = body i) → links_step e (set_ino p f e).
Proof. intros Hf. split; [by destruct e|]. intros q. rewrite set_ino_at. by case_decide. Qed.

(** ** The free list *)
Record free_ok (e : ext2) (fl : list nat) : Prop := {
  fo_ring : ring (free_next e) (free_prev e) (free_list :: fl);
  fo_nodup : NoDup fl;
  fo_slots : Forall is_slot fl
}.
Lemma free_ok_ext e e' fl : free_ok e fl → (∀ p, free_next e' p = free_next e p) → (∀ p, free_prev e' p = free_prev e p) → free_ok e' fl.
Proof. intros [H1 H2 H3] Hn Hp. split; [by eapply ring_frame|done|done]. Qed.
Lemma free_elem e fl p : free_ok e fl → p ∈ fl → is_slot p.
Proof. intros H Hp. pose proof (fo_slots _ _ H) as Hs. rewrite Forall_forall in Hs. by apply Hs. Qed.
Lemma free_node_valid e fl p : free_ok e fl → p ∈ free_list :: fl → ino_valid p = true.
Proof. intros H [->|Hp]%elem_of_cons; [done|]. eapply slot_valid, free_elem; done. Qed.
Lemma free_ring_nodup e fl : free_ok e fl → NoDup (free_list :: fl).
Proof. intros H. apply NoDup_cons. split; [|apply H]. intros Hin. by apply (slot_not_head free_list); [eapply free_elem|]. Qed.
Lemma free_head e fl : free_ok e fl → free_next e free_list = Some (default free_list (head fl)).
Proof. intros [Hr _ _]. destruct fl; simpl in Hr; by destruct Hr as [Hr _]. Qed.

(** The hash queues are left alone. *)
Definition same_hash (e e' : ext2) : Prop := e_hash_queues e' = e_hash_queues e ∧
  ∀ p, i_next (e_inode e' p) = i_next (e_inode e p) ∧ i_prev (e_inode e' p) = i_prev (e_inode e p).
Definition same_free (e e' : ext2) : Prop :=
  ∀ p, i_next_free (e_inode e' p) = i_next_free (e_inode e p) ∧ i_prev_free (e_inode e' p) = i_prev_free (e_inode e p).
Lemma same_hash_set p f e : (∀ i, i_next (f i) = i_next i ∧ i_prev (f i) = i_prev i) → same_hash e (set_ino p f e).
Proof. intros Hf. split; [done|]. intros q. rewrite set_ino_at. by case_decide. Qed.
Lemma same_hash_trans e1 e2 e3 : same_hash e1 e2 → same_hash e2 e3 → same_hash e1 e3.
Proof. intros [A1 A2] [B1 B2]. split; [congruence|]. intros p. destruct (A2 p), (B2 p). split; congruence. Qed.
Lemma same_free_set p f e : (∀ i, i_next_free (f i) = i_next_free i ∧ i_prev_free (f i) = i_prev_free i) → same_free e (set_ino p f e).
Proof. intros Hf q. rewrite set_ino_at. by case_decide. Qed.
Lemma same_free_trans e1 e2 e3 : same_free e1 e2 → same_free e2 e3 → same_free e1 e3.
Proof. intros A B p. destruct (A p), (B p). split; congruence. Qed.
Lemma same_free_ok e e' fl : same_free e e' → free_ok e fl → free_ok e' fl.
Proof. intros S H. eapply free_ok_ext; [done|..]; intros p; unfold free_next, free_prev; destruct (S p) as [E1 E2]; by rewrite ?E1, ?E2. Qed.

(** The links of the inodes that are not in the list are what they were. *)
Definition stale (fl : list nat) (e e' : ext2) : Prop := ∀ q, q ∉ free_list :: fl →
  i_next_free (e_inode e' q) = i_next_free (e_inode e q) ∧ i_prev_free (e_inode e' q) = i_prev_free (e_inode e q).
Lemma inode_remove_free_ok e l1 p l2 : free_ok e (l1 ++ p :: l2) →
  ∃ e', remove_from_free_list p e = Ok (tt, e') ∧ free_ok e' (l1 ++ l2) ∧ links_step e e' ∧ same_hash e e' ∧ stale (l1 ++ l2) e e'.
Proof.
  intros H. pose proof H as [Hr Hnd Hs]. pose proof (free_ring_nodup _ _ H) as Hnd'.
  assert (is_slot p) as Hp by (eapply free_elem; [done|set_solver]).
  pose proof (slot_valid p Hp) as Hv.
  destruct (ring_lookup _ _ _ p Hr) as (n & q & Hn & Hq & Hin & Hiq); [set_solver|].
  pose proof (free_node_valid _ _ _ H Hin) as Vn. pose proof (free_node_valid _ _ _ H Hiq) as Vq.
  assert (n ≠ p ∧ q ≠ p) as [Hnp Hqp].
  { change (free_list :: l1 ++ p :: l2) with ((free_list :: l1) ++ p :: l2) in Hr, Hnd'.
    pose proof (ring_rotate _ _ _ _ Hr) as Hr'. rewrite (comm (++)) in Hnd'. destruct (l2 ++ free_list :: l1) as [|x m] eqn:E; [by destruct l2|].
    change ((p :: l2) ++ free_list :: l1) with (p :: l2 ++ free_list :: l1) in Hr', Hnd'. rewrite E in Hr', Hnd'. apply NoDup_cons in Hnd' as [Hpm _].
    destruct m as [|y m _] using rev_ind.
    - simpl in Hr'. destruct Hr' as (R1 & R2 & R3 & R4). split; [rewrite R1 in Hn|rewrite R4 in Hq]; simplify_eq; intros ->; set_solver.
    - simpl in Hr'. destruct Hr' as (R1 & R2 & R3). apply links_app in R3 as [_ [_ R4]].
      split; [rewrite R1 in Hn|rewrite R4 in Hq]; simplify_eq; intros ->; set_solver. }
  set (e' := set_ino n (λ i, i <| i_prev_free := Some q |>) (set_ino q (λ i, i <| i_next_free := Some n |>) e)).
  assert (remove_from_free_list p e = Ok (tt, e')) as R.
  { unfold remove_from_free_list. rewrite get_ino_run by done. unfold free_next, free_prev in Hn, Hq. rewrite Hv in Hn, Hq.
    rewrite Hq, Hn. rewrite upd_ino_run, get_ino_run by done. rewrite set_ino_at, decide_False by done. rewrite Hn.
    change ((deref (Some n) _ ≫= ?m) ?x) with (m n x). cbv beta. rewrite upd_ino_last by done. by rewrite Hq. }
  assert (∀ a, a ≠ p → free_next e' a = if decide (a = q) then Some n else free_next e a) as Hnf.
  { intros a Ha. unfold free_next, e'. rewrite !set_ino_at. destruct (decide (a = q)) as [->|].
    - rewrite Vq, (decide_True (P := q = q)) by done. by destruct (decide (n = q)).
    - rewrite (decide_False (P := q = a)) by congruence. by destruct (decide (n = a)). }
  assert (∀ a, a ≠ p → free_prev e' a = if decide (a = n) then Some q else free_prev e a) as Hpf.
  { intros a Ha. unfold free_prev, e'. rewrite !set_ino_at. destruct (decide (a = n)) as [->|].
    - by rewrite Vn, (decide_True (P := n = n)).
    - rewrite (decide_False (P := n = a)) by congruence. by destruct (decide (q = a)). }
  exists e'. split; [done|]. split; [|split].
  - change (free_list :: l1 ++ p :: l2) with ((free_list :: l1) ++ p :: l2) in Hr, Hnd'. split.
    + destruct (ring_remove _ _ (free_next e') (free_prev e') _ _ _ _ _ Hr Hnd' ltac:(by destruct l2) Hn Hq Hnf Hpf) as [Hr' _].
      by apply ring_rotate in Hr'.
    + rewrite <-Permutation_middle in Hnd. by apply NoDup_cons in Hnd as [_ Hnd].
    + rewrite Forall_app in Hs |- *. rewrite Forall_cons in Hs. tauto.
  - eapply links_step_trans; by apply links_step_set.
  - split; [eapply same_hash_trans; by apply same_hash_set|]. intros a Ha. unfold e'. rewrite !set_ino_at.
    rewrite !decide_False; [done| |]; intros ->; set_solver.
Qed.
Lemma inode_put_free_ok e fl p : free_ok e fl → is_slot p → p ∉ fl → i_count (e_inode e p) = 0 →
  ∃ e', put_into_free_list p e = Ok (tt, e') ∧ free_ok e' (fl ++ [p]) ∧ links_step e e' ∧ same_hash e e'.
Proof.
  intros H Hp Hn Hc. pose proof (slot_valid p Hp) as Hv. pose proof (slot_not_head p Hp) as Hne.
  pose proof (free_ring_nodup _ _ H) as Hnd. pose proof (fo_ring _ _ H) as Hr.
  set (q := default free_list (last fl)).
  assert (last (free_list :: fl) = Some q) as Hlast by apply last_cons_default.
  assert (q ∈ free_list :: fl) as Hq by (by apply last_Some_elem_of). pose proof (free_node_valid _ _ _ H Hq) as Vq.
  assert (q ≠ p) as Hqp by (intros ->; set_solver).
  assert (i_prev_free (e_inode e free_list) = Some q) as Hpq.
  { change (free_prev e free_list = Some q). subst q. destruct fl as [|x fl _] using rev_ind; [by destruct Hr|].
    rewrite last_snoc. simpl in Hr. apply links_app in Hr as [_ [_ Hr]]. done. }
  set (e1 := set_ino p (λ j, j <| i_prev_free := Some q |>) (set_ino p (λ j, j <| i_next_free := Some free_list |>) e)).
  set (e' := set_ino free_list (λ j, j <| i_prev_free := Some p |>) (set_ino q (λ j, j <| i_next_free := Some p |>) e1)).
  exists e'. split; [|split; [|split]].
  - unfold put_into_free_list. rewrite get_ino_run by done. rewrite Hc. cbn [Z.eqb negb].
    rewrite upd_ino_run by done. rewrite get_ino_run by done. rewrite set_ino_at, decide_False by done. rewrite Hpq.
    rewrite upd_ino_run by done. rewrite get_ino_run by done. rewrite !set_ino_at, !decide_False by done. rewrite Hpq.
    change ((deref (Some q) _ ≫= ?m) ?x) with (m q x). cbv beta. rewrite upd_ino_run by done. by apply upd_ino_last.
  - assert (∀ a, a ≠ p → a ≠ q → free_next e' a = free_next e a) as Fn.
    { intros a Ha Hb. unfold free_next, e', e1. rewrite !set_ino_at, !(decide_False (P := p = a)), !(decide_False (P := q = a)) by congruence.
      by destruct (decide (free_list = a)). }
    assert (∀ a, a ≠ p → a ≠ free_list → free_prev e' a = free_prev e a) as Fp.
    { intros a Ha Hb. unfold free_prev, e', e1. rewrite !set_ino_at, !(decide_False (P := p = a)), !(decide_False (P := free_list = a)) by congruence.
      by destruct (decide (q = a)). }
    split; [|apply NoDup_app; split; [apply H|split; [set_solver|apply NoDup_singleton]]|apply Forall_app; split; [apply H|by apply Forall_singleton]].
    apply (ring_insert_tail (free_next e) (free_prev e) _ _ _ _ q); try done; [set_solver|..].
    + unfold free_next, e', e1. rewrite Hv, !set_ino_at, (decide_False (P := free_list = p)), (decide_False (P := q = p)), !(decide_True (P := p = p)) by done. done.
    + unfold free_prev, e', e1. rewrite Hv, !set_ino_at, (decide_False (P := free_list = p)), (decide_False (P := q = p)), !(decide_True (P := p = p)) by done. done.
    + unfold free_next, e', e1. rewrite Vq, !set_ino_at, (decide_True (P := q = q)) by done. by destruct (decide (free_list = q)).
  - do 3 (eapply links_step_trans; [|by apply links_step_set]). by apply links_step_set.
  - do 3 (eapply same_hash_trans; [|by apply same_hash_set]). by apply same_hash_set.
Qed.

(** ** The hash queues *)
Definition ihq (e : ext2) : hashq nat := HQ (hash_next e) (hash_prev e) (e_hash_queues e) (λ p, (i_dev (e_inode e p), i_num (e_inode e p))).
Definition hash_ok (e : ext2) (qs : list (list nat)) : Prop := hq_inv is_slot (ihq e) qs.
Definition key_hash (k : Z * Z) : Z := INODE_HASH (fst k) (snd k).
(** The slot of a cached inode. *)
Definition ilookup (e : ext2) (dev num : Z) : option nat := hq_lookup NR_INODE_CACHE key_hash (ihq e) (dev, num).

Lemma has_key_num e d n p : has_key (ihq e) (d, n) p = has_num d n (e_inode e p).
Proof.
  apply eq_iff_eq_true. unfold has_key, has_num. rewrite bool_decide_eq_true, andb_true_iff, !Z.eqb_eq. simpl. naive_solver.
Qed.
Lemma inode_search_ok e qs d n : hash_ok e qs → in_hash_queue d n e = Ok (ilookup e d n, e) ∧
  ∀ p, ilookup e d n = Some p → p ∈ mjoin qs ∧ i_dev (e_inode e p) = d ∧ i_num (e_inode e p) = n.
Proof.
  intros H. destruct (search_ok is_slot NR_INODE_CACHE key_hash slots_length (ihq e) (d, n) qs H) as [R Hp]. split.
  - unfold in_hash_queue. change ((gets ?f ≫= ?m) e) with (m (f e) e). cbv beta. fold (ilookup e d n) in R. unfold hq_search in R.
    change (hq_heads (ihq e) (key_hash (d, n))) with (e_hash_queues e (INODE_HASH d n)) in R.
    destruct (e_hash_queues e (INODE_HASH d n)) as [t|].
    + unfold reads, INODE_WALK. rewrite (ring_search_ext _ _ (λ p, has_num d n (e_inode e p)) (has_key (ihq e) (d, n)))
        by (intros; symmetry; apply has_key_num).
      change (hash_next e) with (hq_next (ihq e)). by rewrite R.
    + injection R as <-. done.
  - intros p [Hin Hk]%Hp. simpl in Hk. naive_solver.
Qed.
Lemma hash_ok_ext e e' qs : same_hash e e' → hash_ok e qs → hash_ok e' qs.
Proof.
  intros [Eq E] H. eapply hq_ext; [exact H|..]; simpl; [intros p; unfold hash_next; by destruct (E p) as [-> _]|
    intros p; unfold hash_prev; by destruct (E p) as [_ ->]|by rewrite Eq].
Qed.
Lemma ilookup_ext e e' qs d n : hash_ok e qs → same_hash e e' →
  (∀ p, p ∈ mjoin qs → has_num d n (e_inode e' p) = has_num d n (e_inode e p)) → ilookup e' d n = ilookup e d n.
Proof.
  intros H [Eq E] Hb. apply (hq_lookup_ext _ _ _ slots_length _ _ _ _ H); simpl; [intros p; unfold hash_next; by destruct (E p) as [-> _]|
    intros p; unfold hash_prev; by destruct (E p) as [_ ->]|by rewrite Eq|]. intros p Hp. rewrite !has_key_num. by apply Hb.
Qed.
Lemma inode_remove_hash_off e qs p : hash_ok e qs → is_slot p → p ∉ mjoin qs → remove_from_hash_queue p e = Ok (tt, e).
Proof.
  intros H Hp Hn. destruct (hi_out H p Hp Hn) as [E1 E2]. pose proof (slot_valid p Hp) as Hv. simpl in E1, E2.
  unfold remove_from_hash_queue. rewrite get_ino_run by done. unfold hash_next, hash_prev in E1, E2. rewrite Hv in E1, E2. by rewrite E1, E2.
Qed.

Lemma inode_set_hash_linked e p q t : ino_valid p = true → ino_valid q = true → ino_valid t = true → q ≠ p → t ≠ p →
  let e' := set_ino t (λ j, j <| i_prev := Some p |>) (set_ino p (λ j, j <| i_next := Some t |>)
    (set_ino p (λ j, j <| i_prev := Some q |>) (set_ino q (λ j, j <| i_next := Some p |>) e))) in
  (∀ a, a ≠ p → hash_next e' a = if decide (a = q) then Some p else hash_next e a) ∧
  (∀ a, a ≠ p → hash_prev e' a = if decide (a = t) then Some p else hash_prev e a) ∧
  hash_next e' p = Some t ∧ hash_prev e' p = Some q ∧ links_step e e' ∧ same_free e e'.
Proof.
  intros Vp Vq Vt Hqp Htp e'. subst e'. split_and!;
    [..|do 3 (eapply links_step_trans; [|by apply links_step_set]); by apply links_step_set
       |do 3 (eapply same_free_trans; [|by apply same_free_set]); by apply same_free_set].
  all: try intros a Ha; unfold hash_next, hash_prev; rewrite !set_ino_at.
  all: rewrite ?(decide_True (P := p = p)), ?(decide_False (P := q = p)), ?(decide_False (P := t = p)) by done; rewrite ?Vp; try done.
  all: rewrite (decide_False (P := p = a)) by congruence.
  all: destruct (decide (q = a)) as [->|]; destruct (decide (t = a)) as [->|]; repeat case_decide; subst; rewrite ?Vq, ?Vt in *; done.
Qed.
Lemma body_key e e' : (∀ p, body (e_inode e' p) = body (e_inode e p)) → ∀ p, hq_key (ihq e') p = hq_key (ihq e) p.
Proof. intros E p. specialize (E p). unfold body in E. injection E as _ E1 E2 _ _. cbn. by rewrite E1, E2. Qed.
Lemma inode_put_hash_ok e qs p : hash_ok e qs → is_slot p → p ∉ mjoin qs →
  ∃ e', put_into_hash_queue p e = Ok (tt, e') ∧ put_done is_slot NR_INODE_CACHE key_hash (ihq e) (ihq e') qs p ∧ links_step e e' ∧ same_free e e'.
Proof.
  intros H Hp Hn. pose proof (slot_valid p Hp) as Hv. unfold put_into_hash_queue. rewrite get_ino_run by done. cbv zeta.
  set (h := INODE_HASH _ _). change ((gets ?f ≫= ?m) e) with (m (f e) e). cbv beta.
  destruct (e_hash_queues e h) as [t|] eqn:Ht.
  - destruct (put_append _ _ key_hash slots_length (ihq e) qs p t H Hp Hn Ht) as (q & R & Ot & Oq & Hqp & Htp & Hdone).
    pose proof (slot_valid t Ot) as Vt. pose proof (slot_valid q Oq) as Vq.
    assert (reads (λ e, find_last INODE_WALK (hash_next e) t t) e = Ok (q, e)) as R1 by (unfold reads, INODE_WALK; cbn [ihq hq_next] in R; by rewrite R).
    rewrite (bind_ok _ _ _ _ _ R1). rewrite !upd_ino_run by done. eexists. split; [by apply upd_ino_last|].
    destruct (inode_set_hash_linked e p q t Hv Vq Vt Hqp Htp) as (N1 & N2 & N3 & N4 & HL & HF). split; [|done].
    apply Hdone; try done. apply body_key, HL.
  - change ((set_hash_queue h (Some p) ;; ?m) e) with (m (e <| e_hash_queues ::= <[h := Some p]> |>)). cbv beta.
    rewrite upd_ino_run by done. eexists. split; [by apply upd_ino_last|]. set (e' := set_ino p _ _).
    assert (links_step e e') as HL.
    { eapply links_step_trans; [|by apply links_step_set]. eapply links_step_trans; [|by apply links_step_set]. split; [by destruct e|done]. }
    assert (same_free e e') as HF by (intros q; unfold e'; rewrite !set_ino_at; by case_decide).
    split; [|done]. apply put_new; try done; [apply slots_length|apply body_key, HL|..]; simpl.
    + intros a Ha. unfold hash_next, hash_prev, e'. by rewrite !set_ino_at, !decide_False by done.
    + unfold hash_next, e'. by rewrite Hv, !set_ino_at, !decide_True.
    + unfold hash_prev, e'. by rewrite Hv, !set_ino_at, !decide_True.
Qed.

(** ** The inode table as a map from numbers to inodes *)
Section table.
Context `{DEV : Device}.

Definition place (e : ext2) (num : Z) : Z * Z :=
  let sb := e_sb e in
  let index := EXT2_INODE_INDEX num sb in
  (u32 (EXT2_INODE_BLOCK index sb + bg_inode_table (e_bgd e (EXT2_BLOCK_GROUP num sb))),
   EXT2_INODE_SIZE sb * (index mod EXT2_INODES_PER_BLOCK sb)).
Definition table (e : ext2) (num : Z) : ext2_inode := decode_inode (view e (fst (place e num))) (snd (place e num)).
(** The inode exists and its block can be read. *)
Record on_disk (e : ext2) (num : Z) : Prop := {
  od_group : 0 <= EXT2_BLOCK_GROUP num (e_sb e) < e_nr_blk_group e;
  od_inside : in_block (snd (place e num)) EXT2_INODE_BYTES (blksize e) = true;
  od_read : read_fails (fst (place e num)) = false
}.
Lemma inode_place_run {A} num (m : Z * Z → E A) e : on_disk e num → (inode_place num ≫= m) e = m (place e num) e.
Proof.
  intros [H _ _].
  assert (bgd_at (EXT2_BLOCK_GROUP num (e_sb e)) e = Ok (e_bgd e (EXT2_BLOCK_GROUP num (e_sb e)), e)) as R.
  { unfold bgd_at. change ((get ≫= ?k) e) with (k e e). cbv beta.
    by rewrite (proj2 (Z.leb_le 0 _)), (proj2 (Z.ltb_lt _ (e_nr_blk_group e))) by lia. }
  assert (inode_place num e = Ok (place e num, e)) as R2; [|by rewrite (bind_ok _ _ _ _ _ R2)].
  unfold inode_place. change ((get ≫= ?k) e) with (k e e). cbv beta zeta. by rewrite (bind_ok _ _ _ _ _ R).
Qed.
(** What reading the inode of the slot [p] does. *)
Definition filled (p : nat) (num : Z) (e : ext2) : ext2 := set_ino p (λ i, i <| i_ino := table e num |>) (load (fst (place e num)) e).
Lemma read_inode_ok p e : ino_valid p = true → on_disk e (i_num (e_inode e p)) →
  read_inode p e = Ok (tt, filled p (i_num (e_inode e p)) e).
Proof.
  intros Hv H. unfold read_inode. rewrite get_ino_run by done. rewrite inode_place_run by done. unfold filled, table.
  destruct (place e (i_num (e_inode e p))) as [b o] eqn:Ep. destruct H as [_ H1 H2]. rewrite Ep in H1, H2. simpl in H1, H2 |- *.
  rewrite (bind_ok _ _ _ _ _ (bread_ok b e H2)). change ((get ≫= ?k) ?x) with (k x x). cbv beta.
  change (blksize (load b e)) with (blksize e). rewrite H1, load_blk. by apply upd_ino_last.
Qed.
(** What writing it does. *)
Definition written (p : nat) (num : Z) (e : ext2) : ext2 :=
  let '(b, o) := place e num in
  set_ino p (λ i, i <| i_flags ::= λ f, Z.land f (Z.lnot I_MODIFIED) |>)
    ((load b e) <| e_blk ::= λ m, <[b := encode_inode (i_ino (e_inode e p)) o (m b)]> m |>) <| e_dwrite ::= <[b := true]> |>.
Lemma write_inode_ok p e : ino_valid p = true → on_disk e (i_num (e_inode e p)) →
  write_inode p e = Ok (tt, written p (i_num (e_inode e p)) e).
Proof.
  intros Hv H. unfold write_inode. rewrite get_ino_run by done. rewrite inode_place_run by done. unfold written.
  destruct (place e (i_num (e_inode e p))) as [b o] eqn:Ep. destruct H as [_ H1 H2]. rewrite Ep in H1, H2. simpl in H1, H2 |- *.
  rewrite (bind_ok _ _ _ _ _ (bread_ok b e H2)). change ((get ≫= ?k) ?x) with (k x x). cbv beta.
  change (blksize (load b e)) with (blksize e). rewrite H1.
  change ((upd_blk b ?f ;; ?m) ?x) with (m (x <| e_blk ::= λ t, <[b := f (t b)]> t |>)). cbv beta. by rewrite upd_ino_run by done.
Qed.

(** Inodes with the same contents: what the functions hold outside of the structure does not count. *)
Definition word_offset (a : Z) : Prop := a = 32 ∨ a = 36 ∨ (100 <= a < 128 ∧ a mod 4 = 0).
#[global] Instance ino_equiv : Equiv ext2_inode := λ i j,
  (i_mode i, i_uid i, i_size i, i_atime i, i_ctime i, i_mtime i, i_dtime i, i_gid i, i_links_count i, i_blocks i) =
  (i_mode j, i_uid j, i_size j, i_atime j, i_ctime j, i_mtime j, i_dtime j, i_gid j, i_links_count j, i_blocks j) ∧
  (∀ k, 0 <= k < 15 → i_block i k = i_block j k) ∧ (∀ a, word_offset a → i_other i a = i_other j a).
#[global] Instance ino_equivalence : Equivalence (≡@{ext2_inode}).
Proof.
  split.
  - by intros i.
  - intros i j (H1 & H2 & H3). split; [done|].
    split; intros x Hx; [by rewrite H2|by rewrite H3].
  - intros i j k (H1 & H2 & H3) (G1 & G2 & G3). split; [congruence|].
    split; intros x Hx; [by rewrite H2, G2|by rewrite H3, G3].
Qed.


End table.

(** ** The inode cache as a map from numbers to inodes *)
Section cache.
Context `{DEV : Device}.
Abbreviation dev := CONFIG_FS_ROOT_DEV.

(** The blocks of the file system are the same. *)
Record fs_same (e e' : ext2) : Prop := {
  fs_view b : view e' b = view e b;
  fs_sb : e_sb e' = e_sb e;
  fs_bgd : e_bgd e' = e_bgd e;
  fs_nr : e_nr_blk_group e' = e_nr_blk_group e;
  fs_now : e_now e' = e_now e
}.
#[global] Instance fs_same_preorder : PreOrder fs_same.
Proof. split; [by split|]. intros e1 e2 e3 [A1 A2 A3 A4 A5] [B1 B2 B3 B4 B5]. split; intros; congruence. Qed.
Lemma fs_same_set p f e : fs_same e (set_ino p f e).
Proof. by split. Qed.
Lemma fs_same_links e e' : links_step e e' → fs_same e e'.
Proof. intros [-> _]. by split. Qed.
Lemma fs_same_load b e : fs_same e (load b e).
Proof. split; [intros; apply load_view|done..]. Qed.
Lemma fs_same_place e e' num : fs_same e e' → place e' num = place e num.
Proof. intros [_ H1 H2 _ _]. unfold place. by rewrite H1, H2. Qed.
Lemma fs_same_table e e' num : fs_same e e' → table e' num = table e num.
Proof. intros H. unfold table. by rewrite (fs_same_place _ _ _ H), (fs_view _ _ H). Qed.
Lemma fs_same_on_disk e e' num : fs_same e e' → on_disk e num → on_disk e' num.
Proof.
  intros H [H1 H2 H3]. split; [by rewrite (fs_sb _ _ H), (fs_nr _ _ H)| |by rewrite (fs_same_place _ _ _ H)].
  rewrite (fs_same_place _ _ _ H). unfold blksize. by rewrite (fs_sb _ _ H).
Qed.

(** The cache is well formed: free inodes are not referred to and have been written, every inode that is
    not free is found by its number. *)
Record icache_ok (e : ext2) (fl : list nat) (qs : list (list nat)) : Prop := {
  io_free : free_ok e fl;
  io_hash : hash_ok e qs;
  io_found p : p ∈ mjoin qs → i_dev (e_inode e p) = dev ∧ ilookup e dev (i_num (e_inode e p)) = Some p;
  io_idle p : p ∈ fl → i_count (e_inode e p) = 0 ∧ is_modified (e_inode e p) = false;
  io_busy p : is_slot p → p ∉ fl → p ∈ mjoin qs
}.
(** What a user gets for a number. *)
Definition iview (e : ext2) (num : Z) : ext2_inode :=
  match ilookup e dev num with Some p => i_ino (e_inode e p) | None => table e num end.
(** The inode is cached and free, or it is on the disk and the next free slot has not been used. *)
Definition available (e : ext2) (fl : list nat) (qs : list (list nat)) (num : Z) : Prop :=
  match ilookup e dev num with
  | Some p => p ∈ fl
  | None => on_disk e num ∧ ∃ p l, fl = p :: l ∧ p ∉ mjoin qs
  end.
Lemma found_in e fl qs n p : icache_ok e fl qs → ilookup e dev n = Some p → p ∈ mjoin qs ∧ i_num (e_inode e p) = n.
Proof. intros C Hl. destruct (inode_search_ok e qs dev n (io_hash _ _ _ C)) as [_ H]. destruct (H p Hl) as (? & _ & ?). done. Qed.

Lemma body_eq i j : body j = body i → i_ino j = i_ino i ∧ i_dev j = i_dev i ∧ i_num j = i_num i ∧ i_flags j = i_flags i ∧ i_count j = i_count i.
Proof. unfold body. by intros [=]. Qed.
Lemma body_idle i j : body j = body i → i_count j = i_count i ∧ is_modified j = is_modified i.
Proof. intros (_ & _ & _ & E1 & E2)%body_eq. unfold is_modified. by rewrite E1. Qed.
Definition same_id (i j : ext2_inode_m) : Prop := i_dev j = i_dev i ∧ i_num j = i_num i.
Lemma same_id_body e e' p : body (e_inode e' p) = body (e_inode e p) → same_id (e_inode e p) (e_inode e' p).
Proof. by intros (_ & ? & ? & _)%body_eq. Qed.
Lemma same_id_has d n i j : same_id i j → has_num d n j = has_num d n i.
Proof. unfold has_num. by intros [-> ->]. Qed.
(** Steps that leave the hash queues alone. *)
Lemma icache_step e e' fl fl' qs : icache_ok e fl qs → same_hash e e' → free_ok e' fl' →
  (∀ p, same_id (e_inode e p) (e_inode e' p)) →
  (∀ p, p ∈ fl' → i_count (e_inode e' p) = 0 ∧ is_modified (e_inode e' p) = false) →
  (∀ p, is_slot p → p ∉ fl' → p ∈ mjoin qs) →
  icache_ok e' fl' qs ∧ ∀ n, ilookup e' dev n = ilookup e dev n.
Proof.
  intros C Hh Hf Hid Hidle Hbusy. pose proof (io_hash _ _ _ C) as H.
  assert (∀ n, ilookup e' dev n = ilookup e dev n) as Hl.
  { intros n. eapply ilookup_ext; [done|done|]. intros p _. by apply same_id_has. }
  split; [|done]. split; [done|by eapply hash_ok_ext| |done|done].
  intros p Hp. destruct (Hid p) as [-> ->]. rewrite Hl. by apply (io_found _ _ _ C).
Qed.

(** What [ext2_iget] promises. *)
Record got (e e' : ext2) (fl' : list nat) (qs qs' : list (list nat)) (num : Z) (p : nat) : Prop := {
  gt_num : i_num (e_inode e' p) = num;
  gt_ino : i_ino (e_inode e' p) = iview e num;
  gt_count : i_count (e_inode e' p) = 1;
  gt_clean : is_modified (e_inode e' p) = false;
  gt_rest q : q ≠ p → body (e_inode e' q) = body (e_inode e q);
  gt_lookup n : ilookup e' dev n = if decide (n = num) then Some p else ilookup e dev n;
  gt_used q : q ∈ mjoin qs' ↔ q = p ∨ q ∈ mjoin qs;
  gt_fs : fs_same e e';
  gt_stale : stale fl' e e';
  gt_was : p ∈ mjoin qs → ilookup e dev num = Some p
}.
Lemma split_nodup {A} (l1 l2 : list A) p : NoDup (l1 ++ p :: l2) → (p ∉ l1 ++ l2) ∧ NoDup (l1 ++ l2).
Proof. rewrite <-Permutation_middle. by intros [? ?]%NoDup_cons. Qed.

Lemma iget_hit e fl qs num p : icache_ok e fl qs → ilookup e dev num = Some p → p ∈ fl →
  ∃ l1 l2 e', fl = l1 ++ p :: l2 ∧ ext2_iget dev num e = Ok (Some p, e') ∧ icache_ok e' (l1 ++ l2) qs ∧ got e e' (l1 ++ l2) qs qs num p.
Proof.
  intros C Hl Hp. destruct (inode_search_ok e qs dev num (io_hash _ _ _ C)) as [R Hf]. destruct (Hf p Hl) as (Hin & Hd & Hn).
  pose proof (free_elem _ _ _ (io_free _ _ _ C) Hp) as Hs. pose proof (slot_valid p Hs) as Hv.
  destruct (io_idle _ _ _ C p Hp) as [Hc Hm].
  apply list_elem_of_split in Hp as (l1 & l2 & ->). exists l1, l2.
  destruct (inode_remove_free_ok e l1 p l2 (io_free _ _ _ C)) as (e1 & R1 & F1 & L1 & S1 & T1).
  pose proof (ls_body _ _ L1) as B1. set (e' := set_ino p (λ i, i <| i_count ::= λ c, s32 (c + 1) |>) e1).
  destruct (split_nodup _ _ _ (fo_nodup _ _ (io_free _ _ _ C))) as [Hpn Hnd].
  assert (∀ q, q ≠ p → body (e_inode e' q) = body (e_inode e q)) as Hrest.
  { intros q Hq. unfold e'. by rewrite set_ino_at, decide_False by done. }
  assert (∀ q, same_id (e_inode e q) (e_inode e' q)) as Hid.
  { intros q. unfold e'. rewrite set_ino_at. destruct (same_id_body e e1 q (B1 q)) as [E1 E2]. by case_decide. }
  destruct (icache_step e e' (l1 ++ p :: l2) (l1 ++ l2) qs C) as [C' Hlk].
  - eapply same_hash_trans; [exact S1|by apply same_hash_set].
  - eapply same_free_ok; [|exact F1]. by apply same_free_set.
  - exact Hid.
  - intros q Hq. assert (q ≠ p) as Hqp by (intros ->; done). destruct (body_idle _ _ (Hrest q Hqp)) as [-> ->].
    apply (io_idle _ _ _ C). set_solver.
  - intros q Hq Hqn. destruct (decide (q = p)) as [->|]; [done|]. apply (io_busy _ _ _ C); [done|]. set_solver.
  - exists e'. split; [done|]. split; [|split; [done|]].
    + unfold ext2_iget. rewrite (bind_ok _ _ _ _ _ R), Hl. rewrite (bind_ok _ _ _ _ _ R1). by rewrite upd_ino_run by done.
    + destruct (body_eq _ _ (B1 p)) as (E1 & E2 & E3 & E4 & E5).
      assert (e_inode e' p = (e_inode e1 p) <| i_count ::= λ c, s32 (c + 1) |>) as Ep by (unfold e'; by rewrite set_ino_at, decide_True).
      split; try done.
      * rewrite Ep. rec_simpl. by rewrite E3.
      * unfold iview. rewrite Hl, Ep. by rec_simpl.
      * rewrite Ep. rec_simpl. by rewrite E5, Hc.
      * unfold is_modified. rewrite Ep. rec_simpl. by rewrite E4.
      * intros n. rewrite Hlk. case_decide; [by subst|done].
      * intros q. split; [by right|]. by intros [->|].
      * etrans; [by apply fs_same_links|apply fs_same_set].
      * intros q Hq. destruct (T1 q Hq) as [<- <-]. unfold e'. rewrite set_ino_at. by case_decide.
Qed.

(** The head of the free list, never used before, takes over the number. *)
Lemma take_slot e l qs num p : icache_ok e (p :: l) qs → ilookup e dev num = None → p ∉ mjoin qs →
  ∃ e3 qs', (remove_from_free_list p ;; remove_from_hash_queue p ;; upd_ino p (λ i, i <| i_dev := dev |>) ;;
      upd_ino p (λ i, i <| i_num := num |>) ;; put_into_hash_queue p) e = Ok (tt, e3) ∧
    icache_ok e3 l qs' ∧ i_num (e_inode e3 p) = num ∧ (∀ q, q ≠ p → body (e_inode e3 q) = body (e_inode e q)) ∧
    i_flags (e_inode e3 p) = i_flags (e_inode e p) ∧
    (∀ n, ilookup e3 dev n = if decide (n = num) then Some p else ilookup e dev n) ∧
    (∀ q, q ∈ mjoin qs' ↔ q = p ∨ q ∈ mjoin qs) ∧ fs_same e e3 ∧ stale l e e3.
Proof.
  intros C Hl Hn. pose proof (free_elem _ _ p (io_free _ _ _ C) ltac:(by left)) as Hs. pose proof (slot_valid p Hs) as Hv.
  destruct (inode_remove_free_ok e [] p l (io_free _ _ _ C)) as (e1 & R1 & F1 & L1 & S1 & T1).
  pose proof (split_nodup [] l p (fo_nodup _ _ (io_free _ _ _ C))) as [Hpl _]. simpl in Hpl, F1.
  pose proof (hash_ok_ext _ _ _ S1 (io_hash _ _ _ C)) as H1.
  set (e2 := set_ino p (λ i, i <| i_num := num |>) (set_ino p (λ i, i <| i_dev := dev |>) e1)).
  assert (same_hash e1 e2) as S2 by (eapply same_hash_trans; by apply same_hash_set).
  pose proof (hash_ok_ext _ _ _ S2 H1) as H2. pose proof (ls_body _ _ L1) as B1.
  assert (∀ q, q ≠ p → e_inode e2 q = e_inode e1 q) as E2 by (intros q Hq; unfold e2; by rewrite !set_ino_at, !decide_False by done).
  assert (e_inode e2 p = (e_inode e1 p) <| i_dev := dev |> <| i_num := num |>) as Ep by (unfold e2; by rewrite !set_ino_at, !decide_True).
  assert (∀ n, ilookup e2 dev n = ilookup e dev n) as Hl2.
  { intros n. eapply ilookup_ext; [apply (io_hash _ _ _ C)|by eapply same_hash_trans|]. intros q Hq.
    rewrite E2 by (intros ->; done). by apply same_id_has, same_id_body. }
  destruct (inode_put_hash_ok e2 qs p H2 Hs Hn) as (e3 & R3 & [(qs' & H3 & P3) Hlk] & L3 & F3).
  assert (∀ q, q ∈ mjoin qs' ↔ q = p ∨ q ∈ mjoin qs) as Hq' by (intros q; rewrite P3; by rewrite elem_of_cons).
  pose proof (ls_body _ _ L3) as B3. destruct (body_eq _ _ (B3 p)) as (_ & D3 & N3 & G3 & _).
  assert (∀ n, ilookup e3 dev n = if decide (n = num) then Some p else ilookup e dev n) as Hl3.
  { intros n. rewrite <-(Hl2 n). unfold ilookup. rewrite Hlk.
    - rewrite has_key_num. unfold has_num. rewrite Ep. rec_simpl. rewrite Z.eqb_refl. simpl. destruct (Z.eqb_spec num n); case_decide; congruence.
    - assert (hq_key (ihq e2) p = (dev, num)) as -> by (cbn [ihq hq_key]; by rewrite Ep). by rewrite <-Hl, <-Hl2. }
  assert (∀ q, q ≠ p → body (e_inode e3 q) = body (e_inode e q)) as Hrest by (intros q Hq; by rewrite B3, E2, B1).
  exists e3, qs'. split; [|split; [|split; [by rewrite N3, Ep|split; [done|split; [|split; [done|split; [done|split]]]]]]].
  - rewrite (bind_ok _ _ _ _ _ R1). rewrite (bind_ok _ _ _ _ _ (inode_remove_hash_off _ _ _ H1 Hs Hn)). by rewrite !upd_ino_run by done.
  - split; [|exact H3| | |].
    + eapply same_free_ok; [exact F3|]. eapply same_free_ok; [|exact F1]. eapply same_free_trans; by apply same_free_set.
    + intros q [->|Hq]%Hq'; [rewrite D3, N3, Ep; rec_simpl; by rewrite Hl3, decide_True|].
      assert (q ≠ p) as Hqp by (intros ->; done). destruct (body_eq _ _ (Hrest q Hqp)) as (_ & -> & -> & _ & _).
      destruct (io_found _ _ _ C q Hq) as [? Hf]. split; [done|]. rewrite Hl3. case_decide as En; [|done]. rewrite En in Hf. congruence.
    + intros q Hq. assert (q ≠ p) as Hqp by (intros ->; done). destruct (body_idle _ _ (Hrest q Hqp)) as [-> ->].
      apply (io_idle _ _ _ C). by right.
    + intros q Hq Hql. apply Hq'. destruct (decide (q = p)) as [|]; [by left|right]. apply (io_busy _ _ _ C); [done|]. set_solver.
  - rewrite G3, Ep. rec_simpl. by destruct (body_eq _ _ (B1 p)) as (_ & _ & _ & -> & _).
  - etrans; [by apply fs_same_links|]. etrans; [|by apply fs_same_links]. etrans; apply fs_same_set.
  - intros q Hq. destruct (T1 q Hq) as [<- <-], (F3 q) as [-> ->]. unfold e2. rewrite !set_ino_at. repeat case_decide; done.
Qed.
Lemma iget_miss e l qs num p : icache_ok e (p :: l) qs → ilookup e dev num = None → on_disk e num → p ∉ mjoin qs →
  ∃ e' qs', ext2_iget dev num e = Ok (Some p, e') ∧ icache_ok e' l qs' ∧ got e e' l qs qs' num p.
Proof.
  intros C Hl Hd Hn. pose proof (free_elem _ _ p (io_free _ _ _ C) ltac:(by left)) as Hs. pose proof (slot_valid p Hs) as Hv.
  destruct (inode_search_ok e qs dev num (io_hash _ _ _ C)) as [R _].
  destruct (take_slot e l qs num p C Hl Hn) as (e3 & qs' & R3 & C3 & N3 & B3 & G3 & Hl3 & Q3 & S3 & T3).
  set (e4 := filled p num e3). set (e5 := set_ino p (λ i, i <| i_count := 1 |>) e4).
  assert (∀ q, e_inode e5 q = if decide (p = q) then (e_inode e3 q) <| i_ino := table e num |> <| i_count := 1 |> else e_inode e3 q) as E5.
  { intros q. unfold e5, e4, filled. rewrite !set_ino_at. rewrite (fs_same_table _ _ _ S3). by case_decide. }
  pose proof (split_nodup [] l p (fo_nodup _ _ (io_free _ _ _ C))) as [Hpl _]. simpl in Hpl.
  assert (∀ q, q ≠ p → body (e_inode e5 q) = body (e_inode e3 q)) as Hrest by (intros q Hq; by rewrite E5, decide_False).
  destruct (icache_step e3 e5 l l qs' C3) as [C5 Hl5].
  - split; [done|]. intros q. rewrite E5. by case_decide.
  - eapply same_free_ok; [|apply (io_free _ _ _ C3)]. intros q. rewrite E5. by case_decide.
  - intros q. rewrite E5. by case_decide.
  - intros q Hq. assert (q ≠ p) as Hqp by (intros ->; done). destruct (body_idle _ _ (Hrest q Hqp)) as [-> ->]. by apply (io_idle _ _ _ C3).
  - apply (io_busy _ _ _ C3).
  - exists e5, qs'. split; [|split; [done|]].
    + unfold ext2_iget. rewrite (bind_ok _ _ _ _ _ R), Hl. rewrite get_ino_run by done.
      pose proof (free_head _ _ (io_free _ _ _ C)) as Hh. unfold free_next in Hh. change (ino_valid free_list) with true in Hh. cbn [head default] in Hh.
      rewrite Hh. apply bind_inv in R3 as ([] & x1 & X1 & R3). rewrite (bind_ok _ _ _ _ _ X1).
      apply bind_inv in R3 as ([] & x2 & X2 & R3). rewrite (bind_ok _ _ _ _ _ X2). cbv beta in R3. rewrite !upd_ino_run in R3 by done.
      rewrite !upd_ino_run by done.
      rewrite (bind_ok _ _ _ _ _ R3). rewrite (bind_ok _ _ _ _ _ (read_inode_ok p e3 Hv ltac:(rewrite N3; by eapply fs_same_on_disk))).
      rewrite N3. by rewrite upd_ino_run by done.
    + assert (e_inode e5 p = (e_inode e3 p) <| i_ino := table e num |> <| i_count := 1 |>) as Ep by (by rewrite E5, decide_True).
      split; try done; rewrite ?Ep; rec_simpl; try done.
      * unfold iview. by rewrite Hl.
      * unfold is_modified. rec_simpl. rewrite G3. by apply (io_idle _ _ _ C); left.
      * intros q Hq. by rewrite Hrest, B3.
      * intros n. by rewrite Hl5.
      * etrans; [exact S3|]. etrans; [apply fs_same_load|]. etrans; apply fs_same_set.
      * intros q Hq. destruct (T3 q Hq) as [<- <-]. rewrite E5. by case_decide.
Qed.

Lemma iget_ok e fl qs num : icache_ok e fl qs → available e fl qs num →
  ∃ p l1 l2 e' qs', fl = l1 ++ p :: l2 ∧ ext2_iget dev num e = Ok (Some p, e') ∧ icache_ok e' (l1 ++ l2) qs' ∧
    got e e' (l1 ++ l2) qs qs' num p.
Proof.
  intros C Ha. unfold available in Ha. destruct (ilookup e dev num) as [p|] eqn:Hl.
  - destruct (iget_hit e fl qs num p C Hl Ha) as (l1 & l2 & e' & -> & R & C' & G). by exists p, l1, l2, e', qs.
  - destruct Ha as (Hd & p & l & -> & Hn). destruct (iget_miss e l qs num p C Hl Hd Hn) as (e' & qs' & R & C' & G).
    by exists p, [], l, e', qs'.
Qed.
Lemma got_iview e e' fl fl' qs qs' num p : icache_ok e fl qs → p ∈ fl → got e e' fl' qs qs' num p → ∀ n, iview e' n = iview e n.
Proof.
  intros C Hp G n. unfold iview at 1. rewrite (gt_lookup _ _ _ _ _ _ _ G). case_decide as E; [subst n; apply G|].
  unfold iview. destruct (ilookup e dev n) as [q|] eqn:Hq; [|by apply fs_same_table, G].
  assert (q ≠ p) as Hqp.
  { intros ->. destruct (found_in _ _ _ _ _ C Hq) as [Hin Hn].
    destruct (found_in _ _ _ _ _ C (gt_was _ _ _ _ _ _ _ G Hin)). congruence. }
  by destruct (body_eq _ _ (gt_rest _ _ _ _ _ _ _ G q Hqp)) as (-> & _).
Qed.

(** *** Releasing *)
Definition drop (p : nat) (e : ext2) : ext2 := set_ino p (λ i, i <| i_count ::= λ c, s32 (c - 1) |>) e.
Lemma drop_same p e : same_hash e (drop p e) ∧ same_free e (drop p e) ∧ fs_same e (drop p e).
Proof. split; [by apply same_hash_set|]. split; [by apply same_free_set|apply fs_same_set]. Qed.
Lemma iput_keep p e : ino_valid p = true → 1 < i_count (e_inode e p) < 2147483648 → ext2_iput p e = Ok (tt, drop p e).
Proof.
  intros Hv Hc. unfold ext2_iput. rewrite get_ino_run by done. rewrite upd_ino_run by done. fold (drop p e).
  rewrite (proj2 (Z.eqb_neq _ _)) by lia. rewrite get_ino_run by done. unfold drop at 1. rewrite set_ino_at, decide_True by done. rec_simpl.
  rewrite s32_id by (unfold is_s32; lia). by rewrite (proj2 (Z.eqb_neq _ _)) by lia.
Qed.
Lemma icache_drop e fl qs p : icache_ok e fl qs → p ∉ fl → icache_ok (drop p e) fl qs ∧ ∀ n, iview (drop p e) n = iview e n.
Proof.
  intros C Hp. destruct (drop_same p e) as (Hh & Hf & Hs).
  assert (∀ q, i_ino (e_inode (drop p e) q) = i_ino (e_inode e q)) as Ei by (intros q; unfold drop; rewrite set_ino_at; by case_decide).
  destruct (icache_step e (drop p e) fl fl qs C Hh) as [C' Hl].
  - eapply same_free_ok; [done|apply C].
  - intros q. unfold drop. rewrite set_ino_at. by case_decide.
  - intros q Hq. unfold drop. rewrite set_ino_at, decide_False by (intros ->; done). by apply (io_idle _ _ _ C).
  - apply (io_busy _ _ _ C).
  - split; [done|]. intros n. unfold iview. rewrite Hl. destruct (ilookup e dev n); [apply Ei|by apply fs_same_table].
Qed.

(** What the last release does when the file has names left: the inode is written if it has been modified. *)
Definition flush (p : nat) (e : ext2) : ext2 := if is_modified (e_inode e p) then written p (i_num (e_inode e p)) e else e.
Lemma flush_run p e : ino_valid p = true → on_disk e (i_num (e_inode e p)) →
  when (is_modified (e_inode e p)) (write_inode p) e = Ok (tt, flush p e).
Proof. intros Hv Hd. unfold flush, when. destruct (is_modified _); [by apply write_inode_ok|done]. Qed.
Lemma flush_inode p e q : e_inode (flush p e) q =
  if decide (p = q) then (if is_modified (e_inode e p) then (e_inode e q) <| i_flags ::= λ f, Z.land f (Z.lnot I_MODIFIED) |> else e_inode e q)
  else e_inode e q.
Proof.
  unfold flush. destruct (is_modified (e_inode e p)); [|by case_decide]. unfold written. destruct (place _ _) as [b o].
  unfold set_ino, load. do 5 rec_simpl. simpl. case_decide; [subst; apply fn_insert_eq|by apply fn_insert_ne].
Qed.
Lemma modified_cleared f : negb (Z.land (Z.land f (Z.lnot I_MODIFIED)) I_MODIFIED =? 0) = false.
Proof. rewrite <-Z.land_assoc. change (Z.land (Z.lnot I_MODIFIED) I_MODIFIED) with 0. by rewrite Z.land_0_r. Qed.
Lemma flush_clean p e : is_modified (e_inode (flush p e) p) = false.
Proof.
  rewrite flush_inode, decide_True by done. destruct (is_modified (e_inode e p)) eqn:E; [|done]. unfold is_modified. rec_simpl. apply modified_cleared.
Qed.
Lemma flush_hash p e : same_hash e (flush p e) ∧ same_free e (flush p e) ∧
  ∀ q, i_ino (e_inode (flush p e) q) = i_ino (e_inode e q) ∧ i_count (e_inode (flush p e) q) = i_count (e_inode e q) ∧
       same_id (e_inode e q) (e_inode (flush p e) q).
Proof.
  split; [|split].
  - split; [unfold flush; destruct (is_modified _); [unfold written; by destruct (place _ _)|done]|].
    intros q. rewrite flush_inode. repeat case_match; done.
  - intros q. rewrite flush_inode. repeat case_match; done.
  - intros q. rewrite flush_inode. repeat case_match; done.
Qed.

Lemma iput_last e fl qs p : icache_ok e fl qs → is_slot p → p ∉ fl → i_count (e_inode e p) = 1 → i_links_count (i_ino (e_inode e p)) ≠ 0 →
  on_disk e (i_num (e_inode e p)) →
  ∃ e', ext2_iput p e = Ok (tt, e') ∧ icache_ok e' (fl ++ [p]) qs ∧ fs_same (flush p (drop p e)) e' ∧
    (∀ n, ilookup e' dev n = ilookup e dev n) ∧ (∀ q, i_ino (e_inode e' q) = i_ino (e_inode e q)) ∧
    (∀ q, q ≠ p → body (e_inode e' q) = body (e_inode e q)).
Proof.
  intros C Hs Hp Hc Hlinks Hd. pose proof (slot_valid p Hs) as Hv.
  set (e1 := drop p e). destruct (drop_same p e) as (Hh1 & Hf1 & Hs1). destruct (icache_drop e fl qs p C Hp) as [C1 _]. fold e1 in Hh1, Hf1, Hs1, C1.
  assert (e_inode e1 p = (e_inode e p) <| i_count ::= λ c, s32 (c - 1) |>) as Ep by (unfold e1, drop; by rewrite set_ino_at, decide_True).
  assert (i_count (e_inode e1 p) = 0) as Hc1 by (rewrite Ep; rec_simpl; by rewrite Hc).
  assert (on_disk e1 (i_num (e_inode e1 p))) as Hd1 by (rewrite Ep; rec_simpl; by eapply fs_same_on_disk).
  set (e2 := flush p e1). destruct (flush_hash p e1) as (Hh2 & Hf2 & I2). fold e2 in Hh2, Hf2, I2.
  assert (free_ok e2 fl) as F2 by (eapply same_free_ok; [done|]; apply C1).
  destruct (inode_put_free_ok e2 fl p F2 Hs Hp) as (e' & R & F' & L' & S'); [by destruct (I2 p) as (_ & -> & _)|].
  pose proof (ls_body _ _ L') as B'.
  assert (∀ q, q ≠ p → body (e_inode e' q) = body (e_inode e q)) as Hrest.
  { intros q Hq. rewrite B'. unfold e2. rewrite flush_inode, decide_False by done. unfold e1, drop. by rewrite set_ino_at, decide_False. }
  destruct (icache_step e1 e' fl (fl ++ [p]) qs C1) as [C' Hl'].
  - by eapply same_hash_trans.
  - done.
  - intros q. destruct (I2 q) as (_ & _ & E1 & E2), (same_id_body _ _ q (B' q)) as [E3 E4]. unfold same_id. by rewrite E3, E4.
  - intros q Hq. destruct (body_idle _ _ (B' q)) as [-> ->]. apply elem_of_app in Hq as [Hq|Hq].
    + unfold e2. assert (q ≠ p) as Hqp by (intros ->; done). rewrite flush_inode, decide_False by done. by apply (io_idle _ _ _ C1).
    + apply list_elem_of_singleton in Hq as ->. split; [by destruct (I2 p) as (_ & -> & _)|apply flush_clean].
  - intros q Hq Hqn. apply (io_busy _ _ _ C1); [done|]. set_solver.
  - exists e'. split; [|split; [done|split; [by apply fs_same_links|split; [|split; [|done]]]]].
    + unfold ext2_iput. rewrite get_ino_run by done. rewrite upd_ino_run by done. fold (drop p e). fold e1. rewrite Hc. cbn [Z.eqb].
      rewrite get_ino_run by done. rewrite Hc1. cbn [Z.eqb].
      assert (when (i_links_count (i_ino (e_inode e1 p)) =? 0) (e ← get; upd_inode p (λ i, i <| i_dtime := e_now e |>) ;;
        set_modified p ;; ext2_itrunc p ;; ext2_ifree (i_num (e_inode e1 p))) e1 = Ok (tt, e1)) as R0.
      { rewrite Ep. rec_simpl. by rewrite (proj2 (Z.eqb_neq _ _) Hlinks). }
      rewrite (bind_ok _ _ _ _ _ R0). rewrite get_ino_run by done. by rewrite (bind_ok _ _ _ _ _ (flush_run p e1 Hv Hd1)).
    + intros n. rewrite Hl'. eapply ilookup_ext; [apply C|done|]. intros q _. unfold e1, drop. rewrite set_ino_at. by case_decide.
    + intros q. destruct (body_eq _ _ (B' q)) as (-> & _), (I2 q) as (-> & _). unfold e1, drop. rewrite set_ino_at. by case_decide.
Qed.
(** A release of an inode that has not been modified and is not being deleted. *)
Lemma iput_clean e fl qs p : icache_ok e fl qs → is_slot p → p ∉ fl → 1 <= i_count (e_inode e p) < 2147483648 →
  i_links_count (i_ino (e_inode e p)) ≠ 0 → is_modified (e_inode e p) = false → on_disk e (i_num (e_inode e p)) →
  ∃ e' fl', ext2_iput p e = Ok (tt, e') ∧ icache_ok e' fl' qs ∧ (fl' = fl ∨ fl' = fl ++ [p]) ∧ fs_same e e' ∧
    (∀ n, ilookup e' dev n = ilookup e dev n) ∧ (∀ q, i_ino (e_inode e' q) = i_ino (e_inode e q)) ∧
    (∀ q, q ≠ p → body (e_inode e' q) = body (e_inode e q)) ∧ (p ∉ fl' → i_count (e_inode e' p) = i_count (e_inode e p) - 1 ∧
      i_num (e_inode e' p) = i_num (e_inode e p) ∧ is_modified (e_inode e' p) = false) ∧ (i_count (e_inode e p) ≠ 1 → fl' = fl).
Proof.
  intros C Hs Hp Hc Hl Hm Hd. pose proof (slot_valid p Hs) as Hv. destruct (decide (i_count (e_inode e p) = 1)) as [E|E].
  - destruct (iput_last e fl qs p C Hs Hp E Hl Hd) as (e' & R & C' & S & H1 & H2 & H3).
    assert (flush p (drop p e) = drop p e) as Ef.
    { unfold flush, drop. rewrite set_ino_at, decide_True by done. unfold is_modified in *. rec_simpl. by rewrite Hm. }
    rewrite Ef in S. exists e', (fl ++ [p]). split; [done|]. split; [done|]. split; [by right|]. split; [by etrans; [apply drop_same|]|].
    split_and!; try done. intros Hn. exfalso. apply Hn. set_solver.
  - exists (drop p e), fl. split; [by apply iput_keep; [|lia]|]. destruct (icache_drop e fl qs p C Hp) as [C' _].
    split; [done|]. split; [by left|]. split; [apply drop_same|].
    assert (∀ q, e_inode (drop p e) q = if decide (p = q) then (e_inode e q) <| i_count ::= λ c, s32 (c - 1) |> else e_inode e q) as Ed
      by (intros q; unfold drop; by rewrite set_ino_at).
    split; [|split; [|split; [|split; [|done]]]].
    + intros n. destruct (icache_step e (drop p e) fl fl qs C) as [_ Hlk]; [apply drop_same|eapply same_free_ok; [apply drop_same|apply C]|..|done].
      * intros q. rewrite Ed. by case_decide.
      * intros q Hq. rewrite Ed, decide_False by (intros ->; done). by apply (io_idle _ _ _ C).
      * apply (io_busy _ _ _ C).
    + intros q. rewrite Ed. by case_decide.
    + intros q Hq. by rewrite Ed, decide_False.
    + intros _. rewrite Ed, decide_True by done. rec_simpl. split; [apply s32_id; unfold is_s32; lia|done].
Qed.


(** ** Properties *)

(** C25: The inode cache implements a map from numbers to inodes: taking a number gives an inode that nobody
    else refers to, with the contents of that number, cached or read from the table of its group; no
    number changes its contents and the cache stays well formed. This holds as long as the inode is
    cached and free or the next free inode has never been used. *)
Theorem iget_refines_inodes e fl qs num : icache_ok e fl qs → available e fl qs num →
  ∃ p e' fl' qs', ext2_iget dev num e = Ok (Some p, e') ∧ icache_ok e' fl' qs' ∧ p ∈ fl ∧ (p ∉ fl') ∧
    i_num (e_inode e' p) = num ∧ i_ino (e_inode e' p) = iview e num ∧ i_count (e_inode e' p) = 1 ∧
    (∀ n, iview e' n = iview e n) ∧ (∀ b, view e' b = view e b).
Proof.
  intros C Ha. destruct (iget_ok e fl qs num C Ha) as (p & l1 & l2 & e' & qs' & -> & R & C' & G).
  exists p, e', (l1 ++ l2), qs'. split; [done|]. split; [done|]. split; [set_solver|].
  split; [apply (split_nodup l1 l2 p), (io_free _ _ _ C)|]. split; [apply G|]. split; [apply G|]. split; [apply G|].
  split; [|apply G]. eapply got_iview; [exact C| |exact G]. set_solver.
Qed.


(** C32: Opening one file twice breaks the cache: an inode that is taken again while it is in use is unlinked from
    the free list a second time, with the links it had before, which puts its old neighbour back. After
    taking [na], [nb] and [na] again, the inode of [nb], which is in use, is the next that is given away. *)
Theorem iget_takes_busy_inode e a b l qs na nb : icache_ok e (a :: b :: l) qs → a ∉ mjoin qs → b ∉ mjoin qs →
  ilookup e dev na = None → ilookup e dev nb = None → na ≠ nb → on_disk e na → on_disk e nb →
  ∃ e', (ext2_iget dev na ;; ext2_iget dev nb ;; ext2_iget dev na) e = Ok (Some a, e') ∧
    i_num (e_inode e' b) = nb ∧ i_count (e_inode e' b) = 1 ∧ i_count (e_inode e' a) = 2 ∧ free_next e' free_list = Some b.
Proof.
  intros C Ha Hb La Lb Hne Da Db. pose proof (fo_nodup _ _ (io_free _ _ _ C)) as Hnd. apply NoDup_cons in Hnd as [Hab Hnd].
  apply NoDup_cons in Hnd as [Hbl _].
  pose proof (free_elem _ _ a (io_free _ _ _ C) ltac:(by left)) as Sa. pose proof (slot_valid a Sa) as Va. pose proof (slot_not_head a Sa) as Ah.
  pose proof (free_elem _ _ b (io_free _ _ _ C) ltac:(by right; left)) as Sb. pose proof (slot_valid b Sb) as Vb. pose proof (slot_not_head b Sb) as Bh.
  destruct (fo_ring _ _ (io_free _ _ _ C)) as (_ & Ap & An & _). unfold free_prev in Ap. unfold free_next in An. rewrite Va in Ap, An.
  destruct (iget_miss e (b :: l) qs na a C La Da Ha) as (e1 & qs1 & R1 & C1 & G1).
  assert (ilookup e1 dev nb = None) as Lb1 by (rewrite (gt_lookup _ _ _ _ _ _ _ G1), decide_False; done).
  assert (b ∉ mjoin qs1) as Hb1 by (rewrite (gt_used _ _ _ _ _ _ _ G1); intros [->|]; [set_solver|done]).
  destruct (iget_miss e1 l qs1 nb b C1 Lb1 (fs_same_on_disk _ _ _ (gt_fs _ _ _ _ _ _ _ G1) Db) Hb1) as (e2 & qs2 & R2 & C2 & G2).
  assert (a ≠ b) as Eab by (intros ->; set_solver).
  assert (i_next_free (e_inode e2 a) = Some b ∧ i_prev_free (e_inode e2 a) = Some free_list) as [An2 Ap2].
  { destruct (gt_stale _ _ _ _ _ _ _ G2 a) as [-> ->]; [set_solver|]. destruct (gt_stale _ _ _ _ _ _ _ G1 a) as [-> ->]; [set_solver|done]. }
  destruct (inode_search_ok e2 qs2 dev na (io_hash _ _ _ C2)) as [R3 _].
  rewrite (gt_lookup _ _ _ _ _ _ _ G2), decide_False in R3 by done. rewrite (gt_lookup _ _ _ _ _ _ _ G1), decide_True in R3 by done.
  set (e3 := set_ino b (λ i, i <| i_prev_free := Some free_list |>) (set_ino free_list (λ i, i <| i_next_free := Some b |>) e2)).
  assert (remove_from_free_list a e2 = Ok (tt, e3)) as R4.
  { unfold remove_from_free_list. rewrite get_ino_run by done. rewrite Ap2, An2. rewrite upd_ino_run, get_ino_run by done.
    rewrite set_ino_at, decide_False by done. rewrite An2. change ((deref (Some b) _ ≫= ?m) ?x) with (m b x). cbv beta.
    rewrite upd_ino_last by done. by rewrite Ap2. }
  exists (set_ino a (λ i, i <| i_count ::= λ c, s32 (c + 1) |>) e3). split; [|split; [|split; [|split]]].
  - rewrite (bind_ok _ _ _ _ _ R1), (bind_ok _ _ _ _ _ R2). unfold ext2_iget. rewrite (bind_ok _ _ _ _ _ R3), (bind_ok _ _ _ _ _ R4).
    by rewrite upd_ino_run by done.
  - unfold e3. rewrite !set_ino_at. rewrite (decide_False (P := a = b)), (decide_True (P := b = b)), (decide_False (P := free_list = b)) by done. apply G2.
  - unfold e3. rewrite !set_ino_at. rewrite (decide_False (P := a = b)), (decide_True (P := b = b)), (decide_False (P := free_list = b)) by done. apply G2.
  - unfold e3. rewrite !set_ino_at. rewrite (decide_True (P := a = a)), (decide_False (P := b = a)), (decide_False (P := free_list = a)) by done.
    destruct (body_idle _ _ (gt_rest _ _ _ _ _ _ _ G2 a Eab)) as [E _]. rec_simpl. rewrite E. by rewrite (gt_count _ _ _ _ _ _ _ G1).
  - unfold free_next, e3. rewrite !set_ino_at. rewrite (decide_False (P := a = free_list)), (decide_False (P := b = free_list)) by done. by rewrite decide_True.
Qed.

(** *** What [ext2_inodes_init] leaves behind *)
Definition init_slot (ip : nat) (i : ext2_inode_m) : ext2_inode_m := i <| i_dev := NODEV |>
  <| i_prev_free := Some (if (ip =? 0)%nat then free_list else Nat.pred ip) |>
  <| i_next_free := Some (if (ip =? NR_INODE_CACHE - 1)%nat then free_list else S ip) |>
  <| i_next := None |> <| i_prev := None |> <| i_count := 0 |> <| i_flags := 0 |>.
Lemma inodes_init_ok e : ∃ e', ext2_inodes_init true true e = Ok (tt, e') ∧ fs_same e e' ∧
  (∀ p, is_slot p → e_inode e' p = init_slot p (e_inode e p)) ∧ (∀ h, 0 <= h < NR_INODE_HASH → e_hash_queues e' h = None) ∧
  i_next_free (e_inode e' free_list) = Some 0%nat ∧ i_prev_free (e_inode e' free_list) = Some NR_INODE_CACHE.
Proof.
  unfold ext2_inodes_init. cbn [negb].
  destruct (for_range_ok (λ k e1, fs_same e e1 ∧ e_inode e1 = e_inode e ∧ ∀ h, 0 <= h < Z.of_nat k → e_hash_queues e1 h = None)
    (λ h, set_hash_queue (Z.of_nat h) None) (Z.to_nat NR_INODE_HASH) e) as (e1 & R1 & S1 & I1 & Q1).
  { split; [done|]. split; [done|lia]. }
  { intros k e1 Hk (S & I & Q). eexists. split; [reflexivity|]. split; [by etrans|]. split; [done|]. intros h Hh. rec_simpl.
    destruct (decide (Z.of_nat k = h)) as [<-|]; [by rewrite fn_insert_eq|]. rewrite fn_insert_ne by done. apply Q. lia. }
  rewrite (bind_ok _ _ _ _ _ R1). rewrite upd_ino_run by done.
  set (e2 := set_ino free_list (λ i, i <| i_next_free := Some 0%nat |>) e1).
  destruct (for_range_ok (λ k e3, fs_same e2 e3 ∧ e_hash_queues e3 = e_hash_queues e2 ∧
      ∀ p, e_inode e3 p = if decide (p < k)%nat then init_slot p (e_inode e2 p) else e_inode e2 p)
    (λ ip, upd_ino ip (init_slot ip)) NR_INODE_CACHE e2) as (e3 & R3 & S3 & Q3 & I3).
  { split; [done|]. split; [done|]. intros p. by rewrite decide_False by lia. }
  { intros k e3 Hk (S & Q & I). eexists. split; [by apply upd_ino_last, slot_valid|]. split; [by etrans|]. split; [done|].
    intros p. rewrite set_ino_at, !I. destruct (decide (k = p)) as [<-|]; [by rewrite decide_False, decide_True by lia|].
    destruct (decide (p < k)%nat); [by rewrite decide_True by lia|by rewrite decide_False by lia]. }
  change (λ ip, upd_ino ip (λ i, i <| i_dev := NODEV |> <| i_prev_free := _ |> <| i_next_free := _ |>
      <| i_next := None |> <| i_prev := None |> <| i_count := 0 |> <| i_flags := 0 |>)) with (λ ip, upd_ino ip (init_slot ip)).
  rewrite (bind_ok _ _ _ _ _ R3). eexists. split; [by apply upd_ino_last|].
  split; [etrans; [exact S1|]; etrans; [apply fs_same_set|]; etrans; [exact S3|apply fs_same_set]|].
  split; [|split; [|split]].
  - intros p Hp. rewrite set_ino_at, decide_False by (pose proof (slot_not_head p Hp); congruence).
    rewrite I3, decide_True by done. unfold e2. rewrite set_ino_at, decide_False by (pose proof (slot_not_head p Hp); congruence). by rewrite I1.
  - intros h Hh. change (e_hash_queues (set_ino ?a ?b e3)) with (e_hash_queues e3). rewrite Q3. apply Q1. unfold NR_INODE_HASH in *. lia.
  - rewrite set_ino_at, decide_True by done. rec_simpl. rewrite I3, decide_False by (unfold free_list; lia). unfold e2. by rewrite set_ino_at, decide_True.
  - by rewrite set_ino_at, decide_True.
Qed.
(** The previous link of the dummy head points behind the array: the first inode can be taken, but its
    release writes outside of the cache. *)
Theorem first_iput_writes_outside e num : on_disk e num → i_links_count (table e num) ≠ 0 →
  ∃ e1 e2, ext2_inodes_init true true e = Ok (tt, e1) ∧ ext2_iget dev num e1 = Ok (Some 0%nat, e2) ∧
    i_ino (e_inode e2 0) = table e num ∧ ∃ why, ext2_iput 0 e2 = Undef why.
Proof.
  intros Hd Hlinks. destruct (inodes_init_ok e) as (e1 & R & S & I & Q & Hn & Hp).
  pose proof (I 0%nat ltac:(unfold is_slot, NR_INODE_CACHE; lia)) as I0.
  assert (0 <= INODE_HASH dev num < NR_INODE_HASH) as Hh by (apply Z.mod_pos_bound; done).
  set (e2 := set_ino 1 (λ j, j <| i_prev_free := Some free_list |>) (set_ino free_list (λ i, i <| i_next_free := Some 1%nat |>) e1)).
  assert (remove_from_free_list 0 e1 = Ok (tt, e2)) as R2.
  { unfold remove_from_free_list. rewrite get_ino_run by done. rewrite I0. unfold init_slot. rec_simpl. cbn [Nat.eqb Nat.sub NR_INODE_CACHE].
    rewrite upd_ino_run, get_ino_run by done. rewrite set_ino_at, decide_False by done. rewrite I0. unfold init_slot. rec_simpl. cbn [Nat.eqb Nat.sub NR_INODE_CACHE].
    change ((deref (Some 1%nat) _ ≫= ?m) ?x) with (m 1%nat x). cbv beta. by apply upd_ino_last. }
  set (e3 := set_ino 0 (λ i, i <| i_num := num |>) (set_ino 0 (λ i, i <| i_dev := dev |>) e2)).
  set (e4 := set_ino 0 (λ j, j <| i_prev := Some 0%nat |>) (set_ino 0 (λ j, j <| i_next := Some 0%nat |>)
    (e3 <| e_hash_queues ::= <[INODE_HASH dev num := Some 0%nat]> |>))).
  assert (∀ q, e_inode e4 q = if decide (q = 0)%nat then (e_inode e1 0) <| i_dev := dev |> <| i_num := num |> <| i_next := Some 0%nat |> <| i_prev := Some 0%nat |>
    else e_inode e2 q) as E4.
  { intros q. unfold e4, e3. rewrite !set_ino_at. rec_simpl. rewrite !set_ino_at. destruct (decide (q = 0)%nat) as [->|].
    - rewrite !decide_True by done. unfold e2. by rewrite !set_ino_at.
    - by rewrite !decide_False by congruence. }
  assert (fs_same e e4) as S4 by (etrans; [exact S|]; by split).
  set (e5 := filled 0 num e4). set (e6 := set_ino 0 (λ i, i <| i_count := 1 |>) e5).
  assert (e_inode e6 0 = (e_inode e4 0) <| i_ino := table e num |> <| i_count := 1 |>) as E6.
  { unfold e6, e5, filled. rewrite !set_ino_at, !decide_True by done. by rewrite (fs_same_table _ _ _ S4). }
  exists e1, e6. split; [done|]. split; [|split; [by rewrite E6|]].
  - unfold ext2_iget. assert (in_hash_queue dev num e1 = Ok (None, e1)) as R1.
    { unfold in_hash_queue. change ((gets ?f ≫= ?m) e1) with (m (f e1) e1). cbv beta. by rewrite Q. }
    rewrite (bind_ok _ _ _ _ _ R1). rewrite get_ino_run by done. rewrite Hn. rewrite (bind_ok _ _ _ _ _ R2).
    assert (remove_from_hash_queue 0 e2 = Ok (tt, e2)) as R3.
    { unfold remove_from_hash_queue. rewrite get_ino_run by done. unfold e2. rewrite !set_ino_at. simpl. by rewrite I0. }
    rewrite (bind_ok _ _ _ _ _ R3). rewrite !upd_ino_run by done. fold e3.
    assert (put_into_hash_queue 0 e3 = Ok (tt, e4)) as R4.
    { unfold put_into_hash_queue. rewrite get_ino_run by done. unfold e3 at 1 2. rewrite !set_ino_at, !decide_True by done. rec_simpl.
      change ((gets ?f ≫= ?m) e3) with (m (f e3) e3). cbv beta. change (e_hash_queues e3) with (e_hash_queues e1). rewrite Q by done.
      change ((set_hash_queue ?h (Some 0%nat) ;; ?m) e3) with (m (e3 <| e_hash_queues ::= <[h := Some 0%nat]> |>)). cbv beta.
      rewrite upd_ino_run by done. by apply upd_ino_last. }
    rewrite (bind_ok _ _ _ _ _ R4). assert (i_num (e_inode e4 0) = num) as N4 by (by rewrite E4).
    rewrite (bind_ok _ _ _ _ _ (read_inode_ok 0 e4 eq_refl ltac:(rewrite N4; by eapply fs_same_on_disk))). rewrite N4. by rewrite upd_ino_run by done.
  - set (e7 := drop 0 e6). assert (e_inode e7 0 = (e_inode e6 0) <| i_count ::= λ c, s32 (c - 1) |>) as E7 by (unfold e7, drop; by rewrite set_ino_at, decide_True).
    eexists. unfold ext2_iput. rewrite get_ino_run by done. rewrite upd_ino_run by done. fold (drop 0 e6). fold e7.
    rewrite E6. rec_simpl. cbn [Z.eqb]. rewrite get_ino_run by done. rewrite E7, E6. rec_simpl. change (s32 (1 - 1) =? 0) with true. cbv iota.
    rewrite (proj2 (Z.eqb_neq _ _) Hlinks). change ((when false ?m ;; ?k) e7) with (k e7). cbv beta. rewrite get_ino_run by done.
    rewrite E7, E6. unfold is_modified. rec_simpl. rewrite E4, decide_True by done. rec_simpl. rewrite I0. unfold init_slot. rec_simpl.
    change ((when (negb (Z.land 0 I_MODIFIED =? 0)) ?m ;; ?k) e7) with (k e7). cbv beta.
    unfold put_into_free_list. rewrite get_ino_run by done. rewrite E7, E6. rec_simpl. change (negb (s32 (1 - 1) =? 0)) with false. cbv iota.
    rewrite upd_ino_run, get_ino_run by done. assert (i_prev_free (e_inode e7 free_list) = Some NR_INODE_CACHE) as Hp7.
    { unfold e7, drop, e6, e5, filled. rewrite !set_ino_at, !decide_False by done. change (e_inode (load ?b e4) free_list) with (e_inode e4 free_list).
      rewrite E4, decide_False by done. unfold e2. by rewrite !set_ino_at. }
    rewrite set_ino_at, decide_False by done. rewrite Hp7. rewrite upd_ino_run, get_ino_run by done. rewrite !set_ino_at, !decide_False by done. rewrite Hp7.
    reflexivity.
Qed.
End cache.

(** ** A small cache: slot 0 holds the inode 13, which has been modified, the other slots are free *)
Module InodeDemo.
Import Ext2Demo.
(** The inode [n0] is in the first slot, the other slots have not been used; [d] is what the disk holds. *)
Section cache_of.
Variables (d : Z → Z → Z) (i0 : ext2_inode) (n0 : Z).
Definition node (q : nat) : ext2_inode_m :=
  if (q =? free_list)%nat then (cached_ino ino0 0 0 0) <| i_next_free := Some 1%nat |> <| i_prev_free := Some 127%nat |>
  else if (q =? 0)%nat then (cached_ino i0 n0 1 1) <| i_next := Some 0%nat |> <| i_prev := Some 0%nat |>
  else (cached_ino ino0 0 0 0) <| i_dev := NODEV |> <| i_next_free := Some (if (q =? 127)%nat then free_list else S q) |>
    <| i_prev_free := Some (if (q =? 1)%nat then free_list else Nat.pred q) |>.
Definition start : ext2 :=
  (fs 0) <| e_disk := d |> <| e_inode := node |> <| e_hash_queues := λ h, if h =? INODE_HASH 768 n0 then Some 0%nat else None |>.
Definition free_slots : list nat := seq 1 127.

Lemma node_free q : (1 <= q < 128)%nat → free_next start q = Some (if (q =? 127)%nat then free_list else S q) ∧
  free_prev start q = Some (if (q =? 1)%nat then free_list else Nat.pred q).
Proof.
  intros Hq. unfold free_next, free_prev. rewrite slot_valid by (unfold is_slot, NR_INODE_CACHE; lia). simpl. unfold node.
  rewrite (proj2 (Nat.eqb_neq q free_list)), (proj2 (Nat.eqb_neq q 0)) by (unfold free_list, NR_INODE_CACHE; lia). done.
Qed.
Lemma icache_links n i : (i + n = 127)%nat → (1 <= i)%nat → links (free_next start) (free_prev start) i (seq (S i) n) free_list.
Proof.
  revert i. induction n as [|n IH]; intros i Hi H1; simpl.
  - replace i with 127%nat by lia. done.
  - destruct (node_free i) as [-> _]; [lia|]. destruct (node_free (S i)) as [_ ->]; [lia|].
    rewrite (proj2 (Nat.eqb_neq i 127)), (proj2 (Nat.eqb_neq (S i) 1)) by lia. split; [done|]. split; [done|]. apply IH; lia.
Qed.
Lemma icache_free : free_ok start free_slots.
Proof.
  split.
  - change (ring (free_next start) (free_prev start) (free_list :: 1%nat :: seq 2 126)). split; [done|]. split; [done|]. by apply icache_links; lia.
  - apply NoDup_seq.
  - apply Forall_forall. intros p Hp%elem_of_seq. unfold is_slot, NR_INODE_CACHE. lia.
Qed.
Lemma icache_hash : hash_ok start [[0%nat]].
Proof.
  split.
  - by intros q ->%list_elem_of_singleton.
  - apply NoDup_singleton.
  - apply Forall_singleton. unfold is_slot, NR_INODE_CACHE. lia.
  - intros p Hp Hn. cbn [ihq hq_next hq_prev]. unfold hash_next, hash_prev. rewrite (slot_valid p Hp). cbn [start]. unfold start. rec_simpl. unfold node.
    unfold is_slot in Hp. rewrite (proj2 (Nat.eqb_neq p free_list)) by (unfold free_list; lia).
    rewrite (proj2 (Nat.eqb_neq p 0)) by (intros ->; apply Hn; by left). done.
  - intros h p. change (hq_heads (ihq start) h) with (if h =? INODE_HASH 768 n0 then Some 0%nat else None).
    case_match; [|done]. intros [= <-]. by left.
Qed.
Lemma icache_start : icache_ok start free_slots [[0%nat]].
Proof.
  split; [apply icache_free|apply icache_hash|..].
  - intros p ->%list_elem_of_singleton. split; [done|]. change (i_num (e_inode start 0)) with n0. unfold ilookup, hq_lookup.
    rewrite (search_ring _ _ _ slots_length (ihq start) (CONFIG_FS_ROOT_DEV, n0) [] 0%nat [] [] icache_hash) 
      by (change (hq_heads (ihq start) (key_hash (CONFIG_FS_ROOT_DEV, n0))) with (if INODE_HASH 768 n0 =? INODE_HASH 768 n0 then Some 0%nat else None);
          by rewrite Z.eqb_refl).
    change (first_match (has_key (ihq start) (CONFIG_FS_ROOT_DEV, n0)) [0%nat] = Some 0%nat). unfold first_match.
    rewrite filter_cons, has_key_num. change (has_num CONFIG_FS_ROOT_DEV n0 (e_inode start 0)) with (true && (n0 =? n0)). by rewrite Z.eqb_refl.
  - intros p Hp%elem_of_seq. cbn [start]. unfold start. rec_simpl. unfold node.
    by rewrite (proj2 (Nat.eqb_neq p free_list)), (proj2 (Nat.eqb_neq p 0)) by (unfold free_list, NR_INODE_CACHE; lia).
  - intros p Hp Hn. destruct p as [|p]; [by left|]. exfalso. apply Hn. apply elem_of_seq. unfold is_slot, NR_INODE_CACHE in Hp. lia.
Qed.
Lemma start_disk num : 1 <= num <= 32 → on_disk start num.
Proof.
  intros Hn. assert (u32 (num - 1) = num - 1) as E by (apply u32_id; unfold is_u32; lia). split.
  - unfold EXT2_BLOCK_GROUP. rewrite E. change (EXT2_INODES_PER_GROUP (e_sb start)) with 16. change (e_nr_blk_group start) with 2. lia.
  - unfold place. cbn [snd]. unfold EXT2_INODE_INDEX. rewrite E. unfold in_block, EXT2_INODE_BYTES.
    change (EXT2_INODES_PER_GROUP (e_sb start)) with 16. change (EXT2_INODES_PER_BLOCK (e_sb start)) with 8.
    change (EXT2_INODE_SIZE (e_sb start)) with 128. change (blksize start) with 1024. apply andb_true_iff. rewrite !Z.leb_le. lia.
  - done.
Qed.
End cache_of.
Lemma start_unused p : (1 <= p)%nat → p ∉ mjoin [[0%nat]].
Proof. intros Hp ->%list_elem_of_singleton. lia. Qed.
End InodeDemo.
Import Ext2Demo InodeDemo.
Definition start13 : ext2 := start blocks ino0 13.

Lemma iget_refines_inodes_witness : ∃ p e', ext2_iget CONFIG_FS_ROOT_DEV 14 start13 = Ok (Some p, e') ∧ i_num (e_inode e' p) = 14.
Proof.
  destruct (iget_refines_inodes start13 free_slots [[0%nat]] 14) as (p & e' & fl' & qs' & R & _ & _ & _ & Hn & _); [apply icache_start| |by exists p, e'].
  split; [apply start_disk; lia|]. exists 1%nat, (seq 2 126). split; [done|by apply start_unused].
Defined.
(** The fourth call gives the slot of the inode 15, which is in use, to the inode 16. *)
Lemma iget_takes_busy_inode_witness : (∃ e', (ext2_iget 768 14 ;; ext2_iget 768 15 ;; ext2_iget 768 14) start13 = Ok (Some 1%nat, e') ∧
    i_num (e_inode e' 2) = 15 ∧ i_count (e_inode e' 2) = 1 ∧ free_next e' free_list = Some 2%nat) ∧
  match (ext2_iget 768 14 ;; ext2_iget 768 15 ;; ext2_iget 768 14 ;; ext2_iget 768 16) start13 with
  | Ok (p, e') => p = Some 2%nat ∧ i_num (e_inode e' 2) = 16 | _ => False end.
Proof.
  split; [|by vm_compute].
  destruct (iget_takes_busy_inode start13 1 2 (seq 3 125) [[0%nat]] 14 15) as (e' & R & H1 & H2 & _ & H3).
  - apply icache_start.
  - by apply start_unused.
  - apply start_unused. lia.
  - done.
  - done.
  - done.
  - by apply start_disk.
  - by apply start_disk.
  - exists e'. split; [exact R|]. split; [exact H1|]. split; [exact H2|exact H3].
Defined.
Lemma first_iput_writes_outside_witness : ∃ e1 e2, ext2_inodes_init true true (start (λ _ _, 1) ino0 13) = Ok (tt, e1) ∧
  ext2_iget CONFIG_FS_ROOT_DEV 2 e1 = Ok (Some 0%nat, e2) ∧ ∃ why, ext2_iput 0 e2 = Undef why.
Proof.
  destruct (first_iput_writes_outside (start (λ _ _, 1) ino0 13) 2) as (e1 & e2 & R1 & R2 & _ & why & R3).
  - by apply start_disk.
  - done.
  - exists e1, e2. split; [exact R1|]. split; [exact R2|]. exists why. exact R3.
Defined.
#[export] Instance root_cache `{DEV : Device} : InodeCache := {| Ext2Dir.ext2_iget := ext2_iget CONFIG_FS_ROOT_DEV |}.
