(* ===== verification/Super.v ===== *)
(** Mounting ext2: the superblock and the group descriptors on the disk, their way into memory and
    back, and the attributes (sys/fs/ext2/super.c, sys/fs/ext2/attribute.c).

    The device is a function from addresses to bytes. What Ext2.v has as the records [e_sb] and [e_bgd]
    are bytes of structures in the C code; [s_raw] and [s_bgd_raw] hold the bytes of the fields that the
    records leave out. *)
From S2P Require Import Prelude DList Proc Drive Ext2 Ext2Dir Inode.

Definition EXT2_MAGIC : Z := 61267.
Definition EXT2_ROOT_INO : Z := 2.
Definition EXT2_ERROR_FS : Z := 2.
Definition EXT2_ERRORS_RO : Z := 2.
Definition EXT2_ERRORS_PANIC : Z := 3.
Definition DEFAULT_BLOCK_SIZE : Z := 1024.
Definition CONFIG_FS_ROOT_DEV : Z := 768.

(** ** The structures as bytes *)

Definition sb_of (m : Z → Z) : ext2_superblock :=
  MkSb (le32 m 0) (le32 m 4) (le32 m 12) (le32 m 16) (le32 m 20) (le32 m 24) (le32 m 32) (le32 m 40) (le32 m 76) (le32 m 84) (le16 m 88).
Definition sb_bytes (sb : ext2_superblock) (raw : Z → Z) : Z → Z :=
  put_le32 0 (s_inodes_count sb) (put_le32 4 (s_blocks_count sb) (put_le32 12 (s_free_blocks_count sb)
  (put_le32 16 (s_free_inodes_count sb) (put_le32 20 (s_first_data_block sb) (put_le32 24 (s_log_block_size sb)
  (put_le32 32 (s_blocks_per_group sb) (put_le32 40 (s_inodes_per_group sb) (put_le32 76 (s_rev_level sb)
  (put_le32 84 (s_first_ino sb) (put_le16 88 (s_inode_size sb) raw)))))))))).
Definition s_mtime (m : Z → Z) : Z := le32 m 44.
Definition s_wtime (m : Z → Z) : Z := le32 m 48.
Definition s_mnt_count (m : Z → Z) : Z := le16 m 52.
Definition s_magic (m : Z → Z) : Z := le16 m 56.
Definition s_state (m : Z → Z) : Z := le16 m 58.
Definition s_errors (m : Z → Z) : Z := le16 m 60.

Definition BGD_BYTES : Z := 32.
Definition bgd_of (m : Z → Z) (g : Z) : ext2_blk_group_desc :=
  let a := BGD_BYTES * g in
  MkBgd (le32 m a) (le32 m (a + 4)) (le32 m (a + 8)) (le16 m (a + 12)) (le16 m (a + 14)) (le16 m (a + 16)).

(** ** The state *)
Record super := MkSuper {
  s_dev : Z → Z;
  s_fs : ext2;
  s_raw : Z → Z; s_bgd_raw : Z → Z;
  f_read_only : bool;
  mount_root_routine : bool;
  root_inode : option nat; root_count : Z; cwd_inode : option nat; cwd_count : Z; root_fs : bool; cwd_fs : bool
}.
#[export] Instance super_eta : Eta super := λ s, MkSuper (s_dev s) (s_fs s) (s_raw s) (s_bgd_raw s) (f_read_only s) (mount_root_routine s)
  (root_inode s) (root_count s) (cwd_inode s) (cwd_count s) (root_fs s) (cwd_fs s).
Definition SP (A : Type) : Type := M super A.
Definition on_fs {A} (m : E A) : SP A := zoom s_fs (λ e s, s <| s_fs := e |>) m.

(** What the start relies on: whether [getblk] returns a buffer, which reads (of a block size and a block) fail, whether
    [kvmalloc] returns memory for the table, the hash queues and the inodes, and whether the mount table has room. *)
Class Boot := { root_buffer : bool; read_error : Z → Z → bool; table_room : bool; queue_room : bool; inode_room : bool; mount_room : bool }.

Section mount.
Context `{DEV : Device} `{BT : Boot}.

(** The number of groups, from the inodes and from the blocks. *)
Definition nr_groups (count per_group : Z) : Z := if count mod per_group =? 0 then count / per_group else count / per_group + 1.
Definition ext2_init : SP Z :=
  if negb root_buffer then panic "ext2_init: getblk returned NULL" else
  if read_error DEFAULT_BLOCK_SIZE 1 then panic "ext2_init: unable to read superblock" else
  s ← get;
  let data := λ o, s_dev s (DEFAULT_BLOCK_SIZE + o) in
  let sb := sb_of data in
  modify (λ s, s <| s_raw := data |> <| s_fs ::= λ e, e <| e_sb := sb |> <| e_modified := negb (le32 data 252 =? 0) |> |>) ;;
  if negb mount_room then panic "ext2_init: unable to register filesystem" else
  if negb (s_magic data =? EXT2_MAGIC) then panic "ext2_init: Root device not an ext2 filesystem" else
  (if s_state data =? EXT2_ERROR_FS then
     if s_errors data =? EXT2_ERRORS_RO then modify (λ s, s <| f_read_only := true |>)
     else when (s_errors data =? EXT2_ERRORS_PANIC) (panic "ext2_init: ext2 superblock tells kernel to panic as filesystem has errors!")
   else modify (λ s, s <| f_read_only := false |>)) ;;
  if (s_inodes_per_group sb =? 0) || (s_blocks_per_group sb =? 0) then undef "division by zero" else
  let tmp1 := s32 (nr_groups (s_inodes_count sb) (s_inodes_per_group sb)) in
  let tmp2 := s32 (nr_groups (s_blocks_count sb) (s_blocks_per_group sb)) in
  if negb (tmp1 =? tmp2) then panic "ext2_init: Superblock corrupted" else
  modify (λ s, s <| s_fs ::= λ e, e <| e_nr_blk_group := tmp1 |> |>) ;;
  if negb table_room then panic "ext2_init: Unable to allocate memory for block group descriptor table" else
  if 20 <? s_log_block_size sb then undef "1024 << s_log_block_size" else
  let bs := EXT2_BLOCKSIZE sb in
  let blknr := if bs =? 1024 then 2 else 1 in
  if negb (read_error bs blknr) && (DEFAULT_BLOCK_SIZE <? bs) then undef "read behind b_data" else
  let table := if read_error bs blknr then data else λ o, s_dev s (blknr * bs + o) in
  if DEFAULT_BLOCK_SIZE <? u32 (tmp1 * BGD_BYTES) then undef "copy from behind b_data" else
  modify (λ s, s <| s_bgd_raw := table |> <| s_fs ::= λ e, e <| e_bgd := bgd_of table |> <| e_disk := λ b o, s_dev s (b * bs + o) |> |>) ;;
  on_fs (ext2_inodes_init queue_room inode_room) ;;
  modify (λ s, s <| mount_root_routine := true |>) ;;
  mret 0.


(** [get_ext2_superblock]; [found] is what [find_filesystem] returns, with [f_fs == EXT2]. *)
Definition get_ext2_superblock (found : option bool) : SP ext2_superblock :=
  match found with
  | None => panic "get_ext2_superblock: invalid device"
  | Some is_ext2 => if is_ext2 : bool then gets (λ s, e_sb (s_fs s)) else panic "get_ext2_superblock: mount table corrupted"
  end.

Definition ext2_mount_root : SP unit :=
  ip ← on_fs (ext2_iget CONFIG_FS_ROOT_DEV EXT2_ROOT_INO);
  modify (λ s, s <| root_inode := ip |>) ;;
  match ip with
  | None => panic "ext2_mount_root: unable to get root inode"
  | Some ip =>
      modify (λ s, s <| root_count := 1 |>) ;;
      on_fs (upd_ino ip (λ i, i <| i_count ::= λ c, s32 (c + 1) |>)) ;;
      modify (λ s, s <| cwd_inode := root_inode s |> <| root_count := 1 |> <| root_fs := true |> <| cwd_fs := true |>) ;;
      s ← get;
      modify (λ s, s <| s_raw ::= λ m, put_le16 52 (u16 (s_mnt_count m + 1)) (put_le32 44 (u32 (e_now (s_fs s))) m) |>
        <| s_fs ::= λ e, e <| e_modified := true |> |>)
  end.
End mount.

Inductive fs_attribute_cmd := GET_BLOCKSIZE | GET_MTIME | GET_WTIME.
Definition ext2_get_attribute (is_ext2 has_super : bool) (cmd : fs_attribute_cmd) : SP Z :=
  if negb is_ext2 then mret 0 else
  if negb has_super then panic "ext2 filesystem registered with no superblock" else
  gets (λ s, match cmd with
    | GET_BLOCKSIZE => EXT2_BLOCKSIZE (e_sb (s_fs s))
    | GET_MTIME => s_mtime (s_raw s)
    | GET_WTIME => s_wtime (s_raw s)
    end).


(** ** Sync *)
Section sync.
Context `{DEV : Device} `{BT : Boot}.




(** ** The start *)
Definition boot_ok : Prop := root_buffer = true ∧ (∀ bs b, read_error bs b = false) ∧ table_room = true ∧ queue_room = true ∧
  inode_room = true ∧ mount_room = true.
(** A superblock that the start accepts: with blocks of 1024 bytes and [n] groups. *)
Record sb_accepted (n : Z) (m : Z → Z) : Prop := {
  sa_magic : s_magic m = EXT2_MAGIC; sa_errors : s_state m = EXT2_ERROR_FS → s_errors m ≠ EXT2_ERRORS_PANIC;
  sa_log : s_log_block_size (sb_of m) = 0; sa_per : s_inodes_per_group (sb_of m) ≠ 0 ∧ s_blocks_per_group (sb_of m) ≠ 0;
  sa_inodes : nr_groups (s_inodes_count (sb_of m)) (s_inodes_per_group (sb_of m)) = n;
  sa_blocks : nr_groups (s_blocks_count (sb_of m)) (s_blocks_per_group (sb_of m)) = n;
  sa_nr : 0 <= n <= 32
}.
End sync.

(** ** Properties *)
Section properties.
Context `{DEV : Device} `{BT : Boot}.



(** The buffer for the start has 1024 bytes: for a file system of larger blocks the group descriptors are read over
    its end. *)
Theorem mount_overruns_buffer s : let data := λ o, s_dev s (1024 + o) in boot_ok → s_magic data = EXT2_MAGIC → s_state data ≠ EXT2_ERROR_FS →
  1 <= s_log_block_size (sb_of data) <= 20 → s_inodes_per_group (sb_of data) ≠ 0 → s_blocks_per_group (sb_of data) ≠ 0 →
  nr_groups (s_inodes_count (sb_of data)) (s_inodes_per_group (sb_of data)) = nr_groups (s_blocks_count (sb_of data)) (s_blocks_per_group (sb_of data)) →
  ext2_init s = Undef "read behind b_data".
Proof.
  intros data (B1 & B2 & B3 & B4 & B5 & B6) A1 A2 A3 A4 A4' A5.
  unfold ext2_init. rewrite B1, B2, B3, B6. cbn [negb]. change ((get ≫= ?m) s) with (m s s). cbv beta zeta.
  change (λ o, s_dev s (DEFAULT_BLOCK_SIZE + o)) with data. change ((modify ?f ≫= ?m) s) with (m tt (f s)). cbv beta.
  rewrite A1, (proj2 (Z.eqb_neq _ _) A2), Z.eqb_refl, <-A5, B2. cbn [negb andb].
  change ((modify ?f ≫= ?m) ?u) with (m tt (f u)). cbv beta.
  rewrite (proj2 (Z.eqb_neq _ _) A4), (proj2 (Z.eqb_neq _ _) A4'). cbn [orb]. rewrite Z.eqb_refl. cbn [negb].
  rewrite (proj2 (Z.ltb_ge 20 _)) by lia.
  assert ((DEFAULT_BLOCK_SIZE <? EXT2_BLOCKSIZE (sb_of data)) = true) as ->; [|done].
  apply Z.ltb_lt. unfold EXT2_BLOCKSIZE, DEFAULT_BLOCK_SIZE. rewrite Z.shiftl_mul_pow2 by lia.
  pose proof (Z.pow_le_mono_r 2 1 (s_log_block_size (sb_of data)) ltac:(lia) ltac:(lia)). lia.
Qed.
End properties.

(** ** A concrete file system *)
Module SuperDemo.
#[export] Instance reads : Device := {| read_fails := λ _, false |}.
#[export] Instance boot : Boot :=
  {| root_buffer := true; read_error := λ _ _, false; table_room := true; queue_room := true; inode_room := true; mount_room := true |}.
Definition sb : ext2_superblock := MkSb 16 8192 8000 5 1 0 8192 16 1 11 128.
(** Magic number and state in the bytes that the record leaves out. *)
Definition raw (a : Z) : Z := if a =? 56 then 83 else if a =? 57 then 239 else if a =? 58 then 1 else 0.
Lemma accepted : sb_accepted 1 (sb_bytes sb raw).
Proof. by split; vm_compute. Qed.
End SuperDemo.
Import SuperDemo.

