(* ===== verification/Ext2Path.v ===== *)
(** The walk along a path and the calls of ext2 that take one (sys/fs/ext2/namei.c, open.c, dir.c,
    symlink.c, stat.c). A path is the list of its bytes without the NUL, a pointer into it
    the rest of the path. An out-parameter that has not been written is [None]. *)
From S2P Require Import Prelude DList HashQ Str Proc Files Drive Bitmap Ext2 Ext2File Ext2Dir Inode.

Definition ELOOP : Z := 31.
Definition EISDIR : Z := 30.
Definition EBUSY : Z := 9.
Definition ENOTEMPTY : Z := 57.
Definition ENAMETOOLONG : Z := 36.
Definition EXT2_MAX_SYMLINKS : Z := 5.
Definition EXT2_FAST_SYMLINK_LEN : Z := 60.
Definition EXT2_S_ISVTX : Z := 512.
Definition EXT2_S_ISGID : Z := 1024.
Definition has_type (i : ext2_inode) (t : Z) : bool := Z.land (i_mode i) EXT2_S_IFMT =? t.
Definition EXT2_S_ISDIR (i : ext2_inode) : bool := has_type i EXT2_S_IFDIR.
Definition EXT2_S_ISLNK (i : ext2_inode) : bool := has_type i EXT2_S_IFLNK.
Definition EXT2_S_ISREG (i : ext2_inode) : bool := has_type i EXT2_S_IFREG.
Definition EXT2_S_ISCHR (i : ext2_inode) : bool := has_type i EXT2_S_IFCHR.
Definition EXT2_S_ISBLK (i : ext2_inode) : bool := has_type i EXT2_S_IFBLK.

(** The file system and what the running process has: its root and working directory, whether the file
    system of its root is ext2, its user and its umask; and the static [symlinks] of namei.c. *)
Record nstate := MkN {
  n_e : ext2; root_inode : option nat; cwd_inode : option nat; root_ext2 : bool;
  n_creds : creds; n_umask : Z; symlinks : Z
}.
#[export] Instance nstate_eta : Eta nstate := λ s, MkN
  (n_e s) (root_inode s) (cwd_inode s) (root_ext2 s) (n_creds s) (n_umask s) (symlinks s).
Definition N (A : Type) : Type := M nstate A.
Definition in_e {A} (m : E A) : N A := zoom n_e (λ e s, s <| n_e := e |>) m.
Definition ino (ip : nat) : N ext2_inode := gets (λ s, inode_of ip (n_e s)).
Definition set_symlinks (n : Z) : N unit := modify (λ s, s <| symlinks := n |>).
Definition permission (ip : nat) (mask : Z) : N Z := s ← get; mret (ext2_permission (n_creds s) (inode_of ip (n_e s)) mask).

(** [get_ubyte] at a pointer into a path. *)
Definition ubyte (p : list Z) : Z := default 0 (head p).
Definition slash : Z := 47.
Fixpoint skip_slashes (p : list Z) : list Z :=
  match p with
  | c :: p' => if c =? slash then skip_slashes p' else p
  | [] => []
  end.
(** The bytes up to the next slash, and the rest. *)
Fixpoint component (p : list Z) : list Z * list Z :=
  match p with
  | [] => ([], [])
  | c :: p' => if c =? slash then ([], p) else let '(nm, rest) := component p' in (c :: nm, rest)
  end.
(** A string in memory: the bytes up to a NUL, if there is one in the first [n] bytes. *)
Fixpoint cstring (n : nat) (m : Z → Z) (o : Z) : option (list Z) :=
  match n with
  | O => None
  | S n => if m o =? 0 then Some [] else cons (m o) <$> cstring n m (o + 1)
  end.

(** The result of [ext2_namei], with [*error], [*base], [*last_dir] and [*last_dir_bp], which may be NULL. *)
Record nres := MkRes {
  r_ip : option nat; r_err : option Z; r_base : option (list Z); r_last : option nat; r_bp : option (option Z)
}.
#[export] Instance nres_eta : Eta nres := λ r, MkRes (r_ip r) (r_err r) (r_base r) (r_last r) (r_bp r).

Section path.
Context `{DEV : Device}.

Definition iput (ip : nat) : N unit := in_e (ext2_iput ip).
(** [ext2_iput] of a pointer that may be NULL. *)
Definition iput_ptr (ip : option nat) : N unit := ip ← deref ip "ext2_iput of a null inode"; iput ip.
Definition iget (num : Z) : N (option nat) := in_e (ext2_iget CONFIG_FS_ROOT_DEV num).

(** ** The walk *)

(** What the loop of [ext2_namei] keeps: [ip], [start], [prev_dir], [p1] and the out-parameters. *)
Record walk := MkWalk { w_ip : nat; w_start : nat; w_prev : option nat; w_path : list Z; w_res : nres }.
#[export] Instance walk_eta : Eta walk := λ w, MkWalk (w_ip w) (w_start w) (w_prev w) (w_path w) (w_res w).

(** [ext2_follow_symlink]; [namei] is [ext2_namei] without out-parameters. The result comes with [*err]. *)
Definition follow_symlink (namei : list Z → option nat → option nat → N nres) (ip : nat) (root cwd : option nat) (err : option Z) :
    N (option nat * option Z) :=
  i ← ino ip;
  if negb (EXT2_S_ISLNK i) then mret (None, err) else
  if i_size i <? EXT2_FAST_SYMLINK_LEN then
    path ← deref (cstring 60 (λ a, inode_byte i (40 + a)) 0) "read behind i_block";
    r ← namei path root cwd;
    mret (r_ip r, match r_err r with Some x => Some x | None => err end)
  else
    ok ← in_e (bread (i_block i 0));
    if negb ok then mret (None, Some (- EIO)) else
    s ← get;
    path ← deref (cstring (Z.to_nat (blksize (n_e s))) (e_blk (n_e s) (i_block i 0)) 0) "read behind b_data";
    r ← namei path root cwd;
    mret (r_ip r, match r_err r with Some x => Some x | None => err end).

(** The start of [ext2_namei]: [last] says whether the caller wants [*last_dir]. *)
Definition namei_start (last : bool) (loop : option nat → walk → N nres) (path : list Z) (root cwd : option nat) : N nres :=
  s ← get;
  match root_inode s, cwd_inode s with
  | Some _, Some _ =>
      if negb (root_ext2 s) then mret (MkRes None (Some (- EINVAL)) None None None) else
      let root := match root with Some _ => root | None => root_inode s end in
      let cwd := match cwd with Some _ => cwd | None => cwd_inode s end in
      match (if ubyte path =? slash then root else cwd) with
      | None => panic "ext2_namei: current_process has no root inode or working directory inode"
      | Some ip =>
          in_e (upd_ino ip (λ i, i <| i_count ::= λ c, s32 (c + 1) |>)) ;;
          set_symlinks 0 ;;
          loop root (MkWalk ip ip (if last then None else Some ip) path (MkRes None None None (if last then Some ip else None) None))
      end
  | _, _ => panic "Current process has no root directory or working directory"
  end.

Definition opt_ne (p : option nat) (ip : nat) : bool := bool_decide (p ≠ None ∧ p ≠ Some ip).
(** Leaving with an error: [*last_dir] is only looked at by two of the exits, and not released by others. *)
Definition fail (w : walk) (err : option Z) : N nres := set_symlinks 0 ;; mret ((w_res w) <| r_ip := None |> <| r_err := err |>).

(** The rest of a turn of the loop, after symbolic links: search permission and the next component. *)
Definition namei_step (last bp : bool) (w : walk) : N (nres + walk) :=
  let ip := w_ip w in
  let res := w_res w in
  perm ← permission ip PERM_SRCH;
  if perm <? 0 then
    when (last && bool_decide (r_last res ≠ Some ip)) (iput ip) ;;
    when (opt_ne (w_prev w) ip) (iput_ptr (w_prev w)) ;;
    r ← fail w (Some (- EACCES)); mret (inl r)
  else
    let p2 := skip_slashes (w_path w) in
    let '(name, p1) := component p2 in
    let w := w <| w_res := res <| r_base := Some p2 |> |> in
    i ← ino ip;
    w ← (if (ip =? w_start w)%nat then mret w
      else if last && EXT2_S_ISDIR i then
        match r_last res with Some l => iput l | None => mret tt end ;;
        mret (w <| w_res ::= λ r, r <| r_last := Some ip |> |>)
      else
        iput_ptr (w_prev w) ;; mret (w <| w_prev := Some ip |>));
    i ← ino ip;
    '(dp, b) ← in_e (find_entry ip name);
    (* A directory without blocks is not searched. *)
    let w := if bp && negb (i_block i 0 =? 0) then w <| w_res ::= λ r, r <| r_bp := Some b |> |> else w in
    match dp with
    | None =>
        when (bool_decide (w_prev w ≠ None)) (iput_ptr (w_prev w)) ;;
        r ← fail w (Some (- ENOENT)); mret (inl r)
    | Some dp => mret (inr (w <| w_ip := dp |> <| w_path := p1 |>))
    end.

(** The loop of [ext2_namei]. *)
Fixpoint namei_loop (fuel : nat) (last bp : bool) (root : option nat) (w : walk) : N nres :=
  match fuel with
  | O => nofuel
  | S fuel =>
      let ip := w_ip w in
      let res := w_res w in
      let at_end := (ubyte (w_path w) =? 0) in
      i ← ino ip;
      if negb at_end && negb (EXT2_S_ISDIR i) && negb (EXT2_S_ISLNK i) then
        when (last && bool_decide (r_last res ≠ Some ip)) (iput ip) ;;
        mret (res <| r_ip := None |> <| r_err := Some (- ENOTDIR) |>)
      else if at_end || (ubyte (w_path w) =? slash) && (ubyte (tail (w_path w)) =? 0) then
        when (opt_ne (w_prev w) ip) (iput_ptr (w_prev w)) ;;
        set_symlinks 0 ;;
        mret (res <| r_ip := Some ip |>)
      else
        r ← (if EXT2_S_ISLNK i then
          n ← gets symlinks;
          if EXT2_MAX_SYMLINKS <=? n then
            iput ip ;;
            when (opt_ne (w_prev w) ip) (iput_ptr (w_prev w)) ;;
            r ← fail w (Some (- ELOOP)); mret (inl r)
          else
            '(dp, err) ← follow_symlink (namei_start false (namei_loop fuel false false)) ip root
              (if last then r_last res else w_prev w) (r_err res);
            match dp with
            | None =>
                iput ip ;;
                when (bool_decide (w_prev w ≠ Some ip)) (iput_ptr (w_prev w)) ;;
                r ← fail w err; mret (inl r)
            | Some dp =>
                n ← gets symlinks; set_symlinks (s32 (n + 1)) ;;
                mret (inr (w <| w_ip := dp |> <| w_res ::= λ r, r <| r_err := err |> |>))
            end
          else mret (inr w));
        match r with
        | inl r => mret r
        | inr w =>
            r ← namei_step last bp w;
            match r with inl r => mret r | inr w => namei_loop fuel last bp root w end
        end
  end.

(** [last] and [bp] say which of [last_dir] and [last_dir_bp] the caller wants. *)
Definition ext2_namei (fuel : nat) (last bp : bool) (path : list Z) (root cwd : option nat) : N nres :=
  namei_start last (namei_loop fuel last bp) path root cwd.
Definition ext2_follow_symlink (fuel : nat) : nat → option nat → option nat → option Z → N (option nat * option Z) :=
  follow_symlink (ext2_namei fuel false false).
Definition ext2_public_namei (fuel : nat) (path : list Z) : N (option nat * Z) :=
  r ← ext2_namei fuel false false path None None; mret (r_ip r, default 0 (r_err r)).
Definition ext2_public_permission : nat → Z → N Z := permission.

(** ** Files *)

(** A name that the caller did not get from [ext2_namei] is not initialised. *)
Definition base_of (r : nres) : N (list Z) := deref (r_base r) "base is not initialised".
Definition last_of (r : nres) : N nat := deref (r_last r) "last_dir is not initialised".
Definition err_of (r : nres) : N Z := deref (r_err r) "err is not initialised".
Definition upd (ip : nat) (f : ext2_inode → ext2_inode) : N unit := in_e (upd_inode ip f).
Definition modified (ip : nat) : N unit := in_e (set_modified ip).
Definition mtime (ip : nat) : N unit := in_e (set_mtime ip).
(** The string up to the next slash has none behind it. *)
Definition has_slash (p : list Z) : bool := negb (ubyte (snd (component p)) =? 0).
Definition put_other (ip dp : nat) : N unit := when (negb (ip =? dp)%nat) (iput dp).

Definition ext2_access (fuel : nat) (path : list Z) (amode : Z) : N Z :=
  c ← gets n_creds;
  if c_uid c =? 0 then mret 0 else
  r ← ext2_namei fuel false false path None None;
  match r_ip r with
  | None => err_of r
  | Some ip =>
      i ← ino ip;
      iput ip ;; mret (Ext2Dir.ext2_access c i amode)
  end.

(** [memset(ip->i_ino.i_block, 0, 15)]: fifteen bytes. *)
Definition clear15 (b : Z → Z) : Z → Z := <[0 := 0]> (<[1 := 0]> (<[2 := 0]> (<[3 := b 3 / 16777216 * 16777216]> b))).
Definition zero_inode : ext2_inode := MkIno 0 0 0 0 0 0 0 0 0 0 (λ _, 0) (λ _, 0).
Definition new_inode (c : creds) (now mode : Z) : ext2_inode :=
  zero_inode <| i_mode := u16 mode |> <| i_uid := u16 (c_euid c) |> <| i_gid := u16 (c_egid c) |>
    <| i_ctime := now |> <| i_mtime := now |> <| i_atime := now |> <| i_dtime := 0 |> <| i_links_count := 1 |>
    <| i_blocks := 0 |> <| i_block ::= clear15 |>.
(** The result and [*err]. *)
Definition ext2_new_file (fuel : nat) (name : list Z) (dir : nat) (mode dev : Z) : N (option nat * option Z) :=
  new ← in_e ext2_ialloc;
  if new =? 0 then mret (None, Some (- ENOSPC)) else
  ip ← iget new;
  match ip with
  | None => mret (None, Some (- EIO))
  | Some ip =>
      s ← get;
      if EXT2_INODE_BYTES <? EXT2_INODE_SIZE (e_sb (n_e s)) then undef "memset behind i_ino" else
      upd ip (λ _, new_inode (n_creds s) (e_now (n_e s)) mode) ;;
      i ← ino ip;
      when (EXT2_S_ISCHR i || EXT2_S_ISBLK i) (upd ip (λ i, i <| i_block ::= <[0 := u32 dev]> |>)) ;;
      modified ip ;;
      err ← in_e (ext2_add_dir_entry fuel dir ip name);
      if err <? 0 then
        upd ip (λ i, i <| i_links_count := 0 |>) ;; iput ip ;; mret (None, Some err)
      else mret (Some ip, Some err)
  end.

(** [open] of a character device (sys/fs/devio.c). *)
Class CharDevOpen := { chr_dev_open : Z → N Z }.

(** The result and [*err]. The message at the end reads the inode, whether there is one or not. *)
Definition open_end (ret : option nat) (err : option Z) (ip : option nat) (dp : nat) : N (option nat * option Z) :=
  ip ← deref ip "null ip";
  put_other ip dp ;; mret (ret, err).
Definition ext2_open `{CharDevOpen} (fuel : nat) (path : list Z) (flags mode : Z) : N (option nat * option Z) :=
  r ← ext2_namei fuel true false path None None;
  dp ← last_of r;
  match r_ip r with
  | None =>
      if Z.land flags O_CREAT =? 0 then iput dp ;; open_end None (Some (- ENOENT)) None dp else
      d ← ino dp;
      if negb (EXT2_S_ISDIR d) then open_end None (Some (- ENOTDIR)) None dp else
      base ← base_of r;
      if has_slash base then open_end None (Some (- ENOENT)) None dp else
      '(ip, err) ← ext2_new_file fuel base dp mode 0;
      open_end ip err ip dp
  | Some ip =>
      let acc := Z.land flags O_ACCMODE in
      rd ← permission ip PERM_READ;
      wr ← permission ip PERM_WRITE;
      i ← ino ip;
      if negb (acc =? O_WRONLY) && (rd <? 0) then open_end None (Some (- EACCES)) (Some ip) dp else
      if negb (acc =? O_RDONLY) && (wr <? 0) then open_end None (Some (- EACCES)) (Some ip) dp else
      if negb (acc =? O_RDONLY) && EXT2_S_ISDIR i then open_end None (Some (- EISDIR)) (Some ip) dp else
      when (negb (Z.land flags O_TRUNC =? 0) && EXT2_S_ISREG i) (in_e (ext2_itrunc ip)) ;;
      (if EXT2_S_ISCHR i then chr_dev_open (i_block i 0) ;; mret tt else mret tt) ;;
      open_end (Some ip) (r_err r) (Some ip) dp
  end.

Definition ext2_mknod (fuel : nat) (path : list Z) (mode dev : Z) : N Z :=
  mask ← gets n_umask;
  let mode := Z.land mode (Z.lnot mask) in
  r ← ext2_namei fuel true false path None None;
  dp ← last_of r;
  match r_ip r with
  | Some ip => iput ip ;; put_other ip dp ;; mret (- EEXIST)
  | None =>
      err ← err_of r;
      if negb (err =? - ENOENT) then iput dp ;; mret err else
      base ← base_of r;
      if has_slash base then iput dp ;; mret (- ENOENT) else
      '(ip, err) ← ext2_new_file fuel base dp mode dev;
      match ip with
      | None => iput dp ;; deref err "err is not initialised"
      | Some ip => iput ip ;; iput dp ;; mret 0
      end
  end.

(** [f_count] and [f_inode] of the file. *)
Definition ext2_close (f_count : Z) (f_inode : option nat) : N Z :=
  match f_inode with
  | None => panic "ext2_close: file == NULL or file->f_inode == NULL"
  | Some ip => when (f_count =? 0) (iput ip) ;; mret 0
  end.

Definition chown_inode (ip : nat) (uid gid : Z) : N Z :=
  c ← gets n_creds;
  i ← ino ip;
  if negb (c_euid c =? i_uid i) then iput ip ;; mret (- EPERM) else
  when (negb (uid =? -1)) (upd ip (λ i, i <| i_uid := u16 uid |>) ;; modified ip) ;;
  when (negb (gid =? -1)) (upd ip (λ i, i <| i_gid := u16 gid |>) ;; modified ip) ;;
  iput ip ;; mret 0.
Definition ext2_lchown (fuel : nat) (path : list Z) (uid gid : Z) : N Z :=
  r ← ext2_namei fuel false false path None None;
  match r_ip r with None => err_of r | Some ip => chown_inode ip uid gid end.
Definition ext2_chown (fuel : nat) (path : list Z) (uid gid : Z) : N Z :=
  r ← ext2_namei fuel true false path None None;
  match r_ip r with
  | None => err_of r
  | Some ip =>
      dp ← last_of r;
      i ← ino ip;
      if EXT2_S_ISLNK i then
        s ← get;
        '(target, err) ← ext2_follow_symlink fuel ip (root_inode s) (Some dp) (r_err r);
        match target with
        | None => iput ip ;; put_other ip dp ;; deref err "err is not initialised"
        | Some target => iput ip ;; put_other ip dp ;; chown_inode target uid gid
        end
      else put_other ip dp ;; chown_inode ip uid gid
  end.

Definition chmod_mode (old mode : Z) : Z := Z.lor (Z.land old EXT2_S_IFMT) mode.
(** A process that does not own the file loses the reference to it here already. *)
Definition chmod_inode (ip : nat) (mode : Z) : N Z :=
  c ← gets n_creds;
  i ← ino ip;
  let mode := if negb (i_gid i =? c_egid c) then Z.land mode (Z.lnot EXT2_S_ISGID) else mode in
  let mode := Z.land mode 4095 in
  if c_euid c =? i_uid i then
    upd ip (λ i, i <| i_mode := chmod_mode (i_mode i) mode |>) ;;
    mtime ip ;; modified ip ;; mret 0
  else iput ip ;; mret (- EACCES).
Definition ext2_chmod (fuel : nat) (path : list Z) (mode : Z) : N Z :=
  r ← ext2_namei fuel false false path None None;
  match r_ip r with
  | None => err_of r
  | Some ip => err ← chmod_inode ip mode; iput ip ;; mret err
  end.
Definition ext2_fchmod : nat → Z → N Z := chmod_inode.

(** The search for a slash never moves: it ends at once or not at all. *)
Definition ext2_chroot (fuel : nat) (path : list Z) : N Z :=
  r ← ext2_namei fuel true false path None None;
  dp ← last_of r;
  ip ← match r_ip r with
    | Some ip => mret (inr ip)
    | None =>
        err ← err_of r;
        if negb (err =? ENOENT) then iput dp ;; mret (inl err) else
        p ← base_of r;
        if ubyte p =? 0 then iput dp ;; mret (inl (- ENOENT)) else
        if negb (ubyte p =? slash) then nofuel else
        if negb (ubyte (tail p) =? 0) then iput dp ;; mret (inl (- ENOENT)) else mret (inr dp)
    end;
  match ip with
  | inl err => mret err
  | inr ip =>
      i ← ino ip;
      if negb (EXT2_S_ISDIR i) then iput ip ;; mret (- ENOTDIR) else
      old ← gets root_inode;
      iput_ptr old ;;
      modify (λ s, s <| root_inode := Some ip |>) ;;
      mret 0
  end.

(** ** Directories *)
Definition remove_entry (name : list Z) (ip : nat) (bp : option Z) : N Z :=
  b ← deref bp "null bp"; in_e (ext2_remove_dir_entry name ip b).
Definition ext2_unlink (fuel : nat) (path : list Z) : N Z :=
  r ← ext2_namei fuel true true path None None;
  match r_ip r with
  | None => deref (r_bp r) "bp is not initialised" ;; err_of r
  | Some ip =>
      dp ← last_of r;
      perm ← permission dp PERM_WRITE;
      if perm <? 0 then iput ip ;; put_other ip dp ;; mret (- EACCES) else
      root ← gets root_inode;
      if bool_decide (root = Some ip) then iput ip ;; put_other ip dp ;; mret (- EBUSY) else
      p ← base_of r;
      bp ← deref (r_bp r) "bp is not initialised";
      err ← remove_entry p ip bp;
      upd ip (λ i, i <| i_links_count ::= λ n, u16 (n - 1) |>) ;;
      mtime ip ;; modified ip ;;
      iput ip ;; put_other ip dp ;; mret err
  end.
Definition ext2_link (fuel : nat) (path1 path2 : list Z) : N Z :=
  r1 ← ext2_namei fuel false false path1 None None;
  match r_ip r1 with
  | None => err_of r1
  | Some ip1 =>
      i ← ino ip1;
      if EXT2_S_ISDIR i || EXT2_S_ISLNK i then iput ip1 ;; mret (- EEXIST) else
      r2 ← ext2_namei fuel true false path2 None None;
      dp ← last_of r2;
      match r_ip r2 with
      | Some _ => put_other ip1 dp ;; iput ip1 ;; mret (- EEXIST)
      | None =>
          p ← base_of r2;
          err ← in_e (ext2_add_dir_entry fuel dp ip1 p);
          upd ip1 (λ i, i <| i_links_count ::= λ n, u16 (n + 1) |>) ;;
          mtime ip1 ;; modified ip1 ;;
          iput ip1 ;; put_other ip1 dp ;; mret err
      end
  end.
(** The byte that is compared with a slash is the NUL behind the path. *)
Definition ext2_chdir (fuel : nat) (path : list Z) : N Z :=
  r ← ext2_namei fuel true false path None None;
  match r_ip r with
  | None => iput_ptr (r_last r) ;; err_of r
  | Some ip =>
      old ← gets cwd_inode;
      iput_ptr old ;;
      modify (λ s, s <| cwd_inode := Some ip |>) ;;
      mret 0
  end.
Definition used_dirs (num d : Z) : N unit :=
  s ← get;
  let g := EXT2_BLOCK_GROUP num (e_sb (n_e s)) in
  bgd ← in_e (bgd_at g);
  in_e (upd_bgd g (λ b, b <| bg_used_dirs_count ::= λ n, u16 (n + d) |>)) ;;
  in_e sb_modified.
Definition ext2_mkdir (fuel : nat) (path : list Z) (mode : Z) : N Z :=
  mask ← gets n_umask;
  let m := Z.lor (Z.land (Z.land mode (Z.lnot mask)) 511) EXT2_S_IFDIR in
  r ← ext2_namei fuel true false path None None;
  match r_ip r with
  | Some ip => iput ip ;; mret (- EEXIST)
  | None =>
      p ← base_of r;
      dp ← last_of r;
      let '(name, rest) := component p in
      if (ubyte rest =? slash) && negb (ubyte (tail rest) =? 0) then iput dp ;; mret (- ENOENT) else
      perm ← permission dp PERM_WRITE;
      if perm <? 0 then iput dp ;; mret (- EACCES) else
      '(ip, err) ← ext2_new_file fuel name dp m 0;
      match ip with
      | None => iput dp ;; deref err "err is not initialised"
      | Some ip =>
          in_e (ext2_add_dir_entry fuel ip ip dot) ;;
          s ← get;
          upd ip (λ i, i <| i_size := blksize (n_e s) |>) ;;
          upd ip (λ i, i <| i_links_count ::= λ n, u16 (n + 1) |>) ;;
          in_e (ext2_add_dir_entry fuel ip dp dotdot) ;;
          upd dp (λ i, i <| i_links_count ::= λ n, u16 (n + 1) |>) ;;
          modified dp ;; mtime dp ;; modified ip ;; mtime ip ;;
          s ← get;
          used_dirs (i_num (e_inode (n_e s) ip)) 1 ;;
          iput ip ;; put_other ip dp ;; mret 0
      end
  end.
Definition is_dot (p : list Z) : bool := (ubyte p =? 46) && (ubyte (tail p) =? 0).
Definition starts_dotdot (p : list Z) : bool := (ubyte p =? 46) && (ubyte (tail p) =? 46).
Definition ext2_rmdir (fuel : nat) (path : list Z) : N Z :=
  r ← ext2_namei fuel true true path None None;
  match r_ip r with
  | None => iput_ptr (r_last r) ;; mret (default 0 (r_err r))
  | Some ip =>
      dp ← last_of r;
      p ← base_of r;
      let err := default 0 (r_err r) in
      ret ← (if is_dot p then mret (- EINVAL) else
        if starts_dotdot p then mret (- ENOTEMPTY) else
        '(used, err) ← in_e (empty_dir ip err);
        if negb (used =? 0) then mret (if negb (err =? 0) then err else - ENOTEMPTY) else
        root ← gets root_inode;
        if bool_decide (root = Some ip) then mret (- EBUSY) else
        perm ← permission dp PERM_WRITE;
        if perm <? 0 then mret (- EACCES) else
        i ← ino ip;
        d ← ino dp;
        if negb (EXT2_S_ISDIR i) then mret (- ENOTDIR) else
        c ← gets n_creds;
        if negb (Z.land (i_mode i) EXT2_S_ISVTX =? 0) && negb (c_euid c =? i_uid i) && negb (c_euid c =? i_uid d)
        then mret (- EPERM) else
        res ← remove_entry p ip (mjoin (r_bp r));
        if res <? 0 then mret (- ENOENT) else
        upd ip (λ i, i <| i_links_count ::= λ n, u16 (n - 2) |>) ;;
        modified ip ;; mtime ip ;;
        when (negb (ip =? dp)%nat) (
          upd dp (λ i, i <| i_links_count ::= λ n, u16 (n - 1) |>) ;; modified dp ;; mtime dp) ;;
        s ← get;
        used_dirs (i_num (e_inode (n_e s) ip)) (-1) ;;
        mret 0);
      iput ip ;; put_other ip dp ;; mret ret
  end.

(** The end of [ext2_rename]: [dold] is the directory of the old name. *)
Definition rename_end (ipold dold dnew : nat) (err : Z) : N Z :=
  iput ipold ;; put_other ipold dold ;; iput dnew ;; mret err.
Definition ext2_rename (fuel : nat) (old new : list Z) : N Z :=
  r ← ext2_namei fuel true true old None None;
  pold ← base_of r;
  dold ← last_of r;
  if (starts_dotdot pold && (ubyte (tail (tail pold)) =? 0)) || is_dot pold then
    match r_ip r with Some ip => iput ip | None => mret tt end ;;
    when (bool_decide (r_ip r ≠ Some dold)) (iput dold) ;; mret (- EINVAL)
  else
    ipold ← match r_ip r with
      | Some ip => mret (inr ip)
      | None =>
          err ← err_of r;
          if negb (err =? - ENOENT) then iput dold ;; mret (inl err)
          else if has_slash pold then mret (inr dold)
          else iput dold ;; mret (inl (- ENOENT))
      end;
    match ipold with
    | inl err => mret err
    | inr ipold =>
        r2 ← ext2_namei fuel true false new None None;
        dnew ← last_of r2;
        stop ← match r_ip r2 with
          | None => mret None
          | Some ipnew =>
              i ← ino ipnew;
              if negb (EXT2_S_ISDIR i) then mret (Some (- EEXIST)) else
              let err0 := match r_err r2 with Some x => Some x | None => r_err r end in
              '(used, err) ← in_e (ext2_empty_dir ipnew (default 0 err0));
              if used =? 0 then mret None else
              if err =? - EIO then mret (Some err) else
              deref err0 "err is not initialised" ;; mret (Some (- ENOTEMPTY))
          end;
        match stop with
        | Some err => rename_end ipold dold dnew err
        | None =>
            remove_entry pold ipold (mjoin (r_bp r)) ;;
            pnew ← base_of r2;
            in_e (ext2_add_dir_entry fuel dnew ipold pnew) ;;
            rename_end ipold dold dnew 0
        end
    end.

(** ** Symbolic links *)
(** The path written over the bytes of [i_block], or into the block [b]. *)
Fixpoint put_path (b o : Z) (path : list Z) : E unit :=
  match path with
  | [] => mret tt
  | c :: path => put_byte b o c ;; put_path b (o + 1) path
  end.
Definition fast_link (path : list Z) (i : ext2_inode) : ext2_inode :=
  let byte a := if (0 <=? a) && (a <? Z.of_nat (length path)) then nth (Z.to_nat a) path 0 else inode_byte i (40 + a) in
  i <| i_block := λ k, byte (4 * k) + 256 * byte (4 * k + 1) + 65536 * byte (4 * k + 2) + 16777216 * byte (4 * k + 3) |>.
Definition ext2_symlink (fuel : nat) (path1 path2 : list Z) : N Z :=
  r ← ext2_namei fuel true false path2 None None;
  dp ← last_of r;
  match r_ip r with
  | Some ip => iput ip ;; put_other ip dp ;; mret (- EEXIST)
  | None =>
      name ← base_of r;
      if ubyte name =? 0 then iput dp ;; mret (- ENOTDIR) else
      let err := default 0 (r_err r) in
      if negb (err =? - ENOENT) then iput dp ;; mret err else
      s ← get;
      let len := Z.of_nat (length path1) in
      if blksize (n_e s) <? len then iput dp ;; mret (- ENAMETOOLONG) else
      '(ip, err) ← ext2_new_file fuel name dp (Z.lor 511 EXT2_S_IFLNK) 0;
      match ip with
      | None => iput dp ;; deref err "err is not initialised"
      | Some ip =>
          ok ← (if len <? EXT2_FAST_SYMLINK_LEN then upd ip (fast_link path1) ;; mret true
            else
              b ← in_e (ext2_bmap ip 0);
              ok ← in_e (bread b);
              if negb ok then mret false else
              in_e (put_path b 0 path1) ;;
              upd ip (λ i, i <| i_blocks := blksize (n_e s) / SECTOR_SIZE |>) ;;
              in_e (mark_dwrite b) ;; mret true);
          if negb ok then ext2_unlink fuel path2 ;; iput dp ;; mret (- EIO) else
          upd ip (λ i, i <| i_size := len |>) ;;
          mtime ip ;; modified ip ;;
          iput ip ;; mret 0
      end
  end.

(** ** Attributes *)
Record stat := MkStat {
  st_dev : Z; st_ino : Z; st_mode : Z; st_nlink : Z; st_uid : Z; st_gid : Z; st_rdev : Z; st_size : Z;
  st_atime : Z; st_mtime : Z; st_ctime : Z; st_blksize : Z; st_blocks : Z
}.
(** The structure that is copied to the user. *)
Definition stat_inode (ip : nat) : N stat :=
  s ← get;
  let m := e_inode (n_e s) ip in
  let i := i_ino m in
  mret (MkStat (i_dev m) (i_num m) (i_mode i) (i_links_count i) (i_uid i) (i_gid i) (i_block i 0) (i_size i)
    (i_atime i) (i_mtime i) (i_ctime i) (blksize (n_e s)) (i_blocks i)).
(** The result, and the structure if it has been filled in. *)
Definition ext2_stat (fuel : nat) (path : list Z) : N (Z * option stat) :=
  r ← ext2_namei fuel true false path None None;
  match r_ip r with
  | None => iput_ptr (r_last r) ;; mret (default 0 (r_err r), None)
  | Some ip =>
      dp ← last_of r;
      i ← ino ip;
      '(ip, err, stop) ← (if EXT2_S_ISLNK i then
          s ← get;
          '(tmp, err) ← ext2_follow_symlink fuel ip (root_inode s) (Some dp) (Some (default 0 (r_err r)));
          let err := default 0 err in
          if bool_decide (tmp = None) && (err =? - EIO) then mret (Some ip, err, true)
          else iput ip ;; mret (tmp, err, false)
        else mret (Some ip, default 0 (r_err r), false));
      '(err, st) ← (if stop : bool then mret (err, None) else
          ip ← deref ip "null ip"; st ← stat_inode ip; mret (0, Some st));
      ip ← deref ip "null ip";
      iput ip ;; put_other ip dp ;; mret (err, st)
  end.
Definition ext2_lstat (fuel : nat) (path : list Z) : N (Z * option stat) :=
  r ← ext2_namei fuel false false path None None;
  match r_ip r with
  | None => err ← err_of r; mret (err, None)
  | Some ip => st ← stat_inode ip; mret (0, Some st)
  end.
Definition ext2_fstat (ip : nat) : N (Z * option stat) := st ← stat_inode ip; mret (0, Some st).
End path.

(** ** Steps of the walk *)
Section steps.
Context `{DEV : Device}.
Abbreviation dev := CONFIG_FS_ROOT_DEV.
Implicit Types (e : ext2) (fl : list nat) (qs : list (list nat)) (n m : Z) (q p : nat).

(** The directory [n] has an entry [nm] for the inode [m], in its first block. *)
Definition has_entry e n (nm : list Z) m : Prop := let b := i_block (iview e n) 0 in
  b ≠ 0 ∧ read_fails b = false ∧ ∃ x l d, chain (view e b) (blksize e) 0 (x :: l) ∧ Forall in_use l ∧
    first_named nm (x :: l) = Some d ∧ d_inode d = m.
(** The first [k] free inodes have not been used before. *)
Definition unused fl qs (k : nat) : Prop := (k <= length fl)%nat ∧ ∀ i p, (i < k)%nat → fl !! i = Some p → p ∉ mjoin qs.
(** The inodes of the numbers [ns] can be had: they are free or among [own], the ones the walk itself holds. *)
Record ready e fl qs (own : list nat) (ns : list Z) : Prop := {
  rd_free m p : m ∈ ns → ilookup e dev m = Some p → p ∈ fl ∨ p ∈ own;
  rd_disk m : m ∈ ns → on_disk e m ∧ i_links_count (iview e m) ≠ 0;
  rd_slots : unused fl qs (length ns)
}.
(** An inode that the walk has taken. *)
Record taken e fl n q : Prop := {
  tk_slot : is_slot q;
  tk_busy : q ∉ fl;
  tk_num : i_num (e_inode e q) = n;
  tk_ino : i_ino (e_inode e q) = iview e n;
  tk_count : i_count (e_inode e q) = 1;
  tk_clean : is_modified (e_inode e q) = false
}.
(** What does not change: the blocks and the inodes, and the slots that were in use except [own]. *)
Record kept (own : list nat) e fl e' : Prop := {
  kp_fs : fs_same e e';
  kp_view n : iview e' n = iview e n;
  kp_body q : q ∉ fl → q ∉ own → body (e_inode e' q) = body (e_inode e q)
}.

Lemma unused_remove l1 p l2 qs qs' k : NoDup (l1 ++ p :: l2) → unused (l1 ++ p :: l2) qs (S k) →
  (∀ q, q ∈ mjoin qs' ↔ q = p ∨ q ∈ mjoin qs) → unused (l1 ++ l2) qs' k.
Proof.
  intros Hnd [Hl Hu] Hq. rewrite length_app in Hl. simpl in Hl. split; [rewrite length_app; lia|].
  intros i q Hi Hiq. destruct (split_nodup _ _ _ Hnd) as [Hp _]. rewrite Hq. intros [->|Hin]; [by apply Hp; eapply list_elem_of_lookup_2|].
  destruct (decide (i < length l1)%nat) as [Hlt|Hge].
  - apply (Hu i q); [lia| |done]. rewrite lookup_app_l in Hiq |- * by done. done.
  - apply (Hu (S i) q); [lia| |done]. rewrite lookup_app_r in Hiq |- * by lia. replace (S i - length l1)%nat with (S (i - length l1)) by lia. done.
Qed.
Lemma unused_mono fl qs k x : unused fl qs k → unused (fl ++ x) qs k.
Proof.
  intros [H1 H2]. split; [rewrite length_app; lia|]. intros i p Hi Hp. apply (H2 i p Hi). rewrite lookup_app_l in Hp by lia. done.
Qed.
Lemma unused_less fl qs k : unused fl qs (S k) → unused fl qs k.
Proof. intros [H1 H2]. split; [lia|]. intros i p Hi. apply H2. lia. Qed.
Lemma icache_load b e fl qs : icache_ok e fl qs → icache_ok (load b e) fl qs.
Proof. intros [[H1 H2 H3] H4 H5 H6 H7]. by split. Qed.

(** The number can be taken: not one of the inodes the walk holds. *)
Lemma ready_available e fl qs own m ns : icache_ok e fl qs → ready e fl qs own (m :: ns) →
  (∀ p, p ∈ own → ilookup e dev m ≠ Some p) → available e fl qs m.
Proof.
  intros C [H1 H2 [H3 H4]] Hown. unfold available. destruct (ilookup e dev m) as [p|] eqn:Hl.
  - destruct (H1 m p ltac:(by left) Hl) as [|Ho]; [done|]. by destruct (Hown p Ho).
  - split; [apply H2; by left|]. destruct fl as [|p l]; [simpl in H3; lia|]. exists p, l. split; [done|].
    apply (H4 0%nat p); [simpl; lia|done].
Qed.
(** Finding the next component takes its inode. *)
Lemma find_entry_ok e fl qs n q nm m : icache_ok e fl qs → i_ino (e_inode e q) = iview e n → has_entry e n nm m →
  available e fl qs m →
  ∃ p l1 l2 e' qs' b, fl = l1 ++ p :: l2 ∧ find_entry q nm e = Ok ((Some p, Some b), e') ∧ icache_ok e' (l1 ++ l2) qs' ∧
    got e e' (l1 ++ l2) qs qs' m p ∧ kept [p] e fl e'.
Proof.
  intros C Hi (Hb & Hr & x & l & d & Hc & Hu & Hd & Hm) Ha. set (b := i_block (iview e n) 0) in *.
  pose proof (fs_same_load b e) as S1.
  assert (available (load b e) fl qs m) as Ha1.
  { unfold available in *. change (ilookup (load b e) dev m) with (ilookup e dev m). destruct (ilookup e dev m); [done|].
    destruct Ha as [Hd' Ha]. split; [by eapply fs_same_on_disk|done]. }
  destruct (iget_ok (load b e) fl qs m (icache_load b e fl qs C) Ha1) as (p & l1 & l2 & e' & qs' & -> & R & C' & G).
  exists p, l1, l2, e', qs', b. split; [done|]. split; [|split; [done|split]].
  - pose proof (chain_length _ _ _ _ Hc) as Hlen. simpl in Hlen.
    assert (chain (e_blk (load b e) b) (blksize (load b e)) 0 (x :: l)) as Hc1 by (by rewrite load_blk).
    pose proof (find_loop_ok nm b (load b e) FIND_NONE l x (S (Z.to_nat (blksize e))) 0 ltac:(lia) Hc1 Hu ltac:(lia)) as Rl.
    rewrite Hd, Hm in Rl. cbn [Ext2Dir.ext2_iget root_cache] in Rl. rewrite (bind_ok _ _ _ _ _ R) in Rl.
    assert (find_entry_in_block FIND_NONE b nm e = Ok ((Some p, FIND_NONE, Some b), e')) as R1.
    { unfold find_entry_in_block. rewrite (proj2 (Z.eqb_neq b 0) Hb), (bind_ok _ _ _ _ _ (bread_ok b e Hr)).
      change ((get ≫= ?k) (load b e)) with (k (load b e) (load b e)). cbv beta. change (blksize (load b e)) with (blksize e).
      by rewrite (bind_ok _ _ _ _ _ Rl). }
    assert (find_entry_direct q nm e = Ok ((Some p, FIND_NONE, Some b), e')) as R2.
    { unfold find_entry_direct. cbn [seq find_direct]. change ((get ≫= ?k) e) with (k e e). cbv beta zeta. unfold inode_of. rewrite Hi.
      change (i_block (iview e n) (Z.of_nat 0)) with b. rewrite (proj2 (Z.eqb_neq b 0) Hb). by rewrite (bind_ok _ _ _ _ _ R1). }
    unfold find_entry. cbv zeta. by rewrite (bind_ok _ _ _ _ _ R2).
  - destruct G as [G1 G2 G3 G4 G5 G6 G7 G8 G9 G10]. split; try done; [|by etrans].
    rewrite G2. unfold iview. change (ilookup (load b e) dev m) with (ilookup e dev m). destruct (ilookup e dev m); [done|].
    by apply fs_same_table.
  - split; [etrans; [exact S1|apply G]| |].
    + assert (p ∈ l1 ++ p :: l2) as Hin by set_solver. intros k. rewrite (got_iview _ _ _ _ _ _ _ _ (icache_load b e _ _ C) Hin G). unfold iview.
      change (ilookup (load b e) dev k) with (ilookup e dev k). destruct (ilookup e dev k); [done|]. by apply fs_same_table.
    + intros k _ Hk. apply G. set_solver.
Qed.

(** *** Releasing the directory that has been left *)
Definition droppable e q : Prop := 1 < i_count (e_inode e q) < 2147483648 ∨
  i_count (e_inode e q) = 1 ∧ is_modified (e_inode e q) = false ∧ i_links_count (i_ino (e_inode e q)) ≠ 0 ∧ on_disk e (i_num (e_inode e q)).
Lemma release e fl qs q : icache_ok e fl qs → is_slot q → q ∉ fl → droppable e q →
  ∃ e' fl', ext2_iput q e = Ok (tt, e') ∧ icache_ok e' fl' qs ∧ kept [q] e fl e' ∧ (∀ n, ilookup e' dev n = ilookup e dev n) ∧
    (∀ p, i_ino (e_inode e' p) = i_ino (e_inode e p)) ∧
    (1 < i_count (e_inode e q) ∧ fl' = fl ∧ e' = drop q e ∨ i_count (e_inode e q) = 1 ∧ fl' = fl ++ [q]).
Proof.
  intros C Hs Hq Hd. pose proof (slot_valid q Hs) as Hv. destruct Hd as [Hc|(Hc & Hm & Hl & Hd)].
  - destruct (icache_drop e fl qs q C Hq) as [C' V]. exists (drop q e), fl. split; [by apply iput_keep|]. split; [done|].
    assert (∀ p, body (e_inode (drop q e) p) = body (e_inode e p) ∨ p = q) as Hb.
    { intros p. unfold drop. rewrite set_ino_at. destruct (decide (q = p)); [by right|by left]. }
    split; [split; [apply drop_same|exact V|]|].
    { intros p _ Hp. destruct (Hb p) as [? | ->]; [done|set_solver]. }
    split; [|split; [|left; by split; [lia|]]].
    + intros n. eapply ilookup_ext; [apply C|apply drop_same|]. intros p _. unfold drop. rewrite set_ino_at. by case_decide.
    + intros p. unfold drop. rewrite set_ino_at. by case_decide.
  - destruct (iput_clean e fl qs q C Hs Hq ltac:(lia) Hl Hm Hd) as (e' & fl' & R & C' & Hfl & S & L & I & B & _ & _).
    destruct (iput_last e fl qs q C Hs Hq Hc Hl Hd) as (e2 & R2 & C2 & _). rewrite R in R2. injection R2 as ->.
    exists e2, (fl ++ [q]). split; [done|]. split; [done|]. split; [split; [done| |]|split; [done|split; [done|by right]]].
    + intros n. unfold iview. rewrite L. destruct (ilookup e dev n); [by rewrite I|by apply fs_same_table].
    + intros p _ Hp. apply B. set_solver.
Qed.
Lemma in_e_run {A} (m : E A) s a e' : m (n_e s) = Ok (a, e') → in_e m s = Ok (a, s <| n_e := e' |>).
Proof. intros R. unfold in_e, zoom. by rewrite R. Qed.
Lemma in_e_next {A} (m : E A) s e1 a e2 : m e1 = Ok (a, e2) → in_e m (s <| n_e := e1 |>) = Ok (a, s <| n_e := e2 |>).
Proof. intros R. unfold in_e, zoom. change (n_e (s <| n_e := e1 |>)) with e1. by rewrite R. Qed.
Lemma in_e_panic {A} (m : E A) s msg : m (n_e s) = Panic msg → in_e m s = Panic msg.
Proof. intros R. unfold in_e, zoom. by rewrite R. Qed.
Lemma bind_panic {A B} (m : N A) (f : A → N B) s msg : m s = Panic msg → (m ≫= f) s = Panic msg.
Proof. intros R. unfold mbind, M_bind. by rewrite R. Qed.
Lemma iput_free_panics e p : ino_valid p = true → i_count (e_inode e p) = 0 → ext2_iput p e = Panic "ext2_iput: ip->i_count == 0".
Proof.
  intros Hv Hc. unfold ext2_iput. rewrite get_ino_run, upd_ino_run by done. by rewrite Hc.
Qed.

(** *** The text of a path *)
(** A component, the slashes in front of it and the number of its inode. *)
Record comp := MkComp { c_slashes : nat; c_name : list Z; c_num : Z }.
Fixpoint spell (r : list comp) (tl : list Z) : list Z :=
  match r with
  | [] => tl
  | c :: r => replicate (c_slashes c) slash ++ c_name c ++ spell r tl
  end.
Definition name_ok (nm : list Z) : Prop := nm ≠ [] ∧ Forall (λ c, c ≠ 0 ∧ c ≠ slash) nm.
Definition tail_ok (tl : list Z) : Prop := tl = [] ∨ tl = [slash].
Definition spelled (r : list comp) : Prop := Forall (λ c, name_ok (c_name c)) r ∧ Forall (λ c, (1 <= c_slashes c)%nat) (tail r).

Lemma skip_spell k nm t : name_ok nm → skip_slashes (replicate k slash ++ nm ++ t) = nm ++ t.
Proof.
  intros [Hne Hf]. induction k as [|k IH]; simpl; [|done]. destruct nm as [|c nm]; [done|].
  apply Forall_cons in Hf as [[_ Hc] _]. simpl. by rewrite (proj2 (Z.eqb_neq _ _) Hc).
Qed.
Lemma component_spell nm t : Forall (λ c, c ≠ 0 ∧ c ≠ slash) nm → (t = [] ∨ head t = Some slash) → component (nm ++ t) = (nm, t).
Proof.
  intros Hf Ht. induction nm as [|c nm IH]; simpl.
  - destruct Ht as [->|Ht]; [done|]. destruct t as [|x t]; [done|]. injection Ht as ->. done.
  - apply Forall_cons in Hf as [[_ Hc] Hf]. rewrite (proj2 (Z.eqb_neq _ _) Hc). by rewrite IH.
Qed.
Lemma spell_head r tl : tail_ok tl → Forall (λ c, (1 <= c_slashes c)%nat) r → spell r tl = [] ∨ head (spell r tl) = Some slash.
Proof.
  intros Ht Hr. destruct r as [|c r]; simpl; [by destruct Ht as [-> | ->]; [left|right]|]. apply Forall_cons in Hr as [Hc _].
  right. by destruct (c_slashes c); [lia|].
Qed.
Lemma spell_not_end k nm t : name_ok nm → let p := replicate k slash ++ nm ++ t in
  (ubyte p =? 0) = false ∧ ((ubyte p =? slash) && (ubyte (tail p) =? 0))%bool = false.
Proof.
  intros [Hne Hf]. destruct nm as [|c nm]; [done|]. apply Forall_cons in Hf as [[H0 H1] _].
  destruct k as [|[|k]]; simpl; unfold ubyte; simpl; [| |done].
  - by rewrite (proj2 (Z.eqb_neq _ _) H0), (proj2 (Z.eqb_neq _ _) H1).
  - by rewrite (proj2 (Z.eqb_neq _ _) H0).
Qed.
Lemma tail_at_end tl : tail_ok tl → ((ubyte tl =? 0) || ((ubyte tl =? slash) && (ubyte (tail tl) =? 0)))%bool = true.
Proof. by intros [-> | ->]. Qed.
Lemma dir_not_link i : EXT2_S_ISDIR i = true → EXT2_S_ISLNK i = false.
Proof. unfold EXT2_S_ISDIR, EXT2_S_ISLNK, has_type, EXT2_S_IFDIR, EXT2_S_IFLNK. lia. Qed.

(** The components lead through directories that may be searched. *)
Fixpoint route e (c : creds) n (r : list comp) : Prop :=
  match r with
  | [] => True
  | x :: r => EXT2_S_ISDIR (iview e n) = true ∧ ext2_permission c (iview e n) PERM_SRCH = 0 ∧
      has_entry e n (c_name x) (c_num x) ∧ c_num x ≠ n ∧ route e c (c_num x) r
  end.
Definition target n (r : list comp) : Z := default n (c_num <$> last r).
Lemma has_entry_same e fl e' own n nm m : kept own e fl e' → has_entry e n nm m → has_entry e' n nm m.
Proof.
  intros K. unfold has_entry. cbv zeta. rewrite (kp_view _ _ _ _ K), (fs_view _ _ (kp_fs _ _ _ _ K)).
  unfold blksize. by rewrite (fs_sb _ _ (kp_fs _ _ _ _ K)).
Qed.
Lemma route_same e fl e' own c n r : kept own e fl e' → route e c n r → route e' c n r.
Proof.
  intros K. revert n. induction r as [|x r IH]; intros n; simpl; [done|]. rewrite !(kp_view _ _ _ _ K).
  intros (H1 & H2 & H3 & H4 & H5). split_and!; try done; [by eapply has_entry_same|by apply IH].
Qed.

(** *** One turn of the loop *)
Definition leave (w : walk) : N walk :=
  if (w_ip w =? w_start w)%nat then mret w else iput_ptr (w_prev w) ;; mret (w <| w_prev := Some (w_ip w) |>).
Definition based (w : walk) (p2 : list Z) : walk := w <| w_res := (w_res w) <| r_base := Some p2 |> |>.
Lemma namei_step_ok bp s w k nm t w1 e1 fl1 qs n m : name_ok nm → (t = [] ∨ head t = Some slash) →
  w_path w = replicate k slash ++ nm ++ t → ext2_permission (n_creds s) (inode_of (w_ip w) (n_e s)) PERM_SRCH = 0 →
  leave (based w (nm ++ t)) s = Ok (w1, s <| n_e := e1 |>) →
  icache_ok e1 fl1 qs → i_ino (e_inode e1 (w_ip w)) = iview e1 n → has_entry e1 n nm m → available e1 fl1 qs m →
  ∃ p l1 l2 e2 qs2 w2, fl1 = l1 ++ p :: l2 ∧ namei_step false bp w s = Ok (inr w2, s <| n_e := e2 |>) ∧ icache_ok e2 (l1 ++ l2) qs2 ∧
    got e1 e2 (l1 ++ l2) qs qs2 m p ∧ kept [p] e1 fl1 e2 ∧ w_ip w2 = p ∧ w_path w2 = t ∧ w_prev w2 = w_prev w1 ∧ w_start w2 = w_start w1.
Proof.
  intros Hnm Ht Hp Hperm Hl C Hi He Ha. destruct (find_entry_ok e1 fl1 qs n (w_ip w) nm m C Hi He Ha) as (p & l1 & l2 & e2 & qs2 & b & Hfl & R & C2 & G & K).
  exists p, l1, l2, e2, qs2.
  set (w2 := if bp && negb (i_block (inode_of (w_ip w) e1) 0 =? 0) then w1 <| w_res ::= λ r, r <| r_bp := Some (Some b) |> |> else w1). exists (w2 <| w_ip := p |> <| w_path := t |>).
  split; [done|]. split; [|split; [done|split; [done|split; [done|]]]].
  - unfold namei_step. change ((permission ?a ?b ≫= ?f) s) with (f (ext2_permission (n_creds s) (inode_of a (n_e s)) b) s). cbv beta.
    rewrite Hperm. cbn [Z.ltb Z.compare]. rewrite Hp, skip_spell by done. rewrite component_spell by (done || apply Hnm). cbv zeta.
    change ((ino ?a ≫= ?f) s) with (f (inode_of a (n_e s)) s). cbv beta.
    assert ((if (w_ip w =? w_start (w <| w_res := (w_res w) <| r_base := Some (nm ++ t) |> |>))%nat
      then mret (w <| w_res := (w_res w) <| r_base := Some (nm ++ t) |> |>)
      else if false && EXT2_S_ISDIR (inode_of (w_ip w) (n_e s)) then
        match r_last (w_res w) with Some l => iput l | None => mret tt end ;;
        mret ((w <| w_res := (w_res w) <| r_base := Some (nm ++ t) |> |>) <| w_res ::= λ r, r <| r_last := Some (w_ip w) |> |>)
      else iput_ptr (w_prev (w <| w_res := (w_res w) <| r_base := Some (nm ++ t) |> |>)) ;;
        mret ((w <| w_res := (w_res w) <| r_base := Some (nm ++ t) |> |>) <| w_prev := Some (w_ip w) |>)) s = Ok (w1, s <| n_e := e1 |>)) as Hl'.
    { cbn [andb]. exact Hl. }
    rewrite (bind_ok _ _ _ _ _ Hl'). cbv beta.
    change ((ino ?a ≫= ?f) (s <| n_e := e1 |>)) with (f (inode_of a e1) (s <| n_e := e1 |>)). cbv beta.
    rewrite (bind_ok _ _ _ _ _ (in_e_next _ _ _ _ _ R)). done.
  - unfold w2. by destruct (bp && _).
Qed.

(** Leaving the directory [pv] for [q]. *)
Lemma leave_ok s w q pv fl qs : w_ip w = q → w_start w ≠ q → w_prev w = Some pv → icache_ok (n_e s) fl qs → is_slot pv → pv ∉ fl →
  droppable (n_e s) pv → ∃ e1 fl1, leave w s = Ok (w <| w_prev := Some q |>, s <| n_e := e1 |>) ∧ icache_ok e1 fl1 qs ∧
    kept [pv] (n_e s) fl e1 ∧ (∀ n, ilookup e1 dev n = ilookup (n_e s) dev n) ∧ (∀ p, i_ino (e_inode e1 p) = i_ino (e_inode (n_e s) p)) ∧
    (1 < i_count (e_inode (n_e s) pv) ∧ fl1 = fl ∧ e1 = drop pv (n_e s) ∨ i_count (e_inode (n_e s) pv) = 1 ∧ fl1 = fl ++ [pv]).
Proof.
  intros <- Hst Hpv C Hs Hn Hd. destruct (release _ fl qs pv C Hs Hn Hd) as (e1 & fl1 & R & H). exists e1, fl1. split; [|done].
  unfold leave. rewrite (proj2 (Nat.eqb_neq _ _)) by congruence. rewrite Hpv. unfold iput_ptr, iput.
  change ((deref (Some pv) _ ≫= ?f) s) with (f pv s). cbv beta. by rewrite (bind_ok _ _ _ _ _ (in_e_run _ _ _ _ R)).
Qed.
Lemma target_cons n x r : target n (x :: r) = target (c_num x) r.
Proof. unfold target. rewrite last_cons. by destruct (last r). Qed.
Lemma ready_less e fl qs own m ns : ready e fl qs own (m :: ns) → ready e fl qs own ns.
Proof. intros [H1 H2 H3]. split; [intros; apply (H1 m0); [by right|done]|intros; apply H2; by right|by apply unused_less]. Qed.
(** After an inode has been taken. *)
Lemma ready_taken e e' l1 p l2 qs qs' m ns own own' : icache_ok e (l1 ++ p :: l2) qs → got e e' (l1 ++ l2) qs qs' m p →
  kept [p] e (l1 ++ p :: l2) e' → ready e (l1 ++ p :: l2) qs own (m :: ns) → p ∈ own' → (∀ q, q ∈ own → q ∈ own') → ready e' (l1 ++ l2) qs' own' ns.
Proof.
  intros C G K [H1 H2 H3] Hp Ho. split.
  - intros k q Hk. rewrite (gt_lookup _ _ _ _ _ _ _ G). case_decide; [intros [= <-]; by right|]. intros Hq.
    destruct (H1 k q ltac:(by right) Hq) as [Hin|Hin]; [|right; auto]. destruct (decide (q = p)) as [->|]; [by right|left; set_solver].
  - intros k Hk. destruct (H2 k ltac:(by right)) as [A B]. split; [by eapply fs_same_on_disk; [apply K|]|]. by rewrite (kp_view _ _ _ _ K).
  - eapply unused_remove; [apply C|exact H3|apply G].
Qed.
Lemma got_taken e e' l1 p l2 qs qs' m : icache_ok e (l1 ++ p :: l2) qs → icache_ok e' (l1 ++ l2) qs' → got e e' (l1 ++ l2) qs qs' m p →
  kept [p] e (l1 ++ p :: l2) e' → taken e' (l1 ++ l2) m p.
Proof.
  intros C C' G K. split; [eapply free_elem; [apply C|set_solver]|apply (split_nodup l1 l2 p), C|apply G| |apply G|apply G].
  rewrite (gt_ino _ _ _ _ _ _ _ G). symmetry. apply K.
Qed.
Lemma kept_trans own1 own2 own e1 fl1 e2 fl2 e3 : kept own1 e1 fl1 e2 → kept own2 e2 fl2 e3 →
  (∀ q, q ∈ own1 → q ∈ own ∨ q ∈ fl1) → (∀ q, q ∈ own2 → q ∈ own ∨ q ∈ fl1) → (∀ q, q ∈ fl2 → q ∈ fl1 ∨ q ∈ own) → kept own e1 fl1 e3.
Proof.
  intros [A1 A2 A3] [B1 B2 B3] H1 H2 H3. split; [by etrans|intros n; by rewrite B2|].
  intros q Hq Ho. rewrite B3, A3; [done|done| | |].
  - intros Hin. by destruct (H1 q Hin).
  - intros Hin. by destruct (H3 q Hin).
  - intros Hin. by destruct (H2 q Hin).
Qed.

(** The conditions at the head of the loop: the text that is left, and where it leads. *)
Record heading (c : creds) e n (r : list comp) (tl : list Z) (w : walk) : Prop := {
  hd_tail : tail_ok tl ∧ (tl = [slash] → EXT2_S_ISDIR (iview e (target n r)) = true);
  hd_spelled : Forall (λ x, name_ok (c_name x)) r ∧ Forall (λ x, (1 <= c_slashes x)%nat) (tail r);
  hd_path : w_path w = spell r tl;
  hd_route : route e c n r
}.
Lemma loop_end fuel bp root s w n tl : tail_ok tl → w_path w = tl → i_ino (e_inode (n_e s) (w_ip w)) = iview (n_e s) n →
  (tl = [slash] → EXT2_S_ISDIR (iview (n_e s) n) = true) →
  namei_loop (S fuel) false bp root w s =
  (when (opt_ne (w_prev w) (w_ip w)) (iput_ptr (w_prev w)) ;; set_symlinks 0 ;; mret ((w_res w) <| r_ip := Some (w_ip w) |>)) s.
Proof.
  intros Ht Hp Hi Hd. cbn [namei_loop]. cbv zeta. change ((ino ?a ≫= ?f) s) with (f (inode_of a (n_e s)) s). cbv beta. unfold inode_of. rewrite Hi, Hp.
  rewrite (tail_at_end tl Ht). destruct Ht as [-> | ->]; [done|]. by rewrite Hd.
Qed.
Lemma loop_turn fuel bp root s w k nm t n : name_ok nm → w_path w = replicate k slash ++ nm ++ t →
  i_ino (e_inode (n_e s) (w_ip w)) = iview (n_e s) n → EXT2_S_ISDIR (iview (n_e s) n) = true →
  namei_loop (S fuel) false bp root w s =
  (r ← namei_step false bp w; match r with inl r => mret r | inr w => namei_loop fuel false bp root w end) s.
Proof.
  intros Hnm Hp Hi Hd. cbn [namei_loop]. cbv zeta. change ((ino ?a ≫= ?f) s) with (f (inode_of a (n_e s)) s). cbv beta. unfold inode_of. rewrite Hi, Hp.
  destruct (spell_not_end k nm t Hnm) as [-> ->]. rewrite Hd, (dir_not_link _ Hd). done.
Qed.

Lemma kept_weaken own own' e fl e' : (∀ q, q ∈ own → q ∈ own') → kept own e fl e' → kept own' e fl e'.
Proof. intros H [A1 A2 A3]. split; [done|done|]. intros q Hq Ho. apply A3; auto. Qed.
(** What leaving [pv] makes of the free list. *)
Definition dropped e pv fl e1 fl1 : Prop :=
  1 < i_count (e_inode e pv) ∧ fl1 = fl ∧ e1 = drop pv e ∨ i_count (e_inode e pv) = 1 ∧ fl1 = fl ++ [pv].
Lemma dropped_free e pv fl e1 fl1 q : dropped e pv fl e1 fl1 → q ∈ fl → q ∈ fl1.
Proof. intros [(_ & -> & _)|[_ ->]]; set_solver. Qed.
Lemma dropped_only e pv fl e1 fl1 q : dropped e pv fl e1 fl1 → q ∈ fl1 → q ∈ fl ∨ q = pv ∧ i_count (e_inode e pv) = 1.
Proof. intros [(_ & -> & _)|[Hc ->]]; [by left|]. rewrite elem_of_app, list_elem_of_singleton. intros [|]; [by left|by right]. Qed.
Lemma dropped_unused e pv fl e1 fl1 qs k : dropped e pv fl e1 fl1 → unused fl qs k → unused fl1 qs k.
Proof. intros [(_ & -> & _)|[_ ->]]; [done|]. apply unused_mono. Qed.
Lemma taken_kept e fl e1 fl1 own n q : taken e fl n q → kept own e fl e1 → q ∉ own → q ∉ fl1 → taken e1 fl1 n q.
Proof.
  intros [T1 T2 T3 T4 T5 T6] K Ho Hq. destruct (body_eq _ _ (kp_body _ _ _ _ K q T2 Ho)) as (B1 & B2 & B3 & B4 & B5).
  split; [done|done|by rewrite B3|by rewrite B1, (kp_view _ _ _ _ K)|by rewrite B5|]. unfold is_modified in *. by rewrite B4.
Qed.
Lemma ready_dropped e pv fl e1 fl1 qs q ns : dropped e pv fl e1 fl1 → kept [pv] e fl e1 → (∀ n, ilookup e1 dev n = ilookup e dev n) →
  ready e fl qs (q :: if decide (i_count (e_inode e pv) = 1) then [pv] else []) ns → ready e1 fl1 qs [q] ns.
Proof.
  intros D K L [H1 H2 H3]. split.
  - intros m p Hm Hl. rewrite L in Hl. destruct (H1 m p Hm Hl) as [Hin|Hin]; [left; by eapply dropped_free|].
    case_decide as Hc; [|right; set_solver]. apply elem_of_cons in Hin as [->| ->%list_elem_of_singleton]; [right; by left|left].
    destruct D as [(Hx & _)|[_ ->]]; [lia|set_solver].
  - intros m Hm. destruct (H2 m Hm) as [A B]. split; [by eapply fs_same_on_disk; [apply K|]|]. by rewrite (kp_view _ _ _ _ K).
  - by eapply dropped_unused.
Qed.
Lemma taken_droppable e fl n q : taken e fl n q → on_disk e n → i_links_count (iview e n) ≠ 0 → droppable e q.
Proof. intros [T1 T2 T3 T4 T5 T6] Hd Hl. right. rewrite T3, T4. done. Qed.

Lemma elem_of_mid {A} (p x : A) l1 l2 : x ∈ l1 ++ p :: l2 ↔ x = p ∨ x ∈ l1 ++ l2.
Proof. set_solver. Qed.
Lemma walk_ok c bp root tl : ∀ r fuel s fl qs w n q pv, (length r < fuel)%nat → n_creds s = c →
  heading c (n_e s) n r tl w → icache_ok (n_e s) fl qs → w_ip w = q → taken (n_e s) fl n q → w_start w ≠ q → w_start w ∉ fl →
  on_disk (n_e s) n → i_links_count (iview (n_e s) n) ≠ 0 →
  w_prev w = Some pv → pv ≠ q → is_slot pv → pv ∉ fl →
  (i_count (e_inode (n_e s) pv) = 1 → pv ≠ w_start w) → droppable (n_e s) pv →
  ready (n_e s) fl qs (q :: if decide (i_count (e_inode (n_e s) pv) = 1) then [pv] else []) (c_num <$> r) →
  ∃ e' fl' qs' p res, namei_loop fuel false bp root w s = Ok (res, s <| n_e := e' |> <| symlinks := 0 |>) ∧ r_ip res = Some p ∧
    icache_ok e' fl' qs' ∧ taken e' fl' (target n r) p ∧ kept [q; pv] (n_e s) fl e' ∧ (p = q ∨ p ∈ fl ++ [pv]) ∧
    (1 < i_count (e_inode (n_e s) pv) → body (e_inode e' pv) = body (e_inode (drop pv (n_e s)) pv)).
Proof.
  induction r as [|[k nm m] r IH]; intros [|fuel] s fl qs w n q pv Hf Hc [[Ht Htd] [Hsp1 Hsp2] Hp Hro] C Hw T Hst Hstf Hd Hl Hpv Hne Hs Hnf Hps Hdr Hrd; try (simpl in Hf; lia).
  - destruct (release (n_e s) fl qs pv C Hs Hnf Hdr) as (e1 & fl1 & R & C1 & K1 & L1 & I1 & Hfl).
    assert (q ∉ fl1) as Hq1 by (destruct Hfl as [(_ & -> & _)|[_ ->]]; [apply T|]; pose proof (tk_busy _ _ _ _ T); set_solver).
    destruct (body_eq _ _ (kp_body _ _ _ _ K1 q (tk_busy _ _ _ _ T) ltac:(set_solver))) as (B1 & B2 & B3 & B4 & B5).
    exists e1, fl1, qs, q, ((w_res w) <| r_ip := Some q |>). split; [|split; [done|split; [done|split; [|split; [|split; [by left|]]]]]].
    + rewrite (loop_end fuel bp root s w n tl Ht Hp ltac:(rewrite Hw; apply T) Htd). rewrite Hpv, Hw. unfold opt_ne.
      rewrite bool_decide_eq_true_2 by (split; congruence). unfold when, iput_ptr, iput.
      change ((deref (Some pv) _ ≫= ?f) s) with (f pv s). cbv beta. by rewrite (bind_ok _ _ _ _ _ (in_e_run _ _ _ _ R)).
    + unfold target. simpl. destruct T as [T1 T2 T3 T4 T5 T6]. split; try done.
      * by rewrite B3.
      * by rewrite B1, (kp_view _ _ _ _ K1).
      * by rewrite B5.
      * unfold is_modified in *. by rewrite B4.
    + eapply kept_weaken; [|exact K1]. set_solver.
    + intros Hpc. destruct Hfl as [(_ & _ & ->)|[Hx _]]; [done|lia].
  - simpl in Hf. apply Forall_cons in Hsp1 as [Hnm Hsp1]. simpl in Hsp2, Hp, Hro. destruct Hro as (Hdir & Hperm & Hent & Hmn & Hro).
    set (t := spell r tl) in *. pose proof (spell_head r tl Ht Hsp2) as Hth. fold t in Hth.
    destruct (leave_ok s (based w (nm ++ t)) q pv fl qs Hw Hst Hpv C Hs Hnf Hdr) as (e1 & fl1 & R1 & C1 & K1 & L1 & I1 & D1).
    assert (q ∉ fl1) as Hq1.
    { intros Hin. destruct (dropped_only _ _ _ _ _ _ D1 Hin) as [|[-> _]]; [by apply (tk_busy _ _ _ _ T)|done]. }
    pose proof (taken_kept _ _ _ fl1 _ _ _ T K1 ltac:(set_solver) Hq1) as T1.
    pose proof (ready_dropped _ _ _ _ _ _ _ _ D1 K1 L1 Hrd) as Rd1. cbn [fmap list_fmap c_num] in Rd1.
    assert (available e1 fl1 qs m) as Ha.
    { eapply ready_available; [exact C1|exact Rd1|]. intros p ->%list_elem_of_singleton Hlk.
      destruct (found_in _ _ _ _ _ C1 Hlk) as [_ Hn']. rewrite (tk_num _ _ _ _ T1) in Hn'. done. }
    destruct (namei_step_ok bp s w k nm t ((based w (nm ++ t)) <| w_prev := Some q |>) e1 fl1 qs n m Hnm Hth Hp) as (p & l1 & l2 & e2 & qs2 & w2 & Hfl1 & R2 & C2 & G2 & K2 & W1 & W2 & W3 & W4).
    { unfold inode_of. rewrite Hw, (tk_ino _ _ _ _ T), Hc. exact Hperm. }
    { exact R1. }
    { exact C1. }
    { rewrite Hw. apply T1. }
    { by eapply has_entry_same. }
    { exact Ha. }
    subst fl1. pose proof (got_taken _ _ _ _ _ _ _ _ C1 C2 G2 K2) as T2.
    assert (p ≠ q) as Hpq by (intros ->; apply Hq1; set_solver).
    pose proof (taken_kept _ _ _ (l1 ++ l2) _ _ _ T1 K2 ltac:(clear -Hpq; set_solver) ltac:(clear -Hq1; set_solver)) as T1'.
    pose proof (ready_taken _ _ _ _ _ _ _ _ _ [q] [p; q] C1 G2 K2 Rd1 ltac:(clear; set_solver) ltac:(clear; set_solver)) as Rd2.
    assert (w_start w ∉ l1 ++ p :: l2) as Hstf1.
    { intros Hin. destruct (dropped_only _ _ _ _ _ _ D1 Hin) as [|[E1 E2]]; [done|]. by apply Hps in E2. }
    destruct (rd_disk _ _ _ _ _ Hrd m ltac:(by left)) as [Hd2 Hl2].
    pose proof (λ x, kp_view _ _ _ _ K2 x) as V2. pose proof (λ x, kp_view _ _ _ _ K1 x) as V1.
    assert (fs_same (n_e s) e2) as S2 by (etrans; [apply K1|apply K2]).
    destruct (IH fuel (s <| n_e := e2 |>) (l1 ++ l2) qs2 w2 m p q) as (e' & fl' & qs' & p' & res & R3 & Hres & C3 & T3 & K3 & Hp3 & B3).
    { lia. }
    { done. }
    { split; [split; [done|]|split; [done|by destruct r; [|apply Forall_cons in Hsp2 as [_ ?]]]|exact W2|].
      - intros E. change (n_e (s <| n_e := e2 |>)) with e2. rewrite V2, V1. rewrite target_cons in Htd. by apply Htd.
      - eapply route_same; [exact K2|]. by eapply route_same. }
    { exact C2. }
    { exact W1. }
    { exact T2. }
    { rewrite W4. intros E. apply Hstf1. change (w_start ((based w (nm ++ t)) <| w_prev := Some q |>)) with (w_start w) in E. rewrite E. set_solver. }
    { rewrite W4. change (w_start ((based w (nm ++ t)) <| w_prev := Some q |>)) with (w_start w). set_solver. }
    { by eapply fs_same_on_disk. }
    { change (n_e (s <| n_e := e2 |>)) with e2. by rewrite V2, V1. }
    { rewrite W3. done. }
    { done. }
    { apply T. }
    { apply T1'. }
    { rewrite W4. intros _. by apply not_eq_sym. }
    { eapply taken_droppable; [exact T1'|by eapply fs_same_on_disk|]. change (n_e (s <| n_e := e2 |>)) with e2. by rewrite V2, V1. }
    { change (n_e (s <| n_e := e2 |>)) with e2. rewrite (tk_count _ _ _ _ T1'), decide_True by done. exact Rd2. }
    exists e', fl', qs', p', res. split; [|split; [done|split; [done|split; [by rewrite target_cons|split; [|split]]]]].
    + rewrite (loop_turn fuel bp root s w k nm t n Hnm Hp ltac:(rewrite Hw; apply T) Hdir). rewrite (bind_ok _ _ _ _ _ R2). exact R3.
    + assert (∀ x, x ∈ l1 ++ p :: l2 → x ∈ fl ∨ x ∈ [q; pv]) as Hsub.
      { intros x Hx. destruct (dropped_only _ _ _ _ _ x D1 Hx) as [|[-> _]]; [by left|right; clear; set_solver]. }
      eapply (kept_trans [pv] [p; q]); [exact K1| |clear; set_solver| |exact Hsub].
      * eapply (kept_trans [p] [p; q]); [exact K2|exact K3|clear; set_solver..].
      * intros x [->|Hx]%elem_of_cons; [|left; clear -Hx; set_solver]. destruct (Hsub p (proj2 (elem_of_mid _ _ _ _) (or_introl eq_refl))); auto.
    + assert (∀ x, x ∈ l1 ++ p :: l2 → x ∈ fl ++ [pv]) as Hsub.
      { intros x Hx. destruct (dropped_only _ _ _ _ _ x D1 Hx) as [|[-> _]]; rewrite elem_of_app; [by left|right; by left]. }
      destruct Hp3 as [->|[Hp3| ->%list_elem_of_singleton]%elem_of_app]; [right|right|by left]; apply Hsub, elem_of_mid; auto.
    + intros Hpc. destruct D1 as [(_ & E1 & E2)|[Hx _]]; [|lia].
      assert (pv ∉ l1 ++ p :: l2) as Hpf by (by rewrite E1). rewrite elem_of_mid in Hpf.
      rewrite (kp_body _ _ _ _ K3), (kp_body _ _ _ _ K2); [by rewrite E2|by rewrite elem_of_mid| |auto|].
      * intros ->%list_elem_of_singleton. auto.
      * intros [-> |[->|[]%elem_of_nil]%elem_of_cons]%elem_of_cons; auto.
Qed.

(** *** The start of the walk *)
Definition bump q e : ext2 := set_ino q (λ i, i <| i_count ::= λ c, s32 (c + 1) |>) e.
Lemma bump_at q e p : e_inode (bump q e) p = if decide (q = p) then (e_inode e p) <| i_count ::= λ c, s32 (c + 1) |> else e_inode e p.
Proof. unfold bump. by rewrite set_ino_at. Qed.
Lemma icache_bump e fl qs q : icache_ok e fl qs → q ∉ fl → icache_ok (bump q e) fl qs ∧ kept [q] e fl (bump q e) ∧
  ∀ n, ilookup (bump q e) dev n = ilookup e dev n.
Proof.
  intros C Hq. destruct (icache_step e (bump q e) fl fl qs C) as [C' Hl].
  - split; [done|]. intros p. rewrite bump_at. by case_decide.
  - eapply same_free_ok; [|apply C]. intros p. rewrite bump_at. by case_decide.
  - intros p. rewrite bump_at. by case_decide.
  - intros p Hp. rewrite bump_at, decide_False by (intros ->; done). by apply (io_idle _ _ _ C).
  - apply (io_busy _ _ _ C).
  - split; [done|]. split; [|done]. split; [apply fs_same_set| |].
    + intros n. unfold iview. rewrite Hl. destruct (ilookup e dev n); [|by apply fs_same_table, fs_same_set]. rewrite bump_at. by case_decide.
    + intros p _ Hp. rewrite bump_at, decide_False; [done|]. set_solver.
Qed.
Lemma busy_view e fl qs q : icache_ok e fl qs → is_slot q → q ∉ fl → i_ino (e_inode e q) = iview e (i_num (e_inode e q)).
Proof. intros C Hs Hq. destruct (io_found _ _ _ C q (io_busy _ _ _ C q Hs Hq)) as [_ Hf]. unfold iview. by rewrite Hf. Qed.

(** What a path needs: it starts at an inode in use and leads through directories that may be searched
    to an inode that can be had. *)
Record walkable s fl qs (path : list Z) (r : list comp) (q : nat) : Prop := {
  wk_cache : icache_ok (n_e s) fl qs;
  wk_fs : root_ext2 s = true;
  wk_start : (if ubyte path =? slash then root_inode s else cwd_inode s) = Some q;
  wk_dirs : is_Some (root_inode s) ∧ is_Some (cwd_inode s);
  wk_slot : is_slot q ∧ (q ∉ fl) ∧ 1 <= i_count (e_inode (n_e s) q) < 2147483647;
  wk_path : ∃ tl, path = spell r tl ∧ tail_ok tl ∧
    (tl = [slash] → EXT2_S_ISDIR (iview (n_e s) (target (i_num (e_inode (n_e s) q)) r)) = true);
  wk_spelled : spelled r;
  wk_some : r ≠ [];
  wk_route : route (n_e s) (n_creds s) (i_num (e_inode (n_e s) q)) r;
  wk_ready : ready (n_e s) fl qs [] (c_num <$> r)
}.
Lemma namei_ok fuel bp s fl qs path r q : walkable s fl qs path r q → (length r < fuel)%nat →
  ∃ e' fl' qs' p res, ext2_namei fuel false bp path None None s = Ok (res, s <| n_e := e' |> <| symlinks := 0 |>) ∧ r_ip res = Some p ∧
    icache_ok e' fl' qs' ∧ taken e' fl' (target (i_num (e_inode (n_e s) q)) r) p ∧ kept [] (n_e s) fl e'.
Proof.
  intros [C Hfs Hst [[rt Hrt] [cw Hcw]] (Hs & Hq & Hc) (tl & Hp & Ht & Htd) [Hsp1 Hsp2] Hne Hro Hrd] Hf. set (e := n_e s) in *. set (n := i_num (e_inode e q)) in *.
  destruct r as [|[k nm m] r]; [done|]. clear Hne. simpl in Hf. apply Forall_cons in Hsp1 as [Hnm Hsp1]. simpl in Hsp2, Hp, Hro, Hrd.
  destruct Hro as (Hdir & Hperm & Hent & Hmn & Hro). destruct fuel as [|fuel]; [lia|].
  set (e1 := bump q e). destruct (icache_bump e fl qs q C Hq) as (C1 & K1 & L1). fold e1 in C1, K1, L1.
  set (s1 := s <| n_e := e1 |> <| symlinks := 0 |>).
  set (w := MkWalk q q (Some q) path (MkRes None None None None None)).
  assert (ext2_namei (S fuel) false bp path None None s = namei_loop (S fuel) false bp (root_inode s) w s1) as ->.
  { unfold ext2_namei, namei_start. change ((get ≫= ?f) s) with (f s s). cbv beta. rewrite Hrt, Hcw, Hfs. cbn [negb]. cbv zeta.
    assert ((if ubyte path =? slash then Some rt else Some cw) = Some q) as -> by (rewrite <-Hst, Hrt, Hcw; done).
    assert (upd_ino q (λ i, i <| i_count ::= λ c, s32 (c + 1) |>) e = Ok (tt, e1)) as R by (apply upd_ino_last; by apply slot_valid).
    rewrite (bind_ok _ _ _ _ _ (in_e_run _ _ _ _ R)). done. }
  assert (i_ino (e_inode e1 q) = iview e1 n) as Hi1.
  { rewrite (kp_view _ _ _ _ K1). unfold e1. rewrite bump_at, decide_True by done. by eapply busy_view. }
  assert (available e1 fl qs m) as Ha.
  { assert (available e fl qs m) as Ha by (eapply ready_available; [exact C|exact Hrd|set_solver]).
    unfold available in *. rewrite L1. destruct (ilookup e dev m); [done|]. destruct Ha as [Hd Ha]. split; [|done].
    eapply fs_same_on_disk; [apply K1|done]. }
  set (t := spell r tl) in *. pose proof (spell_head r tl Ht Hsp2) as Hth. fold t in Hth.
  destruct (namei_step_ok bp s1 w k nm t (based w (nm ++ t)) e1 fl qs n m Hnm Hth Hp) as (p & l1 & l2 & e2 & qs2 & w2 & Hfl & R2 & C2 & G2 & K2 & W1 & W2 & W3 & W4).
  { unfold inode_of. change (w_ip w) with q. change (n_e s1) with e1. by rewrite Hi1, (kp_view _ _ _ _ K1). }
  { unfold leave. change (w_ip (based w (nm ++ t))) with q. change (w_start (based w (nm ++ t))) with q. rewrite Nat.eqb_refl. done. }
  { done. } { done. } { by eapply has_entry_same. } { done. }
  subst fl. pose proof (got_taken _ _ _ _ _ _ _ _ C1 C2 G2 K2) as T2.
  assert (q ≠ p) as Hqp by (intros ->; apply Hq; set_solver).
  assert (p ∈ l1 ++ p :: l2) as Hpin by set_solver.
  pose proof (gt_rest _ _ _ _ _ _ _ G2 q Hqp) as Bq. destruct (body_eq _ _ Bq) as (Ba & Bb & Bn & Bf & Bc).
  assert (e_inode e1 q = (e_inode e q) <| i_count ::= λ c, s32 (c + 1) |>) as E1 by (unfold e1; by rewrite bump_at, decide_True).
  rewrite E1 in Bc. rec_simpl. rewrite s32_id in Bc by (unfold is_s32; lia).
  assert (fs_same e e2) as S2 by (etrans; [apply K1|apply K2]).
  assert (∀ x, iview e2 x = iview e x) as V2 by (intros x; by rewrite (kp_view _ _ _ _ K2), (kp_view _ _ _ _ K1)).
  destruct (rd_disk _ _ _ _ _ Hrd m ltac:(by left)) as [Hdm Hlm].
  assert (ready e1 (l1 ++ p :: l2) qs [] (m :: (c_num <$> r))) as Rd1.
  { destruct Hrd as [A B D]. split; [intros x y; rewrite L1; apply A| |done]. intros x Hx. destruct (B x Hx). split; [eapply fs_same_on_disk; [apply K1|done]|].
    by rewrite (kp_view _ _ _ _ K1). }
  pose proof (ready_taken _ _ _ _ _ _ _ _ _ [] [p] C1 G2 K2 Rd1 ltac:(clear; set_solver) ltac:(clear; set_solver)) as Rd2.
  destruct (walk_ok (n_creds s) bp (root_inode s) tl r fuel (s1 <| n_e := e2 |>) (l1 ++ l2) qs2 w2 m p q) as (e' & fl' & qs' & p' & res & R3 & Hres & C3 & T3 & K3 & Hp3 & B3).
  { lia. }
  { done. }
  { split; [split; [done|]|split; [done|by destruct r; [|apply Forall_cons in Hsp2 as [_ ?]]]|exact W2|].
    - intros E. change (n_e (s1 <| n_e := e2 |>)) with e2. rewrite V2. rewrite target_cons in Htd. by apply Htd.
    - eapply route_same; [exact K2|]. by eapply route_same. }
  { exact C2. }
  { exact W1. }
  { exact T2. }
  { rewrite W4. done. }
  { rewrite W4. change (w_start (based w (nm ++ t))) with q. set_solver. }
  { by eapply fs_same_on_disk. }
  { change (n_e (s1 <| n_e := e2 |>)) with e2. by rewrite V2. }
  { rewrite W3. done. }
  { done. }
  { done. }
  { set_solver. }
  { change (n_e (s1 <| n_e := e2 |>)) with e2. lia. }
  { left. change (n_e (s1 <| n_e := e2 |>)) with e2. lia. }
  { change (n_e (s1 <| n_e := e2 |>)) with e2. rewrite decide_False by lia. exact Rd2. }
  exists e', fl', qs', p', res. split; [|split; [done|split; [done|split; [by rewrite target_cons|]]]].
  - rewrite (loop_turn fuel bp (root_inode s) s1 w k nm t n Hnm Hp Hi1 ltac:(by rewrite (kp_view _ _ _ _ K1))). rewrite (bind_ok _ _ _ _ _ R2). exact R3.
  - change (n_e (s1 <| n_e := e2 |>)) with e2 in K3, B3. split.
    + by etrans; [|apply K3].
    + intros x. by rewrite (kp_view _ _ _ _ K3).
    + intros x Hx _. destruct (decide (x = q)) as [->|Hxq].
      * rewrite B3 by lia. unfold drop. rewrite set_ino_at, decide_True by done. unfold body. rec_simpl. rewrite Ba, Bb, Bn, Bf, Bc, E1. rec_simpl.
        rewrite s32_id by (unfold is_s32; lia). repeat f_equal. lia.
      * rewrite elem_of_mid in Hx. assert (x ≠ p) as Hxp by auto.
        rewrite (kp_body _ _ _ _ K3), (kp_body _ _ _ _ K2), (kp_body _ _ _ _ K1); [done|by rewrite elem_of_mid| |by rewrite elem_of_mid| |auto|].
        -- by intros ->%list_elem_of_singleton.
        -- by intros ->%list_elem_of_singleton.
        -- by intros [-> | ->%list_elem_of_singleton]%elem_of_cons.
Qed.
Lemma target_in n r : r ≠ [] → target n r ∈ c_num <$> r.
Proof.
  intros Hr. unfold target. destruct r as [|x r _] using rev_ind; [done|]. rewrite last_snoc. simpl. rewrite fmap_app. set_solver.
Qed.

(** *** Whatever a call returns *)
Definition returns {A} (m : N A) (Q : A → nstate → Prop) s : Prop := ∀ a s', m s = Ok (a, s') → Q a s'.
Lemma returns_bind {A B} (m : N A) (k : A → N B) Q s : returns m (λ a s', returns (k a) Q s') s → returns (m ≫= k) Q s.
Proof. intros H b s2 R. apply bind_inv in R as (a & s1 & R1 & R2). by apply (H a s1 R1). Qed.
Lemma returns_ret {A} (a : A) (Q : A → nstate → Prop) s : Q a s → returns (mret a) Q s.
Proof. intros H b s' R. by injection R as <- <-. Qed.
Lemma returns_in_e {A} (m : E A) (Q : A → nstate → Prop) s : (∀ a e', Q a (s <| n_e := e' |>)) → returns (in_e m) Q s.
Proof. intros H a s' R. unfold in_e, zoom in R. destruct (m (n_e s)) as [[b e']| | |]; [|done..]. by injection R as <- <-. Qed.
Lemma returns_mono {A} (m : N A) (P Q : A → nstate → Prop) s : returns m P s → (∀ a s', P a s' → Q a s') → returns m Q s.
Proof. intros H HQ a s' R. by apply HQ, H. Qed.
Lemma returns_iput p (Q : unit → nstate → Prop) s : (∀ e', Q tt (s <| n_e := e' |>)) → returns (iput p) Q s.
Proof. intros H. apply returns_in_e. by intros []. Qed.
Lemma returns_iput_ptr o (Q : unit → nstate → Prop) s : (∀ e', Q tt (s <| n_e := e' |>)) → returns (iput_ptr o) Q s.
Proof. intros H. unfold iput_ptr. destruct o as [p|]; [|done]. change ((deref (Some p) _ ≫= ?f)) with (f p). by apply returns_iput. Qed.
Lemma returns_when b (m : N unit) (Q : unit → nstate → Prop) s : returns m Q s → Q tt s → returns (when b m) Q s.
Proof. intros H HQ. destruct b; [done|by apply returns_ret]. Qed.
Lemma returns_deref {A} (o : option A) why (Q : A → nstate → Prop) s : (∀ a, Q a s) → returns (deref o why) Q s.
Proof. intros H. destruct o as [a|]; [by apply returns_ret|done]. Qed.

(** The count of symbolic links is at most one at the head of the loop, and zero when an inode is found. *)
Definition no_loop (r : nres) s : Prop := r_err r ≠ Some (- ELOOP) ∧ (r_ip r ≠ None → symlinks s = 0).
Lemma fail_no_loop w err s : err ≠ Some (- ELOOP) → returns (fail w err) no_loop s.
Proof. intros He. unfold fail. apply returns_bind. intros [] s' R. apply returns_ret. by split. Qed.
Lemma step_no_loop last bp w s : symlinks s <= 1 → r_err (w_res w) ≠ Some (- ELOOP) →
  returns (namei_step last bp w) (λ o s', match o with inl r => no_loop r s' | inr w => symlinks s' <= 1 ∧ r_err (w_res w) ≠ Some (- ELOOP) end) s.
Proof.
  intros Hn He. unfold namei_step. apply returns_bind. intros perm s1 R1. injection R1 as <- <-. destruct (_ <? 0).
  - apply returns_bind, returns_when; [apply returns_iput; intros e1|]; (apply returns_bind, returns_when; [apply returns_iput_ptr; intros e2|]);
      apply returns_bind; (eapply returns_mono; [by apply fail_no_loop|]); intros r s' Hr; by apply returns_ret.
  - destruct (component (skip_slashes (w_path w))) as [name p1]. apply returns_bind. intros i s1 R1. injection R1 as <- <-.
    apply returns_bind. eapply (returns_mono _ (λ w' s', symlinks s' <= 1 ∧ r_err (w_res w') ≠ Some (- ELOOP))).
    + destruct (_ =? _)%nat; [by apply returns_ret|]. destruct (_ && _); apply returns_bind.
      * destruct (r_last (w_res w)); [apply returns_iput; intros e1|apply returns_ret]; by apply returns_ret.
      * apply returns_iput_ptr. intros e1. by apply returns_ret.
    + intros w1 s1 [Hn1 He1]. apply returns_bind. intros i1 s2 R1. injection R1 as <- <-. apply returns_bind, returns_in_e. intros [dp b] e2.
      set (w2 := if bp && negb (i_block (inode_of (w_ip w) (n_e s1)) 0 =? 0) then w1 <| w_res ::= λ r, r <| r_bp := Some b |> |> else w1).
      assert (r_err (w_res w2) ≠ Some (- ELOOP)) as He2 by (unfold w2; by destruct (bp && _)).
      destruct dp as [dp|]; [by apply returns_ret|].
      apply returns_bind, returns_when; [apply returns_iput_ptr; intros e3|]; apply returns_bind;
        (eapply returns_mono; [by apply fail_no_loop|]); intros r s' Hr; by apply returns_ret.
Qed.
Lemma start_no_loop last loop path root cwd s :
  (∀ root w s, symlinks s <= 1 → r_err (w_res w) ≠ Some (- ELOOP) → returns (loop root w) no_loop s) →
  returns (namei_start last loop path root cwd) no_loop s.
Proof.
  intros Hl. unfold namei_start. apply returns_bind. intros s0 s1 R. injection R as <- <-.
  destruct (root_inode s), (cwd_inode s); try done. destruct (negb _); [by apply returns_ret|]. cbv zeta.
  destruct (if ubyte path =? slash then _ else _) as [ip|]; [|done].
  apply returns_bind, returns_in_e. intros [] e1. apply returns_bind. intros [] s1 R. injection R as <-. by apply Hl.
Qed.
Lemma follow_no_loop namei ip root cwd err s : (∀ path root cwd s, returns (namei path root cwd) no_loop s) → err ≠ Some (- ELOOP) →
  returns (follow_symlink namei ip root cwd err) (λ o s', snd o ≠ Some (- ELOOP) ∧ (fst o ≠ None → symlinks s' = 0)) s.
Proof.
  intros Hn He. unfold follow_symlink. apply returns_bind. intros i s1 R. injection R as <- <-.
  destruct (negb _); [by apply returns_ret|]. destruct (_ <? _).
  - apply returns_bind, returns_deref. intros p. apply returns_bind. eapply returns_mono; [apply Hn|]. intros r s1 [H1 H2].
    apply returns_ret. split; [|done]. simpl. by destruct (r_err r).
  - apply returns_bind, returns_in_e. intros [] e1; cbn [negb]; [|by apply returns_ret].
    apply returns_bind. intros s1 s2 R. injection R as <- <-. apply returns_bind, returns_deref. intros p. apply returns_bind.
    eapply returns_mono; [apply Hn|]. intros r s1 [H1 H2]. apply returns_ret. split; [|done]. simpl. by destruct (r_err r).
Qed.
Lemma loop_no_loop fuel : ∀ last bp root w s, symlinks s <= 1 → r_err (w_res w) ≠ Some (- ELOOP) →
  returns (namei_loop fuel last bp root w) no_loop s.
Proof.
  induction fuel as [|fuel IH]; intros last bp root w s Hn He; [done|]. cbn [namei_loop]. cbv zeta.
  apply returns_bind. intros i s1 R. injection R as <- <-. destruct (_ && _ && _).
  { apply returns_bind, returns_when; [apply returns_iput; intros e1|]; by apply returns_ret. }
  destruct (_ || _).
  { apply returns_bind, returns_when; [apply returns_iput_ptr; intros e1|]; (apply returns_bind; intros [] s1 R; injection R as <-; by apply returns_ret). }
  apply returns_bind. eapply (returns_mono _ (λ o s', match o with inl r => no_loop r s' | inr w => symlinks s' <= 1 ∧ r_err (w_res w) ≠ Some (- ELOOP) end)).
  - destruct (EXT2_S_ISLNK _); [|by apply returns_ret]. apply returns_bind. intros n s1 R. injection R as <- <-.
    destruct (Z.leb_spec EXT2_MAX_SYMLINKS (symlinks s)) as [Hx|_]; [unfold EXT2_MAX_SYMLINKS in Hx; lia|].
    apply returns_bind. eapply returns_mono; [apply follow_no_loop; [|done]|].
    + intros p rt cw s1. apply start_no_loop. intros. by apply IH.
    + intros [dp err] s1 [H1 H2]. simpl in H1, H2. destruct dp as [dp|].
      * apply returns_bind. intros n s2 R. injection R as <- <-. apply returns_bind. intros [] s2 R. injection R as <-.
        apply returns_ret. rec_simpl. by rewrite H2.
      * apply returns_bind, returns_iput. intros e1. apply returns_bind, returns_when; [apply returns_iput_ptr; intros e2|]; apply returns_bind;
          (eapply returns_mono; [by apply fail_no_loop|]); intros r s' Hr; by apply returns_ret.
  - intros [r|w1] s1 Ho; [by apply returns_ret|]. destruct Ho as [Hn1 He1]. apply returns_bind.
    eapply returns_mono; [by apply step_no_loop|]. intros [r|w2] s2 Ho; [by apply returns_ret|]. destruct Ho. by apply IH.
Qed.
End steps.

(** ** Properties *)
Section properties.
Context `{DEV : Device}.
Abbreviation dev := CONFIG_FS_ROOT_DEV.

(** C24: A path that leads from the root or the working directory through directories that may be searched,
    each entry in the first block of its directory, resolves to the inode of the last entry, whatever the
    number of slashes between the names. The walk keeps one reference to that inode and none to any other;
    it changes neither the blocks nor the inodes, and the cache stays well formed. *)
Theorem namei_resolves fuel s fl qs path r q : walkable s fl qs path r q → (length r < fuel)%nat →
  let num := target (i_num (e_inode (n_e s) q)) r in
  ∃ e' fl' qs' p res, ext2_namei fuel false false path None None s = Ok (res, s <| n_e := e' |> <| symlinks := 0 |>) ∧
    r_ip res = Some p ∧ i_num (e_inode e' p) = num ∧ i_ino (e_inode e' p) = iview (n_e s) num ∧ i_count (e_inode e' p) = 1 ∧
    (∀ b, view e' b = view (n_e s) b) ∧ (∀ n, iview e' n = iview (n_e s) n) ∧
    (∀ x, x ∉ fl → body (e_inode e' x) = body (e_inode (n_e s) x)) ∧ icache_ok e' fl' qs'.
Proof.
  intros W Hf num. destruct (namei_ok fuel false s fl qs path r q W Hf) as (e' & fl' & qs' & p & res & R & Hp & C & T & K).
  exists e', fl', qs', p, res. split; [done|]. split; [done|]. split; [apply T|]. split; [by rewrite (tk_ino _ _ _ _ T), (kp_view _ _ _ _ K)|].
  split; [apply T|]. split; [apply K|]. split; [apply K|]. split; [|done]. intros x Hx. apply K; [done|set_solver].
Qed.

Lemma chmod_run ip mode s a : let i := inode_of ip (n_e s) in
  a = (if c_euid (n_creds s) =? i_uid i then
    let m := Z.land (if negb (i_gid i =? c_egid (n_creds s)) then Z.land mode (Z.lnot EXT2_S_ISGID) else mode) 4095 in
    (upd ip (λ i, i <| i_mode := chmod_mode (i_mode i) m |>) ;; mtime ip ;; modified ip ;; mret 0) s
  else (iput ip ;; mret (- EACCES)) s) → chmod_inode ip mode s = a.
Proof.
  intros i ->. unfold chmod_inode. change ((gets n_creds ≫= ?f) s) with (f (n_creds s) s). cbv beta.
  change ((ino ip ≫= ?f) s) with (f i s). cbv beta zeta. by destruct (c_euid (n_creds s) =? i_uid i).
Qed.


(** C33: [chmod] of a file that another user owns stops the machine: the reference is released twice. *)
Theorem chmod_by_other_panics fuel mode s fl qs path r q : walkable s fl qs path r q → (length r < fuel)%nat →
  c_euid (n_creds s) ≠ i_uid (iview (n_e s) (target (i_num (e_inode (n_e s) q)) r)) →
  ext2_chmod fuel path mode s = Panic "ext2_iput: ip->i_count == 0".
Proof.
  intros W Hf Hown. set (num := target _ r) in Hown.
  destruct (namei_ok fuel false s fl qs path r q W Hf) as (e1 & fl1 & qs1 & p & res & R1 & Hp & C1 & T1 & K1). fold num in T1.
  destruct (rd_disk _ _ _ _ _ (wk_ready _ _ _ _ _ _ W) num ltac:(apply target_in; apply W)) as [Hd Hl].
  pose proof (slot_valid p (tk_slot _ _ _ _ T1)) as Hv.
  assert (i_ino (e_inode e1 p) = iview (n_e s) num) as Hi by (by rewrite (tk_ino _ _ _ _ T1), (kp_view _ _ _ _ K1)).
  destruct (iput_last e1 fl1 qs1 p C1 (tk_slot _ _ _ _ T1) (tk_busy _ _ _ _ T1) (tk_count _ _ _ _ T1)) as (e2 & R2 & C2 & _).
  { by rewrite Hi. }
  { rewrite (tk_num _ _ _ _ T1). eapply fs_same_on_disk; [apply K1|done]. }
  destruct (io_idle _ _ _ C2 p ltac:(set_solver)) as [Hc _].
  set (s1 := s <| n_e := e1 |> <| symlinks := 0 |>).
  assert (chmod_inode p mode s1 = Ok (- EACCES, s1 <| n_e := e2 |>)) as R3.
  { apply chmod_run. unfold inode_of. change (n_e s1) with e1. change (n_creds s1) with (n_creds s). rewrite Hi, (proj2 (Z.eqb_neq _ _) Hown).
    by rewrite (bind_ok (iput p) _ s1 _ _ (in_e_run _ s1 _ _ R2)). }
  unfold ext2_chmod. rewrite (bind_ok _ _ _ _ _ R1), Hp, (bind_ok _ _ _ _ _ R3). unfold iput.
  apply bind_panic, in_e_panic. change (n_e (s1 <| n_e := e2 |>)) with e2. by apply iput_free_panics.
Qed.

(** The limit on symbolic links is never reached: a walk started for a link sets the count back. *)
Theorem namei_never_eloop fuel last bp path root cwd s res s' : ext2_namei fuel last bp path root cwd s = Ok (res, s') →
  r_err res ≠ Some (- ELOOP) ∧ (r_ip res ≠ None → symlinks s' = 0).
Proof. apply start_no_loop. intros. by apply loop_no_loop. Qed.
End properties.

(** A directory with the file [a], which is not cached. *)
Module PathDemo.
Import Ext2Demo DirDemo InodeDemo.
Definition dir_ino : ext2_inode := ino0 <| i_mode := 16877 |> <| i_block := λ k, if k =? 0 then 10 else 0 |> <| i_size := 1024 |>.
(** The inode 13 is the sixth of the second block of the table: mode and number of links. *)
Definition table_block (o : Z) : Z := if o =? 512 then 164 else if o =? 513 then 129 else if o =? 538 then 1 else 0.
Definition disk (b : Z) : Z → Z := if b =? 10 then dir_block else if b =? 6 then table_block else blocks b.
Definition fs_a : ext2 := start disk dir_ino 12.
Definition user (uid : Z) : nstate := MkN fs_a (Some 0%nat) (Some 0%nat) true (MkCreds uid uid 0 0) 18 0.
Definition path_a : list Z := [47; 97].
Definition route_a : list comp := [MkComp 1 [97] 13].
Lemma user_walkable uid : uid = 0 ∨ uid = 5 → walkable (user uid) free_slots [[0%nat]] path_a route_a 0.
Proof.
  intros Hu. split.
  - apply icache_start.
  - done.
  - done.
  - by split; eexists.
  - split; [unfold is_slot, NR_INODE_CACHE; lia|]. split; [intros H%elem_of_seq; lia|]. done.
  - exists []. by split; [|split; [left|]].
  - split; [|by constructor]. apply Forall_singleton. split; [done|]. by apply Forall_singleton.
  - done.
  - split; [by vm_compute|]. split; [by destruct Hu as [-> | ->]; vm_compute|]. split; [|done]. split; [by vm_compute|]. split; [done|].
    exists e_dot, [e_dotdot; e_a], e_a. split; [by apply demo_chain|]. split; [by repeat constructor|]. done.
  - split.
    + intros m p ->%list_elem_of_singleton Hp. by vm_compute in Hp.
    + intros m ->%list_elem_of_singleton. split; [by apply start_disk|by vm_compute].
    + split; [simpl; lia|]. intros [|i] p Hi Hp; [|simpl in Hi; lia]. injection Hp as <-. by apply start_unused.
Qed.
End PathDemo.
Import Ext2Demo InodeDemo PathDemo.

Lemma namei_resolves_witness : ∃ res e' p, ext2_namei 2 false false path_a None None (user 5) = Ok (res, (user 5) <| n_e := e' |> <| symlinks := 0 |>) ∧
  r_ip res = Some p ∧ i_num (e_inode e' p) = 13.
Proof.
  destruct (namei_resolves 2 (user 5) free_slots [[0%nat]] path_a route_a 0) as (e' & fl' & qs' & p & res & R & H1 & H2 & _).
  - apply user_walkable. by right.
  - simpl. lia.
  - exists res, e', p. split; [exact R|]. split; [exact H1|exact H2].
Defined.
Lemma chmod_by_other_panics_witness : ext2_chmod 2 path_a 493 (user 5) = Panic "ext2_iput: ip->i_count == 0".
Proof.
  apply (chmod_by_other_panics 2 493 (user 5) free_slots [[0%nat]] path_a route_a 0).
  - apply user_walkable. by right.
  - simpl. lia.
  - by vm_compute.
Defined.
Lemma namei_never_eloop_witness : ∃ res s', ext2_namei 2 false false path_a None None (user 5) = Ok (res, s') ∧ r_err res ≠ Some (- ELOOP).
Proof.
  destruct (namei_ok 2 false (user 5) free_slots [[0%nat]] path_a route_a 0) as (e' & _ & _ & _ & res & R & _).
  - apply user_walkable. by right.
  - simpl. lia.
  - eexists res, _. split; [exact R|]. exact (proj1 (namei_never_eloop _ _ _ _ _ _ _ _ _ R)).
Defined.
