(* ===== verification/Exec.v ===== *)
(** Loading a program: the headers of an ELF file (sys/kernel/exec_elf.c), its segments
    (sys/kernel/exec_elf32.c), and the arguments on the stack of the new program
    (sys/arch/i386/processes.c).

    Memory is one function from addresses to bytes: the kernel from [KERNEL_VIRT_BASE] on, the running
    program below. The pages that the new address space has below are [x_next], which replaces the old
    program when the new directory is loaded. The structures on the stack of the kernel are at
    addresses of their own. *)
From S2P Require Import Prelude Str Proc Paging.

Definition ENOEXEC : Z := 45.
Definition ENOMEM : Z := 48.
Definition ELFMAG0 : Z := 127.
Definition ELFMAG1 : Z := 69.
Definition ELFMAG2 : Z := 76.
Definition ELFMAG3 : Z := 70.
Definition EI_CLASS : Z := 4.
Definition EI_DATA : Z := 5.
Definition EI_OSABI : Z := 7.
Definition ELFDATA2LSB : Z := 1.
Definition ELFCLASS32 : Z := 1.
Definition ET_EXEC : Z := 2.
Definition EM_X86 : Z := 3.
Definition ELFABI_SYSTEMV : Z := 0.
Definition PT_LOAD : Z := 1.
Definition PF_X : Z := 1.
Definition PF_W : Z := 2.
Definition PF_R : Z := 4.

(** ** [Elf32_Ehdr] and [Elf32_Phdr] in memory *)
Definition EHDR_SIZE : Z := 52.
Definition e_ident (m : Z → Z) (h i : Z) : Z := m (h + i).
Definition e_type (m : Z → Z) (h : Z) : Z := le16 m (h + 16).
Definition e_machine (m : Z → Z) (h : Z) : Z := le16 m (h + 18).
Definition h_entry (m : Z → Z) (h : Z) : Z := le32 m (h + 24).
Definition e_phoff (m : Z → Z) (h : Z) : Z := le32 m (h + 28).
Definition e_phentsize (m : Z → Z) (h : Z) : Z := le16 m (h + 42).
Definition e_phnum (m : Z → Z) (h : Z) : Z := le16 m (h + 44).
Definition PHDR_SIZE : Z := 32.
Definition p_type (m : Z → Z) (p : Z) : Z := le32 m p.
Definition p_offset (m : Z → Z) (p : Z) : Z := le32 m (p + 4).
Definition p_vaddr (m : Z → Z) (p : Z) : Z := le32 m (p + 8).
Definition p_filesz (m : Z → Z) (p : Z) : Z := le32 m (p + 16).
Definition p_memsz (m : Z → Z) (p : Z) : Z := le32 m (p + 20).
Definition p_flags (m : Z → Z) (p : Z) : Z := le32 m (p + 24).
Definition flag (m : Z → Z) (p f : Z) : bool := negb (Z.land (p_flags m p) f =? 0).

Record exec_elf_params := MkParams { endian : Z; bits : Z; abi : Z; machine : Z }.
(** The offsets of [struct exec_elf_file]. *)
Record exec_offs := MkOffs { text_off : Z; data_off : Z; rodata_off : Z }.
#[export] Instance offs_eta : Eta exec_offs := λ o, MkOffs (text_off o) (data_off o) (rodata_off o).
#[export] Instance image_eta : Eta exec_image := λ i, MkImage (e_entry i) (e_text_vaddr i) (e_text_size i) (e_data_vaddr i) (e_data_size i)
  (e_rodata_vaddr i) (e_rodata_size i) (e_bss_vaddr i) (e_bss_size i).

(** [elf_verify_hdr] and [elf_check_hdr], for a header at [h]. *)
Definition elf_verify_hdr (m : Z → Z) (h : Z) : Z :=
  if negb (e_ident m h 0 =? ELFMAG0) then -1 else
  if negb (e_ident m h 1 =? ELFMAG1) then -1 else
  if negb (e_ident m h 2 =? ELFMAG2) then -1 else
  if negb (e_ident m h 3 =? ELFMAG3) then -1 else 0.
Definition elf_check_hdr (m : Z → Z) (h : Z) (param : exec_elf_params) : Z :=
  if negb (bits param =? ELFCLASS32) then -1 else
  if negb (e_ident m h EI_CLASS =? bits param) then -1 else
  if negb (e_ident m h EI_DATA =? endian param) then -1 else
  if negb (e_ident m h EI_OSABI =? abi param) then -1 else
  if negb (e_machine m h =? machine param) then -1 else e_type m h.
(** What the loop of [elf32_load_elf] does with the program header at [p]. *)
Definition add_phdr (m : Z → Z) (p : Z) (im : exec_image * exec_offs) : exec_image * exec_offs :=
  let '(image, file) := im in
  if negb (p_type m p =? PT_LOAD) then im else
  if flag m p PF_X && flag m p PF_R then
    (image <| e_text_vaddr := p_vaddr m p |> <| e_text_size := p_memsz m p |>, file <| text_off := p_offset m p |>)
  else if flag m p PF_R && negb (flag m p PF_W) then
    (image <| e_rodata_vaddr := p_vaddr m p |> <| e_rodata_size := p_memsz m p |>, file <| rodata_off := p_offset m p |>)
  else if flag m p PF_R && flag m p PF_W then
    let image := image <| e_data_vaddr := p_vaddr m p |> <| e_data_size := p_memsz m p |> in
    (if p_filesz m p <? p_memsz m p then
       image <| e_bss_vaddr := u32 (e_data_vaddr image + p_filesz m p) |> <| e_bss_size := p_memsz m p - p_filesz m p |>
     else image, file <| data_off := p_offset m p |>)
  else im.

(** ** The calls *)
Record xstate (F : Type) := MkX { x_fs : F; x_mem : Z → Z; x_next : Z → Z; x_esp : Z; x_eip : Z }.
Arguments MkX {F}. Arguments x_fs {F}. Arguments x_mem {F}. Arguments x_next {F}. Arguments x_esp {F}. Arguments x_eip {F}.
#[export] Instance xstate_eta F : Eta (xstate F) := λ s, MkX (x_fs s) (x_mem s) (x_next s) (x_esp s) (x_eip s).
(** What the rest of the kernel does for [exec]: [fs_readi] of the file with a buffer, a number of bytes and
    an offset; [arch_valloc_segments] (Paging.v) and [kvmalloc] (Kvmalloc.v); and the addresses of the two
    headers on the stack of the kernel. *)
Class ExecEnv (F : Type) := {
  fs_readi : Z → Z → Z → M (xstate F) Z;
  valloc_segments : exec_image → M (xstate F) Z;
  kernel_alloc : Z → M (xstate F) Z;
  ehdr_at : Z; phdr_at : Z
}.

Section exec.
Context {F : Type} `{ENV : ExecEnv F}.
Definition X (A : Type) : Type := M (xstate F) A.
Definition mem : X (Z → Z) := gets x_mem.
Definition store (f : (Z → Z) → Z → Z) : X unit := modify (λ s, s <| x_mem ::= f |>).

Definition elf_read (buf count off : Z) : X Z := fs_readi buf count off.
Definition elf32_read_ehdr : X Z := elf_read ehdr_at EHDR_SIZE 0.
(** [phdr] has room for [PHDR_SIZE] bytes. *)
Definition elf32_read_phdr (phentsize phoff entry : Z) : X Z :=
  if PHDR_SIZE <? phentsize then undef "read behind phdr" else
  elf_read phdr_at phentsize (s32 (entry * phentsize + phoff)).
Fixpoint load_loop (l : list nat) (im : exec_image * exec_offs) : X (exec_image * exec_offs) :=
  match l with
  | [] => mret im
  | i :: l =>
      m ← mem;
      elf32_read_phdr (e_phentsize m ehdr_at) (e_phoff m ehdr_at) (Z.of_nat i) ;;
      m ← mem;
      load_loop l (add_phdr m phdr_at im)
  end.
(** The result, and what has been filled in; [file] is what its offsets were before. *)
Definition elf32_load_elf (file : exec_offs) : X (Z * (exec_image * exec_offs)) :=
  m ← mem;
  im ← load_loop (seq 0 (Z.to_nat (e_phnum m ehdr_at))) (MkImage (h_entry m ehdr_at) 0 0 0 0 0 0 0 0, file);
  err ← valloc_segments (fst im);
  mret (if err <? 0 then - ENOMEM else 0, im).
(** The loop over the bss stores every zero at its first byte. *)
Definition elf32_read_image (image : exec_image) (file : exec_offs) : X Z :=
  when (negb (e_text_size image =? 0)) (elf_read (e_text_vaddr image) (e_text_size image) (s32 (text_off file)) ;; mret tt) ;;
  when (negb (e_data_size image =? 0))
    (elf_read (e_data_vaddr image) (u32 (e_data_size image - e_bss_size image)) (s32 (data_off file)) ;; mret tt) ;;
  when (negb (e_rodata_size image =? 0)) (elf_read (e_rodata_vaddr image) (e_rodata_size image) (s32 (rodata_off file)) ;; mret tt) ;;
  for_each (seq 0 (Z.to_nat (e_bss_size image))) (λ _, store (<[e_bss_vaddr image := 0]>)) ;;
  mret 0.

(** *** The stack of the new program *)
Fixpoint exec_count_str (fuel : nat) (p : Z) : X Z :=
  match fuel with
  | O => nofuel
  | S fuel =>
      m ← mem;
      if le32 m p =? 0 then mret 1 else n ← exec_count_str fuel (p + 4); mret (n + 1)
  end.
Fixpoint exec_strlen (fuel : nat) (p : Z) : X Z :=
  match fuel with
  | O => nofuel
  | S fuel =>
      m ← mem;
      if m p =? 0 then mret 1 else n ← exec_strlen fuel (p + 1); mret (n + 1)
  end.
(** The loop that adds up the lengths of the strings. *)
Fixpoint strings_len (fuel n : nat) (p total_len : Z) : X Z :=
  match n with
  | O => nofuel
  | S n =>
      m ← mem;
      if le32 m p =? 0 then mret total_len else
      len ← exec_strlen fuel (le32 m p); strings_len fuel n (p + 4) (u32 (total_len + len))
  end.
(** A turn of the loop over [argv] or [envp]: [roving] and [run] before and after. *)
Definition fill_entry (fuel : nat) (tab base sp : Z) (i : nat) (at_ : Z * Z) : X (Z * Z) :=
  let '(roving, run) := at_ in
  m ← mem;
  let str := le32 m (tab + 4 * Z.of_nat i) in
  if negb (str =? 0) then
    store (put_le32 roving (u32 (base + run - sp))) ;;
    tmp ← exec_strlen fuel str;
    store (copy_forward (Z.to_nat tmp) run str) ;;
    mret (roving + 4, u32 (run + tmp))
  else store (put_le32 roving 0) ;; mret (roving + 4, run).
Fixpoint fill_table (fuel : nat) (tab base sp : Z) (l : list nat) (at_ : Z * Z) : X (Z * Z) :=
  match l with
  | [] => mret at_
  | i :: l => at_ ← fill_entry fuel tab base sp i at_; fill_table fuel tab base sp l at_
  end.
(** The block and [*res_stack_gap]. *)
Definition exec_set_up_stack (fuel : nat) (argv envp : Z) : X (Z * Z) :=
  argv_count ← exec_count_str fuel argv;
  let argc := argv_count - 1 in
  let total_len := u32 (argv_count * 4) in
  envp_count ← exec_count_str fuel envp;
  let total_len := u32 (total_len + envp_count * 4) in
  total_len ← strings_len fuel fuel argv total_len;
  total_len ← strings_len fuel fuel envp total_len;
  let total_len := u32 (total_len + 12) in
  let user_sp_base := Z.land (u32 (KERNEL_VIRT_BASE - total_len)) 4294967280 in
  let gap := u32 (KERNEL_VIRT_BASE - user_sp_base) in
  sp ← kernel_alloc total_len;
  let sp := u32 (sp - 12) in
  store (put_le32 sp (u32 argc)) ;;
  store (put_le32 (sp + 4) (u32 (user_sp_base + 12))) ;;
  store (put_le32 (sp + 8) (u32 (user_sp_base + 12 + argv_count * 4))) ;;
  let run := u32 (sp + 12 + argv_count * 4 + envp_count * 4) in
  '(roving, run) ← fill_table fuel argv user_sp_base sp (seq 0 (Z.to_nat argv_count)) (sp + 12, run);
  fill_table fuel envp user_sp_base sp (seq 0 (Z.to_nat envp_count)) (roving, run) ;;
  mret (sp, gap).

(** [load_cr3] of the new directory: the pages below the kernel are those of [x_next]. The release of the
    old ones is not in the model. *)
Definition switch_space : X unit :=
  modify (λ s, s <| x_mem ::= λ m a, if a <? KERNEL_VIRT_BASE then x_next s a else m a |>).
(** [file] is what the offsets of the file were before. *)
Definition arch_exec_elf (fuel : nat) (file : exec_offs) (argv envp : Z) : X Z :=
  n ← elf32_read_ehdr;
  if negb (n =? EHDR_SIZE) then mret (- ENOEXEC) else
  m ← mem;
  if elf_verify_hdr m ehdr_at <? 0 then mret (- ENOEXEC) else
  let type := elf_check_hdr m ehdr_at (MkParams ELFDATA2LSB ELFCLASS32 ELFABI_SYSTEMV EM_X86) in
  if type <? 0 then mret (- ENOEXEC) else
  if negb (type =? ET_EXEC) then mret (- ENOEXEC) else
  '(err, (image, file)) ← elf32_load_elf file;
  '(new_sp, gap) ← exec_set_up_stack fuel argv envp;
  let padded_sp := u32 (KERNEL_VIRT_BASE - gap) in
  modify (λ s, s <| x_esp := padded_sp |>) ;;
  modify (λ s, s <| x_eip := e_entry image |>) ;;
  switch_space ;;
  store (memmove padded_sp new_sp (Z.to_nat gap)) ;;
  elf32_read_image image file ;;
  if err <? 0 then mret err else mret 0.
End exec.

(** ** Arguments in memory *)

(** A string and the NUL behind it. *)
Definition cstr (m : Z → Z) (p : Z) (str : list Z) : Prop :=
  (∀ j c, str !! j = Some c → m (p + Z.of_nat j) = c ∧ c ≠ 0) ∧ m (p + Z.of_nat (length str)) = 0.
(** A table of pointers to strings, with a null pointer behind the last, below the kernel. *)
Fixpoint args_at (m : Z → Z) (tab : Z) (l : list (list Z)) : Prop :=
  0 <= tab ∧ tab + 4 <= KERNEL_VIRT_BASE ∧
  match l with
  | [] => le32 m tab = 0
  | str :: l => let p := le32 m tab in
      0 < p ∧ p + Z.of_nat (length str) < KERNEL_VIRT_BASE ∧ cstr m p str ∧ args_at m (tab + 4) l
  end.
(** The bytes of the strings, and of the block with both tables. *)
Fixpoint strs (l : list (list Z)) : Z := match l with [] => 0 | s :: l => Z.of_nat (length s) + 1 + strs l end.
Definition count (l : list (list Z)) : Z := Z.of_nat (length l) + 1.
Definition block_size (argv envp : list (list Z)) : Z := 12 + 4 * count argv + 4 * count envp + strs argv + strs envp.

Lemma strs_nonneg l : 0 <= strs l.
Proof. induction l; simpl; lia. Qed.
Lemma cstr_same m m' p str : (∀ a, p <= a <= p + Z.of_nat (length str) → m' a = m a) → cstr m p str → cstr m' p str.
Proof.
  intros H [H1 H2]. split; [|by rewrite H by lia]. intros j c Hj. pose proof (lookup_lt_Some _ _ _ Hj). rewrite H by lia. by apply H1.
Qed.
Lemma args_same m m' tab l : (∀ a, 0 <= a < KERNEL_VIRT_BASE → m' a = m a) → args_at m tab l → args_at m' tab l.
Proof.
  intros H. revert tab. induction l as [|s l IH]; intros tab (H1 & H2 & A); split; [done| |done|].
  - split; [done|]. by rewrite (le32_same m) by (intros; apply H; lia).
  - split; [done|]. cbv zeta. rewrite (le32_same m) by (intros; apply H; lia). destruct A as (A1 & A2 & A3 & A4). split; [done|]. split; [done|].
    split; [|by apply IH]. eapply cstr_same; [|exact A3]. intros a Ha. apply H. lia.
Qed.

Section loops.
Context {F : Type} `{ENV : ExecEnv F}.
Lemma count_ok l : ∀ fuel tab (s : xstate F), args_at (x_mem s) tab l → (length l < fuel)%nat → exec_count_str fuel tab s = Ok (count l, s).
Proof.
  induction l as [|str l IH]; intros [|fuel] tab s (H1 & H2 & A) Hf; try (simpl in Hf; lia); simpl.
  - change ((mem ≫= ?f) s) with (f (x_mem s) s). cbv beta. by rewrite A.
  - destruct A as (A1 & A2 & A3 & A4). change ((mem ≫= ?f) s) with (f (x_mem s) s). cbv beta. rewrite (proj2 (Z.eqb_neq _ _)) by lia.
    rewrite (bind_ok _ _ _ _ _ (IH fuel (tab + 4) s A4 ltac:(simpl in Hf; lia))). unfold count. simpl length. by replace (Z.of_nat (S (length l)) + 1) with (Z.of_nat (length l) + 1 + 1) by lia.
Qed.
Lemma strlen_ok str : ∀ fuel p (s : xstate F), cstr (x_mem s) p str → (length str < fuel)%nat → exec_strlen fuel p s = Ok (Z.of_nat (length str) + 1, s).
Proof.
  induction str as [|c str IH]; intros [|fuel] p s [H1 H2] Hf; try (simpl in Hf; lia); simpl.
  - change ((mem ≫= ?f) s) with (f (x_mem s) s). cbv beta. simpl in H2. rewrite Z.add_0_r in H2. by rewrite H2.
  - change ((mem ≫= ?f) s) with (f (x_mem s) s). cbv beta. destruct (H1 0%nat c eq_refl) as [Hc Hz]. rewrite Z.add_0_r in Hc.
    rewrite (proj2 (Z.eqb_neq _ _)) by lia.
    assert (cstr (x_mem s) (p + 1) str) as Hs.
    { split; [intros j c' Hj; replace (p + 1 + Z.of_nat j) with (p + Z.of_nat (S j)) by lia; by apply H1|].
      rewrite <-H2. f_equal. simpl length. lia. }
    rewrite (bind_ok _ _ _ _ _ (IH fuel (p + 1) s Hs ltac:(simpl in Hf; lia))). by replace (Z.of_nat (S (length str)) + 1) with (Z.of_nat (length str) + 1 + 1) by lia.
Qed.
Lemma strings_ok l : ∀ fuel n tab t (s : xstate F), args_at (x_mem s) tab l → (length l < n)%nat → Forall (λ str, (length str < fuel)%nat) l →
  0 <= t → t + strs l < 4294967296 → strings_len fuel n tab t s = Ok (t + strs l, s).
Proof.
  induction l as [|str l IH]; intros fuel [|n] tab t s (H1 & H2 & A) Hn Hf Ht Hb; try (simpl in Hn; lia); simpl;
    change ((mem ≫= ?f) s) with (f (x_mem s) s); cbv beta.
  - by rewrite A, Z.add_0_r.
  - destruct A as (A1 & A2 & A3 & A4). apply Forall_cons in Hf as [Hf1 Hf]. simpl in Hn, Hb. pose proof (strs_nonneg l).
    rewrite (proj2 (Z.eqb_neq _ _)) by lia. rewrite (bind_ok _ _ _ _ _ (strlen_ok str fuel _ s A3 Hf1)).
    rewrite u32_id by (unfold is_u32; lia). rewrite (IH fuel n) by (done || lia). by rewrite !Z.add_assoc.
Qed.

(** The table and the strings that the loops build: at [roving] and at [run]. *)
Fixpoint built (m : Z → Z) (base sp roving run : Z) (l : list (list Z)) : Prop :=
  match l with
  | [] => le32 m roving = 0
  | str :: l => le32 m roving = base + run - sp ∧ cstr m run str ∧ built m base sp (roving + 4) (run + Z.of_nat (length str) + 1) l
  end.
Lemma built_same m m' base sp l : ∀ roving run, (∀ a, roving <= a < roving + 4 * count l ∨ run <= a < run + strs l → m' a = m a) →
  built m base sp roving run l → built m' base sp roving run l.
Proof.
  induction l as [|str l IH]; intros roving run H; unfold count in *; simpl length in *; simpl strs in *; simpl.
  - intros <-. apply le32_same. intros. apply H. lia.
  - intros (B1 & B2 & B3). pose proof (strs_nonneg l). split; [|split].
    + rewrite <-B1. apply le32_same. intros. apply H. lia.
    + eapply cstr_same; [|exact B2]. intros. apply H. lia.
    + apply IH; [|done]. intros a Ha. apply H. lia.
Qed.

(** The loops over a table below the kernel, which build theirs in the kernel. *)
Definition upto (r r' s s' : Z) (m m' : Z → Z) : Prop := ∀ a, ¬ (r <= a < r') → ¬ (s <= a < s') → m' a = m a.
Lemma entry_null fuel tab base sp i roving run (s : xstate F) : le32 (x_mem s) (tab + 4 * Z.of_nat i) = 0 →
  fill_entry fuel tab base sp i (roving, run) s = Ok ((roving + 4, run), s <| x_mem ::= put_le32 roving 0 |>).
Proof. intros H. unfold fill_entry. change ((mem ≫= ?f) s) with (f (x_mem s) s). cbv beta. by rewrite H. Qed.
Lemma entry_str fuel tab base sp i roving run (s : xstate F) str : let p := le32 (x_mem s) (tab + 4 * Z.of_nat i) in
  let len := Z.of_nat (length str) in
  0 < p → p + len < KERNEL_VIRT_BASE → cstr (x_mem s) p str → (length str < fuel)%nat → KERNEL_VIRT_BASE <= roving → roving + 4 <= run →
  run + len + 1 < 4294967296 → 0 <= base + run - sp < 4294967296 →
  ∃ m', fill_entry fuel tab base sp i (roving, run) s = Ok ((roving + 4, run + len + 1), s <| x_mem := m' |>) ∧
    le32 m' roving = base + run - sp ∧ cstr m' run str ∧ upto roving (roving + 4) run (run + len + 1) (x_mem s) m'.
Proof.
  intros p len A1 A2 A3 Hf Hr Hrr Hru Hb.
  set (m1 := put_le32 roving (base + run - sp) (x_mem s)). set (s1 := s <| x_mem := m1 |>).
  set (m2 := copy_forward (Z.to_nat (len + 1)) run p m1). set (s2 := s <| x_mem := m2 |>).
  assert (∀ a, a < roving ∨ roving + 4 <= a → m1 a = x_mem s a) as M1 by (intros; by apply put_le32_ne).
  assert (∀ a, m2 a = copied run p (Z.to_nat (len + 1)) m1 a) as M2 by (intros; apply copy_forward_spec; lia).
  assert (∀ a, a < run ∨ run + len + 1 <= a → m2 a = m1 a) as M3.
  { intros a Ha. rewrite M2. unfold copied. rewrite (proj2 (andb_false_iff _ _)); [done|]. rewrite Z.leb_gt, Z.ltb_ge. lia. }
  assert (∀ j, 0 <= j <= len → m2 (run + j) = x_mem s (p + j)) as E.
  { intros j Hj. rewrite M2. unfold copied. rewrite (proj2 (andb_true_iff _ _)) by (rewrite Z.leb_le, Z.ltb_lt; lia).
    rewrite M1 by lia. f_equal. lia. }
  exists m2. split; [|split; [|split]].
  - unfold fill_entry. change ((mem ≫= ?f) s) with (f (x_mem s) s). cbv beta. fold p. cbv zeta. rewrite (proj2 (Z.eqb_neq p 0)) by lia. cbn [negb].
    rewrite u32_id by (unfold is_u32; lia). change ((store ?f ;; ?k) s) with (k (s <| x_mem := f (x_mem s) |>)). fold m1 s1.
    assert (exec_strlen fuel p s1 = Ok (len + 1, s1)) as R.
    { apply strlen_ok; [|done]. eapply cstr_same; [|exact A3]. intros a Ha. apply M1. lia. }
    rewrite (bind_ok _ _ _ _ _ R). rewrite u32_id by (unfold is_u32; lia). by rewrite Z.add_assoc.
  - rewrite (le32_same m1) by (intros; apply M3; lia). apply le32_put_eq. unfold is_u32. lia.
  - destruct A3 as [C D]. split; [|by rewrite E by lia]. intros j c Hj. pose proof (lookup_lt_Some _ _ _ Hj). rewrite E by lia. by apply C.
  - intros a Ha Ha'. rewrite M3 by lia. apply M1. lia.
Qed.
Lemma fill_ok fuel tab base sp l : ∀ i roving run (s : xstate F), args_at (x_mem s) (tab + 4 * Z.of_nat i) l → Forall (λ str, (length str < fuel)%nat) l →
  KERNEL_VIRT_BASE <= roving → roving + 4 * count l <= run → run + strs l < 4294967296 → sp <= run → 0 <= base →
  base + (run - sp) + strs l <= KERNEL_VIRT_BASE →
  ∃ m', fill_table fuel tab base sp (seq i (S (length l))) (roving, run) s = Ok ((roving + 4 * count l, run + strs l), s <| x_mem := m' |>) ∧
    built m' base sp roving run l ∧ upto roving (roving + 4 * count l) run (run + strs l) (x_mem s) m'.
Proof.
  assert (KERNEL_VIRT_BASE < 4294967296) as HK by done.
  induction l as [|str l IH]; intros i roving run s (H1 & H2 & A) Hf Hr Hrr Hru Hs Hb Hbb; unfold count in *; simpl length in *; simpl strs in *.
  - cbn [seq fill_table]. rewrite (bind_ok _ _ _ _ _ (entry_null fuel tab base sp i roving run s A)). exists (put_le32 roving 0 (x_mem s)). split; [|split].
    + simpl. by rewrite Z.add_0_r.
    + simpl. by apply le32_put_eq.
    + intros a Ha _. apply put_le32_ne. lia.
  - pose proof (strs_nonneg l) as Hl. destruct A as (A1 & A2 & A3 & A4). apply Forall_cons in Hf as [Hf1 Hf].
    destruct (entry_str fuel tab base sp i roving run s str) as (m2 & R2 & W2 & C2 & F2); try done; try lia.
    set (s2 := s <| x_mem := m2 |>) in R2.
    assert (args_at (x_mem s2) (tab + 4 * Z.of_nat (S i)) l) as A4'.
    { eapply args_same; [|replace (tab + 4 * Z.of_nat (S i)) with (tab + 4 * Z.of_nat i + 4) by lia; exact A4]. intros a Ha. apply F2; lia. }
    destruct (IH (S i) (roving + 4) (run + Z.of_nat (length str) + 1) s2 A4' Hf) as (m3 & R3 & B3 & F3); try lia.
    exists m3. split; [|split].
    + change (seq i (S (S (length l)))) with (i :: seq (S i) (S (length l))). cbn [fill_table]. rewrite (bind_ok _ _ _ _ _ R2), R3. do 3 f_equal; lia.
    + simpl. split; [|split; [|done]].
      * rewrite <-W2. apply le32_same. intros a Ha. apply F3; lia.
      * eapply cstr_same; [|exact C2]. intros a Ha. apply F3; lia.
    + intros a Ha Ha'. rewrite F3 by lia. apply F2; lia.
Qed.
End loops.

(** ** The rest of the kernel

    What [exec] relies on: a read inside the file delivers its bytes, the segments can be mapped, and the
    heap has room for the arguments. [inv] is what holds of the file system meanwhile. *)
Definition same_user {F} (s s' : xstate F) : Prop :=
  (∀ a, 0 <= a < KERNEL_VIRT_BASE → x_mem s' a = x_mem s a) ∧ x_next s' = x_next s.
Record exec_laws `{ENV : ExecEnv F} (inv : F → Prop) (content : Z → Z) (size : Z) (accepts : exec_image → Prop) : Prop := {
  el_read buf n off s : inv (x_fs s) → 0 <= off → 0 < n → off + n <= size → 0 <= buf → buf + n <= 4294967296 →
    ∃ s', fs_readi buf n off s = Ok (n, s') ∧ inv (x_fs s') ∧
      (∀ a, x_mem s' a = if (buf <=? a) && (a <? buf + n) then content (off + (a - buf)) else x_mem s a) ∧
      x_next s' = x_next s ∧ x_esp s' = x_esp s ∧ x_eip s' = x_eip s;
  el_valloc image s : inv (x_fs s) → accepts image → ∃ s', valloc_segments image s = Ok (0, s') ∧ inv (x_fs s') ∧
    (∀ a, 0 <= a < KERNEL_VIRT_BASE → x_mem s' a = x_mem s a);
  el_alloc n s : inv (x_fs s) → 0 <= n <= USER_STACK_SIZE → ∃ r s', kernel_alloc n s = Ok (r, s') ∧ inv (x_fs s') ∧
    KERNEL_VIRT_BASE + 12 <= r ∧ r + n < 4294967296 ∧ same_user s s';
  el_size : size < 2147483648;
  el_locals : KERNEL_VIRT_BASE <= ehdr_at ∧ ehdr_at + EHDR_SIZE <= 4294967296 ∧ KERNEL_VIRT_BASE <= phdr_at ∧ phdr_at + PHDR_SIZE <= 4294967296 ∧
    (ehdr_at + EHDR_SIZE <= phdr_at ∨ phdr_at + PHDR_SIZE <= ehdr_at)
}.

Lemma land_16 x : is_u32 x → Z.land x 4294967280 = x - x mod 16.
Proof.
  intros Hx. unfold is_u32 in Hx. change 4294967280 with (Z.shiftl (Z.ones 28) 4).
  apply Z.bits_inj_iff'. intros i Hi. rewrite Z.land_spec, Z.shiftl_spec by done.
  replace (x - x mod 16) with (Z.shiftl (Z.shiftr x 4) 4) by (rewrite Z.shiftl_mul_pow2, Z.shiftr_div_pow2 by lia; lia).
  rewrite Z.shiftl_spec by done. destruct (decide (i < 4)).
  - rewrite !(Z.testbit_neg_r _ (i - 4)) by lia. apply andb_false_r.
  - rewrite Z.shiftr_spec by lia. replace (i - 4 + 4) with i by lia. destruct (decide (i < 32)).
    + rewrite Z.ones_spec_low by lia. apply andb_true_r.
    + rewrite (testbit_high x 32) by lia. done.
Qed.
(** Where the block of arguments is for the program, and the room up to the kernel. *)
Definition stack_base (argv envp : list (list Z)) : Z := let x := KERNEL_VIRT_BASE - block_size argv envp in x - x mod 16.
Lemma count_pos l : 1 <= count l.
Proof. unfold count. lia. Qed.
Lemma block_pos argv envp : 20 <= block_size argv envp.
Proof. unfold block_size. pose proof (count_pos argv). pose proof (count_pos envp). pose proof (strs_nonneg argv). pose proof (strs_nonneg envp). lia. Qed.

(** The block at [at_], with pointers for a block at [base]. *)
Record block_at (m : Z → Z) (base at_ : Z) (argv envp : list (list Z)) : Prop := {
  ba_argc : le32 m at_ = Z.of_nat (length argv);
  ba_argv : le32 m (at_ + 4) = base + 12;
  ba_envp : le32 m (at_ + 8) = base + 12 + 4 * count argv;
  ba_args : built m base at_ (at_ + 12) (at_ + 12 + 4 * count argv + 4 * count envp) argv;
  ba_envs : built m base at_ (at_ + 12 + 4 * count argv) (at_ + 12 + 4 * count argv + 4 * count envp + strs argv) envp
}.
Section stack.
Context {F : Type} `{ENV : ExecEnv F} (inv : F → Prop) (content : Z → Z) (size : Z) (accepts : exec_image → Prop).
Context (LAWS : exec_laws inv content size accepts).

Lemma set_up_ok fuel pa pe argv envp (s : xstate F) : inv (x_fs s) → args_at (x_mem s) pa argv → args_at (x_mem s) pe envp →
  (length argv < fuel)%nat → (length envp < fuel)%nat → Forall (λ str, (length str < fuel)%nat) (argv ++ envp) →
  block_size argv envp <= USER_STACK_SIZE →
  ∃ sp s', exec_set_up_stack fuel pa pe s = Ok ((sp, KERNEL_VIRT_BASE - stack_base argv envp), s') ∧ inv (x_fs s') ∧
    KERNEL_VIRT_BASE <= sp ∧ sp + block_size argv envp < 4294967296 ∧ same_user s s' ∧
    block_at (x_mem s') (stack_base argv envp) sp argv envp.
Proof using LAWS.
  intros Hi Ha He Fa Fe Ff Ht. apply Forall_app in Ff as [Ffa Ffe]. set (T := block_size argv envp) in *. set (base := stack_base argv envp).
  pose proof (block_pos argv envp) as Tp. fold T in Tp.
  assert (T = 12 + 4 * count argv + 4 * count envp + strs argv + strs envp) as ET by done.
  pose proof (count_pos argv) as Ca. pose proof (count_pos envp) as Ce. pose proof (strs_nonneg argv) as Sa. pose proof (strs_nonneg envp) as Se.
  assert (USER_STACK_SIZE = 2097152 ∧ KERNEL_VIRT_BASE = 3221225472) as [KU KK] by done.
  assert (base <= KERNEL_VIRT_BASE - T ∧ KERNEL_VIRT_BASE - T < base + 16) as [B1 B2] by (unfold base, stack_base; fold T; lia).
  destruct (el_alloc _ _ _ _ LAWS T s Hi ltac:(lia)) as (r & s1 & R1 & I1 & Hr & Hrt & U1).
  set (sp := r - 12). set (m3 := put_le32 (sp + 8) (base + 12 + 4 * count argv) (put_le32 (sp + 4) (base + 12) (put_le32 sp (Z.of_nat (length argv)) (x_mem s1)))).
  assert (∀ a, a < sp ∨ sp + 12 <= a → m3 a = x_mem s1 a) as M3 by (intros; unfold m3; by rewrite !put_le32_ne by lia).
  set (run := sp + 12 + 4 * count argv + 4 * count envp). set (s3 := s1 <| x_mem := m3 |>).
  assert (∀ tab l, args_at (x_mem s) tab l → args_at m3 (tab + 4 * Z.of_nat 0) l) as A3.
  { intros tab l A. rewrite Z.add_0_r. eapply args_same; [|exact A]. intros a Ha'. rewrite M3 by lia. by apply U1. }
  destruct (fill_ok fuel pa base sp argv 0 (sp + 12) run s3) as (m4 & R4 & B4 & F4); try done; try lia; [by apply A3|].
  destruct (fill_ok fuel pe base sp envp 0 (sp + 12 + 4 * count argv) (run + strs argv) (s3 <| x_mem := m4 |>)) as (m5 & R5 & B5 & F5); try done; try lia.
  { eapply args_same; [|by apply A3]. intros a Ha'. apply F4; lia. }
  change (x_mem (s3 <| x_mem := m4 |>)) with m4 in F5. change (x_mem s3) with m3 in F4.
  assert (∀ a, a < sp + 12 → m5 a = m3 a) as M5 by (intros; rewrite F5, F4 by lia; done).
  exists sp, (s3 <| x_mem := m5 |>). split; [|split; [exact I1|split; [lia|split; [lia|split]]]].
  - unfold exec_set_up_stack. rewrite (bind_ok _ _ _ _ _ (count_ok argv fuel pa s Ha Fa)). cbv beta zeta.
    rewrite (bind_ok _ _ _ _ _ (count_ok envp fuel pe s He Fe)). cbv beta zeta.
    rewrite (u32_id (count argv * 4)) by (unfold is_u32; lia). rewrite (u32_id (count argv * 4 + count envp * 4)) by (unfold is_u32; lia).
    rewrite (bind_ok _ _ _ _ _ (strings_ok argv fuel fuel pa (count argv * 4 + count envp * 4) s Ha Fa Ffa ltac:(lia) ltac:(lia))). cbv beta.
    rewrite (bind_ok _ _ _ _ _ (strings_ok envp fuel fuel pe (count argv * 4 + count envp * 4 + strs argv) s He Fe Ffe ltac:(lia) ltac:(lia))). cbv beta zeta.
    rewrite (u32_id (count argv * 4 + count envp * 4 + strs argv + strs envp + 12)) by (unfold is_u32; lia). replace (count argv * 4 + count envp * 4 + strs argv + strs envp + 12) with T by lia.
    rewrite (u32_id (KERNEL_VIRT_BASE - T)) by (unfold is_u32; lia). rewrite land_16 by (unfold is_u32; lia).
    change (KERNEL_VIRT_BASE - T - (KERNEL_VIRT_BASE - T) mod 16) with base.
    rewrite (bind_ok _ _ _ _ _ R1). cbv beta zeta. rewrite (u32_id (r - 12)) by (unfold is_u32; lia). fold sp.
    replace (count argv - 1) with (Z.of_nat (length argv)) by (unfold count; lia).
    rewrite (u32_id (Z.of_nat (length argv))) by (unfold is_u32, count in *; lia). rewrite (u32_id (base + 12)) by (unfold is_u32; lia).
    rewrite (Z.mul_comm (count argv) 4), (Z.mul_comm (count envp) 4).
    rewrite (u32_id (base + 12 + _)) by (unfold is_u32; lia). rewrite (u32_id (sp + 12 + _ + _)) by (unfold is_u32; lia). fold run.
    do 3 (match goal with |- (store ?f ;; ?k) ?x = _ => change ((store f ;; k) x) with (k (x <| x_mem := f (x_mem x) |>)) end).
    match goal with |- _ ?x = _ => change x with s3 end.
    replace (Z.to_nat (count argv)) with (S (length argv)) by (unfold count; lia). replace (Z.to_nat (count envp)) with (S (length envp)) by (unfold count; lia).
    rewrite (bind_ok _ _ _ _ _ R4). cbv beta iota. rewrite (bind_ok _ _ _ _ _ R5). rewrite u32_id by (unfold is_u32; lia). done.
  - split; [|apply U1]. intros a Ha'. change (x_mem (s3 <| x_mem := m5 |>)) with m5. rewrite F5, F4, M3 by lia. by apply U1.
  - change (x_mem (s3 <| x_mem := m5 |>)) with m5. split.
    + rewrite (le32_same m3) by (intros; apply M5; lia). unfold m3. rewrite !le32_put_ne by lia. apply le32_put_eq. unfold is_u32, count in *; lia.
    + rewrite (le32_same m3) by (intros; apply M5; lia). unfold m3. rewrite le32_put_ne by lia. apply le32_put_eq. unfold is_u32; lia.
    + rewrite (le32_same m3) by (intros; apply M5; lia). apply le32_put_eq. unfold is_u32; lia.
    + eapply built_same; [|exact B4]. intros a Ha'. apply F5; lia.
    + exact B5.
Qed.

(** The block moved to where its pointers are for. *)
Lemma built_args m m' base at_ l : ∀ roving run, built m base at_ roving run l → at_ <= roving → roving + 4 * count l <= run → 0 < base →
  base + (run - at_) + strs l <= KERNEL_VIRT_BASE → (∀ i, 0 <= i < KERNEL_VIRT_BASE - base → m' (base + i) = m (at_ + i)) →
  args_at m' (base + (roving - at_)) l.
Proof.
  induction l as [|str l IH]; intros roving run B Ha Hr Hb Hbb M; unfold count in *; simpl length in *; simpl strs in *; simpl.
  - split; [lia|]. split; [lia|]. simpl in B. rewrite <-B. apply le32_at. intros i Hi.
    rewrite <-Z.add_assoc, M by lia. f_equal. lia.
  - destruct B as (B1 & B2 & B3). pose proof (strs_nonneg l).
    assert (le32 m' (base + (roving - at_)) = base + run - at_) as ->.
    { rewrite <-B1. apply le32_at. intros i Hi. rewrite <-Z.add_assoc, M by lia. f_equal. lia. }
    split; [lia|]. split; [lia|]. split; [lia|]. split; [lia|]. split.
    + destruct B2 as [C D]. split.
      * intros j c Hj. pose proof (lookup_lt_Some _ _ _ Hj). replace (base + run - at_ + Z.of_nat j) with (base + (run - at_ + Z.of_nat j)) by lia.
        rewrite M by lia. replace (at_ + (run - at_ + Z.of_nat j)) with (run + Z.of_nat j) by lia. by apply C.
      * replace (base + run - at_ + Z.of_nat (length str)) with (base + (run - at_ + Z.of_nat (length str))) by lia.
        rewrite M by lia. rewrite <-D. f_equal. lia.
    + replace (base + (roving - at_) + 4) with (base + (roving + 4 - at_)) by lia. apply (IH _ _ B3); try done; lia.
Qed.
End stack.

(** ** The headers *)
Definition same_bytes (n : Z) (m : Z → Z) (a : Z) (m' : Z → Z) (b : Z) : Prop := ∀ i, 0 <= i < n → m' (b + i) = m (a + i).
Lemma same_le16 n m a m' b k : same_bytes n m a m' b → 0 <= k → k + 2 <= n → le16 m' (b + k) = le16 m (a + k).
Proof. intros H H1 H2. apply le16_at. intros i Hi. rewrite <-!Z.add_assoc. apply H. lia. Qed.
Lemma same_le32 n m a m' b k : same_bytes n m a m' b → 0 <= k → k + 4 <= n → le32 m' (b + k) = le32 m (a + k).
Proof. intros H H1 H2. apply le32_at. intros i Hi. rewrite <-!Z.add_assoc. apply H. lia. Qed.
Lemma verify_ext m a m' b : same_bytes EHDR_SIZE m a m' b → elf_verify_hdr m' b = elf_verify_hdr m a.
Proof. intros H. unfold elf_verify_hdr, e_ident. by rewrite !(H _) by (unfold EHDR_SIZE; lia). Qed.
Lemma check_ext m a m' b param : same_bytes EHDR_SIZE m a m' b → elf_check_hdr m' b param = elf_check_hdr m a param.
Proof.
  intros H. unfold elf_check_hdr, e_ident, e_type, e_machine. rewrite !(H _) by (unfold EHDR_SIZE, EI_CLASS, EI_DATA, EI_OSABI; lia).
  by rewrite !(same_le16 _ _ _ _ _ _ H) by (unfold EHDR_SIZE; lia).
Qed.
(** The fields that the loader looks at are in the first 28 bytes of a program header. *)
Lemma add_phdr_ext m a m' b im : same_bytes 28 m a m' b → add_phdr m' b im = add_phdr m a im.
Proof.
  intros H. unfold add_phdr, flag, p_flags, p_type, p_vaddr, p_memsz, p_filesz, p_offset. destruct im as [image file].
  rewrite !(same_le32 _ _ _ _ _ _ H) by lia. pose proof (same_le32 _ _ _ _ _ 0 H) as H0. rewrite !Z.add_0_r in H0. by rewrite H0 by lia.
Qed.

(** What the loader makes of the file. *)
Definition phdr_off (content : Z → Z) (i : Z) : Z := e_phoff content 0 + i * e_phentsize content 0.
Definition loaded (content : Z → Z) (file : exec_offs) : exec_image * exec_offs :=
  foldl (λ im i, add_phdr content (phdr_off content (Z.of_nat i)) im)
    (MkImage (h_entry content 0) 0 0 0 0 0 0 0 0, file) (seq 0 (Z.to_nat (e_phnum content 0))).
Record elf_ok (content : Z → Z) (size : Z) : Prop := {
  eo_size : EHDR_SIZE <= size;
  eo_verify : elf_verify_hdr content 0 = 0;
  eo_check : elf_check_hdr content 0 (MkParams ELFDATA2LSB ELFCLASS32 ELFABI_SYSTEMV EM_X86) = ET_EXEC;
  eo_entsize : 28 <= e_phentsize content 0 <= PHDR_SIZE;
  eo_off : 0 <= e_phoff content 0;
  eo_num : 0 <= e_phnum content 0 ∧ phdr_off content (e_phnum content 0) <= size
}.
Section load.
Context {F : Type} `{ENV : ExecEnv F} (inv : F → Prop) (content : Z → Z) (size : Z) (accepts : exec_image → Prop).
Context (LAWS : exec_laws inv content size accepts) (ELF : elf_ok content size).

Lemma ehdr_ok (s : xstate F) : inv (x_fs s) → ∃ s', elf32_read_ehdr s = Ok (EHDR_SIZE, s') ∧ inv (x_fs s') ∧
  same_bytes EHDR_SIZE content 0 (x_mem s') ehdr_at ∧ same_user s s'.
Proof using LAWS ELF.
  intros Hi. destruct (el_locals _ _ _ _ LAWS) as (L1 & L2 & L3 & L4 & L5). pose proof (eo_size _ _ ELF). unfold EHDR_SIZE, KERNEL_VIRT_BASE in *.
  destruct (el_read _ _ _ _ LAWS ehdr_at 52 0 s Hi) as (s' & R & I & M & N & _); try lia.
  exists s'. split; [exact R|]. split; [done|]. split; [|split; [|done]].
  - intros i Hi'. rewrite M, (proj2 (andb_true_iff _ _)) by (rewrite Z.leb_le, Z.ltb_lt; lia). f_equal. lia.
  - intros a Ha. rewrite M, (proj2 (andb_false_iff _ _)) by (rewrite Z.leb_gt, Z.ltb_ge; unfold KERNEL_VIRT_BASE in *; lia). done.
Qed.
Lemma load_loop_ok l : ∀ im (s : xstate F), inv (x_fs s) → same_bytes EHDR_SIZE content 0 (x_mem s) ehdr_at →
  Forall (λ i, Z.of_nat i < e_phnum content 0) l →
  ∃ s', load_loop l im s = Ok (foldl (λ im i, add_phdr content (phdr_off content (Z.of_nat i)) im) im l, s') ∧ inv (x_fs s') ∧ same_user s s'.
Proof using LAWS ELF.
  destruct (el_locals _ _ _ _ LAWS) as (L1 & L2 & L3 & L4 & L5). destruct ELF as [E1 _ _ E4 E5 E6]. pose proof (el_size _ _ _ _ LAWS) as Hs.
  induction l as [|i l IH]; intros im s Hi Hb Hl; simpl; [by exists s|]. apply Forall_cons in Hl as [Hl1 Hl].
  change ((mem ≫= ?f) s) with (f (x_mem s) s). cbv beta. unfold e_phentsize at 1, e_phoff at 1.
  rewrite (same_le16 _ _ _ _ _ 42 Hb), (same_le32 _ _ _ _ _ 28 Hb) by (unfold EHDR_SIZE; lia).
  change (le16 content (0 + 42)) with (e_phentsize content 0). change (le32 content (0 + 28)) with (e_phoff content 0).
  assert (phdr_off content (Z.of_nat i) + e_phentsize content 0 <= size) as Hin.
  { unfold phdr_off in *. nia. }
  assert (0 <= phdr_off content (Z.of_nat i)) as Hin0 by (unfold phdr_off; nia).
  unfold PHDR_SIZE, EHDR_SIZE, KERNEL_VIRT_BASE in *.
  destruct (el_read _ _ _ _ LAWS phdr_at (e_phentsize content 0) (phdr_off content (Z.of_nat i)) s Hi) as (s1 & R1 & I1 & M1 & N1 & _); try lia.
  assert (elf32_read_phdr (e_phentsize content 0) (e_phoff content 0) (Z.of_nat i) s = Ok (e_phentsize content 0, s1)) as R.
  { unfold elf32_read_phdr. rewrite (proj2 (Z.ltb_ge _ _)) by (unfold PHDR_SIZE; lia). unfold elf_read. rewrite <-R1. f_equal.
    unfold phdr_off in *. rewrite s32_id by (unfold is_s32; lia). lia. }
  rewrite (bind_ok _ _ _ _ _ R). change ((mem ≫= ?f) s1) with (f (x_mem s1) s1). cbv beta.
  assert (same_user s s1) as U1.
  { split; [|done]. intros a Ha. rewrite M1, (proj2 (andb_false_iff _ _)) by (rewrite Z.leb_gt, Z.ltb_ge; unfold KERNEL_VIRT_BASE in *; lia). done. }
  rewrite (add_phdr_ext content (phdr_off content (Z.of_nat i)) (x_mem s1) phdr_at).
  2:{ intros k Hk. rewrite M1, (proj2 (andb_true_iff _ _)) by (rewrite Z.leb_le, Z.ltb_lt; lia). f_equal. lia. }
  destruct (IH (add_phdr content (phdr_off content (Z.of_nat i)) im) s1 I1) as (s2 & R2 & I2 & U2); [|done|].
  { intros k Hk. rewrite M1, (proj2 (andb_false_iff _ _)) by (rewrite Z.leb_gt, Z.ltb_ge; lia). by apply Hb. }
  exists s2. split; [exact R2|]. split; [done|]. destruct U1 as [U1 U1'], U2 as [U2 U2']. split; [|congruence].
  intros a Ha. by rewrite U2, U1.
Qed.
Lemma load_elf_ok file (s : xstate F) : inv (x_fs s) → same_bytes EHDR_SIZE content 0 (x_mem s) ehdr_at → accepts (fst (loaded content file)) →
  ∃ s', elf32_load_elf file s = Ok ((0, loaded content file), s') ∧ inv (x_fs s') ∧ ∀ a, 0 <= a < KERNEL_VIRT_BASE → x_mem s' a = x_mem s a.
Proof using LAWS ELF.
  intros Hi Hb Hacc. unfold elf32_load_elf. change ((mem ≫= ?f) s) with (f (x_mem s) s). cbv beta. unfold e_phnum at 1, h_entry at 1.
  rewrite (same_le16 _ _ _ _ _ 44 Hb), (same_le32 _ _ _ _ _ 24 Hb) by (unfold EHDR_SIZE; lia).
  change (le16 content (0 + 44)) with (e_phnum content 0). change (le32 content (0 + 24)) with (h_entry content 0).
  destruct (load_loop_ok (seq 0 (Z.to_nat (e_phnum content 0))) (MkImage (h_entry content 0) 0 0 0 0 0 0 0 0, file) s Hi Hb) as (s1 & R1 & I1 & U1).
  { apply Forall_forall. intros i [_ Hi']%elem_of_seq. pose proof (eo_num _ _ ELF). lia. }
  rewrite (bind_ok _ _ _ _ _ R1). fold (loaded content file).
  destruct (el_valloc _ _ _ _ LAWS (fst (loaded content file)) s1 I1 Hacc) as (s2 & R2 & I2 & M2).
  rewrite (bind_ok _ _ _ _ _ R2). exists s2. split; [done|]. split; [done|]. intros a Ha. rewrite M2 by done. by apply U1.
Qed.
End load.

(** ** The segments *)

(** Where a segment can be: in the file, and below the arguments. *)
Definition seg_ok (size base v n off : Z) : Prop := n = 0 ∨ 0 < n ∧ 0 <= v ∧ v + n <= base ∧ 0 <= off ∧ off + n <= size.
Definition apart (v n v' n' : Z) : Prop := n = 0 ∨ n' = 0 ∨ v + n <= v' ∨ v' + n' <= v.
Definition file_part (image : exec_image) : Z := e_data_size image - e_bss_size image.
Record image_ok (size base : Z) (image : exec_image) (file : exec_offs) : Prop := {
  im_text : seg_ok size base (e_text_vaddr image) (e_text_size image) (text_off file);
  im_data : seg_ok size base (e_data_vaddr image) (file_part image) (data_off file);
  im_rodata : seg_ok size base (e_rodata_vaddr image) (e_rodata_size image) (rodata_off file);
  im_part : e_data_size image = 0 ∧ e_bss_size image = 0 ∨ 0 < file_part image;
  im_bss : 0 <= e_bss_size image ∧ (e_bss_size image ≠ 0 → e_bss_vaddr image = e_data_vaddr image + file_part image ∧
    e_data_vaddr image + e_data_size image <= base);
  im_apart : apart (e_text_vaddr image) (e_text_size image) (e_data_vaddr image) (e_data_size image) ∧
    apart (e_text_vaddr image) (e_text_size image) (e_rodata_vaddr image) (e_rodata_size image) ∧
    apart (e_data_vaddr image) (e_data_size image) (e_rodata_vaddr image) (e_rodata_size image)
}.
Definition in_range (v n a : Z) : bool := (v <=? a) && (a <? v + n).
Lemma in_range_spec v n a : in_range v n a = true ↔ v <= a < v + n.
Proof. unfold in_range. by rewrite andb_true_iff, Z.leb_le, Z.ltb_lt. Qed.
Lemma in_range_out v n a : ¬ (v <= a < v + n) → in_range v n a = false.
Proof. rewrite <-in_range_spec. apply not_true_is_false. Qed.

Section read.
Context {F : Type} `{ENV : ExecEnv F} (inv : F → Prop) (content : Z → Z) (size : Z) (accepts : exec_image → Prop).
Context (LAWS : exec_laws inv content size accepts).
Definition same_regs (s s' : xstate F) : Prop := x_next s' = x_next s ∧ x_esp s' = x_esp s ∧ x_eip s' = x_eip s.
Definition put_segment (v n off : Z) (m : Z → Z) : Z → Z := λ a, if in_range v n a then content (off + (a - v)) else m a.

Lemma segment_ok base v k n off (s : xstate F) : seg_ok size base v n off → base <= KERNEL_VIRT_BASE → (k = 0 ∧ n = 0 ∨ k ≠ 0 ∧ 0 < n) → inv (x_fs s) →
  ∃ s', when (negb (k =? 0)) (elf_read v (u32 n) (s32 off) ;; mret tt) s = Ok (tt, s') ∧ inv (x_fs s') ∧ same_regs s s' ∧
    ∀ a, x_mem s' a = put_segment v n off (x_mem s) a.
Proof using LAWS.
  intros Hs Hb Hk Hi. pose proof (el_size _ _ _ _ LAWS). destruct Hk as [[-> ->]|[Hk Hn]].
  - exists s. split; [done|]. split; [done|]. split; [done|]. intros a. unfold put_segment. by rewrite in_range_out by lia.
  - destruct Hs as [|(_ & H1 & H2 & H3 & H4)]; [lia|]. unfold KERNEL_VIRT_BASE in *.
    rewrite u32_id, s32_id by (unfold is_u32, is_s32; lia). rewrite (proj2 (Z.eqb_neq _ _)) by done.
    destruct (el_read _ _ _ _ LAWS v n off s Hi) as (s' & R & I & M & N); try lia.
    exists s'. split; [|split; [done|split; [done|exact M]]]. simpl. unfold elf_read. by rewrite (bind_ok _ _ _ _ _ R).
Qed.
Lemma bss_loop v n : ∀ i (s : xstate F), ∃ s', for_each (seq i n) (λ _, store (<[v := 0]>)) s = Ok (tt, s') ∧ x_fs s' = x_fs s ∧ same_regs s s' ∧
  ∀ a, x_mem s' a = if (0 <? Z.of_nat n) && (a =? v) then 0 else x_mem s a.
Proof.
  induction n as [|n IH]; intros i s; [by exists s|]. cbn [seq for_each].
  destruct (IH (S i) (s <| x_mem ::= <[v := 0]> |>)) as (s' & R & F1 & G & M). exists s'. split; [exact R|]. split; [done|]. split; [done|].
  intros a. rewrite M. rewrite (proj2 (Z.ltb_lt 0 (Z.of_nat (S n)))) by lia. rec_simpl. destruct (Z.eqb_spec a v) as [->|Ha].
  - rewrite fn_insert_eq. by destruct (_ <? _).
  - rewrite !andb_false_r. by rewrite fn_insert_ne.
Qed.
Lemma read_image_ok base image file (s : xstate F) : image_ok size base image file → base <= KERNEL_VIRT_BASE → inv (x_fs s) →
  ∃ s', elf32_read_image image file s = Ok (0, s') ∧ inv (x_fs s') ∧ same_regs s s' ∧
    ∀ a, x_mem s' a = if (0 <? e_bss_size image) && (a =? e_bss_vaddr image) then 0 else
      put_segment (e_rodata_vaddr image) (e_rodata_size image) (rodata_off file)
        (put_segment (e_data_vaddr image) (file_part image) (data_off file)
          (put_segment (e_text_vaddr image) (e_text_size image) (text_off file) (x_mem s))) a.
Proof using LAWS.
  intros [T D R P [B1 B2] A] Hb Hi. unfold elf32_read_image. fold (file_part image).
  destruct (segment_ok base (e_text_vaddr image) (e_text_size image) (e_text_size image) (text_off file) s T Hb) as (s1 & R1 & I1 & G1 & M1); [|done|].
  { destruct T; lia. }
  destruct (segment_ok base (e_data_vaddr image) (e_data_size image) (file_part image) (data_off file) s1 D Hb) as (s2 & R2 & I2 & G2 & M2); [|done|].
  { unfold file_part in *. lia. }
  destruct (segment_ok base (e_rodata_vaddr image) (e_rodata_size image) (e_rodata_size image) (rodata_off file) s2 R Hb) as (s3 & R3 & I3 & G3 & M3); [|done|].
  { destruct R; lia. }
  destruct (bss_loop (e_bss_vaddr image) (Z.to_nat (e_bss_size image)) 0 s3) as (s4 & R4 & F4 & G4 & M4).
  exists s4. split; [|split; [by rewrite F4|split]].
  - assert (∀ n, n = u32 n → True) by done.
    assert (u32 (e_text_size image) = e_text_size image ∧ u32 (e_rodata_size image) = e_rodata_size image) as [ET ER].
    { unfold KERNEL_VIRT_BASE in *. split; apply u32_id; unfold is_u32; [destruct T|destruct R]; lia. }
    rewrite ET in R1. rewrite ER in R3.
    rewrite (bind_ok _ _ _ _ _ R1), (bind_ok _ _ _ _ _ R2), (bind_ok _ _ _ _ _ R3), (bind_ok _ _ _ _ _ R4). done.
  - unfold same_regs in *. destruct G1 as (? & ? & ?), G2 as (? & ? & ?), G3 as (? & ? & ?), G4 as (? & ? & ?). split_and!; congruence.
  - intros a. rewrite M4, Z2Nat.id by done. destruct (_ && _); [done|]. rewrite M3. unfold put_segment. destruct (in_range (e_rodata_vaddr image) _ _); [done|].
    rewrite M2. unfold put_segment. destruct (in_range (e_data_vaddr image) _ _); [done|]. by rewrite M1.
Qed.
End read.

Lemma add_phdr_entry m p im : e_entry (fst (add_phdr m p im)) = e_entry (fst im).
Proof. destruct im as [image file]. unfold add_phdr. by repeat case_match. Qed.
Lemma loaded_entry content file : e_entry (fst (loaded content file)) = h_entry content 0.
Proof.
  unfold loaded. set (f := λ im i, _). assert (∀ l im, e_entry (fst (foldl f im l)) = e_entry (fst im)) as E; [|apply E].
  induction l as [|i l IH]; intros im; simpl; [done|]. rewrite IH. apply add_phdr_entry.
Qed.
Definition loaded_at (content m : Z → Z) (v n off : Z) : Prop := ∀ i, 0 <= i < n → m (v + i) = content (off + i).
(** What is in memory at the end: [m] is memory before the segments. *)
Lemma segments_over size base content image file m m' : image_ok size base image file →
  (∀ a, m' a = if (0 <? e_bss_size image) && (a =? e_bss_vaddr image) then 0 else
      put_segment content (e_rodata_vaddr image) (e_rodata_size image) (rodata_off file)
        (put_segment content (e_data_vaddr image) (file_part image) (data_off file)
          (put_segment content (e_text_vaddr image) (e_text_size image) (text_off file) m)) a) →
  (∀ a, base <= a → m' a = m a) ∧
  loaded_at content m' (e_text_vaddr image) (e_text_size image) (text_off file) ∧
  loaded_at content m' (e_data_vaddr image) (file_part image) (data_off file) ∧
  loaded_at content m' (e_rodata_vaddr image) (e_rodata_size image) (rodata_off file) ∧
  ∀ i, 0 <= i < e_bss_size image → e_bss_vaddr image + i < base ∧ m' (e_bss_vaddr image + i) = if i =? 0 then 0 else m (e_bss_vaddr image + i).
Proof.
  intros [IT ID IR IP [IB IB'] (AT & AR & AD)] M. unfold file_part in *. set (bsz := e_bss_size image) in *. set (bv := e_bss_vaddr image) in *.
  assert (∀ a, (0 < bsz → a ≠ bv) → (0 <? bsz) && (a =? bv) = false) as HB.
  { intros a Ha. apply andb_false_iff. destruct (Z.ltb_spec 0 bsz); [right; apply Z.eqb_neq; auto|by left]. }
  unfold put_segment, seg_ok, apart in *. split_and!.
  - intros a Ha. rewrite M, HB, !in_range_out by lia. done.
  - intros i Hi. rewrite M, HB by lia. rewrite (in_range_out (e_rodata_vaddr image)), (in_range_out (e_data_vaddr image)) by lia.
    rewrite (proj2 (in_range_spec _ _ _)) by lia. f_equal. lia.
  - intros i Hi. rewrite M, HB, (in_range_out (e_rodata_vaddr image)) by lia. rewrite (proj2 (in_range_spec _ _ _)) by lia. f_equal. lia.
  - intros i Hi. rewrite M, HB by lia. rewrite (proj2 (in_range_spec _ _ _)) by lia. f_equal. lia.
  - intros i Hi. destruct IB' as [IB1 IB2]; [lia|]. split; [lia|]. rewrite M. destruct (Z.eqb_spec i 0) as [->|Hne].
    + by rewrite Z.add_0_r, Z.eqb_refl, (proj2 (Z.ltb_lt 0 bsz)) by lia.
    + rewrite HB, !in_range_out by lia. done.
Qed.

(** ** Properties *)
Section properties.
Context {F : Type} `{ENV : ExecEnv F}.

(** C28: [exec] of a valid file loads its segments and starts the program at its entry with the stack pointer at
    [argc], the two tables and the strings, from which the program reads exactly the arguments it was
    given. Of the bss only the first byte is cleared. *)
Theorem exec_starts_program (inv : F → Prop) content size accepts fuel file pa pe argv envp s :
  let image := fst (loaded content file) in
  let offs := snd (loaded content file) in
  let base := stack_base argv envp in
  exec_laws inv content size accepts → elf_ok content size → accepts image → image_ok size base image offs →
  inv (x_fs s) → args_at (x_mem s) pa argv → args_at (x_mem s) pe envp →
  (length argv < fuel)%nat → (length envp < fuel)%nat → Forall (λ str, (length str < fuel)%nat) (argv ++ envp) →
  block_size argv envp <= USER_STACK_SIZE →
  ∃ s', arch_exec_elf fuel file pa pe s = Ok (0, s') ∧ x_eip s' = h_entry content 0 ∧ x_esp s' = base ∧
    le32 (x_mem s') base = Z.of_nat (length argv) ∧
    args_at (x_mem s') (le32 (x_mem s') (base + 4)) argv ∧ args_at (x_mem s') (le32 (x_mem s') (base + 8)) envp ∧
    loaded_at content (x_mem s') (e_text_vaddr image) (e_text_size image) (text_off offs) ∧
    loaded_at content (x_mem s') (e_data_vaddr image) (file_part image) (data_off offs) ∧
    loaded_at content (x_mem s') (e_rodata_vaddr image) (e_rodata_size image) (rodata_off offs) ∧
    ∀ i, 0 <= i < e_bss_size image → x_mem s' (e_bss_vaddr image + i) = if i =? 0 then 0 else x_next s' (e_bss_vaddr image + i).
Proof.
  intros image offs base LAWS ELF Hacc IM Hi Ha He Fa Fe Ff Hbl.
  destruct (ehdr_ok inv content size accepts LAWS ELF s Hi) as (s1 & R1 & I1 & B1 & U1).
  destruct (load_elf_ok inv content size accepts LAWS ELF file s1 I1 B1 Hacc) as (s2 & R2 & I2 & U2).
  assert (∀ tab l, args_at (x_mem s) tab l → args_at (x_mem s2) tab l) as A2.
  { intros tab l. apply args_same. intros a Ha'. rewrite U2 by done. by apply U1. }
  destruct (set_up_ok inv content size accepts LAWS fuel pa pe argv envp s2 I2 (A2 _ _ Ha) (A2 _ _ He) Fa Fe Ff Hbl) as (sp & s3 & R3 & I3 & Hsp & Hsp' & _ & BK).
  fold base in R3, BK. set (T := block_size argv envp) in *. pose proof (block_pos argv envp) as Tp. fold T in Tp.
  assert (base = KERNEL_VIRT_BASE - T - (KERNEL_VIRT_BASE - T) mod 16) as Eb by done.
  assert (USER_STACK_SIZE = 2097152 ∧ KERNEL_VIRT_BASE = 3221225472) as [KU KK] by done.
  set (m4 := λ a, if a <? KERNEL_VIRT_BASE then x_next s3 a else x_mem s3 a).
  set (m5 := memmove base sp (Z.to_nat (KERNEL_VIRT_BASE - base)) m4).
  set (s5 := s3 <| x_esp := base |> <| x_eip := e_entry image |> <| x_mem := m4 |> <| x_mem := m5 |>).
  assert (∀ a, m5 a = copied base sp (Z.to_nat (KERNEL_VIRT_BASE - base)) m4 a) as M5 by (intros; apply memmove_correct).
  destruct (read_image_ok inv content size accepts LAWS base image offs s5 IM ltac:(lia) I3) as (s6 & R6 & I6 & (G1 & G2 & G3) & M6).
  change (x_mem s5) with m5 in M6. change (x_next s5) with (x_next s3) in G1.
  destruct (segments_over size base content image offs m5 (x_mem s6) IM M6) as (HO & HT & HD & HR & HB).
  assert (∀ i, 0 <= i < KERNEL_VIRT_BASE - base → x_mem s6 (base + i) = x_mem s3 (sp + i)) as HS.
  { intros i Hi'. rewrite HO, M5 by lia. unfold copied, m4. rewrite (proj2 (andb_true_iff _ _)) by (rewrite Z.leb_le, Z.ltb_lt; lia).
    rewrite (proj2 (Z.ltb_ge _ _)) by lia. f_equal. lia. }
  assert (∀ a, a < base → m5 a = x_next s3 a) as HN.
  { intros a Ha'. rewrite M5. unfold copied, m4. rewrite (proj2 (andb_false_iff _ _)) by (rewrite Z.leb_gt; lia).
    by rewrite (proj2 (Z.ltb_lt _ _)) by lia. }
  assert (∀ k, 0 <= k → k + 4 <= T → le32 (x_mem s6) (base + k) = le32 (x_mem s3) (sp + k)) as HW.
  { intros k Hk Hk'. apply le32_at. intros i Hi'. rewrite <-!Z.add_assoc. apply HS. lia. }
  pose proof (count_pos argv) as Ca. pose proof (count_pos envp) as Ce. pose proof (strs_nonneg argv) as Sa. pose proof (strs_nonneg envp) as Se.
  assert (T = 12 + 4 * count argv + 4 * count envp + strs argv + strs envp) as ET by done.
  exists s6. split; [|split; [|split; [|split; [|split; [|split; [|split; [|split; [|split]]]]]]]].
  - unfold arch_exec_elf. rewrite (bind_ok _ _ _ _ _ R1). change (negb (EHDR_SIZE =? EHDR_SIZE)) with false. cbv iota.
    change ((mem ≫= ?f) s1) with (f (x_mem s1) s1). cbv beta zeta. rewrite (verify_ext content 0 _ _ B1), (check_ext content 0 _ _ _ B1).
    rewrite (eo_verify _ _ ELF), (eo_check _ _ ELF). change (0 <? 0) with false. change (ET_EXEC <? 0) with false. change (negb (ET_EXEC =? ET_EXEC)) with false. cbv iota.
    rewrite (bind_ok _ _ _ _ _ R2). cbv iota beta.
    rewrite (surjective_pairing (loaded content file)). cbv iota beta. rewrite (bind_ok _ _ _ _ _ R3). cbv iota beta zeta.
    replace (u32 (KERNEL_VIRT_BASE - (KERNEL_VIRT_BASE - base))) with base by (rewrite u32_id; [lia|unfold is_u32; lia]).
    change ((elf32_read_image image offs ;; (if 0 <? 0 then mret 0 else mret 0)) s5 = Ok (0, s6)). by rewrite (bind_ok _ _ _ _ _ R6).
  - rewrite G3. change (e_entry image = h_entry content 0). apply loaded_entry.
  - by rewrite G2.
  - pose proof (HW 0 ltac:(lia) ltac:(lia)) as E. rewrite !Z.add_0_r in E. rewrite E. apply BK.
  - rewrite HW, (ba_argv _ _ _ _ _ BK) by lia. replace (base + 12) with (base + (sp + 12 - sp)) by lia.
    eapply built_args; [apply BK|lia..|exact HS].
  - rewrite HW, (ba_envp _ _ _ _ _ BK) by lia. replace (base + 12 + 4 * count argv) with (base + (sp + 12 + 4 * count argv - sp)) by lia.
    eapply built_args; [apply BK|lia..|exact HS].
  - exact HT.
  - exact HD.
  - exact HR.
  - intros i Hi'. destruct (HB i Hi') as [HB1 HB2]. by rewrite HB2, HN, G1 by done.
Qed.
End properties.

(** A program with a text and a data segment of four bytes each, two of them bss, and one argument. *)
Module ExecDemo.
Definition elf_bytes : list Z :=
  [127; 69; 76; 70; 1; 1; 1; 0; 0; 0; 0; 0; 0; 0; 0; 0; 2; 0; 3; 0; 1; 0; 0; 0; 0; 0; 16; 0; 52; 0; 0; 0; 0; 0; 0; 0;
   0; 0; 0; 0; 52; 0; 32; 0; 2; 0; 0; 0; 0; 0; 0; 0] ++
  [1; 0; 0; 0; 116; 0; 0; 0; 0; 0; 16; 0; 0; 0; 0; 0; 4; 0; 0; 0; 4; 0; 0; 0; 5; 0; 0; 0; 0; 0; 0; 0] ++
  [1; 0; 0; 0; 120; 0; 0; 0; 0; 0; 32; 0; 0; 0; 0; 0; 2; 0; 0; 0; 4; 0; 0; 0; 6; 0; 0; 0; 0; 0; 0; 0] ++
  [144; 144; 235; 254; 7; 9].
Definition elf (o : Z) : Z := nth (Z.to_nat o) elf_bytes 0.
Definition reader (buf n off : Z) : M (xstate unit) Z := λ s,
  Ok (n, s <| x_mem := λ a, if (buf <=? a) && (a <? buf + n) then elf (off + (a - buf)) else x_mem s a |>).
#[export] Instance env : ExecEnv unit := {|
  fs_readi := reader; valloc_segments _ := mret 0; kernel_alloc _ := mret 3300000000; ehdr_at := 3400000000; phdr_at := 3400000100 |}.
Lemma laws : exec_laws (λ _, True) elf 122 (λ _, True).
Proof.
  split; try done.
  - intros buf n off s _ H1 H2 H3 H4 H5. by eexists.
  - intros image s _ _. by exists s.
  - intros n s _ Hn. exists 3300000000, s. unfold USER_STACK_SIZE, KERNEL_VIRT_BASE in *. split_and!; try done; lia.
  - unfold ehdr_at, phdr_at, EHDR_SIZE, PHDR_SIZE, KERNEL_VIRT_BASE; simpl. lia.
Qed.
Definition no_offs : exec_offs := MkOffs 0 0 0.
Lemma elf_valid : elf_ok elf 122.
Proof. by split; vm_compute. Qed.
Definition argv : list (list Z) := [[97]].
Definition user_mem (a : Z) : Z := if a =? 4097 then 32 else if a =? 8192 then 97 else 0.
Definition start : xstate unit := MkX tt user_mem (λ _, 204) 0 0.
Lemma argv_there : args_at (x_mem start) 4096 argv.
Proof.
  assert (le32 (x_mem start) 4096 = 8192) as E by done. cbn [args_at argv]. rewrite E. unfold KERNEL_VIRT_BASE. split_and!; try done. split; [|done]. intros [|j] c Hj; [by injection Hj as <-|done].
Qed.
Lemma image_fits : image_ok 122 (stack_base argv []) (fst (loaded elf no_offs)) (snd (loaded elf no_offs)).
Proof.
  set (im := loaded elf no_offs). vm_compute in im. subst im. assert (stack_base argv [] = 3221225440) as -> by done.
  unfold file_part. split; unfold seg_ok, apart, file_part; simpl; lia.
Qed.
End ExecDemo.
Import ExecDemo.

Lemma exec_starts_program_witness : ∃ s', arch_exec_elf 5 no_offs 4096 12288 start = Ok (0, s') ∧ x_eip s' = 1048576 ∧ x_esp s' = 3221225440 ∧
  le32 (x_mem s') 3221225440 = 1.
Proof.
  destruct (exec_starts_program (λ _, True) elf 122 (λ _, True) 5 no_offs 4096 12288 argv [] start laws elf_valid) as (s' & R & H1 & H2 & H3 & _).
  - done.
  - apply image_fits.
  - done.
  - apply argv_there.
  - by vm_compute.
  - simpl. lia.
  - simpl. lia.
  - repeat constructor; simpl; lia.
  - by vm_compute.
  - exists s'. split; [exact R|]. split; [exact H1|]. split; [exact H2|exact H3].
Defined.
