(* ===== verification/ExecExt2.v ===== *)
(** A program that is a regular file of ext2: the reads of [exec] (Exec.v) are those of Ext2File.v. *)
From S2P Require Import Prelude Str Proc Paging Bitmap Ext2 Ext2File Exec.

Section ext2_exec.
Context `{DEV : Device} `{DF : DeviceFiles}.
Variables (ip : nat) (e0 : ext2) (size : Z).
Variables (valloc : exec_image → M (xstate ext2) Z) (alloc : Z → M (xstate ext2) Z) (ehdr phdr : Z).

(** [fs_readi] with a position of its own. *)
Definition ext2_reader (buf n off : Z) : M (xstate ext2) Z := λ s,
  match ext2_readi ip buf n (MkIo (x_fs s) (x_mem s) off) with
  | Ok (r, io) => Ok (r, s <| x_fs := io_fs io |> <| x_mem := io_mem io |>)
  | Panic msg => Panic msg
  | Undef why => Undef why
  | NoFuel => NoFuel
  end.
#[export] Instance ext2_exec : ExecEnv ext2 :=
  {| fs_readi := ext2_reader; valloc_segments := valloc; kernel_alloc := alloc; ehdr_at := ehdr; phdr_at := phdr |}.

(** The file system of the start, but for what reading changes: the buffers and the access time. *)
Record unread (e : ext2) : Prop := {
  un_view b : view e b = view e0 b;
  un_sb : e_sb e = e_sb e0;
  un_bgd : e_bgd e = e_bgd e0;
  un_inode : ∃ t, inode_of ip e = (inode_of ip e0) <| i_atime := t |>
}.
Definition file_content (q : Z) : Z := u8 (file_byte e0 ip q).
Lemma unread_block e l : unread e → file_block e ip l = file_block e0 ip l.
Proof.
  intros [V S _ [t I]]. unfold file_block, blksize. rewrite S, I. destruct (block_path _ _) as [slot path]. change (i_block ((inode_of ip e0) <| i_atime := t |>)) with (i_block (inode_of ip e0)).
  generalize (i_block (inode_of ip e0) slot). induction path as [|i path IH]; intros b; simpl; [done|]. destruct (b =? 0); [done|]. by rewrite V, IH.
Qed.
Lemma unread_byte e q : unread e → file_byte e ip q = file_byte e0 ip q.
Proof. intros U. unfold file_byte. rewrite (unread_block _ _ U). unfold blksize. rewrite (un_sb _ U). by rewrite (un_view _ U). Qed.
Lemma unread_mapped e q : unread e → mapped e0 ip q → mapped e ip q.
Proof.
  intros U H. unfold mapped, single_indirect, below_triple in *. rewrite (unread_block _ _ U). unfold blksize in *. by rewrite (un_sb _ U).
Qed.
Lemma ext2_reader_ok buf n off s : (∀ b, read_fails b = false) → unread (x_fs s) → is_type EXT2_S_IFREG (i_mode (inode_of ip e0)) = true → 1024 <= blksize e0 <= 65536 →
  (∀ q, 0 <= q < size → mapped e0 ip q) → size < 2147483648 → 0 <= off → 0 < n → off + n <= size →
  ∃ s', ext2_reader buf n off s = Ok (n, s') ∧ unread (x_fs s') ∧
    (∀ a, x_mem s' a = if (buf <=? a) && (a <? buf + n) then file_content (off + (a - buf)) else x_mem s a) ∧
    x_next s' = x_next s ∧ x_esp s' = x_esp s ∧ x_eip s' = x_eip s.
Proof.
  intros Hgood U Hreg Hbs Hmap Hsz Hoff Hn Hin. pose proof U as [V S B [t I]]. set (st := MkIo (x_fs s) (x_mem s) off).
  destruct (file_read_ok Hgood ip buf n st) as (st' & R & _ & W & V' & S' & B' & I'); try done; try (simpl; lia).
  { unfold blksize. simpl. rewrite S. exact Hbs. }
  { intros q Hq. apply unread_mapped; [done|]. apply Hmap. simpl in Hq. lia. }
  exists (s <| x_fs := io_fs st' |> <| x_mem := io_mem st' |>). split; [|split; [|split; [|done]]].
  - unfold ext2_reader. fold st. assert (ext2_readi ip buf n st = Ok (n, st')) as ->; [|done].
    unfold ext2_readi. change ((get ≫= ?f) st) with (f st st). cbv beta zeta. change (io_fs st) with (x_fs s). rewrite I.
    change (i_mode ((inode_of ip e0) <| i_atime := t |>)) with (i_mode (inode_of ip e0)). by rewrite Hreg, orb_true_r.
  - split; [intros b; rewrite <-V; apply V'|by rewrite <-S|by rewrite <-B|]. eexists. change (x_fs (_ <| x_mem := _ |>)) with (io_fs st'). rewrite I'. change (io_fs st) with (x_fs s). by rewrite I.
  - intros a. change (x_mem (_ <| x_mem := _ |>)) with (io_mem st'). rewrite W. destruct (_ && _); [|done]. unfold file_content. by rewrite unread_byte.
Qed.
(** With a way to map segments and a heap, this is all that [exec] asks for. *)
Lemma ext2_exec_laws accepts : (∀ b, read_fails b = false) → is_type EXT2_S_IFREG (i_mode (inode_of ip e0)) = true → 1024 <= blksize e0 <= 65536 →
  (∀ q, 0 <= q < size → mapped e0 ip q) → size < 2147483648 →
  (∀ image s, unread (x_fs s) → accepts image → ∃ s', valloc image s = Ok (0, s') ∧ unread (x_fs s') ∧ ∀ a, 0 <= a < KERNEL_VIRT_BASE → x_mem s' a = x_mem s a) →
  (∀ n s, unread (x_fs s) → 0 <= n <= USER_STACK_SIZE → ∃ r s', alloc n s = Ok (r, s') ∧ unread (x_fs s') ∧
    KERNEL_VIRT_BASE + 12 <= r ∧ r + n < 4294967296 ∧ same_user s s') →
  KERNEL_VIRT_BASE <= ehdr → ehdr + EHDR_SIZE <= 4294967296 → KERNEL_VIRT_BASE <= phdr → phdr + PHDR_SIZE <= 4294967296 →
  (ehdr + EHDR_SIZE <= phdr ∨ phdr + PHDR_SIZE <= ehdr) → exec_laws unread file_content size accepts.
Proof.
  intros Hgood Hreg Hbs Hmap Hsz Hv Ha L1 L2 L3 L4 L5. split; [|exact Hv|exact Ha|exact Hsz|done].
  intros buf n off s U H1 H2 H3 _ _. by apply ext2_reader_ok.
Qed.
End ext2_exec.
