(* ===== verification/Tty.v ===== *)
(** Terminals (sys/drivers/tty.c): the queues of a terminal, output processing, input from the
    keyboard, and the reads of a process. A read that sleeps goes on when the keyboard has put
    characters into the queue, a signal has arrived or the time is over; what happens during
    each sleep is an argument, the list [ts_wakes]. A read that needs another one is still
    asleep. *)
From S2P Require Import Prelude Proc Ext2File Console.

Definition NR_TTY : Z := 6.
Definition SERIAL_TTY_START : Z := NR_VIRTUAL_CONSOLES.
Definition DEBUG_TTY : Z := SERIAL_TTY_START.
Definition MAX_CANON : Z := 255.
Definition VEOF : Z := 0.
Definition VEOL : Z := 1.
Definition VERASE : Z := 2.
Definition VINTR : Z := 3.
Definition VKILL : Z := 4.
Definition VMIN : Z := 5.
Definition VQUIT : Z := 6.
Definition VSTART : Z := 7.
Definition VSTOP : Z := 8.
Definition VSUSP : Z := 9.
Definition VTIME : Z := 10.
Definition ICRNL : Z := 2.
Definition IGNCR : Z := 8.
Definition INLCR : Z := 16.
Definition OPOST : Z := 1.
Definition ONLCR : Z := 2.
Definition OCRNL : Z := 4.
Definition ONLRET : Z := 16.
Definition ECHO : Z := 1.
Definition ECHOE : Z := 2.
Definition ECHOK : Z := 4.
Definition ECHONL : Z := 8.
Definition ICANON : Z := 16.

Record termios := MkTermios { c_iflag : Z; c_oflag : Z; c_lflag : Z; c_cc : Z → Z }.
#[export] Instance termios_eta : Eta termios := λ t, MkTermios (c_iflag t) (c_oflag t) (c_lflag t) (c_cc t).
(** [struct tty], without the driver and the mutex. *)
Record tty := MkTty { t_termios : termios; t_writeq : tty_queue; t_readq : tty_queue; t_stopped : bool; t_open : bool }.
#[export] Instance tty_eta : Eta tty := λ t, MkTty (t_termios t) (t_writeq t) (t_readq t) (t_stopped t) (t_open t).

(** What happens while a process sleeps in a read. *)
Record wake := MkWake { w_chars : list Z; w_signal : bool; w_expired : bool }.

(** The terminals, the fields of the running process, its memory, the texts handed to the driver
    of each terminal, and the sleeps to come. *)
Record tstate := MkTs {
  ts_tab : Z → tty;
  ts_tty : Z; ts_sigpending : bool; ts_block : Z; ts_ticks : Z;
  ts_mem : Z → Z;
  ts_out : list (Z * list Z);
  ts_wakes : list wake
}.
#[export] Instance ts_eta : Eta tstate := λ s, MkTs (ts_tab s) (ts_tty s) (ts_sigpending s) (ts_block s) (ts_ticks s)
  (ts_mem s) (ts_out s) (ts_wakes s).
Definition T (A : Type) : Type := M tstate A.

Definition TERMIOS_OFLAG (t : tty) (flag : Z) : bool := negb (Z.land (c_oflag (t_termios t)) flag =? 0).
Definition TERMIOS_LFLAG (t : tty) (flag : Z) : bool := negb (Z.land (c_lflag (t_termios t)) flag =? 0).
Definition TERMIOS_IFLAG (t : tty) (flag : Z) : bool := negb (Z.land (c_iflag (t_termios t)) flag =? 0).
Definition TERMIOS_CC (t : tty) (i : Z) : Z := c_cc (t_termios t) i.

(** ** Queues *)
Definition tty_queue_empty (q : tty_queue) : bool := tq_head q =? tq_tail q.
Definition tty_queue_full (q : tty_queue) : bool := tq_tail q =? TTY_BUF_SIZE.
Definition tty_putch (c : Z) (q : tty_queue) : tty_queue :=
  if negb (tty_queue_full q)
  then q <| tq_buf ::= <[tq_tail q := s8 c]> |> <| tq_tail ::= λ t, t + 1 |> else q.
Definition tty_getch (q : tty_queue) : Z * tty_queue :=
  if negb (tty_queue_empty q) then (tq_buf q (tq_head q), q <| tq_head ::= λ h, h + 1 |>) else (0, q).
Definition tty_queue_reset (q : tty_queue) : tty_queue := MkQueue (λ _, 0) 0 0.
(** The characters in a queue. *)
Definition contents (q : tty_queue) : list Z :=
  map (λ i, tq_buf q (tq_head q + Z.of_nat i)) (seq 0 (Z.to_nat (tq_tail q - tq_head q))).

Definition upd_tty (n : Z) (f : tty → tty) : T unit := modify (λ s, s <| ts_tab ::= λ t, <[n := f (t n)]> t |>).
Definition get_tty (n : Z) : T tty := gets (λ s, ts_tab s n).
Definition putw (n c : Z) : T unit := upd_tty n (λ t, t <| t_writeq ::= tty_putch c |>).
(** The driver is handed the queue. *)
Definition tty_flush (n : Z) : T unit :=
  t ← get_tty n;
  if negb (t_stopped t) then modify (λ s, s <| ts_out ::= λ o, o ++ [(n, contents (t_writeq t))] |>) else mret tt.
Definition reset_writeq (n : Z) : T unit := upd_tty n (λ t, t <| t_writeq ::= tty_queue_reset |>).

(** ** Start *)
Definition tty_struct_init (t : tty) : tty :=
  let cc := foldr (λ iv, <[fst iv := snd iv]>) (c_cc (t_termios t))
    [(VEOF, 4); (VEOL, 0); (VERASE, 127); (VKILL, 21); (VINTR, 3); (VQUIT, 28); (VSTART, 17); (VSTOP, 19);
     (VSUSP, 25); (VTIME, 0); (VMIN, 1)]
  in t <| t_writeq ::= tty_queue_reset |> <| t_readq ::= tty_queue_reset |> <| t_stopped := false |>
       <| t_termios ::= λ m, m <| c_cc := cc |> <| c_oflag := Z.lor OPOST ONLCR |>
                               <| c_lflag := Z.lor (Z.lor ICANON ECHO) (Z.lor ECHOK ECHOE) |> |>.
Definition tty_init : T Z :=
  for_each (seq 0 (Z.to_nat NR_TTY)) (λ n, upd_tty (Z.of_nat n) tty_struct_init) ;; mret 0.

(** ** Output *)

(** The characters that [tty_write] queues for a character of the text. *)
Definition tty_put_text (n c : Z) : T unit :=
  t ← get_tty n;
  if TERMIOS_OFLAG t OPOST then
    if (c =? 10) && TERMIOS_OFLAG t ONLCR then putw n 13 ;; putw n c
    else if (c =? 13) && TERMIOS_OFLAG t OCRNL then putw n 10
    else putw n c
  else putw n c.
(** The result: how far [p] got. Every turn adds to the queue. *)
Fixpoint tty_write_loop (fuel : nat) (n p i : Z) : T Z :=
  match fuel with
  | O => nofuel
  | S fuel =>
      s ← get;
      if s8 (ts_mem s p) =? 0 then mret p
      else if i =? 0 then mret p
      else if tty_queue_full (t_writeq (ts_tab s n)) then mret p
      else tty_put_text n (s8 (ts_mem s p)) ;; tty_write_loop fuel n (p + 1) (i - 1)
  end.
Definition WRITE_FUEL : nat := 1 + Z.to_nat TTY_BUF_SIZE.
Definition tty_write (n buf count : Z) : T Z :=
  if NR_TTY <=? n then mret (-1) else
  if n <? 0 then undef "tty_tab index out of range" else
  t ← get_tty n;
  if negb (t_open t) && negb (n =? DEBUG_TTY) then panic "tty_write: TTY is not open!" else
  p ← tty_write_loop WRITE_FUEL n buf count;
  tty_flush n ;;
  reset_writeq n ;;
  mret (p - buf).

(** ** The keyboard *)
Definition tty_process_input (n c : Z) : T unit :=
  t ← get_tty n;
  if tty_queue_full (t_readq t) then mret tt else
  if (c =? 13) && negb (TERMIOS_IFLAG t ICRNL) && TERMIOS_IFLAG t IGNCR then mret tt else
  let c := if (c =? 13) && TERMIOS_IFLAG t ICRNL then 10 else c in
  let c := if (c =? 10) && TERMIOS_IFLAG t INLCR then 13 else c in
  upd_tty n (λ t, t <| t_readq ::= tty_putch c |>).

Definition tty_process_output (n c : Z) : T unit :=
  t ← get_tty n;
  when (tty_queue_full (t_writeq t)) (tty_flush n ;; reset_writeq n) ;;
  let printable := negb (c <? 32) in
  let opost := TERMIOS_OFLAG t OPOST in
  if opost && (c =? 13) && TERMIOS_OFLAG t ONLRET then mret tt else
  let onlcr := opost && (c =? 10) && TERMIOS_OFLAG t ONLCR in
  let ocrnl := opost && (c =? 13) && TERMIOS_OFLAG t OCRNL in
  when onlcr (putw n 13) ;;
  let printable := printable || onlcr || ocrnl in
  let c := if ocrnl then 10 else c in
  if TERMIOS_LFLAG t ICANON then
    if TERMIOS_LFLAG t ECHOE && (c =? TERMIOS_CC t VERASE) then
      tty_flush n ;; reset_writeq n ;; putw n 8 ;; putw n 32 ;; putw n 8
    else if TERMIOS_LFLAG t ECHOK && (c =? TERMIOS_CC t VKILL) then
      tty_flush n ;; reset_writeq n ;; putw n 10 ;;
      when (opost && TERMIOS_OFLAG t ONLCR) (putw n 13)
    else when printable (putw n c)
  else when printable (putw n c).

(** The text that [buf] points to, up to its NUL. *)
Definition do_update_tty (buf : list Z) : T unit :=
  s ← get;
  let n := ts_tty s in
  if (0 <=? n) && (n <? NR_TTY) then
    t ← get_tty n;
    if negb (t_open t) then mret tt else
    (if TERMIOS_LFLAG t ECHO then for_each buf (tty_process_output n)
     else for_each buf (λ c, when ((c =? 10) && TERMIOS_LFLAG t ECHONL) (tty_process_output n c))) ;;
    tty_flush n ;;
    reset_writeq n ;;
    for_each buf (tty_process_input n)
  else mret tt.

(** ** Reading *)

(** [sleep], on behalf of a read of terminal [n]: false when it has not returned. *)
Definition tty_wait (n : Z) : T bool :=
  s ← get;
  match ts_wakes s with
  | [] => mret false
  | w :: ws =>
      modify (λ s, s <| ts_wakes := ws |>) ;;
      for_each (w_chars w) (tty_process_input n) ;;
      when (w_signal w) (modify (λ s, s <| ts_sigpending := true |>)) ;;
      when (w_expired w) (modify (λ s, s <| ts_block := NO_TTY_BLOCK |>)) ;;
      mret true
  end.
(** [tty_sleep(tp, &tp->t_readq, NONCANON)] *)
Fixpoint sleep_while_empty (fuel : nat) (n : Z) (block : bool) : T bool :=
  match fuel with
  | O => nofuel
  | S fuel =>
      t ← get_tty n;
      if tty_queue_empty (t_readq t) then
        r ← tty_wait n;
        if negb r then mret false else
        s ← get;
        if block && (ts_block s =? NO_TTY_BLOCK) then mret true else sleep_while_empty fuel n block
      else mret true
  end.
Definition tty_sleep (n : Z) (canon : bool) : T bool :=
  s ← get;
  if canon then tty_wait n
  else sleep_while_empty (S (length (ts_wakes s))) n (negb (ts_block s =? NO_TTY_BLOCK)).
Definition tty_set_timer (vtime : Z) : T unit :=
  modify (λ s, s <| ts_block := u32 (ts_ticks s + vtime * (HZ / 10)) |>).
Definition tty_clear_timer : T unit := modify (λ s, s <| ts_block := NO_TTY_BLOCK |>).

(** [*(tp->t_readq.tq_tail - 1)] *)
Definition last_char (n : Z) : T Z :=
  t ← get_tty n;
  if 1 <=? tq_tail (t_readq t) then mret (tq_buf (t_readq t) (tq_tail (t_readq t) - 1)) else undef "read before tq_buf".
Definition put_user (p c : Z) : T unit := modify (λ s, s <| ts_mem ::= <[p := u8 c]> |>).
Fixpoint copy_user (p : Z) (l : list Z) : T unit :=
  match l with
  | [] => mret tt
  | c :: l => put_user p c ;; copy_user (p + 1) l
  end.

(** One turn of the loop of [tty_canon_read]: the new contents of [scratch], or that it is over. *)
Definition canon_step (t : tty) (c : Z) (scratch : list Z) : list Z :=
  if (c =? TERMIOS_CC t VERASE) && negb (bool_decide (scratch = [])) then take (pred (length scratch)) scratch
  else if c =? TERMIOS_CC t VKILL then []
  else if negb (c =? TERMIOS_CC t VEOF) then scratch ++ [c]
  else scratch.
Fixpoint canon_loop (fuel : nat) (n buf count : Z) (scratch : list Z) : T (option Z) :=
  match fuel with
  | O => nofuel
  | S fuel =>
      r ← tty_sleep n true;
      if negb r then mret None else
      s ← get;
      if ts_sigpending s then mret (Some (- EINTR)) else
      c ← last_char n;
      t ← get_tty n;
      if MAX_CANON <? Z.of_nat (length (canon_step t c scratch)) then undef "scratch overflow" else
      let scratch := canon_step t c scratch in
      if negb (c =? 10) && negb (c =? TERMIOS_CC t VEOF) && (Z.of_nat (length scratch) <? MAX_CANON)
      then canon_loop fuel n buf count scratch
      else
        let nr := if Z.of_nat (length scratch) <? count then Z.of_nat (length scratch) else count in
        if nr <? 0 then undef "copies behind scratch" else
        copy_user buf (take (Z.to_nat nr) scratch) ;;
        mret (Some nr)
  end.
Definition tty_canon_read (n buf count : Z) : T (option Z) :=
  t ← get_tty n;
  eof ← (if negb (tty_queue_empty (t_readq t)) then c ← last_char n; mret (c =? TERMIOS_CC t VEOF) else mret false);
  if eof : bool then mret (Some 0) else
  s ← get;
  canon_loop (S (length (ts_wakes s))) n buf count [].

Definition getch_user (n p : Z) : T unit :=
  t ← get_tty n;
  let '(c, q) := tty_getch (t_readq t) in
  upd_tty n (λ t, t <| t_readq := q |>) ;;
  put_user p c.
(** [while (!tty_queue_empty(&tp->t_readq)) ...] up to [req] characters (never, if [req] is
    negative): the position, and whether [req] was reached. *)
Fixpoint drain (fuel : nat) (n p left : Z) (timer : option Z) : T (Z * bool) :=
  match fuel with
  | O => nofuel
  | S fuel =>
      t ← get_tty n;
      if negb (tty_queue_empty (t_readq t)) then
        getch_user n p ;;
        if left =? 1 then mret (p + 1, true) else
        match timer with Some v => tty_set_timer v | None => mret tt end ;;
        drain fuel n (p + 1) (left - 1) timer
      else mret (p, false)
  end.
Definition DRAIN_FUEL : nat := 1 + Z.to_nat TTY_BUF_SIZE.

Fixpoint case1_loop (fuel : nat) (n buf p req vtime : Z) : T (option Z) :=
  match fuel with
  | O => nofuel
  | S fuel =>
      '(p, full) ← drain DRAIN_FUEL n p (req - (p - buf)) (Some vtime);
      if full : bool then mret (Some req) else
      if p - buf <? req then
        r ← tty_sleep n false;
        if negb r then mret None else
        s ← get;
        if ts_sigpending s then mret (Some (- EINTR)) else
        if ts_block s =? NO_TTY_BLOCK then mret (Some (p - buf)) else case1_loop fuel n buf p req vtime
      else case1_loop fuel n buf p req vtime
  end.
Definition tty_read_case1 (fuel : nat) (n buf c vmin vtime : Z) : T (option Z) :=
  let req := if c <? vmin then c else vmin in
  t ← get_tty n;
  r ← (if tty_queue_empty (t_readq t) then tty_sleep n false else mret true);
  if negb r then mret None else case1_loop fuel n buf buf req vtime.

Fixpoint case2_loop (fuel : nat) (n buf p req : Z) : T (option Z) :=
  match fuel with
  | O => nofuel
  | S fuel =>
      '(p, full) ← drain DRAIN_FUEL n p (req - (p - buf)) None;
      if full : bool then mret (Some req) else
      r ← tty_sleep n false;
      if negb r then mret None else
      s ← get;
      if ts_sigpending s then mret (Some (- EINTR)) else case2_loop fuel n buf p req
  end.
Definition tty_read_case2 (fuel : nat) (n buf c vmin : Z) : T (option Z) :=
  case2_loop fuel n buf buf (if c <? vmin then c else vmin).

Definition tty_read_case3 (n buf vtime : Z) : T (option Z) :=
  tty_set_timer vtime ;;
  t ← get_tty n;
  if negb (tty_queue_empty (t_readq t)) then
    getch_user n buf ;; tty_clear_timer ;; mret (Some 1)
  else
    r ← tty_sleep n false;
    if negb r then mret None else
    s ← get;
    if ts_sigpending s then mret (Some (- EINTR)) else mret (Some 0).
Definition tty_read_case4 (n buf : Z) : T (option Z) :=
  '(p, _) ← drain DRAIN_FUEL n buf (-1) None;
  mret (Some (p - buf)).

Definition tty_read (fuel : nat) (n buf count : Z) : T (option Z) :=
  if NR_TTY <=? n then mret (Some (-1)) else
  if n <? 0 then undef "tty_tab index out of range" else
  t ← get_tty n;
  if negb (t_open t) && negb (n =? DEBUG_TTY) then panic "tty_read: TTY is not open!" else
  let vmin := TERMIOS_CC t VMIN in
  let vtime := TERMIOS_CC t VTIME in
  if TERMIOS_LFLAG t ICANON then tty_canon_read n buf count
  else if (0 <? vmin) && (0 <? vtime) then tty_read_case1 fuel n buf count vmin vtime
  else if (0 <? vmin) && (vtime =? 0) then tty_read_case2 fuel n buf count vmin
  else if (vmin =? 0) && (0 <? vtime) then tty_read_case3 n buf vtime
  else tty_read_case4 n buf.

Definition ttyx_rw (fuel : nat) (minor buf count : Z) (rw : rw_cmd) : T (option Z) :=
  match rw with
  | WRITE => r ← tty_write minor buf count; mret (Some r)
  | READ => tty_read fuel minor buf count
  end.
Definition tty_rw (fuel : nat) (minor buf count : Z) (rw : rw_cmd) : T (option Z) :=
  if negb (minor =? 0) then mret (Some (- EINVAL)) else
  s ← get; ttyx_rw fuel (ts_tty s) buf count rw.

(** The entry behind the table is let through. *)
Definition set_open (open : bool) (minor : Z) : T Z :=
  if (minor <? 0) || (NR_TTY <? minor) then mret (- EINVAL) else
  if minor =? NR_TTY then undef "tty_tab index out of range" else
  upd_tty minor (λ t, t <| t_open := open |>) ;; mret minor.
Definition tty_open : Z → T Z := set_open true.
Definition tty_close : Z → T Z := set_open false.

(** ** The queues stay within their buffers *)
Definition queue_ok (q : tty_queue) : Prop := 0 <= tq_head q <= tq_tail q ∧ tq_tail q <= TTY_BUF_SIZE.
Definition queues_ok (s : tstate) : Prop := ∀ n, queue_ok (t_writeq (ts_tab s n)) ∧ queue_ok (t_readq (ts_tab s n)).

Lemma putch_ok c q : queue_ok q → queue_ok (tty_putch c q).
Proof.
  intros [H1 H2]. unfold tty_putch, tty_queue_full. destruct (Z.eqb_spec (tq_tail q) TTY_BUF_SIZE); [done|].
  unfold queue_ok. cbn [negb]. do 2 rec_simpl. lia.
Qed.
Lemma getch_ok q : queue_ok q → queue_ok (snd (tty_getch q)).
Proof.
  intros [H1 H2]. unfold tty_getch, tty_queue_empty. destruct (Z.eqb_spec (tq_head q) (tq_tail q)); [done|].
  unfold queue_ok. cbn [negb snd]. rec_simpl. lia.
Qed.
Lemma reset_ok q : queue_ok (tty_queue_reset q).
Proof. done. Qed.
Definition tty_fields_ok (t : tty) : Prop := queue_ok (t_writeq t) ∧ queue_ok (t_readq t).
Lemma upd_tty_ok n f : (∀ t, tty_fields_ok t → tty_fields_ok (f t)) → preserves queues_ok (upd_tty n f).
Proof.
  intros Hf. apply preserves_modify. intros s H m. rec_simpl. destruct (decide (n = m)) as [->|].
  - rewrite fn_insert_eq. apply Hf, H.
  - rewrite fn_insert_ne by done. apply H.
Qed.
Lemma modify_other_ok f : (∀ s, ts_tab (f s) = ts_tab s) → preserves queues_ok (modify f).
Proof. intros Hf. apply preserves_modify. intros s H n. rewrite Hf. apply H. Qed.
#[export] Hint Extern 1 (preserves queues_ok (modify _)) => apply modify_other_ok; reflexivity : preserves.
(** The programs below take a terminal apart only by these. *)
Lemma putw_ok n c : preserves queues_ok (putw n c).
Proof. apply upd_tty_ok. intros t [H1 H2]. split; [by apply putch_ok|done]. Qed.
Lemma reset_writeq_ok n : preserves queues_ok (reset_writeq n).
Proof. apply upd_tty_ok. intros t [H1 H2]. by split. Qed.
Lemma tty_flush_ok n : preserves queues_ok (tty_flush n).
Proof. unfold tty_flush, get_tty. solve_preserves. Qed.
#[export] Hint Resolve putw_ok reset_writeq_ok tty_flush_ok : preserves.
Lemma tty_put_text_ok n c : preserves queues_ok (tty_put_text n c).
Proof. unfold tty_put_text, get_tty. solve_preserves. Qed.
#[export] Hint Resolve tty_put_text_ok : preserves.
Lemma write_loop_ok fuel n p i : preserves queues_ok (tty_write_loop fuel n p i).
Proof. revert p i. induction fuel as [|fuel IH]; intros p i; simpl; solve_preserves; apply IH. Qed.
Lemma process_input_ok n c : preserves queues_ok (tty_process_input n c).
Proof.
  unfold tty_process_input, get_tty. solve_preserves.
  all: apply upd_tty_ok; intros ? [? ?]; split; [done|by apply putch_ok].
Qed.
Lemma process_output_ok n c : preserves queues_ok (tty_process_output n c).
Proof. unfold tty_process_output, get_tty. solve_preserves. Qed.
#[export] Hint Resolve write_loop_ok process_input_ok process_output_ok : preserves.
Lemma tty_write_ok n buf count : preserves queues_ok (tty_write n buf count).
Proof. unfold tty_write, get_tty. solve_preserves. Qed.
Lemma do_update_tty_ok buf : preserves queues_ok (do_update_tty buf).
Proof.
  unfold do_update_tty, get_tty. solve_preserves.
Qed.
Lemma tty_wait_ok n : preserves queues_ok (tty_wait n).
Proof. unfold tty_wait. solve_preserves. Qed.
#[export] Hint Resolve tty_wait_ok : preserves.
Lemma sleep_while_empty_ok fuel n block : preserves queues_ok (sleep_while_empty fuel n block).
Proof. induction fuel as [|fuel IH]; simpl; unfold get_tty; solve_preserves; apply IH. Qed.
#[export] Hint Resolve sleep_while_empty_ok : preserves.
Lemma tty_sleep_ok n canon : preserves queues_ok (tty_sleep n canon).
Proof. unfold tty_sleep. solve_preserves. Qed.
Lemma set_timer_ok v : preserves queues_ok (tty_set_timer v).
Proof. unfold tty_set_timer. auto with preserves. Qed.
Lemma clear_timer_ok : preserves queues_ok tty_clear_timer.
Proof. unfold tty_clear_timer. auto with preserves. Qed.
Lemma put_user_ok p c : preserves queues_ok (put_user p c).
Proof. unfold put_user. auto with preserves. Qed.
#[export] Hint Resolve tty_sleep_ok set_timer_ok clear_timer_ok put_user_ok : preserves.
Lemma copy_user_ok p l : preserves queues_ok (copy_user p l).
Proof. revert p. induction l as [|c l IH]; intros p; simpl; solve_preserves. Qed.
Lemma last_char_ok n : preserves queues_ok (last_char n).
Proof. unfold last_char, get_tty. solve_preserves. Qed.
#[export] Hint Resolve copy_user_ok last_char_ok : preserves.
Lemma canon_loop_ok fuel n buf count scratch : preserves queues_ok (canon_loop fuel n buf count scratch).
Proof. revert scratch. induction fuel as [|fuel IH]; intros scratch; cbn [canon_loop]; unfold get_tty; solve_preserves; apply IH. Qed.
Lemma getch_user_ok n p : preserves queues_ok (getch_user n p).
Proof.
  intros s a s' H R. unfold getch_user, get_tty in R. apply bind_inv in R as (t & s1 & R1 & R). injection R1 as <- <-.
  pose proof (getch_ok _ (proj2 (H n))) as Hq. destruct (tty_getch _) as [c q]. eapply (preserves_bind queues_ok); [| |exact H|exact R].
  - apply upd_tty_ok. intros t [H1 H2]. by split.
  - intros ?. apply put_user_ok.
Qed.
#[export] Hint Resolve canon_loop_ok getch_user_ok : preserves.
Lemma drain_ok fuel n p left timer : preserves queues_ok (drain fuel n p left timer).
Proof. revert p left. induction fuel as [|fuel IH]; intros p left; simpl; unfold get_tty; solve_preserves; apply IH. Qed.
#[export] Hint Resolve drain_ok : preserves.
Lemma case1_loop_ok fuel n buf p req v : preserves queues_ok (case1_loop fuel n buf p req v).
Proof. revert p. induction fuel as [|fuel IH]; intros p; cbn [case1_loop]; solve_preserves; apply IH. Qed.
Lemma case2_loop_ok fuel n buf p req : preserves queues_ok (case2_loop fuel n buf p req).
Proof. revert p. induction fuel as [|fuel IH]; intros p; cbn [case2_loop]; solve_preserves; apply IH. Qed.
#[export] Hint Resolve case1_loop_ok case2_loop_ok tty_write_ok do_update_tty_ok : preserves.
Lemma tty_read_ok fuel n buf count : preserves queues_ok (tty_read fuel n buf count).
Proof.
  unfold tty_read, tty_canon_read, tty_read_case1, tty_read_case2, tty_read_case3, tty_read_case4, get_tty.
  solve_preserves.
Qed.
#[export] Hint Resolve tty_read_ok : preserves.
(** C35: The head and the tail of every queue of every terminal stay in order and within the buffer
    of the queue, whatever is written, typed or read. This holds of a process with a terminal: one
    without (setsid sets [tty] to -1) that reads or writes /dev/tty reaches behind the table, since
    only the upper end of the table is tested. *)
Theorem tty_queues_in_bounds fuel minor buf count text :
  preserves queues_ok (tty_rw fuel minor buf count READ) ∧ preserves queues_ok (tty_rw fuel minor buf count WRITE) ∧
  preserves queues_ok (ttyx_rw fuel minor buf count READ) ∧ preserves queues_ok (ttyx_rw fuel minor buf count WRITE) ∧
  preserves queues_ok (do_update_tty text) ∧ preserves queues_ok (tty_open minor) ∧
  preserves queues_ok (tty_close minor) ∧ preserves queues_ok tty_init ∧
  ∀ rw s, ts_tty s < 0 → tty_rw fuel 0 buf count rw s = Undef "tty_tab index out of range".
Proof.
  split_and!; [..|intros [] s Hs].
  1-8: unfold tty_rw, ttyx_rw, tty_open, tty_close, set_open, tty_init; solve_preserves;
    apply upd_tty_ok; intros ? [? ?]; by split.
  all: unfold tty_rw, ttyx_rw, tty_read, tty_write; change (negb (0 =? 0)) with false; cbv iota;
    change ((get ≫= ?m) s) with (m s s); cbv beta;
    by rewrite (proj2 (Z.leb_gt NR_TTY _)), (proj2 (Z.ltb_lt _ 0)) by (unfold NR_TTY; lia).
Qed.

(** ** What a queue holds *)
Lemma putch_contents c q : queue_ok q → tq_tail q < TTY_BUF_SIZE → contents (tty_putch c q) = contents q ++ [s8 c].
Proof.
  intros [H1 H2] Ht. unfold tty_putch, tty_queue_full. rewrite (proj2 (Z.eqb_neq _ _)) by lia. cbn [negb].
  unfold contents. do 3 rec_simpl. replace (Z.to_nat (tq_tail q + 1 - tq_head q)) with (S (Z.to_nat (tq_tail q - tq_head q))) by lia.
  rewrite seq_S, map_app. f_equal.
  - apply map_ext_in. intros i Hi. apply in_seq in Hi. by rewrite fn_insert_ne by lia.
  - simpl. rewrite Z2Nat.id by lia. replace (tq_head q + (tq_tail q - tq_head q)) with (tq_tail q) by lia.
    by rewrite fn_insert_eq.
Qed.
Lemma putch_tail c q : tq_tail q < TTY_BUF_SIZE → tq_tail (tty_putch c q) = tq_tail q + 1 ∧ tq_head (tty_putch c q) = tq_head q.
Proof. intros. unfold tty_putch, tty_queue_full. rewrite (proj2 (Z.eqb_neq _ _)) by lia. done. Qed.

(** Only the write queue of terminal [n] has changed. *)
Record only_writeq (n : Z) (s s' : tstate) : Prop := {
  ow_other m : m ≠ n → ts_tab s' m = ts_tab s m;
  ow_self : ts_tab s' n = (ts_tab s n) <| t_writeq := t_writeq (ts_tab s' n) |>;
  ow_mem : ts_mem s' = ts_mem s;
  ow_out : ts_out s' = ts_out s
}.
Lemma only_writeq_trans n s1 s2 s3 : only_writeq n s1 s2 → only_writeq n s2 s3 → only_writeq n s1 s3.
Proof.
  intros [A1 A2 A3 A4] [B1 B2 B3 B4]. split; try congruence.
  - intros m Hm. rewrite B1, A1; done.
  - rewrite B2, A2. done.
Qed.
Lemma putw_spec n c s : let q := t_writeq (ts_tab s n) in queue_ok q → tq_tail q < TTY_BUF_SIZE →
  ∃ s', putw n c s = Ok (tt, s') ∧ only_writeq n s s' ∧ queue_ok (t_writeq (ts_tab s' n)) ∧
    contents (t_writeq (ts_tab s' n)) = contents q ++ [s8 c] ∧ tq_tail (t_writeq (ts_tab s' n)) = tq_tail q + 1.
Proof.
  intros q Hq Ht. eexists. split; [done|]. assert (∀ m, m ≠ n → ts_tab s m = ts_tab s m) by done.
  split; [split; try done|].
  - intros m Hm. rec_simpl. by rewrite fn_insert_ne by done.
  - rec_simpl. by rewrite fn_insert_eq.
  - rec_simpl. rewrite fn_insert_eq. rec_simpl. split; [by apply putch_ok|].
    split; [by apply putch_contents|apply (putch_tail c q Ht)].
Qed.

(** The characters that go to the driver for one of the text. *)
Definition expand (t : tty) (c : Z) : list Z :=
  if TERMIOS_OFLAG t OPOST then
    if (c =? 10) && TERMIOS_OFLAG t ONLCR then [13; c]
    else if (c =? 13) && TERMIOS_OFLAG t OCRNL then [10] else [c]
  else [c].
Lemma expand_length t c : 1 <= Z.of_nat (length (expand t c)).
Proof. unfold expand. repeat case_match; simpl; lia. Qed.
Lemma tty_put_text_spec n c s : let t := ts_tab s n in let q := t_writeq t in
  queue_ok q → s8 c = c → tq_tail q + Z.of_nat (length (expand t c)) <= TTY_BUF_SIZE →
  ∃ s', tty_put_text n c s = Ok (tt, s') ∧ only_writeq n s s' ∧ queue_ok (t_writeq (ts_tab s' n)) ∧
    contents (t_writeq (ts_tab s' n)) = contents q ++ expand t c ∧
    tq_tail (t_writeq (ts_tab s' n)) = tq_tail q + Z.of_nat (length (expand t c)).
Proof.
  intros t q Hq Hc Hfit. unfold tty_put_text, get_tty. change ((gets ?f ≫= ?k) s) with (k (f s) s). cbv beta.
  fold t. unfold expand in *. destruct (TERMIOS_OFLAG t OPOST).
  - destruct ((c =? 10) && TERMIOS_OFLAG t ONLCR) eqn:E1; simpl length in *.
    + destruct (putw_spec n 13 s Hq ltac:(fold t; fold q; lia)) as (s1 & R1 & O1 & Q1 & C1 & T1).
      destruct (putw_spec n c s1 Q1 ltac:(fold t in T1; fold q in T1; lia)) as (s2 & R2 & O2 & Q2 & C2 & T2).
      exists s2. rewrite (bind_ok _ _ _ _ _ R1). split; [done|]. split; [by eapply only_writeq_trans|].
      split; [done|]. rewrite C2, C1, T2, T1, Hc, <-app_assoc. split; [done|]. fold t q. lia.
    + destruct ((c =? 13) && TERMIOS_OFLAG t OCRNL); simpl length in *.
      * destruct (putw_spec n 10 s Hq ltac:(fold t; fold q; lia)) as (s1 & R1 & O1 & Q1 & C1 & T1). by exists s1.
      * destruct (putw_spec n c s Hq ltac:(fold t; fold q; lia)) as (s1 & R1 & O1 & Q1 & C1 & T1).
        rewrite Hc in C1. by exists s1.
  - simpl length in *. destruct (putw_spec n c s Hq ltac:(fold t; fold q; lia)) as (s1 & R1 & O1 & Q1 & C1 & T1).
    rewrite Hc in C1. by exists s1.
Qed.
Lemma only_writeq_expand n s s' c : only_writeq n s s' → expand (ts_tab s' n) c = expand (ts_tab s n) c.
Proof. intros O. by rewrite (ow_self _ _ _ O). Qed.

(** The text [l] of characters stands at [p]. *)
Definition text_at (m : Z → Z) (p : Z) (l : list Z) : Prop := ∀ i c, l !! i = Some c → s8 (m (p + Z.of_nat i)) = c ∧ c ≠ 0.
Lemma text_at_tail m p c l : text_at m p (c :: l) → s8 (m p) = c ∧ c ≠ 0 ∧ text_at m (p + 1) l.
Proof.
  intros H. pose proof (H 0%nat c eq_refl) as [H1 H2]. rewrite Z.add_0_r in H1. split; [done|]. split; [done|].
  intros i x Hi. rewrite <-Z.add_assoc. replace (1 + Z.of_nat i) with (Z.of_nat (S i)) by lia. by apply H.
Qed.
Lemma s8_idem x : s8 (s8 x) = s8 x.
Proof. unfold s8. lia. Qed.
Lemma write_loop_spec n l : ∀ fuel p s, let t := ts_tab s n in let q := t_writeq t in
  queue_ok q → text_at (ts_mem s) p l → (length l < fuel)%nat →
  tq_tail q + Z.of_nat (length (flat_map (expand t) l)) <= TTY_BUF_SIZE →
  ∃ s', tty_write_loop fuel n p (Z.of_nat (length l)) s = Ok (p + Z.of_nat (length l), s') ∧ only_writeq n s s' ∧
    contents (t_writeq (ts_tab s' n)) = contents q ++ flat_map (expand t) l.
Proof.
  induction l as [|c l IH]; intros [|fuel] p s t q Hq Hl Hf Hfit; try (simpl in *; lia).
  - exists s. simpl. change ((get ≫= ?k) s) with (k s s). cbv beta. rewrite Z.add_0_r, app_nil_r.
    split; [by destruct (_ =? 0)|]. split; [|done]. split; try done. by destruct (ts_tab s n).
  - apply text_at_tail in Hl as (Hc & Hc0 & Hl). simpl flat_map in *. rewrite length_app in Hfit.
    pose proof (expand_length t c). cbn [tty_write_loop]. change ((get ≫= ?k) s) with (k s s). cbv beta.
    rewrite Hc, (proj2 (Z.eqb_neq c 0) Hc0), (proj2 (Z.eqb_neq _ 0)) by (simpl; lia).
    unfold tty_queue_full. fold t. fold q. rewrite (proj2 (Z.eqb_neq (tq_tail q) _)) by lia.
    destruct (tty_put_text_spec n c s Hq ltac:(by rewrite <-Hc, s8_idem) ltac:(fold t; fold q; lia))
      as (s1 & R1 & O1 & Q1 & C1 & T1). fold t in C1, T1. fold q in C1, T1.
    rewrite (bind_ok _ _ _ _ _ R1).
    assert (flat_map (expand (ts_tab s1 n)) l = flat_map (expand t) l) as Ef.
    { clear -O1. induction l as [|x l IH]; simpl; [done|]. by rewrite IH, (only_writeq_expand _ _ _ _ O1). }
    destruct (IH fuel (p + 1) s1 Q1 ltac:(by rewrite (ow_mem _ _ _ O1)) ltac:(simpl in *; lia) ltac:(rewrite Ef; lia))
      as (s2 & R2 & O2 & C2).
    replace (Z.of_nat (length (c :: l)) - 1) with (Z.of_nat (length l)) by (simpl; lia).
    exists s2. split; [rewrite R2; do 2 f_equal; simpl; lia|]. split; [by eapply only_writeq_trans|].
    by rewrite C2, C1, Ef, <-app_assoc.
Qed.

(** A text that fits into the write queue goes to the driver as a whole. *)
Lemma tty_write_text n buf l s : let t := ts_tab s n in 0 <= n < NR_TTY → t_open t = true ∨ n = DEBUG_TTY → t_stopped t = false →
  tq_head (t_writeq t) = 0 → tq_tail (t_writeq t) = 0 → text_at (ts_mem s) buf l →
  Z.of_nat (length (flat_map (expand t) l)) <= TTY_BUF_SIZE →
  ∃ s', tty_write n buf (Z.of_nat (length l)) s = Ok (Z.of_nat (length l), s') ∧
    ts_out s' = ts_out s ++ [(n, flat_map (expand t) l)] ∧ tty_queue_empty (t_writeq (ts_tab s' n)) = true ∧
    ts_mem s' = ts_mem s ∧ ∀ m, m ≠ n → ts_tab s' m = ts_tab s m.
Proof.
  intros t Hn Hopen Hstop Hh Ht Hl Hfit. unfold tty_write. rewrite (proj2 (Z.leb_gt NR_TTY n)), (proj2 (Z.ltb_ge n 0)) by lia.
  unfold get_tty at 1. change ((gets ?f ≫= ?k) s) with (k (f s) s). cbv beta. fold t.
  assert (negb (t_open t) && negb (n =? DEBUG_TTY) = false) as ->.
  { destruct Hopen as [-> | ->]; [done|]. rewrite Z.eqb_refl. apply andb_false_r. }
  assert (queue_ok (t_writeq t)) as Hq by (unfold queue_ok; rewrite Hh, Ht; by split).
  assert (Z.of_nat (length l) <= Z.of_nat (length (flat_map (expand t) l))) as Hlen.
  { clear. induction l as [|c l IH]; simpl; [lia|]. rewrite length_app. pose proof (expand_length t c). lia. }
  destruct (write_loop_spec n l WRITE_FUEL buf s Hq Hl) as (s1 & R1 & O1 & C1).
  { unfold WRITE_FUEL, TTY_BUF_SIZE in *. lia. } { fold t. rewrite Ht. lia. }
  fold t in C1. rewrite (bind_ok _ _ _ _ _ R1).
  assert (t_stopped (ts_tab s1 n) = false) as Hs1 by (rewrite (ow_self _ _ _ O1); exact Hstop).
  assert (contents (t_writeq t) = []) as C0 by (unfold contents; by rewrite Hh, Ht). rewrite C0 in C1. simpl in C1.
  assert (tty_flush n s1 = Ok (tt, s1 <| ts_out ::= λ o, o ++ [(n, flat_map (expand t) l)] |>)) as R2.
  { unfold tty_flush, get_tty. change ((gets ?f ≫= ?k) s1) with (k (f s1) s1). cbv beta. rewrite Hs1, C1. done. }
  rewrite (bind_ok _ _ _ _ _ R2). replace (buf + Z.of_nat (length l) - buf) with (Z.of_nat (length l)) by lia.
  eexists. split; [reflexivity|].
  do 3 rec_simpl. rewrite (ow_out _ _ _ O1). split; [done|]. split; [by rewrite fn_insert_eq|].
  split; [apply (ow_mem _ _ _ O1)|]. intros m Hm. rewrite fn_insert_ne by done. by apply (ow_other _ _ _ O1).
Qed.

(** A text without NULs that fits into the write queue after the processing of its newlines is
    handed to the driver of the terminal as a whole, every newline with a carriage return before
    it where the terminal asks for that; the call returns the length of the text. *)
Theorem tty_write_delivers n buf l s : let t := ts_tab s n in 0 <= n < NR_TTY → t_open t = true → t_stopped t = false →
  tq_head (t_writeq t) = 0 → tq_tail (t_writeq t) = 0 → text_at (ts_mem s) buf l →
  Z.of_nat (length (flat_map (expand t) l)) <= TTY_BUF_SIZE →
  ∃ s', tty_write n buf (Z.of_nat (length l)) s = Ok (Z.of_nat (length l), s') ∧
    ts_out s' = ts_out s ++ [(n, flat_map (expand t) l)] ∧ tty_queue_empty (t_writeq (ts_tab s' n)) = true ∧
    ts_mem s' = ts_mem s ∧ ∀ m, m ≠ n → ts_tab s' m = ts_tab s m.
Proof. intros t Hn Hopen. apply tty_write_text; [done|by left]. Qed.

(** ** The canonical read *)

(** One character arrives during each sleep, and no signal. *)
Definition typed (cs : list Z) : list wake := map (λ c, MkWake [c] false false) cs.
(** What the process and the terminal it reads from look like after input. *)
Record input_done (n : Z) (s s' : tstate) : Prop := {
  id_other m : m ≠ n → ts_tab s' m = ts_tab s m;
  id_self : ts_tab s' n = (ts_tab s n) <| t_readq := t_readq (ts_tab s' n) |>;
  id_sig : ts_sigpending s' = ts_sigpending s;
  id_mem : ts_mem s' = ts_mem s;
  id_out : ts_out s' = ts_out s
}.
Lemma input_done_trans n s1 s2 s3 : input_done n s1 s2 → input_done n s2 s3 → input_done n s1 s3.
Proof.
  intros [A1 A2 A3 A4 A5] [B1 B2 B3 B4 B5]. split; try congruence.
  - intros m Hm. rewrite B1, A1; done.
  - rewrite B2, A2. done.
Qed.
(** A sleep that ends with one character, which the terminal does not translate. *)
Lemma wait_char n c ws s : ts_wakes s = MkWake [c] false false :: ws → c_iflag (t_termios (ts_tab s n)) = 0 →
  queue_ok (t_readq (ts_tab s n)) → tq_tail (t_readq (ts_tab s n)) < TTY_BUF_SIZE → s8 c = c →
  ∃ s', tty_sleep n true s = Ok (true, s') ∧ input_done n s s' ∧ ts_wakes s' = ws ∧
    queue_ok (t_readq (ts_tab s' n)) ∧ tq_tail (t_readq (ts_tab s' n)) = tq_tail (t_readq (ts_tab s n)) + 1 ∧
    tq_head (t_readq (ts_tab s' n)) = tq_head (t_readq (ts_tab s n)) ∧ last_char n s' = Ok (c, s').
Proof.
  intros Hw Hi Hq Ht Hc. set (q := t_readq (ts_tab s n)) in *.
  set (s1 := s <| ts_wakes := ws |>). set (s' := s1 <| ts_tab ::= λ t, <[n := (t n) <| t_readq ::= tty_putch c |>]> t |>).
  assert (tty_process_input n c s1 = Ok (tt, s')) as Rp.
  { unfold tty_process_input, get_tty. change ((gets ?f ≫= ?k) s1) with (k (f s1) s1). cbv beta.
    change (t_readq (ts_tab s1 n)) with q. unfold tty_queue_full. rewrite (proj2 (Z.eqb_neq _ _)) by lia.
    unfold TERMIOS_IFLAG. change (ts_tab s1 n) with (ts_tab s n). rewrite Hi, !Z.land_0_l. cbn [Z.eqb negb].
    rewrite !andb_false_r. done. }
  assert (t_readq (ts_tab s' n) = tty_putch c q) as Eq.
  { unfold s'. rec_simpl. by rewrite fn_insert_eq. }
  exists s'. rewrite Eq. destruct (putch_tail c q Ht) as [Et Eh].
  split; [|split; [|split; [done|split; [by apply putch_ok|split; [done|split; [done|]]]]]].
  - unfold tty_sleep, tty_wait. change ((get ≫= ?k) s) with (k s s). cbv beta iota. change ((get ≫= ?k) s) with (k s s).
    cbv beta. rewrite Hw. change ((modify ?f ≫= ?k) s) with (k tt (f s)). cbv beta. fold s1. cbn [w_chars w_signal w_expired for_each].
    assert ((tty_process_input n c ;; mret tt) s1 = Ok (tt, s')) as Rf by (by rewrite (bind_ok _ _ _ _ _ Rp)).
    by rewrite (bind_ok _ _ _ _ _ Rf).
  - split; try done.
    + intros m Hm. unfold s'. rec_simpl. by rewrite fn_insert_ne by done.
    + unfold s'. rec_simpl. by rewrite fn_insert_eq.
  - unfold last_char, get_tty. change ((gets ?f ≫= ?k) s') with (k (f s') s'). cbv beta. rewrite Eq, Et.
    destruct Hq as [Hq1 Hq2]. rewrite (proj2 (Z.leb_le 1 _)) by lia. rewrite Z.add_simpl_r.
    unfold tty_putch, tty_queue_full. rewrite (proj2 (Z.eqb_neq _ _)) by lia. cbn [negb]. rec_simpl.
    rewrite fn_insert_eq. by rewrite Hc.
Qed.

Lemma copy_user_spec p l s : ∃ m, copy_user p l s = Ok (tt, s <| ts_mem := m |>) ∧
  written (ts_mem s) m p (Z.of_nat (length l)) (λ i, u8 (nth (Z.to_nat i) l 0)).
Proof.
  revert p s. induction l as [|c l IH]; intros p s; simpl.
  - exists (ts_mem s). split; [by destruct s|]. apply written_0.
  - destruct (IH (p + 1) (s <| ts_mem ::= <[p := u8 c]> |>)) as (m & R & W). exists m. split; [exact R|].
    replace (Z.of_nat (S (length l))) with (1 + Z.of_nat (length l)) by lia.
    refine (written_app _ _ _ _ _ _ _ _ _ (written_ext _ _ _ _ _ _ _ (written_1 _ _ _)) (written_ext _ _ _ _ _ _ _ W));
      [lia|lia| |].
    + intros i Hi. cbv beta. by replace i with 0 by lia.
    + intros i Hi. cbv beta. by replace (Z.to_nat (1 + i)) with (S (Z.to_nat i)) by lia.
Qed.

(** The line that the editing characters leave: erase takes back one character, kill all. *)
Definition edited (t : tty) (cs scratch : list Z) : list Z := fold_left (λ l c, canon_step t c l) cs scratch.
(** A character that does not end the line. *)
Definition inner (t : tty) (c : Z) : Prop := s8 c = c ∧ c ≠ 10 ∧ c ≠ TERMIOS_CC t VEOF.
Lemma canon_step_length t c l : (length (canon_step t c l) <= S (length l))%nat.
Proof. unfold canon_step. repeat case_match; rewrite ?length_take, ?length_app; simpl; lia. Qed.

Lemma same_termios t t' : t_termios t' = t_termios t →
  (∀ c l, canon_step t' c l = canon_step t c l) ∧ (∀ cs l, edited t' cs l = edited t cs l) ∧ (∀ c, inner t c → inner t' c) ∧
  (∀ i, TERMIOS_CC t' i = TERMIOS_CC t i).
Proof.
  intros E. assert (∀ i, TERMIOS_CC t' i = TERMIOS_CC t i) as Ec by (intros; unfold TERMIOS_CC; by rewrite E).
  assert (∀ c l, canon_step t' c l = canon_step t c l) as Es by (intros; unfold canon_step; by rewrite !Ec).
  split; [done|]. split; [|split; [|done]].
  - intros cs. unfold edited. induction cs as [|c cs IH]; intros l; simpl; [done|]. by rewrite Es, IH.
  - intros c. unfold inner. by rewrite Ec.
Qed.

Lemma canon_loop_line n buf count c cs : ∀ fuel scratch s, let t := ts_tab s n in
  ts_wakes s = typed (cs ++ [c]) → c_iflag (t_termios t) = 0 → queue_ok (t_readq t) →
  tq_tail (t_readq t) + Z.of_nat (length cs) < TTY_BUF_SIZE → Forall (inner t) cs →
  s8 c = c → c = 10 ∨ c = TERMIOS_CC t VEOF → ts_sigpending s = false →
  Z.of_nat (length scratch + length cs) < MAX_CANON → 0 <= count → (length cs < fuel)%nat →
  let line := edited t (cs ++ [c]) scratch in let nr := Z.min (Z.of_nat (length line)) count in
  ∃ s', canon_loop fuel n buf count scratch s = Ok (Some nr, s') ∧
    written (ts_mem s) (ts_mem s') buf nr (λ i, u8 (nth (Z.to_nat i) line 0)) ∧ ts_wakes s' = [] ∧
    tq_head (t_readq (ts_tab s' n)) = tq_head (t_readq t) ∧
    tq_tail (t_readq (ts_tab s' n)) = tq_tail (t_readq t) + Z.of_nat (length cs) + 1.
Proof.
  induction cs as [|x cs IH]; intros [|fuel] scratch s t Hw Hi Hq Ht Hin Hc Hend Hsig Hlen Hcount Hf; try (simpl in *; lia).
  - simpl app in Hw. simpl in Ht. destruct (wait_char n c [] s Hw Hi Hq ltac:(fold t; lia) Hc) as (s1 & R1 & I1 & W1 & Q1 & T1 & H1 & L1).
    assert (t_termios (ts_tab s1 n) = t_termios t) as Et by (by rewrite (id_self _ _ _ I1)).
    destruct (same_termios _ _ Et) as (Es & _ & _ & Ec).
    cbn [canon_loop app]. rewrite (bind_ok _ _ _ _ _ R1). cbn [negb]. change ((get ≫= ?k) s1) with (k s1 s1). cbv beta.
    rewrite (id_sig _ _ _ I1), Hsig, (bind_ok _ _ _ _ _ L1). unfold get_tty.
    change ((gets ?f ≫= ?k) s1) with (k (f s1) s1). cbv beta. rewrite Es, Ec.
    change (edited t [c] scratch) with (canon_step t c scratch). set (line := canon_step t c scratch).
    pose proof (canon_step_length t c scratch) as Hl. fold line in Hl. unfold MAX_CANON in *. simpl in Hlen.
    rewrite (proj2 (Z.ltb_ge 255 _)) by lia.
    assert (negb (c =? 10) && negb (c =? TERMIOS_CC t VEOF) && (Z.of_nat (length line) <? 255) = false) as ->
      by (destruct Hend as [-> | ->]; [done|by rewrite Z.eqb_refl, andb_false_r]).
    assert ((if Z.of_nat (length line) <? count then Z.of_nat (length line) else count) =
      Z.min (Z.of_nat (length line)) count) as -> by (destruct (Z.ltb_spec (Z.of_nat (length line)) count); lia).
    set (nr := Z.min _ _). cbv zeta. assert (0 <= nr <= Z.of_nat (length line)) as Hnr by (unfold nr; lia).
    rewrite (proj2 (Z.ltb_ge nr 0)) by lia.
    destruct (copy_user_spec buf (take (Z.to_nat nr) line) s1) as (m & Rm & Wm). rewrite (bind_ok _ _ _ _ _ Rm).
    eexists. split; [reflexivity|]. do 2 rec_simpl. rewrite (id_mem _ _ _ I1), length_take, Nat.min_l, Z2Nat.id in Wm by lia.
    split; [|split; [done|split; [done|rec_simpl; rewrite T1; simpl; fold t; lia]]].
    eapply written_ext; [|exact Wm]. intros i Hir. cbv beta. f_equal.
    rewrite <-(take_drop (Z.to_nat nr) line) at 2. rewrite app_nth1; [done|]. rewrite length_take. lia.
  - simpl app in Hw. simpl length in *. apply Forall_cons in Hin as [(Hx & Hx10 & Hxe) Hin].
    destruct (wait_char n x (typed (cs ++ [c])) s Hw Hi Hq ltac:(fold t; lia) Hx) as (s1 & R1 & I1 & W1 & Q1 & T1 & H1 & L1).
    assert (t_termios (ts_tab s1 n) = t_termios t) as Et by (by rewrite (id_self _ _ _ I1)).
    destruct (same_termios _ _ Et) as (Es & Ee & Ei & Ec).
    cbn [canon_loop app]. rewrite (bind_ok _ _ _ _ _ R1). cbn [negb]. change ((get ≫= ?k) s1) with (k s1 s1). cbv beta.
    rewrite (id_sig _ _ _ I1), Hsig, (bind_ok _ _ _ _ _ L1). unfold get_tty.
    change ((gets ?f ≫= ?k) s1) with (k (f s1) s1). cbv beta. rewrite Es, Ec.
    pose proof (canon_step_length t x scratch) as Hl. set (scratch1 := canon_step t x scratch) in *. unfold MAX_CANON in *.
    rewrite (proj2 (Z.ltb_ge 255 _)), (proj2 (Z.eqb_neq x 10) Hx10), (proj2 (Z.eqb_neq x _) Hxe) by lia.
    cbn [negb andb]. rewrite (proj2 (Z.ltb_lt _ 255)) by lia.
    destruct (IH fuel scratch1 s1) as (s' & R & W & Hws & Hh & Htl); rewrite ?T1, ?Et, ?Ec, ?(id_sig _ _ _ I1); try done; try (fold t; lia).
    { eapply Forall_impl; [exact Hin|]. apply Ei. }
    exists s'. change (edited t (x :: cs ++ [c]) scratch) with (edited t (cs ++ [c]) scratch1). rewrite Ee in R, W.
    rewrite (id_mem _ _ _ I1) in W. split; [exact R|]. split; [exact W|]. split; [done|].
    split; [by rewrite Hh, H1|]. fold t in T1. lia.
Qed.

(** A whole canonical read, in terms of the steps of its loop. *)
Lemma canon_read_edited n buf count c cs s : let t := ts_tab s n in
  0 <= n < NR_TTY → t_open t = true → TERMIOS_LFLAG t ICANON = true → c_iflag (t_termios t) = 0 → queue_ok (t_readq t) →
  tty_queue_empty (t_readq t) = true ∨ tq_buf (t_readq t) (tq_tail (t_readq t) - 1) ≠ TERMIOS_CC t VEOF →
  ts_sigpending s = false → 0 <= count →
  ts_wakes s = typed (cs ++ [c]) → Forall (inner t) cs → s8 c = c → c = 10 ∨ c = TERMIOS_CC t VEOF →
  tq_tail (t_readq t) + Z.of_nat (length cs) < TTY_BUF_SIZE → Z.of_nat (length cs) < MAX_CANON →
  let line := edited t (cs ++ [c]) [] in let nr := Z.min (Z.of_nat (length line)) count in
  ∃ s', tty_read 0 n buf count s = Ok (Some nr, s') ∧
    written (ts_mem s) (ts_mem s') buf nr (λ i, u8 (nth (Z.to_nat i) line 0)) ∧
    tq_head (t_readq (ts_tab s' n)) = tq_head (t_readq t) ∧
    tq_tail (t_readq (ts_tab s' n)) = tq_tail (t_readq t) + Z.of_nat (length cs) + 1.
Proof.
  intros t Hn Hopen Hcanon Hi Hq Heof Hsig Hcount Hw Hin Hc Hend Ht Hlen line nr.
  destruct (canon_loop_line n buf count c cs (S (length (ts_wakes s))) [] s) as (s' & R & W & _ & Hh & Htl); try done.
  { rewrite Hw. unfold typed. rewrite length_map, length_app. simpl. lia. }
  exists s'. split; [|by split]. unfold tty_read.
  rewrite (proj2 (Z.leb_gt NR_TTY n)), (proj2 (Z.ltb_ge n 0)) by lia. unfold get_tty.
  change ((gets ?f ≫= ?k) s) with (k (f s) s). cbv beta zeta. fold t. rewrite Hopen. cbn [negb andb]. rewrite Hcanon.
  unfold tty_canon_read, get_tty. change ((gets ?f ≫= ?k) s) with (k (f s) s). cbv beta. fold t.
  assert ((if negb (tty_queue_empty (t_readq t)) then c ← last_char n; mret (c =? TERMIOS_CC t VEOF) else mret false) s
    = Ok (false, s)) as Re.
  { destruct (tty_queue_empty (t_readq t)) eqn:E; [done|]. cbn [negb]. destruct Heof as [|Heof]; [done|].
    unfold last_char, get_tty. unfold tty_queue_empty in E. destruct Hq as [Hq1 Hq2].
    apply Z.eqb_neq in E. unfold mbind, M_bind, gets. fold t. rewrite (proj2 (Z.leb_le 1 _)) by lia.
    cbv beta iota. unfold mret, M_ret. by rewrite (proj2 (Z.eqb_neq _ _) Heof). }
  rewrite (bind_ok _ _ _ _ _ Re). cbv iota. change ((get ≫= ?k) s) with (k s s). cbv beta. exact R.
Qed.

(** ** What the editing characters leave

    Read from the end of the line, where [canon_step] goes from its beginning: each erase character
    takes back the last character before it that is still there, a kill all that stand before it. *)
Definition ordinary (t : tty) (c : Z) : bool := negb (c =? TERMIOS_CC t VERASE) && negb (c =? TERMIOS_CC t VKILL).
(** How many of the characters before it the text takes back. *)
Fixpoint takes_back (t : tty) (cs : list Z) : nat :=
  match cs with
  | [] => 0
  | c :: cs => if c =? TERMIOS_CC t VERASE then S (takes_back t cs) else pred (takes_back t cs)
  end.
Definition kills (t : tty) (cs : list Z) : bool := existsb (λ c, c =? TERMIOS_CC t VKILL) cs.
Fixpoint kept (t : tty) (cs : list Z) : list Z :=
  match cs with
  | [] => []
  | c :: cs => if ordinary t c && negb (kills t cs) && (takes_back t cs =? 0)%nat then c :: kept t cs else kept t cs
  end.
(** Every erase character of the text finds a character to take back. *)
Definition erases_something (t : tty) (cs : list Z) : Prop :=
  ∀ before after, cs = before ++ TERMIOS_CC t VERASE :: after → kept t before ≠ [].

Lemma erases_check t cs : forallb (λ i, negb (nth i cs 0 =? TERMIOS_CC t VERASE) || negb (bool_decide (kept t (take i cs) = [])))
  (seq 0 (length cs)) = true → erases_something t cs.
Proof.
  rewrite forallb_forall. intros H b a -> E. specialize (H (length b)). rewrite in_seq, length_app in H. simpl in H.
  specialize (H ltac:(lia)). rewrite app_nth2, Nat.sub_diag, take_app_length in H by lia. simpl in H.
  by rewrite Z.eqb_refl, bool_decide_eq_true_2 in H.
Qed.
Lemma ordinary_spec t c : ordinary t c = true ↔ c ≠ TERMIOS_CC t VERASE ∧ c ≠ TERMIOS_CC t VKILL.
Proof. unfold ordinary. rewrite andb_true_iff, !negb_true_iff, !Z.eqb_neq. done. Qed.
Lemma kills_app t a b : kills t (a ++ b) = kills t a || kills t b.
Proof. apply existsb_app. Qed.
Lemma takes_back_ordinary t cs c : ordinary t c = true → takes_back t (cs ++ [c]) = takes_back t cs.
Proof.
  intros [Hc _]%ordinary_spec. induction cs as [|x cs IH]; simpl; [|by rewrite IH].
  by rewrite (proj2 (Z.eqb_neq _ _) Hc).
Qed.
Lemma kept_ordinary t cs c : ordinary t c = true → kept t (cs ++ [c]) = kept t cs ++ [c].
Proof.
  intros Ho. pose proof Ho as [_ Hk]%ordinary_spec. induction cs as [|x cs IH]; simpl; [by rewrite Ho|].
  rewrite IH, takes_back_ordinary, kills_app by done. simpl. rewrite (proj2 (Z.eqb_neq _ _) Hk), !orb_false_r.
  by destruct (ordinary t x && _ && _).
Qed.
Lemma kept_kill t cs c : c = TERMIOS_CC t VKILL → ordinary t c = false → kept t (cs ++ [c]) = [].
Proof.
  intros Hk Ho. induction cs as [|x cs IH]; simpl; [by rewrite Ho|].
  rewrite kills_app. simpl. by rewrite Hk, Z.eqb_refl, !orb_true_r, andb_false_r, <-Hk.
Qed.
Lemma takes_back_erase t cs c : c = TERMIOS_CC t VERASE → kills t cs = false →
  takes_back t (cs ++ [c]) = if bool_decide (kept t cs = []) then S (takes_back t cs) else takes_back t cs.
Proof.
  intros -> Hk. induction cs as [|x cs IH]; simpl; [by rewrite Z.eqb_refl|].
  simpl in Hk. apply orb_false_iff in Hk as [Hx Hk]. rewrite (IH Hk), Hk. unfold ordinary. rewrite Hx.
  destruct (x =? TERMIOS_CC t VERASE); simpl; [by destruct (bool_decide _)|].
  destruct (takes_back t cs) eqn:E; simpl; repeat case_bool_decide; done.
Qed.
Lemma kept_erase t cs c : c = TERMIOS_CC t VERASE → c ≠ TERMIOS_CC t VKILL →
  kept t (cs ++ [c]) = take (pred (length (kept t cs))) (kept t cs).
Proof.
  intros Hc Hk. induction cs as [|x cs IH]; simpl.
  - unfold ordinary. by rewrite Hc, Z.eqb_refl.
  - rewrite kills_app. simpl. rewrite (proj2 (Z.eqb_neq _ _) Hk), !orb_false_r. destruct (kills t cs) eqn:E.
    { rewrite andb_false_r. exact IH. }
    rewrite (takes_back_erase _ _ _ Hc E), IH. destruct (ordinary t x); simpl; [|done].
    destruct (kept t cs) as [|y l] eqn:Ek; simpl; [|by destruct (_ =? 0)%nat].
    by destruct (_ =? 0)%nat.
Qed.
(** The fold of the code's step along the line. *)
Lemma edited_kept t cs : TERMIOS_CC t VERASE ≠ TERMIOS_CC t VKILL → Forall (inner t) cs → erases_something t cs →
  edited t cs [] = kept t cs.
Proof.
  intros Hne. induction cs as [|c cs IH] using rev_ind; intros Hin He; [done|].
  apply Forall_app in Hin as [Hin [(_ & _ & Hc) _]%Forall_cons].
  unfold edited. rewrite fold_left_app. change (fold_left _ cs []) with (edited t cs []). rewrite IH; [|done|].
  2:{ intros b a E. apply (He b (a ++ [c])). by rewrite E, <-app_assoc. }
  simpl. unfold canon_step. destruct (Z.eqb_spec c (TERMIOS_CC t VERASE)) as [Ec|Ec].
  - rewrite bool_decide_eq_false_2 by (apply (He cs []); by rewrite Ec). rewrite kept_erase by congruence. done.
  - simpl. destruct (Z.eqb_spec c (TERMIOS_CC t VKILL)) as [Ek|Ek].
    + rewrite kept_kill; [done|done|]. unfold ordinary. by rewrite Ek, Z.eqb_refl, andb_false_r.
    + rewrite (proj2 (Z.eqb_neq _ _) Hc). rewrite kept_ordinary; [done|]. by apply ordinary_spec.
Qed.

(** C34: A canonical read, when the characters of a line are typed one at a time while it sleeps,
    returns the characters that the erase and kill characters leave, with the newline that ends
    the line (an end-of-file character is left out), cut to the size of the buffer. Every erase
    character of the line has a character to take back (one typed on an empty line is stored). The
    read takes no character out of the read queue: every line leaves the queue fuller. *)
Theorem canonical_read_line n buf count c cs s : let t := ts_tab s n in
  0 <= n < NR_TTY → t_open t = true → TERMIOS_LFLAG t ICANON = true → c_iflag (t_termios t) = 0 → queue_ok (t_readq t) →
  tty_queue_empty (t_readq t) = true ∨ tq_buf (t_readq t) (tq_tail (t_readq t) - 1) ≠ TERMIOS_CC t VEOF →
  ts_sigpending s = false → 0 <= count → TERMIOS_CC t VERASE ≠ TERMIOS_CC t VKILL →
  ts_wakes s = typed (cs ++ [c]) → Forall (inner t) cs → erases_something t cs →
  s8 c = c → c = 10 ∨ c = TERMIOS_CC t VEOF → ordinary t c = true →
  tq_tail (t_readq t) + Z.of_nat (length cs) < TTY_BUF_SIZE → Z.of_nat (length cs) < MAX_CANON →
  let line := kept t cs ++ (if c =? TERMIOS_CC t VEOF then [] else [c]) in
  let nr := Z.min (Z.of_nat (length line)) count in
  ∃ s', tty_read 0 n buf count s = Ok (Some nr, s') ∧
    written (ts_mem s) (ts_mem s') buf nr (λ i, u8 (nth (Z.to_nat i) line 0)) ∧
    tq_head (t_readq (ts_tab s' n)) = tq_head (t_readq t) ∧
    tq_tail (t_readq (ts_tab s' n)) = tq_tail (t_readq t) + Z.of_nat (length cs) + 1.
Proof.
  intros t Hn Hopen Hcanon Hi Hq Heof Hsig Hcount Hne Hw Hin He Hc Hend Ho Ht Hlen line nr.
  assert (edited t (cs ++ [c]) [] = line) as Eline.
  { unfold edited. rewrite fold_left_app. change (fold_left _ cs []) with (edited t cs []). rewrite edited_kept by done.
    apply ordinary_spec in Ho as [Ho1 Ho2]. simpl. unfold canon_step, line.
    rewrite (proj2 (Z.eqb_neq _ _) Ho1), (proj2 (Z.eqb_neq _ _) Ho2). simpl.
    destruct (c =? _); [by rewrite app_nil_r|done]. }
  destruct (canon_read_edited n buf count c cs s) as (s' & R & W & Hht); try done.
  fold t in R, W. rewrite Eline in R, W. exists s'. by split.
Qed.

(** ** A terminal after the start *)
Module TtyDemo.
Definition zero_tty : tty := MkTty (MkTermios 0 0 0 (λ _, 0)) (MkQueue (λ _, 0) 0 0) (MkQueue (λ _, 0) 0 0) false true.
Definition text : list Z := [104; 105; 10].
Definition demo (ws : list wake) : tstate :=
  MkTs (λ _, tty_struct_init zero_tty) 0 false 0 1000 (λ a, nth (Z.to_nat (a - 5000)) text 0) [] ws.
Lemma demo_text : text_at (ts_mem (demo [])) 5000 text.
Proof. intros [|[|[|i]]] c Hi; simpl in Hi; simplify_eq; by vm_compute. Qed.
End TtyDemo.
Import TtyDemo.
Lemma tty_write_delivers_witness : ∃ s', tty_write 0 5000 3 (demo []) = Ok (3, s') ∧ ts_out s' = [(0, [104; 105; 13; 10])].
Proof.
  destruct (tty_write_delivers 0 5000 text (demo [])) as (s' & R & O & _);
    [done|done|done|done|done|apply demo_text|by vm_compute|].
  exists s'. split; [exact R|exact O].
Defined.
(** The line hx, erase, i; the line of a user who types ls, kill, then pwx, erase, d. *)
Lemma canonical_read_line_witness :
  (∃ s', tty_read 0 0 6000 80 (demo (typed [104; 120; 127; 105; 10])) = Ok (Some 3, s') ∧
    written (ts_mem (demo [])) (ts_mem s') 6000 3 (λ i, u8 (nth (Z.to_nat i) [104; 105; 10] 0))) ∧
  ∃ s', tty_read 0 0 6000 80 (demo (typed [108; 115; 21; 112; 119; 120; 127; 100; 10])) = Ok (Some 4, s') ∧
    written (ts_mem (demo [])) (ts_mem s') 6000 4 (λ i, u8 (nth (Z.to_nat i) [112; 119; 100; 10] 0)).
Proof.
  split.
  - destruct (canonical_read_line 0 6000 80 10 [104; 120; 127; 105] (demo (typed [104; 120; 127; 105; 10])))
      as (s' & R & W & _); [done|done|done|done|done|by left|done|done|done|done|repeat constructor; done| |done|by left|done|done|done|].
    { apply erases_check. by vm_compute. }
    exists s'. split; [exact R|exact W].
  - destruct (canonical_read_line 0 6000 80 10 [108; 115; 21; 112; 119; 120; 127; 100]
      (demo (typed [108; 115; 21; 112; 119; 120; 127; 100; 10])))
      as (s' & R & W & _); [done|done|done|done|done|by left|done|done|done|done|repeat constructor; done| |done|by left|done|done|done|].
    { apply erases_check. by vm_compute. }
    exists s'. split; [exact R|exact W].
Defined.
(** A process without a terminal. *)
Lemma tty_queues_in_bounds_witness :
  tty_rw 0 0 5000 3 WRITE ((demo []) <| ts_tty := -1 |>) = Undef "tty_tab index out of range".
Proof. by apply (tty_queues_in_bounds 0%nat 0 5000 3 (@nil Z)). Defined.
