(* ===== verification/Chardev.v ===== *)
(** Character devices: the table of devices (sys/fs/devio.c), the memory devices (sys/fs/memdev.c), and which
    numbers reach them (sys/include/fs/dev.h). The terminals behind the table are those of Tty.v. *)
From S2P Require Import Prelude Proc Drive Ext2File Console Tty.

Definition MEM_DEV : Z := 1.
Definition TTY_DEV : Z := 4.
Definition TTYX_DEV : Z := 5.
Definition MEMDEV_NULL : Z := 3.
Definition MEMDEV_ZERO : Z := 5.

Definition is_chardev (dev : Z) : bool := (DEV_MAJOR dev =? TTY_DEV) || (DEV_MAJOR dev =? TTYX_DEV).

(** ** The memory devices *)
Definition memdev_null_rw (buf count : Z) (rw : rw_cmd) : T Z := mret 0.
Fixpoint zero_loop (n : nat) (buf : Z) : T unit :=
  match n with
  | O => mret tt
  | S n => put_user buf 0 ;; zero_loop n (buf + 1)
  end.
(** After the loop [c] is -1. *)
Definition memdev_zero_rw (buf count : Z) (rw : rw_cmd) : T Z :=
  match rw with
  | READ => if count <? 0 then undef "c-- below INT_MIN" else zero_loop (Z.to_nat count) buf ;; mret (-1 - count)
  | WRITE => mret (count - count)
  end.
Definition memdev_open (minor : Z) : T Z := if (minor =? MEMDEV_NULL) || (minor =? MEMDEV_ZERO) then mret 0 else mret (- ENODEV).
Definition memdev_rw (minor buf count : Z) (rw : rw_cmd) : T Z :=
  if minor =? MEMDEV_NULL then memdev_null_rw buf count rw
  else if minor =? MEMDEV_ZERO then memdev_zero_rw buf count rw
  else mret (- ENODEV).
Definition memdev_close (minor : Z) : T Z := mret 0.

(** ** The table *)

(** [chr_dev_table]: a read of a terminal may still be asleep, [None]. *)
Record chr_dev_ops := MkOps { d_open : Z → T Z; d_rw : Z → Z → Z → rw_cmd → T (option Z); d_close : Z → T Z }.
Definition chr_dev_table (fuel : nat) (major : Z) : option chr_dev_ops :=
  if major =? MEM_DEV then Some (MkOps memdev_open (λ minor buf count rw, r ← memdev_rw minor buf count rw; mret (Some r)) memdev_close)
  else if major =? TTY_DEV then Some (MkOps tty_open (tty_rw fuel) tty_close)
  else if major =? TTYX_DEV then Some (MkOps tty_open (ttyx_rw fuel) tty_close)
  else None.
Definition chr_devio (fuel : nat) (dev buf count : Z) (rw : rw_cmd) : T (option Z) :=
  if negb (is_chardev dev) then mret (Some (- ENODEV)) else
  match chr_dev_table fuel (DEV_MAJOR dev) with
  | Some ops => d_rw ops (DEV_MINOR dev) buf count rw
  | None => mret (Some (- ENODEV))
  end.
Definition chr_dev_open (fuel : nat) (dev : Z) : T Z :=
  if negb (is_chardev dev) then mret (-1) else
  match chr_dev_table fuel (DEV_MAJOR dev) with
  | Some ops => d_open ops (DEV_MINOR dev)
  | None => mret (- ENODEV)
  end.

(** ** Properties *)

(** The memory devices are in the table but never reached: the test of the major number leaves them out. *)
Theorem memory_devices_unreachable fuel dev buf count rw s : DEV_MAJOR dev = MEM_DEV →
  chr_dev_open fuel dev s = Ok (-1, s) ∧ chr_devio fuel dev buf count rw s = Ok (Some (- ENODEV), s).
Proof. intros H. unfold chr_dev_open, chr_devio, is_chardev. by rewrite H. Qed.

Lemma zero_loop_ok n : ∀ buf s, ∃ s', zero_loop n buf s = Ok (tt, s') ∧ s' = s <| ts_mem := ts_mem s' |> ∧
  ∀ a, ts_mem s' a = if (buf <=? a) && (a <? buf + Z.of_nat n) then 0 else ts_mem s a.
Proof.
  induction n as [|n IH]; intros buf s.
  - exists s. split; [done|]. split; [by destruct s|]. intros a. by destruct (Z.leb_spec buf a), (Z.ltb_spec a (buf + Z.of_nat 0)); try lia.
  - destruct (IH (buf + 1) (s <| ts_mem ::= <[buf := u8 0]> |>)) as (s' & R & E & M). exists s'.
    split; [exact R|]. split; [by rewrite E|]. intros a. rewrite M. rec_simpl. destruct (decide (buf = a)) as [<-|Hne].
    + rewrite fn_insert_eq. destruct (Z.leb_spec (buf + 1) buf); [lia|]. rewrite (proj2 (Z.leb_le buf buf)), (proj2 (Z.ltb_lt buf (buf + _))) by lia. done.
    + rewrite fn_insert_ne by done. replace (buf + 1 + Z.of_nat n) with (buf + Z.of_nat (S n)) by lia.
      destruct (Z.leb_spec (buf + 1) a), (Z.leb_spec buf a); done || lia.
Qed.
(** A read of the device of zeros fills the buffer, and reports a negative number: that of an error. *)
Theorem memdev_zero_reports_error buf count s : 0 <= count →
  ∃ s', memdev_rw MEMDEV_ZERO buf count READ s = Ok (-1 - count, s') ∧ -1 - count < 0 ∧
    ∀ a, ts_mem s' a = if (buf <=? a) && (a <? buf + count) then 0 else ts_mem s a.
Proof.
  intros Hc. destruct (zero_loop_ok (Z.to_nat count) buf s) as (s' & R & _ & M). rewrite Z2Nat.id in M by done.
  exists s'. split; [|split; [lia|done]]. unfold memdev_rw. change (MEMDEV_ZERO =? MEMDEV_NULL) with false. change (MEMDEV_ZERO =? MEMDEV_ZERO) with true.
  cbv iota. unfold memdev_zero_rw. rewrite (proj2 (Z.ltb_ge count 0)) by done. by rewrite (bind_ok _ _ _ _ _ R).
Qed.

(** A text written to the device of the terminal of the process, or to that of a terminal by its number, is handed to the
    driver of that terminal. *)
Theorem chr_devio_delivers fuel dev n buf l s :
  let t := ts_tab s n in
  DEV_MAJOR dev = TTY_DEV ∧ DEV_MINOR dev = 0 ∧ ts_tty s = n ∨ DEV_MAJOR dev = TTYX_DEV ∧ DEV_MINOR dev = n →
  0 <= n < NR_TTY → t_open t = true → t_stopped t = false →
  tq_head (t_writeq t) = 0 → tq_tail (t_writeq t) = 0 → text_at (ts_mem s) buf l →
  Z.of_nat (length (flat_map (expand t) l)) <= TTY_BUF_SIZE →
  ∃ s', chr_devio fuel dev buf (Z.of_nat (length l)) WRITE s = Ok (Some (Z.of_nat (length l)), s') ∧
    ts_out s' = ts_out s ++ [(n, flat_map (expand t) l)] ∧ ts_mem s' = ts_mem s ∧ ∀ m, m ≠ n → ts_tab s' m = ts_tab s m.
Proof.
  intros t Hdev Hn Ho Hs Hh Ht Hl Hlen.
  destruct (tty_write_text n buf l s Hn (or_introl Ho) Hs Hh Ht Hl Hlen) as (s' & R & O & _ & Mm & Oth).
  exists s'. split; [|done]. unfold chr_devio, is_chardev, chr_dev_table.
  destruct Hdev as [(-> & -> & Hm)|(-> & ->)]; [change (_ || _) with true|]; cbn [negb].
  - change (TTY_DEV =? MEM_DEV) with false. change (TTY_DEV =? TTY_DEV) with true. cbv iota. cbn [d_rw].
    unfold tty_rw. change (negb (0 =? 0)) with false. cbv iota. change ((get ≫= ?m) s) with (m s s). cbv beta. rewrite Hm.
    unfold ttyx_rw. by rewrite (bind_ok _ _ _ _ _ R).
  - change (negb ((TTYX_DEV =? TTY_DEV) || (TTYX_DEV =? TTYX_DEV))) with false. change (TTYX_DEV =? MEM_DEV) with false.
    change (TTYX_DEV =? TTY_DEV) with false. change (TTYX_DEV =? TTYX_DEV) with true. cbv iota. cbn [d_rw].
    unfold ttyx_rw. by rewrite (bind_ok _ _ _ _ _ R).
Qed.
