(* ===== verification/Printk.v ===== *)
(** Printing of the kernel (sys/kernel/printk.c): numerals, the formats of [printk], and the text
    that arrives at the terminal of the kernel. The buffer of [printk] is part of memory; a string
    constant is the list of its bytes without the null byte at the end. *)
From S2P Require Import Prelude Wp Ext2File Console Tty.

Inductive signedness := SIGNED | UNSIGNED.
(** An argument in the list of arguments: an integer or pointer, or a string. *)
Inductive va_arg := VInt (n : Z) | VStr (s : list Z).
Definition PRINTK_BUF : Z := 1024.
Definition digits : list Z := [48; 49; 50; 51; 52; 53; 54; 55; 56; 57; 65; 66; 67; 68; 69; 70; 71; 72; 73; 74; 75; 76; 77; 78; 79; 80; 81; 82; 83; 84; 85; 86; 87; 88; 89; 90].

Section printk.
(** The buffer starts at [buf]. *)
Context (buf : Z).
(** [*p = c;] *)
Definition put_char (p c : Z) : T unit :=
  if (buf <=? p) && (p <? buf + PRINTK_BUF) then modify (λ s, s <| ts_mem ::= <[p := u8 c]> |>) else undef "behind the buffer".
Definition get_char (p : Z) : T Z :=
  if (buf <=? p) && (p <? buf + PRINTK_BUF) then gets (λ s, ts_mem s p) else undef "outside of the buffer".
Definition digit (i : Z) : T Z := if i <? 0 then undef "before digits" else deref (digits !! Z.to_nat i) "behind digits".

Definition reverse_str (s n : Z) : T unit :=
  for_each (Z.of_nat <$> seq 0 (Z.to_nat (Z.shiftr n 1))) (λ i,
    tmp ← get_char (s + i);
    c ← get_char (s + n - i - 1);
    put_char (s + i) c ;;
    put_char (s + n - i - 1) tmp).

(** [do *p++ = digits[n % base]; while ((n /= base));] The remainder has the sign of [n]. *)
Fixpoint itoa_loop (fuel : nat) (p n base : Z) : T Z :=
  match fuel with
  | O => nofuel
  | S fuel =>
      d ← digit (Z.rem n base);
      put_char p d ;;
      let n := Z.quot n base in
      if negb (n =? 0) then itoa_loop fuel (p + 1) n base else mret (p + 1)
  end.
(** Enough for 32 bits in base 2 or more. *)
Definition ITOA_FUEL : nat := 32.
Definition itoa (s n base : Z) (sign : signedness) : T Z :=
  p ← match sign with
      | SIGNED =>
          if (n <? 0) && (base =? 10) then
            if n =? -2147483648 then undef "the negation overflows" else
            put_char s 45 ;; itoa_loop ITOA_FUEL (s + 1) (- n) base
          else itoa_loop ITOA_FUEL s n base
      | UNSIGNED => itoa_loop ITOA_FUEL s (u32 n) base
      end;
  reverse_str s (p - s) ;;
  mret p.

Definition next_int (args : list va_arg) : T (Z * list va_arg) :=
  match args with VInt n :: args => mret (n, args) | _ => undef "no such argument" end.
Fixpoint put_chars (p : Z) (l : list Z) : T Z :=
  match l with [] => mret p | c :: l => put_char p c ;; put_chars (p + 1) l end.
(** A [%] at the end of the format is followed by the null byte, which is taken for a conversion. *)
Fixpoint vsprintf_loop (p : Z) (fmt : list Z) (args : list va_arg) : T Z :=
  match fmt with
  | [] => put_char p 0 ;; mret (p - buf)
  | c :: fmt =>
      if negb (c =? 37) then put_char p c ;; vsprintf_loop (p + 1) fmt args else
      match fmt with
      | [] => put_char p 37 ;; put_char (p + 1) 0 ;; undef "behind the format"
      | c :: fmt =>
          if (c =? 105) || (c =? 100) then '(n, args) ← next_int args; p ← itoa p n 10 SIGNED; vsprintf_loop p fmt args
          else if c =? 111 then '(n, args) ← next_int args; p ← itoa p n 8 SIGNED; vsprintf_loop p fmt args
          else if c =? 117 then '(n, args) ← next_int args; p ← itoa p n 10 UNSIGNED; vsprintf_loop p fmt args
          else if (c =? 120) || (c =? 112) then '(n, args) ← next_int args; p ← itoa p n 16 UNSIGNED; vsprintf_loop p fmt args
          else if c =? 99 then '(n, args) ← next_int args; put_char p n ;; vsprintf_loop (p + 1) fmt args
          else if c =? 115 then
            match args with
            | VStr l :: args => p ← put_chars p l; vsprintf_loop p fmt args
            | _ => undef "no such argument"
            end
          else put_char p 37 ;; put_char (p + 1) c ;; vsprintf_loop (p + 2) fmt args
      end
  end.
Definition vsprintf (fmt : list Z) (args : list va_arg) : T Z := vsprintf_loop buf fmt args.
Definition printk (printk_tty : Z) (fmt : list Z) (args : list va_arg) : T Z :=
  nr ← vsprintf fmt args;
  tty_write printk_tty buf nr.
End printk.

(** ** Numerals *)

(** The character of a digit and the digit of a character. *)
Definition digit_char (d : Z) : Z := if d <? 10 then 48 + d else 55 + d.
Definition char_digit (c : Z) : option Z :=
  if (48 <=? c) && (c <=? 57) then Some (c - 48) else if (65 <=? c) && (c <=? 90) then Some (c - 55) else None.
(** Reads a numeral from left to right. *)
Fixpoint parse_digits (base acc : Z) (l : list Z) : option Z :=
  match l with
  | [] => Some acc
  | c :: l => match char_digit c with Some d => if d <? base then parse_digits base (acc * base + d) l else None | None => None end
  end.
Definition parse_int (base : Z) (l : list Z) : option Z := match l with [] => None | _ => parse_digits base 0 l end.
(** No digit before the first that counts. *)
Definition no_leading_zero (l : list Z) : bool :=
  match l with 48 :: _ :: _ => false | [] => false | _ => true end.

(** The digits of [n], the last one first. *)
Fixpoint digits_le (fuel : nat) (n base : Z) : list Z :=
  match fuel with
  | O => []
  | S fuel => n `mod` base :: if n / base =? 0 then [] else digits_le fuel (n / base) base
  end.
Definition numeral (base n : Z) : list Z := digit_char <$> rev (digits_le ITOA_FUEL n base).

Lemma digits_le_range fuel n base : 0 < base → Forall (λ d, 0 <= d < base) (digits_le fuel n base).
Proof.
  intros Hb. revert n. induction fuel as [|fuel IH]; intros n; simpl; constructor.
  - by apply Z.mod_pos_bound.
  - destruct (_ =? _); [constructor|apply IH].
Qed.
Lemma char_digit_char d : 0 <= d < 36 → char_digit (digit_char d) = Some d.
Proof.
  intros H. unfold char_digit, digit_char. destruct (d <? 10) eqn:E.
  - apply Z.ltb_lt in E. rewrite (proj2 (Z.leb_le 48 _)), (proj2 (Z.leb_le _ 57)) by lia. simpl. f_equal; lia.
  - apply Z.ltb_ge in E. rewrite (proj2 (Z.leb_gt _ 57)) by lia. rewrite andb_false_r.
    rewrite (proj2 (Z.leb_le 65 _)), (proj2 (Z.leb_le _ 90)) by lia. simpl. f_equal; lia.
Qed.
Lemma parse_digits_app base acc l1 l2 :
  parse_digits base acc (l1 ++ l2) = parse_digits base acc l1 ≫= λ acc, parse_digits base acc l2.
Proof.
  revert acc. induction l1 as [|c l1 IH]; intros acc; [done|]. simpl. destruct (char_digit c); [|done].
  by destruct (_ <? _).
Qed.
Lemma digits_le_parse fuel n base : 2 <= base <= 36 → 0 <= n < base ^ Z.of_nat fuel →
  parse_digits base 0 (digit_char <$> rev (digits_le fuel n base)) = Some n.
Proof.
  intros Hb. revert n. induction fuel as [|fuel IH]; intros n Hn; [simpl in *; f_equal; lia|].
  rewrite Nat2Z.inj_succ, Z.pow_succ_r in Hn by lia.
  pose proof (Z.mod_pos_bound n base ltac:(lia)). pose proof (Z.div_mod n base ltac:(lia)).
  assert (0 <= n / base < base ^ Z.of_nat fuel) as Hq.
  { split; [apply Z.div_pos; lia|]. apply Z.div_lt_upper_bound; lia. }
  assert (∀ acc, parse_digits base acc [digit_char (n `mod` base)] = Some (acc * base + n `mod` base)) as Hd.
  { intros acc. simpl. rewrite char_digit_char by lia. by rewrite (proj2 (Z.ltb_lt _ _)) by lia. }
  cbn [digits_le rev]. rewrite fmap_app, parse_digits_app. destruct (n / base =? 0) eqn:E.
  - apply Z.eqb_eq in E. simpl rev. change (parse_digits base 0 (digit_char <$> [])) with (Some 0).
    cbv [mbind option_bind]. rewrite Hd. f_equal. lia.
  - rewrite IH by done. cbv [mbind option_bind]. rewrite Hd. f_equal. lia.
Qed.
(** The first digit of a numeral is not zero, except of zero itself. *)
Lemma digits_le_last fuel n base : 2 <= base → 0 < n < base ^ Z.of_nat fuel →
  ∃ l d, digits_le fuel n base = l ++ [d] ∧ 0 < d < base.
Proof.
  intros Hb. revert n. induction fuel as [|fuel IH]; intros n Hn; [simpl in *; lia|].
  rewrite Nat2Z.inj_succ, Z.pow_succ_r in Hn by lia. cbn [digits_le].
  pose proof (Z.mod_pos_bound n base ltac:(lia)). pose proof (Z.div_mod n base ltac:(lia)).
  destruct (n / base =? 0) eqn:E.
  - apply Z.eqb_eq in E. exists [], (n `mod` base). split; [done|]. lia.
  - apply Z.eqb_neq in E. destruct (IH (n / base)) as (l & d & -> & Hd).
    { pose proof (Z.div_pos n base ltac:(lia) ltac:(lia)). split; [lia|]. apply Z.div_lt_upper_bound; lia. }
    by exists (n `mod` base :: l), d.
Qed.
Lemma pow32 base n : 2 <= base → 0 <= n < 4294967296 → 0 <= n < base ^ Z.of_nat ITOA_FUEL.
Proof. intros Hb Hn. pose proof (Z.pow_le_mono_l 2 base 32 ltac:(lia)). unfold ITOA_FUEL. change (Z.of_nat 32) with 32. lia. Qed.
Lemma digit_char_code d : 0 <= d < 36 → 48 <= digit_char d <= 90 ∧ (digit_char d = 48 ↔ d = 0).
Proof. intros H. unfold digit_char. destruct (d <? 10) eqn:E; [apply Z.ltb_lt in E|apply Z.ltb_ge in E]; lia. Qed.
Lemma digits_le_length fuel n base : (length (digits_le fuel n base) <= fuel)%nat.
Proof. revert n. induction fuel as [|fuel IH]; intros n; simpl; [lia|]. destruct (_ =? _); simpl; [lia|]. specialize (IH (n / base)). lia. Qed.
Lemma numeral_length base n : (length (numeral base n) <= 32)%nat.
Proof. unfold numeral. rewrite length_fmap, length_rev. apply digits_le_length. Qed.
Lemma numeral_spec base n : 2 <= base <= 36 → 0 <= n < 4294967296 →
  parse_int base (numeral base n) = Some n ∧ no_leading_zero (numeral base n) = true.
Proof.
  intros Hb Hn. apply (pow32 base) in Hn; [|lia].
  pose proof (digits_le_parse _ _ _ Hb Hn) as Hp. fold (numeral base n) in Hp.
  destruct (decide (n = 0)) as [-> | Hnz]; [done|].
  destruct (digits_le_last ITOA_FUEL n base ltac:(lia) ltac:(lia)) as (l & d & E & Hd).
  assert (numeral base n = digit_char d :: (digit_char <$> rev l)) as En by (unfold numeral; by rewrite E, rev_app_distr).
  rewrite En in *. split; [done|]. pose proof (digit_char_code d ltac:(lia)).
  simpl. repeat case_match; try done; lia.
Qed.
Lemma numeral_chars base n : 2 <= base <= 36 → Forall (λ c, 48 <= c <= 90) (numeral base n).
Proof.
  intros Hb. unfold numeral. apply Forall_fmap, Forall_rev. eapply Forall_impl; [apply digits_le_range; lia|].
  intros d Hd. simpl in *. apply digit_char_code. lia.
Qed.

(** ** The text in the buffer *)

(** Only the text [l] at [p] is new. *)
Record wrote (p : Z) (l : list Z) (s s' : tstate) : Prop := {
  wr_rest : s' = s <| ts_mem := ts_mem s' |>;
  wr_frame a : a < p ∨ p + Z.of_nat (length l) <= a → ts_mem s' a = ts_mem s a;
  wr_text i c : l !! i = Some c → ts_mem s' (p + Z.of_nat i) = u8 c
}.
Lemma wrote_nil p s : wrote p [] s s.
Proof. split; [by destruct s|done|done]. Qed.
Lemma wrote_app p l1 l2 s s1 s2 : wrote p l1 s s1 → wrote (p + Z.of_nat (length l1)) l2 s1 s2 → wrote p (l1 ++ l2) s s2.
Proof.
  intros [R1 F1 T1] [R2 F2 T2]. split.
  - rewrite R2, R1. done.
  - rewrite length_app. intros a Ha. rewrite F2, F1 by lia. done.
  - intros i c Hi. apply lookup_app_Some in Hi as [Hi | [Hl Hi]].
    + pose proof (lookup_lt_Some _ _ _ Hi). rewrite F2 by lia. by apply T1.
    + rewrite <-(T2 _ _ Hi). f_equal. lia.
Qed.
Lemma u8_idem x : u8 (u8 x) = u8 x.
Proof. unfold u8. by rewrite Z.mod_mod by lia. Qed.

Section spec.
Context (buf : Z).
Definition in_buf (p n : Z) : Prop := buf <= p ∧ p + n <= buf + PRINTK_BUF.
Lemma wp_put_char p c s (Q : unit → tstate → Prop) : in_buf p 1 → (∀ s', wrote p [c] s s' → Q tt s') → wp (put_char buf p c) Q s.
Proof.
  intros [H1 H2] HQ. unfold put_char. rewrite (proj2 (Z.leb_le _ _)), (proj2 (Z.ltb_lt _ _)) by lia. cbn [andb].
  wp_step. apply HQ. split.
  - done.
  - intros a Ha. simpl in *. do 2 rec_simpl. by rewrite fn_insert_ne by lia.
  - intros [|[|i]] c' Hi; simplify_eq/=. rec_simpl. by rewrite Z.add_0_r, fn_insert_eq.
Qed.
Lemma wp_get_char p s (Q : Z → tstate → Prop) : in_buf p 1 → Q (ts_mem s p) s → wp (get_char buf p) Q s.
Proof.
  intros [H1 H2] HQ. unfold get_char. rewrite (proj2 (Z.leb_le _ _)), (proj2 (Z.ltb_lt _ _)) by lia. cbn [andb]. by wp_step.
Qed.
Lemma wp_put_chars p l s (Q : Z → tstate → Prop) : in_buf p (Z.of_nat (length l)) →
  (∀ s', wrote p l s s' → Q (p + Z.of_nat (length l)) s') → wp (put_chars buf p l) Q s.
Proof.
  revert p s Q. induction l as [|c l IH]; intros p s Q [H1 H2] HQ; simpl in *.
  - wp_step. rewrite Z.add_0_r in HQ. apply HQ, wrote_nil.
  - wp_step. apply wp_put_char; [split; lia|]. intros s1 W1. apply IH; [split; lia|]. intros s2 W2.
    replace (p + 1 + Z.of_nat (length l)) with (p + Z.of_nat (S (length l))) by lia.
    apply HQ. by apply (wrote_app p [c] l s s1 s2).
Qed.

(** The text between the places [k] and [n - k] stands as it was, the rest is exchanged. *)
Lemma wp_reverse_str p l s0 s (Q : unit → tstate → Prop) : in_buf p (Z.of_nat (length l)) → wrote p l s0 s →
  (∀ s', wrote p (rev l) s0 s' → Q tt s') → wp (reverse_str buf p (Z.of_nat (length l))) Q s.
Proof.
  intros Hin W HQ. set (n := Z.of_nat (length l)) in *. unfold reverse_str.
  apply (wp_for_range (λ k s', s' = s <| ts_mem := ts_mem s' |> ∧
    (∀ a, ts_mem s' a = ts_mem s (if bool_decide (p <= a < p + k ∨ p + n - k <= a < p + n) then 2 * p + n - 1 - a else a)))).
  - split; [by destruct s|]. intros a. by rewrite bool_decide_eq_false_2 by lia.
  - rewrite Z.shiftr_div_pow2 by lia. change (2 ^ 1) with 2. intros k s1 Hk [R1 M1].
    assert (2 * k < n - 1) by lia. destruct Hin as [? ?].
    wp_step. apply wp_get_char; [split; lia|]. wp_step. apply wp_get_char; [split; lia|].
    wp_step. apply wp_put_char; [split; lia|]. intros s2 W2. apply wp_put_char; [split; lia|]. intros s3 W3.
    assert (∀ a, p <= a < p + n → ts_mem s a = u8 (ts_mem s a)) as Hu.
    { intros a Ha. destruct (lookup_lt_is_Some_2 l (Z.to_nat (a - p))) as [c Hc]; [lia|].
      replace a with (p + Z.of_nat (Z.to_nat (a - p))) by lia. rewrite (wr_text _ _ _ _ W _ _ Hc). by rewrite u8_idem. }
    split; [rewrite (wr_rest _ _ _ _ W3), (wr_rest _ _ _ _ W2), R1; done|]. intros a.
    pose proof (wr_text _ _ _ _ W3 0%nat _ eq_refl) as T3. pose proof (wr_text _ _ _ _ W2 0%nat _ eq_refl) as T2.
    rewrite Z.add_0_r in T2, T3. rewrite M1 in T2, T3. rewrite bool_decide_eq_false_2 in T2, T3 by lia.
    destruct (decide (a = p + n - k - 1)) as [-> | Ha1].
    { rewrite T3, bool_decide_eq_true_2 by lia. rewrite <-Hu by lia. f_equal. lia. }
    rewrite (wr_frame _ _ _ _ W3) by (simpl; lia).
    destruct (decide (a = p + k)) as [-> | Ha2].
    { rewrite T2, bool_decide_eq_true_2 by lia. rewrite <-Hu by lia. f_equal. lia. }
    rewrite (wr_frame _ _ _ _ W2) by (simpl; lia). rewrite M1. f_equal. repeat case_bool_decide; lia.
  - rewrite Z.shiftr_div_pow2 by lia. change (2 ^ 1) with 2. intros s1 [R1 M1]. apply HQ. split.
    + rewrite R1, (wr_rest _ _ _ _ W). done.
    + rewrite length_rev. intros a Ha. rewrite M1, bool_decide_eq_false_2 by lia. by apply W.
    + intros i c Hi. rewrite M1. pose proof (lookup_lt_Some _ _ _ Hi) as Hlt. rewrite length_rev in Hlt.
      assert (l !! (length l - 1 - i)%nat = Some c) as Hi'.
      { rewrite rev_alt in Hi. change (rev_append l []) with (reverse l) in Hi. rewrite reverse_lookup in Hi by lia.
        rewrite <-Hi. f_equal. lia. }
      rewrite <-(wr_text _ _ _ _ W _ _ Hi'). f_equal. case_bool_decide; lia.
Qed.

Lemma digit_ok d s : 0 <= d < 36 → digit d s = Ok (digit_char d, s).
Proof.
  intros Hd. unfold digit. rewrite (proj2 (Z.ltb_ge _ _)) by lia.
  assert (digits !! Z.to_nat d = Some (digit_char d)) as ->; [|done].
  assert (Forall (λ i, digits !! i = Some (digit_char (Z.of_nat i))) (seq 0 36)) as H by (repeat constructor).
  rewrite Forall_forall in H. rewrite H by (apply elem_of_seq; lia). do 2 f_equal. lia.
Qed.
(** The loop writes the digits from the last to the first. *)
Lemma wp_itoa_loop fuel p n base s (Q : Z → tstate → Prop) : 2 <= base <= 36 → 0 <= n < base ^ Z.of_nat fuel → (0 < fuel)%nat →
  let l := digit_char <$> digits_le fuel n base in in_buf p (Z.of_nat (length l)) →
  (∀ s', wrote p l s s' → Q (p + Z.of_nat (length l)) s') → wp (itoa_loop buf fuel p n base) Q s.
Proof.
  intros Hb. revert p n s Q. induction fuel as [|fuel IH]; intros p n s Q Hn Hf l Hin HQ; [lia|].
  subst l. rewrite Nat2Z.inj_succ, Z.pow_succ_r in Hn by lia.
  pose proof (Z.mod_pos_bound n base ltac:(lia)). pose proof (Z.div_mod n base ltac:(lia)).
  assert (0 <= n / base < base ^ Z.of_nat fuel) as Hq by (split; [apply Z.div_pos|apply Z.div_lt_upper_bound]; lia).
  cbn [itoa_loop digits_le] in *. rewrite Z.rem_mod_nonneg, Z.quot_div_nonneg by lia.
  wp_step. eapply wp_run; [apply digit_ok; lia|]. cbn [fmap list_fmap length] in *. destruct Hin as [Hin1 Hin2].
  wp_step. apply wp_put_char; [split; lia|]. intros s1 W1. destruct (n / base =? 0) eqn:E; cbn [negb] in *.
  - wp_step. by apply HQ.
  - apply Z.eqb_neq in E. assert (0 < fuel)%nat by (destruct fuel; simpl in *; lia).
    apply IH; [done|done|split; lia|]. intros s2 W2.
    replace (p + 1 + _) with (p + Z.of_nat (S (length (digit_char <$> digits_le fuel (n / base) base)))) by lia.
    apply HQ. by apply (wrote_app p [digit_char (n `mod` base)] _ s s1 s2).
Qed.
Lemma numeral_rev base n : rev (digit_char <$> digits_le ITOA_FUEL n base) = numeral base n.
Proof. unfold numeral, fmap. by rewrite <-map_rev. Qed.
(** What [itoa] writes: the minus sign of a negative number comes last. *)
Definition itoa_text (base n : Z) (sign : signedness) : list Z :=
  match sign with
  | SIGNED => if n <? 0 then numeral base (- n) ++ [45] else numeral base n
  | UNSIGNED => numeral base (u32 n)
  end.
Definition itoa_pre (base n : Z) (sign : signedness) : Prop :=
  2 <= base <= 36 ∧ match sign with SIGNED => -2147483648 < n < 2147483648 ∧ (base ≠ 10 → 0 <= n) | UNSIGNED => True end.
Lemma wp_itoa p n base sign s (Q : Z → tstate → Prop) : itoa_pre base n sign →
  let l := itoa_text base n sign in in_buf p (Z.of_nat (length l)) →
  (∀ s', wrote p l s s' → Q (p + Z.of_nat (length l)) s') → wp (itoa buf p n base sign) Q s.
Proof.
  intros [Hb Hpre] l Hin HQ. unfold itoa.
  assert (∀ q m s1 (P : Z → tstate → Prop), 0 <= m < 4294967296 → in_buf q (Z.of_nat (length (numeral base m))) →
    (∀ s', wrote q (rev (numeral base m)) s1 s' → P (q + Z.of_nat (length (numeral base m))) s') →
    wp (itoa_loop buf ITOA_FUEL q m base) P s1) as Hloop.
  { intros q m s1 P Hm Hin1 HP. rewrite <-numeral_rev, length_rev in Hin1, HP. rewrite rev_involutive in HP.
    apply wp_itoa_loop; [done|apply pow32; lia|unfold ITOA_FUEL; lia|done|done]. }
  assert (∀ q l0 s1, q = p + Z.of_nat (length l0) → rev l0 = l → wrote p l0 s s1 →
    wp (reverse_str buf p (q - p) ;; mret q) Q s1) as Hrev.
  { intros q l0 s1 -> El W. assert (length l0 = length l) as Hlen by (by rewrite <-El, length_rev).
    replace (p + Z.of_nat (length l0) - p) with (Z.of_nat (length l0)) by lia. wp_step.
    apply (wp_reverse_str p l0 s); [by rewrite Hlen|done|]. intros s2 W2. wp_step. rewrite Hlen. apply HQ. by rewrite <-El. }
  wp_step. subst l. destruct sign; cbn [itoa_text] in *.
  - destruct (n <? 0) eqn:E; cbn [andb].
    + apply Z.ltb_lt in E. destruct (decide (base = 10)) as [-> | Hne]; [|lia]. cbn [Z.eqb andb Pos.eqb].
      rewrite (proj2 (Z.eqb_neq n _)) by lia. rewrite length_app in Hin. destruct Hin as [Hin1 Hin2]. cbn [length] in Hin2.
      wp_step. apply wp_put_char; [split; lia|]. intros s1 W1. apply Hloop; [lia|split; lia|]. intros s2 W2.
      apply (Hrev _ (45 :: rev (numeral 10 (- n)))).
      * cbn [length]. rewrite length_rev. lia.
      * cbn [rev]. by rewrite rev_involutive.
      * by apply (wrote_app p [45] _ s s1 s2).
    + apply Z.ltb_ge in E. apply Hloop; [lia|done|]. intros s2 W2.
      apply (Hrev _ (rev (numeral base n))); [by rewrite length_rev|by rewrite rev_involutive|done].
  - apply Hloop; [unfold u32; lia|done|]. intros s2 W2.
    apply (Hrev _ (rev (numeral base (u32 n)))); [by rewrite length_rev|by rewrite rev_involutive|done].
Qed.

(** *** Formats *)

Definition int_arg (args : list va_arg) (f : Z → option (list Z)) : option (list Z * list va_arg) :=
  match args with VInt n :: args => text ← f n; Some (text, args) | _ => None end.
(** The text of a conversion, where it is defined. *)
Definition conversion (c : Z) (args : list va_arg) : option (list Z * list va_arg) :=
  if (c =? 105) || (c =? 100) then
    int_arg args (λ n, if (-2147483648 <? n) && (n <? 2147483648) then Some (itoa_text 10 n SIGNED) else None)
  else if c =? 111 then int_arg args (λ n, if (0 <=? n) && (n <? 2147483648) then Some (numeral 8 n) else None)
  else if c =? 117 then int_arg args (λ n, Some (numeral 10 (u32 n)))
  else if (c =? 120) || (c =? 112) then int_arg args (λ n, Some (numeral 16 (u32 n)))
  else if c =? 99 then int_arg args (λ n, Some [s8 n])
  else if c =? 115 then match args with VStr l :: args => Some (l, args) | _ => None end
  else Some ([37; c], args).
Fixpoint format_text (fmt : list Z) (args : list va_arg) : option (list Z) :=
  match fmt with
  | [] => Some []
  | c :: fmt =>
      if negb (c =? 37) then cons c <$> format_text fmt args else
      match fmt with
      | [] => None
      | c :: fmt => '(text, args) ← conversion c args; app text <$> format_text fmt args
      end
  end.
Lemma wp_put_char_s8 p n s (Q : unit → tstate → Prop) : in_buf p 1 → (∀ s', wrote p [s8 n] s s' → Q tt s') → wp (put_char buf p n) Q s.
Proof.
  intros Hin HQ. apply wp_put_char; [done|]. intros s' W. apply HQ. split; [apply W|apply W|].
  intros [|[|i]] c Hi; simplify_eq/=. rewrite (wr_text _ _ _ _ W 0%nat n eq_refl). unfold u8, s8. lia.
Qed.
Lemma int_arg_inv args f text args' : int_arg args f = Some (text, args') → ∃ n, args = VInt n :: args' ∧ f n = Some text.
Proof. unfold int_arg. destruct args as [|[n|l] args]; simpl; [done| |done]. destruct (f n) eqn:E; simpl; [|done]. intros [= <- <-]. eauto. Qed.

(** The text of the format and the null byte stand in the buffer. *)
Lemma wp_vsprintf_loop fmt : ∀ args text p s (Q : Z → tstate → Prop), format_text fmt args = Some text →
  in_buf p (Z.of_nat (length text) + 1) → (∀ s', wrote p (text ++ [0]) s s' → Q (p + Z.of_nat (length text) - buf) s') →
  wp (vsprintf_loop buf p fmt args) Q s.
Proof.
  induction fmt as [fmt IH] using (induction_ltof1 _ (@length Z)). unfold ltof in IH.
  intros args text p s Q E Hin HQ. destruct fmt as [|c fmt]; cbn [format_text vsprintf_loop] in *.
  { injection E as <-. cbn [length app] in *. rewrite Z.add_0_r in HQ. wp_step. apply wp_put_char; [exact Hin|]. intros s1 W1.
    wp_step. by apply HQ. }
  assert (∀ l fmt' args' rest q s1, (length fmt' < length (c :: fmt))%nat → format_text fmt' args' = Some rest → text = l ++ rest →
    wrote p l s s1 → q = p + Z.of_nat (length l) → wp (vsprintf_loop buf q fmt' args') Q s1) as Hnext.
  { intros l fmt' args' rest q s1 Hlt E' -> W ->. rewrite length_app in Hin, HQ. destruct Hin as [Hin1 Hin2].
    apply (IH fmt' Hlt _ rest); [done|split; lia|]. intros s2 W2.
    replace (p + Z.of_nat (length l) + Z.of_nat (length rest) - buf) with (p + Z.of_nat (length l + length rest) - buf) by lia.
    apply HQ. rewrite <-app_assoc. by apply (wrote_app p l _ s s1 s2). }
  destruct (c =? 37) eqn:Ec; cbn [negb] in *; last first.
  { apply fmap_Some in E as (rest & E & ->). cbn [length] in Hin. destruct Hin as [Hin1 Hin2].
    wp_step. apply wp_put_char; [split; lia|]. intros s1 W1. apply (Hnext [c] fmt args rest); done || (simpl; lia). }
  destruct fmt as [|d fmt]; [done|]. apply bind_Some in E as ([l args'] & Ed & E). apply fmap_Some in E as (rest & E & Et).
  assert (in_buf p (Z.of_nat (length l))) as Hl.
  { rewrite Et, length_app in Hin. destruct Hin as [? ?]. split; lia. }
  specialize (λ q s1, Hnext l fmt args' rest q s1 ltac:(simpl; lia) E Et). clear IH HQ.
  assert (∀ base n sign, itoa_pre base n sign → itoa_text base n sign = l →
    wp (itoa buf p n base sign ≫= λ q, vsprintf_loop buf q fmt args') Q s) as Hitoa.
  { intros base n sign Hpre El. wp_step. apply wp_itoa; [done|by rewrite El|]. rewrite El. intros s1 W1. by apply Hnext. }
  unfold conversion in Ed.
  repeat match goal with |- context [if ?b then _ else _] => destruct b eqn:? end;
    try (apply int_arg_inv in Ed as (n & -> & Ed); cbn [next_int]; wp_step; wp_step).
  - destruct (_ && _) eqn:Hn in Ed; [|done]. apply andb_prop in Hn as [? ?]. injection Ed as Ed.
    apply Hitoa; [|done]. split; lia.
  - destruct (_ && _) eqn:Hn in Ed; [|done]. apply andb_prop in Hn as [? ?]. injection Ed as Ed.
    apply Hitoa; [split; lia|]. simpl. by rewrite (proj2 (Z.ltb_ge n 0)) by lia.
  - injection Ed as Ed. apply Hitoa; [split; [lia|done]|done].
  - injection Ed as Ed. apply Hitoa; [split; [lia|done]|done].
  - injection Ed as <-. wp_step. apply wp_put_char_s8; [done|]. intros s1 W1. by apply Hnext.
  - destruct args as [|[n|l'] args]; [done|done|]. injection Ed as -> ->. wp_step. apply wp_put_chars; [done|].
    intros s1 W1. by apply Hnext.
  - injection Ed as <- ->. cbn [length] in Hl. destruct Hl as [Hl1 Hl2].
    wp_step. apply wp_put_char; [split; lia|]. intros s1 W1. wp_step. apply wp_put_char; [split; lia|]. intros s2 W2.
    apply Hnext; [by apply (wrote_app p [37] [d] s s1 s2)|simpl; lia].
Qed.
End spec.

(** C14: [itoa] ends for every base up to 36 and every number of 32 bits that its branch accepts, and
    what it writes reads back: the numeral of the number, without leading zeros, each digit below
    the base. The sign of a negative number stands behind its digits. Nothing else changes. *)
Theorem itoa_reads_back buf p n base sign s : itoa_pre base n sign → buf <= p → p + 33 <= buf + PRINTK_BUF →
  let v := match sign with SIGNED => n | UNSIGNED => u32 n end in
  ∃ l s', itoa buf p n base sign s = Ok (p + Z.of_nat (length l), s') ∧ wrote p l s s' ∧
    if v <? 0 then ∃ d, l = d ++ [45] ∧ parse_int base d = Some (- v) ∧ no_leading_zero d = true
    else parse_int base l = Some v ∧ no_leading_zero l = true.
Proof.
  intros Hpre Hp Hfit v. set (l := itoa_text base n sign).
  assert (length l <= 33)%nat as Hlen.
  { subst l. destruct sign; simpl; [destruct (n <? 0); [rewrite length_app; simpl|]|];
      match goal with |- context [numeral ?b ?m] => pose proof (numeral_length b m) end; lia. }
  destruct (wp_itoa buf p n base sign s (λ q s', q = p + Z.of_nat (length l) ∧ wrote p l s s') Hpre) as (q & s' & R & -> & W).
  { fold l. split; lia. } { done. }
  exists l, s'. split; [done|]. split; [done|]. subst l v. destruct Hpre as [Hb Hn]. destruct sign; simpl.
  - destruct (n <? 0) eqn:E; [|apply Z.ltb_ge in E; apply numeral_spec; lia]. apply Z.ltb_lt in E.
    exists (numeral base (- n)). split; [done|]. apply numeral_spec; lia.
  - assert (0 <= u32 n < 4294967296) by (unfold u32; lia). rewrite (proj2 (Z.ltb_ge _ 0)) by lia. by apply numeral_spec.
Qed.

(** C13: a call of [printk] ends, writes to no memory but its buffer, and hands the text of the format
    to the terminal as a whole, where the conversions are defined and the text fits into the buffer
    and the write queue. *)
Theorem printk_delivers buf n fmt args text s : let t := ts_tab s n in 0 <= n < NR_TTY → t_open t = true ∨ n = DEBUG_TTY →
  t_stopped t = false → tq_head (t_writeq t) = 0 → tq_tail (t_writeq t) = 0 →
  format_text fmt args = Some text → Z.of_nat (length text) < PRINTK_BUF → Forall (λ c, s8 c = c ∧ c ≠ 0) text →
  Z.of_nat (length (flat_map (expand t) text)) <= TTY_BUF_SIZE →
  ∃ s', printk buf n fmt args s = Ok (Z.of_nat (length text), s') ∧
    ts_out s' = ts_out s ++ [(n, flat_map (expand t) text)] ∧ tty_queue_empty (t_writeq (ts_tab s' n)) = true ∧
    (∀ m, m ≠ n → ts_tab s' m = ts_tab s m) ∧ ∀ a, a < buf ∨ buf + PRINTK_BUF <= a → ts_mem s' a = ts_mem s a.
Proof.
  intros t Hn Hopen Hst Hh Ht E Hlen Hc Hfit. unfold printk, vsprintf.
  destruct (wp_vsprintf_loop buf fmt args text buf s (λ r s', r = Z.of_nat (length text) ∧ wrote buf (text ++ [0]) s s') E)
    as (r & s1 & R & -> & W).
  { split; lia. } { intros s' W. split; [lia|done]. }
  rewrite (bind_ok _ _ _ _ _ R).
  assert (ts_tab s1 = ts_tab s) as Et by (rewrite (wr_rest _ _ _ _ W); by rec_simpl).
  assert (ts_out s1 = ts_out s) as Eo by (rewrite (wr_rest _ _ _ _ W); by rec_simpl).
  pose proof (wr_frame _ _ _ _ W) as F. rewrite length_app in F. simpl in F.
  assert (text_at (ts_mem s1) buf text) as Htext.
  { intros i c Hi. rewrite Forall_lookup in Hc. destruct (Hc i c Hi) as [Hs Hz]. split; [|done].
    rewrite (wr_text _ _ _ _ W i c) by (apply lookup_app_l_Some; done). rewrite <-Hs at 2. unfold s8, u8. lia. }
  destruct (tty_write_text n buf text s1 Hn) as (s2 & R2 & O2 & Q2 & M2 & T2); rewrite ?Et; try done.
  exists s2. split; [done|]. rewrite O2, Eo, Et. split; [done|]. split; [done|]. split; [intros m Hm; by rewrite T2, Et|].
  intros a Ha. rewrite M2. apply F. lia.
Qed.

(** ** A message and a negative number *)
Module PrintkDemo.
Definition fmt : list Z := [110; 61; 37; 100; 44; 32; 37; 120; 32; 37; 115; 10].
Definition args : list va_arg := [VInt 42; VInt 48879; VStr [111; 107]].
(** The text n=42, BEEF ok and the end of the line. *)
Lemma demo_format : format_text fmt args = Some [110; 61; 52; 50; 44; 32; 66; 69; 69; 70; 32; 111; 107; 10].
Proof. reflexivity. Qed.
End PrintkDemo.
Lemma printk_delivers_witness : ∃ s', printk 9000 DEBUG_TTY PrintkDemo.fmt PrintkDemo.args (TtyDemo.demo []) = Ok (14, s') ∧
  ts_out s' = [(DEBUG_TTY, [110; 61; 52; 50; 44; 32; 66; 69; 69; 70; 32; 111; 107; 13; 10])].
Proof.
  destruct (printk_delivers 9000 DEBUG_TTY PrintkDemo.fmt PrintkDemo.args [110; 61; 52; 50; 44; 32; 66; 69; 69; 70; 32; 111; 107; 10] (TtyDemo.demo []))
    as (s' & R & O & _); [done|by right|done|done|done|apply PrintkDemo.demo_format|by vm_compute|
      repeat constructor; done|by vm_compute|].
  exists s'. split; [exact R|exact O].
Defined.
(** The digits of -12 read back as 12; the sign follows them. *)
Lemma itoa_reads_back_witness : ∃ d s', itoa 9000 9000 (-12) 10 SIGNED (TtyDemo.demo []) = Ok (9000 + Z.of_nat (length (d ++ [45])), s') ∧
  wrote 9000 (d ++ [45]) (TtyDemo.demo []) s' ∧ parse_int 10 d = Some 12.
Proof.
  destruct (itoa_reads_back 9000 9000 (-12) 10 SIGNED (TtyDemo.demo [])) as (l & s' & R & W & d & -> & Hp & _);
    [repeat split; lia|lia|unfold PRINTK_BUF; lia|].
  exists d, s'. split; [exact R|]. split; [exact W|exact Hp].
Defined.
