(* ===== verification/Keyboard.v ===== *)
(** The keyboard (sys/drivers/keyboard.c, sys/drivers/ps2_kbd.c): scan codes of set 1, the keys they
    stand for, the modifiers, and the characters that go to the terminal of the running process.
    The interrupt reads one byte of the controller, an argument here. The tables are those of
    sys/include/drivers/keycode.h and sys/drivers/defkeymap.h. Where the driver reports an unused
    key it calls [printk], with a buffer at [buf]; [debug_dump] is the output of F12. *)
From S2P Require Import Prelude Ext2File Console Tty Printk.

(** The key at a place of the keyboard, and what a key does. *)
Inductive keycode_raw :=
  KEY_RAW_NONE | KEY_RAW_ESC | KEY_RAW_F1 | KEY_RAW_F2 | KEY_RAW_F3 | KEY_RAW_F4 | KEY_RAW_F5 | KEY_RAW_F6 |
  KEY_RAW_F7 | KEY_RAW_F8 | KEY_RAW_F9 | KEY_RAW_F10 | KEY_RAW_F11 | KEY_RAW_F12 | KEY_RAW_PRINT_SCREEN |
  KEY_RAW_SCROLL_LOCK | KEY_RAW_PAUSE_BREAK | KEY_RAW_BACK_TICK | KEY_RAW_1 | KEY_RAW_2 | KEY_RAW_3 |
  KEY_RAW_4 | KEY_RAW_5 | KEY_RAW_6 | KEY_RAW_7 | KEY_RAW_8 | KEY_RAW_9 | KEY_RAW_0 | KEY_RAW_MINUS |
  KEY_RAW_EQUALS | KEY_RAW_BACKSPACE | KEY_RAW_INSERT | KEY_RAW_HOME | KEY_RAW_PAGE_UP | KEY_RAW_TAB |
  KEY_RAW_Q | KEY_RAW_W | KEY_RAW_E | KEY_RAW_R | KEY_RAW_T | KEY_RAW_Y | KEY_RAW_U | KEY_RAW_I | KEY_RAW_O |
  KEY_RAW_P | KEY_RAW_LSQR_BRACKET | KEY_RAW_RSQR_BRACKET | KEY_RAW_BACKSLASH | KEY_RAW_DELETE | KEY_RAW_END |
  KEY_RAW_PAGE_DOWN | KEY_RAW_CAPS_LOCK | KEY_RAW_A | KEY_RAW_S | KEY_RAW_D | KEY_RAW_F | KEY_RAW_G |
  KEY_RAW_H | KEY_RAW_J | KEY_RAW_K | KEY_RAW_L | KEY_RAW_SEMI_COLON | KEY_RAW_QUOTE | KEY_RAW_ENTER |
  KEY_RAW_LSHIFT | KEY_RAW_Z | KEY_RAW_X | KEY_RAW_C | KEY_RAW_V | KEY_RAW_B | KEY_RAW_N | KEY_RAW_M |
  KEY_RAW_COMMA | KEY_RAW_DOT | KEY_RAW_SLASH | KEY_RAW_RSHIFT | KEY_RAW_LCTRL | KEY_RAW_LSUPER |
  KEY_RAW_RSUPER | KEY_RAW_LALT | KEY_RAW_SPACE | KEY_RAW_RALT | KEY_RAW_RCTRL | KEY_RAW_ARROW_UP |
  KEY_RAW_ARROW_DOWN | KEY_RAW_ARROW_LEFT | KEY_RAW_ARROW_RIGHT | KEY_RAW_NUM_LOCK | KEY_RAW_PAD_SLASH |
  KEY_RAW_PAD_STAR | KEY_RAW_PAD_MINUS | KEY_RAW_PAD_7 | KEY_RAW_PAD_8 | KEY_RAW_PAD_9 | KEY_RAW_PAD_4 |
  KEY_RAW_PAD_5 | KEY_RAW_PAD_6 | KEY_RAW_PAD_1 | KEY_RAW_PAD_2 | KEY_RAW_PAD_3 | KEY_RAW_PAD_PLUS |
  KEY_RAW_PAD_ENTER | KEY_RAW_PAD_0 | KEY_RAW_PAD_DOT | KEY_RAW_MM_PREVIOUS | KEY_RAW_MM_NEXT |
  KEY_RAW_MM_MUTE | KEY_RAW_MM_CALCULATOR | KEY_RAW_MM_PLAY | KEY_RAW_MM_STOP | KEY_RAW_MM_DOWN |
  KEY_RAW_MM_UP | KEY_RAW_MM_WWW_HOME | KEY_RAW_APPS | KEY_RAW_ACPI_POWER | KEY_RAW_ACPI_SLEEP |
  KEY_RAW_ACPI_WAKE | KEY_RAW_MM_WWW_SEARCH | KEY_RAW_MM_WWW_FAVORITES | KEY_RAW_MM_WWW_REFRESH |
  KEY_RAW_MM_WWW_STOP | KEY_RAW_MM_WWW_FORWARD | KEY_RAW_MM_WWW_BACK | KEY_RAW_MM_WWW_MY_COMP |
  KEY_RAW_MM_WWW_EMAIL | KEY_RAW_MM_WWW_MEDIA_SEL.
(** The number of a key is its place in the enumeration. *)
Definition raw_number (k : keycode_raw) : Z :=
  match k with
  | KEY_RAW_NONE => 0| KEY_RAW_ESC => 1| KEY_RAW_F1 => 2| KEY_RAW_F2 => 3| KEY_RAW_F3 => 4| KEY_RAW_F4 => 5
  | KEY_RAW_F5 => 6| KEY_RAW_F6 => 7| KEY_RAW_F7 => 8| KEY_RAW_F8 => 9| KEY_RAW_F9 => 10| KEY_RAW_F10 => 11
  | KEY_RAW_F11 => 12| KEY_RAW_F12 => 13| KEY_RAW_PRINT_SCREEN => 14| KEY_RAW_SCROLL_LOCK => 15
  | KEY_RAW_PAUSE_BREAK => 16| KEY_RAW_BACK_TICK => 17| KEY_RAW_1 => 18| KEY_RAW_2 => 19| KEY_RAW_3 => 20
  | KEY_RAW_4 => 21| KEY_RAW_5 => 22| KEY_RAW_6 => 23| KEY_RAW_7 => 24| KEY_RAW_8 => 25| KEY_RAW_9 => 26
  | KEY_RAW_0 => 27| KEY_RAW_MINUS => 28| KEY_RAW_EQUALS => 29| KEY_RAW_BACKSPACE => 30| KEY_RAW_INSERT => 31
  | KEY_RAW_HOME => 32| KEY_RAW_PAGE_UP => 33| KEY_RAW_TAB => 34| KEY_RAW_Q => 35| KEY_RAW_W => 36
  | KEY_RAW_E => 37| KEY_RAW_R => 38| KEY_RAW_T => 39| KEY_RAW_Y => 40| KEY_RAW_U => 41| KEY_RAW_I => 42
  | KEY_RAW_O => 43| KEY_RAW_P => 44| KEY_RAW_LSQR_BRACKET => 45| KEY_RAW_RSQR_BRACKET => 46
  | KEY_RAW_BACKSLASH => 47| KEY_RAW_DELETE => 48| KEY_RAW_END => 49| KEY_RAW_PAGE_DOWN => 50
  | KEY_RAW_CAPS_LOCK => 51| KEY_RAW_A => 52| KEY_RAW_S => 53| KEY_RAW_D => 54| KEY_RAW_F => 55
  | KEY_RAW_G => 56| KEY_RAW_H => 57| KEY_RAW_J => 58| KEY_RAW_K => 59| KEY_RAW_L => 60
  | KEY_RAW_SEMI_COLON => 61| KEY_RAW_QUOTE => 62| KEY_RAW_ENTER => 63| KEY_RAW_LSHIFT => 64| KEY_RAW_Z => 65
  | KEY_RAW_X => 66| KEY_RAW_C => 67| KEY_RAW_V => 68| KEY_RAW_B => 69| KEY_RAW_N => 70| KEY_RAW_M => 71
  | KEY_RAW_COMMA => 72| KEY_RAW_DOT => 73| KEY_RAW_SLASH => 74| KEY_RAW_RSHIFT => 75| KEY_RAW_LCTRL => 76
  | KEY_RAW_LSUPER => 77| KEY_RAW_RSUPER => 78| KEY_RAW_LALT => 79| KEY_RAW_SPACE => 80| KEY_RAW_RALT => 81
  | KEY_RAW_RCTRL => 82| KEY_RAW_ARROW_UP => 83| KEY_RAW_ARROW_DOWN => 84| KEY_RAW_ARROW_LEFT => 85
  | KEY_RAW_ARROW_RIGHT => 86| KEY_RAW_NUM_LOCK => 87| KEY_RAW_PAD_SLASH => 88| KEY_RAW_PAD_STAR => 89
  | KEY_RAW_PAD_MINUS => 90| KEY_RAW_PAD_7 => 91| KEY_RAW_PAD_8 => 92| KEY_RAW_PAD_9 => 93
  | KEY_RAW_PAD_4 => 94| KEY_RAW_PAD_5 => 95| KEY_RAW_PAD_6 => 96| KEY_RAW_PAD_1 => 97| KEY_RAW_PAD_2 => 98
  | KEY_RAW_PAD_3 => 99| KEY_RAW_PAD_PLUS => 100| KEY_RAW_PAD_ENTER => 101| KEY_RAW_PAD_0 => 102
  | KEY_RAW_PAD_DOT => 103| KEY_RAW_MM_PREVIOUS => 104| KEY_RAW_MM_NEXT => 105| KEY_RAW_MM_MUTE => 106
  | KEY_RAW_MM_CALCULATOR => 107| KEY_RAW_MM_PLAY => 108| KEY_RAW_MM_STOP => 109| KEY_RAW_MM_DOWN => 110
  | KEY_RAW_MM_UP => 111| KEY_RAW_MM_WWW_HOME => 112| KEY_RAW_APPS => 113| KEY_RAW_ACPI_POWER => 114
  | KEY_RAW_ACPI_SLEEP => 115| KEY_RAW_ACPI_WAKE => 116| KEY_RAW_MM_WWW_SEARCH => 117
  | KEY_RAW_MM_WWW_FAVORITES => 118| KEY_RAW_MM_WWW_REFRESH => 119| KEY_RAW_MM_WWW_STOP => 120
  | KEY_RAW_MM_WWW_FORWARD => 121| KEY_RAW_MM_WWW_BACK => 122| KEY_RAW_MM_WWW_MY_COMP => 123
  | KEY_RAW_MM_WWW_EMAIL => 124| KEY_RAW_MM_WWW_MEDIA_SEL => 125
  end.
Inductive k_handler := K_DO_SELF | K_DO_FN | K_DO_MOD | K_DO_NONE.
Definition handler_number (h : k_handler) : Z := match h with K_DO_SELF => 0 | K_DO_FN => 1 | K_DO_MOD => 2 | K_DO_NONE => 3 end.
Definition key_handler (k : keycode_raw) : k_handler :=
  match k with
  | KEY_RAW_F1 | KEY_RAW_F2 | KEY_RAW_F3 | KEY_RAW_F4 | KEY_RAW_F5 | KEY_RAW_F6 | KEY_RAW_F7 | KEY_RAW_F8
  | KEY_RAW_F9 | KEY_RAW_F10 | KEY_RAW_F11 | KEY_RAW_F12 | KEY_RAW_INSERT | KEY_RAW_HOME | KEY_RAW_PAGE_UP
  | KEY_RAW_BACKSLASH | KEY_RAW_DELETE | KEY_RAW_END | KEY_RAW_PAGE_DOWN | KEY_RAW_ARROW_UP
  | KEY_RAW_ARROW_DOWN | KEY_RAW_ARROW_LEFT | KEY_RAW_ARROW_RIGHT => K_DO_FN
  | KEY_RAW_CAPS_LOCK | KEY_RAW_LSHIFT | KEY_RAW_RSHIFT | KEY_RAW_LCTRL | KEY_RAW_LALT | KEY_RAW_RALT
  | KEY_RAW_RCTRL | KEY_RAW_NUM_LOCK => K_DO_MOD
  | KEY_RAW_NONE | KEY_RAW_PRINT_SCREEN | KEY_RAW_SCROLL_LOCK | KEY_RAW_PAUSE_BREAK | KEY_RAW_BACK_TICK
  | KEY_RAW_LSUPER | KEY_RAW_RSUPER | KEY_RAW_MM_PREVIOUS | KEY_RAW_MM_NEXT | KEY_RAW_MM_MUTE
  | KEY_RAW_MM_CALCULATOR | KEY_RAW_MM_PLAY | KEY_RAW_MM_STOP | KEY_RAW_MM_DOWN | KEY_RAW_MM_UP
  | KEY_RAW_MM_WWW_HOME | KEY_RAW_APPS | KEY_RAW_ACPI_POWER | KEY_RAW_ACPI_SLEEP | KEY_RAW_ACPI_WAKE
  | KEY_RAW_MM_WWW_SEARCH | KEY_RAW_MM_WWW_FAVORITES | KEY_RAW_MM_WWW_REFRESH | KEY_RAW_MM_WWW_STOP
  | KEY_RAW_MM_WWW_FORWARD | KEY_RAW_MM_WWW_BACK | KEY_RAW_MM_WWW_MY_COMP | KEY_RAW_MM_WWW_EMAIL
  | KEY_RAW_MM_WWW_MEDIA_SEL => K_DO_NONE
  | _ => K_DO_SELF
  end.
Definition scancode_set1 : list keycode_raw := [
  KEY_RAW_NONE; KEY_RAW_ESC; KEY_RAW_1; KEY_RAW_2; KEY_RAW_3; KEY_RAW_4; KEY_RAW_5; KEY_RAW_6; KEY_RAW_7;
  KEY_RAW_8; KEY_RAW_9; KEY_RAW_0; KEY_RAW_MINUS; KEY_RAW_EQUALS; KEY_RAW_BACKSPACE; KEY_RAW_TAB; KEY_RAW_Q;
  KEY_RAW_W; KEY_RAW_E; KEY_RAW_R; KEY_RAW_T; KEY_RAW_Y; KEY_RAW_U; KEY_RAW_I; KEY_RAW_O; KEY_RAW_P;
  KEY_RAW_LSQR_BRACKET; KEY_RAW_RSQR_BRACKET; KEY_RAW_ENTER; KEY_RAW_LCTRL; KEY_RAW_A; KEY_RAW_S; KEY_RAW_D;
  KEY_RAW_F; KEY_RAW_G; KEY_RAW_H; KEY_RAW_J; KEY_RAW_K; KEY_RAW_L; KEY_RAW_SEMI_COLON; KEY_RAW_QUOTE;
  KEY_RAW_BACK_TICK; KEY_RAW_LSHIFT; KEY_RAW_BACKSLASH; KEY_RAW_Z; KEY_RAW_X; KEY_RAW_C; KEY_RAW_V; KEY_RAW_B;
  KEY_RAW_N; KEY_RAW_M; KEY_RAW_COMMA; KEY_RAW_DOT; KEY_RAW_SLASH; KEY_RAW_RSHIFT; KEY_RAW_PAD_STAR;
  KEY_RAW_LALT; KEY_RAW_SPACE; KEY_RAW_CAPS_LOCK; KEY_RAW_F1; KEY_RAW_F2; KEY_RAW_F3; KEY_RAW_F4; KEY_RAW_F5;
  KEY_RAW_F6; KEY_RAW_F7; KEY_RAW_F8; KEY_RAW_F9; KEY_RAW_F10; KEY_RAW_NUM_LOCK; KEY_RAW_SCROLL_LOCK;
  KEY_RAW_PAD_7; KEY_RAW_PAD_8; KEY_RAW_PAD_9; KEY_RAW_PAD_MINUS; KEY_RAW_PAD_4; KEY_RAW_PAD_5; KEY_RAW_PAD_6;
  KEY_RAW_PAD_PLUS; KEY_RAW_PAD_1; KEY_RAW_PAD_2; KEY_RAW_PAD_3; KEY_RAW_PAD_0; KEY_RAW_PAD_DOT; KEY_RAW_NONE;
  KEY_RAW_NONE; KEY_RAW_NONE; KEY_RAW_F11; KEY_RAW_F12].
Definition scancode_set1_ext : list keycode_raw := [
  KEY_RAW_NONE; KEY_RAW_NONE; KEY_RAW_NONE; KEY_RAW_NONE; KEY_RAW_NONE; KEY_RAW_NONE; KEY_RAW_NONE;
  KEY_RAW_NONE; KEY_RAW_NONE; KEY_RAW_NONE; KEY_RAW_NONE; KEY_RAW_NONE; KEY_RAW_NONE; KEY_RAW_NONE;
  KEY_RAW_NONE; KEY_RAW_NONE; KEY_RAW_MM_PREVIOUS; KEY_RAW_NONE; KEY_RAW_NONE; KEY_RAW_NONE; KEY_RAW_NONE;
  KEY_RAW_NONE; KEY_RAW_NONE; KEY_RAW_NONE; KEY_RAW_NONE; KEY_RAW_MM_NEXT; KEY_RAW_NONE; KEY_RAW_NONE;
  KEY_RAW_PAD_ENTER; KEY_RAW_RCTRL; KEY_RAW_NONE; KEY_RAW_NONE; KEY_RAW_MM_MUTE; KEY_RAW_MM_CALCULATOR;
  KEY_RAW_MM_PLAY; KEY_RAW_NONE; KEY_RAW_MM_STOP; KEY_RAW_NONE; KEY_RAW_NONE; KEY_RAW_NONE; KEY_RAW_NONE;
  KEY_RAW_NONE; KEY_RAW_NONE; KEY_RAW_NONE; KEY_RAW_NONE; KEY_RAW_NONE; KEY_RAW_MM_DOWN; KEY_RAW_NONE;
  KEY_RAW_MM_UP; KEY_RAW_NONE; KEY_RAW_MM_WWW_HOME; KEY_RAW_NONE; KEY_RAW_NONE; KEY_RAW_PAD_SLASH;
  KEY_RAW_NONE; KEY_RAW_NONE; KEY_RAW_RALT; KEY_RAW_NONE; KEY_RAW_NONE; KEY_RAW_NONE; KEY_RAW_NONE;
  KEY_RAW_NONE; KEY_RAW_NONE; KEY_RAW_NONE; KEY_RAW_NONE; KEY_RAW_NONE; KEY_RAW_NONE; KEY_RAW_NONE;
  KEY_RAW_NONE; KEY_RAW_NONE; KEY_RAW_NONE; KEY_RAW_HOME; KEY_RAW_ARROW_UP; KEY_RAW_PAGE_UP; KEY_RAW_NONE;
  KEY_RAW_ARROW_LEFT; KEY_RAW_NONE; KEY_RAW_ARROW_RIGHT; KEY_RAW_NONE; KEY_RAW_END; KEY_RAW_ARROW_DOWN;
  KEY_RAW_PAGE_UP; KEY_RAW_INSERT; KEY_RAW_DELETE; KEY_RAW_NONE; KEY_RAW_NONE; KEY_RAW_NONE; KEY_RAW_NONE;
  KEY_RAW_NONE; KEY_RAW_NONE; KEY_RAW_NONE; KEY_RAW_LSUPER; KEY_RAW_RSUPER; KEY_RAW_APPS; KEY_RAW_ACPI_POWER;
  KEY_RAW_ACPI_SLEEP; KEY_RAW_NONE; KEY_RAW_NONE; KEY_RAW_NONE; KEY_RAW_ACPI_WAKE; KEY_RAW_NONE;
  KEY_RAW_MM_WWW_SEARCH; KEY_RAW_MM_WWW_FAVORITES; KEY_RAW_MM_WWW_REFRESH; KEY_RAW_MM_WWW_STOP;
  KEY_RAW_MM_WWW_FORWARD; KEY_RAW_MM_WWW_BACK; KEY_RAW_MM_WWW_MY_COMP; KEY_RAW_MM_WWW_EMAIL;
  KEY_RAW_MM_WWW_MEDIA_SEL].
Definition defkeymap : list (keycode_raw * Z) := [
  (KEY_RAW_1, 49); (KEY_RAW_2, 50); (KEY_RAW_3, 51); (KEY_RAW_4, 52); (KEY_RAW_5, 53); (KEY_RAW_6, 54);
  (KEY_RAW_7, 55); (KEY_RAW_8, 56); (KEY_RAW_9, 57); (KEY_RAW_0, 48); (KEY_RAW_BACK_TICK, 96);
  (KEY_RAW_MINUS, 45); (KEY_RAW_EQUALS, 61); (KEY_RAW_BACKSPACE, 127); (KEY_RAW_TAB, 9); (KEY_RAW_A, 97);
  (KEY_RAW_B, 98); (KEY_RAW_C, 99); (KEY_RAW_D, 100); (KEY_RAW_E, 101); (KEY_RAW_F, 102); (KEY_RAW_G, 103);
  (KEY_RAW_H, 104); (KEY_RAW_I, 105); (KEY_RAW_J, 106); (KEY_RAW_K, 107); (KEY_RAW_L, 108); (KEY_RAW_M, 109);
  (KEY_RAW_N, 110); (KEY_RAW_O, 111); (KEY_RAW_P, 112); (KEY_RAW_Q, 113); (KEY_RAW_R, 114); (KEY_RAW_S, 115);
  (KEY_RAW_T, 116); (KEY_RAW_U, 117); (KEY_RAW_V, 118); (KEY_RAW_W, 119); (KEY_RAW_X, 120); (KEY_RAW_Y, 121);
  (KEY_RAW_Z, 122); (KEY_RAW_LSQR_BRACKET, 91); (KEY_RAW_RSQR_BRACKET, 93); (KEY_RAW_SEMI_COLON, 59);
  (KEY_RAW_QUOTE, 39); (KEY_RAW_ENTER, 10); (KEY_RAW_COMMA, 44); (KEY_RAW_DOT, 46); (KEY_RAW_SLASH, 47);
  (KEY_RAW_SPACE, 32); (KEY_RAW_PAD_1, 49); (KEY_RAW_PAD_2, 50); (KEY_RAW_PAD_3, 51); (KEY_RAW_PAD_4, 52);
  (KEY_RAW_PAD_5, 53); (KEY_RAW_PAD_6, 54); (KEY_RAW_PAD_7, 55); (KEY_RAW_PAD_8, 56); (KEY_RAW_PAD_9, 57);
  (KEY_RAW_PAD_0, 48); (KEY_RAW_PAD_SLASH, 47); (KEY_RAW_PAD_MINUS, 45); (KEY_RAW_PAD_STAR, 42);
  (KEY_RAW_PAD_PLUS, 43); (KEY_RAW_PAD_ENTER, 10); (KEY_RAW_PAD_DOT, 46)].
Definition defkeymap_shift : list (keycode_raw * Z) := [
  (KEY_RAW_1, 33); (KEY_RAW_2, 64); (KEY_RAW_3, 35); (KEY_RAW_4, 36); (KEY_RAW_5, 37); (KEY_RAW_6, 94);
  (KEY_RAW_7, 38); (KEY_RAW_8, 42); (KEY_RAW_9, 40); (KEY_RAW_0, 41); (KEY_RAW_BACK_TICK, 126);
  (KEY_RAW_MINUS, 95); (KEY_RAW_EQUALS, 43); (KEY_RAW_BACKSPACE, 127); (KEY_RAW_TAB, 9); (KEY_RAW_A, 65);
  (KEY_RAW_B, 66); (KEY_RAW_C, 67); (KEY_RAW_D, 68); (KEY_RAW_E, 69); (KEY_RAW_F, 70); (KEY_RAW_G, 71);
  (KEY_RAW_H, 72); (KEY_RAW_I, 73); (KEY_RAW_J, 74); (KEY_RAW_K, 75); (KEY_RAW_L, 76); (KEY_RAW_M, 77);
  (KEY_RAW_N, 78); (KEY_RAW_O, 79); (KEY_RAW_P, 80); (KEY_RAW_Q, 81); (KEY_RAW_R, 82); (KEY_RAW_S, 83);
  (KEY_RAW_T, 84); (KEY_RAW_U, 85); (KEY_RAW_V, 86); (KEY_RAW_W, 87); (KEY_RAW_X, 88); (KEY_RAW_Y, 89);
  (KEY_RAW_Z, 90); (KEY_RAW_LSQR_BRACKET, 123); (KEY_RAW_RSQR_BRACKET, 125); (KEY_RAW_SEMI_COLON, 58);
  (KEY_RAW_QUOTE, 34); (KEY_RAW_ENTER, 10); (KEY_RAW_COMMA, 60); (KEY_RAW_DOT, 62); (KEY_RAW_SLASH, 63);
  (KEY_RAW_SPACE, 32); (KEY_RAW_PAD_1, 49); (KEY_RAW_PAD_2, 50); (KEY_RAW_PAD_3, 51); (KEY_RAW_PAD_4, 52);
  (KEY_RAW_PAD_5, 53); (KEY_RAW_PAD_6, 54); (KEY_RAW_PAD_7, 55); (KEY_RAW_PAD_8, 56); (KEY_RAW_PAD_9, 57);
  (KEY_RAW_PAD_0, 48); (KEY_RAW_PAD_SLASH, 47); (KEY_RAW_PAD_MINUS, 45); (KEY_RAW_PAD_STAR, 42);
  (KEY_RAW_PAD_PLUS, 43); (KEY_RAW_PAD_ENTER, 10); (KEY_RAW_PAD_DOT, 46)].
Definition defkeymap_fn : list (keycode_raw * list Z) := [
  (KEY_RAW_F1, [27; 79; 80]); (KEY_RAW_F2, [27; 79; 81]); (KEY_RAW_F3, [27; 79; 82]);
  (KEY_RAW_F4, [27; 79; 83]); (KEY_RAW_F5, [27; 91; 49; 53; 126]); (KEY_RAW_F6, [27; 91; 49; 55; 126]);
  (KEY_RAW_F7, [27; 91; 49; 56; 126]); (KEY_RAW_F8, [27; 91; 49; 57; 126]);
  (KEY_RAW_F9, [27; 91; 50; 48; 126]); (KEY_RAW_F10, [27; 91; 50; 49; 126]);
  (KEY_RAW_F11, [27; 91; 50; 51; 126]); (KEY_RAW_F12, [27; 91; 50; 52; 126]);
  (KEY_RAW_INSERT, [27; 91; 50; 126]); (KEY_RAW_HOME, [27; 91; 72]); (KEY_RAW_PAGE_UP, [27; 91; 53; 126]);
  (KEY_RAW_DELETE, [27; 91; 51; 126]); (KEY_RAW_END, [27; 91; 70]); (KEY_RAW_PAGE_DOWN, [27; 91; 54; 126]);
  (KEY_RAW_ARROW_UP, [27; 91; 65]); (KEY_RAW_ARROW_DOWN, [27; 91; 66]); (KEY_RAW_ARROW_LEFT, [27; 91; 68]);
  (KEY_RAW_ARROW_RIGHT, [27; 91; 67])].

Definition KEY (k : keycode_raw) : Z := Z.lor (raw_number k) (Z.shiftl (handler_number (key_handler k)) 8).
Definition KEY_NONE : Z := KEY KEY_RAW_NONE.
Definition RAW_KEYCODE (k : Z) : Z := Z.land k 255.

(** An array with designated elements: the last place named is its end, the others are zero. *)
Definition array_size {X} (l : list (keycode_raw * X)) : Z := foldr (λ e n, Z.max (raw_number e.1 + 1) n) 0 l.
Definition array_at {X} (zero : X) (l : list (keycode_raw * X)) (i : Z) : option X :=
  if (0 <=? i) && (i <? array_size l) then
    Some match List.find (λ e, raw_number e.1 =? i) l with Some e => e.2 | None => zero end
  else None.

Definition CTRL : Z := 1.
Definition ALT : Z := 2.
Definition SHIFT : Z := 4.
Definition MAKE : Z := 1.
Definition BREAK : Z := 2.
Definition SET_1_ESCAPE : Z := 224.
Definition SET_1_LSHIFT_MAKE : Z := 42.
Definition SET_1_LSHIFT_BREAK : Z := 170.
Definition WAITING_FOR_SCAN : Z := 0.
Definition WAITING_FOR_SECOND : Z := 1.
Definition WAITING_FOR_FOURTH : Z := 3.
Definition WAITING_FOR_SIXTH : Z := 5.
Record kbd_packet := MkPacket { keycode : Z; type : Z }.
(** The state of the two files, and the terminals. *)
Record keyboard := MkKb { kb_state : Z; pause_flag : bool; modifiers : Z; caps_lock : Z; num_lock : Z; kb_tty : tstate }.
#[export] Instance keyboard_eta : Eta keyboard := λ k, MkKb (kb_state k) (pause_flag k) (modifiers k) (caps_lock k) (num_lock k) (kb_tty k).
Definition KB (A : Type) : Type := M keyboard A.
Definition to_tty {A} (m : T A) : KB A := zoom kb_tty (λ t k, k <| kb_tty := t |>) m.

(** The string in an array of characters. *)
Fixpoint c_string (l : list Z) : list Z :=
  match l with [] => [] | c :: l => if s8 c =? 0 then [] else s8 c :: c_string l end.

Section keyboard.
Context (buf printk_tty : Z) (debug_dump : T unit).

Definition k_do_self (packet : kbd_packet) : KB unit :=
  if type packet =? BREAK then mret tt else
  s ← get;
  let map := if negb (Z.land (modifiers s) SHIFT =? 0) then defkeymap_shift else defkeymap in
  c ← deref (array_at 0 map (RAW_KEYCODE (keycode packet))) "behind the key map";
  let c := if negb (caps_lock s =? 0) then
             if (97 <=? c) && (c <=? 122) then 65 + (c - 97)
             else if (65 <=? c) && (c <=? 90) then 97 + (c - 65) else c
           else c in
  let c := if negb (Z.land (modifiers s) CTRL =? 0) then Z.land c 31 else c in
  to_tty (do_update_tty (c_string (if negb (Z.land (modifiers s) ALT =? 0) then [27; c; 0] else [c; 0]))).
(** A null pointer in the table is followed. *)
Definition k_do_fn (packet : kbd_packet) : KB unit :=
  if type packet =? BREAK then mret tt else
  (if keycode packet =? KEY KEY_RAW_F12 then to_tty debug_dump else mret tt) ;;
  s ← deref (array_at None (prod_map id Some <$> defkeymap_fn) (RAW_KEYCODE (keycode packet))) "behind the key map";
  s ← deref s "null string";
  to_tty (do_update_tty s).
Definition set_modifier (packet : kbd_packet) (m : Z) : KB unit :=
  if type packet =? MAKE then modify (λ s, s <| modifiers ::= λ x, Z.lor x m |>)
  else modify (λ s, s <| modifiers ::= λ x, Z.land x (Z.lnot m) |>).
Definition k_do_mod (packet : kbd_packet) : KB unit :=
  let k := keycode packet in
  if (k =? KEY KEY_RAW_LSHIFT) || (k =? KEY KEY_RAW_RSHIFT) then set_modifier packet SHIFT
  else if (k =? KEY KEY_RAW_RCTRL) || (k =? KEY KEY_RAW_LCTRL) then set_modifier packet CTRL
  else if (k =? KEY KEY_RAW_LALT) || (k =? KEY KEY_RAW_RALT) then set_modifier packet ALT
  else if k =? KEY KEY_RAW_CAPS_LOCK then when (type packet =? MAKE) (modify (λ s, s <| caps_lock ::= λ x, 1 - x |>))
  else if k =? KEY KEY_RAW_NUM_LOCK then when (type packet =? MAKE) (modify (λ s, s <| num_lock ::= λ x, 1 - x |>))
  else mret tt.
(** The format is [[KEYBOARD] Received keycode %x that has no effect] and the end of the line. *)
Definition no_effect_fmt : list Z :=
  [91; 75; 69; 89; 66; 79; 65; 82; 68; 93; 32; 82; 101; 99; 101; 105; 118; 101; 100; 32; 107; 101; 121; 99; 111; 100; 101; 32; 37; 120;
   32; 116; 104; 97; 116; 32; 104; 97; 115; 32; 110; 111; 32; 101; 102; 102; 101; 99; 116; 13; 10].
Definition k_do_none (packet : kbd_packet) : KB unit :=
  to_tty (printk buf printk_tty no_effect_fmt [VInt (keycode packet)]) ;; mret tt.
Definition kbd_handle_packet (packet : kbd_packet) : KB unit :=
  let handler := Z.land (Z.shiftr (keycode packet) 8) 15 in
  if handler =? 0 then k_do_self packet
  else if handler =? 1 then k_do_fn packet
  else if handler =? 2 then k_do_mod packet
  else if handler =? 3 then k_do_none packet
  else undef "behind handlers".

(** [state++] *)
Definition next_state : KB unit :=
  s ← gets kb_state;
  if s =? 2147483647 then undef "the state overflows" else modify (λ k, k <| kb_state ::= λ n, n + 1 |>).
(** The key, and what is stored through [type]. *)
Definition get_keycode_set1 (scan : Z) : KB (Z * option Z) :=
  s ← get;
  let state := kb_state s in
  if 225 <? scan then mret (KEY_NONE, None)
  else if pause_flag s && (state =? WAITING_FOR_SIXTH) then mret (KEY KEY_RAW_PAUSE_BREAK, Some MAKE)
  else if scan =? 225 then modify (λ s, s <| pause_flag := true |>) ;; next_state ;; mret (KEY_NONE, None)
  else if scan =? SET_1_ESCAPE then next_state ;; mret (KEY_NONE, None)
  else if (scan =? SET_1_LSHIFT_MAKE) && (state =? WAITING_FOR_SECOND) then next_state ;; mret (KEY_NONE, None)
  else if (scan =? 55) && (state =? WAITING_FOR_FOURTH) then mret (KEY KEY_RAW_PRINT_SCREEN, Some MAKE)
  else if (scan =? 183) && (state =? WAITING_FOR_SECOND) then next_state ;; mret (KEY_NONE, None)
  else if (scan =? SET_1_LSHIFT_BREAK) && (state =? WAITING_FOR_FOURTH) then mret (KEY KEY_RAW_PRINT_SCREEN, Some BREAK)
  else
    let type := if negb (Z.land scan 128 =? 0) then BREAK else MAKE in
    let scan := if negb (Z.land scan 128 =? 0) then Z.land scan (Z.lnot 128) else scan in
    k ← deref ((if state =? WAITING_FOR_SCAN then scancode_set1 else scancode_set1_ext) !! Z.to_nat scan) "behind the table";
    mret (KEY k, Some type).
Definition ps2_kbd_irq (scan : Z) : KB unit :=
  '(k, type) ← get_keycode_set1 scan;
  if k =? KEY_NONE then mret tt else
  type ← deref type "the type is not set";
  kbd_handle_packet (MkPacket k type).
End keyboard.

(** ** The keyboard as its user knows it *)

Inductive lock_key := Shift | Ctrl | Alt | Caps | Num.
Inductive key_class := Modifier (m : lock_key) | Character (c upper : Z) | Function (t : list Z).
Definition codes (s : string) : list Z := map (λ c, Z.of_N (Ascii.N_of_ascii c)) (list_ascii_of_string s).
(** Rows of keys: the first scan code, the characters without and with shift. *)
Definition us_rows : list (Z * list Z * list Z) := [
  (2, codes "1234567890-=", codes "!@#$%^&*()_+"); (14, [127; 9], [127; 9]);
  (16, codes "qwertyuiop[]", codes "QWERTYUIOP{}"); (28, [10], [10]);
  (30, codes "asdfghjkl;" ++ [39], codes "ASDFGHJKL:" ++ [34]);
  (44, codes "zxcvbnm,./", codes "ZXCVBNM<>?"); (55, codes "*", codes "*"); (57, codes " ", codes " ");
  (71, codes "789-456+1230.", codes "789-456+1230.")].
Definition ansi_rows : list (Z * list string) := [
  (59, ["OP"; "OQ"; "OR"; "OS"; "[15~"; "[17~"; "[18~"; "[19~"; "[20~"; "[21~"]); (87, ["[23~"])]%string.
Fixpoint find_row (k : Z) (rows : list (Z * list Z * list Z)) : option (Z * Z) :=
  match rows with
  | [] => None
  | (a, l, u) :: rows =>
      if (a <=? k) && (k <? a + Z.of_nat (length l)) then
        c ← l !! Z.to_nat (k - a); d ← u !! Z.to_nat (k - a); Some (c, d)
      else find_row k rows
  end.
Fixpoint find_ansi (k : Z) (rows : list (Z * list string)) : option (list Z) :=
  match rows with
  | [] => None
  | (a, l) :: rows => if (a <=? k) && (k <? a + Z.of_nat (length l)) then (λ s, 27 :: codes s) <$> l !! Z.to_nat (k - a) else find_ansi k rows
  end.
Definition us_key (k : Z) : option key_class :=
  if (k =? 42) || (k =? 54) then Some (Modifier Shift)
  else if k =? 29 then Some (Modifier Ctrl)
  else if k =? 56 then Some (Modifier Alt)
  else if k =? 58 then Some (Modifier Caps)
  else if k =? 69 then Some (Modifier Num)
  else match find_row k us_rows with
       | Some (c, d) => Some (Character c d)
       | None => Function <$> find_ansi k ansi_rows
       end.

(** The keys that are held down, and the locks. *)
Record held := MkHeld { h_shift : bool; h_ctrl : bool; h_alt : bool; h_caps : bool; h_num : bool }.
Definition change (m : lock_key) (down : bool) (h : held) : held :=
  let '(MkHeld s c a l n) := h in
  match m with
  | Shift => MkHeld down c a l n
  | Ctrl => MkHeld s down a l n
  | Alt => MkHeld s c down l n
  | Caps => MkHeld s c a (if down then negb l else l) n
  | Num => MkHeld s c a l (if down then negb n else n)
  end.
Definition swap_case (c : Z) : Z :=
  if (97 <=? c) && (c <=? 122) then c - 32 else if (65 <=? c) && (c <=? 90) then c + 32 else c.
Definition typed_char (h : held) (c upper : Z) : list Z :=
  let c := if h_shift h then upper else c in
  let c := if h_caps h then swap_case c else c in
  let c := if h_ctrl h then c mod 32 else c in
  (if h_alt h then [27] else []) ++ (if c =? 0 then [] else [c]).
(** A scan code: whether the key goes down, and the text it types. *)
Definition press (h : held) (scan : Z) : option (held * option (list Z)) :=
  if (0 <=? scan) && (scan <? 224) then
    let down := scan <? 128 in
    k ← us_key (scan mod 128);
    Some match k with
         | Modifier m => (change m down h, None)
         | Character c d => (h, if down then Some (typed_char h c d) else None)
         | Function t => (h, if down then Some t else None)
         end
  else None.
Fixpoint press_all (h : held) (scans : list Z) : option (held * list (list Z)) :=
  match scans with
  | [] => Some (h, [])
  | scan :: scans =>
      '(h, t) ← press h scan;
      '(h, ts) ← press_all h scans;
      Some (h, match t with Some t => t :: ts | None => ts end)
  end.
(** The state of the driver in which the keys [h] are held. *)
Definition bits (h : held) : Z := (if h_ctrl h then CTRL else 0) + (if h_alt h then ALT else 0) + (if h_shift h then SHIFT else 0).
Definition hold (h : held) (s : keyboard) : keyboard :=
  s <| modifiers := bits h |> <| caps_lock := if h_caps h then 1 else 0 |> <| num_lock := if h_num h then 1 else 0 |>.

(** Each key of the reference keyboard stands in the tables of the driver. *)
Definition key_ok (k : Z) : bool :=
  match us_key k, scancode_set1 !! Z.to_nat k with
  | Some (Modifier m), Some x =>
      match key_handler x with K_DO_MOD => true | _ => false end &&
      match m, x with
      | Shift, (KEY_RAW_LSHIFT | KEY_RAW_RSHIFT) | Ctrl, KEY_RAW_LCTRL | Alt, KEY_RAW_LALT | Caps, KEY_RAW_CAPS_LOCK
      | Num, KEY_RAW_NUM_LOCK => true
      | _, _ => false
      end
  | Some (Character c d), Some x =>
      match key_handler x with K_DO_SELF => true | _ => false end && (1 <=? c) && (c <? 128) && (1 <=? d) && (d <? 128) &&
      bool_decide (array_at 0 defkeymap (RAW_KEYCODE (KEY x)) = Some c) &&
      bool_decide (array_at 0 defkeymap_shift (RAW_KEYCODE (KEY x)) = Some d)
  | Some (Function t), Some x =>
      match key_handler x with K_DO_FN => true | _ => false end && negb (KEY x =? KEY KEY_RAW_F12) &&
      bool_decide (array_at None (prod_map id Some <$> defkeymap_fn) (RAW_KEYCODE (KEY x)) = Some (Some t))
  | Some _, None => false
  | None, _ => true
  end.
Lemma keys_ok k : 0 <= k < 128 → key_ok k = true.
Proof. apply (forall_range key_ok 0 128); [by vm_compute|lia]. Qed.
Definition scan_ok (scan : Z) : bool :=
  Bool.eqb (negb (Z.land scan 128 =? 0)) (128 <=? scan) &&
  ((if 128 <=? scan then Z.land scan (Z.lnot 128) else scan) =? scan mod 128).
Lemma scans_ok k : 0 <= k < 224 → scan_ok k = true.
Proof. apply (forall_range scan_ok 0 224); [by vm_compute|lia]. Qed.

(** The codes of the keys: the handler, the number, and the comparison with a key. *)
Lemma raw_number_range k : 0 <= raw_number k < 256.
Proof. by destruct k. Qed.
Lemma KEY_handler k : Z.land (Z.shiftr (KEY k) 8) 15 = handler_number (key_handler k).
Proof. by destruct k. Qed.

Section types.
Context (buf printk_tty : Z) (debug_dump : T unit).
Abbreviation irq := (ps2_kbd_irq buf printk_tty debug_dump).

(** No prefix has been read so far. *)
Lemma plain_keycode scan s : kb_state s = 0 → 0 <= scan < 224 → ∀ x, scancode_set1 !! Z.to_nat (scan mod 128) = Some x →
  get_keycode_set1 scan s = Ok ((KEY x, Some (if scan <? 128 then MAKE else BREAK)), s).
Proof.
  intros Hs Hr x Hx. unfold get_keycode_set1. change ((get ≫= ?k) s) with (k s s). cbv beta zeta. rewrite Hs.
  rewrite (proj2 (Z.ltb_ge 225 scan)) by lia. change (0 =? WAITING_FOR_SIXTH) with false. rewrite andb_false_r.
  rewrite (proj2 (Z.eqb_neq scan 225)), (proj2 (Z.eqb_neq scan SET_1_ESCAPE)) by (unfold SET_1_ESCAPE; lia).
  change (0 =? WAITING_FOR_SECOND) with false. change (0 =? WAITING_FOR_FOURTH) with false. rewrite !andb_false_r.
  pose proof (scans_ok scan Hr) as H. unfold scan_ok in H. apply andb_prop in H as [H1 H2].
  apply Bool.eqb_prop in H1. apply Z.eqb_eq in H2. rewrite H1, H2. change (0 =? WAITING_FOR_SCAN) with true. cbv iota. rewrite Hx. rewrite Z.leb_antisym.
  by destruct (scan <? 128).
Qed.
Lemma c_string_char c : 0 <= c < 128 → c_string [c; 0] = if c =? 0 then [] else [c].
Proof.
  intros H. unfold c_string. assert (s8 c = c) as -> by (unfold s8; lia). by destruct (c =? 0).
Qed.
Lemma bits_shift h : negb (Z.land (bits h) SHIFT =? 0) = h_shift h.
Proof. by destruct h as [[] [] [] ? ?]. Qed.
Lemma bits_ctrl h : negb (Z.land (bits h) CTRL =? 0) = h_ctrl h.
Proof. by destruct h as [[] [] [] ? ?]. Qed.
Lemma bits_alt h : negb (Z.land (bits h) ALT =? 0) = h_alt h.
Proof. by destruct h as [[] [] [] ? ?]. Qed.
Lemma to_tty_hold (m : T unit) h s : hold h s = s → (to_tty m ;; modify (hold h)) s = to_tty m s.
Proof.
  intros E. unfold to_tty, zoom, mbind, M_bind, modify. destruct (m (kb_tty s)) as [[[] t]| | |]; try done.
  change (hold h (s <| kb_tty := t |>)) with ((hold h s) <| kb_tty := t |>). by rewrite E.
Qed.
Lemma typed_char_string h c d : 1 <= c < 128 → 1 <= d < 128 →
  c_string (let x := if h_shift h then d else c in
    let x := if h_caps h then (if (97 <=? x) && (x <=? 122) then 65 + (x - 97) else if (65 <=? x) && (x <=? 90) then 97 + (x - 65) else x) else x in
    let x := if h_ctrl h then Z.land x 31 else x in if h_alt h then [27; x; 0] else [x; 0]) = typed_char h c d.
Proof.
  intros Hc Hd. unfold typed_char. set (x1 := if h_shift h then d else c).
  assert (1 <= x1 < 128) as H1 by (unfold x1; by destruct (h_shift h)). cbv zeta. fold x1.
  assert ((if (97 <=? x1) && (x1 <=? 122) then 65 + (x1 - 97) else if (65 <=? x1) && (x1 <=? 90) then 97 + (x1 - 65) else x1) = swap_case x1) as ->.
  { unfold swap_case. repeat case_match; lia. }
  set (x2 := if h_caps h then swap_case x1 else x1).
  assert (1 <= x2 < 128) as H2 by (unfold x2, swap_case; repeat case_match; lia).
  change 31 with (Z.ones 5). rewrite Z.land_ones by lia. change (2 ^ 5) with 32.
  set (x3 := if h_ctrl h then x2 mod 32 else x2).
  assert (0 <= x3 < 128) as H3 by (unfold x3; destruct (h_ctrl h); lia).
  destruct (h_alt h); [|by rewrite c_string_char].
  change (c_string [27; x3; 0]) with (27 :: c_string [x3; 0]). by rewrite c_string_char.
Qed.

Lemma irq_step h scan h' o s : kb_state s = 0 → hold h s = s → press h scan = Some (h', o) →
  irq scan s = ((match o with Some t => to_tty (do_update_tty t) | None => mret tt end) ;; modify (hold h')) s.
Proof.
  intros Hs Hh Hp. unfold press in Hp. destruct ((0 <=? scan) && (scan <? 224)) eqn:Hr; [|done].
  apply andb_prop in Hr as [Hr1%Z.leb_le Hr2%Z.ltb_lt]. pose proof (keys_ok (scan mod 128) ltac:(lia)) as Hok.
  unfold key_ok in Hok. destruct (us_key (scan mod 128)) as [cl|]; [|done]. simpl in Hp.
  destruct (scancode_set1 !! Z.to_nat (scan mod 128)) as [x|] eqn:Hx; [|by destruct cl].
  unfold ps2_kbd_irq. rewrite (bind_ok _ _ _ _ _ (plain_keycode scan s Hs ltac:(lia) x Hx)). cbv beta iota.
  assert (key_handler x ≠ K_DO_NONE) as Hnone by (destruct cl; intros E; rewrite E in Hok; done).
  assert ((KEY x =? KEY_NONE) = false) as -> by (destruct x; done).
  change ((deref (Some ?y) ?w ≫= ?k) s) with (k y s). cbv beta. unfold kbd_handle_packet. cbn [keycode type].
  rewrite KEY_handler.
  assert (modifiers s = bits h) as Hm by (by rewrite <-Hh). 
  assert (caps_lock s = if h_caps h then 1 else 0) as Hcaps by (by rewrite <-Hh at 1).
  destruct cl as [m|c d|tx].
  - apply andb_prop in Hok as [Hh1 Hm1]. destruct (key_handler x) eqn:Ek; try done. simpl. injection Hp as <- <-.
    assert (num_lock s = if h_num h then 1 else 0) as Hnum by (by rewrite <-Hh at 1).
    unfold k_do_mod, set_modifier. cbn [keycode type]. clear Hh.
    destruct m, x; try done; destruct h as [[] [] [] [] []], (scan <? 128); simpl in *;
      unfold modify, mbind, M_bind, mret, M_ret, when, hold; simpl; rewrite ?Hm, ?Hcaps, ?Hnum; destruct s; simpl in *; subst; done.
  - rewrite !andb_true_iff in Hok. destruct Hok as [[[[[[Hh1 C1] C2] D1] D2] Em%bool_decide_eq_true] Es%bool_decide_eq_true].
    apply Z.leb_le in C1, D1. apply Z.ltb_lt in C2, D2.
    destruct (key_handler x) eqn:Ek; try done. simpl. injection Hp as <- <-.
    unfold k_do_self. cbn [keycode type]. destruct (scan <? 128); cbn [Z.eqb MAKE BREAK Pos.eqb]; last first.
    { change ((mret tt ;; modify (hold h)) s) with (Ok (tt, hold h s)). by rewrite Hh. }
    rewrite to_tty_hold by done. change ((get ≫= ?k) s) with (k s s). cbv beta. rewrite Hm, Hcaps, bits_shift, bits_ctrl, bits_alt.
    assert (array_at 0 (if h_shift h then defkeymap_shift else defkeymap) (RAW_KEYCODE (KEY x)) = Some (if h_shift h then d else c)) as ->.
    { by destruct (h_shift h). }
    change ((deref (Some ?y) ?w ≫= ?k) s) with (k y s). cbv beta.
    rewrite <-typed_char_string by lia. by destruct (h_caps h).
  - rewrite !andb_true_iff in Hok. destruct Hok as [[Hh1 H12%negb_true_iff] Em%bool_decide_eq_true].
    destruct (key_handler x) eqn:Ek; try done. simpl. injection Hp as <- <-.
    unfold k_do_fn. cbn [keycode type]. destruct (scan <? 128); cbn [Z.eqb MAKE BREAK Pos.eqb]; last first.
    { change ((mret tt ;; modify (hold h)) s) with (Ok (tt, hold h s)). by rewrite Hh. }
    rewrite to_tty_hold by done. rewrite H12, Em. done.
Qed.

Lemma hold_hold h h' s : hold h' (hold h s) = hold h' s.
Proof. done. Qed.

(** C31: the driver is a US keyboard in front of the terminal: for every sequence of scan codes without
    a prefix, of letters, digits, signs, function keys, modifiers and locks, it hands to the terminal the
    texts that these keys type, in order, and keeps track of the keys that are held. The keys Esc, back
    tick, backslash, scroll lock and F12 are left out ([us_key]): there the driver types nothing,
    follows a null pointer or prints a dump. *)
Theorem keyboard_types h scans h' texts s : kb_state s = 0 → hold h s = s → press_all h scans = Some (h', texts) →
  for_each scans irq s = (to_tty (for_each texts do_update_tty) ;; modify (hold h')) s.
Proof.
  revert h texts s. induction scans as [|scan scans IH]; intros h texts s Hs Hh Hp; cbn [press_all] in Hp.
  { injection Hp as <- <-. rewrite to_tty_hold by done. unfold to_tty, zoom. simpl. by destruct s. }
  apply bind_Some in Hp as ([h1 o] & P1 & Hp). apply bind_Some in Hp as ([h2 ts] & P2 & Hp). injection Hp as -> <-.
  cbn [for_each]. unfold mbind at 1, M_bind at 1. rewrite (irq_step h scan h1 o s Hs Hh P1).
  assert (∀ t, for_each scans irq (hold h1 (s <| kb_tty := t |>)) =
    (to_tty (for_each ts do_update_tty) ;; modify (hold h')) (hold h1 (s <| kb_tty := t |>))) as E by (intros t; by apply (IH h1)).
  unfold mbind, M_bind, to_tty, zoom, modify in *. destruct o as [tx|]; cbn [for_each].
  - unfold mbind, M_bind. destruct (do_update_tty tx (kb_tty s)) as [[[] t]| | |]; try done. rewrite E. simpl.
    by destruct (for_each ts do_update_tty t) as [[[] t']| | |].
  - specialize (E (kb_tty s)). replace (s <| kb_tty := kb_tty s |>) with s in E by (by destruct s). unfold mret, M_ret. rewrite E. simpl.
    by destruct (for_each ts do_update_tty (kb_tty s)) as [[[] t']| | |].
Qed.

(** *** After a prefix *)

Definition prefixed (s : keyboard) : Prop := 0 < kb_state s.
Lemma to_tty_prefixed {A} (m : T A) : preserves prefixed (to_tty m).
Proof. intros s a s' H R. unfold to_tty, zoom in R. destruct (m (kb_tty s)) as [[? ?]| | |]; try done. injection R as <- <-. exact H. Qed.
Lemma next_state_prefixed : preserves prefixed next_state.
Proof.
  intros s a s' H R. unfold next_state, prefixed in *. change ((gets ?f ≫= ?k) s) with (k (f s) s) in R. cbv beta in R.
  case_match; [done|]. injection R as <- <-. simpl. lia.
Qed.
Lemma deref_prefixed {A} (o : option A) why : preserves prefixed (deref o why).
Proof. destruct o; [apply preserves_ret|apply preserves_undef]. Qed.
Lemma modify_prefixed f : (∀ s, kb_state (f s) = kb_state s) → preserves prefixed (modify f).
Proof. intros Hf s a s' H R. injection R as <- <-. unfold prefixed. by rewrite Hf. Qed.
#[local] Hint Resolve to_tty_prefixed next_state_prefixed deref_prefixed : preserves.
#[local] Hint Extern 1 (preserves prefixed (modify _)) => apply modify_prefixed; done : preserves.
Lemma irq_prefixed scan : preserves prefixed (irq scan).
Proof.
  unfold ps2_kbd_irq, get_keycode_set1, kbd_handle_packet, k_do_self, k_do_fn, k_do_mod, k_do_none, set_modifier.
  solve_preserves.
Qed.
Lemma irqs_prefixed scans s s' : prefixed s → for_each scans irq s = Ok (tt, s') → prefixed s'.
Proof. intros H R. refine (preserves_for_each prefixed scans irq _ s tt s' H R). intros scan. apply irq_prefixed. Qed.

(** The letters and digits of the main block. *)
Definition main_key (k : Z) : bool :=
  ((2 <=? k) && (k <=? 11)) || ((16 <=? k) && (k <=? 25)) || ((30 <=? k) && (k <=? 38)) || ((44 <=? k) && (k <=? 50)).
Definition main_key_dead (k : Z) : bool :=
  negb (main_key k) || (match us_key k with Some (Character _ _) => true | _ => false end &&
    match scancode_set1_ext !! Z.to_nat k with
    | Some x => match key_handler x with K_DO_NONE => true | _ => false end
    | None => false
    end).
Lemma main_keys_dead k : 0 <= k < 64 → main_key_dead k = true.
Proof. apply (forall_range main_key_dead 0 64); [by vm_compute|lia]. Qed.

(** one key with a prefix, such as an arrow, takes the letters away: whatever is typed after
    it, a letter or digit is taken for a key of the second table, which types nothing. *)
Theorem prefix_kills_letters scans s s' : for_each (SET_1_ESCAPE :: scans) irq s = Ok (tt, s') → 0 <= kb_state s → pause_flag s = false →
  ∀ k, main_key k = true →
  (∃ c d, us_key k = Some (Character c d)) ∧
  ∃ x t, get_keycode_set1 k s' = Ok ((KEY x, t), s') ∧ key_handler x = K_DO_NONE.
Proof.
  intros R Hs Hp k Hk.
  assert (prefixed s') as H'.
  { cbn [for_each] in R. apply bind_inv in R as ([] & s1 & R1 & R). eapply irqs_prefixed; [|exact R].
    unfold ps2_kbd_irq in R1. apply bind_inv in R1 as ([x t] & s2 & R1 & R2).
    unfold get_keycode_set1 in R1. change ((get ≫= ?k) s) with (k s s) in R1. cbv beta zeta in R1. rewrite Hp in R1.
    change (225 <? SET_1_ESCAPE) with false in R1. cbn [andb] in R1. change (SET_1_ESCAPE =? 225) with false in R1.
    rewrite Z.eqb_refl in R1. apply bind_inv in R1 as ([] & s3 & R3 & R1). injection R1 as <- <- <-.
    unfold next_state in R3. change ((gets ?f ≫= ?k) s) with (k (f s) s) in R3. cbv beta in R3. destruct (kb_state s =? 2147483647); [done|].
    injection R3 as <-. change (KEY_NONE =? KEY_NONE) with true in R2. injection R2 as <-. unfold prefixed. simpl. lia. }
  assert (0 <= k < 64) as Hr.
  { unfold main_key in Hk. lia. }
  pose proof (main_keys_dead k Hr) as Hd. unfold main_key_dead in Hd. rewrite Hk in Hd. simpl in Hd.
  apply andb_prop in Hd as [Hd1 Hd2]. split; [destruct (us_key k) as [[]|]; try done; eauto|].
  destruct (scancode_set1_ext !! Z.to_nat k) as [x|] eqn:Ex; [|done].
  pose proof (scans_ok k ltac:(lia)) as H. unfold scan_ok in H. apply andb_prop in H as [H1 H2].
  apply Bool.eqb_prop in H1. apply Z.eqb_eq in H2. rewrite (proj2 (Z.leb_gt 128 k)) in H1, H2 by lia.
  unfold get_keycode_set1. change ((get ≫= ?k) s') with (k s' s'). cbv beta zeta.
  assert (∀ n, (n < 2 ∨ n = 42 ∨ 50 < n) → (k =? n) = false) as Hne.
  { intros n Hn. apply Z.eqb_neq. unfold main_key in Hk. lia. }
  rewrite (proj2 (Z.ltb_ge 225 k)) by lia. rewrite !Hne by (unfold SET_1_ESCAPE, SET_1_LSHIFT_MAKE, SET_1_LSHIFT_BREAK; lia).
  cbn [andb]. rewrite H1, (proj2 (Z.eqb_neq (kb_state s') WAITING_FOR_SCAN)) by (unfold prefixed, WAITING_FOR_SCAN in *; lia).
  rewrite Ex. destruct (pause_flag s' && (kb_state s' =? WAITING_FOR_SIXTH)).
  - exists KEY_RAW_PAUSE_BREAK, (Some MAKE). split; done.
  - exists x, (Some MAKE). split; [done|]. by destruct (key_handler x).
Qed.
End types.

(** ** Typing *)
Module KbDemo.
Definition kb : keyboard := MkKb 0 false 0 0 0 (TtyDemo.demo []).
Definition nothing : held := MkHeld false false false false false.
End KbDemo.
(** H with shift, i, and the end of the line. *)
Lemma keyboard_types_witness :
  for_each [42; 35; 163; 170; 23; 151; 28; 156] (ps2_kbd_irq 9000 DEBUG_TTY (mret tt)) KbDemo.kb =
  (to_tty (for_each [[72]; [105]; [10]] do_update_tty) ;; modify (hold KbDemo.nothing)) KbDemo.kb.
Proof.
  apply (keyboard_types 9000 DEBUG_TTY (mret tt) KbDemo.nothing _ KbDemo.nothing [[72]; [105]; [10]]); reflexivity.
Defined.
(** Arrow up and its release, then the letter a. *)
Lemma prefix_kills_letters_witness : ∃ s', for_each [224; 72; 224; 200] (ps2_kbd_irq 9000 DEBUG_TTY (mret tt)) KbDemo.kb = Ok (tt, s') ∧
  ∃ x t, get_keycode_set1 30 s' = Ok ((KEY x, t), s') ∧ key_handler x = K_DO_NONE.
Proof.
  destruct (for_each [224; 72; 224; 200] (ps2_kbd_irq 9000 DEBUG_TTY (mret tt)) KbDemo.kb) as [[[] s']| | |] eqn:R.
  - exists s'. split; [reflexivity|]. apply (prefix_kills_letters 9000 DEBUG_TTY (mret tt) [72; 224; 200] KbDemo.kb s' R);
      [apply Z.le_refl|reflexivity|reflexivity].
  - vm_compute in R. discriminate R.
  - vm_compute in R. discriminate R.
  - vm_compute in R. discriminate R.
Defined.
