(* ===== verification/Fbcon.v ===== *)
(** The console on the frame buffer: glyphs of a bitmap font drawn into video memory
    (sys/drivers/fbcon.c), and the font itself (sys/drivers/psf.c). The calls are the events of the
    virtual console (Console.v). *)
From S2P Require Import Prelude Console.

(** ** The font *)
Definition PSF_HEADER_MAGIC : Z := 2253043058.
(** [data] is an offset in the memory of the font, [font_mem]. *)
Record bitmap_font := MkFont { height : Z; width : Z; bytes_per_glpyh : Z; nr_glpyh : Z; data : Z; font_mem : Z → Z }.
(** The font behind the header at [psf]. *)
Definition load_default_font (m : Z → Z) (psf : Z) : option bitmap_font :=
  if negb (le32 m psf =? PSF_HEADER_MAGIC) then None else
  if 32 <? le32 m (psf + 28) then None else
  Some (MkFont (le32 m (psf + 24)) (le32 m (psf + 28)) (le32 m (psf + 20)) (le32 m (psf + 16)) (u32 (psf + le32 m (psf + 8))) m).

(** ** Pixels *)

(** A pixel takes [px] bytes. *)
Class Pixel := { px : Z; put_pixel : Z → Z → (Z → Z) → Z → Z; get_pixel : (Z → Z) → Z → Z }.
Definition pixel32 : Pixel := {| px := 4; put_pixel a v := put_le32 a v; get_pixel := le32 |}.
Definition pixel16 : Pixel := {| px := 2; put_pixel a v := put_le16 a (u16 v); get_pixel := le16 |}.

Section draw.
Context `{PX : Pixel}.
(** The pixels of a line of the glyph: [word] is what [data] points to. The result is [dst]. *)
Fixpoint put_line (n : nat) (word mask bg fg dst : Z) (m : Z → Z) : Z * (Z → Z) :=
  match n with
  | O => (dst, m)
  | S n => put_line n word (Z.shiftr mask 1) bg fg (u32 (dst + px)) (put_pixel dst (if Z.land word mask =? 0 then bg else fg) m)
  end.
Fixpoint put_lines (n : nat) (font : bitmap_font) (data pitch bg fg dst : Z) (m : Z → Z) : Z → Z :=
  match n with
  | O => m
  | S n =>
      let '(dst, m) := put_line (Z.to_nat (width font)) (le32 (font_mem font) data) (u32 (Z.shiftl 1 (width font - 1))) bg fg dst m in
      put_lines n font (u32 (data + Z.shiftr (u32 (width font + 7)) 3)) pitch bg fg (u32 (dst + u32 (pitch - u32 (width font * px)))) m
  end.
Fixpoint blank_line (n : nat) (dst : Z) (m : Z → Z) : Z * (Z → Z) :=
  match n with
  | O => (dst, m)
  | S n => blank_line n (u32 (dst + px)) (put_pixel dst 0 m)
  end.
Fixpoint blank_lines (n : nat) (font : bitmap_font) (pitch dst : Z) (m : Z → Z) : Z → Z :=
  match n with
  | O => m
  | S n =>
      let '(dst, m) := blank_line (Z.to_nat (width font)) dst m in
      blank_lines n font pitch (u32 (dst + u32 (pitch - u32 (width font * px)))) m
  end.
End draw.
Definition fbcon_putc_32bpp (font : bitmap_font) (data pitch bg fg dst : Z) : (Z → Z) → Z → Z :=
  put_lines (PX := pixel32) (Z.to_nat (height font)) font data pitch bg fg dst.
Definition fbcon_putc_16bpp (font : bitmap_font) (data pitch bg fg dst : Z) : (Z → Z) → Z → Z :=
  put_lines (PX := pixel16) (Z.to_nat (height font)) font data pitch bg fg dst.
Definition fbcon_blank_32bpp (font : bitmap_font) (pitch dst : Z) : (Z → Z) → Z → Z :=
  blank_lines (PX := pixel32) (Z.to_nat (height font)) font pitch dst.
Definition fbcon_blank_16bpp (font : bitmap_font) (pitch dst : Z) : (Z → Z) → Z → Z :=
  blank_lines (PX := pixel16) (Z.to_nat (height font)) font pitch dst.

(** ** The console *)

(** [struct fbcon] with the fields of [struct vbe_mode_info] that are used, and video memory. *)
Record fbcon := MkFbcon {
  pitch : Z; fb_width : Z; fb_height : Z; bpp : Z; fb_virt_addr : Z;
  fbcon_font : bitmap_font; fbcon_fg : Z; fbcon_bg : Z; fb_mem : Z → Z
}.
#[export] Instance fbcon_eta : Eta fbcon := λ f, MkFbcon (pitch f) (fb_width f) (fb_height f) (bpp f) (fb_virt_addr f)
  (fbcon_font f) (fbcon_fg f) (fbcon_bg f) (fb_mem f).
Definition FB (A : Type) : Type := M fbcon A.

(** The address of a cell, with [sizeof(uint32_t)] bytes for a pixel of any depth. *)
Definition cell_addr (f : fbcon) (cx cy : Z) : Z :=
  u32 (fb_virt_addr f + u32 (cy * height (fbcon_font f) * pitch f + cx * width (fbcon_font f) * 4)).
Definition fbcon_putc (cx cy c : Z) : FB Z :=
  f ← get;
  let font := fbcon_font f in
  let c := if (c <? 0) || (nr_glpyh font <=? c) then 0 else c in
  let data := u32 (data font + u32 (c * bytes_per_glpyh font)) in
  let dst := cell_addr f cx cy in
  (if bpp f =? 32 then modify (λ f, f <| fb_mem ::= fbcon_putc_32bpp font data (pitch f) (fbcon_bg f) (fbcon_fg f) dst |>)
   else when (bpp f =? 16) (modify (λ f, f <| fb_mem ::= fbcon_putc_16bpp font data (pitch f) (fbcon_bg f) (fbcon_fg f) dst |>))) ;;
  mret c.
Definition fbcon_blank (cx cy : Z) : FB unit :=
  f ← get;
  let dst := cell_addr f cx cy in
  if bpp f =? 32 then modify (λ f, f <| fb_mem ::= fbcon_blank_32bpp (fbcon_font f) (pitch f) dst |>)
  else when (bpp f =? 16) (modify (λ f, f <| fb_mem ::= fbcon_blank_16bpp (fbcon_font f) (pitch f) dst |>)).
Definition fbcon_get_dimensions (f : fbcon) : Z * Z :=
  (fb_width f / width (fbcon_font f), fb_height f / height (fbcon_font f)).

Definition ansi_colors_bright_fg_32rgb : list Z := [1579032; 16711680; 65280; 16776960; 255; 16711935; 65535; 16777215; 0; 13882323].
Definition ansi_colors_bright_bg_32rgb : list Z := [1579032; 16711680; 65280; 16776960; 255; 16711935; 65535; 16777215; 0; 0].
Definition ansi_colors_fg_32rgb : list Z := [0; 11141120; 43520; 11184640; 170; 11141290; 43690; 11184810; 0; 11119017].
Definition ansi_colors_bg_32rgb : list Z := [0; 11141120; 43520; 11184640; 170; 11141290; 43690; 11184810; 0; 0].
Definition ansi_colors_bright_bg_16rgb : list Z := [4258; 63488; 2016; 65504; 31; 63519; 2047; 65535; 0; 0].
Definition ansi_colors_bright_fg_16rgb : list Z := [4258; 63488; 2016; 65504; 31; 63519; 2047; 65535; 0; 54938].
Definition ansi_colors_fg_16rgb : list Z := [0; 40960; 1344; 42304; 20; 40980; 1364; 65535; 0; 42292].
Definition ansi_colors_bg_16rgb : list Z := [0; 40960; 1344; 42304; 20; 40980; 1364; 65535; 0; 0].

(** The four tables, and what [RGB] does. *)
Record palette := MkPalette { fg_tab : list Z; bg_tab : list Z; bright_fg_tab : list Z; bright_bg_tab : list Z; rgb_ok : Z → bool }.
Definition palette32 : palette :=
  MkPalette ansi_colors_fg_32rgb ansi_colors_bg_32rgb ansi_colors_bright_fg_32rgb ansi_colors_bright_bg_32rgb (λ _, true).
Definition palette16 : palette :=
  MkPalette ansi_colors_fg_16rgb ansi_colors_bg_16rgb ansi_colors_bright_fg_16rgb ansi_colors_bright_bg_16rgb (λ v, v <=? 65535).
Definition between (a x b : Z) : bool := (a <=? x) && (x <=? b).
Definition has_attr (a : vc_attr) (v : Z) : bool := negb (Z.land (attr a) v =? 0).
Definition set_fg (v : Z) : FB unit := modify (λ f, f <| fbcon_fg := v |>).
Definition set_bg (v : Z) : FB unit := modify (λ f, f <| fbcon_bg := v |>).
(** [fbcon_set_attr_32bpp] and [fbcon_set_attr_16bpp], which differ in the tables and in [RGB]. *)
Definition set_attr_with (p : palette) (a : vc_attr) (type : vc_attr_type) : FB unit :=
  match type with
  | INDEXED_COLOR =>
      (if between ANSI_FG_COLOR_BASE (fg_indexed a) ANSI_FG_DEFAULT then set_fg (nth (Z.to_nat (fg_indexed a - ANSI_FG_COLOR_BASE)) (fg_tab p) 0)
       else when (between ANSI_FG_BRIGHT_COLOR_BASE (fg_indexed a) ANSI_FG_BRIGHT_WHITE)
         (set_fg (nth (Z.to_nat (fg_indexed a - ANSI_FG_BRIGHT_COLOR_BASE)) (bright_bg_tab p) 0))) ;;
      (if between ANSI_BG_COLOR_BASE (bg_indexed a) ANSI_BG_DEFAULT then set_bg (nth (Z.to_nat (bg_indexed a - ANSI_BG_COLOR_BASE)) (bg_tab p) 0)
       else when (between ANSI_BG_BRIGHT_COLOR_BASE (bg_indexed a) ANSI_BG_BRIGHT_WHITE)
         (set_bg (nth (Z.to_nat (bg_indexed a - ANSI_BG_BRIGHT_COLOR_BASE)) (bright_bg_tab p) 0)))
  | RGB => when (rgb_ok p (fg_rgb a)) (set_fg (fg_rgb a)) ;; when (rgb_ok p (bg_rgb a)) (set_bg (bg_rgb a))
  | NO_COLOR => mret tt
  end ;;
  match type with
  | INDEXED_COLOR => when (has_attr a VC_BOLD)
      (if between ANSI_FG_COLOR_BASE (fg_indexed a) ANSI_FG_DEFAULT then set_fg (nth (Z.to_nat (fg_indexed a - ANSI_FG_COLOR_BASE)) (bright_fg_tab p) 0)
       else undef "read outside the table of colours")
  | _ => mret tt
  end ;;
  when (has_attr a VC_DIM) (set_fg (nth 0 (bright_fg_tab p) 0)) ;;
  when (has_attr a VC_REVERSE) (f ← get; set_fg (fbcon_bg f) ;; set_bg (fbcon_fg f)).
Definition fbcon_set_attr (a : vc_attr) (type : vc_attr_type) : FB unit :=
  f ← get;
  if bpp f =? 16 then set_attr_with palette16 a type else when (bpp f =? 32) (set_attr_with palette32 a type).

(** The start: the font, and the depths there are drawing functions for. *)
Definition fbcon_init (font : option bitmap_font) : FB unit :=
  match font with
  | None => panic "Unable to load bitmap font"
  | Some font =>
      modify (λ f, f <| fbcon_font := font |>) ;;
      f ← get;
      if negb (bpp f =? 32) && negb (bpp f =? 16) then panic "fbcon_init: Unrecognised bits per pixel" else mret tt
  end.
(** [struct virtual_console_driver] of this console. *)
Definition vc_fbcon_driver (e : vc_event) : FB unit :=
  match e with
  | vc_putc cx cy c => fbcon_putc cx cy c ;; mret tt
  | vc_blank cx cy => fbcon_blank cx cy
  | vc_driver_set_attr a type => fbcon_set_attr a type
  end.

(** ** What the driver promises *)

(** What a cell of the display holds: pixels of before, nothing, or a character in two colours. *)
Inductive cell := Raw (p : Z → Z → Z) | Blank | Glyph (c fg bg : Z).
(** A display has its cells by row and column. *)
Record display := MkDisplay { cells : Z → Z → cell; d_fg : Z; d_bg : Z }.
Definition put_cell (x y : Z) (c : cell) (d : display) : display :=
  MkDisplay (λ y' x', if (y' =? y) && (x' =? x) then c else cells d y' x') (d_fg d) (d_bg d).
Definition cell_char (c : cell) : Z := match c with Raw _ => -1 | Blank => 0 | Glyph c _ _ => u8 c end.

(** The pixel in row [i] and column [j] of a glyph in the format PSF, eight pixels wide: the lines are
    bytes, the first pixel is the highest bit. *)
Definition glyph_of (font : bitmap_font) (c : Z) : Z := if (c <? 0) || (nr_glpyh font <=? c) then 0 else c.
Definition glyph_bit (font : bitmap_font) (c i j : Z) : bool :=
  Z.testbit (font_mem font (data font + glyph_of font c * bytes_per_glpyh font + i)) (7 - j).
Definition pixel_of (font : bitmap_font) (c : cell) (i j : Z) : Z :=
  match c with Raw p => p i j | Blank => 0 | Glyph c fg bg => if glyph_bit font c i j then fg else bg end.

(** The colours of an attribute: normal, bright, bold, dim and reverse. *)
Definition indexed (n base last : Z) (tab : list Z) (bright_base bright_last : Z) (bright : list Z) (old : Z) : Z :=
  if between base n last then nth (Z.to_nat (n - base)) tab 0
  else if between bright_base n bright_last then nth (Z.to_nat (n - bright_base)) bright 0 else old.
Definition recolour (p : palette) (a : vc_attr) (type : vc_attr_type) (fg bg : Z) : Z * Z :=
  let fg := match type with
    | INDEXED_COLOR =>
        if has_attr a VC_BOLD then nth (Z.to_nat (fg_indexed a - ANSI_FG_COLOR_BASE)) (bright_fg_tab p) 0
        else indexed (fg_indexed a) ANSI_FG_COLOR_BASE ANSI_FG_DEFAULT (fg_tab p) ANSI_FG_BRIGHT_COLOR_BASE ANSI_FG_BRIGHT_WHITE (bright_bg_tab p) fg
    | RGB => if rgb_ok p (fg_rgb a) then fg_rgb a else fg
    | NO_COLOR => fg
    end in
  let bg := match type with
    | INDEXED_COLOR => indexed (bg_indexed a) ANSI_BG_COLOR_BASE ANSI_BG_DEFAULT (bg_tab p) ANSI_BG_BRIGHT_COLOR_BASE ANSI_BG_BRIGHT_WHITE (bright_bg_tab p) bg
    | RGB => if rgb_ok p (bg_rgb a) then bg_rgb a else bg
    | NO_COLOR => bg
    end in
  let fg := if has_attr a VC_DIM then nth 0 (bright_fg_tab p) 0 else fg in
  if has_attr a VC_REVERSE then (bg, fg) else (fg, bg).
(** Bold is a variant of the eight normal colours and the default. *)
Definition attr_ok (e : vc_event) : Prop :=
  match e with
  | vc_driver_set_attr a type => is_u32 (fg_rgb a) ∧ is_u32 (bg_rgb a) ∧
      (type = INDEXED_COLOR → has_attr a VC_BOLD = true → ANSI_FG_COLOR_BASE <= fg_indexed a <= ANSI_FG_DEFAULT)
  | _ => True
  end.

(** The display after calls of the driver, the last one first as in [vc_out]. *)
Definition call_display (e : vc_event) (d : display) : display :=
  match e with
  | vc_putc x y c => put_cell x y (Glyph c (d_fg d) (d_bg d)) d
  | vc_blank x y => put_cell x y Blank d
  | vc_driver_set_attr a type => let '(fg, bg) := recolour palette32 a type (d_fg d) (d_bg d) in MkDisplay (cells d) fg bg
  end.
Definition run_calls (evs : list vc_event) (d : display) : display := foldr call_display d evs.

(** A mode of 32 bits for a pixel, and a font eight pixels wide. *)
Record fb_ok (w h : Z) (f : fbcon) : Prop := {
  fk_bpp : bpp f = 32; fk_width : width (fbcon_font f) = 8; fk_height : 1 <= height (fbcon_font f);
  fk_bytes : height (fbcon_font f) <= bytes_per_glpyh (fbcon_font f); fk_nr : 1 <= nr_glpyh (fbcon_font f);
  fk_data : 0 <= data (fbcon_font f) ∧ data (fbcon_font f) + nr_glpyh (fbcon_font f) * bytes_per_glpyh (fbcon_font f) <= 4294967296;
  fk_dims : fbcon_get_dimensions f = (w, h); fk_fb : 0 <= fb_width f ∧ 0 <= fb_height f ∧ 0 <= fb_virt_addr f;
  fk_pitch : 4 * fb_width f <= pitch f < 4294967296; fk_end : fb_virt_addr f + fb_height f * pitch f <= 4294967296;
  fk_fg : is_u32 (fbcon_fg f); fk_bg : is_u32 (fbcon_bg f)
}.
(** The pixel of column [X] and row [Y]. *)
Definition pix (f : fbcon) (X Y : Z) : Z := fb_virt_addr f + Y * pitch f + 4 * X.
Record shows (w h : Z) (f : fbcon) (d : display) : Prop := {
  sh_pixel y x i j : 0 <= y < h → 0 <= x < w → 0 <= i < height (fbcon_font f) → 0 <= j < 8 →
    le32 (fb_mem f) (pix f (8 * x + j) (y * height (fbcon_font f) + i)) = pixel_of (fbcon_font f) (cells d y x) i j;
  sh_fg : d_fg d = fbcon_fg f; sh_bg : d_bg d = fbcon_bg f
}.

(** ** Drawing a cell *)
Definition row (m m' : Z → Z) (dst n : Z) (colour : Z → Z) : Prop :=
  (∀ j, 0 <= j < n → le32 m' (dst + 4 * j) = colour j) ∧ (∀ a, a < dst ∨ dst + 4 * n <= a → m' a = m a).
Definition rect (m m' : Z → Z) (dst p n : Z) (colour : Z → Z → Z) : Prop :=
  (∀ i j, 0 <= i < n → 0 <= j < 8 → le32 m' (dst + i * p + 4 * j) = colour i j) ∧
  (∀ a, (∀ i, 0 <= i < n → a < dst + i * p ∨ dst + i * p + 32 <= a) → m' a = m a).

Lemma row_cons m m' dst n v colour : 0 <= n → is_u32 v → row (put_le32 dst v m) m' (dst + 4) n colour →
  row m m' dst (n + 1) (λ j, if j =? 0 then v else colour (j - 1)).
Proof.
  intros Hn Hv [R1 R2]. split.
  - intros j Hj. destruct (Z.eqb_spec j 0) as [->|Hne].
    + rewrite Z.mul_0_r, Z.add_0_r, (le32_same (put_le32 dst v m)) by (intros; apply R2; lia). by apply le32_put_eq.
    + rewrite <-R1 by lia. f_equal. lia.
  - intros a Ha. rewrite R2 by lia. apply put_le32_ne. lia.
Qed.
Lemma row_ext m m' dst n c c' : (∀ j, 0 <= j < n → c j = c' j) → row m m' dst n c → row m m' dst n c'.
Proof. intros E [R1 R2]. split; [|done]. intros j Hj. by rewrite R1, E. Qed.
Lemma rect_cons m m1 m' dst p n colour c0 : 0 <= n → 32 <= p → row m m1 dst 8 c0 → rect m1 m' (dst + p) p n colour →
  rect m m' dst p (n + 1) (λ i j, if i =? 0 then c0 j else colour (i - 1) j).
Proof.
  intros Hn Hp [R1 R2] [C1 C2]. split.
  - intros i j Hi Hj. destruct (Z.eqb_spec i 0) as [->|Hne].
    + rewrite Z.mul_0_l, Z.add_0_r, <-R1 by done. apply le32_same. intros b Hb. apply C2. intros i Hi'. left. nia.
    + rewrite <-C1 by lia. f_equal. lia.
  - intros a Ha. rewrite C2. { apply R2. specialize (Ha 0 ltac:(lia)). lia. }
    intros i Hi. specialize (Ha (i + 1) ltac:(lia)). lia.
Qed.
Lemma rect_ext m m' dst p n c c' : (∀ i j, 0 <= i < n → 0 <= j < 8 → c i j = c' i j) → rect m m' dst p n c → rect m m' dst p n c'.
Proof. intros E [C1 C2]. split; [|done]. intros i j Hi Hj. by rewrite C1, E. Qed.

Lemma land_bit x k : 0 <= k → (Z.land x (2 ^ k) =? 0) = negb (Z.testbit x k).
Proof.
  intros Hk. destruct (Z.testbit x k) eqn:E; cbn [negb].
  - apply Z.eqb_neq. intros H. assert (Z.testbit (Z.land x (2 ^ k)) k = true) as E' by (by rewrite Z.land_spec, E, Z.pow2_bits_true by done).
    by rewrite H, Z.bits_0 in E'.
  - apply Z.eqb_eq, Z.bits_inj'. intros n Hn. rewrite Z.land_spec, Z.bits_0, (Z.pow2_bits_eqb k n) by done.
    destruct (Z.eqb_spec k n) as [->|]; [by rewrite E|apply andb_false_r].
Qed.
Lemma low_bits m a k : 0 <= k < 8 → Z.testbit (le32 m a) k = Z.testbit (m a) k.
Proof.
  intros Hk. rewrite <-(Z.mod_pow2_bits_low _ 8 k), <-(Z.mod_pow2_bits_low (m a) 8 k) by lia. f_equal.
  unfold le32, le16. change (2 ^ 8) with 256. replace (m a + 256 * m (a + 1) + 65536 * (m (a + 2) + 256 * m (a + 2 + 1)))
    with (m a + (m (a + 1) + 256 * (m (a + 2) + 256 * m (a + 2 + 1))) * 256) by lia. apply Z.mod_add. lia.
Qed.

Lemma put_line_ok word bg fg n : is_u32 bg → is_u32 fg → ∀ mask dst m, (n = 0%nat ∨ mask = 2 ^ (Z.of_nat n - 1)) →
  0 <= dst → dst + 4 * Z.of_nat n <= 4294967296 →
  ∃ m', put_line (PX := pixel32) n word mask bg fg dst m = (if (n =? 0)%nat then dst else u32 (dst + 4 * Z.of_nat n), m') ∧
    row m m' dst (Z.of_nat n) (λ j, if Z.testbit word (Z.of_nat n - 1 - j) then fg else bg).
Proof.
  intros Hb Hf. induction n as [|n IH]; intros mask dst m Hm H0 H1.
  { exists m. split; [done|]. split; [lia|]. intros a Ha. done. }
  destruct Hm as [|Hm]; [done|]. cbn [put_line px pixel32 put_pixel].
  replace (Z.of_nat (S n) - 1) with (Z.of_nat n) in Hm by lia.
  set (v := if Z.land word mask =? 0 then bg else fg).
  assert (v = if Z.testbit word (Z.of_nat n) then fg else bg) as Ev.
  { unfold v. rewrite Hm, land_bit by lia. by destruct (Z.testbit _ _). }
  destruct n as [|n].
  { exists (put_le32 dst v m). split; [done|]. apply (row_ext _ _ _ _ (λ j, if j =? 0 then v else 0)).
    { intros j Hj. assert (j = 0) as -> by lia. done. }
    apply (row_cons m _ dst 0 v (λ _, 0)); [done|by unfold v; destruct (_ =? _)|]. split; [lia|done]. }
  destruct (IH (Z.shiftr mask 1) (u32 (dst + 4)) (put_le32 dst v m)) as (m' & R & HR).
  { right. rewrite Hm, Z.shiftr_div_pow2 by lia. replace (Z.of_nat (S n)) with (Z.of_nat n + 1) by lia.
    rewrite Z.pow_add_r by lia. change (2 ^ 1) with 2. rewrite Z.div_mul by done. f_equal. lia. }
  { rewrite u32_id by (unfold is_u32; lia). lia. }
  { rewrite u32_id by (unfold is_u32; lia). lia. }
  rewrite u32_id in R, HR by (unfold is_u32; lia). rewrite u32_id by (unfold is_u32; lia).
  exists m'. split.
  - rewrite R. cbn [Nat.eqb]. f_equal. f_equal. lia.
  - replace (Z.of_nat (S (S n))) with (Z.of_nat (S n) + 1) by lia. eapply row_ext; [|eapply (row_cons m m' dst (Z.of_nat (S n)) v); [lia|by unfold v; destruct (_ =? _)|exact HR]].
    intros j Hj. cbv beta. destruct (Z.eqb_spec j 0) as [->|]; [by replace (Z.of_nat (S n) + 1 - 1 - 0) with (Z.of_nat (S n)) by lia|].
    by replace (Z.of_nat (S n) - 1 - (j - 1)) with (Z.of_nat (S n) + 1 - 1 - j) by lia.
Qed.
Lemma blank_line_ok n : ∀ dst m, 0 <= dst → dst + 4 * Z.of_nat n <= 4294967296 →
  ∃ m', blank_line (PX := pixel32) n dst m = (if (n =? 0)%nat then dst else u32 (dst + 4 * Z.of_nat n), m') ∧
    row m m' dst (Z.of_nat n) (λ _, 0).
Proof.
  induction n as [|n IH]; intros dst m H0 H1.
  { exists m. split; [done|]. split; [lia|]. intros a Ha. done. }
  cbn [blank_line px pixel32 put_pixel]. destruct n as [|n].
  { exists (put_le32 dst 0 m). split; [done|]. apply (row_ext _ _ _ _ (λ j, if j =? 0 then 0 else 0)); [intros j Hj; by destruct (j =? 0)|].
    apply (row_cons m _ dst 0 0 (λ _, 0)); [done|done|]. split; [lia|done]. }
  destruct (IH (u32 (dst + 4)) (put_le32 dst 0 m)) as (m' & R & HR).
  { rewrite u32_id by (unfold is_u32; lia). lia. }
  { rewrite u32_id by (unfold is_u32; lia). lia. }
  rewrite u32_id in R, HR by (unfold is_u32; lia). rewrite u32_id by (unfold is_u32; lia).
  exists m'. split.
  - rewrite R. cbn [Nat.eqb]. f_equal. f_equal. lia.
  - replace (Z.of_nat (S (S n))) with (Z.of_nat (S n) + 1) by lia. eapply row_ext; [|eapply (row_cons m m' dst (Z.of_nat (S n)) 0); [lia|done|exact HR]].
    intros j Hj. cbv beta. by destruct (_ =? 0).
Qed.

(** The address of the next line, when there is one. *)
Lemma next_line dst p : 0 <= dst → 32 <= p < 4294967296 → dst + p < 4294967296 →
  u32 (u32 (dst + 4 * Z.of_nat 8) + u32 (p - u32 (8 * 4))) = dst + p.
Proof.
  intros H0 Hp H1. rewrite (u32_id (8 * 4)) by done. change (4 * Z.of_nat 8) with 32.
  rewrite (u32_id (dst + 32)), (u32_id (p - 8 * 4)) by (unfold is_u32; lia). rewrite u32_id by (unfold is_u32; lia). lia.
Qed.
Section lines.
Context (font : bitmap_font) (p : Z) (W8 : width font = 8) (Hp : 32 <= p < 4294967296).
Lemma put_lines_ok bg fg n : is_u32 bg → is_u32 fg → ∀ data dst m, 0 <= data → data + Z.of_nat n <= 4294967296 →
  0 <= dst → (n = 0%nat ∨ dst + (Z.of_nat n - 1) * p + 32 <= 4294967296) →
  rect m (put_lines (PX := pixel32) n font data p bg fg dst m) dst p (Z.of_nat n)
    (λ i j, if Z.testbit (font_mem font (data + i)) (7 - j) then fg else bg).
Proof.
  intros Hb Hf. induction n as [|n IH]; intros data dst m Hd Hd' H0 H1.
  { split; [lia|]. intros a Ha. done. }
  destruct H1 as [|H1]; [done|]. cbn [put_lines]. rewrite W8. change (Z.to_nat 8) with 8%nat.
  destruct (put_line_ok (le32 (font_mem font) data) bg fg 8 Hb Hf (u32 (Z.shiftl 1 (8 - 1))) dst m) as (m1 & R & HR); [by right|done|lia|].
  rewrite R. cbn [Nat.eqb]. change (Z.shiftr (u32 (8 + 7)) 3) with 1. change (@px pixel32) with 4.
  replace (Z.of_nat (S n)) with (Z.of_nat n + 1) in * by lia.
  eapply rect_ext; [|apply (rect_cons m m1 _ dst p (Z.of_nat n) (λ i j, if Z.testbit (font_mem font (data + 1 + i)) (7 - j) then fg else bg) _ ltac:(lia) ltac:(lia) HR)].
  - intros i j Hi Hj. cbv beta. destruct (Z.eqb_spec i 0) as [->|].
    + rewrite low_bits by lia. rewrite Z.add_0_r. change (Z.of_nat 8 - 1) with 7. done.
    + by replace (data + 1 + (i - 1)) with (data + i) by lia.
  - destruct n as [|n]. { split; [lia|done]. }
    rewrite next_line by nia. rewrite (u32_id (data + 1)) by (unfold is_u32; lia). apply IH; [lia|lia|lia|right; lia].
Qed.
Lemma blank_lines_ok n : ∀ dst m, 0 <= dst → (n = 0%nat ∨ dst + (Z.of_nat n - 1) * p + 32 <= 4294967296) →
  rect m (blank_lines (PX := pixel32) n font p dst m) dst p (Z.of_nat n) (λ _ _, 0).
Proof.
  induction n as [|n IH]; intros dst m H0 H1.
  { split; [lia|]. intros a Ha. done. }
  destruct H1 as [|H1]; [done|]. cbn [blank_lines]. rewrite W8. change (Z.to_nat 8) with 8%nat.
  destruct (blank_line_ok 8 dst m H0 ltac:(lia)) as (m1 & R & HR).
  rewrite R. cbn [Nat.eqb]. change (@px pixel32) with 4.
  replace (Z.of_nat (S n)) with (Z.of_nat n + 1) in * by lia.
  eapply rect_ext; [|apply (rect_cons m m1 _ dst p (Z.of_nat n) (λ _ _, 0) _ ltac:(lia) ltac:(lia) HR)].
  - intros i j Hi Hj. cbv beta. by destruct (_ =? 0).
  - destruct n as [|n]. { split; [lia|done]. }
    rewrite next_line by nia. apply IH; [lia|right; lia].
Qed.
End lines.

(** ** The calls of the driver *)
Section driver.
Context (w h : Z).

(** Only the colours and the memory of the frame buffer change. *)
Record drawn (f f' : fbcon) : Prop := {
  dn_same : f' = f <| fb_mem := fb_mem f' |> <| fbcon_fg := fbcon_fg f' |> <| fbcon_bg := fbcon_bg f' |>;
  dn_out a : a < fb_virt_addr f ∨ fb_virt_addr f + fb_height f * pitch f <= a → fb_mem f' a = fb_mem f a
}.

Lemma dims f : fb_ok w h f → 0 <= w ∧ 0 <= h ∧ 32 * w <= pitch f ∧ h * height (fbcon_font f) <= fb_height f.
Proof.
  intros F. pose proof (fk_dims _ _ _ F) as E. unfold fbcon_get_dimensions in E. injection E as <- <-.
  rewrite (fk_width _ _ _ F). pose proof (fk_height _ _ _ F) as K1. pose proof (fk_fb _ _ _ F) as K2. pose proof (fk_pitch _ _ _ F) as K3.
  set (H := height (fbcon_font f)) in *. pose proof (Z.div_pos (fb_height f) H). pose proof (Z.mul_div_le (fb_height f) H). lia.
Qed.
(** Where the cell is, and that its lines are inside the frame buffer. *)
Lemma cell_addr_ok f x y : fb_ok w h f → 0 <= x < w → 0 <= y < h → let H := height (fbcon_font f) in
  cell_addr f x y = pix f (8 * x) (y * H) ∧ 0 <= pix f (8 * x) (y * H) ∧
  ∀ i, 0 <= i < H → fb_virt_addr f <= pix f (8 * x) (y * H) + i * pitch f ∧
    pix f (8 * x) (y * H) + i * pitch f + 32 <= fb_virt_addr f + fb_height f * pitch f.
Proof.
  intros F Hx Hy H. destruct (dims f F) as (D1 & D2 & D3 & D4). fold H in D4.
  pose proof (fk_height _ _ _ F) as FH. fold H in FH. pose proof (fk_fb _ _ _ F). pose proof (fk_pitch _ _ _ F). pose proof (fk_end _ _ _ F).
  assert (∀ i, 0 <= i < H → (y * H + i + 1) * pitch f <= fb_height f * pitch f) as L.
  { intros i Hi. apply Z.mul_le_mono_nonneg_r; [lia|]. assert ((y + 1) * H <= h * H) by (apply Z.mul_le_mono_nonneg_r; lia). lia. }
  assert (0 <= y * H * pitch f) as Y0 by (repeat apply Z.mul_nonneg_nonneg; lia).
  assert (∀ i, 0 <= i < H → fb_virt_addr f <= pix f (8 * x) (y * H) + i * pitch f ∧
    pix f (8 * x) (y * H) + i * pitch f + 32 <= fb_virt_addr f + fb_height f * pitch f) as I.
  { intros i Hi. specialize (L i Hi). unfold pix. assert (0 <= i * pitch f) by (apply Z.mul_nonneg_nonneg; lia). lia. }
  split; [|split; [|done]].
  - unfold cell_addr, pix. fold H. rewrite (fk_width _ _ _ F). specialize (I 0 ltac:(lia)). unfold pix in I.
    rewrite (u32_id (_ + x * 8 * 4)) by (unfold is_u32; lia). rewrite u32_id by (unfold is_u32; lia). lia.
  - specialize (I 0 ltac:(lia)). lia.
Qed.

(** Different cells have no byte in common. *)
Lemma cells_apart f x y x' y' i i' j k : fb_ok w h f → 0 <= x < w → 0 <= x' < w → (y', x') ≠ (y, x) →
  0 <= i < height (fbcon_font f) → 0 <= i' < height (fbcon_font f) → 0 <= j < 8 → 0 <= k < 4 →
  let H := height (fbcon_font f) in let a := pix f (8 * x' + j) (y' * H + i') + k in
  a < pix f (8 * x) (y * H) + i * pitch f ∨ pix f (8 * x) (y * H) + i * pitch f + 32 <= a.
Proof.
  intros F Hx Hx' Hne Hi Hi' Hj Hk H a. destruct (dims f F) as (D1 & D2 & D3 & D4). fold H in Hi, Hi'.
  unfold a, pix. set (P := pitch f) in *.
  destruct (Z.lt_trichotomy (y' * H + i') (y * H + i)) as [Hlt|[He|Hgt]].
  - left. assert ((y' * H + i' + 1) * P <= (y * H + i) * P) by (apply Z.mul_le_mono_nonneg_r; lia). lia.
  - assert (y' = y) as -> by nia. assert (x' ≠ x) by congruence. assert (i' = i) as -> by lia. lia.
  - right. assert ((y * H + i + 1) * P <= (y' * H + i') * P) by (apply Z.mul_le_mono_nonneg_r; lia). lia.
Qed.

(** The display after a rectangle of pixels is drawn over a cell. *)
Lemma shows_cell f f' d x y c : fb_ok w h f → shows w h f d → 0 <= x < w → 0 <= y < h →
  f' = f <| fb_mem := fb_mem f' |> →
  rect (fb_mem f) (fb_mem f') (pix f (8 * x) (y * height (fbcon_font f))) (pitch f) (height (fbcon_font f)) (pixel_of (fbcon_font f) c) →
  fb_ok w h f' ∧ shows w h f' (put_cell x y c d) ∧ drawn f f'.
Proof.
  intros F [S1 S2 S3] Hx Hy E [C1 C2]. destruct (cell_addr_ok f x y F Hx Hy) as (_ & _ & HI).
  split; [|split].
  - rewrite E. by destruct F.
  - split; [|by rewrite E|by rewrite E].
    intros y' x' i j. replace (fbcon_font f') with (fbcon_font f) by (by rewrite E).
    replace (pix f') with (pix f) by (by rewrite E). intros Hy' Hx' Hi Hj. cbn [cells put_cell].
    destruct (decide ((y', x') = (y, x))) as [[= -> ->]|Hne].
    + rewrite !Z.eqb_refl. cbn [andb]. rewrite <-C1 by done. f_equal. unfold pix. lia.
    + replace ((y' =? y) && (x' =? x)) with false.
      2:{ symmetry. apply andb_false_iff. destruct (Z.eqb_spec y' y) as [->|]; [right|by left]. apply Z.eqb_neq. congruence. }
      rewrite <-S1 by done. apply le32_same. intros b Hb. apply C2. intros i0 Hi0.
      pose proof (cells_apart f x y x' y' i0 i j (b - pix f (8 * x' + j) (y' * height (fbcon_font f) + i)) F Hx Hx' Hne Hi0 Hi Hj ltac:(lia)) as A.
      cbv zeta in A. lia.
  - split; [by rewrite E|]. intros a Ha. apply C2. intros i Hi. specialize (HI i Hi). lia.
Qed.

Lemma putc_ok f d x y c : fb_ok w h f → shows w h f d → 0 <= x < w → 0 <= y < h →
  ∃ f', vc_fbcon_driver (vc_putc x y c) f = Ok (tt, f') ∧ fb_ok w h f' ∧ shows w h f' (call_display (vc_putc x y c) d) ∧ drawn f f'.
Proof.
  intros F S Hx Hy. destruct (cell_addr_ok f x y F Hx Hy) as (Ea & H0 & HI). set (font := fbcon_font f) in *.
  set (g := glyph_of font c). assert (0 <= g < nr_glpyh font) as Hg.
  { unfold g, glyph_of. pose proof (fk_nr _ _ _ F). fold font in H. destruct (Z.ltb_spec c 0), (Z.leb_spec (nr_glpyh font) c); simpl; lia. }
  pose proof (fk_data _ _ _ F) as [FD1 FD2]. pose proof (fk_bytes _ _ _ F) as FB. pose proof (fk_height _ _ _ F) as FH. fold font in FD1, FD2, FB, FH.
  assert (data font + g * bytes_per_glpyh font + height font <= 4294967296 ∧ 0 <= g * bytes_per_glpyh font) as [HD1 HD2] by nia.
  pose proof (fk_pitch _ _ _ F). pose proof (fk_end _ _ _ F). destruct (dims f F) as (D1 & D2 & D3 & D4).
  assert (fbcon_putc x y c f = Ok (g, f <| fb_mem ::= fbcon_putc_32bpp font (u32 (data font + u32 (g * bytes_per_glpyh font)))
    (pitch f) (fbcon_bg f) (fbcon_fg f) (cell_addr f x y) |>)) as R.
  { unfold fbcon_putc. change ((get ≫= ?m) f) with (m f f). cbv beta zeta. by rewrite (fk_bpp _ _ _ F). }
  eexists. split; [cbn [vc_fbcon_driver]; by rewrite (bind_ok _ _ _ _ _ R)|].
  apply shows_cell; [done|done|done|done|done|]. rec_simpl. fold font. rewrite Ea. unfold fbcon_putc_32bpp.
  rewrite (u32_id (g * _)) by (unfold is_u32; lia). rewrite u32_id by (unfold is_u32; lia).
  cbn [call_display]. rewrite (sh_fg _ _ _ _ S), (sh_bg _ _ _ _ S).
  pose proof (put_lines_ok font (pitch f) (fk_width _ _ _ F) ltac:(lia) (fbcon_bg f) (fbcon_fg f) (Z.to_nat (height font)) (fk_bg _ _ _ F) (fk_fg _ _ _ F)
    (data font + g * bytes_per_glpyh font) (pix f (8 * x) (y * height font)) (fb_mem f)) as Q.
  rewrite Z2Nat.id in Q by lia. apply Q; [lia|lia|done|right]. specialize (HI (height font - 1) ltac:(lia)). lia.
Qed.
Lemma blank_ok f d x y : fb_ok w h f → shows w h f d → 0 <= x < w → 0 <= y < h →
  ∃ f', vc_fbcon_driver (vc_blank x y) f = Ok (tt, f') ∧ fb_ok w h f' ∧ shows w h f' (call_display (vc_blank x y) d) ∧ drawn f f'.
Proof.
  intros F S Hx Hy. destruct (cell_addr_ok f x y F Hx Hy) as (Ea & H0 & HI).
  pose proof (fk_height _ _ _ F) as FH. pose proof (fk_pitch _ _ _ F). pose proof (fk_end _ _ _ F). destruct (dims f F) as (D1 & D2 & D3 & D4).
  eexists. split.
  { cbn [vc_fbcon_driver]. unfold fbcon_blank. change ((get ≫= ?m) f) with (m f f). cbv beta zeta. rewrite (fk_bpp _ _ _ F). reflexivity. }
  apply shows_cell; [done|done|done|done|done|]. rec_simpl. rewrite Ea. unfold fbcon_blank_32bpp.
  pose proof (blank_lines_ok (fbcon_font f) (pitch f) (fk_width _ _ _ F) ltac:(lia) (Z.to_nat (height (fbcon_font f)))
    (pix f (8 * x) (y * height (fbcon_font f))) (fb_mem f)) as Q.
  rewrite Z2Nat.id in Q by lia. apply Q; [done|right]. specialize (HI (height (fbcon_font f) - 1) ltac:(lia)). lia.
Qed.

Lemma tab_u32 l n : Forall is_u32 l → is_u32 (nth n l 0).
Proof. intros H. revert n. induction H as [|x l Hx H IH]; intros [|n]; simpl; done. Qed.
Lemma indexed_u32 n a b t a' b' t' old : Forall is_u32 t → Forall is_u32 t' → is_u32 old → is_u32 (indexed n a b t a' b' t' old).
Proof. intros. unfold indexed. repeat case_match; [by apply tab_u32|by apply tab_u32|done]. Qed.
Lemma set_attr_ok a type f : attr_ok (vc_driver_set_attr a type) →
  set_attr_with palette32 a type f = Ok (tt, f <| fbcon_fg := fst (recolour palette32 a type (fbcon_fg f) (fbcon_bg f)) |>
    <| fbcon_bg := snd (recolour palette32 a type (fbcon_fg f) (fbcon_bg f)) |>).
Proof.
  intros (_ & _ & HB). destruct f. unfold set_attr_with, recolour, indexed, when.
  destruct type.
  - by destruct (has_attr a VC_BOLD), (has_attr a VC_DIM), (has_attr a VC_REVERSE).
  - by destruct (rgb_ok palette32 (fg_rgb a)), (rgb_ok palette32 (bg_rgb a)), (has_attr a VC_BOLD), (has_attr a VC_DIM), (has_attr a VC_REVERSE).
  - specialize (HB eq_refl). destruct (has_attr a VC_BOLD).
    + specialize (HB eq_refl). assert (between ANSI_FG_COLOR_BASE (fg_indexed a) ANSI_FG_DEFAULT = true) as ->.
      { unfold between. rewrite !(proj2 (Z.leb_le _ _)) by lia. done. }
      by destruct (between ANSI_BG_COLOR_BASE (bg_indexed a) ANSI_BG_DEFAULT), (between ANSI_BG_BRIGHT_COLOR_BASE (bg_indexed a) ANSI_BG_BRIGHT_WHITE), (has_attr a VC_DIM), (has_attr a VC_REVERSE).
    + by destruct (between ANSI_FG_COLOR_BASE (fg_indexed a) ANSI_FG_DEFAULT), (between ANSI_FG_BRIGHT_COLOR_BASE (fg_indexed a) ANSI_FG_BRIGHT_WHITE), (between ANSI_BG_COLOR_BASE (bg_indexed a) ANSI_BG_DEFAULT),
        (between ANSI_BG_BRIGHT_COLOR_BASE (bg_indexed a) ANSI_BG_BRIGHT_WHITE), (has_attr a VC_DIM), (has_attr a VC_REVERSE).
Qed.
Lemma palette32_u32 : Forall is_u32 (fg_tab palette32) ∧ Forall is_u32 (bg_tab palette32) ∧
  Forall is_u32 (bright_fg_tab palette32) ∧ Forall is_u32 (bright_bg_tab palette32).
Proof. split_and!; repeat constructor; done. Qed.
Lemma recolour_u32 a type fg bg : attr_ok (vc_driver_set_attr a type) → is_u32 fg → is_u32 bg →
  is_u32 (fst (recolour palette32 a type fg bg)) ∧ is_u32 (snd (recolour palette32 a type fg bg)).
Proof.
  intros (A1 & A2 & _) Hf Hb. destruct palette32_u32 as (P1 & P2 & P3 & P4). unfold recolour.
  set (fg1 := match type with INDEXED_COLOR => _ | RGB => _ | NO_COLOR => fg end).
  set (bg1 := match type with INDEXED_COLOR => _ | RGB => _ | NO_COLOR => bg end).
  assert (is_u32 bg1) as B1. { unfold bg1. destruct type; [done|by case_match|by apply indexed_u32]. }
  assert (is_u32 fg1) as F1. { unfold fg1. destruct type; [done|by case_match|case_match; [by apply tab_u32|by apply indexed_u32]]. }
  destruct (has_attr a VC_DIM), (has_attr a VC_REVERSE); split; try done; by apply (tab_u32 _ 0).
Qed.
Lemma attr_event_ok f d a type : fb_ok w h f → shows w h f d → attr_ok (vc_driver_set_attr a type) →
  ∃ f', vc_fbcon_driver (vc_driver_set_attr a type) f = Ok (tt, f') ∧ fb_ok w h f' ∧
    shows w h f' (call_display (vc_driver_set_attr a type) d) ∧ drawn f f'.
Proof.
  intros F [S1 S2 S3] A. destruct (recolour_u32 a type _ _ A (fk_fg _ _ _ F) (fk_bg _ _ _ F)) as [U1 U2].
  eexists. split.
  { cbn [vc_fbcon_driver]. unfold fbcon_set_attr. change ((get ≫= ?m) f) with (m f f). cbv beta. rewrite (fk_bpp _ _ _ F).
    change (32 =? 16) with false. change (32 =? 32) with true. cbn [when]. by apply set_attr_ok. }
  split; [|split].
  - by destruct F.
  - cbn [call_display]. rewrite S2, S3. destruct (recolour _ _ _ _ _) as [fg bg]. by split.
  - split; [by destruct f|done].
Qed.

Lemma drawn_trans f1 f2 f3 : drawn f1 f2 → drawn f2 f3 → drawn f1 f3.
Proof.
  intros [E1 O1] [E2 O2]. split.
  - rewrite E2, E1. done.
  - intros a Ha. rewrite O2, O1; [done|done|]. by rewrite E1.
Qed.
(** Calls inside of the screen. *)
Lemma calls_ok evs f d : Forall (in_cells w (w * h)) evs → Forall attr_ok evs → fb_ok w h f → shows w h f d →
  ∃ f', for_each (rev evs) vc_fbcon_driver f = Ok (tt, f') ∧ fb_ok w h f' ∧ shows w h f' (run_calls evs d) ∧ drawn f f'.
Proof.
  intros HI HA F S. induction HI as [|e evs He HI IH].
  { exists f. split; [done|]. split; [done|]. split; [done|]. split; [by destruct f|done]. }
  apply Forall_cons in HA as [Ae HA]. destruct (IH HA) as (f1 & R1 & F1 & S1 & D1).
  assert (∃ f', vc_fbcon_driver e f1 = Ok (tt, f') ∧ fb_ok w h f' ∧ shows w h f' (call_display e (run_calls evs d)) ∧ drawn f1 f') as (f2 & R2 & F2 & S2 & D2).
  { destruct (dims f F) as (D0 & D0' & _). destruct e as [x y|x y c|a type]; [| |by apply attr_event_ok]; destruct He as (Hx & Hy & Hs);
      (apply blank_ok || apply putc_ok); try done; nia. }
  exists f2. split; [|split; [done|split; [done|by eapply drawn_trans]]].
  cbn [rev]. rewrite (for_each_app _ _ _ _ _ R1). cbn [for_each]. by rewrite (bind_ok _ _ _ _ _ R2).
Qed.
(** The characters of the display are those of [shown]. *)
Lemma calls_chars evs d out d0 : Forall (in_cells w (w * h)) evs →
  (∀ r c, 0 <= r < h → 0 <= c < w → cell_char (cells d r c) = shown w d0 out (r * w + c)) →
  ∀ r c, 0 <= r < h → 0 <= c < w → cell_char (cells (run_calls evs d) r c) = shown w d0 (evs ++ out) (r * w + c).
Proof.
  intros HI H r c Hr Hc. induction HI as [|e evs He HI IH]; [by apply H|].
  assert (∀ x y, 0 <= x < w → ((r =? y) && (c =? x)) = bool_decide (y * w + x = r * w + c)) as E.
  { intros x y Hx. destruct (Z.eqb_spec r y) as [->|Hne], (Z.eqb_spec c x) as [->|Hne']; cbn [andb]; symmetry;
      first [apply bool_decide_eq_true_2; lia | apply bool_decide_eq_false_2; nia]. }
  destruct e as [x y|x y ch|a type]; cbn [run_calls foldr call_display app shown]; fold (run_calls evs d).
  - cbn [put_cell cells]. rewrite E by apply He. case_bool_decide as Hb; [rewrite Hb; by rewrite fn_insert_eq|by rewrite fn_insert_ne].
  - cbn [put_cell cells]. rewrite E by apply He. case_bool_decide as Hb; [rewrite Hb; by rewrite fn_insert_eq|by rewrite fn_insert_ne].
  - destruct (recolour _ _ _ _ _). exact IH.
Qed.
End driver.

(** ** Properties *)

(** C5: A text that is written to a console reaches the pixels of the frame buffer: the calls that [vc_write] makes
    end without an error, every cell of the display holds the character of the abstract screen (of Console.v) after the
    text, every pixel of a cell is the pixel of that glyph in the colours the attributes selected when it was
    drawn, and nothing outside of the frame buffer is written. The hypothesis on attributes leaves out bold
    together with a bright colour, for which the driver reads outside of its table. *)
Theorem text_reaches_pixels w h d0 fuel n q v s ts f d : (16 < fuel)%nat → 0 <= n < NR_VIRTUAL_CONSOLES →
  rep w h v s → synced d0 v → Forall (tame h) ts → holds q (tq_head q) (print ts) →
  tq_tail q = tq_head q + Z.of_nat (length (print ts)) →
  fb_ok w h f → shows w h f d →
  (∀ r c, 0 <= r < h → 0 <= c < w → cell_char (cells d r c) = shown w d0 (vc_out v) (r * w + c)) →
  ∃ v' evs, vc_write fuel n q v = Ok (Z.of_nat (length (print ts)), v') ∧ vc_out v' = evs ++ vc_out v ∧
    (∀ r c, 0 <= r < h → 0 <= c < w → cell_char (cells (run_calls evs d) r c) = u8 (s_cell (run_tokens w h ts s) r c)) ∧
    (Forall attr_ok evs → ∃ f', for_each (rev evs) vc_fbcon_driver f = Ok (tt, f') ∧ shows w h f' (run_calls evs d) ∧ drawn f f').
Proof.
  intros Hfuel Hn H Hsy Hts Hq Ht F S HD.
  destruct (vc_write_ok w h d0 fuel n q v s ts Hfuel Hn H Hsy Hts Hq Ht) as (v' & R & H' & S' & (evs & E & HE) & C').
  exists v', evs. split; [done|]. split; [done|]. split.
  - intros r c Hr Hc. rewrite (calls_chars w h evs d (vc_out v) d0 HE HD r c Hr Hc), <-E. by apply C'.
  - intros A. destruct (calls_ok w h evs f d HE A F S) as (f' & R' & _ & S2 & D). by exists f'.
Qed.

(** ** A concrete console *)
Module FbconDemo.
Import ConsoleDemo.
Definition font : bitmap_font := MkFont 16 8 16 128 4096 (λ a, a mod 256).
Definition fb : fbcon := MkFbcon 256 64 32 32 1048576 font 11119017 0 (λ _, 0).
Definition empty : display := MkDisplay (λ _ _, Blank) 11119017 0.
Lemma fb_fits : fb_ok 8 2 fb.
Proof. by split; unfold is_u32; simpl. Qed.
Lemma fb_empty : shows 8 2 fb empty.
Proof. by split. Qed.
Definition calls_of (r : outcome (Z * virtual_console)) : list vc_event := match r with Ok (_, v) => vc_out v | _ => [] end.
Definition written : list vc_event := [vc_putc 2 1 67; vc_putc 1 0 66; vc_driver_set_attr (MkAttr 0 0 0 31 49) INDEXED_COLOR].
Lemma written_all : calls_of (vc_write 17 0 (queue (print text)) v) = written ++ vc_out v.
Proof. by vm_compute. Qed.
Lemma written_ok : Forall attr_ok written.
Proof. by repeat constructor. Qed.
End FbconDemo.

(** The letter B, in red after an escape sequence. *)
Lemma text_reaches_pixels_witness : ∃ f', for_each (rev FbconDemo.written) vc_fbcon_driver FbconDemo.fb = Ok (tt, f') ∧
  ∀ i j, 0 <= i < 16 → 0 <= j < 8 → le32 (fb_mem f') (1048576 + i * 256 + 4 * (8 + j)) = if glyph_bit FbconDemo.font 66 i j then 11141120 else 0.
Proof.
  destruct (text_reaches_pixels 8 2 (λ _, 0) 17 0 (ConsoleDemo.queue (print ConsoleDemo.text)) ConsoleDemo.v ConsoleDemo.s ConsoleDemo.text
    FbconDemo.fb FbconDemo.empty) as (v' & evs & R & E & _ & Hd).
  - lia.
  - done.
  - apply ConsoleDemo.v_rep.
  - apply ConsoleDemo.v_synced.
  - apply ConsoleDemo.text_tame.
  - apply ConsoleDemo.queue_holds. by vm_compute.
  - done.
  - apply FbconDemo.fb_fits.
  - apply FbconDemo.fb_empty.
  - done.
  - assert (evs = FbconDemo.written) as ->.
    { apply (app_inv_tail (vc_out ConsoleDemo.v)). rewrite <-E, <-FbconDemo.written_all, R. reflexivity. }
    destruct (Hd FbconDemo.written_ok) as (f' & R' & [S _ _] & [D _]). exists f'. split; [exact R'|].
    rewrite D in S. intros i j Hi Hj. exact (S 0 1 i j ltac:(lia) ltac:(lia) Hi Hj).
Defined.

(** At 16 bits for a pixel the column is still multiplied by four bytes: a cell of the right half of a line
    of the display lies in the lines below. *)
Lemma cell_addr_16bpp f x y : pitch f = 2 * fb_width f → fb_width f <= 2 * (x * width (fbcon_font f)) →
  0 <= x → 0 <= y → 0 <= fb_virt_addr f → 0 <= height (fbcon_font f) → 0 <= pitch f → 0 <= width (fbcon_font f) →
  fb_virt_addr f + y * height (fbcon_font f) * pitch f + x * width (fbcon_font f) * 4 < 4294967296 →
  fb_virt_addr f + (y * height (fbcon_font f) + 1) * pitch f <= cell_addr f x y.
Proof.
  intros Hp Hx Hx0 Hy0 Hf Hh Hp0 Hw He. unfold cell_addr.
  assert (0 <= y * height (fbcon_font f) * pitch f) by (repeat apply Z.mul_nonneg_nonneg; lia).
  assert (0 <= x * width (fbcon_font f)) by (apply Z.mul_nonneg_nonneg; lia).
  rewrite (u32_id (_ + _ * 4)) by (unfold is_u32; lia). rewrite u32_id by (unfold is_u32; lia). lia.
Qed.
